(* ===== verification/_CoqProject ===== *)
-Q . S2P
Prelude.v
Ulib.v
Sys.v
Textframe.v
TextLemmas.v
TextSpec.v
TextRefine.v
TextRange.v
TextFile.v
Widgets.v
TextSession.v
TextProps.v
Draw.v
DrawProps.v
Devices.v
DeviceProps.v
Highlight.v
Pinyin.v
PinyinProps.v
GuiState.v
Gui.v
GuiDraw.v
GuiProps.v
DrawSafe.v
System.v
Log.v
LogProps.v
Bio.v
BioProps.v
Pipe.v
Grep.v
Sh.v
ShProps.v
ShRound.v
ShRun.v
ShSession.v
Fs.v
FsBlock.v
FsBmap.v
FsRw.v
FsDisk.v
FsOps.v
Inode.v
File.v
FsLog.v
FsProps.v
FsTrunc.v
FsCache.v
FsDir.v
DirProps.v
FileProps.v
Umalloc.v
UmallocLemmas.v
UmallocOps.v
UmallocProps.v
Proc.v
ProcSys.v
ProcInv.v
ProcProps.v
Vm.v
VmSpace.v
VmKernel.v
VmCopy.v
VmProps.v
Syscall.v
Console.v
ConsoleLemmas.v
ConsoleProps.v
Exec.v
ExecLemmas.v
ExecProps.v
Kernel.v
Spinlock.v
ConsoleDump.v
Mkfs.v
MkfsFile.v
MkfsInv.v
MkfsProps.v
Ide.v
Tools.v
