(* ===== verification/Prelude.v ===== *)
(** * Verification of the xv6 graphical text editor

    The repository is the xv6 kernel with a VESA graphics mode, a PS/2 mouse and
    a message queue added to it, and a user program, Gui.c, that is a text
    editor with tabs, a file list, search, syntax highlighting and a pinyin
    input method for GBK text.  This library translates the editor, the kernel
    below it, the shell and other user programs and the builder of the disk
    image from the C sources under src/src/ into functions of Rocq and proves
    what makes them correct.

    ** How the program is put together

    Interrupts of the keyboard (kbd.c) and of the mouse (mouse.c) put messages
    into a circular queue (sys_get_msg.c).  The editor (Gui.c) takes them out
    with get_msg, hands mouse messages to the widget under the pointer and keys
    to the widget that has the focus, and redraws.  An edit box keeps its text
    in a textframe (textframe.c), an array of line pointers.  Drawing goes
    through system calls (sysdraw.c) into an off-screen buffer, with the glyphs
    and bitmaps loaded by init_ascii_gbk_pinyin.c and the colours found by
    highlight.c.

    A trap (trap.c) is an interrupt or a system call (syscall.c).  Files are
    read and written through sysfile.c and file.c; below them are pipes
    (pipe.c), inodes and directories (fs.c), the write-ahead log (log.c), the
    buffer cache (bio.c) and the memory disk (memide.c) or the disk driver
    (ide.c).  mkfs.c builds the image.  Processes (proc.c, sysproc.c) have
    address spaces of pages (vm.c, kalloc.c) and are started by exec.c; spin
    locks (spinlock.c) keep processors apart.  console.c and uart.c are the text
    console.  User programs use the library ulib.c, printf.c and umalloc.c; the
    shell is sh.c.

    ** Conventions

    - A C function is a function into [result]: a value, or a [fault] where the
      C program has undefined behaviour or panics (an access outside a block or
      an array, a null pointer, a cell never written, a division by zero, panic).
      "Never faults"
      is therefore a statement about memory safety.
    - Integers are [Z].  Where a width matters the conversion is written ([u32],
      [s8], ...); the coordinates of the widgets are ints that wrap at 32 bits,
      and the theorems on drawing bound the text, the scale and the areas, so that
      they do not.  Bytes are in [0 .. 255], as unsigned char has them.
    - Memory blocks are lists of cells, checked on each access; [malloc] is
      taken to succeed outside Umalloc.v.  Objects the code shares are kept in a
      heap (GuiState.v) and reached by index.  Physical memory and the address
      spaces of processes are functions from addresses to bytes (Vm.v).
    - [for] loops are [for_up], [for_down], [for_brk] of this file, with the
      bounds of the code, so they need no fuel.  Fuel bounds the other loops:
      the calls of the shell's parser (four levels of its grammar for each byte
      of the line) and the lines of its input (one more than it has bytes); the
      loops over the entries of a directory and over the elements of a path (one
      more than there can be); those of [readi], [writei] and [filewrite] (each
      round moves a byte); those of the editor and of cat and wc that read a
      file or a directory until its end, one unit a read (the theorems ask for
      one more unit than the file has bytes); the row loop of [textframe_delete]
      and the comparison in [Search], given the number of rows and the length of
      the pattern plus one; the walks along the ring of the buffer cache (eleven
      rounds, and the ring has ten buffers), along the free list of malloc and
      along the queue of the disk (one more than there are elements); the scans
      of a row in [draw_cols] and [hl_advance] (the length of the row; each
      round consumes a byte).  The theorems prove that the fuel suffices.
    - A function that sleeps returns that it does (pipe.c, bio.c, console.c), is
      [Blocked] (fs.c, file.c), or is split there (proc.c, ide.c); the code
      between two sleeps holds the lock of its object and is one step.  Where
      steps interleave (System.v, Pipe.v, ProcSys.v, Spinlock.v, ShRun.v) the
      state moves by a step relation or by any sequence of events.
    - What a part needs of another one, or of hardware, is a class with its
      laws, which the other part or a small example discharges: [Sys] (the file
      system calls, with laws that hold within the limits of the kernel: a free
      descriptor, room on the disk, the largest file, and paths that lead to
      different files; [Ram]), [BlockDev] (a block device with transactions; the
      log of FsLog.v and the image of MkfsFile.v), [ProcEnv] (memory and files;
      Kernel.v), [Drive] (the disk; [Ata]), [TrapEnv] (the handlers).
    - MkfsFile.v uses functional extensionality; nothing else is assumed.

    ** Files

    - Prelude.v (this file): integers, results, arrays, loops, tactics
      ([zsimp], [list_len], [llia], [rinv]) and the hint database [cmodel].
    - Ulib.v: ulib.c and string.c.  Sys.v: the file system calls as a class.
    - Textframe.v: all of textframe.c.  TextLemmas.v: array loops as equations
      on lists, and the representation [frame].  TextSpec.v: the abstract editor
      [doc] and its operations.  TextRefine.v, TextRange.v, TextFile.v: each
      operation of textframe.c refines its counterpart; lines of whole GBK
      characters, files, search.  Widgets.v: areas, TextEdit and LineEdit of
      Gui.c.  TextSession.v: their key handlers against the abstract editor.
      TextProps.v: the properties of texts and edit boxes.
    - Draw.v: sysdraw.c.  DrawProps.v: what each primitive does to each pixel.
    - Devices.v: sys_get_msg.c (module [Msg]), kbd.c with the tables of kbd.h
      ([Kbd]), mouse.c ([Mouse]).  DeviceProps.v: their properties.
    - Highlight.v: highlight.c and its properties.  Pinyin.v: the dictionary and
      the fonts of init_ascii_gbk_pinyin.c.  PinyinProps.v: their properties.
    - GuiState.v: the records of Gui.h, the heap and the monad of the handlers.
      Gui.v: constructors and handlers of Gui.c.  GuiDraw.v: its draw functions.
      GuiProps.v, DrawSafe.v: their properties.  System.v: main of Gui.c as a
      transition system whose steps interleave with the interrupts, and typing,
      end to end.
    - Log.v, LogProps.v: log.c.  Bio.v, BioProps.v: bio.c, buf.h and memide.c.
      Pipe.v: pipe.c.  Ide.v: ide.c.
    - Fs.v: the lower half of fs.c, blocks and inodes, over the class
      [BlockDev].  Inode.v: its upper half, the inode cache, directories and
      paths.  File.v: file.c and sysfile.c.  FsBlock.v: words in blocks, the
      laws of a block device and the bitmap.  FsBmap.v, FsRw.v: the blocks of a
      file and the loops over them.  FsDisk.v: inodes on the disk and the
      invariant [fs_ok].  FsOps.v: [readi] and [writei].  FsTrunc.v: freeing.
      FsLog.v: the log of Log.v keeps the laws, and a small disk for the
      examples.  FsCache.v: the inode cache.  FsDir.v: directories and [ialloc].
      FsProps.v, DirProps.v, FileProps.v: the properties.
    - Mkfs.v: mkfs.c.  MkfsFile.v, MkfsInv.v: the image as a disk and the
      invariant of the builder.  MkfsProps.v: the image is a file system.
    - Proc.v: proc.c and sysproc.c.  ProcSys.v, ProcInv.v: the process table as
      a transition system of interleaved processors, and its invariant.
      ProcProps.v: the properties.
    - Vm.v: kalloc.c and vm.c.  VmSpace.v, VmKernel.v, VmCopy.v: free pages,
      page tables and address spaces.  VmProps.v: the properties.
    - Syscall.v: syscall.c, sysproc.c, trap.c (module [Trap]) and the system
      calls of sysdraw.c ([SysDraw]).  Exec.v,
      ExecLemmas.v, ExecProps.v: exec.c and [sys_exec].  Kernel.v: proc.c on
      top of Vm.v, File.v and Inode.v, and its properties.
    - Spinlock.v: spinlock.c.  Console.v, ConsoleLemmas.v, ConsoleProps.v:
      console.c, uart.c and printf.c.  ConsoleDump.v: [procdump], [panic] and
      [getcallerpcs].
    - Umalloc.v, UmallocLemmas.v, UmallocOps.v, UmallocProps.v: umalloc.c.
    - Grep.v: grep.c.  Sh.v: the parser of sh.c.  ShProps.v, ShRound.v: its
      properties.  ShRun.v: the execution of commands, as programs run by a pool
      of processes.  ShSession.v: what the shell does with the lines typed.
      Tools.v: cat.c, wc.c, echo.c, rm.c, ln.c, mkdir.c, kill.c, ls.c.

    ** What the theorems show

    - Editing.  Any sequence of keys in an edit box does what the abstract
      editor does ([keyboard_session]); typing, splitting, cutting can be undone
      by deleting and pasting ([type_backspace], [enter_backspace],
      [cut_paste]); ranges are deleted, extracted and inserted exactly
      ([delete_range], [extract_range], [insert_rows]); no operation leaves the
      cursor inside a two-byte character ([adjust_on_boundary]); search finds
      the first occurrence and wraps ([Search_first], [search_selects]).
    - Files of the editor.  Loading yields the lines of the file and saving
      followed by loading is the identity, for texts no longer than the largest
      file when there is room for them ([read_parses], [save_load]).
    - The whole editor.  Keys typed while [main] runs reach the text in order,
      whatever the interleaving with interrupts that find room in the queue
      ([system_typing]), and when the interrupts pause the screen is drawn with a
      text that shows them all ([system_catches_up]).
    - Widgets.  Tabs ([close_button], [tab_cycles]), clipping and scrolling
      ([child_inside_parent], [cursor_visible]), and drawing of the whole editor
      without a fault ([draw_safe]).
    - Pixels, fonts, colours.  [drawrect_exact], [glyph_scaled],
      [dictionary_lookup], [gbk_bitmap_in_font], [highlight_safe],
      [keyword_highlighted], [comment_to_end_of_line].
    - Devices.  The queue is a FIFO ([queue_fifo]); the handlers are safe on any
      input from the device and send the messages they should
      ([mouse_interrupt], [left_button_alternates], [keystroke],
      [kbdgetc_safe]); the disk driver serves its requests in order and forgets
      none ([ide_serves_in_order], [ide_completes]).
    - Storage.  The log is atomic under crashes, also crashes during recovery
      ([crash_atomic]); the buffer cache is coherent ([cache_coherent]); a pipe
      is a FIFO under any interleaving ([pipe_fifo]).  The invariant [fs_ok] of
      the file system: every block in use belongs to one place of one file or to
      the metadata, and the bitmap says so.  A write is atomic on the logged
      disk and changes one file only ([write_atomic]), it is read back
      ([write_read]), and [filewrite] splits it into transactions that fit the
      log ([filewrite_all]).  Directories are maps from names ([link_lookup],
      [link_twice_refused]); the last reference to a file without links frees
      it, in a transaction ([last_iput_frees], [last_iput_needs_transaction]);
      the inode cache stays coherent ([inode_cache_coherent]).  mkfs builds an
      image with the invariant and the files ([mkfs_image]), unless the entries
      fill the last block of the root directory ([mkfs_root_hole]).
    - Processes.  In every reachable state the process table is sound
      ([process_table_sound]) and no wake-up of [wait] is lost
      ([wait_not_lost]); the scheduler is fair ([scheduler_fair]); spin locks
      exclude ([locks_exclude]).
    - Memory.  Through any sequence of resizings, failing ones included, writes
      by the kernel and guard pages the address spaces share no page
      ([spaces_isolated]); copying and
      freeing conserve the pages ([fork_exit_conserves]).  Objects of [malloc],
      of at most 2^31 - 16 bytes, are private ([objects_are_private],
      [malloc_contract]).
    - The kernel put together.  [kernel_fork], [kernel_sbrk], [exec_starts];
      arguments of system calls are checked ([argptr_in_bounds],
      [argstr_decides], [syscall_dispatch]); a killed process does not return
      to user space and a user program cannot make [trap] panic ([user_traps]).
    - Console.  The line discipline ([console_discipline]), printing
      ([printf_prints], [cprintf_prints], [procdump_prints],
      [decimal_roundtrip]).
    - User programs.  The shell parses every line without a fault
      ([parse_safe]) and builds the tree of its grammar ([sh_parse_print]).  Of
      well-formed lines of at most 99 bytes it starts the commands, with the
      descriptors their redirections and
      pipes give, in every interleaving and whatever fails ([sh_session]), in
      order where nothing runs in parallel ([sh_in_order]); it does not crash, and
      every run of it can be continued to the end of the input
      ([sh_completes]).  The matcher of grep decides the meaning of its patterns
      ([match_decides], [grep_selects]); [cat_copies], [wc_counts].
    - Limits.  The remaining theorems give the exact conditions under which the
      code departs from what it means to do: [queue_overflow],
      [pinyin_init_diverges], [delete_loses_tail], [extract_past_end],
      [release_reads_as_empty], [right_button_lost],
      [identifier_suffix_highlighted], [negative_column_wraps],
      [grep_stale_line], [mkfs_root_hole], [allocuvm_reports_unmapped],
      [kill_zero_dooms_next], [argptr_negative_size], [cprintf_char_stuck],
      [exec_unaligned_panics], [sys_drawrect_overruns].

    ** What is not modelled

    Assembly code (boot, traps, context switch) and vectors.pl; the set-up of
    the processor, of the interrupt controllers and of the graphics mode
    (main.c, bootmain.c, mp.c, lapic.c, ioapic.c, picirq.c, timer.c, vesamode.c,
    [seginit], [switchuvm], [tvinit], [mouseinit], [uartinit], [consoleinit]),
    which only write registers; init.c, which starts the editor and the shell
    for ever; the tests (usertests.c, stressfs.c, forktest.c).  The theorems on
    files are about one kernel path at a time: that two processes exclude each
    other is left to the locks of the inodes ([ilock] is [Blocked] on a busy
    one).  The jobs of the shell are opaque: a job may end at any time and does
    not read the shell's own input.  Ide.v has its own buffers: it is not
    composed with Bio.v, which stands on memide.c. *)
From stdpp Require Export base numbers option list.
From Stdlib Require Export ZArith Lia.
Open Scope Z_scope.

(** * Machine integers *)

(** Conversions to the fixed-width C types of the i386 ABI. *)
Definition u32 (z : Z) : Z := z mod 2 ^ 32.
Definition s32 (z : Z) : Z := (z + 2 ^ 31) mod 2 ^ 32 - 2 ^ 31.
Definition u16 (z : Z) : Z := z mod 2 ^ 16.
Definition s16 (z : Z) : Z := (z + 2 ^ 15) mod 2 ^ 16 - 2 ^ 15.
Definition u8 (z : Z) : Z := z mod 2 ^ 8.
Definition s8 (z : Z) : Z := (z + 2 ^ 7) mod 2 ^ 8 - 2 ^ 7.

(** * Results

    A C function returns a value or meets a fault: an access outside an
    allocated block, a null or uninitialised pointer, a kernel panic.  A
    sequential run that has to sleep until another process acts is [Blocked]. *)
Inductive fault : Set :=
  | OutOfBounds
  | NullDeref
  | Uninit
  | Panic
  | DivByZero
  | Blocked
  | OutOfFuel.

#[global] Instance fault_eq_dec : EqDecision fault.
Proof. solve_decision. Defined.

Inductive result (A : Type) : Type :=
  | Ok (a : A)
  | Err (e : fault).
Arguments Ok {A} _.
Arguments Err {A} _.

#[global] Instance result_eq_dec {A} `{EqDecision A} : EqDecision (result A).
Proof. solve_decision. Defined.

Definition rbind {A B} (c : result A) (k : A -> result B) : result B :=
  match c with Ok a => k a | Err e => Err e end.

Declare Scope result_scope.
Delimit Scope result_scope with res.
Notation "'let!' x ':=' c 'in' k" := (rbind c (fun x => k))
  (at level 10, x name, c at level 200, k at level 200,
   format "'[hv' 'let!'  x  ':='  c  'in'  '/' k ']'") : result_scope.
Notation "'let!' ' p ':=' c 'in' k" := (rbind c (fun x => match x with p => k end))
  (at level 10, p pattern, c at level 200, k at level 200) : result_scope.
Open Scope result_scope.

(** [ensures c Q]: the computation [c] returns, without a fault, a value
    that satisfies [Q]. *)
Definition ensures {A} (c : result A) (Q : A -> Prop) : Prop :=
  match c with Ok a => Q a | Err _ => False end.

Lemma ensures_ok {A} (a : A) (Q : A -> Prop) : Q a -> ensures (Ok a) Q.
Proof. done. Qed.

Lemma ensures_bind {A B} (c : result A) (k : A -> result B) P Q :
  ensures c P -> (forall a, P a -> ensures (k a) Q) -> ensures (rbind c k) Q.
Proof. destruct c; cbn; auto. Qed.

Lemma ensures_mono {A} (c : result A) (P Q : A -> Prop) :
  ensures c P -> (forall a, P a -> Q a) -> ensures c Q.
Proof. destruct c; cbn; auto. Qed.

Lemma ensures_inv {A} (c : result A) Q :
  ensures c Q -> exists a, c = Ok a /\ Q a.
Proof. destruct c; cbn; [eauto | done]. Qed.

Lemma ensures_eq {A} (c : result A) a : c = Ok a -> ensures c (eq a).
Proof. by intros ->. Qed.

Lemma rbind_ok {A B} (a : A) (k : A -> result B) : rbind (Ok a) k = k a.
Proof. reflexivity. Qed.

Lemma rbind_assoc {A B C} (c : result A) (f : A -> result B) (g : B -> result C) :
  rbind (rbind c f) g = rbind c (fun a => rbind (f a) g).
Proof. by destruct c. Qed.

(** * Arrays: bounds-checked reads and writes *)

Definition get {A} (l : list A) (i : Z) : result A :=
  if i <? 0 then Err OutOfBounds
  else match l !! Z.to_nat i with Some a => Ok a | None => Err OutOfBounds end.

Definition put {A} (l : list A) (i : Z) (a : A) : result (list A) :=
  if (i <? 0) || (Z.of_nat (length l) <=? i) then Err OutOfBounds
  else Ok (<[Z.to_nat i := a]> l).

Abbreviation zlen l := (Z.of_nat (length l)).

Lemma get_ok {A} (l : list A) (i : Z) (a : A) :
  0 <= i -> l !! Z.to_nat i = Some a -> get l i = Ok a.
Proof. intros Hi Ha. unfold get. destruct (Z.ltb_spec i 0); [lia|]. by rewrite Ha. Qed.

Lemma get_lt {A} (l : list A) (i : Z) :
  0 <= i < zlen l -> exists a, get l i = Ok a /\ l !! Z.to_nat i = Some a.
Proof.
  intros Hi. destruct (lookup_lt_is_Some_2 l (Z.to_nat i)) as [a Ha]; [lia|].
  exists a. split; [apply get_ok; [lia | done] | done].
Qed.

Lemma get_inv {A} (l : list A) (i : Z) (a : A) :
  get l i = Ok a -> 0 <= i < zlen l /\ l !! Z.to_nat i = Some a.
Proof.
  unfold get. destruct (Z.ltb_spec i 0); [done|].
  destruct (l !! Z.to_nat i) as [b|] eqn:E; [|done]. intros [= <-].
  apply lookup_lt_Some in E. split; [lia | done].
Qed.

Lemma get_oob {A} (l : list A) (i : Z) :
  i < 0 \/ zlen l <= i -> get l i = Err OutOfBounds.
Proof.
  intros Hi. unfold get. destruct (Z.ltb_spec i 0); [done|].
  rewrite lookup_ge_None_2; [done | lia].
Qed.

Lemma put_ok {A} (l : list A) (i : Z) (a : A) :
  0 <= i < zlen l -> put l i a = Ok (<[Z.to_nat i := a]> l).
Proof.
  intros Hi. unfold put. destruct (Z.ltb_spec i 0); [lia|].
  destruct (Z.leb_spec (zlen l) i); [lia | done].
Qed.

Lemma put_oob {A} (l : list A) (i : Z) (a : A) :
  i < 0 \/ zlen l <= i -> put l i a = Err OutOfBounds.
Proof.
  intros Hi. unfold put. destruct (Z.ltb_spec i 0); [done|].
  destruct (Z.leb_spec (zlen l) i); [done | lia].
Qed.

(** * Loops

    [for_up lo hi f s] is [for (i = lo; i < hi; ++i) s = f i s];
    [for_down hi lo f s] is [for (i = hi; i > lo; --i) s = f i s]. *)
Fixpoint up_n {S} (n : nat) (i : Z) (f : Z -> S -> result S) (s : S) : result S :=
  match n with
  | O => Ok s
  | S n' => let! s' := f i s in up_n n' (i + 1) f s'
  end.

Definition for_up {S} (lo hi : Z) (f : Z -> S -> result S) (s : S) : result S :=
  up_n (Z.to_nat (hi - lo)) lo f s.

Fixpoint down_n {S} (n : nat) (i : Z) (f : Z -> S -> result S) (s : S) : result S :=
  match n with
  | O => Ok s
  | S n' => let! s' := f i s in down_n n' (i - 1) f s'
  end.

Definition for_down {S} (hi lo : Z) (f : Z -> S -> result S) (s : S) : result S :=
  down_n (Z.to_nat (hi - lo)) hi f s.

(** A counting loop whose body may leave it with a value ([inr]). *)
Fixpoint brk_n {S R} (n : nat) (i : Z) (f : Z -> S -> result (S + R)) (s : S)
  : result (S + R) :=
  match n with
  | O => Ok (inl s)
  | S n' =>
      let! o := f i s in
      match o with
      | inl s' => brk_n n' (i + 1) f s'
      | inr r => Ok (inr r)
      end
  end.

Definition for_brk {S R} (lo hi : Z) (f : Z -> S -> result (S + R)) (s : S)
  : result (S + R) :=
  brk_n (Z.to_nat (hi - lo)) lo f s.

Lemma for_up_done {S} lo hi (f : Z -> S -> result S) s :
  hi <= lo -> for_up lo hi f s = Ok s.
Proof. intros H. unfold for_up. by replace (Z.to_nat (hi - lo)) with 0%nat by lia. Qed.

Lemma for_up_step {S} lo hi (f : Z -> S -> result S) s :
  lo < hi -> for_up lo hi f s = let! s' := f lo s in for_up (lo + 1) hi f s'.
Proof.
  intros H. unfold for_up.
  by replace (Z.to_nat (hi - lo)) with (Datatypes.S (Z.to_nat (hi - (lo + 1)))) by lia.
Qed.

Lemma for_down_done {S} hi lo (f : Z -> S -> result S) s :
  hi <= lo -> for_down hi lo f s = Ok s.
Proof. intros H. unfold for_down. by replace (Z.to_nat (hi - lo)) with 0%nat by lia. Qed.

Lemma for_down_step {S} hi lo (f : Z -> S -> result S) s :
  lo < hi -> for_down hi lo f s = let! s' := f hi s in for_down (hi - 1) lo f s'.
Proof.
  intros H. unfold for_down.
  by replace (Z.to_nat (hi - lo)) with (Datatypes.S (Z.to_nat (hi - 1 - lo))) by lia.
Qed.

Lemma for_brk_done {S R} lo hi (f : Z -> S -> result (S + R)) s :
  hi <= lo -> for_brk lo hi f s = Ok (inl s).
Proof. intros H. unfold for_brk. by replace (Z.to_nat (hi - lo)) with 0%nat by lia. Qed.

Lemma for_brk_step {S R} lo hi (f : Z -> S -> result (S + R)) s :
  lo < hi ->
  for_brk lo hi f s =
    let! o := f lo s in
    match o with inl s' => for_brk (lo + 1) hi f s' | inr r => Ok (inr r) end.
Proof.
  intros H. unfold for_brk.
  by replace (Z.to_nat (hi - lo)) with (Datatypes.S (Z.to_nat (hi - (lo + 1)))) by lia.
Qed.

(** A search whose state does not change finds the first hit. *)
Lemma for_brk_find {S R} lo hi i (f : Z -> S -> result (S + R)) s r :
  lo <= i < hi -> (forall j, lo <= j < i -> f j s = Ok (inl s)) -> f i s = Ok (inr r) -> for_brk lo hi f s = Ok (inr r).
Proof.
  intros Hi. remember (Z.to_nat (i - lo)) as n eqn:En. revert lo Hi En. induction n as [|n IH]; intros lo Hi En Hf Hr.
  - rewrite for_brk_step by lia. replace lo with i by lia. by rewrite Hr.
  - rewrite for_brk_step by lia. rewrite Hf by lia. cbn [rbind]. apply IH; [lia | lia | | done]. intros j Hj. apply Hf. lia.
Qed.

Lemma for_brk_none {S R} lo hi (f : Z -> S -> result (S + R)) s :
  (forall j, lo <= j < hi -> f j s = Ok (inl s)) -> for_brk lo hi f s = Ok (inl s).
Proof.
  remember (Z.to_nat (hi - lo)) as n eqn:En. revert lo En. induction n as [|n IH]; intros lo En Hf.
  - by rewrite for_brk_done by lia.
  - rewrite for_brk_step by lia. rewrite Hf by lia. cbn [rbind]. apply IH; [lia|]. intros j Hj. apply Hf. lia.
Qed.

(** The invariant rules: total correctness of a counting loop. *)
Lemma up_n_inv {S} (P : Z -> S -> Prop) n i f s :
  P i s ->
  (forall j s, i <= j < i + Z.of_nat n -> P j s -> ensures (f j s) (P (j + 1))) ->
  ensures (up_n n i f s) (P (i + Z.of_nat n)).
Proof.
  revert i s. induction n as [|n IH]; intros i s Hs Hf; cbn [up_n].
  - cbn. by replace (i + Z.of_nat 0) with i by lia.
  - eapply ensures_bind; [apply Hf; [lia | done]|]. intros s' Hs'.
    replace (i + Z.of_nat (Datatypes.S n)) with (i + 1 + Z.of_nat n) by lia.
    apply IH; [done|]. intros j s'' Hj. apply Hf. lia.
Qed.

Lemma for_up_inv {S} (P : Z -> S -> Prop) lo hi f s :
  lo <= hi -> P lo s ->
  (forall i s, lo <= i < hi -> P i s -> ensures (f i s) (P (i + 1))) ->
  ensures (for_up lo hi f s) (P hi).
Proof.
  intros Hle Hs Hf. unfold for_up.
  replace hi with (lo + Z.of_nat (Z.to_nat (hi - lo))) at 2 by lia.
  apply up_n_inv; [done|]. intros. apply Hf; [lia | done].
Qed.

Lemma for_up_ex {S} (P : Z -> S -> Prop) lo hi f s :
  lo <= hi -> P lo s ->
  (forall i s, lo <= i < hi -> P i s -> exists s', f i s = Ok s' /\ P (i + 1) s') ->
  exists s', for_up lo hi f s = Ok s' /\ P hi s'.
Proof.
  intros Hle Hs Hf. apply ensures_inv. apply for_up_inv; [done | done|].
  intros i s1 Hi H1. destruct (Hf i s1 Hi H1) as (s2 & -> & H2). done.
Qed.

Lemma down_n_inv {S} (P : Z -> S -> Prop) n i f s :
  P i s ->
  (forall j s, i - Z.of_nat n < j <= i -> P j s -> ensures (f j s) (P (j - 1))) ->
  ensures (down_n n i f s) (P (i - Z.of_nat n)).
Proof.
  revert i s. induction n as [|n IH]; intros i s Hs Hf; cbn [down_n].
  - cbn. by replace (i - Z.of_nat 0) with i by lia.
  - eapply ensures_bind; [apply Hf; [lia | done]|]. intros s' Hs'.
    replace (i - Z.of_nat (Datatypes.S n)) with (i - 1 - Z.of_nat n) by lia.
    apply IH; [done|]. intros j s'' Hj. apply Hf. lia.
Qed.

Lemma for_down_inv {S} (P : Z -> S -> Prop) hi lo f s :
  lo <= hi -> P hi s ->
  (forall i s, lo < i <= hi -> P i s -> ensures (f i s) (P (i - 1))) ->
  ensures (for_down hi lo f s) (P lo).
Proof.
  intros Hle Hs Hf. unfold for_down.
  replace lo with (hi - Z.of_nat (Z.to_nat (hi - lo))) at 2 by lia.
  apply down_n_inv; [done|]. intros. apply Hf; [lia | done].
Qed.

(** * Lists indexed by [Z] *)

Lemma zlen_insert {A} (l : list A) i x : zlen (<[i := x]> l) = zlen l.
Proof. by rewrite length_insert. Qed.

Lemma lookup_app_zl {A} (l1 l2 : list A) (i : Z) :
  0 <= i < zlen l1 -> (l1 ++ l2) !! Z.to_nat i = l1 !! Z.to_nat i.
Proof. intros H. apply lookup_app_l. lia. Qed.

Lemma insert_middle {A} (l1 l2 : list A) (x y : A) (i : Z) :
  i = zlen l1 -> <[Z.to_nat i := y]> (l1 ++ x :: l2) = l1 ++ y :: l2.
Proof.
  intros ->. rewrite Nat2Z.id, insert_app_r_alt by lia.
  by rewrite Nat.sub_diag.
Qed.

Lemma lookup_middle {A} (l1 l2 : list A) (x : A) (i : Z) :
  i = zlen l1 -> (l1 ++ x :: l2) !! Z.to_nat i = Some x.
Proof. intros ->. rewrite Nat2Z.id. by rewrite list_lookup_middle. Qed.

Lemma get_middle {A} (l1 l2 : list A) (x : A) (i : Z) :
  i = zlen l1 -> get (l1 ++ x :: l2) i = Ok x.
Proof. intros Hi. apply get_ok; [lia|]. by apply lookup_middle. Qed.

Lemma put_middle {A} (l1 l2 : list A) (x y : A) (i : Z) :
  i = zlen l1 -> put (l1 ++ x :: l2) i y = Ok (l1 ++ y :: l2).
Proof.
  intros Hi. rewrite put_ok by (rewrite length_app; cbn; lia). by rewrite insert_middle.
Qed.

(** A list of known length splits around any valid index. *)
Lemma split_at {A} (l : list A) (i : Z) :
  0 <= i < zlen l -> exists l1 x l2, l = l1 ++ x :: l2 /\ i = zlen l1.
Proof.
  intros Hi. destruct (lookup_lt_is_Some_2 l (Z.to_nat i)) as [x Hx]; [lia|].
  exists (take (Z.to_nat i) l), x, (drop (S (Z.to_nat i)) l). split.
  - by rewrite take_drop_middle.
  - rewrite length_take. lia.
Qed.

Lemma take_app_len {A} (l k : list A) (n : Z) :
  n = zlen l -> take (Z.to_nat n) (l ++ k) = l.
Proof. intros ->. rewrite Nat2Z.id. apply take_app_length. Qed.

Lemma drop_app_len {A} (l k : list A) (n : Z) :
  n = zlen l -> drop (Z.to_nat n) (l ++ k) = k.
Proof. intros ->. rewrite Nat2Z.id. apply drop_app_length. Qed.

(** * Automation *)

(** Case analysis on the integer tests of the code. *)
Ltac ztest :=
  match goal with
  | |- context [Z.ltb ?a ?b] => destruct (Z.ltb_spec a b)
  | |- context [Z.leb ?a ?b] => destruct (Z.leb_spec a b)
  | |- context [Z.eqb ?a ?b] => destruct (Z.eqb_spec a b)
  end; try (exfalso; lia); cbn [andb orb negb].

Ltac ztests := repeat ztest.

Ltac ztest_in H :=
  match type of H with
  | context [Z.ltb ?a ?b] => destruct (Z.ltb_spec a b)
  | context [Z.leb ?a ?b] => destruct (Z.leb_spec a b)
  | context [Z.eqb ?a ?b] => destruct (Z.eqb_spec a b)
  end; try (exfalso; lia); cbn [andb orb negb] in H.

(** Decide one named test of the goal by linear arithmetic. *)
Ltac zsimp :=
  repeat match goal with
  | |- context [Z.ltb ?a ?b] =>
      first [ replace (Z.ltb a b) with true by (symmetry; apply Z.ltb_lt; lia)
            | replace (Z.ltb a b) with false by (symmetry; apply Z.ltb_ge; lia) ]
  | |- context [Z.leb ?a ?b] =>
      first [ replace (Z.leb a b) with true by (symmetry; apply Z.leb_le; lia)
            | replace (Z.leb a b) with false by (symmetry; apply Z.leb_gt; lia) ]
  | |- context [Z.eqb ?a ?b] =>
      first [ replace (Z.eqb a b) with true by (symmetry; apply Z.eqb_eq; lia)
            | replace (Z.eqb a b) with false by (symmetry; apply Z.eqb_neq; lia) ]
  end; cbn [andb orb negb].

(** Inversion of a successful bind. *)
Ltac rinv H :=
  match type of H with
  | rbind ?c _ = Ok _ =>
      let E := fresh "E" in destruct c eqn:E; cbn [rbind] in H; [| discriminate H]
  end.

Ltac list_len :=
  repeat (rewrite ?length_app, ?length_insert, ?length_take, ?length_drop,
            ?length_replicate, ?length_fmap, ?length_map, ?length_reverse in *;
          cbn [length] in *).

Ltac llia := list_len; lia.

Create HintDb cmodel.
Create Rewrite HintDb cmodel.
#[export] Hint Resolve ensures_ok : cmodel.
#[export] Hint Rewrite @zlen_insert @length_app @length_insert @length_take
  @length_drop @length_replicate : cmodel.

(** Range facts of the conversions. *)
Lemma u32_range z : 0 <= u32 z < 2 ^ 32.
Proof. apply Z.mod_pos_bound. lia. Qed.

Lemma s32_range z : - 2 ^ 31 <= s32 z < 2 ^ 31.
Proof. unfold s32. pose proof (Z.mod_pos_bound (z + 2 ^ 31) (2 ^ 32)). lia. Qed.

Lemma u8_range z : 0 <= u8 z < 256.
Proof. unfold u8. change (2 ^ 8) with 256. apply Z.mod_pos_bound. lia. Qed.

Lemma u32_small z : 0 <= z < 2 ^ 32 -> u32 z = z.
Proof. apply Z.mod_small. Qed.

Lemma u8_small z : 0 <= z < 256 -> u8 z = z.
Proof. apply Z.mod_small. Qed.

Lemma s32_small z : - 2 ^ 31 <= z < 2 ^ 31 -> s32 z = z.
Proof. intros H. unfold s32. rewrite Z.mod_small by lia. lia. Qed.

Lemma u32_neg z : - 2 ^ 32 <= z < 0 -> u32 z = z + 2 ^ 32.
Proof.
  intros H. unfold u32. symmetry.
  apply Z.mod_unique with (q := -1); lia.
Qed.
