(* ===== verification/Ulib.v ===== *)
(** C strings and memory blocks: src/src/ulib.c (user side) and
    src/src/string.c (kernel side).

    A block of memory is the list of its byte cells, [0..255]; a cell that
    was never written holds [undef].  A [char *] that is only read is the
    list of the cells from the pointer to the end of its block, so that a
    read past the block is an [OutOfBounds] fault. *)
From S2P Require Import Prelude.

Abbreviation bytes := (list Z).

(** The content of a cell returned by malloc and not yet written. *)
Definition undef : Z := -1.

Definition malloc (n : Z) : bytes := replicate (Z.to_nat n) undef.

(** [uint strlen(char *s)] *)
Fixpoint strlen_loop (n : Z) (s : bytes) : result Z :=
  match s with
  | [] => Err OutOfBounds
  | c :: s' =>
      if c =? undef then Err Uninit
      else if c =? 0 then Ok n
      else strlen_loop (n + 1) s'
  end.

Definition strlen (s : bytes) : result Z := strlen_loop 0 s.

(** [char *strcpy(char *s, char *t)]: [s] is the offset [d] of block [dst]. *)
Fixpoint strcpy (dst : bytes) (d : Z) (t : bytes) : result bytes :=
  match t with
  | [] => Err OutOfBounds
  | c :: t' =>
      let! dst' := put dst d c in
      if c =? 0 then Ok dst' else strcpy dst' (d + 1) t'
  end.

(** [int strcmp(const char *p, const char *q)] *)
Fixpoint strcmp (p q : bytes) : result Z :=
  match p, q with
  | a :: p', b :: q' =>
      if negb (a =? 0) && (a =? b) then strcmp p' q' else Ok (u8 a - u8 b)
  | _, _ => Err OutOfBounds
  end.

(** [char *strchr(const char *s, char c)]: the offset found. *)
Fixpoint strchr_loop (n : Z) (s : bytes) (c : Z) : result (option Z) :=
  match s with
  | [] => Err OutOfBounds
  | a :: s' =>
      if a =? 0 then Ok None
      else if a =? c then Ok (Some n)
      else strchr_loop (n + 1) s' c
  end.

Definition strchr (s : bytes) (c : Z) : result (option Z) := strchr_loop 0 s c.

(** [int atoi(const char *s)] *)
Fixpoint atoi_loop (n : Z) (s : bytes) : result Z :=
  match s with
  | [] => Err OutOfBounds
  | c :: s' =>
      if (48 <=? c) && (c <=? 57) then atoi_loop (s32 (n * 10 + c - 48)) s' else Ok n
  end.

Definition atoi (s : bytes) : result Z := atoi_loop 0 s.

(** [void *memset(void *dst, int c, uint n)] at offset [d] of a block. *)
Definition memset (dst : bytes) (d c n : Z) : result bytes :=
  for_up 0 n (fun i m => put m (d + i) (u8 c)) dst.

(** [void *memmove(void *vdst, void *vsrc, int n)] of ulib.c between two
    blocks: a forward copy. *)
Definition memmove (dst : bytes) (d : Z) (src : bytes) (s n : Z) : result bytes :=
  for_up 0 n (fun i m => let! c := get src (s + i) in put m (d + i) c) dst.

(** The same function when both pointers lie in one block [m]. *)
Definition umemmove (m : bytes) (d s n : Z) : result bytes :=
  for_up 0 n (fun i m => let! c := get m (s + i) in put m (d + i) c) m.

Module Kstring.

(** [memmove] of string.c: backward when the blocks overlap with [s < d]. *)
Definition kmemmove (m : bytes) (d s n : Z) : result bytes :=
  if (s <? d) && (d <? s + n)
  then for_down n 0 (fun i m => let! c := get m (s + i - 1) in put m (d + i - 1) c) m
  else for_up 0 n (fun i m => let! c := get m (s + i) in put m (d + i) c) m.

(** [int memcmp(const void *v1, const void *v2, uint n)] *)
Fixpoint memcmp_loop (n : nat) (s1 s2 : bytes) : result Z :=
  match n with
  | O => Ok 0
  | S n' =>
      match s1, s2 with
      | a :: s1', b :: s2' => if a =? b then memcmp_loop n' s1' s2' else Ok (a - b)
      | _, _ => Err OutOfBounds
      end
  end.

Definition memcmp (v1 v2 : bytes) (n : Z) : result Z := memcmp_loop (Z.to_nat n) v1 v2.

(** [int strncmp(const char *p, const char *q, uint n)] *)
Fixpoint strncmp_loop (n : nat) (p q : bytes) : result Z :=
  match n with
  | O => Ok 0
  | S n' =>
      match p, q with
      | a :: p', b :: q' =>
          if negb (a =? 0) && (a =? b) then strncmp_loop n' p' q' else Ok (u8 a - u8 b)
      | _, _ => Err OutOfBounds
      end
  end.

Definition strncmp (p q : bytes) (n : Z) : result Z := strncmp_loop (Z.to_nat n) p q.

(** The second loop of [strncpy]: [while (n-- > 0) *s++ = 0]. *)
Fixpoint zero_fill (s : bytes) (d : Z) (n : nat) : result bytes :=
  match n with
  | O => Ok s
  | S n' => let! s' := put s d 0 in zero_fill s' (d + 1) n'
  end.

(** [char *strncpy(char *s, const char *t, int n)] *)
Fixpoint strncpy_loop (s : bytes) (d : Z) (t : bytes) (n : nat) : result bytes :=
  match n with
  | O => Ok s
  | S n' =>
      match t with
      | [] => Err OutOfBounds
      | c :: t' =>
          let! s' := put s d c in
          if c =? 0 then zero_fill s' (d + 1) n' else strncpy_loop s' (d + 1) t' n'
      end
  end.

Definition strncpy (s : bytes) (d : Z) (t : bytes) (n : Z) : result bytes :=
  strncpy_loop s d t (Z.to_nat n).

(** [char *safestrcpy(char *s, const char *t, int n)]: at most [n - 1]
    bytes are copied, and a NUL always follows them. *)
Fixpoint safestrcpy_loop (s : bytes) (d : Z) (t : bytes) (n : nat) : result bytes :=
  match n with
  | O => put s d 0
  | S n' =>
      match t with
      | [] => Err OutOfBounds
      | c :: t' =>
          let! s' := put s d c in
          if c =? 0 then put s' (d + 1) 0 else safestrcpy_loop s' (d + 1) t' n'
      end
  end.

Definition safestrcpy (s : bytes) (d : Z) (t : bytes) (n : Z) : result bytes :=
  if n <=? 0 then Ok s else safestrcpy_loop s d t (Z.to_nat (n - 1)).

End Kstring.

(** * Strings held in a block *)

(** A character of a C string: a byte other than NUL. *)
Definition is_char (c : Z) : Prop := 1 <= c <= 255.

(** Block [b] starts with the NUL-terminated string [s]. *)
Definition is_str (b s : bytes) : Prop :=
  Forall is_char s /\ exists rest, b = s ++ 0 :: rest.

Lemma is_str_intro s rest : Forall is_char s -> is_str (s ++ 0 :: rest) s.
Proof. split; eauto. Qed.

Lemma is_str_len b s : is_str b s -> zlen s < zlen b.
Proof. intros [_ [rest ->]]. llia. Qed.

Lemma is_str_lookup b s i :
  is_str b s -> (i < length s)%nat -> b !! i = s !! i.
Proof. intros [_ [rest ->]] Hi. by rewrite lookup_app_l. Qed.

Lemma is_str_get b s i :
  is_str b s -> 0 <= i < zlen s ->
  exists c, get b i = Ok c /\ s !! Z.to_nat i = Some c /\ is_char c.
Proof.
  intros Hs Hi. destruct (lookup_lt_is_Some_2 s (Z.to_nat i)) as [c Hc]; [lia|].
  exists c. split; [|split; [done|]].
  - apply get_ok; [lia|]. rewrite (is_str_lookup b s) by (done || lia). done.
  - destruct Hs as [Hf _]. rewrite Forall_lookup in Hf. eauto.
Qed.

Lemma strlen_loop_app s rest n :
  Forall is_char s -> strlen_loop n (s ++ 0 :: rest) = Ok (n + zlen s).
Proof.
  revert n. induction s as [|c s IH]; intros n Hs; cbn [app strlen_loop length].
  - cbn. f_equal. lia.
  - inversion Hs as [|? ? Hc Hs']; subst. unfold is_char in Hc. unfold undef. zsimp.
    rewrite IH by done. f_equal. lia.
Qed.

Lemma strlen_str b s : is_str b s -> strlen b = Ok (zlen s).
Proof. intros [Hs [rest ->]]. unfold strlen. rewrite strlen_loop_app by done. done. Qed.

(** A block determines the string it holds. *)
Lemma is_str_inj b s1 s2 : is_str b s1 -> is_str b s2 -> s1 = s2.
Proof.
  intros [H1 [r1 ->]] [H2 [r2 E]]. revert s2 E H2.
  induction H1 as [|c s1 Hc H1 IH]; intros [|c2 s2] E H2; cbn in E.
  - done.
  - injection E as <- E. inversion H2; subst. unfold is_char in *. lia.
  - injection E as -> E. unfold is_char in *. lia.
  - injection E as <- E. inversion H2; subst. f_equal. eapply IH; eauto.
Qed.

(** [strcpy] writes the string and its NUL over the cells from [d] on. *)
Lemma strcpy_app l1 old l2 t rest :
  Forall is_char t -> length old = S (length t) ->
  strcpy (l1 ++ old ++ l2) (zlen l1) (t ++ 0 :: rest) = Ok (l1 ++ t ++ 0 :: l2).
Proof.
  revert l1 old. induction t as [|c t IH]; intros l1 old Ht Hold.
  - destruct old as [|o []]; try discriminate Hold. cbn [app strcpy].
    rewrite put_middle by done. done.
  - destruct old as [|o old]; [discriminate Hold|]. inversion Ht as [|? ? Hc Ht']; subst.
    cbn [app strcpy]. rewrite put_middle by done. cbn [rbind].
    unfold is_char in Hc. zsimp.
    replace (l1 ++ c :: old ++ l2) with ((l1 ++ [c]) ++ old ++ l2) by (by rewrite <- app_assoc).
    replace (zlen l1 + 1) with (zlen (l1 ++ [c])) by llia.
    rewrite IH by (done || (cbn in Hold; lia)). by rewrite <- app_assoc.
Qed.

Lemma strcmp_eq_iff s1 s2 r1 r2 :
  Forall is_char s1 -> Forall is_char s2 ->
  exists z, strcmp (s1 ++ 0 :: r1) (s2 ++ 0 :: r2) = Ok z /\ (z = 0 <-> s1 = s2).
Proof.
  intros H1. revert s2. induction H1 as [|a s1 Ha H1 IH]; intros s2 H2.
  - destruct s2 as [|b s2]; cbn.
    + exists 0. done.
    + inversion H2 as [|? ? Hb]; subst. unfold is_char in Hb.
      eexists. split; [done|]. rewrite !u8_small by lia. split; [lia | done].
  - unfold is_char in Ha. destruct s2 as [|b s2]; cbn [app strcmp].
    + zsimp. eexists. split; [done|]. rewrite !u8_small by lia. split; [lia | done].
    + inversion H2 as [|? ? Hb H2']; subst. unfold is_char in Hb.
      zsimp. destruct (Z.eqb_spec a b) as [->|Hne]; cbn [andb].
      * destruct (IH s2 H2') as (z & -> & Hz). exists z. split; [done|].
        rewrite Hz. split; [by intros -> | by intros [=]].
      * eexists. split; [done|]. rewrite !u8_small by lia. split; [lia|].
        intros [=]. contradiction.
Qed.

(** * Block copies *)

(** The cells [s, s+n) of [src]. *)
Definition slice {A} (src : list A) (s n : Z) : list A :=
  take (Z.to_nat n) (drop (Z.to_nat s) src).

Lemma slice_len {A} (src : list A) s n :
  0 <= s -> 0 <= n -> s + n <= zlen src -> zlen (slice src s n) = n.
Proof. intros. unfold slice. llia. Qed.

Lemma slice_lookup {A} (src : list A) s n i :
  0 <= s -> 0 <= i < n -> slice src s n !! Z.to_nat i = src !! Z.to_nat (s + i).
Proof.
  intros. unfold slice. rewrite lookup_take_lt by lia. rewrite lookup_drop.
  f_equal. lia.
Qed.

(** The cell [j] of block [m] after cells [s, s+n) of [src] were copied to [d]. *)
Definition copied (m src : bytes) (d s n : Z) (m' : bytes) : Prop :=
  length m' = length m /\
  forall j, 0 <= j < zlen m ->
    m' !! Z.to_nat j =
      if (d <=? j) && (j <? d + n) then src !! Z.to_nat (s + (j - d))
      else m !! Z.to_nat j.

Lemma lookup_insert_z (m : bytes) (i j : Z) x :
  0 <= i < zlen m -> 0 <= j ->
  <[Z.to_nat i := x]> m !! Z.to_nat j = if j =? i then Some x else m !! Z.to_nat j.
Proof.
  intros Hi Hj. destruct (Z.eqb_spec j i) as [->|Hne].
  - apply list_lookup_insert_eq. lia.
  - apply list_lookup_insert_ne. lia.
Qed.

Lemma memmove_copied dst d src s n :
  0 <= n -> 0 <= d -> d + n <= zlen dst -> 0 <= s -> s + n <= zlen src ->
  ensures (memmove dst d src s n) (copied dst src d s n).
Proof.
  intros Hn Hd Hdn Hs Hsn. unfold memmove.
  apply (for_up_inv (fun i m => copied dst src d s i m)); [done| |].
  - split; [done|]. intros j Hj. ztests; done.
  - intros i m Hi [Hlen Hm].
    destruct (get_lt src (s + i)) as (c & -> & Hc); [lia|]. cbn [rbind].
    rewrite put_ok by lia. split; [by rewrite length_insert|].
    intros j Hj. rewrite lookup_insert_z by lia. rewrite (Hm j Hj).
    ztests; try done; rewrite <- Hc; f_equal; lia.
Qed.

(** The kernel's [memmove] copies as if through a temporary, whatever the
    overlap of source and destination. *)
Lemma kmemmove_copied m d s n :
  0 <= n -> 0 <= d -> d + n <= zlen m -> 0 <= s -> s + n <= zlen m ->
  ensures (Kstring.kmemmove m d s n) (copied m m d s n).
Proof.
  intros Hn Hd Hdn Hs Hsn. unfold Kstring.kmemmove.
  destruct ((s <? d) && (d <? s + n)) eqn:Hov.
  - apply andb_prop in Hov as [H1%Z.ltb_lt H2%Z.ltb_lt].
    eapply ensures_mono.
    + apply (for_down_inv (fun i m' => copied m m (d + i) (s + i) (n - i) m')); [done| |].
      * split; [done|]. intros j Hj. ztests; done.
      * intros i m' Hi [Hlen Hm].
        destruct (get_lt m' (s + i - 1)) as (c & -> & Hc); [lia|]. cbn [rbind].
        rewrite put_ok by lia. split; [by rewrite length_insert|].
        intros j Hj. rewrite lookup_insert_z by lia. rewrite (Hm j Hj).
        rewrite Hm in Hc by lia. revert Hc. zsimp.
        ztests; try done; intros Hc; try rewrite <- Hc; f_equal; lia.
    + intros m' Hm. cbn beta in Hm. by rewrite !Z.add_0_r, Z.sub_0_r in Hm.
  - apply andb_false_iff in Hov as [H1%Z.ltb_ge|H1%Z.ltb_ge].
    all: apply (for_up_inv (fun i m' => copied m m d s i m')); [done| |].
    all: try (split; [done|]; intros j Hj; ztests; done).
    all: intros i m' Hi [Hlen Hm].
    all: destruct (get_lt m' (s + i)) as (c & -> & Hc); [lia|]; cbn [rbind].
    all: rewrite put_ok by lia; split; [by rewrite length_insert|].
    all: intros j Hj; rewrite lookup_insert_z by lia; rewrite (Hm j Hj).
    all: rewrite Hm in Hc by lia; revert Hc; zsimp.
    all: ztests; try done; intros Hc; try rewrite <- Hc; f_equal; lia.
Qed.
