(* ===== verification/Sys.v ===== *)
(** The system-call interface user programs are compiled against
    (src/src/user.h, src/src/fcntl.h, src/src/stat.h).

    [Sys] lists the file calls the user programs make, over an abstract state [W]
    of the kernel.  [SysLaws] states what they rely on, in terms of the content
    of named files and of the offset of each descriptor, within the limits of
    the kernel: it is the contract the file layer provides (FileProps.v for
    writes of any length, DirProps.v for entries, FsProps.v for blocks).  [Ram] is
    a file system kept in maps that provides it. *)
From stdpp Require Import gmap.
From S2P Require Import Prelude Ulib.
Open Scope Z_scope.

(** fcntl.h *)
Definition O_RDONLY : Z := 0x000.
Definition O_WRONLY : Z := 0x001.
Definition O_RDWR : Z := 0x002.
Definition O_CREATE : Z := 0x200.

(** stat.h *)
Definition T_DIR : Z := 1.
Definition T_FILE : Z := 2.
Definition T_DEV : Z := 3.

Record stat := mk_stat { st_type : Z; st_ino : Z; st_nlink : Z; st_size : Z }.

(** A path argument is the NUL-terminated string the kernel sees: the
    characters before the first NUL of the block. *)
Fixpoint cstr (b : bytes) : bytes :=
  match b with
  | [] => []
  | c :: b' => if c =? 0 then [] else c :: cstr b'
  end.

Lemma cstr_str b s : is_str b s -> cstr b = s.
Proof.
  intros [Hs [rest ->]]. induction Hs as [|c s Hc Hs IH]; cbn [app cstr].
  - done.
  - unfold is_char in Hc. zsimp. by rewrite IH.
Qed.

Class Sys (W : Type) := {
  sys_open : W -> bytes -> Z -> W * Z;
  sys_read : W -> Z -> Z -> W * (Z * bytes);
  sys_write : W -> Z -> bytes -> W * Z;
  sys_close : W -> Z -> W * Z;
  sys_unlink : W -> bytes -> W * Z;
  sys_link : W -> bytes -> bytes -> W * Z;
  sys_chdir : W -> bytes -> W * Z;
  sys_fstat : W -> Z -> W * option stat;
}.

(** The largest file: [MAXFILE * BSIZE] of src/src/fs.h. *)
Definition FILE_MAX : Z := 252 * 512.

(** What the programs rely on.  Each law is bounded the way the kernel is:
    opening needs a free descriptor, growing a file needs room for it, no file is
    larger than [FILE_MAX], a descriptor is read or written only if it was opened
    for that, and a call may change every path that leads to the file it works on. *)
Class SysLaws (W : Type) `{!Sys W} := {
  (** the content of the regular file a path names *)
  file_of : W -> bytes -> option bytes;
  (** the two paths name different entries and different files *)
  apart : W -> bytes -> bytes -> Prop;
  (** the descriptor is open, for reading or for writing, on the file the path
      names, at the offset, and shares its offset with no other descriptor *)
  rd_at : W -> Z -> bytes -> Z -> Prop;
  wr_at : W -> Z -> bytes -> Z -> Prop;
  (** a descriptor and an entry of the table of open files are free *)
  can_open : W -> Prop;
  (** the file the path names, or can be created under, can grow to [n] bytes:
      the blocks, and before it is created the descriptor, the inode and the
      directory entry, are there *)
  room : W -> bytes -> Z -> Prop;
  open_existing : forall w p c omode,
    file_of w p = Some c -> can_open w -> omode = O_RDONLY \/ omode = O_RDWR ->
    exists w' fd, sys_open w p omode = (w', fd) /\ 0 <= fd /\ rd_at w' fd p 0 /\
      (forall q, file_of w' q = file_of w q);
  open_create : forall w p n,
    file_of w p = None -> room w p n ->
    exists w' fd, sys_open w p (Z.lor O_CREATE O_WRONLY) = (w', fd) /\ 0 <= fd /\
      wr_at w' fd p 0 /\ file_of w' p = Some [] /\ room w' p n /\
      (forall q, apart w p q -> apart w' p q /\ file_of w' q = file_of w q);
  read_spec : forall w fd p off c n,
    rd_at w fd p off -> file_of w p = Some c -> 0 <= off <= zlen c -> 0 <= n ->
    exists w', sys_read w fd n = (w', (zlen (slice c off (Z.min n (zlen c - off))),
                                       slice c off (Z.min n (zlen c - off)))) /\
      rd_at w' fd p (off + Z.min n (zlen c - off)) /\
      (forall q, file_of w' q = file_of w q);
  write_append : forall w fd p c bs n,
    wr_at w fd p (zlen c) -> file_of w p = Some c -> room w p n ->
    zlen (c ++ bs) <= n -> zlen (c ++ bs) <= FILE_MAX ->
    exists w', sys_write w fd bs = (w', zlen bs) /\
      wr_at w' fd p (zlen (c ++ bs)) /\ file_of w' p = Some (c ++ bs) /\ room w' p n /\
      (forall q, apart w p q -> apart w' p q /\ file_of w' q = file_of w q);
  close_spec : forall w fd p off,
    rd_at w fd p off \/ wr_at w fd p off ->
    exists w' r, sys_close w fd = (w', r) /\ can_open w' /\ (forall q, file_of w' q = file_of w q);
  unlink_spec : forall w p,
    exists w' r, sys_unlink w p = (w', r) /\ file_of w' p = None /\
      (forall q, apart w p q -> apart w' p q /\ file_of w' q = file_of w q);
}.

(** * A file system in maps *)
Module Ram.

Record ram := mk_ram {
  files : gmap (list Z) (list Z);
  fds : gmap Z (list Z * Z);
  nextfd : nat;
}.

Definition fresh_fd (w : ram) (p : bytes) : ram :=
  mk_ram (files w) (<[Z.of_nat (nextfd w) := (p, 0)]> (fds w)) (S (nextfd w)).

Definition r_open (w : ram) (p : bytes) (omode : Z) : ram * Z :=
  match files w !! p with
  | Some _ => (fresh_fd w p, Z.of_nat (nextfd w))
  | None =>
      if Z.testbit omode 9
      then (fresh_fd (mk_ram (<[p := []]> (files w)) (fds w) (nextfd w)) p,
            Z.of_nat (nextfd w))
      else (w, -1)
  end.

Definition r_read (w : ram) (fd n : Z) : ram * (Z * bytes) :=
  match fds w !! fd with
  | Some (p, off) =>
      match files w !! p with
      | Some c =>
          let m := Z.min n (zlen c - off) in
          (mk_ram (files w) (<[fd := (p, off + m)]> (fds w)) (nextfd w),
           (zlen (slice c off m), slice c off m))
      | None => (w, (-1, []))
      end
  | None => (w, (-1, []))
  end.

(** A write that would pass the largest size fails. *)
Definition r_write (w : ram) (fd : Z) (bs : bytes) : ram * Z :=
  match fds w !! fd with
  | Some (p, off) =>
      if FILE_MAX <? off + zlen bs then (w, -1)
      else
        let c := default [] (files w !! p) in
        let c' := take (Z.to_nat off) c ++ bs ++ drop (Z.to_nat off + length bs) c in
        (mk_ram (<[p := c']> (files w)) (<[fd := (p, off + zlen bs)]> (fds w)) (nextfd w), zlen bs)
  | None => (w, -1)
  end.

Definition r_close (w : ram) (fd : Z) : ram * Z :=
  (mk_ram (files w) (delete fd (fds w)) (nextfd w), 0).

Definition r_unlink (w : ram) (p : bytes) : ram * Z :=
  (mk_ram (delete p (files w)) (fds w) (nextfd w), 0).

Definition r_link (w : ram) (old new : bytes) : ram * Z :=
  match files w !! old, files w !! new with
  | Some c, None => (mk_ram (<[new := c]> (files w)) (fds w) (nextfd w), 0)
  | _, _ => (w, -1)
  end.

Definition r_fstat (w : ram) (fd : Z) : ram * option stat :=
  (w, match fds w !! fd with
      | Some (p, _) => Some (mk_stat T_FILE 1 1 (zlen (default [] (files w !! p))))
      | None => None
      end).

#[global] Instance ram_sys : Sys ram := {|
  sys_open := r_open; sys_read := r_read; sys_write := r_write;
  sys_close := r_close; sys_unlink := r_unlink; sys_link := r_link;
  sys_chdir w _ := (w, 0); sys_fstat := r_fstat;
|}.

#[global] Instance ram_laws : SysLaws ram.
Proof.
  refine {| file_of w p := files w !! p; apart _ p q := p <> q;
            rd_at w fd p off := fds w !! fd = Some (p, off); wr_at w fd p off := fds w !! fd = Some (p, off);
            can_open _ := True; room _ _ _ := True |}.
  - intros w p c omode Hp _ _. cbn. unfold r_open. rewrite Hp. eexists _, _. split; [done|]. split; [apply Nat2Z.is_nonneg|].
    cbn. by rewrite lookup_insert_eq.
  - intros w p n Hp _. cbn. unfold r_open. rewrite Hp. cbn. eexists _, _. split; [done|]. split; [apply Nat2Z.is_nonneg|].
    cbn. rewrite !lookup_insert_eq. do 3 (split; [done|]). intros q Hq. by rewrite lookup_insert_ne.
  - intros w fd p off c n Hfd Hc Hoff Hn. cbn. unfold r_read. rewrite Hfd, Hc.
    eexists. split; [done|]. cbn. by rewrite lookup_insert_eq.
  - intros w fd p c bs n Hfd Hc _ _ Hmax. cbn. unfold r_write. rewrite Hfd, Hc. cbn.
    rewrite (proj2 (Z.ltb_ge _ _)) by (rewrite length_app in Hmax; lia).
    rewrite take_ge by lia. rewrite drop_ge by lia. rewrite app_nil_r.
    eexists. split; [done|]. cbn. rewrite !lookup_insert_eq.
    split; [f_equal; f_equal; llia|]. do 2 (split; [done|]). intros q Hq. by rewrite lookup_insert_ne.
  - intros w fd p off _. eexists _, _. split; [done|]. done.
  - intros w p. eexists _, _. split; [done|]. cbn. rewrite lookup_delete_eq.
    split; [done|]. intros q Hq. by rewrite lookup_delete_ne.
Defined.

End Ram.
