(* ===== verification/Textframe.v ===== *)
(** The text buffer of the editor: src/src/textframe.c and textframe.h.

    [struct textframe] keeps an array [data] of line pointers.  The model
    keeps every allocated slot of the array, so that an access outside the
    allocation is a fault: a slot is [Some b] when it points to the block [b]
    of a line and [None] when it is null or was never written.  Each line is
    owned by one frame, so a line is a value and [free] has no effect.
    [malloc] is taken to succeed. *)
From S2P Require Import Prelude Ulib Sys.

Definition ROWSIZE : Z := 1024.
Definition INT_MAX : Z := 0x7fffffff.

Record textframe := mk_textframe {
  data : list (option bytes);
  row : Z;
  col : Z;
  cursor_row : Z;
  cursor_col : Z;
  maxrow : Z;
  maxrow_capacity : Z;
}.

(** [memset(text, 0, sizeof(struct textframe))] *)
Definition zero_textframe : textframe := mk_textframe [] 0 0 0 0 0 0.

Definition set_cursor (t : textframe) (r c : Z) : textframe :=
  mk_textframe (data t) (row t) (col t) r c (maxrow t) (maxrow_capacity t).
Definition set_data (t : textframe) (d : list (option bytes)) : textframe :=
  mk_textframe d (row t) (col t) (cursor_row t) (cursor_col t) (maxrow t) (maxrow_capacity t).
Definition set_maxrow (t : textframe) (n : Z) : textframe :=
  mk_textframe (data t) (row t) (col t) (cursor_row t) (cursor_col t) n (maxrow_capacity t).
Definition set_capacity (t : textframe) (n : Z) : textframe :=
  mk_textframe (data t) (row t) (col t) (cursor_row t) (cursor_col t) (maxrow t) n.

(** The block a slot of a line array points to. *)
Definition deref (s : option bytes) : result bytes :=
  match s with Some b => Ok b | None => Err NullDeref end.

(** [d[r]], read through the array [d]. *)
Definition line_of (d : list (option bytes)) (r : Z) : result bytes :=
  let! s := get d r in deref s.

(** [text->data[r]] *)
Definition line (t : textframe) (r : Z) : result bytes := line_of (data t) r.

(** [b + k] as a pointer to read from. *)
Definition ptr_add (b : bytes) (k : Z) : result bytes :=
  if (k <? 0) || (zlen b <? k) then Err OutOfBounds else Ok (drop (Z.to_nat k) b).

(** * String helpers *)

Definition strcat (str1 str2 : bytes) (len1 len2 : Z) : result bytes :=
  let len1 := if len1 <? 0 then 0 else len1 in
  let len2 := if len2 <? 0 then 0 else len2 in
  let res := malloc (len1 + len2 + 1) in
  let! res := for_up 0 len1 (fun i res => let! c := get str1 i in put res i c) res in
  let! res := for_up 0 len2 (fun i res => let! c := get str2 i in put res (len1 + i) c) res in
  strcpy res (len1 + len2) [0].

Definition substr (src : bytes) (start_index len : Z) : result bytes :=
  if start_index <? 0 then Ok src
  else
    let! n := strlen src in
    let max_len := s32 (n - start_index) in
    let len := if max_len <? len then max_len else len in
    let len := if len <? 0 then 0 else len in
    let dst := malloc (len + 1) in
    let! dst := for_up 0 len (fun i dst => let! c := get src (start_index + i) in put dst i c) dst in
    strcpy dst len [0].

Definition data_assign (src : bytes) (index len : Z) (tmp : bytes) (tmplen tmpflag : Z)
  : result bytes :=
  if negb (tmpflag =? 0)
  then let! s := substr src index len in strcat tmp s tmplen len
  else substr src index len.

(** * Positions and GBK characters *)

(** The loop [for (i = c; i >= 0; --i) if (curline[i] < 160) break], entered
    with [i = n - 1]; the value of [i] when the loop is left. *)
Fixpoint han_scan (curline : bytes) (n : nat) : result Z :=
  match n with
  | O => Ok (-1)
  | S i =>
      let! ch := get curline (Z.of_nat i) in
      if ch <? 160 then Ok (Z.of_nat i) else han_scan curline i
  end.

(** [textframe_adjust_r_c]: the new values of [*r] and [*c]. *)
Definition textframe_adjust_r_c (text : textframe) (r c pos dir : Z) : result (Z * Z) :=
  let r := if maxrow text <=? r then maxrow text - 1 else r in
  let r := if r <? 0 then maxrow text + 1 else r in
  if (0 <=? r) && (r <? maxrow text) then
    let! curline := line text r in
    let! len := strlen curline in
    let c := if len <? c then len else c in
    let c := if c <? 0 then 0 else c in
    if (0 <=? c) && (c <? len) then
      let! ch := get curline c in
      if 160 <=? ch then
        let! i := han_scan curline (Z.to_nat (c + 1)) in
        let count := c - i in
        let c := if (pos =? 0) && (Z.rem count 2 =? 0) then c + dir else c in
        let c := if (pos =? 1) && (Z.rem count 2 =? 1) then c + dir else c in
        Ok (r, c)
      else Ok (r, c)
    else Ok (r, c)
  else Ok (r, c).

(** [textframe_adjust_r_c(text, &text->cursor_row, &text->cursor_col, 0, dir)] *)
Definition adjust_cursor (text : textframe) (dir : Z) : result textframe :=
  let! '(r, c) := textframe_adjust_r_c text (cursor_row text) (cursor_col text) 0 dir in
  Ok (set_cursor text r c).

(** * Moving the cursor *)

Definition move_to_pos (text : textframe) (r c : Z) : result textframe :=
  let r := if r =? -1 then INT_MAX else r in
  let c := if c =? -1 then INT_MAX else c in
  let r := if maxrow text <=? r then maxrow text - 1 else r in
  let! c :=
    if 0 <=? r then
      let! b := line text r in
      let! n := strlen b in
      Ok (if n <? u32 c then n else c)
    else Ok c in
  adjust_cursor (set_cursor text r c) 1.

Definition move_to_end (text : textframe) : result textframe :=
  move_to_pos text INT_MAX INT_MAX.

Definition move_to_next_char (text : textframe) : result textframe :=
  let! b := line text (cursor_row text) in
  let! len := strlen b in
  let text :=
    if cursor_col text <? len then set_cursor text (cursor_row text) (cursor_col text + 1)
    else if cursor_row text + 1 <? maxrow text then set_cursor text (cursor_row text + 1) 0
    else text in
  adjust_cursor text 1.

Definition move_to_previous_char (text : textframe) : result textframe :=
  let! text :=
    if 0 <? cursor_col text
    then Ok (set_cursor text (cursor_row text) (cursor_col text - 1))
    else if 0 <? cursor_row text then
      let! b := line text (cursor_row text - 1) in
      let! n := strlen b in
      Ok (set_cursor text (cursor_row text - 1) n)
    else Ok text in
  adjust_cursor text (-1).

Definition move_to_next_line (text : textframe) : result textframe :=
  let text :=
    if cursor_row text + 1 <? maxrow text
    then set_cursor text (cursor_row text + 1) (cursor_col text) else text in
  adjust_cursor text 1.

Definition move_to_last_line (text : textframe) : result textframe :=
  let text :=
    if 0 <? cursor_row text
    then set_cursor text (cursor_row text - 1) (cursor_col text) else text in
  adjust_cursor text 1.

(** * Editing *)

Definition putc_to_str (text : textframe) (ch : Z) : result textframe :=
  let! s := line text (cursor_row text) in
  let! len := strlen s in
  let new_s := malloc (len + 2) in
  let! new_s := memmove new_s 0 s 0 len in
  let! new_s :=
    for_down (len + 1) (cursor_col text)
      (fun i m => let! c := get m (i - 1) in put m i c) new_s in
  let! new_s := put new_s (cursor_col text) (u8 ch) in
  let! new_s := put new_s (len + 1) 0 in
  let! d := put (data text) (cursor_row text) (Some new_s) in
  Ok (set_data text d).

(** The inner loop of [backspace_to_str]: close the gap at [p]. *)
Definition shift_left (s : bytes) (p len : Z) : result bytes :=
  for_up p len (fun i m => let! c := get m (i + 1) in put m i c) s.

Definition backspace_to_str (text : textframe) : result textframe :=
  let! text := adjust_cursor text 1 in
  let! s := line text (cursor_row text) in
  let p := cursor_col text in
  let! len := strlen s in
  let! is_han :=
    if (0 <=? p) && (p <? len) then let! ch := get s p in Ok (160 <=? ch) else Ok false in
  let! s := shift_left s p len in
  let! s := if is_han : bool then shift_left s p len else Ok s in
  let! d := put (data text) (cursor_row text) (Some s) in
  Ok (set_data text d).

(** Copy of the first [len] slots of the old array into the new one. *)
Definition copy_slots (new_data old_data : list (option bytes)) (len : Z)
  : result (list (option bytes)) :=
  for_up 0 len (fun i m => let! s := get old_data i in put m i s) new_data.

Definition new_line_to_editor (text : textframe) : result textframe :=
  let len := maxrow text in
  let! text := adjust_cursor text 1 in
  let! '(new_data, text) :=
    if maxrow_capacity text <=? len + 1 then
      let! new_data := copy_slots (replicate (Z.to_nat (len * 2)) None) (data text) len in
      Ok (new_data, set_capacity text (len * 2))
    else Ok (data text, text) in
  let! new_data :=
    for_down len (cursor_row text + 1)
      (fun r m => let! s := get m (r - 1) in put m r s) new_data in
  let! curline := line_of new_data (cursor_row text) in
  let! n := strlen curline in
  let! tail := substr curline (cursor_col text) (n - cursor_col text) in
  let! new_data := put new_data (cursor_row text + 1) (Some tail) in
  let! curline := put curline (cursor_col text) 0 in
  let! new_data := put new_data (cursor_row text) (Some curline) in
  move_to_pos (set_maxrow (set_data text new_data) (len + 1)) (cursor_row text + 1) 0.

(** [for (i = 0; i < old_text.maxrow; ++i) free(old_text.data[i])]: every
    slot freed must hold a line. *)
Definition free_lines (old : textframe) : result unit :=
  for_up 0 (maxrow old) (fun i _ => let! _ := line old i in Ok tt) tt.

Definition LineEdit_set_str (text : textframe) (str : bytes) : result textframe :=
  let! n := strlen str in
  let! b := strcpy (malloc (n + 1)) 0 str in
  let! _ := free_lines text in
  Ok (mk_textframe [Some b] 0 0 0 0 1 1).

Definition clear_cur_line (text : textframe) : result textframe :=
  if (0 <=? cursor_row text) && (cursor_row text <? maxrow text) then
    let! _ := line text (cursor_row text) in
    let! b := put (malloc 1) 0 0 in
    let! d := put (data text) (cursor_row text) (Some b) in
    Ok (set_cursor (set_data text d) (cursor_row text) 0)
  else Ok text.

Definition move_cur_line_to_prev_line (text : textframe) : result textframe :=
  if (0 <? cursor_row text) && (cursor_row text <? maxrow text) then
    let! cur := line text (cursor_row text) in
    let! prev := line text (cursor_row text - 1) in
    let! n_prev := strlen prev in
    let! n_cur := strlen cur in
    let! joined := strcat prev cur n_prev n_cur in
    let! d := put (data text) (cursor_row text - 1) (Some joined) in
    let! d :=
      for_up (cursor_row text) (maxrow text - 1)
        (fun i m => let! s := get m (i + 1) in put m i s) d in
    move_to_pos (set_maxrow (set_data text d) (maxrow text - 1)) (cursor_row text - 1) (-1)
  else Ok text.

(** * Ranges of text *)

(** [textframe_extract]: the loop body for row [i] of the result; the state
    is [(start_row, start_col, line_len, res_text->data)]. *)
Definition extract_body (text : textframe) (start_len end_len end_col max_row : Z)
    (i : Z) (st : Z * Z * Z * list (option bytes))
  : result (Z * Z * Z * list (option bytes)) :=
  let '(start_row, start_col, line_len, res) := st in
  let! '(start_row, start_col, line_len) :=
    if (i =? 0) && (start_len <? start_col) then
      let! b := line text (start_row + 1) in
      let! n := strlen b in
      Ok (start_row + 1, 0, n)
    else Ok (start_row, start_col, line_len) in
  let! b := line text start_row in
  let! s := substr b start_col line_len in
  let! res := put res i (Some s) in
  let start_row := start_row + 1 in
  let! line_len :=
    if i <? max_row - 2 then let! b := line text start_row in strlen b
    else if (end_len <=? end_col) && (i =? max_row - 2) then Ok 0
    else Ok (end_col + 1) in
  Ok (start_row, 0, line_len, res).

Definition textframe_extract (text : textframe) (start_row start_col end_row end_col : Z)
  : result textframe :=
  let! '(start_row, start_col) := textframe_adjust_r_c text start_row start_col 0 (-1) in
  let! '(end_row, end_col) := textframe_adjust_r_c text end_row end_col 1 1 in
  let start_row := if start_row <? 0 then 0 else start_row in
  let end_row :=
    if (end_row <? 0) || (maxrow text <=? end_row) then maxrow text - 1 else end_row in
  let! sb := line text start_row in
  let! start_len := strlen sb in
  let! eb := line text end_row in
  let! end_len := strlen eb in
  let max_row := end_row - start_row + 1 in
  let max_row := if start_len <? start_col then max_row - 1 else max_row in
  let max_row := if end_len <=? end_col then max_row + 1 else max_row in
  if max_row <=? 0 then Ok (set_maxrow zero_textframe (-1))
  else
    let start_col := if start_col <? 0 then 0 else start_col in
    let line_len :=
      if start_row =? end_row then end_col - start_col + 1 else start_len - start_col in
    let! '(_, _, _, res) :=
      for_up 0 max_row (extract_body text start_len end_len end_col max_row)
        (start_row, start_col, line_len, replicate (Z.to_nat max_row) None) in
    Ok (mk_textframe res 0 0 0 0 max_row max_row).

(** A fresh copy of row [r], [substr(l, 0, strlen(l))]. *)
Definition copy_line (text : textframe) (r : Z) : result bytes :=
  let! b := line text r in
  let! n := strlen b in
  substr b 0 n.

(** The loop of [textframe_delete] from row [i_text]; [i_text] jumps to
    [end_row] when the deleted range is met.  Each round advances [i_text], so
    [maxrow] rounds are enough. *)
Fixpoint delete_loop (fuel : nat) (text : textframe)
    (start_row start_col end_row end_col : Z)
    (i_text i_res_text : Z) (res : list (option bytes))
  : result (Z * list (option bytes)) :=
  match fuel with
  | O => if i_text <? maxrow text then Err OutOfFuel else Ok (i_res_text, res)
  | S fuel' =>
      if i_text <? maxrow text then
        if (start_row <? i_text) && (i_text <? end_row) then
          delete_loop fuel' text start_row start_col end_row end_col (i_text + 1) i_res_text res
        else
          let! text_cur_line := line text i_text in
          let! '(res_cur_line, i_text) :=
            if (i_text <? start_row) || (end_row <? i_text) then
              let! n := strlen text_cur_line in
              let! l := substr text_cur_line 0 n in
              Ok (l, i_text)
            else
              let! sb := line text start_row in
              let! left := substr sb 0 start_col in
              let! eb := line text end_row in
              let! n := strlen text_cur_line in
              let! right := substr eb (end_col + 1) (s32 (n - end_col - 1)) in
              let! nl := strlen left in
              let! nr := strlen right in
              let! l := strcat left right nl nr in
              Ok (l, end_row) in
          let! res := put res i_res_text (Some res_cur_line) in
          delete_loop fuel' text start_row start_col end_row end_col
            (i_text + 1) (i_res_text + 1) res
      else Ok (i_res_text, res)
  end.

Definition textframe_delete (text : textframe) (start_row start_col end_row end_col : Z)
  : result textframe :=
  let! '(start_row, start_col) := textframe_adjust_r_c text start_row start_col 0 (-1) in
  let! '(end_row, end_col) := textframe_adjust_r_c text end_row end_col 1 1 in
  let start_row := if start_row <? 0 then 0 else start_row in
  let start_col := if start_col <? 0 then 0 else start_col in
  let '(end_row, end_col) :=
    if maxrow text <=? end_row then (maxrow text - 1, -1) else (end_row, end_col) in
  let! '(n, res) :=
    delete_loop (Z.to_nat (maxrow text)) text start_row start_col end_row end_col 0 0
      (replicate (Z.to_nat (maxrow text)) None) in
  Ok (mk_textframe res 0 0 0 0 n n).

(** One row of the result of [textframe_insert]; the state is
    [(res_text->data, res_text->cursor_row, res_text->cursor_col)]. *)
Definition insert_body (text in_text : textframe) (start_row start_col : Z)
    (i : Z) (st : list (option bytes) * Z * Z)
  : result (list (option bytes) * Z * Z) :=
  let '(res, crow, ccol) := st in
  let last := start_row + maxrow in_text - 1 in
  let! '(curline, crow, ccol) :=
    if i <? start_row then
      let! l := copy_line text i in Ok (l, crow, ccol)
    else if (start_row <? i) && (i <? last) then
      let! l := copy_line in_text (i - start_row) in Ok (l, crow, ccol)
    else if (i =? start_row) || (i =? last) then
      let! b := line text start_row in
      let! left := substr b 0 start_col in
      let! p := ptr_add b start_col in
      let! n := strlen b in
      let! right := substr p 0 (n - start_col) in
      let! nl := strlen left in
      let! nr := strlen right in
      if maxrow in_text =? 1 then
        let! ib := line in_text 0 in
        let! ni := strlen ib in
        let! curline_left := strcat left ib nl ni in
        let! ncl := strlen curline_left in
        let! l := strcat curline_left right ncl nr in
        Ok (l, i, ncl)
      else if i =? start_row then
        let! ib := line in_text 0 in
        let! ni := strlen ib in
        let! l := strcat left ib nl ni in
        Ok (l, crow, ccol)
      else
        let! ib := line in_text (maxrow in_text - 1) in
        let! ni := strlen ib in
        let! l := strcat ib right ni nr in
        Ok (l, i, ni)
    else
      let! l := copy_line text (i - (maxrow in_text - 1)) in Ok (l, crow, ccol) in
  let! res := put res i (Some curline) in
  Ok (res, crow, ccol).

Definition textframe_insert (text in_text : textframe) (start_row start_col : Z)
  : result textframe :=
  let! '(start_row, start_col) := textframe_adjust_r_c text start_row start_col 0 1 in
  let n := maxrow text + maxrow in_text - 1 in
  let! '(res, crow, ccol) :=
    for_up 0 n (insert_body text in_text start_row start_col)
      (replicate (Z.to_nat n) None, 0, 0) in
  Ok (mk_textframe res 0 0 crow ccol n 0).

(** * Search *)

(** [while (k < len && l < str_len && S[k++] == str[l++]);] *)
Fixpoint match_loop (fuel : nat) (S str : bytes) (len str_len k l : Z) : result (Z * Z) :=
  match fuel with
  | O => Err OutOfFuel
  | Datatypes.S fuel' =>
      if (k <? len) && (l <? str_len) then
        let! a := get S k in
        let! b := get str l in
        if a =? b then match_loop fuel' S str len str_len (k + 1) (l + 1)
        else Ok (k + 1, l + 1)
      else Ok (k, l)
  end.

(** Column [j] of row [S]: the column after the match, if [str] is there. *)
Definition search_at (S str : bytes) (len str_len j : Z) : result (unit + Z) :=
  let! '(k, l) := match_loop (Z.to_nat (str_len + 1)) S str len str_len j 0 in
  if l =? str_len then
    let! a := get S (k - 1) in
    let! b := get str (l - 1) in
    if a =? b then Ok (inr k) else Ok (inl tt)
  else Ok (inl tt).

(** Row [i] of the outer loop. *)
Definition search_row (edit : textframe) (str : bytes) (str_len i : Z)
  : result (unit + Z * Z) :=
  let! S := line edit i in
  let! len := strlen S in
  let! o := for_brk (if i =? cursor_row edit then cursor_col edit else 0) len
              (fun j _ => search_at S str len str_len j) tt in
  match o with
  | inl _ => Ok (inl tt)
  | inr k => Ok (inr (i, k))
  end.

(** The two nested loops, from the cursor to the last row. *)
Definition search_forward (edit : textframe) (str : bytes) (str_len : Z)
  : result (unit + Z * Z) :=
  for_brk (cursor_row edit) (maxrow edit) (fun i _ => search_row edit str str_len i) tt.

(** [Search]: the recursive call starts at row 0, column 0, where the second
    branch ends; so it is made at most once. *)
Definition Search (edit : textframe) (str : bytes) : result (textframe * Z) :=
  let! str_len := strlen str in
  let! o := search_forward edit str str_len in
  match o with
  | inr (i, k) => Ok (set_cursor edit i k, 0)
  | inl _ =>
      if negb (cursor_row edit =? 0) || negb (cursor_col edit =? 0) then
        let! o := search_forward (set_cursor edit 0 0) str str_len in
        match o with
        | inr (i, k) => Ok (set_cursor edit i k, 1)
        | inl _ => Ok (edit, -1)
        end
      else Ok (edit, -1)
  end.

(** * Files *)

Section Files.
Context {W : Type} `{!Sys W}.

(** [File_isDir]; [fstat] fills [st], and leaves it unset when it fails. *)
Definition File_isDir (w : W) (filename : bytes) : result (W * Z) :=
  let '(w, fd) := sys_open w (cstr filename) 0 in
  let '(w, st) := sys_fstat w fd in
  let '(w, _) := sys_close w fd in
  match st with
  | Some st => Ok (w, if st_type st =? T_DIR then 1 else 0)
  | None => Err Uninit
  end.

(** The body of the loop over the bytes read; the state is [(text, lastc)]. *)
Definition read_byte (st : textframe * Z) (c : Z) : result (textframe * Z) :=
  let '(text, lastc) := st in
  let! text :=
    if (c =? 13) || (c =? 10) then
      if (c =? 13) || ((c =? 10) && negb (lastc =? 13))
      then new_line_to_editor text else Ok text
    else
      let! text := putc_to_str text c in
      move_to_next_char text in
  Ok (text, s8 c).

Fixpoint read_bytes (bs : bytes) (st : textframe * Z) : result (textframe * Z) :=
  match bs with
  | [] => Ok st
  | c :: bs' => let! st := read_byte st c in read_bytes bs' st
  end.

(** [while ((len = read(fd, read_data, ROWSIZE)) > 0)] *)
Fixpoint read_loop (fuel : nat) (w : W) (fd : Z) (st : textframe * Z)
  : result (W * textframe) :=
  match fuel with
  | O => Err OutOfFuel
  | S fuel' =>
      let '(w, (len, buf)) := sys_read w fd ROWSIZE in
      if 0 <? len then
        let! st := read_bytes buf st in read_loop fuel' w fd st
      else Ok (w, fst st)
  end.

Definition textframe_read (fuel : nat) (w : W) (text : textframe) (filename : bytes)
  : result (W * textframe * Z) :=
  let '(w, fd) := sys_open w (cstr filename) O_RDWR in
  if fd <? 0 then Ok (w, text, -1)
  else
    let! text := LineEdit_set_str zero_textframe [0] in
    let! '(w, text) := read_loop fuel w fd (text, -1) in
    let! text := if 0 <? maxrow text then move_to_pos text 0 0 else Ok text in
    let '(w, _) := sys_close w fd in
    Ok (w, set_capacity text (maxrow text), 0).

(** The loop of [textframe_write] from row [i]; [inr] is the early return. *)
Definition write_row (text : textframe) (fd : Z) (i : Z) (w : W) : result (W + W) :=
  let! b := line text i in
  let! n := strlen b in
  let '(w, len) := sys_write w fd (take (Z.to_nat n) b) in
  if len <? 0 then Ok (inr w)
  else if i <? maxrow text - 1 then
    let '(w, _) := sys_write w fd [10] in Ok (inl w)
  else Ok (inl w).

Definition textframe_write (w : W) (text : textframe) (filename : bytes)
  : result (W * textframe * Z) :=
  let '(w, _) := sys_unlink w (cstr filename) in
  let '(w, fd) := sys_open w (cstr filename) (Z.lor O_CREATE O_WRONLY) in
  if fd <? 0 then Ok (w, text, -1)
  else
    let! o := for_brk 0 (maxrow text) (write_row text fd) w in
    match o with
    | inr w => Ok (w, text, -1)
    | inl w =>
        let '(w, _) := sys_close w fd in
        Ok (w, set_capacity text (maxrow text), 0)
    end.

End Files.
