(* ===== verification/TextLemmas.v ===== *)
(** Loop and representation lemmas for the text buffer.

    [frame t ls] says that the frame [t] holds the lines [ls]; the lemmas of
    this file turn each array loop of textframe.c into an equation on lists. *)
From S2P Require Import Prelude Ulib Sys Textframe.

(** * Copy and shift loops *)

Lemma for_up_ext {S} lo hi (f g : Z -> S -> result S) s :
  (forall i s, lo <= i < hi -> f i s = g i s) -> for_up lo hi f s = for_up lo hi g s.
Proof.
  unfold for_up. intros Hfg.
  assert (Hn : lo + Z.of_nat (Z.to_nat (hi - lo)) <= Z.max lo hi) by lia.
  revert Hn Hfg. generalize (Z.to_nat (hi - lo)) as n. intros n. revert lo s.
  induction n as [|n IH]; intros lo s Hn Hfg; cbn [up_n]; [done|].
  rewrite Hfg by lia. destruct (g lo s) as [s'|]; cbn [rbind]; [|done].
  apply IH; [lia|]. intros. apply Hfg. lia.
Qed.

Lemma copied_app (l1 old l2 src : bytes) (s : Z) (m' : bytes) :
  0 <= s -> s + zlen old <= zlen src ->
  copied (l1 ++ old ++ l2) src (zlen l1) s (zlen old) m' ->
  m' = l1 ++ slice src s (zlen old) ++ l2.
Proof.
  intros Hs Hn [Hlen Hm]. pose proof (slice_len src s (zlen old) Hs ltac:(lia) Hn) as Hsl.
  apply list_eq_same_length with (length m'); [rewrite Hlen; llia | done |].
  intros i x y Hi. rewrite <- (Nat2Z.id i), Hm by llia.
  destruct (Z.leb_spec (zlen l1) (Z.of_nat i)), (Z.ltb_spec (Z.of_nat i) (zlen l1 + zlen old));
    cbn [andb]; rewrite Nat2Z.id.
  - rewrite lookup_app_r by lia. rewrite lookup_app_l by lia.
    replace (i - length l1)%nat with (Z.to_nat (Z.of_nat i - zlen l1)) by lia.
    rewrite slice_lookup by lia. congruence.
  - rewrite !lookup_app_r by lia. replace (length (slice src s (zlen old))) with (length old) by lia.
    congruence.
  - rewrite !lookup_app_l by lia. congruence.
  - lia.
Qed.

(** A loop that copies [n] cells of [src] over the cells [old]. *)
Lemma copy_loop f (src : bytes) (s : Z) (l1 old l2 : bytes) :
  (forall i m, 0 <= i < zlen old ->
     f i m = let! c := get src (s + i) in put m (zlen l1 + i) c) ->
  0 <= s -> s + zlen old <= zlen src ->
  for_up 0 (zlen old) f (l1 ++ old ++ l2) = Ok (l1 ++ slice src s (zlen old) ++ l2).
Proof.
  intros Hf Hs Hn. rewrite (for_up_ext _ _ _ _ _ Hf).
  destruct (ensures_inv _ _
    (memmove_copied (l1 ++ old ++ l2) (zlen l1) src s (zlen old)
       ltac:(lia) ltac:(lia) ltac:(llia) Hs Hn)) as (m' & E & Hm).
  unfold memmove in E. rewrite E. f_equal. by apply copied_app.
Qed.

(** A loop that copies the first cells of an array of any type. *)
Lemma copy_prefix {A} (seg post done old tail : list A) f :
  (forall i m, f i m = let! c := get (done ++ seg ++ post) i in put m i c) ->
  length old = length seg ->
  for_up (zlen done) (zlen done + zlen seg) f (done ++ old ++ tail) = Ok (done ++ seg ++ tail).
Proof.
  revert done old. induction seg as [|x seg IH]; intros done old Hf Hlen.
  - destruct old; [|discriminate Hlen]. by rewrite for_up_done by (cbn; lia).
  - destruct old as [|o old]; [discriminate Hlen|].
    rewrite for_up_step by (cbn; lia). rewrite Hf. cbn [app].
    rewrite get_middle by done. cbn [rbind]. rewrite put_middle by done. cbn [rbind].
    replace (done ++ x :: old ++ tail) with ((done ++ [x]) ++ old ++ tail) by (by rewrite <- app_assoc).
    replace (zlen done + 1) with (zlen (done ++ [x])) by llia.
    replace (zlen done + zlen (x :: seg)) with (zlen (done ++ [x]) + zlen seg) by llia.
    rewrite IH.
    + by rewrite <- app_assoc.
    + intros i m. rewrite Hf. by rewrite <- app_assoc.
    + by injection Hlen.
Qed.

(** [for (i = hi; i > lo; --i) m[i] = m[i-1]] opens a gap at [lo]. *)
Lemma shift_right_loop {A} (l1 mid l2 : list A) (x y : A) f :
  (forall i m, f i m = let! c := get m (i - 1) in put m i c) ->
  for_down (zlen l1 + zlen mid + 1) (zlen l1) f (l1 ++ (x :: mid) ++ y :: l2)
    = Ok (l1 ++ x :: (x :: mid) ++ l2).
Proof.
  intros Hf. revert y l2. induction mid as [|z mid IH] using rev_ind; intros y l2.
  - rewrite for_down_step by (cbn; lia). rewrite Hf. cbn [length app].
    rewrite get_middle by lia. cbn [rbind].
    replace (l1 ++ x :: y :: l2) with ((l1 ++ [x]) ++ y :: l2) by (by rewrite <- app_assoc).
    rewrite put_middle by llia. cbn [rbind]. rewrite for_down_done by lia.
    by rewrite <- app_assoc.
  - rewrite for_down_step by llia. rewrite Hf.
    replace (l1 ++ (x :: mid ++ [z]) ++ y :: l2)
      with ((l1 ++ x :: mid) ++ z :: y :: l2) by (by rewrite <- !app_assoc; cbn; rewrite <- app_assoc).
    rewrite get_middle by llia. cbn [rbind].
    replace ((l1 ++ x :: mid) ++ z :: y :: l2)
      with ((l1 ++ x :: mid ++ [z]) ++ y :: l2) by (by rewrite <- !app_assoc; cbn; rewrite <- app_assoc).
    rewrite put_middle by llia. cbn [rbind].
    replace ((l1 ++ x :: mid ++ [z]) ++ z :: l2) with (l1 ++ (x :: mid) ++ z :: (z :: l2))
      by (by rewrite <- !app_assoc; cbn; rewrite <- app_assoc).
    replace (zlen l1 + zlen (mid ++ [z]) + 1 - 1) with (zlen l1 + zlen mid + 1) by llia.
    rewrite IH. f_equal. cbn. by rewrite <- app_assoc.
Qed.

(** [for (i = lo; i < hi; ++i) m[i] = m[i+1]] closes the gap at [lo]. *)
Lemma shift_left_loop {A} (l1 mid l2 : list A) (x : A) hi f :
  (forall i m, f i m = let! c := get m (i + 1) in put m i c) ->
  hi = zlen l1 + zlen mid ->
  for_up (zlen l1) hi f (l1 ++ x :: mid ++ l2) = Ok (l1 ++ mid ++ default x (last mid) :: l2).
Proof.
  intros Hf. revert l1 x. induction mid as [|z mid IH]; intros l1 x Hhi; subst hi.
  - rewrite for_up_done by (cbn; lia). done.
  - rewrite for_up_step by (cbn; lia). rewrite Hf.
    replace (l1 ++ x :: (z :: mid) ++ l2) with ((l1 ++ [x]) ++ z :: mid ++ l2)
      by (by rewrite <- app_assoc).
    rewrite get_middle by llia. cbn [rbind].
    replace ((l1 ++ [x]) ++ z :: mid ++ l2) with (l1 ++ x :: z :: mid ++ l2)
      by (by rewrite <- app_assoc).
    rewrite put_middle by lia. cbn [rbind].
    replace (l1 ++ z :: z :: mid ++ l2) with ((l1 ++ [z]) ++ z :: mid ++ l2)
      by (by rewrite <- app_assoc).
    replace (zlen l1 + 1) with (zlen (l1 ++ [z])) by llia.
    rewrite IH by llia. rewrite <- app_assoc. cbn. do 3 f_equal.
    rewrite last_cons. by destruct (last mid).
Qed.

(** * The string helpers *)

Lemma malloc_split n k : 0 <= n -> 0 <= k -> malloc (n + k) = malloc n ++ malloc k.
Proof. intros. unfold malloc. rewrite <- replicate_add. f_equal. lia. Qed.

Lemma malloc_len n : 0 <= n -> zlen (malloc n) = n.
Proof. intros. unfold malloc. llia. Qed.

Lemma slice_str b s start n :
  is_str b s -> 0 <= start -> 0 <= n -> start + n <= zlen s -> slice b start n = slice s start n.
Proof.
  intros [_ [rest ->]] Hs Hn Hl. unfold slice.
  rewrite drop_app_le by lia. rewrite take_app_le by llia. done.
Qed.

Lemma slice_all {A} (s : list A) : slice s 0 (zlen s) = s.
Proof. unfold slice. rewrite Nat2Z.id. cbn. apply take_ge. lia. Qed.

Lemma slice_clip {A} (s : list A) start n :
  0 <= start ->
  slice s start n = slice s start (Z.max 0 (Z.min n (zlen s - start))).
Proof.
  intros Hs. unfold slice. destruct (Z.le_gt_cases n (zlen s - start)).
  - f_equal. lia.
  - rewrite (take_ge _ (Z.to_nat n)) by llia. rewrite take_ge by llia. done.
Qed.

Lemma Forall_slice {A} (P : A -> Prop) s start n : Forall P s -> Forall P (slice s start n).
Proof. intros. unfold slice. by apply Forall_take, Forall_drop. Qed.

Lemma strcpy_nul l n : zlen l = n -> strcpy (l ++ malloc 1) n [0] = Ok (l ++ [0]).
Proof. intros <-. change (malloc 1) with [undef]. cbn [strcpy]. by rewrite put_middle by done. Qed.

(** [substr] returns a fresh block with the requested part of the string. *)
Lemma substr_spec b s start len :
  is_str b s -> zlen s < INT_MAX -> 0 <= start <= INT_MAX ->
  substr b start len = Ok (slice s start len ++ [0]).
Proof.
  intros Hs Hlen Hstart. unfold substr. zsimp. rewrite (strlen_str b s Hs). cbn [rbind].
  rewrite s32_small by (unfold INT_MAX in *; lia).
  set (n := Z.max 0 (Z.min len (zlen s - start))).
  replace (if (if zlen s - start <? len then zlen s - start else len) <? 0 then 0
           else if zlen s - start <? len then zlen s - start else len) with n
    by (subst n; destruct (Z.ltb_spec (zlen s - start) len); ztests; lia).
  rewrite malloc_split by lia.
  destruct (Z.eq_dec n 0) as [Hn0|Hn0].
  - rewrite Hn0. rewrite for_up_done by lia. cbn [rbind app malloc].
    rewrite strcpy_nul by done.
    f_equal. f_equal. rewrite slice_clip by lia. fold n. rewrite Hn0. done.
  - rewrite <- (malloc_len n) at 1 by lia.
    change (malloc n ++ malloc 1) with ([] ++ malloc n ++ malloc 1).
    erewrite copy_loop with (src := b) (s := start).
    + cbn [rbind app]. rewrite malloc_len by lia.
      rewrite (slice_str b s) by (done || lia).
      rewrite strcpy_nul by (apply slice_len; lia).
      rewrite (slice_clip s start len) by lia. done.
    + intros i m _. done.
    + lia.
    + rewrite malloc_len by lia. apply is_str_len in Hs. lia.
Qed.

Lemma substr_is_str b s start len :
  is_str b s -> is_str (slice s start len ++ [0]) (slice s start len).
Proof. intros [Hs _]. apply is_str_intro. by apply Forall_slice. Qed.

(** [strcat] of two strings. *)
Lemma strcat_spec b1 b2 s1 s2 :
  is_str b1 s1 -> is_str b2 s2 ->
  strcat b1 b2 (zlen s1) (zlen s2) = Ok ((s1 ++ s2) ++ [0]).
Proof.
  intros H1 H2. unfold strcat. zsimp.
  rewrite malloc_split by lia. rewrite malloc_split by lia.
  rewrite <- (malloc_len (zlen s1)) at 1 by lia.
  rewrite <- app_assoc.
  change (malloc (zlen s1) ++ ?r) with ([] ++ malloc (zlen s1) ++ r).
  pose proof (is_str_len _ _ H1). pose proof (is_str_len _ _ H2).
  erewrite copy_loop with (src := b1) (s := 0); [|intros; done|lia|rewrite malloc_len by lia; lia].
  cbn [rbind app]. rewrite malloc_len by lia. rewrite (slice_str b1 s1), slice_all by (done || lia).
  rewrite <- (malloc_len (zlen s2)) at 1 by lia.
  erewrite copy_loop with (src := b2) (s := 0); [|intros; done|lia|rewrite malloc_len by lia; lia].
  cbn [rbind]. rewrite malloc_len by lia. rewrite (slice_str b2 s2), slice_all by (done || lia).
  rewrite app_assoc. apply strcpy_nul. llia.
Qed.

(** * Frames that hold lines *)

(** Rows and columns fit an [int] with room for one more. *)
Definition fits (ls : list bytes) : Prop :=
  zlen ls < 2 ^ 30 /\ Forall (fun l => zlen l < INT_MAX) ls.

(** The first slots of [data] point to the lines [ls]; the array is at least
    as long as the recorded capacity. *)
Definition frame (t : textframe) (ls : list bytes) : Prop :=
  (exists bs rest, data t = (Some <$> bs) ++ rest /\ Forall2 is_str bs ls) /\
  maxrow t = zlen ls /\ maxrow_capacity t <= zlen (data t) /\ fits ls.

(** The cursor is on a column of a row, or just after its last column. *)
Definition cursor_in (ls : list bytes) (r c : Z) : Prop :=
  exists l, 0 <= r /\ ls !! Z.to_nat r = Some l /\ 0 <= c <= zlen l.

Definition cursor_ok (t : textframe) (ls : list bytes) : Prop :=
  cursor_in ls (cursor_row t) (cursor_col t).

Lemma cursor_in_row ls r c : cursor_in ls r c -> 0 <= r < zlen ls.
Proof. intros (l & Hr & Hl & _). apply lookup_lt_Some in Hl. lia. Qed.

Lemma fits_line ls r l : fits ls -> ls !! r = Some l -> zlen l < INT_MAX.
Proof. intros [_ H] Hl. rewrite Forall_lookup in H. eauto. Qed.

Lemma frame_set_cursor t ls r c : frame t ls -> frame (set_cursor t r c) ls.
Proof. done. Qed.

Lemma frame_maxrow t ls : frame t ls -> maxrow t = zlen ls.
Proof. intros (_ & H & _). done. Qed.

Lemma frame_fits t ls : frame t ls -> fits ls.
Proof. intros (_ & _ & _ & H). done. Qed.

Lemma frame_data_len t ls : frame t ls -> zlen ls <= zlen (data t).
Proof.
  intros ((bs & rest & Hd & Hbs) & _). rewrite Hd. apply Forall2_length in Hbs.
  rewrite length_app, length_fmap. lia.
Qed.

Lemma line_of_split bs l rest r :
  0 <= r -> bs !! Z.to_nat r = Some l -> line_of ((Some <$> bs) ++ rest) r = Ok l.
Proof.
  intros Hr Hl. unfold line_of. rewrite (get_ok _ _ (Some l)); [done | done |].
  rewrite lookup_app_l by (apply lookup_lt_Some in Hl; rewrite length_fmap; lia).
  by rewrite list_lookup_fmap, Hl.
Qed.

Lemma frame_line t ls r l :
  frame t ls -> 0 <= r -> ls !! Z.to_nat r = Some l ->
  exists b, line t r = Ok b /\ is_str b l /\ strlen b = Ok (zlen l).
Proof.
  intros ((bs & rest & Hd & Hbs) & _) Hr Hl.
  destruct (Forall2_lookup_r _ _ _ _ _ Hbs Hl) as (b & Hb & Hs).
  exists b. split; [|split; [done | by apply strlen_str]].
  unfold line. rewrite Hd. by apply line_of_split.
Qed.

Lemma fits_insert ls r l : fits ls -> zlen l < INT_MAX -> fits (<[r := l]> ls).
Proof. intros [H1 H2] Hl. split; [by rewrite zlen_insert | by apply Forall_insert]. Qed.

Lemma frame_put t ls r b l :
  frame t ls -> 0 <= r < zlen ls -> is_str b l -> zlen l < INT_MAX ->
  exists d, put (data t) r (Some b) = Ok d /\ frame (set_data t d) (<[Z.to_nat r := l]> ls).
Proof.
  intros Hf Hr Hb Hl. pose proof (frame_data_len t ls Hf) as Hlen.
  rewrite put_ok by lia. eexists. split; [done|].
  destruct Hf as ((bs & rest & Hd & Hbs) & Hm & Hc & Hfit).
  pose proof (Forall2_length _ _ _ Hbs) as Hbl.
  split; [|split; [|split]]; cbn [set_data data maxrow maxrow_capacity].
  - exists (<[Z.to_nat r := b]> bs), rest. split; [|by apply Forall2_insert].
    rewrite Hd, insert_app_l by (rewrite length_fmap; lia).
    by rewrite list_fmap_insert.
  - by rewrite zlen_insert.
  - by rewrite zlen_insert.
  - by apply fits_insert.
Qed.

(** * GBK runs *)

(** Length of the run of bytes [>= 160] at the front of a reversed prefix. *)
Fixpoint hi_run_rev (l : bytes) : Z :=
  match l with
  | [] => 0
  | c :: l' => if 160 <=? c then 1 + hi_run_rev l' else 0
  end.

(** The number of consecutive GBK bytes of [s] that end with column [c]. *)
Definition hi_run (s : bytes) (c : Z) : Z := hi_run_rev (reverse (take (Z.to_nat (c + 1)) s)).

Lemma hi_run_step s c ch :
  0 <= c -> s !! Z.to_nat c = Some ch ->
  hi_run s c = if 160 <=? ch then 1 + hi_run s (c - 1) else 0.
Proof.
  intros Hc Hch. unfold hi_run.
  replace (Z.to_nat (c + 1)) with (S (Z.to_nat c)) by lia.
  replace (c - 1 + 1) with c by lia.
  rewrite (take_S_r _ _ ch) by done. by rewrite reverse_snoc.
Qed.

Lemma hi_run_before s : hi_run s (-1) = 0.
Proof. done. Qed.

Lemma hi_run_rev_nonneg l : 0 <= hi_run_rev l.
Proof. induction l as [|c l IH]; cbn [hi_run_rev]; [lia|]. ztests; lia. Qed.

Lemma hi_run_bound s c : -1 <= c -> 0 <= hi_run s c <= c + 1.
Proof.
  intros Hc. split; [apply hi_run_rev_nonneg|]. unfold hi_run.
  assert (H : forall l, hi_run_rev l <= zlen l).
  { induction l as [|x l IH]; cbn [hi_run_rev length]; [lia|]. ztests; lia. }
  specialize (H (reverse (take (Z.to_nat (c + 1)) s))). list_len. lia.
Qed.

Lemma han_scan_spec b s n :
  is_str b s -> (n <= length s)%nat ->
  han_scan b n = Ok (Z.of_nat n - 1 - hi_run s (Z.of_nat n - 1)).
Proof.
  intros Hs. induction n as [|n IH]; intros Hn; cbn [han_scan].
  - by rewrite hi_run_before.
  - destruct (is_str_get b s (Z.of_nat n) Hs) as (ch & -> & Hch & _); [lia|].
    cbn [rbind]. replace (Z.of_nat (S n) - 1) with (Z.of_nat n) by lia.
    rewrite (hi_run_step s (Z.of_nat n) ch) by (done || lia).
    ztests; [f_equal; lia|]. rewrite IH by lia. f_equal. lia.
Qed.

(** * Adjusted positions *)

(** The column [textframe_adjust_r_c] computes on a line [s]. *)
Definition adjust_col (s : bytes) (c pos dir : Z) : Z :=
  let c := Z.max 0 (Z.min c (zlen s)) in
  match s !! Z.to_nat c with
  | Some ch =>
      if 160 <=? ch then
        if (pos =? 0) && Z.even (hi_run s c) then c + dir
        else if (pos =? 1) && Z.odd (hi_run s c) then c + dir
        else c
      else c
  | None => c
  end.

Lemma rem2_even z : 0 <= z -> (Z.rem z 2 =? 0) = Z.even z.
Proof. intros. rewrite Z.rem_mod_nonneg by lia. rewrite Zmod_even. by destruct (Z.even z). Qed.

Lemma rem2_odd z : 0 <= z -> (Z.rem z 2 =? 1) = Z.odd z.
Proof. intros. rewrite Z.rem_mod_nonneg by lia. rewrite Zmod_odd. by destruct (Z.odd z). Qed.

Lemma adjust_in_row t ls r l c pos dir :
  frame t ls -> 0 <= r -> ls !! Z.to_nat r = Some l ->
  textframe_adjust_r_c t r c pos dir = Ok (r, adjust_col l c pos dir).
Proof.
  intros Hf Hr Hl. pose proof (lookup_lt_Some _ _ _ Hl) as Hlt.
  destruct (frame_line t ls r l Hf Hr Hl) as (b & Hb & Hs & Hn).
  unfold textframe_adjust_r_c. rewrite (frame_maxrow _ _ Hf). zsimp.
  rewrite Hb. cbn [rbind]. rewrite Hn. cbn [rbind].
  replace (if (if zlen l <? c then zlen l else c) <? 0 then 0
           else if zlen l <? c then zlen l else c) with (Z.max 0 (Z.min c (zlen l)))
    by (destruct (Z.ltb_spec (zlen l) c); ztests; lia).
  unfold adjust_col. set (c' := Z.max 0 (Z.min c (zlen l))).
  destruct (Z.ltb_spec c' (zlen l)) as [Hc|Hc].
  - zsimp. destruct (is_str_get b l c' Hs) as (ch & -> & Hch & _); [lia|].
    cbn [rbind]. rewrite Hch. ztest; [|done].
    rewrite (han_scan_spec b l) by (done || lia). cbn [rbind].
    replace (Z.of_nat (Z.to_nat (c' + 1)) - 1) with c' by lia.
    replace (c' - (c' - hi_run l c')) with (hi_run l c') by lia.
    pose proof (hi_run_bound l c'). rewrite rem2_even, rem2_odd by lia.
    rewrite <- Z.negb_even. destruct (Z.even (hi_run l c')), (Z.eqb_spec pos 0), (Z.eqb_spec pos 1);
      cbn [andb negb]; try done; lia.
  - rewrite andb_false_r. rewrite lookup_ge_None_2 by lia. done.
Qed.

(** The column of a row after which the editor may cut the line: its end, an
    ASCII byte, or the first byte of a two-byte character. *)
Definition boundary (s : bytes) (c : Z) : Prop :=
  0 <= c <= zlen s /\
  forall ch, s !! Z.to_nat c = Some ch -> 160 <= ch -> Z.odd (hi_run s c) = true.

Lemma boundary_zero s : boundary s 0.
Proof.
  split; [lia|]. intros ch Hch Hhi. rewrite (hi_run_step s 0 ch) by (done || lia).
  zsimp. done.
Qed.

Lemma boundary_end s : boundary s (zlen s).
Proof. split; [lia|]. intros ch Hch. apply lookup_lt_Some in Hch. lia. Qed.

Lemma adjust_col_boundary_id s c dir : boundary s c -> adjust_col s c 0 dir = c.
Proof.
  intros [Hc Hb]. unfold adjust_col. replace (Z.max 0 (Z.min c (zlen s))) with c by lia.
  destruct (s !! Z.to_nat c) as [ch|] eqn:Hch; [|done]. ztest; [|done].
  specialize (Hb ch eq_refl ltac:(lia)). rewrite <- Z.negb_odd, Hb. done.
Qed.

(** Whatever the column asked for, the adjusted one never splits a character. *)
Lemma adjust_col_boundary s c dir : dir = 1 \/ dir = -1 -> boundary s (adjust_col s c 0 dir).
Proof.
  intros Hdir. unfold adjust_col. set (c' := Z.max 0 (Z.min c (zlen s))).
  destruct (s !! Z.to_nat c') as [ch|] eqn:Hch.
  - assert (Hc' : 0 <= c' < zlen s) by (apply lookup_lt_Some in Hch; lia).
    ztest.
    + pose proof (hi_run_step s c' ch ltac:(lia) Hch) as Hstep. revert Hstep. zsimp. intros Hstep.
      destruct (Z.even (hi_run s c')) eqn:He; cbn [andb].
      * assert (Hprev : 0 < c').
        { destruct (Z.eq_dec c' 0) as [E|]; [|lia]. exfalso.
          rewrite Hstep, E in He. discriminate He. }
        destruct Hdir as [-> | ->].
        -- split; [lia|]. intros ch2 Hch2 Hhi. rewrite (hi_run_step _ _ ch2) by (done || lia).
           zsimp. replace (c' + 1 - 1) with c' by lia.
           by rewrite Z.add_comm, Z.odd_add, <- Z.negb_even, He.
        -- split; [lia|]. intros ch2 Hch2 Hhi.
           replace (c' + -1) with (c' - 1) by lia.
           replace (hi_run s (c' - 1)) with (hi_run s c' - 1) by lia.
           by rewrite Z.odd_sub, <- Z.negb_even, He.
      * split; [lia|]. intros ch2 _ _. by rewrite <- Z.negb_even, He.
    + split; [lia|]. intros ch2 E. rewrite Hch in E. injection E as <-. lia.
  - apply lookup_ge_None in Hch. replace c' with (zlen s) by lia. apply boundary_end.
Qed.
