(* ===== verification/TextSpec.v ===== *)
(** An abstract text editor and the refinement of textframe.c to it.

    A [doc] is a list of lines with a cursor.  Each operation of the frame is
    given an abstract counterpart on [doc]; the lemmas [*_refines] show that,
    on a frame that represents a document, the C operation meets no fault and
    ends in a frame that represents the counterpart's result. *)
From S2P Require Import Prelude Ulib Sys Textframe TextLemmas.

Record doc := mk_doc { lines : list bytes; crow : Z; ccol : Z }.

Definition rep (t : textframe) (d : doc) : Prop :=
  frame t (lines d) /\ cursor_row t = crow d /\ cursor_col t = ccol d /\
  cursor_in (lines d) (crow d) (ccol d).

(** The cursor never rests inside a two-byte character. *)
Definition doc_boundary (d : doc) : Prop :=
  forall l, lines d !! Z.to_nat (crow d) = Some l -> boundary l (ccol d).

Module Spec.

Definition cur_line (d : doc) : bytes := default [] (lines d !! Z.to_nat (crow d)).

Definition place (ls : list bytes) (r c dir : Z) : doc :=
  mk_doc ls r (adjust_col (default [] (ls !! Z.to_nat r)) c 0 dir).

Definition clip_row (ls : list bytes) (r : Z) : Z :=
  if r =? -1 then zlen ls - 1 else Z.min r (zlen ls - 1).
Definition clip_col (l : bytes) (c : Z) : Z :=
  if c <? 0 then zlen l else Z.min c (zlen l).

Definition goto (d : doc) (r c : Z) : doc :=
  let r := clip_row (lines d) r in
  place (lines d) r (clip_col (default [] (lines d !! Z.to_nat r)) c) 1.

Definition next_char (d : doc) : doc :=
  if ccol d <? zlen (cur_line d) then place (lines d) (crow d) (ccol d + 1) 1
  else if crow d + 1 <? zlen (lines d) then place (lines d) (crow d + 1) 0 1
  else place (lines d) (crow d) (ccol d) 1.

Definition previous_char (d : doc) : doc :=
  if 0 <? ccol d then place (lines d) (crow d) (ccol d - 1) (-1)
  else if 0 <? crow d then
    place (lines d) (crow d - 1) (zlen (default [] (lines d !! Z.to_nat (crow d - 1)))) (-1)
  else place (lines d) (crow d) (ccol d) (-1).

Definition next_line (d : doc) : doc :=
  place (lines d) (if crow d + 1 <? zlen (lines d) then crow d + 1 else crow d) (ccol d) 1.

Definition last_line (d : doc) : doc :=
  place (lines d) (if 0 <? crow d then crow d - 1 else crow d) (ccol d) 1.

(** A NUL typed into a line ends it: a line is what precedes its first NUL. *)
Definition putc (d : doc) (ch : Z) : doc :=
  let l := cur_line d in
  let n := Z.to_nat (ccol d) in
  mk_doc (<[Z.to_nat (crow d) := cstr (take n l ++ u8 ch :: drop n l)]> (lines d))
    (crow d) (ccol d).

(** The number of bytes of the character at column [p]. *)
Definition char_width (l : bytes) (p : Z) : Z :=
  match l !! Z.to_nat p with Some ch => if 160 <=? ch then 2 else 1 | None => 1 end.

Definition delete_char (d : doc) : doc :=
  let l := cur_line d in
  let p := adjust_col l (ccol d) 0 1 in
  mk_doc (<[Z.to_nat (crow d) :=
             take (Z.to_nat p) l ++ drop (Z.to_nat (p + char_width l p)) l]> (lines d))
    (crow d) p.

Definition newline (d : doc) : doc :=
  let l := cur_line d in
  let c := Z.to_nat (adjust_col l (ccol d) 0 1) in
  let r := Z.to_nat (crow d) in
  mk_doc (take r (lines d) ++ take c l :: drop c l :: drop (S r) (lines d)) (crow d + 1) 0.

Definition join (d : doc) : doc :=
  if 0 <? crow d then
    let r := Z.to_nat (crow d) in
    let prev := default [] (lines d !! (r - 1)%nat) in
    let joined := prev ++ cur_line d in
    mk_doc (take (r - 1) (lines d) ++ joined :: drop (S r) (lines d))
      (crow d - 1) (zlen joined)
  else d.

Definition clear_line (d : doc) : doc :=
  mk_doc (<[Z.to_nat (crow d) := []]> (lines d)) (crow d) 0.

End Spec.

(** * Helper lemmas *)

Lemma rep_line t d :
  rep t d ->
  exists l b, lines d !! Z.to_nat (crow d) = Some l /\ Spec.cur_line d = l /\
    line t (crow d) = Ok b /\ is_str b l /\ strlen b = Ok (zlen l) /\
    0 <= crow d < zlen (lines d) /\ 0 <= ccol d <= zlen l /\ zlen l < INT_MAX.
Proof.
  intros (Hf & _ & _ & Hc). pose proof (cursor_in_row _ _ _ Hc) as Hr.
  destruct Hc as (l & Hr0 & Hl & Hcol).
  destruct (frame_line _ _ _ _ Hf Hr0 Hl) as (b & Hb & Hs & Hn).
  exists l, b. unfold Spec.cur_line. rewrite Hl.
  pose proof (fits_line _ _ _ (frame_fits _ _ Hf) Hl). done.
Qed.

Lemma adjust_col_range s c pos dir :
  dir = 1 \/ dir = -1 -> pos = 0 -> 0 <= adjust_col s c pos dir <= zlen s.
Proof. intros Hd ->. apply (adjust_col_boundary s c dir Hd). Qed.

(** A frame with any row in range, adjusted, represents the placed cursor. *)
Lemma adjust_place t ls r c dir :
  frame t ls -> cursor_row t = r -> cursor_col t = c -> 0 <= r < zlen ls ->
  dir = 1 \/ dir = -1 ->
  exists t', adjust_cursor t dir = Ok t' /\ rep t' (Spec.place ls r c dir) /\
    doc_boundary (Spec.place ls r c dir) /\ data t' = data t /\
    maxrow t' = maxrow t /\ maxrow_capacity t' = maxrow_capacity t.
Proof.
  intros Hf Er Ec Hr Hdir.
  destruct (lookup_lt_is_Some_2 ls (Z.to_nat r)) as [l Hl]; [lia|].
  unfold adjust_cursor. rewrite Er, Ec, (adjust_in_row t ls r l) by (done || lia).
  cbn [rbind]. eexists. split; [done|].
  unfold Spec.place, rep, doc_boundary. cbn [lines crow ccol set_cursor]. rewrite Hl. cbn [default from_option].
  split; [|split; [|done]].
  - split; [by apply frame_set_cursor|]. split; [done|]. split; [done|].
    exists l. split; [lia|]. split; [done|]. by apply adjust_col_range.
  - intros l' [= <-]. by apply adjust_col_boundary.
Qed.

Lemma place_id ls r c dir l :
  ls !! Z.to_nat r = Some l -> boundary l c -> Spec.place ls r c dir = mk_doc ls r c.
Proof.
  intros Hl Hb. unfold Spec.place. rewrite Hl. cbn. by rewrite adjust_col_boundary_id.
Qed.

(** * Cursor movement *)

Lemma move_to_pos_spec t ls r c :
  frame t ls -> 0 < zlen ls -> -1 <= r -> - 2 ^ 31 <= c < 2 ^ 31 ->
  exists t', move_to_pos t r c = Ok t' /\
    rep t' (Spec.goto (mk_doc ls 0 0) r c) /\ doc_boundary (Spec.goto (mk_doc ls 0 0) r c) /\
    data t' = data t /\ maxrow t' = zlen ls.
Proof.
  intros Hf Hls Hr Hc. unfold move_to_pos. rewrite (frame_maxrow _ _ Hf).
  pose proof (frame_fits _ _ Hf) as [Hrows _].
  set (r' := Spec.clip_row ls r).
  assert (Hr' : 0 <= r' < zlen ls) by (subst r'; unfold Spec.clip_row; ztests; lia).
  replace (if zlen ls <=? (if r =? -1 then INT_MAX else r) then zlen ls - 1
           else if r =? -1 then INT_MAX else r) with r'
    by (subst r'; unfold Spec.clip_row, INT_MAX; destruct (Z.eqb_spec r (-1)); ztests; lia).
  zsimp. destruct (lookup_lt_is_Some_2 ls (Z.to_nat r')) as [l Hl]; [lia|].
  destruct (frame_line _ _ r' _ Hf ltac:(lia) Hl) as (b & -> & Hs & Hn). cbn [rbind].
  rewrite Hn. cbn [rbind].
  pose proof (fits_line _ _ _ (frame_fits _ _ Hf) Hl) as Hlen.
  assert (Hcol : (if zlen l <? u32 (if c =? -1 then INT_MAX else c) then zlen l
                  else (if c =? -1 then INT_MAX else c)) = Spec.clip_col l c).
  { unfold Spec.clip_col, INT_MAX in *. destruct (Z.eqb_spec c (-1)) as [->|].
    - rewrite u32_small by lia. ztests; lia.
    - destruct (Z.ltb_spec c 0); [rewrite u32_neg by lia | rewrite u32_small by lia]; ztests; lia. }
  rewrite Hcol.
  destruct (adjust_place (set_cursor t r' (Spec.clip_col l c)) ls r' (Spec.clip_col l c) 1)
    as (t' & -> & Hrep & Hb & Hd & Hm & _); try done; [by left|].
  exists t'. split; [done|]. unfold Spec.goto. cbn [lines]. fold r'. rewrite Hl. cbn [default from_option id].
  split_and!; try done. rewrite Hm. by apply frame_maxrow.
Qed.

(** [move_to_pos] on a represented document. *)
Lemma move_to_pos_refines t d r c :
  rep t d -> -1 <= r -> - 2 ^ 31 <= c < 2 ^ 31 ->
  exists t', move_to_pos t r c = Ok t' /\ rep t' (Spec.goto d r c) /\
    doc_boundary (Spec.goto d r c).
Proof.
  intros Hrep Hr Hc. pose proof (rep_line _ _ Hrep) as (l & b & _ & _ & _ & _ & _ & Hrow & _).
  destruct Hrep as (Hf & _).
  destruct (move_to_pos_spec t (lines d) r c Hf ltac:(lia) Hr Hc) as (t' & E & H1 & H2 & _).
  by exists t'.
Qed.

Lemma move_to_end_refines t d :
  rep t d ->
  exists t', move_to_end t = Ok t' /\ rep t' (Spec.goto d INT_MAX INT_MAX) /\
    doc_boundary (Spec.goto d INT_MAX INT_MAX).
Proof. intros H. apply move_to_pos_refines; unfold INT_MAX; (done || lia). Qed.

Ltac use_adjust :=
  cbv zeta;
  match goal with
  | H : frame _ ?ls |- context [adjust_cursor ?t ?dir] =>
      let t' := fresh "t'" in let E := fresh "E" in
      let H1 := fresh "H" in let H2 := fresh "H" in
      destruct (adjust_place t ls _ _ dir H eq_refl eq_refl
                  ltac:(cbn [cursor_row set_cursor]; lia) ltac:((by left) || (by right)))
        as (t' & E & H1 & H2 & _);
      exists t'; split; [exact E | split; [exact H1 | exact H2]]
  end.

Lemma move_to_next_char_refines t d :
  rep t d ->
  exists t', move_to_next_char t = Ok t' /\ rep t' (Spec.next_char d) /\
    doc_boundary (Spec.next_char d).
Proof.
  intros Hrep. destruct (rep_line _ _ Hrep) as (l & b & Hl & Hcur & Hb & Hs & Hn & Hr & Hc & Hlen).
  destruct Hrep as (Hf & Er & Ec & _). unfold move_to_next_char, Spec.next_char.
  rewrite Hcur, Er, Hb, Ec. cbn [rbind]. rewrite Hn. cbn [rbind]. rewrite (frame_maxrow _ _ Hf).
  ztests; rewrite <- ?Ec, <- ?Er in *; use_adjust.
Qed.

Lemma move_to_previous_char_refines t d :
  rep t d ->
  exists t', move_to_previous_char t = Ok t' /\ rep t' (Spec.previous_char d) /\
    doc_boundary (Spec.previous_char d).
Proof.
  intros Hrep. destruct (rep_line _ _ Hrep) as (l & b & Hl & Hcur & Hb & Hs & Hn & Hr & Hc & Hlen).
  destruct Hrep as (Hf & Er & Ec & _). unfold move_to_previous_char, Spec.previous_char.
  rewrite Er, Ec. ztests; cbn [rbind].
  - use_adjust.
  - destruct (lookup_lt_is_Some_2 (lines d) (Z.to_nat (crow d - 1))) as [l' Hl']; [lia|].
    destruct (frame_line _ _ (crow d - 1) _ Hf ltac:(lia) Hl') as (b' & -> & Hs' & Hn').
    cbn [rbind]. rewrite Hn'. cbn [rbind]. rewrite Hl'. cbn [default from_option id]. use_adjust.
  - rewrite <- ?Ec, <- ?Er in *. use_adjust.
Qed.

Lemma move_to_next_line_refines t d :
  rep t d ->
  exists t', move_to_next_line t = Ok t' /\ rep t' (Spec.next_line d) /\
    doc_boundary (Spec.next_line d).
Proof.
  intros Hrep. destruct (rep_line _ _ Hrep) as (l & b & Hl & Hcur & Hb & Hs & Hn & Hr & Hc & Hlen).
  destruct Hrep as (Hf & Er & Ec & _). unfold move_to_next_line, Spec.next_line.
  rewrite Er, Ec, (frame_maxrow _ _ Hf). ztests; rewrite <- ?Ec, <- ?Er in *; use_adjust.
Qed.

Lemma move_to_last_line_refines t d :
  rep t d ->
  exists t', move_to_last_line t = Ok t' /\ rep t' (Spec.last_line d) /\
    doc_boundary (Spec.last_line d).
Proof.
  intros Hrep. destruct (rep_line _ _ Hrep) as (l & b & Hl & Hcur & Hb & Hs & Hn & Hr & Hc & Hlen).
  destruct Hrep as (Hf & Er & Ec & _). unfold move_to_last_line, Spec.last_line.
  rewrite Er, Ec. ztests; rewrite <- ?Ec, <- ?Er in *; use_adjust.
Qed.

(** * Insertion of a byte *)

Definition is_byte (c : Z) : Prop := 0 <= c <= 255.

Lemma is_char_byte c : is_char c -> is_byte c.
Proof. unfold is_char, is_byte. lia. Qed.

Lemma is_str_cstr x rest : Forall is_byte x -> is_str (x ++ 0 :: rest) (cstr x).
Proof.
  induction 1 as [|c x Hc Hx [IH1 [r IH2]]]; cbn [app cstr].
  - apply (is_str_intro []). constructor.
  - unfold is_byte in Hc. ztest.
    + subst c. apply (is_str_intro []). constructor.
    + split; [constructor; [unfold is_char; lia | done]|].
      exists r. cbn. by rewrite IH2.
Qed.

Lemma cstr_len x : (length (cstr x) <= length x)%nat.
Proof. induction x as [|c x IH]; cbn [cstr]; [lia|]. ztest; cbn [length]; lia. Qed.

Lemma cstr_id s : Forall is_char s -> cstr s = s.
Proof.
  induction 1 as [|c s Hc Hs IH]; cbn [cstr]; [done|].
  unfold is_char in Hc. zsimp. by rewrite IH.
Qed.

(** The block [putc_to_str] builds. *)
Lemma putc_block b l c ch :
  is_str b l -> 0 <= c <= zlen l ->
  (let! new_s := memmove (malloc (zlen l + 2)) 0 b 0 (zlen l) in
   let! new_s := for_down (zlen l + 1) c (fun i m => let! x := get m (i - 1) in put m i x) new_s in
   let! new_s := put new_s c (u8 ch) in
   put new_s (zlen l + 1) 0)
  = Ok ((take (Z.to_nat c) l ++ u8 ch :: drop (Z.to_nat c) l) ++ [0]).
Proof.
  intros Hs Hc. pose proof (is_str_len _ _ Hs) as Hbl.
  assert (Hcopy : memmove (malloc (zlen l + 2)) 0 b 0 (zlen l) = Ok (l ++ [undef; undef])).
  { unfold memmove. rewrite malloc_split by lia.
    rewrite <- (malloc_len (zlen l)) at 1 by lia.
    change (malloc (zlen l) ++ ?r) with ([] ++ malloc (zlen l) ++ r).
    erewrite copy_loop with (src := b) (s := 0);
      [|intros; done|lia|rewrite malloc_len by lia; lia].
    rewrite malloc_len by lia. by rewrite (slice_str b l), slice_all by (done || lia). }
  rewrite Hcopy. cbn [rbind].
  set (l1 := take (Z.to_nat c) l). set (l2 := drop (Z.to_nat c) l).
  assert (H1 : zlen l1 = c) by (subst l1; llia).
  assert (Hl : l = l1 ++ l2) by (subst l1 l2; by rewrite take_drop).
  clearbody l1 l2. subst c l.
  assert (Hgap : exists x, for_down (zlen (l1 ++ l2) + 1) (zlen l1)
                   (fun i m => let! x := get m (i - 1) in put m i x)
                   ((l1 ++ l2) ++ [undef; undef]) = Ok (l1 ++ x :: l2 ++ [undef])).
  { rewrite <- app_assoc. destruct l2 as [|x l2'].
    - exists undef. rewrite app_nil_r. cbn [app].
      replace (zlen l1 + 1) with (zlen l1 + zlen (@nil Z) + 1) by (cbn; lia).
      apply (shift_right_loop l1 [] [] undef undef). done.
    - exists x. replace (zlen (l1 ++ x :: l2') + 1) with (zlen l1 + zlen (l2' ++ [undef]) + 1) by llia.
      pose proof (shift_right_loop l1 (l2' ++ [undef]) [] x undef
        (fun i m => let! x := get m (i - 1) in put m i x) ltac:(done)) as Hsr.
      cbn [app] in Hsr |- *. rewrite <- app_assoc in Hsr. cbn [app] in Hsr.
      rewrite app_nil_r in Hsr. exact Hsr. }
  destruct Hgap as [x Hgap]. rewrite Hgap. cbn [rbind].
  rewrite put_middle by done. cbn [rbind].
  replace (l1 ++ u8 ch :: l2 ++ [undef]) with ((l1 ++ u8 ch :: l2) ++ undef :: [])
    by (rewrite <- app_assoc; done).
  rewrite put_middle by llia. done.
Qed.

Lemma putc_to_str_refines t d ch :
  rep t d -> zlen (Spec.cur_line d) + 1 < INT_MAX ->
  exists t', putc_to_str t ch = Ok t' /\ frame t' (lines (Spec.putc d ch)) /\
    cursor_row t' = crow d /\ cursor_col t' = ccol d.
Proof.
  intros Hrep Hroom.
  destruct (rep_line _ _ Hrep) as (l & b & Hl & Hcur & Hb & Hs & Hn & Hr & Hc & Hlen).
  rewrite Hcur in Hroom. destruct Hrep as (Hf & Er & Ec & _).
  unfold putc_to_str. rewrite Er, Ec, Hb. cbn [rbind]. rewrite Hn. cbn [rbind].
  pose proof (putc_block b l (ccol d) ch Hs Hc) as Hblk.
  repeat (rinv Hblk; cbn [rbind]). rewrite Hblk. cbn [rbind].
  set (x := take (Z.to_nat (ccol d)) l ++ u8 ch :: drop (Z.to_nat (ccol d)) l).
  assert (Hx : Forall is_byte x).
  { destruct Hs as [Hs _]. subst x. apply Forall_app. split.
    - apply Forall_take. eapply Forall_impl; [exact Hs | apply is_char_byte].
    - constructor; [pose proof (u8_range ch); unfold is_byte; lia|].
      apply Forall_drop. eapply Forall_impl; [exact Hs | apply is_char_byte]. }
  destruct (frame_put t (lines d) (crow d) (x ++ [0]) (cstr x)) as (dd & -> & Hframe).
  - done.
  - lia.
  - by apply is_str_cstr.
  - pose proof (cstr_len x). subst x. list_len. lia.
  - cbn [rbind]. eexists. split; [done|]. unfold Spec.putc. rewrite Hcur. done.
Qed.
