(* ===== verification/TextRefine.v ===== *)
(** Refinement of the editing operations of textframe.c: deletion of a
    character, line split, line join, replacement of the text. *)
From S2P Require Import Prelude Ulib Sys Textframe TextLemmas TextSpec.

(** * Deletion of a character *)

Lemma shift_left_block l1 l2 z rest x :
  shift_left (l1 ++ x :: l2 ++ z :: rest) (zlen l1) (zlen l1 + zlen l2 + 1)
    = Ok (l1 ++ l2 ++ z :: z :: rest).
Proof.
  unfold shift_left.
  replace (l1 ++ x :: l2 ++ z :: rest) with (l1 ++ x :: (l2 ++ [z]) ++ rest)
    by (by rewrite <- app_assoc).
  erewrite shift_left_loop; [|intros; done|llia].
  rewrite last_snoc. cbn [default from_option id]. by rewrite <- app_assoc.
Qed.

(** The two passes of [backspace_to_str] on a block that holds [l]. *)
Lemma backspace_block b l p (han : bool) :
  is_str b l -> 0 <= p <= zlen l -> (p = zlen l -> han = false) ->
  exists b', (let! s := shift_left b p (zlen l) in
              if han then shift_left s p (zlen l) else Ok s) = Ok b' /\
    is_str b' (take (Z.to_nat p) l ++ drop (Z.to_nat (p + if han then 2 else 1)) l).
Proof.
  intros [Hl [rest ->]] Hp Hhan. destruct (Z.eq_dec p (zlen l)) as [->|Hne].
  - rewrite (Hhan eq_refl). unfold shift_left. rewrite for_up_done by lia. cbn [rbind].
    eexists. split; [done|]. rewrite take_ge by lia. rewrite drop_ge by lia.
    rewrite app_nil_r. by apply is_str_intro.
  - destruct (split_at l p) as (l1 & x & l2 & -> & ->); [lia|].
    replace (zlen (l1 ++ x :: l2)) with (zlen l1 + zlen l2 + 1) by llia.
    replace ((l1 ++ x :: l2) ++ 0 :: rest) with (l1 ++ x :: l2 ++ 0 :: rest)
      by (by rewrite <- app_assoc).
    rewrite shift_left_block. cbn [rbind].
    apply Forall_app in Hl as [Hl1 Hl2]. inversion Hl2 as [|? ? Hx Hl2']; subst.
    rewrite take_app_len by lia.
    destruct han.
    + destruct l2 as [|y l3].
      * change (l1 ++ [] ++ 0 :: 0 :: rest) with (l1 ++ 0 :: [] ++ 0 :: rest).
        replace (zlen l1 + zlen (@nil Z) + 1) with (zlen l1 + zlen (@nil Z) + 1) by lia.
        rewrite shift_left_block. eexists. split; [done|].
        rewrite drop_ge by llia. rewrite app_nil_r. by apply (is_str_intro l1).
      * pose proof (shift_left_block l1 (l3 ++ [0]) 0 rest y) as E.
        replace (zlen l1 + zlen (l3 ++ [0]) + 1) with (zlen l1 + zlen (y :: l3) + 1) in E by llia.
        replace (l1 ++ y :: (l3 ++ [0]) ++ 0 :: rest) with (l1 ++ (y :: l3) ++ 0 :: 0 :: rest) in E
          by (cbn; by rewrite <- app_assoc).
        rewrite E. eexists. split; [done|].
        replace (Z.to_nat (zlen l1 + 2)) with (length l1 + 2)%nat by lia.
        rewrite drop_app_add. cbn [drop].
        replace (l1 ++ (l3 ++ [0]) ++ 0 :: 0 :: rest) with ((l1 ++ l3) ++ 0 :: 0 :: 0 :: rest)
          by (by rewrite <- !app_assoc).
        apply is_str_intro. inversion Hl2'; subst. by apply Forall_app.
    + eexists. split; [done|].
      replace (Z.to_nat (zlen l1 + 1)) with (length l1 + 1)%nat by lia.
      rewrite drop_app_add. cbn [drop].
      rewrite app_assoc. apply is_str_intro. by apply Forall_app.
Qed.

Lemma char_width_range l p : 1 <= Spec.char_width l p <= 2.
Proof. unfold Spec.char_width. destruct (l !! Z.to_nat p); [ztest|]; lia. Qed.

Lemma backspace_to_str_refines t d :
  rep t d ->
  exists t', backspace_to_str t = Ok t' /\ frame t' (lines (Spec.delete_char d)) /\
    cursor_row t' = crow d /\ cursor_col t' = ccol (Spec.delete_char d).
Proof.
  intros Hrep. destruct (rep_line _ _ Hrep) as (l & b & Hl & Hcur & Hb & Hs & Hn & Hr & Hc & Hlen).
  destruct Hrep as (Hf & Er & Ec & _). unfold backspace_to_str, adjust_cursor.
  rewrite Er, Ec, (adjust_in_row t (lines d) (crow d) l) by (done || lia).
  cbn [rbind]. set (p := adjust_col l (ccol d) 0 1).
  assert (Hp : 0 <= p <= zlen l) by (apply adjust_col_range; [by left | done]).
  change (line (set_cursor t (crow d) p) ?r) with (line t r).
  cbn [set_cursor cursor_row cursor_col data]. rewrite Hb. cbn [rbind]. rewrite Hn. cbn [rbind].
  set (han := match l !! Z.to_nat p with Some ch => 160 <=? ch | None => false end).
  assert (Hhan : (if (0 <=? p) && (p <? zlen l)
                  then let! ch := get b p in Ok (160 <=? ch) else Ok false) = Ok han).
  { subst han. destruct (Z.ltb_spec p (zlen l)).
    - zsimp. destruct (is_str_get b l p Hs) as (ch & -> & -> & _); [lia|]. done.
    - rewrite andb_false_r. by rewrite lookup_ge_None_2 by lia. }
  rewrite Hhan. cbn [rbind].
  destruct (backspace_block b l p han Hs Hp) as (b' & Hblk & Hs').
  { intros E. subst han. by rewrite lookup_ge_None_2 by lia. }
  rinv Hblk. cbn [rbind]. rewrite Hblk. cbn [rbind].
  destruct (frame_put t (lines d) (crow d) b'
    (take (Z.to_nat p) l ++ drop (Z.to_nat (p + Spec.char_width l p)) l)) as (dd & E2 & Hframe).
  - done.
  - lia.
  - replace (Spec.char_width l p) with (if han then 2 else 1); [done|].
    unfold Spec.char_width. subst han. by destruct (l !! Z.to_nat p).
  - pose proof (char_width_range l p). list_len. lia.
  - rewrite E2. cbn [rbind]. eexists. split; [done|]. unfold Spec.delete_char. rewrite Hcur. done.
Qed.

(** * Splitting a line *)

Lemma gap_loop {A} (l1 seg rest : list A) (y : A) f :
  (forall i m, f i m = let! c := get m (i - 1) in put m i c) ->
  exists z, for_down (zlen l1 + zlen seg) (zlen l1) f (l1 ++ seg ++ y :: rest)
            = Ok (l1 ++ z :: seg ++ rest).
Proof.
  intros Hf. destruct seg as [|x mid].
  - exists y. rewrite for_down_done by (cbn; lia). done.
  - exists x. replace (zlen l1 + zlen (x :: mid)) with (zlen l1 + zlen mid + 1) by llia.
    by rewrite shift_right_loop.
Qed.

(** The array after the capacity test: the old slots, and a free one. *)
Lemma grow_slots t ls :
  frame t ls -> 0 < zlen ls ->
  exists bs y rest t', 
    (if maxrow_capacity t <=? maxrow t + 1 then
       let! new_data := copy_slots (replicate (Z.to_nat (maxrow t * 2)) None) (data t) (maxrow t) in
       Ok (new_data, set_capacity t (maxrow t * 2))
     else Ok (data t, t)) = Ok ((Some <$> bs) ++ y :: rest, t') /\
    Forall2 is_str bs ls /\ maxrow_capacity t' <= zlen ((Some <$> bs) ++ y :: rest) /\
    cursor_row t' = cursor_row t /\ cursor_col t' = cursor_col t.
Proof.
  intros ((bs & rest & Hd & Hbs) & Hm & Hcap & Hfit) Hpos.
  pose proof (Forall2_length _ _ _ Hbs) as Hbl. rewrite Hm, Hd in *.
  ztest.
  - assert (E : copy_slots (replicate (Z.to_nat (zlen ls * 2)) None) ((Some <$> bs) ++ rest) (zlen ls)
                = Ok ((Some <$> bs) ++ replicate (length ls) None)).
    { unfold copy_slots. replace (Z.to_nat (zlen ls * 2)) with (length ls + length ls)%nat by lia.
      rewrite replicate_add.
      pose proof (copy_prefix (Some <$> bs) rest [] (replicate (length ls) None)
        (replicate (length ls) None) (fun i m => let! s := get ((Some <$> bs) ++ rest) i in put m i s)
        ltac:(done) ltac:(by rewrite length_replicate, length_fmap)) as E.
      rewrite length_fmap, Hbl in E. exact E. }
    rewrite E. cbn [rbind].
    destruct (length ls) as [|n] eqn:En; [lia|]. cbn [replicate].
    eexists bs, None, (replicate n None), _. split; [done|]. split; [done|].
    cbn [set_capacity maxrow_capacity cursor_row cursor_col]. split; [|done].
    rewrite length_app, length_fmap. cbn [length]. rewrite length_replicate. lia.
  - destruct rest as [|y rest].
    { exfalso. llia. }
    eexists bs, y, rest, t. split; [done|]. split; [done|]. split; [done|]. done.
Qed.

(** Cutting [l] at column [c]: the block of the first part is the old block
    with a NUL at [c]. *)
Lemma cut_block b l c :
  is_str b l -> 0 <= c <= zlen l ->
  exists b', put b c 0 = Ok b' /\ is_str b' (take (Z.to_nat c) l).
Proof.
  intros [Hl [rest ->]] Hc.
  assert (Hlt : 0 <= c < zlen (l ++ 0 :: rest)) by llia.
  destruct (split_at _ _ Hlt) as (l1 & x & l2 & E & Hl1).
  assert (Htake : l1 = take (Z.to_nat c) l).
  { replace l1 with (take (Z.to_nat c) (l1 ++ x :: l2)) by (by apply take_app_len).
    rewrite <- E. apply take_app_le. lia. }
  rewrite E, put_middle by done. eexists. split; [done|]. subst l1.
  apply is_str_intro. by apply Forall_take.
Qed.

Lemma split_lines {A} (ls : list A) (bs : list bytes) (R : bytes -> A -> Prop) r l :
  Forall2 R bs ls -> 0 <= r -> ls !! Z.to_nat r = Some l ->
  exists b1 b b2, bs = b1 ++ b :: b2 /\ r = zlen b1 /\ R b l /\
    Forall2 R b1 (take (Z.to_nat r) ls) /\ Forall2 R b2 (drop (S (Z.to_nat r)) ls).
Proof.
  intros H Hr Hl. rewrite <- (take_drop_middle _ _ _ Hl) in H.
  apply Forall2_app_inv_r in H as (b1 & k & H1 & H2 & ->).
  apply Forall2_cons_inv_r in H2 as (b & b2 & Hb & H2 & ->).
  exists b1, b, b2. split; [done|]. split; [|done].
  apply Forall2_length in H1. apply lookup_lt_Some in Hl. list_len. lia.
Qed.

Lemma slice_tail {A} (l : list A) c : 0 <= c <= zlen l -> slice l c (zlen l - c) = drop (Z.to_nat c) l.
Proof. intros H. unfold slice. apply take_ge. llia. Qed.

Lemma new_line_to_editor_refines t d :
  rep t d -> zlen (lines d) + 1 < 2 ^ 30 ->
  exists t', new_line_to_editor t = Ok t' /\ rep t' (Spec.newline d) /\
    doc_boundary (Spec.newline d).
Proof.
  intros Hrep Hroom.
  destruct (rep_line _ _ Hrep) as (l & b & Hl & Hcur & Hb & Hs & Hn & Hr & Hc & Hlen).
  destruct Hrep as (Hf & Er & Ec & _). unfold new_line_to_editor, adjust_cursor.
  rewrite Er, Ec, (adjust_in_row t (lines d) (crow d) l) by (done || lia).
  cbn [rbind]. set (p := adjust_col l (ccol d) 0 1).
  assert (Hp : 0 <= p <= zlen l) by (apply adjust_col_range; [by left | done]).
  assert (Hf' : frame (set_cursor t (crow d) p) (lines d)) by by apply frame_set_cursor.
  destruct (grow_slots _ _ Hf') as (bs & y & rest & t1 & Hg & Hbs & Hcap & Er1 & Ec1); [lia|].
  cbn [set_cursor maxrow cursor_row cursor_col] in Hg, Er1, Ec1. rewrite Hg. clear Hg.
  cbn [rbind]. rewrite Er1, Ec1, (frame_maxrow _ _ Hf).
  pose proof (Forall2_length _ _ _ Hbs) as Hbl.
  destruct (split_lines _ _ _ (crow d) l Hbs ltac:(lia) Hl) as (b1 & bc & b2 & -> & Hb1 & Hbc & H1 & H2).
  (* open a slot after the current row *)
  assert (Harr : (Some <$> (b1 ++ bc :: b2)) ++ y :: rest
                 = (Some <$> (b1 ++ [bc])) ++ (Some <$> b2) ++ y :: rest).
  { rewrite !fmap_app. cbn. by rewrite <- !app_assoc. }
  rewrite Harr.
  destruct (gap_loop (Some <$> (b1 ++ [bc])) (Some <$> b2) rest y
     (fun r m => let! s := get m (r - 1) in put m r s) ltac:(done)) as [z Hgap].
  replace (zlen (Some <$> b1 ++ [bc]) + zlen (Some <$> b2)) with (zlen (lines d)) in Hgap by llia.
  replace (zlen (Some <$> b1 ++ [bc])) with (crow d + 1) in Hgap by llia.
  rewrite Hgap. cbn [rbind].
  (* read the current line *)
  assert (Hcl : line_of ((Some <$> b1 ++ [bc]) ++ z :: (Some <$> b2) ++ rest) (crow d) = Ok bc).
  { apply line_of_split; [lia|]. apply lookup_middle. done. }
  rewrite Hcl. cbn [rbind]. rewrite (strlen_str _ _ Hbc). cbn [rbind].
  rewrite (substr_spec bc l) by (done || (unfold INT_MAX in *; lia)). cbn [rbind].
  rewrite slice_tail by done.
  rewrite put_middle by llia. cbn [rbind].
  destruct (cut_block bc l p Hbc Hp) as (bc' & -> & Hbc'). cbn [rbind].
  assert (Hput : put ((Some <$> b1 ++ [bc]) ++ Some (drop (Z.to_nat p) l ++ [0]) :: (Some <$> b2) ++ rest)
                   (crow d) (Some bc')
                 = Ok ((Some <$> b1 ++ bc' :: (drop (Z.to_nat p) l ++ [0]) :: b2) ++ rest)).
  { rewrite fmap_app, <- app_assoc. cbn [fmap list_fmap app].
    rewrite put_middle by llia. rewrite fmap_app, <- app_assoc. done. }
  rewrite Hput. cbn [rbind].
  set (t2 := set_maxrow _ _).
  set (ls' := take (Z.to_nat (crow d)) (lines d) ++
              take (Z.to_nat p) l :: drop (Z.to_nat p) l :: drop (S (Z.to_nat (crow d))) (lines d)).
  assert (Hls' : zlen ls' = zlen (lines d) + 1) by (subst ls'; llia).
  assert (Hf2 : frame t2 ls').
  { pose proof (frame_fits _ _ Hf) as [Hr1 Hr2].
    split; [|split; [|split]].
    - exists (b1 ++ bc' :: (drop (Z.to_nat p) l ++ [0]) :: b2), rest. split; [done|].
      apply Forall2_app; [done|]. constructor; [done|]. constructor; [|done].
      destruct Hs as [Hs _]. apply is_str_intro. by apply Forall_drop.
    - cbn. lia.
    - subst t2. cbn [set_maxrow set_data maxrow_capacity data]. clear Hput Hgap Hcl. llia.
    - split; [lia|]. subst ls'. apply Forall_app. split; [by apply Forall_take|].
      constructor; [llia|]. constructor; [llia|]. by apply Forall_drop. }
  destruct (move_to_pos_spec t2 ls' (crow d + 1) 0 Hf2) as (t' & E & Hrep' & Hb' & _);
    [lia | lia | lia |].
  exists t'. split; [exact E|].
  assert (Hgoto : Spec.goto (mk_doc ls' 0 0) (crow d + 1) 0 = Spec.newline d).
  { unfold Spec.goto, Spec.newline. rewrite Hcur. cbn [lines]. fold p ls'.
    unfold Spec.clip_row. zsimp. rewrite Z.min_l by lia.
    destruct (lookup_lt_is_Some_2 ls' (Z.to_nat (crow d + 1))) as [l' Hl']; [lia|].
    rewrite Hl'. cbn [default from_option id]. unfold Spec.clip_col. zsimp.
    rewrite Z.min_l by lia. apply (place_id _ _ _ _ l'); [done|]. apply boundary_zero. }
  by rewrite Hgoto in *.
Qed.

(** * Joining lines *)

(** The slots of [move_cur_line_to_prev_line]: row [r] is closed up. *)
Lemma join_slots (b1 b2 : list bytes) prev cur joined rest n :
  n = zlen b1 + 2 + zlen b2 ->
  (let! d := put ((Some <$> b1 ++ prev :: cur :: b2) ++ rest) (zlen b1) (Some joined) in
   for_up (zlen b1 + 1) (n - 1) (fun i m => let! s := get m (i + 1) in put m i s) d)
  = Ok ((Some <$> b1 ++ joined :: b2) ++ default (Some cur) (last (Some <$> b2)) :: rest).
Proof.
  intros ->. rewrite fmap_app, <- app_assoc. cbn [fmap list_fmap app].
  rewrite put_middle by (by rewrite length_fmap). cbn [rbind].
  replace ((Some <$> b1) ++ Some joined :: Some cur :: list_fmap _ _ Some b2 ++ rest)
    with (((Some <$> b1) ++ [Some joined]) ++ Some cur :: (Some <$> b2) ++ rest)
    by (by rewrite <- app_assoc).
  replace (zlen b1 + 1) with (zlen ((Some <$> b1) ++ [Some joined])) by llia.
  rewrite shift_left_loop; [|done|llia].
  rewrite fmap_app, <- !app_assoc. done.
Qed.

Lemma move_cur_line_to_prev_line_refines t d :
  rep t d -> doc_boundary d -> zlen (Spec.cur_line d) + zlen (Spec.cur_line (Spec.previous_char d)) < INT_MAX ->
  (0 < crow d -> ccol d = 0) ->
  exists t', move_cur_line_to_prev_line t = Ok t' /\ rep t' (Spec.join d) /\
    doc_boundary (Spec.join d).
Proof.
  intros Hrep Hbd Hroom Hcol0.
  destruct (rep_line _ _ Hrep) as (l & b & Hl & Hcur & Hb & Hs & Hn & Hr & Hc & Hlen).
  pose proof Hrep as Hrep0. destruct Hrep as (Hf & Er & Ec & Hcin).
  unfold move_cur_line_to_prev_line, Spec.join. rewrite Er, (frame_maxrow _ _ Hf).
  zsimp. rewrite andb_true_r. ztest; [|by exists t].
  specialize (Hcol0 ltac:(lia)).
  destruct (lookup_lt_is_Some_2 (lines d) (Z.to_nat (crow d - 1))) as [lp Hlp]; [lia|].
  assert (Hprev : Spec.cur_line (Spec.previous_char d) = lp).
  { unfold Spec.previous_char. rewrite Hcol0. zsimp. unfold Spec.cur_line, Spec.place.
    cbn [lines crow]. by rewrite Hlp. }
  rewrite Hcur, Hprev in Hroom.
  destruct (frame_line _ _ (crow d - 1) _ Hf ltac:(lia) Hlp) as (bp & Hbp & Hsp & Hnp).
  rewrite Hb, Hbp. cbn [rbind]. rewrite Hnp, Hn. cbn [rbind].
  rewrite (strcat_spec bp b lp l) by done. cbn [rbind].
  destruct Hf as ((bs & rest & Hd & Hbs) & Hm & Hcap & Hfit).
  destruct (split_lines _ _ _ (crow d - 1) lp Hbs ltac:(lia) Hlp)
    as (b1 & bp' & k & -> & Hb1 & Hbp' & H1 & H2).
  replace (S (Z.to_nat (crow d - 1))) with (Z.to_nat (crow d)) in H2 by lia.
  rewrite (drop_S _ _ _ Hl) in H2. apply Forall2_cons_inv_r in H2 as (bc & b2 & Hbc & H2 & ->).
  rewrite Hd.
  pose proof (Forall2_length _ _ _ Hbs) as Hbl.
  pose proof (join_slots b1 b2 bp' bc ((lp ++ l) ++ [0]) rest (zlen (lines d)) ltac:(llia)) as Hj.
  rewrite <- Hb1 in Hj. replace (crow d - 1 + 1) with (crow d) in Hj by lia.
  rinv Hj. cbn [rbind]. rewrite Hj. cbn [rbind]. clear E Hj.
  set (t2 := set_maxrow _ _). set (joined := lp ++ l) in *.
  replace (Z.to_nat (crow d) - 1)%nat with (Z.to_nat (crow d - 1)) by lia.
  rewrite Hlp, Hcur. cbn [default from_option id]. fold joined.
  set (ls' := take (Z.to_nat (crow d - 1)) (lines d) ++ joined :: drop (S (Z.to_nat (crow d))) (lines d)).
  assert (Hls' : zlen ls' = zlen (lines d) - 1) by (subst ls'; llia).
  assert (Hj : ls' !! Z.to_nat (crow d - 1) = Some joined) by (apply lookup_middle; llia).
  assert (Hf2 : frame t2 ls').
  { destruct Hfit as [Hr1 Hr2]. split; [|split; [|split]].
    - eexists (b1 ++ (joined ++ [0]) :: b2), _. split; [done|].
      apply Forall2_app; [done|]. constructor; [|done].
      destruct Hs as [Hs _], Hsp as [Hsp _]. apply is_str_intro. by apply Forall_app.
    - cbn. lia.
    - subst t2. cbn [set_maxrow set_data maxrow_capacity data]. rewrite Hd in Hcap. llia.
    - split; [lia|]. subst ls'. apply Forall_app. split; [by apply Forall_take|].
      constructor; [subst joined; llia|]. by apply Forall_drop. }
  destruct (move_to_pos_spec t2 ls' (crow d - 1) (-1) Hf2) as (t' & E & Hrep' & Hb' & _);
    [lia | lia | lia |].
  exists t'. split; [exact E|].
  assert (Hgoto : Spec.goto (mk_doc ls' 0 0) (crow d - 1) (-1) = mk_doc ls' (crow d - 1) (zlen joined)).
  { unfold Spec.goto. cbn [lines]. unfold Spec.clip_row. zsimp. rewrite Z.min_l by lia.
    rewrite Hj. cbn [default from_option id]. apply (place_id _ _ _ _ joined); [done|].
    apply boundary_end. }
  by rewrite Hgoto in *.
Qed.

(** * Whole-text operations *)

Lemma free_lines_ok t ls : frame t ls -> free_lines t = Ok tt.
Proof.
  intros Hf. unfold free_lines. rewrite (frame_maxrow _ _ Hf).
  destruct (ensures_inv _ _ (for_up_inv (fun _ _ => True) 0 (zlen ls)
    (fun i _ => let! _ := line t i in Ok tt) tt ltac:(lia) I
    ltac:(intros i [] Hi _; destruct (lookup_lt_is_Some_2 ls (Z.to_nat i) ltac:(lia)) as [l Hl];
          destruct (frame_line _ _ i _ Hf ltac:(lia) Hl) as (b & -> & _); done)))
    as ([] & E & _).
  exact E.
Qed.

Lemma set_str_block str s :
  is_str str s ->
  (let! n := strlen str in strcpy (malloc (n + 1)) 0 str) = Ok (s ++ [0]).
Proof.
  intros Hs. rewrite (strlen_str _ _ Hs). cbn [rbind]. destruct Hs as [Hs [rest ->]].
  pose proof (strcpy_app [] (malloc (zlen s + 1)) [] s rest Hs) as E.
  cbn [app length] in E. rewrite app_nil_r in E. apply E. unfold malloc. llia.
Qed.

(** [LineEdit_set_str] on a frame that holds lines, or on a zeroed one. *)
Lemma LineEdit_set_str_refines t ls str s :
  frame t ls -> is_str str s -> zlen s < INT_MAX ->
  exists t', LineEdit_set_str t str = Ok t' /\ rep t' (mk_doc [s] 0 0).
Proof.
  intros Hf Hs Hlen. unfold LineEdit_set_str.
  pose proof (set_str_block _ _ Hs) as E. rinv E. cbn [rbind]. rewrite E. cbn [rbind].
  rewrite (free_lines_ok _ _ Hf). cbn [rbind]. eexists. split; [done|].
  split; [|split; [done|]; split; [done|]].
  - split; [|split; [done|]; split; [cbn; lia|]].
    + exists [s ++ [0]], []. split; [done|]. constructor; [|constructor].
      destruct Hs as [Hs _]. by apply is_str_intro.
    + split; [cbn; lia|]. by repeat constructor.
  - exists s. cbn [lines crow ccol]. split; [lia|]. split; [done|]. lia.
Qed.

Lemma zero_frame : frame zero_textframe [].
Proof.
  split; [exists [], []; split; [done | constructor]|].
  split; [done|]. split; [cbn; lia|]. split; [cbn; lia | constructor].
Qed.

Lemma clear_cur_line_refines t d :
  rep t d -> exists t', clear_cur_line t = Ok t' /\ rep t' (Spec.clear_line d).
Proof.
  intros Hrep.
  destruct (rep_line _ _ Hrep) as (l & b & Hl & Hcur & Hb & Hs & Hn & Hr & Hc & Hlen).
  destruct Hrep as (Hf & Er & Ec & _). unfold clear_cur_line.
  rewrite Er, (frame_maxrow _ _ Hf). zsimp. rewrite Hb. cbn [rbind].
  change (put (malloc 1) 0 0) with (@Ok bytes [0]). cbn [rbind].
  destruct (frame_put t (lines d) (crow d) [0] []) as (dd & -> & Hframe);
    [done | lia | apply (is_str_intro []); constructor | cbn; lia |].
  cbn [rbind]. eexists. split; [done|]. unfold Spec.clear_line.
  split; [done|]. split; [done|]. split; [done|].
  exists []. cbn [lines crow ccol]. split; [lia|]. split; [|cbn; lia].
  apply list_lookup_insert_eq. lia.
Qed.
