(* ===== verification/TextRange.v ===== *)
(** Lines that are sequences of whole characters: an ASCII byte, or two bytes
    of a GBK character.  Cutting such a line at a boundary gives two such
    lines, so no operation that cuts at boundaries splits a character. *)
From stdpp Require Import sets.
From S2P Require Import Prelude Ulib Sys Textframe TextLemmas TextSpec TextRefine.

Inductive gbk : bytes -> Prop :=
  | gbk_nil : gbk []
  | gbk_ascii c l : c < 160 -> gbk l -> gbk (c :: l)
  | gbk_han a b l : 160 <= a -> 160 <= b -> gbk l -> gbk (a :: b :: l).
#[export] Hint Constructors gbk : cmodel.

Lemma gbk_app l k : gbk l -> gbk k -> gbk (l ++ k).
Proof. intros Hl Hk. induction Hl; cbn [app]; auto with cmodel. Qed.

Lemma gbk_printable l : Forall (fun c => c < 160) l -> gbk l.
Proof. intros H. induction H; auto with cmodel. Qed.

Lemma hi_run_rev_app k m :
  hi_run_rev (k ++ m) =
    if forallb (fun c => 160 <=? c) k then zlen k + hi_run_rev m else hi_run_rev k.
Proof.
  induction k as [|c k IH]; cbn [app hi_run_rev forallb length]; [lia|].
  ztest; [|done]. cbn [andb]. rewrite IH. destruct (forallb _ k); lia.
Qed.

Lemma hi_run_rev_all k : forallb (fun c => 160 <=? c) k = true -> hi_run_rev k = zlen k.
Proof. intros H. rewrite <- (app_nil_r k), hi_run_rev_app, H, app_nil_r. cbn. lia. Qed.

Lemma even_2 n : Z.even (n + 2) = Z.even n.
Proof. rewrite Z.even_add. cbn. by destruct (Z.even n). Qed.

(** A run of GBK bytes that ends a line of whole characters is even. *)
Lemma gbk_run_even l : gbk l -> Z.even (hi_run_rev (reverse l)) = true.
Proof.
  intros H. induction H as [|c l Hc Hl IH|a b l Ha Hb Hl IH]; [done| |].
  - rewrite reverse_cons, hi_run_rev_app. cbn [hi_run_rev]. zsimp. rewrite Z.add_0_r.
    destruct (forallb _ _) eqn:E; [|done]. by rewrite <- hi_run_rev_all.
  - rewrite !reverse_cons, <- app_assoc. cbn [app]. rewrite hi_run_rev_app. cbn [hi_run_rev]. zsimp.
    destruct (forallb _ _) eqn:E; [|done]. rewrite <- hi_run_rev_all by done.
    by replace (1 + (1 + 0)) with 2 by lia; rewrite even_2.
Qed.

Lemma hi_run_at l k ch :
  hi_run (l ++ ch :: k) (zlen l) = if 160 <=? ch then 1 + hi_run_rev (reverse l) else 0.
Proof.
  unfold hi_run. replace (Z.to_nat (zlen l + 1)) with (length (l ++ [ch])) by llia.
  change (l ++ ch :: k) with (l ++ [ch] ++ k). rewrite app_assoc, take_app_length, reverse_snoc. done.
Qed.

Lemma gbk_prefix_boundary l k : gbk l -> boundary (l ++ k) (zlen l).
Proof.
  intros Hl. split; [llia|]. intros ch Hch Hhi. destruct k as [|c k].
  { rewrite app_nil_r, Nat2Z.id in Hch. apply lookup_lt_Some in Hch. lia. }
  rewrite lookup_middle in Hch by done. injection Hch as <-. rewrite hi_run_at. zsimp.
  rewrite Z.add_comm, Z.odd_add, <- Z.negb_even, gbk_run_even by done. done.
Qed.

Lemma gbk_cut l k : gbk (l ++ k) -> boundary (l ++ k) (zlen l) -> gbk l /\ gbk k.
Proof.
  intros Hg [_ Hb].
  assert (Hodd : forall c k', k = c :: k' -> 160 <= c -> Z.even (hi_run_rev (reverse l)) = true).
  { intros c k' -> Hc. specialize (Hb c). rewrite lookup_middle in Hb by done.
    specialize (Hb eq_refl Hc). rewrite hi_run_at in Hb. revert Hb. zsimp.
    rewrite Z.add_comm, Z.odd_add. cbn. rewrite <- Z.negb_even. by destruct (Z.even _). }
  clear Hb. remember (l ++ k) as s eqn:Es. revert l k Es Hodd.
  induction Hg as [|c s Hc Hs IH|a b s Ha Hb Hs IH]; intros l k Es Hodd.
  - destruct l, k; try discriminate Es. auto with cmodel.
  - destruct l as [|x l]; [cbn in Es; subst k; auto with cmodel|]. injection Es as <- ->.
    destruct (IH l k eq_refl) as [H1 H2]; [|auto with cmodel].
    intros c' k' E Hc'. specialize (Hodd c' k' E Hc'). rewrite reverse_cons, hi_run_rev_app in Hodd.
    revert Hodd. cbn [hi_run_rev]. zsimp. rewrite Z.add_0_r. destruct (forallb _ _) eqn:E'; [|done].
    by rewrite <- hi_run_rev_all.
  - destruct l as [|x l]; [cbn in Es; subst k; auto with cmodel|]. injection Es as <- Es.
    destruct l as [|x l].
    + cbn in Es. subst k. specialize (Hodd b s eq_refl Hb). cbn in Hodd. revert Hodd. zsimp. done.
    + injection Es as <- ->. destruct (IH l k eq_refl) as [H1 H2]; [|auto with cmodel].
      intros c' k' E Hc'. specialize (Hodd c' k' E Hc').
      rewrite !reverse_cons, <- app_assoc in Hodd. cbn [app] in Hodd. rewrite hi_run_rev_app in Hodd.
      revert Hodd. cbn [hi_run_rev]. zsimp. destruct (forallb _ _) eqn:E'; [|done].
      rewrite <- hi_run_rev_all by done. replace (1 + (1 + 0)) with 2 by lia. by rewrite even_2.
Qed.

Lemma gbk_cut_at l c :
  gbk l -> boundary l c -> gbk (take (Z.to_nat c) l) /\ gbk (drop (Z.to_nat c) l).
Proof.
  intros Hg Hb. apply gbk_cut; rewrite take_drop; [done|].
  replace (zlen (take (Z.to_nat c) l)) with c; [done|]. destruct Hb. llia.
Qed.

(** Removing the character at a boundary. *)
Lemma gbk_remove l p :
  gbk l -> boundary l p ->
  gbk (take (Z.to_nat p) l ++ drop (Z.to_nat (p + Spec.char_width l p)) l).
Proof.
  intros Hg Hb. destruct (gbk_cut_at l p Hg Hb) as [H1 H2]. apply gbk_app; [done|].
  unfold Spec.char_width. destruct Hb as [Hp _]. destruct (l !! Z.to_nat p) as [ch|] eqn:Hch.
  - rewrite (drop_S _ _ _ Hch) in H2. inversion H2 as [|? ? Hc Hr|? ? ? Ha Hb' Hr]; subst.
    + zsimp. by replace (Z.to_nat (p + 1)) with (S (Z.to_nat p)) by lia.
    + zsimp. replace (Z.to_nat (p + 2)) with (S (Z.to_nat p) + 1)%nat by lia.
      rewrite <- drop_drop. by rewrite <- H0.
  - apply lookup_ge_None in Hch. rewrite drop_ge by lia. constructor.
Qed.

Lemma gbk_remove_boundary l p k : gbk l -> boundary l p -> boundary (take (Z.to_nat p) l ++ k) p.
Proof.
  intros Hg Hb. destruct (gbk_cut_at l p Hg Hb) as [H1 _].
  replace p with (zlen (take (Z.to_nat p) l)) at 2; [by apply gbk_prefix_boundary|].
  destruct Hb. llia.
Qed.

(** * Documents *)

(** Every line is made of whole characters and the cursor is between two. *)
Definition whole (d : doc) : Prop := Forall gbk (lines d) /\ doc_boundary d.

Lemma whole_line d l : whole d -> lines d !! Z.to_nat (crow d) = Some l -> gbk l /\ boundary l (ccol d).
Proof. intros [H1 H2] Hl. split; [|by apply H2]. rewrite Forall_lookup in H1. by eapply H1. Qed.

(** The weight of a text bounds its rows and its lines. *)
Fixpoint weight (ls : list bytes) : Z :=
  match ls with [] => 0 | l :: ls' => zlen l + 1 + weight ls' end.

Lemma weight_app ls ks : weight (ls ++ ks) = weight ls + weight ks.
Proof. induction ls as [|l ls IH]; cbn [app weight]; lia. Qed.

Lemma weight_rows ls : 0 <= zlen ls <= weight ls.
Proof. induction ls as [|l ls IH]; cbn [length weight]; lia. Qed.

Lemma weight_split ls r l :
  ls !! r = Some l -> weight ls = weight (take r ls) + (zlen l + 1) + weight (drop (S r) ls).
Proof. intros H. rewrite <- (take_drop_middle ls r l H) at 1. rewrite weight_app. cbn [weight]. lia. Qed.

Lemma weight_line ls r l : ls !! r = Some l -> zlen l < weight ls.
Proof.
  intros H. rewrite (weight_split _ _ _ H). pose proof (weight_rows (take r ls)).
  pose proof (weight_rows (drop (S r) ls)). lia.
Qed.

Lemma weight_insert ls r l l' :
  ls !! r = Some l -> weight (<[r := l']> ls) = weight ls + zlen l' - zlen l.
Proof.
  intros H. rewrite (weight_split _ _ _ H). rewrite insert_take_drop by (by eapply lookup_lt_Some).
  rewrite weight_app. cbn [weight]. lia.
Qed.

(** Deleting, extracting and inserting ranges of text:
    [textframe_delete], [textframe_extract], [textframe_insert]. *)

Open Scope Z_scope.

(** * Arrays being filled row by row *)

Definition filled (res : list (option bytes)) (ls : list bytes) (n : Z) : Prop :=
  exists out, res = (Some <$> out) ++ replicate (Z.to_nat (n - zlen ls)) None /\
    Forall2 is_str out ls.

Lemma filled_init n : 0 <= n -> filled (replicate (Z.to_nat n) None) [] n.
Proof. intros. exists []. cbn. by rewrite Z.sub_0_r. Qed.

Lemma filled_put res ls n i b l :
  filled res ls n -> i = zlen ls -> zlen ls < n -> is_str b l ->
  exists res', put res i (Some b) = Ok res' /\ filled res' (ls ++ [l]) n.
Proof.
  intros (out & -> & Hout) -> Hn Hb. pose proof (Forall2_length _ _ _ Hout) as Hlen.
  replace (Z.to_nat (n - zlen ls)) with (S (Z.to_nat (n - zlen (ls ++ [l])))) by llia.
  cbn [replicate]. rewrite put_middle by llia. eexists. split; [done|].
  exists (out ++ [b]). rewrite fmap_app, <- app_assoc. split; [done|].
  apply Forall2_app; [done | by constructor].
Qed.

Lemma filled_frame res ls n r c cap m :
  filled res ls n -> m = zlen ls -> zlen ls <= n -> cap <= n -> fits ls ->
  frame (mk_textframe res 0 0 r c m cap) ls.
Proof.
  intros (out & -> & Hout) -> Hn Hcap Hfit. pose proof (Forall2_length _ _ _ Hout).
  split; [|split; [done|]; split; [|done]].
  - by exists out, (replicate (Z.to_nat (n - zlen ls)) None).
  - cbn [data maxrow_capacity]. llia.
Qed.

(** A fresh copy of a row. *)
Lemma copy_line_spec t ls r l :
  frame t ls -> 0 <= r -> ls !! Z.to_nat r = Some l -> copy_line t r = Ok (l ++ [0]).
Proof.
  intros Hf Hr Hl. destruct (frame_line _ _ _ _ Hf Hr Hl) as (b & Hb & Hs & Hn).
  pose proof (fits_line _ _ _ (frame_fits _ _ Hf) Hl).
  unfold copy_line. rewrite Hb. cbn [rbind]. rewrite Hn. cbn [rbind].
  rewrite (substr_spec b l) by (done || (unfold INT_MAX in *; lia)). by rewrite slice_all.
Qed.

Lemma is_str_of_line t ls r l :
  frame t ls -> 0 <= r -> ls !! Z.to_nat r = Some l -> is_str (l ++ [0]) l.
Proof.
  intros Hf Hr Hl. destruct (frame_line _ _ _ _ Hf Hr Hl) as (b & _ & [Hs _] & _).
  by apply is_str_intro.
Qed.

Lemma slice_snoc {A} (l : list A) i n x :
  0 <= i -> 0 <= n -> l !! Z.to_nat (i + n) = Some x -> slice l i (n + 1) = slice l i n ++ [x].
Proof.
  intros Hi Hn Hx. unfold slice. replace (Z.to_nat (n + 1)) with (S (Z.to_nat n)) by lia.
  apply take_S_r. rewrite lookup_drop. rewrite <- Hx. f_equal. lia.
Qed.

(** * Deletion *)

(** The rows [textframe_delete] leaves, for adjusted positions.  The text
    kept of the last row is counted from the length of the first one. *)
Definition deleted (ls : list bytes) (ls_s ls_e : bytes) (sr sc er ec : Z) : list bytes :=
  take (Z.to_nat sr) ls ++
  (take (Z.to_nat sc) ls_s ++ slice ls_e (ec + 1) (zlen ls_s - ec - 1)) ::
  drop (Z.to_nat (er + 1)) ls.

Section Delete.
Context (t : textframe) (ls : list bytes) (sr sc er ec : Z).
Hypothesis Hf : frame t ls.

(** Rows outside the range are copied one by one. *)
Lemma delete_copy n fuel i res ols N :
  0 <= i -> i + Z.of_nat n <= zlen ls -> zlen ols + Z.of_nat n <= N ->
  (forall r, i <= r < i + Z.of_nat n -> r < sr \/ er < r) ->
  filled res ols N ->
  exists res', filled res' (ols ++ slice ls i (Z.of_nat n)) N /\
    delete_loop (n + fuel) t sr sc er ec i (zlen ols) res =
    delete_loop fuel t sr sc er ec (i + Z.of_nat n) (zlen ols + Z.of_nat n) res'.
Proof.
  revert i res ols. induction n as [|n IH]; intros i res ols Hi Hin HN Hout Hfl.
  - exists res. cbn. rewrite app_nil_r. split; [done|]. by rewrite !Z.add_0_r.
  - destruct (lookup_lt_is_Some_2 ls (Z.to_nat i)) as [l Hl]; [lia|].
    pose proof (copy_line_spec t ls i l Hf Hi Hl) as Hcl. unfold copy_line in Hcl.
    pose proof (is_str_of_line t ls i l Hf Hi Hl) as Hs.
    destruct (filled_put res ols N (zlen ols) (l ++ [0]) l Hfl eq_refl ltac:(lia) Hs)
      as (res1 & Hput & Hfl1).
    destruct (IH (i + 1) res1 (ols ++ [l])) as (res' & Hfl' & E);
      [lia | lia | llia | intros; apply Hout; lia | done |].
    exists res'. split.
    + replace (Z.of_nat (S n)) with (1 + Z.of_nat n) by lia.
      rewrite <- app_assoc in Hfl'. cbn [app] in Hfl'. 
      replace (slice ls i (1 + Z.of_nat n)) with (l :: slice ls (i + 1) (Z.of_nat n)); [done|].
      unfold slice. replace (Z.to_nat (1 + Z.of_nat n)) with (S (Z.to_nat (Z.of_nat n))) by lia.
      rewrite (drop_S _ _ _ Hl). cbn [take]. do 3 f_equal. lia.
    + cbn [Nat.add delete_loop]. rewrite (frame_maxrow _ _ Hf).
      assert (Ho : i < sr \/ er < i) by (apply Hout; lia).
      replace ((sr <? i) && (i <? er)) with false by (ztests; done || lia).
      replace (i <? zlen ls) with true by (symmetry; apply Z.ltb_lt; lia).
      rinv Hcl. cbn [rbind].
      replace ((i <? sr) || (er <? i)) with true by (ztests; done || lia).
      rinv Hcl. cbn [rbind]. rewrite Hcl. cbn [rbind]. rewrite Hput. cbn [rbind].
      replace (zlen ols + 1) with (zlen (ols ++ [l])) by llia. rewrite E. f_equal; llia.
Qed.

(** The end of the loop. *)
Lemma delete_end fuel n res : delete_loop fuel t sr sc er ec (zlen ls) n res = Ok (n, res).
Proof. destruct fuel; cbn; rewrite (frame_maxrow _ _ Hf); by rewrite Z.ltb_irrefl. Qed.

(** The round that meets the range. *)
Lemma delete_merge fuel l_s l_e res ols N :
  0 <= sr <= er -> ls !! Z.to_nat sr = Some l_s -> ls !! Z.to_nat er = Some l_e ->
  0 <= sc -> 0 <= ec <= zlen l_e -> filled res ols N -> zlen ols < N ->
  exists res', filled res' (ols ++ [take (Z.to_nat sc) l_s ++
                                    slice l_e (ec + 1) (zlen l_s - ec - 1)]) N /\
    delete_loop (S fuel) t sr sc er ec sr (zlen ols) res =
    delete_loop fuel t sr sc er ec (er + 1) (zlen ols + 1) res'.
Proof.
  intros Hr Hls Hle Hsc Hec Hfl HN.
  destruct (frame_line _ _ sr _ Hf ltac:(lia) Hls) as (bs & Hbs & Hss & Hns).
  destruct (frame_line _ _ er _ Hf ltac:(lia) Hle) as (be & Hbe & Hse & Hne).
  pose proof (fits_line _ _ _ (frame_fits _ _ Hf) Hls) as Hl1.
  pose proof (fits_line _ _ _ (frame_fits _ _ Hf) Hle) as Hl2.
  set (left := slice l_s 0 sc). set (right := slice l_e (ec + 1) (zlen l_s - ec - 1)).
  assert (Hleft : is_str (left ++ [0]) left) by (by eapply substr_is_str).
  assert (Hright : is_str (right ++ [0]) right) by (by eapply substr_is_str).
  assert (Hboth : is_str ((left ++ right) ++ [0]) (left ++ right)).
  { destruct Hleft, Hright. apply is_str_intro. by apply Forall_app. }
  destruct (filled_put res ols N (zlen ols) _ _ Hfl eq_refl HN Hboth) as (res' & Hput & Hfl').
  exists res'. split; [exact Hfl'|].
  cbn [delete_loop]. rewrite (frame_maxrow _ _ Hf). pose proof (lookup_lt_Some _ _ _ Hls).
  zsimp. rewrite Hbs. cbn [rbind].
  rewrite (substr_spec bs l_s 0 sc) by (done || (unfold INT_MAX; lia)). cbn [rbind].
  rewrite Hbe. cbn [rbind]. rewrite Hns. cbn [rbind].
  unfold INT_MAX in *. rewrite s32_small by lia.
  rewrite (substr_spec be l_e) by (done || (unfold INT_MAX; lia)). cbn [rbind].
  fold left right. rewrite (strlen_str _ _ Hleft), (strlen_str _ _ Hright). cbn [rbind].
  rewrite (strcat_spec _ _ left right) by done. cbn [rbind]. rewrite Hput. done.
Qed.
End Delete.

Lemma slice_full_prefix {A} (l : list A) n : 0 <= n -> slice l 0 n = take (Z.to_nat n) l.
Proof. intros. unfold slice. by rewrite drop_0. Qed.

Lemma slice_full_suffix {A} (l : list A) i : 0 <= i <= zlen l -> slice l i (zlen l - i) = drop (Z.to_nat i) l.
Proof. apply slice_tail. Qed.

Lemma deleted_fits ls l_s l_e sr sc er ec :
  fits ls -> ls !! Z.to_nat sr = Some l_s -> ls !! Z.to_nat er = Some l_e -> 0 <= sr <= er ->
  zlen l_s + zlen l_e < INT_MAX -> fits (deleted ls l_s l_e sr sc er ec).
Proof.
  intros [H1 H2] Hls Hle Hr Hroom. pose proof (lookup_lt_Some _ _ _ Hle). unfold deleted. split.
  - llia.
  - apply Forall_app. split; [by apply Forall_take|]. constructor; [|by apply Forall_drop].
    unfold slice. llia.
Qed.

(** [textframe_delete] meets no fault and leaves the rows [deleted]. *)
Lemma textframe_delete_refines t ls sr sc er ec l_s l_e :
  frame t ls -> 0 <= sr <= er -> ls !! Z.to_nat sr = Some l_s -> ls !! Z.to_nat er = Some l_e ->
  zlen l_s + zlen l_e < INT_MAX ->
  exists t', textframe_delete t sr sc er ec = Ok t' /\
    frame t' (deleted ls l_s l_e sr (adjust_col l_s sc 0 (-1)) er (adjust_col l_e ec 1 1)) /\
    cursor_row t' = 0 /\ cursor_col t' = 0.
Proof.
  intros Hf Hr Hls Hle Hroom. unfold textframe_delete.
  rewrite (adjust_in_row t ls sr l_s) by (done || lia). cbn [rbind].
  rewrite (adjust_in_row t ls er l_e) by (done || lia). cbn [rbind].
  set (sc' := adjust_col l_s sc 0 (-1)). set (ec' := adjust_col l_e ec 1 1).
  assert (Hsc : 0 <= sc' <= zlen l_s) by (apply adjust_col_range; [by right | done]).
  assert (Hec : 0 <= ec' <= zlen l_e).
  { subst ec'. unfold adjust_col.
    destruct (l_e !! Z.to_nat (Z.max 0 (Z.min ec (zlen l_e)))) eqn:E; [|lia].
    apply lookup_lt_Some in E. ztests; [|lia..]. destruct (Z.odd _); lia. }
  pose proof (lookup_lt_Some _ _ _ Hle) as Hlt. rewrite (frame_maxrow _ _ Hf). zsimp.
  cbv beta iota zeta. set (N := zlen ls).
  replace (delete_loop (Z.to_nat N) t)
    with (delete_loop (Z.to_nat sr + S (Z.to_nat (er - sr) + Z.to_nat (N - er - 1))) t)
    by (f_equal; subst N; lia).
  destruct (delete_copy t ls sr sc' er ec' Hf (Z.to_nat sr)
    (S (Z.to_nat (er - sr) + Z.to_nat (N - er - 1))) 0 (replicate (Z.to_nat N) None) [] N)
    as (res1 & Hfl1 & E1); [lia | lia | cbn; lia | intros; lia | apply filled_init; lia |].
  cbn [app] in Hfl1. change (zlen (@nil bytes)) with 0 in E1. rewrite E1. clear E1.
  rewrite slice_full_prefix in Hfl1 by lia. rewrite Nat2Z.id in Hfl1.
  rewrite !Z.add_0_l. rewrite Z2Nat.id by lia.
  destruct (delete_merge t ls sr sc' er ec' Hf (Z.to_nat (er - sr) + Z.to_nat (N - er - 1))
    l_s l_e res1 (take (Z.to_nat sr) ls) N) as (res2 & Hfl2 & E2);
    [lia | done | done | lia | lia | done | subst N; llia |].
  replace (zlen (take (Z.to_nat sr) ls)) with sr in E2 by llia.
  rewrite E2. clear E2.
  rewrite Nat.add_comm.
  set (mid := take (Z.to_nat sr) ls ++ [_]) in Hfl2.
  replace (sr + 1) with (zlen mid) by (subst mid; llia).
  destruct (delete_copy t ls sr sc' er ec' Hf (Z.to_nat (N - er - 1)) (Z.to_nat (er - sr))
    (er + 1) res2 mid N) as (res3 & Hfl3 & E3);
    [lia | lia | subst mid N; llia | intros; lia | done |].
  rewrite E3. clear E3. replace (er + 1 + Z.of_nat (Z.to_nat (N - er - 1))) with (zlen ls) by lia.
  rewrite (delete_end t ls sr sc' er ec' Hf). cbn [rbind]. eexists. split; [done|].
  split; [|done].
  assert (Hdel : mid ++ slice ls (er + 1) (Z.of_nat (Z.to_nat (N - er - 1)))
                 = deleted ls l_s l_e sr sc' er ec').
  { subst mid. unfold deleted. rewrite <- app_assoc. cbn [app]. do 2 f_equal.
    replace (Z.of_nat (Z.to_nat (N - er - 1))) with (zlen ls - (er + 1)) by lia.
    apply slice_full_suffix. lia. }
  rewrite Hdel in Hfl3.
  eapply filled_frame; [exact Hfl3 | | | |].
  - rewrite <- Hdel. subst mid N. unfold slice. llia.
  - rewrite <- Hdel. subst mid N. unfold slice. llia.
  - subst mid N. llia.
  - apply deleted_fits; (done || apply (frame_fits _ _ Hf)).
Qed.

(** * Insertion *)

(** The rows after the lines [ins] are inserted at column [sc] of row [sr]. *)
Definition merged (l : bytes) (sc : Z) (ins : list bytes) : list bytes :=
  let left := take (Z.to_nat sc) l in
  let right := drop (Z.to_nat sc) l in
  match ins with
  | [] => []
  | [x] => [(left ++ x) ++ right]
  | x :: ins' => (left ++ x) :: removelast ins' ++ [default [] (last ins') ++ right]
  end.

Definition inserted (ls : list bytes) (l : bytes) (sr sc : Z) (ins : list bytes) : list bytes :=
  take (Z.to_nat sr) ls ++ merged l sc ins ++ drop (S (Z.to_nat sr)) ls.

(** Where the cursor is left: after the last byte inserted. *)
Definition inserted_cursor (sr sc : Z) (ins : list bytes) : Z * Z :=
  (sr + zlen ins - 1,
   if zlen ins =? 1 then sc + zlen (default [] (ins !! 0%nat)) else zlen (default [] (last ins))).

Lemma merged_len l sc ins : zlen (merged l sc ins) = zlen ins.
Proof.
  destruct ins as [|x [|y ins]]; [done | done |]. unfold merged.
  cbn [length]. rewrite length_app. cbn [length].
  rewrite removelast_firstn_len. rewrite firstn_length. cbn [length]. lia.
Qed.

Lemma merged_mid l sc x ins i y :
  (i + 1 < length ins)%nat -> ins !! i = Some y -> merged l sc (x :: ins) !! S i = Some y.
Proof.
  intros Hi Hy. destruct ins as [|z ins]; [cbn in Hi; lia|]. unfold merged.
  change ((?a :: ?b) !! S i) with (b !! i). rewrite removelast_firstn_len. fold (@take bytes).
  rewrite lookup_app_l by (rewrite length_take; cbn [length pred] in *; lia).
  rewrite lookup_take_lt by (cbn [length pred] in *; lia). done.
Qed.

Lemma merged_last l sc x y ins z :
  last (y :: ins) = Some z ->
  merged l sc (x :: y :: ins) !! length (y :: ins) = Some (z ++ drop (Z.to_nat sc) l).
Proof.
  intros Hz. unfold merged. rewrite Hz. cbn [default from_option id].
  rewrite removelast_firstn_len. fold (@take bytes).
  change (?a :: ?b ++ [?c]) with ((a :: b) ++ [c]).
  rewrite lookup_app_r by (cbn [length]; rewrite length_take; cbn [length pred]; lia).
  cbn [length]. rewrite length_take. cbn [length pred].
  replace (S (length ins) - S (length ins `min` S (length ins)))%nat with 0%nat by lia. done.
Qed.

Lemma ins_pos (ins : list bytes) : ins <> [] -> 0 < zlen ins.
Proof. destruct ins; [done | cbn; lia]. Qed.

Section Insert.
Context (t u : textframe) (ls ins : list bytes) (l : bytes) (sr sc : Z).
Hypothesis Hf : frame t ls.
Hypothesis Hu : frame u ins.
Hypothesis Hins : ins <> [].
Hypothesis Hsr : 0 <= sr.
Hypothesis Hl : ls !! Z.to_nat sr = Some l.
Hypothesis Hsc : 0 <= sc <= zlen l.
Hypothesis Hroom : forall x, x ∈ ins -> zlen x + zlen l < INT_MAX.

Let n := zlen ls + zlen ins - 1.

(** The row computed in round [i]. *)
Definition insert_row (i : Z) : bytes := default [] (inserted ls l sr sc ins !! Z.to_nat i).

Lemma insert_row_before i : 0 <= i < sr -> ls !! Z.to_nat i = Some (insert_row i).
Proof.
  intros Hi. pose proof (lookup_lt_Some _ _ _ Hl).
  destruct (lookup_lt_is_Some_2 ls (Z.to_nat i)) as [x Hx]; [lia|].
  unfold insert_row, inserted. rewrite lookup_app_l by llia.
  by rewrite lookup_take_lt, Hx by lia.
Qed.

Lemma insert_row_merged i :
  sr <= i < sr + zlen ins -> insert_row i = default [] (merged l sc ins !! Z.to_nat (i - sr)).
Proof.
  intros Hi. pose proof (lookup_lt_Some _ _ _ Hl). pose proof (merged_len l sc ins).
  unfold insert_row, inserted. rewrite lookup_app_r by llia. rewrite length_take.
  rewrite lookup_app_l by lia. do 2 f_equal. lia.
Qed.

Lemma insert_row_after i :
  sr + zlen ins <= i < n -> ls !! Z.to_nat (i - (zlen ins - 1)) = Some (insert_row i).
Proof.
  intros Hi. pose proof (lookup_lt_Some _ _ _ Hl). pose proof (merged_len l sc ins). pose proof (ins_pos ins Hins).
  destruct (lookup_lt_is_Some_2 ls (Z.to_nat (i - (zlen ins - 1)))) as [x Hx]; [lia|].
  unfold insert_row, inserted. rewrite lookup_app_r by llia. rewrite length_take.
  rewrite lookup_app_r by lia. rewrite lookup_drop.
  replace (S (Z.to_nat sr) + (Z.to_nat i - Z.to_nat sr `min` length ls - length (merged l sc ins)))%nat
    with (Z.to_nat (i - (zlen ins - 1))) by lia.
  by rewrite Hx.
Qed.

Lemma row_str x : (exists t ls r, frame t ls /\ ls !! r = Some x) -> is_str (x ++ [0]) x.
Proof.
  intros (t' & ls' & r & Hf' & Hx). apply (is_str_of_line t' ls' (Z.of_nat r)); [done | lia |].
  by rewrite Nat2Z.id.
Qed.

(** One round of the loop fills row [i]; the round that ends the inserted
    text sets the cursor. *)
Lemma insert_body_spec i res cr cc (out : list bytes) :
  0 <= i < n -> filled res out n -> zlen out = i ->
  exists res' cr' cc',
    insert_body t u sr sc i (res, cr, cc) = Ok (res', cr', cc') /\
    filled res' (out ++ [insert_row i]) n /\
    (i = sr + zlen ins - 1 -> (cr', cc') = inserted_cursor sr sc ins) /\
    (i <> sr + zlen ins - 1 -> (cr', cc') = (cr, cc)).
Proof.
  intros Hi Hfl Hout. pose proof (ins_pos ins Hins) as Hpos.
  destruct (frame_line _ _ sr _ Hf Hsr Hl) as (b & Hb & Hs & Hn).
  pose proof (fits_line _ _ _ (frame_fits _ _ Hf) Hl) as Hlen.
  assert (Hfill : forall x, is_str (x ++ [0]) x -> exists res', put res i (Some (x ++ [0])) = Ok res' /\
            filled res' (out ++ [x]) n) by (intros x Hx; apply (filled_put res out n); done || lia).
  set (left := take (Z.to_nat sc) l). set (right := drop (Z.to_nat sc) l).
  assert (Hcl : Forall is_char l) by (by destruct Hs).
  assert (HL : is_str (left ++ [0]) left) by (by apply is_str_intro, Forall_take).
  assert (HR : is_str (right ++ [0]) right) by (by apply is_str_intro, Forall_drop).
  unfold insert_body. rewrite (frame_maxrow _ _ Hu).
  destruct (Z.ltb_spec i sr) as [Hbef|Hbef].
  { pose proof (insert_row_before i ltac:(lia)) as Hx.
    rewrite (copy_line_spec t ls i _ Hf) by (done || lia). cbn [rbind].
    destruct (Hfill _ (is_str_of_line t ls i _ Hf ltac:(lia) Hx)) as (res' & -> & Hfl').
    eexists _, _, _. split; [done|]. split; [done|]. split; [lia | done]. }
  destruct (Z.lt_ge_cases i (sr + zlen ins)) as [Hin|Hin]; cycle 1.
  { zsimp. pose proof (insert_row_after i ltac:(lia)) as Hx.
    rewrite (copy_line_spec t ls (i - (zlen ins - 1)) _ Hf) by (done || lia). cbn [rbind].
    destruct (Hfill _ (is_str_of_line t ls (i - (zlen ins - 1)) _ Hf ltac:(lia) Hx)) as (res' & -> & Hfl').
    eexists _, _, _. split; [done|]. split; [done|]. split; [lia | done]. }
  rewrite (insert_row_merged i) by lia.
  destruct ((sr <? i) && (i <? sr + zlen ins - 1)) eqn:Hmid.
  { apply andb_prop in Hmid as [Hm1%Z.ltb_lt Hm2%Z.ltb_lt].
    destruct (lookup_lt_is_Some_2 ins (Z.to_nat (i - sr))) as [x Hx]; [lia|].
    rewrite (copy_line_spec u ins (i - sr) x Hu) by (done || lia). cbn [rbind].
    destruct (Hfill _ (is_str_of_line u ins (i - sr) _ Hu ltac:(lia) Hx)) as (res' & -> & Hfl').
    cbn [rbind]. eexists _, _, _. split; [done|]. split; [|split; [lia | done]].
    destruct ins as [|x0 ins']; [done|].
    replace (Z.to_nat (i - sr)) with (S (Z.to_nat (i - sr - 1))) in * by lia.
    rewrite (merged_mid l sc x0 ins' _ x); [done | cbn [length] in *; lia | done]. }
  assert (Hends : i = sr \/ i = sr + zlen ins - 1).
  { apply andb_false_iff in Hmid as [H1%Z.ltb_ge|H1%Z.ltb_ge]; lia. }
  replace ((i =? sr) || (i =? sr + zlen ins - 1)) with true by (ztests; done || lia).
  rewrite Hb. cbn [rbind].
  rewrite (substr_spec b l 0 sc) by (done || (unfold INT_MAX; lia)). cbn [rbind].
  rewrite slice_full_prefix by lia. fold left.
  assert (Hptr : ptr_add b sc = Ok (drop (Z.to_nat sc) b)).
  { unfold ptr_add. pose proof (is_str_len _ _ Hs). zsimp. done. }
  rewrite Hptr. cbn [rbind]. rewrite Hn. cbn [rbind].
  assert (HRb : is_str (drop (Z.to_nat sc) b) right).
  { destruct Hs as [_ [rest ->]]. rewrite drop_app_le by lia. apply is_str_intro. by apply Forall_drop. }
  rewrite (substr_spec _ right) by (done || (unfold INT_MAX in *; subst right; llia)). cbn [rbind].
  replace (zlen l - sc) with (zlen right) by (subst right; llia). rewrite slice_all.
  rewrite (strlen_str _ _ HL), (strlen_str _ _ HR). cbn [rbind].
  destruct (Z.eqb_spec (zlen ins) 1) as [H1|H1].
  - destruct ins as [|x [|? ?]]; [done | | cbn in H1; lia].
    destruct (frame_line u [x] 0 x Hu) as (bx & -> & Hsx & Hnx); [lia | done |]. cbn [rbind].
    rewrite Hnx. cbn [rbind]. rewrite (strcat_spec _ bx left x) by done. cbn [rbind].
    assert (HLx : is_str ((left ++ x) ++ [0]) (left ++ x)).
    { destruct Hsx, HL. apply is_str_intro. by apply Forall_app. }
    rewrite (strlen_str _ _ HLx). cbn [rbind].
    rewrite (strcat_spec _ _ (left ++ x) right) by done. cbn [rbind].
    destruct (Hfill ((left ++ x) ++ right)) as (res' & -> & Hfl').
    { destruct HLx, HR. apply is_str_intro. by apply Forall_app. }
    cbn [rbind]. eexists _, _, _. split; [done|]. cbn [length] in *.
    replace (Z.to_nat (i - sr)) with 0%nat by lia. split; [done|].
    split; [|lia]. intros _. unfold inserted_cursor.
    change (zlen [x] =? 1) with true. change (default [] ([x] !! 0%nat)) with x. cbv iota.
    change (zlen [x]) with 1. f_equal; [lia|]. subst left. llia.
  - destruct ins as [|x0 [|x1 ins']] eqn:Eins; [done | by cbn in H1 |]. rewrite <- Eins in *.
    destruct (Z.eqb_spec i sr) as [->|Hne].
    + destruct (frame_line u ins 0 x0 Hu) as (bx & -> & Hsx & Hnx); [lia | by rewrite Eins |].
      cbn [rbind]. rewrite Hnx. cbn [rbind]. rewrite (strcat_spec _ bx left x0) by done. cbn [rbind].
      destruct (Hfill (left ++ x0)) as (res' & -> & Hfl').
      { destruct HL, Hsx. apply is_str_intro. by apply Forall_app. }
      cbn [rbind]. eexists _, _, _. split; [done|]. rewrite Z.sub_diag, Eins. cbn [Z.to_nat].
      split; [exact Hfl'|]. split; [|done]. rewrite <- Eins. lia.
    + assert (Hlst : i = sr + zlen ins - 1) by lia.
      destruct (last ins) as [z|] eqn:Ez; [|by rewrite Eins in Ez; apply last_None in Ez].
      assert (Hz : ins !! Z.to_nat (zlen ins - 1) = Some z).
      { rewrite last_lookup in Ez. rewrite <- Ez. f_equal. lia. }
      destruct (frame_line u ins (zlen ins - 1) z Hu) as (bz & -> & Hsz & Hnz); [lia | done |].
      cbn [rbind]. rewrite Hnz. cbn [rbind]. rewrite (strcat_spec bz _ z right) by done. cbn [rbind].
      destruct (Hfill (z ++ right)) as (res' & -> & Hfl').
      { destruct Hsz, HR. apply is_str_intro. by apply Forall_app. }
      cbn [rbind]. eexists _, _, _. split; [done|]. split; [|split; [|done]].
      * rewrite Eins in Ez |- *. rewrite last_cons_cons in Ez.
        replace (Z.to_nat (i - sr)) with (length (x1 :: ins')) by (rewrite Eins in Hlst; cbn [length] in *; lia).
        by rewrite (merged_last _ _ _ _ _ z).
      * intros _. unfold inserted_cursor. zsimp. rewrite Ez. cbn [default from_option id]. f_equal. lia.
Qed.
End Insert.

Lemma inserted_len ls l sr sc ins :
  0 <= sr -> ls !! Z.to_nat sr = Some l -> zlen (inserted ls l sr sc ins) = zlen ls + zlen ins - 1.
Proof.
  intros Hsr Hl. pose proof (lookup_lt_Some _ _ _ Hl). pose proof (merged_len l sc ins).
  unfold inserted. llia.
Qed.

Lemma Forall_merged (P : bytes -> Prop) l sc ins :
  (forall x, x ∈ ins -> P x /\ P (take (Z.to_nat sc) l ++ x) /\ P (x ++ drop (Z.to_nat sc) l) /\
                        P ((take (Z.to_nat sc) l ++ x) ++ drop (Z.to_nat sc) l)) ->
  Forall P (merged l sc ins).
Proof.
  intros H. destruct ins as [|x [|y ins]]; [constructor | |].
  - repeat constructor. apply H. set_solver.
  - unfold merged. constructor; [apply H; set_solver|].
    destruct (exists_last (l := y :: ins)) as (k & z & E); [done|]. rewrite E, last_snoc.
    rewrite removelast_last. cbn [default from_option id]. apply Forall_app. split.
    + apply Forall_forall. intros w Hw. apply H. rewrite E. set_solver.
    + repeat constructor. apply H. rewrite E. set_solver.
Qed.

(** [textframe_insert] meets no fault: the rows are [inserted], and the
    cursor is after the inserted text. *)
Lemma textframe_insert_refines t u ls ins l sr sc :
  frame t ls -> frame u ins -> ins <> [] -> 0 <= sr -> ls !! Z.to_nat sr = Some l ->
  (forall x, x ∈ ins -> zlen x + zlen l < INT_MAX) -> zlen ls + zlen ins <= 2 ^ 30 ->
  let sc' := adjust_col l sc 0 1 in
  exists t', textframe_insert t u sr sc = Ok t' /\ frame t' (inserted ls l sr sc' ins) /\
    (cursor_row t', cursor_col t') = inserted_cursor sr sc' ins.
Proof.
  intros Hf Hu Hins Hsr Hl Hroom Hrows sc'. unfold textframe_insert.
  rewrite (adjust_in_row t ls sr l) by done. cbn [rbind]. fold sc'.
  assert (Hsc : 0 <= sc' <= zlen l) by (apply adjust_col_range; [by left | done]).
  rewrite (frame_maxrow _ _ Hf), (frame_maxrow _ _ Hu).
  set (n := zlen ls + zlen ins - 1).
  pose proof (lookup_lt_Some _ _ _ Hl). pose proof (ins_pos ins Hins).
  pose proof (inserted_len ls l sr sc' ins Hsr Hl) as Hlen.
  set (P := fun (i : Z) (st : list (option bytes) * Z * Z) =>
    filled st.1.1 (take (Z.to_nat i) (inserted ls l sr sc' ins)) n /\
    (sr + zlen ins <= i -> (st.1.2, st.2) = inserted_cursor sr sc' ins)).
  destruct (ensures_inv _ _ (for_up_inv P 0 n (insert_body t u sr sc')
    (replicate (Z.to_nat n) None, 0, 0) ltac:(lia)
    ltac:(split; [apply filled_init; lia | lia])
    ltac:(intros i [[res cr] cc] Hi [Hfl Hcur]; cbn [fst snd] in *;
      destruct (insert_body_spec t u ls ins l sr sc' Hf Hu Hins Hsr Hl Hsc Hroom i res cr cc
        (take (Z.to_nat i) (inserted ls l sr sc' ins)) Hi Hfl ltac:(llia))
        as (res' & cr' & cc' & -> & Hfl' & Hc1 & Hc2);
      destruct (lookup_lt_is_Some_2 (inserted ls l sr sc' ins) (Z.to_nat i) ltac:(lia)) as [x Hx];
      unfold insert_row in Hfl'; rewrite Hx in Hfl'; cbn [default from_option id] in Hfl';
      split; cbn [fst snd];
      [ replace (Z.to_nat (i + 1)) with (S (Z.to_nat i)) by lia; by rewrite (take_S_r _ _ x)
      | intros Hge; destruct (Z.eq_dec i (sr + zlen ins - 1)) as [E|E];
        [by apply Hc1 | rewrite (Hc2 E); apply Hcur; lia] ])))
    as ([[res cr] cc] & E & Hfl & Hcur).
  cbn [fst snd] in *. rewrite E. cbn [rbind]. eexists. split; [done|]. split; [|apply Hcur; lia].
  rewrite take_ge in Hfl by lia.
  eapply filled_frame; [exact Hfl | lia | lia | lia |].
  destruct (frame_fits _ _ Hf) as [_ F1], (frame_fits _ _ Hu) as [_ F2].
  split; [lia|]. unfold inserted. apply Forall_app. split; [by apply Forall_take|].
  apply Forall_app. split; [|by apply Forall_drop].
  apply Forall_merged. intros x Hx. specialize (Hroom x Hx).
  rewrite Forall_forall in F2. split_and!; [by apply F2 | llia..].
Qed.

(** * Extraction *)

(** The rows from [(sr, sc)] to [(er, ec)], both included. *)
Definition extracted (ls : list bytes) (l_s l_e : bytes) (sr sc er ec : Z) : list bytes :=
  if sr =? er then [slice l_s sc (ec - sc + 1)]
  else drop (Z.to_nat sc) l_s :: slice ls (sr + 1) (er - sr - 1) ++ [take (Z.to_nat (ec + 1)) l_e].

Lemma extracted_len ls l_s l_e sr sc er ec :
  0 <= sr <= er -> er < zlen ls -> zlen (extracted ls l_s l_e sr sc er ec) = er - sr + 1.
Proof.
  intros. unfold extracted. destruct (Z.eqb_spec sr er); [cbn; lia|].
  cbn [length]. rewrite length_app. cbn [length].
  pose proof (slice_len ls (sr + 1) (er - sr - 1)). lia.
Qed.

Section Extract.
Context (t : textframe) (ls : list bytes) (l_s l_e : bytes) (sr sc er ec : Z).
Hypothesis Hf : frame t ls.
Hypothesis Hr : 0 <= sr <= er.
Hypothesis Hs : ls !! Z.to_nat sr = Some l_s.
Hypothesis He : ls !! Z.to_nat er = Some l_e.
Hypothesis Hsc : 0 <= sc <= zlen l_s.
Hypothesis Hec : 0 <= ec < zlen l_e.

Let n := er - sr + 1.
Let E := extracted ls l_s l_e sr sc er ec.

(** The column and the length with which row [i] is copied. *)
Definition ex_col (i : Z) : Z := if i =? 0 then sc else 0.
Definition ex_len (i : Z) : Z :=
  if i =? 0 then (if sr =? er then ec - sc + 1 else zlen l_s - sc)
  else if i =? n - 1 then ec + 1
  else zlen (default [] (ls !! Z.to_nat (sr + i))).

Lemma ex_row i l : 0 <= i < n -> ls !! Z.to_nat (sr + i) = Some l ->
  E !! Z.to_nat i = Some (slice l (ex_col i) (ex_len i)).
Proof.
  intros Hi Hl. unfold E, extracted, ex_col, ex_len.
  destruct (Z.eqb_spec i 0) as [->|Hi0].
  - rewrite Z.add_0_r, Hs in Hl. injection Hl as <-.
    destruct (Z.eqb_spec sr er); [done|]. cbn [Z.to_nat]. by rewrite slice_full_suffix.
  - unfold n in *. destruct (Z.eqb_spec sr er) as [|Hne]; [lia|].
    replace (Z.to_nat i) with (S (Z.to_nat (i - 1))) by lia.
    change ((?a :: ?b) !! S ?j) with (b !! j). pose proof (lookup_lt_Some _ _ _ He).
    pose proof (slice_len ls (sr + 1) (er - sr - 1) ltac:(lia) ltac:(lia) ltac:(lia)) as Hsl.
    destruct (Z.eqb_spec i (er - sr + 1 - 1)) as [->|Hlast].
    + replace (sr + (er - sr + 1 - 1)) with er in Hl by lia. rewrite He in Hl. injection Hl as <-.
      rewrite lookup_app_r by lia. rewrite slice_full_prefix by lia.
      by replace (Z.to_nat (er - sr + 1 - 1 - 1) - length (slice ls (sr + 1) (er - sr - 1)))%nat
        with 0%nat by lia.
    + rewrite lookup_app_l by lia. rewrite slice_lookup by lia.
      replace (sr + 1 + (i - 1)) with (sr + i) by lia. rewrite Hl. cbn [default from_option id].
      by rewrite slice_all.
Qed.

(** One round of the loop of [textframe_extract]. *)
Lemma extract_body_spec i res :
  0 <= i < n -> filled res (take (Z.to_nat i) E) n ->
  exists res', extract_body t (zlen l_s) (zlen l_e) ec n i (sr + i, ex_col i, ex_len i, res)
      = Ok (sr + (i + 1), 0, (if i =? n - 1 then ec + 1 else ex_len (i + 1)), res') /\
    filled res' (take (Z.to_nat (i + 1)) E) n.
Proof.
  intros Hi Hfl. pose proof (lookup_lt_Some _ _ _ He) as Hlt. unfold n in *.
  pose proof (extracted_len ls l_s l_e sr sc er ec Hr ltac:(lia)) as HE. fold E in HE.
  destruct (lookup_lt_is_Some_2 ls (Z.to_nat (sr + i))) as [l Hl]; [lia|].
  destruct (frame_line _ _ (sr + i) _ Hf ltac:(lia) Hl) as (b & Hb & Hsb & _).
  pose proof (fits_line _ _ _ (frame_fits _ _ Hf) Hl) as Hlen.
  assert (Hcol : 0 <= ex_col i <= INT_MAX).
  { unfold ex_col. pose proof (fits_line _ _ _ (frame_fits _ _ Hf) Hs). unfold INT_MAX in *. ztests; lia. }
  unfold extract_body. replace ((i =? 0) && (zlen l_s <? ex_col i)) with false
    by (unfold ex_col; ztests; done || lia).
  cbn [rbind]. rewrite Hb. cbn [rbind]. rewrite (substr_spec b l) by done. cbn [rbind].
  destruct (filled_put res _ (er - sr + 1) i _ _ Hfl ltac:(llia) ltac:(llia) (substr_is_str b l (ex_col i) (ex_len i) Hsb))
    as (res' & -> & Hfl').
  cbn [rbind]. exists res'. split.
  - replace ((zlen l_e <=? ec) && (i =? er - sr + 1 - 2)) with false by (ztests; done || lia).
    destruct (Z.ltb_spec i (er - sr + 1 - 2)).
    + destruct (lookup_lt_is_Some_2 ls (Z.to_nat (sr + i + 1))) as [l2 Hl2]; [lia|].
      destruct (frame_line _ _ (sr + i + 1) _ Hf ltac:(lia) Hl2) as (b2 & -> & _ & Hn2).
      cbn [rbind]. rewrite Hn2. cbn [rbind]. unfold ex_len. fold n. zsimp. replace (sr + (i + 1)) with (sr + i + 1) by lia.
      by rewrite Hl2.
    + cbn [rbind]. replace (sr + (i + 1)) with (sr + i + 1) by lia.
      destruct (Z.eqb_spec i (er - sr + 1 - 1)); [done|]. unfold ex_len, n. by zsimp.
  - replace (Z.to_nat (i + 1)) with (S (Z.to_nat i)) by lia.
    rewrite (take_S_r _ _ (slice l (ex_col i) (ex_len i))); [done|]. by apply ex_row.
Qed.
End Extract.

(** [textframe_extract] on a range whose last column is inside its row
    copies exactly the range. *)
Lemma textframe_extract_refines t ls sr sc er ec l_s l_e :
  frame t ls -> 0 <= sr <= er -> ls !! Z.to_nat sr = Some l_s -> ls !! Z.to_nat er = Some l_e ->
  adjust_col l_e ec 1 1 < zlen l_e -> 
  exists t', textframe_extract t sr sc er ec = Ok t' /\
    frame t' (extracted ls l_s l_e sr (adjust_col l_s sc 0 (-1)) er (adjust_col l_e ec 1 1)) /\
    cursor_row t' = 0 /\ cursor_col t' = 0.
Proof.
  intros Hf Hr Hls Hle Hin. unfold textframe_extract.
  rewrite (adjust_in_row t ls sr l_s) by (done || lia). cbn [rbind].
  rewrite (adjust_in_row t ls er l_e) by (done || lia). cbn [rbind].
  set (sc' := adjust_col l_s sc 0 (-1)). set (ec' := adjust_col l_e ec 1 1) in *.
  assert (Hsc : 0 <= sc' <= zlen l_s) by (apply adjust_col_range; [by right | done]).
  assert (Hec : 0 <= ec').
  { subst ec'. unfold adjust_col. destruct (l_e !! _); [ztests|]; try destruct (Z.odd _); lia. }
  pose proof (lookup_lt_Some _ _ _ Hle) as Hlt. rewrite (frame_maxrow _ _ Hf). zsimp.
  destruct (frame_line _ _ sr _ Hf ltac:(lia) Hls) as (bs & -> & _ & Hns).
  destruct (frame_line _ _ er _ Hf ltac:(lia) Hle) as (be & -> & _ & Hne).
  cbn [rbind]. rewrite Hns, Hne. cbn [rbind]. zsimp.
  set (n := er - sr + 1).
  set (E := extracted ls l_s l_e sr sc' er ec').
  pose proof (extracted_len ls l_s l_e sr sc' er ec' Hr ltac:(lia)) as HE. fold E in HE.
  set (P := fun (i : Z) (st : Z * Z * Z * list (option bytes)) =>
    filled st.2 (take (Z.to_nat i) E) n /\
    (i < n -> st.1 = (sr + i, ex_col sc' i, ex_len ls l_s sr sc' er ec' i))).
  destruct (ensures_inv _ _ (for_up_inv P 0 n (extract_body t (zlen l_s) (zlen l_e) ec' n)
    (sr, sc', (if sr =? er then ec' - sc' + 1 else zlen l_s - sc'), replicate (Z.to_nat n) None)
    ltac:(lia) ltac:(split; [apply filled_init; lia | intros _; cbn; by rewrite Z.add_0_r])
    ltac:(intros i [st res] Hi [Hfl Hst]; cbn [fst snd] in *; rewrite (Hst ltac:(lia));
      destruct (extract_body_spec t ls l_s l_e sr sc' er ec' Hf Hr Hls Hle Hsc ltac:(lia) i res Hi Hfl)
        as (res' & Eb & Hfl'); fold n in Eb, Hfl'; rewrite Eb;
      split; cbn [fst snd]; [exact Hfl' | intros Hlt'; zsimp; unfold ex_col; by zsimp])))
    as ([[[a b] c] res] & Ex & Hfl & _).
  rewrite Ex. cbn [rbind fst snd] in *. eexists. split; [done|]. split; [|done].
  rewrite take_ge in Hfl by lia. eapply filled_frame; [exact Hfl | lia | lia | lia |].
  destruct (frame_fits _ _ Hf) as [F1 F2].
  pose proof (fits_line _ _ _ (conj F1 F2) Hls). pose proof (fits_line _ _ _ (conj F1 F2) Hle).
  split; [lia|]. subst E. unfold extracted. destruct (Z.eqb_spec sr er).
  - repeat constructor. unfold slice. llia.
  - constructor; [llia|]. apply Forall_app. split; [by apply Forall_slice|].
    repeat constructor. llia.
Qed.
