(* ===== verification/TextFile.v ===== *)
(** Correctness of [Search] (textframe.c), which finds the first occurrence of a
    non-empty pattern at or after the cursor, or else from the top, and of
    [textframe_read] and [textframe_write]. *)
From S2P Require Import Prelude Ulib Sys Textframe TextLemmas TextSpec TextRefine.

(** Pattern [s] occurs in line [l] at column [j]. *)
Definition occurs (l s : bytes) (j : Z) : Prop := 0 <= j /\ slice l j (zlen s) = s.

(** Pattern [s] occurs at row [i], column [j] of the text. *)
Definition occurs_at (ls : list bytes) (s : bytes) (i j : Z) : Prop :=
  exists l, 0 <= i /\ ls !! Z.to_nat i = Some l /\ occurs l s j.

(** Position [(i, j)] is at or after [(r, c)]. *)
Definition not_before (r c i j : Z) : Prop := r < i \/ (r = i /\ c <= j).

Lemma occurs_range l s j : occurs l s j -> s <> [] -> j + zlen s <= zlen l.
Proof.
  intros [Hj E] Hs. assert (H : zlen (slice l j (zlen s)) = zlen s) by (by rewrite E).
  unfold slice in H. rewrite length_take, length_drop in H.
  assert (0 < zlen s) by (destruct s; [done | cbn; lia]). lia.
Qed.

(** * A row *)

(** A state of [match_loop]: the first [q] bytes agree. *)
Lemma match_loop_spec bS bs l s j rest done fuel :
  is_str bS l -> is_str bs s -> s = done ++ rest -> 0 <= j ->
  slice l j (zlen done) = done -> (length rest < fuel)%nat ->
  exists k q, match_loop fuel bS bs (zlen l) (zlen s) (j + zlen done) (zlen done) = Ok (k, q) /\
    ((occurs l s j /\ k = j + zlen s /\ q = zlen s) \/
     (~ occurs l s j /\
        (q < zlen s \/ (q = zlen s /\ exists a b, get bS (k - 1) = Ok a /\
                          get bs (q - 1) = Ok b /\ a <> b)))).
Proof.
  intros HS Hs. revert done fuel. induction rest as [|x rest IH]; intros done fuel E Hj Hd Hfuel.
  - rewrite app_nil_r in E. subst done. destruct fuel as [|fuel]; [lia|]. cbn [match_loop].
    rewrite Z.ltb_irrefl, andb_false_r. eexists _, _. split; [done|]. by left.
  - destruct fuel as [|fuel]; [cbn in Hfuel; lia|]. cbn [match_loop].
    assert (Hlen : zlen done < zlen s) by (subst s; llia).
    destruct (Z.ltb_spec (j + zlen done) (zlen l)) as [Hk|Hk]; zsimp.
    + destruct (is_str_get bS l (j + zlen done) HS) as (a & Ha & Hla & _); [lia|].
      assert (Hx : s !! Z.to_nat (zlen done) = Some x) by (subst s; by apply lookup_middle).
      destruct (is_str_get bs s (zlen done) Hs) as (b & Hb & Hsb & _); [lia|].
      rewrite Hx in Hsb. injection Hsb as <-. rewrite Ha, Hb. cbn [rbind].
      assert (Hsn : slice l j (zlen done + 1) = done ++ [a]).
      { rewrite <- Hd at 2. unfold slice.
        replace (Z.to_nat (zlen done + 1)) with (S (Z.to_nat (zlen done))) by lia.
        apply take_S_r. rewrite lookup_drop, <- Hla. f_equal. lia. }
      destruct (Z.eqb_spec a x) as [->|Hne].
      * destruct (IH (done ++ [x]) fuel) as (k & q & E' & H);
          [by rewrite <- app_assoc | done | by replace (zlen (done ++ [x])) with (zlen done + 1) by llia
          | cbn in Hfuel; lia |].
        replace (zlen (done ++ [x])) with (zlen done + 1) in E' by llia.
        rewrite Z.add_assoc in E'. eauto.
      * eexists _, _. split; [done|]. right. split.
        -- intros [_ Ho]. apply Hne.
           assert (E1 : slice l j (zlen s) !! Z.to_nat (zlen done) = Some x) by (by rewrite Ho).
           rewrite slice_lookup in E1 by lia. congruence.
        -- destruct (Z.eq_dec (zlen done + 1) (zlen s)) as [Eq|]; [right|left; lia].
           split; [done|]. exists a, x. rewrite !Z.add_simpl_r. done.
    + eexists _, _. split; [done|]. right. split; [|left; lia].
      intros Ho. apply occurs_range in Ho; [lia|]. subst s. by destruct done.
Qed.

Lemma search_at_spec bS bs l s j :
  is_str bS l -> is_str bs s -> s <> [] -> 0 <= j ->
  (search_at bS bs (zlen l) (zlen s) j = Ok (inr (j + zlen s)) /\ occurs l s j) \/
  (search_at bS bs (zlen l) (zlen s) j = Ok (inl tt) /\ ~ occurs l s j).
Proof.
  intros HS Hs Hne Hj.
  destruct (match_loop_spec bS bs l s j s [] (Z.to_nat (zlen s + 1)) HS Hs)
    as (k & q & E & H); [done | done | done | lia |].
  unfold search_at. change (zlen (@nil Z)) with 0 in E. rewrite Z.add_0_r in E. rewrite E. cbn [rbind].
  destruct H as [(Ho & -> & ->)|(Hno & [Hq|(-> & a & b & Ha & Hb & Hab)])].
  - left. split; [|done]. rewrite Z.eqb_refl. pose proof (occurs_range _ _ _ Ho Hne).
    assert (0 < zlen s) by (destruct s; [done | cbn; lia]).
    destruct (is_str_get bS l (j + zlen s - 1) HS) as (a & -> & Hla & _); [lia|].
    destruct (is_str_get bs s (zlen s - 1) Hs) as (b & -> & Hsb & _); [lia|]. cbn [rbind].
    destruct Ho as [_ Ho].
    assert (E2 : slice l j (zlen s) !! Z.to_nat (zlen s - 1) = Some b) by (by rewrite Ho).
    clear Hsb. rename E2 into Hsb. rewrite slice_lookup in Hsb by lia.
    replace (j + (zlen s - 1)) with (j + zlen s - 1) in Hsb by lia.
    rewrite Hla in Hsb. injection Hsb as ->. by rewrite Z.eqb_refl.
  - right. split; [|done]. by zsimp.
  - right. split; [|done]. rewrite Z.eqb_refl, Ha, Hb. cbn [rbind]. by zsimp.
Qed.

(** * Loops that leave at the first success *)

Lemma for_brk_first {R} lo hi (f : Z -> unit -> result (unit + R)) (p : Z -> Prop) (g : Z -> R -> Prop) :
  (forall i, lo <= i < hi ->
     (exists r, f i tt = Ok (inr r) /\ g i r) \/ (f i tt = Ok (inl tt) /\ ~ p i)) ->
  (exists i r, lo <= i < hi /\ for_brk lo hi f tt = Ok (inr r) /\ g i r /\
     forall i', lo <= i' < i -> ~ p i') \/
  (for_brk lo hi f tt = Ok (inl tt) /\ forall i, lo <= i < hi -> ~ p i).
Proof.
  intros Hf. remember (Z.to_nat (hi - lo)) as n eqn:Hn. revert lo Hn Hf.
  induction n as [|n IH]; intros lo Hn Hf.
  - right. rewrite for_brk_done by lia. split; [done|]. lia.
  - rewrite for_brk_step by lia. destruct (Hf lo ltac:(lia)) as [(r & -> & Hg)|[-> Hp]]; cbn [rbind].
    + left. exists lo, r. split; [lia|]. split; [done|]. split; [done|]. lia.
    + destruct (IH (lo + 1)) as [(i & r & Hi & E & Hg & Hfirst)|[E Hnone]]; [lia | intros; apply Hf; lia | |].
      * left. exists i, r. split; [lia|]. split; [done|]. split; [done|].
        intros i' Hi'. destruct (Z.eq_dec i' lo) as [->|]; [done|]. apply Hfirst. lia.
      * right. split; [done|]. intros i Hi. destruct (Z.eq_dec i lo) as [->|]; [done|]. apply Hnone. lia.
Qed.

Section SearchText.
Context (t : textframe) (ls : list bytes) (bs s : bytes) (r c : Z).
Hypothesis Hf : frame t ls.
Hypothesis Hs : is_str bs s.
Hypothesis Hne : s <> [].
Hypothesis Hrow : cursor_row t = r.
Hypothesis Hcol : cursor_col t = c.
Hypothesis Hr : 0 <= r.
Hypothesis Hc : 0 <= c.

Lemma search_row_spec i :
  r <= i < zlen ls ->
  (exists ik, search_row t bs (zlen s) i = Ok (inr ik) /\
     exists j, ik = (i, j + zlen s) /\ occurs_at ls s i j /\ not_before r c i j /\
       forall j', 0 <= j' < j -> not_before r c i j' -> ~ occurs_at ls s i j') \/
  (search_row t bs (zlen s) i = Ok (inl tt) /\
     ~ exists j, not_before r c i j /\ occurs_at ls s i j).
Proof.
  intros Hi. destruct (lookup_lt_is_Some_2 ls (Z.to_nat i)) as [l Hl]; [lia|].
  destruct (frame_line _ _ i _ Hf ltac:(lia) Hl) as (b & Hb & HS & Hn).
  unfold search_row. rewrite Hb. cbn [rbind]. rewrite Hn, Hrow, Hcol. cbn [rbind].
  set (lo := if i =? r then c else 0).
  assert (Hnb : forall j, 0 <= j -> lo <= j <-> not_before r c i j)
    by (intros j Hj; subst lo; unfold not_before; ztests; lia).
  assert (Hlo : 0 <= lo) by (subst lo; ztests; lia).
  assert (Hoc : forall j, occurs_at ls s i j <-> occurs l s j).
  { intros j. split; [intros (l' & _ & Hl' & Ho); by rewrite Hl in Hl'; injection Hl' as <- |].
    intros Ho. exists l. split; [lia | done]. }
  destruct (for_brk_first lo (zlen l) (fun j _ => search_at b bs (zlen l) (zlen s) j)
    (fun j => occurs l s j) (fun j k => k = j + zlen s /\ occurs l s j))
    as [(j & k & Hj & E & [-> Ho] & Hfirst)|[E Hnone]].
  { intros j Hj. destruct (search_at_spec b bs l s j HS Hs Hne ltac:(lia)) as [[E Ho]|[E Ho]]; eauto. }
  - left. rewrite E. cbn [rbind]. eexists. split; [done|]. exists j. split; [done|].
    split; [by apply Hoc|]. split; [apply Hnb; lia|].
    intros j' Hj' Hnb' Ho'. apply (Hfirst j'); [|by apply Hoc]. apply Hnb in Hnb'; lia.
  - right. rewrite E. split; [done|]. intros (j & Hnb' & Ho). pose proof (proj1 (Hoc j) Ho) as Ho'.
    pose proof (occurs_range _ _ _ Ho' Hne). assert (0 < zlen s) by (destruct s; [done | cbn; lia]).
    destruct Ho' as [Hj ?]. apply (Hnone j); [|by apply Hoc]. apply Hnb in Hnb'; lia.
Qed.

(** The first occurrence from the cursor on. *)
Definition first_from (i j : Z) : Prop :=
  occurs_at ls s i j /\ not_before r c i j /\
  forall i' j', occurs_at ls s i' j' -> not_before r c i' j' -> not_before i j i' j'.

Lemma search_forward_spec :
  (exists i j, search_forward t bs (zlen s) = Ok (inr (i, j + zlen s)) /\ first_from i j) \/
  (search_forward t bs (zlen s) = Ok (inl tt) /\
     forall i j, not_before r c i j -> ~ occurs_at ls s i j).
Proof.
  unfold search_forward. rewrite Hrow, (frame_maxrow _ _ Hf).
  destruct (for_brk_first r (zlen ls) (fun i _ => search_row t bs (zlen s) i)
    (fun i => exists j, not_before r c i j /\ occurs_at ls s i j)
    (fun i ik => exists j, ik = (i, j + zlen s) /\ occurs_at ls s i j /\ not_before r c i j /\
       forall j', 0 <= j' < j -> not_before r c i j' -> ~ occurs_at ls s i j'))
    as [(i & ik & Hi & E & (j & -> & Ho & Hnb & Hmin) & Hfirst)|[E Hnone]].
  { intros i Hi. apply search_row_spec. lia. }
  - left. exists i, j. split; [done|]. split; [done|]. split; [done|].
    intros i' j' Ho' Hnb'. unfold not_before.
    destruct (Z.lt_trichotomy i i') as [|[<-|Hlt]]; [lia | |].
    + right. split; [done|]. destruct (Z.le_gt_cases j j'); [done|]. exfalso.
      apply (Hmin j'); [|done|done]. destruct Ho' as (? & _ & _ & ? & _). lia.
    + exfalso. apply (Hfirst i'); [|eauto]. unfold not_before in Hnb'. lia.
  - right. split; [done|]. intros i j Hnb Ho. apply (Hnone i); [|eauto].
    destruct Ho as (l & Hi & Hl & _). apply lookup_lt_Some in Hl. unfold not_before in Hnb. lia.
Qed.
End SearchText.

Lemma occurs_not_before ls s r c i j : occurs_at ls s i j -> r <= 0 -> c <= 0 -> not_before r c i j.
Proof. intros (l & Hi & _ & Hj & _) Hr Hc. unfold not_before. lia. Qed.

(** The three outcomes of [Search]. *)
Lemma Search_spec t ls bs s r c :
  frame t ls -> cursor_row t = r -> cursor_col t = c -> 0 <= r -> 0 <= c ->
  is_str bs s -> s <> [] ->
  (exists i j, Search t bs = Ok (set_cursor t i (j + zlen s), 0) /\ first_from ls s r c i j) \/
  (exists i j, Search t bs = Ok (set_cursor t i (j + zlen s), 1) /\ first_from ls s 0 0 i j /\
     forall i' j', not_before r c i' j' -> ~ occurs_at ls s i' j') \/
  (Search t bs = Ok (t, -1) /\ forall i j, ~ occurs_at ls s i j).
Proof.
  intros Hf Hr Hc Hr0 Hc0 Hs Hne. unfold Search. rewrite (strlen_str _ _ Hs). cbn [rbind].
  destruct (search_forward_spec t ls bs s r c Hf Hs Hne Hr Hc Hr0 Hc0)
    as [(i & j & -> & Hfirst) | [-> Hnone]]; cbn [rbind]; [left; eauto|].
  rewrite Hr, Hc. destruct (search_forward_spec (set_cursor t 0 0) ls bs s 0 0 Hf Hs Hne eq_refl eq_refl
    ltac:(lia) ltac:(lia)) as [(i & j & E & Hfirst) | [E Hnone0]].
  - destruct (negb (r =? 0) || negb (c =? 0)) eqn:Hnz.
    + right; left. rewrite E. cbn [rbind]. exists i, j. done.
    + exfalso. apply orb_false_iff in Hnz as [Hr'%negb_false_iff%Z.eqb_eq Hc'%negb_false_iff%Z.eqb_eq].
      destruct Hfirst as (Hocc & _). apply (Hnone i j); [|done].
      eapply occurs_not_before; [done | lia | lia].
  - right; right. split.
    + rewrite E. cbn [rbind]. by destruct (_ || _).
    + intros i j Hocc. apply (Hnone0 i j); [|done]. by apply (occurs_not_before ls s).
Qed.

(** Loading and saving: [textframe_read] and [textframe_write] against the
    system-call interface, and the round trip between them. *)

(** * What a file means *)

(** The lines of a file, read byte by byte: CR, LF and CR LF end a line, a NUL
    is dropped.  [cur] is the line being read, [lastc] the previous byte. *)
Fixpoint parse (cur : bytes) (lastc : Z) (bs : bytes) : list bytes :=
  match bs with
  | [] => [cur]
  | c :: bs' =>
      if (c =? 13) || (c =? 10) then
        if (c =? 13) || negb (lastc =? 13) then cur :: parse [] (s8 c) bs'
        else parse cur (s8 c) bs'
      else parse (if c =? 0 then cur else cur ++ [c]) (s8 c) bs'
  end.

(** The bytes of a text: its lines separated by LF. *)
Fixpoint print (ls : list bytes) : bytes :=
  match ls with
  | [] => []
  | [l] => l
  | l :: ls' => l ++ 10 :: print ls'
  end.

Definition plain (l : bytes) : Prop := Forall (fun c => is_char c /\ c <> 10 /\ c <> 13) l.

Lemma s8_plain c : is_char c -> c <> 13 -> s8 c <> 13.
Proof.
  unfold is_char, s8. intros H1 H2. change (2 ^ 7) with 128. change (2 ^ 8) with 256.
  destruct (Z.lt_ge_cases c 128).
  - rewrite Z.mod_small by lia. lia.
  - replace (c + 128) with (c - 128 + 1 * 256) by lia. rewrite Z_mod_plus_full.
    rewrite Z.mod_small by lia. lia.
Qed.

Lemma parse_plain l cur lastc rest :
  plain l -> exists lastc', (lastc <> 13 -> lastc' <> 13) /\
    parse cur lastc (l ++ rest) = parse (cur ++ l) lastc' rest.
Proof.
  intros Hl. revert cur lastc. induction Hl as [|c l (Hc & H10 & H13) Hl IH]; intros cur lastc.
  - exists lastc. by rewrite app_nil_r.
  - cbn [app parse]. unfold is_char in Hc. zsimp.
    destruct (IH (cur ++ [c]) (s8 c)) as (lastc' & Hlast & ->).
    exists lastc'. split; [|by rewrite <- app_assoc]. intros _. apply Hlast. by apply s8_plain.
Qed.

(** Reading back what was printed gives the same lines. *)
Lemma parse_print ls lastc :
  ls <> [] -> Forall plain ls -> lastc <> 13 -> parse [] lastc (print ls) = ls.
Proof.
  intros Hne Hls. revert lastc. induction Hls as [|l ls Hl Hls IH]; intros lastc Hlast; [done|].
  destruct ls as [|l2 ls].
  - cbn [print]. destruct (parse_plain l [] lastc [] Hl) as (lastc' & _ & E).
    rewrite app_nil_r in E. by rewrite E.
  - change (print (l :: l2 :: ls)) with (l ++ 10 :: print (l2 :: ls)).
    destruct (parse_plain l [] lastc (10 :: print (l2 :: ls)) Hl) as (lastc' & Hlast' & ->).
    cbn [app]. change (parse l lastc' (10 :: ?r)) with
      (if (10 =? 13) || negb (lastc' =? 13) then l :: parse [] (s8 10) r else parse l (s8 10) r).
    specialize (Hlast' Hlast). zsimp. rewrite IH; done.
Qed.

(** * Reading bytes into a frame *)

(** The frame while a file is read: complete lines, and the cursor at the end
    of the line being read. *)
Definition reading (t : textframe) (pre : list bytes) (cur : bytes) : Prop :=
  rep t (mk_doc (pre ++ [cur]) (zlen pre) (zlen cur)).

Lemma lookup_snoc_z {A} (pre : list A) x : (pre ++ [x]) !! Z.to_nat (zlen pre) = Some x.
Proof. by apply lookup_middle. Qed.

Lemma reading_char t pre cur c :
  reading t pre cur -> is_byte c -> zlen cur + 1 < INT_MAX ->
  exists t', (let! t1 := putc_to_str t c in move_to_next_char t1) = Ok t' /\
    reading t' pre (if c =? 0 then cur else cur ++ [c]).
Proof.
  intros Hrd Hc Hroom. unfold reading in *. set (d := mk_doc (pre ++ [cur]) (zlen pre) (zlen cur)) in *.
  assert (Hcur : Spec.cur_line d = cur) by (unfold Spec.cur_line; cbn; by rewrite lookup_snoc_z).
  assert (Hchars : Forall is_char cur).
  { destruct (rep_line _ _ Hrd) as (l & b & _ & E & _ & [Hs _] & _). congruence. }
  destruct (putc_to_str_refines t d c Hrd) as (t1 & -> & Hf1 & Er & Ec); [by rewrite Hcur|].
  cbn [rbind]. set (cur' := if c =? 0 then cur else cur ++ [c]).
  assert (Hl : lines (Spec.putc d c) = pre ++ [cur']).
  { unfold Spec.putc. cbn [lines]. rewrite Hcur. cbn [crow ccol d lines].
    rewrite insert_middle by done. do 2 f_equal. unfold is_byte in Hc. rewrite u8_small by lia.
    rewrite take_ge, drop_ge by lia. subst cur'. ztest.
    - subst c. pose proof (is_str_cstr (cur ++ [0]) []) as H. 
      assert (Hs : is_str ((cur ++ [0]) ++ [0]) cur) by (rewrite <- app_assoc; by apply is_str_intro).
      eapply is_str_inj; [apply H | exact Hs]. apply Forall_app. split; [|repeat constructor; unfold is_byte; lia].
      eapply Forall_impl; [exact Hchars | apply is_char_byte].
    - apply cstr_id. apply Forall_app. split; [done|]. repeat constructor; lia. }
  rewrite Hl in Hf1.
  assert (Hcur' : zlen cur <= zlen cur' <= zlen cur + 1) by (subst cur'; ztest; llia).
  assert (Hrep1 : rep t1 (mk_doc (pre ++ [cur']) (zlen pre) (zlen cur))).
  { split; [done|]. split; [done|]. split; [done|]. exists cur'. cbn [lines crow ccol].
    rewrite lookup_snoc_z. split; [lia|]. split; [done | lia]. }
  destruct (move_to_next_char_refines t1 _ Hrep1) as (t2 & E & Hrep2 & _).
  exists t2. split; [done|].
  replace (mk_doc (pre ++ [cur']) (zlen pre) (zlen cur'))
    with (Spec.next_char (mk_doc (pre ++ [cur']) (zlen pre) (zlen cur))); [done|].
  unfold Spec.next_char, Spec.cur_line. cbn [lines crow ccol]. rewrite lookup_snoc_z.
  cbn [default from_option id]. assert (Hend := boundary_end cur').
  destruct (Z.ltb_spec (zlen cur) (zlen cur')).
  - replace (zlen cur + 1) with (zlen cur') by lia. by apply (place_id _ _ _ _ cur'); [apply lookup_snoc_z|].
  - replace (zlen pre + 1 <? zlen (pre ++ [cur'])) with false by (symmetry; apply Z.ltb_ge; rewrite length_app; cbn [length]; lia).
    replace (zlen cur) with (zlen cur') by lia. by apply (place_id _ _ _ _ cur'); [apply lookup_snoc_z|].
Qed.

Lemma reading_newline t pre cur :
  reading t pre cur -> zlen pre + 2 < 2 ^ 30 ->
  exists t', new_line_to_editor t = Ok t' /\ reading t' (pre ++ [cur]) [].
Proof.
  intros Hrd Hroom. unfold reading in *.
  destruct (new_line_to_editor_refines t _ Hrd) as (t' & E & Hrep & _); [cbn [lines]; llia|].
  exists t'. split; [done|].
  replace (mk_doc ((pre ++ [cur]) ++ [[]]) (zlen (pre ++ [cur])) (zlen []))
    with (Spec.newline (mk_doc (pre ++ [cur]) (zlen pre) (zlen cur))); [done|].
  unfold Spec.newline, Spec.cur_line. cbn [lines crow ccol]. rewrite lookup_snoc_z.
  cbn [default from_option id]. rewrite adjust_col_boundary_id by apply boundary_end.
  rewrite (take_app_len pre), (take_ge cur), (drop_ge cur) by lia.
  rewrite (drop_ge (pre ++ [cur])) by llia. rewrite <- app_assoc. f_equal. llia.
Qed.

Lemma read_byte_spec t pre cur lastc c :
  reading t pre cur -> is_byte c -> zlen cur + 1 < INT_MAX -> zlen pre + 2 < 2 ^ 30 ->
  exists t' pre' cur', read_byte (t, lastc) c = Ok (t', s8 c) /\ reading t' pre' cur' /\
    zlen pre' <= zlen pre + 1 /\ zlen cur' <= zlen cur + 1 /\
    forall bs, pre ++ parse cur lastc (c :: bs) = pre' ++ parse cur' (s8 c) bs.
Proof.
  intros Hrd Hc H1 H2. unfold read_byte. cbn [parse].
  destruct ((c =? 13) || (c =? 10)) eqn:Heol.
  - replace ((c =? 10) && negb (lastc =? 13)) with
      (if (c =? 13) then (c =? 10) && negb (lastc =? 13) else negb (lastc =? 13)).
    2:{ destruct (Z.eqb_spec c 13), (Z.eqb_spec c 10); cbn in *; done. }
    replace ((c =? 13) || (if c =? 13 then (c =? 10) && negb (lastc =? 13) else negb (lastc =? 13)))
      with ((c =? 13) || negb (lastc =? 13)) by (by destruct (c =? 13)).
    destruct ((c =? 13) || negb (lastc =? 13)).
    + destruct (reading_newline _ _ _ Hrd H2) as (t' & -> & Hrd'). cbn [rbind].
      exists t', (pre ++ [cur]), []. split; [done|]. split; [done|]. split; [llia|]. split; [cbn; lia|].
      intros bs. by rewrite <- app_assoc.
    + cbn [rbind]. exists t, pre, cur. split; [done|]. split; [done|]. split; [lia|]. split; [lia|]. done.
  - destruct (reading_char _ _ _ _ Hrd Hc H1) as (t' & E & Hrd').
    rewrite E. cbn [rbind]. eexists t', pre, _. split; [done|]. split; [exact Hrd'|].
    split; [lia|]. split; [ztest; llia | done].
Qed.

Lemma read_bytes_spec bs t pre cur lastc :
  reading t pre cur -> Forall is_byte bs ->
  zlen cur + zlen bs < 2 ^ 29 -> zlen pre + zlen bs < 2 ^ 29 ->
  exists t' pre' cur' lastc', read_bytes bs (t, lastc) = Ok (t', lastc') /\ reading t' pre' cur' /\
    zlen pre' <= zlen pre + zlen bs /\ zlen cur' <= zlen cur + zlen bs /\
    forall rest, pre ++ parse cur lastc (bs ++ rest) = pre' ++ parse cur' lastc' rest.
Proof.
  intros Hrd Hbs. revert t pre cur lastc Hrd. induction Hbs as [|c bs Hc Hbs IH];
    intros t pre cur lastc Hrd H1 H2.
  - exists t, pre, cur, lastc. split; [done|]. split; [done|]. split; [lia|]. split; [lia | done].
  - cbn [length] in H1, H2. cbn [read_bytes].
    destruct (read_byte_spec t pre cur lastc c Hrd Hc) as (t1 & pre1 & cur1 & -> & Hrd1 & Hp & Hq & Hparse);
      [unfold INT_MAX; lia | lia |].
    cbn [rbind]. destruct (IH t1 pre1 cur1 (s8 c) Hrd1) as (t2 & pre2 & cur2 & last2 & E & Hrd2 & Hp2 & Hq2 & Hparse2);
      [lia | lia |].
    exists t2, pre2, cur2, last2. split; [done|]. split; [done|]. cbn [length].
    split; [lia|]. split; [lia|]. intros rest. cbn [app]. rewrite Hparse. apply Hparse2.
Qed.

Lemma rep_set_capacity t d : rep t d -> rep (set_capacity t (maxrow t)) d.
Proof.
  intros (((bs & rest & Hd & Hbs) & Hm & Hcap & Hfit) & Hr & Hc & Hin). split; [|done].
  split; [by exists bs, rest|]. split; [done|]. split; [|done].
  cbn. rewrite Hd, Hm. pose proof (Forall2_length _ _ _ Hbs). llia.
Qed.

Section Loading.
Context {W : Type} `{!Sys W, !SysLaws W}.

Lemma slice_app (c : bytes) off n :
  0 <= off -> 0 <= n -> slice c off n ++ drop (Z.to_nat (off + n)) c = drop (Z.to_nat off) c.
Proof.
  intros H1 H2. unfold slice. replace (Z.to_nat (off + n)) with (Z.to_nat off + Z.to_nat n)%nat by lia.
  rewrite <- drop_drop. apply take_drop.
Qed.

(** The read loop, at offset [off] of a file [c], with enough fuel. *)
Lemma read_loop_spec fuel w fd p c off t pre cur lastc :
  (Z.to_nat (zlen c - off) < fuel)%nat ->
  rd_at w fd p off -> file_of w p = Some c -> Forall is_byte c -> 0 <= off <= zlen c ->
  reading t pre cur -> zlen cur + (zlen c - off) < 2 ^ 29 -> zlen pre + (zlen c - off) < 2 ^ 29 ->
  exists w' t' pre' cur', read_loop fuel w fd (t, lastc) = Ok (w', t') /\ reading t' pre' cur' /\
    pre ++ parse cur lastc (drop (Z.to_nat off) c) = pre' ++ [cur'] /\
    (exists off', rd_at w' fd p off') /\ (forall q, file_of w' q = file_of w q).
Proof.
  revert w off t pre cur lastc.
  induction fuel as [|fuel IH]; intros w off t pre cur lastc Hfuel Hfd Hc Hbytes Hoff Hrd H1 H2; [lia|].
  cbn [read_loop]. set (m := Z.min ROWSIZE (zlen c - off)).
  assert (Hm : 0 <= m <= zlen c - off) by (subst m; unfold ROWSIZE; lia).
  destruct (read_spec w fd p off c ROWSIZE Hfd Hc Hoff) as (w1 & -> & Hfd1 & Hf1); [unfold ROWSIZE; lia|].
  fold m. fold m in Hfd1. rewrite slice_len by lia. destruct (Z.ltb_spec 0 m) as [Hpos|Hz].
  - assert (Hsl : Forall is_byte (slice c off m)) by (unfold slice; by apply Forall_take, Forall_drop).
    destruct (read_bytes_spec (slice c off m) t pre cur lastc Hrd Hsl)
      as (t2 & pre2 & cur2 & last2 & -> & Hrd2 & Hp & Hq & Hparse); [rewrite slice_len; lia..|].
    rewrite slice_len in Hp, Hq by lia. cbn [rbind].
    destruct (IH w1 (off + m) t2 pre2 cur2 last2) as (w3 & t3 & pre3 & cur3 & E & Hrd3 & Hparse3 & Hat3 & Hf3);
      [lia | done | by rewrite Hf1 | done | lia | done | lia | lia |].
    exists w3, t3, pre3, cur3. split; [done|]. split; [done|]. split.
    + rewrite <- Hparse3, <- Hparse. by rewrite slice_app by lia.
    + split; [done|]. intros q. by rewrite Hf3, Hf1.
  - exists w1, t, pre, cur. split; [done|]. split; [done|]. split; [|eauto].
    by rewrite drop_ge by (subst m; unfold ROWSIZE in *; lia).
Qed.

(** [textframe_read] loads the lines of the file, with the cursor at the
    start; one unit of fuel more than the length of the file is enough. *)
Lemma textframe_read_spec fuel w text fname name c :
  is_str fname name -> file_of w name = Some c -> Forall is_byte c -> zlen c < 2 ^ 28 ->
  (length c < fuel)%nat -> can_open w ->
  exists w' t, textframe_read fuel w text fname = Ok (w', t, 0) /\
    rep t (mk_doc (parse [] (-1) c) 0 0) /\ (forall q, file_of w' q = file_of w q).
Proof.
  intros Hname Hc Hbytes Hlen Hfuel Hopen. unfold textframe_read. rewrite (cstr_str _ _ Hname).
  destruct (open_existing w name c O_RDWR Hc Hopen ltac:(by right)) as (w1 & fd & E & Hpos & Hfd & Hf1).
  rewrite E. zsimp.
  destruct (LineEdit_set_str_refines zero_textframe [] [0] []) as (t0 & E0 & Hrep0);
    [apply zero_frame | by apply (is_str_intro []) | done |].
  rewrite E0. cbn [rbind].
  destruct (read_loop_spec fuel w1 fd name c 0 t0 [] [] (-1)) as (w2 & t2 & pre & cur & -> & Hrd & Hparse & (off' & Hat) & Hf2);
    [lia | auto | by rewrite Hf1 | done | lia | done | cbn; lia | cbn; lia |].
  cbn [rbind app drop] in Hparse |- *. change (Z.to_nat 0) with 0%nat in Hparse. cbn [drop] in Hparse.
  assert (Hmr : maxrow t2 = zlen (pre ++ [cur])) by apply Hrd.
  rewrite Hmr. replace (0 <? zlen (pre ++ [cur])) with true by (symmetry; apply Z.ltb_lt; llia).
  destruct (move_to_pos_spec t2 (pre ++ [cur]) 0 0) as (t3 & -> & Hrep3 & _);
    [apply Hrd | llia | lia | lia |]. cbn [rbind].
  destruct (close_spec w2 fd name off') as (w3 & r & -> & _ & Hf3); [by left|].
  eexists _, _. split; [done|]. split; [|intros q; by rewrite Hf3, Hf2, Hf1].
  change (drop 0 c) with c in Hparse. rewrite Hparse. apply rep_set_capacity. revert Hrep3.
  unfold Spec.goto, Spec.clip_row, Spec.clip_col, Spec.place. cbn [lines].
  rewrite (Z.min_l 0) by llia. zsimp. change (Z.to_nat 0) with 0%nat.
  rewrite Z.min_l by lia. by rewrite adjust_col_boundary_id by apply boundary_zero.
Qed.

(** The bytes [textframe_write] has written before row [i]. *)
Definition printed (ls : list bytes) (i : Z) : bytes :=
  concat ((fun l => l ++ [10]) <$> take (Z.to_nat i) ls).

Lemma print_snoc pre l : print (pre ++ [l]) = concat ((fun l => l ++ [10]) <$> pre) ++ l.
Proof.
  induction pre as [|x pre IH]; [done|]. cbn [app fmap list_fmap concat].
  rewrite <- !app_assoc. cbn [app]. change (print (x :: ?k)) with
    (match k with [] => x | _ => x ++ 10 :: print k end).
  rewrite <- IH. by destruct pre.
Qed.

Lemma printed_step ls i l :
  0 <= i -> ls !! Z.to_nat i = Some l -> printed ls (i + 1) = printed ls i ++ l ++ [10].
Proof.
  intros Hi Hl. unfold printed. replace (Z.to_nat (i + 1)) with (S (Z.to_nat i)) by lia.
  rewrite (take_S_r _ _ l) by done. by rewrite fmap_app, concat_app, <- (app_nil_r (l ++ [10])).
Qed.

Lemma printed_last ls l : last ls = Some l -> printed ls (zlen ls - 1) ++ l = print ls.
Proof.
  intros [pre ->]%last_Some. rewrite print_snoc. unfold printed. do 3 f_equal.
  apply take_app_len. llia.
Qed.

(** What holds of the file while it is written: room for [n] bytes. *)
Definition writing (w0 w : W) (fd : Z) (p c : bytes) (n : Z) : Prop :=
  wr_at w fd p (zlen c) /\ file_of w p = Some c /\ room w p n /\
  (forall q, apart w0 p q -> apart w p q /\ file_of w q = file_of w0 q).

Lemma writing_step w0 w fd p c bs n :
  writing w0 w fd p c n -> zlen (c ++ bs) <= n -> n <= FILE_MAX ->
  exists w', sys_write w fd bs = (w', zlen bs) /\ writing w0 w' fd p (c ++ bs) n.
Proof.
  intros (H1 & H2 & H3 & H4) Hn Hmax.
  destruct (write_append w fd p c bs n H1 H2 H3 Hn ltac:(lia)) as (w' & E & H1' & H2' & H3' & H4').
  exists w'. split; [done|]. do 3 (split; [done|]). intros q Hq. destruct (H4 q Hq) as [Ha E1].
  destruct (H4' q Ha) as [Ha' E2]. by rewrite E2, E1.
Qed.

(** The rows before row [i], row [i] and its LF are part of the file. *)
Lemma print_split pre l rest :
  print (pre ++ l :: rest) = concat ((fun l => l ++ [10]) <$> pre) ++ l ++ match rest with [] => [] | _ => 10 :: print rest end.
Proof.
  induction pre as [|x pre IH]; cbn [app fmap list_fmap concat].
  - destruct rest; cbn; by rewrite ?app_nil_r.
  - rewrite <- !app_assoc. cbn [app]. rewrite <- IH. by destruct pre.
Qed.

Lemma printed_le ls i l :
  0 <= i -> ls !! Z.to_nat i = Some l ->
  zlen (printed ls i ++ l) + (if i <? zlen ls - 1 then 1 else 0) <= zlen (print ls).
Proof.
  intros Hi Hl. pose proof (lookup_lt_Some _ _ _ Hl) as Hlt. rewrite <- (take_drop_middle ls _ l Hl) at 3.
  rewrite print_split. unfold printed. rewrite !length_app.
  destruct (Z.ltb_spec i (zlen ls - 1)); [|lia].
  destruct (drop (S (Z.to_nat i)) ls) as [|x r] eqn:E; [|cbn [length]; lia].
  apply (f_equal length) in E. rewrite length_drop in E. cbn in E. lia.
Qed.

Lemma write_row_spec w0 t ls fd p w i l :
  frame t ls -> 0 <= i -> ls !! Z.to_nat i = Some l -> zlen (print ls) <= FILE_MAX ->
  writing w0 w fd p (printed ls i) (zlen (print ls)) ->
  exists w', write_row t fd i w = Ok (inl w') /\
    writing w0 w' fd p (if i <? zlen ls - 1 then printed ls (i + 1) else printed ls i ++ l) (zlen (print ls)).
Proof.
  intros Hf Hi Hl Hmax Hw. pose proof (printed_le ls i l Hi Hl) as Hle. unfold write_row.
  destruct (frame_line t ls i l Hf Hi Hl) as (b & -> & Hs & Hn). cbn [rbind]. rewrite Hn. cbn [rbind].
  replace (take (Z.to_nat (zlen l)) b) with l
    by (destruct Hs as [_ [rest ->]]; symmetry; by apply take_app_len).
  destruct (writing_step w0 w fd p _ l _ Hw) as (w1 & -> & Hw1); [destruct (_ <? _); lia | done|]. zsimp.
  rewrite (frame_maxrow _ _ Hf). destruct (Z.ltb_spec i (zlen ls - 1)).
  - destruct (writing_step w0 w1 fd p _ [10] _ Hw1) as (w2 & -> & Hw2); [revert Hle; rewrite !length_app; cbn; lia | done|].
    exists w2. split; [done|]. by rewrite (printed_step ls i l), app_assoc.
  - by exists w1.
Qed.

Lemma write_rows_spec w0 t ls fd p w i n :
  frame t ls -> (0 < n)%nat -> 0 <= i -> i + Z.of_nat n = zlen ls -> zlen (print ls) <= FILE_MAX ->
  writing w0 w fd p (printed ls i) (zlen (print ls)) ->
  exists w', brk_n n i (write_row t fd) w = Ok (inl w') /\ writing w0 w' fd p (print ls) (zlen (print ls)).
Proof.
  intros Hf. revert w i. induction n as [|n IH]; intros w i Hn Hi Hlen Hmax Hw; [lia|].
  destruct (lookup_lt_is_Some_2 ls (Z.to_nat i)) as [l Hl]; [lia|]. cbn [brk_n].
  destruct (write_row_spec w0 t ls fd p w i l Hf Hi Hl Hmax Hw) as (w1 & -> & Hw1). cbn [rbind].
  destruct n as [|n].
  - cbn [brk_n]. exists w1. split; [done|]. revert Hw1. zsimp.
    replace i with (zlen ls - 1) by lia. rewrite printed_last; [done|].
    rewrite last_lookup. rewrite <- Hl. f_equal. lia.
  - revert Hw1. zsimp. intros Hw1. apply IH; [lia | lia | lia | done | done].
Qed.

(** [textframe_write] replaces the file by the lines separated by LF, when there
    is room for them once the old file is gone. *)
Lemma textframe_write_spec w t ls fname name :
  frame t ls -> ls <> [] -> is_str fname name -> zlen (print ls) <= FILE_MAX ->
  room (sys_unlink w name).1 name (zlen (print ls)) ->
  exists w', textframe_write w t fname = Ok (w', set_capacity t (maxrow t), 0) /\ can_open w' /\
    file_of w' name = Some (print ls) /\ (forall q, apart w name q -> file_of w' q = file_of w q).
Proof.
  intros Hf Hne Hname Hmax Hroom. unfold textframe_write. rewrite (cstr_str _ _ Hname).
  destruct (unlink_spec w name) as (w1 & r & Eu & Hnone & Hf1). rewrite Eu in Hroom |- *. cbn [fst] in Hroom.
  destruct (open_create w1 name _ Hnone Hroom) as (w2 & fd & E & Hpos & Hat & Hempty & Hroom2 & Hf2).
  rewrite E. zsimp. rewrite (frame_maxrow _ _ Hf). unfold for_brk. rewrite Z.sub_0_r, Nat2Z.id.
  assert (Hw2 : writing w w2 fd name (printed ls 0) (zlen (print ls))).
  { do 3 (split; [done|]). intros q Hq. destruct (Hf1 q Hq) as [Ha1 E1]. destruct (Hf2 q Ha1) as [Ha2 E2]. by rewrite E2, E1. }
  destruct (write_rows_spec w t ls fd name w2 0 (length ls) Hf) as (w3 & -> & Hw3);
    [destruct ls; [done | cbn; lia] | lia | lia | done | done |].
  cbn [rbind]. destruct Hw3 as (Hat3 & Hp & _ & Hq).
  destruct (close_spec w3 fd name _ (or_intror Hat3)) as (w4 & r4 & -> & Hcan & Hf4). exists w4.
  split; [done|]. split; [done|]. split; [by rewrite Hf4|]. intros q Hqp. rewrite Hf4. by apply Hq.
Qed.

End Loading.
