(* ===== verification/Widgets.v ===== *)
(** Areas, the multi-line edit box and the one-line edit box of the editor:
    src/src/Gui.h and the first part of src/src/Gui.c.

    A handler of the C code reaches its edit box through a pointer; here it
    maps the record of the box to the new one.  [clip] is the clipboard of the
    buffer manager, which the handler reaches through the parent pointers; the
    handlers set the focus of the cursor only to the box they handle, so they
    return whether they do. *)
From S2P Require Import Prelude Ulib Sys Textframe.

(** * Areas *)

Record Area := mk_Area {
  x : Z; y : Z;
  width : Z; height : Z;
  offset_x : Z; offset_y : Z;
}.

(** Coordinates are ints: the arithmetic on them wraps at 32 bits. *)
Definition mouse_pos_transform (cur_area : Area) (px py : Z) : Z * Z :=
  (s32 (px - s32 (x cur_area - offset_x cur_area)), s32 (py - s32 (y cur_area - offset_y cur_area))).

Definition is_pos_in_area (cur_area : Area) (px py : Z) : bool :=
  (x cur_area <=? px) && (y cur_area <=? py) &&
  (px <? s32 (x cur_area + width cur_area)) && (py <? s32 (y cur_area + height cur_area)).

Definition calc_current_area (parent_area area : Area) : Area :=
  let dx := s32 (x area - offset_x parent_area) in
  let dy := s32 (y area - offset_y parent_area) in
  let w := s32 (width parent_area - dx) in
  let h := s32 (height parent_area - dy) in
  let w := if width area <? w then width area else w in
  let w := if dx <? 0 then 0 else w in
  let h := if dy <? 0 then 0 else h in
  let h := if height area <? h then height area else h in
  mk_Area (s32 (x parent_area + dx)) (s32 (y parent_area + dy)) w h (offset_x area) (offset_y area).

(** * Keys and mouse events *)

Definition CTRL_P : Z := 16.
Definition BACKSPACE : Z := 8.
Definition ENTER : Z := 10.
Definition LEFT_ARROW : Z := 228.
Definition RIGHT_ARROW : Z := 229.
Definition UP_ARROW : Z := 226.
Definition DOWN_ARROW : Z := 227.
Definition DELETE : Z := 233.
Definition CTRL_S : Z := 19.
Definition TAB : Z := 9.
Definition CTRL_C : Z := 3.
Definition CTRL_V : Z := 22.
Definition CTRL_F : Z := 6.
Definition CTRL_X : Z := 24.

(** [enum MSG_TYPE] *)
Definition KEYBOARD : Z := 0.
Definition MOUSE_LEFT_PRESS : Z := 1.
Definition MOUSE_LEFT_RELEASE : Z := 2.
Definition MOUSE_RIGHT_PRESS : Z := 3.
Definition MOUSE_RIGHT_RELEASE : Z := 4.
Definition MOUSE_MOVE : Z := 5.

(** * The multi-line edit box *)

Record TextEdit := mk_TextEdit {
  te_area : Area;
  te_text : textframe;
  point1_row : Z; point1_col : Z;
  point2_row : Z; point2_col : Z;
  selecting : Z;
  highlight_on : Z;
  scale : Z;
}.

Definition set_text (e : TextEdit) (t : textframe) : TextEdit :=
  mk_TextEdit (te_area e) t (point1_row e) (point1_col e) (point2_row e) (point2_col e)
    (selecting e) (highlight_on e) (scale e).
Definition set_te_area (e : TextEdit) (a : Area) : TextEdit :=
  mk_TextEdit a (te_text e) (point1_row e) (point1_col e) (point2_row e) (point2_col e)
    (selecting e) (highlight_on e) (scale e).
Definition set_points (e : TextEdit) (r1 c1 r2 c2 : Z) : TextEdit :=
  mk_TextEdit (te_area e) (te_text e) r1 c1 r2 c2 (selecting e) (highlight_on e) (scale e).
Definition set_selecting (e : TextEdit) (s : Z) : TextEdit :=
  mk_TextEdit (te_area e) (te_text e) (point1_row e) (point1_col e) (point2_row e) (point2_col e)
    s (highlight_on e) (scale e).
Definition set_highlight_on (e : TextEdit) (h : Z) : TextEdit :=
  mk_TextEdit (te_area e) (te_text e) (point1_row e) (point1_col e) (point2_row e) (point2_col e)
    (selecting e) h (scale e).
Definition set_scale (e : TextEdit) (s : Z) : TextEdit :=
  mk_TextEdit (te_area e) (te_text e) (point1_row e) (point1_col e) (point2_row e) (point2_col e)
    (selecting e) (highlight_on e) s.

(** [edit->point2_col = -1; edit->point2_row = -1] *)
Definition unselect (e : TextEdit) : TextEdit := set_points e (point1_row e) (point1_col e) (-1) (-1).

Definition TextEdit_adjust_col_row (e : TextEdit) : TextEdit :=
  let r1 := point1_row e in let c1 := point1_col e in
  let r2 := point2_row e in let c2 := point2_col e in
  if (r2 <? r1) || ((r2 =? r1) && (c2 <? c1)) then set_points e r2 c2 r1 c1 else e.

(** [make_TextEdit]: [junk] is what the block from [malloc] held; the fields
    [selecting], [highlight_on] and [scale] keep it. *)
Definition make_TextEdit (junk : TextEdit) : result TextEdit :=
  let! t := LineEdit_set_str zero_textframe [0] in
  Ok (mk_TextEdit (mk_Area 0 0 100 16 0 0) t (-1) (-1) (-1) (-1)
        (selecting junk) (highlight_on junk) (scale junk)).

(** [1 << n] of an int: the processor takes the count modulo 32. *)
Definition shl1 (n : Z) : Z := s32 (Z.shiftl 1 (Z.land n 31)).

(** [font_width] and [font_height] at a scale. *)
Definition font_size (s : Z) : Z * Z :=
  let '(w, h) := (8, 16) in
  let '(w, h) := if s <? 0 then (Z.quot w (shl1 (- s)), Z.quot h (shl1 (- s))) else (w, h) in
  if 0 <? s then (s32 (w * shl1 s), s32 (h * shl1 s)) else (w, h).

(** [a / b]: dividing by 0 stops the program. *)
Definition divide (a b : Z) : result Z := if b =? 0 then Err DivByZero else Ok (Z.quot a b).

(** The new box, and whether the cursor focus moves to it. *)
Definition handle_mouse_TextEdit (e : TextEdit) (px py mouse_opt : Z) : result (TextEdit * bool) :=
  let '(font_width, font_height) := font_size (scale e) in
  let '(px, py) := mouse_pos_transform (te_area e) px py in
  let focus := negb (mouse_opt =? MOUSE_MOVE) in
  let! e :=
    if focus then
      let! r := divide py font_height in
      let! c := divide px font_width in
      let! t := move_to_pos (te_text e) r c in
      Ok (set_text e t)
    else Ok e in
  if mouse_opt =? MOUSE_LEFT_PRESS then
    let! r := divide py font_height in
    let! c := divide px font_width in
    Ok (set_selecting (set_points e r c (-1) (-1)) 1, focus)
  else if (mouse_opt =? MOUSE_MOVE) || (mouse_opt =? MOUSE_LEFT_RELEASE) then
    if selecting e =? 0 then Ok (e, focus)
    else
      let! r := divide py font_height in
      let! c := divide px font_width in
      let e :=
        if (point1_row e =? r) && (point1_col e =? c) then e
        else
          let last := maxrow (te_text e) - 1 in
          let r1 := if last + 1 <=? point1_row e then last else point1_row e in
          let r2 := if last + 1 <=? r then last else r in
          set_points e r1 (point1_col e) r2 c in
      Ok (if mouse_opt =? MOUSE_LEFT_RELEASE then set_selecting e 0 else e, focus)
  else Ok (set_selecting e 0, focus).

(** The selection is deleted: the text is replaced by what [textframe_delete]
    returns, and the old one is freed. *)
Definition delete_selection (e : TextEdit) : result TextEdit :=
  let! t := textframe_delete (te_text e) (point1_row e) (point1_col e) (point2_row e) (point2_col e) in
  let! _ := LineEdit_set_str (te_text e) [0] in
  Ok (set_text e t).

(** [move_to_pos(text, edit->point1_row, edit->point1_col)] *)
Definition goto_point1 (e : TextEdit) : result TextEdit :=
  let! t := move_to_pos (te_text e) (point1_row e) (point1_col e) in Ok (set_text e t).

Definition on_text (e : TextEdit) (f : textframe -> result textframe) : result TextEdit :=
  let! t := f (te_text e) in Ok (set_text e t).

Definition key_enter (e : TextEdit) : result TextEdit :=
  let! e :=
    if negb (point2_col e =? -1) then
      let! e := delete_selection (TextEdit_adjust_col_row e) in
      let! e := goto_point1 e in
      Ok (unselect e)
    else Ok e in
  on_text e new_line_to_editor.

(** [case LEFT_ARROW: case BACKSPACE:] *)
Definition key_left (e : TextEdit) (c : Z) : result TextEdit :=
  let! e :=
    if (point2_col e =? -1) && (c =? LEFT_ARROW) then on_text e move_to_previous_char else Ok e in
  let! e :=
    if c =? BACKSPACE then
      if point2_col e =? -1 then
        if 0 <? cursor_col (te_text e) then
          let! e := on_text e move_to_previous_char in
          on_text e backspace_to_str
        else on_text e move_cur_line_to_prev_line
      else
        let! e := delete_selection (TextEdit_adjust_col_row e) in
        goto_point1 e
    else Ok e in
  Ok (unselect e).

Definition key_right (e : TextEdit) : result TextEdit :=
  let! e :=
    if negb (point2_col e =? -1) then
      let! e := on_text e (fun t => move_to_pos t (point2_row e) (point2_col e)) in
      Ok (unselect e)
    else Ok e in
  on_text e move_to_next_char.

Definition key_copy (e : TextEdit) (clip : option textframe)
  : result (TextEdit * option textframe) :=
  if negb (point2_col e =? -1) then
    let! _ := match clip with Some t => let! _ := LineEdit_set_str t [0] in Ok tt | None => Ok tt end in
    let e := TextEdit_adjust_col_row e in
    let! t := textframe_extract (te_text e) (point1_row e) (point1_col e) (point2_row e) (point2_col e) in
    Ok (e, Some t)
  else Ok (e, clip).

Definition key_paste (e : TextEdit) (clip : option textframe) : result TextEdit :=
  match clip with
  | None => Ok e
  | Some t =>
      let! e :=
        if negb (point2_col e =? -1) then
          let! e := delete_selection (TextEdit_adjust_col_row e) in
          goto_point1 (unselect e)
        else Ok e in
      let start_row := cursor_row (te_text e) in
      let start_col := cursor_col (te_text e) in
      let e := set_points e start_row start_col (point2_row e) (point2_col e) in
      let! text := textframe_insert (te_text e) t start_row start_col in
      let! _ := LineEdit_set_str (te_text e) [0] in
      Ok (set_text e text)
  end.

(** [default:] a printable character. *)
Definition key_char (e : TextEdit) (c : Z) : result TextEdit :=
  if (32 <=? c) && (c <=? 126) then
    let! e :=
      if negb (point2_col e =? -1) then
        let! e := delete_selection e in
        goto_point1 (unselect e)
      else Ok e in
    let! e := on_text e (fun t => putc_to_str t c) in
    on_text e move_to_next_char
  else Ok e.

(** [case CTRL_X] falls through to [default], which ignores CTRL_X. *)
Definition handle_keyboard_TextEdit (e : TextEdit) (clip : option textframe) (c : Z)
  : result (TextEdit * option textframe) :=
  let same e := let! e := e in Ok (e, clip) in
  if c =? ENTER then same (key_enter e)
  else if (c =? LEFT_ARROW) || (c =? BACKSPACE) then same (key_left e c)
  else if c =? RIGHT_ARROW then same (key_right e)
  else if c =? UP_ARROW then same (on_text (unselect e) move_to_last_line)
  else if c =? DOWN_ARROW then same (on_text (unselect e) move_to_next_line)
  else if c =? CTRL_C then key_copy e clip
  else if c =? CTRL_V then same (key_paste e clip)
  else if c =? CTRL_X then
    if negb (point2_col e =? -1) then
      let! '(e, clip) := key_copy e clip in
      let! e := key_left e BACKSPACE in
      let! e := key_char e c in
      Ok (e, clip)
    else same (key_char e c)
  else same (key_char e c).

(** * The one-line edit box *)

Record LineEdit := mk_LineEdit { le_area : Area; le_text : textframe }.

Definition make_LineEdit : result LineEdit :=
  let! t := LineEdit_set_str zero_textframe [0] in
  Ok (mk_LineEdit (mk_Area 0 0 100 16 0 0) t).

(** The focus always moves to the box. *)
Definition handle_mouse_LineEdit (e : LineEdit) (px py : Z) : result LineEdit :=
  let '(px, py) := mouse_pos_transform (le_area e) px py in
  let! t := move_to_pos (le_text e) (Z.quot py 16) (Z.quot px 8) in
  Ok (mk_LineEdit (le_area e) t).

Definition handle_keyboard_LineEdit (e : LineEdit) (c : Z) : result LineEdit :=
  let! t :=
    if (c =? LEFT_ARROW) || (c =? BACKSPACE) then
      let! t := move_to_previous_char (le_text e) in
      if c =? BACKSPACE then backspace_to_str t else Ok t
    else if c =? RIGHT_ARROW then move_to_next_char (le_text e)
    else if (32 <=? c) && (c <=? 126) then
      let! t := putc_to_str (le_text e) c in move_to_next_char t
    else Ok (le_text e) in
  Ok (mk_LineEdit (le_area e) t).
