(* ===== verification/TextSession.v ===== *)
(** Typing into the multi-line edit box: every key, without a selection, does
    to the text what the document model says, and keeps its characters whole. *)
From S2P Require Import Prelude Ulib Sys Textframe TextLemmas TextSpec TextRefine TextRange Widgets.

(** * The document model of a key *)

(** Paste [ins] at the cursor. *)
Definition spec_paste (d : doc) (ins : list bytes) : doc :=
  let sc := adjust_col (Spec.cur_line d) (ccol d) 0 1 in
  let '(r, c) := inserted_cursor (crow d) sc ins in
  mk_doc (inserted (lines d) (Spec.cur_line d) (crow d) sc ins) r c.

Definition spec_key (clip : option (list bytes)) (d : doc) (c : Z) : doc :=
  if c =? ENTER then Spec.newline d
  else if c =? LEFT_ARROW then Spec.previous_char d
  else if c =? BACKSPACE then
    if 0 <? ccol d then Spec.delete_char (Spec.previous_char d) else Spec.join d
  else if c =? RIGHT_ARROW then Spec.next_char d
  else if c =? UP_ARROW then Spec.last_line d
  else if c =? DOWN_ARROW then Spec.next_line d
  else if c =? CTRL_V then match clip with Some ins => spec_paste d ins | None => d end
  else if (32 <=? c) && (c <=? 126) then Spec.next_char (Spec.putc d c)
  else d.

(** What the clipboard holds. *)
Definition clip_rep (clip : option textframe) (k : option (list bytes)) : Prop :=
  match clip, k with
  | Some t, Some ins => frame t ins /\ ins <> [] /\ Forall gbk ins
  | None, None => True
  | _, _ => False
  end.

Definition clip_weight (k : option (list bytes)) : Z := default 0 (weight <$> k).

(** * Weights and whole characters *)

Lemma whole_cursor ls r c d :
  whole d -> ls = lines d -> doc_boundary (mk_doc ls r c) -> whole (mk_doc ls r c).
Proof. intros [H _] -> Hb. by split. Qed.

Lemma next_char_lines d : lines (Spec.next_char d) = lines d.
Proof. unfold Spec.next_char. by repeat case_match. Qed.

Lemma previous_char_lines d : lines (Spec.previous_char d) = lines d.
Proof. unfold Spec.previous_char. by repeat case_match. Qed.

Lemma whole_same d d' : whole d -> lines d' = lines d -> doc_boundary d' -> whole d'.
Proof. intros [H _] E Hb. split; [by rewrite E | done]. Qed.

Lemma rep_cur t d : rep t d -> lines d !! Z.to_nat (crow d) = Some (Spec.cur_line d).
Proof. intros H. destruct (rep_line _ _ H) as (l & b & Hl & E & _). congruence. Qed.

Lemma rep_chars t d : rep t d -> Forall is_char (Spec.cur_line d).
Proof. intros H. destruct (rep_line _ _ H) as (l & b & Hl & -> & _ & [Hs _] & _). done. Qed.

Lemma rep_pos t d :
  rep t d -> 0 <= crow d < zlen (lines d) /\ 0 <= ccol d <= zlen (Spec.cur_line d).
Proof. intros H. destruct (rep_line _ _ H) as (l & b & Hl & -> & _ & _ & _ & ? & ? & _). done. Qed.

Lemma newline_whole t d : rep t d -> whole d -> Forall gbk (lines (Spec.newline d)).
Proof.
  intros Hrep [Hw Hb]. pose proof (rep_cur _ _ Hrep) as Hl.
  assert (Hg : gbk (Spec.cur_line d)) by (rewrite Forall_lookup in Hw; by eapply Hw).
  destruct (gbk_cut_at _ (adjust_col (Spec.cur_line d) (ccol d) 0 1) Hg) as [H1 H2];
    [apply adjust_col_boundary; by left|].
  unfold Spec.newline. cbn [lines]. apply Forall_app. split; [by apply Forall_take|].
  constructor; [done|]. constructor; [done | by apply Forall_drop].
Qed.

Lemma newline_weight t d : rep t d -> weight (lines (Spec.newline d)) = weight (lines d) + 1.
Proof.
  intros Hrep. pose proof (rep_cur _ _ Hrep) as Hl. rewrite (weight_split _ _ _ Hl).
  unfold Spec.newline. cbn [lines]. rewrite weight_app. cbn [weight].
  rewrite length_take, length_drop. lia.
Qed.

Lemma delete_char_whole t d : rep t d -> whole d -> whole (Spec.delete_char d).
Proof.
  intros Hrep [Hw Hb]. pose proof (rep_cur _ _ Hrep) as Hl.
  assert (Hg : gbk (Spec.cur_line d)) by (rewrite Forall_lookup in Hw; by eapply Hw).
  pose proof (adjust_col_boundary (Spec.cur_line d) (ccol d) 1 ltac:(by left)) as Hp.
  split; unfold Spec.delete_char; cbn [lines].
  - apply Forall_insert; [done|]. by apply gbk_remove.
  - intros l. cbn [lines crow ccol]. rewrite list_lookup_insert_eq by (by eapply lookup_lt_Some).
    intros [= <-]. by apply gbk_remove_boundary.
Qed.

Lemma delete_char_weight t d : rep t d -> weight (lines (Spec.delete_char d)) <= weight (lines d).
Proof.
  intros Hrep. pose proof (rep_cur _ _ Hrep) as Hl. unfold Spec.delete_char. cbn [lines].
  rewrite (weight_insert _ _ _ _ Hl). pose proof (char_width_range (Spec.cur_line d)
    (adjust_col (Spec.cur_line d) (ccol d) 0 1)).
  pose proof (adjust_col_range (Spec.cur_line d) (ccol d) 0 1 ltac:(by left) eq_refl). llia.
Qed.

Lemma putc_line t d c :
  rep t d -> 32 <= c <= 126 ->
  lines (Spec.putc d c) = <[Z.to_nat (crow d) :=
    take (Z.to_nat (ccol d)) (Spec.cur_line d) ++ c :: drop (Z.to_nat (ccol d)) (Spec.cur_line d)]> (lines d).
Proof.
  intros Hrep Hc. unfold Spec.putc. cbn [lines]. rewrite u8_small by lia. f_equal. apply cstr_id.
  pose proof (rep_chars _ _ Hrep). apply Forall_app. split; [by apply Forall_take|].
  constructor; [unfold is_char; lia | by apply Forall_drop].
Qed.

Lemma putc_whole t d c :
  rep t d -> whole d -> 32 <= c <= 126 -> Forall gbk (lines (Spec.putc d c)).
Proof.
  intros Hrep Hw Hc. pose proof (rep_cur _ _ Hrep) as Hl.
  destruct (whole_line _ _ Hw Hl) as [Hg Hb]. destruct (gbk_cut_at _ _ Hg Hb) as [H1 H2].
  rewrite (putc_line t) by done. apply Forall_insert; [apply Hw|].
  apply gbk_app; [done|]. constructor; [lia | done].
Qed.

Lemma putc_weight t d c :
  rep t d -> 32 <= c <= 126 -> weight (lines (Spec.putc d c)) = weight (lines d) + 1.
Proof.
  intros Hrep Hc. pose proof (rep_cur _ _ Hrep) as Hl. pose proof (rep_pos _ _ Hrep).
  rewrite (putc_line t) by done. rewrite (weight_insert _ _ _ _ Hl). llia.
Qed.

Lemma join_whole d : whole d -> Forall gbk (lines (Spec.join d)).
Proof.
  intros [Hw _]. unfold Spec.join. destruct (0 <? crow d); [|done]. cbn [lines].
  assert (Hg : forall r, gbk (default [] (lines d !! r))).
  { intros r. destruct (lines d !! r) eqn:E; [|constructor]. rewrite Forall_lookup in Hw. by eapply Hw. }
  apply Forall_app. split; [by apply Forall_take|].
  constructor; [apply gbk_app; apply Hg | by apply Forall_drop].
Qed.

Lemma join_weight t d : rep t d -> weight (lines (Spec.join d)) <= weight (lines d).
Proof.
  intros Hrep. pose proof (rep_cur _ _ Hrep) as Hl. pose proof (rep_pos _ _ Hrep) as [Hr _].
  unfold Spec.join. destruct (Z.ltb_spec 0 (crow d)); [|lia]. cbn [lines].
  destruct (lookup_lt_is_Some_2 (lines d) (Z.to_nat (crow d) - 1)) as [prev Hp]; [lia|].
  rewrite Hp. cbn [default from_option id]. rewrite (weight_split _ _ _ Hp).
  replace (S (Z.to_nat (crow d) - 1)) with (Z.to_nat (crow d)) by lia.
  rewrite (drop_S _ _ _ Hl). rewrite weight_app. cbn [weight]. llia.
Qed.

(** * Pasting *)

Lemma removelast_last (ins : list bytes) :
  ins <> [] -> ins = removelast ins ++ [default [] (last ins)].
Proof.
  intros H. destruct (last ins) as [x|] eqn:E; [|by apply last_None in E].
  apply last_Some in E as [k ->]. by rewrite removelast_last.
Qed.

Lemma merged_cases l sc ins (P : list bytes -> list bytes -> Prop) :
  ins <> [] ->
  (forall x, P [x] [(take (Z.to_nat sc) l ++ x) ++ drop (Z.to_nat sc) l]) ->
  (forall x mid z, P (x :: mid ++ [z])
     ((take (Z.to_nat sc) l ++ x) :: mid ++ [z ++ drop (Z.to_nat sc) l])) ->
  P ins (merged l sc ins).
Proof.
  intros Hne H1 H2. destruct ins as [|x [|y ins]]; [done | apply H1 |].
  specialize (H2 x (removelast (y :: ins)) (default [] (last (y :: ins)))).
  rewrite <- removelast_last in H2 by done. exact H2.
Qed.

Lemma merged_weight l sc ins : ins <> [] -> weight (merged l sc ins) = weight ins + zlen l.
Proof.
  intros Hne. apply (merged_cases l sc ins (fun i m => weight m = weight i + zlen l)); [done | |].
  - intros x. cbn [weight]. llia.
  - intros x mid z. cbn [weight]. rewrite !weight_app. cbn [weight]. llia.
Qed.

Lemma merged_gbk l sc ins :
  ins <> [] -> Forall gbk ins -> gbk (take (Z.to_nat sc) l) -> gbk (drop (Z.to_nat sc) l) ->
  Forall gbk (merged l sc ins).
Proof.
  intros Hne Hg H1 H2. revert Hg.
  apply (merged_cases l sc ins (fun i m => Forall gbk i -> Forall gbk m)); [done | |].
  - intros x Hx. apply Forall_singleton. rewrite Forall_singleton in Hx.
    apply gbk_app; [by apply gbk_app | done].
  - intros x mid z [Hx [Hm Hz]%Forall_app]%Forall_cons. rewrite Forall_singleton in Hz.
    constructor; [by apply gbk_app|]. apply Forall_app. split; [done|].
    apply Forall_singleton. by apply gbk_app.
Qed.

Lemma inserted_weight ls l sr sc ins :
  ins <> [] -> ls !! Z.to_nat sr = Some l -> weight (inserted ls l sr sc ins) = weight ls + weight ins - 1.
Proof.
  intros Hne Hl. unfold inserted. rewrite !weight_app, merged_weight by done.
  rewrite (weight_split _ _ _ Hl). lia.
Qed.

(** The last row pasted is [a ++ b], and the cursor is left after [a]. *)
Lemma inserted_cursor_split ls l sr sc ins r c :
  ins <> [] -> 0 <= sr -> ls !! Z.to_nat sr = Some l -> 0 <= sc <= zlen l ->
  inserted_cursor sr sc ins = (r, c) ->
  0 <= r /\ exists a b, inserted ls l sr sc ins !! Z.to_nat r = Some (a ++ b) /\ c = zlen a /\
    (Forall gbk ins -> gbk (take (Z.to_nat sc) l) -> gbk a).
Proof.
  intros Hne Hsr Hl Hsc [= <- <-]. pose proof (ins_pos _ Hne). split; [lia|].
  assert (Hlk : inserted ls l sr sc ins !! Z.to_nat (sr + zlen ins - 1)
                = merged l sc ins !! Z.to_nat (zlen ins - 1)).
  { unfold inserted. pose proof (lookup_lt_Some _ _ _ Hl). pose proof (merged_len l sc ins).
    rewrite lookup_app_r by llia. rewrite lookup_app_l by llia. f_equal. llia. }
  rewrite Hlk. clear Hlk.
  apply (merged_cases l sc ins (fun i m => exists a b, m !! Z.to_nat (zlen i - 1) = Some (a ++ b) /\
    (if zlen i =? 1 then sc + zlen (default [] (i !! 0%nat)) else zlen (default [] (last i))) = zlen a /\
    (Forall gbk i -> gbk (take (Z.to_nat sc) l) -> gbk a))); [done | |].
  - intros x. exists (take (Z.to_nat sc) l ++ x), (drop (Z.to_nat sc) l). split; [done|].
    split; [change (zlen [x] =? 1) with true; cbn [lookup list_lookup default from_option id]; llia|].
    rewrite Forall_singleton. intros Hx Ht. by apply gbk_app.
  - intros x mid z. exists z, (drop (Z.to_nat sc) l).
    replace (zlen (x :: mid ++ [z]) =? 1) with false by (symmetry; apply Z.eqb_neq; llia).
    split.
    + replace (Z.to_nat (zlen (x :: mid ++ [z]) - 1)) with (S (length mid)) by llia.
      cbn [lookup list_lookup]. by apply list_lookup_middle.
    + rewrite app_comm_cons, last_snoc. split; [done|].
      intros [_ Hz]%Forall_app _. by rewrite Forall_singleton in Hz.
Qed.

Lemma paste_refines t d clip ins :
  rep t d -> whole d -> frame clip ins -> ins <> [] -> Forall gbk ins ->
  weight (lines d) + weight ins < 2 ^ 29 ->
  exists t', textframe_insert t clip (cursor_row t) (cursor_col t) = Ok t' /\
    rep t' (spec_paste d ins) /\ whole (spec_paste d ins) /\
    weight (lines (spec_paste d ins)) = weight (lines d) + weight ins - 1.
Proof.
  intros Hrep Hw Hclip Hne Hg Hwt. pose proof (rep_cur _ _ Hrep) as Hl.
  pose proof (rep_pos _ _ Hrep) as [Hr Hc]. destruct (whole_line _ _ Hw Hl) as [Hgl Hb].
  destruct Hrep as (Hf & Er & Ec & _). rewrite Er, Ec.
  pose proof (weight_line _ _ _ Hl) as Hlen. pose proof (weight_rows (lines d)). pose proof (weight_rows ins).
  destruct (textframe_insert_refines t clip (lines d) ins (Spec.cur_line d) (crow d) (ccol d) Hf Hclip Hne
    ltac:(lia) Hl) as (t' & E & Hf' & Hcur).
  { intros z [i Hz]%list_elem_of_lookup. pose proof (weight_line _ _ _ Hz). unfold INT_MAX. lia. }
  { lia. }
  exists t'. split; [done|]. unfold spec_paste. rewrite adjust_col_boundary_id in * by done.
  destruct (inserted_cursor (crow d) (ccol d) ins) as [r c] eqn:Ecur. injection Hcur as Hr' Hc'.
  destruct (inserted_cursor_split (lines d) _ (crow d) _ _ r c Hne ltac:(lia) Hl Hc Ecur) as (Hr0 & a & b & Hab & -> & Hga).
  destruct (gbk_cut_at _ _ Hgl Hb) as [Ht Hd]. cbn [lines].
  split; [|split; [split|by apply inserted_weight]]; cbn [lines].
  - split; [done|]. split; [done|]. split; [done|]. exists (a ++ b). split; [done|]. split; [done|]. cbn [ccol]. llia.
  - destruct Hw as [Hw _]. unfold inserted. rewrite !Forall_app. split; [by apply Forall_take|].
    split; [by apply merged_gbk | by apply Forall_drop].
  - intros l. cbn [lines crow ccol]. rewrite Hab. intros [= <-]. apply gbk_prefix_boundary. by apply Hga.
Qed.

(** * One key *)

(** The state of the edit box between two keys. *)
Definition typing (e : TextEdit) (d : doc) : Prop :=
  point2_col e = -1 /\ rep (te_text e) d /\ whole d.

Lemma typing_step e f d' :
  point2_col e = -1 ->
  (exists t, f (te_text e) = Ok t /\ rep t d' /\ whole d') ->
  exists e', on_text e f = Ok e' /\ typing e' d'.
Proof.
  intros Hp (t & E & Hrep & Hw). exists (set_text e t). unfold on_text. rewrite E. cbn [rbind].
  split; [done|]. by split.
Qed.

Lemma unselect_typing e d : typing e d -> typing (unselect e) d.
Proof. intros (_ & H). by split. Qed.

Lemma typing_char e d c :
  typing e d -> weight (lines d) + 1 < 2 ^ 29 -> 32 <= c <= 126 ->
  exists e', key_char e c = Ok e' /\ typing e' (Spec.next_char (Spec.putc d c)).
Proof.
  intros (Hp & Hrep & Hw) Hwt Hc. unfold key_char. zsimp. cbn [rbind].
  pose proof (weight_line _ _ _ (rep_cur _ _ Hrep)) as Hlen.
  destruct (putc_to_str_refines (te_text e) d c Hrep) as (t1 & E1 & Hf1 & Er & Ec); [unfold INT_MAX; lia|].
  unfold on_text at 1. rewrite E1. cbn [rbind].
  pose proof (rep_pos _ _ Hrep) as [Hr Hcc].
  assert (Hrep1 : rep t1 (Spec.putc d c)).
  { split; [done|]. split; [done|]. split; [done|]. cbn [crow ccol Spec.putc].
    rewrite (putc_line (te_text e)) by done. eexists. split; [lia|].
    rewrite list_lookup_insert_eq by lia. split; [done|]. cbn [ccol]. llia. }
  destruct (move_to_next_char_refines t1 _ Hrep1) as (t2 & E2 & Hrep2 & Hb2).
  eapply typing_step; [done|]. exists t2. split; [done|]. split; [done|].
  split; [rewrite next_char_lines; by apply (putc_whole (te_text e)) | done].
Qed.

Lemma typing_backspace e d :
  typing e d -> weight (lines d) < 2 ^ 29 ->
  exists e', key_left e BACKSPACE = Ok e' /\ typing e' (spec_key None d BACKSPACE) /\
    weight (lines (spec_key None d BACKSPACE)) <= weight (lines d).
Proof.
  intros (Hp & Hrep & Hw) Hwt. unfold key_left. rewrite Hp.
  change (spec_key None d BACKSPACE) with
    (if 0 <? ccol d then Spec.delete_char (Spec.previous_char d) else Spec.join d).
  cbn [Z.eqb andb rbind BACKSPACE LEFT_ARROW Pos.eqb].
  destruct Hrep as (Hf & Er & Ec & Hin). rewrite Hp, Ec.
  assert (Hrep : rep (te_text e) d) by done. cbn [Z.eqb Pos.eqb].
  pose proof (weight_line _ _ _ (rep_cur _ _ Hrep)) as Hlen.
  destruct (Z.ltb_spec 0 (ccol d)) as [Hc|Hc].
  - destruct (move_to_previous_char_refines _ _ Hrep) as (t1 & E1 & Hrep1 & Hb1).
    assert (Hw1 : whole (Spec.previous_char d)) by (eapply whole_same; [done | apply previous_char_lines | done]).
    unfold on_text. rewrite E1. cbn [rbind te_text set_text].
    destruct (backspace_to_str_refines _ _ Hrep1) as (t2 & E2 & Hf2 & Er2 & Ec2).
    rewrite E2. cbn [rbind]. eexists. split; [done|].
    pose proof (delete_char_weight _ _ Hrep1) as Hwt2. rewrite previous_char_lines in Hwt2.
    split; [|done]. apply unselect_typing. split; [done|]. split; [|by apply (delete_char_whole t1)].
    split; [done|]. split; [done|]. split; [done|].
    pose proof (rep_cur _ _ Hrep1) as Hl1. eexists. split; [apply rep_pos in Hrep1; cbn; lia|].
    split; [cbn [lines Spec.delete_char crow]; by rewrite list_lookup_insert_eq by (by eapply lookup_lt_Some)|].
    pose proof (adjust_col_range (Spec.cur_line (Spec.previous_char d)) (ccol (Spec.previous_char d)) 0 1
      ltac:(by left) eq_refl). cbn [ccol Spec.delete_char]. llia.
  - assert (Hc0 : ccol d = 0) by (apply rep_pos in Hrep; lia).
    destruct (move_cur_line_to_prev_line_refines _ _ Hrep) as (t1 & E1 & Hrep1 & Hb1);
      [apply Hw | | lia | ].
    { assert (zlen (Spec.cur_line (Spec.previous_char d)) <= weight (lines d)).
      { unfold Spec.cur_line. rewrite previous_char_lines.
        destruct (lines d !! _) eqn:El; cbn [default from_option id]; [apply weight_line in El; lia|].
        pose proof (weight_rows (lines d)). cbn. lia. }
      unfold INT_MAX. lia. }
    unfold on_text. rewrite E1. cbn [rbind]. eexists. split; [done|].
    split; [|by apply (join_weight (te_text e))].
    apply unselect_typing. split; [done|]. split; [done|]. split; [by apply join_whole | done].
Qed.

Lemma typing_move e d f d' :
  typing e d -> lines d' = lines d ->
  (exists t, f (te_text e) = Ok t /\ rep t d' /\ doc_boundary d') ->
  exists e', on_text e f = Ok e' /\ typing e' d'.
Proof.
  intros (Hp & Hrep & Hw) Hlines (t & E & Hrep' & Hb'). apply typing_step; [done|].
  exists t. split; [done|]. split; [done|]. by apply (whole_same d).
Qed.

Lemma typing_enter e d :
  typing e d -> weight (lines d) + 1 < 2 ^ 29 ->
  exists e', key_enter e = Ok e' /\ typing e' (Spec.newline d).
Proof.
  intros (Hp & Hrep & Hw) Hwt. unfold key_enter. rewrite Hp. cbn [Z.eqb Pos.eqb negb rbind].
  pose proof (weight_rows (lines d)).
  destruct (new_line_to_editor_refines _ _ Hrep) as (t1 & E1 & Hrep1 & Hb1); [lia|].
  apply typing_step; [done|]. exists t1. split; [done|]. split; [done|].
  split; [by apply (newline_whole (te_text e)) | done].
Qed.

Lemma typing_paste e d t ins :
  typing e d -> frame t ins -> ins <> [] -> Forall gbk ins -> weight (lines d) + weight ins < 2 ^ 29 ->
  exists e', key_paste e (Some t) = Ok e' /\ typing e' (spec_paste d ins) /\
    weight (lines (spec_paste d ins)) = weight (lines d) + weight ins - 1.
Proof.
  intros (Hp & Hrep & Hw) Hf Hne Hg Hwt. unfold key_paste. rewrite Hp. cbn [Z.eqb Pos.eqb negb rbind].
  destruct (paste_refines _ _ t ins Hrep Hw Hf Hne Hg Hwt) as (t1 & E1 & Hrep1 & Hw1 & Hwt1).
  cbn [te_text set_points]. rewrite E1. cbn [rbind].
  destruct (LineEdit_set_str_refines (te_text e) (lines d) [0] []) as (t2 & -> & _);
    [apply Hrep | by apply (is_str_intro []) | done |].
  cbn [rbind]. eexists. split; [done|]. split; [|done]. split; [cbn; done | done].
Qed.

Lemma last_line_lines d : lines (Spec.last_line d) = lines d.
Proof. done. Qed.

(** A key changes the text as the document model says. *)
Lemma typing_key e d clip k c :
  typing e d -> clip_rep clip k -> weight (lines d) + 1 + clip_weight k < 2 ^ 29 ->
  exists e', handle_keyboard_TextEdit e clip c = Ok (e', clip) /\ typing e' (spec_key k d c) /\
    weight (lines (spec_key k d c)) <= weight (lines d) + 1 + clip_weight k.
Proof.
  intros Ht Hk Hwt. pose proof Ht as (Hp & Hrep & Hw).
  assert (Hkw : 0 <= clip_weight k).
  { destruct k as [ins|]; cbn; [|lia]. pose proof (weight_rows ins). lia. }
  unfold handle_keyboard_TextEdit, spec_key.
  destruct (Z.eqb_spec c ENTER) as [->|].
  { destruct (typing_enter e d Ht) as (e' & -> & Ht'); [lia|]. exists e'. split; [done|]. split; [done|].
    rewrite (newline_weight _ _ Hrep). lia. }
  destruct (Z.eqb_spec c LEFT_ARROW) as [->|].
  { cbn [orb]. unfold key_left. rewrite Hp. cbn [Z.eqb Pos.eqb andb LEFT_ARROW BACKSPACE].
    destruct (typing_move e d _ _ Ht (previous_char_lines d) (move_to_previous_char_refines _ _ Hrep)) as (e' & -> & Ht').
    cbn [rbind]. eexists. split; [done|]. split; [by apply unselect_typing|]. rewrite previous_char_lines. lia. }
  destruct (Z.eqb_spec c BACKSPACE) as [->|].
  { cbn [orb]. destruct (typing_backspace e d Ht) as (e' & -> & Ht' & Hwt'); [lia|].
    exists e'. split; [done|]. split; [done|].
    change (spec_key None d BACKSPACE) with
      (if 0 <? ccol d then Spec.delete_char (Spec.previous_char d) else Spec.join d) in Hwt'. lia. }
  cbn [orb]. destruct (Z.eqb_spec c RIGHT_ARROW) as [->|].
  { unfold key_right. rewrite Hp. cbn [Z.eqb Pos.eqb negb rbind].
    destruct (typing_move e d _ _ Ht (next_char_lines d) (move_to_next_char_refines _ _ Hrep)) as (e' & -> & Ht').
    exists e'. split; [done|]. split; [done|]. rewrite next_char_lines. lia. }
  pose proof (unselect_typing _ _ Ht) as Hu.
  destruct (Z.eqb_spec c UP_ARROW) as [->|].
  { destruct (typing_move (unselect e) d _ (Spec.last_line d) Hu eq_refl (move_to_last_line_refines _ _ Hrep)) as (e' & -> & Ht').
    exists e'. split; [done|]. split; [done|]. cbn [lines Spec.last_line Spec.place]. lia. }
  destruct (Z.eqb_spec c DOWN_ARROW) as [->|].
  { destruct (typing_move (unselect e) d _ (Spec.next_line d) Hu eq_refl (move_to_next_line_refines _ _ Hrep)) as (e' & -> & Ht').
    exists e'. split; [done|]. split; [done|]. cbn [lines Spec.next_line Spec.place]. lia. }
  destruct (Z.eqb_spec c CTRL_C) as [->|].
  { unfold key_copy. rewrite Hp. cbn [Z.eqb Pos.eqb negb]. exists e. split; [done|]. split; [done|]. cbn. lia. }
  destruct (Z.eqb_spec c CTRL_V) as [->|].
  { destruct clip as [t|], k as [ins|]; cbn in Hk; try done.
    - destruct Hk as (Hf & Hne & Hg). change (clip_weight (Some ins)) with (weight ins) in *.
      destruct (typing_paste e d t ins Ht Hf Hne Hg) as (e' & -> & Ht' & Hwt'); [lia|].
      exists e'. split; [done|]. split; [done|]. lia.
    - exists e. split; [done|]. split; [done|]. cbn. lia. }
  destruct ((32 <=? c) && (c <=? 126)) eqn:Hc.
  - assert (32 <= c <= 126) by (apply andb_true_iff in Hc as [?%Z.leb_le ?%Z.leb_le]; lia).
    replace (c =? CTRL_X) with false by (symmetry; apply Z.eqb_neq; unfold CTRL_X; lia).
    destruct (typing_char e d c Ht) as (e' & -> & Ht'); [lia | done |].
    exists e'. split; [done|]. split; [done|]. rewrite next_char_lines, (putc_weight _ _ _ Hrep) by done. lia.
  - assert (Hid : key_char e c = Ok e) by (unfold key_char; by rewrite Hc).
    rewrite Hp. cbn [Z.eqb Pos.eqb negb]. rewrite Hid. cbn [rbind].
    exists e. split; [by destruct (c =? CTRL_X)|]. split; [done | lia].
Qed.

(** * Sessions *)

(** A sequence of keys. *)
Fixpoint press (e : TextEdit) (clip : option textframe) (keys : list Z)
  : result (TextEdit * option textframe) :=
  match keys with
  | [] => Ok (e, clip)
  | c :: keys' => let! '(e, clip) := handle_keyboard_TextEdit e clip c in press e clip keys'
  end.

Lemma press_typing keys e d clip k :
  typing e d -> clip_rep clip k ->
  weight (lines d) + zlen keys * (1 + clip_weight k) < 2 ^ 29 ->
  exists e', press e clip keys = Ok (e', clip) /\ typing e' (foldl (spec_key k) d keys).
Proof.
  revert e d. induction keys as [|c keys IH]; intros e d Ht Hk Hwt; [by exists e|].
  cbn [length] in Hwt. cbn [press foldl].
  assert (Hkw : 0 <= clip_weight k).
  { destruct k as [ins|]; cbn; [|lia]. pose proof (weight_rows ins). lia. }
  destruct (typing_key e d clip k c Ht Hk) as (e1 & -> & Ht1 & Hwt1); [nia|].
  cbn [rbind]. apply IH; [done | done | nia].
Qed.

(** Selections inside one row of the edit box: cut, copy, paste. *)

(** The last byte of a sequence of whole characters is an end position. *)
Lemma adjust_col_last p k :
  gbk p -> p <> [] -> adjust_col (p ++ k) (zlen p - 1) 1 1 = zlen p - 1.
Proof.
  intros Hg Hne. assert (Hpos : 0 < zlen p) by (destruct p; [done | cbn; lia]).
  unfold adjust_col. replace (Z.max 0 (Z.min (zlen p - 1) (zlen (p ++ k)))) with (zlen p - 1) by llia.
  destruct ((p ++ k) !! Z.to_nat (zlen p - 1)) as [ch|] eqn:Hch; [|done]. ztest; [|done]. cbn.
  unfold hi_run. replace (Z.to_nat (zlen p - 1 + 1)) with (length p) by lia.
  rewrite take_app_length. rewrite <- Z.negb_even, gbk_run_even by done. done.
Qed.

(** The text between the two points of the box is [m], in row [r]. *)
Record selected (e : TextEdit) (ls : list bytes) (r : Z) (a m b : bytes) : Prop := {
  sel_frame : frame (te_text e) ls;
  sel_row : 0 <= r;
  sel_line : ls !! Z.to_nat r = Some (a ++ m ++ b);
  sel_gbk : Forall gbk ls /\ gbk a /\ gbk m /\ gbk b;
  sel_some : m <> [];
  sel_points : forall s f, s = (r, zlen a) -> f = (r, zlen (a ++ m) - 1) ->
    ((point1_row e, point1_col e) = s /\ (point2_row e, point2_col e) = f) \/
    ((point1_row e, point1_col e) = f /\ (point2_row e, point2_col e) = s);
}.

Lemma sel_pos e ls r a m b : selected e ls r a m b -> 0 < zlen m.
Proof. intros [_ _ _ _ H _]. destruct m; [done | cbn; lia]. Qed.

Lemma sel_open e ls r a m b : selected e ls r a m b -> (point2_col e =? -1) = false.
Proof.
  intros H. pose proof (sel_pos _ _ _ _ _ _ H). apply Z.eqb_neq.
  destruct (sel_points _ _ _ _ _ _ H _ _ eq_refl eq_refl) as [[_ [= _ E]] | [_ [= _ E]]]; rewrite E; llia.
Qed.

(** Ordering the points keeps the selection and puts its start first. *)
Lemma sel_ordered e ls r a m b :
  selected e ls r a m b ->
  let e' := TextEdit_adjust_col_row e in
  selected e' ls r a m b /\ te_text e' = te_text e /\ point1_row e' = r /\ point1_col e' = zlen a /\
  point2_row e' = r /\ point2_col e' = zlen (a ++ m) - 1.
Proof.
  intros H. pose proof (sel_pos _ _ _ _ _ _ H) as Hm. unfold TextEdit_adjust_col_row. cbn zeta.
  destruct (sel_points _ _ _ _ _ _ H _ _ eq_refl eq_refl)
    as [[[= E1 E2] [= E3 E4]] | [[= E1 E2] [= E3 E4]]]; rewrite E1, E2, E3, E4.
  - rewrite Z.ltb_irrefl, Z.eqb_refl. cbn [orb andb].
    replace (zlen (a ++ m) - 1 <? zlen a) with false by (symmetry; apply Z.ltb_ge; llia). done.
  - rewrite Z.ltb_irrefl, Z.eqb_refl. cbn [orb andb].
    destruct (Z.ltb_spec (zlen a) (zlen (a ++ m) - 1)) as [Hlt|Hge].
    + split; [|done]. destruct H as [H1 H2 H3 H4 H5 _]. split; [done..|].
      intros s f -> ->. by left.
    + assert (zlen a = zlen (a ++ m) - 1) by llia. split; [done|]. rewrite E1, E2, E3, E4. by repeat split.
Qed.

(** What is copied. *)
Lemma sel_extract e ls r a m b :
  selected e ls r a m b ->
  exists t, textframe_extract (te_text e) r (zlen a) r (zlen (a ++ m) - 1) = Ok t /\ frame t [m].
Proof.
  intros H. pose proof (sel_pos _ _ _ _ _ _ H) as Hm. destruct H as [Hf Hr Hl (_ & Ha & Hgm & Hb) Hne _].
  assert (Hend : adjust_col (a ++ m ++ b) (zlen (a ++ m) - 1) 1 1 = zlen (a ++ m) - 1).
  { rewrite app_assoc. apply adjust_col_last; [by apply gbk_app|]. intros E. apply (f_equal length) in E. llia. }
  destruct (textframe_extract_refines (te_text e) ls r (zlen a) r (zlen (a ++ m) - 1) _ _ Hf ltac:(lia) Hl Hl)
    as (t & E & Hf' & _).
  { rewrite Hend. llia. }
  exists t. split; [done|]. revert Hf'. rewrite Hend.
  rewrite adjust_col_boundary_id by (by apply gbk_prefix_boundary).
  unfold extracted. rewrite Z.eqb_refl. unfold slice.
  rewrite drop_app_len by done. rewrite take_app_len by llia. done.
Qed.

(** What is left when the selection is deleted. *)
Lemma sel_delete e ls r a m b :
  selected e ls r a m b -> 2 * weight ls < 2 ^ 29 ->
  exists t, textframe_delete (te_text e) r (zlen a) r (zlen (a ++ m) - 1) = Ok t /\
    frame t (<[Z.to_nat r := a ++ b]> ls).
Proof.
  intros H Hw. pose proof (sel_pos _ _ _ _ _ _ H) as Hm. destruct H as [Hf Hr Hl (_ & Ha & Hgm & Hb) Hne _].
  assert (Hend : adjust_col (a ++ m ++ b) (zlen (a ++ m) - 1) 1 1 = zlen (a ++ m) - 1).
  { rewrite app_assoc. apply adjust_col_last; [by apply gbk_app|]. intros E. apply (f_equal length) in E. llia. }
  pose proof (weight_line _ _ _ Hl) as Hlen.
  destruct (textframe_delete_refines (te_text e) ls r (zlen a) r (zlen (a ++ m) - 1) _ _ Hf ltac:(lia) Hl Hl)
    as (t & E & Hf' & _); [unfold INT_MAX; lia|].
  exists t. split; [done|]. revert Hf'. rewrite Hend.
  rewrite adjust_col_boundary_id by (by apply gbk_prefix_boundary).
  unfold deleted. rewrite take_app_len by done.
  replace (slice (a ++ m ++ b) (zlen (a ++ m) - 1 + 1) (zlen (a ++ m ++ b) - (zlen (a ++ m) - 1) - 1)) with b.
  - rewrite insert_take_drop by (by eapply lookup_lt_Some).
    by replace (Z.to_nat (r + 1)) with (S (Z.to_nat r)) by lia.
  - unfold slice. replace (zlen (a ++ m) - 1 + 1) with (zlen (a ++ m)) by lia.
    rewrite app_assoc, drop_app_len by done. rewrite take_ge by llia. done.
Qed.

(** A clipboard that can be freed: none, or a frame of lines. *)
Definition clip_ok (clip : option textframe) : Prop :=
  match clip with Some t => exists ls, frame t ls | None => True end.

Lemma free_frame t ls : frame t ls -> exists t', LineEdit_set_str t [0] = Ok t'.
Proof.
  intros Hf. destruct (LineEdit_set_str_refines t ls [0] []) as (t' & E & _);
    [done | by apply (is_str_intro []) | done |]. by exists t'.
Qed.

Lemma copy_selected e ls r a m b clip :
  selected e ls r a m b -> clip_ok clip ->
  exists e' t, key_copy e clip = Ok (e', Some t) /\ selected e' ls r a m b /\ frame t [m] /\
    te_text e' = te_text e.
Proof.
  intros H Hc. unfold key_copy. rewrite (sel_open _ _ _ _ _ _ H). cbn [negb].
  assert (Hfree : match clip with Some t => let! _ := LineEdit_set_str t [0] in Ok tt | None => Ok tt end = Ok tt).
  { destruct clip as [t|]; [|done]. destruct Hc as [k Hk]. by destruct (free_frame _ _ Hk) as [t' ->]. }
  rewrite Hfree. cbn [rbind]. destruct (sel_ordered _ _ _ _ _ _ H) as (H' & Et & -> & -> & -> & ->).
  destruct (sel_extract _ _ _ _ _ _ H') as (t & -> & Ht). cbn [rbind]. by eexists _, t.
Qed.

Lemma delete_selected e ls r a m b :
  selected e ls r a m b -> 2 * weight ls < 2 ^ 29 ->
  exists e', (let! e := delete_selection (TextEdit_adjust_col_row e) in goto_point1 e) = Ok e' /\
    rep (te_text e') (mk_doc (<[Z.to_nat r := a ++ b]> ls) r (zlen a)) /\
    whole (mk_doc (<[Z.to_nat r := a ++ b]> ls) r (zlen a)).
Proof.
  intros H Hw. destruct (sel_ordered _ _ _ _ _ _ H) as (H' & Et & E1 & E2 & E3 & E4).
  unfold delete_selection. rewrite E1, E2, E3, E4.
  destruct (sel_delete _ _ _ _ _ _ H' Hw) as (t & -> & Hf). cbn [rbind].
  destruct (free_frame _ _ (sel_frame _ _ _ _ _ _ H')) as [t' ->]. cbn [rbind].
  unfold goto_point1. cbn [set_text te_text point1_row point1_col]. rewrite E1, E2.
  destruct H as [_ Hr Hl (Hg & Ha & Hgm & Hb) _ _]. set (ls' := <[Z.to_nat r := a ++ b]> ls) in *.
  pose proof (lookup_lt_Some _ _ _ Hl) as Hlt.
  assert (Hl' : ls' !! Z.to_nat r = Some (a ++ b)) by (by apply list_lookup_insert_eq).
  assert (Hlen : zlen ls' = zlen ls) by apply zlen_insert.
  pose proof (weight_line _ _ _ Hl) as Hwl.
  destruct (move_to_pos_spec t ls' r (zlen a) Hf) as (t2 & -> & Hrep & Hbd & _); [lia | lia | llia |].
  assert (Hgoto : Spec.goto (mk_doc ls' 0 0) r (zlen a) = mk_doc ls' r (zlen a)).
  { unfold Spec.goto, Spec.clip_row, Spec.clip_col. cbn [lines]. zsimp. rewrite (Z.min_l r) by lia.
    rewrite Hl'. cbn [default from_option id]. rewrite Z.min_l by llia.
    by apply (place_id _ _ _ _ (a ++ b)); [|apply gbk_prefix_boundary]. }
  rewrite Hgoto in Hrep, Hbd. eexists. split; [done|]. split; [done|]. split; [|done].
  cbn [lines]. apply Forall_insert; [done | by apply gbk_app].
Qed.

Lemma cut_selected e ls r a m b clip :
  selected e ls r a m b -> clip_ok clip -> 2 * weight ls < 2 ^ 29 ->
  exists e' t, handle_keyboard_TextEdit e clip CTRL_X = Ok (e', Some t) /\ frame t [m] /\
    typing e' (mk_doc (<[Z.to_nat r := a ++ b]> ls) r (zlen a)).
Proof.
  intros H Hc Hw. unfold handle_keyboard_TextEdit.
  cbn [Z.eqb Pos.eqb orb CTRL_X ENTER LEFT_ARROW BACKSPACE RIGHT_ARROW UP_ARROW DOWN_ARROW CTRL_C CTRL_V].
  rewrite (sel_open _ _ _ _ _ _ H). cbn [negb].
  destruct (copy_selected _ _ _ _ _ _ _ H Hc) as (e1 & t & -> & H1 & Ht & Et). cbn [rbind].
  unfold key_left. cbn [Z.eqb Pos.eqb andb BACKSPACE LEFT_ARROW]. rewrite (sel_open _ _ _ _ _ _ H1). cbn [andb rbind].
  rewrite (sel_open _ _ _ _ _ _ H1).
  destruct (delete_selected _ _ _ _ _ _ H1 Hw) as (e2 & -> & Hrep & Hwh). cbn [rbind].
  eexists _, t. split; [done|]. split; [done|]. split; [done | by split].
Qed.

(** Pasting one line back where it was cut. *)
Lemma paste_back ls r a m b :
  0 <= r -> ls !! Z.to_nat r = Some (a ++ m ++ b) -> gbk a ->
  spec_paste (mk_doc (<[Z.to_nat r := a ++ b]> ls) r (zlen a)) [m] = mk_doc ls r (zlen (a ++ m)).
Proof.
  intros Hr Hl Ha. pose proof (lookup_lt_Some _ _ _ Hl) as Hlt. unfold spec_paste, Spec.cur_line.
  cbn [lines crow ccol]. rewrite list_lookup_insert_eq by done. cbn [default from_option id].
  rewrite adjust_col_boundary_id by (by apply gbk_prefix_boundary).
  unfold inserted_cursor. cbn [length]. change (Z.of_nat 1 =? 1) with true. cbn [lookup list_lookup default from_option id].
  f_equal; [|lia | llia]. unfold inserted, merged. rewrite take_app_len, drop_app_len by done.
  rewrite take_insert_ge, drop_insert_lt by lia. cbn [app]. rewrite <- app_assoc. by apply take_drop_middle.
Qed.
