(* ===== verification/TextProps.v ===== *)
(** The properties of the text buffer and of the edit box. *)
From stdpp Require Import gmap.
From S2P Require Import Prelude Ulib Sys Textframe TextLemmas TextSpec TextRefine TextRange TextFile Widgets TextSession.
Open Scope Z_scope.

(** * Search *)

(** C29: [Search] moves the cursor just after the first occurrence at or after
    the cursor and returns 0; if there is none it wraps round, moves after the
    first occurrence of the text and returns 1; it returns -1 and leaves the
    frame alone exactly when the pattern is nowhere in the text. *)
Theorem Search_first t ls bs s r c :
  frame t ls -> cursor_row t = r -> cursor_col t = c -> 0 <= r -> 0 <= c ->
  is_str bs s -> s <> [] ->
  (exists i j, Search t bs = Ok (set_cursor t i (j + zlen s), 0) /\ first_from ls s r c i j) \/
  (exists i j, Search t bs = Ok (set_cursor t i (j + zlen s), 1) /\ first_from ls s 0 0 i j /\
     forall i' j', not_before r c i' j' -> ~ occurs_at ls s i' j') \/
  (Search t bs = Ok (t, -1) /\ forall i j, ~ occurs_at ls s i j).
Proof. apply Search_spec. Qed.

(** * Concrete frames *)

(** The frame that holds the lines [ls] in blocks of just their size. *)
Definition frame_of (ls : list bytes) (r c : Z) : textframe :=
  mk_textframe ((fun l => Some (l ++ [0])) <$> ls) 0 0 r c (zlen ls) (zlen ls).

Definition char_lines (ls : list bytes) : bool :=
  forallb (forallb (fun c => (1 <=? c) && (c <=? 255))) ls && (weight ls <? 2 ^ 29).

Lemma char_lines_ok ls :
  char_lines ls = true -> Forall (Forall is_char) ls /\ fits ls.
Proof.
  intros [H1 H2%Z.ltb_lt]%andb_true_iff. pose proof (weight_rows ls). split; [|split; [lia|]].
  - rewrite forallb_forall in H1. apply Forall_forall. intros l Hl%list_elem_of_In.
    specialize (H1 l Hl). rewrite forallb_forall in H1. apply Forall_forall. intros c Hc%list_elem_of_In.
    specialize (H1 c Hc). apply andb_true_iff in H1 as [?%Z.leb_le ?%Z.leb_le]. unfold is_char. lia.
  - apply Forall_lookup. intros i l Hl%weight_line. unfold INT_MAX. lia.
Qed.

Lemma frame_of_frame ls r c : char_lines ls = true -> frame (frame_of ls r c) ls.
Proof.
  intros [H1 H2]%char_lines_ok. split; [|split; [done|split; [cbn; llia | done]]].
  exists ((fun l => l ++ [0]) <$> ls), []. split.
  - cbn. by rewrite app_nil_r, <- list_fmap_compose.
  - apply Forall2_fmap_l. apply Forall_Forall2_diag. eapply Forall_impl; [exact H1|].
    intros l Hl. by apply is_str_intro.
Qed.

Lemma frame_of_rep ls r c l :
  char_lines ls = true -> 0 <= r -> ls !! Z.to_nat r = Some l -> 0 <= c <= zlen l ->
  rep (frame_of ls r c) (mk_doc ls r c).
Proof.
  intros H Hr Hl Hc. split; [by apply frame_of_frame|]. split; [done|]. split; [done|].
  exists l. split; [done|]. by split.
Qed.

Lemma Search_first_witness :
  exists i j, Search (frame_of [[97; 98; 97]; [99; 97]] 0 1) [97; 0] = Ok (set_cursor (frame_of [[97; 98; 97]; [99; 97]] 0 1) i (j + 1), 0) /\
    first_from [[97; 98; 97]; [99; 97]] [97] 0 1 i j.
Proof.
  destruct (Search_first (frame_of [[97; 98; 97]; [99; 97]] 0 1) [[97; 98; 97]; [99; 97]] [97; 0] [97] 0 1)
    as [(i & j & E & H) | [(i & j & E & _) | [E _]]].
  - by apply frame_of_frame.
  - reflexivity.
  - reflexivity.
  - lia.
  - lia.
  - apply (is_str_intro [97]). repeat constructor; unfold is_char; lia.
  - done.
  - exists i, j. by split.
  - vm_compute in E. discriminate E.
  - vm_compute in E. discriminate E.
Defined.

(** * Keyboard sessions *)

(** C1: Keyboard session refinement.  Whatever keys are pressed in an edit box
    with no selection (printable characters, Enter, Backspace, arrows, paste,
    and keys that are ignored), no access is out of bounds, the text and the
    cursor are the ones of the document model, every line stays a sequence of
    whole ASCII or GBK characters, and the cursor stays between two of them.
    The bound keeps every length below [INT_MAX]. *)
Theorem keyboard_session keys e d clip k :
  typing e d -> clip_rep clip k ->
  weight (lines d) + zlen keys * (1 + clip_weight k) < 2 ^ 29 ->
  exists e', press e clip keys = Ok (e', clip) /\
    rep (te_text e') (foldl (spec_key k) d keys) /\ whole (foldl (spec_key k) d keys) /\
    point2_col e' = -1.
Proof.
  intros Ht Hk Hw. destruct (press_typing keys e d clip k Ht Hk Hw) as (e' & E & Hp & Hrep & Hwh).
  by exists e'.
Qed.

Definition demo_edit (ls : list bytes) (r c : Z) : TextEdit :=
  mk_TextEdit (mk_Area 0 0 700 400 0 0) (frame_of ls r c) (-1) (-1) (-1) (-1) 0 0 0.

Lemma keyboard_session_witness :
  exists e', press (demo_edit [[97; 0xC4; 0xE3]; [98]] 0 3) None [LEFT_ARROW; 120; ENTER; UP_ARROW; BACKSPACE]
      = Ok (e', None) /\
    rep (te_text e') (mk_doc [[97; 120]; [0xC4; 0xE3]; [98]] 0 0).
Proof.
  destruct (keyboard_session [LEFT_ARROW; 120; ENTER; UP_ARROW; BACKSPACE]
    (demo_edit [[97; 0xC4; 0xE3]; [98]] 0 3) (mk_doc [[97; 0xC4; 0xE3]; [98]] 0 3) None None)
    as (e' & E & Hrep & _).
  - split; [done|]. split; [by eapply frame_of_rep|]. split.
    + repeat constructor; lia.
    + intros l. cbn. intros [= <-]. apply boundary_end.
  - done.
  - vm_compute. done.
  - exists e'. split; [exact E|]. exact Hrep.
Defined.

(** * Undoing a key *)

Lemma place_prefix ls r a b dir :
  ls !! Z.to_nat r = Some (a ++ b) -> gbk a -> Spec.place ls r (zlen a) dir = mk_doc ls r (zlen a).
Proof. intros Hl Ha. eapply place_id; [done | by apply gbk_prefix_boundary]. Qed.

Lemma spec_type_backspace t d k c :
  rep t d -> whole d -> 32 <= c <= 126 ->
  spec_key k (spec_key k d c) BACKSPACE = d.
Proof.
  intros Hrep Hw Hc. pose proof (rep_cur _ _ Hrep) as Hl. pose proof (rep_pos _ _ Hrep) as [Hr Hcol].
  destruct (whole_line _ _ Hw Hl) as [Hg Hb]. destruct (gbk_cut_at _ _ Hg Hb) as [Ha Hd].
  assert (Hkey : spec_key k d c = Spec.next_char (Spec.putc d c)).
  { unfold spec_key, ENTER, LEFT_ARROW, BACKSPACE, RIGHT_ARROW, UP_ARROW, DOWN_ARROW, CTRL_V. by zsimp. }
  rewrite Hkey. set (l := Spec.cur_line d) in *.
  set (a := take (Z.to_nat (ccol d)) l) in *. set (b := drop (Z.to_nat (ccol d)) l) in *.
  assert (Hal : ccol d = zlen a) by (subst a; llia).
  assert (Hlab : l = a ++ b) by (subst a b; by rewrite take_drop).
  pose proof (putc_line t d c Hrep Hc) as Hp. fold l a b in Hp.
  set (ls' := <[Z.to_nat (crow d) := a ++ c :: b]> (lines d)) in *.
  assert (Hl' : ls' !! Z.to_nat (crow d) = Some (a ++ c :: b)) by (apply list_lookup_insert_eq; lia).
  assert (Hput : Spec.putc d c = mk_doc ls' (crow d) (zlen a)) by (unfold Spec.putc in *; cbn [lines] in Hp; by rewrite Hp, Hal).
  assert (Hnext : Spec.next_char (Spec.putc d c) = mk_doc ls' (crow d) (zlen (a ++ [c]))).
  { rewrite Hput. unfold Spec.next_char, Spec.cur_line. cbn [lines crow ccol]. rewrite Hl'.
    cbn [default from_option id]. replace (zlen a <? zlen (a ++ c :: b)) with true by (symmetry; apply Z.ltb_lt; llia).
    replace (zlen a + 1) with (zlen (a ++ [c])) by llia.
    apply (place_prefix _ _ _ b); [by rewrite <- app_assoc|]. apply gbk_app; [done|]. repeat constructor; lia. }
  rewrite Hnext.
  change (spec_key k ?d0 BACKSPACE) with (if 0 <? ccol d0 then Spec.delete_char (Spec.previous_char d0) else Spec.join d0).
  assert (Hpos : 0 <? zlen (a ++ [c]) = true) by (apply Z.ltb_lt; llia).
  cbn [ccol]. rewrite Hpos. unfold Spec.previous_char. cbn [lines crow ccol]. rewrite Hpos.
  replace (zlen (a ++ [c]) - 1) with (zlen a) by llia. rewrite (place_prefix _ _ _ (c :: b)) by done.
  unfold Spec.delete_char, Spec.cur_line. cbn [lines crow ccol]. rewrite Hl'. cbn [default from_option id].
  rewrite adjust_col_boundary_id by (by apply gbk_prefix_boundary).
  unfold Spec.char_width. rewrite lookup_middle by done. zsimp.
  rewrite take_app_len by done. replace (Z.to_nat (zlen a + 1)) with (length (a ++ [c])) by llia.
  change (a ++ c :: b) with (a ++ [c] ++ b) at 1. rewrite app_assoc, drop_app_length.
  subst ls'. rewrite list_insert_insert_eq, <- Hlab, list_insert_id by done. rewrite <- Hal. by destruct d.
Qed.

(** Backspace undoes typing: after a printable character and Backspace the
    text and the cursor are the ones before. *)
Theorem type_backspace e d clip k c :
  typing e d -> clip_rep clip k -> 32 <= c <= 126 ->
  weight (lines d) + 2 * (1 + clip_weight k) < 2 ^ 29 ->
  exists e', press e clip [c; BACKSPACE] = Ok (e', clip) /\ rep (te_text e') d.
Proof.
  intros Ht Hk Hc Hw. destruct (press_typing [c; BACKSPACE] e d clip k Ht Hk Hw) as (e' & E & _ & Hrep & _).
  exists e'. split; [done|]. cbn [foldl] in Hrep. destruct Ht as (_ & Hrep0 & Hwh).
  by rewrite (spec_type_backspace _ _ _ _ Hrep0 Hwh Hc) in Hrep.
Qed.

Lemma type_backspace_witness :
  exists e', press (demo_edit [[97; 0xC4; 0xE3]; [98]] 0 1) None [120; BACKSPACE] = Ok (e', None) /\
    rep (te_text e') (mk_doc [[97; 0xC4; 0xE3]; [98]] 0 1).
Proof.
  apply (type_backspace (demo_edit [[97; 0xC4; 0xE3]; [98]] 0 1) (mk_doc [[97; 0xC4; 0xE3]; [98]] 0 1) None None 120).
  - split; [done|]. split; [by eapply frame_of_rep|]. split; [repeat constructor; lia|].
    intros l. cbn. intros [= <-]. apply (gbk_prefix_boundary [97]). repeat constructor; lia.
  - done.
  - lia.
  - vm_compute. done.
Defined.

Lemma spec_enter_backspace t d k :
  rep t d -> whole d ->
  spec_key k (spec_key k d ENTER) BACKSPACE = mk_doc (lines d) (crow d) (zlen (Spec.cur_line d)).
Proof.
  intros Hrep Hw. pose proof (rep_cur _ _ Hrep) as Hl. pose proof (rep_pos _ _ Hrep) as [Hr Hcol].
  change (spec_key k d ENTER) with (Spec.newline d).
  change (spec_key k (Spec.newline d) BACKSPACE) with (Spec.join (Spec.newline d)).
  set (l := Spec.cur_line d) in *. unfold Spec.newline. fold l.
  set (c := Z.to_nat (adjust_col l (ccol d) 0 1)). set (r := Z.to_nat (crow d)) in *.
  unfold Spec.join, Spec.cur_line. cbn [lines crow ccol]. zsimp.
  assert (Hlen : length (take r (lines d)) = r) by (rewrite length_take; lia).
  replace (Z.to_nat (crow d + 1)) with (S r) by lia. replace (S r - 1)%nat with r by lia.
  replace (crow d + 1 - 1) with (crow d) by lia.
  rewrite !lookup_app_r by lia. rewrite Hlen, Nat.sub_diag. replace (S r - r)%nat with 1%nat by lia.
  cbn [lookup list_lookup default from_option id]. rewrite take_drop.
  rewrite take_app_length' by done. f_equal.
  rewrite drop_app_ge by lia. rewrite Hlen. replace (S (S r) - r)%nat with 2%nat by lia. cbn [drop].
  by apply take_drop_middle.
Qed.

(** Backspace after Enter joins the two halves of the line again; the
    cursor is left at the end of the line. *)
Theorem enter_backspace e d clip k :
  typing e d -> clip_rep clip k -> weight (lines d) + 2 * (1 + clip_weight k) < 2 ^ 29 ->
  exists e', press e clip [ENTER; BACKSPACE] = Ok (e', clip) /\
    rep (te_text e') (mk_doc (lines d) (crow d) (zlen (Spec.cur_line d))).
Proof.
  intros Ht Hk Hw. destruct (press_typing [ENTER; BACKSPACE] e d clip k Ht Hk Hw) as (e' & E & _ & Hrep & _).
  exists e'. split; [done|]. cbn [foldl] in Hrep. destruct Ht as (_ & Hrep0 & Hwh).
  by rewrite (spec_enter_backspace _ _ _ Hrep0 Hwh) in Hrep.
Qed.

Lemma enter_backspace_witness :
  exists e', press (demo_edit [[97; 0xC4; 0xE3]; [98]] 0 1) None [ENTER; BACKSPACE] = Ok (e', None) /\
    rep (te_text e') (mk_doc [[97; 0xC4; 0xE3]; [98]] 0 3).
Proof.
  apply (enter_backspace (demo_edit [[97; 0xC4; 0xE3]; [98]] 0 1) (mk_doc [[97; 0xC4; 0xE3]; [98]] 0 1) None None).
  - split; [done|]. split; [by eapply frame_of_rep|]. split; [repeat constructor; lia|].
    intros l. cbn. intros [= <-]. apply (gbk_prefix_boundary [97]). repeat constructor; lia.
  - done.
  - vm_compute. done.
Defined.

(** Whatever column is asked for, [textframe_adjust_r_c] (with [pos] 0)
    keeps the row and returns a column between two characters, and it leaves
    such a column alone. *)
Theorem adjust_on_boundary t ls r l c dir :
  frame t ls -> 0 <= r -> ls !! Z.to_nat r = Some l -> dir = 1 \/ dir = -1 ->
  exists c', textframe_adjust_r_c t r c 0 dir = Ok (r, c') /\ boundary l c' /\
    (boundary l c -> c' = c).
Proof.
  intros Hf Hr Hl Hdir. eexists. split; [by apply (adjust_in_row t ls)|].
  split; [by apply adjust_col_boundary | apply adjust_col_boundary_id].
Qed.

Lemma adjust_on_boundary_witness :
  textframe_adjust_r_c (frame_of [[0xC4; 0xE3; 97]] 0 0) 0 1 0 (-1) = Ok (0, 0) /\
  exists c', textframe_adjust_r_c (frame_of [[0xC4; 0xE3; 97]] 0 0) 0 1 0 (-1) = Ok (0, c') /\
    boundary [0xC4; 0xE3; 97] c' /\ (boundary [0xC4; 0xE3; 97] 1 -> c' = 1).
Proof.
  split; [vm_compute; reflexivity|].
  apply (adjust_on_boundary (frame_of [[0xC4; 0xE3; 97]] 0 0) [[0xC4; 0xE3; 97]] 0 [0xC4; 0xE3; 97] 1 (-1)).
  - by apply frame_of_frame.
  - lia.
  - reflexivity.
  - by right.
Defined.

(** * Selections *)

(** C16: Cut and paste.  With a selection [m] inside one row, made in either
    direction, Ctrl-X puts exactly [m] on the clipboard and removes exactly it
    from the text, and Ctrl-V at once puts it back; the cursor ends after it. *)
Theorem cut_paste e ls r a m b clip :
  selected e ls r a m b -> clip_ok clip -> 3 * weight ls < 2 ^ 29 ->
  exists e1 e2 t,
    handle_keyboard_TextEdit e clip CTRL_X = Ok (e1, Some t) /\ frame t [m] /\
    rep (te_text e1) (mk_doc (<[Z.to_nat r := a ++ b]> ls) r (zlen a)) /\
    handle_keyboard_TextEdit e1 (Some t) CTRL_V = Ok (e2, Some t) /\
    rep (te_text e2) (mk_doc ls r (zlen (a ++ m))).
Proof.
  intros H Hc Hw. pose proof (weight_rows ls).
  destruct (cut_selected _ _ _ _ _ _ _ H Hc) as (e1 & t & E1 & Ht & Hty); [lia|].
  destruct H as [_ Hr Hl (_ & Ha & Hm & _) _ _]. pose proof (weight_line _ _ _ Hl) as Hlen.
  assert (Hwt : weight (<[Z.to_nat r := a ++ b]> ls) + weight [m] < 2 ^ 29).
  { rewrite (weight_insert _ _ _ _ Hl). cbn [weight]. llia. }
  destruct (typing_paste _ _ t [m] Hty Ht) as (e2 & E2 & (_ & Hrep & _) & _); [done | by repeat constructor | done |].
  exists e1, e2, t. split; [done|]. split; [done|]. split; [apply Hty|]. split.
  - unfold handle_keyboard_TextEdit. cbn [Z.eqb Pos.eqb orb CTRL_X ENTER LEFT_ARROW BACKSPACE RIGHT_ARROW UP_ARROW DOWN_ARROW CTRL_C CTRL_V].
    rewrite E2. done.
  - by rewrite paste_back in Hrep.
Qed.

(** A box over [ls] with the selection from [(r1, c1)] to [(r2, c2)]. *)
Definition demo_select (ls : list bytes) (r1 c1 r2 c2 : Z) : TextEdit :=
  set_points (demo_edit ls 0 0) r1 c1 r2 c2.

Lemma cut_paste_witness :
  exists e1 e2 t,
    handle_keyboard_TextEdit (demo_select [[97; 98; 0xC4; 0xE3; 99]] 0 3 0 1) None CTRL_X = Ok (e1, Some t) /\
    frame t [[98; 0xC4; 0xE3]] /\ rep (te_text e1) (mk_doc [[97; 99]] 0 1) /\
    handle_keyboard_TextEdit e1 (Some t) CTRL_V = Ok (e2, Some t) /\
    rep (te_text e2) (mk_doc [[97; 98; 0xC4; 0xE3; 99]] 0 4).
Proof.
  apply (cut_paste (demo_select [[97; 98; 0xC4; 0xE3; 99]] 0 3 0 1) [[97; 98; 0xC4; 0xE3; 99]] 0
    [97] [98; 0xC4; 0xE3] [99] None).
  - split; [by apply frame_of_frame | lia | done | | done |].
    + split_and!; repeat constructor; lia.
    + intros s f -> ->. by right.
  - done.
  - vm_compute. done.
Defined.

(** * Ranges *)

(** [textframe_delete] over rows [sr] to [er] keeps the text before the
    start column and after the end column, both moved off the middle of a
    character, whenever the last row is no longer than the first; in
    particular for a range inside one row. *)
Theorem delete_range t ls sr sc er ec l_s l_e :
  frame t ls -> 0 <= sr <= er -> ls !! Z.to_nat sr = Some l_s -> ls !! Z.to_nat er = Some l_e ->
  zlen l_s + zlen l_e < INT_MAX -> zlen l_e <= zlen l_s ->
  exists t', textframe_delete t sr sc er ec = Ok t' /\
    frame t' (take (Z.to_nat sr) ls ++
      (take (Z.to_nat (adjust_col l_s sc 0 (-1))) l_s ++ drop (Z.to_nat (adjust_col l_e ec 1 1 + 1)) l_e)
      :: drop (Z.to_nat (er + 1)) ls).
Proof.
  intros Hf Hr Hs He Hlen Hle.
  destruct (textframe_delete_refines t ls sr sc er ec l_s l_e Hf Hr Hs He Hlen) as (t' & E & Hf' & _).
  exists t'. split; [done|]. revert Hf'. unfold deleted. set (c := adjust_col l_e ec 1 1).
  replace (slice l_e (c + 1) (zlen l_s - c - 1)) with (drop (Z.to_nat (c + 1)) l_e); [done|].
  unfold slice. rewrite take_ge; [done|]. rewrite length_drop.
  assert (0 <= c); [|lia]. subst c. unfold adjust_col. repeat case_match; lia.
Qed.

Lemma delete_range_witness :
  exists t', textframe_delete (frame_of [[97; 98; 99]; [100]; [101; 102]] 0 0) 0 1 2 0 = Ok t' /\
    frame t' [[97; 102]].
Proof.
  apply (delete_range (frame_of [[97; 98; 99]; [100]; [101; 102]] 0 0) [[97; 98; 99]; [100]; [101; 102]] 0 1 2 0
    [97; 98; 99] [101; 102]).
  - by apply frame_of_frame.
  - lia.
  - reflexivity.
  - reflexivity.
  - vm_compute. done.
  - vm_compute. done.
Defined.

(** When the last row of the range is longer than the first, its tail is
    measured with the length of the first row and text after the range is
    lost: deleting from the second byte of "ab" to the third of "hello"
    leaves "a" and not "alo". *)
Theorem delete_loses_tail :
  exists t', textframe_delete (frame_of [[97; 98]; [104; 101; 108; 108; 111]; [99]] 0 0) 0 1 1 2 = Ok t' /\
    data t' !! 0%nat = Some (Some [97; 0]) /\ maxrow t' = 2.
Proof. eexists. vm_compute. done. Qed.

(** [textframe_extract] returns the rows of the range, the first from its
    start column and the last up to its end column, when the range ends inside
    its last row. *)
Theorem extract_range t ls sr sc er ec l_s l_e :
  frame t ls -> 0 <= sr <= er -> ls !! Z.to_nat sr = Some l_s -> ls !! Z.to_nat er = Some l_e ->
  adjust_col l_e ec 1 1 < zlen l_e ->
  exists t', textframe_extract t sr sc er ec = Ok t' /\
    frame t' (extracted ls l_s l_e sr (adjust_col l_s sc 0 (-1)) er (adjust_col l_e ec 1 1)).
Proof.
  intros Hf Hr Hs He Hec.
  destruct (textframe_extract_refines t ls sr sc er ec l_s l_e Hf Hr Hs He Hec) as (t' & E & Hf' & _).
  by exists t'.
Qed.

Lemma extract_range_witness :
  exists t', textframe_extract (frame_of [[97; 98; 99]; [100]; [101; 102]] 0 0) 0 1 2 0 = Ok t' /\
    frame t' [[98; 99]; [100]; [101]].
Proof.
  apply (extract_range (frame_of [[97; 98; 99]; [100]; [101; 102]] 0 0) [[97; 98; 99]; [100]; [101; 102]] 0 1 2 0
    [97; 98; 99] [101; 102]).
  - by apply frame_of_frame.
  - lia.
  - reflexivity.
  - reflexivity.
  - vm_compute. done.
Defined.

(** A selection that ends at or after the end of the last row makes
    [textframe_extract] read the row after the last one of the text. *)
Theorem extract_past_end :
  textframe_extract (frame_of [[97; 98; 99]] 0 0) 0 1 0 3 = Err OutOfBounds.
Proof. vm_compute. reflexivity. Qed.

(** [textframe_insert] puts the rows of [in_text] at the position asked
    for (moved off the middle of a character): the text before it, the rows
    inserted and the text after it, in this order, and nothing else; the
    cursor is left after the last byte inserted. *)
Theorem insert_rows t u ls ins l sr sc :
  frame t ls -> frame u ins -> ins <> [] -> 0 <= sr -> ls !! Z.to_nat sr = Some l ->
  (forall x, x ∈ ins -> zlen x + zlen l < INT_MAX) -> zlen ls + zlen ins <= 2 ^ 30 ->
  exists t', textframe_insert t u sr sc = Ok t' /\
    frame t' (inserted ls l sr (adjust_col l sc 0 1) ins) /\
    (cursor_row t', cursor_col t') = inserted_cursor sr (adjust_col l sc 0 1) ins.
Proof. intros. by apply textframe_insert_refines. Qed.

Lemma insert_rows_witness :
  exists t', textframe_insert (frame_of [[97; 98]; [99]] 0 0) (frame_of [[49]; [50]; [51; 52]] 0 0) 0 1 = Ok t' /\
    frame t' [[97; 49]; [50]; [51; 52; 98]; [99]] /\ (cursor_row t', cursor_col t') = (2, 2).
Proof.
  apply (insert_rows (frame_of [[97; 98]; [99]] 0 0) (frame_of [[49]; [50]; [51; 52]] 0 0) [[97; 98]; [99]]
    [[49]; [50]; [51; 52]] [97; 98] 0 1).
  - by apply frame_of_frame.
  - by apply frame_of_frame.
  - done.
  - lia.
  - reflexivity.
  - intros z Hz. repeat (apply elem_of_cons in Hz as [->|Hz]; [vm_compute; done|]). by apply elem_of_nil in Hz.
  - vm_compute. done.
Defined.

(** * Files *)

Lemma print_bytes ls : Forall plain ls -> Forall is_byte (print ls).
Proof.
  intros H. induction H as [|l ls Hl Hls IH]; [constructor|].
  assert (Hb : Forall is_byte l).
  { eapply Forall_impl; [exact Hl|]. intros c (Hc & _ & _). by apply is_char_byte. }
  destruct ls as [|l2 ls]; [done|].
  change (print (l :: l2 :: ls)) with (l ++ 10 :: print (l2 :: ls)).
  apply Forall_app. split; [done|]. constructor; [unfold is_byte; lia | done].
Qed.

(** [textframe_read] loads a file as the lines [parse] gives (CR, LF and
    CR LF end a line, NULs are dropped) with the cursor at the start, and
    returns 0; it terminates, one round of the read loop per 1024 bytes, and
    changes no file. *)
Theorem read_parses {W} `{!Sys W, !SysLaws W} fuel w text fname name c :
  is_str fname name -> file_of w name = Some c -> Forall is_byte c -> zlen c < 2 ^ 28 ->
  (length c < fuel)%nat -> can_open w ->
  exists w' t, textframe_read fuel w text fname = Ok (w', t, 0) /\
    rep t (mk_doc (parse [] (-1) c) 0 0) /\ (forall q, file_of w' q = file_of w q).
Proof. apply textframe_read_spec. Qed.

(** C17: Saving and loading, over any kernel that keeps the bounded laws of
    [SysLaws].  When the text is at most as long as the largest file (129024
    bytes) and there is room for it once the old file is removed (the free inode,
    directory entry and blocks: [textframe_write] removes the old file first, and
    does not look at the result of writing the line ends), [textframe_write]
    leaves in the file exactly the lines of the text separated by LF, changes no
    file whose path leads elsewhere, and [textframe_read] of that file gives the
    lines back. *)
Theorem save_load {W} `{!Sys W, !SysLaws W} w t ls fname name text0 fuel :
  frame t ls -> ls <> [] -> Forall plain ls -> is_str fname name ->
  zlen (print ls) <= FILE_MAX -> room (sys_unlink w name).1 name (zlen (print ls)) ->
  (length (print ls) < fuel)%nat ->
  exists w1 t1 w2 t2,
    textframe_write w t fname = Ok (w1, t1, 0) /\ frame t1 ls /\
    file_of w1 name = Some (print ls) /\ (forall q, apart w name q -> file_of w1 q = file_of w q) /\
    textframe_read fuel w1 text0 fname = Ok (w2, t2, 0) /\ rep t2 (mk_doc ls 0 0).
Proof.
  intros Hf Hne Hp Hs Hmax Hroom Hfuel.
  destruct (textframe_write_spec w t ls fname name Hf Hne Hs Hmax Hroom) as (w1 & E1 & Hcan & Hfile & Hothers).
  destruct (textframe_read_spec fuel w1 text0 fname name (print ls) Hs Hfile) as (w2 & t2 & E2 & Hrep & _);
    [by apply print_bytes | unfold FILE_MAX in Hmax; lia | done | done |].
  rewrite parse_print in Hrep by done.
  eexists w1, _, w2, t2. split_and!; [done | | done..].
  destruct Hf as ((bs & rest & Hd & Hbs) & Hm & Hcap & Hfit). split; [by exists bs, rest|].
  split; [done|]. split; [|done]. cbn. rewrite Hd, Hm. pose proof (Forall2_length _ _ _ Hbs). llia.
Qed.

Definition ram0 : Ram.ram := Ram.mk_ram ∅ ∅ 3.
Definition demo_name : bytes := [97; 46; 99].

Lemma save_load_witness :
  exists w1 t1 w2 t2,
    textframe_write ram0 (frame_of [[105; 110; 116]; []; [120]] 0 0) (demo_name ++ [0]) = Ok (w1, t1, 0) /\
    frame t1 [[105; 110; 116]; []; [120]] /\
    file_of w1 demo_name = Some [105; 110; 116; 10; 10; 120] /\
    (forall q, apart ram0 demo_name q -> file_of w1 q = file_of ram0 q) /\
    textframe_read 100 w1 zero_textframe (demo_name ++ [0]) = Ok (w2, t2, 0) /\
    rep t2 (mk_doc [[105; 110; 116]; []; [120]] 0 0).
Proof.
  apply (save_load ram0 (frame_of [[105; 110; 116]; []; [120]] 0 0) [[105; 110; 116]; []; [120]]
    (demo_name ++ [0]) demo_name zero_textframe 100).
  - by apply frame_of_frame.
  - done.
  - repeat constructor; unfold is_char; lia.
  - apply is_str_intro. repeat constructor; unfold is_char; lia.
  - vm_compute. done.
  - exact I.
  - vm_compute. lia.
Defined.

Definition ram1 : Ram.ram := Ram.mk_ram {[ demo_name := [97; 13; 10; 98; 0; 10] ]} ∅ 3.

Lemma read_parses_witness :
  exists w' t, textframe_read 10 ram1 zero_textframe (demo_name ++ [0]) = Ok (w', t, 0) /\
    rep t (mk_doc [[97]; [98]; []] 0 0) /\ (forall q, file_of w' q = file_of ram1 q).
Proof.
  apply (read_parses 10 ram1 zero_textframe (demo_name ++ [0]) demo_name [97; 13; 10; 98; 0; 10]).
  - apply is_str_intro. repeat constructor; unfold is_char; lia.
  - reflexivity.
  - repeat constructor; unfold is_byte; lia.
  - vm_compute. done.
  - vm_compute. lia.
  - vm_compute. done.
Defined.
