(* ===== verification/Draw.v ===== *)
(** The drawing primitives of the kernel: src/src/sysdraw.c.

    Drawing goes to the off-screen buffer [VESA_TEMP]; [update] copies it to
    the frame buffer [VESA_ADDR] and draws the mouse pointer on top.  A buffer
    is a total function from the index of a pixel to its colour; writes are
    checked against the size of the buffer.  What the kernel has in memory
    after [VESA_TEMP] is [after_temp], since [update] and [update_area] read
    past the end of the buffer. *)
From S2P Require Import Prelude.

Definition SCREEN_WIDTH_EXPECT : Z := 800.
Definition SCREEN_HEIGHT_EXPECT : Z := 600.

(** The number of pixels of [VESA_TEMP]. *)
Definition TEMP_LEN : Z := SCREEN_WIDTH_EXPECT * SCREEN_HEIGHT_EXPECT.

Record screen := mk_screen {
  SCREEN_WIDTH : Z;
  SCREEN_HEIGHT : Z;
  VESA_TEMP : Z -> Z;
  VESA_ADDR : Z -> Z;
  after_temp : Z -> Z;
  addr_len : Z;   (** pixels of mapped frame buffer *)
}.

Definition set_temp (s : screen) (f : Z -> Z) : screen :=
  mk_screen (SCREEN_WIDTH s) (SCREEN_HEIGHT s) f (VESA_ADDR s) (after_temp s) (addr_len s).
Definition set_addr (s : screen) (f : Z -> Z) : screen :=
  mk_screen (SCREEN_WIDTH s) (SCREEN_HEIGHT s) (VESA_TEMP s) f (after_temp s) (addr_len s).

Definition store (f : Z -> Z) (i c : Z) : Z -> Z := fun j => if j =? i then c else f j.

(** Reading [VESA_TEMP], past its end too. *)
Definition temp_at (s : screen) (i : Z) : result Z :=
  if i <? 0 then Err OutOfBounds
  else if i <? TEMP_LEN then Ok (VESA_TEMP s i) else Ok (after_temp s (i - TEMP_LEN)).

Definition write_temp (s : screen) (i c : Z) : result screen :=
  if (0 <=? i) && (i <? TEMP_LEN) then Ok (set_temp s (store (VESA_TEMP s) i c)) else Err OutOfBounds.

Definition write_addr (s : screen) (i c : Z) : result screen :=
  if (0 <=? i) && (i <? addr_len s) then Ok (set_addr s (store (VESA_ADDR s) i c)) else Err OutOfBounds.

(** [set_color]; the second component is the value returned. *)
Definition set_color (s : screen) (x y color : Z) : result (screen * Z) :=
  if (SCREEN_WIDTH s <=? x) || (SCREEN_HEIGHT s <=? y) || (65536 <=? color) || (color <? 0)
  then Ok (s, -1)
  else let! s := write_temp s (x + y * SCREEN_WIDTH s) (u16 color) in Ok (s, 0).

Definition set_color_force (s : screen) (x y color : Z) : result (screen * Z) :=
  if (SCREEN_WIDTH s <=? x) || (SCREEN_HEIGHT s <=? y) || (65536 <=? color) || (color <? 0)
  then Ok (s, -1)
  else let! s := write_addr s (x + y * SCREEN_WIDTH s) (u16 color) in Ok (s, 0).

(** The double loop [for (y = yl; y < yl + height; ++y) for (x = xl; x < xl + width; ++x)]. *)
Definition for_pixels (xl yl width height : Z) (body : Z -> Z -> screen -> result screen)
    (s : screen) : result screen :=
  for_up yl (yl + height) (fun y s => for_up xl (xl + width) (fun x s => body x y s) s) s.

(** A call whose result is ignored. *)
Definition ignore (c : result (screen * Z)) : result screen := let! '(s, _) := c in Ok s.

Definition drawarea_force (s : screen) (xl yl width height : Z) (colors : list Z) : result screen :=
  for_pixels xl yl width height
    (fun x y s => let! c := get colors (x - xl + (y - yl) * width) in ignore (set_color_force s x y c)) s.

Definition mouse : list Z := [
  2145; 25388; 44373; 63390; 65535; 65535; 65535; 63422; 63422; 63422;
  25388; 0; 0; 0; 4258; 29582; 54938; 65535; 65535; 63422;
  44405; 0; 0; 0; 0; 0; 0; 0; 16936; 63422;
  63422; 0; 0; 0; 0; 0; 0; 0; 38034; 65535;
  65535; 6339; 0; 0; 0; 0; 0; 44405; 65535; 63422;
  65535; 29582; 0; 0; 0; 0; 0; 0; 38066; 65535;
  65503; 54938; 0; 0; 0; 0; 0; 0; 0; 42260;
  63422; 65535; 0; 0; 44405; 0; 0; 0; 0; 0;
  63422; 65535; 16936; 38034; 65535; 38066; 0; 0; 0; 65535;
  63390; 65503; 63422; 65535; 63422; 65535; 42260; 0; 65535; 65535 ].

Definition draw_mouse (s : screen) (x y : Z) : result screen := drawarea_force s x y 10 10 mouse.

(** [memmove(VESA_ADDR, VESA_TEMP, sizeof (ushort) * 800 * 800)]: the
    elements [0 .. 640000) are copied. *)
Definition UPDATE_LEN : Z := SCREEN_WIDTH_EXPECT * SCREEN_WIDTH_EXPECT.

Definition copy_out (s : screen) : result screen :=
  if addr_len s <? UPDATE_LEN then Err OutOfBounds
  else Ok (set_addr s (fun i =>
    if (0 <=? i) && (i <? UPDATE_LEN) then
      if i <? TEMP_LEN then VESA_TEMP s i else after_temp s (i - TEMP_LEN)
    else VESA_ADDR s i)).

(** [update], with the position of the mouse. *)
Definition update (s : screen) (mouse_x mouse_y : Z) : result screen :=
  let! s := copy_out s in draw_mouse s mouse_x mouse_y.

Definition update_area (s : screen) (xl yl width height : Z) : result screen :=
  for_pixels xl yl width height
    (fun x y s =>
       let i := x + y * SCREEN_WIDTH s in
       let! c := temp_at s i in write_addr s i c) s.

Definition drawrect_force (s : screen) (xl yl width height color : Z) : result screen :=
  for_pixels xl yl width height (fun x y s => ignore (set_color_force s x y color)) s.

Definition drawrect (s : screen) (xl yl width height color : Z) : result (screen * Z) :=
  if (65536 <=? color) || (color <? 0) then Ok (s, -1)
  else if (xl =? 0) && (yl =? 0) && (width =? 800) && (height =? 600) && (color =? 65535) then
    let n := SCREEN_WIDTH s * SCREEN_HEIGHT s in
    if TEMP_LEN <? n then Err OutOfBounds
    else Ok (set_temp s (fun i => if (0 <=? i) && (i <? n) then 0xffff else VESA_TEMP s i), 0)
  else
    let! s := for_pixels xl yl width height (fun x y s => ignore (set_color s x y color)) s in
    Ok (s, 0).

Definition drawarea (s : screen) (xl yl width height : Z) (colors : list Z) : result screen :=
  for_pixels xl yl width height
    (fun x y s => let! c := get colors (x - xl + (y - yl) * width) in ignore (set_color s x y c)) s.

(** An 8 by 16 glyph, scaled to [width] by [height]; -1 is transparent. *)
Definition drawarea_color (s : screen) (xl yl width height color : Z) (colors : list Z) : result screen :=
  for_pixels xl yl width height
    (fun x y s =>
       let j := Z.quot ((x - xl) * 8) width in
       let i := Z.quot ((y - yl) * 16) height in
       let! c := get colors (j + i * 8) in
       if negb (c =? -1) then ignore (set_color s x y color) else Ok s) s.

(** Bit [n] of a 16 by 16 bitmap, row by row, most significant bit first. *)
Definition gbk_bit (gbk : list Z) (n : Z) : result bool :=
  let! b := get gbk (Z.quot n 8) in
  Ok (negb (Z.land b (Z.shiftr 0x80 (Z.rem n 8)) =? 0)).

(** The value stored in [colors[j][i]] by the first loop: the bit with
    [n % 16 = j] and [n / 16 = i]. *)
Definition gbk_color (gbk : list Z) (color j i : Z) : result Z :=
  let! b := gbk_bit gbk (i * 16 + j) in Ok (if b : bool then color else -1).

Definition drawgbk_color (s : screen) (xl yl width height color : Z) (gbk : list Z) : result screen :=
  for_pixels xl yl width height
    (fun x y s =>
       let j := Z.quot ((x - xl) * 16) width in
       let i := Z.quot ((y - yl) * 16) height in
       let! c := gbk_color gbk color j i in
       if negb (c =? -1) then ignore (set_color s x y c) else Ok s) s.

Definition drawgbk (s : screen) (xl yl width height : Z) (gbk : list Z) : result screen :=
  for_up 0 256
    (fun n s =>
       let! b := gbk_bit gbk n in
       if b : bool then ignore (set_color s (xl + Z.rem n width) (yl + Z.quot n width) 0) else Ok s) s.

Definition drawarea_short (s : screen) (xl yl width height : Z) (colors : list Z) : result screen :=
  if (xl =? 0) && (yl =? 0) && (width =? 800) && (height =? 600) then
    if zlen colors <? width * height then Err OutOfBounds
    else Ok (set_temp s (fun i =>
      if (0 <=? i) && (i <? width * height) then nth (Z.to_nat i) colors 0 else VESA_TEMP s i))
  else
    for_pixels xl yl width height
      (fun x y s => let! c := get colors (x - xl + (y - yl) * width) in ignore (set_color s x y c)) s.

(** [reverse_update] *)
Definition reverse_update (s : screen) : result screen :=
  if TEMP_LEN <? UPDATE_LEN then Err OutOfBounds else Ok (set_temp s (VESA_ADDR s)).
