(* ===== verification/DrawProps.v ===== *)
(** What the drawing primitives do to each pixel. *)
From S2P Require Import Prelude Draw.

(** A screen whose pixels all have a place in [VESA_TEMP]. *)
Definition screen_ok (s : screen) : Prop :=
  0 <= SCREEN_WIDTH s /\ 0 <= SCREEN_HEIGHT s /\ SCREEN_WIDTH s * SCREEN_HEIGHT s <= TEMP_LEN.

Definition on_screen (s : screen) (x y : Z) : Prop :=
  0 <= x < SCREEN_WIDTH s /\ 0 <= y < SCREEN_HEIGHT s.

(** The off-screen colour of a pixel. *)
Definition pixel (s : screen) (x y : Z) : Z := VESA_TEMP s (x + y * SCREEN_WIDTH s).

(** Everything but [VESA_TEMP] is the same. *)
Definition same_screen (s s' : screen) : Prop :=
  SCREEN_WIDTH s' = SCREEN_WIDTH s /\ SCREEN_HEIGHT s' = SCREEN_HEIGHT s /\
  VESA_ADDR s' = VESA_ADDR s /\ after_temp s' = after_temp s /\ addr_len s' = addr_len s.

#[export] Instance same_screen_preorder : PreOrder same_screen.
Proof.
  split; [by intros s|]. intros s1 s2 s3 (H1 & H2 & H3 & H4 & H5) (G1 & G2 & G3 & G4 & G5).
  repeat split; congruence.
Qed.

Lemma pixel_index W x y x' y' :
  0 <= x < W -> 0 <= x' < W -> x + y * W = x' + y' * W -> x = x' /\ y = y'.
Proof. intros H1 H2 E. assert (y = y') by nia. subst. lia. Qed.

Lemma pixel_range s x y : screen_ok s -> on_screen s x y -> 0 <= x + y * SCREEN_WIDTH s < TEMP_LEN.
Proof. intros (HW & HH & HL) [Hx Hy]. nia. Qed.

Lemma same_ok s s' : same_screen s s' -> screen_ok s -> screen_ok s'.
Proof. intros (E1 & E2 & _) H. unfold screen_ok. by rewrite E1, E2. Qed.

Lemma same_on s s' x y : same_screen s s' -> on_screen s' x y <-> on_screen s x y.
Proof. intros (E1 & E2 & _). unfold on_screen. by rewrite E1, E2. Qed.

(** The effect of painting one pixel; [None] leaves it. *)
Definition painted (c : option Z) (old : Z) : Z := match c with Some c => c | None => old end.

(** [s'] is [s] with the pixels of the region [reg] painted by [col]. *)
Definition paints (reg : Z -> Z -> bool) (col : Z -> Z -> option Z) (s s' : screen) : Prop :=
  same_screen s s' /\
  forall x y, on_screen s x y ->
    pixel s' x y = if reg x y then painted (col x y) (pixel s x y) else pixel s x y.

Lemma paints_none col s : paints (fun _ _ => false) col s s.
Proof. split; [reflexivity | done]. Qed.

Lemma paints_ext reg reg' col s s' :
  (forall x y, on_screen s x y -> reg x y = reg' x y) -> paints reg col s s' -> paints reg' col s s'.
Proof. intros H [H1 H2]. split; [done|]. intros x y Hxy. by rewrite H2, H. Qed.

Lemma paints_trans reg1 reg2 col s1 s2 s3 :
  (forall x y, reg1 x y && reg2 x y = false) ->
  paints reg1 col s1 s2 -> paints reg2 col s2 s3 -> paints (fun x y => reg1 x y || reg2 x y) col s1 s3.
Proof.
  intros Hd [S1 P1] [S2 P2]. split; [by etransitivity|]. intros x y Hxy.
  rewrite P2 by (by apply (same_on s1 s2)). specialize (P1 x y Hxy). specialize (Hd x y).
  destruct (reg1 x y), (reg2 x y); cbn in *; congruence.
Qed.

(** One step of a painting loop: the pixel [(x, y)] is painted if it is on the
    screen, and no other pixel changes. *)
Definition paint_step (body : Z -> Z -> screen -> result screen) (col : Z -> Z -> option Z)
    (x y : Z) (s : screen) : Prop :=
  exists s', body x y s = Ok s' /\ paints (fun x' y' => (x' =? x) && (y' =? y)) col s s'.

Section Loop.
Context (body : Z -> Z -> screen -> result screen) (col : Z -> Z -> option Z).
Context (s0 : screen) (xl yl width height : Z).
Hypothesis Hstep : forall x y s, xl <= x < xl + width -> yl <= y < yl + height ->
  same_screen s0 s -> paint_step body col x y s.

Lemma for_row y s n :
  yl <= y < yl + height -> same_screen s0 s -> Z.of_nat n <= width ->
  exists s', up_n n xl (fun x s => body x y s) s = Ok s' /\
    paints (fun x' y' => (xl <=? x') && (x' <? xl + Z.of_nat n) && (y' =? y)) col s s'.
Proof.
  intros Hy. enough (H : forall k i s, same_screen s0 s -> xl <= i -> i + Z.of_nat k <= xl + width ->
    exists s', up_n k i (fun x s => body x y s) s = Ok s' /\
      paints (fun x' y' => (i <=? x') && (x' <? i + Z.of_nat k) && (y' =? y)) col s s').
  { intros Hs Hn. apply H; [done | lia | lia]. }
  induction k as [|k IH]; intros i s1 Hs Hi Hk; cbn [up_n].
  - exists s1. split; [done|]. eapply paints_ext; [|apply paints_none].
    intros x' y' _. cbn. symmetry. ztests; done.
  - destruct (Hstep i y s1) as (s2 & -> & P2); [lia | done | done|]. cbn [rbind].
    destruct (IH (i + 1) s2) as (s3 & -> & P3); [etransitivity; [done | apply P2] | lia | lia |].
    exists s3. split; [done|]. eapply paints_ext; [|eapply paints_trans; [|exact P2 | exact P3]].
    + intros x' y' _. cbn. destruct (Z.eqb_spec y' y); rewrite ?andb_false_r, ?andb_true_r; [|done].
      destruct (Z.eqb_spec x' i); ztests; done.
    + intros x' y'. cbn. destruct (Z.eqb_spec x' i); [|done]. ztests; done.
Qed.

Lemma for_pixels_paints s :
  same_screen s0 s -> 0 <= width -> 0 <= height ->
  exists s', for_pixels xl yl width height body s = Ok s' /\
    paints (fun x' y' => (xl <=? x') && (x' <? xl + width) && ((yl <=? y') && (y' <? yl + height))) col s s'.
Proof.
  intros Hs Hw Hh. unfold for_pixels, for_up at 1. replace (yl + height - yl) with height by lia.
  enough (H : forall k i s, same_screen s0 s -> yl <= i -> i + Z.of_nat k <= yl + height ->
    exists s', up_n k i (fun y s => for_up xl (xl + width) (fun x s => body x y s) s) s = Ok s' /\
      paints (fun x' y' => (xl <=? x') && (x' <? xl + width) && ((i <=? y') && (y' <? i + Z.of_nat k))) col s s').
  { destruct (H (Z.to_nat height) yl s Hs) as (s' & E & P); [lia | lia |]. exists s'. split; [done|].
    by rewrite Z2Nat.id in P by lia. }
  induction k as [|k IH]; intros i s1 Hs1 Hi Hk; cbn [up_n].
  - exists s1. split; [done|]. eapply paints_ext; [|apply paints_none].
    intros x' y' _. cbn. symmetry. ztests; done.
  - unfold for_up at 1. replace (xl + width - xl) with width by lia.
    destruct (for_row i s1 (Z.to_nat width)) as (s2 & -> & P2); [lia | done | lia |]. cbn [rbind].
    rewrite Z2Nat.id in P2 by lia.
    destruct (IH (i + 1) s2) as (s3 & -> & P3); [etransitivity; [done | apply P2] | lia | lia |].
    exists s3. split; [done|]. eapply paints_ext; [|eapply paints_trans; [|exact P2 | exact P3]].
    + intros x' y' _. cbn. destruct ((xl <=? x') && (x' <? xl + width)); cbn [andb orb]; [|done].
      destruct (Z.eqb_spec y' i); ztests; done.
    + intros x' y'. cbn. destruct (Z.eqb_spec y' i); rewrite ?andb_false_r; [|done].
      rewrite andb_true_r. apply andb_false_iff. right. apply andb_false_iff. right. ztests; done.
Qed.
End Loop.

(** [set_color] at a column and a row that are not negative. *)
Lemma set_color_step s x y c :
  screen_ok s -> 0 <= x -> 0 <= y -> 0 <= c < 65536 ->
  exists s', ignore (set_color s x y c) = Ok s' /\
    paints (fun x' y' => (x' =? x) && (y' =? y)) (fun _ _ => Some c) s s'.
Proof.
  intros Hok Hx Hy Hc. unfold ignore, set_color. zsimp. rewrite !orb_false_r.
  destruct (Z.leb_spec (SCREEN_WIDTH s) x); cbn [orb].
  { exists s. split; [done|]. eapply paints_ext; [|apply paints_none].
    intros x' y' [Hx' _]. symmetry. by destruct (Z.eqb_spec x' x); [lia|]. }
  destruct (Z.leb_spec (SCREEN_HEIGHT s) y); cbn [orb].
  { exists s. split; [done|]. eapply paints_ext; [|apply paints_none].
    intros x' y' [_ Hy']. symmetry. apply andb_false_iff. right. apply Z.eqb_neq. lia. }
  pose proof (pixel_range s x y Hok ltac:(by split)) as Hi. unfold write_temp. zsimp. cbn [rbind].
  eexists. split; [done|]. split; [done|]. intros x' y' [Hx' Hy'].
  unfold pixel. cbn [set_temp VESA_TEMP SCREEN_WIDTH]. unfold store.
  replace (u16 c) with c by (symmetry; apply Z.mod_small; lia).
  destruct (Z.eqb_spec (x' + y' * SCREEN_WIDTH s) (x + y * SCREEN_WIDTH s)) as [E|E].
  - apply pixel_index in E as [-> ->]; [|lia|lia]. by rewrite !Z.eqb_refl.
  - destruct (Z.eqb_spec x' x) as [->|]; [|done]. by destruct (Z.eqb_spec y' y) as [->|].
Qed.

Lemma paints_col reg col col' s s' :
  (forall x y, reg x y = true -> col x y = col' x y) -> paints reg col s s' -> paints reg col' s s'.
Proof.
  intros H [S P]. split; [done|]. intros x y Hxy. rewrite P by done. destruct (reg x y) eqn:E; [|done].
  by rewrite H.
Qed.

(** Properties of the drawing primitives. *)

Lemma paints_nothing reg s : paints reg (fun _ _ => None) s s.
Proof. split; [reflexivity|]. intros x y _. by destruct (reg x y). Qed.

(** The white fill of the whole screen. *)
Lemma fill_paints s :
  screen_ok s -> SCREEN_WIDTH s <= 800 -> SCREEN_HEIGHT s <= 600 ->
  paints (fun x' y' => (0 <=? x') && (x' <? 0 + 800) && ((0 <=? y') && (y' <? 0 + 600))) (fun _ _ => Some 65535) s
    (set_temp s (fun i => if (0 <=? i) && (i <? SCREEN_WIDTH s * SCREEN_HEIGHT s) then 0xffff else VESA_TEMP s i)).
Proof.
  intros Hok HW HH. split; [done|]. intros x y [Hx Hy]. unfold pixel at 1. cbn [set_temp VESA_TEMP SCREEN_WIDTH].
  assert (0 <= x + y * SCREEN_WIDTH s < SCREEN_WIDTH s * SCREEN_HEIGHT s) by nia. zsimp. done.
Qed.

(** [drawrect] paints exactly the rectangle: every pixel of the screen in
    it gets the colour and every other keeps its own; what lies beyond the
    right or bottom edge is clipped, and no write leaves the buffer. *)
Theorem drawrect_exact s xl yl w h color :
  screen_ok s -> SCREEN_WIDTH s <= 800 -> SCREEN_HEIGHT s <= 600 ->
  0 <= xl -> 0 <= yl -> 0 <= w -> 0 <= h -> 0 <= color < 65536 ->
  exists s', drawrect s xl yl w h color = Ok (s', 0) /\
    paints (fun x' y' => (xl <=? x') && (x' <? xl + w) && ((yl <=? y') && (y' <? yl + h)))
      (fun _ _ => Some color) s s'.
Proof.
  intros Hok HW HH Hx Hy Hw Hh Hc. unfold drawrect.
  replace ((65536 <=? color) || (color <? 0)) with false by (symmetry; apply orb_false_iff; split; [apply Z.leb_gt | apply Z.ltb_ge]; lia).
  destruct ((xl =? 0) && (yl =? 0) && (w =? 800) && (h =? 600) && (color =? 65535)) eqn:E.
  - rewrite !andb_true_iff, !Z.eqb_eq in E. destruct E as ((((-> & ->) & ->) & ->) & ->).
    destruct Hok as (H1 & H2 & H3) eqn:Eok. clear Eok.
    replace (TEMP_LEN <? _) with false by (symmetry; apply Z.ltb_ge; lia).
    eexists. split; [done|]. by apply fill_paints.
  - destruct (for_pixels_paints (fun x y s => ignore (set_color s x y color)) (fun _ _ => Some color) s xl yl w h)
      with (s := s) as (s' & -> & P); [| reflexivity | done | done |].
    + intros x y s1 Hx' Hy' Hs1. apply set_color_step; [by eapply same_ok | lia | lia | done].
    + by exists s'.
Qed.

Definition small_screen : screen := mk_screen 8 4 (fun _ => 0) (fun _ => 0) (fun _ => 0) 1000000.

Lemma drawrect_exact_witness :
  exists s', drawrect small_screen 6 1 5 2 77 = Ok (s', 0) /\
    paints (fun x' y' => (6 <=? x') && (x' <? 6 + 5) && ((1 <=? y') && (y' <? 1 + 2))) (fun _ _ => Some 77) small_screen s'.
Proof.
  apply (drawrect_exact small_screen 6 1 5 2 77); try lia; vm_compute; intuition discriminate.
Defined.

(** A glyph is drawn scaled: pixel [(x, y)] of a box of [w] by [h] gets the
    colour exactly when cell [((x - xl) * 8 / w, (y - yl) * 16 / h)] of the
    8 by 16 glyph is set; no cell outside the glyph is read. *)
Theorem glyph_scaled s xl yl w h color g :
  screen_ok s -> 0 <= xl -> 0 <= yl -> 0 < w -> 0 < h -> 0 <= color < 65536 -> zlen g = 128 ->
  exists s', drawarea_color s xl yl w h color g = Ok s' /\
    paints (fun x' y' => (xl <=? x') && (x' <? xl + w) && ((yl <=? y') && (y' <? yl + h)))
      (fun x y => if nth (Z.to_nat ((x - xl) * 8 / w + (y - yl) * 16 / h * 8)) g (-1) =? -1 then None else Some color) s s'.
Proof.
  intros Hok Hx Hy Hw Hh Hc Hg. unfold drawarea_color.
  apply for_pixels_paints with (s0 := s); [|reflexivity | lia | lia].
  intros x y s1 Hx' Hy' Hs1. unfold paint_step.
  assert (Hj : Z.quot ((x - xl) * 8) w = (x - xl) * 8 / w) by (apply Z.quot_div_nonneg; lia).
  assert (Hi : Z.quot ((y - yl) * 16) h = (y - yl) * 16 / h) by (apply Z.quot_div_nonneg; lia).
  rewrite Hj, Hi. set (k := (x - xl) * 8 / w + (y - yl) * 16 / h * 8).
  assert (0 <= (x - xl) * 8 / w <= 7) by (split; [apply Z.div_pos; lia | apply Z.lt_succ_r, Z.div_lt_upper_bound; lia]).
  assert (0 <= (y - yl) * 16 / h <= 15) by (split; [apply Z.div_pos; lia | apply Z.lt_succ_r, Z.div_lt_upper_bound; lia]).
  destruct (get_lt g k) as (c & -> & Hk); [lia|]. cbn [rbind].
  assert (Hnth : nth (Z.to_nat k) g (-1) = c) by (rewrite nth_lookup, Hk; done).
  destruct (Z.eqb_spec c (-1)) as [E|E]; cbn [negb].
  - exists s1. split; [done|]. eapply paints_col; [|apply paints_nothing]. intros x' y' Hxy. cbn in Hxy.
    apply andb_true_iff in Hxy as [->%Z.eqb_eq ->%Z.eqb_eq]. fold k. rewrite Hnth, E. done.
  - destruct (set_color_step s1 x y color) as (s2 & -> & P); [by eapply same_ok | lia | lia | done |].
    exists s2. split; [done|]. eapply paints_col; [|exact P]. intros x' y' Hxy. cbn in Hxy.
    apply andb_true_iff in Hxy as [->%Z.eqb_eq ->%Z.eqb_eq]. fold k. rewrite Hnth.
    by replace (c =? -1) with false by (symmetry; by apply Z.eqb_neq).
Qed.

Lemma glyph_scaled_witness :
  exists s', drawarea_color small_screen 1 1 16 32 5 (0 :: replicate 127 (-1)) = Ok s' /\
    paints (fun x' y' => (1 <=? x') && (x' <? 1 + 16) && ((1 <=? y') && (y' <? 1 + 32)))
      (fun x y => if nth (Z.to_nat ((x - 1) * 8 / 16 + (y - 1) * 16 / 32 * 8)) (0 :: replicate 127 (-1)) (-1) =? -1
                  then None else Some 5) small_screen s'.
Proof.
  apply (glyph_scaled small_screen 1 1 16 32 5 (0 :: replicate 127 (-1))); try lia; vm_compute; intuition discriminate.
Defined.

(** [set_color] does not check for negative coordinates: one column left of
    the screen it paints the last pixel of the row above. *)
Theorem negative_column_wraps s y c :
  screen_ok s -> 0 < SCREEN_WIDTH s -> 0 < y < SCREEN_HEIGHT s -> 0 <= c < 65536 ->
  exists s', set_color s (-1) y c = Ok (s', 0) /\ pixel s' (SCREEN_WIDTH s - 1) (y - 1) = c.
Proof.
  intros (H1 & H2 & H3) HW Hy Hc. unfold set_color, write_temp. zsimp.
  assert (0 <= -1 + y * SCREEN_WIDTH s < TEMP_LEN) by nia. zsimp. cbn [rbind]. eexists. split; [done|].
  unfold pixel. cbn [set_temp VESA_TEMP SCREEN_WIDTH]. unfold store.
  replace (_ =? _) with true by (symmetry; apply Z.eqb_eq; lia). apply Z.mod_small. lia.
Qed.

Lemma negative_column_wraps_witness :
  exists s', set_color small_screen (-1) 2 9 = Ok (s', 0) /\ pixel s' 7 1 = 9.
Proof. apply (negative_column_wraps small_screen 2 9); try lia; vm_compute; intuition discriminate. Defined.
