(* ===== verification/Devices.v ===== *)
(** Input devices: the message queue (src/src/sys_get_msg.c), the keyboard
    (src/src/kbd.c, kbd.h) and the mouse (src/src/mouse.c).

    An interrupt handler reads its device ports once; the values read are
    arguments.  Interrupts of one device do not nest (the mouse handler holds
    [mouse_lock]), so a handler runs as one step. *)
From S2P Require Import Prelude Draw.

(** * The message queue *)
Module Msg.

Definition KBD_C_QUEUE_LENGTH : Z := 100.

Record queue := mk_queue { message : list Z; front : Z; tail : Z }.

Definition empty_queue : queue := mk_queue (replicate 100 0) 0 0.

(** [message[tail++] = m; if (tail == KBD_C_QUEUE_LENGTH) tail = 0;] *)
Definition enqueue (q : queue) (m : Z) : result queue :=
  let! a := put (message q) (tail q) m in
  let t := tail q + 1 in
  Ok (mk_queue a (front q) (if t =? KBD_C_QUEUE_LENGTH then 0 else t)).

Definition add_kbd_msg (q : queue) (c : Z) : result queue := enqueue q c.

Definition add_mouse_msg (q : queue) (mouse_opt x y : Z) : result queue :=
  enqueue q (Z.lor (Z.lor (Z.shiftl mouse_opt 24) (Z.shiftl x 12)) y).

Definition sys_get_msg (q : queue) : result (queue * Z) :=
  if front q =? tail q then Ok (q, 0)
  else
    let! res := get (message q) (front q) in
    let f := front q + 1 in
    Ok (mk_queue (message q) (if f =? KBD_C_QUEUE_LENGTH then 0 else f) (tail q), res).

End Msg.

(** * The keyboard *)
Module Kbd.

Definition KBS_DIB : Z := 0x01.
Definition NO : Z := 0.
Definition SHIFT : Z := 1.
Definition CTL : Z := 2.
Definition ALT : Z := 4.
Definition CAPSLOCK : Z := 8.
Definition NUMLOCK : Z := 16.
Definition SCROLLLOCK : Z := 32.
Definition E0ESC : Z := 64.

Definition KEY_HOME : Z := 0xE0.
Definition KEY_END : Z := 0xE1.
Definition KEY_UP : Z := 0xE2.
Definition KEY_DN : Z := 0xE3.
Definition KEY_LF : Z := 0xE4.
Definition KEY_RT : Z := 0xE5.
Definition KEY_PGUP : Z := 0xE6.
Definition KEY_PGDN : Z := 0xE7.
Definition KEY_INS : Z := 0xE8.
Definition KEY_DEL : Z := 0xE9.

(** A static array of 256 bytes: the first elements, then designated ones. *)
Definition table (init : list Z) (at_ : list (Z * Z)) : list Z :=
  foldl (fun t p => <[Z.to_nat (fst p) := snd p]> t) (init ++ replicate (256 - length init) NO) at_.

Definition shiftcode : list Z :=
  table [] [(0x1D, CTL); (0x2A, SHIFT); (0x36, SHIFT); (0x38, ALT); (0x9D, CTL); (0xB8, ALT)].

Definition togglecode : list Z :=
  table [] [(0x3A, CAPSLOCK); (0x45, NUMLOCK); (0x46, SCROLLLOCK)].

(** The keypad and cursor keys, the same in the three maps but for Enter and
    the keypad slash. *)
Definition keypad (enter slash : Z) : list (Z * Z) :=
  [(0x9C, enter); (0xB5, slash);
   (0xC8, KEY_UP); (0xD0, KEY_DN); (0xC9, KEY_PGUP); (0xD1, KEY_PGDN);
   (0xCB, KEY_LF); (0xCD, KEY_RT); (0x97, KEY_HOME); (0xCF, KEY_END);
   (0xD2, KEY_INS); (0xD3, KEY_DEL)].

Definition normalmap : list Z := table
  [NO; 0x1B; 49; 50; 51; 52; 53; 54;
   55; 56; 57; 48; 45; 61; 8; 9;
   113; 119; 101; 114; 116; 121; 117; 105;
   111; 112; 91; 93; 10; NO; 97; 115;
   100; 102; 103; 104; 106; 107; 108; 59;
   39; 96; NO; 92; 122; 120; 99; 118;
   98; 110; 109; 44; 46; 47; NO; 42;
   NO; 32; NO; NO; NO; NO; NO; NO;
   NO; NO; NO; NO; NO; NO; NO; 55;
   56; 57; 45; 52; 53; 54; 43; 49;
   50; 51; 48; 46; NO; NO; NO; NO] (keypad 10 47).

Definition shiftmap : list Z := table
  [NO; 27; 33; 64; 35; 36; 37; 94;
   38; 42; 40; 41; 95; 43; 8; 9;
   81; 87; 69; 82; 84; 89; 85; 73;
   79; 80; 123; 125; 10; NO; 65; 83;
   68; 70; 71; 72; 74; 75; 76; 58;
   34; 126; NO; 124; 90; 88; 67; 86;
   66; 78; 77; 60; 62; 63; NO; 42;
   NO; 32; NO; NO; NO; NO; NO; NO;
   NO; NO; NO; NO; NO; NO; NO; 55;
   56; 57; 45; 52; 53; 54; 43; 49;
   50; 51; 48; 46; NO; NO; NO; NO] (keypad 10 47).

(** [C(x)], the control character of a key, stored in a [uchar]. *)
Definition C (x : Z) : Z := u8 (x - 64).

Definition ctlmap : list Z := table
  [NO; NO; NO; NO; NO; NO; NO; NO;
   NO; NO; NO; NO; NO; NO; NO; NO;
   C 81; C 87; C 69; C 82; C 84; C 89; C 85; C 73;
   C 79; C 80; NO; NO; 13; NO; C 65; C 83;
   C 68; C 70; C 71; C 72; C 74; C 75; C 76; NO;
   NO; NO; NO; C 92; C 90; C 88; C 67; C 86;
   C 66; C 78; C 77; NO; NO; C 47; NO; NO] (keypad 13 (C 47)).

Definition charcode : list (list Z) := [normalmap; shiftmap; ctlmap; ctlmap].

(** [kbdgetc] with the status and data ports; the static [shift] is the
    state.  [shift &= ~m] on a [uint]. *)
Definition clear (shift m : Z) : Z := Z.ldiff shift m.

Definition kbdgetc (shift st data : Z) : result (Z * Z) :=
  if Z.land st KBS_DIB =? 0 then Ok (shift, -1)
  else if data =? 0xE0 then Ok (Z.lor shift E0ESC, 0)
  else if negb (Z.land data 0x80 =? 0) then
    let data := if negb (Z.land shift E0ESC =? 0) then data else Z.land data 0x7F in
    let! sc := get shiftcode data in
    Ok (clear shift (Z.lor sc E0ESC), 0)
  else
    let '(data, shift) :=
      if negb (Z.land shift E0ESC =? 0) then (Z.lor data 0x80, clear shift E0ESC) else (data, shift) in
    let! sc := get shiftcode data in
    let shift := Z.lor shift sc in
    let! tc := get togglecode data in
    let shift := Z.lxor shift tc in
    let! map := get charcode (Z.land shift (Z.lor CTL SHIFT)) in
    let! c := get map data in
    let c :=
      if negb (Z.land shift CAPSLOCK =? 0) then
        if (97 <=? c) && (c <=? 122) then u32 (c + (65 - 97))
        else if (65 <=? c) && (c <=? 90) then u32 (c + (97 - 65))
        else c
      else c in
    Ok (shift, s32 c).

(** [kbdintr]: the state is [shift] and the queue. *)
Definition kbdintr (shift : Z) (q : Msg.queue) (st data : Z) : result (Z * Msg.queue) :=
  let! '(shift, c) := kbdgetc shift st data in
  let! q := Msg.add_kbd_msg q c in
  Ok (shift, q).

End Kbd.

(** * The mouse *)
Module Mouse.

Definition MOUSE_X_MIN : Z := 0.
Definition MOUSE_X_MAX : Z := 800.
Definition MOUSE_Y_MIN : Z := 0.
Definition MOUSE_Y_MAX : Z := 600.

(** [enum MSG_TYPE] of defs.h *)
Definition MOUSE_LEFT_PRESS : Z := 1.
Definition MOUSE_LEFT_RELEASE : Z := 2.
Definition MOUSE_RIGHT_PRESS : Z := 3.
Definition MOUSE_RIGHT_RELEASE : Z := 4.
Definition MOUSE_MOVE : Z := 5.

Record mouse := mk_mouse {
  count : Z;
  x_sign : Z; y_sign : Z;
  btn_left : bool; btn_right : bool;
  btn_left_down : bool; btn_right_down : bool;
  x_delta : Z; y_delta : Z;
  x_pos : Z; y_pos : Z;
}.

Definition mouse0 : mouse := mk_mouse 0 0 0 false false false false 0 0 400 300.

Definition get_mouse_pos (m : mouse) : Z * Z := (x_pos m, y_pos m).

Definition set_count (m : mouse) (n : Z) : mouse :=
  mk_mouse n (x_sign m) (y_sign m) (btn_left m) (btn_right m) (btn_left_down m) (btn_right_down m)
    (x_delta m) (y_delta m) (x_pos m) (y_pos m).

Definition bit (data k : Z) : bool := negb (Z.land data k =? 0).
Definition b2z (b : bool) : Z := if b then 1 else 0.

(** [case 1]: the header of a packet.  [btn_mid] and the overflow bits are
    recorded by the code and never read. *)
Definition packet_head (m : mouse) (data : Z) : mouse :=
  if bit data 0x08 && negb (bit data 0x04) then
    mk_mouse 1 (b2z (bit data 0x10)) (b2z (bit data 0x20)) (bit data 0x01) (bit data 0x02)
      (btn_left_down m) (btn_right_down m) (x_delta m) (y_delta m) (x_pos m) (y_pos m)
  else set_count m 0.

(** [case 2]: the horizontal movement. *)
Definition packet_x (m : mouse) (data : Z) : mouse :=
  mk_mouse 2 (x_sign m) (y_sign m) (btn_left m) (btn_right m) (btn_left_down m) (btn_right_down m)
    (s32 (u32 (data - x_sign m * 256))) (y_delta m) (x_pos m) (y_pos m).

(** [abs(x)] and [CHECK_IN_RANGE] *)
Definition cabs (x : Z) : Z := if - x <? x then x else - x.
Definition check_in_range (v min max : Z) : Z :=
  let v := if v <? min then min else v in if max <=? v then max - 1 else v.

(** The kind of message a complete packet sends. *)
Definition mouse_opt (m : mouse) : Z :=
  if btn_left m && negb (btn_left_down m) then MOUSE_LEFT_PRESS
  else if negb (btn_left m) && btn_left_down m then MOUSE_LEFT_RELEASE
  else if btn_right m && negb (btn_right_down m) then MOUSE_RIGHT_PRESS
  else if negb (btn_right m) && btn_right_down m then MOUSE_RIGHT_RELEASE
  else MOUSE_MOVE.

(** [case 3]: the vertical movement ends the packet. *)
Definition packet_y (m : mouse) (q : Msg.queue) (s : screen) (data : Z)
  : result (mouse * Msg.queue * screen) :=
  let dy := s32 (u32 (data - y_sign m * 256)) in
  let m := mk_mouse 3 (x_sign m) (y_sign m) (btn_left m) (btn_right m) (btn_left_down m)
             (btn_right_down m) (x_delta m) dy (x_pos m) (y_pos m) in
  if (100 <? cabs (x_delta m)) || (100 <? cabs dy) then Ok (set_count m 0, q, s)
  else
    let! s := update_area s (x_pos m) (y_pos m) 10 10 in
    let x := check_in_range (x_pos m + x_delta m) MOUSE_X_MIN MOUSE_X_MAX in
    let y := check_in_range (y_pos m - dy) MOUSE_Y_MIN MOUSE_Y_MAX in
    let! s := draw_mouse s x y in
    let! q := Msg.add_mouse_msg q (mouse_opt m) x y in
    Ok (mk_mouse 0 (x_sign m) (y_sign m) (btn_left m) (btn_right m) (btn_left m) (btn_right m)
          (x_delta m) dy x y, q, s).

(** [mouseintr] with the status and data ports. *)
Definition mouseintr (m : mouse) (q : Msg.queue) (s : screen) (st data : Z)
  : result (mouse * Msg.queue * screen) :=
  if Z.land st 0x01 =? 0 then Ok (set_count m 0, q, s)
  else
    let n := count m + 1 in
    if n =? 1 then Ok (packet_head m data, q, s)
    else if n =? 2 then Ok (packet_x m data, q, s)
    else if n =? 3 then packet_y m q s data
    else Ok (set_count m 0, q, s).

End Mouse.
