(* ===== verification/DeviceProps.v ===== *)
(** Properties of the input devices. *)
From S2P Require Import Prelude Draw DrawProps Devices.

Import Msg.

(** * The message queue *)

(** [q] holds the pending messages [l], oldest first. *)
Record queue_rep (q : queue) (l : list Z) : Prop := {
  qr_len : zlen (message q) = 100;
  qr_front : 0 <= front q < 100;
  qr_room : zlen l <= 99;
  qr_tail : tail q = (front q + zlen l) mod 100;
  qr_at : forall i m, 0 <= i -> l !! Z.to_nat i = Some m ->
    message q !! Z.to_nat ((front q + i) mod 100) = Some m;
}.

Lemma mod_step a : 0 <= a < 100 -> (if a + 1 =? 100 then 0 else a + 1) = (a + 1) mod 100.
Proof.
  intros H. destruct (Z.eqb_spec (a + 1) 100) as [->|]; [done|]. rewrite Z.mod_small by lia. done.
Qed.

Lemma mod_neq a i j : 0 <= i < 100 -> 0 <= j < 100 -> i <> j -> (a + i) mod 100 <> (a + j) mod 100.
Proof.
  intros Hi Hj Hne E. pose proof (Z.div_mod (a + i) 100). pose proof (Z.div_mod (a + j) 100). lia.
Qed.

Lemma empty_queue_rep : queue_rep empty_queue [].
Proof. split; done. Qed.

(** The state after a message is stored, whatever is pending. *)
Lemma enqueue_ok q l m :
  queue_rep q l ->
  exists q', enqueue q m = Ok q' /\ zlen (message q') = 100 /\ front q' = front q /\
    tail q' = (front q + (zlen l + 1)) mod 100 /\
    message q' = <[Z.to_nat ((front q + zlen l) mod 100) := m]> (message q).
Proof.
  intros H. pose proof (Z.mod_pos_bound (front q + zlen l) 100 ltac:(lia)) as Ht.
  unfold enqueue. rewrite (qr_tail _ _ H), put_ok by (rewrite (qr_len _ _ H); lia). cbn [rbind].
  eexists. split; [done|]. cbn [message front tail]. rewrite zlen_insert, (qr_len _ _ H).
  split; [done|]. split; [done|]. split; [|done].
  change KBD_C_QUEUE_LENGTH with 100. rewrite mod_step by lia.
  rewrite Zplus_mod_idemp_l. f_equal. lia.
Qed.

Lemma enqueue_rep q l m :
  queue_rep q l -> zlen l < 99 -> exists q', enqueue q m = Ok q' /\ queue_rep q' (l ++ [m]).
Proof.
  intros H Hl. destruct (enqueue_ok q l m H) as (q' & E & Hlen & Hf & Ht & Hm).
  exists q'. split; [done|]. split; [done | rewrite Hf; apply H | llia | rewrite Hf, Ht; do 2 f_equal; llia |].
  intros i m' Hi Hlk. rewrite Hf, Hm.
  pose proof (Z.mod_pos_bound (front q + i) 100 ltac:(lia)).
  pose proof (Z.mod_pos_bound (front q + zlen l) 100 ltac:(lia)).
  pose proof (lookup_lt_Some _ _ _ Hlk) as Hlt. rewrite length_app in Hlt. cbn in Hlt.
  destruct (Z.eq_dec i (zlen l)) as [->|Hne].
  - rewrite lookup_middle in Hlk by done. injection Hlk as <-.
    apply list_lookup_insert_eq. pose proof (qr_len _ _ H). lia.
  - pose proof (mod_neq (front q) i (zlen l)). rewrite list_lookup_insert_ne by lia.
    apply (qr_at _ _ H); [done|]. rewrite lookup_app_l in Hlk by lia. done.
Qed.

Lemma get_msg_rep q l :
  queue_rep q l ->
  exists q', sys_get_msg q = Ok (q', default 0 (head l)) /\ queue_rep q' (list.tail l).
Proof.
  intros H. unfold sys_get_msg. rewrite (qr_tail _ _ H).
  pose proof (qr_front _ _ H) as Hf. pose proof (qr_room _ _ H) as Hr.
  destruct l as [|m l].
  - cbn [length]. rewrite Z.add_0_r, Z.mod_small, Z.eqb_refl by lia. by exists q.
  - pose proof (mod_neq (front q) 0 (zlen (m :: l)) ltac:(lia) ltac:(cbn [length] in *; lia) ltac:(cbn [length]; lia)) as Hne.
    rewrite Z.add_0_r, (Z.mod_small (front q)) in Hne by lia.
    replace (front q =? _) with false by (symmetry; by apply Z.eqb_neq).
    rewrite (get_ok _ _ m); [|lia|].
    2:{ pose proof (qr_at _ _ H 0 m ltac:(lia) eq_refl) as Hat. by rewrite Z.add_0_r, Z.mod_small in Hat by lia. }
    cbn [rbind]. eexists. split; [done|]. change KBD_C_QUEUE_LENGTH with 100. rewrite mod_step by lia.
    split; cbn [message front tail list.tail]; [apply H | apply Z.mod_pos_bound; lia | cbn [length] in Hr; lia | |].
    + rewrite ?(qr_tail _ _ H), Zplus_mod_idemp_l. f_equal. cbn [length]. lia.
    + intros i m' Hi Hlk. rewrite Zplus_mod_idemp_l. replace (front q + 1 + i) with (front q + (i + 1)) by lia.
      apply (qr_at _ _ H); [lia|]. by replace (Z.to_nat (i + 1)) with (S (Z.to_nat i)) by lia.
Qed.

(** An operation on the queue: a message added by a driver, or [get_msg]. *)
Inductive qop := Add (m : Z) | Get.

Definition do_op (q : queue) (o : qop) : result (queue * option Z) :=
  match o with
  | Add m => let! q := enqueue q m in Ok (q, None)
  | Get => let! '(q, m) := sys_get_msg q in Ok (q, Some m)
  end.

Fixpoint run_ops (q : queue) (ops : list qop) : result (queue * list (option Z)) :=
  match ops with
  | [] => Ok (q, [])
  | o :: ops' => let! '(q, r) := do_op q o in let! '(q, rs) := run_ops q ops' in Ok (q, r :: rs)
  end.

(** The abstract queue: a list. *)
Fixpoint spec_ops (l : list Z) (ops : list qop) : list Z * list (option Z) :=
  match ops with
  | [] => (l, [])
  | Add m :: ops' => let '(l', rs) := spec_ops (l ++ [m]) ops' in (l', None :: rs)
  | Get :: ops' => let '(l', rs) := spec_ops (list.tail l) ops' in (l', Some (default 0 (head l)) :: rs)
  end.

(** At most 99 messages are ever pending. *)
Fixpoint never_full (l : list Z) (ops : list qop) : bool :=
  (zlen l <=? 99) &&
  match ops with
  | [] => true
  | Add m :: ops' => never_full (l ++ [m]) ops'
  | Get :: ops' => never_full (list.tail l) ops'
  end.

(** The circular queue implements a FIFO: as long as at most 99 messages
    are pending, any sequence of messages sent by the drivers and of calls of
    [get_msg] gives what a list gives, 0 standing for an empty queue. *)
Theorem queue_fifo q l ops :
  queue_rep q l -> never_full l ops = true ->
  exists q', run_ops q ops = Ok (q', snd (spec_ops l ops)) /\ queue_rep q' (fst (spec_ops l ops)).
Proof.
  revert q l. induction ops as [|o ops IH]; intros q l H Hn; cbn [never_full] in Hn;
    apply andb_true_iff in Hn as [Hl%Z.leb_le Hn]; cbn [run_ops spec_ops].
  - by exists q.
  - destruct o as [m|]; cbn [do_op].
    + assert (zlen l < 99).
      { destruct ops as [|[]]; cbn [never_full] in Hn; apply andb_true_iff in Hn as [Hn%Z.leb_le _]; llia. }
      destruct (enqueue_rep q l m H) as (q1 & -> & H1); [done|]. cbn [rbind].
      destruct (IH q1 _ H1 Hn) as (q2 & -> & H2). cbn [rbind].
      destruct (spec_ops (l ++ [m]) ops) as [l' rs]. by exists q2.
    + destruct (get_msg_rep q l H) as (q1 & -> & H1). cbn [rbind].
      destruct (IH q1 _ H1 Hn) as (q2 & -> & H2). cbn [rbind].
      destruct (spec_ops (list.tail l) ops) as [l' rs]. by exists q2.
Qed.

Lemma queue_fifo_witness :
  exists q', run_ops empty_queue [Add 7; Add 8; Get; Add 9; Get; Get; Get]
    = Ok (q', [None; None; Some 7; None; Some 8; Some 9; Some 0]) /\ queue_rep q' [].
Proof.
  apply (queue_fifo empty_queue [] [Add 7; Add 8; Get; Add 9; Get; Get; Get]).
  - apply empty_queue_rep.
  - reflexivity.
Defined.

(** Overflow.  When 99 messages are pending, one more makes the queue look
    empty: [get_msg] returns 0 and the 100 messages are gone. *)
Theorem queue_overflow q l m :
  queue_rep q l -> zlen l = 99 ->
  exists q', enqueue q m = Ok q' /\ sys_get_msg q' = Ok (q', 0) /\ queue_rep q' [].
Proof.
  intros H Hl. destruct (enqueue_ok q l m H) as (q' & E & Hlen & Hf & Ht & Hm).
  rewrite Hl in Ht. assert (Htf : tail q' = front q').
  { rewrite Ht, Hf. replace (front q + (99 + 1)) with (front q + 1 * 100) by lia.
    rewrite Z_mod_plus_full, Z.mod_small; [done | apply H]. }
  exists q'. split; [done|]. split; [unfold sys_get_msg; by rewrite Htf, Z.eqb_refl|].
  split; [done | rewrite Hf; apply H | cbn; lia | | intros i x _ Hx; by rewrite lookup_nil in Hx].
  rewrite Htf. cbn [length]. rewrite Z.add_0_r, Z.mod_small; [done | rewrite Hf; apply H].
Qed.

Lemma queue_overflow_witness :
  exists q q', enqueue q 5 = Ok q' /\ sys_get_msg q' = Ok (q', 0) /\ queue_rep q' [].
Proof.
  exists (mk_queue (replicate 100 7) 3 2).
  apply (queue_overflow (mk_queue (replicate 100 7) 3 2) (replicate 99 7) 5).
  - split; try (vm_compute; done). intros i m Hi Hm.
    apply lookup_replicate in Hm as [-> _]. pose proof (Z.mod_pos_bound (3 + i) 100 ltac:(lia)).
    cbn [message front]. apply lookup_replicate. split; [done | lia].
  - reflexivity.
Defined.

(** * The mouse *)
Import Mouse.

(** What the main loop of the editor reads in a message. *)
Definition decode (msg : Z) : Z * Z * Z :=
  (Z.shiftr msg 24, Z.land (Z.shiftr msg 12) 0xfff, Z.land msg 0xfff).

Definition encode (opt x y : Z) : Z := Z.lor (Z.lor (Z.shiftl opt 24) (Z.shiftl x 12)) y.

Lemma shiftr_small x n : 0 <= n -> 0 <= x < 2 ^ n -> Z.shiftr x n = 0.
Proof. intros Hn Hx. rewrite Z.shiftr_div_pow2 by done. by apply Z.div_small. Qed.

Lemma land_fff x : Z.land x 0xfff = x mod 2 ^ 12.
Proof. change 0xfff with (Z.ones 12). by rewrite Z.land_ones by lia. Qed.

(** Fields that do not overlap are added. *)
Lemma lor_shiftl a b n : 0 <= n -> 0 <= b < 2 ^ n -> Z.lor (Z.shiftl a n) b = a * 2 ^ n + b.
Proof.
  intros Hn Hb. rewrite <- Z.shiftl_mul_pow2 by done.
  assert (Hd : Z.land (Z.shiftl a n) b = 0).
  { apply Z.bits_inj'. intros k Hk. rewrite Z.land_spec, Z.bits_0.
    destruct (Z.lt_ge_cases k n); [by rewrite Z.shiftl_spec_low|].
    rewrite <- (Z.mod_small b (2 ^ n)), Z.mod_pow2_bits_high by lia. apply andb_false_r. }
  rewrite <- Z.lxor_lor by done. symmetry. by apply Z.add_nocarry_lxor.
Qed.

Lemma encode_add opt x y :
  0 <= x < 4096 -> 0 <= y < 4096 -> encode opt x y = (opt * 4096 + x) * 4096 + y.
Proof.
  intros Hx Hy. unfold encode.
  replace (Z.shiftl opt 24) with (Z.shiftl (Z.shiftl opt 12) 12) by (by rewrite Z.shiftl_shiftl).
  rewrite <- Z.shiftl_lor, !lor_shiftl by lia. done.
Qed.

Lemma decode_encode opt x y :
  0 <= x < 4096 -> 0 <= y < 4096 -> decode (encode opt x y) = (opt, x, y).
Proof.
  intros Hx Hy. unfold decode. rewrite (encode_add opt x y Hx Hy). rewrite !land_fff.
  rewrite !Z.shiftr_div_pow2 by lia. change (2 ^ 12) with 4096. change (2 ^ 24) with (4096 * 4096).
  rewrite <- Z.div_div by lia. rewrite Z.div_add_l by lia. rewrite (Z.div_small y) by lia. rewrite Z.add_0_r.
  rewrite Z.div_add_l by lia. rewrite (Z.div_small x) by lia. rewrite Z.add_0_r.
  rewrite (Z.add_comm (opt * 4096)), Z_mod_plus_full, Z.mod_small by lia.
  rewrite Z.add_comm, Z_mod_plus_full, Z.mod_small by lia. done.
Qed.

(** The mode the kernel sets, with room in the frame buffer for a pointer at
    the bottom right corner. *)
Definition vga (s : screen) : Prop :=
  SCREEN_WIDTH s = 800 /\ SCREEN_HEIGHT s = 600 /\ 488000 <= addr_len s.

(** Drawing on the frame buffer changes nothing else. *)
Definition vga_same (s s' : screen) : Prop :=
  vga s' /\ VESA_TEMP s' = VESA_TEMP s /\ addr_len s' = addr_len s.

Lemma for_pixels_inv (P : screen -> Prop) xl yl w h body s :
  0 <= w -> 0 <= h -> P s ->
  (forall x y s, xl <= x < xl + w -> yl <= y < yl + h -> P s -> ensures (body x y s) P) ->
  ensures (for_pixels xl yl w h body s) P.
Proof.
  intros Hw Hh Hs Hb. unfold for_pixels. apply (for_up_inv (fun _ => P)); [lia | done |].
  intros y s1 Hy Hs1. apply (for_up_inv (fun _ => P)); [lia | done |].
  intros x s2 Hx Hs2. by apply Hb.
Qed.

Lemma write_addr_vga s0 s i c :
  vga_same s0 s -> 0 <= i < 488000 -> ensures (write_addr s i c) (vga_same s0).
Proof. intros ((H1 & H2 & H3) & H4 & H5) Hi. unfold write_addr. zsimp. by repeat split. Qed.

Lemma update_area_vga s0 s x y :
  vga_same s0 s -> 0 <= x < 800 -> 0 <= y < 600 ->
  ensures (update_area s x y 10 10) (vga_same s0).
Proof.
  intros Hs Hx Hy. apply for_pixels_inv; [lia | lia | done |]. intros x' y' s' Hx' Hy' Hs'.
  pose proof Hs' as ((HW & _) & _). rewrite HW. unfold temp_at. zsimp.
  destruct (Z.ltb_spec (x' + y' * 800) TEMP_LEN); cbn [rbind]; apply write_addr_vga; (done || lia).
Qed.

Lemma mouse_len : zlen Draw.mouse = 100.
Proof. reflexivity. Qed.

Lemma draw_mouse_vga s0 s x y :
  vga_same s0 s -> 0 <= x < 800 -> 0 <= y < 600 -> ensures (draw_mouse s x y) (vga_same s0).
Proof.
  intros Hs Hx Hy. unfold draw_mouse, drawarea_force. apply for_pixels_inv; [lia | lia | done |].
  intros x' y' s' Hx' Hy' Hs'.
  destruct (get_lt Draw.mouse (x' - x + (y' - y) * 10)) as (c & -> & _); [rewrite mouse_len; lia|].
  cbn [rbind]. unfold ignore, set_color_force. pose proof Hs' as ((HW & HH & _) & _). rewrite HW, HH.
  destruct (Z.leb_spec 800 x'); [done|]. destruct (Z.leb_spec 600 y'); [done|]. cbn [orb].
  destruct ((65536 <=? c) || (c <? 0)); [done|].
  pose proof (write_addr_vga s0 s' (x' + y' * 800) (u16 c) Hs' ltac:(lia)) as Hw.
  apply ensures_inv in Hw as (s2 & -> & Hs2). done.
Qed.

(** The invariant of the driver. *)
Definition mouse_ok (m : mouse) : Prop :=
  0 <= count m <= 2 /\ 0 <= x_pos m < 800 /\ 0 <= y_pos m < 600.

Lemma check_in_range_bound v lo hi : lo < hi -> lo <= check_in_range v lo hi < hi.
Proof. intros H. unfold check_in_range. ztests; lia. Qed.

(** What one interrupt sends: nothing, or one message. *)
Definition sent (m m' : mouse) (l l' : list Z) : Prop :=
  l' = l /\ btn_left_down m' = btn_left_down m /\ x_pos m' = x_pos m /\ y_pos m' = y_pos m \/
  exists msg, l' = l ++ [msg] /\ decode msg = (mouse_opt m, x_pos m', y_pos m') /\
    btn_left_down m' = btn_left m.

Lemma packet_y_ok m q s l data :
  mouse_ok m -> vga s -> queue_rep q l -> zlen l < 99 ->
  exists m' q' s' l', packet_y m q s data = Ok (m', q', s') /\
    mouse_ok m' /\ vga s' /\ VESA_TEMP s' = VESA_TEMP s /\ queue_rep q' l' /\ sent m m' l l'.
Proof.
  intros (Hc & Hx & Hy) Hs Hq Hl. unfold packet_y. cbn zeta. cbn [x_delta x_pos y_pos].
  destruct ((100 <? cabs (x_delta m)) || _).
  { eexists _, q, s, l. split; [done|]. split; [by repeat split; cbn; lia|].
    split; [done|]. split; [done|]. split; [done|]. by left. }
  destruct (ensures_inv _ _ (update_area_vga s s (x_pos m) (y_pos m) (conj Hs (conj eq_refl eq_refl)) Hx Hy)) as (s1 & -> & Hs1).
  cbn [rbind]. set (x' := check_in_range (x_pos m + x_delta m) MOUSE_X_MIN MOUSE_X_MAX).
  set (y' := check_in_range _ MOUSE_Y_MIN MOUSE_Y_MAX).
  assert (Hx' : 0 <= x' < 800) by (apply check_in_range_bound; done).
  assert (Hy' : 0 <= y' < 600) by (apply check_in_range_bound; done).
  destruct (ensures_inv _ _ (draw_mouse_vga s s1 x' y' Hs1 Hx' Hy')) as (s2 & -> & Hs2 & Ht2 & _). cbn [rbind].
  set (m1 := mk_mouse 3 _ _ _ _ _ _ _ _ _ _).
  change (mouse_opt m1) with (mouse_opt m). unfold add_mouse_msg.
  destruct (enqueue_rep q l (encode (mouse_opt m) x' y') Hq Hl) as (q' & E & Hq').
  unfold encode in E. rewrite E. cbn [rbind].
  eexists _, q', s2, _. split; [done|]. split; [by repeat split; cbn; lia|].
  split; [done|]. split; [done|]. split; [exact Hq'|]. right. eexists. split; [done|].
  split; [apply decode_encode; cbn; lia | done].
Qed.

Lemma mouseintr_ok m q s l st data :
  mouse_ok m -> vga s -> queue_rep q l -> zlen l < 99 ->
  exists m' q' s' l', mouseintr m q s st data = Ok (m', q', s') /\
    mouse_ok m' /\ vga s' /\ VESA_TEMP s' = VESA_TEMP s /\ queue_rep q' l' /\ sent m m' l l'.
Proof.
  intros Hm Hs Hq Hl. unfold mouseintr.
  assert (Hquiet : forall m', mouse_ok m' -> btn_left_down m' = btn_left_down m -> x_pos m' = x_pos m ->
    y_pos m' = y_pos m -> exists m1 q' s' l', Ok (m', q, s) = Ok (m1, q', s') /\
    mouse_ok m1 /\ vga s' /\ VESA_TEMP s' = VESA_TEMP s /\ queue_rep q' l' /\ sent m m1 l l').
  { intros m' Hm' E1 E2 E3. exists m', q, s, l. split; [done|]. split; [done|]. split; [done|].
    split; [done|]. split; [done|]. by left. }
  pose proof Hm as (Hc & Hx & Hy).
  destruct (Z.land st 1 =? 0); [by apply Hquiet; [repeat split; cbn; lia|..]|].
  destruct (Z.eqb_spec (count m + 1) 1).
  { unfold packet_head. destruct (_ && _); by apply Hquiet; [repeat split; cbn; lia|..]. }
  destruct (Z.eqb_spec (count m + 1) 2); [by apply Hquiet; [repeat split; cbn; lia|..]|].
  destruct (Z.eqb_spec (count m + 1) 3); [by apply packet_y_ok|].
  by apply Hquiet; [repeat split; cbn; lia|..].
Qed.

(** C36: The mouse interrupt, on any port values: it never writes outside the
    frame buffer, never touches the off-screen buffer, keeps the pointer on
    the screen and the packet counter in range, and sends at most one message,
    which the main loop of the editor decodes to the new position. *)
Theorem mouse_interrupt m q s l st data :
  mouse_ok m -> vga s -> queue_rep q l -> zlen l < 99 ->
  exists m' q' s' l', mouseintr m q s st data = Ok (m', q', s') /\
    mouse_ok m' /\ vga s' /\ VESA_TEMP s' = VESA_TEMP s /\ queue_rep q' l' /\
    (l' = l /\ x_pos m' = x_pos m /\ y_pos m' = y_pos m \/
     exists msg, l' = l ++ [msg] /\ decode msg = (mouse_opt m, x_pos m', y_pos m')).
Proof.
  intros Hm Hs Hq Hl. destruct (mouseintr_ok m q s l st data Hm Hs Hq Hl)
    as (m' & q' & s' & l' & E & H1 & H2 & H3 & H4 & Hsent).
  exists m', q', s', l'. do 5 (split; [done|]).
  destruct Hsent as [(E1 & _ & E2 & E3)|(msg & E1 & E2 & _)]; [by left | right; by exists msg].
Qed.

Definition screen0 : screen := mk_screen 800 600 (fun _ => 0) (fun _ => 0) (fun _ => 0) 1000000.

Lemma mouse_interrupt_witness :
  exists m' q' s' l', mouseintr (mk_mouse 2 0 0 true false false false 5 0 798 0) empty_queue screen0 1 3
      = Ok (m', q', s') /\ mouse_ok m' /\ vga s' /\ VESA_TEMP s' = VESA_TEMP screen0 /\ queue_rep q' l' /\
    (l' = [] /\ x_pos m' = 798 /\ y_pos m' = 0 \/
     exists msg, l' = [] ++ [msg] /\ decode msg = (MOUSE_LEFT_PRESS, x_pos m', y_pos m')).
Proof.
  apply (mouse_interrupt (mk_mouse 2 0 0 true false false false 5 0 798 0) empty_queue screen0 [] 1 3).
  - repeat split; cbn; lia.
  - repeat split; vm_compute; done.
  - apply empty_queue_rep.
  - vm_compute. done.
Defined.

(** A sequence of interrupts. *)
Fixpoint mouse_session (m : mouse) (q : queue) (s : screen) (inputs : list (Z * Z))
  : result (mouse * queue * screen) :=
  match inputs with
  | [] => Ok (m, q, s)
  | (st, data) :: inputs' =>
      let! '(m, q, s) := mouseintr m q s st data in mouse_session m q s inputs'
  end.

(** The left button: each press is released before the next press. *)
Fixpoint alternates (down : bool) (msgs : list Z) : bool :=
  match msgs with
  | [] => true
  | msg :: msgs' =>
      let opt := fst (fst (decode msg)) in
      if opt =? MOUSE_LEFT_PRESS then negb down && alternates true msgs'
      else if opt =? MOUSE_LEFT_RELEASE then down && alternates false msgs'
      else alternates down msgs'
  end.

Lemma mouse_opt_left m :
  (mouse_opt m = MOUSE_LEFT_PRESS /\ btn_left m = true /\ btn_left_down m = false) \/
  (mouse_opt m = MOUSE_LEFT_RELEASE /\ btn_left m = false /\ btn_left_down m = true) \/
  ((mouse_opt m =? MOUSE_LEFT_PRESS) = false /\ (mouse_opt m =? MOUSE_LEFT_RELEASE) = false /\
   btn_left m = btn_left_down m).
Proof.
  unfold mouse_opt. destruct (btn_left m), (btn_left_down m); cbn; auto;
    right; right; destruct (btn_right m), (btn_right_down m); done.
Qed.

(** Over any sequence of mouse interrupts, the left-button messages
    alternate: a press is always released before the next press, and a release
    is always preceded by a press. *)
Theorem left_button_alternates inputs m q s l :
  mouse_ok m -> vga s -> queue_rep q l -> zlen l + zlen inputs <= 99 ->
  exists m' q' s' news, mouse_session m q s inputs = Ok (m', q', s') /\
    queue_rep q' (l ++ news) /\ alternates (btn_left_down m) news = true.
Proof.
  revert m q s l. induction inputs as [|[st data] inputs IH]; intros m q s l Hm Hs Hq Hl.
  { exists m, q, s, []. rewrite app_nil_r. done. }
  cbn [length] in Hl. cbn [mouse_session].
  destruct (mouseintr_ok m q s l st data Hm Hs Hq) as (m1 & q1 & s1 & l1 & -> & Hm1 & Hs1 & _ & Hq1 & Hsent); [lia|].
  cbn [rbind]. destruct Hsent as [(-> & Ed & _)|(msg & -> & Edec & Ed)].
  - destruct (IH m1 q1 s1 l) as (m2 & q2 & s2 & news & E & Hq2 & Ha); [done | done | done | lia |].
    exists m2, q2, s2, news. by rewrite <- Ed.
  - destruct (IH m1 q1 s1 (l ++ [msg])) as (m2 & q2 & s2 & news & E & Hq2 & Ha); [done | done | done | llia |].
    exists m2, q2, s2, (msg :: news). split; [done|]. split; [by rewrite <- app_assoc in Hq2|].
    cbn [alternates]. rewrite Edec. cbn [fst]. rewrite Ed in Ha.
    destruct (mouse_opt_left m) as [(-> & E1 & E2)|[(-> & E1 & E2)|(-> & -> & E2)]].
    + rewrite E1 in Ha. by rewrite E2.
    + rewrite E1 in Ha. by rewrite E2.
    + by rewrite <- E2.
Qed.

Lemma left_button_alternates_witness :
  exists m' q' s' news,
    mouse_session mouse0 empty_queue screen0 [(1, 9); (1, 0); (1, 0); (1, 8); (1, 5); (1, 0)] = Ok (m', q', s') /\
    queue_rep q' ([] ++ news) /\ alternates false news = true.
Proof.
  apply (left_button_alternates [(1, 9); (1, 0); (1, 0); (1, 8); (1, 5); (1, 0)] mouse0 empty_queue screen0 []).
  - repeat split; cbn; lia.
  - repeat split; vm_compute; done.
  - apply empty_queue_rep.
  - vm_compute. done.
Defined.

(** The messages in the queue after a session. *)
Fixpoint drain (n : nat) (q : queue) : list Z :=
  match n with
  | O => []
  | S n' => match sys_get_msg q with Ok (q', m) => m :: drain n' q' | Err _ => [] end
  end.

(** When both buttons change in one packet only the message of the left
    one is sent: both pressed and then both released, the right button's press
    and release are lost. *)
Theorem right_button_lost :
  exists m q s, mouse_session mouse0 empty_queue screen0 [(1, 11); (1, 0); (1, 0); (1, 8); (1, 0); (1, 0)] = Ok (m, q, s) /\
    ((fun msg => fst (fst (decode msg))) <$> drain 2 q) = [MOUSE_LEFT_PRESS; MOUSE_LEFT_RELEASE] /\
    sys_get_msg (mk_queue (message q) 2 (tail q)) = Ok (mk_queue (message q) 2 (tail q), 0).
Proof. eexists _, _, _. split; [vm_compute; reflexivity|]. split; vm_compute; reflexivity. Qed.

(** * The keyboard *)
Import Kbd.

Definition upto (n : nat) : list Z := Z.of_nat <$> seq 0 n.

Lemma upto_elem n z : 0 <= z < Z.of_nat n -> In z (upto n).
Proof. intros H. unfold upto. rewrite in_map_iff. exists (Z.to_nat z). rewrite in_seq. lia. Qed.

Lemma forall_upto n (p : Z -> bool) : forallb p (upto n) = true -> forall z, 0 <= z < Z.of_nat n -> p z = true.
Proof. intros H z Hz. rewrite forallb_forall in H. by apply H, upto_elem. Qed.

Definition kbd_ok (shift data : Z) : bool :=
  match kbdgetc shift 1 data with
  | Ok (shift', c) => (0 <=? shift') && (shift' <? 128) && (0 <=? c) && (c <? 256)
  | Err _ => false
  end.

Lemma kbd_ok_all : forallb (fun shift => forallb (kbd_ok shift) (upto 256)) (upto 128) = true.
Proof. vm_compute. reflexivity. Qed.

Lemma land_1 st : Z.land st KBS_DIB = 0 \/ Z.land st KBS_DIB = 1.
Proof.
  change (Z.land st KBS_DIB) with (Z.land st (Z.ones 1)). rewrite Z.land_ones by lia. change (2 ^ 1) with 2.
  pose proof (Z.mod_pos_bound st 2 ltac:(lia)). lia.
Qed.

Lemma kbdgetc_ok shift st data :
  0 <= shift < 128 -> 0 <= data < 256 ->
  exists shift' c, kbdgetc shift st data = Ok (shift', c) /\ 0 <= shift' < 128 /\ -1 <= c < 256.
Proof.
  intros Hs Hd. destruct (land_1 st) as [E|E].
  - exists shift, (-1). unfold kbdgetc. rewrite E. cbn. split; [done | lia].
  - pose proof (forall_upto 128 _ kbd_ok_all shift Hs) as H. pose proof (forall_upto 256 _ H data Hd) as Hk.
    assert (E1 : kbdgetc shift st data = kbdgetc shift 1 data) by (unfold kbdgetc; by rewrite E).
    rewrite E1. unfold kbd_ok in Hk. destruct (kbdgetc shift 1 data) as [[shift' c]|]; [|done].
    rewrite !andb_true_iff, !Z.ltb_lt, !Z.leb_le in Hk. exists shift', c. split; [done | lia].
Qed.

(** Whatever bytes the keyboard sends, [kbdgetc] stays inside its tables,
    keeps the modifier state in its seven bits, and returns -1 (no data) or a
    character code of one byte, Caps Lock included. *)
Theorem kbdgetc_safe shift st data :
  0 <= shift < 128 -> 0 <= data < 256 ->
  exists shift' c, kbdgetc shift st data = Ok (shift', c) /\ 0 <= shift' < 128 /\ -1 <= c < 256.
Proof. apply kbdgetc_ok. Qed.

Lemma kbdgetc_safe_witness :
  exists shift' c, kbdgetc 9 1 0x1E = Ok (shift', c) /\ 0 <= shift' < 128 /\ -1 <= c < 256.
Proof. apply (kbdgetc_safe 9 1 0x1E); lia. Defined.

(** Scan codes one after the other; the characters that are not 0. *)
Fixpoint scan (shift : Z) (codes : list Z) : result (Z * list Z) :=
  match codes with
  | [] => Ok (shift, [])
  | d :: codes' =>
      let! '(shift, c) := kbdgetc shift 1 d in
      let! '(shift, cs) := scan shift codes' in
      Ok (shift, if c =? 0 then cs else c :: cs)
  end.

(** A key pressed and released, a key with Shift held. *)
Definition stroke (d : Z) : list Z := [d; Z.lor d 0x80].
Definition shifted (d : Z) : list Z := 0x2A :: stroke d ++ [0xAA].

(** The keys that are neither modifiers nor lock keys; the release code of
    0x60 would be the escape prefix. *)
Definition plain_key (d : Z) : bool :=
  negb (d =? 0x60) &&
  match shiftcode !! Z.to_nat d, togglecode !! Z.to_nat d with
  | Some 0, Some 0 => true
  | _, _ => false
  end.

Definition stroke_ok (d : Z) : bool :=
  implb (plain_key d)
    (bool_decide (scan 0 (stroke d) = Ok (0, filter (fun c => c <> 0) (take 1 (drop (Z.to_nat d) normalmap)))) &&
     bool_decide (scan 0 (shifted d) = Ok (0, filter (fun c => c <> 0) (take 1 (drop (Z.to_nat d) shiftmap))))).

Lemma stroke_ok_all : forallb stroke_ok (upto 128) = true.
Proof. vm_compute. reflexivity. Qed.

(** Keystrokes.  With no modifier held, pressing and releasing a key sends
    its character in the plain map, and pressing it while Shift is down sends
    its character in the shift map (keys without one send nothing); both leave
    the modifier state as it was. *)
Theorem keystroke d :
  0 <= d < 128 -> plain_key d = true ->
  scan 0 (stroke d) = Ok (0, filter (fun c => c <> 0) (take 1 (drop (Z.to_nat d) normalmap))) /\
  scan 0 (shifted d) = Ok (0, filter (fun c => c <> 0) (take 1 (drop (Z.to_nat d) shiftmap))).
Proof.
  intros Hd Hp. pose proof (forall_upto 128 _ stroke_ok_all d Hd) as H. unfold stroke_ok in H.
  rewrite Hp in H. cbn [implb] in H. rewrite andb_true_iff, !bool_decide_eq_true in H. done.
Qed.

Lemma keystroke_witness :
  scan 0 (stroke 0x1E) = Ok (0, [97]) /\ scan 0 (shifted 0x1E) = Ok (0, [65]).
Proof.
  apply (keystroke 0x1E).
  - lia.
  - reflexivity.
Defined.

(** A key release puts the message 0 in the queue, which [get_msg] also
    returns when there is no message: the reader cannot tell them apart. *)
Theorem release_reads_as_empty shift data :
  0 <= shift < 128 -> 128 <= data < 256 -> data <> 0xE0 ->
  exists shift' q q', kbdintr shift empty_queue 1 data = Ok (shift', q) /\
    queue_rep q [0] /\ sys_get_msg q = Ok (q', 0) /\ sys_get_msg empty_queue = Ok (empty_queue, 0).
Proof.
  intros Hs Hd Hne. unfold kbdintr.
  assert (Hrel : exists shift', kbdgetc shift 1 data = Ok (shift', 0)).
  { unfold kbdgetc. cbn [Z.land KBS_DIB Z.eqb Pos.eqb]. change (Z.land 1 KBS_DIB =? 0) with false. cbn match.
    replace (data =? 224) with false by (symmetry; by apply Z.eqb_neq).
    replace (Z.land data 128 =? 0) with false.
    - cbn [negb]. destruct (get_lt shiftcode (if negb (Z.land shift E0ESC =? 0) then data else Z.land data 127)) as (c & -> & _).
      + change (zlen shiftcode) with 256. destruct (negb _); [lia|].
        change 127 with (Z.ones 7). rewrite Z.land_ones by lia. change (2 ^ 7) with 128.
        pose proof (Z.mod_pos_bound data 128 ltac:(lia)). lia.
      + by eexists.
    - symmetry. apply Z.eqb_neq. intros E.
      assert (Hb : Z.testbit (Z.land data 128) 7 = true); [|by rewrite E in Hb].
      rewrite Z.land_spec. change (Z.testbit 128 7) with true. rewrite andb_true_r.
      replace data with (data - 128 + 1 * 2 ^ 7) by lia. rewrite Z.testbit_true by lia.
      rewrite Z.div_add by lia. rewrite Z.div_small by (change (2 ^ 7) with 128; lia). done. }
  destruct Hrel as [shift' ->]. cbn [rbind]. unfold add_kbd_msg.
  destruct (enqueue_rep empty_queue [] 0 empty_queue_rep) as (q & -> & Hq); [done|].
  destruct (get_msg_rep q _ Hq) as (q' & E & _). cbn [rbind]. by exists shift', q, q'.
Qed.

Lemma release_reads_as_empty_witness :
  exists shift' q q', kbdintr 0 empty_queue 1 0x9E = Ok (shift', q) /\
    queue_rep q [0] /\ sys_get_msg q = Ok (q', 0) /\ sys_get_msg empty_queue = Ok (empty_queue, 0).
Proof. apply (release_reads_as_empty 0 0x9E); lia. Defined.
