(* ===== verification/Highlight.v ===== *)
(** The syntax highlighter: src/src/highlight.c.

    A trie over the keywords, in the static arrays of the file: [ch[u][c]] is
    the child of node [u] on byte [c] (0 for none), [deep] the length of the
    path, [colors] the colour of the keyword that ends at a node.  The loop
    at the end of [highlight_init] only prints a trace and is left out. *)
From S2P Require Import Prelude Ulib.

Definition RGB (r g b : Z) : Z :=
  Z.lor (Z.lor (Z.shiftl (Z.shiftr r 3) 11) (Z.shiftl (Z.shiftr g 2) 5)) (Z.shiftr b 3).

(** The keyword tables, as NUL-terminated strings. *)
Definition types : list bytes := [
  [105; 110; 116; 0];                     (** int *)
  [115; 104; 111; 114; 116; 0];           (** short *)
  [99; 104; 97; 114; 0];                  (** char *)
  [118; 111; 105; 100; 0];                (** void *)
  [108; 111; 110; 103; 0];                (** long *)
  [102; 108; 111; 97; 116; 0];            (** float *)
  [100; 111; 117; 98; 108; 101; 0]        (** double *)
].

Definition reserve : list bytes := [
  [105; 102; 0];                                  (** if *)
  [101; 108; 115; 101; 0];                        (** else *)
  [119; 104; 105; 108; 101; 0];                   (** while *)
  [99; 111; 110; 116; 105; 110; 117; 101; 0];     (** continue *)
  [98; 114; 101; 97; 107; 0];                     (** break *)
  [102; 111; 114; 0];                             (** for *)
  [105; 110; 108; 105; 110; 101; 0];              (** inline *)
  [115; 116; 114; 117; 99; 116; 0];               (** struct *)
  [114; 101; 116; 117; 114; 110; 0]               (** return *)
].

Definition special : list bytes := [ [35; 0]; [47; 47; 0] ].   (** # and // *)

Definition types_color : Z := RGB 2 100 255.
Definition reserve_color : Z := RGB 152 1 152.
Definition special_color : Z := RGB 0 133 30.

Record trie := mk_trie {
  n : Z;
  ch : list (list Z);
  deep : list Z;
  colors : list Z;
  include_alls : list Z;
}.

Definition empty_trie : trie :=
  mk_trie 0 (replicate 200 (replicate 256 0)) (replicate 200 0) (replicate 200 0) (replicate 200 0).

Definition get2 (a : list (list Z)) (i j : Z) : result Z := let! r := get a i in get r j.

Definition put2 (a : list (list Z)) (i j v : Z) : result (list (list Z)) :=
  let! r := get a i in let! r := put r j v in put a i r.

Definition set_color_of (t : trie) (u c : Z) : result trie :=
  let! cs := put (colors t) u c in
  Ok (mk_trie (n t) (ch t) (deep t) cs (include_alls t)).

(** The body of the loop of [insert]; the state is the trie and [u]. *)
Definition insert_byte (st : trie * Z) (c : Z) : result (trie * Z) :=
  let '(t, u) := st in
  let! v := get2 (ch t) u c in
  let! t :=
    if v =? 0 then
      let n' := n t + 1 in
      let! a := put2 (ch t) u c n' in
      let! du := get (deep t) u in
      let! d := put (deep t) n' (du + 1) in
      Ok (mk_trie n' a d (colors t) (include_alls t))
    else Ok t in
  let! v := get2 (ch t) u c in
  Ok (t, v).

Definition insert (t : trie) (s : bytes) (include_any : bool) : result (trie * Z) :=
  let! len := strlen s in
  let! '(t, u) := for_up 0 len (fun i st => let! c := get s i in insert_byte st c) (t, 0) in
  if include_any then
    let! a := for_up 0 256 (fun i a => put2 a u i u) (ch t) in
    let! inc := put (include_alls t) u 1 in
    Ok (mk_trie (n t) a (deep t) (colors t) inc, u)
  else Ok (t, u).

(** [colors[insert(words[i], include_any)] = color] for every word. *)
Fixpoint insert_all (t : trie) (words : list bytes) (include_any : bool) (color : Z) : result trie :=
  match words with
  | [] => Ok t
  | w :: words' =>
      let! '(t, u) := insert t w include_any in
      let! t := set_color_of t u color in
      insert_all t words' include_any color
  end.

Definition highlight_init (t : trie) : result trie :=
  let! t := insert_all t types false types_color in
  let! t := insert_all t reserve false reserve_color in
  insert_all t special true special_color.

Definition ident (c : Z) : bool :=
  ((97 <=? c) && (c <=? 122)) || ((48 <=? c) && (c <=? 57)) || (c =? 95).

(** [highlight_update]: the new values of [*status], [*color] and [*count],
    and the value returned. *)
Definition highlight_update (t : trie) (c status color count : Z) : result (Z * Z * Z * Z) :=
  let u := status in
  let! nextu := get2 (ch t) u c in
  let! cu := get (colors t) u in
  if negb (cu =? 0) && (nextu =? 0) && negb (ident c) then
    let! d := get (deep t) u in Ok (nextu, cu, d, 0)
  else if negb (cu =? 0) && (nextu =? u) then Ok (nextu, cu, 1, 0)
  else
    let! cn := get (colors t) nextu in
    let! inc := get (include_alls t) nextu in
    if negb (cn =? 0) && negb (inc =? 0) then
      let! d := get (deep t) nextu in Ok (nextu, cn, d - 1, 0)
    else Ok (nextu, color, count, -1).

(** * Properties *)

Definition the_trie : trie :=
  match highlight_init empty_trie with Ok t => t | Err _ => empty_trie end.

Lemma init_ok : highlight_init empty_trie = Ok the_trie.
Proof. vm_compute. reflexivity. Qed.

(** Bytes scanned one after the other; the last value returned. *)
Fixpoint scan_bytes (t : trie) (st : Z * Z * Z * Z) (bs : bytes) : result (Z * Z * Z * Z) :=
  match bs with
  | [] => Ok st
  | c :: bs' =>
      let '(status, color, count, _) := st in
      let! st := highlight_update t c status color count in scan_bytes t st bs'
  end.

(** Every child of a node of the trie is a node of the trie. *)
Definition closed (t : trie) : bool :=
  (n t <? 200) && (zlen (ch t) =? 200) && (zlen (deep t) =? 200) && (zlen (colors t) =? 200) &&
  (zlen (include_alls t) =? 200) &&
  forallb (fun r => (zlen r =? 256) && forallb (fun v => (0 <=? v) && (v <? 200)) r) (ch t).

Lemma the_trie_closed : closed the_trie = true.
Proof. vm_compute. reflexivity. Qed.

Lemma closed_child t u c :
  closed t = true -> 0 <= u < 200 -> 0 <= c < 256 -> exists v, get2 (ch t) u c = Ok v /\ 0 <= v < 200.
Proof.
  intros H Hu Hc. unfold closed in H. rewrite !andb_true_iff in H.
  destruct H as (((((_ & Hch%Z.eqb_eq) & _) & _) & _) & Hall).
  destruct (get_lt (ch t) u) as (r & Er & Hr); [lia|]. unfold get2. rewrite Er. cbn [rbind].
  rewrite forallb_forall in Hall. specialize (Hall r (proj1 (list_elem_of_In _ _) (list_elem_of_lookup_2 _ _ _ Hr))).
  apply andb_true_iff in Hall as [Hlen%Z.eqb_eq Hv]. destruct (get_lt r c) as (v & -> & Hv'); [lia|].
  exists v. split; [done|]. rewrite forallb_forall in Hv.
  specialize (Hv v (proj1 (list_elem_of_In _ _) (list_elem_of_lookup_2 _ _ _ Hv'))).
  apply andb_true_iff in Hv as [?%Z.leb_le ?%Z.ltb_lt]. lia.
Qed.

Lemma highlight_update_ok t c status color count :
  closed t = true -> 0 <= status < 200 -> 0 <= c < 256 ->
  exists st, highlight_update t c status color count = Ok st /\ 0 <= fst (fst (fst st)) < 200.
Proof.
  intros H Hs Hc. destruct (closed_child t status c H Hs Hc) as (v & Hv & Hr).
  unfold closed in H. rewrite !andb_true_iff in H.
  destruct H as (((((_ & _) & Hd%Z.eqb_eq) & Hco%Z.eqb_eq) & Hi%Z.eqb_eq) & _).
  unfold highlight_update. rewrite Hv. cbn [rbind].
  destruct (get_lt (colors t) status) as (cu & -> & _); [lia|]. cbn [rbind].
  destruct (negb (cu =? 0) && (v =? 0) && negb (ident c)).
  { destruct (get_lt (deep t) status) as (d & -> & _); [lia|]. cbn [rbind]. by eexists. }
  destruct (negb (cu =? 0) && (v =? status)); [by eexists|].
  destruct (get_lt (colors t) v) as (cn & -> & _); [lia|]. cbn [rbind].
  destruct (get_lt (include_alls t) v) as (inc & -> & _); [lia|]. cbn [rbind].
  destruct (negb (cn =? 0) && negb (inc =? 0)); [|by eexists].
  destruct (get_lt (deep t) v) as (d & -> & _); [lia|]. cbn [rbind]. by eexists.
Qed.

(** [highlight_init] stays inside its arrays of 200 nodes, and after it
    any sequence of bytes can be scanned without leaving them. *)
Theorem highlight_safe bs :
  Forall (fun c => 0 <= c < 256) bs ->
  exists t st, highlight_init empty_trie = Ok t /\ scan_bytes t (0, 0, 0, -1) bs = Ok st.
Proof.
  intros Hbs. exists the_trie.
  enough (H : forall st, 0 <= fst (fst (fst st)) < 200 -> exists st', scan_bytes the_trie st bs = Ok st').
  { destruct (H (0, 0, 0, -1)) as [st Hst]; [cbn; lia|]. exists st. split; [apply init_ok | done]. }
  induction Hbs as [|c bs Hc Hbs IH]; intros [[[s co] k] r] Hs; cbn [scan_bytes]; [by eexists|].
  destruct (highlight_update_ok the_trie c s co k the_trie_closed Hs Hc) as (st & -> & Hst). cbn [rbind].
  by apply IH.
Qed.

Lemma highlight_safe_witness :
  exists t st, highlight_init empty_trie = Ok t /\ scan_bytes t (0, 0, 0, -1) [105; 110; 116; 32; 0xC4; 0xE3] = Ok st.
Proof. apply (highlight_safe [105; 110; 116; 32; 0xC4; 0xE3]). repeat constructor; lia. Defined.

Definition all_bytes : list Z := Z.of_nat <$> seq 0 256.

(** Scanning the word and then a delimiter reports the colour and length. *)
Definition keyword_ok (color : Z) (w : bytes) : bool :=
  forallb (fun c => implb (negb (ident c))
    (bool_decide (scan_bytes the_trie (0, 0, 0, -1) (removelast w ++ [c]) = Ok (0, color, zlen w - 1, 0)))) all_bytes.

Lemma keywords_ok :
  forallb (keyword_ok types_color) types && forallb (keyword_ok reserve_color) reserve = true.
Proof. vm_compute. reflexivity. Qed.

Lemma all_bytes_elem c : 0 <= c < 256 -> In c all_bytes.
Proof. intros H. unfold all_bytes. rewrite in_map_iff. exists (Z.to_nat c). rewrite in_seq. lia. Qed.

(** Every keyword of the tables, scanned from the start of a line and
    followed by any byte that cannot continue an identifier, is reported with
    the colour of its table and its exact length. *)
Theorem keyword_highlighted w c :
  0 <= c < 256 -> ident c = false ->
  (In w types -> scan_bytes the_trie (0, 0, 0, -1) (removelast w ++ [c]) = Ok (0, types_color, zlen w - 1, 0)) /\
  (In w reserve -> scan_bytes the_trie (0, 0, 0, -1) (removelast w ++ [c]) = Ok (0, reserve_color, zlen w - 1, 0)).
Proof.
  intros Hc Hi. pose proof keywords_ok as H. apply andb_true_iff in H as [H1 H2].
  rewrite forallb_forall in H1, H2.
  split; intros Hw; [specialize (H1 w Hw) | specialize (H2 w Hw)]; unfold keyword_ok in *;
    [rewrite forallb_forall in H1; specialize (H1 c (all_bytes_elem c Hc)) |
     rewrite forallb_forall in H2; specialize (H2 c (all_bytes_elem c Hc))];
    rewrite Hi in *; cbn [negb implb] in *; by apply bool_decide_eq_true in H1 || apply bool_decide_eq_true in H2.
Qed.

Lemma keyword_highlighted_witness :
  scan_bytes the_trie (0, 0, 0, -1) [105; 110; 116; 40] = Ok (0, types_color, 3, 0).
Proof.
  apply (keyword_highlighted [105; 110; 116; 0] 40).
  - lia.
  - reflexivity.
  - left. reflexivity.
Defined.

(** The trie restarts only at its root, so an identifier that merely ends
    with a keyword is highlighted: "xint " is reported as the keyword "int". *)
Theorem identifier_suffix_highlighted :
  scan_bytes the_trie (0, 0, 0, -1) [120; 105; 110; 116; 32] = Ok (0, types_color, 3, 0).
Proof. vm_compute. reflexivity. Qed.

(** The node of a comment start: every byte stays there. *)
Definition absorbing (t : trie) (u : Z) : bool :=
  negb (u =? 0) &&
  bool_decide (get (colors t) u = Ok special_color) &&
  forallb (fun c => bool_decide (get2 (ch t) u c = Ok u)) all_bytes.

Lemma absorb t u bs color count r :
  absorbing t u = true -> bs <> [] -> Forall (fun c => 0 <= c < 256) bs ->
  scan_bytes t (u, color, count, r) bs = Ok (u, special_color, 1, 0).
Proof.
  intros H. unfold absorbing in H. rewrite !andb_true_iff in H.
  destruct H as ((Hu%negb_true_iff & Hc%bool_decide_eq_true) & Hall). rewrite forallb_forall in Hall.
  intros Hne Hbs. revert color count r Hne.
  induction Hbs as [|c bs Hb Hbs IH]; intros color count r Hne; [done|].
  specialize (Hall c (all_bytes_elem c Hb)). apply bool_decide_eq_true in Hall.
  cbn [scan_bytes]. unfold highlight_update. rewrite Hall. cbn [rbind]. rewrite Hc, Hu. cbn [rbind].
  rewrite andb_false_r, Z.eqb_refl. change (negb (special_color =? 0)) with true. cbn [andb rbind].
  destruct bs as [|c2 bs]; [done|]. by apply IH.
Qed.

(** After "//" or "#" every byte to the end of the line is reported with
    the comment colour. *)
Theorem comment_to_end_of_line start bs :
  In start special -> bs <> [] -> Forall (fun c => 0 <= c < 256) bs ->
  exists u, scan_bytes the_trie (0, 0, 0, -1) (removelast start ++ bs) = Ok (u, special_color, 1, 0).
Proof.
  assert (Happ : forall a b st, scan_bytes the_trie st (a ++ b) =
    let! st := scan_bytes the_trie st a in scan_bytes the_trie st b).
  { induction a as [|c a IH]; intros b [[[s co] k] r]; [done|]. cbn [app scan_bytes].
    destruct (highlight_update _ _ _ _ _); cbn [rbind]; [apply IH | done]. }
  intros Hin Hne Hbs. rewrite Happ.
  assert (Hst : exists u, (exists color count r, scan_bytes the_trie (0, 0, 0, -1) (removelast start) = Ok (u, color, count, r)) /\
    absorbing the_trie u = true).
  { destruct Hin as [<-|[<-|[]]]; eexists; (split; [eexists _, _, _; vm_compute; reflexivity | vm_compute; reflexivity]). }
  destruct Hst as (u & (color & count & r & ->) & Ha). exists u. cbn [rbind]. by apply absorb.
Qed.

Lemma comment_to_end_of_line_witness :
  exists u, scan_bytes the_trie (0, 0, 0, -1) [47; 47; 105; 110; 116; 32] = Ok (u, special_color, 1, 0).
Proof.
  apply (comment_to_end_of_line [47; 47; 0] [105; 110; 116; 32]).
  - right. left. reflexivity.
  - done.
  - repeat constructor; lia.
Defined.
