(* ===== verification/Pinyin.v ===== *)
(** The pinyin dictionary and the fonts: src/src/init_ascii_gbk_pinyin.c.

    The dictionary is a trie in static arrays: [ch[u][c]] is the child of node
    [u] on the letter [c], [hans[u]] the characters of the syllable that ends at
    node [u].  Arrays are functions; every access is checked against the
    declared bounds. *)
From S2P Require Import Prelude Ulib Sys.

(** * The dictionary *)

Definition MAXNODE : Z := 5000.

Record dict := mk_dict { n : Z; ch : Z -> Z -> Z; hans : Z -> option bytes }.

Definition empty_dict : dict := mk_dict 0 (fun _ _ => 0) (fun _ => None).

Definition in_ch (u c : Z) : bool := (0 <=? u) && (u <? MAXNODE) && (0 <=? c) && (c <? 26).

Definition child (d : dict) (u c : Z) : result Z :=
  if in_ch u c then Ok (ch d u c) else Err OutOfBounds.

Definition set_child (d : dict) (u c v : Z) : result dict :=
  if in_ch u c
  then Ok (mk_dict (n d) (fun u' c' => if (u' =? u) && (c' =? c) then v else ch d u' c') (hans d))
  else Err OutOfBounds.

Definition set_hans (d : dict) (u : Z) (h : bytes) : result dict :=
  if (0 <=? u) && (u <? MAXNODE)
  then Ok (mk_dict (n d) (ch d) (fun u' => if u' =? u then Some h else hans d u'))
  else Err OutOfBounds.

(** [s[i] - 'a'] on a signed [char]. *)
Definition letter (b : Z) : Z := s8 b - 97.
Definition is_letter (b : Z) : bool := (97 <=? s8 b) && (s8 b <=? 122).

Definition insert_byte (st : dict * Z) (b : Z) : result (dict * Z) :=
  let '(d, u) := st in
  let c := letter b in
  let! v := child d u c in
  let! d :=
    if v =? 0 then
      let d := mk_dict (n d + 1) (ch d) (hans d) in set_child d u c (n d)
    else Ok d in
  let! v := child d u c in
  Ok (d, v).

Definition insert (d : dict) (s : bytes) : result (dict * Z) :=
  let! len := strlen s in
  for_up 0 len (fun i st => let! b := get s i in insert_byte st b) (d, 0).

(** The loop of [getnode] over the bytes from [i] on: [(node, deep)]. *)
Fixpoint getnode_loop (k : nat) (d : dict) (s : bytes) (i u deep : Z) : result (Z * Z) :=
  match k with
  | O => Ok (u, deep)
  | S k' =>
      let! b := get s i in
      if negb (is_letter b) then Ok (u, deep)
      else
        let! v := child d u (letter b) in
        if v =? 0 then Ok (u, deep) else getnode_loop k' d s (i + 1) v (deep + 1)
  end.

(** [getnode]: the value returned, [*node] and [*deep]. *)
Definition getnode (d : dict) (s : bytes) : result (Z * Z * Z) :=
  let! len := strlen s in
  let! '(u, deep) := getnode_loop (Z.to_nat len) d s 0 0 0 in
  Ok (if 0 <? u then (if deep =? len then 1 else 0) else -1, u, deep).

(** [getdeep]: as written it returns the node, not the depth, where the path
    ends early. *)
Fixpoint getdeep_loop (k : nat) (d : dict) (s : bytes) (i u deep : Z) : result Z :=
  match k with
  | O => Ok deep
  | S k' =>
      let! b := get s i in
      if negb (is_letter b) then Ok u
      else
        let! v := child d u (letter b) in
        if v =? 0 then Ok u else getdeep_loop k' d s (i + 1) v (deep + 1)
  end.

Definition getdeep (d : dict) (s : bytes) : result Z :=
  let! len := strlen s in getdeep_loop (Z.to_nat len) d s 0 0 0.

(** [get_pinyin_ith_han]: the value returned, [*c1] and [*c2] when they are
    set, and [*deep]. *)
Definition get_pinyin_ith_han (d : dict) (pinyin : bytes) (i : Z)
  : result (Z * option (Z * Z) * Z) :=
  let! '(r, u, deep) := getnode d pinyin in
  if r =? -1 then Ok (-1, None, deep)
  else
    if negb ((0 <=? u) && (u <? MAXNODE)) then Err OutOfBounds
    else
      match hans d u with
      | None => Ok (-1, None, deep)
      | Some han =>
          let! len := strlen han in
          let offset := i * 2 in
          if len <=? offset + 1 then Ok (-1, None, deep)
          else
            let! c1 := get han offset in
            let! c2 := get han (offset + 1) in
            Ok (0, Some (c1, c2), deep)
      end.

Definition handle_pinyin_hans (d : dict) (pinyin han : bytes) : result dict :=
  let! '(d, u) := insert d pinyin in
  let! len := strlen han in
  let! h := put (malloc (len + 1)) 0 0 in
  let! h := strcpy h 0 han in
  set_hans d u h.

(** * Loading the dictionary *)

Section Loading.
Context {W : Type} `{!Sys W}.

(** [strcpy(buf + strlen(buf), s)] *)
Definition append (buf s : bytes) : result bytes :=
  let! k := strlen buf in strcpy buf k s.

(** [read(f, cs, k)] into the array [cs]. *)
Definition read_cs (w : W) (f k : Z) (cs : bytes) : W * Z * bytes :=
  let '(w, (r, bs)) := sys_read w f k in
  (w, r, if 0 <? r then bs ++ drop (length bs) cs else cs).

Record loading := mk_loading {
  ld_dict : dict;
  pinyin_buffer : bytes;
  han_buffer : bytes;
  ld_cs : bytes;
}.

(** [for (i = 0; i < 2; ++i) if ('a' <= cs[i] && cs[i] <= 'z') strcpy(...)] *)
Definition keep_letters (buf cs : bytes) : result bytes :=
  for_up 0 2
    (fun i buf =>
       let! b := get cs i in
       if (97 <=? b) && (b <=? 122) then append buf (drop (Z.to_nat i) cs) else Ok buf) buf.

(** The characters of one syllable: the inner loop. *)
Fixpoint read_hans (fuel : nat) (w : W) (f : Z) (l : loading) : result (W * loading) :=
  match fuel with
  | O => Err OutOfFuel
  | S fuel' =>
      let '(w, r, cs) := read_cs w f 2 (ld_cs l) in
      if r =? 0 then Ok (w, mk_loading (ld_dict l) (pinyin_buffer l) (han_buffer l) cs)
      else
        let! cs := put cs 2 0 in
        let! c0 := get cs 0 in
        let! c1 := get cs 1 in
        if (160 <=? c0) && (160 <=? c1) then
          let! h := append (han_buffer l) cs in
          read_hans fuel' w f (mk_loading (ld_dict l) (pinyin_buffer l) h cs)
        else
          let! d := handle_pinyin_hans (ld_dict l) (pinyin_buffer l) (han_buffer l) in
          let! p := put (pinyin_buffer l) 0 0 in
          let! h := put (han_buffer l) 0 0 in
          let! p := keep_letters p cs in
          Ok (w, mk_loading d p h cs)
  end.

(** The outer loop. *)
Fixpoint pinyin_loop (fuel : nat) (w : W) (f : Z) (l : loading) : result (W * loading) :=
  match fuel with
  | O => Err OutOfFuel
  | S fuel' =>
      let '(w, r, cs) := read_cs w f 1 (ld_cs l) in
      if r =? 0 then Ok (w, mk_loading (ld_dict l) (pinyin_buffer l) (han_buffer l) cs)
      else
        let! cs := put cs 1 0 in
        let! c := get cs 0 in
        let l := mk_loading (ld_dict l) (pinyin_buffer l) (han_buffer l) cs in
        if (97 <=? c) && (c <=? 122) then
          let! p := append (pinyin_buffer l) cs in
          pinyin_loop fuel' w f (mk_loading (ld_dict l) p (han_buffer l) cs)
        else if c =? 58 then
          let! '(w, l) := read_hans fuel' w f l in pinyin_loop fuel' w f l
        else if (c =? 13) || (c =? 10) then
          let! p := put (pinyin_buffer l) 0 0 in
          pinyin_loop fuel' w f (mk_loading (ld_dict l) p (han_buffer l) cs)
        else pinyin_loop fuel' w f l
  end.

(** "pinyin.txt" *)
Definition pinyin_txt : bytes := [112; 105; 110; 121; 105; 110; 46; 116; 120; 116].

(** [junk] is what the array [cs] on the stack holds. *)
Definition pinyin_init (fuel : nat) (w : W) (d : dict) (junk : bytes) : result (W * dict) :=
  let '(w, f) := sys_open w pinyin_txt 0 in
  let! p := put (replicate 100 0) 0 0 in
  let! '(w, l) := pinyin_loop fuel w f (mk_loading d p (replicate 4096 0) junk) in
  Ok (w, ld_dict l).

(** * Fonts *)

Record fonts := mk_fonts {
  gbk_to_point : Z -> Z;      (** 320000 bytes *)
  char_to_point : Z -> Z;     (** 256 glyphs of 16 rows of 8 *)
  char_to_area : Z -> Z;
}.

Definition GBK_LEN : Z := 320000.
Definition GLYPHS_LEN : Z := 256 * 16 * 8.

(** Offsets of the pointers returned, into [gbk_to_point], [char_to_area] and
    [char_to_point]. *)
Definition get_gbk_point_by_offset (offset : Z) : Z :=
  if offset <? 0 then 0 else if GBK_LEN <=? u32 offset then 0 else offset.

Definition get_gbk_point_by_c1_c2 (c1 c2 : Z) : Z :=
  let qh := c1 - 0xa0 in
  let wh := c2 - 0xa0 in
  get_gbk_point_by_offset ((94 * (qh - 1) + (wh - 1)) * 32).

Definition get_text_area (c : Z) : Z := s8 c * 128.
Definition get_text_point (c : Z) : Z := s8 c * 128.

(** The bytes [bs] stored at [gbk_to_point + k]. *)
Definition store_bytes (f : Z -> Z) (k : Z) (bs : bytes) : Z -> Z :=
  fun i => if (k <=? i) && (i <? k + zlen bs) then nth (Z.to_nat (i - k)) bs 0 else f i.

(** [while ((n_read = read(f, gbk_to_point + n, sizeof(gbk_to_point) - n))) n += n_read] *)
Fixpoint gbk_read (fuel : nat) (w : W) (fd k : Z) (f : Z -> Z) : result (W * Z * (Z -> Z)) :=
  match fuel with
  | O => Err OutOfFuel
  | S fuel' =>
      let '(w, (n_read, bs)) := sys_read w fd (GBK_LEN - k) in
      if n_read =? 0 then Ok (w, k, f)
      else if (0 <? n_read) && ((k <? 0) || (GBK_LEN <? k + zlen bs)) then Err OutOfBounds
      else gbk_read fuel' w fd (k + n_read) (store_bytes f k bs)
  end.

(** "hzk16-0" ... "hzk16-4" *)
Definition hzk (i : Z) : bytes := [104; 122; 107; 49; 54; 45; 48 + i].

Definition gbk_point_init (fuel : nat) (w : W) (g : fonts) : result (W * fonts) :=
  let! '(w, fs) :=
    for_up 0 5 (fun i '(w, fs) => let '(w, fd) := sys_open w (hzk i) 0 in Ok (w, fs ++ [fd])) (w, []) in
  let! '(w, _, f) :=
    for_up 0 5
      (fun i '(w, k, f) => let! fd := get fs i in gbk_read fuel w fd k f) (w, 0, gbk_to_point g) in
  Ok (w, mk_fonts f (char_to_point g) (char_to_area g)).

Definition set_glyph (f : Z -> Z) (a y x v : Z) : result (Z -> Z) :=
  if (0 <=? a) && (a <? 256)
  then Ok (fun i => if i =? a * 128 + y * 8 + x then v else f i) else Err OutOfBounds.

(** One byte of the ASCII font; the state is [(fonts, x, y, char_ascii)]. *)
Definition font_byte (st : fonts * Z * Z * Z) (b : Z) : result (fonts * Z * Z * Z) :=
  let '(g, x, y, a) := st in
  if (b =? 42) || (b =? 46) then
    let! g :=
      if b =? 42 then
        let! p := set_glyph (char_to_point g) a y x 1 in
        let! r := set_glyph (char_to_area g) a y x 0 in
        Ok (mk_fonts (gbk_to_point g) p r)
      else
        let! r := set_glyph (char_to_area g) a y x (-1) in
        Ok (mk_fonts (gbk_to_point g) (char_to_point g) r) in
    let x := x + 1 in
    let '(x, y) := if 8 <=? x then (0, y + 1) else (x, y) in
    let '(y, a) := if 16 <=? y then (0, a + 1) else (y, a) in
    Ok (g, x, y, a)
  else Ok st.

Fixpoint font_bytes (bs : bytes) (st : fonts * Z * Z * Z) : result (fonts * Z * Z * Z) :=
  match bs with [] => Ok st | b :: bs' => let! st := font_byte st b in font_bytes bs' st end.

Fixpoint font_loop (fuel : nat) (w : W) (fp : Z) (st : fonts * Z * Z * Z) : result (W * fonts) :=
  match fuel with
  | O => Err OutOfFuel
  | S fuel' =>
      let '(w, (k, buffer)) := sys_read w fp 1024 in
      if 0 <? k then let! st := font_bytes buffer st in font_loop fuel' w fp st
      else let '(g, _, _, _) := st in Ok (w, g)
  end.

(** "hankaku.txt" *)
Definition hankaku_txt : bytes := [104; 97; 110; 107; 97; 107; 117; 46; 116; 120; 116].

Definition char_point_init (fuel : nat) (w : W) (g : fonts) : result (W * fonts) :=
  let '(w, fp) := sys_open w hankaku_txt 0 in
  if fp <? 0 then Ok (w, g) else font_loop fuel w fp (g, 0, 0, 0).

End Loading.
