(* ===== verification/PinyinProps.v ===== *)
(** The pinyin dictionary as a map from syllables to characters. *)
From stdpp Require Import gmap.
From S2P Require Import Prelude Ulib Sys Pinyin.
Open Scope Z_scope.

(** * Paths in the trie *)

Fixpoint walk (d : dict) (u : Z) (s : bytes) : option Z :=
  match s with
  | [] => Some u
  | b :: s' => let v := ch d u (letter b) in if v =? 0 then None else walk d v s'
  end.

(** A lower-case letter. *)
Definition lower (b : Z) : Prop := 97 <= b <= 122.

Lemma letter_lower b : lower b -> letter b = b - 97 /\ is_letter b = true.
Proof.
  unfold lower, letter, is_letter, s8. change (2 ^ 7) with 128. change (2 ^ 8) with 256. intros H.
  rewrite Z.mod_small by lia. split; [lia|]. zsimp. done.
Qed.

(** The trie is a tree: children are newer than their parent, and a node has
    one parent and one letter. *)
Record tree (d : dict) : Prop := {
  tree_n : 0 <= n d < MAXNODE;
  tree_child : forall u c, ch d u c <> 0 -> 0 <= u < ch d u c /\ ch d u c <= n d /\ 0 <= c < 26;
  tree_parent : forall u c u' c', ch d u c <> 0 -> ch d u c = ch d u' c' -> u = u' /\ c = c';
  tree_hans : forall u, n d < u -> hans d u = None;
}.

Lemma empty_tree : tree empty_dict.
Proof. split; cbn; [unfold MAXNODE; lia | done.. ]. Qed.

Lemma walk_snoc d s b u v :
  walk d u (s ++ [b]) = Some v <-> exists w, walk d u s = Some w /\ ch d w (letter b) = v /\ v <> 0.
Proof.
  revert u. induction s as [|a s IH]; intros u; cbn [app walk].
  - destruct (Z.eqb_spec (ch d u (letter b)) 0) as [E|E].
    + split; [done|]. intros (w & [= <-] & <- & Hv). by rewrite E in Hv.
    + split; [intros [= <-]; by exists u|]. by intros (w & [= <-] & <- & _).
  - destruct (Z.eqb_spec (ch d u (letter a)) 0) as [E|E]; [|apply IH].
    split; [done|]. by intros (w & Hw & _).
Qed.

Lemma walk_range d s v : tree d -> walk d 0 s = Some v -> 0 <= v <= n d /\ (v = 0 <-> s = []).
Proof.
  intros H. destruct (tree_n _ H) as [Hn0 Hn1]. revert v. induction s as [|b s IH] using rev_ind; intros v Hw.
  - injection Hw as <-. by split; [lia|].
  - apply walk_snoc in Hw as (u & Hu & <- & Hne). destruct (tree_child _ H _ _ Hne) as (H1 & H2 & _).
    split; [lia|]. split; [done|]. intros E. by destruct s.
Qed.

(** Two paths to one node are the same path. *)
Lemma walk_inj d s s' v :
  tree d -> Forall lower s -> Forall lower s' -> walk d 0 s = Some v -> walk d 0 s' = Some v -> s = s'.
Proof.
  intros H. revert s' v. induction s as [|b s IH] using rev_ind; intros s' v Hs Hs' Hw Hw'.
  - injection Hw as <-. symmetry. by apply (walk_range d s' 0 H Hw').
  - destruct s' as [|b' s' _] using rev_ind.
    + injection Hw' as <-. apply (walk_range d _ 0 H) in Hw as [_ Hz]. by apply Hz.
    + apply Forall_app in Hs as [Hs Hb], Hs' as [Hs' Hb']. rewrite Forall_singleton in Hb, Hb'.
      apply walk_snoc in Hw as (u & Hu & E & Hne). apply walk_snoc in Hw' as (u' & Hu' & E' & _).
      destruct (tree_parent _ H u (letter b) u' (letter b')) as [-> El]; [congruence | congruence |].
      rewrite (IH s' u') by done. f_equal. f_equal.
      rewrite (proj1 (letter_lower b Hb)), (proj1 (letter_lower b' Hb')) in El. lia.
Qed.

(** * Insertion *)

(** What one step of [insert] does: [d'] has the child of [u] on [b], and the
    old paths; its new nodes are numbered after the old ones. *)
Lemma insert_byte_spec d u b :
  tree d -> 0 <= u <= n d -> lower b -> n d + 1 < MAXNODE ->
  exists d' v, insert_byte (d, u) b = Ok (d', v) /\ tree d' /\ ch d' u (letter b) = v /\ v <> 0 /\
    n d <= n d' <= n d + 1 /\ 0 <= v <= n d' /\ hans d' = hans d /\
    (forall x c, ch d x c <> 0 -> ch d' x c = ch d x c) /\
    (forall x c, ch d' x c <= n d -> ch d' x c = ch d x c).
Proof.
  intros H Hu Hb Hn. destruct (letter_lower b Hb) as [El _]. unfold lower in Hb.
  destruct (tree_n _ H) as [Hn0 Hn1]. unfold insert_byte.
  assert (Hin : in_ch u (letter b) = true) by (unfold in_ch; rewrite El; by zsimp).
  unfold child, set_child. rewrite Hin. cbn [rbind].
  destruct (Z.eqb_spec (ch d u (letter b)) 0) as [E|E]; cbn [rbind].
  - set (d1 := mk_dict _ _ _). exists d1, (n d + 1).
    assert (Hch : forall x c, ch d1 x c = if (x =? u) && (c =? letter b) then n d + 1 else ch d x c) by done.
    assert (Hself : ch d1 u (letter b) = n d + 1) by (by rewrite Hch, !Z.eqb_refl).
    assert (Hold : forall x c, ch d1 x c <> n d + 1 -> ch d1 x c = ch d x c).
    { intros x c. rewrite Hch. by destruct ((x =? u) && (c =? letter b)). }
    assert (Hnew : forall x c, ch d1 x c = n d + 1 -> x = u /\ c = letter b).
    { intros x c Hx. rewrite Hch in Hx. destruct (Z.eqb_spec x u), (Z.eqb_spec c (letter b)); cbn in Hx; try done;
        destruct (tree_child _ H x c) as (_ & ? & _); lia. }
    rewrite Hself. split; [done|]. split; [|split_and!; [done | lia | cbn; lia | cbn; lia | cbn; lia | cbn; lia | done | |]].
    + split; cbn [n hans].
      * cbn. lia.
      * intros x c Hne. destruct (Z.eq_dec (ch d1 x c) (n d + 1)) as [Ex|Ex].
        -- destruct (Hnew _ _ Ex) as [-> ->]. rewrite Ex, El. cbn. lia.
        -- rewrite (Hold _ _ Ex) in *. destruct (tree_child _ H x c Hne). cbn. lia.
      * intros x c x' c' Hne Eq. destruct (Z.eq_dec (ch d1 x c) (n d + 1)) as [Ex|Ex].
        -- destruct (Hnew _ _ Ex) as [-> ->]. rewrite Ex in Eq. by destruct (Hnew _ _ (eq_sym Eq)) as [-> ->].
        -- assert (Ex' : ch d1 x' c' <> n d + 1) by (by rewrite <- Eq).
           rewrite (Hold _ _ Ex) in Eq, Hne. rewrite (Hold _ _ Ex') in Eq. by apply (tree_parent _ H).
      * intros x Hx. cbn in *. apply (tree_hans _ H). lia.
    + intros x c Hne. rewrite Hch. destruct (Z.eqb_spec x u), (Z.eqb_spec c (letter b)); cbn; try done. by subst.
    + intros x c Hx. apply Hold. lia.
  - destruct (tree_child _ H _ _ E) as (H1 & H2 & _). rewrite ?Hin.
    eexists d, _. split; [done|]. split_and!; try done; lia.
Qed.

(** The loop of [insert], from node [u]. *)
Lemma insert_loop_spec k s b0 d u :
  tree d -> 0 <= u <= n d -> Forall lower s -> n d + zlen s < MAXNODE -> 0 <= k ->
  (forall i b, s !! i = Some b -> get b0 (k + Z.of_nat i) = Ok b) ->
  exists d' v, up_n (length s) k (fun i st => let! b := get b0 i in insert_byte st b) (d, u) = Ok (d', v) /\
    tree d' /\ walk d' u s = Some v /\ n d <= n d' <= n d + zlen s /\ hans d' = hans d /\
    (forall x c, ch d x c <> 0 -> ch d' x c = ch d x c) /\
    (forall x c, ch d' x c <= n d -> ch d' x c = ch d x c).
Proof.
  revert k d u. induction s as [|b s IH]; intros k d u H Hu Hs Hn Hk Hget; cbn [length up_n].
  { exists d, u. split; [done|]. split_and!; try done; cbn; lia. }
  apply Forall_cons in Hs as [Hb Hs]. cbn [length] in Hn.
  pose proof (Hget 0%nat b eq_refl) as E0. rewrite Z.add_0_r in E0. rewrite E0. cbn [rbind].
  destruct (insert_byte_spec d u b H Hu Hb) as (d1 & v & -> & H1 & Hv & Hne & Hn1 & Hv1 & Hh1 & Hmon & Hold); [lia|].
  cbn [rbind]. destruct (IH (k + 1) d1 v H1 Hv1 Hs) as (d2 & v2 & E & H2 & Hw & Hn2 & Hh2 & Hmon2 & Hold2); [lia | lia | |].
  { intros i b' Hi. rewrite <- (Hget (S i) b' Hi). f_equal. lia. }
  exists d2, v2. split; [done|]. split; [done|]. split.
  { cbn [walk]. rewrite (Hmon2 u (letter b)) by congruence. rewrite Hv. zsimp. done. }
  split; [cbn [length]; lia|]. split; [congruence|]. split.
  - intros x c Hx. rewrite <- (Hmon x c Hx). apply Hmon2. by rewrite Hmon.
  - intros x c Hx. rewrite <- (Hold x c); [apply Hold2; lia|]. rewrite <- Hold2; lia.
Qed.

Lemma walk_mono d d' s u v :
  (forall x c, ch d x c <> 0 -> ch d' x c = ch d x c) -> walk d u s = Some v -> walk d' u s = Some v.
Proof.
  intros Hm. revert u. induction s as [|b s IH]; intros u; cbn [walk]; [done|].
  destruct (Z.eqb_spec (ch d u (letter b)) 0) as [E|E]; [done|]. rewrite (Hm _ _ E). zsimp. apply IH.
Qed.

(** A path of the new trie that ends at an old node is an old path. *)
Lemma walk_old d d' s v :
  tree d' -> (forall x c, ch d' x c <= n d -> ch d' x c = ch d x c) ->
  walk d' 0 s = Some v -> v <= n d -> walk d 0 s = Some v.
Proof.
  intros H Hold. revert v. induction s as [|b s IH] using rev_ind; intros v Hw Hv; [done|].
  apply walk_snoc in Hw as (u & Hu & E & Hne). apply walk_snoc. exists u.
  destruct (tree_child _ H u (letter b)) as (H1 & _); [congruence|].
  split; [apply IH; [done | lia]|]. split; [|done]. rewrite <- Hold; [done | lia].
Qed.

(** * The dictionary as a map *)

(** The characters stored for a syllable. *)
Definition lookup_han (d : dict) (s : bytes) : option bytes := walk d 0 s ≫= hans d.

Lemma insert_spec d p s :
  tree d -> is_str p s -> Forall lower s -> n d + zlen s < MAXNODE ->
  exists d' v, insert d p = Ok (d', v) /\ tree d' /\ walk d' 0 s = Some v /\ n d' <= n d + zlen s /\
    hans d' = hans d /\ (forall s' v', walk d 0 s' = Some v' -> walk d' 0 s' = Some v') /\
    (forall s' v', walk d' 0 s' = Some v' -> v' <= n d -> walk d 0 s' = Some v').
Proof.
  intros H Hp Hs Hn. unfold insert. rewrite (strlen_str _ _ Hp). cbn [rbind]. unfold for_up.
  rewrite Z.sub_0_r, Nat2Z.id.
  destruct (insert_loop_spec 0 s p d 0 H) as (d' & v & E & H' & Hw & Hn' & Hh & Hm & Ho); [destruct (tree_n _ H); lia | done | done | lia | |].
  { intros i b Hi. destruct (is_str_get p s (Z.of_nat i) Hp) as (b' & E & Hb & _).
    - apply lookup_lt_Some in Hi. lia.
    - rewrite Nat2Z.id in Hb. rewrite Z.add_0_l, E. congruence. }
  exists d', v. split; [done|]. split; [done|]. split; [done|]. split; [lia|]. split; [done|].
  split; [intros s' v'; by apply walk_mono | intros s' v'; by apply walk_old].
Qed.


Lemma copy_str hb h :
  is_str hb h ->
  (let! x := put (malloc (zlen h + 1)) 0 0 in strcpy x 0 hb) = Ok (h ++ [0]).
Proof.
  intros [Hh [rest ->]]. unfold malloc. rewrite put_ok by (rewrite length_replicate; lia). cbn [rbind].
  pose proof (strcpy_app [] (<[Z.to_nat 0 := 0]> (replicate (Z.to_nat (zlen h + 1)) undef)) [] h rest Hh) as E.
  cbn [app length] in E. rewrite app_nil_r in E. apply E. llia.
Qed.

Lemma handle_spec d p s hb h :
  tree d -> is_str p s -> Forall lower s -> is_str hb h -> n d + zlen s < MAXNODE ->
  exists d', handle_pinyin_hans d p hb = Ok d' /\ tree d' /\ n d' <= n d + zlen s /\
    lookup_han d' s = Some (h ++ [0]) /\
    (forall s', Forall lower s' -> s' <> s -> lookup_han d' s' = lookup_han d s').
Proof.
  intros H Hp Hs Hh Hn. unfold handle_pinyin_hans.
  destruct (insert_spec d p s H Hp Hs Hn) as (d1 & v & -> & H1 & Hw & Hn1 & Hhans & Hm & Ho). cbn [rbind].
  rewrite (strlen_str _ _ Hh). cbn [rbind].
  destruct (walk_range d1 s v H1 Hw) as [Hv _]. destruct (tree_n _ H1) as [Hn0 Hn2].
  pose proof (copy_str hb h Hh) as Ec. rinv Ec. cbn [rbind]. rewrite Ec. cbn [rbind].
  unfold set_hans. zsimp. eexists. split; [done|].
  assert (Hwalk : forall s', walk (mk_dict (n d1) (ch d1) (fun u' => if u' =? v then Some (h ++ [0]) else hans d1 u')) 0 s'
                             = walk d1 0 s').
  { assert (Hg : forall s' u, walk (mk_dict (n d1) (ch d1) (fun u' => if u' =? v then Some (h ++ [0]) else hans d1 u')) u s' = walk d1 u s');
      [|intros s'; apply Hg]. induction s' as [|b s' IH]; intros u; cbn [walk ch]; [done|]. by destruct (_ =? 0). }
  split; [|split; [done|split]].
  - destruct H1 as [A B C D]. split; [done..|]. intros u Hu. cbn in *. zsimp. by apply D.
  - unfold lookup_han. rewrite Hwalk, Hw. cbn. by rewrite Z.eqb_refl.
  - intros s' Hs' Hne. unfold lookup_han. rewrite Hwalk.
    destruct (walk d1 0 s') as [v'|] eqn:Hw'; cbn.
    + destruct (Z.eqb_spec v' v) as [->|Hvne]; [by destruct Hne; eapply walk_inj|].
      rewrite Hhans. destruct (Z.le_gt_cases v' (n d)) as [Hle|Hgt].
      * by rewrite (Ho s' v' Hw' Hle).
      * rewrite (tree_hans _ H v') by lia. destruct (walk d 0 s') as [v0|] eqn:Hw0; [|done]. cbn.
        pose proof (Hm _ _ Hw0) as E'. rewrite Hw' in E'. injection E' as <-.
        symmetry. apply (tree_hans _ H). lia.
    + destruct (walk d 0 s') as [v0|] eqn:Hw0; [|done]. by rewrite (Hm _ _ Hw0) in Hw'.
Qed.

(** * Looking a syllable up *)

Lemma getnode_loop_walk d b0 s k u deep v :
  tree d -> 0 <= u <= n d -> Forall lower s -> 0 <= k ->
  (forall i b, s !! i = Some b -> get b0 (k + Z.of_nat i) = Ok b) ->
  walk d u s = Some v -> getnode_loop (length s) d b0 k u deep = Ok (v, deep + zlen s).
Proof.
  intros H Hu Hs Hk Hget Hw. revert k u deep Hu Hk Hget Hw.
  induction Hs as [|b s Hb Hs IH]; intros k u deep Hu Hk Hget Hw; cbn [length getnode_loop].
  { injection Hw as <-. f_equal. f_equal. cbn. lia. }
  pose proof (Hget 0%nat b eq_refl) as E0. rewrite Z.add_0_r in E0. rewrite E0. cbn [rbind].
  destruct (letter_lower b Hb) as [El ->]. cbn [negb]. cbn [walk] in Hw.
  destruct (Z.eqb_spec (ch d u (letter b)) 0) as [E|E]; [done|].
  destruct (tree_child _ H _ _ E) as (H1 & H2 & H3). destruct (tree_n _ H) as [Hn0 Hn1].
  unfold child, in_ch. zsimp. cbn [rbind]. zsimp. rewrite (IH (k + 1)); [do 2 f_equal; lia | lia | lia | | done].
  intros i b' Hi. rewrite <- (Hget (S i) b' Hi). f_equal. lia.
Qed.

Lemma get_ith_spec d p s h i c1 c2 :
  tree d -> is_str p s -> Forall lower s -> s <> [] -> Forall is_char h ->
  lookup_han d s = Some (h ++ [0]) -> 0 <= i ->
  h !! Z.to_nat (2 * i) = Some c1 -> h !! Z.to_nat (2 * i + 1) = Some c2 ->
  get_pinyin_ith_han d p i = Ok (0, Some (c1, c2), zlen s).
Proof.
  intros H Hp Hs Hne Hh Hl Hi H1 H2. unfold lookup_han in Hl.
  destruct (walk d 0 s) as [v|] eqn:Hw; [|done]. cbn in Hl.
  destruct (walk_range d s v H Hw) as [Hv Hz]. destruct (tree_n _ H) as [Hn0 Hn1].
  assert (Hv0 : 0 < v) by (destruct (Z.eq_dec v 0) as [E|]; [by apply Hz in E | lia]).
  unfold get_pinyin_ith_han, getnode. rewrite (strlen_str _ _ Hp). cbn [rbind]. rewrite Nat2Z.id.
  rewrite (getnode_loop_walk d p s 0 0 0 v); [|done | lia | done | lia | | done].
  2:{ intros j b Hj. destruct (is_str_get p s (Z.of_nat j) Hp) as (b' & E & Hb & _).
      - apply lookup_lt_Some in Hj. lia.
      - rewrite Nat2Z.id in Hb. rewrite Z.add_0_l, E. congruence. }
  cbn [rbind]. zsimp. rewrite Hl. assert (Hstr : is_str (h ++ [0]) h) by (by apply is_str_intro).
  rewrite (strlen_str _ _ Hstr). cbn [rbind].
  pose proof (lookup_lt_Some _ _ _ H2). replace (i * 2) with (2 * i) by lia. zsimp.
  rewrite (get_ok _ _ c1); [|lia | by apply lookup_app_l_Some]. cbn [rbind].
  rewrite (get_ok _ _ c2); [|lia | by apply lookup_app_l_Some]. cbn [rbind]. done.
Qed.

(** A whole dictionary, entry by entry. *)
Fixpoint add_all (d : dict) (es : list (bytes * bytes)) : result dict :=
  match es with
  | [] => Ok d
  | (s, h) :: es' => let! d := handle_pinyin_hans d (s ++ [0]) (h ++ [0]) in add_all d es'
  end.

Definition entry_ok (e : bytes * bytes) : Prop := Forall lower (fst e) /\ Forall is_char (snd e).

Definition size (es : list (bytes * bytes)) : Z := foldr (fun e a => zlen (fst e) + a) 0 es.

Lemma lower_char b : lower b -> is_char b.
Proof. unfold lower, is_char. lia. Qed.

Lemma size_nonneg es : 0 <= size es.
Proof. induction es as [|e es IH]; cbn [size foldr]; [lia|]. fold (size es). lia. Qed.

Lemma add_all_spec es d :
  tree d -> Forall entry_ok es -> NoDup es.*1 -> n d + size es < MAXNODE ->
  exists d', add_all d es = Ok d' /\ tree d' /\
    (forall s h, (s, h) ∈ es -> lookup_han d' s = Some (h ++ [0])) /\
    (forall s, Forall lower s -> s ∉ es.*1 -> lookup_han d' s = lookup_han d s).
Proof.
  revert d. induction es as [|[s h] es IH]; intros d H Hok Hnd Hn; cbn [add_all].
  { exists d. split; [done|]. split; [done|]. split; [by intros s h ?%elem_of_nil | done]. }
  apply Forall_cons in Hok as [[Hs Hh] Hok]. cbn [fst snd] in Hs, Hh.
  cbn [fmap list_fmap fst] in Hnd. apply NoDup_cons in Hnd as [Hnew Hnd].
  cbn [size foldr fst] in Hn. fold (size es) in Hn. pose proof (size_nonneg es).
  assert (Hp : is_str (s ++ [0]) s) by (apply is_str_intro; eapply Forall_impl; [exact Hs | apply lower_char]).
  destruct (handle_spec d (s ++ [0]) s (h ++ [0]) h H Hp Hs) as (d1 & -> & H1 & Hn1 & Hl1 & Ho1);
    [by apply is_str_intro | lia |]. cbn [rbind].
  destruct (IH d1 H1 Hok Hnd) as (d2 & E & H2 & Hl2 & Ho2); [lia|].
  exists d2. split; [done|]. split; [done|]. split.
  - intros s' h' [[= -> ->]|Hin]%elem_of_cons; [by rewrite Ho2 | by apply Hl2].
  - intros s' Hs' Hnin. apply not_elem_of_cons in Hnin as [Hne Hnin]. by rewrite Ho2, Ho1.
Qed.

(** The dictionary is a map.  After any list of entries with different
    syllables has been stored, [get_pinyin_ith_han] returns for every syllable
    [s] and every index [i] the two bytes of the [i]-th character stored for
    it, and the length of [s] in [*deep]. *)
Theorem dictionary_lookup es :
  Forall entry_ok es -> NoDup es.*1 -> size es < MAXNODE ->
  exists d, add_all empty_dict es = Ok d /\
    forall s h i c1 c2, (s, h) ∈ es -> s <> [] -> 0 <= i ->
      h !! Z.to_nat (2 * i) = Some c1 -> h !! Z.to_nat (2 * i + 1) = Some c2 ->
      get_pinyin_ith_han d (s ++ [0]) i = Ok (0, Some (c1, c2), zlen s).
Proof.
  intros Hok Hnd Hn. destruct (add_all_spec es empty_dict empty_tree Hok Hnd) as (d & E & H & Hl & _); [cbn [empty_dict n]; lia|].
  exists d. split; [done|]. intros s h i c1 c2 Hin Hne Hi H1 H2.
  rewrite Forall_forall in Hok. destruct (Hok _ Hin) as [Hs Hh]. cbn [fst snd] in Hs, Hh.
  apply (get_ith_spec d (s ++ [0]) s h); try done; [|by apply Hl].
  apply is_str_intro. eapply Forall_impl; [exact Hs | apply lower_char].
Qed.

(** "a" and "ai" with some of their characters. *)
Definition demo_entries : list (bytes * bytes) :=
  [([97], [0xB0; 0xA1; 0xB0; 0xA2]); ([97; 105], [0xB0; 0xAE])].

Lemma dictionary_lookup_witness :
  exists d, add_all empty_dict demo_entries = Ok d /\
    get_pinyin_ith_han d [97; 0] 1 = Ok (0, Some (0xB0, 0xA2), 1) /\
    get_pinyin_ith_han d [97; 105; 0] 0 = Ok (0, Some (0xB0, 0xAE), 2).
Proof.
  destruct (dictionary_lookup demo_entries) as (d & E & H).
  - repeat constructor; unfold lower, is_char; cbn; lia.
  - cbn. apply (bool_decide_unpack _). vm_compute. done.
  - vm_compute. done.
  - exists d. split; [exact E|]. split.
    + apply (H [97] [0xB0; 0xA1; 0xB0; 0xA2] 1); first [done | lia | repeat constructor].
    + apply (H [97; 105] [0xB0; 0xAE] 0); first [done | lia | repeat constructor].
Defined.

(** * Fonts and missing files *)

Lemma gbk_point_range c1 c2 :
  160 <= c1 <= 255 -> 160 <= c2 <= 255 ->
  0 <= get_gbk_point_by_c1_c2 c1 c2 /\ get_gbk_point_by_c1_c2 c1 c2 + 32 <= GBK_LEN.
Proof.
  intros H1 H2. unfold get_gbk_point_by_c1_c2, get_gbk_point_by_offset, GBK_LEN.
  set (o := (94 * (c1 - 160 - 1) + (c2 - 160 - 1)) * 32). destruct (Z.ltb_spec o 0); [lia|].
  rewrite u32_small by lia. destruct (Z.leb_spec 320000 o); lia.
Qed.

(** For any two bytes of a GBK character the 32 bytes of its bitmap lie
    inside the font. *)
Theorem gbk_bitmap_in_font c1 c2 :
  160 <= c1 <= 255 -> 160 <= c2 <= 255 ->
  0 <= get_gbk_point_by_c1_c2 c1 c2 /\ get_gbk_point_by_c1_c2 c1 c2 + 32 <= GBK_LEN.
Proof. apply gbk_point_range. Qed.

Lemma gbk_bitmap_in_font_witness :
  0 <= get_gbk_point_by_c1_c2 0xC4 0xE3 /\ get_gbk_point_by_c1_c2 0xC4 0xE3 + 32 <= GBK_LEN.
Proof. apply (gbk_bitmap_in_font 0xC4 0xE3); lia. Defined.

(** A loop iteration on a failed [read] with a byte in [cs] that is neither a
    letter nor a colon. *)
Lemma pinyin_loop_stuck fuel (w : Ram.ram) l c1 c2 c3 c :
  Ram.fds w !! (-1) = None -> ld_cs l = [c; c1; c2; c3] -> (exists b p, pinyin_buffer l = b :: p) ->
  (97 <=? c) && (c <=? 122) = false -> c <> 58 ->
  pinyin_loop fuel w (-1) l = Err OutOfFuel.
Proof.
  intros Hfd Hcs Hp Hl H58. revert l c1 Hcs Hp. induction fuel as [|fuel IH]; intros l c1 Hcs (b & p & Hp); [done|].
  cbn [pinyin_loop]. unfold read_cs. cbn [sys_read Ram.ram_sys]. unfold Ram.r_read. rewrite Hfd. cbn [Z.eqb Z.ltb Z.compare].
  rewrite Hcs. rewrite put_ok by (cbn; lia). change (Z.to_nat 1) with 1%nat. cbn [rbind list_insert base.insert].
  rewrite (get_ok _ _ c) by done. cbn [rbind]. rewrite Hl. zsimp. cbn [pinyin_buffer]. rewrite Hp.
  destruct ((c =? 13) || (c =? 10)).
  - rewrite put_ok by (cbn; lia). cbn [rbind]. apply (IH _ 0); [done|]. by eexists _, _.
  - apply (IH _ 0); [done|]. by eexists _, _.
Qed.

(** If pinyin.txt cannot be opened, the editor never starts: [read] then
    returns -1, which the loop takes for data, and [pinyin_init] runs for
    ever (here with a byte on the stack that is neither a letter nor a
    colon). *)
Theorem pinyin_init_diverges fuel c c1 c2 c3 :
  (97 <=? c) && (c <=? 122) = false -> c <> 58 ->
  pinyin_init fuel (Ram.mk_ram ∅ ∅ 3) empty_dict [c; c1; c2; c3] = Err OutOfFuel.
Proof.
  intros Hl H58. unfold pinyin_init. cbn [sys_open Ram.ram_sys]. unfold Ram.r_open. cbn [Ram.files]. rewrite lookup_empty.
  change (Z.testbit 0 9) with false. cbn match. rewrite put_ok by (cbn; lia). cbn [rbind].
  rewrite (pinyin_loop_stuck _ _ _ c1 c2 c3 c); try done. by eexists _, _.
Qed.

Lemma pinyin_init_diverges_witness :
  pinyin_init 50 (Ram.mk_ram ∅ ∅ 3) empty_dict [0; 0; 0; 0] = Err OutOfFuel.
Proof. apply (pinyin_init_diverges 50 0 0 0 0); [reflexivity | done]. Defined.
