(* ===== verification/GuiState.v ===== *)
(** The widgets of the editor: the records of src/src/Gui.h, the heap they live
    in, and the monad of the handlers of src/src/Gui.c.

    Widgets are reached through pointers, and the same widget through several
    (the focus of the cursor, the current tab, the tab bar), so the model keeps
    a heap: one array per kind of widget, a pointer being an index into it.
    Widgets are never freed.  The parts of which there is one are fields of the
    state. *)
From Stdlib Require Import String Ascii.
From S2P Require Import Prelude Ulib Sys Textframe Widgets Pinyin.
Open Scope Z_scope.

(** A C string literal, with its NUL. *)
Definition str (s : string) : bytes :=
  (List.map (fun a => Z.of_N (N_of_ascii a)) (list_ascii_of_string s) ++ [0])%list.

Definition ptr := Z.

Record FileNameControl := mk_FileNameControl {
  fc_area : Area;
  fc_edit : ptr;          (** LineEdit *)
  oldName : bytes;        (** char[512] *)
}.

Record FileBuffer := mk_FileBuffer {
  fb_area : Area;
  fb_edit : ptr;          (** TextEdit *)
  filepathname : bytes;   (** char[512] *)
}.

(** The function a button runs. *)
Inductive exec := Button_exec_switch_to_file_ | Button_exec_tool_.

(** The [parent_type] of a button. *)
Inductive button_parent := In_FileSwitchBar | In_ToolBar.

Record Button := mk_Button {
  bt_area : Area;
  bt_edit : ptr;          (** LineEdit *)
  bt_parent : button_parent;
  bt_exec : option exec;
}.

Record FileListBuffer := mk_FileListBuffer {
  fl_area : Area;
  fl_n_files : Z;
  fl_files : list (option ptr);       (** FileNameControl *)
  file_selected : option ptr;
  path : bytes;                       (** char[512] *)
}.

Definition FILESWITCH_MAX_FILES : Z := 10.

Record FileSwitchBar := mk_FileSwitchBar {
  sw_area : Area;
  sw_buttons : list (option ptr);     (** Button *)
  sw_files : list (option ptr);       (** FileBuffer *)
  sw_n_files : Z;
  current : option ptr;
  ifSearch : Z;
  searchInput : Z;
  search_area : Area;                 (** the SearchFrame *)
  search_edit : ptr;                  (** TextEdit *)
}.

Definition TOOL_NUM : Z := 6.
Definition ITEM_EVERY_PAGE : Z := 5.
Definition MIN_SCALE : Z := 0.
Definition MAX_SCALE : Z := 2.

Record PinyinInput := mk_PinyinInput {
  py_area : Area;
  page : Z;
  on : Z;
  py_edit : ptr;                      (** TextEdit *)
}.

(** What [manager->focus] points to. *)
Inductive focus_part := Focus_fileSwitch | Focus_fileList | Focus_toolBar.

(** What [cursor_focus] points to; [cursor_focus_type] is kept apart, as in
    the code, since Ctrl-F sets it to 0 for a TextEdit. *)
Inductive edit_ptr := P_TextEdit (p : ptr) | P_LineEdit (p : ptr).

#[global] Instance focus_part_eq_dec : EqDecision focus_part.
Proof. solve_decision. Defined.
#[global] Instance edit_ptr_eq_dec : EqDecision edit_ptr.
Proof. solve_decision. Defined.

Record gui (W : Type) := mk_gui {
  world : W;
  text_edits : list TextEdit;
  line_edits : list LineEdit;
  name_controls : list FileNameControl;
  file_buffers : list FileBuffer;
  button_heap : list Button;
  fileList : FileListBuffer;
  fileSwitch : FileSwitchBar;
  toolBar : Area * list ptr;          (** area and buttons *)
  statusBar : Area * ptr;             (** area and LineEdit *)
  pinyin : PinyinInput;
  focus : option focus_part;
  clipBoard : option textframe;
  cursor_focus : option edit_ptr;
  cursor_focus_type : Z;
  isRename : Z;
  pinyin_dict : dict;
}.
Arguments mk_gui {W}. Arguments world {W}. Arguments text_edits {W}. Arguments line_edits {W}.
Arguments name_controls {W}. Arguments file_buffers {W}. Arguments button_heap {W}.
Arguments fileList {W}. Arguments fileSwitch {W}. Arguments toolBar {W}. Arguments statusBar {W}.
Arguments pinyin {W}. Arguments focus {W}. Arguments clipBoard {W}. Arguments cursor_focus {W}.
Arguments cursor_focus_type {W}. Arguments isRename {W}. Arguments pinyin_dict {W}.

Section Setters.
Context {W : Type}.
Implicit Types g : gui W.

Definition set_world g (w : W) : gui W := mk_gui w (text_edits g) (line_edits g) (name_controls g) (file_buffers g) (button_heap g) (fileList g) (fileSwitch g) (toolBar g) (statusBar g) (pinyin g) (focus g) (clipBoard g) (cursor_focus g) (cursor_focus_type g) (isRename g) (pinyin_dict g).
Definition set_text_edits g v : gui W := mk_gui (world g) v (line_edits g) (name_controls g) (file_buffers g) (button_heap g) (fileList g) (fileSwitch g) (toolBar g) (statusBar g) (pinyin g) (focus g) (clipBoard g) (cursor_focus g) (cursor_focus_type g) (isRename g) (pinyin_dict g).
Definition set_line_edits g v : gui W := mk_gui (world g) (text_edits g) v (name_controls g) (file_buffers g) (button_heap g) (fileList g) (fileSwitch g) (toolBar g) (statusBar g) (pinyin g) (focus g) (clipBoard g) (cursor_focus g) (cursor_focus_type g) (isRename g) (pinyin_dict g).
Definition set_name_controls g v : gui W := mk_gui (world g) (text_edits g) (line_edits g) v (file_buffers g) (button_heap g) (fileList g) (fileSwitch g) (toolBar g) (statusBar g) (pinyin g) (focus g) (clipBoard g) (cursor_focus g) (cursor_focus_type g) (isRename g) (pinyin_dict g).
Definition set_file_buffers g v : gui W := mk_gui (world g) (text_edits g) (line_edits g) (name_controls g) v (button_heap g) (fileList g) (fileSwitch g) (toolBar g) (statusBar g) (pinyin g) (focus g) (clipBoard g) (cursor_focus g) (cursor_focus_type g) (isRename g) (pinyin_dict g).
Definition set_button_heap g v : gui W := mk_gui (world g) (text_edits g) (line_edits g) (name_controls g) (file_buffers g) v (fileList g) (fileSwitch g) (toolBar g) (statusBar g) (pinyin g) (focus g) (clipBoard g) (cursor_focus g) (cursor_focus_type g) (isRename g) (pinyin_dict g).
Definition set_fileList g v : gui W := mk_gui (world g) (text_edits g) (line_edits g) (name_controls g) (file_buffers g) (button_heap g) v (fileSwitch g) (toolBar g) (statusBar g) (pinyin g) (focus g) (clipBoard g) (cursor_focus g) (cursor_focus_type g) (isRename g) (pinyin_dict g).
Definition set_fileSwitch g v : gui W := mk_gui (world g) (text_edits g) (line_edits g) (name_controls g) (file_buffers g) (button_heap g) (fileList g) v (toolBar g) (statusBar g) (pinyin g) (focus g) (clipBoard g) (cursor_focus g) (cursor_focus_type g) (isRename g) (pinyin_dict g).
Definition set_toolBar g v : gui W := mk_gui (world g) (text_edits g) (line_edits g) (name_controls g) (file_buffers g) (button_heap g) (fileList g) (fileSwitch g) v (statusBar g) (pinyin g) (focus g) (clipBoard g) (cursor_focus g) (cursor_focus_type g) (isRename g) (pinyin_dict g).
Definition set_statusBar g v : gui W := mk_gui (world g) (text_edits g) (line_edits g) (name_controls g) (file_buffers g) (button_heap g) (fileList g) (fileSwitch g) (toolBar g) v (pinyin g) (focus g) (clipBoard g) (cursor_focus g) (cursor_focus_type g) (isRename g) (pinyin_dict g).
Definition set_pinyin g v : gui W := mk_gui (world g) (text_edits g) (line_edits g) (name_controls g) (file_buffers g) (button_heap g) (fileList g) (fileSwitch g) (toolBar g) (statusBar g) v (focus g) (clipBoard g) (cursor_focus g) (cursor_focus_type g) (isRename g) (pinyin_dict g).
Definition set_focus g v : gui W := mk_gui (world g) (text_edits g) (line_edits g) (name_controls g) (file_buffers g) (button_heap g) (fileList g) (fileSwitch g) (toolBar g) (statusBar g) (pinyin g) v (clipBoard g) (cursor_focus g) (cursor_focus_type g) (isRename g) (pinyin_dict g).
Definition set_clipBoard g v : gui W := mk_gui (world g) (text_edits g) (line_edits g) (name_controls g) (file_buffers g) (button_heap g) (fileList g) (fileSwitch g) (toolBar g) (statusBar g) (pinyin g) (focus g) v (cursor_focus g) (cursor_focus_type g) (isRename g) (pinyin_dict g).
Definition set_cursor_focus g v ty : gui W := mk_gui (world g) (text_edits g) (line_edits g) (name_controls g) (file_buffers g) (button_heap g) (fileList g) (fileSwitch g) (toolBar g) (statusBar g) (pinyin g) (focus g) (clipBoard g) v ty (isRename g) (pinyin_dict g).
Definition set_isRename g v : gui W := mk_gui (world g) (text_edits g) (line_edits g) (name_controls g) (file_buffers g) (button_heap g) (fileList g) (fileSwitch g) (toolBar g) (statusBar g) (pinyin g) (focus g) (clipBoard g) (cursor_focus g) (cursor_focus_type g) v (pinyin_dict g).

End Setters.

(** * The monad of the handlers: the state, and faults *)

Definition M (W A : Type) : Type := gui W -> result (A * gui W).

Declare Scope gui_scope.
Delimit Scope gui_scope with gui.

Section Monad.
Context {W : Type}.

Definition ret {A} (a : A) : M W A := fun g => Ok (a, g).
Definition bind {A B} (c : M W A) (k : A -> M W B) : M W B := fun g =>
  match c g with Ok (a, g') => k a g' | Err e => Err e end.
Definition lift {A} (c : result A) : M W A := fun g => let! a := c in Ok (a, g).
Definition gets {A} (f : gui W -> A) : M W A := fun g => Ok (f g, g).
Definition modify (f : gui W -> gui W) : M W unit := fun g => Ok (tt, f g).
Definition fail {A} (e : fault) : M W A := fun _ => Err e.
End Monad.

Notation "'do' x <- c ; k" := (bind c (fun x => k)) (at level 10, x name, c at level 200, k at level 200) : gui_scope.
Notation "'do' ' p <- c ; k" := (bind c (fun x => match x with p => k end)) (at level 10, p pattern, c at level 200, k at level 200) : gui_scope.
Notation "c ;; k" := (bind c (fun _ => k)) (at level 100, k at level 200, right associativity) : gui_scope.
Open Scope gui_scope.

(** * Access to the heap *)

Section Heap.
Context {W : Type}.

Definition get_text_edit (p : ptr) : M W TextEdit := fun g => let! e := get (text_edits g) p in Ok (e, g).
Definition put_text_edit (p : ptr) (e : TextEdit) : M W unit := fun g =>
  let! h := put (text_edits g) p e in Ok (tt, set_text_edits g h).
Definition get_line_edit (p : ptr) : M W LineEdit := fun g => let! e := get (line_edits g) p in Ok (e, g).
Definition put_line_edit (p : ptr) (e : LineEdit) : M W unit := fun g =>
  let! h := put (line_edits g) p e in Ok (tt, set_line_edits g h).
Definition get_control (p : ptr) : M W FileNameControl := fun g => let! e := get (name_controls g) p in Ok (e, g).
Definition put_control (p : ptr) (e : FileNameControl) : M W unit := fun g =>
  let! h := put (name_controls g) p e in Ok (tt, set_name_controls g h).
Definition get_buffer (p : ptr) : M W FileBuffer := fun g => let! e := get (file_buffers g) p in Ok (e, g).
Definition put_buffer (p : ptr) (e : FileBuffer) : M W unit := fun g =>
  let! h := put (file_buffers g) p e in Ok (tt, set_file_buffers g h).
Definition get_button (p : ptr) : M W Button := fun g => let! e := get (button_heap g) p in Ok (e, g).
Definition put_button (p : ptr) (e : Button) : M W unit := fun g =>
  let! h := put (button_heap g) p e in Ok (tt, set_button_heap g h).

(** A pointer read from an array; null has nothing behind it. *)
Definition deref_ptr (o : option ptr) : M W ptr :=
  match o with Some p => ret p | None => fail NullDeref end.
Definition ptr_at (a : list (option ptr)) (i : Z) : M W ptr :=
  do o <- lift (get a i); deref_ptr o.

Definition new_text_edit (e : TextEdit) : M W ptr := fun g =>
  Ok (zlen (text_edits g), set_text_edits g (text_edits g ++ [e])).
Definition new_line_edit (e : LineEdit) : M W ptr := fun g =>
  Ok (zlen (line_edits g), set_line_edits g (line_edits g ++ [e])).
Definition new_control (c : FileNameControl) : M W ptr := fun g =>
  Ok (zlen (name_controls g), set_name_controls g (name_controls g ++ [c])).
Definition new_buffer (b : FileBuffer) : M W ptr := fun g =>
  Ok (zlen (file_buffers g), set_file_buffers g (file_buffers g ++ [b])).
Definition new_button (b : Button) : M W ptr := fun g =>
  Ok (zlen (button_heap g), set_button_heap g (button_heap g ++ [b])).

(** [for (i = lo; i < hi; ++i)] whose body may return from the function. *)
Fixpoint loop_ret {A} (k : nat) (i : Z) (body : Z -> M W (option A)) : M W (option A) :=
  match k with
  | O => ret None
  | S k' =>
      do o <- body i;
      match o with Some a => ret (Some a) | None => loop_ret k' (i + 1) body end
  end.
Definition for_ret {A} (lo hi : Z) (body : Z -> M W (option A)) : M W (option A) :=
  loop_ret (Z.to_nat (hi - lo)) lo body.

End Heap.
