(* ===== verification/Gui.v ===== *)
(** The handlers of the editor: src/src/Gui.c from [make_FileListBuffer] on.

    Each handler is a computation of the monad [M]; the value is the value
    returned by the C function where a caller reads it.  [fuel] bounds the
    loops that read files and directories, [junk] gives what the blocks that
    [make_TextEdit] gets from [malloc] hold. *)
From Stdlib Require Import String.
From S2P Require Import Prelude Ulib Sys Textframe Widgets Pinyin GuiState.
Open Scope Z_scope.
Open Scope gui_scope.

Section Gui.
Context {W : Type} `{!Sys W}.
Context (fuel : nat) (junk : nat -> TextEdit).

Abbreviation M := (M W).

(** * Calls *)

Definition sys {A} (f : W -> W * A) : M A := fun g =>
  let '(w, a) := f (world g) in Ok (a, set_world g w).

Definition sys_res {A} (f : W -> result (W * A)) : M A := fun g =>
  let! '(w, a) := f (world g) in Ok (a, set_world g w).

Definition File_isDir_ (filename : bytes) : M Z := sys_res (fun w => File_isDir w filename).

(** [LineEdit_set_str(edit->text, str)] *)
Definition line_edit_set_str (p : ptr) (s : bytes) : M unit :=
  do e <- get_line_edit p;
  do t <- lift (LineEdit_set_str (le_text e) s);
  put_line_edit p (mk_LineEdit (le_area e) t).

Definition text_edit_set_str (p : ptr) (s : bytes) : M unit :=
  do e <- get_text_edit p;
  do t <- lift (LineEdit_set_str (te_text e) s);
  put_text_edit p (set_text e t).

(** [edit->text->data[0]] *)
Definition line_edit_str (p : ptr) : M bytes :=
  do e <- get_line_edit p; lift (line (le_text e) 0).

Definition set_status (s : bytes) : M unit :=
  do b <- gets statusBar; line_edit_set_str (snd b) s.

(** [f] on the text of a TextEdit. *)
Definition edit_text (p : ptr) (f : textframe -> result textframe) : M unit :=
  do e <- get_text_edit p;
  do t <- lift (f (te_text e));
  put_text_edit p (set_text e t).

(** [memset(filepath, 0)]; [strcpy(filepath, a)]; [strcpy(filepath + strlen(filepath), b)] *)
Definition concat_path (a b : bytes) : result bytes :=
  let! m := strcpy (replicate 512 0) 0 a in
  let! k := strlen m in
  strcpy m k b.

(** * Constructors *)

Definition make_TextEdit_ : M ptr :=
  do k <- gets (fun g => length (text_edits g));
  do e <- lift (make_TextEdit (junk k));
  new_text_edit e.

Definition make_LineEdit_ : M ptr :=
  do e <- lift make_LineEdit; new_line_edit e.

Definition make_Button (parent : button_parent) : M ptr :=
  do p <- make_LineEdit_;
  new_button (mk_Button (mk_Area 0 0 100 20 0 0) p parent None).

Definition make_FileNameControl : M ptr :=
  do p <- make_LineEdit_;
  new_control (mk_FileNameControl (mk_Area 0 0 100 16 0 0) p (replicate 512 0)).

Definition make_FileBuffer : M ptr :=
  do p <- make_TextEdit_;
  do e <- get_text_edit p;
  put_text_edit p (set_te_area (set_scale e 0) (mk_Area 0 0 700 400 0 0)) ;;
  new_buffer (mk_FileBuffer (mk_Area 0 20 700 400 0 0) p (replicate 512 0)).

(** * The list of files *)

(** [stat] of ulib.c *)
Definition ustat (w : W) (n : bytes) : W * (Z * option stat) :=
  let '(w, fd) := sys_open w (cstr n) O_RDONLY in
  if fd <? 0 then (w, (-1, None))
  else
    let '(w, st) := sys_fstat w fd in
    let '(w, _) := sys_close w fd in
    (w, (match st with Some _ => 0 | None => -1 end, st)).

Definition DIRSIZ : Z := 14.

(** The offset of the name in a path: after its last slash. *)
Fixpoint name_start (k : nat) (p : bytes) : Z :=
  match k with
  | O => 0
  | S k' => if nth k' p 0 =? 47 then Z.of_nat k else name_start k' p
  end.

Definition fmtname (p : bytes) : result bytes :=
  let! len := strlen p in
  let! q := ptr_add p (name_start (S (Z.to_nat len)) p) in
  let! n := strlen q in
  if DIRSIZ <=? n then Ok q
  else
    let! b := memmove (replicate 15 0) 0 q 0 n in
    memset b n 0 (DIRSIZ - n).

(** [strcpy(buf, path); p = buf + strlen(buf); *p++ = '/']: the buffer and the
    offset of [p]. *)
Definition path_prefix (p : bytes) : result (bytes * Z) :=
  let! buf := strcpy (malloc 512) 0 p in
  let! k := strlen buf in
  let! buf := put buf k 47 in
  Ok (buf, k + 1).

(** A directory entry of 16 bytes: its inode number and its name. *)
Definition de_inum (de : bytes) : Z := nth 0 de 0 + 256 * nth 1 de 0.
Definition de_name (de : bytes) : bytes := drop 2 de.

(** [memmove(p, de.name, DIRSIZ); p[DIRSIZ] = 0] *)
Definition entry_path (buf : bytes) (k : Z) (de : bytes) : result bytes :=
  let! buf := memmove buf k (de_name de) 0 DIRSIZ in
  put buf (k + DIRSIZ) 0.

(** The number of entries that can be opened. *)
Fixpoint count_entries (fu : nat) (w : W) (fd : Z) (buf : bytes) (k n_files : Z) : result (W * Z) :=
  match fu with
  | O => Err OutOfFuel
  | S fu' =>
      let '(w, (r, de)) := sys_read w fd 16 in
      if negb (r =? 16) then Ok (w, n_files)
      else if de_inum de =? 0 then count_entries fu' w fd buf k n_files
      else
        let! buf := entry_path buf k de in
        let '(w, (ok, _)) := ustat w buf in
        count_entries fu' w fd buf k (if 0 <=? ok then n_files + 1 else n_files)
  end.

(** The control of the entry whose path is [buf]. *)
Definition add_entry (buf : bytes) (file_index : Z) : M unit :=
  do c <- make_FileNameControl;
  do l <- gets fileList;
  do fs <- lift (put (fl_files l) file_index (Some c));
  modify (fun g => set_fileList g (mk_FileListBuffer (fl_area l) (fl_n_files l) fs (file_selected l) (path l))) ;;
  do file <- get_control c;
  do name <- lift (fmtname buf);
  do old <- lift (strcpy (oldName file) 0 name);
  let a := fc_area file in
  put_control c (mk_FileNameControl
    (mk_Area (x a) (file_index * 16) (width a) (height a) (offset_x a) (offset_y a)) (fc_edit file) old) ;;
  line_edit_set_str (fc_edit file) old.

Fixpoint list_entries (fu : nat) (fd : Z) (buf : bytes) (k file_index : Z) : M Z :=
  match fu with
  | O => fail OutOfFuel
  | S fu' =>
      do '(r, de) <- sys (fun w => sys_read w fd 16);
      if negb (r =? 16) then ret file_index
      else if de_inum de =? 0 then list_entries fu' fd buf k file_index
      else
        do buf <- lift (entry_path buf k de);
        do '(ok, _) <- sys (fun w => ustat w buf);
        if 0 <=? ok then
          do name <- lift (fmtname buf);
          do cmp <- lift (strcmp name (str "console"));
          if cmp =? 0 then list_entries fu' fd buf k file_index
          else add_entry buf file_index ;; list_entries fu' fd buf k (file_index + 1)
        else list_entries fu' fd buf k file_index
  end.

(** [fd = open(path, 0); fstat(fd, &st)]: the descriptor and [st.type]. *)
Definition open_dir (p : bytes) : M (Z * Z) :=
  do fd <- sys (fun w => sys_open w (cstr p) 0);
  do st <- sys (fun w => sys_fstat w fd);
  match st with Some st => ret (fd, st_type st) | None => fail Uninit end.

Definition FileListBuffer_update_FileList : M unit :=
  do l <- gets fileList;
  do '(fd, ty) <- open_dir (path l);
  do n_files <-
    (if ty =? T_DIR then
       do '(buf, k) <- lift (path_prefix (path l));
       sys_res (fun w => count_entries fuel w fd buf k 0)
     else ret 0);
  modify (fun g => set_fileList g
    (mk_FileListBuffer (fl_area l) n_files (replicate (Z.to_nat n_files) None) (file_selected l) (path l))) ;;
  sys (fun w => sys_close w fd) ;;
  do '(fd, ty) <- open_dir (path l);
  do file_index <-
    (if ty =? T_DIR then
       do '(buf, k) <- lift (path_prefix (path l));
       list_entries fuel fd buf k 0
     else ret 0);
  modify (fun g => let l := fileList g in
    set_fileList g (mk_FileListBuffer (fl_area l) file_index (fl_files l) (file_selected l) (path l))) ;;
  sys (fun w => sys_close w fd) ;;
  ret tt.

Definition set_path (p : bytes) : M unit :=
  modify (fun g => let l := fileList g in
    set_fileList g (mk_FileListBuffer (fl_area l) (fl_n_files l) (fl_files l) (file_selected l) p)).

(** * Tabs *)

Definition with_switch (f : FileSwitchBar -> FileSwitchBar) : M unit :=
  modify (fun g => set_fileSwitch g (f (fileSwitch g))).

Definition set_current (o : option ptr) (s : FileSwitchBar) : FileSwitchBar :=
  mk_FileSwitchBar (sw_area s) (sw_buttons s) (sw_files s) (sw_n_files s) o (ifSearch s)
    (searchInput s) (search_area s) (search_edit s).

Definition set_tabs (bs fs : list (option ptr)) (n : Z) (s : FileSwitchBar) : FileSwitchBar :=
  mk_FileSwitchBar (sw_area s) bs fs n (current s) (ifSearch s) (searchInput s) (search_area s) (search_edit s).

Definition set_search (if_search input : Z) (s : FileSwitchBar) : FileSwitchBar :=
  mk_FileSwitchBar (sw_area s) (sw_buttons s) (sw_files s) (sw_n_files s) (current s) if_search
    input (search_area s) (search_edit s).

(** The name of tab [i], [buttons[i]->edit->text->data[0]]. *)
Definition tab_name (i : Z) : M bytes :=
  do s <- gets fileSwitch;
  do p <- ptr_at (sw_buttons s) i;
  do b <- get_button p;
  line_edit_str (bt_edit b).

(** 0 if a tab with this name was made current, -1 if there is none. *)
Definition FileSwitchBar_find_file (filename : bytes) : M Z :=
  do s <- gets fileSwitch;
  do o <- for_ret 0 (sw_n_files s) (fun i =>
    do name <- tab_name i;
    do c <- lift (strcmp name filename);
    if c =? 0 then
      do f <- lift (get (sw_files s) i);
      with_switch (set_current f) ;;
      ret (Some 0)
    else ret None);
  ret (match o with Some r => r | None => -1 end).

(** [cursor_focus = fileSwitch->current->edit; cursor_focus_type = 1] *)
Definition focus_current : M unit :=
  do s <- gets fileSwitch;
  do f <- deref_ptr (current s);
  do b <- get_buffer f;
  modify (fun g => set_cursor_focus g (Some (P_TextEdit (fb_edit b))) 1).

Definition FileBuffer_open_file (f : ptr) (name : bytes) : M unit :=
  do b <- get_buffer f;
  do fp <- lift (strcpy (filepathname b) 0 name);
  put_buffer f (mk_FileBuffer (fb_area b) (fb_edit b) fp) ;;
  do e <- get_text_edit (fb_edit b);
  do t <- sys_res (fun w => let! '(w, t, _) := textframe_read fuel w (te_text e) name in Ok (w, t));
  put_text_edit (fb_edit b) (set_text e t).

(** A new tab for a file. *)
Definition open_tab (filename : bytes) : M unit :=
  do s <- gets fileSwitch;
  let n := sw_n_files s in
  do b <- make_Button In_FileSwitchBar;
  do bt <- get_button b;
  put_button b (mk_Button (bt_area bt) (bt_edit bt) (bt_parent bt) (Some Button_exec_switch_to_file_)) ;;
  do bs <- lift (put (sw_buttons s) n (Some b));
  do f <- make_FileBuffer;
  do fs <- lift (put (sw_files s) n (Some f));
  with_switch (set_tabs bs fs n) ;;
  line_edit_set_str (bt_edit bt) filename ;;
  do l <- gets fileList;
  do filepath <- lift (concat_path (path l) filename);
  FileBuffer_open_file f filepath ;;
  with_switch (set_current (Some f)) ;;
  focus_current ;;
  with_switch (set_tabs bs fs (n + 1)).

(** Entering a directory: [.] stays, [..] goes to the root, any other name is
    appended to the path. *)
Definition enter_dir (filename : bytes) : M unit :=
  do dot <- lift (strcmp filename (str "."));
  do dotdot <- lift (strcmp filename (str ".."));
  do l <- gets fileList;
  (if dot =? 0 then ret tt
   else if dotdot =? 0 then do p <- lift (put (path l) 0 0); set_path p
   else
     do len <- lift (strlen filename);
     do sub <- lift (strcat filename (str "/") len 1);
     do k <- lift (strlen (path l));
     do p <- lift (strcpy (path l) k sub);
     set_path p) ;;
  FileListBuffer_update_FileList.

Definition FileSwitchBar_open_file (filename : bytes) : M Z :=
  do found <- FileSwitchBar_find_file filename;
  if found =? 0 then ret 0
  else
    do s <- gets fileSwitch;
    do regular <- (if sw_n_files s <? FILESWITCH_MAX_FILES then
                     do d <- File_isDir_ filename; ret (d =? 0)
                   else ret false);
    if regular : bool then open_tab filename ;; ret 0
    else
      do d <- File_isDir_ filename;
      if d =? 1 then enter_dir filename ;; ret 0 else ret (-1).

Definition FileBuffer_save_file (f : ptr) (name : bytes) : M unit :=
  do b <- get_buffer f;
  do e <- get_text_edit (fb_edit b);
  do t <- sys_res (fun w => let! '(w, t, _) := textframe_write w (te_text e) name in Ok (w, t));
  put_text_edit (fb_edit b) (set_text e t) ;;
  FileListBuffer_update_FileList.

(** Closing the tab of a button: the arrays are shifted from tab [i] on. *)
Definition close_tab (s : FileSwitchBar) (i : Z) : M unit :=
  if i =? sw_n_files s - 1 then
    if i =? 0 then with_switch (set_current None)
    else do f <- lift (get (sw_files s) (i - 1)); with_switch (set_current f)
  else
    do '(bs, fs) <- lift (for_up i (sw_n_files s)
      (fun j '(bs, fs) =>
         let! f := get fs (j + 1) in
         let! fs := put fs j f in
         let! b := get bs (j + 1) in
         let! bs := put bs j b in
         Ok (bs, fs)) (sw_buttons s, sw_files s));
    with_switch (set_tabs bs fs (sw_n_files s)) ;;
    do f <- lift (get fs i);
    with_switch (set_current f).

Definition handle_close_Button (p : ptr) : M Z :=
  do b <- get_button p;
  match bt_parent b with
  | In_ToolBar => ret (-1)
  | In_FileSwitchBar =>
      do s <- gets fileSwitch;
      do o <- for_ret 0 (sw_n_files s) (fun i =>
        do q <- lift (get (sw_buttons s) i);
        if bool_decide (q = Some p) then
          do f <- ptr_at (sw_files s) i;
          do fb <- get_buffer f;
          close_tab s i ;;
          text_edit_set_str (fb_edit fb) (str "") ;;
          line_edit_set_str (bt_edit b) (str "") ;;
          do s' <- gets fileSwitch;
          with_switch (set_tabs (sw_buttons s') (sw_files s') (sw_n_files s' - 1)) ;;
          ret (Some 0)
        else ret None);
      ret (match o with Some r => r | None => -1 end)
  end.

Definition Button_exec_switch_to_file (p : ptr) : M Z :=
  do s <- gets fileSwitch;
  do o <- for_ret 0 (sw_n_files s) (fun i =>
    do q <- lift (get (sw_buttons s) i);
    if bool_decide (q = Some p) then
      do f <- lift (get (sw_files s) i);
      with_switch (set_current f) ;;
      focus_current ;;
      ret (Some 0)
    else ret None);
  ret (match o with Some r => r | None => -1 end).

(** [FileSwitchBar_handle_tab]: the next tab, cyclically. *)
Definition FileSwitchBar_handle_tab : M Z :=
  do s <- gets fileSwitch;
  do o <- for_ret 0 (sw_n_files s) (fun i =>
    do f <- lift (get (sw_files s) i);
    if bool_decide (f = current s) then
      do nx <- lift (get (sw_files s) (Z.rem (i + 1) (sw_n_files s)));
      with_switch (set_current nx) ;;
      ret (Some 0)
    else ret None);
  ret (match o with Some r => r | None => -1 end).

(** * Renaming *)

(** The offset of the last slash of a path, -1 if there is none. *)
Definition last_slash (p : bytes) : result Z :=
  let! len := strlen p in
  for_up 0 len (fun j pos => let! b := get p j in Ok (if b =? 47 then j else pos)) (-1).

(** The tabs of the file that was renamed get the new name. *)
Definition rename_tab (filepath old new : bytes) (i : Z) : M (option unit) :=
  do name <- tab_name i;
  do c1 <- lift (strcmp name old);
  (if c1 =? 0 then
     do s <- gets fileSwitch;
     do f <- ptr_at (sw_files s) i;
     do fb <- get_buffer f;
     do c2 <- lift (strcmp filepath (filepathname fb));
     if c2 =? 0 then
       do p <- ptr_at (sw_buttons s) i;
       do b <- get_button p;
       line_edit_set_str (bt_edit b) new ;;
       do pos <- lift (last_slash (filepathname fb));
       do fp <- lift (strcpy (filepathname fb) (pos + 1) new);
       put_buffer f (mk_FileBuffer (fb_area fb) (fb_edit fb) fp)
     else ret tt
   else ret tt) ;;
  ret None.

Definition rename_FileNameControl (c : ptr) : M unit :=
  modify (fun g => set_isRename g 0) ;;
  do control <- get_control c;
  do fileflag <- File_isDir_ (oldName control);
  do new <- line_edit_str (fc_edit control);
  do cmp <- lift (strcmp new (oldName control));
  if cmp =? 0 then ret tt
  else if negb (fileflag =? 0) then ret tt
  else
    do l <- gets fileList;
    do k <- lift (strlen (path l));
    (if 0 <? k then do r <- sys (fun w => sys_chdir w (cstr (path l))); ret tt else ret tt) ;;
    do r1 <- sys (fun w => sys_link w (cstr (oldName control)) (cstr new));
    do r2 <- sys (fun w => sys_unlink w (cstr (oldName control)));
    do filepath <- lift (concat_path (path l) (oldName control));
    do s <- gets fileSwitch;
    do o <- for_ret 0 (sw_n_files s) (rename_tab filepath (oldName control) new);
    do r3 <- sys (fun w => sys_chdir w (cstr (str "/")));
    FileListBuffer_update_FileList.

(** * Buttons and the tool bar *)

Definition is_tool (tool_name : bytes) (s : string) : M bool :=
  do c <- lift (strcmp tool_name (str s)); ret (c =? 0).

(** "Zoom In" and "Zoom Out" on the current file. *)
Definition zoom (tool_name : bytes) : M unit :=
  do s <- gets fileSwitch;
  match current s with
  | None => ret tt
  | Some f =>
      do b <- get_buffer f;
      do e <- get_text_edit (fb_edit b);
      do zin <- is_tool tool_name "Zoom In";
      if zin : bool then
        if scale e <? MAX_SCALE then put_text_edit (fb_edit b) (set_scale e (scale e + 1))
        else set_status (str "Already Max Size")
      else
        do zout <- is_tool tool_name "Zoom Out";
        if zout : bool then
          if MIN_SCALE <? scale e then put_text_edit (fb_edit b) (set_scale e (scale e - 1))
          else set_status (str "Already Min Size")
        else ret tt
  end.

Definition toggle_highlight : M unit :=
  do cf <- gets cursor_focus;
  do ty <- gets cursor_focus_type;
  match cf with
  | None => ret tt
  | Some q =>
      if ty =? 1 then
        match q with
        | P_TextEdit p =>
            do e <- get_text_edit p;
            let hon := Z.lxor (highlight_on e) 1 in
            put_text_edit p (set_highlight_on e hon) ;;
            set_status (if negb (hon =? 0) then str "Highlight Mode On" else str "Highlight Mode Off")
        | P_LineEdit _ => fail OutOfBounds
        end
      else ret tt
  end.

Definition Button_exec_tool (p : ptr) : M Z :=
  do b <- get_button p;
  do tool_name <- line_edit_str (bt_edit b);
  do l <- gets fileList;
  do new_file <- is_tool tool_name "New File";
  do new_folder <- is_tool tool_name "New Folder";
  do save <- is_tool tool_name "Save";
  do highlight <- is_tool tool_name "Highlight";
  (if new_file : bool then
     do k <- lift (strlen (path l));
     do k2 <- lift (strlen (str "New File"));
     do full <- lift (strcat (path l) (str "New File") k k2);
     do fd <- sys (fun w => sys_open w (cstr full) O_CREATE);
     do r <- sys (fun w => sys_close w fd);
     FileListBuffer_update_FileList
   else if new_folder : bool then
     do k <- lift (strlen (path l));
     do k2 <- lift (strlen (str "NewFolder"));
     do full <- lift (strcat (path l) (str "NewFolder") k k2);
     FileListBuffer_update_FileList
   else if save : bool then
     match bt_parent b with
     | In_FileSwitchBar => ret tt
     | In_ToolBar =>
         do s <- gets fileSwitch;
         match current s with
         | Some f => do fb <- get_buffer f; FileBuffer_save_file f (filepathname fb)
         | None => ret tt
         end
     end
   else if highlight : bool then toggle_highlight
   else zoom tool_name) ;;
  ret (-1).

Definition handle_mouse_Button (p : ptr) (mouse_opt : Z) : M unit :=
  do b <- get_button p;
  match mouse_opt =? MOUSE_LEFT_PRESS, bt_exec b with
  | true, Some Button_exec_switch_to_file_ => do r <- Button_exec_switch_to_file p; ret tt
  | true, Some Button_exec_tool_ => do r <- Button_exec_tool p; ret tt
  | _, _ =>
      if mouse_opt =? MOUSE_RIGHT_PRESS then do r <- handle_close_Button p; ret tt else ret tt
  end.

(** The button of an array under the mouse. *)
Definition button_under (a : list (option ptr)) (px py mouse_opt i : Z) : M (option unit) :=
  do p <- ptr_at a i;
  do b <- get_button p;
  if is_pos_in_area (bt_area b) px py then handle_mouse_Button p mouse_opt ;; ret (Some tt)
  else ret None.

Definition handle_mouse_ToolBar (px py mouse_opt : Z) : M unit :=
  do tb <- gets toolBar;
  let '(px, py) := mouse_pos_transform (fst tb) px py in
  if mouse_opt =? MOUSE_LEFT_PRESS then
    do o <- for_ret 0 TOOL_NUM (button_under (Some <$> snd tb) px py mouse_opt); ret tt
  else ret tt.

(** * Edit boxes reached through pointers *)

Definition mouse_text_edit (p : ptr) (px py mouse_opt : Z) : M unit :=
  do e <- get_text_edit p;
  do '(e, fc) <- lift (handle_mouse_TextEdit e px py mouse_opt);
  put_text_edit p e ;;
  if fc : bool then modify (fun g => set_cursor_focus g (Some (P_TextEdit p)) 1) else ret tt.

Definition key_text_edit (p : ptr) (c : Z) : M unit :=
  do e <- get_text_edit p;
  do clip <- gets clipBoard;
  do '(e, clip) <- lift (handle_keyboard_TextEdit e clip c);
  put_text_edit p e ;;
  modify (fun g => set_clipBoard g clip).

Definition handle_mouse_FileNameControl (c : ptr) (px py : Z) : M unit :=
  do control <- get_control c;
  do e <- get_line_edit (fc_edit control);
  do e <- lift (handle_mouse_LineEdit e px py);
  put_line_edit (fc_edit control) e ;;
  modify (fun g => set_cursor_focus g (Some (P_LineEdit (fc_edit control))) 0).

Definition handle_keyboard_FileNameControl (p : ptr) (c : Z) : M unit :=
  do control <- get_control p;
  do e <- get_line_edit (fc_edit control);
  do e <- lift (handle_keyboard_LineEdit e c);
  put_line_edit (fc_edit control) e.

Definition select_file (o : option ptr) : M unit :=
  modify (fun g => let l := fileList g in
    set_fileList g (mk_FileListBuffer (fl_area l) (fl_n_files l) (fl_files l) o (path l))).

Definition handle_mouse_FileListBuffer (px py mouse_opt : Z) : M unit :=
  do l <- gets fileList;
  let '(px, py) := mouse_pos_transform (fl_area l) px py in
  do o <- for_ret 0 (fl_n_files l) (fun i =>
    do c <- ptr_at (fl_files l) i;
    do control <- get_control c;
    if is_pos_in_area (fc_area control) px py then
      select_file (Some c) ;;
      if mouse_opt =? MOUSE_LEFT_PRESS then
        do name <- line_edit_str (fc_edit control);
        do r <- FileSwitchBar_open_file name;
        ret (Some tt)
      else if mouse_opt =? MOUSE_RIGHT_PRESS then
        modify (fun g => set_isRename g 1) ;;
        handle_mouse_FileNameControl c px py ;;
        ret (Some tt)
      else ret None
    else ret None);
  ret tt.

Definition handle_keyboard_FileListBuffer (c : Z) : M unit :=
  do l <- gets fileList;
  match file_selected l with Some p => handle_keyboard_FileNameControl p c | None => ret tt end.

Definition handle_mouse_FileBuffer (f : ptr) (px py mouse_opt : Z) : M unit :=
  do b <- get_buffer f;
  let '(px, py) := mouse_pos_transform (fb_area b) px py in
  mouse_text_edit (fb_edit b) px py mouse_opt.

Definition handle_keyboard_FileBuffer (f : ptr) (c : Z) : M unit :=
  do b <- get_buffer f;
  if c =? CTRL_S then FileBuffer_save_file f (filepathname b) else key_text_edit (fb_edit b) c.

(** * Search *)

Definition handle_keyboard_SearchFrame (c : Z) : M unit :=
  do s <- gets fileSwitch;
  if c =? ENTER then
    match current s with
    | None => ret tt
    | Some f =>
        do b <- get_buffer f;
        do e <- get_text_edit (fb_edit b);
        do se <- get_text_edit (search_edit s);
        do pat <- lift (line (te_text se) 0);
        do '(t, r) <- lift (Search (te_text e) pat);
        let e := set_text e t in
        if 0 <=? r then
          do len <- lift (strlen pat);
          let row := cursor_row t in
          let col := cursor_col t in
          put_text_edit (fb_edit b)
            (set_selecting (set_points e row (col - len) row (col - 1)) 1) ;;
          modify (fun g => set_cursor_focus g (Some (P_TextEdit (fb_edit b))) 1)
        else
          put_text_edit (fb_edit b) e ;;
          set_status (str "No results.")
    end
  else key_text_edit (search_edit s) c.

Definition handle_mouse_SearchFrame (px py mouse_opt : Z) : M unit :=
  do s <- gets fileSwitch; mouse_text_edit (search_edit s) px py mouse_opt.

Definition handle_mouse_FileSwitchBar (px py mouse_opt : Z) : M unit :=
  do s <- gets fileSwitch;
  let '(px, py) := mouse_pos_transform (sw_area s) px py in
  do hit <-
    (if (mouse_opt =? MOUSE_LEFT_PRESS) || (mouse_opt =? MOUSE_RIGHT_PRESS) then
       for_ret 0 (sw_n_files s) (button_under (sw_buttons s) px py mouse_opt)
     else ret None);
  match hit, current s with
  | Some _, _ => ret tt
  | None, None => ret tt
  | None, Some f =>
      if negb (ifSearch s =? 0) && is_pos_in_area (search_area s) px py then
        with_switch (set_search (ifSearch s) 1) ;;
        handle_mouse_SearchFrame px py mouse_opt
      else
        do b <- get_buffer f;
        if is_pos_in_area (fb_area b) px py then handle_mouse_FileBuffer f px py mouse_opt else ret tt
  end.

Definition handle_keyboard_FileSwitchBar (c : Z) : M unit :=
  do s <- gets fileSwitch;
  if c =? TAB then do r <- FileSwitchBar_handle_tab; ret tt
  else if c =? CTRL_F then
    with_switch (set_search (if ifSearch s =? 0 then 1 else 0) (searchInput s)) ;;
    edit_text (search_edit s) move_to_end ;;
    modify (fun g => set_cursor_focus g (Some (P_TextEdit (search_edit s))) 0) ;;
    with_switch (fun s => set_search (ifSearch s) 1 s)
  else
    match current s with
    | Some f => if negb (searchInput s =? 0) then handle_keyboard_SearchFrame c else handle_keyboard_FileBuffer f c
    | None => ret tt
    end.

(** * The pinyin input method *)

Definition with_pinyin (f : PinyinInput -> PinyinInput) : M unit :=
  modify (fun g => set_pinyin g (f (pinyin g))).
Definition set_page (v : Z) (p : PinyinInput) : PinyinInput := mk_PinyinInput (py_area p) v (on p) (py_edit p).
Definition set_on (v : Z) (p : PinyinInput) : PinyinInput := mk_PinyinInput (py_area p) (page p) v (py_edit p).

(** [putc_to_str(text, c); move_to_next_char(text)] for each byte. *)
Fixpoint type_bytes (bs : bytes) (t : textframe) : result textframe :=
  match bs with
  | [] => Ok t
  | c :: bs' =>
      let! t := putc_to_str t c in
      let! t := move_to_next_char t in
      type_bytes bs' t
  end.

(** The candidate [i] of the page, shown in the second line. *)
Definition show_candidate (d : dict) (pg i : Z) (t : textframe) : result textframe :=
  let! py := line t 0 in
  let! '(r, han, _) := get_pinyin_ith_han d py (pg * ITEM_EVERY_PAGE + i) in
  match han with
  | Some (c1, c2) =>
      if 0 <=? r then
        let! t := move_to_pos t 1 (-1) in
        let! t := type_bytes [i + 1 + 48; 46; c1; c2] t in
        move_to_pos t 0 (-1)
      else Ok t
  | None => Ok t
  end.

Definition updateHanList (d : dict) (pg : Z) (t : textframe) : result textframe :=
  let! t := move_to_pos t 1 (-1) in
  let! t := clear_cur_line t in
  for_up 0 ITEM_EVERY_PAGE (show_candidate d pg) t.

Definition pinyin_updateHanList : M unit :=
  do p <- gets pinyin;
  do d <- gets pinyin_dict;
  edit_text (py_edit p) (updateHanList d (page p)).

(** [f] on the text the cursor focus points to: [LineEdit] and [TextEdit] have
    the same layout up to [text]. *)
Definition on_focus (q : edit_ptr) (f : textframe -> result textframe) : M unit :=
  match q with
  | P_TextEdit p => edit_text p f
  | P_LineEdit p =>
      do e <- get_line_edit p;
      do t <- lift (f (le_text e));
      put_line_edit p (mk_LineEdit (le_area e) t)
  end.

(** [while (text->data[0][count] == '\'') ++count;] *)
Fixpoint skip_quotes (fu : nat) (b : bytes) (count : Z) : result Z :=
  match fu with
  | O => Err OutOfFuel
  | S fu' => let! c := get b count in if c =? 39 then skip_quotes fu' b (count + 1) else Ok count
  end.

(** The bytes a key inserts and the number of letters it uses, if any. *)
Definition chosen (d : dict) (b : bytes) (pg c : Z) : result (option (bytes * Z)) :=
  if c =? ENTER then
    let! n := strlen b in Ok (Some (take (Z.to_nat n) b, n))
  else
    let! '(r, han, count) := get_pinyin_ith_han d b (c - 48 - 1 + pg * ITEM_EVERY_PAGE) in
    match han with
    | Some (c1, c2) =>
        if r =? -1 then Ok None
        else
          let h := [c1; c2; 0] in
          let! n := strlen h in
          Ok (Some (take (Z.to_nat n) h, count))
    | None => Ok None
    end.

Definition is_az (c : Z) : bool := (97 <=? c) && (c <=? 122).

(** 0 if the key was taken by the input method, -1 if not. *)
Definition handle_keyboard_pinyinInput (c : Z) : M Z :=
  do p <- gets pinyin;
  do d <- gets pinyin_dict;
  do e <- get_text_edit (py_edit p);
  do b <- lift (line (te_text e) 0);
  do b0 <- lift (get b 0);
  if (b0 =? 0) && negb (is_az c) then ret (-1)
  else if is_az c || (c =? BACKSPACE) || (c =? 44) || (c =? 46) || (c =? 39) then
    (if c =? 44 then
       if 0 <? page p then with_pinyin (set_page (page p - 1)) else ret tt
     else if c =? 46 then with_pinyin (set_page (page p + 1))
     else
       with_pinyin (set_page 0) ;;
       edit_text (py_edit p) (fun t => move_to_pos t 0 (-1)) ;;
       key_text_edit (py_edit p) c) ;;
    pinyin_updateHanList ;;
    ret 0
  else
    do cf <- gets cursor_focus;
    do ty <- gets cursor_focus_type;
    match cf with
    | Some q =>
        if ((c =? ENTER) || ((49 <=? c) && (c <=? 48 + ITEM_EVERY_PAGE))) && (0 <=? ty) && (ty <=? 1) then
          do o <- lift (chosen d b (page p) c);
          match o with
          | None => ret (-1)
          | Some (bs, count) =>
              on_focus q (type_bytes bs) ;;
              do e <- get_text_edit (py_edit p);
              do b <- lift (line (te_text e) 0);
              do count <- lift (skip_quotes (S (length b)) b count);
              do rest <- lift (ptr_add b count);
              edit_text (py_edit p) (fun t =>
                let! t := LineEdit_set_str t rest in
                let! t := move_to_pos t 0 (-1) in
                let! t := new_line_to_editor t in
                move_to_pos t 0 (-1)) ;;
              pinyin_updateHanList ;;
              ret 0
          end
        else ret (-1)
    | None => ret (-1)
    end.

(** * The buffer manager *)

Definition handle_mouse_BufferManager (px py mouse_opt : Z) : M unit :=
  let '(px, py) := mouse_pos_transform (mk_Area 0 0 800 600 0 0) px py in
  with_switch (fun s => set_search (ifSearch s) 0 s) ;;
  do cf <- gets cursor_focus;
  do ty <- gets cursor_focus_type;
  if (mouse_opt =? MOUSE_MOVE) && bool_decide (is_Some cf) && (ty =? 1) then
    handle_mouse_FileSwitchBar px py mouse_opt
  else
    do renaming <- gets isRename;
    do l <- gets fileList;
    (match file_selected l with
     | Some c =>
         if negb (renaming =? 0) then
           let '(x1, y1) := mouse_pos_transform (fl_area l) px py in
           do control <- get_control c;
           if negb (is_pos_in_area (fc_area control) x1 y1) then rename_FileNameControl c else ret tt
         else ret tt
     | None => ret tt
     end) ;;
    do s <- gets fileSwitch;
    (match current s with
     | Some f =>
         do b <- get_buffer f;
         do e <- get_text_edit (fb_edit b);
         put_text_edit (fb_edit b) (unselect e)
     | None => ret tt
     end) ;;
    do l <- gets fileList;
    do tb <- gets toolBar;
    if is_pos_in_area (sw_area s) px py then
      modify (fun g => set_focus g (Some Focus_fileSwitch)) ;;
      handle_mouse_FileSwitchBar px py mouse_opt
    else if is_pos_in_area (fl_area l) px py then
      modify (fun g => set_focus g (Some Focus_fileList)) ;;
      handle_mouse_FileListBuffer px py mouse_opt
    else if is_pos_in_area (fst tb) px py then
      modify (fun g => set_focus g (Some Focus_toolBar)) ;;
      handle_mouse_ToolBar px py mouse_opt
    else ret tt.

(** The keys the input method is asked about. *)
Definition pinyin_key (c : Z) : bool :=
  is_az c || ((48 <=? c) && (c <=? 57)) || (c =? ENTER) || (c =? BACKSPACE) ||
  (c =? 44) || (c =? 46) || (c =? 39).

Definition handle_keyboard_BufferManager (c : Z) : M unit :=
  set_status (str "") ;;
  do p <- gets pinyin;
  if c =? CTRL_P then
    let v := Z.lxor (on p) 1 in
    with_pinyin (set_on v) ;;
    set_status (if negb (v =? 0) then str "Chinese" else str "English")
  else
    do taken <-
      (if negb (on p =? 0) && pinyin_key c then
         do r <- handle_keyboard_pinyinInput c; ret (0 <=? r)
       else ret false);
    if taken : bool then ret tt
    else
      do renaming <- gets isRename;
      do fo <- gets focus;
      do l <- gets fileList;
      if negb (renaming =? 0) && bool_decide (fo = Some Focus_fileList)
      then handle_keyboard_FileListBuffer c
      else if bool_decide (fo = Some Focus_fileSwitch) then handle_keyboard_FileSwitchBar c
      else if c =? DELETE then
        match file_selected l with
        | Some q =>
            do control <- get_control q;
            do name <- line_edit_str (fc_edit control);
            do r <- sys (fun w => sys_unlink w (cstr name));
            FileListBuffer_update_FileList
        | None => ret tt
        end
      else ret tt.

(** One message of the main loop, after [get_msg]. *)
Definition handle_msg (msg : Z) : M unit :=
  let type := Z.shiftr msg 24 in
  let mx := Z.land (Z.shiftr msg 12) 0xfff in
  let my := Z.land msg 0xfff in
  if (MOUSE_LEFT_PRESS <=? type) && (type <=? MOUSE_MOVE) then handle_mouse_BufferManager mx my type
  else if type =? KEYBOARD then handle_keyboard_BufferManager (Z.land msg 0xffffff)
  else ret tt.

(** * Start-up *)

Definition make_FileListBuffer : M unit :=
  do p <- lift (put (malloc 512) 0 0);
  modify (fun g => set_fileList g (mk_FileListBuffer (mk_Area 10 30 90 570 0 0) 0 [] None p)) ;;
  FileListBuffer_update_FileList.

(** The SearchFrame: its area and its edit box. *)
Definition make_SearchFrame : M (Area * ptr) :=
  do e <- make_TextEdit_; ret (mk_Area 500 0 200 18 0 0, e).

Definition make_FileSwitchBar : M unit :=
  do '(a, e) <- make_SearchFrame;
  modify (fun g => set_fileSwitch g
    (mk_FileSwitchBar (mk_Area 115 23 700 700 0 0) (replicate 10 None) (replicate 10 None) 0 None 0 0 a e)).

Definition make_ToolBar : M unit :=
  do b0 <- make_Button In_ToolBar;
  do b1 <- make_Button In_ToolBar;
  do b2 <- make_Button In_ToolBar;
  do b3 <- make_Button In_ToolBar;
  do b4 <- make_Button In_ToolBar;
  do b5 <- make_Button In_ToolBar;
  modify (fun g => set_toolBar g (mk_Area 0 0 700 30 0 0, [b0; b1; b2; b3; b4; b5])).

Definition make_pinyinInput : M unit :=
  do e <- make_TextEdit_;
  do te <- get_text_edit e;
  put_text_edit e (set_te_area te (mk_Area 0 0 200 32 0 0)) ;;
  edit_text e (fun t =>
    let! t := LineEdit_set_str t (str "") in
    let! t := new_line_to_editor t in
    move_to_pos t 0 0) ;;
  modify (fun g => set_pinyin g (mk_PinyinInput (mk_Area 600 548 200 32 0 0) 0 0 e)).

Definition make_StatusBar : M unit :=
  do e <- make_LineEdit_;
  modify (fun g => set_statusBar g (mk_Area 0 580 800 20 0 0, e)).

Definition make_BufferManager : M unit :=
  make_FileListBuffer ;;
  modify (fun g => set_clipBoard g None) ;;
  make_FileSwitchBar ;;
  make_ToolBar ;;
  make_pinyinInput ;;
  make_StatusBar ;;
  do sb <- gets statusBar;
  do e <- get_line_edit (snd sb);
  let a := le_area e in
  put_line_edit (snd sb) (mk_LineEdit (mk_Area (x a) (y a) 800 (height a) (offset_x a) (offset_y a)) (le_text e)) ;;
  modify (fun g => set_focus g None).

(** The state before [make_BufferManager]; every field it sets is overwritten. *)
Definition blank (w : W) (d : dict) : gui W :=
  let z := mk_Area 0 0 0 0 0 0 in
  mk_gui w [] [] [] [] [] (mk_FileListBuffer z 0 [] None [])
    (mk_FileSwitchBar z [] [] 0 None 0 0 z 0) (z, []) (z, 0) (mk_PinyinInput z 0 0 0)
    None None None 0 0 d.

End Gui.
