(* ===== verification/GuiDraw.v ===== *)
(** Drawing: the [draw_*] functions of src/src/Gui.c.

    They call the drawing system calls of the kernel (module [Draw]) on the
    screen, and adjust the scroll offsets of the boxes and the areas of the
    buttons on the way. *)
From Stdlib Require Import String.
From S2P Require Import Prelude Ulib Sys Textframe Widgets Draw Highlight Pinyin GuiState Gui.
Open Scope Z_scope.

(** What the drawing functions only read. *)
Record assets := mk_assets { as_fonts : fonts; as_trie : trie }.

(** [drawrect(AREA_ARGS(area), color)], the result ignored. *)
Definition rect (s : screen) (a : Area) (color : Z) : result screen :=
  ignore (drawrect s (x a) (y a) (width a) (height a) color).

(** The 128 cells of a glyph of [char_to_area]. *)
Definition glyph (f : fonts) (off : Z) : result (list Z) :=
  if (0 <=? off) && (off + 128 <=? GLYPHS_LEN)
  then Ok ((fun k => char_to_area f (off + Z.of_nat k)) <$> seq 0 128) else Err OutOfBounds.

(** The 32 bytes of a bitmap of [gbk_to_point]. *)
Definition bitmap (f : fonts) (off : Z) : result (list Z) :=
  if (0 <=? off) && (off + 32 <=? GBK_LEN)
  then Ok ((fun k => gbk_to_point f (off + Z.of_nat k)) <$> seq 0 32) else Err OutOfBounds.

(** The cell of the text at [(r, c)]. *)
Definition cell (cw ch r c w : Z) : Area := mk_Area (s32 (c * cw)) (s32 (r * ch)) w ch 0 0.

(** * Scrolling to the cursor *)

Definition visible (a : Area) : bool :=
  negb ((height a <=? 0) || (width a <=? 0) || (x a <? 0) || (y a <? 0)).

(** The offsets that put the cursor at the bottom right of the box. *)
Definition scroll_to (a area : Area) (r c cw ch : Z) : Area :=
  mk_Area (x a) (y a) (width a) (height a)
    (Z.max 0 (s32 (s32 (s32 (c * cw) - width area) + cw)))
    (Z.max 0 (s32 (s32 (s32 (r * ch) - height area) + ch))).

(** At most [k] attempts; the area of the box, where it is drawn, and the
    area of the cursor. *)
Fixpoint scroll (k : nat) (parent a : Area) (r c cw ch w : Z) (cur : Area) : Area * Area * Area :=
  let area := calc_current_area parent a in
  match k with
  | O => (a, area, cur)
  | S k' =>
      let cur := calc_current_area area (cell cw ch r c w) in
      if visible cur then (a, area, cur)
      else scroll k' parent (scroll_to a area r c cw ch) r c cw ch w cur
  end.

(** * The multi-line edit box *)

(** [strlen(edit->text->data[r])] *)
Definition row_len (t : textframe) (r : Z) : result Z := let! b := line t r in strlen b.

Definition GREY : Z := RGB 0xa0 0xa0 0xa0.

(** The rectangles of a selection, with the points in order. *)
Definition draw_selection (e : TextEdit) (area : Area) (cw ch : Z) (s : screen) : result screen :=
  let t := te_text e in
  let r1 := point1_row e in let c1 := point1_col e in
  let r2 := point2_row e in let c2 := point2_col e in
  let show (s : screen) (a : Area) := rect s (calc_current_area area a) GREY in
  if r1 =? r2 then
    let wid := s32 (s32 (s32 (c2 - c1) + 1) * cw) in
    let! len := row_len t r1 in
    let c1 := if len <=? c1 then len - 1 else c1 in
    let res_len := s32 (cw * s32 (len - c1)) in
    let wid := if res_len <? wid then res_len else wid in
    let wid := if wid =? 0 then cw else wid in
    show s (cell cw ch r1 c1 wid)
  else
    let! len := row_len t r1 in
    let c1 := if len <=? c1 then len - 1 else c1 in
    let! s := show s (cell cw ch r1 c1 (s32 (cw * s32 (len - c1)))) in
    let! len := row_len t r2 in
    let c2 := if len <=? c2 then len - 1 else c2 in
    let! s := show s (cell cw ch r2 0 (s32 (s32 (1 + c2) * cw))) in
    for_up (r1 + 1) r2
      (fun i s => let! len := row_len t i in show s (cell cw ch i 0 (s32 (cw * len)))) s.

(** The state of the highlighter along a row: [status], [highlight_c],
    [count] and [hc]. *)
Definition hl := (Z * Z * Z * Z)%type.

(** [while (hc <= len) ...] *)
Fixpoint hl_advance (fu : nat) (t : trie) (b : bytes) (len : Z) (h : hl) : result hl :=
  match fu with
  | O => Ok h
  | S fu' =>
      let '(status, color, count, hc) := h in
      if hc <=? len then
        let! ch := get b hc in
        let! '(status, color, count, res) := highlight_update t ch status color count in
        let hc := hc + 1 in
        if 0 <=? res then Ok (status, color, count, hc)
        else
          let '(color, count) := if hc =? len + 1 then (0, 0) else (color, count) in
          hl_advance fu' t b len (status, color, count, hc)
      else Ok h
  end.

(** One character of row [r]: drawn only where it fits. *)
Definition draw_char (A : assets) (area : Area) (cw ch r col : Z) (is_han : bool) (color c c2 : Z)
    (s : screen) : result screen :=
  let w := if is_han then s32 (cw * 2) else cw in
  let a := calc_current_area area (cell cw ch r col w) in
  if (0 <=? x a) && (0 <=? y a) && (width a =? w) && (height a =? ch) then
    if is_han then
      let! bm := bitmap (as_fonts A) (get_gbk_point_by_c1_c2 c c2) in
      drawgbk_color s (x a) (y a) (width a) (height a) color bm
    else
      let! g := glyph (as_fonts A) (get_text_area c) in
      drawarea_color s (x a) (y a) (width a) (height a) color g
  else Ok s.

Fixpoint draw_cols (fu : nat) (A : assets) (e : TextEdit) (area : Area) (cw ch : Z)
    (b : bytes) (len r col : Z) (h : hl) (s : screen) : result screen :=
  match fu with
  | O => Ok s
  | S fu' =>
      if col <? len then
        let! c := get b col in
        let! h :=
          if (snd h <=? col) && negb (highlight_on e =? 0)
          then hl_advance (Z.to_nat (len + 1)) (as_trie A) b len h else Ok h in
        let '(_, hcolor, count, hc) := h in
        let color := if hc <=? col + count + 1 then hcolor else 0 in
        let! '(is_han, c2) :=
          if (160 <=? c) && (col + 1 <? len) then
            let! c2 := get b (col + 1) in Ok (160 <=? c2, c2)
          else Ok (false, 0) in
        let! s := draw_char A area cw ch r col is_han color c c2 s in
        draw_cols fu' A e area cw ch b len r (if is_han : bool then col + 2 else col + 1) h s
      else Ok s
  end.

Definition draw_rows (A : assets) (e : TextEdit) (area : Area) (cw ch : Z) (s : screen) : result screen :=
  for_up 0 (maxrow (te_text e))
    (fun r s =>
       let! b := line (te_text e) r in
       let! len := strlen b in
       draw_cols (Z.to_nat len) A e area cw ch b len r 0 (0, 0, 0, 0) s) s.

(** [draw_TextEdit]; [focused] is [edit == cursor_focus].  The points are put
    in order to draw the selection and then restored. *)
Definition draw_TextEdit (A : assets) (e : TextEdit) (focused : bool) (parent_area : Area) (s : screen)
  : result (TextEdit * screen) :=
  let '(cw, ch) := font_size (scale e) in
  let area := calc_current_area parent_area (te_area e) in
  let! s := rect s area 131071 in
  let! '(e, area, s) :=
    if focused then
      let t := te_text e in
      let '(a, area, cur) :=
        scroll 10 parent_area (te_area e) (cursor_row t) (cursor_col t) cw ch 1 (mk_Area 0 0 0 0 0 0) in
      let e := set_te_area e a in
      let! s := rect s cur (RGB 0 0 0) in
      let! s :=
        if negb (point2_col e =? -1) then draw_selection (TextEdit_adjust_col_row e) area cw ch s else Ok s in
      Ok (e, area, s)
    else Ok (e, area, s) in
  let! s := draw_rows A e area cw ch s in
  Ok (e, s).

(** * The one-line edit box *)

Definition draw_line_row (A : assets) (area : Area) (b : bytes) (len r : Z) (s : screen) : result screen :=
  for_up 0 len
    (fun col s =>
       let! c := get b col in
       let a := calc_current_area area (cell 8 16 r col 8) in
       if (0 <=? x a) && (0 <=? y a) && (width a =? 8) && (height a =? 16) then
         let! g := glyph (as_fonts A) (get_text_area c) in
         drawarea s (x a) (y a) (width a) (height a) g
       else Ok s) s.

Definition draw_LineEdit (A : assets) (e : LineEdit) (focused : bool) (parent_area : Area) (s : screen)
  : result (LineEdit * screen) :=
  let area := calc_current_area parent_area (le_area e) in
  let! s := rect s area 131071 in
  let t := le_text e in
  let! '(e, area, s) :=
    if focused then
      let '(a, area, cur) :=
        scroll 10 parent_area (le_area e) (cursor_row t) (cursor_col t) 8 16 8 (mk_Area 0 0 0 0 0 0) in
      let! s := rect s cur GREY in
      Ok (mk_LineEdit a t, area, s)
    else Ok (e, area, s) in
  let! s :=
    for_up 0 (maxrow t)
      (fun r s => let! b := line t r in let! len := strlen b in draw_line_row A area b len r s) s in
  Ok (e, s).

(** * The widgets *)

Section Widgets.
Context {W : Type} `{!Sys W}.
Context (A : assets).

(** The state of the application and the screen. *)
Definition D := (gui W * screen)%type.

Definition run_gui {B} (c : M W B) (d : D) : result (B * D) :=
  let! '(b, g) := c (fst d) in Ok (b, (g, snd d)).

Definition draw_rect (d : D) (a : Area) (color : Z) : result D :=
  let! s := rect (snd d) a color in Ok (fst d, s).

Definition draw_text_edit (p : ptr) (area : Area) (d : D) : result D :=
  let! e := get (text_edits (fst d)) p in
  let focused := bool_decide (cursor_focus (fst d) = Some (P_TextEdit p)) in
  let! '(e, s) := draw_TextEdit A e focused area (snd d) in
  let! h := put (text_edits (fst d)) p e in
  Ok (set_text_edits (fst d) h, s).

Definition draw_line_edit (p : ptr) (area : Area) (d : D) : result D :=
  let! e := get (line_edits (fst d)) p in
  let focused := bool_decide (cursor_focus (fst d) = Some (P_LineEdit p)) in
  let! '(e, s) := draw_LineEdit A e focused area (snd d) in
  let! h := put (line_edits (fst d)) p e in
  Ok (set_line_edits (fst d) h, s).

Definition draw_FileNameControl (p : ptr) (area : Area) (d : D) : result D :=
  let! c := get (name_controls (fst d)) p in
  draw_line_edit (fc_edit c) (calc_current_area area (fc_area c)) d.

Definition null_check (o : option ptr) : result ptr :=
  match o with Some p => Ok p | None => Err NullDeref end.

Definition draw_FileListBuffer (area : Area) (d : D) : result D :=
  let l := fileList (fst d) in
  let area := calc_current_area area (fl_area l) in
  let! d := draw_rect d (mk_Area 100 20 2 680 0 0) (RGB 0 0 0) in
  let! d := draw_rect d (mk_Area 0 20 800 2 0 0) (RGB 0 0 0) in
  for_up 0 (fl_n_files l)
    (fun i d => let! o := get (fl_files l) i in let! p := null_check o in draw_FileNameControl p area d) d.

Definition draw_FileBuffer (f : ptr) (area : Area) (d : D) : result D :=
  let! b := get (file_buffers (fst d)) f in
  draw_text_edit (fb_edit b) (calc_current_area area (fb_area b)) d.

Definition draw_SearchFrame (area : Area) (d : D) : result D :=
  let s := fileSwitch (fst d) in
  let area := calc_current_area area (search_area s) in
  let! d := draw_rect d area 59196 in
  draw_text_edit (search_edit s) area d.

Definition draw_Button (p : ptr) (area : Area) (d : D) : result D :=
  let! b := get (button_heap (fst d)) p in
  draw_line_edit (bt_edit b) (calc_current_area area (bt_area b)) d.

(** [button->area.x = bx] *)
Definition place_button (p : ptr) (bx : Z) (d : D) : result D :=
  let! b := get (button_heap (fst d)) p in
  let a := bt_area b in
  let! h := put (button_heap (fst d)) p
    (mk_Button (mk_Area bx (y a) (width a) (height a) (offset_x a) (offset_y a)) (bt_edit b) (bt_parent b) (bt_exec b)) in
  Ok (set_button_heap (fst d) h, snd d).

Definition button_width (p : ptr) (d : D) : result Z :=
  let! b := get (button_heap (fst d)) p in Ok (width (bt_area b)).

Definition draw_FileSwitchBar (area : Area) (d : D) : result D :=
  let s := fileSwitch (fst d) in
  let area := calc_current_area area (sw_area s) in
  let! '(d, _) :=
    for_up 0 (sw_n_files s)
      (fun i '(d, bx) =>
         let! o := get (sw_buttons s) i in
         let! p := null_check o in
         let! d := place_button p bx d in
         let! d := draw_Button p area d in
         let! w := button_width p d in
         Ok (d, s32 (bx + w))) (d, 0) in
  match current s with
  | Some f =>
      let! d := draw_FileBuffer f area d in
      if negb (ifSearch s =? 0) then draw_SearchFrame area d else Ok d
  | None => Ok d
  end.

Definition tools : list bytes :=
  [str "New File"; str "New Folder"; str "Save"; str "Highlight"; str "Zoom In"; str "Zoom Out"].

(** [buttons[i]->exec = Button_exec_tool] *)
Definition set_exec (p : ptr) (d : D) : result D :=
  let! b := get (button_heap (fst d)) p in
  let! h := put (button_heap (fst d)) p (mk_Button (bt_area b) (bt_edit b) (bt_parent b) (Some Button_exec_tool_)) in
  Ok (set_button_heap (fst d) h, snd d).

Definition draw_ToolBar (area : Area) (d : D) : result D :=
  let '(a, bs) := toolBar (fst d) in
  let area := calc_current_area area a in
  let! '(d, _) :=
    for_up 0 TOOL_NUM
      (fun i '(d, bx) =>
         let! p := get bs i in
         let! d := place_button p bx d in
         let! d := draw_Button p area d in
         let! d := set_exec p d in
         let! name := get tools i in
         let! b := get (button_heap (fst d)) p in
         let! '(_, d) := run_gui (line_edit_set_str (bt_edit b) name) d in
         let! w := button_width p d in
         Ok (d, s32 (bx + w))) (d, 0) in
  Ok d.

Definition draw_pinyinInput (area : Area) (d : D) : result D :=
  let p := pinyin (fst d) in
  let area := calc_current_area area (py_area p) in
  let! d := draw_rect d area 59196 in
  draw_text_edit (py_edit p) area d.

Definition draw_StatusBar (area : Area) (d : D) : result D :=
  let '(a, e) := statusBar (fst d) in
  let area := calc_current_area area a in
  let! d := draw_rect d area 59196 in
  draw_line_edit e area d.

Definition draw_BufferManager (area : Area) (d : D) : result D :=
  let area := calc_current_area area (mk_Area 0 0 800 600 0 0) in
  let! d := draw_rect d area (RGB 255 255 255) in
  let! d := draw_FileListBuffer area d in
  let! d := draw_FileSwitchBar area d in
  let! d := draw_ToolBar area d in
  let! d := draw_pinyinInput area d in
  draw_StatusBar area d.

End Widgets.
