(* ===== verification/GuiProps.v ===== *)
(** Properties of the widgets: areas, scrolling, tabs, search. *)
From stdpp Require Import gmap.
From Stdlib Require Import String.
From S2P Require Import Prelude Ulib Sys Textframe TextLemmas TextSpec TextRefine TextRange TextFile Widgets TextSession TextProps Draw Pinyin GuiState Gui GuiDraw.
Open Scope Z_scope.

Open Scope gui_scope.

(** * Areas *)

(** The point [(px, py)] of the screen is in an area. *)
Definition covers (a : Area) (px py : Z) : Prop :=
  x a <= px < x a + width a /\ y a <= py < y a + height a.

(** The place and the size of an area are within [B], its offsets within [O]. *)
Definition area_le (B O : Z) (a : Area) : Prop :=
  - B <= x a <= B /\ - B <= y a <= B /\ - B <= width a <= B /\ - B <= height a <= B /\
  - O <= offset_x a <= O /\ - O <= offset_y a <= O.

(** What [calc_current_area] computes when nothing overflows. *)
Definition place (p a : Area) : Area :=
  let dx := x a - offset_x p in
  let dy := y a - offset_y p in
  mk_Area (x p + dx) (y p + dy)
    (if dx <? 0 then 0 else Z.min (width a) (width p - dx))
    (Z.min (height a) (if dy <? 0 then 0 else height p - dy)) (offset_x a) (offset_y a).

Lemma calc_exact p a :
  area_le (2 ^ 25) (2 ^ 28) p -> area_le (2 ^ 28) (2 ^ 28) a -> calc_current_area p a = place p a.
Proof.
  intros (P1 & P2 & P3 & P4 & P5 & P6) (A1 & A2 & A3 & A4 & A5 & A6). unfold calc_current_area, place. cbv zeta.
  rewrite (s32_small (x a - _)), (s32_small (y a - _)) by lia.
  rewrite !s32_small by lia. f_equal; repeat case_match; repeat match goal with
    | H : (_ <? _) = true |- _ => apply Z.ltb_lt in H
    | H : (_ <? _) = false |- _ => apply Z.ltb_ge in H end; lia.
Qed.

(** Case analysis on the tests of [place]. *)
Ltac place_cases :=
  unfold place; cbn [x y width height offset_x offset_y];
  repeat match goal with |- context [?a <? ?b] => destruct (Z.ltb_spec a b) end.

(** A child is clipped to its parent: every point of the area computed for
    the child lies in the area of the parent, and the area is no larger than
    the child asks for. *)
Theorem child_inside_parent parent child px py :
  area_le (2 ^ 25) (2 ^ 28) parent -> area_le (2 ^ 28) (2 ^ 28) child ->
  covers (calc_current_area parent child) px py ->
  covers parent px py /\
  width (calc_current_area parent child) <= Z.max 0 (width child) /\
  height (calc_current_area parent child) <= Z.max 0 (height child).
Proof.
  intros Hp Hc. rewrite calc_exact by done. unfold covers. place_cases; lia.
Qed.

Lemma child_inside_parent_witness :
  covers (mk_Area 115 43 685 400 0 0) 200 100 /\
  covers (mk_Area 115 23 685 577 0 0) 200 100 /\
  width (mk_Area 115 43 685 400 0 0) <= 700 /\ height (mk_Area 115 43 685 400 0 0) <= 400.
Proof.
  split; [vm_compute; intuition discriminate|].
  apply (child_inside_parent (mk_Area 115 23 685 577 0 0) (mk_Area 0 20 700 400 0 0) 200 100);
    vm_compute; intuition discriminate.
Defined.

Lemma scroll_to_exact a area r c cw ch :
  area_le (2 ^ 25) (2 ^ 28) area -> 0 <= c * cw <= 2 ^ 27 -> 0 <= r * ch <= 2 ^ 27 -> 0 <= cw <= 64 -> 0 <= ch <= 64 ->
  scroll_to a area r c cw ch = mk_Area (x a) (y a) (width a) (height a)
    (Z.max 0 (c * cw - width area + cw)) (Z.max 0 (r * ch - height area + ch)).
Proof.
  intros (P1 & P2 & P3 & P4 & P5 & P6) Hc Hr Hw Hh. unfold scroll_to.
  rewrite (s32_small (c * cw)), (s32_small (r * ch)) by lia.
  rewrite (s32_small (c * cw - _)), (s32_small (r * ch - _)) by lia. by rewrite !s32_small by lia.
Qed.

Lemma cell_exact cw ch r c w :
  - 2 ^ 28 <= c * cw <= 2 ^ 28 -> - 2 ^ 28 <= r * ch <= 2 ^ 28 -> cell cw ch r c w = mk_Area (c * cw) (r * ch) w ch 0 0.
Proof. intros Hc Hr. unfold cell. by rewrite !s32_small by lia. Qed.

Lemma cell_le cw ch r c w :
  - 2 ^ 28 <= c * cw <= 2 ^ 28 -> - 2 ^ 28 <= r * ch <= 2 ^ 28 -> - 2 ^ 28 <= w <= 2 ^ 28 -> - 2 ^ 28 <= ch <= 2 ^ 28 ->
  area_le (2 ^ 28) (2 ^ 28) (cell cw ch r c w).
Proof. intros Hc Hr Hw Hh. rewrite cell_exact by done. unfold area_le. cbn. lia. Qed.

(** An area computed for a child is bounded by its parent and the child. *)
Lemma place_le B O B' O' p a :
  area_le B O p -> area_le B' O' a -> area_le (B + B' + O) O' (place p a).
Proof. unfold area_le. intros (P1 & P2 & P3 & P4 & P5 & P6) (A1 & A2 & A3 & A4 & A5 & A6). place_cases; lia. Qed.

Lemma area_le_mono B O B' O' a : area_le B O a -> B <= B' -> O <= O' -> area_le B' O' a.
Proof. unfold area_le. lia. Qed.

(** Where the offsets of a box go. *)
Lemma scroll_to_le B a area r c cw ch :
  area_le B (2 ^ 28) a -> area_le (2 ^ 25) (2 ^ 28) area ->
  0 <= c * cw <= 2 ^ 27 -> 0 <= r * ch <= 2 ^ 27 -> 0 <= cw <= 64 -> 0 <= ch <= 64 ->
  area_le B (2 ^ 28) (scroll_to a area r c cw ch).
Proof.
  intros Ha Hp Hc Hr Hw Hh. rewrite scroll_to_exact by done. revert Ha Hp. unfold area_le. cbn. lia.
Qed.

Section Scrolling.
Context (parent a : Area) (r c cw ch w : Z).
Hypothesis Hparent : area_le (2 ^ 24) (2 ^ 20) parent.
Hypothesis Ha : area_le (2 ^ 20) (2 ^ 28) a.
Hypothesis Hcw : 0 < cw <= 64.
Hypothesis Hch : 0 < ch <= 64.
Hypothesis Hr : 0 <= r < 2 ^ 21.
Hypothesis Hc : 0 <= c < 2 ^ 21.
Hypothesis Hw1 : 0 < w <= 64.

(** Where a box of the size of [a] is drawn. *)
Lemma box_exact a' :
  area_le (2 ^ 20) (2 ^ 28) a' ->
  calc_current_area parent a' = place parent a' /\ area_le (2 ^ 25) (2 ^ 28) (place parent a').
Proof.
  intros H. split.
  - apply calc_exact; (eapply area_le_mono; [eassumption | lia | lia]).
  - eapply area_le_mono; [by eapply place_le | lia | lia].
Qed.

Lemma cells_range : 0 <= c * cw <= 2 ^ 27 /\ 0 <= r * ch <= 2 ^ 27.
Proof. nia. Qed.

Lemma scrolled_visible :
  let area := calc_current_area parent a in
  cw <= width area -> ch <= height area -> 0 <= x area -> 0 <= y area ->
  visible (calc_current_area (calc_current_area parent (scroll_to a area r c cw ch)) (cell cw ch r c w)) = true.
Proof.
  intros area. subst area. destruct (box_exact a Ha) as [-> Hb]. destruct cells_range as [Hc1 Hr1].
  intros Hw Hh Hx Hy.
  assert (area_le (2 ^ 20) (2 ^ 28) (scroll_to a (place parent a) r c cw ch)) as Hs by (apply scroll_to_le; (done || lia)).
  destruct (box_exact _ Hs) as [-> Hb'].
  rewrite calc_exact; [|done | apply cell_le; lia].
  rewrite scroll_to_exact by (done || lia). rewrite cell_exact by lia.
  set (area := place parent a) in *.
  assert (place parent (mk_Area (x a) (y a) (width a) (height a)
      (Z.max 0 (c * cw - width area + cw)) (Z.max 0 (r * ch - height area + ch))) =
    mk_Area (x area) (y area) (width area) (height area)
      (Z.max 0 (c * cw - width area + cw)) (Z.max 0 (r * ch - height area + ch))) as -> by done.
  clearbody area. unfold visible. apply negb_true_iff. rewrite !orb_false_iff, !Z.leb_gt, !Z.ltb_ge. place_cases; lia.
Qed.

(** The box scrolls to its cursor: when at least one character cell of the
    box is on the screen, the loop of [draw_TextEdit] ends (after at most two
    of its ten rounds) with offsets for which the cursor is visible. *)
Theorem cursor_visible k cur0 :
  let area := calc_current_area parent a in
  (2 <= k)%nat -> cw <= width area -> ch <= height area -> 0 <= x area -> 0 <= y area ->
  let '(a', area', cur) := scroll k parent a r c cw ch w cur0 in
  visible cur = true /\ area' = calc_current_area parent a' /\ cur = calc_current_area area' (cell cw ch r c w) /\
  x a' = x a /\ y a' = y a /\ width a' = width a /\ height a' = height a.
Proof.
  intros area Hk Hw Hh Hx Hy. destruct k as [|[|k]]; [lia | lia |]. cbn [scroll]. fold area.
  destruct (visible (calc_current_area area (cell cw ch r c w))) eqn:E; [done|].
  pose proof (scrolled_visible Hw Hh Hx Hy) as Hv. fold area in Hv. rewrite Hv. done.
Qed.
End Scrolling.

Lemma cursor_visible_witness :
  let '(a', area', cur) := scroll 10 (mk_Area 115 43 685 400 0 0) (mk_Area 0 0 700 400 0 0) 100 200 8 16 1 (mk_Area 0 0 0 0 0 0) in
  visible cur = true /\ area' = calc_current_area (mk_Area 115 43 685 400 0 0) a' /\
  cur = calc_current_area area' (cell 8 16 100 200 1) /\ x a' = 0 /\ y a' = 0 /\ width a' = 700 /\ height a' = 400.
Proof.
  apply (cursor_visible (mk_Area 115 43 685 400 0 0) (mk_Area 0 0 700 400 0 0) 100 200 8 16 1); try lia;
    vm_compute; intuition discriminate.
Defined.

(** * Tabs *)

(** The tab bar shows the tabs [ts] (button and file), in this order. *)
Record tabs (s : FileSwitchBar) (ts : list (ptr * ptr)) : Prop := {
  tabs_n : sw_n_files s = zlen ts;
  tabs_max : zlen ts <= FILESWITCH_MAX_FILES;
  tabs_buttons : exists rest, sw_buttons s = (Some <$> ts.*1) ++ rest /\ zlen (sw_buttons s) = 10;
  tabs_files : exists rest, sw_files s = (Some <$> ts.*2) ++ rest /\ zlen (sw_files s) = 10;
}.

Lemma tab_file s ts i b f :
  tabs s ts -> 0 <= i -> ts !! Z.to_nat i = Some (b, f) -> get (sw_files s) i = Ok (Some f).
Proof.
  intros [_ _ _ (rest & -> & _)] Hi H. apply get_ok; [done|]. apply lookup_app_l_Some.
  by rewrite !list_lookup_fmap, H.
Qed.

Lemma tab_button s ts i b f :
  tabs s ts -> 0 <= i -> ts !! Z.to_nat i = Some (b, f) -> get (sw_buttons s) i = Ok (Some b).
Proof.
  intros [_ _ (rest & -> & _) _] Hi H. apply get_ok; [done|]. apply lookup_app_l_Some.
  by rewrite !list_lookup_fmap, H.
Qed.

Section Tabs.
Context {W : Type}.

(** A loop that skips rounds up to [i] and returns at [i]. *)
Lemma for_ret_at {A} (body : Z -> M W (option A)) lo hi i g g' a :
  lo <= i < hi ->
  (forall j, lo <= j < i -> body j g = Ok (None, g)) -> body i g = Ok (Some a, g') ->
  for_ret lo hi body g = Ok (Some a, g').
Proof.
  intros Hi Hskip Hat. unfold for_ret.
  remember (Z.to_nat (hi - lo)) as k eqn:Ek. revert lo Hi Hskip Ek.
  induction k as [|k IH]; intros lo Hi Hskip Ek; [lia|]. cbn [loop_ret]. unfold bind.
  destruct (Z.eq_dec lo i) as [->|Hne]; [by rewrite Hat|].
  rewrite Hskip by lia. apply IH; [lia | | lia]. intros j Hj. apply Hskip. lia.
Qed.

Lemma for_ret_none {A} (body : Z -> M W (option A)) lo hi g :
  (forall j, lo <= j < hi -> body j g = Ok (None, g)) -> for_ret lo hi body g = Ok (None, g).
Proof.
  intros Hskip. unfold for_ret. remember (Z.to_nat (hi - lo)) as k eqn:Ek. revert lo Hskip Ek.
  induction k as [|k IH]; intros lo Hskip Ek; [done|]. cbn [loop_ret]. unfold bind.
  rewrite Hskip by lia. apply IH; [|lia]. intros j Hj. apply Hskip. lia.
Qed.

Lemma nodup_files (ts : list (ptr * ptr)) i j b f b' f' :
  NoDup ts.*2 -> ts !! i = Some (b, f) -> ts !! j = Some (b', f') -> f = f' -> i = j.
Proof.
  intros Hnd Hi Hj E. apply (NoDup_lookup ts.*2 i j f Hnd).
  - by rewrite list_lookup_fmap, Hi.
  - by rewrite list_lookup_fmap, Hj, E.
Qed.

Lemma handle_tab_spec (g : gui W) ts i b f :
  tabs (fileSwitch g) ts -> NoDup ts.*2 -> 0 <= i -> ts !! Z.to_nat i = Some (b, f) ->
  current (fileSwitch g) = Some f ->
  exists b' f', ts !! Z.to_nat ((i + 1) mod zlen ts) = Some (b', f') /\
    FileSwitchBar_handle_tab g = Ok (0, set_fileSwitch g (set_current (Some f') (fileSwitch g))).
Proof.
  intros Ht Hnd Hi Hf Hc. pose proof (lookup_lt_Some _ _ _ Hf) as Hlt.
  pose proof (Z.mod_pos_bound (i + 1) (zlen ts) ltac:(lia)) as Hm.
  destruct (lookup_lt_is_Some_2 ts (Z.to_nat ((i + 1) mod zlen ts))) as [[b' f'] Hf']; [lia|].
  exists b', f'. split; [done|]. unfold FileSwitchBar_handle_tab, bind at 1, gets.
  rewrite (tabs_n _ _ Ht). unfold bind at 1.
  match goal with |- context [for_ret 0 (zlen ts) ?body g] =>
    rewrite (for_ret_at body 0 (zlen ts) i g (set_fileSwitch g (set_current (Some f') (fileSwitch g))) 0) end;
    [done | lia | |].
  - intros j Hj. destruct (lookup_lt_is_Some_2 ts (Z.to_nat j)) as [[bj fj] Hfj]; [lia|].
    unfold bind, lift. rewrite (tab_file _ _ j _ _ Ht ltac:(lia) Hfj). cbn [rbind].
    rewrite bool_decide_eq_false_2; [done|]. rewrite Hc. intros [= E].
    pose proof (nodup_files _ _ _ _ _ _ _ Hnd Hfj Hf E). lia.
  - unfold bind, lift. rewrite (tab_file _ _ _ _ _ Ht Hi Hf). cbn [rbind].
    rewrite bool_decide_eq_true_2 by done.
    rewrite Z.rem_mod_nonneg by lia. rewrite (tab_file _ _ ((i + 1) mod zlen ts) _ _ Ht ltac:(lia) Hf'). done.
Qed.
End Tabs.

(** [k] presses of Tab. *)
Fixpoint press_tab {W} (k : nat) (g : gui W) : result (gui W) :=
  match k with
  | O => Ok g
  | S k' => let! '(_, g) := FileSwitchBar_handle_tab g in press_tab k' g
  end.

Lemma press_tab_spec {W} k (g : gui W) ts i b f :
  tabs (fileSwitch g) ts -> NoDup ts.*2 -> 0 <= i < zlen ts -> ts !! Z.to_nat i = Some (b, f) ->
  current (fileSwitch g) = Some f ->
  exists b' f', ts !! Z.to_nat ((i + Z.of_nat k) mod zlen ts) = Some (b', f') /\
    press_tab k g = Ok (set_fileSwitch g (set_current (Some f') (fileSwitch g))).
Proof.
  revert g i b f. induction k as [|k IH]; intros g i b f Ht Hnd Hi Hf Hc; cbn [press_tab].
  - exists b, f. rewrite Z.add_0_r, Z.mod_small by lia. split; [done|]. rewrite <- Hc.
    by destruct g as [? ? ? ? ? ? ? [] ? ? ? ? ? ? ? ? ?].
  - destruct (handle_tab_spec g ts i b f Ht Hnd ltac:(lia) Hf Hc) as (b1 & f1 & Hf1 & ->). cbn [rbind].
    pose proof (Z.mod_pos_bound (i + 1) (zlen ts) ltac:(lia)) as Hm.
    destruct (IH (set_fileSwitch g (set_current (Some f1) (fileSwitch g))) ((i + 1) mod zlen ts) b1 f1)
      as (b2 & f2 & Hf2 & E2); [|done|done|done|done|].
    + destruct Ht as [H1 H2 H3 H4]. by split.
    + exists b2, f2. rewrite Zplus_mod_idemp_l in Hf2.
      replace (i + Z.of_nat (S k)) with (i + 1 + Z.of_nat k) by lia. split; [done|]. exact E2.
Qed.

(** Tab moves through the open files in their order and wraps round:
    after as many presses as there are files, the current file is the one
    before, and nothing else has changed. *)
Theorem tab_cycles {W} (g : gui W) ts i b f :
  tabs (fileSwitch g) ts -> NoDup ts.*2 -> 0 <= i < zlen ts -> ts !! Z.to_nat i = Some (b, f) ->
  current (fileSwitch g) = Some f ->
  press_tab (length ts) g = Ok g /\
  forall k, exists b' f', ts !! Z.to_nat ((i + Z.of_nat k) mod zlen ts) = Some (b', f') /\
    press_tab k g = Ok (set_fileSwitch g (set_current (Some f') (fileSwitch g))).
Proof.
  intros Ht Hnd Hi Hf Hc. split; [|intros k; by eapply press_tab_spec].
  destruct (press_tab_spec (length ts) g ts i b f Ht Hnd Hi Hf Hc) as (b' & f' & Hf' & ->).
  replace (i + zlen ts) with (i + 1 * zlen ts) in Hf' by lia.
  rewrite Z_mod_plus_full, Z.mod_small in Hf' by lia. rewrite Hf in Hf'. injection Hf' as <- <-.
  rewrite <- Hc. by destruct g as [? ? ? ? ? ? ? [] ? ? ? ? ? ? ? ? ?].
Qed.

Definition demo_bar (n : Z) (bs fs : list (option ptr)) (c : option ptr) : FileSwitchBar :=
  mk_FileSwitchBar (mk_Area 115 23 700 700 0 0) bs fs n c 0 0 (mk_Area 500 0 200 18 0 0) 0.

Definition demo_gui : gui Ram.ram :=
  set_fileSwitch (blank (Ram.mk_ram ∅ ∅ 3) empty_dict)
    (demo_bar 3 ([Some 6; Some 7; Some 8] ++ replicate 7 None) ([Some 0; Some 1; Some 2] ++ replicate 7 None) (Some 1)).

Lemma tab_cycles_witness :
  press_tab 3 demo_gui = Ok demo_gui /\
  forall k, exists b' f', [(6, 0); (7, 1); (8, 2)] !! Z.to_nat ((1 + Z.of_nat k) mod 3) = Some (b', f') /\
    press_tab k demo_gui = Ok (set_fileSwitch demo_gui (set_current (Some f') (fileSwitch demo_gui))).
Proof.
  apply (tab_cycles demo_gui [(6, 0); (7, 1); (8, 2)] 1 7 1).
  - split; [reflexivity | vm_compute; done | by eexists | by eexists].
  - apply (bool_decide_unpack _). vm_compute. done.
  - cbn. lia.
  - reflexivity.
  - reflexivity.
Defined.

(** * Closing a tab *)

(** The elements from [i] on, up to [j], moved down by one. *)
Definition moved_down {A} (i j : Z) (l l' : list A) : Prop :=
  length l' = length l /\
  forall k, l' !! k = if (i <=? Z.of_nat k) && (Z.of_nat k <? j) then l !! S k else l !! k.

Lemma moved_down_refl {A} i (l : list A) : moved_down i i l l.
Proof. split; [done|]. intros k. by destruct ((i <=? Z.of_nat k) && (Z.of_nat k <? i)) eqn:E; [ztest_in E|]. Qed.

Lemma moved_down_step {A} i j (l l' : list A) x :
  0 <= i <= j -> moved_down i j l l' -> get l' (j + 1) = Ok x ->
  exists l2, put l' j x = Ok l2 /\ moved_down i (j + 1) l l2.
Proof.
  intros Hj [Hlen Hl] Hx. unfold get in Hx. ztest_in Hx. destruct (l' !! Z.to_nat (j + 1)) as [y|] eqn:Hy; [|done].
  injection Hx as <-. pose proof (lookup_lt_Some _ _ _ Hy) as Hlt. rewrite put_ok by lia. eexists. split; [done|].
  split; [by rewrite length_insert|]. intros k.
  destruct (decide (k = Z.to_nat j)) as [->|Hne].
  - rewrite list_lookup_insert_eq by lia. rewrite Z2Nat.id by lia.
    replace ((i <=? j) && (j <? j + 1)) with true by (symmetry; apply andb_true_iff; split; [apply Z.leb_le | apply Z.ltb_lt]; lia).
    rewrite <- Hy, Hl. replace (S (Z.to_nat j)) with (Z.to_nat (j + 1)) by lia.
    rewrite Z2Nat.id by lia. replace (j + 1 <? j) with false by (symmetry; apply Z.ltb_ge; lia).
    by rewrite andb_false_r.
  - rewrite list_lookup_insert_ne by done. rewrite Hl.
    replace (Z.of_nat k <? j + 1) with (Z.of_nat k <? j); [done|].
    destruct (Z.ltb_spec (Z.of_nat k) j), (Z.ltb_spec (Z.of_nat k) (j + 1)); (done || lia).
Qed.

(** Removing element [i] of a list kept in the first cells of an array. *)
Lemma moved_down_tabs {A} (ts : list A) (a a' : list A) i rest :
  a = ts ++ rest -> 0 <= i < zlen ts -> moved_down i (zlen ts) a a' -> zlen ts < zlen a ->
  exists rest', a' = (take (Z.to_nat i) ts ++ drop (S (Z.to_nat i)) ts) ++ rest'.
Proof.
  intros -> Hi [Hlen Hl] Hroom. set (ts' := take (Z.to_nat i) ts ++ drop (S (Z.to_nat i)) ts).
  assert (Hlen' : length ts' = (length ts - 1)%nat) by (subst ts'; llia).
  exists (drop (length ts') a'). rewrite <- (take_drop (length ts') a') at 1. f_equal.
  apply list_eq. intros k. destruct (Nat.lt_ge_cases k (length ts')) as [Hk|Hk].
  - rewrite lookup_take_lt by done. rewrite Hl. subst ts'.
    destruct (Z.leb_spec i (Z.of_nat k)) as [Hik|Hik]; cbn [andb].
    + replace (Z.of_nat k <? zlen ts) with true by (symmetry; apply Z.ltb_lt; lia).
      rewrite lookup_app_l by lia. rewrite lookup_app_r by llia. rewrite lookup_drop. f_equal. llia.
    + rewrite lookup_app_l by lia. rewrite lookup_app_l by llia. by rewrite lookup_take_lt by lia.
  - rewrite lookup_take_ge by done. symmetry. by apply lookup_ge_None_2.
Qed.

Lemma shift_arrays i n (bs fs : list (option ptr)) :
  0 <= i <= n -> n < zlen bs -> n < zlen fs ->
  exists bs' fs', for_up i n
      (fun j '(bs, fs) =>
         let! f := get fs (j + 1) in
         let! fs := put fs j f in
         let! b := get bs (j + 1) in
         let! bs := put bs j b in
         Ok (bs, fs)) (bs, fs) = Ok (bs', fs') /\
    moved_down i n bs bs' /\ moved_down i n fs fs'.
Proof.
  intros Hi Hb Hf.
  pose proof (for_up_inv (fun j '(bs', fs') => moved_down i j bs bs' /\ moved_down i j fs fs') i n
    (fun j '(bs, fs) =>
         let! f := get fs (j + 1) in
         let! fs := put fs j f in
         let! b := get bs (j + 1) in
         let! bs := put bs j b in
         Ok (bs, fs)) (bs, fs)) as H.
  destruct (ensures_inv _ _ (H ltac:(lia) (conj (moved_down_refl _ _) (moved_down_refl _ _))
    ltac:(intros j [b1 f1] Hj [H1 H2];
          destruct (get_lt f1 (j + 1)) as (f & Ef & _); [destruct H2; lia|]; rewrite Ef; cbn [rbind];
          destruct (moved_down_step i j fs f1 f ltac:(lia) H2 Ef) as (f2 & -> & Hf2); cbn [rbind];
          destruct (get_lt b1 (j + 1)) as (b & Eb & _); [destruct H1; lia|]; rewrite Eb; cbn [rbind];
          destruct (moved_down_step i j bs b1 b ltac:(lia) H1 Eb) as (b2 & -> & Hb2); cbn [rbind]; done)))
    as ([bs' fs'] & E & H1 & H2).
  by exists bs', fs'.
Qed.

(** The tab that becomes current when tab [i] is closed. *)
Definition neighbour (ts : list (ptr * ptr)) (i : Z) : option ptr :=
  if i =? zlen ts - 1 then snd <$> (ts !! Z.to_nat (i - 1)) else snd <$> (ts !! Z.to_nat (i + 1)).

Definition without (ts : list (ptr * ptr)) (i : Z) : list (ptr * ptr) :=
  take (Z.to_nat i) ts ++ drop (S (Z.to_nat i)) ts.

Lemma close_tab_spec {W} (g : gui W) ts i :
  tabs (fileSwitch g) ts -> 0 <= i < zlen ts -> (zlen ts < 10 \/ i = zlen ts - 1) ->
  exists s', close_tab (fileSwitch g) i g = Ok (tt, set_fileSwitch g s') /\
    current s' = (if (i =? zlen ts - 1) && (i =? 0) then None else neighbour ts i) /\
    sw_n_files s' = zlen ts /\
    tabs (set_tabs (sw_buttons s') (sw_files s') (zlen ts - 1) s') (without ts i).
Proof.
  intros Ht Hi Hfull. unfold close_tab. rewrite (tabs_n _ _ Ht).
  assert (Hwl : zlen (without ts i) = zlen ts - 1) by (unfold without; llia).
  pose proof (tabs_max _ _ Ht) as Hmax. unfold FILESWITCH_MAX_FILES in Hmax.
  destruct Ht as [Hn _ (rb & Hb & Hbl) (rf & Hf & Hfl)].
  destruct (Z.eqb_spec i (zlen ts - 1)) as [Hlast|Hlast]; cbn [andb].
  - assert (Htabs : forall o, tabs (set_tabs (sw_buttons (fileSwitch g)) (sw_files (fileSwitch g)) (zlen ts - 1)
               (set_current o (fileSwitch g))) (without ts i)).
    { assert (Hw : without ts i = take (Z.to_nat i) ts).
      { unfold without. rewrite (drop_ge ts) by lia. apply app_nil_r. }
      destruct (lookup_lt_is_Some_2 ts (Z.to_nat i)) as [[b f] Hbf]; [lia|].
      assert (Hts : ts = without ts i ++ [(b, f)]).
      { rewrite Hw, <- (take_S_r _ _ _ Hbf), take_ge by lia. done. }
      intros o. split; cbn; [lia | rewrite Hwl; unfold FILESWITCH_MAX_FILES; lia | |].
      - exists (Some b :: rb). split; [|done]. rewrite Hb, Hts at 1. rewrite !fmap_app, <- app_assoc. done.
      - exists (Some f :: rf). split; [|done]. rewrite Hf, Hts at 1. rewrite !fmap_app, <- app_assoc. done. }
    destruct (Z.eqb_spec i 0) as [->|Hnz].
    + eexists. split; [reflexivity|]. split; [done|]. split; [done|]. apply Htabs.
    + destruct (lookup_lt_is_Some_2 ts (Z.to_nat (i - 1))) as [[b f] Hbf]; [lia|].
      unfold bind, lift. rewrite (get_ok _ _ (Some f)); [|lia|].
      2:{ rewrite Hf. apply lookup_app_l_Some. by rewrite !list_lookup_fmap, Hbf. }
      cbn [rbind]. eexists. split; [reflexivity|]. split; [|split; [done | apply Htabs]].
      unfold neighbour. replace (i =? zlen ts - 1) with true by (symmetry; by apply Z.eqb_eq). by rewrite Hbf.
  - destruct (shift_arrays i (zlen ts) (sw_buttons (fileSwitch g)) (sw_files (fileSwitch g))) as (bs' & fs' & E & Hbs & Hfs);
      [lia | lia | lia |].
    unfold bind at 1, lift at 1. rewrite E. cbn [rbind].
    destruct (lookup_lt_is_Some_2 ts (Z.to_nat (i + 1))) as [[b f] Hbf]; [lia|].
    assert (Hget : get fs' i = Ok (Some f)).
    { apply get_ok; [lia|]. destruct Hfs as [_ Hfs]. rewrite Hfs. rewrite Z2Nat.id by lia. zsimp.
      rewrite Hf. apply lookup_app_l_Some. replace (S (Z.to_nat i)) with (Z.to_nat (i + 1)) by lia.
      by rewrite !list_lookup_fmap, Hbf. }
    unfold bind, lift. cbn [with_switch modify]. unfold with_switch, modify. rewrite Hget. cbn [rbind].
    eexists. split; [reflexivity|]. split; [|split; [done|]].
    { unfold neighbour. replace (i =? zlen ts - 1) with false by (symmetry; by apply Z.eqb_neq). by rewrite Hbf. }
    destruct (moved_down_tabs (Some <$> ts.*1) _ bs' i rb Hb) as [rb' Eb]; [llia | by rewrite !length_fmap | llia |].
    destruct (moved_down_tabs (Some <$> ts.*2) _ fs' i rf Hf) as [rf' Ef]; [llia | by rewrite !length_fmap | llia |].
    split; cbn; [lia | rewrite Hwl; unfold FILESWITCH_MAX_FILES; lia | |].
    + exists rb'. split; [|destruct Hbs; lia]. rewrite Eb. unfold without. by rewrite !fmap_app, !fmap_take, !fmap_drop.
    + exists rf'. split; [|destruct Hfs; lia]. rewrite Ef. unfold without. by rewrite !fmap_app, !fmap_take, !fmap_drop.
Qed.

Lemma put_get_ok {A} (l : list A) i (a a' : A) : get l i = Ok a -> exists l', put l i a' = Ok l'.
Proof.
  intros [H _]%get_inv. rewrite put_ok by done. by eexists.
Qed.

Lemma text_edit_set_str_ok {W} (g : gui W) p e ls :
  get (text_edits g) p = Ok e -> frame (te_text e) ls ->
  exists h, text_edit_set_str p (str "") g = Ok (tt, set_text_edits g h).
Proof.
  intros He Hf. unfold text_edit_set_str, get_text_edit, bind, lift. rewrite He. cbn [rbind].
  change (str "") with [0]. destruct (free_frame _ _ Hf) as [t ->]. cbn [rbind]. unfold put_text_edit.
  destruct (put_get_ok (text_edits g) p e (set_text e t) He) as [h ->]. by exists h.
Qed.

Lemma line_edit_set_str_ok {W} (g : gui W) p e ls :
  get (line_edits g) p = Ok e -> frame (le_text e) ls ->
  exists h, line_edit_set_str p (str "") g = Ok (tt, set_line_edits g h).
Proof.
  intros He Hf. unfold line_edit_set_str, get_line_edit, bind, lift. rewrite He. cbn [rbind].
  change (str "") with [0]. destruct (free_frame _ _ Hf) as [t ->]. cbn [rbind]. unfold put_line_edit.
  destruct (put_get_ok (line_edits g) p e (mk_LineEdit (le_area e) t) He) as [h ->]. by exists h.
Qed.

(** The widgets behind tab [(p, f)] are in place. *)
Record tab_widgets {W} (g : gui W) (p f : ptr) : Prop := {
  tw_button : exists bt le ls, get (button_heap g) p = Ok bt /\ bt_parent bt = In_FileSwitchBar /\
    get (line_edits g) (bt_edit bt) = Ok le /\ frame (le_text le) ls;
  tw_file : exists fb e ls, get (file_buffers g) f = Ok fb /\ get (text_edits g) (fb_edit fb) = Ok e /\
    frame (te_text e) ls;
}.

(** Closing a tab with the right mouse button removes exactly that tab and
    keeps the order of the others; the current file becomes the next one, the
    previous one if the last tab was closed, none if it was the only one.  (A
    tab other than the last cannot be closed when all ten are open.) *)
Theorem close_button {W} (g : gui W) ts i p f :
  tabs (fileSwitch g) ts -> NoDup ts.*1 -> 0 <= i -> ts !! Z.to_nat i = Some (p, f) ->
  (zlen ts < 10 \/ i = zlen ts - 1) -> tab_widgets g p f ->
  exists g', handle_close_Button p g = Ok (0, g') /\ tabs (fileSwitch g') (without ts i) /\
    current (fileSwitch g') = (if (i =? zlen ts - 1) && (i =? 0) then None else neighbour ts i).
Proof.
  intros Ht Hnd Hi Hpf Hfull [(bt & le & ls & Hbt & Hpar & Hle & Hlef) (fb & e & ls2 & Hfb & He & Hef)].
  pose proof (lookup_lt_Some _ _ _ Hpf) as Hlt.
  destruct (close_tab_spec g ts i Ht ltac:(lia) Hfull) as (s' & Ec & Hcur & Hn' & Ht').
  unfold handle_close_Button, bind at 1, get_button. rewrite Hbt. cbn [rbind]. rewrite Hpar.
  unfold bind at 1, gets. rewrite (tabs_n _ _ Ht). unfold bind at 1.
  set (g1 := set_fileSwitch g s').
  destruct (text_edit_set_str_ok g1 (fb_edit fb) e ls2 He Hef) as [h1 E1]. set (g2 := set_text_edits g1 h1) in *.
  destruct (line_edit_set_str_ok g2 (bt_edit bt) le ls Hle Hlef) as [h2 E2]. set (g3 := set_line_edits g2 h2) in *.
  set (g4 := set_fileSwitch g3 (set_tabs (sw_buttons s') (sw_files s') (zlen ts - 1) s')).
  match goal with |- context [for_ret 0 (zlen ts) ?body g] =>
    rewrite (for_ret_at body 0 (zlen ts) i g g4 0); [| lia | |] end.
  - exists g4. split; [done|]. split; [exact Ht' | exact Hcur].
  - intros j Hj. destruct (lookup_lt_is_Some_2 ts (Z.to_nat j)) as [[bj fj] Hfj]; [lia|].
    unfold bind, lift. rewrite (tab_button _ ts j _ _ Ht ltac:(lia) Hfj). cbn [rbind].
    rewrite bool_decide_eq_false_2; [done|]. intros [= E].
    assert (Z.to_nat j = Z.to_nat i); [|lia].
    apply (NoDup_lookup ts.*1 _ _ p Hnd); [rewrite list_lookup_fmap, Hfj; cbn; congruence | by rewrite list_lookup_fmap, Hpf].
  - unfold bind at 1, lift at 1. rewrite (tab_button _ ts i _ _ Ht Hi Hpf). cbn [rbind].
    rewrite bool_decide_eq_true_2 by done. unfold ptr_at, bind at 2, lift.
    rewrite (tab_file _ ts i _ _ Ht Hi Hpf). cbn [rbind]. unfold bind at 1, deref_ptr, ret at 1.
    unfold bind at 1, get_buffer. rewrite Hfb. cbn [rbind]. unfold bind at 1. rewrite Ec. fold g1.
    unfold bind at 1. rewrite E1. unfold bind at 1. rewrite E2.
    unfold bind, gets, with_switch, modify, ret. unfold g4, g3, g2, g1. cbn. by rewrite Hn'.
Qed.

(** Three tabs over one set of widgets, the second current. *)
Definition demo_box : LineEdit := mk_LineEdit (mk_Area 0 0 100 16 0 0) (frame_of [[97]] 0 0).
Definition demo_button : Button := mk_Button (mk_Area 0 0 100 20 0 0) 0 In_FileSwitchBar (Some Button_exec_switch_to_file_).
Definition demo_tabs : gui Ram.ram :=
  mk_gui (Ram.mk_ram ∅ ∅ 3) [demo_edit [[104; 105]] 0 0; demo_edit [[105]] 0 0] [demo_box] []
    [mk_FileBuffer (mk_Area 0 20 700 400 0 0) 0 (replicate 512 0)]
    [demo_button; demo_button; demo_button]
    (mk_FileListBuffer (mk_Area 10 30 90 570 0 0) 0 [] None [0])
    (mk_FileSwitchBar (mk_Area 115 23 700 700 0 0) ([Some 0; Some 1; Some 2] ++ replicate 7 None)
       ([Some 0; Some 0; Some 0] ++ replicate 7 None) 3 (Some 0) 1 1 (mk_Area 500 0 200 18 0 0) 1)
    (mk_Area 0 0 700 30 0 0, []) (mk_Area 0 580 800 20 0 0, 0) (mk_PinyinInput (mk_Area 600 548 200 32 0 0) 0 0 0)
    None None None 0 0 empty_dict.

Lemma close_button_witness :
  exists g', handle_close_Button 1 demo_tabs = Ok (0, g') /\ tabs (fileSwitch g') [(0, 0); (2, 0)] /\
    current (fileSwitch g') = Some 0.
Proof.
  apply (close_button demo_tabs [(0, 0); (1, 0); (2, 0)] 1 1 0).
  - split; [reflexivity | vm_compute; done | by eexists | by eexists].
  - apply (bool_decide_unpack _). vm_compute. done.
  - lia.
  - reflexivity.
  - left. vm_compute. done.
  - split.
    + exists demo_button, demo_box, [[97]]. do 3 (split; [reflexivity|]). by apply frame_of_frame.
    + eexists _, _, [[104; 105]]. do 2 (split; [reflexivity|]). by apply frame_of_frame.
Defined.

(** * Searching from the search box *)

(** Enter in the search box selects the first occurrence from the cursor
    on (or, wrapping round, the first of the text): the two points of the
    selection are its first and last byte, the cursor is after it, and the
    focus moves to the text.  If there is none, only the status bar changes. *)
Theorem search_selects {W} (g : gui W) f fb e ls se pat s :
  current (fileSwitch g) = Some f -> get (file_buffers g) f = Ok fb ->
  get (text_edits g) (fb_edit fb) = Ok e -> rep (te_text e) (mk_doc ls (cursor_row (te_text e)) (cursor_col (te_text e))) ->
  get (text_edits g) (search_edit (fileSwitch g)) = Ok se -> line (te_text se) 0 = Ok pat ->
  is_str pat s -> s <> [] -> (exists i j, occurs_at ls s i j) ->
  exists g' e' i j, handle_keyboard_SearchFrame ENTER g = Ok (tt, g') /\
    get (text_edits g') (fb_edit fb) = Ok e' /\ occurs_at ls s i j /\
    (point1_row e', point1_col e') = (i, j) /\ (point2_row e', point2_col e') = (i, j + zlen s - 1) /\
    rep (te_text e') (mk_doc ls i (j + zlen s)) /\
    cursor_focus g' = Some (P_TextEdit (fb_edit fb)) /\
    (first_from ls s (cursor_row (te_text e)) (cursor_col (te_text e)) i j \/ first_from ls s 0 0 i j).
Proof.
  intros Hc Hfb He Hrep Hse Hpat Hs Hne [i0 [j0 Hocc0]].
  pose proof (rep_pos _ _ Hrep) as [Hr Hcol]. cbn [crow ccol] in Hr, Hcol.
  unfold handle_keyboard_SearchFrame, bind at 1, gets. change (ENTER =? ENTER) with true. cbn match. rewrite Hc.
  unfold bind at 1, get_buffer. rewrite Hfb. cbn [rbind]. unfold bind at 1, get_text_edit at 1. rewrite He. cbn [rbind].
  unfold bind at 1, get_text_edit at 1. rewrite Hse. cbn [rbind]. unfold bind at 1, lift at 1. rewrite Hpat. cbn [rbind].
  assert (Hfound : exists i j r, Search (te_text e) pat = Ok (set_cursor (te_text e) i (j + zlen s), r) /\ 0 <= r /\
    (first_from ls s (cursor_row (te_text e)) (cursor_col (te_text e)) i j \/ first_from ls s 0 0 i j)).
  { destruct (Search_spec (te_text e) ls pat s _ _ (proj1 Hrep) eq_refl eq_refl ltac:(lia) ltac:(lia) Hs Hne)
      as [(i & j & E & H)|[(i & j & E & H & _)|[_ Hno]]].
    - exists i, j, 0. split; [done|]. split; [lia | by left].
    - exists i, j, 1. split; [done|]. split; [lia | by right].
    - by destruct (Hno i0 j0). }
  destruct Hfound as (i & j & r & E & Hr0 & Hfirst).
  assert (Hocc : occurs_at ls s i j) by (destruct Hfirst as [H|H]; apply H).
  unfold bind at 1, lift at 1. rewrite E. cbn [rbind]. zsimp.
  unfold bind at 1, lift at 1. rewrite (strlen_str _ _ Hs). cbn [rbind cursor_row cursor_col set_cursor].
  set (e' := set_selecting _ 1). unfold bind, put_text_edit.
  destruct (get_inv _ _ _ He) as [Hlt _].
  rewrite put_ok by done. cbn [rbind modify]. unfold modify.
  eexists _, e', i, j. split; [done|]. split.
  { cbn [text_edits set_cursor_focus set_text_edits]. apply get_ok; [lia|]. apply list_lookup_insert_eq. lia. }
  split; [done|]. split; [subst e'; cbn; do 2 f_equal; lia|]. split; [subst e'; cbn; do 2 f_equal; lia|].
  split; [|split; [done | done]].
  split; [apply Hrep|]. split; [done|]. split; [done|].
  destruct Hocc as (l & Hi & Hl & Ho). exists l. split; [done|]. split; [done|]. cbn [ccol].
  pose proof (occurs_range _ _ _ Ho Hne). destruct Ho. lia.
Qed.

(** A text "hi", the pattern "i" in the search box. *)
Lemma search_selects_witness :
  exists g' e' i j, handle_keyboard_SearchFrame ENTER demo_tabs = Ok (tt, g') /\
    get (text_edits g') 0 = Ok e' /\ occurs_at [[104; 105]] [105] i j /\
    (point1_row e', point1_col e') = (i, j) /\ (point2_row e', point2_col e') = (i, j + 1 - 1) /\
    rep (te_text e') (mk_doc [[104; 105]] i (j + 1)) /\
    cursor_focus g' = Some (P_TextEdit 0) /\
    (first_from [[104; 105]] [105] 0 0 i j \/ first_from [[104; 105]] [105] 0 0 i j).
Proof.
  apply (search_selects demo_tabs 0 (mk_FileBuffer (mk_Area 0 20 700 400 0 0) 0 (replicate 512 0))
    (demo_edit [[104; 105]] 0 0) [[104; 105]] (demo_edit [[105]] 0 0) [105; 0] [105]).
  - reflexivity.
  - reflexivity.
  - reflexivity.
  - by eapply frame_of_rep.
  - reflexivity.
  - reflexivity.
  - apply (is_str_intro [105]). repeat constructor; unfold is_char; lia.
  - done.
  - exists 0, 1, [104; 105]. split; [lia|]. split; [reflexivity|]. split; [lia | reflexivity].
Defined.
