(* ===== verification/DrawSafe.v ===== *)
(** Drawing is total: on a well-formed editor no [draw_*] function of Gui.c
    reads or writes outside its arrays, and drawing changes neither the texts
    nor the state of the application. *)
From stdpp Require Import gmap.
From Stdlib Require Import String.
From S2P Require Import Prelude Ulib Sys Textframe TextLemmas TextSpec TextRefine Widgets TextProps Draw DrawProps Highlight Pinyin PinyinProps GuiState Gui GuiDraw GuiProps.
Open Scope Z_scope.

(** * Areas *)

(** An area that is not empty starts on the screen. *)
Definition safe_area (a : Area) : Prop := 0 < width a -> 0 < height a -> 0 <= x a /\ 0 <= y a.

(** Where the parent of a widget is drawn, [k] levels down; where an edit box is
    drawn, whose offsets grow with its text. *)
Definition parent_ok (k : Z) (p : Area) : Prop := safe_area p /\ area_le (k * 2 ^ 20) (2 ^ 20) p.
Definition box_ok (p : Area) : Prop := safe_area p /\ area_le (2 ^ 25) (2 ^ 28) p.

(** The area of a widget and of an edit box. *)
Abbreviation widget_area := (area_le (2 ^ 20) (2 ^ 20)).
Abbreviation edit_area := (area_le (2 ^ 20) (2 ^ 28)).

Lemma safe_place p a : safe_area p -> safe_area (place p a).
Proof. unfold safe_area. intros Hp. place_cases; lia. Qed.

Lemma parent_exact k p a : parent_ok k p -> 0 <= k <= 12 -> edit_area a -> calc_current_area p a = place p a.
Proof. intros [_ Hp] Hk Ha. apply calc_exact; (eapply area_le_mono; [eassumption | lia | lia]). Qed.

Lemma widget_edit a : widget_area a -> edit_area a.
Proof. intros H. eapply area_le_mono; [exact H | lia | lia]. Qed.

Lemma parent_child k p a : parent_ok k p -> 0 <= k <= 12 -> widget_area a -> parent_ok (k + 2) (calc_current_area p a).
Proof.
  intros Hp Hk Ha. rewrite (parent_exact k) by (done || by apply widget_edit). destruct Hp as [Hs Hp].
  split; [by apply safe_place|]. eapply area_le_mono; [by eapply place_le | lia | lia].
Qed.

Lemma parent_box k p a : parent_ok k p -> 0 <= k <= 12 -> edit_area a -> box_ok (calc_current_area p a).
Proof.
  intros Hp Hk Ha. rewrite (parent_exact k) by done. destruct Hp as [Hs Hp].
  split; [by apply safe_place|]. eapply area_le_mono; [by eapply place_le | lia | lia].
Qed.

Lemma box_cell p a : box_ok p -> area_le (2 ^ 28) (2 ^ 28) a -> safe_area (calc_current_area p a).
Proof. intros [Hs Hp] Ha. rewrite calc_exact by done. by apply safe_place. Qed.

(** The largest number of rows and columns a box can show. *)
Definition TEXT_MAX : Z := 2 ^ 21.

Definition cols_ok (cw ch r c : Z) : Prop := 0 < cw <= 32 /\ 0 < ch <= 64 /\ 0 <= r < TEXT_MAX /\ - TEXT_MAX <= c <= TEXT_MAX.

Lemma cols_cell_le cw ch r c w : cols_ok cw ch r c -> - 2 ^ 28 <= w <= 2 ^ 28 -> area_le (2 ^ 28) (2 ^ 28) (cell cw ch r c w).
Proof. unfold cols_ok, TEXT_MAX. intros (H1 & H2 & H3 & H4) Hw. apply cell_le; nia. Qed.

Lemma scroll_safe n k parent a r c cw ch w cur :
  parent_ok k parent -> 0 <= k <= 12 -> edit_area a -> cols_ok cw ch r c -> 0 <= c -> 0 <= w <= 32 ->
  exists a' area' cur', scroll (S n) parent a r c cw ch w cur = (a', area', cur') /\
    box_ok area' /\ safe_area cur' /\ edit_area a'.
Proof.
  intros Hp Hk Ha Hrc Hc Hw. revert a cur Ha. induction n as [|n IH]; intros a cur Ha; cbn [scroll];
    set (cur1 := calc_current_area _ (cell _ _ _ _ _));
    (assert (safe_area cur1) as Hcur by (apply box_cell; [by eapply parent_box | apply cols_cell_le; (done || lia)]));
    assert (edit_area (scroll_to a (calc_current_area parent a) r c cw ch)) as Ha'
      by (unfold cols_ok, TEXT_MAX in Hrc; apply scroll_to_le; [done | by eapply parent_box | nia..]);
    destruct (visible cur1).
  1,2,3: eexists _, _, _; split; [reflexivity|]; split; [by eapply parent_box | done].
  destruct (IH _ cur1 Ha') as (a' & area' & cur' & E & H). exists a', area', cur'. split; [exact E|]. done.
Qed.

(** * Primitives *)

Lemma for_pixels_safe (P : screen -> Prop) xl yl w h body s :
  P s ->
  (forall x y s, xl <= x < xl + w -> yl <= y < yl + h -> P s -> ensures (body x y s) P) ->
  ensures (for_pixels xl yl w h body s) P.
Proof.
  intros Hs Hb. unfold for_pixels. destruct (Z.le_gt_cases yl (yl + h)).
  - apply (for_up_inv (fun _ => P)); [lia | done |]. intros y s1 Hy Hs1.
    destruct (Z.le_gt_cases xl (xl + w)); [|by rewrite for_up_done by lia].
    apply (for_up_inv (fun _ => P)); [lia | done |]. intros x s2 Hx Hs2. by apply Hb.
  - by rewrite for_up_done by lia.
Qed.

Section Primitives.
Context (s0 : screen) (Hok : screen_ok s0).

Lemma set_color_safe s px py c :
  same_screen s0 s -> 0 <= px -> 0 <= py -> ensures (ignore (set_color s px py c)) (same_screen s0).
Proof.
  intros Hs Hx Hy. unfold ignore, set_color.
  destruct (Z.leb_spec (SCREEN_WIDTH s) px); [done|]. destruct (Z.leb_spec (SCREEN_HEIGHT s) py); [done|].
  cbn [orb]. destruct ((65536 <=? c) || (c <? 0)); [done|].
  pose proof (pixel_range s px py (same_ok _ _ Hs Hok) ltac:(by split)) as Hi.
  unfold write_temp. zsimp. cbn. etransitivity; [exact Hs|]. done.
Qed.

Lemma rect_safe s a color :
  same_screen s0 s -> safe_area a -> ensures (rect s a color) (same_screen s0).
Proof.
  intros Hs Ha. unfold rect, drawrect. destruct ((65536 <=? color) || (color <? 0)); [done|].
  destruct (_ && _ && _ && _ && _).
  - pose proof (same_ok _ _ Hs Hok) as (_ & _ & HL).
    replace (TEMP_LEN <? _) with false by (symmetry; apply Z.ltb_ge; lia). cbn.
    etransitivity; [exact Hs|]. done.
  - unfold ignore at 1. rewrite rbind_assoc.
    eapply ensures_bind; [|intros s' Hs'; exact Hs'].
    apply for_pixels_safe; [done|]. intros px py s' Hx Hy Hs'. apply set_color_safe; [done | |];
      destruct Ha; lia.
Qed.

(** [(x - xl) * k / width] is a column of a glyph of [k] columns. *)
Lemma scaled_index k d w : 0 < k -> 0 <= d < w -> 0 <= Z.quot (d * k) w < k.
Proof.
  intros Hk Hd. rewrite Z.quot_div_nonneg by nia. split; [apply Z.div_pos; nia|].
  apply Z.div_lt_upper_bound; nia.
Qed.

Lemma drawarea_safe s px py g :
  same_screen s0 s -> 0 <= px -> 0 <= py -> zlen g = 128 ->
  ensures (drawarea s px py 8 16 g) (same_screen s0).
Proof.
  intros Hs Hx Hy Hg. apply for_pixels_safe; [done|]. intros x' y' s' Hx' Hy' Hs'.
  destruct (get_lt g (x' - px + (y' - py) * 8)) as (c & -> & _); [lia|]. cbn [rbind].
  apply set_color_safe; [done | lia | lia].
Qed.

Lemma drawarea_color_safe s px py w h color g :
  same_screen s0 s -> 0 <= px -> 0 <= py -> zlen g = 128 ->
  ensures (drawarea_color s px py w h color g) (same_screen s0).
Proof.
  intros Hs Hx Hy Hg. apply for_pixels_safe; [done|]. intros x' y' s' Hx' Hy' Hs'.
  cbv beta zeta.
  pose proof (scaled_index 8 (x' - px) w ltac:(lia) ltac:(lia)).
  pose proof (scaled_index 16 (y' - py) h ltac:(lia) ltac:(lia)).
  destruct (get_lt g (Z.quot ((x' - px) * 8) w + Z.quot ((y' - py) * 16) h * 8)) as (c & -> & _); [lia|].
  cbn [rbind]. destruct (negb (c =? -1)); [|done]. apply set_color_safe; [done | lia | lia].
Qed.

Lemma drawgbk_color_safe s px py w h color bm :
  same_screen s0 s -> 0 <= px -> 0 <= py -> zlen bm = 32 ->
  ensures (drawgbk_color s px py w h color bm) (same_screen s0).
Proof.
  intros Hs Hx Hy Hg. apply for_pixels_safe; [done|]. intros x' y' s' Hx' Hy' Hs'.
  cbv beta zeta.
  pose proof (scaled_index 16 (x' - px) w ltac:(lia) ltac:(lia)) as Hj.
  pose proof (scaled_index 16 (y' - py) h ltac:(lia) ltac:(lia)) as Hi.
  set (j := Z.quot ((x' - px) * 16) w) in *. set (i := Z.quot ((y' - py) * 16) h) in *.
  unfold gbk_color, gbk_bit. rewrite rbind_assoc.
  assert (0 <= Z.quot (i * 16 + j) 8 < 32) as Hq.
  { rewrite Z.quot_div_nonneg by lia. split; [apply Z.div_pos; lia|]. apply Z.div_lt_upper_bound; lia. }
  destruct (get_lt bm (Z.quot (i * 16 + j) 8)) as (b & -> & _); [lia|]. cbn [rbind].
  destruct (negb (Z.land _ _ =? 0)); destruct (negb (_ =? -1)); try done;
    apply set_color_safe; (done || lia).
Qed.

Lemma glyph_safe f c : 0 <= c < 128 -> exists g, glyph f (get_text_area c) = Ok g /\ zlen g = 128.
Proof.
  intros Hc. unfold glyph, get_text_area, GLYPHS_LEN.
  replace (s8 c) with c by (unfold s8; rewrite Z.mod_small by lia; lia). zsimp.
  eexists. split; [done|]. by rewrite length_fmap, length_seq.
Qed.

Lemma bitmap_safe f c1 c2 :
  160 <= c1 <= 255 -> 160 <= c2 <= 255 ->
  exists bm, bitmap f (get_gbk_point_by_c1_c2 c1 c2) = Ok bm /\ zlen bm = 32.
Proof.
  intros H1 H2. destruct (gbk_point_range c1 c2 H1 H2) as [Hlo Hhi]. unfold bitmap. zsimp.
  eexists. split; [done|]. by rewrite length_fmap, length_seq.
Qed.
End Primitives.

(** * Text *)

(** Lines the fonts can show: ASCII bytes and two-byte characters. *)
Inductive drawable : bytes -> Prop :=
  | drawable_nil : drawable []
  | drawable_ascii c l : c < 128 -> drawable l -> drawable (c :: l)
  | drawable_han a b l : 160 <= a -> 160 <= b -> drawable l -> drawable (a :: b :: l).

Section Text.
Context (A : assets) (s0 : screen) (Hok : screen_ok s0) (Htrie : closed (as_trie A) = true).

(** The state of the highlighter is inside the trie and the row. *)
Definition hl_ok (h : hl) : Prop := let '(status, _, _, hc) := h in 0 <= status < 200 /\ 0 <= hc.

Lemma hl_advance_safe fu b l h :
  is_str b l -> hl_ok h -> ensures (hl_advance fu (as_trie A) b (zlen l) h) hl_ok.
Proof.
  intros Hb. revert h. induction fu as [|fu IH]; intros [[[status color] count] hc] [Hs Hc]; [done|].
  cbn [hl_advance]. destruct (Z.leb_spec hc (zlen l)); [|done].
  assert (exists c, get b hc = Ok c /\ 0 <= c < 256) as (c & -> & Hcr).
  { destruct (Z.eq_dec hc (zlen l)) as [->|].
    - destruct Hb as [_ (rest & ->)]. exists 0. split; [by apply get_middle | lia].
    - destruct (is_str_get b l hc Hb) as (c & E & _ & Hch); [lia|]. exists c. unfold is_char in Hch. split; [done | lia]. }
  cbn [rbind]. destruct (highlight_update_ok (as_trie A) c status color count Htrie Hs Hcr)
    as ([[[st co] ct] res] & -> & Hst). cbn [rbind].
  destruct (0 <=? res); [split; [exact Hst | lia]|].
  destruct (hc + 1 =? zlen l + 1); apply IH; (split; [exact Hst | lia]).
Qed.

Lemma draw_char_safe area cw ch r col (is_han : bool) color c c2 s :
  same_screen s0 s ->
  (if is_han then 160 <= c <= 255 /\ 160 <= c2 <= 255 else 0 <= c < 128) ->
  ensures (draw_char A area cw ch r col is_han color c c2 s) (same_screen s0).
Proof.
  intros Hs Hc. unfold draw_char. cbv zeta. set (a := calc_current_area _ _).
  destruct (Z.leb_spec 0 (x a)); [|done]. destruct (Z.leb_spec 0 (y a)); [|done]. cbn [andb].
  destruct (_ && _); [|done]. destruct is_han.
  - destruct (bitmap_safe (as_fonts A) c c2) as (bm & -> & Hbm); [lia | lia|]. cbn [rbind].
    by apply drawgbk_color_safe.
  - destruct (glyph_safe (as_fonts A) c Hc) as (g & -> & Hg). cbn [rbind].
    by apply drawarea_color_safe.
Qed.

Lemma draw_cols_safe fu e area cw ch b l1 l2 r h s :
  is_str b (l1 ++ l2) -> drawable l2 -> hl_ok h -> same_screen s0 s ->
  ensures (draw_cols fu A e area cw ch b (zlen (l1 ++ l2)) r (zlen l1) h s) (same_screen s0).
Proof.
  intros Hb. revert l1 l2 h s Hb. induction fu as [|fu IH]; intros l1 l2 h s Hb Hd Hh Hs; [done|].
  cbn [draw_cols]. destruct (Z.ltb_spec (zlen l1) (zlen (l1 ++ l2))) as [Hlt|]; [|done].
  destruct (is_str_get b (l1 ++ l2) (zlen l1) Hb) as (c & -> & Hl & Hc); [lia|]. cbn [rbind].
  eapply ensures_bind with (P := hl_ok).
  { destruct (_ && _); [by apply hl_advance_safe | done]. }
  intros [[[status hcolor] count] hc] Hh'. unfold is_char in Hc.
  inversion Hd as [|c' l Hc' Hdl|c' c2 l Ha Hb2 Hdl]; subst.
  { list_len. lia. }
  - rewrite lookup_middle in Hl by done. injection Hl as ->.
    replace (160 <=? c) with false by (symmetry; apply Z.leb_gt; lia). cbn [andb rbind].
    eapply ensures_bind; [apply (draw_char_safe _ _ _ _ _ false); [done | lia]|]. intros s' Hs'.
    change (l1 ++ c :: l) with (l1 ++ [c] ++ l) in *. rewrite app_assoc in *.
    replace (zlen l1 + 1) with (zlen (l1 ++ [c])) by llia. by apply IH.
  - rewrite lookup_middle in Hl by done. injection Hl as ->.
    replace (160 <=? c) with true by (symmetry; apply Z.leb_le; lia).
    replace (zlen l1 + 1 <? zlen (l1 ++ c :: c2 :: l)) with true by (symmetry; apply Z.ltb_lt; llia).
    cbn [andb]. change (l1 ++ c :: c2 :: l) with (l1 ++ [c] ++ c2 :: l) in *. rewrite app_assoc in *.
    destruct (is_str_get b ((l1 ++ [c]) ++ c2 :: l) (zlen l1 + 1) Hb) as (c2' & -> & Hl2 & Hc2);
      [llia|]. rewrite lookup_middle in Hl2 by llia. injection Hl2 as <-. cbn [rbind].
    replace (160 <=? c2) with true by (symmetry; apply Z.leb_le; lia). unfold is_char in Hc2.
    eapply ensures_bind; [apply (draw_char_safe _ _ _ _ _ true); [done | lia]|]. intros s' Hs'.
    change (c2 :: l) with ([c2] ++ l) in *. rewrite app_assoc in *.
    replace (zlen l1 + 2) with (zlen ((l1 ++ [c]) ++ [c2])) by llia. by apply IH.
Qed.

Lemma row_len_ok t ls r :
  frame t ls -> Forall (fun l => zlen l < TEXT_MAX) ls -> 0 <= r < zlen ls -> exists n, row_len t r = Ok n /\ 0 <= n < TEXT_MAX.
Proof.
  intros Hf Hlen Hr. destruct (lookup_lt_is_Some_2 ls (Z.to_nat r)) as [l Hl]; [lia|].
  destruct (frame_line t ls r l Hf) as (b & Hb & _ & Hn); [lia | done|].
  unfold row_len. rewrite Hb. cbn. eapply Forall_lookup_1 in Hlen; [|exact Hl]. exists (zlen l). split; [done | lia].
Qed.

Lemma draw_rows_safe e ls area cw ch s :
  frame (te_text e) ls -> Forall drawable ls -> same_screen s0 s ->
  ensures (draw_rows A e area cw ch s) (same_screen s0).
Proof.
  intros Hf Hd Hs. unfold draw_rows. rewrite (frame_maxrow _ _ Hf).
  apply (for_up_inv (fun _ => same_screen s0)); [lia | done|]. intros r s' Hr Hs'.
  destruct (lookup_lt_is_Some_2 ls (Z.to_nat r)) as [l Hl]; [lia|].
  destruct (frame_line _ ls r l Hf) as (b & El & Hb & En); [lia | done|].
  rewrite El; cbn [rbind]; rewrite En; cbn [rbind].
  apply (draw_cols_safe _ e area cw ch b [] l); try done.
  by eapply Forall_lookup_1.
Qed.

Section Selection.
Context (e : TextEdit) (ls : list bytes) (area : Area) (cw ch : Z).
Hypothesis Hf : frame (te_text e) ls.
Hypothesis Hlen : Forall (fun l => zlen l < TEXT_MAX) ls.
Hypothesis Hrows : zlen ls < TEXT_MAX.
Hypothesis Harea : box_ok area.
Hypothesis Hcw : 0 < cw <= 32.
Hypothesis Hch : 0 < ch <= 64.

(** A rectangle of the selection. *)
Lemma show_safe s r c w :
  same_screen s0 s -> 0 <= r < zlen ls -> - TEXT_MAX <= c <= TEXT_MAX -> - 2 ^ 28 <= w <= 2 ^ 28 ->
  ensures (rect s (calc_current_area area (cell cw ch r c w)) GREY) (same_screen s0).
Proof.
  intros Hs Hr Hc Hw. apply rect_safe; [done | done|]. apply box_cell; [done|]. apply cols_cell_le; [|done].
  unfold cols_ok. lia.
Qed.

Lemma wid_range n : - 2 * TEXT_MAX - 2 <= n <= 2 * TEXT_MAX + 2 -> - 2 ^ 28 <= s32 (cw * s32 n) <= 2 ^ 28.
Proof. unfold TEXT_MAX. intros H. rewrite (s32_small n) by lia. rewrite s32_small by nia. nia. Qed.

Lemma draw_selection_safe s :
  same_screen s0 s -> 0 <= point1_row e < zlen ls -> 0 <= point2_row e < zlen ls ->
  - TEXT_MAX <= point1_col e <= TEXT_MAX -> - TEXT_MAX <= point2_col e <= TEXT_MAX ->
  ensures (draw_selection e area cw ch s) (same_screen s0).
Proof.
  intros Hs H1 H2 C1 C2. unfold draw_selection. cbv zeta.
  destruct (row_len_ok _ _ _ Hf Hlen H1) as (n1 & -> & N1). destruct (row_len_ok _ _ _ Hf Hlen H2) as (n2 & -> & N2).
  cbn [rbind].
  assert (- TEXT_MAX <= (if n1 <=? point1_col e then n1 - 1 else point1_col e) <= TEXT_MAX) as C1' by (case_match; lia).
  generalize dependent (if n1 <=? point1_col e then n1 - 1 else point1_col e). intros c1 C1'.
  assert (- TEXT_MAX <= (if n2 <=? point2_col e then n2 - 1 else point2_col e) <= TEXT_MAX) as C2' by (case_match; lia).
  generalize dependent (if n2 <=? point2_col e then n2 - 1 else point2_col e). intros c2 C2'.
  pose proof (wid_range (n1 - c1) ltac:(lia)) as W1.
  pose proof (wid_range (1 + c2) ltac:(lia)) as W2. rewrite Z.mul_comm in W2.
  destruct (_ =? _).
  - apply show_safe; [done..|]. unfold TEXT_MAX in *. rewrite (s32_small (point2_col e - _)) by lia.
    pose proof (wid_range (point2_col e - point1_col e + 1) ltac:(unfold TEXT_MAX; lia)) as W3. rewrite Z.mul_comm in W3.
    destruct (s32 (cw * _) <? _); destruct (_ =? 0); lia.
  - eapply ensures_bind; [by apply show_safe|]. intros s1 Hs1.
    eapply ensures_bind; [apply show_safe; [done | done | unfold TEXT_MAX; lia | done]|]. intros s2 Hs2.
    destruct (Z.le_gt_cases (point1_row e + 1) (point2_row e)); [|by rewrite for_up_done by lia].
    apply (for_up_inv (fun _ => same_screen s0)); [lia | done|]. intros i s3 Hi Hs3.
    destruct (row_len_ok _ _ i Hf Hlen) as (n & -> & N); [lia|]. cbn [rbind].
    pose proof (wid_range n ltac:(lia)) as W. rewrite (s32_small n) in W by (unfold TEXT_MAX in *; lia).
    apply show_safe; [done | lia | unfold TEXT_MAX; lia | done].
Qed.
End Selection.

(** An edit box that can be drawn: text of the fonts with fewer than
    [TEXT_MAX] rows and columns, a scale the zoom buttons can give, an area
    and a selection whose coordinates do not overflow. *)
Record shows_text (e : TextEdit) (ls : list bytes) : Prop := {
  st_frame : frame (te_text e) ls;
  st_drawable : Forall drawable ls;
  st_cols : Forall (fun l => zlen l < TEXT_MAX) ls;
  st_rows : zlen ls < TEXT_MAX;
  st_cursor : 0 <= cursor_row (te_text e) < TEXT_MAX /\ 0 <= cursor_col (te_text e) < TEXT_MAX;
  st_scale : MIN_SCALE <= scale e <= MAX_SCALE;
  st_area : edit_area (te_area e);
  st_select : point2_col e <> -1 ->
    0 <= point1_row e < zlen ls /\ 0 <= point2_row e < zlen ls /\
    - TEXT_MAX <= point1_col e <= TEXT_MAX /\ - TEXT_MAX <= point2_col e <= TEXT_MAX;
}.
Definition text_fine (e : TextEdit) : Prop := exists ls, shows_text e ls.

Lemma font_size_range s : MIN_SCALE <= s <= MAX_SCALE -> exists cw ch, font_size s = (cw, ch) /\ 0 < cw <= 32 /\ 0 < ch <= 64.
Proof.
  unfold MIN_SCALE, MAX_SCALE. intros Hs. assert (s = 0 \/ s = 1 \/ s = 2) as [->|[->| ->]] by lia;
    (eexists _, _; split; [vm_compute; reflexivity | lia]).
Qed.

Lemma shows_text_scrolled e ls a : shows_text e ls -> edit_area a -> shows_text (set_te_area e a) ls.
Proof. intros [H1 H2 H3 H4 H5 H6 H7 H8] Ha. by split. Qed.

Lemma draw_TextEdit_safe e focused k parent s :
  text_fine e -> parent_ok k parent -> 0 <= k <= 12 -> same_screen s0 s ->
  ensures (draw_TextEdit A e focused parent s)
    (fun '(e', s') => (exists a, e' = set_te_area e a /\ edit_area a) /\ same_screen s0 s').
Proof.
  intros (ls & Ht) Ha Hk Hs. pose proof Ht as [Hf Hd Hl Hr [Hcr Hcc] Hsc Har Hp]. unfold draw_TextEdit.
  destruct (font_size_range _ Hsc) as (cw & ch & -> & Hcw & Hch).
  eapply ensures_bind; [apply rect_safe; [done | done | by apply (parent_box k)]|]. intros s1 Hs1.
  eapply ensures_bind with (P := fun '(e', area, s') =>
    (exists a, e' = set_te_area e a /\ edit_area a) /\ same_screen s0 s').
  - destruct focused; [|cbn; split; [exists (te_area e); by destruct e | done]].
    destruct (scroll_safe 9 k parent (te_area e) (cursor_row (te_text e)) (cursor_col (te_text e)) cw ch 1
      (mk_Area 0 0 0 0 0 0) Ha Hk Har ltac:(unfold cols_ok; lia) ltac:(lia) ltac:(lia))
      as (a & area & cur & -> & Harea & Hcur & Ha').
    eapply ensures_bind; [by apply rect_safe|]. intros s2 Hs2.
    eapply ensures_bind with (P := same_screen s0); [|cbn; by eauto].
    cbn [point2_col set_te_area]. destruct (Z.eqb_spec (point2_col e) (-1)); cbn [negb]; [done|].
    destruct (Hp ltac:(done)) as (H1 & H2 & H3 & H4). unfold TextEdit_adjust_col_row.
    destruct (_ || _); apply (draw_selection_safe _ ls); done.
  - intros [[e' area] s2] [(a & -> & Ha') Hs2].
    eapply ensures_bind; [apply (draw_rows_safe _ ls); done|]. cbn. by eauto.
Qed.

(** A one-line box that can be drawn: [draw_LineEdit] shows ASCII only. *)
Record shows_line (e : LineEdit) (ls : list bytes) : Prop := {
  sl_frame : frame (le_text e) ls;
  sl_ascii : Forall (Forall (fun c => c < 128)) ls;
  sl_cursor : 0 <= cursor_row (le_text e) < TEXT_MAX /\ 0 <= cursor_col (le_text e) < TEXT_MAX;
  sl_area : edit_area (le_area e);
}.
Definition line_fine (e : LineEdit) : Prop := exists ls, shows_line e ls.

(** A box whose text was just set. *)
Lemma shows_line_set a t s :
  rep t (mk_doc [s] 0 0) -> Forall (fun c => c < 128) s -> edit_area a -> shows_line (mk_LineEdit a t) [s].
Proof.
  intros (Hf & Hr & Hc & _) Hs Ha. split; cbn; [done | by constructor | unfold TEXT_MAX; rewrite Hr, Hc; cbn; lia | done].
Qed.

Lemma draw_LineEdit_safe e focused k parent s :
  line_fine e -> parent_ok k parent -> 0 <= k <= 12 -> same_screen s0 s ->
  ensures (draw_LineEdit A e focused parent s)
    (fun '(e', s') => (le_text e' = le_text e /\ edit_area (le_area e')) /\ same_screen s0 s').
Proof.
  intros (ls & [Hf Hd [Hcr Hcc] Har]) Ha Hk Hs. unfold draw_LineEdit.
  eapply ensures_bind; [apply rect_safe; [done | done | by apply (parent_box k)]|]. intros s1 Hs1.
  eapply ensures_bind with (P := fun '(e', area, s') => (le_text e' = le_text e /\ edit_area (le_area e')) /\ same_screen s0 s').
  - destruct focused; [|done].
    destruct (scroll_safe 9 k parent (le_area e) (cursor_row (le_text e)) (cursor_col (le_text e)) 8 16 8
      (mk_Area 0 0 0 0 0 0) Ha Hk Har ltac:(unfold cols_ok; lia) ltac:(lia) ltac:(lia))
      as (a & area & cur & -> & Harea & Hcur & Ha').
    eapply ensures_bind; [by apply rect_safe|]. done.
  - intros [[e' area] s2] [He Hs2].
    eapply ensures_bind with (P := same_screen s0); [|cbn; by eauto].
    rewrite (frame_maxrow _ _ Hf). apply (for_up_inv (fun _ => same_screen s0)); [lia | done|].
    intros r s3 Hr Hs3. destruct (lookup_lt_is_Some_2 ls (Z.to_nat r)) as [l Hl]; [lia|].
    destruct (frame_line _ ls r l Hf) as (b & El & Hb & En); [lia | done|].
    rewrite El; cbn [rbind]; rewrite En; cbn [rbind].
    unfold draw_line_row. apply (for_up_inv (fun _ => same_screen s0)); [lia | done|].
    intros col s4 Hcol Hs4. destruct (is_str_get b l col Hb) as (c & -> & Hc & Hch); [lia|]. cbn [rbind].
    cbv zeta. set (a := calc_current_area _ _).
    destruct (Z.leb_spec 0 (x a)); [|done]. destruct (Z.leb_spec 0 (y a)); [|done].
    destruct (Z.eqb_spec (width a) 8) as [->|]; [|done]. destruct (Z.eqb_spec (height a) 16) as [->|]; [|done].
    cbn [andb]. eapply Forall_lookup_1 in Hd; [|exact Hl]. eapply Forall_lookup_1 in Hd; [|exact Hc].
    cbn in Hd. unfold is_char in Hch.
    destruct (glyph_safe (as_fonts A) c) as (g & -> & Hg); [lia|]. cbn [rbind].
    by apply drawarea_safe.
Qed.
End Text.

(** * The widgets *)

Definition valid {B} (p : ptr) (l : list B) : Prop := 0 <= p < zlen l.

(** The first [n] entries of an array of pointers are not null and valid. *)
Definition entries {B} (n : Z) (a : list (option ptr)) (l : list B) : Prop :=
  forall i, 0 <= i < n -> exists p, get a i = Ok (Some p) /\ valid p l.

Section Heap.
Context {W : Type}.
Implicit Types g : gui W.

(** A button of the tab bar or of the tool bar. *)
Definition button_fine (n : nat) (b : Button) : Prop :=
  0 <= bt_edit b < Z.of_nat n /\ widget_area (bt_area b) /\ 0 <= width (bt_area b) <= 2 ^ 16.

(** Every box shows text the fonts have, every pointer that drawing follows
    points to a widget, and the areas are far from overflowing. *)
Record drawable_gui g : Prop := {
  dg_lines : Forall line_fine (line_edits g);
  dg_texts : Forall text_fine (text_edits g);
  dg_buttons : Forall (button_fine (length (line_edits g))) (button_heap g);
  dg_controls : Forall (fun c => valid (fc_edit c) (line_edits g) /\ widget_area (fc_area c)) (name_controls g);
  dg_buffers : Forall (fun b => valid (fb_edit b) (text_edits g) /\ widget_area (fb_area b)) (file_buffers g);
  dg_list : entries (fl_n_files (fileList g)) (fl_files (fileList g)) (name_controls g);
  dg_tabs : entries (sw_n_files (fileSwitch g)) (sw_buttons (fileSwitch g)) (button_heap g);
  dg_tabs_max : sw_n_files (fileSwitch g) <= FILESWITCH_MAX_FILES;
  dg_current : from_option (fun f => valid f (file_buffers g)) True (current (fileSwitch g));
  dg_search : valid (search_edit (fileSwitch g)) (text_edits g);
  dg_tools : forall i, 0 <= i < TOOL_NUM -> exists p, get (snd (toolBar g)) i = Ok p /\ valid p (button_heap g);
  dg_pinyin : valid (py_edit (pinyin g)) (text_edits g);
  dg_status : valid (snd (statusBar g)) (line_edits g);
  dg_areas : Forall widget_area [fl_area (fileList g); sw_area (fileSwitch g); search_area (fileSwitch g);
    fst (toolBar g); py_area (pinyin g); fst (statusBar g)];
}.

(** What drawing may change: where a box is scrolled to, what a one-line box
    shows, where a button stands and what it runs.  The texts of the multi-line
    boxes and everything else in the application stay as they are. *)
Record drawn g g' : Prop := {
  dr_rest : g' = set_button_heap (set_line_edits (set_text_edits g (text_edits g')) (line_edits g')) (button_heap g');
  dr_texts : Forall2 (fun e e' => exists a, e' = set_te_area e a) (text_edits g) (text_edits g');
  dr_lines : length (line_edits g') = length (line_edits g);
  dr_buttons : Forall2 (fun b b' => bt_edit b' = bt_edit b /\ bt_parent b' = bt_parent b) (button_heap g) (button_heap g');
}.

#[export] Instance drawn_refl : Reflexive drawn.
Proof.
  intros g. split; [by destruct g | | done |].
  - apply Forall2_same_length_lookup. split; [done|]. intros i e e' -> [= ->]. exists (te_area e'). by destruct e'.
  - apply Forall2_same_length_lookup. split; [done|]. by intros i b b' -> [= ->].
Qed.

#[export] Instance drawn_trans : Transitive drawn.
Proof.
  intros g1 g2 g3 [E1 T1 L1 B1] [E2 T2 L2 B2]. split.
  - rewrite E2. rewrite E1. by destruct g1.
  - eapply Forall2_trans; [|exact T1 | exact T2]. by intros e1 e2 e3 (a & ->) (a' & ->); exists a'.
  - by rewrite L2.
  - eapply Forall2_trans; [|exact B1 | exact B2]. cbn. intros b1 b2 b3 [-> ->]. done.
Qed.

Lemma drawn_put_text g p e e' :
  drawable_gui g -> text_edits g !! Z.to_nat p = Some e -> (exists a, e' = set_te_area e a /\ edit_area a) ->
  let g' := set_text_edits g (<[Z.to_nat p := e']> (text_edits g)) in drawable_gui g' /\ drawn g g'.
Proof.
  intros H He Ha g'. unfold g'. split.
  - destruct H. split; cbn; unfold entries, valid in *; rewrite ?length_insert; try done.
    apply Forall_insert; [done|]. destruct Ha as (a & -> & Ha).
    destruct (Forall_lookup_1 _ _ _ _ dg_texts0 He) as (ls & Hls). exists ls. by apply shows_text_scrolled.
  - destruct (drawn_refl g). split; cbn; try done.
    rewrite <- (list_insert_id (text_edits g) (Z.to_nat p) e) at 1 by done. apply Forall2_insert; [done|].
    destruct Ha as (a & -> & _). by exists a.
Qed.

Lemma drawn_put_line g p e' :
  drawable_gui g -> line_fine e' ->
  let g' := set_line_edits g (<[Z.to_nat p := e']> (line_edits g)) in drawable_gui g' /\ drawn g g'.
Proof.
  intros H He g'. unfold g'. split.
  - destruct H. split; cbn; unfold entries, valid in *; rewrite ?length_insert; try done.
    by apply Forall_insert.
  - destruct (drawn_refl g). split; cbn; try done. by rewrite length_insert.
Qed.

Lemma drawn_put_button g p b b' :
  drawable_gui g -> button_heap g !! Z.to_nat p = Some b -> bt_edit b' = bt_edit b -> bt_parent b' = bt_parent b ->
  widget_area (bt_area b') -> width (bt_area b') = width (bt_area b) ->
  let g' := set_button_heap g (<[Z.to_nat p := b']> (button_heap g)) in drawable_gui g' /\ drawn g g'.
Proof.
  intros H Hb E1 E2 Ha Ew g'. unfold g'. split.
  - destruct H. split; cbn; unfold entries, valid in *; rewrite ?length_insert; try done.
    apply Forall_insert; [done|]. destruct (Forall_lookup_1 _ _ _ _ dg_buttons0 Hb) as (H1 & _ & H3).
    unfold button_fine. by rewrite E1, Ew.
  - destruct (drawn_refl g). split; cbn; try done.
    rewrite <- (list_insert_id (button_heap g) (Z.to_nat p) b) at 1 by done. by apply Forall2_insert.
Qed.
End Heap.

Section Drawing.
Context {W : Type} `{!Sys W}.
Context (A : assets) (g0 : gui W) (s0 : screen).
Context (Hok : screen_ok s0) (Htrie : closed (as_trie A) = true).
Implicit Types d : @D W.

(** The states drawing goes through. *)
Definition in_order d : Prop := drawable_gui (fst d) /\ drawn g0 (fst d) /\ same_screen s0 (snd d).

Lemma in_order_start : drawable_gui g0 -> in_order (g0, s0).
Proof. intros H. split; [done|]. split; reflexivity. Qed.

(** What drawing does not change is read from the state it began with. *)
Lemma in_order_static d :
  in_order d ->
  fileList (fst d) = fileList g0 /\ fileSwitch (fst d) = fileSwitch g0 /\ toolBar (fst d) = toolBar g0 /\
  pinyin (fst d) = pinyin g0 /\ statusBar (fst d) = statusBar g0 /\
  name_controls (fst d) = name_controls g0 /\ file_buffers (fst d) = file_buffers g0 /\
  length (line_edits (fst d)) = length (line_edits g0) /\ length (text_edits (fst d)) = length (text_edits g0) /\
  length (button_heap (fst d)) = length (button_heap g0).
Proof.
  intros (_ & [E T L B] & _). rewrite E. cbn. repeat split; try done; symmetry; by eapply Forall2_length.
Qed.

Lemma in_order_step d g' s' :
  in_order d -> drawable_gui g' /\ drawn (fst d) g' -> same_screen s0 s' -> in_order (g', s').
Proof. intros (_ & Hd & _) [H1 H2] Hs. split; [done|]. split; [by etransitivity | done]. Qed.

Lemma draw_rect_safe d a color : in_order d -> safe_area a -> ensures (draw_rect d a color) in_order.
Proof.
  intros Hd Ha. unfold draw_rect. eapply ensures_bind; [by apply rect_safe; [exact Hok | apply Hd |]|].
  intros s' Hs'. apply in_order_step with d; [done | split; [apply Hd | reflexivity] | done].
Qed.

Lemma draw_text_edit_safe p k area d :
  in_order d -> parent_ok k area -> 0 <= k <= 12 -> valid p (text_edits g0) -> ensures (draw_text_edit A p area d) in_order.
Proof.
  intros Hd Ha Hk Hp. destruct (in_order_static d Hd) as (_ & _ & _ & _ & _ & _ & _ & _ & El & _).
  unfold draw_text_edit. destruct (get_lt (text_edits (fst d)) p) as (e & -> & He); [unfold valid in Hp; lia|].
  cbn [rbind]. destruct Hd as (Hg & Hdr & Hs).
  eapply ensures_bind; [apply (draw_TextEdit_safe A s0 Hok Htrie _ _ k); [|done..]|].
  { by eapply (Forall_lookup_1 _ _ _ _ (dg_texts _ Hg)). }
  intros [e' s'] [He' Hs']. rewrite put_ok by (unfold valid in Hp; lia). cbn [rbind].
  apply in_order_step with d; [done | by eapply drawn_put_text | done].
Qed.

Lemma draw_line_edit_safe p k area d :
  in_order d -> parent_ok k area -> 0 <= k <= 12 -> valid p (line_edits g0) -> ensures (draw_line_edit A p area d) in_order.
Proof.
  intros Hd Ha Hk Hp. destruct (in_order_static d Hd) as (_ & _ & _ & _ & _ & _ & _ & El & _ & _).
  unfold draw_line_edit. destruct (get_lt (line_edits (fst d)) p) as (e & -> & He); [unfold valid in Hp; lia|].
  cbn [rbind]. destruct Hd as (Hg & Hdr & Hs).
  assert (line_fine e) as Hf by by eapply (Forall_lookup_1 _ _ _ _ (dg_lines _ Hg)).
  eapply ensures_bind; [by apply (draw_LineEdit_safe A s0 Hok _ _ k)|].
  intros [e' s'] [[He' Ha'] Hs']. rewrite put_ok by (unfold valid in Hp; lia). cbn [rbind].
  apply in_order_step with d; [done | | done]. apply drawn_put_line; [done|].
  destruct Hf as (ls & [H1 H2 H3 H4]). exists ls. split; by rewrite ?He'.
Qed.

(** A button keeps its box when its area or its function changes. *)
Lemma put_button_safe p f d :
  in_order d -> valid p (button_heap g0) ->
  (forall b, widget_area (bt_area b) -> bt_edit (f b) = bt_edit b /\ bt_parent (f b) = bt_parent b /\
     widget_area (bt_area (f b)) /\ width (bt_area (f b)) = width (bt_area b)) ->
  ensures (let! b := get (button_heap (fst d)) p in
           let! h := put (button_heap (fst d)) p (f b) in Ok (set_button_heap (fst d) h, snd d)) in_order.
Proof.
  intros Hd Hp Hf. destruct (in_order_static d Hd) as (_ & _ & _ & _ & _ & _ & _ & _ & _ & El).
  destruct (get_lt (button_heap (fst d)) p) as (b & -> & Hb); [unfold valid in Hp; lia|]. cbn [rbind].
  rewrite put_ok by (unfold valid in Hp; lia). cbn [rbind].
  destruct (Forall_lookup_1 _ _ _ _ (dg_buttons _ (proj1 Hd)) Hb) as (_ & Ha & _).
  destruct (Hf b Ha) as (E1 & E2 & Ha' & Ew).
  apply in_order_step with d; [done | | apply Hd]. by eapply drawn_put_button; [apply Hd|..].
Qed.

Lemma get_button_safe p d :
  in_order d -> valid p (button_heap g0) ->
  exists b, get (button_heap (fst d)) p = Ok b /\ valid (bt_edit b) (line_edits g0) /\
    widget_area (bt_area b) /\ 0 <= width (bt_area b) <= 2 ^ 16.
Proof.
  intros Hd Hp. destruct (in_order_static d Hd) as (_ & _ & _ & _ & _ & _ & _ & Ell & _ & El).
  destruct (get_lt (button_heap (fst d)) p) as (b & E & Hb); [unfold valid in Hp; lia|]. exists b. split; [done|].
  destruct Hd as (Hg & _). apply dg_buttons in Hg. destruct (Forall_lookup_1 _ _ _ _ Hg Hb) as (H1 & H2 & H3).
  unfold valid. split; [lia | done].
Qed.

Lemma draw_Button_safe p k area d :
  in_order d -> parent_ok k area -> 0 <= k <= 8 -> valid p (button_heap g0) -> ensures (draw_Button A p area d) in_order.
Proof.
  intros Hd Ha Hk Hp. unfold draw_Button. destruct (get_button_safe p d Hd Hp) as (b & -> & Hb & Hba & _). cbn [rbind].
  apply (draw_line_edit_safe _ (k + 2)); [done | apply parent_child; (done || lia) | lia | done].
Qed.

(** A button moved to [bx]. *)
Lemma place_button_safe p bx d :
  in_order d -> valid p (button_heap g0) -> 0 <= bx <= 2 ^ 20 -> ensures (place_button p bx d) in_order.
Proof.
  intros Hd Hp Hbx. apply (put_button_safe p (fun b => mk_Button _ (bt_edit b) _ _)); [done | done|].
  intros b Ha. split; [done|]. split; [done|]. split; [|done]. revert Ha. unfold area_le. cbn. lia.
Qed.

Lemma areas_of (g : gui W) :
  drawable_gui g -> widget_area (fl_area (fileList g)) /\ widget_area (sw_area (fileSwitch g)) /\
    widget_area (search_area (fileSwitch g)) /\ widget_area (fst (toolBar g)) /\ widget_area (py_area (pinyin g)) /\
    widget_area (fst (statusBar g)).
Proof.
  intros H. pose proof (dg_areas g H) as HF.
  repeat match type of HF with Forall _ (_ :: _) =>
    let H1 := fresh in let H2 := fresh in apply Forall_cons in HF as [H1 H2]; rename H2 into HF end.
  done.
Qed.

Lemma draw_FileListBuffer_safe k area d :
  drawable_gui g0 -> in_order d -> parent_ok k area -> 0 <= k <= 6 -> ensures (draw_FileListBuffer A area d) in_order.
Proof.
  intros H0 Hd Ha Hk. unfold draw_FileListBuffer. cbv zeta.
  destruct (in_order_static d Hd) as (-> & _).
  eapply ensures_bind; [apply draw_rect_safe; [done | by intros; cbn]|]. intros d1 Hd1.
  eapply ensures_bind; [apply draw_rect_safe; [done | by intros; cbn]|]. intros d2 Hd2.
  destruct (Z.le_gt_cases 0 (fl_n_files (fileList g0))); [|by rewrite for_up_done by lia].
  apply (for_up_inv (fun _ => in_order)); [lia | done|]. intros i d3 Hi Hd3.
  destruct (dg_list g0 H0 i Hi) as (p & -> & Hp). cbn [rbind null_check].
  unfold draw_FileNameControl. destruct (in_order_static d3 Hd3) as (_ & _ & _ & _ & _ & -> & _ & El & _).
  destruct (get_lt (name_controls g0) p Hp) as (c & -> & Hc). cbn [rbind].
  destruct (Forall_lookup_1 _ _ _ _ (dg_controls g0 H0) Hc) as [Hv Hca].
  apply (draw_line_edit_safe _ (k + 2 + 2)); [done | | lia | done].
  apply parent_child; [|lia | done]. apply parent_child; [done | lia | apply (areas_of g0 H0)].
Qed.

(** The tabs: each stands to the right of the one before. *)
Lemma draw_tabs_safe k area d :
  drawable_gui g0 -> in_order d -> parent_ok k area -> 0 <= k <= 8 ->
  ensures (for_up 0 (sw_n_files (fileSwitch g0))
      (fun i '(d, bx) =>
         let! o := get (sw_buttons (fileSwitch g0)) i in
         let! p := null_check o in
         let! d := place_button p bx d in
         let! d := draw_Button A p area d in
         let! w := button_width p d in
         Ok (d, s32 (bx + w))) (d, 0)) (fun '(d, _) => in_order d).
Proof.
  intros H0 Hd Ha Hk. destruct (Z.le_gt_cases 0 (sw_n_files (fileSwitch g0))); [|by rewrite for_up_done by lia].
  eapply ensures_mono; [apply (for_up_inv (fun i '(d, bx) => in_order d /\ 0 <= bx <= i * 2 ^ 16)); [lia | done|] | by intros [d1 bx] [Hd1 _]].
  intros i [d1 bx] Hi [Hd1 Hbx]. pose proof (dg_tabs_max g0 H0) as Hmax. unfold FILESWITCH_MAX_FILES in Hmax.
  destruct (dg_tabs g0 H0 i Hi) as (p & -> & Hp). cbn [rbind null_check].
  eapply ensures_bind; [apply place_button_safe; [done | done | lia]|]. intros d2 Hd2.
  eapply ensures_bind; [by apply (draw_Button_safe _ k)|]. intros d3 Hd3.
  unfold button_width. destruct (get_button_safe p d3 Hd3 Hp) as (b & -> & _ & _ & Hw). cbn [rbind].
  split; [done|]. rewrite s32_small by lia. lia.
Qed.

Lemma draw_FileSwitchBar_safe k area d :
  drawable_gui g0 -> in_order d -> parent_ok k area -> 0 <= k <= 6 -> ensures (draw_FileSwitchBar A area d) in_order.
Proof.
  intros H0 Hd Ha Hk. unfold draw_FileSwitchBar. cbv zeta. destruct (areas_of g0 H0) as (_ & Hsw & Hse & _).
  destruct (in_order_static d Hd) as (_ & -> & _).
  set (area' := calc_current_area area (sw_area (fileSwitch g0))).
  assert (parent_ok (k + 2) area') as Ha' by (apply parent_child; (done || lia)).
  eapply ensures_bind; [by apply (draw_tabs_safe (k + 2)); [| | |lia]|].
  intros [d1 bx] Hd1. pose proof (dg_current g0 H0) as Hc.
  destruct (current (fileSwitch g0)) as [f|]; [|done]. cbn in Hc.
  eapply ensures_bind with (P := in_order).
  - unfold draw_FileBuffer. destruct (in_order_static d1 Hd1) as (_ & _ & _ & _ & _ & _ & -> & _).
    destruct (get_lt (file_buffers g0) f Hc) as (b & -> & Hb). cbn [rbind].
    destruct (Forall_lookup_1 _ _ _ _ (dg_buffers g0 H0) Hb) as [Hv Hba].
    apply (draw_text_edit_safe _ (k + 2 + 2)); [done | apply parent_child; (done || lia) | lia | done].
  - intros d2 Hd2. destruct (negb (ifSearch (fileSwitch g0) =? 0)); [|done].
    unfold draw_SearchFrame. cbv zeta. destruct (in_order_static d2 Hd2) as (_ & -> & _).
    assert (parent_ok (k + 2 + 2) (calc_current_area area' (search_area (fileSwitch g0)))) as Hs
      by (apply parent_child; (done || lia)).
    eapply ensures_bind; [apply draw_rect_safe; [done | apply Hs]|]. intros d3 Hd3.
    apply (draw_text_edit_safe _ (k + 2 + 2)); [done | done | lia | by apply dg_search].
Qed.

Lemma tools_str i :
  0 <= i < TOOL_NUM -> exists s t, get tools i = Ok t /\ is_str t s /\ zlen s < INT_MAX /\ Forall (fun c => c < 128) s.
Proof.
  intros Hi. destruct (get_lt tools i Hi) as (t & E & Ht).
  assert (Forall (fun t => exists s, is_str t s /\ zlen s < INT_MAX /\ Forall (fun c => c < 128) s) tools) as H.
  { unfold tools, str. repeat constructor; (eexists; split; [split; [|exists []; reflexivity] | split]);
      repeat constructor; vm_compute; intuition congruence. }
  eapply Forall_lookup_1 in H as (s & H); [|exact Ht]. by exists s, t.
Qed.

(** A tool button shows its name from the second time it is drawn. *)
Lemma set_str_safe p i d :
  in_order d -> valid p (line_edits g0) -> 0 <= i < TOOL_NUM ->
  ensures (let! name := get tools i in run_gui (line_edit_set_str p name) d) (fun '(_, d') => in_order d').
Proof.
  intros Hd Hp Hi. destruct (tools_str i Hi) as (s & t & -> & Hs & Hlen & Hasc). cbn [rbind].
  destruct (in_order_static d Hd) as (_ & _ & _ & _ & _ & _ & _ & El & _ & _).
  unfold run_gui, line_edit_set_str, bind, get_line_edit, put_line_edit, lift.
  destruct (get_lt (line_edits (fst d)) p) as (e & -> & He); [unfold valid in Hp; lia|]. cbn [rbind].
  destruct Hd as (Hg & Hdr & Hsc).
  destruct (Forall_lookup_1 _ _ _ _ (dg_lines _ Hg) He) as (ls & [Hf _ _ Hea]).
  destruct (LineEdit_set_str_refines _ _ _ _ Hf Hs Hlen) as (t' & -> & Ht'). cbn [rbind].
  rewrite put_ok by (unfold valid in Hp; lia). cbn [rbind].
  apply in_order_step with d; [done | | done]. apply drawn_put_line; [done|].
  exists [s]. by apply shows_line_set.
Qed.

Lemma draw_ToolBar_safe k area d :
  drawable_gui g0 -> in_order d -> parent_ok k area -> 0 <= k <= 6 -> ensures (draw_ToolBar A area d) in_order.
Proof.
  intros H0 Hd Ha Hk. unfold draw_ToolBar. destruct (areas_of g0 H0) as (_ & _ & _ & Hta & _).
  destruct (in_order_static d Hd) as (_ & _ & Et & _). rewrite Et.
  destruct (toolBar g0) as [a bs] eqn:Eb. cbn [fst] in Hta.
  assert (parent_ok (k + 2) (calc_current_area area a)) as Ha' by (apply parent_child; (done || lia)).
  eapply ensures_bind with (P := fun '(d, _) => in_order d); [|by intros []].
  eapply ensures_mono; [apply (for_up_inv (fun i '(d, bx) => in_order d /\ 0 <= bx <= i * 2 ^ 16)); [done | done|] | by intros [d1 bx] [Hd1 _]].
  intros i [d1 bx] Hi [Hd1 Hbx].
  destruct (dg_tools g0 H0 i Hi) as (p & E & Hp). rewrite Eb in E. cbn in E. rewrite E. cbn [rbind]. unfold TOOL_NUM in Hi.
  eapply ensures_bind; [apply place_button_safe; [done | done | lia]|]. intros d2 Hd2.
  eapply ensures_bind; [by apply (draw_Button_safe _ (k + 2)); [| |lia|]|]. intros d3 Hd3.
  eapply ensures_bind; [by apply (put_button_safe p (fun b => mk_Button _ (bt_edit b) _ _))|]. intros d4 Hd4.
  destruct (get_button_safe p d4 Hd4 Hp) as (b & Egb & Hb & _).
  pose proof (set_str_safe (bt_edit b) i d4 Hd4 Hb Hi) as Hstr.
  destruct (get tools i) as [name|]; [|done]. cbn [rbind] in *. rewrite Egb. cbn [rbind].
  eapply ensures_bind; [exact Hstr|]. intros [u d5] Hd5.
  unfold button_width. destruct (get_button_safe p d5 Hd5 Hp) as (b' & -> & _ & _ & Hw). cbn [rbind].
  split; [done|]. rewrite s32_small by lia. lia.
Qed.

Lemma draw_BufferManager_safe area d :
  drawable_gui g0 -> in_order d -> parent_ok 1 area -> ensures (draw_BufferManager A area d) in_order.
Proof.
  intros H0 Hd Ha. unfold draw_BufferManager. cbv zeta. destruct (areas_of g0 H0) as (_ & _ & _ & _ & Hpy & Hst).
  set (area' := calc_current_area area _).
  assert (parent_ok 3 area') as Ha' by (apply (parent_child 1); [done | lia | vm_compute; intuition discriminate]).
  eapply ensures_bind; [apply draw_rect_safe; [done | apply Ha']|]. intros d1 Hd1.
  eapply ensures_bind; [by apply (draw_FileListBuffer_safe 3)|]. intros d2 Hd2.
  eapply ensures_bind; [by apply (draw_FileSwitchBar_safe 3)|]. intros d3 Hd3.
  eapply ensures_bind; [by apply (draw_ToolBar_safe 3)|]. intros d4 Hd4.
  eapply ensures_bind with (P := in_order).
  - unfold draw_pinyinInput. cbv zeta. destruct (in_order_static d4 Hd4) as (_ & _ & _ & -> & _).
    assert (parent_ok 5 (calc_current_area area' (py_area (pinyin g0)))) as Hp by (apply (parent_child 3); (done || lia)).
    eapply ensures_bind; [apply draw_rect_safe; [done | apply Hp]|]. intros d5 Hd5.
    apply (draw_text_edit_safe _ 5); [done | done | lia | by apply dg_pinyin].
  - intros d5 Hd5. unfold draw_StatusBar. destruct (in_order_static d5 Hd5) as (_ & _ & _ & _ & -> & _).
    pose proof (dg_status g0 H0) as Hp. destruct (statusBar g0) as [a p]. cbn [fst] in Hst.
    assert (parent_ok 5 (calc_current_area area' a)) as Hs by (apply (parent_child 3); (done || lia)).
    eapply ensures_bind; [apply draw_rect_safe; [done | apply Hs]|]. intros d6 Hd6.
    apply (draw_line_edit_safe _ 5); [done | done | lia | done].
Qed.
End Drawing.


(** An editor with one file open in the box [e] and the search frame shown. *)
Definition demo_editor (e : TextEdit) : gui Ram.ram :=
  mk_gui (Ram.mk_ram ∅ ∅ 3) [e; demo_edit [[105]] 0 0] [demo_box] [mk_FileNameControl (mk_Area 0 0 100 16 0 0) 0 []]
    [mk_FileBuffer (mk_Area 0 20 700 400 0 0) 0 (replicate 512 0)] [demo_button; demo_button]
    (mk_FileListBuffer (mk_Area 10 30 90 570 0 0) 1 [Some 0] None [0])
    (mk_FileSwitchBar (mk_Area 115 23 700 700 0 0) (Some 0 :: replicate 9 None)
       (Some 0 :: replicate 9 None) 1 (Some 0) 1 0 (mk_Area 500 0 200 18 0 0) 1)
    (mk_Area 0 0 700 30 0 0, replicate 6 1) (mk_Area 0 580 800 20 0 0, 0) (mk_PinyinInput (mk_Area 600 548 200 32 0 0) 0 0 1)
    (Some Focus_fileSwitch) None (Some (P_TextEdit 0)) 1 0 empty_dict.

Lemma entries_intro {B} n a (l : list B) ps :
  (Some <$> ps) `prefix_of` a -> zlen ps = n -> Forall (fun p => valid p l) ps -> entries n a l.
Proof.
  intros [r ->] <- Hps i Hi. destruct (lookup_lt_is_Some_2 ps (Z.to_nat i)) as [p Hp]; [lia|].
  exists p. split; [|by eapply (Forall_lookup_1 _ _ _ _ Hps) in Hp]. apply get_ok; [lia|].
  rewrite lookup_app_l by (rewrite length_fmap; lia). by rewrite list_lookup_fmap, Hp.
Qed.

Lemma demo_drawable e : text_fine e -> drawable_gui (demo_editor e).
Proof.
  intros He. split; unfold valid; cbn [text_edits line_edits name_controls file_buffers button_heap demo_editor].
  - apply List.Forall_cons; [|done]. exists [[97]].
    split; [by apply frame_of_frame | repeat constructor | vm_compute; intuition discriminate..].
  - apply List.Forall_cons; [done|]. apply List.Forall_cons; [|done]. exists [[105]].
    split; [by apply frame_of_frame | repeat constructor; lia | repeat constructor | vm_compute; intuition discriminate..].
  - repeat apply List.Forall_cons; try done; vm_compute; intuition discriminate.
  - repeat apply List.Forall_cons; try done; vm_compute; intuition discriminate.
  - repeat apply List.Forall_cons; try done; vm_compute; intuition discriminate.
  - apply (entries_intro _ _ _ [0]); [by eexists | done | repeat constructor; cbn; lia].
  - apply (entries_intro _ _ _ [0]); [by eexists | done | repeat constructor; cbn; lia].
  - done.
  - cbn. lia.
  - cbn. lia.
  - intros i Hi. exists 1. split; [|cbn; lia]. apply get_ok; [lia|].
    apply lookup_replicate_2. unfold TOOL_NUM in Hi. lia.
  - cbn. lia.
  - cbn. lia.
  - repeat apply List.Forall_cons; try done; vm_compute; intuition discriminate.
Qed.

Definition demo_assets : assets := mk_assets (mk_fonts (fun _ => 0) (fun _ => 0) (fun _ => 0)) the_trie.
Definition demo_screen : screen := mk_screen 800 600 (fun _ => 0) (fun _ => 0) (fun _ => 0) 640000.

