(* ===== verification/System.v ===== *)
(** The running system: [main] of src/src/Gui.c with the interrupts of the
    keyboard and of the mouse.

    The loop of [main] is cut at the points where it calls [get_msg]: between
    two of them the program runs as one step, and an interrupt may come before
    each step.  This loses no behaviour of the queue, since a handler of the
    editor does not look at it; drawing changes the off-screen buffer, which no
    interrupt handler writes.  [sleep(0)] only gives up the processor. *)
From stdpp Require Import gmap.
From Stdlib Require Import String.
From S2P Require Import Prelude Ulib Sys Textframe TextLemmas TextSpec TextRefine TextRange Widgets TextSession TextProps Draw DrawProps Devices DeviceProps Highlight Pinyin GuiState Gui GuiDraw GuiProps DrawSafe.
Open Scope Z_scope.

(** Where [main] is. *)
Inductive phase :=
  | Dispatch (msg : Z)   (** at the [switch] *)
  | Fetch                (** at [msg = get_msg()] after the [switch] *)
  | Redraw               (** at [draw_BufferManager], no message pending *)
  | Poll.                (** in the [do ... while (!msg)] loop *)

Record system (W : Type) := mk_system {
  shift : Z;               (** of the keyboard driver *)
  pointer : Mouse.mouse;
  messages : Msg.queue;
  display : screen;
  resources : assets;
  editor : gui W;
  at_ : phase;
}.
Arguments mk_system {W}. Arguments shift {W}. Arguments pointer {W}. Arguments messages {W}.
Arguments display {W}. Arguments resources {W}. Arguments editor {W}. Arguments at_ {W}.

Inductive event :=
  | Kbd_irq (st data : Z)
  | Mouse_irq (st data : Z)
  | Run.

Section System.
Context {W : Type} `{!Sys W}.
Context (fuel : nat) (junk : nat -> TextEdit).
Implicit Types s : system W.

Definition full_area : Area := mk_Area 0 0 800 600 0 0.

(** The message fetched by [get_msg], the loop going on at [next]. *)
Definition fetch s (next : Z -> phase) : result (system W) :=
  let! '(q, msg) := Msg.sys_get_msg (messages s) in
  Ok (mk_system (shift s) (pointer s) q (display s) (resources s) (editor s) (next msg)).

(** The next step of [main]. *)
Definition main_step s : result (system W) :=
  match at_ s with
  | Dispatch msg =>
      let! '(_, g) := handle_msg fuel junk msg (editor s) in
      Ok (mk_system (shift s) (pointer s) (messages s) (display s) (resources s) g Fetch)
  | Fetch => fetch s (fun msg => if msg =? 0 then Redraw else Dispatch msg)
  | Redraw =>
      let! '(g, scr) := draw_BufferManager (resources s) full_area (editor s, display s) in
      let '(mx, my) := Mouse.get_mouse_pos (pointer s) in
      let! scr := update scr mx my in
      Ok (mk_system (shift s) (pointer s) (messages s) scr (resources s) g Poll)
  | Poll => fetch s (fun msg => if msg =? 0 then Poll else Dispatch msg)
  end.

Definition step (ev : event) s : result (system W) :=
  match ev with
  | Kbd_irq st data =>
      let! '(sh, q) := Kbd.kbdintr (shift s) (messages s) st data in
      Ok (mk_system sh (pointer s) q (display s) (resources s) (editor s) (at_ s))
  | Mouse_irq st data =>
      let! '(m, q, scr) := Mouse.mouseintr (pointer s) (messages s) (display s) st data in
      Ok (mk_system (shift s) m q scr (resources s) (editor s) (at_ s))
  | Run => main_step s
  end.

Fixpoint run_steps (n : nat) s : result (system W) :=
  match n with O => Ok s | S n' => let! s := main_step s in run_steps n' s end.

(** [main] up to its loop: the fonts, the dictionary and the highlighter are
    loaded, the widgets made and drawn, and the first message fetched.  [w] is
    the state of the file system, [buf] what the buffers of [pinyin_init] hold. *)
Definition main_init (w : W) (buf : bytes) (sh : Z) (m : Mouse.mouse) (q : Msg.queue) (scr : screen)
  : result (system W) :=
  let! '(w, f) := gbk_point_init fuel w (mk_fonts (fun _ => 0) (fun _ => 0) (fun _ => 0)) in
  let! '(w, f) := char_point_init fuel w f in
  let! '(w, d) := pinyin_init fuel w empty_dict buf in
  let! t := highlight_init empty_trie in
  let! '(_, g) := make_BufferManager fuel junk (blank w d) in
  let! '(g, scr) := draw_BufferManager (mk_assets f t) full_area (g, scr) in
  fetch (mk_system sh m q scr (mk_assets f t) g Fetch) Dispatch.

End System.

(** Typing, from the keyboard interrupt to the screen: whatever interrupts come
    between the steps of [main], the keys reach the text in order, none is lost,
    and no step of the system faults. *)

Open Scope Z_scope.

(** * Bytes of a text *)

(** Each byte of an edited text was there, was pasted or was typed. *)
Section Bytes.
Context (P : Z -> Prop) (Hprint : forall c, 32 <= c <= 126 -> P c).
Abbreviation all ls := (Forall (Forall P) ls).

Lemma all_cur d : all (lines d) -> Forall P (Spec.cur_line d).
Proof.
  intros H. unfold Spec.cur_line. destruct (lines d !! _) as [l|] eqn:E; [|constructor].
  by eapply Forall_lookup_1 in H.
Qed.

Lemma all_newline d : all (lines d) -> all (lines (Spec.newline d)).
Proof.
  intros H. pose proof (all_cur d H). unfold Spec.newline. cbn [lines].
  apply Forall_app. split; [by apply Forall_take|].
  repeat constructor; [by apply Forall_take | by apply Forall_drop | by apply Forall_drop].
Qed.

Lemma all_delete d : all (lines d) -> all (lines (Spec.delete_char d)).
Proof.
  intros H. pose proof (all_cur d H). apply Forall_insert; [done|].
  apply Forall_app. split; [by apply Forall_take | by apply Forall_drop].
Qed.

Lemma all_join d : all (lines d) -> all (lines (Spec.join d)).
Proof.
  intros H. pose proof (all_cur d H). unfold Spec.join. destruct (0 <? crow d); [|done]. cbn [lines].
  apply Forall_app. split; [by apply Forall_take|]. constructor; [|by apply Forall_drop].
  apply Forall_app. split; [|done]. destruct (lines d !! _) as [l|] eqn:E; [|constructor].
  by eapply Forall_lookup_1 in H.
Qed.

Lemma all_cstr l : Forall P l -> Forall P (cstr l).
Proof. induction 1 as [|c l Hc Hl IH]; cbn; [constructor|]. destruct (c =? 0); by constructor. Qed.

Lemma all_putc d c : 32 <= c <= 126 -> all (lines d) -> all (lines (Spec.putc d c)).
Proof.
  intros Hc H. pose proof (all_cur d H). apply Forall_insert; [done|]. apply all_cstr.
  apply Forall_app. split; [by apply Forall_take|]. constructor; [|by apply Forall_drop].
  rewrite u8_small by lia. by apply Hprint.
Qed.

Lemma all_paste d ins : all ins -> all (lines d) -> all (lines (spec_paste d ins)).
Proof.
  intros Hi H. pose proof (all_cur d H) as Hl. unfold spec_paste, inserted_cursor. cbn [lines].
  unfold inserted. apply Forall_app. split; [by apply Forall_take|]. apply Forall_app. split; [|by apply Forall_drop].
  apply Forall_merged. intros x Hx. rewrite Forall_forall in Hi. apply Hi in Hx. rewrite !Forall_app.
  repeat split; (done || by apply Forall_take || by apply Forall_drop).
Qed.

Lemma all_key k d c : from_option (fun ins => all ins) True k -> all (lines d) -> all (lines (spec_key k d c)).
Proof.
  intros Hk H. unfold spec_key.
  destruct (c =? ENTER); [by apply all_newline|]. destruct (c =? LEFT_ARROW); [by rewrite previous_char_lines|].
  destruct (c =? BACKSPACE).
  { destruct (0 <? ccol d); [|by apply all_join]. apply all_delete. by rewrite previous_char_lines. }
  destruct (c =? RIGHT_ARROW); [by rewrite next_char_lines|]. destruct (c =? UP_ARROW); [done|].
  destruct (c =? DOWN_ARROW); [done|].
  destruct (c =? CTRL_V); [destruct k as [ins|]; [by apply all_paste | done]|].
  destruct (Z.leb_spec 32 c); [|done]. destruct (Z.leb_spec c 126); [|done].
  cbn [andb]. rewrite next_char_lines. apply all_putc; [lia | done].
Qed.
End Bytes.

(** A byte of a two-byte character, or one the ASCII font has. *)
Definition shown (c : Z) : Prop := c < 128 \/ 160 <= c.

Lemma gbk_drawable l : gbk l -> Forall shown l -> drawable l.
Proof.
  induction 1 as [|c l Hc Hl IH|a b l Ha Hb Hl IH]; intros H; [constructor | |].
  - apply Forall_cons in H as [[Hs|Hs] H]; [|lia]. constructor; auto.
  - apply Forall_cons in H as [_ H]. apply Forall_cons in H as [_ H]. by apply drawable_han; [| |apply IH].
Qed.

(** * Keys leave the frame of a box alone *)

(** Same place, same size, same scale. *)
Definition same_view (e e' : TextEdit) : Prop := te_area e' = te_area e /\ scale e' = scale e.

#[export] Instance same_view_trans : Transitive same_view.
Proof. intros a b c [H1 H2] [H3 H4]. split; congruence. Qed.

Definition keeps (e : TextEdit) (r : result TextEdit) : Prop :=
  match r with Ok e' => same_view e e' | Err _ => True end.

Lemma keeps_bind e r f : keeps e r -> (forall e1, keeps e1 (f e1)) -> keeps e (rbind r f).
Proof.
  destruct r as [e1|]; [|done]. cbn. intros H1 Hf. specialize (Hf e1). destruct (f e1); cbn in *; [|done]. by etransitivity.
Qed.

(** The result of [f] on the text goes into the box, perhaps after the points changed. *)
Lemma keeps_text {B} e e0 (r : result B) (f : B -> textframe) :
  same_view e e0 -> keeps e (let! t := r in Ok (set_text e0 (f t))).
Proof. destruct r; done. Qed.

Lemma adjust_view e : same_view e (TextEdit_adjust_col_row e).
Proof. unfold TextEdit_adjust_col_row. by destruct (_ || _). Qed.

Lemma keeps_delete e e0 : same_view e e0 -> keeps e (delete_selection e0).
Proof.
  intros H. unfold delete_selection. destruct (textframe_delete _ _ _ _ _); [|done]. cbn [rbind].
  by apply (keeps_text e e0 _ (fun _ => a)).
Qed.

Lemma keeps_on_text e e0 f : same_view e e0 -> keeps e (on_text e0 f).
Proof. by apply (keeps_text _ _ _ id). Qed.

Lemma keeps_goto e e0 : same_view e e0 -> keeps e (goto_point1 e0).
Proof. by apply (keeps_text _ _ _ id). Qed.

Ltac keep_view :=
  repeat match goal with
  | |- keeps _ (if ?b then _ else _) => destruct b
  | |- keeps _ (Ok _) => split; reflexivity
  | |- keeps _ (on_text _ _) => apply keeps_on_text; split; reflexivity
  | |- keeps _ (goto_point1 _) => apply keeps_goto; split; reflexivity
  | |- keeps _ (delete_selection _) => apply keeps_delete; first [apply adjust_view | split; reflexivity]
  | |- keeps _ (rbind _ _) => apply keeps_bind; [|intros ?]
  end.

Lemma key_enter_view e : keeps e (key_enter e).
Proof. unfold key_enter. keep_view. Qed.

Lemma key_left_view e c : keeps e (key_left e c).
Proof. unfold key_left. keep_view. Qed.

Lemma key_right_view e : keeps e (key_right e).
Proof. unfold key_right. keep_view. Qed.

Lemma key_char_view e c : keeps e (key_char e c).
Proof. unfold key_char. keep_view. Qed.

Lemma key_paste_view e k : keeps e (key_paste e k).
Proof.
  unfold key_paste. destruct k as [t|]; [|done]. apply keeps_bind; [keep_view|]. intros e1. cbv zeta.
  destruct (textframe_insert _ _ _ _); [|done]. cbn [rbind]. by apply (keeps_text _ _ _ (fun _ => a)).
Qed.

Lemma key_copy_view e k e' k' : key_copy e k = Ok (e', k') -> same_view e e'.
Proof.
  unfold key_copy. destruct (negb _); [|by intros [= <- _]]. intros H. rinv H. cbv zeta in H. rinv H.
  injection H as <- _. apply adjust_view.
Qed.

(** A key moves or resizes no box. *)
Lemma keyboard_view e clip c e' clip' : handle_keyboard_TextEdit e clip c = Ok (e', clip') -> same_view e e'.
Proof.
  assert (forall r, keeps e r -> (let! e := r in Ok (e, clip)) = Ok (e', clip') -> same_view e e') as Hsame.
  { intros [e1|]; cbn; [|done]. by intros ? [= <- _]. }
  unfold handle_keyboard_TextEdit. repeat (match goal with |- context [if ?b then _ else _] => destruct b end);
    try (apply Hsame; first [apply key_enter_view | apply key_left_view | apply key_right_view | apply key_paste_view
      | apply key_char_view | apply keeps_on_text; split; reflexivity]); [apply key_copy_view|].
  intros H. destruct (key_copy e clip) as [[e1 k1]|] eqn:E1; [|done]. apply key_copy_view in E1. cbn [rbind] in H.
  pose proof (key_left_view e1 BACKSPACE) as H2. rinv H. pose proof (key_char_view a c) as H3. rinv H.
  injection H as <- _. cbn in H2, H3. etransitivity; [exact E1|]. by etransitivity.
Qed.

(** * An editing session *)

Section Session.
Context {W : Type} `{!Sys W}.
Context (fuel : nat) (junk : nat -> TextEdit).
Context (k : option (list bytes)).    (** what the clipboard holds *)
Implicit Types g : gui W.

(** A file is open and has the focus, its box shows [d] with nothing selected,
    and the input method and the search box are off. *)
Record session g (d : doc) : Prop := {
  se_drawable : drawable_gui g;
  se_focus : focus g = Some Focus_fileSwitch;
  se_search : searchInput (fileSwitch g) = 0;
  se_pinyin : on (pinyin g) = 0;
  se_clip : clip_rep (clipBoard g) k;
  se_clip_shown : from_option (fun ins => Forall (Forall shown) ins) True k;
  se_box : exists f b e, current (fileSwitch g) = Some f /\ get (file_buffers g) f = Ok b /\
    get (text_edits g) (fb_edit b) = Ok e /\ typing e d /\ Forall (Forall shown) (lines d);
}.

(** The keys that only concern the box. *)
Definition box_key (c : Z) : Prop := c <> TAB /\ c <> CTRL_F /\ c <> CTRL_S /\ c <> CTRL_P.

Lemma session_drawn g g' d : session g d -> drawable_gui g' -> drawn g g' -> session g' d.
Proof.
  intros [Hd Hf Hs Hp Hc Hcs (f & b & e & Hcur & Hb & He & Ht & Hsh)] Hd' [E T _ _].
  apply get_inv in He as [Hr He]. destruct (Forall2_lookup_l _ _ _ _ _ T He) as (e' & He' & (a & ->)).
  rewrite E. split; cbn; try done; [by rewrite <- E|].
  exists f, b, (set_te_area e a). split; [done|]. split; [done|].
  split; [apply get_ok; [lia | done]|]. split; [|done]. by destruct Ht as (? & ? & ?).
Qed.

(** A box that shows a text of whole, visible characters can be drawn. *)
Lemma typing_fine e d :
  typing e d -> Forall (Forall shown) (lines d) -> weight (lines d) < TEXT_MAX ->
  MIN_SCALE <= scale e <= MAX_SCALE -> edit_area (te_area e) -> text_fine e.
Proof.
  intros (Hp & (Hf & Hr & Hc & Hin) & (Hg & _)) Hs Hw Hsc Ha. exists (lines d).
  pose proof (weight_rows (lines d)) as Hwr. destruct Hin as (l & Hrow & Hl & Hcol).
  pose proof (weight_line _ _ _ Hl) as Hwl. pose proof (lookup_lt_Some _ _ _ Hl) as Hlt.
  split; [done | | | lia | rewrite Hr, Hc; lia | done | done | by rewrite Hp].
  - rewrite Forall_forall in Hg, Hs |- *. intros l' Hl'. apply gbk_drawable; auto.
  - rewrite Forall_lookup. intros i l' Hl'. pose proof (weight_line _ _ _ Hl'). lia.
Qed.

(** Replacing the text of the box that has the focus. *)
Lemma session_text g d f b e e' d' :
  session g d -> current (fileSwitch g) = Some f -> get (file_buffers g) f = Ok b ->
  get (text_edits g) (fb_edit b) = Ok e -> typing e' d' -> Forall (Forall shown) (lines d') ->
  same_view e e' -> weight (lines d') < TEXT_MAX ->
  session (set_text_edits g (<[Z.to_nat (fb_edit b) := e']> (text_edits g))) d'.
Proof.
  intros [Hd Hf Hs Hp Hc Hcs _] Hcur Hb He Ht Hsh [Ea Es] Hw. apply get_inv in He as [Hr He]. split; cbn; try done.
  - destruct (Forall_lookup_1 _ _ _ _ (dg_texts _ Hd) He) as (ls & Hls).
    destruct Hd. split; cbn; unfold entries, valid in *; rewrite ?length_insert; try done.
    apply Forall_insert; [done|]. eapply typing_fine; [done | done | done | by rewrite Es; apply Hls | by rewrite Ea; apply Hls].
  - exists f, b, e'. split; [done|]. split; [done|]. split; [|done].
    apply get_ok; [lia|]. apply list_lookup_insert_eq. lia.
Qed.

Lemma set_clip_id g : set_clipBoard g (clipBoard g) = g.
Proof. by destruct g. Qed.

(** A key in the box. *)
Lemma key_text_edit_session g d f b c :
  session g d -> current (fileSwitch g) = Some f -> get (file_buffers g) f = Ok b ->
  weight (lines d) + 1 + clip_weight k < TEXT_MAX ->
  exists g', key_text_edit (fb_edit b) c g = Ok (tt, g') /\ session g' (spec_key k d c) /\
    weight (lines (spec_key k d c)) <= weight (lines d) + 1 + clip_weight k.
Proof.
  intros Hse Hcur Hb Hw. pose proof Hse as [Hd Hf Hs Hp Hc Hcs (f' & b' & e & Hcur' & Hb' & He & Ht & Hsh)].
  rewrite Hcur in Hcur'. injection Hcur' as <-. rewrite Hb in Hb'. injection Hb' as <-.
  destruct (typing_key e d (clipBoard g) k c Ht Hc ltac:(unfold TEXT_MAX in Hw; lia)) as (e' & E & Ht' & Hw').
  unfold key_text_edit, bind, get_text_edit, gets, lift, put_text_edit, modify. rewrite He. cbn [rbind].
  rewrite E. cbn [rbind]. pose proof (get_inv _ _ _ He) as [Hr _]. rewrite put_ok by done. cbn [rbind].
  eexists. split; [done|]. split; [|done].
  change (set_clipBoard (set_text_edits g ?h) (clipBoard g))
    with (set_clipBoard (set_text_edits g h) (clipBoard (set_text_edits g h))).
  rewrite set_clip_id. eapply session_text; try done; [|by eapply keyboard_view | lia].
  apply all_key; [|done | done]. unfold shown. intros; lia.
Qed.

(** The status line is emptied first. *)
Lemma set_status_session g d s l :
  session g d -> is_str s l -> zlen l < INT_MAX -> Forall (fun c => c < 128) l ->
  exists g', set_status s g = Ok (tt, g') /\ session g' d /\
    fileSwitch g' = fileSwitch g /\ file_buffers g' = file_buffers g /\ pinyin g' = pinyin g /\
    focus g' = focus g /\ isRename g' = isRename g.
Proof.
  intros Hse Hs Hl Ha. pose proof (se_drawable _ _ Hse) as Hd. pose proof (dg_status _ Hd) as Hv.
  destruct (get_lt (line_edits g) (snd (statusBar g)) Hv) as (e & He & Hlk).
  destruct (Forall_lookup_1 _ _ _ _ (dg_lines _ Hd) Hlk) as (ls & [Hf _ _ Hea]).
  destruct (LineEdit_set_str_refines _ _ _ _ Hf Hs Hl) as (t & E & Hrep).
  unfold set_status, line_edit_set_str, bind, gets, get_line_edit, lift, put_line_edit. rewrite He. cbn [rbind].
  rewrite E. cbn [rbind]. rewrite put_ok by done. cbn [rbind].
  eexists. split; [done|]. split; [|done].
  destruct (drawn_put_line g (snd (statusBar g)) (mk_LineEdit (le_area e) t) Hd) as [H1 H2].
  { exists [l]. by apply shows_line_set. }
  by eapply session_drawn.
Qed.

(** One key through the dispatch of the buffer manager. *)
Lemma key_session g d c :
  session g d -> box_key c -> weight (lines d) + 1 + clip_weight k < TEXT_MAX ->
  exists g', handle_keyboard_BufferManager fuel c g = Ok (tt, g') /\ session g' (spec_key k d c) /\
    weight (lines (spec_key k d c)) <= weight (lines d) + 1 + clip_weight k.
Proof.
  intros Hse (H1 & H2 & H3 & H4) Hw. unfold handle_keyboard_BufferManager, bind at 1.
  destruct (set_status_session g d (str "") [] Hse) as (g1 & -> & Hse1 & Esw & Efb & Epy & Efo & Ere);
    [by apply (is_str_intro []) | done | done |].
  pose proof Hse1 as [Hd1 Hf1 Hs1 Hp1 _ _ (f & b & e & Hcur & Hb & He & _)].
  destruct (key_text_edit_session g1 d f b c Hse1 Hcur Hb Hw) as (g2 & E2 & Hg2).
  exists g2. split; [|done]. unfold bind at 1, gets at 1.
  rewrite (proj2 (Z.eqb_neq _ _) H4). rewrite Hp1. cbn [Z.eqb negb andb].
  unfold bind, gets, ret. rewrite Hf1. rewrite (bool_decide_eq_false_2 (Some Focus_fileSwitch = Some Focus_fileList)) by done.
  rewrite andb_false_r, bool_decide_eq_true_2 by done.
  unfold handle_keyboard_FileSwitchBar, bind, gets. rewrite (proj2 (Z.eqb_neq _ _) H1), (proj2 (Z.eqb_neq _ _) H2).
  rewrite Hcur, Hs1. cbn [Z.eqb negb]. unfold handle_keyboard_FileBuffer, bind, get_buffer. rewrite Hb. cbn [rbind].
  by rewrite (proj2 (Z.eqb_neq _ _) H3).
Qed.
End Session.

(** * The system while a user types *)

Section Typing.
Context {W : Type} `{!Sys W}.
Context (fuel : nat) (junk : nat -> TextEdit) (k : option (list bytes)).
Implicit Types s : system W.

(** The messages on their way: the one [main] holds and the queue. *)
Definition in_flight s (l : list Z) : list Z :=
  match at_ s with Dispatch m => [m] | _ => [] end ++ l.

(** The keys among them: 0 is a release, -1 an interrupt without data. *)
Definition keys_of (l : list Z) : list Z := filter (fun m => 0 < m) l.

Definition key_msg (m : Z) : Prop := -1 <= m < 256 /\ box_key m.

(** The session shows [d], and the queue holds [l]. *)
Record working s (d : doc) (l : list Z) : Prop := {
  wk_session : session k (editor s) d;
  wk_screen : vga (display s);
  wk_room : UPDATE_LEN <= addr_len (display s);
  wk_trie : closed (as_trie (resources s)) = true;
  wk_mouse : mouse_ok (pointer s);
  wk_shift : 0 <= shift s < 128;
  wk_queue : queue_rep (messages s) l;
  wk_msgs : Forall key_msg (in_flight s l);
}.

(** [s'] and [d'] come from [s] and [d] by handling some of the messages. *)
Definition progress s (d : doc) (l : list Z) s' (d' : doc) (l' : list Z) : Prop :=
  exists ks, keys_of (in_flight s l) = ks ++ keys_of (in_flight s' l') /\ d' = foldl (spec_key k) d ks /\
    weight (lines d') <= weight (lines d) + zlen ks * (1 + clip_weight k).

(** How far [main] is from waiting with an empty queue. *)
Definition distance s (l : list Z) : nat :=
  4 * length l + match at_ s with Dispatch _ => 3 | Fetch => 2 | Redraw => 1 | Poll => 0 end.

Definition waiting s (l : list Z) : Prop := at_ s = Poll /\ l = [].

Lemma keys_of_cons m l : keys_of (m :: l) = if 0 <? m then m :: keys_of l else keys_of l.
Proof. unfold keys_of. rewrite filter_cons. destruct (Z.ltb_spec 0 m); case_decide; (done || lia). Qed.

Lemma progress_none s d l s' l' :
  keys_of (in_flight s' l') = keys_of (in_flight s l) -> progress s d l s' d l'.
Proof. intros E. exists []. split; [by rewrite E|]. split; [done|]. cbn. lia. Qed.

(** The screen shows the editor: it was drawn with the text [d] in the box and
    copied to the frame buffer, and nothing was drawn since. *)
Definition painted s (d : doc) : Prop :=
  exists g scr0 scr, session k g d /\
    draw_BufferManager (resources s) full_area (g, scr0) = Ok (editor s, scr) /\
    update scr (Mouse.get_mouse_pos (pointer s)).1 (Mouse.get_mouse_pos (pointer s)).2 = Ok (display s).

(** [main] polls for messages only when the screen shows the editor. *)
Definition up_to_date s (d : doc) : Prop := at_ s = Poll -> painted s d.

(** Handling a message. *)
Lemma dispatch_ok m g d :
  session k g d -> key_msg m -> weight (lines d) + 1 + clip_weight k < TEXT_MAX ->
  exists g' d', handle_msg fuel junk m g = Ok (tt, g') /\ session k g' d' /\
    d' = foldl (spec_key k) d (keys_of [m]) /\
    weight (lines d') <= weight (lines d) + zlen (keys_of [m]) * (1 + clip_weight k).
Proof.
  intros Hse [Hm Hb] Hw. rewrite keys_of_cons. unfold handle_msg. cbv zeta.
  destruct (Z.eq_dec m (-1)) as [->|Hne]; [exists g, d; do 3 (split; [done|]); cbn; lia|].
  rewrite (shiftr_small m 24) by lia. cbn [Z.leb Z.compare MOUSE_LEFT_PRESS MOUSE_MOVE andb KEYBOARD Z.eqb].
  replace (Z.land m 0xffffff) with m.
  2:{ change 0xffffff with (Z.ones 24). rewrite Z.land_ones, Z.mod_small; lia. }
  destruct (key_session fuel k g d m Hse Hb Hw) as (g' & E & Hse' & Hw').
  exists g', (spec_key k d m). split; [done|]. split; [done|]. destruct (Z.ltb_spec 0 m); cbn; [split; [done | lia]|].
  assert (m = 0) as -> by lia. split; [done | cbn; lia].
Qed.

(** [get_msg] takes the first message. *)
Lemma fetch_ok s d l next :
  working s d l -> match at_ s with Dispatch _ => False | _ => True end ->
  (forall m, match next m with Dispatch m' => m' = m /\ m <> 0 | _ => m = 0 end) ->
  exists s', fetch s next = Ok s' /\ working s' d (list.tail l) /\ progress s d l s' d (list.tail l) /\
    at_ s' = next (default 0 (head l)) /\ (painted s d -> painted s' d).
Proof.
  intros [Hse Hv Hr Ht Hm Hsh Hq Hms] Hat Hn. unfold fetch.
  destruct (get_msg_rep _ _ Hq) as (q' & -> & Hq'). cbn [rbind]. eexists. split; [done|].
  set (m := default 0 (head l)) in *. specialize (Hn m).
  assert (El : in_flight s l = l) by (unfold in_flight; by destruct (at_ s)). rewrite El in Hms.
  split; [split; try done | split; [apply progress_none; rewrite El | split; [done | exact id]]];
    unfold in_flight; cbn [at_]; destruct l as [|m' l]; cbn [head default from_option id list.tail] in *; subst m.
  - destruct (next 0); [by destruct Hn | constructor..].
  - apply Forall_cons in Hms as [H1 H2]. destruct (next m'); [destruct Hn as [-> _]; by constructor | exact H2..].
  - destruct (next 0); [by destruct Hn | done | done | done].
  - destruct (next m'); [by destruct Hn as [-> _] | by subst m'..].
Qed.

Lemma update_ok (scr : screen) mx my :
  vga scr -> UPDATE_LEN <= addr_len scr -> 0 <= mx < 800 -> 0 <= my < 600 ->
  exists scr', update scr mx my = Ok scr' /\ vga scr' /\ addr_len scr' = addr_len scr.
Proof.
  intros Hv Hr Hx Hy. unfold update, copy_out. rewrite (proj2 (Z.ltb_ge _ _) Hr). cbn [rbind].
  match goal with |- context [draw_mouse ?s1 _ _] =>
    destruct (ensures_inv _ _ (draw_mouse_vga s1 s1 mx my (conj Hv (conj eq_refl eq_refl)) Hx Hy)) as (s2 & E & H1 & _ & H2)
  end.
  by exists s2.
Qed.

Lemma full_area_ok : parent_ok 1 full_area.
Proof. split; [by intros; cbn | vm_compute; intuition discriminate]. Qed.

(** Drawing and copying to the frame buffer. *)
Lemma redraw_ok s d l :
  working s d l -> at_ s = Redraw ->
  exists s', main_step fuel junk s = Ok s' /\ working s' d l /\ at_ s' = Poll /\ painted s' d.
Proof.
  intros [Hse Hv Hr Ht Hm Hsh Hq Hms] Hat. unfold main_step. rewrite Hat.
  assert (screen_ok (display s)) as Hok. { unfold screen_ok. destruct Hv as (-> & -> & _). done. }
  pose proof (draw_BufferManager_safe (resources s) (editor s) (display s) Hok Ht full_area (editor s, display s)
    (se_drawable _ _ _ Hse)) as Hdraw.
  destruct (ensures_inv _ _ (Hdraw (in_order_start _ _ (se_drawable _ _ _ Hse)) full_area_ok))
    as ([g scr] & Edraw & Hg & Hdr & Hsc). clear Hdraw. rewrite Edraw. cbn [rbind fst snd] in *.
  destruct Hsc as (E1 & E2 & E3 & E4 & E5). destruct Hm as (Hc & Hx & Hy). unfold Mouse.get_mouse_pos.
  destruct (update_ok scr _ _ ltac:(unfold vga in *; by rewrite E1, E2, E5) ltac:(by rewrite E5) Hx Hy)
    as (s1 & Eup & Hv1 & E6). rewrite Eup.
  cbn [rbind]. eexists. split; [reflexivity|].
  split; [|split; [reflexivity|]; exists (editor s), (display s), scr; split; [exact Hse|]; split; [exact Edraw | exact Eup]].
  clear Edraw Eup. split; cbn; try done.
  - by eapply session_drawn.
  - by rewrite E6, E5.
  - unfold in_flight in *. cbn. by rewrite Hat in Hms.
Qed.

Lemma main_step_ok s d l :
  working s d l -> weight (lines d) + 1 + clip_weight k < TEXT_MAX ->
  exists s' d' l', main_step fuel junk s = Ok s' /\ working s' d' l' /\ progress s d l s' d' l' /\
    (waiting s l \/ (distance s' l' < distance s l)%nat) /\ (up_to_date s d -> up_to_date s' d').
Proof.
  intros Hwk Hw. destruct (at_ s) as [m| | |] eqn:Hat.
  - pose proof Hwk as [Hse Hv Hr Ht Hm Hsh Hq Hms]. unfold in_flight in Hms. rewrite Hat in Hms.
    apply Forall_cons in Hms as [Hmm Hms].
    destruct (dispatch_ok m (editor s) d Hse Hmm Hw) as (g' & d' & E & Hse' & Hd' & Hw').
    unfold main_step. rewrite Hat, E. cbn [rbind]. eexists _, d', l. split; [done|].
    split; [by split|]. split; [|split; [right; unfold distance; rewrite Hat; cbn; lia | done]].
    exists (keys_of [m]). unfold in_flight. rewrite Hat. cbn [at_ List.app].
    split; [rewrite !keys_of_cons; destruct (0 <? m); reflexivity | done].
  - unfold main_step. rewrite Hat.
    destruct (fetch_ok s d l (fun msg => if msg =? 0 then Redraw else Dispatch msg) Hwk) as (s' & E & Hwk' & Hp & Hat' & _).
    { by rewrite Hat. } { intros m. by destruct (Z.eqb_spec m 0). }
    exists s', d, (list.tail l). split; [done|]. split; [done|]. split; [done|]. split.
    + right. unfold distance. rewrite Hat, Hat'. destruct l as [|m l]; cbn; [lia|]. destruct (m =? 0); lia.
    + intros _. unfold up_to_date. rewrite Hat'. by destruct (_ =? 0).
  - destruct (redraw_ok s d l Hwk Hat) as (s' & E & Hwk' & Hat' & Hpaint). exists s', d, l. split; [done|]. split; [done|].
    split; [apply progress_none; unfold in_flight; by rewrite Hat, Hat'|].
    split; [|by intros _ _]. right. unfold distance. rewrite Hat, Hat'. lia.
  - unfold main_step. rewrite Hat.
    destruct (fetch_ok s d l (fun msg => if msg =? 0 then Poll else Dispatch msg) Hwk) as (s' & E & Hwk' & Hp & Hat' & Hpaint).
    { by rewrite Hat. } { intros m. by destruct (Z.eqb_spec m 0). }
    exists s', d, (list.tail l). split; [done|]. split; [done|]. split; [done|].
    split; [|intros U _; apply Hpaint, U, Hat].
    destruct l as [|m l]; [by left|]. right. unfold distance. rewrite Hat, Hat'. cbn. destruct (m =? 0); lia.
Qed.

(** ** Runs *)

(** The queue has room for a message. *)
Definition has_room (q : Msg.queue) : bool :=
  negb ((Msg.tail q + 1) mod Msg.KBD_C_QUEUE_LENGTH =? Msg.front q).

Lemma room_len q l : queue_rep q l -> has_room q = true -> zlen l < 99.
Proof.
  intros H Hr. destruct (Z.eq_dec (zlen l) 99) as [E|]; [|pose proof (qr_room _ _ H); lia].
  unfold has_room in Hr. rewrite (qr_tail _ _ H), E in Hr. change Msg.KBD_C_QUEUE_LENGTH with 100 in Hr.
  rewrite Zplus_mod_idemp_l in Hr. replace (Msg.front q + 99 + 1) with (Msg.front q + 1 * 100) in Hr by lia.
  rewrite Z_mod_plus_full, Z.mod_small, Z.eqb_refl in Hr by apply H. done.
Qed.

(** Any interleaving of keyboard interrupts and steps of [main], with the keys
    that were pressed: an interrupt finds room in the queue, and its key, if
    any, is not one of the four that leave the box. *)
Inductive typing_run (s0 : system W) : system W -> list Z -> Prop :=
  | run_start : typing_run s0 s0 []
  | run_irq s ks st data s' sh c :
      typing_run s0 s ks -> 0 <= data < 256 -> has_room (messages s) = true ->
      Kbd.kbdgetc (shift s) st data = Ok (sh, c) -> box_key c ->
      step fuel junk (Kbd_irq st data) s = Ok s' ->
      typing_run s0 s' (ks ++ keys_of [c])
  | run_main s ks s' :
      typing_run s0 s ks -> step fuel junk Run s = Ok s' -> typing_run s0 s' ks.

Lemma keys_of_app l1 l2 : keys_of (l1 ++ l2) = keys_of l1 ++ keys_of l2.
Proof. apply filter_app. Qed.

(** A keyboard interrupt that finds room in the queue. *)
Lemma irq_ok s d l st data :
  working s d l -> 0 <= data < 256 -> has_room (messages s) = true ->
  exists sh c s', Kbd.kbdgetc (shift s) st data = Ok (sh, c) /\ step fuel junk (Kbd_irq st data) s = Ok s' /\
    (up_to_date s d -> up_to_date s' d) /\
    (box_key c -> working s' d (l ++ [c]) /\ keys_of (in_flight s' (l ++ [c])) = keys_of (in_flight s l) ++ keys_of [c]).
Proof.
  intros [Hse Hv Hr Ht Hm Hsh Hq Hms] Hd Hroom. cbn [step]. unfold Kbd.kbdintr.
  destruct (kbdgetc_ok (shift s) st data Hsh Hd) as (sh & c & Hk & Hsh' & Hc).
  destruct (enqueue_rep _ _ c Hq (room_len _ _ Hq Hroom)) as (q' & E & Hq').
  exists sh, c. rewrite Hk. cbn [rbind]. unfold Msg.add_kbd_msg. rewrite E. cbn [rbind].
  eexists. split; [done|]. split; [done|]. split; [exact id|]. intros Hb.
  unfold in_flight. cbn [at_]. rewrite app_assoc. split; [|apply keys_of_app].
  split; try done. unfold in_flight. cbn [at_]. rewrite app_assoc. apply Forall_app. split; [done|]. by apply Forall_singleton.
Qed.

Lemma clip_weight_nonneg : 0 <= clip_weight k.
Proof. destruct k as [ins|]; cbn; [|lia]. pose proof (weight_rows ins). lia. Qed.

(** The invariant of a run: what was handled and what is in flight are together
    the keys pressed. *)
Lemma run_invariant s0 d0 l0 s ks :
  working s0 d0 l0 -> up_to_date s0 d0 -> typing_run s0 s ks ->
  weight (lines d0) + (1 + zlen (keys_of (in_flight s0 l0) ++ ks)) * (1 + clip_weight k) < TEXT_MAX ->
  exists d l h, working s d l /\ up_to_date s d /\ keys_of (in_flight s0 l0) ++ ks = h ++ keys_of (in_flight s l) /\
    d = foldl (spec_key k) d0 h /\ weight (lines d) <= weight (lines d0) + zlen h * (1 + clip_weight k).
Proof.
  pose proof clip_weight_nonneg as Hcw. intros H0 U0 Hrun Hw.
  induction Hrun as [|s ks st data s' sh c Hrun IH Hd Hroom Hk Hb Hs|s ks s' Hrun IH Hs].
  - exists d0, l0, []. rewrite app_nil_r. split; [done|]. split; [done|]. split; [done|]. split; [done|]. cbn. lia.
  - rewrite app_assoc in *. destruct IH as (d & l & h & Hwk & U & E & Hd' & Hwd); [revert Hw; rewrite length_app; nia|].
    destruct (irq_ok s d l st data Hwk Hd Hroom) as (sh1 & c1 & s1 & Hk1 & Hs1 & U1 & Hnext).
    rewrite Hk in Hk1. injection Hk1 as <- <-. rewrite Hs in Hs1. injection Hs1 as <-. destruct (Hnext Hb) as [Hwk' E'].
    exists d, (l ++ [c]), h. split; [done|]. split; [by apply U1|]. split; [by rewrite E, E', app_assoc | done].
  - destruct (IH Hw) as (d & l & h & Hwk & U & E & Hd' & Hwd).
    destruct (main_step_ok s d l Hwk) as (s1 & d1 & l1 & Es & Hwk1 & (h1 & E1 & Hd1 & Hw1) & _ & U1).
    { revert Hw. rewrite E, length_app. nia. }
    cbn [step] in Hs. rewrite Es in Hs. injection Hs as <-.
    exists d1, l1, (h ++ h1). split; [done|]. split; [by apply U1|]. split; [by rewrite E, E1, app_assoc|].
    split; [by rewrite foldl_app, <- Hd'|]. rewrite length_app. nia.
Qed.

(** Left alone, [main] handles everything that is in flight and waits. *)
Lemma catches_up n s d l :
  (distance s l <= n)%nat -> working s d l -> up_to_date s d ->
  weight (lines d) + (1 + zlen (keys_of (in_flight s l))) * (1 + clip_weight k) < TEXT_MAX ->
  exists m s', (m <= distance s l)%nat /\ run_steps fuel junk m s = Ok s' /\ at_ s' = Poll /\
    let d' := foldl (spec_key k) d (keys_of (in_flight s l)) in working s' d' [] /\ up_to_date s' d'.
Proof.
  pose proof clip_weight_nonneg as Hcw.
  revert s d l. induction n as [|n IH]; intros s d l Hn Hwk U Hw.
  - exists 0%nat, s. unfold distance in Hn. assert (l = []) as -> by (destruct l; [done | cbn in Hn; lia]).
    destruct (at_ s) eqn:Hat; try lia. unfold in_flight. rewrite Hat. split; [lia | done].
  - destruct (main_step_ok s d l Hwk) as (s1 & d1 & l1 & E & Hwk1 & (h & Eh & Hd1 & Hw1) & Hm & U1); [nia|].
    destruct Hm as [[Hat ->]|Hm].
    { exists 0%nat, s. unfold in_flight. rewrite Hat. split; [lia | done]. }
    rewrite Eh, length_app in Hw. destruct (IH s1 d1 l1) as (m & s' & Hle & Em & Hat & Hwk'); [lia | done | by apply U1 | nia|].
    exists (S m), s'. cbn [run_steps]. rewrite E. cbn [rbind]. split; [lia|]. split; [done|]. split; [done|].
    by rewrite Eh, foldl_app, <- Hd1.
Qed.
End Typing.

(** C7: Typing, end to end.  A user types into an open file: keyboard
    interrupts come at any point between the steps of [main], as long as each
    finds room in the queue (fewer than 99 messages pending: a full queue is
    overwritten) and its key, if any, is none of the four that leave the box
    (TAB, CTRL-F, CTRL-S, CTRL-P), and the text stays below 2^21 bytes.  Then no
    step faults, neither the next step of [main] nor an interrupt that finds
    room, whatever the keyboard sends; and the text of the file is what the
    document model makes of the first of the keys pressed, the others still
    being in the queue, in order. *)
Theorem system_typing {W} `{!Sys W} fuel junk k (s0 s : system W) d0 l0 ks :
  working k s0 d0 l0 -> up_to_date k s0 d0 -> typing_run fuel junk s0 s ks ->
  weight (lines d0) + (1 + zlen (keys_of (in_flight s0 l0) ++ ks)) * (1 + clip_weight k) < TEXT_MAX ->
  (exists s', step fuel junk Run s = Ok s') /\
  (forall st data, 0 <= data < 256 -> has_room (messages s) = true ->
     exists s', step fuel junk (Kbd_irq st data) s = Ok s') /\
  exists d l h, working k s d l /\ keys_of (in_flight s0 l0) ++ ks = h ++ keys_of (in_flight s l) /\
    d = foldl (spec_key k) d0 h.
Proof.
  intros H0 U0 Hrun Hw. pose proof (clip_weight_nonneg k).
  destruct (run_invariant fuel junk k s0 d0 l0 s ks H0 U0 Hrun Hw) as (d & l & h & Hwk & _ & E & Hd & Hwd).
  split; [|split; [|by exists d, l, h]].
  - destruct (main_step_ok fuel junk k s d l Hwk) as (s' & _ & _ & Es & _); [revert Hw; rewrite E, length_app; nia|].
    by exists s'.
  - intros st data Hdata Hroom. destruct (irq_ok fuel junk k s d l st data Hwk Hdata Hroom) as (_ & _ & s' & _ & Es & _).
    by exists s'.
Qed.

(** C32: Every key reaches the text and the screen: from any state of a run
    (the runs of C7), when the interrupts pause, [main] comes to poll with the
    queue empty after a bounded number of steps.  The file then shows the effect of
    all keys pressed, and the screen was drawn with exactly that text: the
    editor and the frame buffer are what [draw_BufferManager] and [update] made of
    a session that holds it. *)
Theorem system_catches_up {W} `{!Sys W} fuel junk k (s0 s : system W) d0 l0 ks :
  working k s0 d0 l0 -> up_to_date k s0 d0 -> typing_run fuel junk s0 s ks ->
  weight (lines d0) + (1 + zlen (keys_of (in_flight s0 l0) ++ ks)) * (1 + clip_weight k) < TEXT_MAX ->
  exists n s', (n <= 4 * 99 + 3)%nat /\ run_steps fuel junk n s = Ok s' /\ at_ s' = Poll /\
    let d := foldl (spec_key k) d0 (keys_of (in_flight s0 l0) ++ ks) in
    working k s' d [] /\
    exists g scr0 scr, session k g d /\
      draw_BufferManager (resources s') full_area (g, scr0) = Ok (editor s', scr) /\
      update scr (Mouse.get_mouse_pos (pointer s')).1 (Mouse.get_mouse_pos (pointer s')).2 = Ok (display s').
Proof.
  intros H0 U0 Hrun Hw. pose proof (clip_weight_nonneg k).
  destruct (run_invariant fuel junk k s0 d0 l0 s ks H0 U0 Hrun Hw) as (d & l & h & Hwk & U & E & Hd & Hwd).
  destruct (catches_up fuel junk k _ s d l (le_n _) Hwk U) as (n & s' & Hn & En & Hat & Hwk' & U').
  { revert Hw. rewrite E, length_app. nia. }
  exists n, s'. split; [|split; [done|]; split; [done|]; rewrite E, foldl_app, <- Hd; split; [exact Hwk' | exact (U' Hat)]].
  pose proof (qr_room _ _ (wk_queue _ _ _ _ Hwk)). unfold distance in Hn. destruct (at_ s); lia.
Qed.

(** A system about to draw the file "a(han)". *)
Definition demo_doc : doc := mk_doc [[97; 0xC4; 0xE3]] 0 3.
Definition demo_system : system Ram.ram :=
  mk_system 0 Mouse.mouse0 Msg.empty_queue demo_screen demo_assets
    (demo_editor (demo_edit (lines demo_doc) 0 3)) Redraw.

Lemma demo_typing : typing (demo_edit (lines demo_doc) 0 3) demo_doc.
Proof.
  split; [done|]. split; [by eapply frame_of_rep|]. split; [repeat constructor; lia|].
  intros l. cbn. intros [= <-]. apply boundary_end.
Qed.

Lemma demo_shown : Forall (Forall shown) (lines demo_doc).
Proof. unfold shown. repeat constructor; lia. Qed.

Lemma demo_working : working None demo_system demo_doc [].
Proof.
  split; try done.
  split; try done; [apply demo_drawable; eapply typing_fine; [apply demo_typing | apply demo_shown | vm_compute; intuition discriminate..]|].
  exists 0, (mk_FileBuffer (mk_Area 0 20 700 400 0 0) 0 (replicate 512 0)), (demo_edit (lines demo_doc) 0 3).
  split; [done|]. split; [done|]. split; [done|]. split; [apply demo_typing | apply demo_shown].
Qed.

(** The key "x" (scan code 0x2D) is pressed and handled in part. *)
Lemma demo_run :
  exists s, typing_run 10 (fun _ => demo_edit [] 0 0) demo_system s [120] /\
    step 10 (fun _ => demo_edit [] 0 0) (Kbd_irq 1 0x2D) demo_system = Ok s.
Proof.
  eexists. split; [|reflexivity].
  apply (run_irq _ _ demo_system demo_system [] 1 0x2D _ 0 120); [constructor | lia | done | done | done | done].
Qed.

Lemma system_typing_witness :
  exists s, typing_run 10 (fun _ => demo_edit [] 0 0) demo_system s [120] /\
    (exists s', step 10 (fun _ => demo_edit [] 0 0) Run s = Ok s') /\
    (forall st data, 0 <= data < 256 -> has_room (messages s) = true ->
       exists s', step 10 (fun _ => demo_edit [] 0 0) (Kbd_irq st data) s = Ok s') /\
    exists d l h, working None s d l /\ keys_of [] ++ [120] = h ++ keys_of (in_flight s l) /\
      d = foldl (spec_key None) demo_doc h.
Proof.
  destruct demo_run as (s & Hrun & _). exists s. split; [done|].
  apply (system_typing 10 (fun _ => demo_edit [] 0 0) None demo_system s demo_doc [] [120]).
  - apply demo_working.
  - discriminate.
  - exact Hrun.
  - vm_compute. reflexivity.
Defined.

Lemma system_catches_up_witness :
  exists s, typing_run 10 (fun _ => demo_edit [] 0 0) demo_system s [120] /\
  exists n s', (n <= 4 * 99 + 3)%nat /\ run_steps 10 (fun _ => demo_edit [] 0 0) n s = Ok s' /\ at_ s' = Poll /\
    working None s' (mk_doc [[97; 0xC4; 0xE3; 120]] 0 4) [] /\
    exists g scr0 scr, session None g (mk_doc [[97; 0xC4; 0xE3; 120]] 0 4) /\
      draw_BufferManager (resources s') full_area (g, scr0) = Ok (editor s', scr) /\
      update scr (Mouse.get_mouse_pos (pointer s')).1 (Mouse.get_mouse_pos (pointer s')).2 = Ok (display s').
Proof.
  destruct demo_run as (s & Hrun & _). exists s. split; [done|].
  apply (system_catches_up 10 (fun _ => demo_edit [] 0 0) None demo_system s demo_doc [] [120]).
  - apply demo_working.
  - discriminate.
  - exact Hrun.
  - vm_compute. reflexivity.
Defined.
