(* ===== verification/Log.v ===== *)
(** The write-ahead log of the file system: src/src/log.c.

    A sector holds 128 words of 32 bits ([BSIZE] is 512).  The buffer cache is
    seen through its interface: [view] is what [bread] returns for a sector and
    [writes] the sectors [bwrite] has sent to the disk, oldest first, a sector
    being written at once or not at all.  [log_write] leaves the modified
    buffer in the cache, marked dirty so that it is not evicted. *)
From S2P Require Import Prelude.

Definition BSIZE : Z := 512.
Definition LOGSIZE : Z := 10.

Abbreviation block := (list Z).
Definition disk := Z -> block.

Definition upd (d : disk) (s : Z) (b : block) : disk := fun s' => if s' =? s then b else d s'.

Record log := mk_log {
  start : Z;
  size : Z;
  busy : bool;
  lh_n : Z;
  lh_sector : list Z;             (** int sector[LOGSIZE] *)
  view : disk;
  writes : list (Z * block);
}.

Definition set_lh (l : log) (n : Z) (sec : list Z) : log :=
  mk_log (start l) (size l) (busy l) n sec (view l) (writes l).

Definition set_busy (l : log) (b : bool) : log :=
  mk_log (start l) (size l) b (lh_n l) (lh_sector l) (view l) (writes l).

Definition bread (l : log) (s : Z) : block := view l s.

Definition bwrite (l : log) (s : Z) (b : block) : log :=
  mk_log (start l) (size l) (busy l) (lh_n l) (lh_sector l) (upd (view l) s b) (writes l ++ [(s, b)]).

(** A buffer modified in the cache. *)
Definition set_view (l : log) (s : Z) (b : block) : log :=
  mk_log (start l) (size l) (busy l) (lh_n l) (lh_sector l) (upd (view l) s b) (writes l).

(** Copy committed blocks from the log to their home location. *)
Definition install_trans (l : log) : result log :=
  for_up 0 (lh_n l)
    (fun tail l =>
       let lbuf := bread l (start l + tail + 1) in
       let! s := get (lh_sector l) tail in
       Ok (bwrite l s lbuf)) l.

(** The header block as [struct logheader]: word 0 is [n], then the sectors. *)
Definition read_head (l : log) : result log :=
  let buf := bread l (start l) in
  let! n := get buf 0 in
  let! sec :=
    for_up 0 n (fun i sec => let! s := get buf (1 + i) in put sec i s) (lh_sector l) in
  Ok (set_lh l n sec).

Definition write_head (l : log) : result log :=
  let buf := bread l (start l) in
  let! buf := put buf 0 (lh_n l) in
  let! buf :=
    for_up 0 (lh_n l) (fun i buf => let! s := get (lh_sector l) i in put buf (1 + i) s) buf in
  Ok (bwrite l (start l) buf).

Definition recover_from_log (l : log) : result log :=
  let! l := read_head l in
  let! l := install_trans l in
  write_head (set_lh l 0 (lh_sector l)).

(** [begin_trans], when no transaction is active (it sleeps until then). *)
Definition begin_trans (l : log) : result log := Ok (set_busy l true).

Definition commit_trans (l : log) : result log :=
  let! l :=
    if 0 <? lh_n l then
      let! l := write_head l in
      let! l := install_trans l in
      write_head (set_lh l 0 (lh_sector l))
    else Ok l in
  Ok (set_busy l false).

(** [for (i = 0; i < log.lh.n; i++) if (log.lh.sector[i] == b->sector) break] *)
Fixpoint absorb (k : nat) (sec : list Z) (i n s : Z) : result Z :=
  match k with
  | O => Ok i
  | S k' =>
      if i <? n then
        let! x := get sec i in
        if x =? s then Ok i else absorb k' sec (i + 1) n s
      else Ok i
  end.

(** [log_write] of the buffer of sector [s], whose data is now [b]. *)
Definition log_write (l : log) (s : Z) (b : block) : result log :=
  let l := set_view l s b in
  if (LOGSIZE <=? lh_n l) || (size l - 1 <=? lh_n l) then Err Panic
  else if negb (busy l) then Err Panic
  else
    let! i := absorb (Z.to_nat (lh_n l)) (lh_sector l) 0 (lh_n l) s in
    let! sec := put (lh_sector l) i s in
    let l := set_lh l (lh_n l) sec in
    let l := bwrite l (start l + i + 1) b in
    Ok (if i =? lh_n l then set_lh l (lh_n l + 1) (lh_sector l) else l).

(** A transaction: [begin_trans], the writes, [commit_trans]. *)
Fixpoint log_writes (l : log) (bs : list (Z * block)) : result log :=
  match bs with
  | [] => Ok l
  | (s, b) :: bs' => let! l := log_write l s b in log_writes l bs'
  end.

Definition transaction (l : log) (bs : list (Z * block)) : result log :=
  let! l := begin_trans l in
  let! l := log_writes l bs in
  commit_trans l.

(** [initlog] after a crash: the memory is gone, the disk is [d]. *)
Definition reboot (st sz : Z) (d : disk) : log :=
  mk_log st sz false 0 (replicate 10 0) d [].

(** [sb_size] and [sb_nlog] are the fields of the superblock that [readsb]
    read; the header takes 44 bytes, so the panic of [initlog] is not taken. *)
Definition sizeof_logheader : Z := 4 * (1 + LOGSIZE).

Definition initlog (sb_size sb_nlog : Z) (d : disk) : result log :=
  if BSIZE <=? sizeof_logheader then Err Panic
  else recover_from_log (reboot (sb_size - sb_nlog) sb_nlog d).

(** The disk after some writes. *)
Definition apply (d : disk) (ws : list (Z * block)) : disk :=
  foldl (fun d w => upd d (fst w) (snd w)) d ws.
