(* ===== verification/LogProps.v ===== *)
(** The file system log is crash-atomic: whatever number of the disk writes of
    a transaction reach the disk, and however often the machine crashes again
    while it recovers, the recovered file system holds either all the blocks of
    the transaction or none of them; the commit point is the header write. *)
From stdpp Require Import sets.
From S2P Require Import Prelude Log.

(** * Disks and sequences of writes *)

Lemma apply_app d w1 w2 : apply d (w1 ++ w2) = apply (apply d w1) w2.
Proof. apply foldl_app. Qed.

Lemma apply_nil d : apply d [] = d.
Proof. reflexivity. Qed.

Lemma apply_snoc d w s b : apply d (w ++ [(s, b)]) = upd (apply d w) s b.
Proof. apply apply_app. Qed.

Lemma upd_same d s b : upd d s b s = b.
Proof. unfold upd. by rewrite Z.eqb_refl. Qed.

Lemma upd_other d s b s' : s' <> s -> upd d s b s' = d s'.
Proof. intros H. unfold upd. by destruct (Z.eqb_spec s' s). Qed.

Lemma apply_other d w s : s ∉ w.*1 -> apply d w s = d s.
Proof.
  induction w as [|[s' b] w IH] using rev_ind; [done|].
  rewrite fmap_app, not_elem_of_app. intros [H1 H2]. cbn in H2.
  rewrite apply_snoc, upd_other; [by apply IH | set_solver].
Qed.

(** A sector some write names has a value that the disk does not matter for. *)
Lemma apply_written d d' w s : s ∈ w.*1 -> apply d w s = apply d' w s.
Proof.
  induction w as [|[s' b] w IH] using rev_ind; [set_solver|].
  rewrite fmap_app, elem_of_app. intros H. rewrite !apply_snoc.
  destruct (decide (s = s')) as [->|Hne]; [by rewrite !upd_same|].
  rewrite !upd_other by done. apply IH. destruct H; [done | set_solver].
Qed.

Lemma apply_ext d d' w s : d s = d' s -> apply d w s = apply d' w s.
Proof.
  intros H. destruct (decide (s ∈ w.*1)); [by apply apply_written|].
  by rewrite !apply_other.
Qed.

(** Repeating a sequence of writes after a part of it changes nothing. *)
Lemma apply_again d w k s : apply (apply d (take k w)) w s = apply d w s.
Proof.
  destruct (decide (s ∈ w.*1)) as [Hin|Hout]; [by apply apply_written|].
  assert (s ∉ (take k w).*1).
  { intros H. apply Hout. rewrite <- (take_drop k w), fmap_app. set_solver. }
  by rewrite !apply_other.
Qed.

(** When each write to [s] carries the same block, that block is what is left. *)
Lemma apply_value d w s b :
  s ∈ w.*1 -> (forall b', (s, b') ∈ w -> b' = b) -> apply d w s = b.
Proof.
  induction w as [|[s' b'] w IH] using rev_ind; [set_solver|].
  rewrite fmap_app, elem_of_app. intros Hin Hb. rewrite apply_snoc.
  destruct (decide (s = s')) as [->|Hne].
  - rewrite upd_same. apply Hb. set_solver.
  - rewrite upd_other by done. apply IH; [set_solver|].
    intros b'' H. apply Hb. set_solver.
Qed.

(** * The operations of the log on a header of known contents *)

(** A header block that names the sectors [secs]. *)
Definition header (b : block) (secs : list Z) : Prop :=
  exists rest, b = zlen secs :: secs ++ rest /\ (length secs <= 10)%nat /\
    (length b = 128)%nat.

(** The sectors of the file system, outside the log. *)
Definition home (st sz s : Z) : Prop := s < st \/ st + sz <= s.

(** The writes [install_trans] does for the sectors [secs], the first of which
    has its block at [st + 1 + i]. *)
Fixpoint installs (d : disk) (st i : Z) (secs : list Z) : list (Z * block) :=
  match secs with
  | [] => []
  | s :: secs' => (s, d (st + i + 1)) :: installs d st (i + 1) secs'
  end.

Definition bwrites (l : log) (ws : list (Z * block)) : log :=
  mk_log (start l) (size l) (busy l) (lh_n l) (lh_sector l)
    (apply (view l) ws) (writes l ++ ws).

Lemma installs_fst d st i secs : (installs d st i secs).*1 = secs.
Proof. revert i. induction secs as [|s secs IH]; intros i; cbn; [done|]. by rewrite IH. Qed.

Lemma installs_length d st i secs : length (installs d st i secs) = length secs.
Proof. rewrite <- (installs_fst d st i secs) at 2. by rewrite length_fmap. Qed.

Lemma installs_ext d d' st i secs :
  (forall j, i <= j < i + zlen secs -> d (st + j + 1) = d' (st + j + 1)) ->
  installs d st i secs = installs d' st i secs.
Proof.
  revert i. induction secs as [|s secs IH]; intros i H; cbn; [done|].
  rewrite (H i) by (cbn; lia). f_equal. apply IH. intros j Hj. apply H. cbn. lia.
Qed.

Lemma installs_elem d st i secs s b :
  (s, b) ∈ installs d st i secs ->
  exists j, secs !! j = Some s /\ b = d (st + (i + Z.of_nat j) + 1).
Proof.
  revert i. induction secs as [|x secs IH]; intros i; cbn; [set_solver|].
  rewrite elem_of_cons. intros [[= -> ->]|H].
  - exists 0%nat. split; [done|]. f_equal. lia.
  - destruct (IH _ H) as (j & Hj & ->). exists (S j). split; [done|]. f_equal. lia.
Qed.

Lemma read_head_loop (secs1 secs2 rest : list Z) (n : Z) (old : list Z) :
  (length secs1 + length secs2 <= length old)%nat ->
  for_up (zlen secs1) (zlen (secs1 ++ secs2))
    (fun i sec => let! s := get (n :: (secs1 ++ secs2) ++ rest) (1 + i) in put sec i s)
    (secs1 ++ drop (length secs1) old)
  = Ok ((secs1 ++ secs2) ++ drop (length (secs1 ++ secs2)) old).
Proof.
  revert secs1. induction secs2 as [|s secs2 IH]; intros secs1 H; cbn in H.
  - rewrite app_nil_r. by rewrite for_up_done.
  - rewrite for_up_step by llia.
    replace (n :: (secs1 ++ s :: secs2) ++ rest)
      with ((n :: secs1) ++ s :: secs2 ++ rest) by (cbn; by rewrite <- app_assoc).
    rewrite get_middle by (cbn; lia). cbn [rbind].
    destruct (drop (length secs1) old) as [|x tl] eqn:E.
    { exfalso. apply (f_equal length) in E. rewrite length_drop in E. cbn in E. lia. }
    rewrite put_middle by lia. cbn [rbind].
    assert (tl = drop (length (secs1 ++ [s])) old) as ->.
    { rewrite length_app. cbn. rewrite <- drop_drop, E. done. }
    specialize (IH (secs1 ++ [s])). rewrite <- !app_assoc in IH. cbn [app] in IH.
    replace (zlen (secs1 ++ [s])) with (zlen secs1 + 1) in IH by llia.
    rewrite <- !app_assoc. cbn [app]. rewrite <- IH by llia. reflexivity.
Qed.

Lemma read_head_spec l secs :
  header (view l (start l)) secs -> (length (lh_sector l) = 10)%nat ->
  read_head l =
    Ok (set_lh l (zlen secs) (secs ++ drop (length secs) (lh_sector l))).
Proof.
  intros (rest & Hb & H10 & _) Hlen. unfold read_head, bread. rewrite Hb.
  rewrite (get_ok _ 0 (zlen secs)) by done. cbn [rbind].
  pose proof (read_head_loop [] secs rest (zlen secs) (lh_sector l)) as HL.
  cbn [app length drop] in HL. rewrite drop_0 in HL.
  change (Z.of_nat 0) with 0 in HL. rewrite HL by lia. reflexivity.
Qed.

Lemma write_head_loop (secs1 secs2 rest sec : list Z) (n : Z) (buf : list Z) :
  sec = (secs1 ++ secs2) ++ rest ->
  (length secs1 + length secs2 <= length buf)%nat ->
  for_up (zlen secs1) (zlen (secs1 ++ secs2))
    (fun i buf => let! s := get sec i in put buf (1 + i) s)
    (n :: secs1 ++ drop (length secs1) buf)
  = Ok (n :: (secs1 ++ secs2) ++ drop (length (secs1 ++ secs2)) buf).
Proof.
  revert secs1. induction secs2 as [|s secs2 IH]; intros secs1 Hs H; cbn in H.
  - rewrite app_nil_r. by rewrite for_up_done.
  - rewrite for_up_step by llia.
    rewrite Hs, <- app_assoc. cbn [app].
    rewrite get_middle by lia. cbn [rbind].
    destruct (drop (length secs1) buf) as [|x tl] eqn:E.
    { exfalso. apply (f_equal length) in E. rewrite length_drop in E. cbn in E. lia. }
    change (n :: secs1 ++ x :: tl) with ((n :: secs1) ++ x :: tl).
    rewrite put_middle by (cbn; lia). cbn [rbind].
    assert (tl = drop (length (secs1 ++ [s])) buf) as ->.
    { rewrite length_app. cbn. rewrite <- drop_drop, E. done. }
    assert ((secs1 ++ [s]) ++ secs2 = secs1 ++ s :: secs2) as E2
      by (by rewrite <- app_assoc).
    specialize (IH (secs1 ++ [s])). rewrite E2 in IH.
    replace (zlen (secs1 ++ [s])) with (zlen secs1 + 1) in IH by llia.
    rewrite <- IH by (done || llia). rewrite Hs, <- !app_assoc. reflexivity.
Qed.

Lemma write_head_spec l secs rest :
  (length (view l (start l)) = 128)%nat -> (length secs <= 10)%nat ->
  lh_n l = zlen secs -> lh_sector l = secs ++ rest ->
  exists b, write_head l = Ok (bwrite l (start l) b) /\ header b secs.
Proof.
  intros Hb H10 Hn Hs. unfold write_head, bread.
  destruct (view l (start l)) as [|x buf] eqn:E; [done|]. cbn in Hb.
  change (x :: buf) with ([] ++ x :: buf). rewrite put_middle by done. cbn [rbind app].
  rewrite Hn.
  pose proof (write_head_loop [] secs rest (lh_sector l) (zlen secs) buf) as HL.
  cbn [app length] in HL. rewrite drop_0 in HL. change (Z.of_nat 0) with 0 in HL.
  rewrite HL by (done || lia). cbn [rbind]. eexists. split; [done|].
  exists (drop (length secs) buf). split; [done|]. split; [done|]. cbn. llia.
Qed.

Lemma install_loop l secs1 secs2 rest :
  lh_sector l = (secs1 ++ secs2) ++ rest ->
  Forall (home (start l) (size l)) (secs1 ++ secs2) ->
  zlen (secs1 ++ secs2) < size l ->
  for_up (zlen secs1) (zlen (secs1 ++ secs2))
    (fun tail l =>
       let lbuf := bread l (start l + tail + 1) in
       let! s := get (lh_sector l) tail in
       Ok (bwrite l s lbuf)) l
  = Ok (bwrites l (installs (view l) (start l) (zlen secs1) secs2)).
Proof.
  revert l secs1. induction secs2 as [|s secs2 IH]; intros l secs1 Hs Hh Hsz.
  - rewrite app_nil_r. rewrite for_up_done by lia. unfold bwrites. cbn.
    rewrite app_nil_r. by destruct l.
  - rewrite for_up_step by llia. rewrite Hs, <- app_assoc. cbn [app].
    rewrite get_middle by lia. cbn [rbind].
    set (l' := bwrite l s _).
    assert ((secs1 ++ [s]) ++ secs2 = secs1 ++ s :: secs2) as E2
      by (by rewrite <- app_assoc).
    specialize (IH l' (secs1 ++ [s])). rewrite E2 in IH.
    replace (zlen (secs1 ++ [s])) with (zlen secs1 + 1) in IH by llia.
    etrans; [by apply IH|]. cbn [installs].
    rewrite (installs_ext (view l') (view l)).
    + unfold bwrites, l'. cbn. by rewrite <- app_assoc.
    + intros j Hj. cbn. apply upd_other.
      apply Forall_app in Hh as [_ Hh]. apply Forall_cons in Hh as [[] _]; llia.
Qed.

Lemma install_trans_spec l secs rest :
  lh_n l = zlen secs -> lh_sector l = secs ++ rest ->
  Forall (home (start l) (size l)) secs -> zlen secs < size l ->
  install_trans l = Ok (bwrites l (installs (view l) (start l) 0 secs)).
Proof.
  intros Hn Hs Hh Hsz. unfold install_trans. rewrite Hn.
  apply (install_loop l [] secs rest); done.
Qed.

(** * Recovery *)

Section Recovery.
Context (st sz : Z).

(** The log between transactions, the file system being [f]. *)
Definition at_rest (f : disk) (l : log) : Prop :=
  start l = st /\ size l = sz /\ 0 < sz /\ lh_n l = 0 /\
  (length (lh_sector l) = 10)%nat /\ header (view l st) [] /\
  (forall s, home st sz s -> view l s = f s).

(** A disk from which recovery yields the file system [f]. *)
Definition recoverable (d f : disk) : Prop :=
  exists secs,
    header (d st) secs /\ Forall (home st sz) secs /\ zlen secs < sz /\
    forall s, home st sz s -> apply d (installs d st 0 secs) s = f s.

(** Crashes, each during the recovery from the one before. *)
Inductive crashes (sb : Z) : disk -> disk -> Prop :=
  | no_crash d : crashes sb d d
  | crash d r k d' :
      initlog sb sz d = Ok r -> crashes sb (apply d (take k (writes r))) d' ->
      crashes sb d d'.

Lemma recoverable_ext d d' f :
  recoverable d f -> (forall s, d s = d' s) -> recoverable d' f.
Proof.
  intros (secs & Hh & Hs & Hz & Hf) Hd. exists secs. rewrite <- Hd.
  split_and!; [done..|]. intros s H. rewrite <- Hf by done.
  rewrite (installs_ext d' d) by (intros; by rewrite Hd). apply apply_ext. by rewrite Hd.
Qed.

(** An empty header leaves the disk as it is. *)
Lemma recoverable_clean d f :
  header (d st) [] -> 0 < sz -> (forall s, home st sz s -> d s = f s) ->
  recoverable d f.
Proof. intros H Hz Hf. exists []. by split_and!. Qed.

(** Part of the installation done: recovery still finishes it. *)
Lemma recoverable_partial d secs k :
  header (d st) secs -> Forall (home st sz) secs -> zlen secs < sz ->
  recoverable (apply d (take k (installs d st 0 secs))) (apply d (installs d st 0 secs)).
Proof.
  intros Hh Hs Hz.
  assert (forall s, st <= s < st + sz ->
    apply d (take k (installs d st 0 secs)) s = d s) as Hlog.
  { intros s Hin. apply apply_other. rewrite fmap_take, installs_fst.
    intros H%elem_of_take. destruct H as (i & Hi & _).
    eapply Forall_lookup_1 in Hs; [|exact Hi]. destruct Hs; lia. }
  exists secs. rewrite Hlog by lia. split_and!; [done..|]. intros s _.
  rewrite (installs_ext (apply d _) d) by (intros; apply Hlog; lia).
  apply apply_again.
Qed.

Lemma header_zero b secs : header b secs -> (length b = 128)%nat.
Proof. by intros (rest & _ & _ & ?). Qed.

Lemma apply_home_st d ws : 0 < sz -> Forall (home st sz) ws.*1 -> apply d ws st = d st.
Proof.
  intros Hz Hh. apply apply_other. intros H.
  eapply Forall_forall in Hh; [|exact H]. destruct Hh; lia.
Qed.

Lemma install_then_clear l secs rest :
  start l = st -> size l = sz -> header (view l st) secs ->
  lh_n l = zlen secs -> lh_sector l = secs ++ rest ->
  Forall (home st sz) secs -> zlen secs < sz ->
  exists b, header b [] /\
    (let! l := install_trans l in write_head (set_lh l 0 (lh_sector l)))
    = Ok (set_lh (bwrites l (installs (view l) st 0 secs ++ [(st, b)])) 0 (lh_sector l)).
Proof.
  intros Hst Hsz Hh Hn Hs Hhome Hz.
  rewrite (install_trans_spec l secs rest) by (try done; by rewrite ?Hst, ?Hsz).
  cbn [rbind]. set (l1 := set_lh _ _ _).
  destruct (write_head_spec l1 [] (lh_sector l)) as (b & Hb & Hb0).
  - cbn. rewrite Hst, apply_home_st; [by eapply header_zero | lia | by rewrite installs_fst].
  - cbn. lia.
  - done.
  - done.
  - exists b. split; [done|]. rewrite Hb. unfold bwrite, bwrites, set_lh, l1. cbn.
    rewrite Hst, apply_snoc, <- app_assoc. done.
Qed.

Lemma home_clear d w b s :
  0 < sz -> home st sz s -> apply d (w ++ [(st, b)]) s = apply d w s.
Proof. intros Hz Hs. rewrite apply_snoc, upd_other; [done|]. destruct Hs; lia. Qed.

(** Any part of the installation and the clearing of the header done. *)
Lemma recoverable_prefix d secs b f k :
  header (d st) secs -> Forall (home st sz) secs -> zlen secs < sz -> header b [] ->
  (forall s, home st sz s -> apply d (installs d st 0 secs) s = f s) ->
  recoverable (apply d (take k (installs d st 0 secs ++ [(st, b)]))) f.
Proof.
  intros Hh Hs Hz Hb Hf. rewrite take_app, apply_app, installs_length.
  destruct (decide (k <= length secs)%nat) as [Hk|Hk].
  - replace (k - length secs)%nat with 0%nat by lia. cbn.
    destruct (recoverable_partial d secs k Hh Hs Hz) as (secs' & ? & ? & ? & Hf').
    exists secs'. split_and!; try done. intros s Hhs. by rewrite Hf', Hf.
  - rewrite take_ge by (rewrite installs_length; lia).
    rewrite (take_ge [_]) by (cbn; lia). rewrite <- apply_app.
    apply recoverable_clean; [by rewrite apply_snoc, upd_same | lia|].
    intros s Hhs. rewrite home_clear by (done || lia). by apply Hf.
Qed.

Lemma recovers d f sb :
  sb - sz = st -> recoverable d f ->
  exists r, initlog sb sz d = Ok r /\ at_rest f r /\
    (forall k, recoverable (apply d (take k (writes r))) f).
Proof.
  intros Hsb (secs & Hh & Hs & Hz & Hf). unfold initlog. rewrite Hsb.
  change (BSIZE <=? sizeof_logheader) with false. unfold recover_from_log.
  rewrite (read_head_spec _ secs) by done. cbn [rbind].
  set (l := set_lh _ _ _).
  destruct (install_then_clear l secs (drop (length secs) (replicate 10 0)))
    as (b & Hb & ->); try done.
  eexists. split; [done|]. split.
  - unfold at_rest; cbn. split_and!; try done; try lia.
    + destruct Hh as (? & _ & ? & _). rewrite length_app, length_drop. cbn. lia.
    + by rewrite apply_snoc, upd_same.
    + intros s Hhs. rewrite home_clear by (done || lia). by apply Hf.
  - intros k. by apply recoverable_prefix.
Qed.

(** Rule induction on the crashes: the recoverable file system is kept. *)
Lemma crashes_recoverable sb d d' f :
  sb - sz = st -> crashes sb d d' -> recoverable d f -> recoverable d' f.
Proof.
  intros Hsb Hc. induction Hc as [|d r k d' Hr _ IH]; [done|]. intros Hd.
  apply IH. destruct (recovers d f sb Hsb Hd) as (r' & Hr' & _ & H).
  rewrite Hr in Hr'. injection Hr' as <-. apply H.
Qed.
End Recovery.

(** * A transaction *)

Section Transaction.
Context (st sz : Z) (d : disk).

(** During the writes [bs]: [secs] are the absorbed sectors, the log area
    holds their latest blocks, and nothing but log blocks was written. *)
Record logging (d0 : disk) (l : log) (bs : list (Z * block)) (secs rest : list Z) : Prop := {
  lg_start : start l = st;
  lg_size : size l = sz;
  lg_busy : busy l = true;
  lg_n : lh_n l = zlen secs;
  lg_sector : lh_sector l = secs ++ rest;
  lg_length : (length (secs ++ rest) = 10)%nat;
  lg_nodup : NoDup secs;
  lg_home : Forall (home st sz) secs;
  lg_count : (length secs <= length bs)%nat;
  lg_same : forall s, s ∈ secs <-> s ∈ bs.*1;
  lg_block : forall i s, secs !! i = Some s ->
    view l (st + Z.of_nat i + 1) = apply d bs s;
  lg_view : forall s, home st sz s -> view l s = apply d bs s;
  lg_disk : forall s, st <= s < st + sz -> view l s = apply d0 (writes l) s;
  lg_area : Forall (fun s => st < s < st + sz) (writes l).*1;
  lg_writes : length (writes l) = length bs;
}.

Lemma absorb_spec secs rest s :
  exists i, absorb (length secs) (secs ++ rest) 0 (zlen secs) s = Ok (Z.of_nat i) /\
    (secs !! i = Some s \/ s ∉ secs /\ i = length secs).
Proof.
  cut (forall s1 s2, s ∉ s1 ->
    exists i, absorb (length s2) ((s1 ++ s2) ++ rest) (zlen s1) (zlen (s1 ++ s2)) s
      = Ok (Z.of_nat i) /\
    ((s1 ++ s2) !! i = Some s \/ s ∉ s1 ++ s2 /\ i = length (s1 ++ s2))).
  { intros H. apply (H [] secs). set_solver. }
  intros s1 s2. revert s1. induction s2 as [|x s2 IH]; intros s1 Hs1; cbn [length absorb].
  - rewrite app_nil_r. exists (length s1). auto.
  - replace (zlen s1 <? zlen (s1 ++ x :: s2)) with true by (symmetry; apply Z.ltb_lt; llia).
    rewrite <- (app_assoc s1). cbn [app]. rewrite get_middle by done. cbn [rbind].
    destruct (Z.eqb_spec x s) as [->|Hne].
    + exists (length s1). split; [done|]. left. by rewrite list_lookup_middle.
    + destruct (IH (s1 ++ [x])) as (i & Hi & Hor); [set_solver|].
      assert ((s1 ++ [x]) ++ s2 = s1 ++ x :: s2) as E by (by rewrite <- app_assoc).
      rewrite E in *. replace (zlen (s1 ++ [x])) with (zlen s1 + 1) in Hi by llia.
      rewrite <- (app_assoc s1) in Hi. cbn [app] in Hi. eauto.
Qed.

Lemma logging_step d0 l l' bs secs rest secs' rest' i s b :
  logging d0 l bs secs rest -> home st sz s -> (length secs < 10)%nat -> zlen secs < sz - 1 ->
  (length (secs' ++ rest') = 10)%nat -> NoDup secs' -> secs' !! i = Some s ->
  (forall j x, j <> i -> secs' !! j = Some x -> secs !! j = Some x) ->
  (forall x, x ∈ secs' <-> x ∈ secs \/ x = s) ->
  (length secs' <= S (length secs))%nat ->
  l' = set_lh (bwrite (set_view l s b) (st + Z.of_nat i + 1) b) (zlen secs') (secs' ++ rest') ->
  logging d0 l' (bs ++ [(s, b)]) secs' rest'.
Proof.
  intros L Hs H10 Hsz Hlen Hnd Hi Hj Hx Hc ->.
  assert (i < length secs')%nat as Hil by (by eapply lookup_lt_Some).
  pose proof (lg_count _ _ _ _ _ L) as Hcount.
  assert (st < st + Z.of_nat i + 1 < st + sz) as Hlog by lia.
  constructor; cbn [start size busy lh_n lh_sector view writes set_lh bwrite set_view];
    try (by destruct L).
  - apply Forall_forall. intros x [H| ->]%Hx; [|done].
    eapply Forall_forall in H; [|exact (lg_home _ _ _ _ _ L)]. done.
  - llia.
  - intros x. rewrite Hx, (lg_same _ _ _ _ _ L), fmap_app. set_solver.
  - intros j x Hjx. rewrite apply_snoc. destruct (decide (j = i)) as [->|Hne].
    + assert (x = s) as -> by congruence. by rewrite !upd_same.
    + assert (x <> s) as Hxs.
      { intros ->. apply Hne. by eapply NoDup_lookup. }
      rewrite (upd_other (apply d bs)) by done.
      apply Hj in Hjx; [|done]. rewrite !upd_other.
      * by eapply lg_block.
      * apply lookup_lt_Some in Hjx. destruct Hs; lia.
      * lia.
  - intros x Hxh. rewrite apply_snoc, upd_other by (destruct Hxh; lia).
    destruct (decide (x = s)) as [->|Hne]; [by rewrite !upd_same|].
    rewrite !upd_other by done. by eapply lg_view.
  - intros x Hxl. rewrite apply_snoc. destruct (decide (x = st + Z.of_nat i + 1)) as [->|Hne].
    + by rewrite !upd_same.
    + rewrite !upd_other by (done || (destruct Hs; lia)). by eapply lg_disk.
  - rewrite fmap_app. apply Forall_app. split; [by destruct L|]. by apply Forall_singleton.
  - pose proof (lg_writes _ _ _ _ _ L). llia.
Qed.

Lemma log_write_logs d0 l bs secs rest s b :
  logging d0 l bs secs rest -> home st sz s -> (length secs < 10)%nat -> zlen secs < sz - 1 ->
  exists l' secs' rest', log_write l s b = Ok l' /\ logging d0 l' (bs ++ [(s, b)]) secs' rest'.
Proof.
  intros L Hs H10 Hsz. pose proof (lg_count _ _ _ _ _ L) as Hc.
  pose proof (lg_length _ _ _ _ _ L) as Hlen. rewrite length_app in Hlen.
  unfold log_write, LOGSIZE.
  cbn [lh_n set_view size busy lh_sector].
  rewrite (lg_n _ _ _ _ _ L), (lg_size _ _ _ _ _ L), (lg_busy _ _ _ _ _ L),
    (lg_sector _ _ _ _ _ L). zsimp. rewrite Nat2Z.id.
  destruct (absorb_spec secs rest s) as (i & -> & Hi). cbn [rbind].
  destruct Hi as [Hi|[Hnin ->]].
  - assert (i < length secs)%nat as Hil by (by eapply lookup_lt_Some).
    rewrite put_ok by llia. rewrite Nat2Z.id, insert_app_l by done.
    rewrite list_insert_id by done. cbn [rbind lh_n set_lh bwrite set_view lh_sector start].
    zsimp. eexists _, secs, rest. split; [done|].
    eapply logging_step; try done; try (by destruct L); try lia.
    + intros x. split; [auto|]. intros [?| ->]; [done|]. by eapply list_elem_of_lookup_2.
    + rewrite (lg_start _ _ _ _ _ L). done.
  - destruct rest as [|x rest]; [cbn in *; lia|].
    rewrite put_middle by done. cbn [rbind lh_n set_lh bwrite set_view lh_sector start].
    zsimp. eexists _, (secs ++ [s]), rest. split; [done|].
    eapply logging_step with (i := length secs); try done; try lia.
    + llia.
    + apply NoDup_app. split_and!; [by destruct L | set_solver | apply NoDup_singleton].
    + by rewrite list_lookup_middle.
    + intros j y Hne Hj. rewrite lookup_app_l in Hj; [done|].
      apply lookup_lt_Some in Hj. llia.
    + set_solver.
    + llia.
    + rewrite (lg_start _ _ _ _ _ L), <- app_assoc. unfold set_lh, bwrite, set_view. cbn.
      f_equal. llia.
Qed.

Lemma log_writes_logs d0 l bs bs' secs rest :
  logging d0 l bs secs rest -> Forall (home st sz) bs'.*1 ->
  (length (bs ++ bs') <= 10)%nat -> zlen (bs ++ bs') <= sz - 1 ->
  exists l' secs' rest', log_writes l bs' = Ok l' /\ logging d0 l' (bs ++ bs') secs' rest'.
Proof.
  revert l bs secs rest. induction bs' as [|[s b] bs' IH]; intros l bs secs rest L Hh H10 Hsz.
  - rewrite app_nil_r. cbn. eauto.
  - apply Forall_cons in Hh as [Hs Hh]. list_len. cbn [log_writes].
    pose proof (lg_count _ _ _ _ _ L).
    destruct (log_write_logs d0 l bs secs rest s b L Hs) as (l1 & secs1 & rest1 & -> & L1);
      [lia | lia|]. cbn [rbind].
    destruct (IH l1 (bs ++ [(s, b)]) secs1 rest1 L1 Hh) as (l2 & secs2 & rest2 & Hl2 & L2);
      [llia | llia|].
    rewrite <- app_assoc in L2. eauto.
Qed.

Lemma begin_logging l :
  at_rest st sz d l -> writes l = [] ->
  exists rest, logging (view l) (set_busy l true) [] [] rest.
Proof.
  intros (Hst & Hsz & Hz & Hn & Hlen & Hh & Hd) Hw. exists (lh_sector l).
  constructor; cbn; try done; try lia; try set_solver.
  - apply NoDup_nil_2.
  - intros s _. by rewrite Hw.
  - by rewrite Hw.
  - by rewrite Hw.
Qed.

(** The installation writes the last block of every sector. *)
Lemma installs_result d0 l bs secs rest d' s :
  logging d0 l bs secs rest -> home st sz s -> (s ∉ secs -> d' s = d s) ->
  apply d' (installs (view l) st 0 secs) s = apply d bs s.
Proof.
  intros L Hs Hd'. destruct (decide (s ∈ secs)) as [Hin|Hout].
  - apply apply_value; [by rewrite installs_fst|].
    intros b' (j & Hj & ->)%installs_elem. by eapply lg_block.
  - rewrite apply_other by (by rewrite installs_fst). rewrite Hd' by done.
    rewrite apply_other; [done|]. by rewrite <- (lg_same _ _ _ _ _ L).
Qed.
End Transaction.

Section Commit.
Context (st sz : Z) (d d0 : disk) (l : log) (bs : list (Z * block)) (secs rest : list Z).
Context (L : logging st sz d d0 l bs secs rest).
Context (Hd0 : forall s, home st sz s -> d0 s = d s).
Context (Hh0 : header (d0 st) []) (Hsz : zlen secs < sz).

Lemma log_area_only k s :
  home st sz s \/ s = st -> apply d0 (take k (writes l)) s = d0 s.
Proof.
  intros Hs. apply apply_other. rewrite fmap_take. intros (i & Hi & _)%elem_of_take.
  eapply Forall_lookup_1 in Hi; [|exact (lg_area _ _ _ _ _ _ _ _ L)]. cbn in Hi.
  destruct Hs as [[]|]; lia.
Qed.

Lemma log_area_all s : home st sz s \/ s = st -> apply d0 (writes l) s = d0 s.
Proof. intros Hs. rewrite <- (log_area_only (length (writes l)) s Hs). by rewrite take_ge. Qed.

Lemma commit_writes :
  secs <> [] ->
  exists l' h h0,
    commit_trans l = Ok l' /\ header h secs /\ header h0 [] /\
    at_rest st sz (apply d bs) l' /\
    writes l' = (writes l ++ [(st, h)]) ++ installs (view l) st 0 secs ++ [(st, h0)].
Proof.
  intros Hne. unfold commit_trans. rewrite (lg_n _ _ _ _ _ _ _ _ L).
  replace (0 <? zlen secs) with true
    by (symmetry; apply Z.ltb_lt; destruct secs; [done | cbn; lia]).
  pose proof (lg_length _ _ _ _ _ _ _ _ L) as Hlen.
  destruct (write_head_spec l secs rest) as (h & -> & Hh).
  - rewrite (lg_start _ _ _ _ _ _ _ _ L), (lg_disk _ _ _ _ _ _ _ _ L) by lia.
    rewrite log_area_all by auto. by eapply header_zero.
  - llia.
  - by destruct L.
  - by destruct L.
  - cbn [rbind]. rewrite (lg_start _ _ _ _ _ _ _ _ L).
    destruct (install_then_clear st sz (bwrite l st h) secs rest) as (h0 & Hh0' & E);
      try (by destruct L); [by cbn; rewrite upd_same|].
    rewrite E. cbn [rbind]. eexists _, h, h0. split; [done|]. split_and!; try done; cbn.
    + rewrite (installs_ext (upd (view l) st h) (view l))
        by (intros; apply upd_other; lia).
      unfold at_rest; cbn. split_and!; try (by destruct L); try lia.
      * rewrite (lg_sector _ _ _ _ _ _ _ _ L). done.
      * by rewrite apply_snoc, upd_same.
      * intros s Hs. rewrite (home_clear st sz) by (done || lia).
        eapply installs_result; [exact L | done|]. intros Hnin.
        rewrite upd_other by (destruct Hs; lia). rewrite (lg_view _ _ _ _ _ _ _ _ L) by done.
        apply apply_other. by rewrite <- (lg_same _ _ _ _ _ _ _ _ L).
    + rewrite (installs_ext (upd (view l) st h) (view l))
        by (intros; apply upd_other; lia). done.
Qed.

Lemma prefix_recoverable h h0 k :
  header h secs -> header h0 [] ->
  recoverable st sz
    (apply d0 (take k ((writes l ++ [(st, h)]) ++ installs (view l) st 0 secs ++ [(st, h0)])))
    (if (k <=? length bs)%nat then d else apply d bs).
Proof.
  intros Hh Hh0'. pose proof (lg_writes _ _ _ _ _ _ _ _ L) as Hw. rewrite take_app.
  destruct (Nat.leb_spec k (length bs)) as [Hk|Hk].
  - replace (k - length (writes l ++ [(st, h)]))%nat with 0%nat by llia.
    rewrite app_nil_r, take_app_le by lia.
    apply recoverable_clean; [by rewrite log_area_only by auto | lia|].
    intros s Hs. rewrite log_area_only by auto. by apply Hd0.
  - rewrite take_ge by llia. rewrite apply_app. set (D := apply d0 _).
    assert (D st = h) as HD by (unfold D; by rewrite apply_snoc, upd_same).
    rewrite <- (installs_ext D (view l)).
    + apply recoverable_prefix; try done; [by rewrite HD | by destruct L|].
      intros s Hs. rewrite (installs_ext D (view l)).
      * eapply installs_result; [exact L | done|]. intros _. unfold D.
        rewrite (home_clear st sz) by (done || lia). rewrite log_area_all by auto.
        by apply Hd0.
      * intros j Hj. unfold D. rewrite apply_snoc, upd_other by lia.
        symmetry. apply (lg_disk _ _ _ _ _ _ _ _ L). lia.
    + intros j Hj. unfold D. rewrite apply_snoc, upd_other by lia.
      symmetry. apply (lg_disk _ _ _ _ _ _ _ _ L). lia.
Qed.
End Commit.

Lemma transaction_spec st sz d l bs :
  at_rest st sz d l -> writes l = [] -> Forall (home st sz) bs.*1 ->
  (length bs <= 10)%nat -> zlen bs <= sz - 1 ->
  exists l', transaction l bs = Ok l' /\ at_rest st sz (apply d bs) l' /\ busy l' = false /\
    forall k, recoverable st sz (apply (view l) (take k (writes l')))
      (if (k <=? length bs)%nat then d else apply d bs).
Proof.
  intros HA Hw Hh H10 Hsz. destruct (begin_logging _ _ _ _ HA Hw) as (rest0 & L0).
  destruct HA as (Hst & Hsz' & Hz & Hn & Hlen & Hhd & Hd).
  unfold transaction, begin_trans. cbn [rbind].
  destruct (log_writes_logs st sz d _ _ [] bs [] rest0 L0 Hh H10 Hsz)
    as (l1 & secs & rest & -> & L). cbn [rbind app] in L |- *.
  pose proof (lg_count _ _ _ _ _ _ _ _ L) as Hc.
  destruct secs as [|s secs].
  - assert (bs = []) as ->.
    { destruct bs as [|[s b] bs]; [done|].
      destruct (lg_same _ _ _ _ _ _ _ _ L s) as [_ H]. cbn in H. set_solver. }
    unfold commit_trans. rewrite (lg_n _ _ _ _ _ _ _ _ L). cbn [length Z.of_nat Z.ltb Z.compare rbind].
    eexists. split; [done|]. pose proof (lg_writes _ _ _ _ _ _ _ _ L) as Hw1.
    assert (writes l1 = []) as Hw1' by (by apply length_zero_iff_nil). split_and!.
    + destruct L. unfold at_rest; cbn in *. split_and!; try done; try congruence.
      rewrite lg_disk0, Hw1' by lia. done.
    + done.
    + intros k. cbn [writes set_busy]. rewrite Hw1', take_nil.
      destruct k; cbn; by apply recoverable_clean.
  - destruct (commit_writes st sz d (view l) l1 bs (s :: secs) rest L Hhd)
      as (l' & h & h0 & HC & Hh1 & Hh2 & HA & HW); [lia | done|].
    exists l'. split_and!; [done | done | |].
    + unfold commit_trans in HC. rinv HC. by injection HC as <-.
    + intros k. rewrite HW. apply (prefix_recoverable st sz d (view l) l1 bs _ rest L); try done.
      lia.
Qed.

(** C2: A file-system transaction is atomic across crashes.  A transaction of
    at most ten blocks of the file system that fits the log runs to its end and
    leaves its blocks on the disk; and for every number [k] of its disk writes
    that reached the disk before a crash, and every sequence of crashes while
    [initlog] recovers, recovery finally succeeds and leaves an empty log and
    either the file system before the transaction (when the header was not yet
    written, [k <= length bs]) or the file system with all of its writes. *)
Theorem crash_atomic (sb_size sb_nlog : Z) (d : disk) (l : log) (bs : list (Z * block)) :
  at_rest (sb_size - sb_nlog) sb_nlog d l -> writes l = [] ->
  Forall (home (sb_size - sb_nlog) sb_nlog) bs.*1 ->
  zlen bs <= LOGSIZE -> zlen bs <= sb_nlog - 1 ->
  exists l', transaction l bs = Ok l' /\
    at_rest (sb_size - sb_nlog) sb_nlog (apply d bs) l' /\ busy l' = false /\
    forall k D, crashes sb_nlog sb_size (apply (view l) (take k (writes l'))) D ->
      exists r, initlog sb_size sb_nlog D = Ok r /\
        at_rest (sb_size - sb_nlog) sb_nlog
          (if (k <=? length bs)%nat then d else apply d bs) r.
Proof.
  intros HA Hw Hh H10 Hsz. unfold LOGSIZE in H10.
  destruct (transaction_spec _ _ _ _ _ HA Hw Hh) as (l' & Ht & HA' & Hb & Hr);
    [lia | lia|].
  exists l'. split_and!; try done. intros k D HD.
  eapply crashes_recoverable in HD; [| done | exact (Hr k)].
  destruct (recovers _ _ _ _ _ eq_refl HD) as (r & ? & ? & _). eauto.
Qed.

(** Two sectors written, one of them twice. *)
Lemma crash_atomic_witness :
  exists l', transaction (reboot 90 10 (fun _ => replicate 128 0))
      [(3, replicate 128 7); (5, replicate 128 8); (3, replicate 128 9)] = Ok l' /\
    length (writes l') = 7%nat /\
    exists r, initlog 100 10
        (apply (fun _ => replicate 128 0) (take 5 (writes l'))) = Ok r /\
      view r 3 = replicate 128 9 /\ view r 5 = replicate 128 8.
Proof.
  destruct (crash_atomic 100 10 (fun _ => replicate 128 0)
    (reboot 90 10 (fun _ => replicate 128 0))
    [(3, replicate 128 7); (5, replicate 128 8); (3, replicate 128 9)])
    as (l' & Hl' & _ & _ & Hc).
  - unfold at_rest. cbn. split_and!; try done.
    exists (replicate 127 0). cbn. split_and!; [done | lia | done].
  - done.
  - unfold home. cbn. repeat constructor; lia.
  - vm_compute. discriminate.
  - vm_compute. discriminate.
  - exists l'. split; [exact Hl'|]. split.
    + revert Hl'. vm_compute. by intros [= <-].
    + destruct (Hc 5%nat _ (no_crash _ _ _)) as (r & Hr & HA). exists r. split; [exact Hr|].
      destruct HA as (_ & _ & _ & _ & _ & _ & Hv).
      split; [rewrite (Hv 3) | rewrite (Hv 5)];
        first [vm_compute; reflexivity | unfold home; lia].
Defined.
