(* ===== verification/Bio.v ===== *)
(** The buffer cache: src/src/bio.c and buf.h, over the memory disk of
    src/src/memide.c.

    A [struct buf *] is an index: [0 .. NBUF-1] for [bcache.buf], [NBUF] for
    [bcache.head].  The doubly linked list is kept in the [prev] and [next]
    fields, as in the code.  An operation holds [bcache.lock] until it returns
    or sleeps, so it is one step; [bget] says when it would sleep. *)
From S2P Require Import Prelude.

Definition NBUF : Z := 10.
Definition HEAD : Z := NBUF.

Definition B_BUSY : Z := 0x1.
Definition B_VALID : Z := 0x2.
Definition B_DIRTY : Z := 0x4.

Record buf := mk_buf {
  flags : Z;
  dev : Z;
  sector : Z;
  prev : Z;
  next : Z;
  bdata : list Z;
}.

(** The buffers with the list head, and the memory disk as its blocks. *)
Record bcache := mk_bcache { bufs : list buf; memdisk : list (list Z) }.

Definition set_flags (v : Z) (b : buf) : buf := mk_buf v (dev b) (sector b) (prev b) (next b) (bdata b).
Definition set_prev (v : Z) (b : buf) : buf := mk_buf (flags b) (dev b) (sector b) v (next b) (bdata b).
Definition set_next (v : Z) (b : buf) : buf := mk_buf (flags b) (dev b) (sector b) (prev b) v (bdata b).
Definition set_dev (v : Z) (b : buf) : buf := mk_buf (flags b) v (sector b) (prev b) (next b) (bdata b).
Definition set_bdata (v : list Z) (b : buf) : buf := mk_buf (flags b) (dev b) (sector b) (prev b) (next b) v.

(** [p->field = v] for the buffer [p]. *)
Definition upd_buf (c : bcache) (p : Z) (f : buf -> buf) : result bcache :=
  let! b := get (bufs c) p in
  let! l := put (bufs c) p (f b) in
  Ok (mk_bcache l (memdisk c)).

Definition has (b : buf) (flag : Z) : bool := negb (Z.land (flags b) flag =? 0).

(** The two list operations of the code: [b] is unlinked, and [b] is put after
    the head. *)
Definition unlink (c : bcache) (b : Z) : result bcache :=
  let! x := get (bufs c) b in
  let! c := upd_buf c (next x) (set_prev (prev x)) in
  let! x := get (bufs c) b in
  upd_buf c (prev x) (set_next (next x)).

Definition push_front (c : bcache) (b : Z) : result bcache :=
  let! h := get (bufs c) HEAD in
  let! c := upd_buf c b (set_next (next h)) in
  let! c := upd_buf c b (set_prev HEAD) in
  let! h := get (bufs c) HEAD in
  let! c := upd_buf c (next h) (set_prev b) in
  upd_buf c HEAD (set_next b).

(** The static storage is zero before [binit]. *)
Definition blank : bcache :=
  mk_bcache (replicate 11 (mk_buf 0 0 0 0 0 (replicate 512 0))) [].

Definition binit (c : bcache) : result bcache :=
  let! c := upd_buf c HEAD (set_prev HEAD) in
  let! c := upd_buf c HEAD (set_next HEAD) in
  for_up 0 NBUF
    (fun b c =>
       let! h := get (bufs c) HEAD in
       let! c := upd_buf c b (set_next (next h)) in
       let! c := upd_buf c b (set_prev HEAD) in
       let! c := upd_buf c b (set_dev (u32 (-1))) in
       let! h := get (bufs c) HEAD in
       let! c := upd_buf c (next h) (set_prev b) in
       upd_buf c HEAD (set_next b)) c.

(** The buffer of a sector, from [b] on along [next]. *)
Fixpoint find_cached (fuel : nat) (c : bcache) (b d s : Z) : result (option Z) :=
  match fuel with
  | O => Err OutOfFuel
  | S fuel' =>
      if b =? HEAD then Ok None
      else
        let! x := get (bufs c) b in
        if (dev x =? d) && (sector x =? s) then Ok (Some b)
        else find_cached fuel' c (next x) d s
  end.

(** A buffer to recycle, from [b] on along [prev]. *)
Fixpoint find_free (fuel : nat) (c : bcache) (b : Z) : result (option Z) :=
  match fuel with
  | O => Err OutOfFuel
  | S fuel' =>
      if b =? HEAD then Ok None
      else
        let! x := get (bufs c) b in
        if negb (has x B_BUSY) && negb (has x B_DIRTY) then Ok (Some b)
        else find_free fuel' c (prev x)
  end.

(** [bget] returns a buffer or sleeps on a busy one. *)
Inductive got := Got (b : Z) | Sleeps (b : Z).

(** The list has [NBUF] buffers, so [NBUF + 1] rounds reach its end. *)
Definition bget (c : bcache) (d s : Z) : result (bcache * got) :=
  let! h := get (bufs c) HEAD in
  let! o := find_cached (Z.to_nat (NBUF + 1)) c (next h) d s in
  match o with
  | Some b =>
      let! x := get (bufs c) b in
      if negb (has x B_BUSY) then
        let! c := upd_buf c b (set_flags (Z.lor (flags x) B_BUSY)) in
        Ok (c, Got b)
      else Ok (c, Sleeps b)
  | None =>
      let! o := find_free (Z.to_nat (NBUF + 1)) c (prev h) in
      match o with
      | Some b =>
          let! c := upd_buf c b (fun x => mk_buf B_BUSY d s (prev x) (next x) (bdata x)) in
          Ok (c, Got b)
      | None => Err Panic
      end
  end.

(** [iderw] of memide.c. *)
Definition iderw (c : bcache) (b : Z) : result bcache :=
  let! x := get (bufs c) b in
  if negb (has x B_BUSY) then Err Panic
  else if has x B_VALID && negb (has x B_DIRTY) then Err Panic
  else if negb (dev x =? 1) then Err Panic
  else if zlen (memdisk c) <=? sector x then Err Panic
  else if has x B_DIRTY then
    let! m := put (memdisk c) (sector x) (bdata x) in
    let! c := upd_buf c b (set_flags (Z.lor (Z.land (flags x) (Z.lnot B_DIRTY)) B_VALID)) in
    Ok (mk_bcache (bufs c) m)
  else
    let! p := get (memdisk c) (sector x) in
    let! c := upd_buf c b (set_bdata p) in
    upd_buf c b (fun x => set_flags (Z.lor (flags x) B_VALID) x).

Definition bread (c : bcache) (d s : Z) : result (bcache * got) :=
  let! '(c, o) := bget c d s in
  match o with
  | Sleeps b => Ok (c, Sleeps b)
  | Got b =>
      let! x := get (bufs c) b in
      let! c := if negb (has x B_VALID) then iderw c b else Ok c in
      Ok (c, Got b)
  end.

Definition bwrite (c : bcache) (b : Z) : result bcache :=
  let! x := get (bufs c) b in
  if negb (has x B_BUSY) then Err Panic
  else
    let! c := upd_buf c b (set_flags (Z.lor (flags x) B_DIRTY)) in
    iderw c b.

Definition brelse (c : bcache) (b : Z) : result bcache :=
  let! x := get (bufs c) b in
  if negb (has x B_BUSY) then Err Panic
  else
    let! c := unlink c b in
    let! c := push_front c b in
    upd_buf c b (fun x => set_flags (Z.land (flags x) (Z.lnot B_BUSY)) x).
