(* ===== verification/BioProps.v ===== *)
(** The buffer cache is coherent: whatever is recycled, a sector read through
    the cache has the last data stored into one of its buffers. *)
From stdpp Require Import sets.
From S2P Require Import Prelude Bio.

(** * Doubly linked rings *)

(** The elements of a list without repetitions, as facts for [set_solver]. *)
Ltac nodup :=
  repeat match goal with
  | H : NoDup [] |- _ => clear H
  | H : NoDup (_ :: _) |- _ => apply NoDup_cons in H as [? H]
  | H : NoDup (_ ++ _) |- _ => apply NoDup_app in H as (? & ? & ?)
  end.

Definition store (f : Z -> Z) (i v : Z) : Z -> Z := fun j => if j =? i then v else f j.

Lemma store_eq f i v : store f i v i = v.
Proof. unfold store. by rewrite Z.eqb_refl. Qed.

Lemma store_ne f i v j : j <> i -> store f i v j = f j.
Proof. intros H. unfold store. by destruct (Z.eqb_spec j i). Qed.

Ltac differ := nodup; apply store_ne; set_solver.

Section Ring.
Implicit Types nx pv : Z -> Z.

(** From [a] along [nx] through [l] to [z], and back along [pv]. *)
Fixpoint chain nx pv (a : Z) (l : list Z) (z : Z) : Prop :=
  match l with
  | [] => nx a = z /\ pv z = a
  | x :: l' => nx a = x /\ pv x = a /\ chain nx pv x l' z
  end.

Lemma chain_app nx pv a l1 x l2 z :
  chain nx pv a (l1 ++ x :: l2) z <-> chain nx pv a l1 x /\ chain nx pv x l2 z.
Proof.
  revert a. induction l1 as [|y l1 IH]; intros a; cbn; [tauto|]. rewrite IH. tauto.
Qed.

Lemma chain_ext nx pv nx' pv' a l z :
  chain nx pv a l z -> (forall y, y ∈ a :: l -> nx' y = nx y) ->
  (forall y, y ∈ l ++ [z] -> pv' y = pv y) -> chain nx' pv' a l z.
Proof.
  revert a. induction l as [|x l IH]; intros a; cbn.
  - intros [H1 H2] Hn Hp. rewrite Hn, Hp by set_solver. done.
  - intros (H1 & H2 & H3) Hn Hp. rewrite Hn, Hp by set_solver.
    split_and!; [done | done|]. apply IH; [done | set_solver | set_solver].
Qed.

(** The last element of [a :: l]. *)
Lemma chain_last nx pv a l z :
  chain nx pv a l z -> (l = [] /\ pv z = a \/ exists l' y, l = l' ++ [y] /\ pv z = y).
Proof.
  destruct l as [|y l _] using rev_ind; [by intros [_ H]; left|].
  intros [_ [_ H]]%chain_app. right. eauto.
Qed.

Lemma chain_unlink nx pv h l1 b l2 :
  chain nx pv h (l1 ++ b :: l2) h -> NoDup (h :: l1 ++ b :: l2) ->
  chain (store nx (pv b) (nx b)) (store pv (nx b) (pv b)) h (l1 ++ l2) h.
Proof.
  intros [H1 H2]%chain_app Hnd.
  destruct (chain_last _ _ _ _ _ H1) as [[-> Hp]|(l1' & p & -> & Hp)]; rewrite Hp in *;
    destruct l2 as [|n l2]; cbn in H2 |- *; destruct H2 as [Hn H2]; rewrite Hn in *.
  - by rewrite !store_eq.
  - destruct H2 as [_ H2]. rewrite !store_eq. split_and!; [done | done|].
    eapply chain_ext; [exact H2 | |]; intros y Hy; differ.
  - rewrite app_nil_r. apply chain_app in H1 as [H1 _]. apply chain_app. split.
    + eapply chain_ext; [exact H1 | |]; intros y Hy; differ.
    + cbn. by rewrite !store_eq.
  - destruct H2 as [_ H2]. apply chain_app in H1 as [H1 _].
    rewrite <- app_assoc. cbn. apply chain_app. split.
    + eapply chain_ext; [exact H1 | |]; intros y Hy; differ.
    + cbn. rewrite !store_eq. split_and!; [done | done|].
      eapply chain_ext; [exact H2 | |]; intros y Hy; differ.
Qed.

Lemma chain_push nx pv h b l :
  chain nx pv h l h -> NoDup (h :: b :: l) ->
  chain (store (store nx b (nx h)) h b) (store (store pv b h) (nx h) b) h (b :: l) h.
Proof.
  intros H Hnd. destruct l as [|x l]; cbn in H |- *; destruct H as [Hx H]; rewrite Hx.
  - assert (b <> h) by (nodup; set_solver).
    rewrite !store_eq, !(store_ne _ h b b), !store_eq by done. done.
  - destruct H as [_ H]. assert (b <> h /\ b <> x) as [Hh Hbx] by (nodup; set_solver).
    rewrite !store_eq, (store_ne _ x b b), (store_ne _ h b b), !store_eq by done.
    split_and!; try done.
    eapply chain_ext; [exact H | |]; intros y Hy; (etrans; [differ | differ]).
Qed.
End Ring.

Lemma chain_rev nx pv a l z : chain nx pv a l z -> chain pv nx z (reverse l) a.
Proof.
  revert a. induction l as [|x l IH]; intros a; cbn [chain].
  - intros [H1 H2]. by split.
  - intros (H1 & H2 & H3%IH). rewrite reverse_cons. apply chain_app. by split.
Qed.

(** * Buffers *)

Definition no_buf : buf := mk_buf 0 0 0 0 0 [].

Definition B (c : bcache) (i : Z) : buf := nth (Z.to_nat i) (bufs c) no_buf.

Definition wf (c : bcache) : Prop := length (bufs c) = 11%nat.

Lemma get_B c i : wf c -> 0 <= i <= HEAD -> get (bufs c) i = Ok (B c i).
Proof.
  unfold wf, HEAD, NBUF. intros Hw Hi. destruct (get_lt (bufs c) i) as (b & -> & Hb); [lia|].
  f_equal. unfold B. symmetry. by apply nth_lookup_Some.
Qed.

Lemma upd_buf_ok c p f :
  wf c -> 0 <= p <= HEAD ->
  exists c', upd_buf c p f = Ok c' /\ wf c' /\ memdisk c' = memdisk c /\
    forall i, 0 <= i -> B c' i = if i =? p then f (B c p) else B c i.
Proof.
  unfold wf, HEAD, NBUF. intros Hw Hp. unfold upd_buf.
  rewrite get_B by (unfold wf, HEAD, NBUF; lia). cbn [rbind].
  rewrite put_ok by lia. cbn [rbind]. eexists. split; [done|]. cbn. split_and!.
  - by rewrite length_insert.
  - done.
  - intros i Hi. unfold B. cbn. rewrite !nth_lookup.
    destruct (Z.eqb_spec i p) as [->|Hne].
    + by rewrite list_lookup_insert_eq by lia.
    + by rewrite list_lookup_insert_ne by lia.
Qed.

(** Runs [upd_buf] at a valid index, naming the new cache and its equation. *)
Ltac upd c H :=
  match goal with
  | |- context [upd_buf ?a ?p ?f] =>
      let E := fresh "E" in let Hw := fresh "Hw" in let Hm := fresh "Hm" in
      destruct (upd_buf_ok a p f) as (c & E & Hw & Hm & H);
      [done | try (unfold HEAD, NBUF in *; lia) | rewrite E; cbn [rbind]; clear E]
  end.

Definition nexts (c : bcache) (i : Z) : Z := next (B c i).
Definition prevs (c : bcache) (i : Z) : Z := prev (B c i).

(** The list of the cache, most recently used first. *)
Record ring (c : bcache) (order : list Z) : Prop := {
  r_chain : chain (nexts c) (prevs c) HEAD order HEAD;
  r_nodup : NoDup (HEAD :: order);
  r_elem : forall i, i ∈ order <-> 0 <= i < NBUF;
}.

(** All of a buffer but its links. *)
Definition payload (b : buf) : Z * Z * Z * list Z := (flags b, dev b, sector b, bdata b).

Lemma ring_ext c c' order :
  ring c order -> (forall i, 0 <= i -> next (B c' i) = next (B c i)) ->
  (forall i, 0 <= i -> prev (B c' i) = prev (B c i)) -> ring c' order.
Proof.
  intros R Hn Hp. constructor; [| apply R | apply R].
  assert (forall y, y ∈ HEAD :: order -> 0 <= y).
  { intros y [->|Hy]%elem_of_cons; [unfold HEAD, NBUF; lia|]. apply (r_elem _ _ R) in Hy. lia. }
  eapply chain_ext; [apply R | |]; intros y Hy; [apply Hn | apply Hp]; set_solver.
Qed.

(** Neighbours of a buffer in the ring are valid indices. *)
Lemma chain_next_in nx pv a l z : chain nx pv a l z -> nx a ∈ l ++ [z].
Proof. destruct l; cbn; [intros [-> _] | intros [-> _]]; set_solver. Qed.

Lemma ring_links c order b :
  ring c order -> b ∈ HEAD :: order -> 0 <= next (B c b) <= HEAD /\ 0 <= prev (B c b) <= HEAD.
Proof.
  intros R Hb.
  assert (forall y, y ∈ order ++ [HEAD] -> 0 <= y <= HEAD) as Hin.
  { intros y Hy. apply elem_of_app in Hy as [Hy%(r_elem _ _ R)|Hy%list_elem_of_singleton];
      unfold HEAD, NBUF in *; lia. }
  pose proof (r_chain _ _ R) as HC. apply elem_of_cons in Hb as [->|Hb].
  - split; apply Hin; [by apply chain_next_in in HC|].
    apply chain_rev, chain_next_in in HC. unfold prevs in HC. set_solver.
  - apply list_elem_of_split in Hb as (l1 & l2 & ->). apply chain_app in HC as [H1 H2].
    apply chain_next_in in H2. apply chain_rev, chain_next_in in H1.
    split; apply Hin; unfold nexts, prevs in *; set_solver.
Qed.

(** Rewrites with the equations of updated buffers and decides the indices. *)
Ltac bufs_at :=
  repeat match goal with
  | H : forall i, 0 <= i -> B ?c i = _ |- context [B ?c ?j] => rewrite (H j) by lia
  end.

Lemma unlink_spec c b :
  wf c -> 0 <= b <= HEAD -> 0 <= next (B c b) <= HEAD -> 0 <= prev (B c b) <= HEAD ->
  exists c', unlink c b = Ok c' /\ wf c' /\ memdisk c' = memdisk c /\
    forall i, 0 <= i -> payload (B c' i) = payload (B c i) /\
      next (B c' i) = store (nexts c) (prevs c b) (nexts c b) i /\
      prev (B c' i) = store (prevs c) (nexts c b) (prevs c b) i.
Proof.
  intros Hw Hb Hn Hp. unfold unlink. rewrite get_B by done. cbn [rbind].
  upd c1 H1. rewrite get_B by done. cbn [rbind].
  assert (prev (B c1 b) = prev (B c b)) as Ep by (bufs_at; ztests; cbn; congruence).
  assert (next (B c1 b) = next (B c b)) as En by (bufs_at; ztests; cbn; congruence).
  rewrite Ep, En. upd c2 H2. exists c2. split_and!; try done; [congruence|].
  intros i Hi. unfold store, nexts, prevs, payload. bufs_at.
  repeat (ztest; bufs_at); cbn; split_and!; congruence.
Qed.

Lemma push_spec c b :
  wf c -> 0 <= b < HEAD -> 0 <= next (B c HEAD) <= HEAD ->
  exists c', push_front c b = Ok c' /\ wf c' /\ memdisk c' = memdisk c /\
    forall i, 0 <= i -> payload (B c' i) = payload (B c i) /\
      next (B c' i) = store (store (nexts c) b (nexts c HEAD)) HEAD b i /\
      prev (B c' i) = store (store (prevs c) b HEAD) (nexts c HEAD) b i.
Proof.
  intros Hw Hb Hn. unfold push_front. assert (0 <= HEAD) by lia.
  rewrite get_B by (done || lia). cbn [rbind].
  upd c1 H1. upd c2 H2. rewrite get_B by (done || lia). cbn [rbind].
  assert (next (B c2 HEAD) = next (B c HEAD)) as En by (bufs_at; ztests; done).
  rewrite En. upd c3 H3. upd c4 H4. exists c4. split_and!; try done; [congruence|].
  intros i Hi. unfold store, nexts, prevs, payload. bufs_at.
  repeat (ztest; bufs_at); cbn; split_and!; congruence.
Qed.

(** What [brelse] does to the list: [b] moves to the front. *)
Lemma relink c l1 b l2 :
  wf c -> ring c (l1 ++ b :: l2) ->
  exists c', (let! c := unlink c b in push_front c b) = Ok c' /\ wf c' /\
    memdisk c' = memdisk c /\ ring c' (b :: l1 ++ l2) /\
    forall i, 0 <= i -> payload (B c' i) = payload (B c i).
Proof.
  intros Hw R. assert (b ∈ HEAD :: l1 ++ b :: l2) as Hb by set_solver.
  destruct (ring_links _ _ _ R Hb) as [Hn Hp].
  assert (0 <= b < NBUF) as Hb' by (apply (r_elem _ _ R); set_solver).
  destruct (unlink_spec c b Hw) as (c1 & -> & Hw1 & Hm1 & H1); [unfold HEAD; lia | done | done|].
  cbn [rbind].
  pose proof (r_nodup _ _ R) as Hnd.
  pose proof (chain_unlink _ _ _ _ _ _ (r_chain _ _ R) Hnd) as HC.
  assert (forall y, y ∈ HEAD :: l1 ++ l2 -> 0 <= y <= HEAD) as Hpos.
  { intros y [->|Hy]%elem_of_cons; [unfold HEAD, NBUF; lia|].
    assert (y ∈ l1 ++ b :: l2) as Hy2%(r_elem _ _ R) by set_solver. unfold HEAD. lia. }
  assert (chain (nexts c1) (prevs c1) HEAD (l1 ++ l2) HEAD) as HC1.
  { eapply chain_ext; [exact HC | |]; intros y Hy; apply H1; apply Hpos; set_solver. }
  assert (0 <= next (B c1 HEAD) <= HEAD) as Hh.
  { apply Hpos. pose proof (chain_next_in _ _ _ _ _ HC1). unfold nexts in *. set_solver. }
  destruct (push_spec c1 b Hw1) as (c2 & -> & Hw2 & Hm2 & H2); [unfold HEAD; lia | done|].
  assert (NoDup (HEAD :: b :: l1 ++ l2)) as Hnd2.
  { by rewrite (Permutation_middle l1 l2 b). }
  exists c2. split_and!; try done; [congruence | |].
  - constructor; [| done |].
    + eapply chain_ext; [exact (chain_push _ _ _ _ _ HC1 Hnd2) | |]; intros y Hy; apply H2;
        (destruct (decide (y = b)) as [->|]; [lia | apply Hpos; set_solver]).
    + intros i. rewrite <- (r_elem _ _ R). set_solver.
  - intros i Hi. destruct (H2 i Hi) as [-> _]. by destruct (H1 i Hi) as [-> _].
Qed.

(** * Finding a buffer *)

Lemma find_cached_spec c d s a l fuel :
  wf c -> chain (nexts c) (prevs c) a l HEAD -> Forall (fun i => 0 <= i < NBUF) l ->
  (length l < fuel)%nat ->
  exists o, find_cached fuel c (nexts c a) d s = Ok o /\
    match o with
    | Some b => b ∈ l /\ dev (B c b) = d /\ sector (B c b) = s
    | None => forall b, b ∈ l -> ~ (dev (B c b) = d /\ sector (B c b) = s)
    end.
Proof.
  intros Hw. revert a fuel. induction l as [|x l IH]; intros a fuel HC HF Hf;
    (destruct fuel as [|fuel]; [cbn in Hf; lia|]); cbn in HC |- *.
  - destruct HC as [-> _]. rewrite Z.eqb_refl. exists None. split; [done | set_solver].
  - destruct HC as (-> & _ & HC). apply Forall_cons in HF as [Hx HF].
    replace (x =? HEAD) with false by (symmetry; apply Z.eqb_neq; unfold HEAD; lia).
    rewrite get_B by (done || unfold HEAD; lia). cbn [rbind].
    destruct (Z.eqb_spec (dev (B c x)) d), (Z.eqb_spec (sector (B c x)) s); cbn [andb];
      try (destruct (IH x fuel HC HF) as (o & Ho & Hs); [cbn in Hf; lia|];
           exists o; split; [exact Ho|]; destruct o; set_solver).
    exists (Some x). split; [done | set_solver].
Qed.

Lemma find_free_spec c a l fuel :
  wf c -> chain (prevs c) (nexts c) a l HEAD -> Forall (fun i => 0 <= i < NBUF) l ->
  (length l < fuel)%nat ->
  exists o, find_free fuel c (prevs c a) = Ok o /\
    match o with
    | Some b => b ∈ l /\ has (B c b) B_BUSY = false /\ has (B c b) B_DIRTY = false
    | None => forall b, b ∈ l -> has (B c b) B_BUSY = true \/ has (B c b) B_DIRTY = true
    end.
Proof.
  intros Hw. revert a fuel. induction l as [|x l IH]; intros a fuel HC HF Hf;
    (destruct fuel as [|fuel]; [cbn in Hf; lia|]); cbn in HC |- *.
  - destruct HC as [-> _]. rewrite Z.eqb_refl. exists None. split; [done | set_solver].
  - destruct HC as (-> & _ & HC). apply Forall_cons in HF as [Hx HF].
    replace (x =? HEAD) with false by (symmetry; apply Z.eqb_neq; unfold HEAD; lia).
    rewrite get_B by (done || unfold HEAD; lia). cbn [rbind].
    destruct (has (B c x) B_BUSY) eqn:E1, (has (B c x) B_DIRTY) eqn:E2; cbn [andb negb];
      try (destruct (IH x fuel HC HF) as (o & Ho & Hs); [cbn in Hf; lia|];
           exists o; split; [exact Ho|]; destruct o; set_solver).
    exists (Some x). split; [done | set_solver].
Qed.

(** * Coherence *)

(** The cache holds the file system [F]: every buffer in use is valid and has
    the block of its sector, no two buffers have the same sector, and the disk
    itself has every block that is not in a busy or dirty buffer. *)
Record inv (c : bcache) (F : Z -> list Z) : Prop := {
  v_wf : wf c;
  v_ring : exists order, ring c order;
  v_uniq : forall i j, 0 <= i < NBUF -> 0 <= j < NBUF ->
    dev (B c i) = 1 -> dev (B c j) = 1 -> sector (B c i) = sector (B c j) -> i = j;
  v_buf : forall i, 0 <= i < NBUF ->
    dev (B c i) = u32 (-1) /\ flags (B c i) = 0 \/
    dev (B c i) = 1 /\ 0 <= sector (B c i) < zlen (memdisk c) /\ 0 <= flags (B c i) < 8 /\
      has (B c i) B_VALID = true /\ bdata (B c i) = F (sector (B c i));
  v_disk : forall s, 0 <= s < zlen (memdisk c) ->
    memdisk c !! Z.to_nat s = Some (F s) \/
    exists i, 0 <= i < NBUF /\ dev (B c i) = 1 /\ sector (B c i) = s /\
      (has (B c i) B_BUSY = true \/ has (B c i) B_DIRTY = true);
}.

Lemma payload_has x y f : payload x = payload y -> has x f = has y f.
Proof. unfold payload, has. by intros [= -> _ _ _]. Qed.

Lemma payload_fields x y :
  payload x = payload y ->
  flags x = flags y /\ dev x = dev y /\ sector x = sector y /\ bdata x = bdata y.
Proof. unfold payload. by intros [= -> -> -> ->]. Qed.

(** One buffer [b] changes, to hold sector [s]; if it held another sector, it
    was neither busy nor dirty. *)
Lemma inv_update c c' F F' b s :
  inv c F -> wf c' -> (exists order, ring c' order) -> 0 <= b < NBUF ->
  (forall i, 0 <= i -> i <> b -> payload (B c' i) = payload (B c i)) ->
  dev (B c' b) = 1 -> sector (B c' b) = s -> 0 <= s < zlen (memdisk c) ->
  length (memdisk c') = length (memdisk c) ->
  0 <= flags (B c' b) < 8 -> has (B c' b) B_VALID = true -> bdata (B c' b) = F' s ->
  (forall i, 0 <= i < NBUF -> i <> b -> dev (B c i) = 1 -> sector (B c i) <> s) ->
  (forall s', 0 <= s' -> s' <> s ->
     F' s' = F s' /\ memdisk c' !! Z.to_nat s' = memdisk c !! Z.to_nat s') ->
  (memdisk c' !! Z.to_nat s = Some (F' s) \/
   has (B c' b) B_BUSY = true \/ has (B c' b) B_DIRTY = true) ->
  (dev (B c b) = 1 /\ sector (B c b) = s \/
   has (B c b) B_BUSY = false /\ has (B c b) B_DIRTY = false) ->
  inv c' F'.
Proof.
  intros V Hw HR Hb Hp Hd Hs Hsr Hl Hf Hv Hbd Hu HF Hds Hold.
  assert (forall i, 0 <= i -> i <> b ->
    flags (B c' i) = flags (B c i) /\ dev (B c' i) = dev (B c i) /\
    sector (B c' i) = sector (B c i) /\ bdata (B c' i) = bdata (B c i)) as Hq
    by (intros; by apply payload_fields, Hp).
  constructor; [done | done | | |].
  - intros i j Hi Hj Hdi Hdj Hij.
    destruct (decide (i = b)) as [->|Hib], (decide (j = b)) as [->|Hjb]; [done | | |].
    + destruct (Hq j) as (_ & E1 & E2 & _); [lia | done|]. exfalso. apply (Hu j); congruence.
    + destruct (Hq i) as (_ & E1 & E2 & _); [lia | done|]. exfalso. apply (Hu i); congruence.
    + destruct (Hq j) as (_ & E1 & E2 & _); [lia | done|].
      destruct (Hq i) as (_ & E3 & E4 & _); [lia | done|].
      apply (v_uniq _ _ V); congruence.
  - intros i Hi. destruct (decide (i = b)) as [->|Hib].
    + right. rewrite Hs, Hl. split_and!; done || lia.
    + destruct (Hq i) as (E0 & E1 & E2 & E3); [lia | done|]. rewrite E0, E1, E2, E3, Hl.
      destruct (v_buf _ _ V i Hi) as [?|(H1 & H2 & H3 & H4 & H5)]; [by left|]. right.
      split_and!; try done; try lia.
      * rewrite <- H4. apply payload_has, Hp; [lia | done].
      * rewrite H5. symmetry. apply HF; [lia | by apply Hu].
  - intros s' Hs'. rewrite Hl in Hs'. destruct (decide (s' = s)) as [->|Hne].
    + destruct Hds; [by left|]. right. eauto.
    + destruct (HF s') as [-> ->]; [lia | done|].
      destruct (v_disk _ _ V s' Hs') as [?|(i & Hi & H1 & H2 & H3)]; [by left|]. right.
      destruct (decide (i = b)) as [->|Hib].
      * exfalso. destruct Hold as [[_ ?]|[E1 E2]]; [congruence|].
        rewrite E1, E2 in H3. by destruct H3.
      * exists i. destruct (Hq i) as (_ & E1 & E2 & _); [lia | done|].
        rewrite E1, E2, !(payload_has (B c' i) (B c i)) by (apply Hp; [lia | done]). done.
Qed.

(** Facts about flag words of three bits, by cases. *)
Ltac flag_cases f :=
  assert (f = 0 \/ f = 1 \/ f = 2 \/ f = 3 \/ f = 4 \/ f = 5 \/ f = 6 \/ f = 7) as Hcase by lia;
  repeat (destruct Hcase as [Hcase|Hcase]); rewrite ?Hcase in *; try done; try (cbn in *; lia).

Lemma flags_busy f : 0 <= f < 8 -> 0 <= Z.lor f B_BUSY < 8.
Proof. intros H. flag_cases f. Qed.
Lemma flags_dirty f : 0 <= f < 8 -> 0 <= Z.lor f B_DIRTY < 8.
Proof. intros H. flag_cases f. Qed.
Lemma flags_free f : 0 <= f < 8 -> 0 <= Z.land f (Z.lnot B_BUSY) < 8.
Proof. intros H. flag_cases f. Qed.

Lemma has_lor v x g f :
  has (set_flags (Z.lor v g) x) f = negb (Z.land v f =? 0) || negb (Z.land g f =? 0).
Proof.
  unfold has. cbn. rewrite Z.land_lor_distr_l.
  destruct (Z.eqb_spec (Z.land v f) 0) as [->|H1], (Z.eqb_spec (Z.land g f) 0) as [->|H2];
    cbn [negb orb]; rewrite ?Z.lor_0_r; try reflexivity;
    apply negb_true_iff, Z.eqb_neq; rewrite ?Z.lor_eq_0_iff; tauto.
Qed.

Lemma ring_forall c order : ring c order -> Forall (fun i => 0 <= i < NBUF) order.
Proof. intros R. apply Forall_forall. intros i Hi. by apply (r_elem _ _ R). Qed.

Lemma ring_length c order : ring c order -> (length order <= 10)%nat.
Proof.
  intros R. pose proof (r_nodup _ _ R) as Hnd. apply NoDup_cons in Hnd as [_ Hnd].
  replace 10%nat with (length (Z.of_nat <$> seq 0 10)) by done.
  apply submseteq_length, NoDup_submseteq; [done|]. intros i Hi%(r_elem _ _ R).
  apply list_elem_of_fmap. exists (Z.to_nat i). unfold NBUF in Hi.
  split; [lia|]. apply elem_of_seq. lia.
Qed.

(** A held buffer: busy, in use, with the block of its sector. *)
Definition held (c : bcache) (b : Z) : Prop :=
  0 <= b < NBUF /\ dev (B c b) = 1 /\ has (B c b) B_BUSY = true.

(** The other buffers are as before. *)
Definition others (c c' : bcache) (b : Z) : Prop :=
  forall i, 0 <= i -> i <> b -> payload (B c' i) = payload (B c i).

Lemma uniq_at c F b :
  inv c F -> 0 <= b < NBUF -> dev (B c b) = 1 ->
  forall i, 0 <= i < NBUF -> i <> b -> dev (B c i) = 1 -> sector (B c i) <> sector (B c b).
Proof. intros V Hb Hd i Hi Hne Hdi E. apply Hne. by apply (v_uniq _ _ V). Qed.

Lemma buf_in_use c F b :
  inv c F -> 0 <= b < NBUF -> dev (B c b) = 1 ->
  0 <= sector (B c b) < zlen (memdisk c) /\ 0 <= flags (B c b) < 8 /\
    has (B c b) B_VALID = true /\ bdata (B c b) = F (sector (B c b)).
Proof. intros V Hb Hd. destruct (v_buf _ _ V b Hb) as [[E _]|[_ ?]]; [by rewrite Hd in E | done]. Qed.

(** A change of the flags or the data of a buffer in use. *)
Lemma inv_edit c F b f blk :
  inv c F -> 0 <= b < NBUF -> dev (B c b) = 1 -> 0 <= f < 8 ->
  has (set_flags f (B c b)) B_VALID = true ->
  has (set_flags f (B c b)) B_BUSY = true \/ has (set_flags f (B c b)) B_DIRTY = true \/
    memdisk c !! Z.to_nat (sector (B c b)) = Some blk ->
  exists c', upd_buf c b (fun x => set_flags f (set_bdata blk x)) = Ok c' /\
    memdisk c' = memdisk c /\ others c c' b /\ B c' b = set_flags f (set_bdata blk (B c b)) /\
    inv c' (fun s => if s =? sector (B c b) then blk else F s).
Proof.
  intros V Hb Hd Hf Hv Hds. destruct (upd_buf_ok c b (fun x => set_flags f (set_bdata blk x)))
    as (c' & -> & Hw & Hm & H); [apply V | unfold HEAD; lia|].
  assert (B c' b = set_flags f (set_bdata blk (B c b))) as Eb by (rewrite H, Z.eqb_refl by lia; done).
  exists c'. split_and!; try done.
  - intros i Hi Hne. rewrite H by done. by destruct (Z.eqb_spec i b).
  - destruct (buf_in_use c F b V Hb Hd) as (Hs & _ & _ & _).
    eapply (inv_update c c' F _ b (sector (B c b)) V); rewrite ?Eb, ?Hm; try done.
    + destruct (v_ring _ _ V) as [order R]. exists order.
      eapply ring_ext; [exact R | |]; intros i Hi; rewrite H by done;
        by destruct (Z.eqb_spec i b) as [->|].
    + intros i Hi Hne. rewrite H by done. by destruct (Z.eqb_spec i b).
    + cbn. by rewrite Z.eqb_refl.
    + by eapply uniq_at.
    + intros s' _ Hne. split; [|done]. by destruct (Z.eqb_spec s' (sector (B c b))).
    + rewrite Z.eqb_refl. unfold has in *. cbn in *. tauto.
    + by left.
Qed.

Lemma inv_fun_ext c F F' : inv c F -> (forall s, 0 <= s -> F s = F' s) -> inv c F'.
Proof.
  intros V E. destruct V as [V1 V2 V3 V4 V5]. constructor; try done.
  - intros i Hi. destruct (V4 i Hi) as [?|(?&?&?&?&?)]; [by left|]. right.
    rewrite <- E by lia. done.
  - intros s Hs. rewrite <- E by lia. auto.
Qed.

Lemma upd_buf_same c p f g :
  wf c -> 0 <= p <= HEAD -> f (B c p) = g (B c p) -> upd_buf c p f = upd_buf c p g.
Proof. intros Hw Hp E. unfold upd_buf. rewrite get_B by done. cbn [rbind]. by rewrite E. Qed.

(** New flags for a buffer in use. *)
Lemma inv_flags c F b f g :
  inv c F -> 0 <= b < NBUF -> dev (B c b) = 1 -> 0 <= f < 8 ->
  g (B c b) = set_flags f (B c b) ->
  has (set_flags f (B c b)) B_VALID = true ->
  has (set_flags f (B c b)) B_BUSY = true \/ has (set_flags f (B c b)) B_DIRTY = true \/
    memdisk c !! Z.to_nat (sector (B c b)) = Some (bdata (B c b)) ->
  exists c', upd_buf c b g = Ok c' /\ memdisk c' = memdisk c /\ others c c' b /\
    B c' b = set_flags f (B c b) /\ inv c' F.
Proof.
  intros V Hb Hd Hf Hg Hv Hds.
  destruct (inv_edit c F b f (bdata (B c b)) V Hb Hd Hf Hv Hds) as (c' & E & Hm & Ho & Hb' & V').
  exists c'. split_and!; try done.
  - rewrite <- E. apply upd_buf_same; [apply V | unfold HEAD; lia|]. rewrite Hg. by destruct (B c b).
  - eapply inv_fun_ext; [exact V'|]. intros s _. cbn. destruct (Z.eqb_spec s (sector (B c b))) as [->|]; [|done].
    by destruct (buf_in_use c F b V Hb Hd) as (_ & _ & _ & ->).
Qed.

Lemma find_both c F s :
  inv c F -> exists o, find_cached (Z.to_nat (NBUF + 1)) c (next (B c HEAD)) 1 s = Ok o /\
    match o with
    | Some b => 0 <= b < NBUF /\ dev (B c b) = 1 /\ sector (B c b) = s
    | None =>
        (forall b, 0 <= b < NBUF -> ~ (dev (B c b) = 1 /\ sector (B c b) = s)) /\
        exists o, find_free (Z.to_nat (NBUF + 1)) c (prev (B c HEAD)) = Ok o /\
          match o with
          | Some b => 0 <= b < NBUF /\ has (B c b) B_BUSY = false /\ has (B c b) B_DIRTY = false
          | None => forall b, 0 <= b < NBUF -> has (B c b) B_BUSY = true \/ has (B c b) B_DIRTY = true
          end
    end.
Proof.
  intros V. destruct (v_ring _ _ V) as [order R].
  pose proof (r_chain _ _ R) as HC. pose proof (ring_length _ _ R) as Hl.
  pose proof (ring_forall _ _ R) as HF. change (Z.to_nat (NBUF + 1)) with 11%nat.
  destruct (find_cached_spec c 1 s HEAD order 11 (v_wf _ _ V) HC HF) as (o & Ho & Hs); [lia|].
  exists o. split; [exact Ho|]. destruct o as [b|].
  - destruct Hs as (Hb & ? & ?). by apply (r_elem _ _ R) in Hb.
  - split; [intros b Hb%(r_elem _ _ R); by apply Hs|].
    destruct (find_free_spec c HEAD (reverse order) 11 (v_wf _ _ V)) as (o & Ho' & Hs').
    + by apply chain_rev.
    + by apply Forall_reverse.
    + rewrite length_reverse. lia.
    + exists o. split; [exact Ho'|]. destruct o as [b|].
      * destruct Hs' as (Hb & ? & ?). by apply elem_of_reverse, (r_elem _ _ R) in Hb.
      * intros b Hb%(r_elem _ _ R). apply Hs'. by apply elem_of_reverse.
Qed.

(** Reading a sector that is not cached, into the free buffer [b]. *)
Lemma recycle_spec c F s b :
  inv c F -> 0 <= s < zlen (memdisk c) -> 0 <= b < NBUF ->
  has (B c b) B_BUSY = false -> has (B c b) B_DIRTY = false ->
  (forall i, 0 <= i < NBUF -> ~ (dev (B c i) = 1 /\ sector (B c i) = s)) ->
  exists c', (let! c := upd_buf c b (fun x => mk_buf B_BUSY 1 s (prev x) (next x) (bdata x)) in
              iderw c b) = Ok c' /\
    inv c' F /\ held c' b /\ sector (B c' b) = s /\ memdisk c' = memdisk c /\ others c c' b.
Proof.
  intros V Hs Hb Hbusy Hdirty Hnone. pose proof (v_wf _ _ V) as Hw.
  upd c1 H1. unfold iderw. rewrite get_B by (done || (unfold HEAD; lia)). cbn [rbind].
  assert (B c1 b = mk_buf B_BUSY 1 s (prev (B c b)) (next (B c b)) (bdata (B c b))) as E1
    by (rewrite H1, Z.eqb_refl by lia; done).
  rewrite E1. change (has _ B_BUSY) with true. change (has _ B_VALID) with false.
  change (has _ B_DIRTY) with false. cbn [negb andb dev sector Z.eqb]. rewrite Hm. zsimp.
  destruct (get_lt (memdisk c) s) as (p & -> & Hp); [lia|]. cbn [rbind].
  upd c2 H2. upd c3 H3. exists c3.
  assert (B c3 b = mk_buf (Z.lor B_BUSY B_VALID) 1 s (prev (B c b)) (next (B c b)) p) as E3
    by (rewrite H3, Z.eqb_refl, H2, Z.eqb_refl, E1 by lia; done).
  assert (forall i, 0 <= i -> i <> b -> B c3 i = B c i) as Eo.
  { intros i Hi Hne. rewrite (H3 i), (H2 i), (H1 i) by done. by destruct (Z.eqb_spec i b). }
  split; [done|].
  destruct (v_disk _ _ V s Hs) as [Hd|(i & Hi & ? & ? & _)]; [|exfalso; by apply (Hnone i Hi)].
  assert (p = F s) as -> by congruence.
  split_and!.
  - eapply (inv_update c c3 F F b s V); rewrite ?E3; try done; try congruence.
    + destruct (v_ring _ _ V) as [order R]. exists order. eapply ring_ext; [exact R | |];
        intros i Hi; (destruct (decide (i = b)) as [->|Hne]; [by rewrite E3 | by rewrite Eo]).
    + intros i Hi Hne. by rewrite Eo.
    + intros i Hi _ Hdi E. by apply (Hnone i Hi).
    + intros s' _ _. split; [done | congruence].
    + right. by left.
    + by right.
  - unfold held. by rewrite E3.
  - by rewrite E3.
  - congruence.
  - intros i Hi Hne. by rewrite Eo.
Qed.

(** [bread] of a sector of the disk: it sleeps on the busy buffer of the
    sector, panics when every buffer is busy or dirty, or returns a buffer that
    holds the block. *)
Lemma bread_spec c F s :
  inv c F -> 0 <= s < zlen (memdisk c) ->
  (exists b, bread c 1 s = Ok (c, Sleeps b) /\ held c b /\ sector (B c b) = s) \/
  (bread c 1 s = Err Panic /\
   forall b, 0 <= b < NBUF -> has (B c b) B_BUSY = true \/ has (B c b) B_DIRTY = true) \/
  (exists c' b, bread c 1 s = Ok (c', Got b) /\ inv c' F /\ held c' b /\ sector (B c' b) = s /\
     has (B c b) B_BUSY = false /\ memdisk c' = memdisk c /\ others c c' b).
Proof.
  intros V Hs. pose proof (v_wf _ _ V) as Hw. unfold bread, bget.
  rewrite get_B by (done || (unfold HEAD, NBUF; lia)). cbn [rbind].
  destruct (find_both c F s V) as (o & -> & Ho). cbn [rbind].
  destruct o as [b|]; [destruct Ho as (Hb & Hd & Hsec) | destruct Ho as (Hnone & o & -> & Ho)].
  - rewrite get_B by (done || (unfold HEAD; lia)). cbn [rbind].
    destruct (has (B c b) B_BUSY) eqn:Hbusy; cbn [negb].
    { left. exists b. by unfold held. }
    right. right. destruct (buf_in_use c F b V Hb Hd) as (_ & Hf & Hv & _).
    destruct (inv_flags c F b (Z.lor (flags (B c b)) B_BUSY) _ V Hb Hd (flags_busy _ Hf) eq_refl)
      as (c' & -> & Hm & Ho & Eb & V').
    { rewrite has_lor. unfold has in Hv. by rewrite Hv. }
    { left. rewrite has_lor. by rewrite orb_true_r. }
    cbn [rbind]. rewrite get_B by (apply V' || (unfold HEAD; lia)). cbn [rbind].
    assert (has (B c' b) B_VALID = true) as Hv'
      by (rewrite Eb, has_lor; unfold has in Hv; by rewrite Hv).
    rewrite Hv'. cbn. exists c', b. split_and!; try done.
    + unfold held. rewrite Eb. split_and!; try done; try lia.
      rewrite has_lor. by rewrite orb_true_r.
    + by rewrite Eb.
  - cbn [rbind]. destruct o as [b|].
    + destruct Ho as (Hb & Hbusy & Hdirty). right. right.
      destruct (recycle_spec c F s b V Hs Hb Hbusy Hdirty Hnone)
        as (c' & E & V' & Hh & Hsec & Hm & Ho).
      destruct (upd_buf_ok c b (fun x => mk_buf B_BUSY 1 s (prev x) (next x) (bdata x)))
        as (c1 & E1 & Hw1 & _ & H1); [done | unfold HEAD; lia|].
      rewrite E1 in E |- *. cbn [rbind] in E |- *.
      rewrite get_B by (done || (unfold HEAD; lia)). cbn [rbind].
      rewrite H1, Z.eqb_refl by lia. change (has _ B_VALID) with false. cbn [negb].
      rewrite E. cbn [rbind]. exists c', b. split_and!; done.
    + right. left. by split.
Qed.

Lemma write_back c F b :
  inv c F -> held c b -> has (B c b) B_DIRTY = true ->
  exists c', iderw c b = Ok c' /\ inv c' F /\ held c' b /\ sector (B c' b) = sector (B c b) /\
    memdisk c' = <[Z.to_nat (sector (B c b)) := F (sector (B c b))]> (memdisk c) /\ others c c' b.
Proof.
  intros V (Hb & Hd & Hbusy) Hdirty. pose proof (v_wf _ _ V) as Hw.
  destruct (buf_in_use c F b V Hb Hd) as (Hs & Hf & Hv & Hbd).
  unfold iderw. rewrite get_B by (done || (unfold HEAD; lia)). cbn [rbind].
  rewrite Hbusy, Hdirty, Hv, Hd. cbn [negb andb Z.eqb Pos.eqb]. zsimp.
  rewrite put_ok by lia. cbn [rbind]. upd c1 H1. eexists. split; [done|].
  set (f' := Z.lor _ _) in *. set (c2 := mk_bcache _ _).
  assert (forall i, 0 <= i -> B c2 i = if i =? b then set_flags f' (B c b) else B c i) as H2
    by (intros i Hi; by rewrite <- H1).
  assert (B c2 b = set_flags f' (B c b)) as Eb by (rewrite H2, Z.eqb_refl by lia; done).
  assert (0 <= f' < 8 /\ has (B c2 b) B_VALID = true /\ has (B c2 b) B_BUSY = true) as (Hf' & Hv' & Hbusy').
  { rewrite Eb. unfold has in *. cbn. unfold f'. flag_cases (flags (B c b)). }
  assert (others c c2 b) as Ho.
  { intros i Hi Hne. rewrite H2 by done. by destruct (Z.eqb_spec i b). }
  assert (held c2 b) by (split; [done|]; split; [by rewrite Eb | done]).
  split_and!; [| done | by rewrite Eb | by cbn; rewrite Hbd | done].
  eapply (inv_update c c2 F F b (sector (B c b)) V); try done; try (by rewrite Eb).
  - destruct (v_ring _ _ V) as [order R]. exists order.
    eapply ring_ext; [exact R | |]; intros i Hi; rewrite H2 by done;
      by destruct (Z.eqb_spec i b) as [->|].
  - cbn. by rewrite length_insert.
  - by eapply uniq_at.
  - intros s' Hs' Hne. split; [done|]. cbn. apply list_lookup_insert_ne. lia.
  - left. cbn. rewrite list_lookup_insert_eq by lia. by rewrite Hbd.
  - by left.
Qed.

Lemma bwrite_spec c F b :
  inv c F -> held c b ->
  exists c', bwrite c b = Ok c' /\ inv c' F /\ held c' b /\
    memdisk c' = <[Z.to_nat (sector (B c b)) := F (sector (B c b))]> (memdisk c) /\
    sector (B c' b) = sector (B c b).
Proof.
  intros V (Hb & Hd & Hbusy). pose proof (v_wf _ _ V) as Hw.
  destruct (buf_in_use c F b V Hb Hd) as (Hs & Hf & Hv & Hbd).
  unfold bwrite. rewrite get_B by (done || (unfold HEAD; lia)). cbn [rbind]. rewrite Hbusy. cbn [negb].
  destruct (inv_flags c F b (Z.lor (flags (B c b)) B_DIRTY) _ V Hb Hd (flags_dirty _ Hf) eq_refl)
    as (c1 & -> & Hm & Ho & Eb & V1).
  { rewrite has_lor. unfold has in Hv. by rewrite Hv. }
  { right. left. rewrite has_lor. by rewrite orb_true_r. }
  cbn [rbind]. destruct (write_back c1 F b V1) as (c2 & -> & V2 & Hh & E2 & Hm2 & _).
  - split; [done|]. rewrite Eb, has_lor. unfold has in Hbusy. by rewrite Hbusy.
  - rewrite Eb, has_lor. by rewrite orb_true_r.
  - exists c2. rewrite Eb in E2, Hm2. rewrite Hm in Hm2. done.
Qed.

Lemma inv_relinked c c' F :
  inv c F -> wf c' -> (exists order, ring c' order) -> memdisk c' = memdisk c ->
  (forall i, 0 <= i -> payload (B c' i) = payload (B c i)) -> inv c' F.
Proof.
  intros V Hw HR Hm Hp.
  assert (forall i, 0 <= i -> flags (B c' i) = flags (B c i) /\ dev (B c' i) = dev (B c i) /\
    sector (B c' i) = sector (B c i) /\ bdata (B c' i) = bdata (B c i)) as Hq
    by (intros; by apply payload_fields, Hp).
  constructor; [done | done | | |]; rewrite ?Hm.
  - intros i j Hi Hj. destruct (Hq i) as (_ & -> & -> & _); [lia|].
    destruct (Hq j) as (_ & -> & -> & _); [lia|]. by apply (v_uniq _ _ V).
  - intros i Hi. rewrite (payload_has _ _ B_VALID (Hp i (proj1 Hi))).
    destruct (Hq i) as (-> & -> & -> & ->); [lia|]. by apply (v_buf _ _ V).
  - intros s Hs. destruct (v_disk _ _ V s Hs) as [?|(i & Hi & ?)]; [by left|]. right. exists i.
    rewrite !(payload_has (B c' i) (B c i)) by (apply Hp; lia).
    destruct (Hq i) as (_ & -> & -> & _); [lia|]. done.
Qed.

(** [brelse] of a buffer that is dirty or unchanged since it was read or
    written. *)
Lemma brelse_spec c F b :
  inv c F -> held c b ->
  has (B c b) B_DIRTY = true \/ memdisk c !! Z.to_nat (sector (B c b)) = Some (bdata (B c b)) ->
  exists c', brelse c b = Ok c' /\ inv c' F /\ has (B c' b) B_BUSY = false /\
    memdisk c' = memdisk c.
Proof.
  intros V (Hb & Hd & Hbusy) Hclean. pose proof (v_wf _ _ V) as Hw.
  destruct (buf_in_use c F b V Hb Hd) as (Hs & Hf & Hv & Hbd).
  unfold brelse. rewrite get_B by (done || (unfold HEAD; lia)). cbn [rbind]. rewrite Hbusy. cbn [negb].
  rewrite <- rbind_assoc. destruct (v_ring _ _ V) as [order R].
  assert (b ∈ order) as (l1 & l2 & ->)%list_elem_of_split by (by apply (r_elem _ _ R)).
  destruct (relink c l1 b l2 Hw R) as (c1 & -> & Hw1 & Hm1 & R1 & Hp). cbn [rbind].
  assert (inv c1 F) as V1 by (eapply inv_relinked; eauto).
  pose proof (payload_fields _ _ (Hp b (proj1 Hb))) as (E0 & E1 & E2 & E3).
  destruct (inv_flags c1 F b (Z.land (flags (B c1 b)) (Z.lnot B_BUSY))
    (fun x => set_flags (Z.land (flags x) (Z.lnot B_BUSY)) x) V1 Hb) as (c2 & -> & Hm2 & _ & Eb & V2).
  - congruence.
  - rewrite E0. by apply flags_free.
  - done.
  - rewrite E0. unfold has in *. cbn. flag_cases (flags (B c b)).
  - right. rewrite E0, Hm1, E2, E3. destruct Hclean as [Hc|Hc]; [left | by right].
    unfold has in *. cbn. flag_cases (flags (B c b)).
  - exists c2. split_and!; try done; [|congruence]. rewrite Eb, E0. unfold has. cbn.
    flag_cases (flags (B c b)).
Qed.

(** * Clients of the cache *)

(** One call of a client, with the file system [F] it should see: it reads a
    sector, stores a block into a buffer it holds, marks it dirty as [log_write]
    does, writes it, or releases it once it is written or dirty. *)
Inductive step : bcache * (Z -> list Z) -> bcache * (Z -> list Z) -> Prop :=
  | step_bread c F s c' o :
      0 <= s < zlen (memdisk c) -> bread c 1 s = Ok (c', o) -> step (c, F) (c', F)
  | step_edit c F b blk c' :
      held c b -> upd_buf c b (set_bdata blk) = Ok c' ->
      step (c, F) (c', fun s => if s =? sector (B c b) then blk else F s)
  | step_dirty c F b c' :
      held c b -> upd_buf c b (fun x => set_flags (Z.lor (flags x) B_DIRTY) x) = Ok c' ->
      step (c, F) (c', F)
  | step_bwrite c F b c' : held c b -> bwrite c b = Ok c' -> step (c, F) (c', F)
  | step_brelse c F b c' :
      held c b ->
      has (B c b) B_DIRTY = true \/ memdisk c !! Z.to_nat (sector (B c b)) = Some (bdata (B c b)) ->
      brelse c b = Ok c' -> step (c, F) (c', F).

Lemma step_inv c F c' F' : step (c, F) (c', F') -> inv c F -> inv c' F'.
Proof.
  intros Hs V. inversion Hs; subst; clear Hs.
  - destruct (bread_spec c F' s V) as [(b & E & _)|[[E _]|(c2 & b & E & V2 & _)]]; [done | congruence..].
  - match goal with H : held c b |- _ => destruct H as (Hb & Hd & Hbusy) end.
    destruct (buf_in_use c F b V Hb Hd) as (_ & Hf & Hv & _).
    destruct (inv_edit c F b (flags (B c b)) blk V Hb Hd Hf) as (c2 & E & _ & _ & _ & V2).
    { unfold has in *. by cbn. }
    { left. unfold has in *. by cbn. }
    erewrite upd_buf_same in E; [| apply V | unfold HEAD; lia |].
    + match goal with H : upd_buf c b _ = Ok c' |- _ => rewrite H in E end. by injection E as <-.
    + by destruct (B c b).
  - match goal with H : held c b |- _ => destruct H as (Hb & Hd & Hbusy) end.
    destruct (buf_in_use c F' b V Hb Hd) as (_ & Hf & Hv & _).
    destruct (inv_flags c F' b (Z.lor (flags (B c b)) B_DIRTY)
      (fun x => set_flags (Z.lor (flags x) B_DIRTY) x) V Hb Hd (flags_dirty _ Hf) eq_refl)
      as (c2 & E & _ & _ & _ & V2); [| | congruence].
    { rewrite has_lor. unfold has in Hv. by rewrite Hv. }
    { right. left. rewrite has_lor. by rewrite orb_true_r. }
  - destruct (bwrite_spec c F' b V) as (c2 & E & V2 & _); [done | congruence].
  - destruct (brelse_spec c F' b V) as (c2 & E & V2 & _); [done | done | congruence].
Qed.

Inductive serves (m : list (list Z)) : bcache * (Z -> list Z) -> Prop :=
  | serves_start c : binit (mk_bcache (bufs blank) m) = Ok c ->
      serves m (c, fun s => nth (Z.to_nat s) m [])
  | serves_step x y : serves m x -> step x y -> serves m y.

Definition initial (m : list (list Z)) : bcache :=
  match binit (mk_bcache (bufs blank) m) with Ok c => c | Err _ => blank end.

Lemma binit_ok m : binit (mk_bcache (bufs blank) m) = Ok (initial m).
Proof. vm_compute. reflexivity. Qed.

Lemma initial_memdisk m : memdisk (initial m) = m.
Proof. vm_compute. reflexivity. Qed.

Lemma initial_bufs m i : 0 <= i < NBUF -> dev (B (initial m) i) = u32 (-1) /\ flags (B (initial m) i) = 0.
Proof.
  unfold NBUF. intros Hi.
  assert (i = 0 \/ i = 1 \/ i = 2 \/ i = 3 \/ i = 4 \/ i = 5 \/ i = 6 \/ i = 7 \/ i = 8 \/ i = 9) as Hcase
    by lia.
  repeat (destruct Hcase as [->|Hcase]; [by vm_compute|]). subst. by vm_compute.
Qed.

Lemma initial_inv m : inv (initial m) (fun s => nth (Z.to_nat s) m []).
Proof.
  constructor.
  - vm_compute. reflexivity.
  - exists [9; 8; 7; 6; 5; 4; 3; 2; 1; 0]. constructor.
    + by vm_compute.
    + by apply (bool_decide_unpack _).
    + intros i. unfold NBUF. rewrite !elem_of_cons, elem_of_nil. lia.
  - intros i j Hi Hj Hd. destruct (initial_bufs m i Hi) as [E _]. rewrite Hd in E. discriminate E.
  - intros i Hi. left. exact (initial_bufs m i Hi).
  - intros s Hs. left. rewrite initial_memdisk in *.
    destruct (lookup_lt_is_Some_2 m (Z.to_nat s)) as [x Hx]; [lia|]. rewrite Hx. f_equal.
    symmetry. by apply nth_lookup_Some.
Qed.

Lemma ok_inj {A} (x y : A) : Ok x = Ok y -> x = y.
Proof. congruence. Qed.

Lemma serves_inv m x : serves m x -> inv (fst x) (snd x).
Proof.
  induction 1 as [c Hc|[c F] [c' F'] _ IH Hs]; cbn [fst snd] in *.
  - rewrite <- (ok_inj _ _ (eq_trans (eq_sym (binit_ok m)) Hc)). apply initial_inv.
  - by eapply step_inv.
Qed.

(** C20: The buffer cache is coherent.  After [binit] and any sequence of calls
    of its clients, reading a sector sleeps on the busy buffer of that sector,
    or panics when every buffer is busy or dirty, or returns a busy buffer with
    the block last stored for that sector, or the block of the initial disk if
    none was, however the buffers were recycled in between; and writing a held
    buffer leaves that block on the disk. *)
Theorem cache_coherent m c F s :
  serves m (c, F) -> 0 <= s < zlen (memdisk c) ->
  ((exists b, bread c 1 s = Ok (c, Sleeps b) /\ held c b /\ sector (B c b) = s) \/
   (bread c 1 s = Err Panic /\
    forall b, 0 <= b < NBUF -> has (B c b) B_BUSY = true \/ has (B c b) B_DIRTY = true) \/
   (exists c' b, bread c 1 s = Ok (c', Got b) /\ held c' b /\ has (B c b) B_BUSY = false /\
      sector (B c' b) = s /\ bdata (B c' b) = F s /\ serves m (c', F))) /\
  (forall b, held c b -> exists c', bwrite c b = Ok c' /\
     memdisk c' !! Z.to_nat (sector (B c b)) = Some (F (sector (B c b))) /\ serves m (c', F)).
Proof.
  intros Hr Hs. pose proof (serves_inv _ _ Hr) as V. cbn in V. split.
  - destruct (bread_spec c F s V Hs) as [?|[?|(c' & b & E & V' & Hh & Hsec & Hbusy & _)]];
      [by left | by right; left | right; right].
    exists c', b. split_and!; try done.
    + destruct Hh as (Hb & Hd & _). destruct (buf_in_use c' F b V' Hb Hd) as (_ & _ & _ & ->).
      by rewrite Hsec.
    + eapply serves_step; [exact Hr|]. by eapply step_bread.
  - intros b Hh. destruct (bwrite_spec c F b V Hh) as (c' & E & _ & _ & Hm & _).
    exists c'. split_and!; [done | | eapply serves_step; [exact Hr | by eapply step_bwrite]].
    rewrite Hm. destruct Hh as (Hb & Hd & _).
    destruct (buf_in_use c F b V Hb Hd) as (Hsr & _). apply list_lookup_insert_eq. lia.
Qed.

(** Sector 2 is read, changed, marked dirty and released, and read again. *)
Lemma cache_coherent_witness :
  exists c F c' b, serves (replicate 4 [7]) (c, F) /\ F 2 = [8] /\
    bread c 1 2 = Ok (c', Got b) /\ bdata (B c' b) = [8].
Proof.
  set (m := replicate 4 [7]).
  destruct (bread (initial m) 1 2) as [[c1 [b|]]|] eqn:E1; [|vm_compute in E1; discriminate..].
  assert (b = 0 /\ held c1 b /\ zlen (memdisk c1) = 4) as (-> & Hh1 & _).
  { vm_compute in E1. injection E1 as <- <-. vm_compute. repeat split; discriminate. }
  destruct (upd_buf c1 0 (set_bdata [8])) as [c2|] eqn:E2;
    [|vm_compute in E1; injection E1 as <-; vm_compute in E2; discriminate].
  assert (held c2 0) as Hh2.
  { vm_compute in E1. injection E1 as <-. vm_compute in E2. injection E2 as <-. vm_compute.
    repeat split; discriminate. }
  destruct (bwrite c2 0) as [c3|] eqn:E3;
    [|vm_compute in E1; injection E1 as <-; vm_compute in E2; injection E2 as <-; vm_compute in E3; discriminate].
  assert (held c3 0 /\ memdisk c3 !! Z.to_nat (sector (B c3 0)) = Some (bdata (B c3 0))
    /\ sector (B c1 0) = 2) as (Hh3 & Hc3 & Hs1).
  { vm_compute in E1. injection E1 as <-. vm_compute in E2. injection E2 as <-.
    vm_compute in E3. injection E3 as <-. vm_compute. repeat split; discriminate. }
  destruct (brelse c3 0) as [c4|] eqn:E4;
    [|vm_compute in E1; injection E1 as <-; vm_compute in E2; injection E2 as <-;
      vm_compute in E3; injection E3 as <-; vm_compute in E4; discriminate].
  assert (serves m (c4, fun s => if s =? sector (B c1 0) then [8] else nth (Z.to_nat s) m [])) as Hr.
  { eapply serves_step; [eapply serves_step; [eapply serves_step; [eapply serves_step;
      [apply serves_start, binit_ok|]|]|]|].
    - eapply step_bread; [|exact E1]. vm_compute. split; [discriminate | reflexivity].
    - by eapply step_edit.
    - by eapply step_bwrite.
    - eapply step_brelse; [exact Hh3 | by right | exact E4]. }
  destruct (cache_coherent m c4 _ 2 Hr) as [[(b & E & Hb & _)|[[E _]|(c' & b & E & _ & _ & _ & Hd & _)]] _].
  - vm_compute in E1. injection E1 as <-. vm_compute in E2. injection E2 as <-.
    vm_compute in E3. injection E3 as <-. vm_compute in E4. injection E4 as <-.
    vm_compute. split; [discriminate | reflexivity].
  - exfalso. vm_compute in E1. injection E1 as <-. vm_compute in E2. injection E2 as <-.
    vm_compute in E3. injection E3 as <-. vm_compute in E4. injection E4 as <-.
    vm_compute in E. discriminate.
  - exfalso. vm_compute in E1. injection E1 as <-. vm_compute in E2. injection E2 as <-.
    vm_compute in E3. injection E3 as <-. vm_compute in E4. injection E4 as <-.
    vm_compute in E. discriminate.
  - eexists c4, _, c', b. split; [exact Hr|]. split; [by rewrite Hs1|]. split; [exact E|].
    rewrite Hd, Hs1. reflexivity.
Defined.
