(* ===== verification/Pipe.v ===== *)
(** Pipes: src/src/pipe.c.

    A call holds [p->lock] except while it sleeps, so the code between two
    sleeps is one step: [write_loop] and [piperead] run until they return or
    sleep, and a sleeping writer resumes at the byte it had reached.  [killed]
    is [proc->killed].  The counters are 32-bit and wrap round. *)
From S2P Require Import Prelude.

Definition PIPESIZE : Z := 512.

Record pipe := mk_pipe {
  data : list Z;
  nread : Z;
  nwrite : Z;
  readopen : bool;
  writeopen : bool;
}.

(** The fields of [struct file] that [pipealloc] sets. *)
Record pipe_end := mk_pipe_end { readable : bool; writable : bool }.

(** [filealloc] may fail for either end ([f0], [f1]) and [kalloc] for the pipe
    itself; [page] is what the page it returns holds. *)
Definition pipealloc (f0 f1 : bool) (page : option (list Z))
  : option (pipe * pipe_end * pipe_end) :=
  if negb f0 || negb f1 then None
  else match page with
  | None => None
  | Some d => Some (mk_pipe d 0 0 true true, mk_pipe_end true false, mk_pipe_end false true)
  end.

(** The pipe, and whether its page was freed. *)
Definition pipeclose (p : pipe) (writable : bool) : pipe * bool :=
  let p := if writable then mk_pipe (data p) (nread p) (nwrite p) (readopen p) false
           else mk_pipe (data p) (nread p) (nwrite p) false (writeopen p) in
  (p, negb (readopen p) && negb (writeopen p)).

(** How a run of [pipewrite] ends: with its result, or asleep before byte [i]. *)
Inductive wstat := WRet (r : Z) | WSleep (i : Z).

Fixpoint write_loop (k : nat) (p : pipe) (addr : list Z) (i n : Z) (killed : bool)
  : result (pipe * wstat) :=
  match k with
  | O => Ok (p, WRet n)
  | S k' =>
      if nwrite p =? u32 (nread p + PIPESIZE) then
        if negb (readopen p) || killed then Ok (p, WRet (-1)) else Ok (p, WSleep i)
      else
        let! c := get addr i in
        let! d := put (data p) (nwrite p mod PIPESIZE) c in
        write_loop k' (mk_pipe d (nread p) (u32 (nwrite p + 1)) (readopen p) (writeopen p))
          addr (i + 1) n killed
  end.

(** [pipewrite] from byte [i] on; a call starts at 0. *)
Definition pipewrite (p : pipe) (addr : list Z) (i n : Z) (killed : bool) : result (pipe * wstat) :=
  write_loop (Z.to_nat (n - i)) p addr i n killed.

(** How a run of [piperead] ends: with its result and the bytes copied, or
    asleep on the empty pipe. *)
Inductive rstat := RRet (r : Z) (bs : list Z) | RSleep.

Fixpoint read_loop (k : nat) (p : pipe) (addr : list Z) : result (pipe * list Z) :=
  match k with
  | O => Ok (p, addr)
  | S k' =>
      if nread p =? nwrite p then Ok (p, addr)
      else
        let! c := get (data p) (nread p mod PIPESIZE) in
        read_loop k' (mk_pipe (data p) (u32 (nread p + 1)) (nwrite p) (readopen p) (writeopen p))
          (addr ++ [c])
  end.

Definition piperead (p : pipe) (n : Z) (killed : bool) : result (pipe * rstat) :=
  if (nread p =? nwrite p) && writeopen p then
    Ok (p, if killed then RRet (-1) [] else RSleep)
  else
    let! '(p, bs) := read_loop (Z.to_nat n) p [] in
    Ok (p, RRet (zlen bs) bs).

(** * Processes sharing a pipe

    A sleeping writer is the buffer, the byte it has reached and the length of
    its call.  [written] and [consumed] record the bytes that entered and left
    the pipe. *)
Record sharing := mk_sharing {
  sh_pipe : pipe;
  asleep : list (list Z * Z * Z);
  written : list Z;
  consumed : list Z;
}.

(** The index a run of [pipewrite] from [i] reached, from the counters. *)
Definition reached (p p' : pipe) (i : Z) : Z := i + u32 (nwrite p' - nwrite p).

(** One run of [pipewrite] from byte [i]: the bytes accepted are recorded, and
    the writer is put to sleep if it did not finish. *)
Definition run_write (s : sharing) (addr : list Z) (i n : Z) (killed : bool) : result sharing :=
  let! '(p, o) := pipewrite (sh_pipe s) addr i n killed in
  let j := reached (sh_pipe s) p i in
  let bs := take (Z.to_nat (j - i)) (drop (Z.to_nat i) addr) in
  Ok (mk_sharing p
        (match o with WSleep i => asleep s ++ [(addr, i, n)] | WRet _ => asleep s end)
        (written s ++ bs) (consumed s)).

Definition run_read (s : sharing) (n : Z) (killed : bool) : result sharing :=
  let! '(p, o) := piperead (sh_pipe s) n killed in
  Ok (mk_sharing p (asleep s) (written s)
        (match o with RRet _ bs => consumed s ++ bs | RSleep => consumed s end)).

Definition run_close (s : sharing) (writable : bool) : sharing :=
  mk_sharing (fst (pipeclose (sh_pipe s) writable)) (asleep s) (written s) (consumed s).

(** Any interleaving of calls, wake-ups and closes by any number of processes. *)
Inductive step : sharing -> sharing -> Prop :=
  | step_write s addr n killed s' :
      0 <= n <= zlen addr -> run_write s addr 0 n killed = Ok s' -> step s s'
  | step_wake s l1 addr i n l2 killed s' :
      asleep s = l1 ++ (addr, i, n) :: l2 ->
      run_write (mk_sharing (sh_pipe s) (l1 ++ l2) (written s) (consumed s)) addr i n killed = Ok s' ->
      step s s'
  | step_read s n killed s' : run_read s n killed = Ok s' -> step s s'
  | step_close s writable : step s (run_close s writable).

Inductive reachable (s : sharing) : sharing -> Prop :=
  | reach_start : reachable s s
  | reach_step s1 s2 : reachable s s1 -> step s1 s2 -> reachable s s2.

(** A pipe is a FIFO of at most 512 bytes for any interleaving of its readers
    and writers, also when its 32-bit counters wrap round. *)

(** The pipe holds the bytes [l], oldest first. *)
Record holds (p : pipe) (l : list Z) : Prop := {
  h_data : length (data p) = 512%nat;
  h_nread : 0 <= nread p < 2 ^ 32;
  h_nwrite : nwrite p = u32 (nread p + zlen l);
  h_room : zlen l <= PIPESIZE;
  h_bytes : forall k c, l !! k = Some c ->
    data p !! Z.to_nat ((nread p + Z.of_nat k) mod PIPESIZE) = Some c;
}.

(** [PIPESIZE] divides the range of the counters. *)
Lemma u32_mod_pipesize z : u32 z mod PIPESIZE = z mod PIPESIZE.
Proof.
  unfold u32, PIPESIZE. apply Z.mod_mod_divide. exists (2 ^ 23). reflexivity.
Qed.

Lemma slot_range z : 0 <= z mod PIPESIZE < 512.
Proof. apply Z.mod_pos_bound. reflexivity. Qed.

Lemma u32_add_inj a x y :
  0 <= x <= PIPESIZE -> 0 <= y <= PIPESIZE -> u32 (a + x) = u32 (a + y) -> x = y.
Proof.
  unfold u32, PIPESIZE. intros Hx Hy H.
  pose proof (Z.div_mod (a + x) (2 ^ 32)). pose proof (Z.div_mod (a + y) (2 ^ 32)). nia.
Qed.

(** The tests of the code on the counters. *)
Lemma full_iff p l : holds p l -> (nwrite p =? u32 (nread p + PIPESIZE)) = (zlen l =? PIPESIZE).
Proof.
  intros H. rewrite (h_nwrite _ _ H). pose proof (h_room _ _ H).
  destruct (Z.eqb_spec (zlen l) PIPESIZE) as [->|Hne]; [apply Z.eqb_refl|].
  apply Z.eqb_neq. intros E. apply Hne. apply u32_add_inj in E; unfold PIPESIZE in *; lia.
Qed.

Lemma empty_iff p l : holds p l -> (nread p =? nwrite p) = (zlen l =? 0).
Proof.
  intros H. rewrite (h_nwrite _ _ H). pose proof (h_room _ _ H). pose proof (h_nread _ _ H).
  destruct (Z.eqb_spec (zlen l) 0) as [->|Hne].
  - rewrite Z.add_0_r, u32_small by lia. apply Z.eqb_refl.
  - apply Z.eqb_neq. intros E. apply Hne.
    rewrite <- (u32_small (nread p)) in E at 1 by lia. rewrite <- (Z.add_0_r (nread p)) in E at 1.
    apply u32_add_inj in E; unfold PIPESIZE in *; lia.
Qed.

Lemma holds_put p l c :
  holds p l -> zlen l < PIPESIZE ->
  exists d, put (data p) (nwrite p mod PIPESIZE) c = Ok d /\
    holds (mk_pipe d (nread p) (u32 (nwrite p + 1)) (readopen p) (writeopen p)) (l ++ [c]).
Proof.
  intros H Hl. pose proof (h_data _ _ H) as Hd. pose proof (slot_range (nwrite p)) as Hs.
  rewrite put_ok by lia. eexists. split; [done|].
  assert (nwrite p mod PIPESIZE = (nread p + zlen l) mod PIPESIZE) as Hslot
    by (rewrite (h_nwrite _ _ H); apply u32_mod_pipesize).
  constructor; cbn.
  - by rewrite length_insert.
  - apply H.
  - rewrite (h_nwrite _ _ H). unfold u32. rewrite Zplus_mod_idemp_l. f_equal. llia.
  - llia.
  - intros k b Hk. pose proof (slot_range (nread p + Z.of_nat k)).
    destruct (decide (k = length l)) as [->|Hne].
    + rewrite list_lookup_middle in Hk by done. injection Hk as <-.
      rewrite Hslot. apply list_lookup_insert_eq. lia.
    + assert (k < length l)%nat by (apply lookup_lt_Some in Hk; llia).
      rewrite lookup_app_l in Hk by lia. rewrite list_lookup_insert_ne.
      * by apply (h_bytes _ _ H).
      * rewrite Hslot. intros E. apply Hne.
        assert ((nread p + zlen l) mod PIPESIZE = (nread p + Z.of_nat k) mod PIPESIZE) as E' by lia.
        unfold PIPESIZE in *.
        pose proof (Z.div_mod (nread p + zlen l) 512). pose proof (Z.div_mod (nread p + Z.of_nat k) 512).
        nia.
Qed.

Lemma holds_take p c l :
  holds p (c :: l) ->
  get (data p) (nread p mod PIPESIZE) = Ok c /\
  holds (mk_pipe (data p) (u32 (nread p + 1)) (nwrite p) (readopen p) (writeopen p)) l.
Proof.
  intros H. pose proof (slot_range (nread p)). split.
  - apply get_ok; [lia|]. pose proof (h_bytes _ _ H 0%nat c eq_refl) as E.
    by rewrite Z.add_0_r in E.
  - pose proof (h_room _ _ H) as Hr. cbn in Hr. constructor; cbn.
    + apply H.
    + apply u32_range.
    + rewrite (h_nwrite _ _ H). unfold u32. rewrite Zplus_mod_idemp_l. f_equal. cbn. lia.
    + lia.
    + intros k b Hk. pose proof (h_bytes _ _ H (S k) b Hk) as E. rewrite <- E. f_equal. f_equal.
      unfold u32. rewrite Zplus_mod. fold (u32 (nread p + 1)). rewrite u32_mod_pipesize.
      rewrite <- Zplus_mod. f_equal. lia.
Qed.

(** A run of [pipewrite]: it appends a part of the buffer, all of it when it
    returns [n], and stops only at a full pipe. *)
Lemma pipewrite_loop_spec k p l addr i n killed :
  holds p l -> 0 <= i -> k = Z.to_nat (n - i) -> i <= n <= zlen addr ->
  exists p' o j,
    write_loop k p addr i n killed = Ok (p', o) /\ i <= j <= n /\
    holds p' (l ++ take (Z.to_nat (j - i)) (drop (Z.to_nat i) addr)) /\
    nread p' = nread p /\
    (o = WRet n /\ j = n \/
     zlen l + (j - i) = PIPESIZE /\
       (o = WSleep j /\ readopen p = true /\ killed = false \/
        o = WRet (-1) /\ (readopen p = false \/ killed = true))).
Proof.
  revert p l i. induction k as [|k IH]; intros p l i H Hi Hk Hn; cbn [write_loop].
  - assert (i = n) as -> by lia. exists p, (WRet n), n. rewrite Z.sub_diag. cbn.
    rewrite app_nil_r. split_and!; try done; try lia. by left.
  - rewrite (full_iff p l H). destruct (Z.eqb_spec (zlen l) PIPESIZE) as [Hfull|Hroom].
    + exists p. destruct (readopen p) eqn:Er, killed; cbn; eexists _, i; rewrite Z.sub_diag; cbn;
        rewrite app_nil_r; split_and!; try done; try lia; right; split; try lia; auto.
    + destruct (get_lt addr i) as (c & -> & Hc); [lia|]. cbn [rbind].
      pose proof (h_room _ _ H).
      destruct (holds_put p l c H) as (d & -> & H'); [lia|]. cbn [rbind].
      destruct (IH _ (l ++ [c]) (i + 1) H') as (p' & o & j & -> & Hj & H'' & Hr & Ho);
        [lia | lia | lia|].
      exists p', o, j. split_and!; try done; try lia.
      * rewrite <- app_assoc in H''. cbn [app] in H''.
        replace (drop (Z.to_nat i) addr) with (c :: drop (Z.to_nat (i + 1)) addr).
        -- replace (Z.to_nat (j - i)) with (S (Z.to_nat (j - (i + 1)))) by lia. done.
        -- replace (Z.to_nat (i + 1)) with (S (Z.to_nat i)) by lia. symmetry. by apply drop_S.
      * destruct Ho as [Ho|(Hfull & Ho)]; [by left|]. right. split; [llia | done].
Qed.

(** A run of the copy loop of [piperead] takes the oldest bytes. *)
Lemma piperead_loop_spec k p l acc :
  holds p l ->
  exists p', read_loop k p acc = Ok (p', acc ++ take k l) /\ holds p' (drop k l) /\
    readopen p' = readopen p /\ writeopen p' = writeopen p.
Proof.
  revert p l acc. induction k as [|k IH]; intros p l acc H; cbn [read_loop].
  - exists p. rewrite take_0, app_nil_r, drop_0. done.
  - rewrite (empty_iff p l H). destruct l as [|c l]; cbn.
    + exists p. rewrite app_nil_r. done.
    + destruct (holds_take p c l H) as [-> H']. cbn [rbind].
      destruct (IH _ l (acc ++ [c]) H') as (p' & -> & H'' & Hr & Hw).
      exists p'. rewrite <- app_assoc. done.
Qed.

(** * Interleavings *)

Lemma u32_diff a x m : 0 <= x -> 0 <= m <= PIPESIZE -> u32 (u32 (a + (x + m)) - u32 (a + x)) = m.
Proof.
  unfold u32, PIPESIZE. intros Hx Hm. rewrite <- Zminus_mod.
  replace (a + (x + m) - (a + x)) with m by lia. apply Z.mod_small. lia.
Qed.

(** The pipe and the histories agree, and the sleeping writers are inside
    their buffers. *)
Definition agree (s : sharing) : Prop :=
  (exists pending, written s = consumed s ++ pending /\ holds (sh_pipe s) pending) /\
  Forall (fun '(addr, i, n) => 0 <= i <= n /\ n <= zlen addr) (asleep s).

Lemma run_write_agree s addr i n killed :
  agree s -> 0 <= i <= n -> n <= zlen addr ->
  exists s', run_write s addr i n killed = Ok s' /\ agree s'.
Proof.
  intros [(l & Hw & H) Hsl] Hi Hn. unfold run_write, pipewrite.
  destruct (pipewrite_loop_spec _ (sh_pipe s) l addr i n killed H (proj1 Hi) eq_refl)
    as (p' & o & j & -> & Hj & H' & Hr & Ho); [lia|]. cbn [rbind].
  assert (reached (sh_pipe s) p' i = j) as ->.
  { unfold reached. rewrite (h_nwrite _ _ H'), (h_nwrite _ _ H), Hr.
    pose proof (h_room _ _ H') as Hroom.
    rewrite length_app, length_take, length_drop in *.
    replace (Z.of_nat (length l + Z.to_nat (j - i) `min` (length addr - Z.to_nat i)))
      with (zlen l + (j - i)) in * by lia.
    rewrite u32_diff; unfold PIPESIZE in *; lia. }
  eexists. split; [done|]. split; cbn.
  - eexists. split; [|exact H']. by rewrite Hw, <- app_assoc.
  - destruct Ho as [[-> _]|(_ & [(-> & _)|(-> & _)])]; [done | | done].
    apply Forall_app. split; [done|]. apply Forall_singleton. lia.
Qed.

Lemma run_read_agree s n killed :
  agree s -> exists s', run_read s n killed = Ok s' /\ agree s'.
Proof.
  intros [(l & Hw & H) Hsl]. unfold run_read, piperead.
  destruct ((nread (sh_pipe s) =? nwrite (sh_pipe s)) && writeopen (sh_pipe s)); cbn [rbind].
  - eexists. split; [done|]. split; [|done]. exists l. cbn. destruct killed; [|done].
    by rewrite app_nil_r.
  - destruct (piperead_loop_spec (Z.to_nat n) (sh_pipe s) l [] H) as (p' & -> & H' & _).
    cbn [rbind app]. eexists. split; [done|]. split; [|done]. cbn.
    exists (drop (Z.to_nat n) l). split; [|done]. by rewrite Hw, <- app_assoc, take_drop.
Qed.

Lemma run_close_agree s w : agree s -> agree (run_close s w).
Proof.
  intros [(l & Hw & H) Hsl]. split; [|done]. exists l. split; [done|].
  destruct H. by destruct w; constructor.
Qed.

Lemma step_agree s s' : agree s -> step s s' -> agree s'.
Proof.
  intros HA Hs. destruct Hs as [s addr n k s' Hn E | s l1 addr i n l2 k s' Hsl E | s n k s' E | s w].
  - destruct (run_write_agree s addr 0 n k HA) as (s2 & E2 & H2); [lia | lia|]. congruence.
  - destruct HA as [Hp HF]. rewrite Hsl in HF. apply Forall_app in HF as [HF1 HF2].
    apply Forall_cons in HF2 as [Hi HF2].
    destruct (run_write_agree (mk_sharing (sh_pipe s) (l1 ++ l2) (written s) (consumed s))
      addr i n k) as (s2 & E2 & H2); [| lia | lia | congruence].
    split; [done|]. by apply Forall_app.
  - destruct (run_read_agree s n k HA) as (s2 & E2 & H2). congruence.
  - by apply run_close_agree.
Qed.

Lemma reachable_agree s s' : agree s -> reachable s s' -> agree s'.
Proof. intros HA Hr. induction Hr; [done|]. by eapply step_agree. Qed.

Lemma pipealloc_agree f0 f1 page p e0 e1 :
  pipealloc f0 f1 (Some page) = Some (p, e0, e1) -> zlen page = PIPESIZE ->
  agree (mk_sharing p [] [] []).
Proof.
  unfold pipealloc, PIPESIZE. destruct f0, f1; try done. intros [= <- <- <-] Hl. split; [|constructor].
  exists []. split; [done|]. constructor; cbn; try done; try lia.
Qed.

(** What [piperead] returns, given the bytes the pipe holds. *)
Lemma piperead_spec p l n killed :
  holds p l -> 0 < n ->
  exists p',
    piperead p n killed =
      Ok (p', if (zlen l =? 0) && writeopen p then if killed then RRet (-1) [] else RSleep
              else RRet (zlen (take (Z.to_nat n) l)) (take (Z.to_nat n) l)).
Proof.
  intros H Hn. unfold piperead. rewrite (empty_iff p l H).
  destruct ((zlen l =? 0) && writeopen p); [by destruct killed; eexists|].
  destruct (piperead_loop_spec (Z.to_nat n) p l [] H) as (p' & -> & _). cbn. eauto.
Qed.

(** C24: A pipe is a FIFO.  After any interleaving of reads, writes, wake-ups
    and closes by any number of processes, the bytes written are the bytes
    read followed by at most 512 pending ones, also when the 32-bit counters
    wrap round; no further call faults; and a read returns the oldest pending
    bytes, sleeps only on an empty pipe that is open for writing, and returns 0
    only when the pipe is empty and closed for writing. *)
Theorem pipe_fifo f0 f1 page p e0 e1 s :
  pipealloc f0 f1 (Some page) = Some (p, e0, e1) -> zlen page = PIPESIZE ->
  reachable (mk_sharing p [] [] []) s ->
  exists pending,
    written s = consumed s ++ pending /\ zlen pending <= PIPESIZE /\
    (forall addr n killed, 0 <= n <= zlen addr ->
       exists s', run_write s addr 0 n killed = Ok s' /\ step s s') /\
    (forall n killed, 0 < n ->
       exists p', piperead (sh_pipe s) n killed =
         Ok (p', if (zlen pending =? 0) && writeopen (sh_pipe s)
                 then if killed then RRet (-1) [] else RSleep
                 else RRet (zlen (take (Z.to_nat n) pending)) (take (Z.to_nat n) pending))).
Proof.
  intros Ha Hl Hr. pose proof (reachable_agree _ _ (pipealloc_agree _ _ _ _ _ _ Ha Hl) Hr) as HA.
  pose proof HA as [(l & Hw & H) _]. exists l. split_and!; [done | apply H | |].
  - intros addr n k Hn. destruct (run_write_agree s addr 0 n k HA) as (s' & E & _); [lia | lia|].
    exists s'. split; [done|]. by eapply step_write.
  - intros n k Hn. by apply piperead_spec.
Qed.

(** A writer of 600 bytes fills the pipe and sleeps, a reader takes 200 bytes,
    and the writer finishes. *)
Lemma pipe_fifo_witness :
  exists s, reachable (mk_sharing (mk_pipe (replicate 512 0) 0 0 true true) [] [] []) s /\
    asleep s = [] /\ zlen (written s) = 600 /\ zlen (consumed s) = 200 /\
    exists pending, written s = consumed s ++ pending /\ zlen pending <= 512.
Proof.
  set (s0 := mk_sharing (mk_pipe (replicate 512 0) 0 0 true true) [] [] []).
  set (a := Z.of_nat <$> seq 0 600).
  destruct (run_write s0 a 0 600 false) as [s1|] eqn:E1; [|vm_compute in E1; discriminate].
  destruct (run_read s1 200 false) as [s2|] eqn:E2;
    [|vm_compute in E1; injection E1 as <-; vm_compute in E2; discriminate].
  assert (asleep s2 = [(a, 512, 600)]) as Hs2.
  { vm_compute in E1. injection E1 as <-. vm_compute in E2. injection E2 as <-. reflexivity. }
  destruct (run_write (mk_sharing (sh_pipe s2) [] (written s2) (consumed s2)) a 512 600 false)
    as [s3|] eqn:E3;
    [|vm_compute in E1; injection E1 as <-; vm_compute in E2; injection E2 as <-;
      vm_compute in E3; discriminate].
  assert (reachable s0 s3) as Hr.
  { eapply reach_step; [eapply reach_step; [eapply reach_step; [apply reach_start|]|]|].
    - eapply step_write; [|exact E1]. vm_compute. split; discriminate.
    - eapply step_read. exact E2.
    - eapply (step_wake s2 [] a 512 600 []); [exact Hs2 | exact E3]. }
  exists s3. split; [exact Hr|].
  destruct (pipe_fifo true true (replicate 512 0) _ _ _ s3 eq_refl eq_refl Hr)
    as (pending & Hw & Hp & _).
  split_and!; try (vm_compute in E1; injection E1 as <-; vm_compute in E2; injection E2 as <-;
    vm_compute in E3; injection E3 as <-; vm_compute; reflexivity).
  exists pending. split; [exact Hw | exact Hp].
Defined.
