(* ===== verification/Grep.v ===== *)
(** The user program grep: src/src/grep.c.

    A [char *] is the list of the bytes from the pointer to the end of its
    block.  The recursion of [matchhere] is on the pattern; [matchstar], which
    [matchhere] calls with the rest of the pattern, takes the function that
    matches that rest.  The matcher is shown to decide a declarative semantics
    of its patterns. *)
From S2P Require Import Prelude Ulib Sys TextLemmas.

Definition CARET : Z := 94.
Definition DOLLAR : Z := 36.
Definition STAR : Z := 42.
Definition DOT : Z := 46.
Definition NL : Z := 10.

(** The loop goes on while the text does not end and its character is [c] or
    [c] is a dot; [here text] is [matchhere(re, text)]. *)
Fixpoint matchstar (here : bytes -> result bool) (c : Z) (text : bytes) : result bool :=
  let! b := here text in
  if b : bool then Ok true
  else match text with
  | [] => Err OutOfBounds
  | t :: text' => if negb (t =? 0) && ((t =? c) || (c =? DOT)) then matchstar here c text' else Ok false
  end.

(** search for [re] at the beginning of [text] *)
Fixpoint matchhere (re text : bytes) : result bool :=
  match re with
  | [] => Err OutOfBounds
  | c :: re1 =>
      if c =? 0 then Ok true
      else match re1 with
      | [] => Err OutOfBounds
      | c1 :: re2 =>
          if c1 =? STAR then matchstar (matchhere re2) c text
          else match text with
          | [] => Err OutOfBounds
          | t :: text' =>
              if (c =? DOLLAR) && (c1 =? 0) then Ok (t =? 0)
              else if negb (t =? 0) && ((c =? DOT) || (c =? t)) then matchhere re1 text'
              else Ok false
          end
      end
  end.

(** The loop of [match], which looks at the empty string too. *)
Fixpoint match_from (re text : bytes) : result bool :=
  let! b := matchhere re text in
  if b : bool then Ok true
  else match text with
  | [] => Err OutOfBounds
  | t :: text' => if negb (t =? 0) then match_from re text' else Ok false
  end.

(** [match] *)
Definition match_ (re text : bytes) : result bool :=
  match re with
  | [] => Err OutOfBounds
  | c :: re1 => if c =? CARET then matchhere re1 text else match_from re text
  end.

(** ** The loop over the input *)

Definition BUFSIZE : Z := 1024.

(** The lines of the buffer from [p] on: what is printed, and where the last,
    incomplete one starts.  A round of the loop consumes a byte of the buffer. *)
Fixpoint grep_lines (fuel : nat) (pattern buf : bytes) (p : Z) (out : bytes) : result (bytes * Z) :=
  match fuel with
  | O => Err OutOfFuel
  | S fuel' =>
      let! q := strchr (drop (Z.to_nat p) buf) NL in
      match q with
      | None => Ok (out, p)
      | Some j =>
          let q := p + j in
          let! line := put buf q 0 in
          let! m := match_ pattern (drop (Z.to_nat p) line) in
          let! '(buf, out) :=
            if m : bool then
              let! b := put line q NL in
              Ok (b, out ++ slice b p (q + 1 - p))
            else Ok (line, out) in
          grep_lines fuel' pattern buf (q + 1) out
      end
  end.

(** [grep] when the successive calls of [read] return [chunks], the end of the
    input after the last; [buf] is the static buffer and [m] the bytes in it. *)
Fixpoint grep (pattern : bytes) (chunks : list bytes) (buf : bytes) (m : Z) (out : bytes) : result bytes :=
  match chunks with
  | [] => Ok out
  | chunk :: chunks' =>
      let n := zlen chunk in
      if n <=? 0 then Ok out
      else
        let! buf := memmove buf m chunk 0 n in
        let m := m + n in
        let! '(out, p) := grep_lines (S (length buf)) pattern buf 0 out in
        let m := if p =? 0 then 0 else m in
        let! '(buf, m) :=
          if 0 <? m then
            let m := m - p in
            let! b := umemmove buf 0 p m in Ok (b, m)
          else Ok (buf, m) in
        grep pattern chunks' buf m out
  end.

(** * What a pattern means *)

(** A pattern is a sequence of characters, each once or any number of times. *)
Inductive piece := One (c : Z) | Many (c : Z).

(** The pieces of a pattern, and whether it ends in [$]. *)
Fixpoint parse (s : bytes) : list piece * bool :=
  match s with
  | [] => ([], false)
  | c :: s1 =>
      match s1 with
      | [] => if c =? DOLLAR then ([], true) else ([One c], false)
      | c1 :: s2 =>
          if c1 =? STAR then let '(ps, e) := parse s2 in (Many c :: ps, e)
          else let '(ps, e) := parse s1 in (One c :: ps, e)
      end
  end.

Definition fits (c x : Z) : Prop := c = DOT \/ c = x.

Inductive lang : list piece -> bytes -> Prop :=
  | lang_nil : lang [] []
  | lang_one c ps x m : fits c x -> lang ps m -> lang (One c :: ps) (x :: m)
  | lang_many c ps m1 m2 : Forall (fits c) m1 -> lang ps m2 -> lang (Many c :: ps) (m1 ++ m2).

(** [s] matches a prefix of [t], all of it if the pattern ends in [$]. *)
Definition prefix_match (s t : bytes) : Prop :=
  exists m q, t = m ++ q /\ lang (fst (parse s)) m /\ (snd (parse s) = true -> q = []).

(** [s] matches somewhere in [t], at its start if the pattern begins with [^]. *)
Definition matches (s t : bytes) : Prop :=
  match s with
  | c :: s1 => if c =? CARET then prefix_match s1 t else exists p q, t = p ++ q /\ prefix_match s q
  | [] => True
  end.

(** * The matcher decides it *)

Definition decides (r : result bool) (P : Prop) : Prop := exists b : bool, r = Ok b /\ (b = true <-> P).

Lemma decides_iff r P Q : decides r P -> (P <-> Q) -> decides r Q.
Proof. intros (b & E & H) HPQ. exists b. split; [done|]. by rewrite H. Qed.

Lemma prefix_match_nil t : prefix_match [] t.
Proof. exists [], t. split; [done|]. split; [constructor | done]. Qed.

Lemma prefix_match_end t : prefix_match [DOLLAR] t <-> t = [].
Proof.
  split; [|intros ->; by exists [], []; split; [|split; [constructor|]]].
  intros (m & q & -> & Hl & Hq). cbn in *. rewrite Hq by done. by inversion Hl.
Qed.

(** A piece that is not repeated. *)
Definition single (s : bytes) : Prop :=
  match s with c :: c1 :: _ => c1 <> STAR | [c] => c <> DOLLAR | [] => False end.

Lemma parse_single c s : single (c :: s) -> parse (c :: s) = (One c :: fst (parse s), snd (parse s)).
Proof.
  intros H. cbn [parse]. destruct s as [|c1 s].
  - cbn in H. rewrite (proj2 (Z.eqb_neq _ _) H). done.
  - cbn in H. rewrite (proj2 (Z.eqb_neq _ _) H). by destruct (parse (c1 :: s)).
Qed.

Lemma prefix_match_one c s t :
  single (c :: s) -> prefix_match (c :: s) t <-> exists x t', t = x :: t' /\ fits c x /\ prefix_match s t'.
Proof.
  intros Hs. unfold prefix_match at 1. rewrite (parse_single _ _ Hs). cbn [fst snd]. split.
  - intros (m & q & -> & Hl & Hq). inversion Hl as [|? ? x m' Hf Hl'|]; subst. exists x, (m' ++ q).
    split; [done|]. split; [done|]. by exists m', q.
  - intros (x & t' & -> & Hf & m & q & -> & Hl & Hq). exists (x :: m), q. split; [done|]. split; [by constructor | done].
Qed.

Lemma prefix_match_star c s t :
  prefix_match (c :: STAR :: s) t <-> exists m q, t = m ++ q /\ Forall (fits c) m /\ prefix_match s q.
Proof.
  unfold prefix_match at 1. cbn [parse]. rewrite Z.eqb_refl. destruct (parse s) as [ps e] eqn:E. cbn [fst snd]. split.
  - intros (m & q & -> & Hl & Hq). inversion Hl as [| |? ? m1 m2 Hf Hl']; subst. exists m1, (m2 ++ q).
    rewrite app_assoc. split; [done|]. split; [done|]. exists m2, q. by rewrite E.
  - intros (m1 & t' & -> & Hf & m2 & q & -> & Hl & Hq). rewrite E in *. exists (m1 ++ m2), q.
    rewrite app_assoc. split; [done|]. split; [by constructor | done].
Qed.

(** One more character for a star, or none. *)
Lemma star_unfold c (P : bytes -> Prop) t :
  (exists m q, t = m ++ q /\ Forall (fits c) m /\ P q) <->
  P t \/ exists x t', t = x :: t' /\ fits c x /\ exists m q, t' = m ++ q /\ Forall (fits c) m /\ P q.
Proof.
  split.
  - intros (m & q & -> & Hm & Hq). destruct Hm as [|x m Hx Hm]; [by left|]. right. exists x, (m ++ q).
    split; [done|]. split; [done|]. by exists m, q.
  - intros [H|(x & t' & -> & Hx & m & q & -> & Hm & Hq)]; [by exists [], t|].
    exists (x :: m), q. split; [done|]. split; [by constructor | done].
Qed.

Lemma fits_bool c x : (x =? c) || (c =? DOT) = true <-> fits c x.
Proof. unfold fits. rewrite orb_true_iff, !Z.eqb_eq. intuition congruence. Qed.

(** The loop of [matchstar], for any matcher of the rest. *)
Lemma matchstar_spec here c P t rest :
  Forall is_char t ->
  (forall q, Forall is_char q -> decides (here (q ++ 0 :: rest)) (P q)) ->
  decides (matchstar here c (t ++ 0 :: rest)) (exists m q, t = m ++ q /\ Forall (fits c) m /\ P q).
Proof.
  intros Ht HP. eapply decides_iff; [|symmetry; apply star_unfold].
  induction t as [|x t IH]; cbn [app matchstar].
  - destruct (HP [] Ht) as ([] & E & H); cbn [app] in E; rewrite E; cbn [rbind].
    { exists true. split; [done|]. tauto. }
    exists false. split; [done|]. split; [done|]. intros [H'|(? & ? & ? & _)]; [by apply H | done].
  - destruct (HP (x :: t) Ht) as ([] & E & H); cbn [app] in E; rewrite E; cbn [rbind].
    { exists true. split; [done|]. tauto. }
    apply Forall_cons in Ht as [Hx Ht]. unfold is_char in Hx. rewrite (proj2 (Z.eqb_neq x 0)) by lia. cbn [negb andb].
    destruct ((x =? c) || (c =? DOT)) eqn:Ef.
    + eapply decides_iff; [apply (IH Ht)|]. rewrite <- star_unfold. apply fits_bool in Ef. split.
      * intros Hs. right. by exists x, t.
      * intros [H'|(x' & t' & [= <- <-] & _ & Hs)]; [by apply H in H' | done].
    + exists false. split; [done|]. split; [done|]. intros [H'|(x' & t' & [= <- <-] & Hf & _)]; [by apply H|].
      apply fits_bool in Hf. congruence.
Qed.

Lemma matchhere_spec s rest t rest' :
  Forall is_char s -> Forall is_char t ->
  decides (matchhere (s ++ 0 :: rest) (t ++ 0 :: rest')) (prefix_match s t).
Proof.
  remember (length s) as n eqn:Hn. revert s t Hn.
  induction n as [n IH] using lt_wf_ind; intros s t Hn Hs Ht.
  destruct s as [|c s]; [exists true; split; [done|]; pose proof (prefix_match_nil t); tauto|].
  apply Forall_cons in Hs as [Hc Hs]. unfold is_char in Hc.
  cbn [app matchhere]. rewrite (proj2 (Z.eqb_neq c 0)) by lia.
  (* the character that follows *)
  assert (exists c1 re2, s ++ 0 :: rest = c1 :: re2) as (c1 & re2 & E) by (destruct s; by eexists _, _). rewrite E.
  destruct (Z.eqb_spec c1 STAR) as [->|Hstar].
  { destruct s as [|c1 s]; [done|]. injection E as -> <-. apply Forall_cons in Hs as [_ Hs].
    eapply decides_iff; [|symmetry; apply prefix_match_star]. apply matchstar_spec; [done|].
    intros q Hq. apply (IH (length s)); [cbn in Hn; lia | done..]. }
  assert (exists x t2, t ++ 0 :: rest' = x :: t2) as (x & t2 & Et) by (destruct t; by eexists _, _). rewrite Et.
  destruct ((c =? DOLLAR) && (c1 =? 0)) eqn:Ed.
  { apply andb_true_iff in Ed as [->%Z.eqb_eq ->%Z.eqb_eq]. destruct s as [|c1 s].
    2:{ injection E as -> _. apply Forall_cons in Hs as [Hc1 _]. unfold is_char in Hc1. lia. }
    eapply decides_iff; [|symmetry; apply prefix_match_end]. exists (x =? 0). split; [done|]. rewrite Z.eqb_eq.
    destruct t as [|x' t]; injection Et as <- <-; [done|]. apply Forall_cons in Ht as [Hx _]. unfold is_char in Hx.
    split; [lia | done]. }
  assert (single (c :: s)) as Hsg.
  { destruct s as [|c' s]; cbn; injection E as <- _; [|done]. intros ->. cbn in Ed. done. }
  eapply decides_iff; [|symmetry; by apply prefix_match_one].
  destruct t as [|x' t]; injection Et as <- <-.
  { exists false. split; [done|]. split; [done|]. by intros (? & ? & ? & _). }
  apply Forall_cons in Ht as [Hx Ht]. unfold is_char in Hx. rewrite (proj2 (Z.eqb_neq x' 0)) by lia. cbn [negb andb].
  rewrite <- E. rewrite (orb_comm (c =? DOT)), (Z.eqb_sym c x'). destruct ((x' =? c) || (c =? DOT)) eqn:Ef.
  - eapply decides_iff; [apply (IH (length s)); [cbn in Hn; lia | done..]|]. apply fits_bool in Ef.
    split; [intros H; by exists x', t | by intros (? & ? & [= <- <-] & _ & H)].
  - exists false. split; [done|]. split; [done|]. intros (? & ? & [= <- <-] & Hf & _). apply fits_bool in Hf. congruence.
Qed.

Lemma somewhere_unfold (P : bytes -> Prop) t :
  (exists p q, t = p ++ q /\ P q) <-> P t \/ exists x t', t = x :: t' /\ exists p q, t' = p ++ q /\ P q.
Proof.
  split.
  - intros ([|x p] & q & -> & H); [by left|]. right. exists x, (p ++ q). split; [done|]. by exists p, q.
  - intros [H|(x & t' & -> & p & q & -> & H)]; [by exists [], t | by exists (x :: p), q].
Qed.

Lemma match_from_spec s rest t rest' :
  Forall is_char s -> Forall is_char t ->
  decides (match_from (s ++ 0 :: rest) (t ++ 0 :: rest')) (exists p q, t = p ++ q /\ prefix_match s q).
Proof.
  intros Hs Ht. eapply decides_iff; [|symmetry; apply somewhere_unfold].
  induction t as [|x t IH].
  - destruct (matchhere_spec s rest [] rest' Hs Ht) as ([] & E & H); cbn [app match_from] in *; rewrite E; cbn [rbind].
    { exists true. split; [done|]. tauto. }
    exists false. split; [done|]. split; [done|]. intros [H'|(? & ? & ? & _)]; [by apply H | done].
  - destruct (matchhere_spec s rest (x :: t) rest' Hs Ht) as ([] & E & H); cbn [app match_from] in *; rewrite E; cbn [rbind].
    { exists true. split; [done|]. tauto. }
    apply Forall_cons in Ht as [Hx Ht]. unfold is_char in Hx. rewrite (proj2 (Z.eqb_neq x 0)) by lia. cbn [negb].
    eapply decides_iff; [apply (IH Ht)|]. rewrite <- somewhere_unfold. split.
    + intros Hs'. right. by exists x, t.
    + intros [H'|(x' & t' & [= <- <-] & Hs')]; [by apply H in H' | done].
Qed.

Lemma match_spec s rest t rest' :
  Forall is_char s -> Forall is_char t -> decides (match_ (s ++ 0 :: rest) (t ++ 0 :: rest')) (matches s t).
Proof.
  intros Hs Ht. destruct s as [|c s].
  { destruct t as [|x t]; by exists true. }
  unfold match_, matches. cbn [app]. destruct (Z.eqb_spec c CARET); [|by apply (match_from_spec (c :: s))].
  apply Forall_cons in Hs as [_ Hs]. by apply matchhere_spec.
Qed.

(** C31: The matcher of grep returns on every pattern and text, reads outside
    neither, and answers whether the text has a part that the pattern denotes:
    a sequence of characters or dots, each once or any number of times, at the
    start of the text after [^] and at its end before [$]. *)
Theorem match_decides re s text t :
  is_str re s -> is_str text t -> exists b, match_ re text = Ok b /\ (b = true <-> matches s t).
Proof. intros [Hs [rest ->]] [Ht [rest' ->]]. by apply match_spec. Qed.

(** "^a.*d$" on "abcd". *)
Lemma match_decides_witness :
  exists b, match_ [94; 97; 46; 42; 100; 36; 0] [97; 98; 99; 100; 0] = Ok b /\
    (b = true <-> matches [94; 97; 46; 42; 100; 36] [97; 98; 99; 100]).
Proof.
  apply (match_decides [94; 97; 46; 42; 100; 36; 0] [94; 97; 46; 42; 100; 36] [97; 98; 99; 100; 0] [97; 98; 99; 100]).
  - apply (is_str_intro [94; 97; 46; 42; 100; 36]). repeat constructor; lia.
  - apply (is_str_intro [97; 98; 99; 100]). repeat constructor; lia.
Defined.

(** * Selecting lines *)

(** A character of a line. *)
Definition line_char (c : Z) : Prop := is_char c /\ c <> NL.

Definition selected (s l : bytes) : bool :=
  match match_ (s ++ [0]) (l ++ [0]) with Ok b => b | Err _ => false end.

Lemma selected_ok s rest l rest' :
  Forall is_char s -> Forall is_char l -> match_ (s ++ 0 :: rest) (l ++ 0 :: rest') = Ok (selected s l).
Proof.
  intros Hs Hl. destruct (match_spec s rest l rest' Hs Hl) as (b & E & H).
  destruct (match_spec s [] l [] Hs Hl) as (b' & E' & H'). unfold selected. rewrite E, E'. f_equal.
  destruct b, b'; try done; exfalso; intuition congruence.
Qed.

Definition ended (l : bytes) : bytes := l ++ [NL].

Definition unlines (ls : list bytes) : bytes := List.concat (List.map ended ls).

Lemma unlines_cons l ls : unlines (l :: ls) = ended l ++ unlines ls.
Proof. done. Qed.

(** The lines of a text that are ended, and the rest. *)
Fixpoint complete (cur t : bytes) : list bytes * bytes :=
  match t with
  | [] => ([], cur)
  | c :: t' =>
      if c =? NL then let '(ls, tl) := complete [] t' in (cur :: ls, tl) else complete (cur ++ [c]) t'
  end.

Lemma complete_spec t cur :
  Forall is_char t -> Forall line_char cur ->
  exists ls tl, complete cur t = (ls, tl) /\ cur ++ t = unlines ls ++ tl /\
    Forall (Forall line_char) ls /\ Forall line_char tl.
Proof.
  intros Ht. revert cur. induction Ht as [|c t Hc Ht IH]; intros cur Hcur; cbn [complete].
  - exists [], cur. split; [done|]. cbn. by rewrite app_nil_r.
  - destruct (Z.eqb_spec c NL) as [->|Hne].
    + destruct (IH [] ltac:(constructor)) as (ls & tl & -> & E & Hls & Htl). exists (cur :: ls), tl.
      split; [done|]. split; [|split; [by constructor | done]]. rewrite unlines_cons. unfold ended. rewrite <- !app_assoc. cbn [app] in *. by rewrite E.
    + destruct (IH (cur ++ [c])) as (ls & tl & -> & E & Hls & Htl).
      { apply Forall_app. split; [done|]. by apply Forall_singleton. }
      exists ls, tl. split; [done|]. split; [|done]. by rewrite <- E, <- app_assoc.
Qed.

Lemma strchr_loop_found n l c r :
  Forall (fun x => x <> 0 /\ x <> c) l -> c <> 0 -> strchr_loop n (l ++ c :: r) c = Ok (Some (n + zlen l)).
Proof.
  intros Hl Hc. revert n. induction Hl as [|x l [Hx0 Hxc] Hl IH]; intros n; cbn [app strchr_loop].
  - rewrite (proj2 (Z.eqb_neq c 0)), Z.eqb_refl by done. cbn. by rewrite Z.add_0_r.
  - rewrite (proj2 (Z.eqb_neq x 0)), (proj2 (Z.eqb_neq x c)) by done. rewrite IH. do 2 f_equal. llia.
Qed.

Lemma strchr_loop_none n l c r :
  Forall (fun x => x <> 0 /\ x <> c) l -> strchr_loop n (l ++ 0 :: r) c = Ok None.
Proof.
  intros Hl. revert n. induction Hl as [|x l [Hx0 Hxc] Hl IH]; intros n; cbn [app strchr_loop]; [done|].
  by rewrite (proj2 (Z.eqb_neq x 0)), (proj2 (Z.eqb_neq x c)) by done.
Qed.

Lemma line_no_nl l : Forall line_char l -> Forall (fun x => x <> 0 /\ x <> NL) l.
Proof. intros H. eapply Forall_impl; [exact H|]. unfold line_char, is_char. intros x. cbn. lia. Qed.

Lemma line_chars l : Forall line_char l -> Forall is_char l.
Proof. intros H. eapply Forall_impl; [exact H|]. by intros x []. Qed.

(** The loop over the lines of the buffer prints the selected ones. *)
Lemma grep_lines_spec fuel s rest ls pre tl buf2 out :
  Forall is_char s -> Forall (Forall line_char) ls -> Forall line_char tl -> (length ls < fuel)%nat ->
  grep_lines fuel (s ++ 0 :: rest) (pre ++ unlines ls ++ tl ++ 0 :: buf2) (zlen pre) out =
    Ok (out ++ unlines (filter (fun l => selected s l = true) ls), zlen pre + zlen (unlines ls)).
Proof.
  intros Hs Hls Htl. revert fuel pre out. induction Hls as [|l ls Hl Hls IH]; intros [|fuel] pre out Hf;
    [cbn in Hf; lia | | cbn in Hf; lia |]; cbn [grep_lines]; rewrite drop_app_len by done.
  - change (unlines []) with ([] : bytes). cbn [app]. unfold strchr. rewrite strchr_loop_none by by apply line_no_nl. cbn [rbind].
    rewrite filter_nil. cbn. by rewrite app_nil_r, Z.add_0_r.
  - rewrite unlines_cons, <- (app_assoc (ended l)).
    set (tail := unlines ls ++ tl ++ 0 :: buf2).
    replace (ended l ++ tail) with (l ++ NL :: tail) by (unfold ended; by rewrite <- app_assoc). unfold strchr. rewrite strchr_loop_found by (done || by apply line_no_nl). cbn [rbind].
    rewrite (app_assoc pre l (NL :: tail)), (put_middle (pre ++ l) tail NL 0 (zlen pre + (0 + zlen l))) by llia. cbn [rbind].
    rewrite <- app_assoc, drop_app_len by done. rewrite selected_ok by (done || by apply line_chars). cbn [rbind].
    replace (zlen pre + (0 + zlen l) + 1) with (zlen (pre ++ ended l)) by (unfold ended; llia).
    rewrite filter_cons. destruct (selected s l).
    + rewrite decide_True by done. rewrite app_assoc, (put_middle (pre ++ l) tail 0 NL) by llia. cbn [rbind].
      replace ((pre ++ l) ++ NL :: tail) with ((pre ++ ended l) ++ tail) by (unfold ended; by rewrite <- !app_assoc).
      replace (slice _ _ _) with (ended l).
      2:{ unfold slice. rewrite <- app_assoc, drop_app_len by done.
          symmetry. apply take_app_length'. unfold ended. llia. }
      unfold tail. rewrite IH by (cbn in Hf; lia). rewrite unlines_cons, <- app_assoc. f_equal. f_equal. llia.
    + rewrite decide_False by done.
      replace (pre ++ l ++ 0 :: tail) with ((pre ++ l ++ [0]) ++ tail) by (by rewrite <- !app_assoc).
      replace (zlen (pre ++ ended l)) with (zlen (pre ++ l ++ [0])) by (unfold ended; llia).
      cbn [rbind]. unfold tail. rewrite IH by (cbn in Hf; lia). f_equal. f_equal. unfold ended. llia.
Qed.

Lemma complete_lines t ls tl :
  Forall is_char t -> complete [] t = (ls, tl) ->
  t = unlines ls ++ tl /\ Forall (Forall line_char) ls /\ Forall line_char tl.
Proof.
  intros Ht E. destruct (complete_spec t [] Ht) as (ls' & tl' & E' & H); [constructor|].
  rewrite E in E'. by injection E' as <- <-.
Qed.

Lemma unlines_length ls : (length ls <= length (unlines ls))%nat.
Proof. induction ls as [|l ls IH]; [done|]. rewrite unlines_cons. unfold ended. rewrite !length_app. cbn. lia. Qed.

Lemma umemmove_ok m d s n :
  0 <= n -> 0 <= d -> d + n <= zlen m -> 0 <= s -> s + n <= zlen m ->
  ensures (umemmove m d s n) (fun m' => length m' = length m).
Proof.
  intros Hn Hd Hdn Hs Hsn. unfold umemmove.
  apply (for_up_inv (fun _ m' => length m' = length m)); [done | done|]. intros i m' Hi Hm.
  destruct (get_lt m' (s + i)) as (c & -> & _); [lia|]. cbn [rbind]. rewrite put_ok by lia. cbn. by rewrite length_insert.
Qed.

(** The first chunk in the empty buffer. *)
Lemma first_chunk text :
  zlen text < 1024 -> memmove (replicate 1024 0) 0 text 0 (zlen text) = Ok (text ++ 0 :: replicate (1023 - length text) 0).
Proof.
  intros Hlen.
  replace (replicate 1024 0) with ([] ++ replicate (length text) 0 ++ 0 :: replicate (1023 - length text) 0).
  2:{ cbn [app]. change (0 :: replicate (1023 - length text) 0) with (replicate (S (1023 - length text)) 0).
      rewrite <- replicate_add. f_equal. lia. }
  destruct (ensures_inv _ _ (memmove_copied ([] ++ replicate (length text) 0 ++ 0 :: replicate (1023 - length text) 0)
    0 text 0 (zlen text) ltac:(lia) ltac:(lia) ltac:(llia) ltac:(lia) ltac:(lia))) as (m & E & Hm).
  rewrite E. f_equal. replace (zlen text) with (zlen (replicate (length text) 0)) in Hm by llia.
  apply copied_app in Hm; [|lia | llia]. rewrite Hm. cbn [app]. f_equal. rewrite length_replicate. apply slice_all.
Qed.

(** grep prints the lines that match: when the input arrives in one piece
    that is smaller than the buffer, the output is the lines of the input that
    the pattern selects, in order, each with its newline. *)
Theorem grep_selects re s text ls tl :
  is_str re s -> Forall is_char text -> 0 < zlen text < BUFSIZE -> complete [] text = (ls, tl) ->
  grep re [text] (replicate 1024 0) 0 [] = Ok (unlines (filter (fun l => selected s l = true) ls)).
Proof.
  intros [Hs [rest ->]] Ht Hlen E. unfold BUFSIZE in Hlen.
  destruct (complete_lines text ls tl Ht E) as (Etext & Hls & Htl).
  cbn [grep]. rewrite (proj2 (Z.leb_gt _ _)) by lia.
  rewrite first_chunk by lia. cbn [rbind].
  assert (forall buf2, text ++ buf2 = [] ++ unlines ls ++ tl ++ buf2) as Eb by (intros; cbn; by rewrite Etext, <- app_assoc).
  rewrite Eb. rewrite (grep_lines_spec _ s rest ls [] tl _ []); [| done..|].
  2:{ pose proof (unlines_length ls). cbn [app]. rewrite length_app. lia. }
  cbn [rbind]. rewrite <- Eb. cbn [app length]. set (p := Z.of_nat 0 + zlen (unlines ls)).
  assert (zlen (unlines ls) <= zlen text) by (rewrite Etext; llia).
  destruct (Z.eqb_spec p 0); [done|]. destruct (0 <? 0 + zlen text); [|done].
  match goal with |- context [umemmove ?b 0 p ?n] =>
    destruct (ensures_inv _ _ (umemmove_ok b 0 p n ltac:(lia) ltac:(lia) ltac:(llia) ltac:(lia) ltac:(llia))) as (b' & -> & _)
  end. done.
Qed.

(** "b" in the text "ab\ncd\nb". *)
Lemma grep_selects_witness :
  grep [98; 0] [[97; 98; 10; 99; 100; 10; 98]] (replicate 1024 0) 0 [] = Ok [97; 98; 10].
Proof.
  apply (grep_selects [98; 0] [98] [97; 98; 10; 99; 100; 10; 98] [[97; 98]; [99; 100]] [98]).
  - apply (is_str_intro [98]). repeat constructor; lia.
  - repeat constructor; lia.
  - done.
  - reflexivity.
Defined.

(** The buffer is not ended after the bytes read: a second chunk is searched
    together with what the first one left behind it.  Here "aaa\nbb" is
    followed by "c"; the line "bbc" is printed before its newline arrived, and
    the stale "bb" after it is taken for the start of the next line. *)
Lemma grep_stale_line :
  grep [98; 0] [[97; 97; 97; 10; 98; 98]; [99]] (replicate 1024 0) 0 [] = Ok [98; 98; 99; 10].
Proof. vm_compute. reflexivity. Qed.
