(* ===== verification/Sh.v ===== *)
(** The parser of the shell: src/src/sh.c.

    The command line is one block of memory [b], ended by a NUL; a [char *] into
    it is an offset.  [panic] prints a message and exits, so it is a fault of
    the parser.  A command line is parsed by recursive descent; the calls are
    bounded by fuel, at most four levels of the grammar for each byte.

    [parseexec] fills in an [execcmd] while redirections are put around it: the
    pointer [ret] is the outermost one and [cmd] the innermost.  The model
    collects the arguments and the redirections and builds the tree at the end.
    [malloc] is taken to succeed: sh.c does not test its result, and where it fails
    [execcmd], [redircmd], [pipecmd], [listcmd] and [backcmd] pass the null pointer to
    [memset].  The theorems on the shell are about parsers with memory. *)
From S2P Require Import Prelude Ulib Sys.

Definition MAXARGS : Z := 10.

(** [struct cmd]: a string is the offset of its start and of its end. *)
Inductive cmd :=
  | EXEC (argv : list (Z * Z))
  | REDIR (c : cmd) (file efile mode fd : Z)
  | PIPE (left right : cmd)
  | LIST (left right : cmd)
  | BACK (c : cmd).

Definition whitespace : bytes := [32; 9; 13; 10; 11; 0].   (** " \t\r\n\v" *)
Definition symbols : bytes := [60; 124; 62; 38; 59; 40; 41; 0].   (** "<|>&;()" *)

(** [strchr(set, c) != 0] *)
Definition is_in (set : bytes) (c : Z) : result bool :=
  let! o := strchr set c in Ok (bool_decide (is_Some o)).

(** [while (s < es && P) s++] *)
Fixpoint skip (n : nat) (P : Z -> result bool) (b : bytes) (es s : Z) : result Z :=
  match n with
  | O => Ok s
  | S n' =>
      if s <? es then
        let! c := get b s in
        let! ok := P c in
        if ok : bool then skip n' P b es (s + 1) else Ok s
      else Ok s
  end.
Definition skip_while (P : Z -> result bool) (b : bytes) (es s : Z) : result Z :=
  skip (Z.to_nat (es - s)) P b es s.

Definition word_char (c : Z) : result bool :=
  let! w := is_in whitespace c in
  let! y := is_in symbols c in
  Ok (negb w && negb y).

(** The token: its code, its start and end, and the new position. *)
Definition gettoken (b : bytes) (es ps : Z) : result (Z * Z * Z * Z) :=
  let! s := skip_while (is_in whitespace) b es ps in
  let q := s in
  let! c := get b s in
  let! '(ret, s) :=
    if c =? 0 then Ok (c, s)
    else if (c =? 124) || (c =? 40) || (c =? 41) || (c =? 59) || (c =? 38) || (c =? 60) then Ok (c, s + 1)
    else if c =? 62 then
      let s := s + 1 in
      let! c2 := get b s in
      if c2 =? 62 then Ok (43, s + 1) else Ok (c, s)
    else
      let! s := skip_while word_char b es s in
      Ok (97, s) in
  let eq := s in
  let! s := skip_while (is_in whitespace) b es s in
  Ok (ret, q, eq, s).

Definition peek (b : bytes) (es ps : Z) (toks : bytes) : result (Z * bool) :=
  let! s := skip_while (is_in whitespace) b es ps in
  let! c := get b s in
  let! t := is_in toks c in
  Ok (s, negb (c =? 0) && t).

(** A redirection: file, its end, mode and descriptor. *)
Definition redir := (Z * Z * Z * Z)%type.

(** The redirections put around a command, the first one innermost. *)
Definition wrap (rs : list redir) (c : cmd) : cmd :=
  foldl (fun c '(f, ef, mode, fd) => REDIR c f ef mode fd) c rs.

(** The loop of [parseredirs]; a round consumes a byte. *)
Fixpoint redirs (n : nat) (b : bytes) (es ps : Z) (rs : list redir) : result (list redir * Z) :=
  match n with
  | O => Err OutOfFuel
  | S n' =>
      let! '(ps, more) := peek b es ps [60; 62; 0] in
      if more : bool then
        let! '(tok, _, _, ps) := gettoken b es ps in
        let! '(t, q, eq, ps) := gettoken b es ps in
        if negb (t =? 97) then Err Panic
        else
          let rs :=
            if tok =? 60 then rs ++ [(q, eq, O_RDONLY, 0)]
            else if tok =? 62 then rs ++ [(q, eq, Z.lor O_WRONLY O_CREATE, 1)]
            else if tok =? 43 then rs ++ [(q, eq, Z.lor O_WRONLY O_CREATE, 1)]
            else rs in
          redirs n' b es ps rs
      else Ok (rs, ps)
  end.

Definition parseredirs (b : bytes) (es ps : Z) : result (list redir * Z) :=
  redirs (S (length b)) b es ps [].

(** The loop of [parseexec]. *)
Fixpoint exec_args (n : nat) (b : bytes) (es ps : Z) (argv : list (Z * Z)) (rs : list redir)
  : result (list (Z * Z) * list redir * Z) :=
  match n with
  | O => Err OutOfFuel
  | S n' =>
      let! '(ps, stop) := peek b es ps [124; 41; 38; 59; 0] in
      if stop : bool then Ok (argv, rs, ps)
      else
        let! '(tok, q, eq, ps) := gettoken b es ps in
        if tok =? 0 then Ok (argv, rs, ps)
        else if negb (tok =? 97) then Err Panic
        else
          let argv := argv ++ [(q, eq)] in
          if MAXARGS <=? zlen argv then Err Panic
          else
            let! '(more, ps) := parseredirs b es ps in
            exec_args n' b es ps argv (rs ++ more)
  end.

(** [while (peek(ps, es, "&")) ...] of [parseline]. *)
Fixpoint backs (n : nat) (b : bytes) (es ps : Z) (c : cmd) : result (cmd * Z) :=
  match n with
  | O => Err OutOfFuel
  | S n' =>
      let! '(ps, more) := peek b es ps [38; 0] in
      if more : bool then
        let! '(_, _, _, ps) := gettoken b es ps in
        backs n' b es ps (BACK c)
      else Ok (c, ps)
  end.

Fixpoint parseline (fuel : nat) (b : bytes) (es ps : Z) : result (cmd * Z) :=
  match fuel with
  | O => Err OutOfFuel
  | S fuel' =>
      let! '(c, ps) := parsepipe fuel' b es ps in
      let! '(c, ps) := backs (S (length b)) b es ps c in
      let! '(ps, more) := peek b es ps [59; 0] in
      if more : bool then
        let! '(_, _, _, ps) := gettoken b es ps in
        let! '(r, ps) := parseline fuel' b es ps in
        Ok (LIST c r, ps)
      else Ok (c, ps)
  end
with parsepipe (fuel : nat) (b : bytes) (es ps : Z) : result (cmd * Z) :=
  match fuel with
  | O => Err OutOfFuel
  | S fuel' =>
      let! '(c, ps) := parseexec fuel' b es ps in
      let! '(ps, more) := peek b es ps [124; 0] in
      if more : bool then
        let! '(_, _, _, ps) := gettoken b es ps in
        let! '(r, ps) := parsepipe fuel' b es ps in
        Ok (PIPE c r, ps)
      else Ok (c, ps)
  end
with parseexec (fuel : nat) (b : bytes) (es ps : Z) : result (cmd * Z) :=
  match fuel with
  | O => Err OutOfFuel
  | S fuel' =>
      let! '(ps, block) := peek b es ps [40; 0] in
      if block : bool then parseblock fuel' b es ps
      else
        let! '(rs, ps) := parseredirs b es ps in
        let! '(argv, rs, ps) := exec_args (S (length b)) b es ps [] rs in
        Ok (wrap rs (EXEC argv), ps)
  end
with parseblock (fuel : nat) (b : bytes) (es ps : Z) : result (cmd * Z) :=
  match fuel with
  | O => Err OutOfFuel
  | S fuel' =>
      let! '(ps, block) := peek b es ps [40; 0] in
      if negb block then Err Panic
      else
        let! '(_, _, _, ps) := gettoken b es ps in
        let! '(c, ps) := parseline fuel' b es ps in
        let! '(ps, closed) := peek b es ps [41; 0] in
        if negb closed then Err Panic
        else
          let! '(_, _, _, ps) := gettoken b es ps in
          let! '(rs, ps) := parseredirs b es ps in
          Ok (wrap rs c, ps)
  end.

(** [*eq = 0] for each argument. *)
Fixpoint end_args (argv : list (Z * Z)) (b : bytes) : result bytes :=
  match argv with
  | [] => Ok b
  | (_, eq) :: argv' => let! b := put b eq 0 in end_args argv' b
  end.

Fixpoint nulterminate (c : cmd) (b : bytes) : result bytes :=
  match c with
  | EXEC argv => end_args argv b
  | REDIR c _ efile _ _ => let! b := nulterminate c b in put b efile 0
  | PIPE l r | LIST l r => let! b := nulterminate l b in nulterminate r b
  | BACK c => nulterminate c b
  end.

Definition parsecmd (b : bytes) : result (cmd * bytes) :=
  let! es := strlen b in
  let! '(c, s) := parseline (Z.to_nat (4 * es + 4)) b es 0 in
  let! '(s, _) := peek b es s [0] in
  if negb (s =? es) then Err Panic
  else
    let! b := nulterminate c b in
    Ok (c, b).
