(* ===== verification/ShProps.v ===== *)
(** The parser of the shell: it returns on every line, its strings are the words
    of the line, and it reads back what the grammar of its commands prints. *)
From stdpp Require Import sets.
From S2P Require Import Prelude Ulib Sys TextLemmas Sh.
Open Scope Z_scope.

(** * Results that may panic *)

(** [r] returns a value with [Q], or panics; it meets no other fault. *)
Definition fine {A} (r : result A) (Q : A -> Prop) : Prop :=
  match r with Ok a => Q a | Err Panic => True | Err _ => False end.

Lemma fine_bind {A B} (r : result A) (k : A -> result B) P Q :
  fine r P -> (forall a, P a -> fine (k a) Q) -> fine (rbind r k) Q.
Proof. destruct r as [a|[]]; cbn; auto. Qed.

Lemma fine_mono {A} (r : result A) (P Q : A -> Prop) : fine r P -> (forall a, P a -> Q a) -> fine r Q.
Proof. destruct r as [a|[]]; cbn; auto. Qed.

(** * Characters *)

Definition ws (c : Z) : bool := bool_decide (c ∈ [32; 9; 13; 10; 11]).
Definition sym (c : Z) : bool := bool_decide (c ∈ [60; 124; 62; 38; 59; 40; 41]).
Definition word (c : Z) : bool := negb (c =? 0) && negb (ws c) && negb (sym c).

Lemma strchr_loop_spec l c n :
  Forall (fun x => x <> 0) l ->
  exists o, strchr_loop n (l ++ [0]) c = Ok o /\ (is_Some o <-> c ∈ l).
Proof.
  intros Hl. revert n. induction Hl as [|x l Hx Hl IH]; intros n; cbn [app strchr_loop].
  - exists None. split; [done|]. split; [by intros [] | by intros ?%not_elem_of_nil].
  - rewrite (proj2 (Z.eqb_neq x 0)) by done. destruct (Z.eqb_spec x c) as [->|Hne].
    + exists (Some n). split; [done|]. split; [intros; apply list_elem_of_here | done].
    + destruct (IH (n + 1)) as (o & -> & H). exists o. split; [done|]. rewrite H, elem_of_cons. intuition congruence.
Qed.

Lemma is_in_spec l c : Forall (fun x => x <> 0) l -> is_in (l ++ [0]) c = Ok (bool_decide (c ∈ l)).
Proof.
  intros Hl. unfold is_in, strchr. destruct (strchr_loop_spec l c 0 Hl) as (o & -> & H). cbn [rbind].
  f_equal. by apply bool_decide_ext.
Qed.

Lemma is_ws c : is_in whitespace c = Ok (ws c).
Proof. apply (is_in_spec [32; 9; 13; 10; 11]). repeat constructor; lia. Qed.
Lemma is_sym c : is_in symbols c = Ok (sym c).
Proof. apply (is_in_spec [60; 124; 62; 38; 59; 40; 41]). repeat constructor; lia. Qed.
Lemma word_char_spec c : word_char c = Ok (negb (ws c) && negb (sym c)).
Proof. unfold word_char. by rewrite is_ws, is_sym. Qed.

Lemma word_no_ws c : word c = true -> ws c = false /\ sym c = false /\ c <> 0.
Proof.
  unfold word. rewrite !andb_true_iff, !negb_true_iff. intros [[H1 H2] H3]. apply Z.eqb_neq in H1. done.
Qed.

Lemma lookup_cons_S {A} (x : A) l j : (x :: l) !! S j = l !! j.
Proof. done. Qed.

(** The strings of a command, in the order of the tree. *)
Fixpoint strings (c : cmd) : list (Z * Z) :=
  match c with
  | EXEC argv => argv
  | REDIR c f ef _ _ => strings c ++ [(f, ef)]
  | PIPE l r | LIST l r => strings l ++ strings r
  | BACK c => strings c
  end.

(** * Ending the strings *)

(** [b'] is [b0] with NULs at the offsets [l]. *)
Definition ended_at (l : list Z) (b0 b' : bytes) : Prop :=
  length b' = length b0 /\
  forall i, 0 <= i -> b' !! Z.to_nat i = if bool_decide (i ∈ l) then (if i <? zlen b0 then Some 0 else None) else b0 !! Z.to_nat i.

Lemma ended_nil b0 : ended_at [] b0 b0.
Proof. split; [done|]. intros i _. by rewrite bool_decide_eq_false_2 by apply not_elem_of_nil. Qed.

Lemma ended_app l1 l2 b0 b1 b2 : ended_at l1 b0 b1 -> ended_at l2 b1 b2 -> ended_at (l1 ++ l2) b0 b2.
Proof.
  intros [E1 H1] [E2 H2]. split; [congruence|]. intros i Hi. rewrite H2, H1 by done. rewrite E1.
  repeat case_bool_decide; set_solver.
Qed.

Lemma put_ended b0 e : 0 <= e < zlen b0 -> exists b', put b0 e 0 = Ok b' /\ ended_at [e] b0 b'.
Proof.
  intros He. rewrite put_ok by done. eexists. split; [done|]. split; [by rewrite length_insert|]. intros i Hi.
  destruct (bool_decide_reflect (i ∈ [e])) as [->%list_elem_of_singleton|Hn].
  - rewrite (proj2 (Z.ltb_lt _ _)) by lia. apply list_lookup_insert_eq. lia.
  - apply list_lookup_insert_ne. intros E. apply Hn. assert (i = e) as -> by lia. apply list_elem_of_here.
Qed.

Lemma nulterminate_spec c b0 :
  Forall (fun a => 0 <= snd a < zlen b0) (strings c) ->
  exists b', nulterminate c b0 = Ok b' /\ ended_at (snd <$> strings c) b0 b'.
Proof.
  revert b0. induction c as [argv|c IH f ef m fd|l IHl r IHr|l IHl r IHr|c IH]; intros b0 H; cbn [nulterminate strings] in *.
  - revert b0 H. induction argv as [|[q e] argv IH]; intros b0 H; cbn [end_args]; [exists b0; split; [done | apply ended_nil]|].
    apply Forall_cons in H as [He H]. destruct (put_ended b0 e He) as (b1 & -> & Hb1). cbn [rbind].
    destruct (IH b1) as (b2 & -> & Hb2); [by rewrite (proj1 Hb1)|]. exists b2. split; [done|]. apply (ended_app [e]) with b1; done.
  - rewrite Forall_app, Forall_singleton in H. destruct H as [H He]. destruct (IH b0 H) as (b1 & -> & Hb1). cbn [rbind].
    destruct (put_ended b1 ef) as (b2 & -> & Hb2); [by rewrite (proj1 Hb1)|]. exists b2. split; [done|].
    rewrite fmap_app. by eapply ended_app.
  - rewrite Forall_app in H. destruct H as [H1 H2]. destruct (IHl b0 H1) as (b1 & -> & Hb1). cbn [rbind].
    destruct (IHr b1) as (b2 & -> & Hb2); [by rewrite (proj1 Hb1)|]. exists b2. split; [done|]. rewrite fmap_app. by eapply ended_app.
  - rewrite Forall_app in H. destruct H as [H1 H2]. destruct (IHl b0 H1) as (b1 & -> & Hb1). cbn [rbind].
    destruct (IHr b1) as (b2 & -> & Hb2); [by rewrite (proj1 Hb1)|]. exists b2. split; [done|]. rewrite fmap_app. by eapply ended_app.
  - by apply IH.
Qed.

Section Line.
Context (b s rest : bytes) (Hb : b = s ++ 0 :: rest) (Hs : Forall is_char s).
Abbreviation es := (zlen s).

(** The character at an offset; the line ends at its first NUL. *)
Definition ch (i : Z) : Z := nth (Z.to_nat i) b 0.

Lemma get_ch i : 0 <= i <= es -> get b i = Ok (ch i).
Proof.
  intros Hi. destruct (get_lt b i) as (c & -> & Hc); [subst b; llia|].
  unfold ch. f_equal. symmetry. by apply nth_lookup_Some.
Qed.

Lemma ch_end : ch es = 0.
Proof. unfold ch. rewrite Hb, Nat2Z.id, app_nth2, Nat.sub_diag by lia. done. Qed.

Lemma ch_char i : 0 <= i < es -> is_char (ch i).
Proof.
  intros Hi. unfold ch. rewrite Hb, app_nth1 by lia. rewrite Forall_nth in Hs. apply Hs. lia.
Qed.

Lemma ch_zero i : 0 <= i <= es -> ch i = 0 -> i = es.
Proof.
  intros Hi E. destruct (Z.eq_dec i es); [done|]. pose proof (ch_char i ltac:(lia)) as H. unfold is_char in H. lia.
Qed.

(** * Scanning *)

Lemma skip_spec (p : Z -> bool) P n i :
  (forall c, P c = Ok (p c)) -> 0 <= i <= es -> n = Z.to_nat (es - i) ->
  exists j, skip n P b es i = Ok j /\ i <= j <= es /\ (forall m, i <= m < j -> p (ch m) = true) /\
    (j = es \/ p (ch j) = false).
Proof.
  intros HP. revert i. induction n as [|n IH]; intros i Hi Hn; cbn [skip].
  - exists i. assert (i = es) by lia. split; [done|]. split; [lia|]. split; [lia | by left].
  - rewrite (proj2 (Z.ltb_lt i es)) by lia. rewrite get_ch by lia. cbn [rbind]. rewrite HP. cbn [rbind].
    destruct (p (ch i)) eqn:E; [|exists i; split; [done|]; split; [lia|]; split; [lia | by right]].
    destruct (IH (i + 1)) as (j & -> & Hj & Hm & He); [lia | lia|]. exists j. split; [done|]. split; [lia|].
    split; [|done]. intros m Hm'. destruct (Z.eq_dec m i) as [->|]; [done | apply Hm; lia].
Qed.

Lemma skip_ws i :
  0 <= i <= es ->
  exists j, skip_while (is_in whitespace) b es i = Ok j /\ i <= j <= es /\
    (forall m, i <= m < j -> ws (ch m) = true) /\ ws (ch j) = false.
Proof.
  intros Hi. destruct (skip_spec ws _ _ i is_ws Hi eq_refl) as (j & E & Hj & Hm & He). exists j. split; [done|].
  split; [done|]. split; [done|]. destruct He as [->|He]; [by rewrite ch_end | done].
Qed.

(** A word of the line, from [q] to [e]. *)
Definition token (q e : Z) : Prop :=
  0 <= q < e /\ e <= es /\ (forall i, q <= i < e -> word (ch i) = true) /\ word (ch e) = false.

Lemma gettoken_spec ps :
  0 <= ps <= es ->
  exists ret q e ps', gettoken b es ps = Ok (ret, q, e, ps') /\ ps <= q /\ q <= e <= ps' /\ ps' <= es /\
    (ret = 97 -> token q e) /\ (ret <> 0 -> q < e) /\ (ps < es -> ws (ch ps) = false -> ret <> 0).
Proof.
  intros Hps. unfold gettoken. destruct (skip_ws ps Hps) as (q & -> & Hq & Hqm & Hqw). cbn [rbind].
  rewrite get_ch by lia. cbn [rbind].
  set (tok := if ch q =? 0 then _ else _).
  assert (exists ret e, tok = Ok (ret, e) /\ q <= e <= es /\ (ret = 97 -> token q e) /\ (ret <> 0 -> q < e) /\
            (ret = 0 -> ch q = 0)) as (ret & e & Et & He & Htok & Hlt & Hz).
  { unfold tok. destruct (Z.eqb_spec (ch q) 0) as [E0|Hne].
    { exists (ch q), q. rewrite E0. split; [done|]. split; [lia|]. split; [done | split; [done | done]]. }
    assert (q < es) by (destruct (Z.eq_dec q es) as [->|]; [by rewrite ch_end in Hne | lia]).
    destruct (_ || _) eqn:Es.
    { exists (ch q), (q + 1). split; [done|]. split; [lia|].
      rewrite !orb_true_iff, !Z.eqb_eq in Es. split; [lia | split; [lia | done]]. }
    destruct (Z.eqb_spec (ch q) 62) as [E62|Hn62].
    { rewrite get_ch by lia. cbn [rbind]. destruct (Z.eqb_spec (ch (q + 1)) 62) as [E2|].
      - assert (q + 1 < es) by (destruct (Z.eq_dec (q + 1) es) as [E'|]; [by rewrite E', ch_end in E2 | lia]).
        exists 43, (q + 1 + 1). split; [done|]. split; [lia|]. split; [done | split; [lia | done]].
      - exists (ch q), (q + 1). split; [done|]. split; [lia|]. split; [lia | split; [lia | done]]. }
    destruct (skip_spec (fun c => negb (ws c) && negb (sym c)) _ _ q word_char_spec ltac:(lia) eq_refl)
      as (e & E & He & Hm & Hend). unfold skip_while. rewrite E. cbn [rbind]. exists 97, e.
    assert (sym (ch q) = false) as Hsq.
    { apply bool_decide_eq_false_2. rewrite !orb_false_iff, !Z.eqb_neq in Es. rewrite !elem_of_cons, elem_of_nil. lia. }
    assert (q < e) as Hqe.
    { destruct (Z.eq_dec q e) as [->|]; [|lia]. destruct Hend as [->|Hend]; [lia|]. by rewrite Hqw, Hsq in Hend. }
    split; [done|]. split; [lia|]. split; [|done]. intros _. split; [lia|]. split; [lia|]. split.
    - intros i Hi. unfold word. rewrite <- andb_assoc, Hm by lia.
      pose proof (ch_char i ltac:(lia)) as Hc. unfold is_char in Hc. by rewrite (proj2 (Z.eqb_neq _ _)) by lia.
    - unfold word. destruct Hend as [->|Hend]; [by rewrite ch_end|]. by rewrite <- andb_assoc, Hend, andb_false_r. }
  rewrite Et. cbn [rbind]. destruct (skip_ws e ltac:(lia)) as (ps' & -> & Hps' & _). cbn [rbind].
  exists ret, q, e, ps'. split; [done|]. split; [lia|]. split; [lia|]. split; [lia|]. split; [done|]. split; [done|].
  intros Hlt' Hw Hr. apply Hz in Hr. assert (ps = q).
  { destruct (Z.eq_dec ps q); [done|]. rewrite Hqm in Hw by lia. done. }
  subst q. apply ch_zero in Hr; lia.
Qed.

Lemma peek_spec ps l :
  0 <= ps <= es -> Forall (fun x => x <> 0) l ->
  exists ps' t, peek b es ps (l ++ [0]) = Ok (ps', t) /\ ps <= ps' <= es /\ ws (ch ps') = false /\
    t = (negb (ch ps' =? 0) && bool_decide (ch ps' ∈ l)) /\ (t = true -> ps' < es).
Proof.
  intros Hps Hl. unfold peek. destruct (skip_ws ps Hps) as (q & -> & Hq & _ & Hw). cbn [rbind].
  rewrite get_ch by lia. cbn [rbind]. rewrite is_in_spec by done. cbn [rbind].
  eexists q, _. split; [done|]. split; [done|]. split; [done|]. split; [done|].
  destruct (Z.eqb_spec (ch q) 0) as [|Hne]; [done|]. intros _.
  destruct (Z.eq_dec q es) as [->|]; [by rewrite ch_end in Hne | lia].
Qed.

(** A token that was looked at is consumed. *)
Lemma gettoken_consumes ps :
  0 <= ps < es -> ws (ch ps) = false ->
  exists ret q e ps', gettoken b es ps = Ok (ret, q, e, ps') /\ ps < ps' <= es /\ (ret = 97 -> token q e).
Proof.
  intros Hps Hw. destruct (gettoken_spec ps) as (ret & q & e & ps' & E & H1 & H2 & H3 & H4 & H5 & H6); [lia|].
  exists ret, q, e, ps'. split; [done|]. split; [|done]. pose proof (H5 (H6 ltac:(lia) Hw)). lia.
Qed.

(** * The parser returns *)

Definition redir_ok (r : redir) : Prop := let '(f, ef, _, _) := r in token f ef.
Definition arg_ok (a : Z * Z) : Prop := token (fst a) (snd a).

(** The result of a parsing function that started at [ps]. *)
Definition parsed (ps : Z) (r : cmd * Z) : Prop := ps <= snd r <= es /\ Forall arg_ok (strings (fst r)).

Lemma wrap_ok rs c : Forall redir_ok rs -> Forall arg_ok (strings c) -> Forall arg_ok (strings (wrap rs c)).
Proof.
  intros Hrs. revert c. induction Hrs as [|[[[f ef] m] fd] rs Hr Hrs IH]; intros c Hc; [done|]. cbn. apply IH. cbn.
  apply Forall_app. split; [done|]. by apply Forall_singleton.
Qed.

Lemma redirs_fine n ps rs :
  0 <= ps <= es -> (Z.to_nat (es - ps) < n)%nat -> Forall redir_ok rs ->
  fine (redirs n b es ps rs) (fun '(rs', ps') => ps <= ps' <= es /\ Forall redir_ok rs').
Proof.
  revert ps rs. induction n as [|n IH]; intros ps rs Hps Hn Hrs; [lia|]. cbn [redirs].
  destruct (peek_spec ps [60; 62]) as (p1 & t & E & Hp1 & Hw & _ & Ht); [done | repeat constructor; lia|].
  cbn [app] in E. rewrite E. cbn [rbind]. destruct t; [|cbn; split; [lia | done]].
  specialize (Ht eq_refl). destruct (gettoken_consumes p1) as (tok & q1 & e1 & p2 & -> & Hp2 & _); [lia | done|]. cbn [rbind].
  destruct (gettoken_spec p2) as (ret & q & e & p3 & -> & H1 & H2 & H3 & Htok & _); [lia|]. cbn [rbind].
  destruct (Z.eqb_spec ret 97) as [->|]; [|done]. cbn [negb].
  eapply fine_mono; [apply IH|].
  - lia.
  - lia.
  - repeat case_match; try done; apply Forall_app; (split; [done|]); apply Forall_singleton; by apply Htok.
  - intros [rs' ps'] [Hr1 Hr2]. split; [lia | done].
Qed.

Lemma parseredirs_fine ps :
  0 <= ps <= es -> fine (parseredirs b es ps) (fun '(rs', ps') => ps <= ps' <= es /\ Forall redir_ok rs').
Proof. intros Hps. apply redirs_fine; [done | rewrite Hb; llia | constructor]. Qed.

Lemma exec_args_fine n ps argv rs :
  0 <= ps <= es -> (Z.to_nat (es - ps) < n)%nat -> Forall arg_ok argv -> Forall redir_ok rs ->
  fine (exec_args n b es ps argv rs)
    (fun '(argv', rs', ps') => ps <= ps' <= es /\ Forall arg_ok argv' /\ Forall redir_ok rs').
Proof.
  revert ps argv rs. induction n as [|n IH]; intros ps argv rs Hps Hn Ha Hrs; [lia|]. cbn [exec_args].
  destruct (peek_spec ps [124; 41; 38; 59]) as (p1 & t & E & Hp1 & Hw & _ & _); [done | repeat constructor; lia|].
  cbn [app] in E. rewrite E. cbn [rbind]. destruct t; [cbn; split; [lia | done]|].
  destruct (gettoken_spec p1) as (ret & q & e & p2 & -> & H1 & H2 & H3 & Htok & Hlt & _); [lia|]. cbn [rbind].
  destruct (Z.eqb_spec ret 0); [cbn; split; [lia | done]|]. destruct (Z.eqb_spec ret 97) as [->|]; [|done]. cbn [negb].
  destruct (MAXARGS <=? _); [done|]. pose proof (Hlt ltac:(done)).
  eapply fine_bind; [apply parseredirs_fine; lia|]. intros [more p3] [Hp3 Hmore].
  eapply fine_mono; [apply IH|].
  - lia.
  - lia.
  - apply Forall_app. split; [done|]. apply Forall_singleton. by apply Htok.
  - by apply Forall_app.
  - intros [[argv' rs'] ps'] (Hr1 & Hr2). split; [lia | done].
Qed.

Lemma backs_fine n ps c :
  0 <= ps <= es -> (Z.to_nat (es - ps) < n)%nat -> Forall arg_ok (strings c) -> fine (backs n b es ps c) (parsed ps).
Proof.
  revert ps c. induction n as [|n IH]; intros ps c Hps Hn Hc; [lia|]. cbn [backs].
  destruct (peek_spec ps [38]) as (p1 & t & E & Hp1 & Hw & _ & Ht); [done | repeat constructor; lia|].
  cbn [app] in E. rewrite E. cbn [rbind]. destruct t; [|cbn; split; [cbn; lia | done]].
  specialize (Ht eq_refl). destruct (gettoken_consumes p1) as (tok & q1 & e1 & p2 & -> & Hp2 & _); [lia | done|]. cbn [rbind].
  eapply fine_mono; [by apply IH; [lia | lia |]|]. intros [c' ps'] [H1 H2]. split; [cbn in *; lia | done].
Qed.

(** An optional continuation: after the symbol [x] the rest is parsed by [k]. *)
Lemma then_fine x (node : cmd -> cmd -> cmd) (k : Z -> result (cmd * Z)) ps c :
  x <> 0 -> 0 <= ps <= es -> Forall arg_ok (strings c) ->
  (forall l r, strings (node l r) = strings l ++ strings r) ->
  (forall p, ps < p <= es -> fine (k p) (parsed p)) ->
  fine (let! '(p, more) := peek b es ps [x; 0] in
        if more : bool then
          let! '(_, _, _, p) := gettoken b es p in
          let! '(r, p) := k p in Ok (node c r, p)
        else Ok (c, p)) (parsed ps).
Proof.
  intros Hx Hps Hc Hnode Hk.
  destruct (peek_spec ps [x]) as (p1 & t & E & Hp1 & Hw & _ & Ht); [done | by repeat constructor|].
  cbn [app] in E. rewrite E. cbn [rbind]. destruct t; [|cbn; split; [cbn; lia | done]].
  specialize (Ht eq_refl). destruct (gettoken_consumes p1) as (tok & q1 & e1 & p2 & -> & Hp2 & _); [lia | done|]. cbn [rbind].
  eapply fine_bind; [apply Hk; lia|]. intros [r p3] [H1 H2]. split; [cbn in *; lia|]. cbn. rewrite Hnode. by apply Forall_app.
Qed.

Lemma parse_fine fuel :
  (forall ps, 0 <= ps <= es -> 4 * (es - ps) + 4 <= Z.of_nat fuel -> fine (parseline fuel b es ps) (parsed ps)) /\
  (forall ps, 0 <= ps <= es -> 4 * (es - ps) + 3 <= Z.of_nat fuel -> fine (parsepipe fuel b es ps) (parsed ps)) /\
  (forall ps, 0 <= ps <= es -> 4 * (es - ps) + 2 <= Z.of_nat fuel -> fine (parseexec fuel b es ps) (parsed ps)) /\
  (forall ps, 0 <= ps <= es -> 4 * (es - ps) + 1 <= Z.of_nat fuel -> fine (parseblock fuel b es ps) (parsed ps)).
Proof.
  induction fuel as [|fuel (IHl & IHp & IHe & IHb)]; [repeat split; intros; lia|].
  assert (forall n, (n <= length s)%nat -> (n < S (length b))%nat) as Hlen by (intros; rewrite Hb; llia).
  split; [|split; [|split]]; intros ps Hps Hf; cbn [parseline parsepipe parseexec parseblock].
  - eapply fine_bind; [apply IHp; lia|]. intros [c p1] [H1 H2]. cbn in H1, H2.
    eapply fine_bind; [apply (backs_fine _ p1 c); [lia | apply Hlen; lia | done]|]. intros [c2 p2] [H3 H4]. cbn in H3, H4.
    eapply fine_mono; [apply (then_fine 59 LIST (parseline fuel b es)); [done | lia | done | done|]|].
    + intros p Hp. apply IHl; lia.
    + intros [c' p'] [H5 H6]. split; [cbn in *; lia | done].
  - eapply fine_bind; [apply IHe; lia|]. intros [c p1] [H1 H2]. cbn in H1, H2.
    eapply fine_mono; [apply (then_fine 124 PIPE (parsepipe fuel b es)); [done | lia | done | done|]|].
    + intros p Hp. apply IHp; lia.
    + intros [c' p'] [H5 H6]. split; [cbn in *; lia | done].
  - destruct (peek_spec ps [40]) as (p1 & t & E & Hp1 & Hw & _ & Ht); [done | repeat constructor; lia|].
    cbn [app] in E. rewrite E. cbn [rbind]. destruct t.
    { eapply fine_mono; [apply IHb; [lia|]|]; [lia|]. intros [c' p'] [H5 H6]. split; [cbn in *; lia | done]. }
    eapply fine_bind; [apply parseredirs_fine; lia|]. intros [rs p2] [Hp2 Hrs].
    eapply fine_bind; [apply (exec_args_fine _ p2 [] rs); [lia | apply Hlen; lia | constructor | done]|].
    intros [[argv rs'] p3] (Hp3 & Ha & Hrs'). split; [cbn; lia|]. by apply wrap_ok.
  - destruct (peek_spec ps [40]) as (p1 & t & E & Hp1 & Hw & _ & Ht); [done | repeat constructor; lia|].
    cbn [app] in E. rewrite E. cbn [rbind]. destruct t; [|done]. cbn [negb].
    destruct (gettoken_consumes p1) as (tok & q1 & e1 & p2 & -> & Hp2 & _); [specialize (Ht eq_refl); lia | done|]. cbn [rbind].
    eapply fine_bind; [apply IHl; lia|]. intros [c p3] [H1 H2]. cbn in H1, H2.
    destruct (peek_spec p3 [41]) as (p4 & t & E' & Hp4 & Hw' & _ & Ht'); [lia | repeat constructor; lia|].
    cbn [app] in E'. rewrite E'. cbn [rbind]. destruct t; [|done]. cbn [negb].
    destruct (gettoken_consumes p4) as (tok' & q2 & e2 & p5 & -> & Hp5 & _); [specialize (Ht' eq_refl); lia | done|]. cbn [rbind].
    eapply fine_bind; [apply parseredirs_fine; lia|]. intros [rs p6] [Hp6 Hrs]. split; [cbn; lia|]. by apply wrap_ok.
Qed.

(** After [nulterminate] each string of a parsed command is a C string: the word
    of the line it points to. *)
Lemma string_ended l b' q e :
  (forall x, x ∈ l -> 0 <= x <= es /\ word (ch x) = false) -> e ∈ l -> token q e -> ended_at l b b' ->
  is_str (drop (Z.to_nat q) b') (slice s q (e - q)).
Proof.
  intros Hl He (Hq & Hes & Hw & _) [Hlen Hb'].
  assert (Hsl : forall i, q <= i < e -> b' !! Z.to_nat i = s !! Z.to_nat i).
  { intros i Hi. rewrite Hb' by lia. rewrite bool_decide_eq_false_2.
    - rewrite Hb. apply lookup_app_l. lia.
    - intros Hin. apply Hl in Hin as [_ Hf]. rewrite Hw in Hf by lia. done. }
  split; [by apply Forall_slice|]. exists (drop (S (Z.to_nat e)) b').
  apply list_eq. intros i. rewrite lookup_drop.
  pose proof (slice_len s q (e - q) ltac:(lia) ltac:(lia) ltac:(lia)) as Hsl_len.
  destruct (Z.lt_trichotomy (Z.of_nat i) (e - q)) as [Hi|[Hi|Hi]].
  - rewrite lookup_app_l by lia. rewrite <- (Nat2Z.id i) at 2. rewrite slice_lookup by lia.
    replace (Z.to_nat q + i)%nat with (Z.to_nat (q + Z.of_nat i)) by lia. apply Hsl. lia.
  - rewrite lookup_app_r by lia. replace (i - _)%nat with 0%nat by lia. cbn [lookup list_lookup].
    replace (Z.to_nat q + i)%nat with (Z.to_nat e) by lia. rewrite Hb' by lia.
    rewrite bool_decide_eq_true_2 by done. rewrite (proj2 (Z.ltb_lt _ _)); [done|]. rewrite Hb. llia.
  - rewrite lookup_app_r by lia. destruct (i - _)%nat as [|j] eqn:Ej; [lia|].
    rewrite lookup_cons_S, lookup_drop. f_equal. lia.
Qed.
End Line.

Lemma parsecmd_strings b s :
  is_str b s ->
  parsecmd b = Err Panic \/
  exists c b', parsecmd b = Ok (c, b') /\
    Forall (fun '(q, e) => 0 <= q < e /\ e <= zlen s /\ Forall (fun x => word x = true) (slice s q (e - q)) /\
              is_str (drop (Z.to_nat q) b') (slice s q (e - q))) (strings c).
Proof.
  intros Hstr. pose proof Hstr as [Hs [rest Hb]]. unfold parsecmd. rewrite (strlen_str _ _ Hstr). cbn [rbind].
  pose proof (proj1 (parse_fine b s rest Hb Hs (Z.to_nat (4 * zlen s + 4))) 0 ltac:(lia) ltac:(lia)) as Hp.
  destruct (parseline _ b (zlen s) 0) as [[c ps]|[]]; cbn [fine] in Hp; try done; [|by left]. cbn [rbind].
  destruct Hp as [Hps Hc]. cbn in Hps, Hc.
  destruct (peek_spec b s rest Hb ps []) as (p1 & t & E & Hp1 & _); [lia | constructor|]. cbn [app] in E. rewrite E. cbn [rbind].
  destruct (Z.eqb_spec p1 (zlen s)) as [_|]; [|by left]. cbn [negb].
  assert (Hr : Forall (fun a => 0 <= snd a < zlen b) (strings c)).
  { eapply Forall_impl; [exact Hc|]. intros [q e] (H1 & H2 & _). cbn in *. rewrite Hb. llia. }
  destruct (nulterminate_spec c b Hr) as (b' & -> & Hb'). cbn [rbind]. right. exists c, b'. split; [done|].
  rewrite Forall_forall in Hc |- *. intros [q e] Hin. pose proof (Hc _ Hin) as Ht. pose proof Ht as (H1 & H2 & Hw & _).
  split; [done|]. split; [done|]. split.
  - apply Forall_lookup. intros i x Hx. cbn [fst snd] in *.
    pose proof (lookup_lt_Some _ _ _ Hx). pose proof (slice_len s q (e - q) ltac:(lia) ltac:(lia) ltac:(lia)).
    rewrite <- (Nat2Z.id i), slice_lookup in Hx by lia.
    rewrite <- (Hw (q + Z.of_nat i)) by lia. f_equal. unfold ch. symmetry. apply nth_lookup_Some.
    rewrite Hb. rewrite lookup_app_l; [done | lia].
  - eapply string_ended; [done | done | | | exact Ht | exact Hb'].
    + intros x [[q' e'] [-> Hin']]%list_elem_of_fmap. pose proof (Hc _ Hin') as (G1 & G2 & _ & G3). cbn in *. split; [lia | done].
    + apply list_elem_of_fmap. by exists (q, e).
Qed.

(** The shell parses every line: whatever the line, [parsecmd] returns a
    command or reports a syntax error, without an access outside the line; the
    strings of the command are words of the line without blanks and symbols,
    and [nulterminate] makes each of them a C string. *)
Theorem parse_safe b s :
  is_str b s ->
  parsecmd b = Err Panic \/
  exists c b', parsecmd b = Ok (c, b') /\
    Forall (fun '(q, e) => 0 <= q < e /\ e <= zlen s /\ Forall (fun x => word x = true) (slice s q (e - q)) /\
              is_str (drop (Z.to_nat q) b') (slice s q (e - q))) (strings c).
Proof. apply parsecmd_strings. Qed.

(** "a>b" *)
Lemma parse_safe_witness :
  parsecmd [97; 62; 98; 0] = Err Panic \/
  exists c b', parsecmd [97; 62; 98; 0] = Ok (c, b') /\
    Forall (fun '(q, e) => 0 <= q < e /\ e <= 3 /\ Forall (fun x => word x = true) (slice [97; 62; 98] q (e - q)) /\
              is_str (drop (Z.to_nat q) b') (slice [97; 62; 98] q (e - q))) (strings c).
Proof. apply (parse_safe [97; 62; 98; 0] [97; 62; 98]). apply (is_str_intro [97; 62; 98]). repeat constructor; lia. Defined.
