(* ===== verification/ShRound.v ===== *)
(** The parser of the shell reads back what its grammar prints. *)
From stdpp Require Import sets.
From S2P Require Import Prelude Ulib Sys TextLemmas Sh ShProps.
Open Scope Z_scope.

(** * Tokens *)

Inductive tok := Word (w : bytes) | Sym (c : Z) | Append.

Definition text (t : tok) : bytes := match t with Word w => w | Sym c => [c] | Append => [62; 62] end.
Definition code (t : tok) : Z := match t with Word _ => 97 | Sym c => c | Append => 43 end.
Definition tok_ok (t : tok) : Prop :=
  match t with
  | Word w => w <> [] /\ Forall (fun x => is_char x /\ word x = true) w
  | Sym c => sym c = true
  | Append => True
  end.

(** A line of tokens, each followed by a space and the last one by a newline. *)
Definition sep (ts : list tok) : Z := match ts with [] => 10 | _ => 32 end.
Fixpoint print (ts : list tok) : bytes := match ts with [] => [] | t :: ts => text t ++ sep ts :: print ts end.

Lemma print_cons t ts : print (t :: ts) = text t ++ sep ts :: print ts.
Proof. done. Qed.

Lemma sep_ws ts : ws (sep ts) = true /\ sep ts <> 62 /\ is_char (sep ts).
Proof. destruct ts; (split; [done|]); (split; [done|]); unfold is_char; cbn; lia. Qed.

(** The first character of a line of tokens, 0 for an empty one. *)
Definition head_char (ts : list tok) : Z := match ts with [] => 0 | t :: _ => default 0 (head (text t)) end.

Lemma sym_cases c : sym c = true -> c = 60 \/ c = 124 \/ c = 62 \/ c = 38 \/ c = 59 \/ c = 40 \/ c = 41.
Proof. unfold sym. rewrite bool_decide_eq_true, !elem_of_cons, elem_of_nil. tauto. Qed.

Lemma tok_head t : tok_ok t -> exists c l, text t = c :: l /\ ws c = false /\ c <> 0 /\ is_char c.
Proof.
  destruct t as [w|c|]; cbn.
  - intros [Hne Hw]. destruct w as [|c w]; [done|]. apply Forall_cons in Hw as [[Hc Hw] _]. exists c, w.
    destruct (word_no_ws c Hw) as (? & _ & ?). done.
  - intros H. exists c, []. unfold is_char. destruct (sym_cases c H) as [->|[->|[->|[->|[->|[->| ->]]]]]]; (split; [done|]); (split; [done|]); lia.
  - intros _. exists 62, [62]. unfold is_char. split; [done|]. split; [done|]. lia.
Qed.

Lemma print_chars ts : Forall tok_ok ts -> Forall is_char (print ts).
Proof.
  induction 1 as [|t ts Ht Hts IH]; [constructor|]. rewrite print_cons. apply Forall_app. split.
  - destruct t as [w|c|]; cbn in *; [eapply Forall_impl; [apply Ht|]; by intros x [] | |].
    + destruct (tok_head (Sym c) Ht) as (c' & l & [= <- <-] & _ & _ & H). by apply Forall_singleton.
    + repeat constructor; lia.
  - constructor; [apply sep_ws | done].
Qed.

Section Lexer.
Context (b s rest : bytes) (Hb : b = s ++ 0 :: rest) (Hs : Forall is_char s).
Abbreviation es := (zlen s).
Abbreviation ch := (ch b).

(** The line from offset [p] on is [l]. *)
Definition reads (p : Z) (l : bytes) : Prop := 0 <= p /\ p + zlen l <= es /\ take (length l) (drop (Z.to_nat p) s) = l.

Lemma reads_ch p l i x : reads p l -> l !! i = Some x -> ch (p + Z.of_nat i) = x.
Proof.
  intros (Hp & Hl & E) Hx. pose proof (lookup_lt_Some _ _ _ Hx). unfold ShProps.ch. apply nth_lookup_Some. rewrite Hb.
  rewrite lookup_app_l by lia. rewrite <- E in Hx. rewrite lookup_take_lt, lookup_drop in Hx by lia.
  rewrite <- Hx. f_equal. lia.
Qed.

Lemma reads_app p l1 l2 : reads p (l1 ++ l2) -> reads p l1 /\ reads (p + zlen l1) l2.
Proof.
  intros (Hp & Hl & E). rewrite length_app in *. rewrite <- take_take_drop, drop_drop in E.
  apply app_inj_1 in E as [E1 E2]; [|rewrite length_take, length_drop; lia].
  split; (split; [lia|]; split; [lia|]); [done|].
  replace (Z.to_nat (p + zlen l1)) with (length l1 + Z.to_nat p)%nat by lia. rewrite Nat.add_comm. done.
Qed.

(** The tokens from offset [p] to the end of the line. *)
Definition at_toks (p : Z) (ts : list tok) : Prop := Forall tok_ok ts /\ reads p (print ts) /\ p + zlen (print ts) = es.

Lemma at_head p ts : at_toks p ts -> 0 <= p <= es /\ ch p = head_char ts /\ ws (ch p) = false.
Proof.
  intros (Hok & Hr & He). pose proof Hr as (Hp & Hl & _). split; [lia|]. destruct ts as [|t ts].
  - cbn in He. replace p with es by lia. rewrite (ch_end b s rest Hb). done.
  - apply Forall_cons in Hok as [Ht _]. destruct (tok_head t Ht) as (c & l & E & Hw & _ & _).
    rewrite print_cons, E in Hr. cbn [head_char]. rewrite E. cbn.
    pose proof (reads_ch p _ 0 c Hr eq_refl) as E0. cbn [Z.of_nat] in E0. rewrite Z.add_0_r in E0. by rewrite E0.
Qed.

Lemma at_cons p t ts :
  at_toks p (t :: ts) ->
  tok_ok t /\ reads p (text t) /\ ch (p + zlen (text t)) = sep ts /\ p + zlen (text t) < es /\ at_toks (p + zlen (text t) + 1) ts.
Proof.
  intros (Hok & Hr & He). apply Forall_cons in Hok as [Ht Hok]. rewrite print_cons in Hr, He.
  apply reads_app in Hr as [H1 H2]. change (sep ts :: print ts) with ([sep ts] ++ print ts) in *.
  pose proof (reads_app _ _ _ H2) as [H3 H4]. split; [done|]. split; [done|].
  split; [pose proof (reads_ch _ _ 0 (sep ts) H3 eq_refl) as E0; cbn [Z.of_nat] in E0; by rewrite Z.add_0_r in E0|].
  split; [revert He; llia|]. split; [done|]. cbn [length] in H4. split; [done|]. revert He. llia.
Qed.

Lemma skip_at (p : Z -> bool) P i j :
  (forall c, P c = Ok (p c)) -> 0 <= i <= j -> j <= es -> (forall m, i <= m < j -> p (ch m) = true) ->
  (j = es \/ p (ch j) = false) -> skip_while P b es i = Ok j.
Proof.
  intros HP Hi Hj Hm Hend. unfold skip_while.
  destruct (skip_spec b s rest Hb p P (Z.to_nat (es - i)) i HP ltac:(lia) eq_refl) as (j' & E & Hj' & Hm' & Hend').
  rewrite E. f_equal. destruct (Z.lt_trichotomy j' j) as [H|[H|H]]; [|done|].
  - destruct Hend' as [->|Hf]; [lia|]. rewrite Hm in Hf by lia. done.
  - destruct Hend as [->|Hf]; [lia|]. rewrite Hm' in Hf by lia. done.
Qed.

Lemma skip_ws_at p ts : at_toks p ts -> skip_while (is_in whitespace) b es p = Ok p.
Proof.
  intros H. pose proof (at_head p ts H) as (Hp & _ & Hw). apply (skip_at ws); [apply is_ws | lia | lia | lia | by right].
Qed.

Lemma peek_at p ts l :
  at_toks p ts -> Forall (fun x => x <> 0) l ->
  peek b es p (l ++ [0]) = Ok (p, negb (head_char ts =? 0) && bool_decide (head_char ts ∈ l)).
Proof.
  intros H Hl. pose proof (at_head p ts H) as (Hp & Hc & _). unfold peek. rewrite (skip_ws_at p ts H). cbn [rbind].
  rewrite (get_ch b s rest Hb) by lia. cbn [rbind]. rewrite is_in_spec by done. cbn [rbind]. by rewrite Hc.
Qed.

(** After a token, its space is skipped. *)
Lemma skip_after p t ts :
  at_toks p (t :: ts) -> skip_while (is_in whitespace) b es (p + zlen (text t)) = Ok (p + zlen (text t) + 1).
Proof.
  intros H. destruct (at_cons p t ts H) as (_ & (Hp & _) & Hsp & Hlt & Hn).
  pose proof (at_head _ _ Hn) as (_ & _ & Hw). apply (skip_at ws); [apply is_ws | lia | lia | | by right].
  intros m Hm. replace m with (p + zlen (text t)) by lia. rewrite Hsp. apply sep_ws.
Qed.

Lemma word_not_sym c : word c = true -> (c =? 0) = false /\
  ((c =? 124) || (c =? 40) || (c =? 41) || (c =? 59) || (c =? 38) || (c =? 60)) = false /\ (c =? 62) = false.
Proof.
  intros H. destruct (word_no_ws c H) as (_ & Hy & Hz). unfold sym in Hy.
  apply bool_decide_eq_false in Hy. rewrite !elem_of_cons, elem_of_nil in Hy.
  rewrite !orb_false_iff, !Z.eqb_neq. lia.
Qed.

Lemma gettoken_at p t ts :
  at_toks p (t :: ts) -> gettoken b es p = Ok (code t, p, p + zlen (text t), p + zlen (text t) + 1).
Proof.
  intros H. pose proof (skip_after p t ts H) as Hafter. pose proof (at_head _ _ H) as (Hp & Hc & _).
  destruct (at_cons p t ts H) as (Ht & Hr & Hsp & Hlt & Hn).
  unfold gettoken. rewrite (skip_ws_at p _ H). cbn [rbind]. rewrite (get_ch b s rest Hb) by lia. cbn [rbind]. rewrite Hc.
  cbn [head_char]. destruct t as [w|c|]; cbn [text code length] in *.
  - destruct Ht as [Hne Hw]. destruct w as [|c w]; [done|]. cbn [head default from_option id].
    pose proof Hw as Hw'. apply Forall_cons in Hw' as [[_ Hcw] _]. destruct (word_not_sym c Hcw) as (-> & -> & ->).
    rewrite (skip_at (fun c => negb (ws c) && negb (sym c)) word_char p (p + zlen (c :: w)) word_char_spec); [|lia | lia | |].
    + cbn [rbind]. rewrite Hafter. done.
    + intros m Hm. destruct (lookup_lt_is_Some_2 (c :: w) (Z.to_nat (m - p))) as [x Hx]; [lia|].
      replace m with (p + Z.of_nat (Z.to_nat (m - p))) by lia. rewrite (reads_ch p _ _ x Hr Hx).
      eapply Forall_lookup_1 in Hw as [_ Hw]; [|exact Hx]. destruct (word_no_ws x Hw) as (-> & -> & _). done.
    + right. rewrite Hsp. by rewrite (proj1 (sep_ws ts)).
  - cbn [head default from_option id]. change (Z.of_nat 1) with 1 in *.
    destruct (sym_cases c Ht) as [->|[->|[->|[->|[->|[->| ->]]]]]]; cbn [Z.eqb Pos.eqb orb];
      try (cbn [rbind]; rewrite Hafter; done).
    rewrite (get_ch b s rest Hb) by lia. cbn [rbind]. rewrite Hsp, (proj2 (Z.eqb_neq _ _) (proj1 (proj2 (sep_ws ts)))). cbn [rbind]. rewrite Hafter. done.
  - change (Z.of_nat 2) with 2 in *. cbn [head default from_option id Z.eqb Pos.eqb orb].
    rewrite (get_ch b s rest Hb) by lia. cbn [rbind]. rewrite (reads_ch p [62; 62] 1 62 Hr eq_refl : ch (p + 1) = 62).
    cbn [Z.eqb Pos.eqb rbind]. replace (p + 1 + 1) with (p + 2) by lia. rewrite Hafter. done.
Qed.

Lemma gettoken_end p : at_toks p [] -> gettoken b es p = Ok (0, p, p, p).
Proof.
  intros H. pose proof (at_head _ _ H) as (Hp & Hc & _). unfold gettoken. rewrite (skip_ws_at p _ H). cbn [rbind].
  rewrite (get_ch b s rest Hb) by lia. cbn [rbind]. rewrite Hc. cbn [head_char Z.eqb rbind]. rewrite (skip_ws_at p _ H). done.
Qed.
End Lexer.

(** * Commands and their grammar *)

(** A command with its strings. *)
Inductive scmd :=
  | SExec (argv : list bytes)
  | SRedir (c : scmd) (file : bytes) (mode fd : Z)
  | SPipe (l r : scmd)
  | SList (l r : scmd)
  | SBack (c : scmd).

(** The strings of a command read by [f]. *)
Fixpoint decode (f : Z * Z -> bytes) (c : cmd) : scmd :=
  match c with
  | EXEC argv => SExec (f <$> argv)
  | REDIR c q e mode fd => SRedir (decode f c) (f (q, e)) mode fd
  | PIPE l r => SPipe (decode f l) (decode f r)
  | LIST l r => SList (decode f l) (decode f r)
  | BACK c => SBack (decode f c)
  end.

Inductive direction := In | Out | App.
Definition gredir := (direction * bytes)%type.

(** line ::= pipe &* | pipe &* ; line      pipe ::= exec | exec '|' pipe
    exec ::= ( line ) redirs | redirs (word redirs)* *)
Inductive gline := GLine (p : gpipe) (bg : nat) | GSeq (p : gpipe) (bg : nat) (l : gline)
with gpipe := GExec (e : gexec) | GPipe (e : gexec) (p : gpipe)
with gexec := GBlock (l : gline) (rs : list gredir) | GSimple (rs : list gredir) (ws : list (bytes * list gredir)).

Scheme gline_mut := Induction for gline Sort Prop
with gpipe_mut := Induction for gpipe Sort Prop
with gexec_mut := Induction for gexec Sort Prop.
Combined Scheme grammar_mut from gline_mut, gpipe_mut, gexec_mut.

(** ** Printing *)

Definition redir_toks (r : gredir) : list tok :=
  [match fst r with In => Sym 60 | Out => Sym 62 | App => Append end; Word (snd r)].
Definition redirs_toks (rs : list gredir) : list tok := List.flat_map redir_toks rs.
Definition arg_toks (a : bytes * list gredir) : list tok := Word (fst a) :: redirs_toks (snd a).

Fixpoint line_toks (l : gline) : list tok :=
  match l with
  | GLine p bg => pipe_toks p ++ replicate bg (Sym 38)
  | GSeq p bg l => pipe_toks p ++ replicate bg (Sym 38) ++ Sym 59 :: line_toks l
  end
with pipe_toks (p : gpipe) : list tok :=
  match p with GExec e => exec_toks e | GPipe e p => exec_toks e ++ Sym 124 :: pipe_toks p end
with exec_toks (e : gexec) : list tok :=
  match e with
  | GBlock l rs => Sym 40 :: line_toks l ++ Sym 41 :: redirs_toks rs
  | GSimple rs ws => redirs_toks rs ++ List.flat_map arg_toks ws
  end.

(** ** Meaning *)

Definition mode_of (d : direction) : Z := match d with In => O_RDONLY | _ => Z.lor O_WRONLY O_CREATE end.
Definition fd_of (d : direction) : Z := match d with In => 0 | _ => 1 end.

Definition swrap (rs : list gredir) (c : scmd) : scmd :=
  foldl (fun c r => SRedir c (snd r) (mode_of (fst r)) (fd_of (fst r))) c rs.
Definition sbacks (bg : nat) (c : scmd) : scmd := Nat.iter bg SBack c.

Fixpoint line_tree (l : gline) : scmd :=
  match l with
  | GLine p bg => sbacks bg (pipe_tree p)
  | GSeq p bg l => SList (sbacks bg (pipe_tree p)) (line_tree l)
  end
with pipe_tree (p : gpipe) : scmd :=
  match p with GExec e => exec_tree e | GPipe e p => SPipe (exec_tree e) (pipe_tree p) end
with exec_tree (e : gexec) : scmd :=
  match e with
  | GBlock l rs => swrap rs (line_tree l)
  | GSimple rs ws => swrap (rs ++ List.flat_map snd ws) (SExec (fst <$> ws))
  end.

(** ** Well-formed commands: words are words, and at most nine arguments *)

Definition word_ok (w : bytes) : Prop := tok_ok (Word w).
Definition redirs_ok (rs : list gredir) : Prop := Forall (fun r => word_ok (snd r)) rs.

Fixpoint line_ok (l : gline) : Prop :=
  match l with GLine p bg => pipe_ok p | GSeq p bg l => pipe_ok p /\ line_ok l end
with pipe_ok (p : gpipe) : Prop :=
  match p with GExec e => exec_ok e | GPipe e p => exec_ok e /\ pipe_ok p end
with exec_ok (e : gexec) : Prop :=
  match e with
  | GBlock l rs => line_ok l /\ redirs_ok rs
  | GSimple rs ws => redirs_ok rs /\ Forall (fun a => word_ok (fst a) /\ redirs_ok (snd a)) ws /\ zlen ws < MAXARGS
  end.

Lemma redirs_toks_ok rs : redirs_ok rs -> Forall tok_ok (redirs_toks rs).
Proof.
  induction 1 as [|[d w] rs Hw Hrs IH]; [constructor|]. cbn. constructor; [by destruct d|]. by constructor.
Qed.

Lemma toks_ok :
  (forall l, line_ok l -> Forall tok_ok (line_toks l)) /\ (forall p, pipe_ok p -> Forall tok_ok (pipe_toks p)) /\
  (forall e, exec_ok e -> Forall tok_ok (exec_toks e)).
Proof.
  apply grammar_mut; cbn.
  - intros p IH bg H. apply Forall_app. split; [auto|]. by apply Forall_replicate.
  - intros p IH bg l IHl [H1 H2]. apply Forall_app. split; [auto|]. apply Forall_app. split; [by apply Forall_replicate|].
    constructor; [done | auto].
  - auto.
  - intros e IH p IHp [H1 H2]. apply Forall_app. split; [auto|]. constructor; [done | auto].
  - intros l IH rs [H1 H2]. constructor; [done|]. apply Forall_app. split; [auto|]. constructor; [done|].
    by apply redirs_toks_ok.
  - intros rs ws (H1 & H2 & _). apply Forall_app. split; [by apply redirs_toks_ok|].
    induction H2 as [|[w r] ws [Hw Hr] H2 IH]; [constructor|]. cbn. constructor; [done|]. apply Forall_app.
    split; [by apply redirs_toks_ok | done].
Qed.

Section Parser.
Context (b s rest : bytes) (Hb : b = s ++ 0 :: rest) (Hs : Forall is_char s).
Abbreviation es := (zlen s).
Abbreviation at_toks := (at_toks s).

(** The word between two offsets of the line. *)
Definition word_at (a : Z * Z) : bytes := slice s (fst a) (snd a - fst a).

Lemma reads_word p l : reads s p l -> word_at (p, p + zlen l) = l.
Proof. intros (Hp & Hl & E). unfold word_at, slice. cbn. rewrite <- E at 2. f_equal. lia. Qed.

(** [peek] for a symbol the next token does not begin with. *)
Definition next_not (l : list Z) (ts : list tok) : Prop := head_char ts ∉ l.

Lemma peek_not p ts l : at_toks p ts -> Forall (fun x => x <> 0) l -> next_not l ts -> peek b es p (l ++ [0]) = Ok (p, false).
Proof. intros H Hl Hn. rewrite (peek_at b s rest Hb p ts l H Hl), bool_decide_eq_false_2 by done. by rewrite andb_false_r. Qed.

Lemma peek_is p t ts l :
  at_toks p (t :: ts) -> Forall (fun x => x <> 0) l -> head_char (t :: ts) ∈ l -> peek b es p (l ++ [0]) = Ok (p, true).
Proof.
  intros H Hl Hin. rewrite (peek_at b s rest Hb p _ l H Hl), bool_decide_eq_true_2 by done.
  destruct (Z.eqb_spec (head_char (t :: ts)) 0) as [E|]; [|done]. rewrite E in Hin.
  rewrite Forall_forall in Hl. by apply Hl in Hin.
Qed.

(** Redirections, with what follows them. *)
Lemma redirs_at rs ts p acc n :
  at_toks p (redirs_toks rs ++ ts) -> next_not [60; 62] ts -> (length rs < n)%nat ->
  exists rs' p', redirs n b es p acc = Ok (acc ++ rs', p') /\ at_toks p' ts /\ p <= p' /\
    forall c sc, decode word_at c = sc -> decode word_at (wrap rs' c) = swrap rs sc.
Proof.
  revert p acc n. induction rs as [|[d w] rs IH]; intros p acc [|n] Hat Hn Hlen; try (cbn in Hlen; lia); cbn [redirs].
  - pose proof (peek_not p ts [60; 62] Hat ltac:(repeat constructor; lia) Hn) as E. cbn [app] in E. rewrite E. cbn [rbind].
    exists [], p. rewrite app_nil_r. split; [done|]. split; [done|]. split; [lia|]. by intros c sc <-.
  - cbn [redirs_toks List.flat_map redir_toks app fst snd] in Hat.
    set (t := match d with In => Sym 60 | Out => Sym 62 | App => Append end) in Hat.
    assert (head_char (t :: Word w :: redirs_toks rs ++ ts) ∈ [60; 62]) as Hh by (destruct d; cbn; set_solver).
    pose proof (peek_is p t _ [60; 62] Hat ltac:(repeat constructor; lia) Hh) as E. cbn [app] in E. rewrite E. cbn [rbind].
    rewrite (gettoken_at b s rest Hb p t _ Hat). cbn [rbind].
    destruct (at_cons b s rest Hb p t _ Hat) as (_ & _ & _ & _ & Hat1). set (p1 := p + zlen (text t) + 1) in *.
    rewrite (gettoken_at b s rest Hb p1 (Word w) _ Hat1). cbn [rbind code Z.eqb Pos.eqb negb].
    destruct (at_cons b s rest Hb p1 (Word w) _ Hat1) as (_ & Hr & _ & _ & Hat2). cbn [text] in *.
    set (p2 := p1 + zlen w + 1) in *.
    set (new := (p1, p1 + zlen w, mode_of d, fd_of d)).
    replace (if code t =? 60 then _ else _) with (acc ++ [new]) by (by destruct d).
    destruct (IH p2 (acc ++ [new]) n Hat2 Hn) as (rs' & p' & E' & Hat' & Hp' & Hd); [cbn in Hlen; lia|].
    exists (new :: rs'), p'. rewrite E', <- app_assoc. split; [done|]. split; [done|]. split; [lia|].
    intros c sc Hc. cbn. apply Hd. cbn. by rewrite Hc, (reads_word p1 w Hr).
Qed.

Lemma print_length ts : Forall tok_ok ts -> (2 * length ts <= length (print ts))%nat.
Proof.
  induction 1 as [|t ts Ht Hts IH]; [done|]. rewrite print_cons, length_app. cbn [length].
  destruct (tok_head t Ht) as (c & l & -> & _). cbn. lia.
Qed.

Lemma at_length p ts : at_toks p ts -> (2 * length ts <= length s)%nat.
Proof. intros (Hok & (Hp & Hl & _) & _). pose proof (print_length ts Hok). lia. Qed.

Lemma parseredirs_at rs ts p :
  at_toks p (redirs_toks rs ++ ts) -> next_not [60; 62] ts ->
  exists rs' p', parseredirs b es p = Ok (rs', p') /\ at_toks p' ts /\ p <= p' /\
    forall c sc, decode word_at c = sc -> decode word_at (wrap rs' c) = swrap rs sc.
Proof.
  intros Hat Hn. apply (redirs_at rs ts p [] (S (length b))); [done | done|].
  pose proof (at_length _ _ Hat) as H. rewrite length_app in H.
  assert (length rs <= length (redirs_toks rs))%nat.
  { clear. unfold redirs_toks. induction rs as [|r rs IH]; cbn in *; lia. }
  rewrite Hb. llia.
Qed.

(** The loop over the arguments. *)
Lemma exec_args_at gs ts p argv rs n :
  at_toks p (List.flat_map arg_toks gs ++ ts) -> (ts = [] \/ head_char ts ∈ [124; 41; 38; 59]) ->
  Forall (fun a => word_ok (fst a)) gs -> zlen argv + zlen gs < MAXARGS -> (length gs < n)%nat ->
  exists argv' rs' p', exec_args n b es p argv rs = Ok (argv ++ argv', rs ++ rs', p') /\ at_toks p' ts /\ p <= p' /\
    (word_at <$> argv') = (fst <$> gs) /\
    forall c sc, decode word_at c = sc -> decode word_at (wrap rs' c) = swrap (List.flat_map snd gs) sc.
Proof.
  intros Hat Hf. revert p argv rs n Hat.
  induction gs as [|[w r] gs IH]; intros p argv rs [|n] Hat Hw Hmax Hlen; try (cbn in Hlen; lia); cbn [exec_args].
  - exists [], [], p. rewrite !app_nil_r. cbn [List.flat_map app] in Hat.
    assert (forall c sc, decode word_at c = sc -> decode word_at c = sc) as Hid by done.
    destruct Hf as [->|Hh].
    + pose proof (peek_not p [] [124; 41; 38; 59] Hat ltac:(repeat constructor; lia) ltac:(unfold next_not; cbn; set_solver)) as E.
      cbn [app] in E. rewrite E. cbn [rbind]. rewrite (gettoken_end b s rest Hb p Hat). cbn [rbind Z.eqb]. split; [done|]. split; [done|]. split; [lia|]. done.
    + destruct ts as [|t ts]; [cbn in Hh; set_solver|].
      pose proof (peek_is p t ts [124; 41; 38; 59] Hat ltac:(repeat constructor; lia) Hh) as E. cbn [app] in E. rewrite E.
      cbn [rbind]. split; [done|]. split; [done|]. split; [lia|]. done.
  - cbn [List.flat_map arg_toks app fst snd] in Hat. apply Forall_cons in Hw as [Hw Hws]. cbn [fst] in Hw.
    rewrite <- app_assoc in Hat. set (ts1 := redirs_toks r ++ List.flat_map arg_toks gs ++ ts) in Hat.
    pose proof Hw as [Hne Hwc]. destruct w as [|x w]; [done|]. pose proof Hwc as Hx. apply Forall_cons in Hx as [[_ Hx] _].
    pose proof (peek_not p (Word (x :: w) :: ts1) [124; 41; 38; 59] Hat ltac:(repeat constructor; lia)) as E.
    cbn [app] in E. rewrite E. clear E.
    2:{ unfold next_not. cbn. destruct (word_not_sym x Hx) as (_ & H1 & _).
        rewrite !orb_false_iff, !Z.eqb_neq in H1. rewrite !elem_of_cons, elem_of_nil. lia. }
    cbn [rbind]. rewrite (gettoken_at b s rest Hb p _ _ Hat). cbn [rbind code Z.eqb Pos.eqb negb].
    rewrite (proj2 (Z.leb_gt MAXARGS _)) by (revert Hmax; rewrite length_app; cbn [length]; lia).
    destruct (at_cons b s rest Hb p _ _ Hat) as (_ & Hr & _ & _ & Hat1).
    destruct (parseredirs_at r (List.flat_map arg_toks gs ++ ts) _ Hat1) as (rs1 & p2 & -> & Hat2 & Hp2 & Hd1).
    { unfold next_not. destruct gs as [|[w' r'] gs].
      - cbn. destruct Hf as [->|Hh]; [cbn; set_solver|]. intros Hin. apply list_elem_of_In in Hh, Hin. cbn in Hh, Hin. lia.
      - apply Forall_cons in Hws as [[Hne' Hwc'] _]. cbn in *. destruct w' as [|x' w']; [done|].
        apply Forall_cons in Hwc' as [[_ Hx'] _]. destruct (word_not_sym x' Hx') as (_ & H1 & H2). cbn.
        rewrite !orb_false_iff, !Z.eqb_neq in H1. apply Z.eqb_neq in H2. rewrite !elem_of_cons, elem_of_nil. lia. }
    cbn [rbind].
    destruct (IH p2 (argv ++ [(p, p + zlen (text (Word (x :: w))))]) (rs ++ rs1) n Hat2 Hws) as (argv' & rs' & p' & E & Hat' & Hp' & Ha & Hd).
    { revert Hmax. rewrite length_app. cbn [length]. lia. } { cbn in Hlen. lia. }
    rewrite E. eexists (_ :: argv'), (rs1 ++ rs'), p'. rewrite <- !app_assoc. split; [done|]. split; [done|]. split; [lia|].
    cbn [fmap list_fmap fst]. split; [rewrite <- Ha; f_equal; by apply reads_word|].
    intros c sc Hc. unfold wrap in *. rewrite foldl_app. cbn [List.flat_map snd]. unfold swrap in *. rewrite foldl_app.
    apply Hd. by apply Hd1.
Qed.

(** What may follow a line, a pipe and a command. *)
Definition follows (l : list Z) (ts : list tok) : Prop := ts = [] \/ head_char ts ∈ l.

Lemma follows_not l k ts : follows l ts -> Forall (fun x => x <> 0 /\ x ∉ l) k -> next_not k ts.
Proof.
  intros [->|H] Hk; unfold next_not; rewrite Forall_forall in Hk; intros Hin; [by apply Hk in Hin as [? _] | by apply Hk in Hin as [_ ?]].
Qed.

Lemma backs_at bg ts p c sc n :
  at_toks p (replicate bg (Sym 38) ++ ts) -> next_not [38] ts -> decode word_at c = sc -> (bg < n)%nat ->
  exists c' p', backs n b es p c = Ok (c', p') /\ at_toks p' ts /\ p <= p' /\ decode word_at c' = sbacks bg sc.
Proof.
  intros Hat Hn Hc. revert p c sc n Hat Hc. induction bg as [|bg IH]; intros p c sc [|n] Hat Hc Hlen; try lia; cbn [backs].
  - pose proof (peek_not p ts [38] Hat ltac:(repeat constructor; lia) Hn) as E. cbn [app] in E. rewrite E. cbn [rbind].
    exists c, p. split; [done|]. split; [done|]. split; [lia | done].
  - cbn [replicate app] in Hat. assert (head_char (Sym 38 :: replicate bg (Sym 38) ++ ts) ∈ [38]) as Hh by (cbn; set_solver).
    pose proof (peek_is p _ _ [38] Hat ltac:(repeat constructor; lia) Hh) as E. cbn [app] in E. rewrite E. cbn [rbind].
    rewrite (gettoken_at b s rest Hb p _ _ Hat). cbn [rbind]. destruct (at_cons b s rest Hb p _ _ Hat) as (_ & _ & _ & _ & Hat1).
    destruct (IH _ (BACK c) (SBack sc) n Hat1) as (c' & p' & E' & Hat' & Hp' & Hd); [cbn; by rewrite Hc | lia|].
    exists c', p'. split; [done|]. split; [done|]. split; [lia|]. rewrite Hd. unfold sbacks. by rewrite <- Nat.iter_succ_r.
Qed.

Lemma follows_backs bg l ts : follows l ts -> follows (38 :: l) (replicate bg (Sym 38) ++ ts).
Proof. intros H. destruct bg as [|bg]; [|right; cbn; set_solver]. destruct H as [->|H]; [by left | right; set_solver]. Qed.

Lemma bg_bound p bg ts0 ts : at_toks p (ts0 ++ replicate bg (Sym 38) ++ ts) -> (bg < S (length b))%nat.
Proof. intros H. pose proof (at_length _ _ H) as Hl. rewrite !length_app, length_replicate in Hl. rewrite Hb. llia. Qed.

(** Looking for the symbol [x] and consuming it. *)
Lemma symbol_at x ts p :
  x <> 0 -> at_toks p (Sym x :: ts) ->
  peek b es p [x; 0] = Ok (p, true) /\ gettoken b es p = Ok (x, p, p + 1, p + 2) /\ at_toks (p + 2) ts /\ p + 2 <= es.
Proof.
  intros Hx H. split; [apply (peek_is p _ _ [x] H); [by repeat constructor | cbn; set_solver]|].
  pose proof (gettoken_at b s rest Hb p _ _ H) as E. cbn [text code length] in E. change (Z.of_nat 1) with 1 in E.
  replace (p + 1 + 1) with (p + 2) in E by lia. split; [done|].
  destruct (at_cons b s rest Hb p _ _ H) as (_ & _ & _ & _ & H1). cbn [text length] in H1. change (Z.of_nat 1) with 1 in H1.
  replace (p + 1 + 1) with (p + 2) in H1 by lia. split; [done|]. pose proof (at_head b s rest Hb _ _ H1). lia.
Qed.

Lemma no_symbol x ts p : x <> 0 -> at_toks p ts -> next_not [x] ts -> peek b es p [x; 0] = Ok (p, false).
Proof. intros Hx H Hn. apply (peek_not p ts [x] H); [by repeat constructor | done]. Qed.

Definition parses {G} (parse : nat -> Z -> result (cmd * Z)) (toks : G -> list tok) (tree : G -> scmd)
    (follow : list Z) (k : Z) (g : G) : Prop :=
  forall ts p fuel, at_toks p (toks g ++ ts) -> follows follow ts -> 4 * (es - p) + k <= Z.of_nat fuel ->
  exists c p', parse fuel p = Ok (c, p') /\ at_toks p' ts /\ p <= p' /\ decode word_at c = tree g.

Lemma line_at p bg :
  parses (fun f => parsepipe f b es) pipe_toks pipe_tree [41; 38; 59] 3 p ->
  parses (fun f => parseline f b es) line_toks line_tree [41] 4 (GLine p bg).
Proof.
  intros IH ts q [|fuel] Hat Hf Hfu; [destruct (at_head b s rest Hb _ _ Hat); lia|]. cbn [parseline line_toks line_tree] in *.
  rewrite <- app_assoc in Hat. pose proof (bg_bound _ _ _ _ Hat) as Hbg.
  destruct (IH _ q fuel Hat) as (c & p1 & -> & Hat1 & Hp1 & Hd); [|lia|].
  { destruct (follows_backs bg [41] ts Hf) as [->|H]; [by left | right; set_solver]. }
  cbn [rbind]. destruct (backs_at bg ts p1 c _ _ Hat1 (follows_not _ [38] _ Hf ltac:(repeat constructor; set_solver)) Hd Hbg)
    as (c' & p2 & -> & Hat2 & Hp2 & Hd'). cbn [rbind].
  rewrite (no_symbol 59 ts p2) by (done || by apply (follows_not [41] [59]); [|repeat constructor; set_solver]). cbn [rbind].
  exists c', p2. split; [done|]. split; [done|]. split; [lia | done].
Qed.

Lemma seq_at p bg l :
  parses (fun f => parsepipe f b es) pipe_toks pipe_tree [41; 38; 59] 3 p ->
  parses (fun f => parseline f b es) line_toks line_tree [41] 4 l ->
  parses (fun f => parseline f b es) line_toks line_tree [41] 4 (GSeq p bg l).
Proof.
  intros IH IHl ts q [|fuel] Hat Hf Hfu; [destruct (at_head b s rest Hb _ _ Hat); lia|]. cbn [parseline line_toks line_tree] in *.
  rewrite <- !app_assoc in Hat. cbn [app] in Hat. pose proof (bg_bound _ _ _ _ Hat) as Hbg.
  destruct (IH _ q fuel Hat) as (c & p1 & -> & Hat1 & Hp1 & Hd); [|lia|].
  { right. destruct bg; cbn; set_solver. }
  cbn [rbind]. destruct (backs_at bg _ p1 c _ _ Hat1 ltac:(unfold next_not; cbn; set_solver) Hd Hbg)
    as (c' & p2 & -> & Hat2 & Hp2 & Hd'). cbn [rbind].
  destruct (symbol_at 59 _ p2 ltac:(done) Hat2) as (E1 & E2 & Hat3 & Hp3). rewrite E1. cbn [rbind]. rewrite E2. cbn [rbind].
  destruct (IHl ts (p2 + 2) fuel Hat3 Hf) as (c2 & p4 & -> & Hat4 & Hp4 & Hd2); [lia|]. cbn [rbind].
  exists (LIST c' c2), p4. split; [done|]. split; [done|]. split; [lia|]. cbn. by rewrite Hd', Hd2.
Qed.

Lemma exec_pipe_at e :
  parses (fun f => parseexec f b es) exec_toks exec_tree [124; 41; 38; 59] 2 e ->
  parses (fun f => parsepipe f b es) pipe_toks pipe_tree [41; 38; 59] 3 (GExec e).
Proof.
  intros IH ts q [|fuel] Hat Hf Hfu; [destruct (at_head b s rest Hb _ _ Hat); lia|]. cbn [parsepipe pipe_toks pipe_tree] in *.
  destruct (IH _ q fuel Hat) as (c & p1 & -> & Hat1 & Hp1 & Hd); [|lia|].
  { destruct Hf as [->|H]; [by left | right; set_solver]. }
  cbn [rbind].
  rewrite (no_symbol 124 ts p1) by (done || by apply (follows_not [41; 38; 59] [124]); [|repeat constructor; set_solver]). cbn [rbind].
  exists c, p1. split; [done|]. split; [done|]. split; [lia | done].
Qed.

Lemma pipe_at e p :
  parses (fun f => parseexec f b es) exec_toks exec_tree [124; 41; 38; 59] 2 e ->
  parses (fun f => parsepipe f b es) pipe_toks pipe_tree [41; 38; 59] 3 p ->
  parses (fun f => parsepipe f b es) pipe_toks pipe_tree [41; 38; 59] 3 (GPipe e p).
Proof.
  intros IH IHp ts q [|fuel] Hat Hf Hfu; [destruct (at_head b s rest Hb _ _ Hat); lia|]. cbn [parsepipe pipe_toks pipe_tree] in *.
  rewrite <- app_assoc in Hat. cbn [app] in Hat.
  destruct (IH _ q fuel Hat) as (c & p1 & -> & Hat1 & Hp1 & Hd); [right; cbn; set_solver | lia|]. cbn [rbind].
  destruct (symbol_at 124 _ p1 ltac:(done) Hat1) as (E1 & E2 & Hat3 & Hp3). rewrite E1. cbn [rbind]. rewrite E2. cbn [rbind].
  destruct (IHp ts (p1 + 2) fuel Hat3 Hf) as (c2 & p4 & -> & Hat4 & Hp4 & Hd2); [lia|]. cbn [rbind].
  exists (PIPE c c2), p4. split; [done|]. split; [done|]. split; [lia|]. cbn. by rewrite Hd, Hd2.
Qed.

Lemma block_at l rs :
  parses (fun f => parseline f b es) line_toks line_tree [41] 4 l ->
  parses (fun f => parseexec f b es) exec_toks exec_tree [124; 41; 38; 59] 2 (GBlock l rs).
Proof.
  intros IH ts q [|[|fuel]] Hat Hf Hfu; [destruct (at_head b s rest Hb _ _ Hat); lia..|].
  cbn [parseexec parseblock exec_toks exec_tree app] in *. rewrite <- app_assoc in Hat. cbn [app] in Hat.
  destruct (symbol_at 40 _ q ltac:(done) Hat) as (E1 & E2 & Hat1 & Hp1). rewrite !E1. cbn [rbind]. rewrite E1. cbn [rbind negb].
  rewrite E2. cbn [rbind].
  destruct (IH _ (q + 2) fuel Hat1) as (c & p1 & -> & Hat2 & Hp2 & Hd); [right; cbn; set_solver | lia|]. cbn [rbind].
  destruct (symbol_at 41 _ p1 ltac:(done) Hat2) as (E3 & E4 & Hat3 & Hp3). rewrite E3. cbn [rbind negb]. rewrite E4. cbn [rbind].
  destruct (parseredirs_at rs ts (p1 + 2) Hat3) as (rs' & p4 & -> & Hat4 & Hp4 & Hr).
  { apply (follows_not _ _ _ Hf). repeat constructor; set_solver. }
  cbn [rbind]. eexists _, p4. split; [done|]. split; [done|]. split; [lia|]. by apply Hr.
Qed.

Lemma simple_at rs gs :
  redirs_ok rs -> Forall (fun a => word_ok (fst a) /\ redirs_ok (snd a)) gs -> zlen gs < MAXARGS ->
  parses (fun f => parseexec f b es) exec_toks exec_tree [124; 41; 38; 59] 2 (GSimple rs gs).
Proof.
  intros Hrs Hgs Hmax ts q [|fuel] Hat Hf Hfu; [destruct (at_head b s rest Hb _ _ Hat); lia|].
  cbn [parseexec exec_toks exec_tree] in *. rewrite <- app_assoc in Hat.
  assert (Forall (fun a => word_ok (fst a)) gs) as Hw by (eapply Forall_impl; [exact Hgs|]; by intros a []).
  assert (forall k ts', Forall (fun x => x <> 0 /\ x ∉ [124; 41; 38; 59] /\ word x = false) k ->
            ts' = List.flat_map arg_toks gs ++ ts -> next_not k ts') as Hnn.
  { intros k ts' Hk ->. rewrite Forall_forall in Hk. unfold next_not. intros Hin. apply Hk in Hin as (H0 & H1 & H2).
    destruct gs as [|[w r] gs]; [by destruct Hf as [->|Hh]|].
    apply Forall_cons in Hw as [[Hne Hwc] _]. cbn in *. destruct w as [|x w]; [done|].
    apply Forall_cons in Hwc as [[_ Hx] _]. cbn in H2. congruence. }
  rewrite (no_symbol 40 _ q ltac:(done) Hat).
  2:{ destruct rs as [|[d w] rs]; [cbn [redirs_toks List.flat_map app]; apply (Hnn [40]); [|done]; repeat constructor; set_solver|].
      unfold next_not. destruct d; cbn; set_solver. }
  cbn [rbind]. destruct (parseredirs_at rs _ q Hat) as (rs' & p1 & -> & Hat1 & Hp1 & Hr).
  { apply (Hnn [60; 62]); [|done]. repeat constructor; set_solver. }
  cbn [rbind].
  destruct (exec_args_at gs ts p1 [] rs' (S (length b)) Hat1 Hf Hw) as (argv & rs2 & p2 & -> & Hat2 & Hp2 & Ha & Hr2); [cbn; lia | |].
  { pose proof (at_length _ _ Hat1) as Hl. rewrite length_app in Hl.
    assert (length gs <= length (List.flat_map arg_toks gs))%nat.
    { clear. induction gs as [|a gs IH]; cbn; [done|]. rewrite length_app. lia. }
    rewrite Hb. llia. }
  cbn [rbind app]. eexists _, p2. split; [done|]. split; [done|]. split; [lia|].
  unfold wrap, swrap in *. rewrite !foldl_app. apply Hr2. apply Hr. cbn. by rewrite Ha.
Qed.

Lemma grammar_at :
  (forall l, line_ok l -> parses (fun f => parseline f b es) line_toks line_tree [41] 4 l) /\
  (forall p, pipe_ok p -> parses (fun f => parsepipe f b es) pipe_toks pipe_tree [41; 38; 59] 3 p) /\
  (forall e, exec_ok e -> parses (fun f => parseexec f b es) exec_toks exec_tree [124; 41; 38; 59] 2 e).
Proof.
  apply grammar_mut; cbn [line_ok pipe_ok exec_ok]; intros.
  - apply line_at; auto.
  - apply seq_at; intuition auto.
  - apply exec_pipe_at; auto.
  - apply pipe_at; intuition auto.
  - apply block_at; intuition auto.
  - apply simple_at; intuition auto.
Qed.
End Parser.

(** The command [c] with its strings read from the line [b']. *)
Definition read_cmd (b' : bytes) (c : cmd) : scmd := decode (fun '(q, _) => cstr (drop (Z.to_nat q) b')) c.

Lemma decode_ext f g c : Forall (fun a => f a = g a) (strings c) -> decode f c = decode g c.
Proof.
  induction c as [argv|c IH q e m fd|l IHl r IHr|l IHl r IHr|c IH]; cbn [strings decode]; intros H.
  - f_equal. by apply list_fmap_ext_Forall || (apply list_eq; intros i; rewrite !list_lookup_fmap;
      destruct (argv !! i) eqn:E; cbn; [f_equal; by eapply (Forall_lookup_1 _ _ _ _ H) in E | done]).
  - rewrite Forall_app, Forall_singleton in H. destruct H as [H1 H2]. by rewrite IH, H2.
  - rewrite Forall_app in H. destruct H as [H1 H2]. by rewrite IHl, IHr.
  - rewrite Forall_app in H. destruct H as [H1 H2]. by rewrite IHl, IHr.
  - by rewrite IH.
Qed.

Lemma parsecmd_print l rest :
  line_ok l ->
  exists c b', parsecmd (print (line_toks l) ++ 0 :: rest) = Ok (c, b') /\ read_cmd b' c = line_tree l.
Proof.
  intros Hl. set (s := print (line_toks l)). pose proof (proj1 toks_ok l Hl) as Htoks.
  assert (Hs : Forall is_char s) by by apply print_chars.
  assert (Hat : at_toks s 0 (line_toks l ++ [])).
  { rewrite app_nil_r. split; [done|]. fold s. split; [|lia]. split; [lia|]. split; [lia|]. by apply take_ge. }
  destruct (proj1 (grammar_at (s ++ 0 :: rest) s rest eq_refl Hs) l Hl [] 0 (Z.to_nat (4 * zlen s + 4)) Hat) as (c & p' & Ep & Hat' & _ & Hd);
    [by left | lia|].
  assert (Hstr : is_str (s ++ 0 :: rest) s) by by apply is_str_intro.
  assert (Epk : peek (s ++ 0 :: rest) (zlen s) p' [0] = Ok (p', false)).
  { apply (peek_not (s ++ 0 :: rest) s rest eq_refl p' [] [] Hat'); [constructor | apply not_elem_of_nil]. }
  assert (Hp' : p' = zlen s) by (destruct Hat' as (_ & _ & He); cbn in He; lia).
  pose proof (parsecmd_strings (s ++ 0 :: rest) s Hstr) as H. unfold parsecmd in *. rewrite (strlen_str _ _ Hstr) in *.
  cbn [rbind] in *. rewrite Ep in *. cbn [rbind] in *. rewrite Epk in *. cbn [rbind] in *. rewrite Hp', Z.eqb_refl in *.
  cbn [negb] in *. destruct (nulterminate c (s ++ 0 :: rest)) as [b'|e] eqn:En; cbn [rbind] in *.
  - destruct H as [|(c' & b1 & [= <- <-] & H)]; [done|]. exists c, b'. split; [done|]. rewrite <- Hd.
    apply decode_ext. eapply Forall_impl; [exact H|]. intros [q e] (_ & _ & _ & Hq). by apply cstr_str.
  - exfalso. pose proof (proj1 (parse_fine (s ++ 0 :: rest) s rest eq_refl Hs (Z.to_nat (4 * zlen s + 4))) 0 ltac:(lia) ltac:(lia)) as Hf.
    rewrite Ep in Hf. destruct Hf as [_ Hf]. destruct (nulterminate_spec c (s ++ 0 :: rest)) as (b' & E & _); [|congruence].
    eapply Forall_impl; [exact Hf|]. intros [q e'] (H1 & H2 & _). cbn in *. llia.
Qed.

(** C30: The shell reads back what its grammar prints: for every well-formed
    command line, with blocks, pipes, lists, background commands and
    redirections nested in any way, [parsecmd] on its text builds the tree the
    grammar gives it, and the strings of the tree, ended by [nulterminate], are
    its words. *)
Theorem sh_parse_print l rest :
  line_ok l ->
  exists c b', parsecmd (print (line_toks l) ++ 0 :: rest) = Ok (c, b') /\ read_cmd b' c = line_tree l.
Proof. apply parsecmd_print. Qed.

(** "( a > c & ) | de ; e < f" *)
Definition demo_line : gline :=
  GSeq (GPipe (GBlock (GLine (GExec (GSimple [] [([97], [(Out, [99])])])) 1) []) (GExec (GSimple [] [([100; 101], [])]))) 0
       (GLine (GExec (GSimple [] [([101], [(In, [102])])])) 0).

Lemma sh_parse_print_witness :
  exists c b', parsecmd (print (line_toks demo_line) ++ [0]) = Ok (c, b') /\ read_cmd b' c = line_tree demo_line.
Proof. apply (sh_parse_print demo_line []). cbn. repeat split; repeat constructor; try done; cbn; try lia; vm_compute; done. Defined.
