(* ===== verification/ShRun.v ===== *)
(** The execution of commands by the shell: [runcmd], [getcmd], [main], [panic]
    and [fork1] of src/src/sh.c, and [gets] of src/src/ulib.c.

    The shell is a program over the system calls.  A [prog] is the code from a
    system call on, each call with what the code does with its result; [fork]
    has the code of the child, of the parent, and for a failed call.  The
    functions of sh.c become such programs, in continuation-passing style where
    they return.

    A pool of processes runs these programs in any interleaving, as the kernel
    does: [step].  A process has its table of open files.  The process that
    makes a child or a pipe gives it a name made of its own name and a counter,
    so that a name does not depend on the interleaving.  A process whose [exec]
    succeeds is a running job, about which nothing is assumed but that it does
    not take the console input of the shell and that it may end.  The call that
    starts it is written in the log of the pool with the argument vector and
    the whole table of open files.  Every call that may fail can fail in every
    step.

    The console input is a list of bytes. *)
From stdpp Require Import list sets strings.
From S2P Require Import Prelude Ulib Sys TextLemmas Sh ShProps ShRound.
Open Scope Z_scope.

Definition lit (s : string) : bytes := (fun a => Z.of_nat (Ascii.nat_of_ascii a)) <$> String.list_ascii_of_string s.

(** * Programs over the system calls *)

Inductive prog :=
  | Exit
  | Fault                                   (** undefined behaviour, or the model out of fuel *)
  | Exec (argv : list bytes) (failed : prog)
  | Open (file : bytes) (mode : Z) (k : Z -> prog)
  | Close (fd : Z) (k : prog)
  | Dup (fd : Z) (k : prog)
  | Pipe (k : option (Z * Z) -> prog)
  | Fork (child parent failed : prog)
  | Wait (k : prog)
  | Chdir (path : bytes) (k : Z -> prog)
  | Printf (fd : Z) (msg : bytes) (k : prog).

(** * The functions of sh.c *)

Definition panic (s : bytes) : prog := Printf 2 (s ++ [10]) Exit.

(** [if (fork1() == 0) child; parent] *)
Definition fork1 (child parent : prog) : prog := Fork child parent (panic (lit "fork")).

(** The strings of the command are read from the line [b]; the last pointer of
    an argument vector is null. *)
Fixpoint runcmd (b : bytes) (c : cmd) : prog :=
  let string := fun '(q, _) => cstr (drop (Z.to_nat q) b) in
  match c with
  | EXEC argv =>
      match string <$> argv with
      | [] => Exit
      | arg :: args => Exec (arg :: args) (Printf 2 (lit "exec " ++ arg ++ lit " failed" ++ [10]) Exit)
      end
  | REDIR c file efile mode fd =>
      Close fd (Open (string (file, efile)) mode (fun r =>
        if r <? 0 then Printf 2 (lit "open " ++ string (file, efile) ++ lit " failed" ++ [10]) Exit
        else runcmd b c))
  | LIST l r => fork1 (runcmd b l) (Wait (runcmd b r))
  | PIPE l r =>
      Pipe (fun p =>
        match p with
        | None => panic (lit "pipe")
        | Some (p0, p1) =>
            fork1 (Close 1 (Dup p1 (Close p0 (Close p1 (runcmd b l)))))
              (fork1 (Close 0 (Dup p0 (Close p0 (Close p1 (runcmd b r)))))
                (Close p0 (Close p1 (Wait (Wait Exit)))))
        end)
  | BACK c => fork1 (runcmd b c) Exit
  end.

(** [gets] reads the console input [input], one byte at a call. *)
Fixpoint gets_loop (n : nat) (buf : bytes) (max i : Z) (input : bytes) : result (bytes * Z * bytes) :=
  match n with
  | O => Err OutOfFuel
  | S n' =>
      if i + 1 <? max then
        match input with
        | [] => Ok (buf, i, [])
        | c :: input =>
            let! buf := put buf i c in
            if (c =? 10) || (c =? 13) then Ok (buf, i + 1, input) else gets_loop n' buf max (i + 1) input
        end
      else Ok (buf, i, input)
  end.
Definition gets (buf : bytes) (max : Z) (input : bytes) : result (bytes * bytes) :=
  let! '(buf, i, input) := gets_loop (S (Z.to_nat max)) buf max 0 input in
  let! buf := put buf i 0 in
  Ok (buf, input).

(** [getcmd], after its prompt: the line, the rest of the input and the value. *)
Definition getcmd (buf : bytes) (nbuf : Z) (input : bytes) : result (bytes * bytes * Z) :=
  let! buf := memset buf 0 0 nbuf in
  let! '(buf, input) := gets buf nbuf input in
  let! c := get buf 0 in
  Ok (buf, input, if c =? 0 then -1 else 0).

(** [runcmd(parsecmd(buf))]; which of its messages the parser panics with is not
    kept by Sh.v. *)
Definition run_line (buf : bytes) : prog :=
  match parsecmd buf with
  | Ok (c, b) => runcmd b c
  | Err Panic => panic []
  | Err _ => Fault
  end.

(** [while ((fd = open("console", O_RDWR)) >= 0) ...]: at most three rounds give
    a descriptor below 3. *)
Fixpoint open_console (n : nat) (k : prog) : prog :=
  match n with
  | O => Fault
  | S n' =>
      Open (lit "console") O_RDWR (fun fd =>
        if fd <? 0 then k else if 3 <=? fd then Close fd k else open_console n' k)
  end.

Definition is_cd (buf : bytes) : result bool :=
  let! c0 := get buf 0 in
  let! c1 := get buf 1 in
  let! c2 := get buf 2 in
  Ok ((c0 =? 99) && (c1 =? 100) && (c2 =? 32)).

(** The loop of [main]; a round takes a byte of the input or is the last one. *)
Fixpoint main_loop (n : nat) (buf input : bytes) : prog :=
  match n with
  | O => Fault
  | S n' =>
      Printf 2 (lit "$ ")
      match getcmd buf 100 input with
      | Err _ => Fault
      | Ok (buf, input, r) =>
          if r <? 0 then Exit
          else
            match is_cd buf with
            | Err _ => Fault
            | Ok true =>
                match (let! n := strlen buf in put buf (n - 1) 0) with
                | Err _ => Fault
                | Ok buf =>
                    Chdir (cstr (drop 3 buf)) (fun r =>
                      if r <? 0 then Printf 2 (lit "cannot cd " ++ cstr (drop 3 buf) ++ [10]) (main_loop n' buf input)
                      else main_loop n' buf input)
                end
            | Ok false => fork1 (run_line buf) (Wait (main_loop n' buf input))
            end
      end
  end.

(** [main], with its static buffer. *)
Definition main (input : bytes) : prog :=
  open_console 4 (main_loop (S (length input)) (replicate 100 0) input).

(** * Open files *)

Definition name := list nat.

(** What a descriptor stands for: the console, an opened file, or an end of the
    pipe that the process [nm] made at its count [n]. *)
Inductive obj :=
  | Console
  | Opened (file : bytes) (mode : Z)
  | ReadEnd (nm : name) (n : nat)
  | WriteEnd (nm : name) (n : nat).

Definition fdtable := list (option obj).

Fixpoint free_fd (t : fdtable) : option nat :=
  match t with [] => None | None :: _ => Some O | Some _ :: t => S <$> free_fd t end.
(** The lowest free descriptor is taken. *)
Definition fdalloc (t : fdtable) (o : obj) : option (Z * fdtable) :=
  match free_fd t with Some i => Some (Z.of_nat i, <[i := Some o]> t) | None => None end.
Definition closed (t : fdtable) (fd : Z) : fdtable := if fd <? 0 then t else <[Z.to_nat fd := None]> t.
Definition dupped (t : fdtable) (fd : Z) : fdtable :=
  match t !! Z.to_nat fd with
  | Some (Some o) => match fdalloc t o with Some (_, t) => t | None => t end
  | _ => t
  end.
Definition piped (t : fdtable) (nm : name) (n : nat) : option (Z * Z * fdtable) :=
  match fdalloc t (ReadEnd nm n) with
  | Some (p0, t) => match fdalloc t (WriteEnd nm n) with Some (p1, t) => Some (p0, p1, t) | None => None end
  | None => None
  end.

(** The table, of [NOFILE] entries (param.h), with input, output and error output
    open, and nothing else. *)
Definition ofile_len : nat := 100.
Definition std (i o e : obj) : fdtable := [Some i; Some o; Some e] ++ replicate (ofile_len - 3) None.

(** * The pool of processes *)

Inductive status := Running (p : prog) | Job | Zombie.
Record proc := Proc { nm : name; parent : option name; count : nat; files : fdtable; status_of : status }.

Inductive event := Started (argv : list bytes) (t : fdtable) | Changed (path : bytes) | Crashed.
Record pool := Pool { procs : list proc; log : list event }.

Definition with_status (s : status) (p : proc) : proc := Proc (nm p) (parent p) (count p) (files p) s.

(** A call of one process: its code, count and table after it, and what it adds
    to the log.  The first argument is false for a call that fails by chance. *)
Inductive call (nm : name) : bool -> prog -> nat -> fdtable -> prog -> nat -> fdtable -> list event -> Prop :=
  | call_printf n t fd msg k : call nm true (Printf fd msg k) n t k n t []
  | call_close n t fd k : call nm true (Close fd k) n t k n (closed t fd) []
  | call_dup n t fd k : call nm true (Dup fd k) n t k n (dupped t fd) []
  | call_open n t f m k fd t' : fdalloc t (Opened f m) = Some (fd, t') -> call nm true (Open f m k) n t (k fd) n t' []
  | call_open_full n t f m k : fdalloc t (Opened f m) = None -> call nm true (Open f m k) n t (k (-1)) n t []
  | call_open_fails n t f m k : call nm false (Open f m k) n t (k (-1)) n t []
  | call_pipe n t k p0 p1 t' : piped t nm n = Some (p0, p1, t') -> call nm true (Pipe k) n t (k (Some (p0, p1))) (S n) t' []
  | call_pipe_full n t k : piped t nm n = None -> call nm true (Pipe k) n t (k None) n t []
  | call_pipe_fails n t k : call nm false (Pipe k) n t (k None) n t []
  | call_chdir n t path k : call nm true (Chdir path k) n t (k 0) n t [Changed path]
  | call_chdir_fails n t path k : call nm false (Chdir path k) n t (k (-1)) n t []
  | call_exec_fails n t argv k : call nm false (Exec argv k) n t k n t []
  | call_fork_fails n t c p k : call nm false (Fork c p k) n t k n t [].

(** The children of a process that exits are passed to [init]. *)
Definition orphan (q : name) (p : proc) : proc :=
  if decide (parent p = Some q) then Proc (nm p) None (count p) (files p) (status_of p) else p.
Definition child_of (nm : name) (p : proc) : Prop := parent p = Some nm.

(** The process [z] is removed from one of the two parts of the pool. *)
Definition reaped (z : proc) (ps1 ps2 qs1 qs2 : list proc) : Prop :=
  (exists a b, ps1 = a ++ z :: b /\ qs1 = a ++ b /\ qs2 = ps2) \/ (exists a b, ps2 = a ++ z :: b /\ qs2 = a ++ b /\ qs1 = ps1).

Inductive step : bool -> pool -> pool -> Prop :=
  | step_call ok ps1 ps2 p c k n t ev log :
      status_of p = Running c -> call (nm p) ok c (count p) (files p) k n t ev ->
      step ok (Pool (ps1 ++ p :: ps2) log)
        (Pool (ps1 ++ Proc (nm p) (parent p) n t (Running k) :: ps2) (log ++ ev))
  | step_exec ps1 ps2 p argv k log :
      status_of p = Running (Exec argv k) ->
      step true (Pool (ps1 ++ p :: ps2) log)
        (Pool (ps1 ++ with_status Job p :: ps2) (log ++ [Started argv (files p)]))
  | step_fork ps1 ps2 p c k f log :
      status_of p = Running (Fork c k f) ->
      step true (Pool (ps1 ++ p :: ps2) log)
        (Pool (ps1 ++ Proc (nm p ++ [count p]) (Some (nm p)) 0 (files p) (Running c) ::
               Proc (nm p) (parent p) (S (count p)) (files p) (Running k) :: ps2) log)
  | step_wait ps1 ps2 qs1 qs2 p z k log :
      status_of p = Running (Wait k) -> child_of (nm p) z -> status_of z = Zombie -> reaped z ps1 ps2 qs1 qs2 ->
      step true (Pool (ps1 ++ p :: ps2) log) (Pool (qs1 ++ with_status (Running k) p :: qs2) log)
  | step_wait_none ps1 ps2 p k log :
      status_of p = Running (Wait k) -> Forall (fun q => ~ child_of (nm p) q) (ps1 ++ ps2) ->
      step true (Pool (ps1 ++ p :: ps2) log) (Pool (ps1 ++ with_status (Running k) p :: ps2) log)
  | step_fault ps1 ps2 p log :
      status_of p = Running Fault ->
      step true (Pool (ps1 ++ p :: ps2) log) (Pool (ps1 ++ with_status Zombie p :: ps2) (log ++ [Crashed]))
  | step_exit ps1 ps2 p log :
      (status_of p = Running Exit \/ status_of p = Job) ->
      step true (Pool (ps1 ++ p :: ps2) log)
        (Pool ((orphan (nm p) <$> ps1) ++ with_status Zombie p :: (orphan (nm p) <$> ps2)) log).

(** Every process has ended. *)
Definition finished (s : pool) : Prop := Forall (fun p => status_of p = Zombie) (procs s).

Definition boot (c : prog) (t : fdtable) : pool := Pool [Proc [] None 0 t (Running c)] [].

(** * What a program has still to do

    The events of a process and its descendants when no call fails by chance,
    and a bound on the steps they take, whatever fails. *)

Fixpoint events (c : prog) (nm : name) (n : nat) (t : fdtable) : list event :=
  match c with
  | Exit => []
  | Fault => [Crashed]
  | Exec argv _ => [Started argv t]
  | Open f m k =>
      match fdalloc t (Opened f m) with Some (fd, t') => events (k fd) nm n t' | None => events (k (-1)) nm n t end
  | Close fd k => events k nm n (closed t fd)
  | Dup fd k => events k nm n (dupped t fd)
  | Pipe k =>
      match piped t nm n with
      | Some (p0, p1, t') => events (k (Some (p0, p1))) nm (S n) t'
      | None => events (k None) nm n t
      end
  | Fork c k _ => events c (nm ++ [n]) 0 t ++ events k nm (S n) t
  | Wait k | Printf _ _ k => events k nm n t
  | Chdir path k => Changed path :: events (k 0) nm n t
  end.

Fixpoint cost (c : prog) (nm : name) (n : nat) (t : fdtable) : nat :=
  S match c with
  | Exit | Fault => 1
  | Exec _ k => 2 + cost k nm n t
  | Open f m k =>
      match fdalloc t (Opened f m) with Some (fd, t') => cost (k fd) nm n t' | None => 0%nat end + cost (k (-1)) nm n t
  | Close fd k => cost k nm n (closed t fd)
  | Dup fd k => cost k nm n (dupped t fd)
  | Pipe k =>
      match piped t nm n with Some (p0, p1, t') => cost (k (Some (p0, p1))) nm (S n) t' | None => 0%nat end +
      cost (k None) nm n t
  | Fork c k f => 1 + cost c (nm ++ [n]) 0 t + cost k nm (S n) t + cost f nm n t
  | Wait k | Printf _ _ k => cost k nm n t
  | Chdir _ k => cost (k 0%Z) nm n t + cost (k (-1)%Z) nm n t
  end.

(** A failed call loses work and does not add any. *)
Fixpoint careful (c : prog) (nm : name) (n : nat) (t : fdtable) : Prop :=
  match c with
  | Exit | Fault => True
  | Exec argv k => events k nm n t `sublist_of` [Started argv t] /\ careful k nm n t
  | Open f m k =>
      events (k (-1)) nm n t `sublist_of` events c nm n t /\ careful (k (-1)) nm n t /\
      match fdalloc t (Opened f m) with Some (fd, t') => careful (k fd) nm n t' | None => True end
  | Close fd k => careful k nm n (closed t fd)
  | Dup fd k => careful k nm n (dupped t fd)
  | Pipe k =>
      events (k None) nm n t `sublist_of` events c nm n t /\ careful (k None) nm n t /\
      match piped t nm n with Some (p0, p1, t') => careful (k (Some (p0, p1))) nm (S n) t' | None => True end
  | Fork c' k f =>
      events f nm n t `sublist_of` events c nm n t /\ careful f nm n t /\ careful c' (nm ++ [n]) 0 t /\ careful k nm (S n) t
  | Wait k | Printf _ _ k => careful k nm n t
  | Chdir path k =>
      events (k (-1)) nm n t `sublist_of` events c nm n t /\ careful (k (-1)) nm n t /\ careful (k 0) nm n t
  end.

Definition proc_events (p : proc) : list event :=
  match status_of p with Running c => events c (nm p) (count p) (files p) | _ => [] end.
Definition proc_cost (p : proc) : nat :=
  match status_of p with Running c => S (cost c (nm p) (count p) (files p)) | Job => 2 | Zombie => 1 end.
Definition proc_careful (p : proc) : Prop :=
  match status_of p with Running c => careful c (nm p) (count p) (files p) | _ => True end.

(** What has been done and what is left. *)
Definition all_events (s : pool) : list event := log s ++ List.flat_map proc_events (procs s).
Definition pool_cost (s : pool) : nat := sum_list_with proc_cost (procs s).
Definition pool_careful (s : pool) : Prop := Forall proc_careful (procs s).

Lemma call_events nm ok c n t k n' t' ev :
  call nm ok c n t k n' t' ev -> careful c nm n t ->
  careful k nm n' t' /\ (cost k nm n' t' < cost c nm n t)%nat /\
  if ok then ev ++ events k nm n' t' = events c nm n t else ev ++ events k nm n' t' `sublist_of` events c nm n t.
Proof. destruct 1; cbn [careful events cost app]; intros Hc; simplify_option_eq; intuition (auto || lia). Qed.

Lemma flat_map_middle {A B} (f : A -> list B) l1 x l2 :
  List.flat_map f (l1 ++ x :: l2) = List.flat_map f l1 ++ f x ++ List.flat_map f l2.
Proof. by rewrite List.flat_map_app. Qed.

Lemma sum_middle {A} (f : A -> nat) l1 x l2 :
  sum_list_with f (l1 ++ x :: l2) = (sum_list_with f l1 + (f x + sum_list_with f l2))%nat.
Proof. by rewrite sum_list_with_app. Qed.

Lemma orphan_same nm p : proc_events (orphan nm p) = proc_events p /\ proc_cost (orphan nm p) = proc_cost p /\
  (proc_careful p -> proc_careful (orphan nm p)).
Proof. unfold orphan. by destruct (decide _). Qed.

Lemma orphans_same nm ps :
  List.flat_map proc_events (orphan nm <$> ps) = List.flat_map proc_events ps /\
  sum_list_with proc_cost (orphan nm <$> ps) = sum_list_with proc_cost ps /\
  (Forall proc_careful ps -> Forall proc_careful (orphan nm <$> ps)).
Proof.
  induction ps as [|p ps (IH1 & IH2 & IH3)]; [done|]. destruct (orphan_same nm p) as (E1 & E2 & E3).
  cbn. rewrite E1, E2, IH1, IH2. split; [done|]. split; [done|]. intros [??]%Forall_cons. constructor; auto.
Qed.

(** A process of the pool is replaced by another one, and [ev] is done. *)
Lemma middle_step l ev (ps1 ps2 : list proc) p p' :
  ev ++ proc_events p' ≡ₚ proc_events p ->
  (l ++ ev) ++ List.flat_map proc_events (ps1 ++ p' :: ps2) ≡ₚ l ++ List.flat_map proc_events (ps1 ++ p :: ps2).
Proof. intros H. rewrite !flat_map_middle, <- H. solve_Permutation. Qed.

Lemma middle_loss l ev (ps1 ps2 : list proc) p p' :
  ev ++ proc_events p' ⊆+ proc_events p ->
  (l ++ ev) ++ List.flat_map proc_events (ps1 ++ p' :: ps2) ⊆+ l ++ List.flat_map proc_events (ps1 ++ p :: ps2).
Proof.
  intros H. rewrite !flat_map_middle, <- app_assoc. apply submseteq_app; [done|].
  trans (List.flat_map proc_events ps1 ++ (ev ++ proc_events p') ++ List.flat_map proc_events ps2); [|by repeat apply submseteq_app].
  apply Permutation_submseteq. solve_Permutation.
Qed.

Lemma middle_careful ps1 ps2 p p' :
  Forall proc_careful (ps1 ++ p :: ps2) -> (proc_careful p -> proc_careful p') -> Forall proc_careful (ps1 ++ p' :: ps2).
Proof. rewrite !Forall_app, !Forall_cons. intuition. Qed.

Lemma running p c : status_of p = Running c ->
  proc_events p = events c (nm p) (count p) (files p) /\ proc_cost p = S (cost c (nm p) (count p) (files p)) /\
  (proc_careful p = careful c (nm p) (count p) (files p)).
Proof. intros E. unfold proc_events, proc_cost, proc_careful. by rewrite E. Qed.

Lemma reaped_perm x z ps1 ps2 qs1 qs2 : reaped z ps1 ps2 qs1 qs2 -> ps1 ++ x :: ps2 ≡ₚ z :: qs1 ++ x :: qs2.
Proof. intros [(a & b & -> & -> & ->)|(a & b & -> & -> & ->)]; solve_Permutation. Qed.

(** A step does a part of what is left, and the steps left get fewer. *)
Lemma step_events ok s s' :
  step ok s s' -> pool_careful s ->
  pool_careful s' /\ (pool_cost s' < pool_cost s)%nat /\
  if ok then all_events s' ≡ₚ all_events s else all_events s' ⊆+ all_events s.
Proof.
  unfold pool_careful, pool_cost, all_events. destruct 1 as
    [ok ps1 ps2 p c k n t ev log E Hc | ps1 ps2 p argv k log E | ps1 ps2 p c k f log E | ps1 ps2 qs1 qs2 p z k log E Hz Ez Hp
    | ps1 ps2 p k log E Hno | ps1 ps2 p log E | ps1 ps2 p log E]; cbn [procs ShRun.log]; intros Hall;
    assert (proc_careful p) as Hcare by (by apply Forall_app in Hall as [_ [? _]%Forall_cons]);
    try (destruct (running p _ E) as (E1 & E2 & E3); rewrite E3 in Hcare; cbn [careful] in Hcare).
  - destruct (call_events _ _ _ _ _ _ _ _ _ Hc Hcare) as (H1 & H2 & H3). split; [by apply (middle_careful _ _ p)|].
    split; [rewrite !sum_middle, E2; cbn; lia|].
    destruct ok; [apply middle_step | apply middle_loss]; rewrite E1; cbn; [by rewrite H3 | by apply sublist_submseteq].
  - split; [by apply (middle_careful _ _ p)|]. split; [rewrite !sum_middle, E2; cbn; lia|].
    apply middle_step. rewrite E1. done.
  - destruct Hcare as (_ & _ & H1 & H2). split; [|split; [rewrite !sum_middle, E2; cbn; lia|]].
    + revert Hall. rewrite !Forall_app, !Forall_cons. cbn. intuition.
    + rewrite !flat_map_middle, E1. cbn. by rewrite <- app_assoc.
  - pose proof (reaped_perm (with_status (Running k) p) _ _ _ _ _ Hp) as Hps.
    assert (Forall proc_careful (z :: qs1 ++ with_status (Running k) p :: qs2)) as Hc'.
    { rewrite <- Hps. apply (middle_careful _ _ p); [done|]. by rewrite E3. }
    split; [by apply Forall_cons in Hc' as [_ ?]|]. split.
    + pose proof (sum_list_with_Permutation_proper proc_cost _ _ Hps) as H. change (sum_list_with proc_cost (z :: ?l)) with (proc_cost z + sum_list_with proc_cost l)%nat in H.
      assert (proc_cost z = 1%nat) as Hz1 by (unfold proc_cost; by rewrite Ez).
      rewrite Hz1, !sum_middle in H. rewrite !sum_middle, E2. cbn in *. lia.
    + rewrite <- (middle_step log [] ps1 ps2 p (with_status (Running k) p)) by (by rewrite E1).
      rewrite app_nil_r, Hps. cbn. unfold proc_events at 2. by rewrite Ez.
  - split; [by apply (middle_careful _ _ p); [|rewrite E3]|]. split; [rewrite !sum_middle, E2; cbn; lia|].
    rewrite <- (app_nil_r log) at 1. apply middle_step. by rewrite E1.
  - split; [by apply (middle_careful _ _ p)|]. split; [rewrite !sum_middle, E2; cbn; lia|].
    apply middle_step. by rewrite E1.
  - destruct (orphans_same (nm p) ps1) as (H1 & H2 & H3), (orphans_same (nm p) ps2) as (H4 & H5 & H6).
    apply Forall_app in Hall as [Ha [_ Hb]%Forall_cons]. split; [apply Forall_app; split; [auto | constructor; [done | auto]]|].
    rewrite !sum_middle, !flat_map_middle, H1, H2, H4, H5.
    assert (proc_events p = [] /\ (1 < proc_cost p)%nat) as [-> ?].
    { unfold proc_events, proc_cost. destruct E as [-> | ->]; cbn; split; [done | lia | done | lia]. }
    split; [cbn; lia | done].
Qed.

(** * A pool that has not finished can go on *)

Definition lineage (s : pool) : Prop :=
  Forall (fun p => match parent p with Some q => exists n, nm p = q ++ [n] | None => True end) (procs s).

Lemma step_lineage ok s s' : step ok s s' -> lineage s -> lineage s'.
Proof.
  unfold lineage. destruct 1; cbn [procs]; rewrite ?Forall_app, ?Forall_cons; cbn.
  - tauto.
  - tauto.
  - intros (? & ? & ?). split_and!; eauto.
  - intros (Ha & Hp & Hb). match goal with H : reaped _ _ _ _ _ |- _ => destruct H as [(a & b & -> & -> & ->)|(a & b & -> & -> & ->)] end;
      revert Ha Hb; rewrite !Forall_app, ?Forall_cons; tauto.
  - tauto.
  - tauto.
  - intros (Ha & Hp & Hb). split_and!; [|done|]; apply Forall_fmap; (eapply Forall_impl; [eassumption|]); intros q Hq;
      cbn; unfold orphan; by destruct (decide _).
Qed.

Lemma exists_max {A} (f : A -> nat) (P : A -> Prop) `{forall x, Decision (P x)} (l : list A) :
  Exists P l -> exists x, x ∈ l /\ P x /\ forall y, y ∈ l -> P y -> (f y <= f x)%nat.
Proof.
  induction l as [|a l IH]; [by intros ?%Exists_nil|]. intros Hex.
  destruct (decide (Exists P l)) as [Hl|Hl].
  - destruct (IH Hl) as (x & Hx & Px & Hmax). destruct (decide (P a /\ (f x <= f a)%nat)) as [[Pa Hle]|Hno].
    + exists a. split; [apply list_elem_of_here|]. split; [done|]. intros y [->|Hy]%elem_of_cons Py; [lia|]. specialize (Hmax y Hy Py). lia.
    + exists x. split; [by apply list_elem_of_further|]. split; [done|]. intros y [->|Hy]%elem_of_cons Py; [|auto].
      destruct (Nat.le_gt_cases (f a) (f x)); [done|]. exfalso. apply Hno. split; [done | lia].
  - apply Exists_cons in Hex as [Pa|?]; [|done]. exists a. split; [apply list_elem_of_here|]. split; [done|].
    intros y [->|Hy]%elem_of_cons Py; [done|]. exfalso. apply Hl, Exists_exists. eauto.
Qed.

Definition ended (p : proc) : Prop := status_of p = Zombie.
#[export] Instance ended_dec p : Decision (ended p).
Proof. unfold ended. destruct (status_of p); [right | right | left]; done. Defined.

#[local] Instance child_of_dec nm p : Decision (child_of nm p).
Proof. unfold child_of. apply _. Defined.

(** A process that is not waiting has a call to make. *)
Lemma call_ready nm c n t :
  match c with Exit | Fault | Exec _ _ | Fork _ _ _ | Wait _ => True
  | _ => exists k n' t' ev, call nm true c n t k n' t' ev end.
Proof.
  destruct c as [| | |f m k|fd k|fd k|k|c k f|k|path k|fd msg k]; try done; try by (repeat eexists; constructor).
  - destruct (fdalloc t (Opened f m)) as [[fd t']|] eqn:E; repeat eexists; [by apply call_open | by apply call_open_full].
  - destruct (piped t nm n) as [[[p0 p1] t']|] eqn:E; repeat eexists; [by apply call_pipe | by apply call_pipe_full].
Qed.

Lemma step_ready s : lineage s -> ~ finished s -> exists s', step true s s'.
Proof.
  destruct s as [ps log]. unfold lineage, finished. cbn. intros Hlin Hf.
  destruct (exists_max (fun p => length (nm p)) (fun p => ~ ended p) ps) as (p & Hp & Hlive & Hmax).
  { apply not_Forall_Exists in Hf; [done | apply _]. }
  pose proof Hp as Hp'. apply list_elem_of_split in Hp' as (ps1 & ps2 & ->).
  destruct (status_of p) as [c| |] eqn:E; [|eexists; by apply step_exit; right | done].
  pose proof (call_ready (nm p) c (count p) (files p)) as Hready.
  destruct c as [| | | | | | |c k f|k| | ]; try (destruct Hready as (? & ? & ? & ? & ?); eexists; by eapply step_call).
  - eexists. by apply step_exit; left.
  - eexists. by apply step_fault.
  - eexists. by eapply step_exec.
  - eexists. by eapply step_fork.
  - destruct (decide (Forall (fun q => ~ child_of (nm p) q) (ps1 ++ ps2))) as [Hno|Hc]; [eexists; by eapply step_wait_none|].
    apply not_Forall_Exists in Hc; [|apply _]. apply Exists_exists in Hc as (z & Hz & Hch). apply dec_stable in Hch.
    assert (ended z) as Ez.
    { destruct (decide (ended z)) as [|Hnz]; [done|]. exfalso. assert (z ∈ ps1 ++ p :: ps2) as Hin by set_solver.
      specialize (Hmax z Hin Hnz). rewrite Forall_forall in Hlin. specialize (Hlin z Hin). unfold child_of in Hch. rewrite Hch in Hlin.
      destruct Hlin as [n Hn]. rewrite Hn, length_app in Hmax. cbn in Hmax. lia. }
    assert (exists qs1 qs2, reaped z ps1 ps2 qs1 qs2) as (qs1 & qs2 & Hr); [|eexists; by eapply step_wait].
    apply elem_of_app in Hz as [(a & b & ->)%list_elem_of_split|(a & b & ->)%list_elem_of_split].
    + exists (a ++ b), ps2. left. eauto.
    + exists ps1, (a ++ b). right. eauto.
Qed.

(** * Runs *)

(** The steps of a run, and whether no call failed by chance in it. *)
Inductive run : bool -> nat -> pool -> pool -> Prop :=
  | run_nil s : run true 0 s s
  | run_step ok ok' n s s1 s2 : step ok s s1 -> run ok' n s1 s2 -> run (ok && ok') (S n) s s2.

Lemma run_events ok n s s' :
  run ok n s s' -> pool_careful s -> lineage s ->
  pool_careful s' /\ lineage s' /\ (n + pool_cost s' <= pool_cost s)%nat /\ all_events s' ⊆+ all_events s /\
  (ok = true -> all_events s' ≡ₚ all_events s).
Proof.
  induction 1 as [s|ok ok' n s s1 s2 Hs Hr IH]; intros Hc Hl; [done|].
  destruct (step_events _ _ _ Hs Hc) as (Hc1 & Hcost & Hev). destruct (IH Hc1 (step_lineage _ _ _ Hs Hl)) as (H1 & H2 & H3 & H4 & H5).
  split_and!; [done | done | lia | |].
  - trans (all_events s1); [done|]. destruct ok; [by rewrite Hev | done].
  - intros [-> ->]%andb_true_iff. by rewrite H5.
Qed.

Lemma run_app ok ok' n m s s1 s2 : run ok n s s1 -> run ok' m s1 s2 -> run (ok && ok') (n + m) s s2.
Proof.
  induction 1 as [s|ok ok1 n s s0 s1 Hs Hr IH]; intros H2; [done|]. rewrite <- andb_assoc. by eapply run_step; [|apply IH].
Qed.

(** A pool can always be run to its end, without a failing call. *)
Lemma run_to_end s : pool_careful s -> lineage s -> exists m s', run true m s s' /\ finished s'.
Proof.
  remember (pool_cost s) as c eqn:Ec. revert s Ec. induction (lt_wf c) as [c _ IH]; intros s Ec Hc Hl.
  destruct (decide (Forall ended (procs s))) as [Hf|Hf]; [exists 0%nat, s; split; [constructor | done]|].
  destruct (step_ready s Hl Hf) as [s1 Hs]. destruct (step_events _ _ _ Hs Hc) as (Hc1 & Hlt & _).
  destruct (IH (pool_cost s1) ltac:(lia) s1 eq_refl Hc1 (step_lineage _ _ _ Hs Hl)) as (m & s' & Hr & Hfin).
  exists (S m), s'. split; [|done]. change true with (true && true). by eapply run_step.
Qed.

Lemma finished_events s : finished s -> all_events s = log s.
Proof.
  destruct s as [ps l]. unfold all_events, finished. cbn. intros H. replace (List.flat_map proc_events ps) with (@nil event); [apply app_nil_r|].
  induction H as [|p ps Hp Hps IH]; [done|]. cbn. rewrite <- IH. unfold proc_events. by rewrite Hp.
Qed.

(** Every run of a careful program does at most what the program is to do, all
    of it when it finishes and no call failed, and cannot get stuck before. *)
Lemma pool_runs c t :
  careful c [] 0 t ->
  forall ok n s, run ok n (boot c t) s ->
    log s ⊆+ events c [] 0 t /\ (n <= S (cost c [] 0%nat t))%nat /\
    (finished s \/ exists s', step true s s') /\
    (ok = true -> finished s -> log s ≡ₚ events c [] 0 t).
Proof.
  intros Hc ok n s Hr. assert (all_events (boot c t) = events c [] 0 t) as E by (cbn; apply app_nil_r).
  destruct (run_events _ _ _ _ Hr) as (H1 & H2 & H3 & H4 & H5); [by repeat constructor..|]. rewrite E in H4, H5. split_and!.
  - trans (all_events s); [|done]. apply submseteq_inserts_r. done.
  - cbn in H3. lia.
  - destruct (decide (Forall ended (procs s))) as [|Hf]; [by left|]. right. by apply step_ready.
  - intros Hok Hf. rewrite <- H5 by done. by rewrite finished_events.
Qed.

(** Every run can be continued until all processes have ended, and then, if no
    call failed, all is done. *)
Lemma pool_ends c t ok n s :
  careful c [] 0 t -> run ok n (boot c t) s ->
  exists m s', run true m s s' /\ finished s' /\ (ok = true -> log s' ≡ₚ events c [] 0 t).
Proof.
  intros Hc Hr. destruct (run_events _ _ _ _ Hr) as (Hc' & Hl' & _); [by repeat constructor..|].
  destruct (run_to_end s Hc' Hl') as (m & s' & Hr' & Hf). exists m, s'. split; [exact Hr'|]. split; [exact Hf|]. intros ->.
  destruct (pool_runs _ _ Hc _ _ _ (run_app _ _ _ _ _ _ _ Hr Hr')) as (_ & _ & _ & H4). by apply H4.
Qed.
