(* ===== verification/ShSession.v ===== *)
(** What the shell does with the lines typed at its prompt: the jobs of a command
    and of a session, and the properties of [main] of src/src/sh.c. *)
From stdpp Require Import list sets strings.
From S2P Require Import Prelude Ulib Sys TextLemmas Sh ShProps ShRound ShRun.
Open Scope Z_scope.

(** * What a command is to do

    The jobs of the command [c], run by the process [nm] from its count [n] on,
    with input [i], output [o] and error output [e]: each job has these three
    descriptors and no other. *)
Fixpoint jobs (nm : name) (n : nat) (i o e : obj) (c : scmd) : list event :=
  match c with
  | SExec [] => []
  | SExec argv => [Started argv (std i o e)]
  | SRedir c f m fd => if fd =? 0 then jobs nm n (Opened f m) o e c else jobs nm n i (Opened f m) e c
  | SPipe l r => jobs (nm ++ [S n]) 0 i (WriteEnd nm n) e l ++ jobs (nm ++ [S (S n)]) 0 (ReadEnd nm n) o e r
  | SList l r => jobs (nm ++ [n]) 0 i o e l ++ jobs nm (S n) i o e r
  | SBack c => jobs (nm ++ [n]) 0 i o e c
  end.

(** Only input and output are redirected. *)
Fixpoint redirs_std (c : scmd) : Prop :=
  match c with
  | SExec _ => True
  | SRedir c _ _ fd => (fd = 0 \/ fd = 1) /\ redirs_std c
  | SPipe l r | SList l r => redirs_std l /\ redirs_std r
  | SBack c => redirs_std c
  end.

Definition pipe_table (i o e : obj) (nm : name) (n : nat) : fdtable :=
  [Some i; Some o; Some e; Some (ReadEnd nm n); Some (WriteEnd nm n)] ++ replicate (ofile_len - 5) None.

Lemma piped_std i o e nm n : piped (std i o e) nm n = Some (3, 4, pipe_table i o e nm n).
Proof. done. Qed.
Lemma left_std i o e nm n : closed (closed (dupped (closed (pipe_table i o e nm n) 1) 4) 3) 4 = std i (WriteEnd nm n) e.
Proof. done. Qed.
Lemma right_std i o e nm n : closed (closed (dupped (closed (pipe_table i o e nm n) 0) 3) 3) 4 = std (ReadEnd nm n) o e.
Proof. done. Qed.
Lemma redir_std i o e fd x : fd = 0 \/ fd = 1 ->
  fdalloc (closed (std i o e) fd) x = Some (fd, if fd =? 0 then std x o e else std i x e) /\ (fd <? 0) = false.
Proof. by intros [-> | ->]. Qed.

Lemma runcmd_jobs b c nm n i o e :
  redirs_std (read_cmd b c) ->
  events (runcmd b c) nm n (std i o e) = jobs nm n i o e (read_cmd b c) /\ careful (runcmd b c) nm n (std i o e).
Proof.
  unfold read_cmd. revert nm n i o e.
  induction c as [argv|c IH file efile mode fd|l IHl r IHr|l IHl r IHr|c IH]; intros nm n i o e; cbn [decode redirs_std runcmd jobs].
  - intros _. destruct ((fun '(q, _) => _) <$> argv) as [|a args]; [done|]. cbn. split; [done|]. split; [|done]. apply sublist_nil_l.
  - intros [Hfd H]. cbn [events careful]. destruct (redir_std i o e fd (Opened (cstr (drop (Z.to_nat file) b)) mode) Hfd) as [-> ->].
    cbn [Z.ltb Z.compare events careful]. destruct (fd =? 0); edestruct IH as [-> Hc]; try done;
      (split; [done|]; split; [apply sublist_nil_l | done]).
  - intros [Hl Hr]. cbn [events careful]. rewrite piped_std. cbn [events careful fork1]. rewrite left_std, right_std.
    edestruct IHl as [-> Hcl]; [done|]. edestruct IHr as [-> Hcr]; [done|]. rewrite !app_nil_r.
    split; [done|]. split_and!; try done; apply sublist_nil_l.
  - intros [Hl Hr]. cbn [events careful fork1]. edestruct IHl as [-> Hcl]; [done|]. edestruct IHr as [-> Hcr]; [done|].
    split; [done|]. split_and!; try done; apply sublist_nil_l.
  - intros H. cbn [events careful fork1]. edestruct IH as [-> Hc]; [done|]. rewrite app_nil_r.
    split; [done|]. split_and!; try done; apply sublist_nil_l.
Qed.

Lemma tree_redirs :
  (forall l, redirs_std (line_tree l)) /\ (forall p, redirs_std (pipe_tree p)) /\ (forall e, redirs_std (exec_tree e)).
Proof.
  assert (forall rs c, redirs_std c -> redirs_std (swrap rs c)) as Hw.
  { induction rs as [|[d w] rs IH]; [done|]. intros c Hc. cbn. apply IH. cbn. split; [|done]. destruct d; cbn; lia. }
  assert (forall bg c, redirs_std c -> redirs_std (sbacks bg c)) as Hb by (intros bg c; induction bg; cbn; auto).
  apply grammar_mut; cbn; intuition. by apply Hw.
Qed.

(** A program that waits for each child before it does anything else. *)
Fixpoint sequential (c : prog) : Prop :=
  match c with
  | Exit | Fault => True
  | Exec _ k | Close _ k | Dup _ k | Wait k | Printf _ _ k => sequential k
  | Open _ _ k => forall r, sequential (k r)
  | Pipe k => forall r, sequential (k r)
  | Chdir _ k => forall r, sequential (k r)
  | Fork c k f => sequential c /\ sequential f /\ match k with Wait k => sequential k | _ => False end
  end.

(** Commands without pipes and background jobs. *)
Fixpoint foreground (c : scmd) : Prop :=
  match c with
  | SExec _ => True
  | SRedir c _ _ _ => foreground c
  | SList l r => foreground l /\ foreground r
  | SPipe _ _ | SBack _ => False
  end.

Lemma runcmd_sequential b c : foreground (read_cmd b c) -> sequential (runcmd b c).
Proof.
  unfold read_cmd. induction c as [argv|c IH f ef m fd|l IHl r IHr|l IHl r IHr|c IH]; cbn; try done.
  - intros _. by destruct (_ <$> argv).
  - intros H r. destruct (r <? 0); [done | auto].
  - intros [H1 H2]. auto.
Qed.

(** A line of the grammar, in the buffer of the shell. *)
Lemma run_line_jobs l rest nm n i o e :
  line_ok l ->
  let c := run_line (print (line_toks l) ++ 0 :: rest) in
  events c nm n (std i o e) = jobs nm n i o e (line_tree l) /\ careful c nm n (std i o e) /\
  (foreground (line_tree l) -> sequential c).
Proof.
  intros Hl. destruct (parsecmd_print l rest Hl) as (c & b' & E & Ec). unfold run_line. rewrite E, <- Ec.
  destruct (runcmd_jobs b' c nm n i o e) as [H1 H2]; [rewrite Ec; apply tree_redirs|].
  split; [done|]. split; [done | apply runcmd_sequential].
Qed.

(** * The loop of [main] *)

Definition nul (n : nat) : bytes := replicate n 0.

Lemma memset_nul b : memset b 0 0 (zlen b) = Ok (nul (length b)).
Proof.
  unfold memset. destruct (for_up_ex (fun i m => m = nul (Z.to_nat i) ++ drop (Z.to_nat i) b) 0 (zlen b)
    (fun i m => put m (0 + i) (u8 0)) b) as (m & -> & ->); [lia | done | |].
  - intros i m Hi ->. destruct (lookup_lt_is_Some_2 b (Z.to_nat i)) as [x Hx]; [lia|]. rewrite (drop_S _ _ _ Hx).
    rewrite put_middle by (unfold nul; rewrite length_replicate; lia). eexists. split; [done|].
    replace (Z.to_nat (i + 1)) with (S (Z.to_nat i)) by lia. unfold nul. rewrite replicate_S_end, <- app_assoc. done.
  - rewrite Nat2Z.id, drop_all, app_nil_r. done.
Qed.

Definition plain (c : Z) : Prop := is_char c /\ c <> 10 /\ c <> 13.

(** A line that fits the buffer is read up to its newline. *)
Lemma gets_loop_line w i max (d : bytes) z input n :
  Forall plain w -> i = zlen d -> i + zlen w + 1 < max -> (length w < n)%nat ->
  gets_loop n (d ++ nul (S (length w) + z)) max i (w ++ 10 :: input) =
  Ok (d ++ w ++ 10 :: nul z, i + zlen w + 1, input).
Proof.
  intros Hw. revert i d n. induction Hw as [|c w (Hc & H10 & H13) Hw IH]; intros i d [|n] Hi Hmax Hn; cbn [length] in *; try lia;
    cbn [gets_loop app]; (rewrite (proj2 (Z.ltb_lt _ _)) by lia); unfold nul; cbn [replicate Nat.add];
    rewrite put_middle by done; cbn [rbind].
  - cbn. do 3 f_equal. lia.
  - rewrite (proj2 (Z.eqb_neq c 10)), (proj2 (Z.eqb_neq c 13)) by done. cbn [orb].
    change (d ++ c :: 0 :: replicate (length w + z) 0) with (d ++ [c] ++ nul (S (length w) + z)). rewrite app_assoc.
    rewrite IH by (rewrite ?length_app; cbn; lia). rewrite <- app_assoc. do 3 f_equal. lia.
Qed.

Lemma getcmd_line w buf input :
  Forall plain w -> zlen w < 99 -> length buf = 100%nat -> hd 10 w <> 0 ->
  getcmd buf 100 (w ++ 10 :: input) = Ok ((w ++ [10]) ++ 0 :: nul (98 - length w), input, 0).
Proof.
  intros Hw Hlen Hb H0. unfold getcmd. pose proof (memset_nul buf) as E. rewrite Hb in E. cbn [Z.of_nat Pos.of_succ_nat] in E.
  change (Z.of_nat 100) with 100 in E. rewrite E. cbn [rbind]. unfold gets.
  replace (nul 100) with ([] ++ nul (S (length w) + (99 - length w))) by (cbn [app]; f_equal; lia).
  rewrite (gets_loop_line w 0 100 []) by (done || cbn; lia). cbn [rbind app].
  assert (w ++ 10 :: nul (99 - length w) = (w ++ [10]) ++ 0 :: nul (98 - length w)) as ->.
  { rewrite <- app_assoc. by replace (99 - length w)%nat with (S (98 - length w)) by lia. }
  rewrite put_middle by (rewrite length_app; cbn; lia). cbn [rbind].
  rewrite <- (app_assoc w [10]). destruct w as [|c w]; cbn [app]; [done|]. cbn in H0.
  rewrite (get_ok _ 0 c) by done. cbn [rbind]. by rewrite (proj2 (Z.eqb_neq c 0)) by done.
Qed.

Lemma getcmd_eof buf : length buf = 100%nat -> getcmd buf 100 [] = Ok (nul 100, [], -1).
Proof.
  intros Hb. unfold getcmd. pose proof (memset_nul buf) as E. rewrite Hb in E. change (Z.of_nat 100) with 100 in E. rewrite E. done.
Qed.

(** A line typed at the prompt: a change of directory or a command. *)
Inductive typed := Cd (path : bytes) | Command (l : gline).
Definition typed_text (x : typed) : bytes :=
  match x with Cd path => lit "cd " ++ path ++ [10] | Command l => print (line_toks l) end.
Definition typed_ok (x : typed) : Prop :=
  zlen (typed_text x) <= 99 /\
  match x with
  | Cd path => Forall plain path
  | Command l => line_ok l /\ line_toks l <> [] /\ forall r, typed_text x <> lit "cd " ++ r
  end.

Definition foreground_line (x : typed) : Prop := match x with Cd _ => True | Command l => foreground (line_tree l) end.

(** What a session is to do, from the count [n] of the shell on. *)
Fixpoint session (n : nat) (i o e : obj) (xs : list typed) : list event :=
  match xs with
  | [] => []
  | Cd path :: xs => Changed path :: session n i o e xs
  | Command l :: xs => jobs [n] 0 i o e (line_tree l) ++ session (S n) i o e xs
  end.

Lemma print_plain ts : Forall tok_ok ts -> ts <> [] -> exists w, print ts = w ++ [10] /\ Forall plain w /\ hd 10 w <> 0.
Proof.
  intros Hts. induction Hts as [|t ts Ht Hts IH]; [done|]. intros _. rewrite print_cons.
  destruct (tok_head t Ht) as (c & l & E & Hws & Hc0 & Hc).
  assert (Forall plain (text t)) as Hp.
  { destruct t as [w|y|]; cbn in *.
    - destruct Ht as [_ Hw]. eapply Forall_impl; [exact Hw|]. intros x [Hx Hxw]. split; [done|].
      destruct (word_no_ws x Hxw) as (Hws' & _). unfold ws in Hws'. rewrite bool_decide_eq_false in Hws'. set_solver.
    - destruct (sym_cases y Ht) as [->|[->|[->|[->|[->|[->| ->]]]]]]; repeat constructor; unfold is_char; lia.
    - repeat constructor; unfold is_char; lia. }
  assert (hd 10 (text t) <> 0) as H0 by (by rewrite E).
  destruct ts as [|t' ts]; [by exists (text t)|]. destruct IH as (w & -> & Hw & _); [done|].
  exists (text t ++ 32 :: w). rewrite <- app_assoc. split; [done|]. split.
  - apply Forall_app. split; [done|]. constructor; [|done]. unfold plain, is_char. lia.
  - rewrite E. by rewrite E in H0.
Qed.

Lemma typed_line x : typed_ok x -> exists w, typed_text x = w ++ [10] /\ Forall plain w /\ hd 10 w <> 0 /\ zlen w < 99.
Proof.
  intros [Hlen Hx]. assert (exists w, typed_text x = w ++ [10] /\ Forall plain w /\ hd 10 w <> 0) as (w & E & H1 & H2).
  { destruct x as [path|l].
    - exists (lit "cd " ++ path). split; [by rewrite <- app_assoc|]. split; [|done]. apply Forall_app. split; [|done].
      change (lit "cd ") with [99; 100; 32]. repeat constructor; unfold is_char; lia.
    - destruct Hx as (Hl & Hne & _). apply print_plain; [|done]. by apply (proj1 toks_ok). }
  exists w. rewrite E, length_app in Hlen. cbn in Hlen. split_and!; (done || lia).
Qed.

Lemma is_cd_text s z : (forall r, s <> lit "cd " ++ r) -> (98 <= length s + length z)%nat -> is_cd (s ++ 0 :: z) = Ok false.
Proof.
  intros Hs Hlen. unfold is_cd. assert (forall i, 0 <= i < 3 -> exists x, get (s ++ 0 :: z) i = Ok x) as Hget.
  { intros i Hi. destruct (get_lt (s ++ 0 :: z) i) as (x & ? & _); [rewrite length_app; cbn; lia | eauto]. }
  destruct (Hget 0 ltac:(lia)) as [c0 E0], (Hget 1 ltac:(lia)) as [c1 E1], (Hget 2 ltac:(lia)) as [c2 E2].
  rewrite E0, E1, E2. cbn [rbind]. f_equal. apply not_true_is_false. rewrite !andb_true_iff, !Z.eqb_eq. intros [[-> ->] ->].
  apply get_inv in E0 as [_ E0], E1 as [_ E1], E2 as [_ E2].
  change (Z.to_nat 0) with 0%nat in E0. change (Z.to_nat 1) with 1%nat in E1. change (Z.to_nat 2) with 2%nat in E2.
  destruct s as [|a [|b [|c s]]]; try discriminate. injection E0 as ->. injection E1 as ->. injection E2 as ->. by apply (Hs s).
Qed.

Lemma main_loop_session xs n fuel buf i o e :
  Forall typed_ok xs -> length buf = 100%nat -> (length (List.flat_map typed_text xs) < fuel)%nat ->
  let c := main_loop fuel buf (List.flat_map typed_text xs) in
  events c [] n (std i o e) = session n i o e xs /\ careful c [] n (std i o e) /\
  (Forall foreground_line xs -> sequential c).
Proof.
  intros Hxs. revert n fuel buf. induction Hxs as [|x xs Hx Hxs IH]; intros n [|fuel] buf Hb Hfuel; [lia | | lia|];
    cbn [List.flat_map main_loop].
  - rewrite getcmd_eof by done. done.
  - destruct (typed_line x Hx) as (w & E & Hw & H0 & Hlen). cbn [List.flat_map] in Hfuel. rewrite E, <- app_assoc in *. cbn [app].
    rewrite getcmd_line by done. cbn [Z.ltb Z.compare]. rewrite !length_app in Hfuel. cbn [length] in Hfuel.
    set (buf' := (w ++ [10]) ++ 0 :: nul (98 - length w)).
    assert (length buf' = 100%nat) as Hb' by (unfold buf', nul; rewrite !length_app; cbn; rewrite length_replicate; lia).
    destruct x as [path|l].
    + assert (w = lit "cd " ++ path) as ->.
      { cbn [typed_text] in E. rewrite (app_assoc _ path) in E. by apply app_inj_tail in E as [-> _]. }
      assert (is_cd buf' = Ok true) as -> by done.
      assert (is_str buf' ((lit "cd " ++ path) ++ [10])) as Hstr.
      { apply is_str_intro. apply Forall_app. split; [|by repeat constructor; unfold is_char; lia].
        eapply Forall_impl; [exact Hw|]. by intros ? []. }
      rewrite (strlen_str _ _ Hstr). cbn [rbind]. set (buf2 := (lit "cd " ++ path) ++ 0 :: 0 :: nul (98 - length (lit "cd " ++ path))).
      assert (put buf' (zlen ((lit "cd " ++ path) ++ [10]) - 1) 0 = Ok buf2) as ->.
      { unfold buf'. rewrite <- app_assoc. cbn [app]. apply put_middle. rewrite (length_app _ [10]). cbn [length]. lia. }
      assert (cstr (drop 3 buf2) = path) as ->.
      { apply cstr_str. unfold buf2. rewrite <- app_assoc. apply is_str_intro.
        destruct Hx as [_ Hp]. eapply Forall_impl; [exact Hp|]. by intros ? []. }
      assert (length buf2 = 100%nat) as Hb2.
      { unfold buf', buf2 in *. rewrite !length_app in *. cbn [length] in *. lia. }
      destruct (IH n fuel buf2 Hb2) as (E1 & Hc & Hseq); [lia|]. cbn [events careful Z.ltb Z.compare session]. rewrite E1.
      split; [done|]. split; [split_and!; [|done..]; by apply sublist_cons|].
      intros [_ Hf]%Forall_cons r. destruct (r <? 0); by apply Hseq.
    + assert (is_cd buf' = Ok false) as ->.
      { apply is_cd_text; [rewrite <- E; by destruct Hx as (_ & _ & _ & ?)|]. unfold nul. rewrite length_app, length_replicate. cbn. lia. }
      destruct Hx as (_ & Hl & _). unfold buf'. rewrite <- E. fold buf'.
      destruct (IH (S n) fuel buf' Hb') as (E1 & Hc & Hseq); [lia|].
      destruct (run_line_jobs l (nul (98 - length w)) ([] ++ [n]) 0 i o e Hl) as (E2 & Hc2 & Hseq2).
      cbn [typed_text] in E |- *. unfold buf' in *. rewrite <- E in *. cbn [events careful fork1 session]. rewrite E1, E2.
      split; [done|]. split; [split_and!; try done; apply sublist_nil_l|].
      intros [Hf1 Hf2]%Forall_cons. split_and!; [by apply Hseq2 | done | by apply Hseq].
Qed.

(** * Commands that run one after the other

    In a program that waits for each child before it does anything else, the
    processes that have not ended form a chain, each one waiting for the one
    before it, and only the first of them can make a step. *)

Lemma call_sequential nm ok c n t k n' t' ev : call nm ok c n t k n' t' ev -> sequential c -> sequential k.
Proof. destruct 1; cbn; tauto || auto. Qed.

Definition live (ps : list proc) : list proc := filter (fun p => ~ ended p) ps.
Definition nkids (q : name) (ps : list proc) : nat := sum_list_with (fun x => if bool_decide (parent x = Some q) then 1%nat else 0%nat) ps.
Definition waiting (p : proc) : Prop := exists k, status_of p = Running (Wait k).
Definition seq_proc (p : proc) : Prop := match status_of p with Running c => sequential c | _ => True end.

Fixpoint chain (ps : list proc) : Prop :=
  match ps with
  | p :: ((q :: _) as ps') => (parent p = Some (nm q) /\ (length (nm q) < length (nm p))%nat) /\ chain ps'
  | _ => True
  end.

Definition seq_inv (ps : list proc) : Prop :=
  chain (live ps) /\
  (forall q, q ∈ live ps -> seq_proc q /\ (nkids (nm q) ps <= 1)%nat /\ (nkids (nm q) ps <> 0%nat -> waiting q)) /\
  (forall x q, x ∈ ps -> parent x = Some q -> (length q < length (nm x))%nat /\ exists y, y ∈ live ps /\ nm y = q).

Lemma live_middle ps1 p ps2 : ~ ended p -> live (ps1 ++ p :: ps2) = live ps1 ++ p :: live ps2.
Proof. intros H. unfold live. rewrite filter_app, filter_cons_True by done. done. Qed.
Lemma live_ended ps1 p ps2 : ended p -> live (ps1 ++ p :: ps2) = live ps1 ++ live ps2.
Proof. intros H. unfold live. rewrite filter_app, filter_cons_False by tauto. done. Qed.
Lemma live_in p ps : p ∈ live ps <-> ~ ended p /\ p ∈ ps.
Proof. unfold live. by rewrite list_elem_of_filter. Qed.

Lemma nkids_middle q ps1 p ps2 :
  nkids q (ps1 ++ p :: ps2) = (nkids q ps1 + ((if bool_decide (parent p = Some q) then 1 else 0) + nkids q ps2))%nat.
Proof. unfold nkids. by rewrite sum_middle. Qed.
Lemma nkids_child q x ps : x ∈ ps -> child_of q x -> (1 <= nkids q ps)%nat.
Proof. intros (a & b & ->)%list_elem_of_split H. rewrite nkids_middle, bool_decide_eq_true_2 by done. lia. Qed.
Lemma nkids_none q ps : nkids q ps = 0%nat -> Forall (fun x => ~ child_of q x) ps.
Proof. intros H. apply Forall_forall. intros x Hx Hc. pose proof (nkids_child q x ps Hx Hc). lia. Qed.

Lemma nkids_zero q ps : Forall (fun x => ~ child_of q x) ps -> nkids q ps = 0%nat.
Proof. unfold nkids. induction 1 as [|x l Hx Hl IH]; [done|]. cbn. rewrite bool_decide_eq_false_2 by done. exact IH. Qed.

Lemma nkids_pos q ps : nkids q ps <> 0%nat -> exists x, x ∈ ps /\ child_of q x.
Proof.
  induction ps as [|x ps IH]; [done|]. unfold nkids. cbn. destruct (bool_decide_reflect (parent x = Some q)) as [H|H]; intros Hn.
  - exists x. split; [apply list_elem_of_here | done].
  - destruct IH as (y & Hy & Hc); [done|]. exists y. split; [by apply list_elem_of_further | done].
Qed.

(** The process before [p] in the chain is its child. *)
Lemma chain_before l p r : chain (l ++ p :: r) -> l <> [] -> exists x, x ∈ l /\ parent x = Some (nm p).
Proof.
  induction l as [|a l IH]; [done|]. intros Hc _. destruct l as [|b l]; cbn in Hc.
  - exists a. split; [apply list_elem_of_here | tauto].
  - destruct (IH (proj2 Hc)) as (x & Hx & E); [done|]. exists x. split; [by apply list_elem_of_further | done].
Qed.

(** The first of a chain has the longest name. *)
Lemma chain_longest p l y : chain (p :: l) -> y ∈ l -> (length (nm y) < length (nm p))%nat.
Proof.
  revert p. induction l as [|q l IH]; intros p Hc Hy; [by apply elem_of_nil in Hy|].
  destruct Hc as [[_ Hlt] Hc]. apply elem_of_cons in Hy as [->|Hy]; [done|]. specialize (IH q Hc Hy). lia.
Qed.

(** Only the first process of the chain makes a step. *)
Lemma first_steps ps1 p ps2 :
  seq_inv (ps1 ++ p :: ps2) -> ~ ended p ->
  (waiting p -> Forall (fun q => ~ child_of (nm p) q) (ps1 ++ ps2) \/ exists z, z ∈ ps1 ++ ps2 /\ ended z /\ child_of (nm p) z) ->
  live ps1 = [].
Proof.
  intros (Hch & Hq & _) Hp Hw. rewrite live_middle in Hch by done. destruct (decide (live ps1 = [])) as [|Hne]; [done|]. exfalso.
  destruct (chain_before _ _ _ Hch Hne) as (x & Hx & Hc). apply live_in in Hx as [Hxl Hx].
  destruct (Hq p) as (_ & Hle & Hwait); [apply live_in; set_solver|].
  pose proof (nkids_child (nm p) x ps1 Hx Hc) as H1. rewrite nkids_middle in Hle, Hwait.
  destruct Hw as [Hno|(z & Hz & Ez & Hcz)]; [by apply Hwait; lia | |].
  - apply Forall_app in Hno as [Hno _]. rewrite Forall_forall in Hno. by apply (Hno x).
  - apply elem_of_app in Hz as [Hz|Hz]; [|pose proof (nkids_child (nm p) z ps2 Hz Hcz); lia].
    apply list_elem_of_split in Hz as (a & b & ->). rewrite nkids_middle, bool_decide_eq_true_2 in Hle by done.
    apply elem_of_app in Hx as [Hx|[->|Hx]%elem_of_cons]; [|done|]; pose proof (nkids_child _ _ _ Hx Hc); lia.
Qed.

Section First.
Context (ps1 ps2 : list proc) (p : proc).
Context (Hinv : seq_inv (ps1 ++ p :: ps2)) (Hp : ~ ended p) (H1 : live ps1 = []).

Lemma live_first : live (ps1 ++ p :: ps2) = p :: live ps2.
Proof. rewrite live_middle by done. by rewrite H1. Qed.

Lemma first_kids : seq_proc p /\ (nkids (nm p) (ps1 ++ p :: ps2) <= 1)%nat /\ (nkids (nm p) (ps1 ++ p :: ps2) <> 0%nat -> waiting p).
Proof. apply Hinv. rewrite live_first. apply list_elem_of_here. Qed.

(** No other process has the name of the first one. *)
Lemma first_name y : y ∈ live ps2 -> (length (nm y) < length (nm p))%nat.
Proof. destruct Hinv as [Hc _]. rewrite live_first in Hc. by apply chain_longest. Qed.

(** The first process goes on. *)
Lemma seq_replace p' :
  nm p' = nm p -> parent p' = parent p -> ~ ended p' -> seq_proc p' ->
  (nkids (nm p) (ps1 ++ p :: ps2) <> 0%nat -> waiting p') -> seq_inv (ps1 ++ p' :: ps2).
Proof.
  intros En Ep Hp' Hs Hw. pose proof first_kids as (_ & Hk & _). destruct Hinv as (Hch & Hq & Hpar). rewrite live_first in *.
  assert (forall q, nkids q (ps1 ++ p' :: ps2) = nkids q (ps1 ++ p :: ps2)) as Ek.
  { intros q. rewrite !nkids_middle. by rewrite Ep. }
  split; [|split]; rewrite ?live_middle, ?H1 by done; cbn [app].
  - destruct (live ps2) as [|q l]; [done|]. cbn in *. by rewrite En, Ep.
  - intros q [->|Hin]%elem_of_cons; rewrite Ek; [rewrite En; auto|]. apply Hq. by apply list_elem_of_further.
  - intros x q Hx Ex. assert (exists y, y ∈ ps1 ++ p :: ps2 /\ parent y = parent x /\ nm y = nm x) as (x' & Hx' & E1 & E2).
    { apply elem_of_app in Hx as [Hx|[->|Hx]%elem_of_cons]; [exists x|exists p|exists x]; (split; [set_solver | done]). }
    rewrite <- E1 in Ex. destruct (Hpar x' q Hx' Ex) as (Hl & y & Hy & Ey). rewrite <- E2. split; [done|].
    apply elem_of_cons in Hy as [->|Hy]; [exists p' | exists y]; (split; [set_solver | congruence]).
Qed.

(** The first process starts a child and waits for it. *)
Lemma seq_fork c k :
  nkids (nm p) (ps1 ++ p :: ps2) = 0%nat -> sequential c -> sequential k ->
  seq_inv (ps1 ++ Proc (nm p ++ [count p]) (Some (nm p)) 0 (files p) (Running c) ::
                  Proc (nm p) (parent p) (S (count p)) (files p) (Running (Wait k)) :: ps2).
Proof.
  intros H0 Hc Hk. set (ch := Proc _ (Some _) _ _ _). set (p' := Proc _ (parent p) _ _ _).
  pose proof (seq_replace p' eq_refl eq_refl ltac:(done) Hk) as (Hch & Hq & Hpar); [intros _; by exists k|].
  rewrite live_middle, H1 in Hch, Hq by done. cbn [app] in Hch, Hq.
  assert (live (ps1 ++ ch :: p' :: ps2) = ch :: p' :: live ps2) as El.
  { rewrite live_middle, H1 by done. cbn [app]. unfold live. by rewrite filter_cons_True by done. }
  assert (forall q, nkids q (ps1 ++ ch :: p' :: ps2) = ((if bool_decide (q = nm p) then 1 else 0) + nkids q (ps1 ++ p' :: ps2))%nat) as Ek.
  { intros q. rewrite !nkids_middle. unfold nkids. cbn [sum_list_with parent ch].
    destruct (bool_decide_reflect (Some (nm p) = Some q)), (bool_decide_reflect (q = nm p)); try congruence; lia. }
  assert (nkids (nm p) (ps1 ++ p' :: ps2) = 0%nat) as H0' by (rewrite nkids_middle in *; exact H0).
  assert (forall y, y ∈ p' :: live ps2 -> (length (nm y) <= length (nm p))%nat) as Hlong.
  { intros y [->|Hy]%elem_of_cons; [done|]. pose proof (first_name y Hy). lia. }
  split; [|split].
  - rewrite El. split; [|done]. cbn. rewrite length_app. cbn. split; [done | lia].
  - intros q. rewrite El. intros [->|Hin]%elem_of_cons; rewrite Ek.
    + assert (nkids (nm ch) (ps1 ++ p' :: ps2) = 0%nat) as ->.
      { destruct (nkids (nm ch) _) eqn:E; [done|]. exfalso.
        destruct (nkids_pos (nm ch) (ps1 ++ p' :: ps2)) as (x & Hx & Hcx); [lia|].
        destruct (Hpar x _ Hx Hcx) as (_ & y & Hy & Ey). rewrite live_middle, H1 in Hy by done.
        apply Hlong in Hy. rewrite Ey in Hy. cbn in Hy. rewrite length_app in Hy. cbn in Hy. lia. }
      rewrite bool_decide_eq_false_2; [split; [exact Hc | split; [cbn; lia | by intros []]]|]. cbn. intros E. apply (f_equal length) in E. rewrite length_app in E. cbn in E. lia.
    + apply elem_of_cons in Hin as [->|Hin].
      * cbn [nm p']. rewrite H0', bool_decide_eq_true_2 by done. split; [exact Hk|]. split; [lia|]. intros _. by exists k.
      * rewrite bool_decide_eq_false_2; [apply Hq; by apply list_elem_of_further|]. intros E. pose proof (first_name q Hin). rewrite E in *. lia.
  - intros x q Hx Ex. rewrite El. assert (x = ch \/ x ∈ ps1 ++ p' :: ps2) as [->|Hx'] by set_solver.
    + injection Ex as <-. cbn. rewrite length_app. cbn. split; [lia|]. exists p'. split; [set_solver | done].
    + destruct (Hpar x q Hx' Ex) as (Hl & y & Hy & Ey). split; [done|]. exists y. rewrite live_middle, H1 in Hy by done. split; [set_solver | done].
Qed.

(** The first process ends. *)
Lemma seq_end p' :
  nm p' = nm p -> parent p' = parent p -> ended p' -> nkids (nm p) (ps1 ++ p :: ps2) = 0%nat -> seq_inv (ps1 ++ p' :: ps2).
Proof.
  intros En Ep Hp' H0. destruct Hinv as (Hch & Hq & Hpar). rewrite live_first in *.
  split; [|split]; rewrite ?live_ended, ?H1 by done; cbn [app].
  - destruct (live ps2); [done | apply Hch].
  - intros q Hin. destruct (Hq q) as (? & ? & ?); [by apply list_elem_of_further|]. rewrite nkids_middle, Ep, <- nkids_middle. done.
  - intros x q Hx Ex. assert (exists y, y ∈ ps1 ++ p :: ps2 /\ parent y = parent x /\ nm y = nm x) as (x' & Hx' & E1 & E2).
    { apply elem_of_app in Hx as [Hx|[->|Hx]%elem_of_cons]; [exists x|exists p|exists x]; (split; [set_solver | done]). }
    rewrite <- E1 in Ex. destruct (Hpar x' q Hx' Ex) as (Hl & y & Hy & Ey). rewrite <- E2. split; [done|].
    apply elem_of_cons in Hy as [->|Hy]; [|by exists y]. exfalso. rewrite <- Ey in Ex. pose proof (nkids_child _ _ _ Hx' Ex). lia.
Qed.
End First.

(** A process that has ended is removed. *)
Lemma seq_remove a z b : seq_inv (a ++ z :: b) -> ended z -> seq_inv (a ++ b).
Proof.
  intros (Hch & Hq & Hpar) Ez. rewrite live_ended in * by done. assert (live (a ++ b) = live a ++ live b) as El by apply filter_app.
  assert (forall q, nkids q (a ++ b) <= nkids q (a ++ z :: b))%nat as Hle.
  { intros q. rewrite nkids_middle. unfold nkids. rewrite sum_list_with_app. lia. }
  unfold seq_inv. rewrite El. split; [done|]. split.
  - intros q Hin. destruct (Hq q Hin) as (? & ? & Hw). specialize (Hle (nm q)). split; [done|]. split; [lia|]. intros Hn. apply Hw. lia.
  - intros x q Hx. apply Hpar. set_solver.
Qed.

Lemma orphan_none q ps : Forall (fun x => ~ child_of q x) ps -> orphan q <$> ps = ps.
Proof.
  induction 1 as [|x ps Hx Hps IH]; [done|]. cbn. rewrite IH. f_equal. unfold orphan. by destruct (decide _).
Qed.

Lemma first_events l ps1 ps2 p : live ps1 = [] -> l ++ List.flat_map proc_events (ps1 ++ p :: ps2) = l ++ proc_events p ++ List.flat_map proc_events ps2.
Proof.
  intros H1. rewrite flat_map_middle. f_equal. replace (List.flat_map proc_events ps1) with (@nil event); [done|].
  induction ps1 as [|x ps1 IH]; [done|]. unfold live in H1. rewrite filter_cons in H1. destruct (decide (~ ended x)) as [|Hx]; [done|].
  cbn. rewrite <- IH by done. apply dec_stable in Hx. unfold proc_events. by rewrite Hx.
Qed.

Lemma live_running p c : status_of p = Running c -> ~ ended p.
Proof. unfold ended. congruence. Qed.

Lemma seq_running p c : status_of p = Running c -> seq_proc p = sequential c.
Proof. intros E. unfold seq_proc. by rewrite E. Qed.

(** A process that does not wait has no children. *)
Lemma idle_first ps1 p ps2 :
  seq_inv (ps1 ++ p :: ps2) -> ~ ended p -> ~ waiting p ->
  live ps1 = [] /\ seq_proc p /\ nkids (nm p) (ps1 ++ p :: ps2) = 0%nat.
Proof.
  intros Hinv Hp Hw. assert (live ps1 = []) as H1 by (by apply (first_steps ps1 p ps2)). split; [done|].
  destruct (first_kids ps1 ps2 p Hinv Hp H1) as (Hs & _ & Hk). split; [done|].
  destruct (decide (nkids (nm p) (ps1 ++ p :: ps2) = 0%nat)) as [|Hn]; [done|]. by apply Hk in Hn.
Qed.

(** A process that waits and has a child that ended has no other one. *)
Lemma reap_first ps1 p ps2 qs1 qs2 z :
  seq_inv (ps1 ++ p :: ps2) -> ~ ended p -> child_of (nm p) z -> ended z -> reaped z ps1 ps2 qs1 qs2 ->
  seq_inv (qs1 ++ p :: qs2) /\ live ps1 = [] /\ live qs1 = [] /\ nkids (nm p) (qs1 ++ p :: qs2) = 0%nat /\
  List.flat_map proc_events qs2 = List.flat_map proc_events ps2.
Proof.
  intros Hinv Hlive Hz Ez Hp.
  assert (z ∈ ps1 ++ ps2) as Hin by (destruct Hp as [(a & b & -> & _)|(a & b & -> & _)]; set_solver).
  assert (live ps1 = []) as H1 by (apply (first_steps ps1 p ps2); [done..|]; intros _; right; by exists z).
  destruct (first_kids ps1 ps2 p Hinv Hlive H1) as (_ & Hle & _).
  assert (proc_events z = []) as Ezv by (unfold proc_events; by rewrite Ez).
  destruct Hp as [(a & b & -> & -> & ->)|(a & b & -> & -> & ->)].
  - rewrite <- app_assoc in *. cbn [app] in *. rewrite nkids_middle, bool_decide_eq_true_2 in Hle by done.
    split; [by apply (seq_remove a z)|]. split; [done|]. split; [by rewrite live_ended in H1; [unfold live; rewrite filter_app|]|].
    split; [|done]. unfold nkids in *. rewrite sum_list_with_app. lia.
  - change (ps1 ++ p :: a ++ z :: b) with (ps1 ++ (p :: a) ++ z :: b) in *.
    change (p :: a ++ b) with ((p :: a) ++ b). rewrite app_assoc in *. rewrite nkids_middle, bool_decide_eq_true_2 in Hle by done.
    split; [by apply (seq_remove _ z)|]. split; [done|]. split; [done|]. split; [|by rewrite flat_map_middle, Ezv, List.flat_map_app].
    unfold nkids in *. rewrite sum_list_with_app. lia.
Qed.

Definition keeps_order (ok : bool) (s s' : pool) : Prop :=
  if ok then all_events s' = all_events s else all_events s' `sublist_of` all_events s.

(** A step of the first process keeps the chain, and does the next thing. *)
Lemma step_order ok s s' :
  step ok s s' -> pool_careful s -> seq_inv (procs s) -> seq_inv (procs s') /\ keeps_order ok s s'.
Proof.
  assert (forall p c, status_of p = Running c -> match c with Wait _ => False | _ => True end -> ~ waiting p) as Hnw.
  { intros p c E Hc [k Hk]. rewrite Hk in E. by injection E as <-. }
  unfold pool_careful, keeps_order, all_events. destruct 1 as
    [ok ps1 ps2 p c k n t ev log E Hc | ps1 ps2 p argv k log E | ps1 ps2 p c k f log E | ps1 ps2 qs1 qs2 p z k log E Hz Ez Hp
    | ps1 ps2 p k log E Hno | ps1 ps2 p log E | ps1 ps2 p log E]; cbn [procs ShRun.log]; intros Hall Hinv;
    try (pose proof (live_running _ _ E) as Hlive; pose proof (seq_running _ _ E) as Hseq; destruct (running p _ E) as (Ev & _ & Ec));
    try (destruct (idle_first _ _ _ Hinv Hlive (Hnw _ _ E I)) as (H1 & Hs & H0); rewrite Hseq in Hs).
  - destruct (idle_first _ _ _ Hinv Hlive) as (H1 & Hs & H0); [apply (Hnw _ _ E); by destruct Hc|]. rewrite Hseq in Hs. split.
    + apply (seq_replace ps1 ps2 p Hinv Hlive H1); try done. by apply (call_sequential _ _ _ _ _ _ _ _ _ Hc).
    + destruct (call_events _ _ _ _ _ _ _ _ _ Hc) as (_ & _ & H3).
      { rewrite <- Ec. by apply Forall_app in Hall as [_ [? _]%Forall_cons]. }
      rewrite !first_events, Ev, <- app_assoc by done. cbn.
      destruct ok; [by rewrite <- H3, <- app_assoc|]. apply sublist_app; [done|]. rewrite app_assoc. by apply sublist_app.
  - split; [by apply (seq_replace ps1 ps2 p Hinv Hlive H1)|]. rewrite !first_events, Ev by done. cbn. by rewrite <- app_assoc.
  - destruct Hs as (Hc & Hf & Hk). destruct k as [| | | | | | | |k| |]; try done.
    split; [by apply (seq_fork ps1 ps2 p Hinv Hlive H1)|]. rewrite !first_events, Ev by done. cbn. by rewrite <- app_assoc.
  - destruct (reap_first _ _ _ _ _ _ Hinv Hlive Hz Ez Hp) as (Hinv' & H1 & H1' & H0 & Eq2).
    destruct (first_kids ps1 ps2 p Hinv Hlive H1) as (Hs & _). rewrite Hseq in Hs.
    split; [by apply (seq_replace qs1 qs2 p Hinv' Hlive H1')|]. by rewrite !first_events, Eq2, Ev by done.
  - assert (live ps1 = []) as H1 by (apply (first_steps ps1 p ps2); [done..|]; intros _; by left).
    destruct (first_kids ps1 ps2 p Hinv Hlive H1) as (Hs & _). rewrite Hseq in Hs. split; [|by rewrite !first_events, Ev by done].
    apply (seq_replace ps1 ps2 p Hinv Hlive H1); [done | done | done | done|]. intros (x & Hx & Hcx)%nkids_pos. exfalso.
    assert (x = p \/ x ∈ ps1 ++ ps2) as [->|Hx'] by set_solver; [|rewrite Forall_forall in Hno; by apply (Hno x)].
    destruct Hinv as (_ & _ & Hpar). destruct (Hpar p (nm p)) as [? _]; [set_solver | done | lia].
  - split; [by apply (seq_end ps1 ps2 p Hinv Hlive H1)|]. rewrite !first_events, Ev by done. cbn. by rewrite <- app_assoc.
  - assert (~ waiting p /\ ~ ended p /\ proc_events p = []) as (Hw & Hlive & Ev).
    { unfold waiting, ended, proc_events. destruct E as [-> | ->]; (split; [by intros [? ?] | done]). }
    destruct (idle_first _ _ _ Hinv Hlive Hw) as (H1 & _ & H0).
    pose proof (nkids_none _ _ H0) as Hno. apply Forall_app in Hno as [Hno1 [_ Hno2]%Forall_cons].
    rewrite !orphan_none by done. split; [by apply (seq_end ps1 ps2 p Hinv Hlive H1)|]. by rewrite !first_events, Ev by done.
Qed.

Lemma run_order ok n s s' :
  run ok n s s' -> pool_careful s -> seq_inv (procs s) ->
  all_events s' `sublist_of` all_events s /\ (ok = true -> all_events s' = all_events s).
Proof.
  induction 1 as [s|ok ok' n s s1 s2 Hs Hr IH]; intros Hc Hi; [done|].
  destruct (step_order _ _ _ Hs Hc Hi) as [Hi1 Ho]. destruct (step_events _ _ _ Hs Hc) as (Hc1 & _). destruct (IH Hc1 Hi1) as [H1 H2].
  split.
  - trans (all_events s1); [done|]. unfold keeps_order in Ho. destruct ok; [by rewrite Ho | done].
  - intros [-> ->]%andb_true_iff. by rewrite H2.
Qed.

(** Every run of a program that waits for its children does the next things. *)
Lemma pool_order c t :
  careful c [] 0 t -> sequential c ->
  forall ok n s, run ok n (boot c t) s ->
    log s `sublist_of` events c [] 0 t /\ (ok = true -> log s `prefix_of` events c [] 0 t).
Proof.
  intros Hc Hs ok n s Hr. assert (all_events (boot c t) = events c [] 0 t) as Eb by apply app_nil_r.
  destruct (run_order _ _ _ _ Hr) as [H1 H2]; [by repeat constructor | |].
  - unfold seq_inv, boot, live. cbn [procs]. rewrite filter_cons_True, filter_nil by done. split; [done|]. split.
    + intros q ->%list_elem_of_singleton. split; [exact Hs|].
      assert (nkids [] [Proc [] None 0 t (Running c)] = 0%nat) as E0 by reflexivity. cbn [nm]. rewrite E0. split; [lia | done].
    + intros x q ->%list_elem_of_singleton. done.
  - rewrite Eb in H1, H2. split.
    + trans (all_events s); [|done]. by apply sublist_inserts_r.
    + intros Hok. rewrite <- H2 by done. by apply prefix_app_r.
Qed.

(** * The pipes of a session have different names *)

Fixpoint pipes (nm : name) (n : nat) (c : scmd) : list (name * nat) :=
  match c with
  | SExec _ => []
  | SRedir c _ _ _ => pipes nm n c
  | SPipe l r => (nm, n) :: pipes (nm ++ [S n]) 0 l ++ pipes (nm ++ [S (S n)]) 0 r
  | SList l r => pipes (nm ++ [n]) 0 l ++ pipes nm (S n) r
  | SBack c => pipes (nm ++ [n]) 0 c
  end.

Fixpoint session_pipes (n : nat) (xs : list typed) : list (name * nat) :=
  match xs with
  | [] => []
  | Cd _ :: xs => session_pipes n xs
  | Command l :: xs => pipes [n] 0 (line_tree l) ++ session_pipes (S n) xs
  end.

(** A name made by the process [nm] from its count [n] on. *)
Definition made (nm : name) (n : nat) (x : name * nat) : Prop :=
  (fst x = nm /\ (n <= snd x)%nat) \/ exists m r, (n <= m)%nat /\ fst x = nm ++ m :: r.

Lemma made_child nm n m x : made (nm ++ [m]) 0 x -> (n <= m)%nat -> made nm n x.
Proof.
  intros [[E _]|(m' & r & _ & E)] Hm; right; rewrite E; [by exists m, []|].
  exists m, (m' :: r). by rewrite <- app_assoc.
Qed.

Lemma made_le nm n m x : made nm m x -> (n <= m)%nat -> made nm n x.
Proof. intros [[E H]|(m' & r & H & E)] Hm; [left; split; [done | lia] | right; exists m', r; split; [lia | done]]. Qed.

Lemma made_apart nm m n x : made (nm ++ [m]) 0 x -> (m < n)%nat -> ~ made nm n x.
Proof.
  intros H Hm H'. assert (exists r, fst x = nm ++ m :: r) as [r E].
  { destruct H as [[E _]|(m' & r & _ & E)]; [by exists []; rewrite E|]. exists (m' :: r). by rewrite E, <- app_assoc. }
  destruct H' as [[E' _]|(m' & r' & Hm' & E')]; rewrite E in E'.
  - apply (f_equal length) in E'. rewrite length_app in E'. cbn in E'. lia.
  - apply app_inv_head in E' as [= -> _]. lia.
Qed.

Lemma pipes_made nm n c : Forall (made nm n) (pipes nm n c) /\ NoDup (pipes nm n c).
Proof.
  assert (forall m x nm n c, Forall (made (nm ++ [m]) 0) (pipes (nm ++ [m]) 0 c) -> x ∈ pipes (nm ++ [m]) 0 c -> (n <= m)%nat -> made nm n x) as Hin.
  { intros m x nm' n' c' H Hx Hle. rewrite Forall_forall in H. eapply made_child; [by apply H | done]. }
  revert nm n. induction c as [argv|c IH f m fd|l IHl r IHr|l IHl r IHr|c IH]; intros nm n; cbn [pipes]; [by split; constructor | apply IH | | |].
  - destruct (IHl (nm ++ [S n]) 0%nat) as [Fl Nl], (IHr (nm ++ [S (S n)]) 0%nat) as [Fr Nr]. split.
    + constructor; [left; done|]. apply Forall_app. split; apply Forall_forall; intros x Hx; [eapply (Hin (S n)); [exact Fl | exact Hx | lia] | eapply (Hin (S (S n))); [exact Fr | exact Hx | lia]].
    + apply NoDup_cons. split; [|apply NoDup_app; split; [done|split; [|done]]].
      * intros [Hx|Hx]%elem_of_app; rewrite Forall_forall in Fl, Fr; [apply Fl in Hx | apply Fr in Hx];
          destruct Hx as [[E _]|(m & q & _ & E)]; apply (f_equal length) in E; cbn in E; rewrite !length_app in E; cbn in E; lia.
      * intros x Hx Hx'. rewrite Forall_forall in Fl. apply Fl in Hx. apply (made_apart nm (S n) (S (S n)) x Hx); [lia|].
        by eapply (Hin (S (S n))).
  - destruct (IHl (nm ++ [n]) 0%nat) as [Fl Nl], (IHr nm (S n)) as [Fr Nr]. split.
    + apply Forall_app. split; apply Forall_forall; intros x Hx; [by apply (Hin n x nm n l)|].
      rewrite Forall_forall in Fr. apply (made_le nm n (S n)); [by apply Fr | lia].
    + apply NoDup_app. split; [done|]. split; [|done]. intros x Hx Hx'. rewrite Forall_forall in Fl, Fr.
      apply (made_apart nm n (S n) x); [by apply Fl | lia | by apply Fr].
  - destruct (IH (nm ++ [n]) 0%nat) as [F N]. split; [|done]. apply Forall_forall. intros x Hx. by eapply (Hin n); eauto.
Qed.

Lemma session_pipes_made n xs : Forall (made [] n) (session_pipes n xs) /\ NoDup (session_pipes n xs).
Proof.
  revert n. induction xs as [|[path|l] xs IH]; intros n; cbn [session_pipes]; [by split; constructor | apply IH|].
  destruct (pipes_made ([] ++ [n]) 0 (line_tree l)) as [Fl Nl], (IH (S n)) as [Fr Nr]. cbn [app] in *. split.
  - apply Forall_app. split; apply Forall_forall; intros x Hx; rewrite Forall_forall in Fl, Fr.
    + apply (made_child [] n n x); [by apply Fl | done].
    + eapply made_le; [by apply Fr | lia].
  - apply NoDup_app. split; [done|]. split; [|done]. intros x Hx Hx'. rewrite Forall_forall in Fl, Fr.
    apply (made_apart [] n (S n) x); [by apply Fl | lia | by apply Fr].
Qed.

(** * Properties of the shell *)

Lemma main_session xs i o e :
  Forall typed_ok xs ->
  events (main (List.flat_map typed_text xs)) [] 0 (std i o e) = session 0 i o e xs /\
  careful (main (List.flat_map typed_text xs)) [] 0 (std i o e) /\
  (Forall foreground_line xs -> sequential (main (List.flat_map typed_text xs))).
Proof.
  intros Hxs. unfold main. set (c := main_loop _ _ _).
  destruct (main_loop_session xs 0 (S (length (List.flat_map typed_text xs))) (replicate 100 0) i o e Hxs) as (E & Hc & Hseq); [done | lia|]. fold c in E, Hc, Hseq.
  assert (fdalloc (std i o e) (Opened (lit "console") O_RDWR) = Some (3, [Some i; Some o; Some e; Some (Opened (lit "console") O_RDWR)] ++ replicate (ofile_len - 4) None)) as Ef by done.
  assert (closed ([Some i; Some o; Some e; Some (Opened (lit "console") O_RDWR)] ++ replicate (ofile_len - 4) None) 3 = std i o e) as Ec by done.
  change (open_console 4 c) with (Open (lit "console") O_RDWR (fun fd => if fd <? 0 then c else if 3 <=? fd then Close fd c else open_console 3 c)).
  cbn [events careful]. rewrite Ef. cbn [Z.ltb Z.leb Z.compare Pos.compare Pos.compare_cont events careful]. rewrite Ec.
  split; [exact E|]. split; [split; [reflexivity | split; exact Hc]|]. intros Hf%Hseq. clearbody c. clear - Hf.
  intros r. assert (forall n, sequential (open_console n c)) as Hn.
  { induction n as [|n IH]; [done|]. intros fd. destruct (fd <? 0); [done|]. by destruct (3 <=? fd). }
  destruct (r <? 0); [done|]. destruct (3 <=? r); [done | apply (Hn 3%nat)].
Qed.



(** C9: The shell runs the lines typed at its prompt.  [main] reads any sequence of
    well-formed lines, commands in their printed form and changes of directory, of
    at most 99 bytes each with the newline (a longer line is cut, and its rest run
    as a line of its own), in a parser whose [malloc] succeeds; it runs them in
    processes that interleave in any way and whose system calls may fail at any
    time.  Then every program it starts is a command of the lines, no command is
    started more often than it is written, and it is started with exactly its
    own arguments and with the three descriptors its redirections and pipes say
    and no other one: no end of a pipe leaks.  When no call failed and every
    process has ended, all commands have been started.  The pipes have
    different names, so that ends of the same name are ends of one pipe. *)
Theorem sh_session xs i o e :
  Forall typed_ok xs ->
  NoDup (session_pipes 0 xs) /\
  forall ok n s, run ok n (boot (main (List.flat_map typed_text xs)) (std i o e)) s ->
    log s ⊆+ session 0 i o e xs /\ (ok = true -> finished s -> log s ≡ₚ session 0 i o e xs).
Proof.
  intros Hxs. split; [apply session_pipes_made|]. destruct (main_session xs i o e Hxs) as (<- & Hc & _).
  intros ok n s Hr. destruct (pool_runs _ _ Hc ok n s Hr) as (H1 & _ & _ & H4). split; [exact H1 | exact H4].
Qed.

(** No command of a session is a crash. *)
Lemma jobs_no_crash nm n i o e c : Crashed ∉ jobs nm n i o e c.
Proof.
  revert nm n i o e. induction c as [argv|c IH f m fd|l IHl r IHr|l IHl r IHr|c IH]; intros nm n i o e; cbn [jobs].
  - destruct argv; [apply not_elem_of_nil | by intros H%list_elem_of_singleton].
  - destruct (fd =? 0); apply IH.
  - rewrite elem_of_app. intros [H|H]; [by apply IHl in H | by apply IHr in H].
  - rewrite elem_of_app. intros [H|H]; [by apply IHl in H | by apply IHr in H].
  - apply IH.
Qed.

Lemma session_no_crash n i o e xs : Crashed ∉ session n i o e xs.
Proof.
  revert n. induction xs as [|[path|l] xs IH]; intros n; cbn [session]; [apply not_elem_of_nil | |].
  - intros [H|H]%elem_of_cons; [done | by apply IH in H].
  - intros [H|H]%elem_of_app; [by apply jobs_no_crash in H | by apply IH in H].
Qed.

(** C14: The shell comes to the end of its input.  For lines as in C9, whatever calls
    fail and in every interleaving: the steps of the shell and of its processes are
    bounded; no process crashes (no null pointer, no access outside the buffer, and
    no loop of the model out of fuel); as long as one process has not ended one of
    them can go on, so no [wait] waits for ever when the programs end; and every run
    can be continued to a state in which all have ended, where, if no call had
    failed, every line of the input has been read and run. *)
Theorem sh_completes xs i o e :
  Forall typed_ok xs ->
  exists bound, forall ok n s, run ok n (boot (main (List.flat_map typed_text xs)) (std i o e)) s ->
    (n <= bound)%nat /\ Crashed ∉ log s /\ (finished s \/ exists s', step true s s') /\
    exists m s', run true m s s' /\ finished s' /\ (ok = true -> log s' ≡ₚ session 0 i o e xs).
Proof.
  intros Hxs. destruct (main_session xs i o e Hxs) as (Ev & Hc & _). eexists. intros ok n s Hr.
  destruct (pool_runs _ _ Hc ok n s Hr) as (H1 & H2 & H3 & _). split; [exact H2|]. rewrite Ev in H1.
  split; [intros H; eapply elem_of_submseteq in H; [|exact H1]; by apply session_no_crash in H|]. split; [exact H3|].
  rewrite <- Ev. exact (pool_ends _ _ _ _ _ Hc Hr).
Qed.

(** C13: Lines without pipes and background commands run one after the other: the
    programs are started and the directories changed in the order of the lines,
    and of the commands in them, in every interleaving; failed calls leave
    programs out and do not reorder them. *)
Theorem sh_in_order xs i o e :
  Forall typed_ok xs -> Forall foreground_line xs ->
  forall ok n s, run ok n (boot (main (List.flat_map typed_text xs)) (std i o e)) s ->
    log s `sublist_of` session 0 i o e xs /\ (ok = true -> log s `prefix_of` session 0 i o e xs).
Proof.
  intros Hxs Hf. destruct (main_session xs i o e Hxs) as (<- & Hc & Hseq). apply pool_order; [exact Hc | exact (Hseq Hf)].
Qed.

(** "cd b", and "( a > c & ) | de ; e < f" *)
Definition demo_lines : list typed := [Cd [98]; Command demo_line].
(** "a ; e < f" *)
Definition demo_seq : list typed :=
  [Command (GSeq (GExec (GSimple [] [([97], [])])) 0 (GLine (GExec (GSimple [] [([101], [(In, [102])])])) 0))].

Lemma demo_lines_ok : Forall typed_ok demo_lines.
Proof.
  assert (forall r, typed_text (Command demo_line) <> lit "cd " ++ r) as Hcd by by intros r.
  assert (line_ok demo_line) as Hl by (cbn; repeat split; repeat constructor; try done; cbn; try lia; vm_compute; done).
  constructor; [|constructor; [|constructor]].
  - split; [by vm_compute|]. constructor; [|constructor]. unfold plain, is_char. lia.
  - split; [by vm_compute|]. split; [done|]. done.
Qed.

Lemma demo_seq_ok : Forall typed_ok demo_seq.
Proof.
  constructor; [|constructor]. split; [by vm_compute|]. split; [|done].
  cbn; repeat split; repeat constructor; try done; cbn; try lia; vm_compute; done.
Qed.

(** The plumbing of the second line: the block is the writer of the pipe. *)
Lemma sh_session_witness :
  Forall typed_ok demo_lines /\
  session 0 Console Console Console demo_lines =
    [Changed [98];
     Started [[97]] (std Console (Opened [99] (Z.lor O_WRONLY O_CREATE)) Console);
     Started [[100; 101]] (std (ReadEnd [0%nat; 0%nat] 0) Console Console);
     Started [[101]] (std (Opened [102] O_RDONLY) Console Console)] /\
  forall ok n s, run ok n (boot (main (List.flat_map typed_text demo_lines)) (std Console Console Console)) s ->
    log s ⊆+ session 0 Console Console Console demo_lines.
Proof.
  split; [exact demo_lines_ok|]. split; [reflexivity|]. intros ok n s Hr.
  destruct (sh_session demo_lines Console Console Console demo_lines_ok) as [_ H]. exact (proj1 (H ok n s Hr)).
Defined.

Lemma sh_completes_witness :
  exists bound, forall ok n s, run ok n (boot (main (List.flat_map typed_text demo_lines)) (std Console Console Console)) s ->
    (n <= bound)%nat /\ Crashed ∉ log s /\ (finished s \/ exists s', step true s s') /\
    exists m s', run true m s s' /\ finished s' /\ (ok = true -> log s' ≡ₚ session 0 Console Console Console demo_lines).
Proof. exact (sh_completes demo_lines Console Console Console demo_lines_ok). Defined.

Lemma sh_in_order_witness :
  Forall foreground_line demo_seq /\
  forall n s, run true n (boot (main (List.flat_map typed_text demo_seq)) (std Console Console Console)) s ->
    log s `prefix_of` [Started [[97]] (std Console Console Console); Started [[101]] (std (Opened [102] O_RDONLY) Console Console)].
Proof.
  assert (Forall foreground_line demo_seq) as Hf by (by repeat constructor). split; [exact Hf|]. intros n s Hr.
  exact (proj2 (sh_in_order demo_seq Console Console Console demo_seq_ok Hf true n s Hr) eq_refl).
Defined.
