(* ===== verification/Fs.v ===== *)
(** The inode layer of the file system: src/src/fs.c, fs.h and file.h.

    A sector is its 512 bytes.  The layers below are an interface: [bread] gives
    the bytes of a buffer, and [log_write] takes the modified bytes of one, so a
    buffer that is read, changed and handed to [log_write] is a read and a write
    here; [brelse] has no effect on the contents.  FsLog.v implements the
    interface with the log of Log.v.

    A [struct inode *] is an index of [icache.inode].  [bmap], [itrunc], [readi]
    and [writei] change only the inode they are given and the disk, so they work
    on the inode itself, and [on_inode] runs them through a pointer.  One process
    runs at a time: a lock that is taken is [Blocked].  Block numbers are below
    2^31, so the [int] counters of the loops do not wrap round. *)
From S2P Require Import Prelude Ulib Sys.

(** * Constants of fs.h, param.h and file.h *)

Definition BSIZE : Z := 512.
Definition NDIRECT : Z := 124.
Definition NINDIRECT : Z := BSIZE / 4.
Definition MAXFILE : Z := NDIRECT + NINDIRECT.
Definition sizeof_dinode : Z := 2 + 2 + 2 + 2 + 4 + 4 * (NDIRECT + 1).
Definition IPB : Z := BSIZE / sizeof_dinode.
Definition BPB : Z := BSIZE * 8.
Definition DIRSIZ : Z := 14.
Definition sizeof_dirent : Z := 2 + DIRSIZ.
Definition ROOTINO : Z := 1.
Definition ROOTDEV : Z := 1.
Definition NINODE : Z := 50.
Definition NDEV : Z := 10.
Definition I_BUSY : Z := 0x1.
Definition I_VALID : Z := 0x2.

Definition IBLOCK (i : Z) : Z := i / IPB + 2.
Definition BBLOCK (b ninodes : Z) : Z := b / BPB + ninodes / IPB + 3.

Record superblock := mk_sb { sb_size : Z; sb_nblocks : Z; sb_ninodes : Z; sb_nlog : Z }.

Record inode := mk_inode {
  i_dev : Z;
  i_inum : Z;
  i_ref : Z;
  i_flags : Z;
  i_type : Z;
  i_major : Z;
  i_minor : Z;
  i_nlink : Z;
  i_size : Z;
  i_addrs : list Z;               (** uint addrs[NDIRECT+1] *)
}.

Definition set_ref (v : Z) (i : inode) : inode :=
  mk_inode (i_dev i) (i_inum i) v (i_flags i) (i_type i) (i_major i) (i_minor i) (i_nlink i) (i_size i) (i_addrs i).
Definition set_flags (v : Z) (i : inode) : inode :=
  mk_inode (i_dev i) (i_inum i) (i_ref i) v (i_type i) (i_major i) (i_minor i) (i_nlink i) (i_size i) (i_addrs i).
Definition set_type (v : Z) (i : inode) : inode :=
  mk_inode (i_dev i) (i_inum i) (i_ref i) (i_flags i) v (i_major i) (i_minor i) (i_nlink i) (i_size i) (i_addrs i).
Definition set_dev_nums (major minor : Z) (i : inode) : inode :=
  mk_inode (i_dev i) (i_inum i) (i_ref i) (i_flags i) (i_type i) major minor (i_nlink i) (i_size i) (i_addrs i).
Definition set_nlink (v : Z) (i : inode) : inode :=
  mk_inode (i_dev i) (i_inum i) (i_ref i) (i_flags i) (i_type i) (i_major i) (i_minor i) v (i_size i) (i_addrs i).
Definition set_size (v : Z) (i : inode) : inode :=
  mk_inode (i_dev i) (i_inum i) (i_ref i) (i_flags i) (i_type i) (i_major i) (i_minor i) (i_nlink i) v (i_addrs i).
Definition set_addrs (v : list Z) (i : inode) : inode :=
  mk_inode (i_dev i) (i_inum i) (i_ref i) (i_flags i) (i_type i) (i_major i) (i_minor i) (i_nlink i) (i_size i) v.

Definition has_flag (i : inode) (flag : Z) : bool := negb (Z.land (i_flags i) flag =? 0).

(** * Words of a buffer, in the byte order of the machine *)

Definition rd16 (b : bytes) (o : Z) : result Z :=
  let! b0 := get b o in
  let! b1 := get b (o + 1) in
  Ok (b0 + 256 * b1).

Definition rd32 (b : bytes) (o : Z) : result Z :=
  let! lo := rd16 b o in
  let! hi := rd16 b (o + 2) in
  Ok (lo + 65536 * hi).

Definition wr16 (b : bytes) (o v : Z) : result bytes :=
  let! b := put b o (u8 v) in
  put b (o + 1) (u8 (v / 256)).

Definition wr32 (b : bytes) (o v : Z) : result bytes :=
  let! b := wr16 b o v in
  wr16 b (o + 2) (v / 65536).

(** * The layers below and the devices *)

(** [bread] and [log_write] take the device and the sector. *)
Class BlockDev (D : Type) := {
  bread : D -> Z -> Z -> result bytes;
  log_write : D -> Z -> Z -> bytes -> result D;
  begin_trans : D -> result D;
  commit_trans : D -> result D;
}.

(** [devsw]: a device has a read and a write function, or none; reading gives
    the result and the bytes. *)
Class Devsw (D : Type) := {
  devsw_read : Z -> option (D -> Z -> result (D * (Z * bytes)));
  devsw_write : Z -> option (D -> bytes -> Z -> result (D * Z));
}.

Section Fs.
Context {D : Type} `{!BlockDev D} `{!Devsw D}.

(** * Blocks *)

Definition readsb (d : D) (dev : Z) : result superblock :=
  let! bp := bread d dev 1 in
  let! size := rd32 bp 0 in
  let! nblocks := rd32 bp 4 in
  let! ninodes := rd32 bp 8 in
  let! nlog := rd32 bp 12 in
  Ok (mk_sb size nblocks ninodes nlog).

Definition bzero (d : D) (dev bno : Z) : result D :=
  let! bp := bread d dev bno in
  let! bp := memset bp 0 0 BSIZE in
  log_write d dev bno bp.

(** The inner loop of [balloc], over the bits of one bitmap block. *)
Definition balloc_block (d : D) (dev : Z) (sb : superblock) (b : Z) : result (unit + D * Z) :=
  let bno := BBLOCK b (sb_ninodes sb) in
  let! bp := bread d dev bno in
  for_brk 0 (Z.min BPB (sb_size sb - b))
    (fun bi _ =>
       let m := Z.shiftl 1 (bi mod 8) in
       let! x := get bp (bi / 8) in
       if Z.land x m =? 0 then
         let! bp := put bp (bi / 8) (u8 (Z.lor x m)) in
         let! d := log_write d dev bno bp in
         let! d := bzero d dev (b + bi) in
         Ok (inr (d, b + bi))
       else Ok (inl ())) ().

(** [for (b = 0; b < sb.size; b += BPB)]: round [k] looks at [b = k * BPB]. *)
Definition balloc (d : D) (dev : Z) : result (D * Z) :=
  let! sb := readsb d dev in
  let! o := for_brk 0 ((sb_size sb + BPB - 1) / BPB) (fun k _ => balloc_block d dev sb (k * BPB)) () in
  match o with inr r => Ok r | inl _ => Err Panic end.

Definition bfree (d : D) (dev b : Z) : result D :=
  let! sb := readsb d dev in
  let bno := BBLOCK b (sb_ninodes sb) in
  let! bp := bread d dev bno in
  let bi := b mod BPB in
  let m := Z.shiftl 1 (bi mod 8) in
  let! x := get bp (bi / 8) in
  if Z.land x m =? 0 then Err Panic
  else
    let! bp := put bp (bi / 8) (u8 (Z.land x (Z.lnot m))) in
    log_write d dev bno bp.

(** * Inodes on the disk *)

(** [(struct dinode * )bp->data + inum % IPB], as an offset. *)
Definition dinode_off (inum : Z) : Z := (inum mod IPB) * sizeof_dinode.

(** [memmove] between the words of [addrs] and the bytes of a buffer. *)
Definition get_addrs (b : bytes) (o : Z) : result (list Z) :=
  for_up 0 (NDIRECT + 1) (fun k l => let! a := rd32 b (o + 4 * k) in Ok (l ++ [a])) [].
Definition put_addrs (b : bytes) (o : Z) (addrs : list Z) : result bytes :=
  for_up 0 (NDIRECT + 1) (fun k b => let! a := get addrs k in wr32 b (o + 4 * k) a) b.

(** Copy a modified in-memory inode to disk. *)
Definition iupdate (d : D) (ip : inode) : result D :=
  let! bp := bread d (i_dev ip) (IBLOCK (i_inum ip)) in
  let o := dinode_off (i_inum ip) in
  let! bp := wr16 bp o (i_type ip) in
  let! bp := wr16 bp (o + 2) (i_major ip) in
  let! bp := wr16 bp (o + 4) (i_minor ip) in
  let! bp := wr16 bp (o + 6) (i_nlink ip) in
  let! bp := wr32 bp (o + 8) (i_size ip) in
  let! bp := put_addrs bp (o + 12) (i_addrs ip) in
  log_write d (i_dev ip) (IBLOCK (i_inum ip)) bp.

(** The part of [ilock] that reads the inode from the disk. *)
Definition iload (d : D) (ip : inode) : result inode :=
  let! bp := bread d (i_dev ip) (IBLOCK (i_inum ip)) in
  let o := dinode_off (i_inum ip) in
  let! type := rd16 bp o in
  let! major := rd16 bp (o + 2) in
  let! minor := rd16 bp (o + 4) in
  let! nlink := rd16 bp (o + 6) in
  let! size := rd32 bp (o + 8) in
  let! addrs := get_addrs bp (o + 12) in
  Ok (mk_inode (i_dev ip) (i_inum ip) (i_ref ip) (i_flags ip)
        (s16 type) (s16 major) (s16 minor) (s16 nlink) size addrs).

(** * Inode content *)

(** Entry [bn] of the indirect block [addr] of [ip], allocated if there is none. *)
Definition bmap_entry (d : D) (ip : inode) (addr bn : Z) : result (D * inode * Z) :=
  let! a := bread d (i_dev ip) addr in
  let! addr' := rd32 a (4 * bn) in
  if addr' =? 0 then
    let! '(d, addr') := balloc d (i_dev ip) in
    let! a := wr32 a (4 * bn) addr' in
    let! d := log_write d (i_dev ip) addr a in
    Ok (d, ip, addr')
  else Ok (d, ip, addr').

(** The disk block address of the [bn]th block of [ip], allocated if there is
    none. *)
Definition bmap (d : D) (ip : inode) (bn : Z) : result (D * inode * Z) :=
  if bn <? NDIRECT then
    let! addr := get (i_addrs ip) bn in
    if addr =? 0 then
      let! '(d, addr) := balloc d (i_dev ip) in
      let! addrs := put (i_addrs ip) bn addr in
      Ok (d, set_addrs addrs ip, addr)
    else Ok (d, ip, addr)
  else
    let bn := bn - NDIRECT in
    if bn <? NINDIRECT then
      let! addr := get (i_addrs ip) NDIRECT in
      let! '(d, ip, addr) :=
        if addr =? 0 then
          let! '(d, addr) := balloc d (i_dev ip) in
          let! addrs := put (i_addrs ip) NDIRECT addr in
          Ok (d, set_addrs addrs ip, addr)
        else Ok (d, ip, addr) in
      bmap_entry d ip addr bn
    else Err Panic.

(** The bodies of the two loops of [itrunc]. *)
Definition itrunc_direct (i : Z) (s : D * inode) : result (D * inode) :=
  let '(d, ip) := s in
  let! a := get (i_addrs ip) i in
  if negb (a =? 0) then
    let! d := bfree d (i_dev ip) a in
    let! addrs := put (i_addrs ip) i 0 in
    Ok (d, set_addrs addrs ip)
  else Ok (d, ip).

Definition itrunc_entry (dev : Z) (a : bytes) (j : Z) (d : D) : result D :=
  let! x := rd32 a (4 * j) in
  if negb (x =? 0) then bfree d dev x else Ok d.

Definition itrunc (d : D) (ip : inode) : result (D * inode) :=
  let! '(d, ip) := for_up 0 NDIRECT itrunc_direct (d, ip) in
  let! ind := get (i_addrs ip) NDIRECT in
  let! '(d, ip) :=
    if negb (ind =? 0) then
      let! a := bread d (i_dev ip) ind in
      let! d := for_up 0 NINDIRECT (itrunc_entry (i_dev ip) a) d in
      let! d := bfree d (i_dev ip) ind in
      let! addrs := put (i_addrs ip) NDIRECT 0 in
      Ok (d, set_addrs addrs ip)
    else Ok (d, ip) in
  let ip := set_size 0 ip in
  let! d := iupdate d ip in
  Ok (d, ip).

Definition stati (ip : inode) : stat := mk_stat (i_type ip) (i_inum ip) (i_nlink ip) (i_size ip).

(** The loop of [readi]; [dst] collects the bytes read. *)
Fixpoint readi_loop (k : nat) (d : D) (ip : inode) (dst : bytes) (off n tot : Z) : result (D * inode * bytes) :=
  if tot <? n then
    match k with
    | O => Err OutOfFuel
    | S k' =>
        let! '(d, ip, a) := bmap d ip (off / BSIZE) in
        let! bp := bread d (i_dev ip) a in
        let m := Z.min (n - tot) (BSIZE - off mod BSIZE) in
        let! part := memmove (malloc m) 0 bp (off mod BSIZE) m in
        readi_loop k' d ip (dst ++ part) (off + m) n (tot + m)
    end
  else Ok (d, ip, dst).

(** The result of the call and the bytes it put at [dst]. *)
Definition readi (d : D) (ip : inode) (off n : Z) : result (D * inode * (Z * bytes)) :=
  if i_type ip =? T_DEV then
    if (i_major ip <? 0) || (NDEV <=? i_major ip) then Ok (d, ip, (-1, []))
    else match devsw_read (i_major ip) with
    | None => Ok (d, ip, (-1, []))
    | Some f => let! '(d, r) := f d n in Ok (d, ip, r)
    end
  else if (i_size ip <? off) || (u32 (off + n) <? off) then Ok (d, ip, (-1, []))
  else
    let n := if i_size ip <? u32 (off + n) then i_size ip - off else n in
    let! '(d, ip, dst) := readi_loop (Z.to_nat n) d ip [] off n 0 in
    Ok (d, ip, (n, dst)).

(** The loop of [writei]. *)
Fixpoint writei_loop (k : nat) (d : D) (ip : inode) (src : bytes) (off n tot : Z) : result (D * inode * Z) :=
  if tot <? n then
    match k with
    | O => Err OutOfFuel
    | S k' =>
        let! '(d, ip, a) := bmap d ip (off / BSIZE) in
        let! bp := bread d (i_dev ip) a in
        let m := Z.min (n - tot) (BSIZE - off mod BSIZE) in
        let! bp := memmove bp (off mod BSIZE) src tot m in
        let! d := log_write d (i_dev ip) a bp in
        writei_loop k' d ip src (off + m) n (tot + m)
    end
  else Ok (d, ip, off).

Definition writei (d : D) (ip : inode) (src : bytes) (off n : Z) : result (D * inode * Z) :=
  if i_type ip =? T_DEV then
    if (i_major ip <? 0) || (NDEV <=? i_major ip) then Ok (d, ip, -1)
    else match devsw_write (i_major ip) with
    | None => Ok (d, ip, -1)
    | Some f => let! '(d, r) := f d src n in Ok (d, ip, r)
    end
  else if (i_size ip <? off) || (u32 (off + n) <? off) then Ok (d, ip, -1)
  else if MAXFILE * BSIZE <? u32 (off + n) then Ok (d, ip, -1)
  else
    let! '(d, ip, off) := writei_loop (Z.to_nat n) d ip src off n 0 in
    if (0 <? n) && (i_size ip <? off) then
      let ip := set_size off ip in
      let! d := iupdate d ip in
      Ok (d, ip, n)
    else Ok (d, ip, n).
End Fs.
