(* ===== verification/FsBlock.v ===== *)
(** Words in buffers, the interface of the layers below, and the contract of the
    block allocator of fs.c. *)
From stdpp Require Import gmap sets.
From stdpp Require Import gmap sets list_numbers.
From S2P Require Import Prelude Ulib Sys Fs.
Open Scope Z_scope.

(** * Bytes and words of a buffer *)

Definition byte_ok (x : Z) : Prop := 0 <= x < 256.
Definition block_ok (b : bytes) : Prop := zlen b = BSIZE /\ Forall byte_ok b.

Definition byte (b : bytes) (o : Z) : Z := nth (Z.to_nat o) b 0.
Definition w16 (b : bytes) (o : Z) : Z := byte b o + 256 * byte b (o + 1).
Definition w32 (b : bytes) (o : Z) : Z := w16 b o + 65536 * w16 b (o + 2).

Lemma get_byte b o : 0 <= o < zlen b -> get b o = Ok (byte b o).
Proof.
  intros Ho. destruct (get_lt b o Ho) as (x & -> & Hx). unfold byte. by rewrite (nth_lookup_Some _ _ _ _ Hx).
Qed.

Lemma lookup_byte b o : 0 <= o < zlen b -> b !! Z.to_nat o = Some (byte b o).
Proof. intros Ho. by apply get_byte, get_inv in Ho as [_ ?]. Qed.

Lemma byte_range b o : Forall byte_ok b -> 0 <= byte b o < 256.
Proof.
  intros Hb. unfold byte. destruct (nth_in_or_default (Z.to_nat o) b 0) as [Hin | ->]; [|lia].
  rewrite Forall_forall in Hb. by apply Hb, list_elem_of_In.
Qed.

Lemma byte_insert b i x j :
  0 <= i < zlen b -> 0 <= j -> byte (<[Z.to_nat i := x]> b) j = if j =? i then x else byte b j.
Proof.
  intros Hi Hj. unfold byte. rewrite !nth_lookup. rewrite lookup_insert_z by done. by destruct (j =? i).
Qed.

Lemma rd16_ok b o : 0 <= o -> o + 2 <= zlen b -> rd16 b o = Ok (w16 b o).
Proof. intros H1 H2. unfold rd16. rewrite !get_byte by lia. done. Qed.

Lemma rd32_ok b o : 0 <= o -> o + 4 <= zlen b -> rd32 b o = Ok (w32 b o).
Proof. intros H1 H2. unfold rd32. rewrite !rd16_ok by lia. done. Qed.

Lemma w32_range b o : Forall byte_ok b -> 0 <= w32 b o < 2 ^ 32.
Proof.
  intros Hb. unfold w32, w16. pose proof (byte_range b o Hb). pose proof (byte_range b (o + 1) Hb).
  pose proof (byte_range b (o + 2) Hb). pose proof (byte_range b (o + 2 + 1) Hb). lia.
Qed.

(** [b'] is [b] with the bytes of [v] in the [n] cells from [o] on. *)
Definition stored (n : Z) (b : bytes) (o v : Z) (b' : bytes) : Prop :=
  length b' = length b /\ (Forall byte_ok b -> Forall byte_ok b') /\
  forall k, 0 <= k -> byte b' k = if (o <=? k) && (k <? o + n) then u8 (v / 2 ^ (8 * (k - o))) else byte b k.

Lemma wr16_stored b o v : 0 <= o -> o + 2 <= zlen b -> exists b', wr16 b o v = Ok b' /\ stored 2 b o v b'.
Proof.
  intros H1 H2. unfold wr16. rewrite put_ok by lia. cbn [rbind]. rewrite put_ok by llia. eexists. split; [done|].
  split; [llia|]. split.
  - intros Hb. do 2 (apply Forall_insert; [|apply u8_range]). done.
  - intros k Hk. rewrite !byte_insert by llia. ztests; try done; f_equal.
    + replace k with (o + 1) by lia. by replace (8 * (o + 1 - o)) with 8 by lia.
    + replace k with o by lia. by rewrite Z.sub_diag, Z.div_1_r.
Qed.

Lemma wr32_stored b o v : 0 <= o -> o + 4 <= zlen b -> exists b', wr32 b o v = Ok b' /\ stored 4 b o v b'.
Proof.
  intros H1 H2. unfold wr32. destruct (wr16_stored b o v) as (b1 & -> & L1 & F1 & B1); [lia..|]. cbn [rbind].
  destruct (wr16_stored b1 (o + 2) (v / 65536)) as (b2 & -> & L2 & F2 & B2); [lia..|]. exists b2. split; [done|].
  split; [lia|]. split; [auto|]. intros k Hk. rewrite B2, B1 by done. ztests; try done.
  rewrite Z.div_div by lia. f_equal. change 65536 with (2 ^ 16). rewrite <- Z.pow_add_r by lia. do 2 f_equal. lia.
Qed.

Lemma stored_w16 b o v b' : stored 2 b o v b' -> 0 <= o -> w16 b' o = u16 v.
Proof.
  intros (_ & _ & H) Ho. unfold w16. rewrite !H by lia. zsimp.
  replace (8 * (o - o)) with 0 by lia. replace (8 * (o + 1 - o)) with 8 by lia.
  rewrite Z.div_1_r. unfold u8, u16. change (2 ^ 16) with (2 ^ 8 * 2 ^ 8). rewrite Z.rem_mul_r by lia. lia.
Qed.

Lemma stored_w16_ne n b o v b' o' : stored n b o v b' -> 0 <= o' -> o' + 2 <= o \/ o + n <= o' -> w16 b' o' = w16 b o'.
Proof. intros (_ & _ & H) Ho Hne. unfold w16. rewrite !H by lia. ztests; done. Qed.

Lemma stored_w32 b o v b' : stored 4 b o v b' -> 0 <= o -> w32 b' o = u32 v.
Proof.
  intros (_ & _ & H) Ho. unfold w32, w16. rewrite !H by lia. zsimp.
  replace (8 * (o - o)) with 0 by lia. replace (8 * (o + 1 - o)) with 8 by lia.
  replace (8 * (o + 2 - o)) with 16 by lia. replace (8 * (o + 2 + 1 - o)) with 24 by lia.
  rewrite Z.div_1_r. unfold u8, u32.
  change (2 ^ 32) with (2 ^ 8 * (2 ^ 8 * (2 ^ 8 * 2 ^ 8))). rewrite !Z.rem_mul_r by lia.
  rewrite !Z.div_div by lia. change (2 ^ 8 * 2 ^ 8) with (2 ^ 16). change (2 ^ 16 * 2 ^ 8) with (2 ^ 24). lia.
Qed.

Lemma stored_w32_ne n b o v b' o' : stored n b o v b' -> 0 <= o' -> o' + 4 <= o \/ o + n <= o' -> w32 b' o' = w32 b o'.
Proof. intros H Ho Hne. unfold w32. by rewrite !(stored_w16_ne n b o v b') by (done || lia). Qed.

Lemma stored_block n b o v b' : stored n b o v b' -> block_ok b -> block_ok b'.
Proof. intros (HL & HF & _) [Hb1 Hb2]. split; [by rewrite HL | auto]. Qed.

Definition zeros : bytes := replicate 512 0.

Lemma zeros_ok : block_ok zeros.
Proof. split; [done|]. apply Forall_replicate. unfold byte_ok. lia. Qed.

Lemma byte_zeros o : byte zeros o = 0.
Proof. unfold byte, zeros. rewrite nth_lookup. destruct (_ !! _) as [x|] eqn:E; [|done]. by apply lookup_replicate in E as [-> _]. Qed.

Lemma w32_zeros o : w32 zeros o = 0.
Proof. unfold w32, w16. by rewrite !byte_zeros. Qed.

Lemma memset_zeros b : zlen b = BSIZE -> memset b 0 0 BSIZE = Ok zeros.
Proof.
  intros Hb. unfold memset.
  destruct (for_up_ex (fun i m => zlen m = BSIZE /\ forall j, 0 <= j < i -> byte m j = 0) 0 BSIZE
              (fun i m => put m (0 + i) (u8 0)) b) as (m & -> & Hm & Hz).
  - done.
  - split; [done | lia].
  - intros i m Hi [Hm Hz]. cbn beta. rewrite put_ok by lia. eexists. split; [done|]. split; [by rewrite zlen_insert|].
    intros j Hj. rewrite byte_insert by lia. ztests; [done|]. apply Hz. lia.
  - f_equal. apply list_eq. intros i. destruct (decide (Z.of_nat i < BSIZE)) as [Hi|Hi].
    + pose proof (lookup_byte m (Z.of_nat i) ltac:(lia)) as E. rewrite Nat2Z.id in E. rewrite E, Hz by lia. symmetry.
      apply lookup_replicate. unfold BSIZE in Hi. split; [done | lia].
    + unfold BSIZE in *. rewrite (lookup_ge_None_2 m) by lia. symmetry. apply lookup_ge_None_2. unfold zeros. llia.
Qed.

(** * The interface of the layers below

    [sect] is what the cache holds of a sector; sectors from [home] on belong to
    the log.  In a transaction the sectors handed to [log_write] are [logged],
    at most [quota] of them. *)
Class BlockLaws (D : Type) `{!BlockDev D} := {
  dev_ok : D -> Prop;
  home : D -> Z;
  sect : D -> Z -> bytes;
  active : D -> bool;
  logged : D -> gset Z;
  quota : D -> nat;
  sect_block : forall d s, dev_ok d -> 0 <= s < home d -> block_ok (sect d s);
  bread_ok : forall d s, dev_ok d -> 0 <= s < home d -> bread d ROOTDEV s = Ok (sect d s);
  log_write_ok : forall d s b,
    dev_ok d -> active d = true -> 0 <= s < home d -> block_ok b -> (size ({[s]} ∪ logged d) <= quota d)%nat ->
    exists d', log_write d ROOTDEV s b = Ok d' /\ dev_ok d' /\ home d' = home d /\ active d' = true /\
      quota d' = quota d /\ logged d' = {[s]} ∪ logged d /\ sect d' s = b /\
      (forall s', 0 <= s' < home d -> s' <> s -> sect d' s' = sect d s');
  log_write_inactive : forall d s b, dev_ok d -> active d = false -> log_write d ROOTDEV s b = Err Panic;
}.

(** Transactions. *)
Class TransLaws (D : Type) `{!BlockDev D, !BlockLaws D} := {
  begin_ok : forall d,
    dev_ok d -> active d = false ->
    exists d', begin_trans d = Ok d' /\ dev_ok d' /\ home d' = home d /\ active d' = true /\ quota d' = quota d /\
      logged d' = ∅ /\ (forall s, 0 <= s < home d -> sect d' s = sect d s);
  commit_ok : forall d,
    dev_ok d -> active d = true ->
    exists d', commit_trans d = Ok d' /\ dev_ok d' /\ home d' = home d /\ active d' = false /\ quota d' = quota d /\
      (forall s, 0 <= s < home d -> sect d' s = sect d s);
}.

Section Laws.
Context {D : Type} `{!BlockDev D} `{!BlockLaws D}.

(** A transaction that has touched only [Y] and may touch [k] more sectors. *)
Definition room (d : D) (Y : gset Z) (k : nat) : Prop :=
  dev_ok d /\ active d = true /\ logged d ⊆ Y /\ (size Y + k <= quota d)%nat.

(** The disk of a transaction after some writes: nothing outside [X] changed. *)
Definition changes (X : gset Z) (d d' : D) : Prop :=
  home d' = home d /\ forall s, 0 <= s < home d -> s ∉ X -> sect d' s = sect d s.

Lemma changes_refl X d : changes X d d.
Proof. done. Qed.

Lemma changes_trans X d1 d2 d3 : changes X d1 d2 -> changes X d2 d3 -> changes X d1 d3.
Proof. intros [H1 H2] [H3 H4]. split; [congruence|]. intros s Hs Hn. rewrite H4 by (rewrite ?H1; done). by apply H2. Qed.

Lemma changes_mono X X' d d' : X ⊆ X' -> changes X d d' -> changes X' d d'.
Proof. intros HX [H1 H2]. split; [done|]. intros s Hs Hn. apply H2; [done | set_solver]. Qed.

Lemma room_mono d Y k Y' k' : room d Y k -> Y ⊆ Y' -> (size Y' + k' <= size Y + k)%nat -> room d Y' k'.
Proof. intros (H1 & H2 & H3 & H4) HY Hk. split; [done|]. split; [done|]. split; [set_solver | lia]. Qed.

(** One more sector, or one touched before. *)
Lemma room_add d Y k s : room d Y (S k) -> room d ({[s]} ∪ Y) k.
Proof.
  intros H. apply (room_mono d Y (S k)); [done | set_solver|]. rewrite (size_union_alt {[s]} Y).
  assert (size (Y ∖ {[s]}) <= size Y)%nat by (apply subseteq_size; set_solver). rewrite size_singleton. lia.
Qed.

Lemma room_write d Y k s b :
  room d Y k -> s ∈ Y -> 0 <= s < home d -> block_ok b ->
  exists d', log_write d ROOTDEV s b = Ok d' /\ room d' Y k /\ changes {[s]} d d' /\ sect d' s = b.
Proof.
  intros (H1 & H2 & H3 & H4) Hs Hr Hb.
  destruct (log_write_ok d s b) as (d' & E & G1 & G2 & G3 & G4 & G5 & G6 & G7); [done..| |].
  { etrans; [apply (subseteq_size _ Y); set_solver | lia]. }
  exists d'. split; [done|]. split; [split; [done|]; split; [done|]; rewrite G4, G5; split; [set_solver | done]|].
  split; [|done]. split; [done|]. intros s' Hs' Hn. apply G7; [done | set_solver].
Qed.

Lemma room_sect d Y k s : room d Y k -> 0 <= s < home d -> block_ok (sect d s).
Proof. intros (H1 & _). by apply sect_block. Qed.

Lemma room_bread d Y k s : room d Y k -> 0 <= s < home d -> bread d ROOTDEV s = Ok (sect d s).
Proof. intros (H1 & _). by apply bread_ok. Qed.
End Laws.

(** The block allocator of fs.c: [balloc] and [bfree] against the bitmap. *)

Open Scope Z_scope.

(** [lia] with division and remainder by constants. *)
#[local] Ltac Zify.zify_post_hook ::= Z.to_euclidean_division_equations.

(** * The layout of the disk *)

Definition bitmaps (sb : superblock) : gset Z :=
  list_to_set (seqZ (BBLOCK 0 (sb_ninodes sb)) (sb_size sb / BPB + 1)).

(** The first data block. *)
Definition dstart (sb : superblock) : Z := BBLOCK 0 (sb_ninodes sb) + sb_size sb / BPB + 1.

(** Sectors from [h] on are the log. *)
Definition layout (sb : superblock) (h : Z) : Prop :=
  0 < sb_ninodes sb /\ dstart sb <= h <= sb_size sb /\ sb_size sb < 2 ^ 31.

Definition sb_at (σ : Z -> bytes) (sb : superblock) : Prop :=
  w32 (σ 1) 0 = sb_size sb /\ w32 (σ 1) 4 = sb_nblocks sb /\ w32 (σ 1) 8 = sb_ninodes sb /\ w32 (σ 1) 12 = sb_nlog sb.

(** Block [b] is marked in use. *)
Definition bit (sb : superblock) (σ : Z -> bytes) (b : Z) : bool :=
  Z.testbit (byte (σ (BBLOCK b (sb_ninodes sb))) (b mod BPB / 8)) (b mod 8).

(** The free blocks below the log. *)
Definition free (sb : superblock) (h : Z) (σ : Z -> bytes) : gset Z :=
  list_to_set (filter (fun b => bit sb σ b = false) (seqZ 0 h)).

Lemma IPB_1 : IPB = 1.
Proof. reflexivity. Qed.

Lemma BBLOCK_eq b n : BBLOCK b n = b / 4096 + n + 3.
Proof. unfold BBLOCK. rewrite IPB_1, Z.div_1_r. done. Qed.

Lemma elem_of_bitmaps sb s :
  s ∈ bitmaps sb <-> BBLOCK 0 (sb_ninodes sb) <= s <= BBLOCK 0 (sb_ninodes sb) + sb_size sb / BPB.
Proof. unfold bitmaps. rewrite elem_of_list_to_set, elem_of_seqZ. lia. Qed.

Lemma elem_of_free sb h σ b : b ∈ free sb h σ <-> 0 <= b < h /\ bit sb σ b = false.
Proof. unfold free. rewrite elem_of_list_to_set, list_elem_of_filter, elem_of_seqZ. intuition lia. Qed.

Lemma layout_bitmap sb h b : layout sb h -> 0 <= b < sb_size sb -> BBLOCK b (sb_ninodes sb) ∈ bitmaps sb.
Proof.
  intros (H1 & H2 & H3) Hb. apply elem_of_bitmaps. rewrite !BBLOCK_eq. change BPB with 4096.
  pose proof (Z.div_le_mono b (sb_size sb) 4096 ltac:(lia) ltac:(lia)). pose proof (Z.div_pos b 4096). lia.
Qed.

Lemma bitmap_range sb h s : layout sb h -> s ∈ bitmaps sb -> 1 < s < dstart sb /\ 0 <= s < h.
Proof.
  intros (H1 & H2 & H3) Hs%elem_of_bitmaps. unfold dstart in *. rewrite BBLOCK_eq in *. change (0 / 4096) with 0 in *. lia.
Qed.

Lemma dstart_pos sb h : layout sb h -> sb_ninodes sb + 3 < dstart sb /\ 4 < dstart sb.
Proof.
  intros (H1 & H2 & H3). unfold dstart in *. rewrite BBLOCK_eq in *. change BPB with 4096 in *.
  destruct (Z.le_gt_cases 0 (sb_size sb)); [lia|]. lia.
Qed.

(** Setting and clearing a bit of a byte. *)
Lemma land_bit x i : 0 <= i -> (Z.land x (Z.shiftl 1 i) =? 0) = negb (Z.testbit x i).
Proof.
  intros Hi. apply Bool.eq_iff_eq_true. rewrite Z.eqb_eq, negb_true_iff. split.
  - intros E. apply (f_equal (fun z => Z.testbit z i)) in E. rewrite Z.land_spec, Z.bits_0, Z.shiftl_spec in E by done.
    rewrite Z.sub_diag in E. by rewrite andb_true_r in E.
  - intros E. apply Z.bits_inj'. intros j Hj. rewrite Z.land_spec, Z.bits_0, Z.shiftl_spec by done.
    destruct (Z.eq_dec j i) as [->|Hne]; [by rewrite E|]. rewrite andb_comm.
    replace (Z.testbit 1 (j - i)) with false; [done|]. destruct (Z.lt_total j i) as [?|[?|?]]; [|lia|].
    + by rewrite Z.testbit_neg_r by lia.
    + symmetry. apply (Z.bits_above_log2 1); [lia|]. cbn. lia.
Qed.

Lemma testbit_mask i j : 0 <= i -> 0 <= j -> Z.testbit (Z.shiftl 1 i) j = (j =? i).
Proof.
  intros Hi Hj. rewrite Z.shiftl_1_l. destruct (Z.eqb_spec j i) as [->|Hne]; [by apply Z.pow2_bits_true|].
  apply Z.pow2_bits_false. lia.
Qed.

Lemma u8_testbit x j : 0 <= j < 8 -> Z.testbit (u8 x) j = Z.testbit x j.
Proof. intros Hj. unfold u8. by rewrite Z.mod_pow2_bits_low by lia. Qed.

Lemma set_bit x i j : 0 <= i < 8 -> 0 <= j < 8 -> Z.testbit (u8 (Z.lor x (Z.shiftl 1 i))) j = (j =? i) || Z.testbit x j.
Proof. intros Hi Hj. rewrite u8_testbit, Z.lor_spec, testbit_mask by lia. apply orb_comm. Qed.

Lemma clear_bit x i j :
  0 <= i < 8 -> 0 <= j < 8 -> Z.testbit (u8 (Z.land x (Z.lnot (Z.shiftl 1 i)))) j = negb (j =? i) && Z.testbit x j.
Proof. intros Hi Hj. rewrite u8_testbit, Z.land_spec, Z.lnot_spec, testbit_mask by lia. apply andb_comm. Qed.

(** Two blocks with the same bitmap byte and bit are the same. *)
Lemma bit_pos b b' :
  b / 4096 = b' / 4096 -> b mod 4096 / 8 = b' mod 4096 / 8 -> b mod 8 = b' mod 8 -> b = b'.
Proof. intros H1 H2 H3. lia. Qed.

Section Alloc.
Context {D : Type} `{!BlockDev D} `{!BlockLaws D}.
Context (sb : superblock).

(** The superblock and the layout, which no operation changes. *)
Definition geom (d : D) : Prop := layout sb (home d) /\ sb_at (sect d) sb.

Lemma geom_changes X d d' : geom d -> changes X d d' -> 1 ∉ X -> geom d'.
Proof.
  intros [H1 H2] [E1 E2] Hn. split; [by rewrite E1|]. unfold sb_at in *.
  pose proof (dstart_pos sb _ H1). destruct H1 as (G1 & G2 & G3). by rewrite (E2 1) by (done || lia).
Qed.

Lemma home_pos d : geom d -> 4 < home d.
Proof.
  intros [Hl _]. pose proof (dstart_pos sb _ Hl). destruct Hl as (G1 & G2 & G3). lia.
Qed.

Lemma readsb_ok d Y k : geom d -> room d Y k -> readsb d ROOTDEV = Ok sb.
Proof.
  intros Hg Hr. pose proof (home_pos d Hg). destruct Hg as [_ (E1 & E2 & E3 & E4)]. unfold readsb.
  rewrite (room_bread d Y k) by (done || lia). cbn [rbind].
  pose proof (room_sect d Y k 1 Hr ltac:(lia)) as [Hl _]. unfold BSIZE in Hl.
  rewrite !rd32_ok by lia. cbn [rbind]. rewrite E1, E2, E3, E4. by destruct sb.
Qed.

(** The bitmap after one of its bits was written: every bit but [b] is kept. *)
Definition bits_set (σ σ' : Z -> bytes) (b : Z) (v : bool) : Prop :=
  forall b', 0 <= b' < sb_size sb -> bit sb σ' b' = if b' =? b then v else bit sb σ b'.

Lemma bitmap_write d Y k b x v :
  geom d -> room d Y k -> bitmaps sb ⊆ Y -> 0 <= b < sb_size sb ->
  (forall j, 0 <= j < 8 ->
     Z.testbit x j = if j =? b mod 8 then v else Z.testbit (byte (sect d (BBLOCK b (sb_ninodes sb))) (b mod BPB / 8)) j) ->
  byte_ok x ->
  exists bp d', put (sect d (BBLOCK b (sb_ninodes sb))) (b mod BPB / 8) x = Ok bp /\
    log_write d ROOTDEV (BBLOCK b (sb_ninodes sb)) bp = Ok d' /\
    room d' Y k /\ changes (bitmaps sb) d d' /\ bits_set (sect d) (sect d') b v.
Proof.
  intros Hg Hr HY Hb Hx Hok. pose proof Hg as [Hlay _]. pose proof (layout_bitmap sb _ b Hlay Hb) as Hin.
  pose proof (bitmap_range sb _ _ Hlay Hin) as [_ Hrange].
  pose proof (room_sect d Y k _ Hr Hrange) as [Hl HF]. unfold BSIZE in Hl. change BPB with 4096 in *.
  assert (0 <= b mod 4096 / 8 < 512) as Hidx by lia.
  rewrite put_ok by lia. eexists. destruct (room_write d Y k (BBLOCK b (sb_ninodes sb))
    (<[Z.to_nat (b mod 4096 / 8) := x]> (sect d (BBLOCK b (sb_ninodes sb))))) as (d' & E & Hr' & Hc & Hs).
  - done.
  - set_solver.
  - done.
  - split; [by rewrite zlen_insert|]. by apply Forall_insert.
  - exists d'. split; [done|]. split; [done|]. split; [done|]. split; [by apply (changes_mono {[BBLOCK b (sb_ninodes sb)]}); [set_solver|]|].
    intros b' Hb'. unfold bit. change BPB with 4096. rewrite !BBLOCK_eq in *.
    destruct (Z.eq_dec (b' / 4096) (b / 4096)) as [Eb|Hne].
    + rewrite Eb, Hs. rewrite byte_insert by lia. destruct (Z.eqb_spec (b' mod 4096 / 8) (b mod 4096 / 8)) as [Ei|Hni].
      * rewrite Hx by lia. destruct (Z.eqb_spec (b' mod 8) (b mod 8)) as [Ej|Hnj].
        { rewrite (bit_pos b' b) by done. by rewrite Z.eqb_refl. }
        rewrite Ei. destruct (Z.eqb_spec b' b) as [->|]; [done|]. done.
      * destruct (Z.eqb_spec b' b) as [->|]; done.
    + destruct Hc as [_ Hc]. rewrite Hc.
      * destruct (Z.eqb_spec b' b) as [->|]; done.
      * pose proof (layout_bitmap sb _ b' Hlay Hb') as Hin'. apply (bitmap_range sb _ _ Hlay) in Hin'. rewrite BBLOCK_eq in Hin'. lia.
      * rewrite elem_of_singleton. lia.
Qed.

Lemma bzero_ok d Y k b :
  geom d -> room d Y k -> b ∈ Y -> 0 <= b < home d ->
  exists d', bzero d ROOTDEV b = Ok d' /\ room d' Y k /\ changes {[b]} d d' /\ sect d' b = zeros.
Proof.
  intros Hg Hr HY Hb. unfold bzero. rewrite (room_bread d Y k) by done. cbn [rbind].
  pose proof (room_sect d Y k b Hr Hb) as [Hl _]. rewrite memset_zeros by done. cbn [rbind].
  apply room_write; [done.. | apply zeros_ok].
Qed.

Lemma bit_changes X d d' b :
  geom d -> changes X d d' -> X ## bitmaps sb -> 0 <= b < sb_size sb -> bit sb (sect d') b = bit sb (sect d) b.
Proof.
  intros [Hlay _] [_ Hc] HX Hb. pose proof (layout_bitmap sb _ b Hlay Hb) as Hin. unfold bit. rewrite Hc; [done | | set_solver].
  apply (bitmap_range sb _ _ Hlay) in Hin. lia.
Qed.

(** What [balloc] and [bfree] promise. *)
Lemma balloc_ok d Y k b :
  geom d -> room d Y (S k) -> bitmaps sb ⊆ Y ->
  dstart sb <= b < home d -> bit sb (sect d) b = false -> (forall b', 0 <= b' < b -> bit sb (sect d) b' = true) ->
  exists d', balloc d ROOTDEV = Ok (d', b) /\ geom d' /\ room d' ({[b]} ∪ Y) k /\
    changes ({[b]} ∪ bitmaps sb) d d' /\ sect d' b = zeros /\ bits_set (sect d) (sect d') b true.
Proof.
  intros Hg Hr HY Hb Hfree Hused. pose proof Hg as [Hlay _]. pose proof Hlay as (L1 & L2 & L3).
  pose proof (dstart_pos sb _ Hlay) as Hds.
  unfold balloc. rewrite (readsb_ok d Y (S k)) by done. cbn [rbind].
  set (k0 := b / BPB). change BPB with 4096 in *.
  assert (forall b', 0 <= b' < sb_size sb ->
            bread d ROOTDEV (BBLOCK b' (sb_ninodes sb)) = Ok (sect d (BBLOCK b' (sb_ninodes sb))) /\
            zlen (sect d (BBLOCK b' (sb_ninodes sb))) = 512) as Hbm.
  { intros b' Hb'. pose proof (layout_bitmap sb _ b' Hlay Hb') as Hin. apply (bitmap_range sb _ _ Hlay) in Hin as [_ Hin].
    split; [by apply (room_bread d Y (S k))|]. by destruct (room_sect d Y (S k) _ Hr Hin). }
  assert (forall c j, 0 <= c -> 0 <= j < 4096 -> c * 4096 + j < sb_size sb ->
            get (sect d (BBLOCK (c * 4096) (sb_ninodes sb))) (j / 8) = Ok (byte (sect d (BBLOCK (c * 4096) (sb_ninodes sb))) (j / 8)) /\
            (Z.land (byte (sect d (BBLOCK (c * 4096) (sb_ninodes sb))) (j / 8)) (Z.shiftl 1 (j mod 8)) =? 0)
              = negb (bit sb (sect d) (c * 4096 + j))) as Hget.
  { intros c j Hc Hj Hcj. destruct (Hbm (c * 4096)) as [_ Hl]; [lia|]. split; [apply get_byte; lia|].
    rewrite land_bit by lia. f_equal. unfold bit. change BPB with 4096. rewrite !BBLOCK_eq.
    replace ((c * 4096 + j) / 4096) with c by lia. replace (c * 4096 / 4096) with c by lia.
    replace ((c * 4096 + j) mod 4096) with j by lia. by replace ((c * 4096 + j) mod 8) with (j mod 8) by lia. }
  (* the new state *)
  set (x := u8 (Z.lor (byte (sect d (BBLOCK b (sb_ninodes sb))) (b mod 4096 / 8)) (Z.shiftl 1 (b mod 8)))).
  destruct (bitmap_write d ({[b]} ∪ Y) k b x true) as (bp & d1 & Ep & El & Hr1 & Hc1 & Hbits1);
    [done | by apply room_add | set_solver | lia | | apply u8_range |].
  { intros j Hj. unfold x. rewrite set_bit by lia. change BPB with 4096. by destruct (j =? b mod 8). }
  assert (1 ∉ bitmaps sb) as H1n by (intros Hin; apply (bitmap_range sb _ _ Hlay) in Hin; lia).
  assert (geom d1) as Hg1 by by eapply geom_changes.
  assert (home d1 = home d) as Hh1 by apply Hc1.
  destruct (bzero_ok d1 ({[b]} ∪ Y) k b) as (d2 & Ez & Hr2 & Hc2 & Hs2); [done | done | set_solver | lia|].
  assert ({[b]} ## bitmaps sb) as Hdis.
  { apply disjoint_singleton_l. intros Hin. apply (bitmap_range sb _ _ Hlay) in Hin. lia. }
  erewrite (for_brk_find 0 _ k0 _ () (d2, b)).
  - cbn [rbind]. exists d2. split; [done|]. split; [eapply geom_changes; [exact Hg1 | exact Hc2|]|].
    { rewrite elem_of_singleton. lia. }
    split; [done|]. split.
    { eapply changes_trans; [eapply changes_mono; [|exact Hc1]; set_solver | eapply changes_mono; [|exact Hc2]; set_solver]. }
    split; [done|]. intros b' Hb'. rewrite (bit_changes {[b]} d1 d2) by done. by apply Hbits1.
  - unfold k0. split; [lia|]. lia.
  - intros c Hc. unfold balloc_block. destruct (Hbm (c * 4096)) as [-> _]; [unfold k0 in *; lia|]. cbn [rbind].
    apply for_brk_none. intros j Hj. change BPB with 4096 in Hj. destruct (Hget c j) as [-> E0]; [unfold k0 in *; lia..|]. cbn [rbind].
    rewrite E0, Hused by (unfold k0 in *; lia). done.
  - unfold balloc_block. destruct (Hbm (k0 * 4096)) as [-> _]; [unfold k0; lia|]. cbn [rbind].
    apply (for_brk_find _ _ (b mod 4096)).
    + unfold k0. change BPB with 4096. lia.
    + intros j Hj. change BPB with 4096 in Hj. destruct (Hget k0 j) as [-> E0]; [unfold k0; lia..|]. cbn [rbind].
      rewrite E0, Hused by (unfold k0 in *; lia). done.
    + destruct (Hget k0 (b mod 4096)) as [-> E0]; [unfold k0; lia..|]. cbn [rbind]. revert E0.
      replace (k0 * 4096 + b mod 4096) with b by (unfold k0; lia). rewrite Hfree. cbn [negb]. intros ->.
      replace (BBLOCK (k0 * 4096) (sb_ninodes sb)) with (BBLOCK b (sb_ninodes sb)) by (rewrite !BBLOCK_eq; unfold k0; lia).
      replace (b mod 4096 mod 8) with (b mod 8) by lia. fold x. change BPB with 4096 in *. rewrite Ep. cbn [rbind].
      rewrite El. cbn [rbind]. rewrite Ez. done.
Qed.

Lemma bfree_ok d Y k b :
  geom d -> room d Y k -> bitmaps sb ⊆ Y -> 0 <= b < sb_size sb -> bit sb (sect d) b = true ->
  exists d', bfree d ROOTDEV b = Ok d' /\ geom d' /\ room d' Y k /\ changes (bitmaps sb) d d' /\
    bits_set (sect d) (sect d') b false.
Proof.
  intros Hg Hr HY Hb Hused. pose proof Hg as [Hlay _]. unfold bfree. rewrite (readsb_ok d Y k) by done. cbn [rbind].
  pose proof (layout_bitmap sb _ b Hlay Hb) as Hin. apply (bitmap_range sb _ _ Hlay) in Hin as [_ Hin].
  rewrite (room_bread d Y k) by done. cbn [rbind]. destruct (room_sect d Y k _ Hr Hin) as [Hl _]. unfold BSIZE in Hl.
  change BPB with 4096. rewrite get_byte by lia. cbn [rbind]. rewrite land_bit by lia.
  replace (b mod 4096 mod 8) with (b mod 8) by lia.
  change (Z.testbit _ _) with (bit sb (sect d) b). rewrite Hused. cbn [negb].
  destruct (bitmap_write d Y k b (u8 (Z.land (byte (sect d (BBLOCK b (sb_ninodes sb))) (b mod 4096 / 8)) (Z.lnot (Z.shiftl 1 (b mod 8))))) false)
    as (bp & d1 & Ep & El & Hr1 & Hc1 & Hbits1); [done.. | | apply u8_range |].
  { intros j Hj. rewrite clear_bit by lia. change BPB with 4096. by destruct (j =? b mod 8). }
  change BPB with 4096 in Ep. rewrite Ep. cbn [rbind]. exists d1. split; [done|]. split; [|done].
  eapply geom_changes; [done | done|]. intros Hin1. apply (bitmap_range sb _ _ Hlay) in Hin1. lia.
Qed.

(** With a free block below the log, the one [balloc] takes is the first. *)
Lemma first_free h σ :
  free sb h σ <> ∅ -> exists b, b ∈ free sb h σ /\ forall b', 0 <= b' < b -> bit sb σ b' = true.
Proof.
  intros Hne. apply set_choose_L in Hne as [x Hx].
  pose proof Hx as Hx'. apply elem_of_free in Hx' as [Hr _].
  assert (forall n b, (Z.to_nat b <= n)%nat -> b ∈ free sb h σ ->
            exists b, b ∈ free sb h σ /\ forall b', 0 <= b' < b -> bit sb σ b' = true) as H; [|by eapply (H (Z.to_nat x))].
  induction n as [|n IH]; intros b Hn Hb.
  - exists b. split; [done|]. apply elem_of_free in Hb. lia.
  - destruct (decide (Exists (fun b' => bit sb σ b' = false) (seqZ 0 b))) as [(b' & Hin & Hf)%Exists_exists|Hno].
    + apply elem_of_seqZ in Hin. apply elem_of_free in Hb. apply (IH b'); [lia|]. apply elem_of_free. split; [lia | done].
    + exists b. split; [done|]. intros b' Hb'. destruct (bit sb σ b') eqn:E; [done|]. exfalso. apply Hno.
      apply Exists_exists. exists b'. split; [apply elem_of_seqZ; lia | done].
Qed.
End Alloc.
