(* ===== verification/FsBmap.v ===== *)
(** The blocks of a file: [bmap], the loops of [readi] and [writei], [itrunc]. *)
From stdpp Require Import gmap sets list_numbers.
From S2P Require Import Prelude Ulib Sys Fs FsBlock.
Open Scope Z_scope.

#[local] Ltac Zify.zify_post_hook ::= Z.to_euclidean_division_equations.

(** * The block numbers an inode holds

    Slot [0 .. 123] is a direct block, slot 124 the indirect block and the slots
    from 125 on are the entries of the indirect block. *)
Definition NSLOT : Z := NDIRECT + 1 + NINDIRECT.

Definition addr (i : inode) (n : Z) : Z := nth (Z.to_nat n) (i_addrs i) 0.

Definition slot (σ : Z -> bytes) (i : inode) (n : Z) : Z :=
  if n <=? NDIRECT then addr i n
  else if addr i NDIRECT =? 0 then 0 else w32 (σ (addr i NDIRECT)) (4 * (n - NDIRECT - 1)).

(** The slot of the [bn]th block of the file, and the block. *)
Definition bslot (bn : Z) : Z := if bn <? NDIRECT then bn else bn + 1.
Definition blk (σ : Z -> bytes) (i : inode) (bn : Z) : Z := slot σ i (bslot bn).

Definition owned (σ : Z -> bytes) (i : inode) (b : Z) : Prop := exists n, 0 <= n < NSLOT /\ slot σ i n = b /\ b <> 0.

(** The byte at offset [k] of the file. *)
Definition fbyte (σ : Z -> bytes) (i : inode) (k : Z) : Z := byte (σ (blk σ i (k / BSIZE))) (k mod BSIZE).

Ltac consts := change NSLOT with 253 in *; change NDIRECT with 124 in *; change NINDIRECT with 128 in *;
  change MAXFILE with 252 in *; change BSIZE with 512 in *.

Section Blocks.
Context (sb : superblock) (h : Z) (Hlay : layout sb h).
Implicit Types (σ : Z -> bytes) (i : inode).

(** The blocks of an inode are data blocks in use, and no two slots share one. *)
Record mapped σ i : Prop := {
  m_dev : i_dev i = ROOTDEV;
  m_len : zlen (i_addrs i) = NDIRECT + 1;
  m_slot : forall n, 0 <= n < NSLOT -> slot σ i n <> 0 -> dstart sb <= slot σ i n < h /\ bit sb σ (slot σ i n) = true;
  m_inj : forall n m, 0 <= n < NSLOT -> 0 <= m < NSLOT -> slot σ i n = slot σ i m -> slot σ i n <> 0 -> n = m;
}.

(** The blocks below the data blocks are in use for good. *)
Definition meta_used σ : Prop := forall b, 0 <= b < dstart sb -> bit sb σ b = true.

(** A file that has gained blocks: the old ones stay in place, the new ones were
    free, and no block in use but the file's own and the bitmap has changed. *)
Record grown σ i σ' i' : Prop := {
  g_core : i' = set_addrs (i_addrs i') i;
  g_bits : forall b, 0 <= b < sb_size sb -> bit sb σ b = true -> bit sb σ' b = true;
  g_new : forall b, 0 <= b < sb_size sb -> bit sb σ b = false -> bit sb σ' b = true -> owned σ' i' b;
  g_old : forall n, 0 <= n < NSLOT -> slot σ i n <> 0 -> slot σ' i' n = slot σ i n;
  g_fresh : forall n, 0 <= n < NSLOT -> slot σ i n = 0 -> slot σ' i' n <> 0 ->
    dstart sb <= slot σ' i' n < h /\ bit sb σ (slot σ' i' n) = false;
  g_keep : forall s, 0 <= s < h -> s ∉ bitmaps sb -> bit sb σ s = true -> ~ owned σ i s -> σ' s = σ s;
}.

(** The same of [bmap], which writes the indirect block only. *)
Definition kept σ i σ' : Prop :=
  forall s, 0 <= s < h -> s ∉ bitmaps sb -> bit sb σ s = true -> (s = addr i NDIRECT -> s = 0) -> σ' s = σ s.

Lemma size_h : h <= sb_size sb.
Proof. by destruct Hlay as (_ & [_ ?] & _). Qed.

Lemma not_bitmap b : dstart sb <= b -> b ∉ bitmaps sb.
Proof. intros Hb Hin. apply (bitmap_range sb h _ Hlay) in Hin. lia. Qed.

Lemma mapped_pos σ i n : mapped σ i -> 0 <= n < NSLOT -> slot σ i n <> 0 ->
  4 < slot σ i n < h /\ slot σ i n ∉ bitmaps sb /\ bit sb σ (slot σ i n) = true.
Proof.
  intros Hm Hn Hs. destruct (m_slot _ _ Hm n Hn Hs) as [H1 H2]. pose proof (dstart_pos sb h Hlay).
  split; [lia|]. split; [apply not_bitmap; lia | done].
Qed.

Lemma slot_ind σ i n : NDIRECT < n -> slot σ i n <> 0 -> addr i NDIRECT <> 0.
Proof. unfold slot. intros Hn. destruct (Z.leb_spec n NDIRECT); [lia|]. destruct (Z.eqb_spec (addr i NDIRECT) 0); done. Qed.

Lemma slot_addr σ i n : n <= NDIRECT -> slot σ i n = addr i n.
Proof. intros Hn. unfold slot. destruct (Z.leb_spec n NDIRECT); [done | lia]. Qed.

Lemma owned_fresh σ i σ' i' s :
  grown σ i σ' i' -> bit sb σ s = true -> owned σ' i' s -> owned σ i s.
Proof.
  intros Hg Hb (n & Hn & Hs & Hz). exists n. split; [done|]. split; [|done].
  destruct (Z.eq_dec (slot σ i n) 0) as [E|Hne]; [|rewrite <- Hs; symmetry; by apply (g_old _ _ _ _ Hg)].
  rewrite <- Hs in Hb, Hz. destruct (g_fresh _ _ _ _ Hg n) as [_ Hf]; congruence.
Qed.

Lemma grown_refl σ i : grown σ i σ i.
Proof. split; try done; [by destruct i | congruence]. Qed.

Lemma grown_trans σ1 i1 σ2 i2 σ3 i3 : grown σ1 i1 σ2 i2 -> grown σ2 i2 σ3 i3 -> grown σ1 i1 σ3 i3.
Proof.
  intros G1 G2. split.
  - etrans; [exact (g_core _ _ _ _ G2)|]. by rewrite (g_core _ _ _ _ G1).
  - intros b Hb H1. by apply (g_bits _ _ _ _ G2), (g_bits _ _ _ _ G1).
  - intros b Hb H1 H3. destruct (bit sb σ2 b) eqn:H2; [|by apply (g_new _ _ _ _ G2)].
    destruct (g_new _ _ _ _ G1 b Hb H1 H2) as (n & Hn & <- & Hz). exists n. split; [done|]. split; [|done].
    by apply (g_old _ _ _ _ G2).
  - intros n Hn Hz. rewrite <- (g_old _ _ _ _ G1) by done. apply (g_old _ _ _ _ G2); [done|]. by rewrite (g_old _ _ _ _ G1).
  - intros n Hn Hz H3. destruct (Z.eq_dec (slot σ2 i2 n) 0) as [E|Hne].
    + destruct (g_fresh _ _ _ _ G2 n Hn E H3) as [Hr Hf]. split; [done|]. destruct (bit sb σ1 (slot σ3 i3 n)) eqn:H1; [|done].
      pose proof size_h. pose proof (dstart_pos sb h Hlay). rewrite (g_bits _ _ _ _ G1) in Hf; [done | lia | done].
    + rewrite (g_old _ _ _ _ G2) by done. by apply (g_fresh _ _ _ _ G1).
  - intros s Hs Hbm Hb Ho. rewrite (g_keep _ _ _ _ G2); try done.
    + by apply (g_keep _ _ _ _ G1).
    + apply (g_bits _ _ _ _ G1); [pose proof size_h; lia | done].
    + intros Ho2. apply Ho. by eapply owned_fresh.
Qed.

(** * One block more *)

(** The disk after [balloc] has returned [b]. *)
Record allocated σ σ' (b : Z) : Prop := {
  a_range : dstart sb <= b < h;
  a_free : bit sb σ b = false;
  a_bits : bits_set sb σ σ' b true;
  a_zero : σ' b = zeros;
  a_keep : forall s, 0 <= s < h -> s <> b -> s ∉ bitmaps sb -> σ' s = σ s;
}.

(** Slot [n] of the inode was empty and now holds the new block [b]. *)
Lemma mapped_extend σ i σ' i' n b :
  mapped σ i -> 0 <= n < NSLOT -> slot σ i n = 0 -> dstart sb <= b < h -> bit sb σ b = false ->
  bits_set sb σ σ' b true -> i' = set_addrs (i_addrs i') i -> zlen (i_addrs i') = NDIRECT + 1 ->
  (forall m, 0 <= m < NSLOT -> slot σ' i' m = if m =? n then b else slot σ i m) ->
  (forall s, 0 <= s < h -> s ∉ bitmaps sb -> bit sb σ s = true -> ~ owned σ i s -> σ' s = σ s) ->
  mapped σ' i' /\ grown σ i σ' i'.
Proof.
  intros Hm Hn Hz Hb Hfree Hbits Hcore Hlen Hslot Hkeep. pose proof size_h as Hsz. pose proof (dstart_pos sb h Hlay) as Hd.
  assert (forall m, 0 <= m < NSLOT -> slot σ i m <> b) as Hnb.
  { intros m Hm' E. destruct (m_slot _ _ Hm m) as [_ Hbit]; [done | lia|]. congruence. }
  split; split.
  - rewrite Hcore. apply (m_dev _ _ Hm).
  - done.
  - intros m Hm' Hs. rewrite Hslot in Hs |- * by done. destruct (Z.eqb_spec m n) as [->|Hne].
    + split; [done|]. rewrite Hbits by lia. by rewrite Z.eqb_refl.
    + destruct (m_slot _ _ Hm m Hm' Hs) as [H1 H2]. split; [done|]. rewrite Hbits by lia. by destruct (_ =? _).
  - intros m1 m2 H1 H2 E Hs. rewrite !Hslot in E by done. rewrite Hslot in Hs by done.
    destruct (Z.eqb_spec m1 n), (Z.eqb_spec m2 n); subst; try done.
    + by destruct (Hnb m2).
    + by destruct (Hnb m1).
    + by eapply (m_inj _ _ Hm).
  - done.
  - intros b' Hb' H. rewrite Hbits by done. by destruct (_ =? _).
  - intros b' Hb' H H'. rewrite Hbits in H' by done. destruct (Z.eqb_spec b' b) as [->|]; [|congruence].
    exists n. split; [done|]. rewrite Hslot, Z.eqb_refl by done. split; [done | lia].
  - intros m Hm' Hs. rewrite Hslot by done. by destruct (Z.eqb_spec m n) as [->|].
  - intros m Hm' Hs Hs'. rewrite Hslot in Hs' |- * by done. destruct (Z.eqb_spec m n) as [->|]; done.
  - done.
Qed.

Lemma addr_set i n b m :
  zlen (i_addrs i) = NDIRECT + 1 -> 0 <= n <= NDIRECT -> 0 <= m ->
  addr (set_addrs (<[Z.to_nat n := b]> (i_addrs i)) i) m = if m =? n then b else addr i m.
Proof. intros Hl Hn Hm. apply byte_insert; lia. Qed.

(** The new block is a direct one, or the indirect block. *)
Lemma extend_addr σ i σ' n b :
  mapped σ i -> 0 <= n <= NDIRECT -> addr i n = 0 -> allocated σ σ' b ->
  let i' := set_addrs (<[Z.to_nat n := b]> (i_addrs i)) i in
  mapped σ' i' /\ grown σ i σ' i' /\ kept σ i σ' /\ slot σ' i' n = b.
Proof.
  intros Hm Hn Hz [Hr Hfree Hbits Hzero Hk] i'. pose proof (m_len _ _ Hm) as Hlen.
  assert (kept σ i σ') as Hkept.
  { intros s Hs Hbm Hb _. apply Hk; [done | congruence | done]. }
  assert (forall m, 0 <= m < NSLOT -> slot σ' i' m = if m =? n then b else slot σ i m) as Hslot.
  { intros m Hm'. destruct (Z.le_gt_cases m NDIRECT) as [Hle|Hgt].
    - rewrite !slot_addr by done. apply addr_set; [done | done | lia].
    - rewrite (proj2 (Z.eqb_neq m n)) by lia. unfold slot. rewrite (proj2 (Z.leb_gt m NDIRECT)) by lia.
      unfold i'. rewrite addr_set by (done || consts; lia). destruct (Z.eqb_spec NDIRECT n) as [<-|Hne].
      + rewrite Hz, Z.eqb_refl. rewrite Hzero, w32_zeros. by destruct (_ =? _).
      + destruct (Z.eqb_spec (addr i NDIRECT) 0) as [|Hni]; [done|].
        destruct (mapped_pos σ i NDIRECT Hm) as (H1 & H2 & H3); [consts; lia | by rewrite slot_addr|].
        rewrite slot_addr in H1, H2, H3 by done. rewrite Hk; [done | lia | congruence | done]. }
  destruct (mapped_extend σ i σ' i' n b) as [H1 H2]; try done.
  - consts. lia.
  - rewrite slot_addr; [done | lia].
  - cbn. by rewrite zlen_insert.
  - intros s Hs Hbm Hb Ho. apply Hkept; [done..|]. intros ->. destruct (Z.eq_dec (addr i NDIRECT) 0) as [->|Hni]; [done|].
    exfalso. apply Ho. exists NDIRECT. split; [consts; lia|]. split; [by apply slot_addr | done].
  - split; [done|]. split; [done|]. split; [done|]. rewrite Hslot by (consts; lia). by rewrite Z.eqb_refl.
Qed.

(** The new block is entry [j] of the indirect block, rewritten as [a]. *)
Lemma extend_entry σ i σ1 σ' j b a :
  mapped σ i -> addr i NDIRECT <> 0 -> 0 <= j < NINDIRECT -> slot σ i (NDIRECT + 1 + j) = 0 -> allocated σ σ1 b ->
  stored 4 (σ (addr i NDIRECT)) (4 * j) b a -> σ' (addr i NDIRECT) = a ->
  (forall s, 0 <= s < h -> s <> addr i NDIRECT -> σ' s = σ1 s) ->
  mapped σ' i /\ grown σ i σ' i /\ kept σ i σ' /\ slot σ' i (NDIRECT + 1 + j) = b.
Proof.
  intros Hm Hind Hj Hz [Hr Hfree Hbits Hzero Hk] Hst Ha Hk'. pose proof size_h as Hsz.
  destruct (mapped_pos σ i NDIRECT Hm) as (I1 & I2 & I3); [consts; lia | by rewrite slot_addr|].
  rewrite slot_addr in I1, I2, I3 by done. pose proof Hlay as (_ & Hh & Hlt). pose proof (dstart_pos sb h Hlay).
  assert (bits_set sb σ σ' b true) as Hbits'.
  { intros b' Hb'. rewrite <- Hbits by done. pose proof (layout_bitmap sb h b' Hlay Hb') as Hin.
    unfold bit. rewrite Hk'; [done | apply (bitmap_range sb h _ Hlay) in Hin; lia|].
    intros E. apply I2. by rewrite <- E. }
  assert (kept σ i σ') as Hkept.
  { intros s Hs Hbm Hb Hne. rewrite Hk'; [apply Hk; [done | congruence | done] | done|]. intros ->. by apply Hind, Hne. }
  assert (forall m, 0 <= m < NSLOT -> slot σ' i m = if m =? NDIRECT + 1 + j then b else slot σ i m) as Hslot.
  { intros m Hm'. destruct (Z.le_gt_cases m NDIRECT) as [Hle|Hgt].
    - rewrite !slot_addr by done. destruct (Z.eqb_spec m (NDIRECT + 1 + j)); [lia | done].
    - unfold slot. rewrite (proj2 (Z.leb_gt m NDIRECT)), (proj2 (Z.eqb_neq _ _) Hind) by lia. rewrite Ha.
      destruct (Z.eqb_spec m (NDIRECT + 1 + j)) as [->|Hne].
      + replace (NDIRECT + 1 + j - NDIRECT - 1) with j by lia. rewrite (stored_w32 _ _ _ _ Hst) by lia. apply u32_small. lia.
      + apply (stored_w32_ne _ _ _ _ _ _ Hst); lia. }
  destruct (mapped_extend σ i σ' i (NDIRECT + 1 + j) b) as [H1 H2]; try done.
  - consts. lia.
  - by destruct i.
  - by apply (m_len _ _ Hm).
  - intros s Hs Hbm Hb Ho. apply Hkept; [done..|]. intros ->. exfalso. apply Ho. exists NDIRECT. split; [consts; lia|].
    split; [by apply slot_addr | done].
  - split; [done|]. split; [done|]. split; [done|]. rewrite Hslot by (consts; lia). by rewrite Z.eqb_refl.
Qed.
End Blocks.

(** [bmap] finds the block of a file or gives the file a new one, and the loops
    of [readi] and [writei] over it. *)

Open Scope Z_scope.

#[local] Ltac Zify.zify_post_hook ::= Z.to_euclidean_division_equations.

Section Bmap.
Context {D : Type} `{!BlockDev D} `{!BlockLaws D}.
Context (sb : superblock).
Implicit Types (d : D) (i : inode).

(** A disk and an inode of it. *)
Definition file_at d i : Prop :=
  geom sb d /\ meta_used sb (sect d) /\ mapped sb (home d) (sect d) i.

(** The indirect block that may have to be allocated. *)
Definition ineed i : nat := if addr i NDIRECT =? 0 then 1 else 0.

(** The log and the disk have room for [r] data blocks and the indirect block,
    the log for [slack] more and the disk for [spare] more. *)
Context (slack spare : nat).
Record res d i (Y : gset Z) (r : nat) : Prop := {
  r_room : room d Y (r + ineed i + slack);
  r_bitmaps : bitmaps sb ⊆ Y;
  r_ind : addr i NDIRECT <> 0 -> addr i NDIRECT ∈ Y;
  r_free : (r + ineed i + spare <= size (free sb (home d) (sect d)))%nat;
}.

Lemma free_allocated h σ σ' b :
  layout sb h -> allocated sb h σ σ' b -> (size (free sb h σ) <= S (size (free sb h σ')))%nat.
Proof.
  intros Hlay [Hr Hf Hbits _ _]. assert (free sb h σ = {[b]} ∪ free sb h σ') as E.
  { apply set_eq. intros x. rewrite elem_of_union, elem_of_singleton, !elem_of_free.
    destruct (decide (0 <= x < h)) as [Hx|Hx]; [|pose proof (dstart_pos sb h Hlay); intuition lia].
    rewrite Hbits by (destruct Hlay; lia). destruct (Z.eqb_spec x b) as [->|]; intuition (congruence || lia). }
  rewrite E, size_union_alt, size_singleton.
  assert (size (free sb h σ' ∖ {[b]}) <= size (free sb h σ'))%nat by (apply subseteq_size; set_solver). lia.
Qed.

Lemma balloc_res d Y k f :
  geom sb d -> meta_used sb (sect d) -> room d Y (S k) -> bitmaps sb ⊆ Y -> (S f <= size (free sb (home d) (sect d)))%nat ->
  exists d' b, balloc d ROOTDEV = Ok (d', b) /\ geom sb d' /\ home d' = home d /\ meta_used sb (sect d') /\
    room d' ({[b]} ∪ Y) k /\ allocated sb (home d) (sect d) (sect d') b /\ (f <= size (free sb (home d') (sect d')))%nat.
Proof.
  intros Hg Hmeta Hr HY Hk. pose proof Hg as [Hlay _]. pose proof Hlay as (L1 & L2 & L3). pose proof (dstart_pos sb _ Hlay).
  destruct (first_free sb (home d) (sect d)) as (b & Hb & Hmin).
  { intros E. rewrite E, size_empty in Hk. lia. }
  apply elem_of_free in Hb as [Hb Hf].
  assert (dstart sb <= b).
  { destruct (Z.le_gt_cases (dstart sb) b); [done|]. rewrite Hmeta in Hf by lia. done. }
  destruct (balloc_ok sb d Y k b) as (d' & E & Hg' & Hr' & Hc & Hz & Hbits); [done.. | lia | done | done |].
  destruct Hc as [Hh Hc].
  assert (allocated sb (home d) (sect d) (sect d') b) as Ha.
  { split; try done; [lia|]. intros s Hs Hne Hbm. apply Hc; [done|]. rewrite elem_of_union, elem_of_singleton. tauto. }
  exists d', b. split; [done|]. split; [done|]. split; [done|]. split.
  { intros b' Hb'. rewrite Hbits by lia. destruct (_ =? _); [done|]. by apply Hmeta. }
  split; [done|]. split; [done|]. rewrite Hh. pose proof (free_allocated _ _ _ _ Hlay Ha). lia.
Qed.

(** A block that is there is found without a change. *)
Lemma bmap_hit d i bn :
  dev_ok d -> file_at d i -> 0 <= bn < MAXFILE -> blk (sect d) i bn <> 0 ->
  bmap d i bn = Ok (d, i, blk (sect d) i bn).
Proof.
  intros Hd (Hg & _ & Hm) Hbn Hblk. pose proof (m_len _ _ _ _ Hm) as Hlen. unfold bmap, bmap_entry, blk, bslot in *. consts.
  destruct (Z.ltb_spec bn 124) as [Hlt|Hge].
  - rewrite slot_addr in * by (consts; lia). rewrite get_byte by lia. cbn [rbind]. change (byte (i_addrs i) bn) with (addr i bn).
    by rewrite (proj2 (Z.eqb_neq _ _) Hblk).
  - rewrite (proj2 (Z.ltb_lt _ _)) by lia. pose proof (slot_ind (sect d) i (bn + 1) ltac:(consts; lia) Hblk) as Hind. consts.
    rewrite get_byte by lia. cbn [rbind]. change (byte (i_addrs i) 124) with (addr i 124).
    rewrite (proj2 (Z.eqb_neq _ _) Hind). cbn [rbind]. rewrite (m_dev _ _ _ _ Hm).
    destruct (mapped_pos sb _ (proj1 Hg) (sect d) i 124 Hm) as (H1 & _); [consts; lia | by rewrite slot_addr|].
    rewrite slot_addr in H1 by done. rewrite bread_ok by (done || lia). cbn [rbind].
    destruct (sect_block d (addr i 124) Hd ltac:(lia)) as [Hl _]. consts. rewrite rd32_ok by lia. cbn [rbind].
    unfold slot in *. consts. revert Hblk. rewrite (proj2 (Z.leb_gt _ _)), (proj2 (Z.eqb_neq _ _) Hind) by lia.
    replace (bn + 1 - 124 - 1) with (bn - 124) by lia. intros Hblk. by rewrite (proj2 (Z.eqb_neq _ _) Hblk).
Qed.

(** The result of [bmap] at [bn]: the block, and the state after it. *)
Definition bmapped d i (Y : gset Z) bn r d' i' a : Prop :=
  exists Y', file_at d' i' /\ home d' = home d /\ Y ⊆ Y' /\ res d' i' Y' r /\ a ∈ Y' /\ a = blk (sect d') i' bn /\ a <> 0 /\
    grown sb (home d) (sect d) i (sect d') i' /\ kept sb (home d) (sect d) i (sect d').

Lemma res_add d i Y r s : res d i Y (S r) -> res d i ({[s]} ∪ Y) r.
Proof.
  intros [H1 H2 H3 H4]. split; [by apply room_add | set_solver | set_solver | lia].
Qed.

Lemma res_ok d i Y r : res d i Y r -> dev_ok d.
Proof. by intros [(? & _) _ _ _]. Qed.

Lemma bmapped_hit d i Y bn r :
  file_at d i -> res d i Y (S r) -> blk (sect d) i bn <> 0 -> bmapped d i Y bn r d i (blk (sect d) i bn).
Proof.
  intros Hf Hr Hb. exists ({[blk (sect d) i bn]} ∪ Y). split; [done|]. split; [done|]. split; [set_solver|].
  split; [by apply res_add|]. split; [set_solver|]. split; [done|]. split; [done|].
  split; [apply grown_refl | done].
Qed.

Lemma bmap_entry_ok d i Y bn r :
  file_at d i -> res d i Y (S r) -> addr i NDIRECT <> 0 -> 0 <= bn < NINDIRECT ->
  exists d' a, bmap_entry d i (addr i NDIRECT) bn = Ok (d', i, a) /\ bmapped d i Y (NDIRECT + bn) r d' i a.
Proof.
  intros Hf Hres Hind Hbn. destruct (Z.eq_dec (slot (sect d) i (NDIRECT + 1 + bn)) 0) as [Ez|Hnz].
  2:{ assert (blk (sect d) i (NDIRECT + bn) <> 0) as Hnb.
      { unfold blk, bslot. destruct (Z.ltb_spec (NDIRECT + bn) NDIRECT); [lia|]. by replace (NDIRECT + bn + 1) with (NDIRECT + 1 + bn) by lia. }
      pose proof (bmap_hit d i (NDIRECT + bn) (res_ok _ _ _ _ Hres) Hf ltac:(consts; lia) Hnb) as E.
      exists d, (blk (sect d) i (NDIRECT + bn)). split; [|by apply bmapped_hit].
      revert E. unfold bmap. destruct (Z.ltb_spec (NDIRECT + bn) NDIRECT); [lia|].
      replace (NDIRECT + bn - NDIRECT) with bn by lia. rewrite (proj2 (Z.ltb_lt bn NINDIRECT)) by lia.
      rewrite get_byte by (rewrite (m_len _ _ _ _ (proj2 (proj2 Hf))); consts; lia). cbn [rbind].
      change (byte (i_addrs i) NDIRECT) with (addr i NDIRECT). by rewrite (proj2 (Z.eqb_neq _ _) Hind). }
  pose proof Hf as (Hg & Hmeta & Hm). pose proof Hg as [Hlay _]. pose proof Hres as [Hroom Hbms HY Hfree].
  unfold ineed in *. rewrite (proj2 (Z.eqb_neq _ _) Hind), Nat.add_0_r in *. cbn [Nat.add] in Hroom.
  destruct (mapped_pos sb _ Hlay (sect d) i NDIRECT Hm) as (H1 & H2 & H3); [consts; lia | by rewrite slot_addr|].
  rewrite slot_addr in H1, H2, H3 by done. unfold bmap_entry. rewrite (m_dev _ _ _ _ Hm).
  rewrite (room_bread d Y (S (r + slack))) by (done || lia). cbn [rbind].
  destruct (room_sect d Y (S (r + slack)) (addr i NDIRECT) Hroom ltac:(lia)) as [Hl HF]. rewrite rd32_ok by (consts; lia). cbn [rbind].
  assert (w32 (sect d (addr i NDIRECT)) (4 * bn) = 0) as ->.
  { revert Ez. unfold slot. rewrite (proj2 (Z.leb_gt _ _)), (proj2 (Z.eqb_neq _ _) Hind) by lia.
    by replace (NDIRECT + 1 + bn - NDIRECT - 1) with bn by lia. }
  rewrite Z.eqb_refl.
  destruct (balloc_res d Y (r + slack) (r + spare)) as (d1 & b & -> & Hg1 & Hh1 & Hmeta1 & Hr1 & Ha & Hf1); [done..|]. cbn [rbind].
  destruct (wr32_stored (sect d (addr i NDIRECT)) (4 * bn) b) as (a & -> & Hst); [consts; lia..|]. cbn [rbind].
  destruct (room_write d1 ({[b]} ∪ Y) (r + slack) (addr i NDIRECT) a) as (d2 & E2 & Hr2 & Hc2 & Hs2).
  { done. } { set_solver. } { lia. } { by eapply stored_block. }
  rewrite E2. cbn [rbind]. exists d2, b. split; [done|]. destruct Hc2 as [Hh2 Hc2].
  destruct (extend_entry sb (home d) Hlay (sect d) i (sect d1) (sect d2) bn b a) as (Hm2 & Hgr & Hk & Hsl); try done.
  { intros s Hs Hne. apply Hc2; [lia | set_solver]. }
  assert (changes {[addr i NDIRECT]} d1 d2) as Hch by done.
  assert ({[addr i NDIRECT]} ## bitmaps sb) as Hdis by (by apply disjoint_singleton_l).
  exists ({[b]} ∪ Y). split.
  { split; [eapply geom_changes; [done | exact Hch |]|].
    - rewrite elem_of_singleton. lia.
    - split; [|by rewrite Hh2, Hh1]. intros b' Hb'. rewrite (bit_changes sb {[addr i NDIRECT]} d1 d2); [by apply Hmeta1 | done..|].
      destruct Hlay; lia. }
  split; [congruence|]. split; [set_solver|]. split.
  { split.
    - unfold ineed. by rewrite (proj2 (Z.eqb_neq _ _) Hind), Nat.add_0_r.
    - set_solver.
    - intros _. set_solver.
    - unfold ineed. rewrite (proj2 (Z.eqb_neq _ _) Hind), Nat.add_0_r. etrans; [exact Hf1|]. rewrite Hh2.
      apply subseteq_size. intros x. rewrite !elem_of_free. intros [Hx Hb']. split; [done|].
      rewrite (bit_changes sb {[addr i NDIRECT]} d1 d2); [done..|]. destruct Hg1 as [(? & ? & ?) _]. lia. }
  split; [set_solver|]. split.
  { unfold blk, bslot. destruct (Z.ltb_spec (NDIRECT + bn) NDIRECT); [lia|]. replace (NDIRECT + bn + 1) with (NDIRECT + 1 + bn) by lia. done. }
  split; [|done]. destruct Ha as [Hr _ _ _ _]. pose proof (dstart_pos sb _ Hlay). lia.
Qed.

Lemma bmap_ok d i Y bn r :
  file_at d i -> res d i Y (S r) -> 0 <= bn < MAXFILE ->
  exists d' i' a, bmap d i bn = Ok (d', i', a) /\ bmapped d i Y bn r d' i' a.
Proof.
  intros Hf Hres Hbn. destruct (Z.eq_dec (blk (sect d) i bn) 0) as [Ez|Hnz].
  2:{ eexists _, _, _. split; [apply bmap_hit; eauto using res_ok | by apply bmapped_hit]. }
  pose proof Hf as (Hg & Hmeta & Hm). pose proof Hg as [Hlay _]. pose proof Hres as [Hroom Hbms HY Hfree].
  pose proof (m_len _ _ _ _ Hm) as Hlen. pose proof (dstart_pos sb _ Hlay) as Hd.
  unfold bmap. rewrite (m_dev _ _ _ _ Hm). destruct (Z.ltb_spec bn NDIRECT) as [Hlt|Hge].
  - assert (addr i bn = 0) as Ea.
    { revert Ez. unfold blk, bslot. rewrite (proj2 (Z.ltb_lt _ _)) by done. by rewrite slot_addr by lia. }
    rewrite get_byte by lia. cbn [rbind]. change (byte (i_addrs i) bn) with (addr i bn). rewrite Ea, Z.eqb_refl.
    destruct (balloc_res d Y (r + ineed i + slack) (r + ineed i + spare)) as (d1 & b & -> & Hg1 & Hh1 & Hmeta1 & Hr1 & Ha & Hf1); [done..|]. cbn [rbind].
    rewrite put_ok by lia. cbn [rbind]. destruct (extend_addr sb _ Hlay (sect d) i (sect d1) bn b) as (Hm1 & Hgr & Hk & Hsl); [done | lia | done | done|].
    eexists _, _, _. split; [done|]. exists ({[b]} ∪ Y). split; [split; [done|]; split; [done|]; by rewrite Hh1|].
    split; [done|]. split; [set_solver|].
    assert (addr (set_addrs (<[Z.to_nat bn:=b]> (i_addrs i)) i) NDIRECT = addr i NDIRECT) as Ei.
    { rewrite addr_set by (consts; lia). destruct (Z.eqb_spec NDIRECT bn); [lia | done]. }
    split; [split; unfold ineed in *; rewrite ?Ei; [done | set_solver | set_solver | done]|]. split; [set_solver|].
    split; [unfold blk, bslot; by rewrite (proj2 (Z.ltb_lt _ _)) by done|]. split; [destruct Ha; lia | done].
  - rewrite (proj2 (Z.ltb_lt (bn - NDIRECT) NINDIRECT)) by (consts; lia).
    rewrite get_byte by (consts; lia). cbn [rbind]. change (byte (i_addrs i) NDIRECT) with (addr i NDIRECT).
    destruct (Z.eqb_spec (addr i NDIRECT) 0) as [Ei|Hni]; cbn [rbind].
    + unfold ineed in *. rewrite Ei, Z.eqb_refl in *. rewrite Nat.add_1_r in *. cbn [Nat.add] in Hroom.
      destruct (balloc_res d Y (S r + slack) (S r + spare)) as (d1 & c & -> & Hg1 & Hh1 & Hmeta1 & Hr1 & Ha & Hf1); [done..|]. cbn [rbind].
      rewrite put_ok by (consts; lia). cbn [rbind].
      destruct (extend_addr sb _ Hlay (sect d) i (sect d1) NDIRECT c) as (Hm1 & Hgr & Hk & Hsl); [done | consts; lia | done | done|].
      set (i1 := set_addrs _ i) in *. assert (addr i1 NDIRECT = c) as Ec by by rewrite slot_addr in Hsl.
      assert (c <> 0) as Hc by (destruct Ha; lia).
      assert (file_at d1 i1) as Hf1' by (split; [done|]; split; [done|]; by rewrite Hh1).
      destruct (bmap_entry_ok d1 i1 ({[c]} ∪ Y) (bn - NDIRECT) r) as (d2 & a & E & Y2 & B1 & B2 & B3 & B4 & B5 & B6 & B7 & B8 & B9);
        [done | | congruence | consts; lia |].
      { split; unfold ineed; rewrite ?Ec, ?(proj2 (Z.eqb_neq _ _) Hc), ?Nat.add_0_r; [done | set_solver | set_solver | done]. }
      rewrite Ec in E. rewrite E. eexists _, _, _. split; [done|]. exists Y2. split; [done|]. split; [congruence|].
      split; [set_solver|]. split; [done|]. split; [done|]. split; [by replace bn with (NDIRECT + (bn - NDIRECT)) at 1 by lia|].
      split; [done|]. rewrite Hh1 in *. split; [by eapply grown_trans|].
      intros s Hs Hbm Hb Hne. rewrite <- Hk by done. apply B9; [done | done | | ].
      { apply (g_bits _ _ _ _ _ _ Hgr); [destruct Hlay; lia | done]. }
      { rewrite Ec. intros ->. destruct Ha as [_ Hfr _ _ _]. congruence. }
    + destruct (bmap_entry_ok d i Y (bn - NDIRECT) r) as (d2 & a & E & B); [done | done | done | consts; lia |].
      replace (NDIRECT + (bn - NDIRECT)) with bn in B by lia. eauto.
Qed.
End Bmap.
