(* ===== verification/FsRw.v ===== *)
(** The loops of [readi] and [writei] over the blocks of a file. *)
From stdpp Require Import gmap sets list_numbers.
From S2P Require Import Prelude Ulib Sys Fs FsBlock FsBmap.
Open Scope Z_scope.

#[local] Ltac Zify.zify_post_hook ::= Z.to_euclidean_division_equations.

Lemma copied_byte b src dst s n b' k :
  copied b src dst s n b' -> 0 <= s -> s + n <= zlen src -> 0 <= k < zlen b ->
  byte b' k = if (dst <=? k) && (k <? dst + n) then byte src (s + (k - dst)) else byte b k.
Proof.
  intros [Hl H] Hs Hn Hk. specialize (H k Hk). rewrite !lookup_byte in H by lia.
  destruct ((dst <=? k) && (k <? dst + n)) eqn:E in H |- *; [|rewrite lookup_byte in H by lia; congruence].
  apply andb_prop in E as [E1%Z.leb_le E2%Z.ltb_lt]. rewrite lookup_byte in H by lia. congruence.
Qed.

Lemma copied_ok b src dst s n b' :
  copied b src dst s n b' -> 0 <= s -> s + n <= zlen src -> Forall byte_ok b -> Forall byte_ok src -> Forall byte_ok b'.
Proof.
  intros H Hs Hn Hb Hsrc. apply Forall_lookup. intros j x Hx. pose proof (lookup_lt_Some _ _ _ Hx) as Hj.
  pose proof H as [Hl _]. pose proof (copied_byte _ _ _ _ _ _ (Z.of_nat j) H Hs Hn ltac:(lia)) as E.
  pose proof (lookup_byte b' (Z.of_nat j) ltac:(lia)) as E'. rewrite Nat2Z.id, Hx in E'. injection E' as ->. rewrite E.
  destruct (_ && _); by apply byte_range.
Qed.

Lemma bslot_range bn : 0 <= bn < MAXFILE -> 0 <= bslot bn < NSLOT /\ bslot bn <> NDIRECT.
Proof. unfold bslot. consts. intros H. destruct (Z.ltb_spec bn 124); lia. Qed.

Lemma bslot_inj a b : bslot a = bslot b -> a = b.
Proof. unfold bslot. destruct (Z.ltb_spec a NDIRECT), (Z.ltb_spec b NDIRECT); lia. Qed.

(** The number of blocks that hold the [len] bytes from [off] on. *)
Definition nblks (off len : Z) : Z := if len <=? 0 then 0 else (off + len - 1) / BSIZE - off / BSIZE + 1.

Section Rw.
Context {D : Type} `{!BlockDev D} `{!BlockLaws D}.
Context (sb : superblock) (slack spare : nat).
Implicit Types (d : D) (i : inode).

(** A block of the file other than the indirect one is overwritten. *)
Lemma data_write d i Y k bn b :
  file_at sb d i -> room d Y k -> 0 <= bn < MAXFILE -> blk (sect d) i bn <> 0 -> blk (sect d) i bn ∈ Y -> block_ok b ->
  exists d', log_write d ROOTDEV (blk (sect d) i bn) b = Ok d' /\ room d' Y k /\ changes {[blk (sect d) i bn]} d d' /\
    sect d' (blk (sect d) i bn) = b /\ file_at sb d' i /\ (forall n, slot (sect d') i n = slot (sect d) i n) /\
    grown sb (home d) (sect d) i (sect d') i /\ free sb (home d') (sect d') = free sb (home d) (sect d).
Proof.
  intros (Hg & Hmeta & Hm) Hr Hbn Hz HY Hb. pose proof Hg as [Hlay _]. pose proof (bslot_range bn Hbn) as [Hs1 Hs2].
  destruct (mapped_pos sb _ Hlay _ _ _ Hm Hs1 Hz) as (P1 & P2 & P3). fold (blk (sect d) i bn) in P1, P2, P3.
  destruct (room_write d Y k (blk (sect d) i bn) b) as (d' & E & Hr' & Hc & Hs); [done | done | lia | done|].
  assert ({[blk (sect d) i bn]} ## bitmaps sb) as Hdis by (by apply disjoint_singleton_l).
  assert (forall b', 0 <= b' < sb_size sb -> bit sb (sect d') b' = bit sb (sect d) b') as Hbit
    by (intros; by eapply bit_changes).
  assert (forall n, slot (sect d') i n = slot (sect d) i n) as Hslot.
  { intros n. unfold slot. destruct (n <=? NDIRECT); [done|]. destruct (Z.eqb_spec (addr i NDIRECT) 0) as [|Hi]; [done|].
    destruct Hc as [_ Hc]. rewrite Hc; [done | |].
    - destruct (mapped_pos sb _ Hlay _ _ NDIRECT Hm) as (Q & _); [consts; lia | by rewrite slot_addr |].
      rewrite slot_addr in Q by done. lia.
    - rewrite elem_of_singleton. intros Eq. apply Hs2. symmetry. apply (m_inj _ _ _ _ Hm); [consts; lia | done | | by rewrite slot_addr].
      by rewrite slot_addr. }
  pose proof Hc as [Hh Hk]. pose proof Hlay as (_ & Hl & _). pose proof (dstart_pos sb _ Hlay).
  exists d'. split; [done|]. split; [done|]. split; [done|]. split; [done|]. split; [split; [|split]|split; [done|split]].
  - eapply geom_changes; [done | done|]. rewrite elem_of_singleton. lia.
  - intros b' Hb'. rewrite Hbit by lia. by apply Hmeta.
  - rewrite Hh. split; [apply (m_dev _ _ _ _ Hm) | apply (m_len _ _ _ _ Hm) | |].
    + intros n Hn. rewrite !Hslot. intros Hnz. destruct (m_slot _ _ _ _ Hm n Hn Hnz) as [G1 G2]. rewrite Hbit by lia. done.
    + intros n m Hn Hm'. rewrite !Hslot. by apply (m_inj _ _ _ _ Hm).
  - split; [by destruct i | | | | |].
    + intros b' Hb'. by rewrite Hbit.
    + intros b' Hb'. rewrite Hbit by done. congruence.
    + intros n Hn _. apply Hslot.
    + intros n Hn. rewrite Hslot. congruence.
    + intros s Hs' _ _ Ho. apply Hk; [done|]. rewrite elem_of_singleton. intros ->. apply Ho. by exists (bslot bn).
  - apply set_eq. intros x. rewrite !elem_of_free, Hh. split; intros [Hx Hbx]; (split; [done|]); revert Hbx; by rewrite Hbit by lia.
Qed.

(** The bytes of the file after [len] bytes of [src] from [tot] on were written
    at [off]. *)
Definition wrote (σ : Z -> bytes) i (σ' : Z -> bytes) i' (off len : Z) (src : bytes) (tot : Z) : Prop :=
  forall k, 0 <= k < MAXFILE * BSIZE ->
    (off <= k < off + len -> blk σ' i' (k / BSIZE) <> 0 /\ fbyte σ' i' k = byte src (tot + (k - off))) /\
    (~ off <= k < off + len -> blk σ i (k / BSIZE) <> 0 -> blk σ' i' (k / BSIZE) <> 0 /\ fbyte σ' i' k = fbyte σ i k).

Lemma blk_old h σ i σ' i' bn : grown sb h σ i σ' i' -> 0 <= bn < MAXFILE -> blk σ i bn <> 0 -> blk σ' i' bn = blk σ i bn.
Proof. intros Hg Hbn Hz. apply (g_old _ _ _ _ _ _ Hg); [by apply bslot_range | done]. Qed.

Lemma wrote_app σ1 i1 σ2 i2 σ3 i3 off m len src tot :
  wrote σ1 i1 σ2 i2 off m src tot -> wrote σ2 i2 σ3 i3 (off + m) (len - m) src (tot + m) ->
  0 <= off -> 0 <= m <= len -> off + len <= MAXFILE * BSIZE -> wrote σ1 i1 σ3 i3 off len src tot.
Proof.
  intros W1 W2 Ho Hm Hl k Hk. destruct (W1 k Hk) as [A1 B1]. destruct (W2 k Hk) as [A2 B2].
  assert (0 <= k / BSIZE < MAXFILE) as Hbn by (consts; lia). split.
  - intros Hin. destruct (Z.lt_ge_cases k (off + m)) as [Hlt|Hge].
    + destruct (A1 ltac:(lia)) as [Hz E]. destruct (B2 ltac:(lia) Hz) as [Hz' ->]. done.
    + destruct (A2 ltac:(lia)) as [Hz E]. split; [done|]. rewrite E. f_equal. lia.
  - intros Hout Hz. destruct (B1 ltac:(lia) Hz) as [Hz' <-]. apply B2; [lia | done].
Qed.

(** Bytes are copied into block [bn] of a file that has just gained it or had it. *)
Lemma block_write d i d1 i1 Y k src off m tot :
  file_at sb d i -> file_at sb d1 i1 -> home d1 = home d -> grown sb (home d) (sect d) i (sect d1) i1 -> kept sb (home d) (sect d) i (sect d1) ->
  0 <= off < MAXFILE * BSIZE -> 0 <= m -> off mod BSIZE + m <= BSIZE -> 0 <= tot -> tot + m <= zlen src -> Forall byte_ok src ->
  let a := blk (sect d1) i1 (off / BSIZE) in
  a <> 0 -> a ∈ Y -> room d1 Y k ->
  exists bp d', memmove (sect d1 a) (off mod BSIZE) src tot m = Ok bp /\ block_ok bp /\ 4 < a < home d /\ log_write d1 ROOTDEV a bp = Ok d' /\
    room d' Y k /\ file_at sb d' i1 /\ home d' = home d /\ grown sb (home d) (sect d) i (sect d') i1 /\ wrote (sect d) i (sect d') i1 off m src tot /\
    (forall n, slot (sect d') i1 n = slot (sect d1) i1 n) /\ free sb (home d') (sect d') = free sb (home d1) (sect d1).
Proof.
  intros Hf F1 Hh1 Hgr Hk Hoff Hm Hfit Htot Hsrc HF a Hz Ha Hroom. assert (0 <= off / BSIZE < MAXFILE) as Hbn by (consts; lia).
  pose proof F1 as (Hg1 & _ & Hm1). pose proof Hg1 as [Hlay1 _]. pose proof (bslot_range _ Hbn) as [Hs1 Hs2].
  destruct (mapped_pos sb _ Hlay1 _ _ _ Hm1 Hs1 Hz) as (P1 & P2 & P3). fold (blk (sect d1) i1 (off / BSIZE)) in P1, P2, P3. fold a in P1, P2, P3.
  destruct (room_sect d1 Y _ a Hroom ltac:(lia)) as [Hl Hb].
  destruct (ensures_inv _ _ (memmove_copied (sect d1 a) (off mod BSIZE) src tot m Hm ltac:(consts; lia) ltac:(lia) Htot Hsrc)) as (bp & Ebp & Hcp).
  assert (block_ok bp) as Hbp.
  { split; [by rewrite (proj1 Hcp)|]. by eapply copied_ok. }
  destruct (data_write d1 i1 Y k (off / BSIZE) bp) as (d2 & Ew & Hr2 & Hc2 & Hs2' & F2 & Hsl2 & Hgr2 & Hfree2); [done..|].
  pose proof Hc2 as [Hh2 Hk2]. fold a in Hs2', Hk2, Ew.
  exists bp, d2. split; [done|]. split; [done|]. split; [lia|]. split; [done|]. split; [done|]. split; [done|]. split; [congruence|].
  rewrite Hh1 in *. pose proof Hf as (Hg & _ & Hm0). pose proof Hg as [Hlay _]. split; [by eapply grown_trans|].
  assert (forall n, blk (sect d2) i1 n = blk (sect d1) i1 n) as Hblk by (intros; apply Hsl2).
  assert (forall k, k / BSIZE = off / BSIZE -> fbyte (sect d2) i1 k =
            if (off mod BSIZE <=? k mod BSIZE) && (k mod BSIZE <? off mod BSIZE + m) then byte src (tot + (k mod BSIZE - off mod BSIZE))
            else byte (sect d1 a) (k mod BSIZE)) as Hby.
  { intros q Ek. unfold fbyte. rewrite Ek, Hblk. fold a. rewrite Hs2'. apply (copied_byte _ _ _ _ _ _ _ Hcp); [done | done|].
    rewrite Hl. consts. lia. }
  split; [|by split].
  intros q Hk'. assert (0 <= q / BSIZE < MAXFILE) as Hbk by (consts; lia). split.
  - intros Hin. assert (q / BSIZE = off / BSIZE) as Ek by (consts; lia). rewrite Hblk, Ek. split; [done|].
    rewrite Hby by done. replace (off mod BSIZE <=? q mod BSIZE) with true by (symmetry; apply Z.leb_le; consts; lia).
    replace (q mod BSIZE <? off mod BSIZE + m) with true by (symmetry; apply Z.ltb_lt; consts; lia). cbn [andb]. f_equal. consts. lia.
  - intros Hout Hnz. pose proof (blk_old _ _ _ _ _ (q / BSIZE) Hgr Hbk Hnz) as Eb. split; [by rewrite Hblk, Eb|].
    pose proof (bslot_range _ Hbk) as [Hq1 Hq2].
    destruct (mapped_pos sb _ Hlay _ _ _ Hm0 Hq1 Hnz) as (R1 & R2 & R3). fold (blk (sect d) i (q / BSIZE)) in R1, R2, R3.
    assert (sect d1 (blk (sect d) i (q / BSIZE)) = sect d (blk (sect d) i (q / BSIZE))) as Esec.
    { apply Hk; [lia | done | done|]. intros Eq. exfalso. apply Hq2. symmetry.
      apply (m_inj _ _ _ _ Hm0); [consts; lia | done | rewrite slot_addr by done; by rewrite <- Eq|]. rewrite slot_addr by done. lia. }
    destruct (Z.eq_dec (q / BSIZE) (off / BSIZE)) as [Ek|Hne].
    + rewrite Hby by done. replace ((off mod BSIZE <=? q mod BSIZE) && (q mod BSIZE <? off mod BSIZE + m)) with false.
      * unfold fbyte, a. rewrite <- Ek, Eb, Esec. done.
      * symmetry. apply andb_false_iff. rewrite Z.leb_gt, Z.ltb_ge. consts. lia.
    + unfold fbyte. rewrite Hblk, Hk2; [by rewrite Eb, Esec | rewrite Eb; lia|]. rewrite elem_of_singleton. unfold a. intros Eq.
      apply Hne, bslot_inj. apply (m_inj _ _ _ _ Hm1); [done | done | done|]. fold (blk (sect d1) i1 (q / BSIZE)). by rewrite Eb.
Qed.

(** One round of [writei]. *)
Lemma write_round d i Y r src off m tot :
  file_at sb d i -> res sb slack spare d i Y (S r) -> 0 <= off < MAXFILE * BSIZE -> 0 <= m -> off mod BSIZE + m <= BSIZE ->
  0 <= tot -> tot + m <= zlen src -> Forall byte_ok src ->
  exists d1 i' a bp d' Y', bmap d i (off / BSIZE) = Ok (d1, i', a) /\ i_dev i' = ROOTDEV /\
    memmove (sect d1 a) (off mod BSIZE) src tot m = Ok bp /\
    bread d1 ROOTDEV a = Ok (sect d1 a) /\ log_write d1 ROOTDEV a bp = Ok d' /\
    file_at sb d' i' /\ home d' = home d /\ Y ⊆ Y' /\ res sb slack spare d' i' Y' r /\
    grown sb (home d) (sect d) i (sect d') i' /\ wrote (sect d) i (sect d') i' off m src tot /\
    (blk (sect d) i (off / BSIZE) <> 0 -> i' = i /\ forall n, slot (sect d') i n = slot (sect d) i n).
Proof.
  intros Hf Hres Hoff Hm Hfit Htot Hsrc HF. assert (0 <= off / BSIZE < MAXFILE) as Hbn by (consts; lia).
  destruct (bmap_ok sb slack spare d i Y (off / BSIZE) r) as (d1 & i1 & a & E & Y1 & F1 & Hh1 & HY1 & Hres1 & Ha & -> & Hz & Hgr & Hk); [done..|].
  pose proof (r_room _ _ _ _ _ _ _ Hres1) as Hroom.
  destruct (block_write d i d1 i1 Y1 (r + ineed i1 + slack) src off m tot) as (bp & d2 & Ebp & Hbp & Hpos & Ew & Hr2 & F2 & Hh2 & Hgr2 & Hw & Hsl2 & Hfree2); [done..|].
  exists d1, i1, (blk (sect d1) i1 (off / BSIZE)), bp, d2, Y1. split; [done|]. split; [apply F1|]. split; [done|].
  split; [apply (room_bread d1 Y1 (r + ineed i1 + slack)); [done | lia]|]. split; [done|]. split; [done|]. split; [done|]. split; [done|].
  split; [split; [done | apply Hres1 | apply Hres1 | rewrite Hfree2; apply Hres1]|]. split; [done|]. split; [done|].
  intros Hnz. rewrite (bmap_hit sb d i) in E by eauto using res_ok. injection E as <- <-. split; [done | exact Hsl2].
Qed.

(** The loop writes all the bytes, if the log and the disk have room for its
    blocks. *)
Lemma writei_loop_ok fuel d i src off n tot Y r k :
  file_at sb d i -> res sb slack spare d i Y r -> 0 <= tot <= n -> n <= zlen src -> Forall byte_ok src -> 0 <= off ->
  off + (n - tot) <= MAXFILE * BSIZE -> r = (Z.to_nat (nblks off (n - tot)) + k)%nat -> (Z.to_nat (n - tot) <= fuel)%nat ->
  exists d' i' Y', writei_loop fuel d i src off n tot = Ok (d', i', off + (n - tot)) /\
    file_at sb d' i' /\ home d' = home d /\ Y ⊆ Y' /\ res sb slack spare d' i' Y' k /\
    grown sb (home d) (sect d) i (sect d') i' /\ wrote (sect d) i (sect d') i' off (n - tot) src tot /\
    ((forall k, off <= k < off + (n - tot) -> blk (sect d) i (k / BSIZE) <> 0) ->
       i' = i /\ forall n, slot (sect d') i n = slot (sect d) i n).
Proof.
  revert d i off tot Y r. induction fuel as [|fuel IH]; intros d i off tot Y r Hf Hres Htot Hn HF Hoff Hmax Hblocks Hfuel;
    (destruct (Z.eq_dec tot n) as [->|Hne];
      [exists d, i, Y; cbn [writei_loop]; rewrite Z.ltb_irrefl, Z.sub_diag, Z.add_0_r; split; [done|]; split; [done|];
       split; [done|]; split; [done|];
       split; [by subst r; replace (n - n) with 0 in Hres by lia|];
       split; [apply grown_refl | split; [intros q Hq; split; [lia | done] | done]]|]).
  - lia.
  - cbn [writei_loop]. rewrite (proj2 (Z.ltb_lt _ _)) by lia. set (m := Z.min (n - tot) (BSIZE - off mod BSIZE)).
    assert (0 < m <= n - tot /\ off mod BSIZE + m <= BSIZE) as Hm by (unfold m; consts; lia).
    unfold nblks in Hblocks. rewrite (proj2 (Z.leb_gt _ _)) in Hblocks by lia.
    destruct r as [|r]; [consts; lia|].
    destruct (write_round d i Y r src off m tot) as (d1 & i1 & a & bp & d2 & Y2 & -> & Hdev & Ecp & Ebr & Ew & F2 & Hh2 & HY2 & Hres2 & Hgr & Hw & Hsame);
      [done | done | lia | lia | lia | lia | lia | done |].
    cbn [rbind]. rewrite Hdev, Ebr. cbn [rbind]. rewrite Ecp. cbn [rbind]. rewrite Ew. cbn [rbind].
    destruct (IH d2 i1 (off + m) (tot + m) Y2 r) as (d3 & i3 & Y3 & E & F3 & Hh3 & HY3 & Hr3 & Hgr3 & Hw3 & Hsame3); [done | done | lia | lia | done | lia | lia | | lia |].
    { unfold nblks. destruct (Z.leb_spec (n - (tot + m)) 0); unfold m in *; consts; lia. }
    rewrite E. exists d3, i3, Y3. split; [do 2 f_equal; lia|]. split; [done|]. split; [congruence|]. split; [set_solver|]. split; [done|].
    rewrite Hh2 in *. destruct Hf as (Hg & _). split; [eapply grown_trans; [apply Hg | exact Hgr | exact Hgr3]|].
    replace (n - (tot + m)) with (n - tot - m) in * by lia.
    split; [eapply wrote_app; [exact Hw | exact Hw3 | lia | lia | lia]|].
    intros Hall. destruct Hsame as [-> Hs2]; [apply Hall; lia|]. destruct Hsame3 as [-> Hs3].
    + intros q Hq. unfold blk. rewrite Hs2. apply Hall. lia.
    + split; [done|]. intros x. by rewrite Hs3.
Qed.

(** The loop reads the bytes of a file whose blocks are there. *)
Lemma readi_loop_ok fuel d i dst off n tot :
  dev_ok d -> file_at sb d i -> 0 <= tot <= n -> 0 <= off -> off + (n - tot) <= MAXFILE * BSIZE ->
  (forall k, off <= k < off + (n - tot) -> blk (sect d) i (k / BSIZE) <> 0) -> (Z.to_nat (n - tot) <= fuel)%nat ->
  readi_loop fuel d i dst off n tot = Ok (d, i, dst ++ (fbyte (sect d) i <$> seqZ off (n - tot))).
Proof.
  intros Hd Hf. revert dst off tot. induction fuel as [|fuel IH]; intros dst off tot Htot Hoff Hmax Hblk Hfuel;
    (destruct (Z.eq_dec tot n) as [->|Hne]; [cbn [readi_loop]; rewrite Z.ltb_irrefl, Z.sub_diag; cbn; by rewrite app_nil_r|]).
  - lia.
  - cbn [readi_loop]. rewrite (proj2 (Z.ltb_lt _ _)) by lia. set (m := Z.min (n - tot) (BSIZE - off mod BSIZE)).
    assert (0 < m <= n - tot /\ off mod BSIZE + m <= BSIZE) as Hm by (unfold m; consts; lia).
    assert (0 <= off / BSIZE < MAXFILE) as Hbn by (consts; lia).
    pose proof (Hblk off ltac:(lia)) as Hz. rewrite bmap_hit with (sb := sb) by done. cbn [rbind].
    pose proof Hf as (Hg & _ & Hmp). pose proof (bslot_range _ Hbn) as [Hs1 Hs2].
    destruct (mapped_pos sb _ (proj1 Hg) _ _ _ Hmp Hs1 Hz) as (P1 & P2 & P3). fold (blk (sect d) i (off / BSIZE)) in P1.
    rewrite (m_dev _ _ _ _ Hmp), bread_ok by (done || lia). cbn [rbind].
    destruct (sect_block d (blk (sect d) i (off / BSIZE)) Hd ltac:(lia)) as [Hl _].
    destruct (ensures_inv _ _ (memmove_copied (malloc m) 0 (sect d (blk (sect d) i (off / BSIZE))) (off mod BSIZE) m
                ltac:(lia) ltac:(lia) ltac:(unfold malloc; llia) ltac:(consts; lia) ltac:(lia))) as (part & -> & Hcp). cbn [rbind].
    rewrite IH by (consts; (lia || (intros k Hk; apply Hblk; lia))). do 2 f_equal. rewrite <- app_assoc. f_equal.
    replace (n - tot) with (m + (n - (tot + m))) by lia. rewrite seqZ_app by lia. rewrite fmap_app. f_equal.
    apply list_eq. intros j. rewrite list_lookup_fmap. destruct Hcp as [Hlen Hcp]. unfold malloc in *. rewrite length_replicate in Hlen.
    destruct (decide (Z.of_nat j < m)) as [Hj|Hj].
    + rewrite lookup_seqZ_lt by lia. cbn. specialize (Hcp (Z.of_nat j) ltac:(llia)). rewrite Nat2Z.id in Hcp. rewrite Hcp. zsimp.
      rewrite Z.sub_0_r, lookup_byte by (consts; lia). unfold fbyte.
      replace ((off + Z.of_nat j) / BSIZE) with (off / BSIZE) by (consts; lia). do 2 f_equal. consts. lia.
    + rewrite lookup_seqZ_ge by lia. apply lookup_ge_None_2. lia.
Qed.
End Rw.
