(* ===== verification/FsDisk.v ===== *)
(** The whole disk: the inodes in their blocks, the invariant of the file system
    and what [readi] and [writei] do to the files. *)
From stdpp Require Import gmap sets list_numbers.
From S2P Require Import Prelude Ulib Sys Fs FsBlock FsBmap FsRw.
Open Scope Z_scope.

#[local] Ltac Zify.zify_post_hook ::= Z.to_euclidean_division_equations.

(** * Inodes in their blocks *)

(** An inode without what only the cache knows. *)
Definition core (i : inode) : inode := set_ref 0 (set_flags 0 i).

(** The inode the disk holds under a number. *)
Definition dnode (σ : Z -> bytes) (inum : Z) : inode :=
  let b := σ (IBLOCK inum) in
  mk_inode ROOTDEV inum 0 0 (s16 (w16 b 0)) (s16 (w16 b 2)) (s16 (w16 b 4)) (s16 (w16 b 6)) (w32 b 8)
    ((fun k => w32 b (12 + 4 * k)) <$> seqZ 0 (NDIRECT + 1)).

Definition short_ok (v : Z) : Prop := - 2 ^ 15 <= v < 2 ^ 15.

(** The fields fit their places on the disk. *)
Record fits (i : inode) : Prop := {
  fit_dev : i_dev i = ROOTDEV;
  fit_type : short_ok (i_type i);
  fit_major : short_ok (i_major i);
  fit_minor : short_ok (i_minor i);
  fit_nlink : short_ok (i_nlink i);
  fit_size : 0 <= i_size i < 2 ^ 32;
  fit_len : zlen (i_addrs i) = NDIRECT + 1;
  fit_addrs : forall n, 0 <= n <= NDIRECT -> 0 <= addr i n < 2 ^ 32;
}.

Lemma IBLOCK_eq inum : IBLOCK inum = inum + 2.
Proof. unfold IBLOCK. by rewrite IPB_1, Z.div_1_r. Qed.

Lemma dinode_off_0 inum : dinode_off inum = 0.
Proof. unfold dinode_off. by rewrite IPB_1, Z.mod_1_r. Qed.

Lemma s16_u16 v : short_ok v -> s16 (u16 v) = v.
Proof. unfold short_ok, s16, u16. intros H. change (2 ^ 15) with 32768 in *. change (2 ^ 16) with 65536. lia. Qed.

Lemma s16_short v : short_ok (s16 v).
Proof. unfold short_ok, s16. change (2 ^ 15) with 32768 in *. change (2 ^ 16) with 65536. lia. Qed.

Lemma addr_dnode σ inum n : 0 <= n <= NDIRECT -> addr (dnode σ inum) n = w32 (σ (IBLOCK inum)) (12 + 4 * n).
Proof.
  intros Hn. unfold addr. cbn [i_addrs dnode]. apply nth_lookup_Some. rewrite list_lookup_fmap, lookup_seqZ_lt by (consts; lia).
  cbn. do 3 f_equal. lia.
Qed.

Lemma addrs_ext (i j : inode) :
  zlen (i_addrs i) = NDIRECT + 1 -> zlen (i_addrs j) = NDIRECT + 1 ->
  (forall n, 0 <= n <= NDIRECT -> addr i n = addr j n) -> i_addrs i = i_addrs j.
Proof.
  intros Hi Hj H. apply list_eq. intros k. destruct (decide (Z.of_nat k <= NDIRECT)) as [Hk|Hk].
  - pose proof (lookup_byte (i_addrs i) (Z.of_nat k) ltac:(lia)) as E1. pose proof (lookup_byte (i_addrs j) (Z.of_nat k) ltac:(lia)) as E2.
    rewrite Nat2Z.id in E1, E2. rewrite E1, E2. f_equal. apply (H (Z.of_nat k)). lia.
  - rewrite !lookup_ge_None_2 by lia. done.
Qed.

Lemma dnode_fits σ inum : block_ok (σ (IBLOCK inum)) -> fits (dnode σ inum).
Proof.
  intros [_ Hb]. split; try done; try apply s16_short.
  - by apply w32_range.
  - intros n Hn. rewrite addr_dnode by done. by apply w32_range.
Qed.

Lemma dnode_ext σ σ' inum : σ' (IBLOCK inum) = σ (IBLOCK inum) -> dnode σ' inum = dnode σ inum.
Proof. intros E. unfold dnode. by rewrite E. Qed.

Lemma slot_ext σ σ' i j n :
  i_addrs i = i_addrs j -> (addr i NDIRECT <> 0 -> σ' (addr i NDIRECT) = σ (addr i NDIRECT)) -> slot σ' j n = slot σ i n.
Proof.
  intros E Hs. unfold slot. assert (forall n, addr j n = addr i n) as Ea by (intros; unfold addr; by rewrite E). rewrite !Ea.
  destruct (n <=? NDIRECT); [done|]. destruct (Z.eqb_spec (addr i NDIRECT) 0); [done|]. by rewrite Hs.
Qed.

Lemma node_eq i j :
  i_dev i = i_dev j -> i_inum i = i_inum j -> i_ref i = i_ref j -> i_flags i = i_flags j -> i_type i = i_type j ->
  i_major i = i_major j -> i_minor i = i_minor j -> i_nlink i = i_nlink j -> i_size i = i_size j -> i_addrs i = i_addrs j -> i = j.
Proof. destruct i, j. cbn. by intros -> -> -> -> -> -> -> -> -> ->. Qed.

Section Disk.
Context {D : Type} `{!BlockDev D} `{!BlockLaws D}.
Context (sb : superblock).
Implicit Types (d : D) (i : inode).

Definition inum_ok (inum : Z) : Prop := 1 <= inum < sb_ninodes sb.

Lemma iblock_range h inum : layout sb h -> inum_ok inum -> 1 < IBLOCK inum < dstart sb /\ 0 <= IBLOCK inum < h /\ IBLOCK inum ∉ bitmaps sb.
Proof.
  intros Hlay [H1 H2]. pose proof (dstart_pos sb h Hlay). destruct Hlay as (_ & ? & _). rewrite IBLOCK_eq. split; [lia|]. split; [lia|].
  rewrite elem_of_bitmaps, BBLOCK_eq. change (0 / 4096) with 0. lia.
Qed.

Lemma put_addrs_ok b i o :
  zlen (i_addrs i) = NDIRECT + 1 -> 0 <= o -> o + 4 * (NDIRECT + 1) <= zlen b -> (forall n, 0 <= n <= NDIRECT -> 0 <= addr i n < 2 ^ 32) ->
  exists b', put_addrs b o (i_addrs i) = Ok b' /\ length b' = length b /\ (Forall byte_ok b -> Forall byte_ok b') /\
    (forall n, 0 <= n <= NDIRECT -> w32 b' (o + 4 * n) = addr i n) /\ (forall k, 0 <= k < o -> byte b' k = byte b k).
Proof.
  intros Hlen Ho Hb Hr. unfold put_addrs.
  destruct (for_up_ex (fun j b' => length b' = length b /\ (Forall byte_ok b -> Forall byte_ok b') /\
              (forall n, 0 <= n < j -> w32 b' (o + 4 * n) = addr i n) /\ (forall k, 0 <= k < o -> byte b' k = byte b k))
              0 (NDIRECT + 1) (fun k b => let! a := get (i_addrs i) k in wr32 b (o + 4 * k) a) b) as (b' & E & H1 & H2 & H3 & H4).
  - consts. lia.
  - split; [done|]. split; [done|]. split; [lia | done].
  - intros j b1 Hj (L & F & W & K). rewrite get_byte by lia. cbn [rbind]. change (byte (i_addrs i) j) with (addr i j).
    destruct (wr32_stored b1 (o + 4 * j) (addr i j)) as (b2 & -> & Hst); [lia | lia|]. exists b2. split; [done|].
    pose proof Hst as (L2 & F2 & K2). split; [congruence|]. split; [auto|]. split.
    + intros n Hn. destruct (Z.eq_dec n j) as [->|Hne].
      * rewrite (stored_w32 _ _ _ _ Hst) by lia. apply u32_small, Hr. lia.
      * rewrite (stored_w32_ne _ _ _ _ _ _ Hst) by lia. apply W. lia.
    + intros k Hk. rewrite K2 by lia. rewrite (proj2 (Z.leb_gt _ _)) by lia. cbn [andb]. by apply K.
  - exists b'. split; [done|]. split; [done|]. split; [done|]. split; [intros; apply H3; lia | done].
Qed.

Lemma get_addrs_ok b o :
  0 <= o -> o + 4 * (NDIRECT + 1) <= zlen b -> get_addrs b o = Ok ((fun k => w32 b (o + 4 * k)) <$> seqZ 0 (NDIRECT + 1)).
Proof.
  intros Ho Hb. unfold get_addrs.
  destruct (for_up_ex (fun j l => l = (fun k => w32 b (o + 4 * k)) <$> seqZ 0 j) 0 (NDIRECT + 1)
              (fun k l => let! a := rd32 b (o + 4 * k) in Ok (l ++ [a])) []) as (l & -> & ->); [consts; lia | done | | done].
  intros j l Hj ->. rewrite rd32_ok by lia. cbn [rbind]. eexists. split; [done|]. rewrite seqZ_app by lia. rewrite fmap_app. done.
Qed.

(** [iload] reads what the disk holds. *)
Lemma iload_ok d i :
  dev_ok d -> geom sb d -> i_dev i = ROOTDEV -> inum_ok (i_inum i) ->
  exists j, iload d i = Ok j /\ i_ref j = i_ref i /\ i_flags j = i_flags i /\ core j = dnode (sect d) (i_inum i).
Proof.
  intros Hd Hg Hdev Hi. destruct (iblock_range _ _ (proj1 Hg) Hi) as (H1 & H2 & _). unfold iload. rewrite Hdev, bread_ok by done.
  cbn [rbind]. rewrite dinode_off_0. destruct (sect_block d _ Hd H2) as [Hl _]. consts.
  rewrite !rd16_ok, rd32_ok, get_addrs_ok by (consts; lia). cbn [rbind]. eexists. split; [done|]. done.
Qed.

(** [iupdate] writes it. *)
Lemma iupdate_ok d i Y k :
  geom sb d -> room d Y k -> fits i -> inum_ok (i_inum i) -> IBLOCK (i_inum i) ∈ Y ->
  exists d', iupdate d i = Ok d' /\ room d' Y k /\ changes {[IBLOCK (i_inum i)]} d d' /\ dnode (sect d') (i_inum i) = core i.
Proof.
  intros Hg Hr Hfit Hi HY. destruct (iblock_range _ _ (proj1 Hg) Hi) as (H1 & H2 & _).
  unfold iupdate. rewrite (fit_dev _ Hfit), (room_bread d Y k) by done. cbn [rbind]. rewrite dinode_off_0.
  change (0 + 2) with 2. change (0 + 4) with 4. change (0 + 6) with 6. change (0 + 8) with 8. change (0 + 12) with 12.
  destruct (room_sect d Y k _ Hr H2) as [Hl HF]. consts.
  destruct (wr16_stored (sect d (IBLOCK (i_inum i))) 0 (i_type i)) as (b1 & -> & S1); [lia | lia|]. cbn [rbind]. pose proof S1 as (L1 & F1 & _).
  destruct (wr16_stored b1 2 (i_major i)) as (b2 & -> & S2); [lia | lia|]. cbn [rbind]. pose proof S2 as (L2 & F2 & _).
  destruct (wr16_stored b2 4 (i_minor i)) as (b3 & -> & S3); [lia | lia|]. cbn [rbind]. pose proof S3 as (L3 & F3 & _).
  destruct (wr16_stored b3 6 (i_nlink i)) as (b4 & -> & S4); [lia | lia|]. cbn [rbind]. pose proof S4 as (L4 & F4 & _).
  destruct (wr32_stored b4 8 (i_size i)) as (b5 & -> & S5); [lia | lia|]. cbn [rbind]. pose proof S5 as (L5 & F5 & _).
  destruct (put_addrs_ok b5 i 12) as (b6 & -> & L6 & F6 & W6 & K6); [apply Hfit | lia | consts; lia | apply Hfit |]. cbn [rbind].
  destruct (room_write d Y k (IBLOCK (i_inum i)) b6) as (d' & E & Hr' & Hc & Hs); [done | done | done | split; [consts; lia | auto 10] |].
  exists d'. split; [done|]. split; [done|]. split; [done|].
  assert (forall o, 0 <= o <= 10 -> w16 b6 o = w16 b5 o) as W16 by (intros o Ho; unfold w16; by rewrite !K6 by lia).
  assert (w32 b6 8 = i_size i) as Wsz.
  { unfold w32. rewrite !W16 by lia. rewrite <- (u32_small (i_size i)) by apply Hfit. by rewrite <- (stored_w32 _ _ _ _ S5) by lia. }
  assert (s16 (w16 b6 0) = i_type i) as Wt.
  { rewrite W16, (stored_w16_ne _ _ _ _ _ _ S5), (stored_w16_ne _ _ _ _ _ _ S4), (stored_w16_ne _ _ _ _ _ _ S3),
      (stored_w16_ne _ _ _ _ _ _ S2), (stored_w16 _ _ _ _ S1) by lia. apply s16_u16, Hfit. }
  assert (s16 (w16 b6 2) = i_major i) as Wmaj.
  { rewrite W16, (stored_w16_ne _ _ _ _ _ _ S5), (stored_w16_ne _ _ _ _ _ _ S4), (stored_w16_ne _ _ _ _ _ _ S3), (stored_w16 _ _ _ _ S2) by lia.
    apply s16_u16, Hfit. }
  assert (s16 (w16 b6 4) = i_minor i) as Wmin.
  { rewrite W16, (stored_w16_ne _ _ _ _ _ _ S5), (stored_w16_ne _ _ _ _ _ _ S4), (stored_w16 _ _ _ _ S3) by lia. apply s16_u16, Hfit. }
  assert (s16 (w16 b6 6) = i_nlink i) as Wn.
  { rewrite W16, (stored_w16_ne _ _ _ _ _ _ S5), (stored_w16 _ _ _ _ S4) by lia. apply s16_u16, Hfit. }
  apply node_eq.
  10:{ apply addrs_ext; [done | apply Hfit|]. intros n Hn. rewrite addr_dnode, Hs by done. by apply W6. }
  1:{ symmetry. apply Hfit. }
  all: unfold dnode; cbn [i_inum i_ref i_flags i_type i_major i_minor i_nlink i_size core set_ref set_flags]; by rewrite ?Hs.
Qed.

(** * The invariant *)

Definition live (σ : Z -> bytes) (inum : Z) : Prop := inum_ok inum /\ i_type (dnode σ inum) <> 0.

(** A file has the blocks of its bytes. *)
Definition covered (σ : Z -> bytes) i : Prop :=
  0 <= i_size i <= MAXFILE * BSIZE /\ forall k, 0 <= k < i_size i -> blk σ i (k / BSIZE) <> 0.

(** The blocks of the live inodes are disjoint data blocks, and the bitmap marks
    exactly them and the blocks before the data. *)
Record fs_ok d : Prop := {
  f_dev : dev_ok d;
  f_geom : geom sb d;
  f_meta : meta_used sb (sect d);
  f_file : forall inum, live (sect d) inum -> mapped sb (home d) (sect d) (dnode (sect d) inum) /\ covered (sect d) (dnode (sect d) inum);
  f_disj : forall a b x, live (sect d) a -> live (sect d) b -> owned (sect d) (dnode (sect d) a) x -> owned (sect d) (dnode (sect d) b) x -> a = b;
  f_used : forall b, dstart sb <= b < home d -> bit sb (sect d) b = true -> exists inum, live (sect d) inum /\ owned (sect d) (dnode (sect d) inum) b;
}.

(** The bytes of a file. *)
Definition content (σ : Z -> bytes) i : bytes := fbyte σ i <$> seqZ 0 (i_size i).

(** The inode in memory is the one on the disk. *)
Definition synced (σ : Z -> bytes) i : Prop := core i = dnode σ (i_inum i).

(** No other file has changed. *)
Definition others_same (σ σ' : Z -> bytes) (inum : Z) : Prop :=
  forall j, inum_ok j -> j <> inum ->
    dnode σ' j = dnode σ j /\ (i_type (dnode σ j) <> 0 -> content σ' (dnode σ' j) = content σ (dnode σ j)).

Lemma core_addrs i j : core i = core j -> i_addrs i = i_addrs j.
Proof. unfold core, set_ref, set_flags. cbn. by intros [=]. Qed.

Lemma slot_core σ i j n : core i = core j -> slot σ i n = slot σ j n.
Proof. intros E. apply slot_ext; [symmetry; by apply core_addrs | done]. Qed.

Lemma core_dnode σ inum : core (dnode σ inum) = dnode σ inum.
Proof. done. Qed.

Lemma synced_core σ i : synced σ i -> core i = core (dnode σ (i_inum i)).
Proof. by intros ->. Qed.

Lemma owned_core σ i j x : core i = core j -> owned σ i x <-> owned σ j x.
Proof. intros E. unfold owned. by setoid_rewrite (slot_core σ i j _ E). Qed.

Lemma mapped_core h σ i j : core i = core j -> mapped sb h σ i -> mapped sb h σ j.
Proof.
  intros E [H1 H2 H3 H4]. pose proof (core_addrs _ _ E) as Ea. split.
  - unfold core, set_ref, set_flags in E. cbn in E. by injection E as <-.
  - by rewrite <- Ea.
  - intros n. rewrite <- (slot_core σ i j n E). apply H3.
  - intros n m. rewrite <- !(slot_core σ i j _ E). apply H4.
Qed.

Lemma covered_core σ i j : core i = core j -> covered σ i -> covered σ j.
Proof.
  intros E [H1 H2]. assert (i_size i = i_size j) as Es by (unfold core, set_ref, set_flags in E; cbn in E; by injection E).
  split; [by rewrite <- Es|]. intros k Hk. unfold blk. rewrite <- (slot_core σ i j _ E). apply H2. by rewrite Es.
Qed.

Lemma content_core σ i j : core i = core j -> content σ i = content σ j.
Proof.
  intros E. unfold content. assert (i_size i = i_size j) as -> by (unfold core, set_ref, set_flags in E; cbn in E; by injection E).
  apply list_fmap_ext. intros _ k _. unfold fbyte, blk. by rewrite (slot_core σ i j).
Qed.

(** What a live inode holds survives a change that spares its blocks. *)
Lemma slot_spared h σ σ' i n :
  layout sb h -> mapped sb h σ i -> (forall x, owned σ i x -> 0 <= x < h -> σ' x = σ x) -> slot σ' i n = slot σ i n.
Proof.
  intros Hlay Hm Hk. apply slot_ext; [done|]. intros Hne. assert (owned σ i (addr i NDIRECT)) as Ho.
  { exists NDIRECT. split; [consts; lia|]. split; [by apply slot_addr | done]. }
  apply Hk; [done|]. destruct (mapped_pos sb h Hlay σ i NDIRECT Hm) as (H & _); [consts; lia | by rewrite slot_addr|].
  rewrite slot_addr in H by done. lia.
Qed.

Lemma content_spared h σ σ' i :
  layout sb h -> mapped sb h σ i -> covered σ i -> (forall x, owned σ i x -> 0 <= x < h -> σ' x = σ x) ->
  content σ' i = content σ i.
Proof.
  intros Hlay Hm [Hsz Hcov] Hk. apply list_fmap_ext. intros n k Hin. apply lookup_seqZ in Hin as [-> Hn].
  unfold fbyte, blk. rewrite (slot_spared h σ σ') by done. specialize (Hcov (0 + Z.of_nat n) ltac:(lia)).
  set (q := (0 + Z.of_nat n) / BSIZE) in *. assert (0 <= q < MAXFILE) as Hq by (unfold q; consts; lia).
  destruct (bslot_range q Hq) as [Hb _]. f_equal. apply Hk; [by exists (bslot q)|].
  pose proof (mapped_pos sb h Hlay σ i _ Hm Hb Hcov). lia.
Qed.

Lemma owned_pos h σ i x : layout sb h -> mapped sb h σ i -> owned σ i x ->
  dstart sb <= x < h /\ x ∉ bitmaps sb /\ bit sb σ x = true.
Proof.
  intros Hlay Hm (n & Hn & <- & Hz). destruct (m_slot _ _ _ _ Hm n Hn Hz) as [H1 H2].
  split; [done|]. split; [|done]. apply (not_bitmap sb h Hlay). lia.
Qed.

Lemma iblock_inj a b : IBLOCK a = IBLOCK b -> a = b.
Proof. rewrite !IBLOCK_eq. lia. Qed.

(** A step that gives one live inode more blocks and then, maybe, writes the
    inode, keeps the invariant and every other file. *)
Lemma fs_ok_grow d d1 d2 i i1 i2 :
  fs_ok d -> live (sect d) (i_inum i) -> synced (sect d) i ->
  file_at sb d1 i1 -> home d1 = home d -> grown sb (home d) (sect d) i (sect d1) i1 ->
  changes {[IBLOCK (i_inum i)]} d1 d2 ->
  dev_ok d2 -> synced (sect d2) i2 -> i_inum i2 = i_inum i -> i_addrs i2 = i_addrs i1 -> i_type i2 <> 0 -> covered (sect d2) i2 ->
  fs_ok d2 /\ others_same (sect d) (sect d2) (i_inum i).
Proof.
  intros Hok Hlive Hsync (Hg1 & Hmeta1 & Hm1) Hh1 Hgr Hc Hdev2 Hsync2 En Ea Ht Hcov.
  pose proof (f_geom _ Hok) as Hg. pose proof Hg as [Hlay _]. pose proof Hc as [Hh2 Hk2]. pose proof Hlive as [Hi _].
  destruct (iblock_range _ _ Hlay Hi) as (I1 & I2 & I3). pose proof Hlay as (_ & Hl & _).
  destruct (f_file _ Hok _ Hlive) as [Hm0 _]. pose proof (synced_core _ _ Hsync) as Ec0.
  assert (mapped sb (home d) (sect d) i) as Hm by (eapply mapped_core; [symmetry; exact Ec0 | done]).
  rewrite Hh1 in *.
  assert (forall s, 0 <= s < home d -> s <> IBLOCK (i_inum i) -> sect d2 s = sect d1 s) as Hk
    by (intros s Hs Hne; apply Hk2; [lia | set_solver]).
  assert (forall b, 0 <= b < sb_size sb -> bit sb (sect d2) b = bit sb (sect d1) b) as Hbit.
  { intros b Hb. apply (bit_changes sb {[IBLOCK (i_inum i)]}); [done | done | by apply disjoint_singleton_l | done]. }
  (* other inodes *)
  assert (forall j, inum_ok j -> j <> i_inum i -> dnode (sect d2) j = dnode (sect d) j) as Hnode.
  { intros j Hj Hne. destruct (iblock_range _ _ Hlay Hj) as (J1 & J2 & J3). apply dnode_ext.
    rewrite Hk; [|done | intros E; apply Hne; by apply iblock_inj]. apply (g_keep _ _ _ _ _ _ Hgr); [done | done | |].
    - apply (f_meta _ Hok). lia.
    - intros Ho. apply (owned_pos _ _ _ _ Hlay Hm) in Ho. lia. }
  assert (forall j x, live (sect d) j -> j <> i_inum i -> owned (sect d) (dnode (sect d) j) x -> 0 <= x < home d -> sect d2 x = sect d x) as Hkeep.
  { intros j x Hj Hne Ho Hx. destruct (f_file _ Hok j Hj) as [Hmj _]. destruct (owned_pos _ _ _ _ Hlay Hmj Ho) as (P1 & P2 & P3).
    rewrite Hk by (done || lia). apply (g_keep _ _ _ _ _ _ Hgr); [done..|]. intros Hoi. apply Hne.
    apply (f_disj _ Hok j (i_inum i) x); [done | done | done|]. by apply (owned_core _ i). }
  assert (forall j, live (sect d) j -> j <> i_inum i -> forall n, slot (sect d2) (dnode (sect d) j) n = slot (sect d) (dnode (sect d) j) n) as Hslot.
  { intros j Hj Hne n. destruct (f_file _ Hok j Hj) as [Hmj _]. apply (slot_spared (home d)); [done | done|]. intros x Ho Hx. by apply (Hkeep j). }
  (* the inode itself *)
  assert (forall n, slot (sect d2) (dnode (sect d2) (i_inum i)) n = slot (sect d1) i1 n) as Hself.
  { intros n. rewrite <- (slot_core _ i2); [|by rewrite core_dnode, <- En].
    transitivity (slot (sect d2) i1 n); [by apply slot_ext|]. apply (slot_spared (home d)); [done | done|].
    intros x Ho Hx. apply Hk; [done|]. apply (owned_pos _ _ _ _ Hlay Hm1) in Ho. lia. }
  assert (forall x, owned (sect d2) (dnode (sect d2) (i_inum i)) x <-> owned (sect d1) i1 x) as Hown
    by (intros; unfold owned; by setoid_rewrite Hself).
  assert (forall j, live (sect d2) j -> j <> i_inum i -> live (sect d) j) as Hback
    by (intros j [Hj Hjt] Hne; split; [done | by rewrite <- Hnode]).
  assert (forall j, live (sect d2) j -> j <> i_inum i -> forall x, owned (sect d2) (dnode (sect d2) j) x <-> owned (sect d) (dnode (sect d) j) x) as Hown'.
  { intros j Hj Hne x. unfold owned. rewrite Hnode by (done || apply Hj). by setoid_rewrite (Hslot j (Hback j Hj Hne) Hne). }
  assert (forall j x, live (sect d2) j -> j <> i_inum i -> owned (sect d) (dnode (sect d) j) x -> owned (sect d1) i1 x -> False) as Hdis.
  { intros j x Hj Hne Ho Ho1. destruct (f_file _ Hok j (Hback j Hj Hne)) as [Hmj _].
    destruct (owned_pos _ _ _ _ Hlay Hmj Ho) as (_ & _ & P3). apply (owned_fresh _ _ _ _ _ _ _ Hgr) in Ho1; [|done].
    apply Hne. apply (f_disj _ Hok j (i_inum i) x); [by apply Hback | done | done|]. by apply (owned_core _ i). }
  split; [split|].
  - done.
  - eapply geom_changes; [exact Hg1 | exact Hc | set_solver by lia].
  - intros b Hb. rewrite Hbit by lia. by apply Hmeta1.
  - intros j Hj. destruct (Z.eq_dec j (i_inum i)) as [->|Hne].
    + assert (core i2 = core (dnode (sect d2) (i_inum i))) as E2 by by rewrite core_dnode, <- En.
      split; [|by eapply covered_core]. rewrite Hh2. apply (mapped_core _ _ i2); [done|]. destruct Hm1 as [M1 M2 M3 M4].
      assert (forall n, slot (sect d2) i2 n = slot (sect d1) i1 n) as Hs2 by (intros n; rewrite <- Hself; by apply slot_core).
      split; [|by rewrite Ea | | ].
      * pose proof (f_equal i_dev E2) as E3. cbn in E3. done.
      * intros n Hn. rewrite Hs2. intros Hz. destruct (M3 n Hn Hz) as [Q1 Q2]. split; [done|]. rewrite Hbit by lia. done.
      * intros n m. rewrite !Hs2. apply M4.
    + pose proof (Hback j Hj Hne) as Hj'. destruct (f_file _ Hok j Hj') as [[M1 M2 M3 M4] [C1 C2]].
      rewrite Hnode by (done || apply Hj). rewrite Hh2. split; [split|split].
      * done.
      * done.
      * intros n Hn. rewrite (Hslot j Hj' Hne). intros Hz. destruct (M3 n Hn Hz) as [Q1 Q2]. split; [done|].
        rewrite Hbit by lia. apply (g_bits _ _ _ _ _ _ Hgr); [lia | done].
      * intros n m. rewrite !(Hslot j Hj' Hne). apply M4.
      * done.
      * intros k Hkk. unfold blk. rewrite (Hslot j Hj' Hne). by apply C2.
  - intros a b x Ha Hb. destruct (Z.eq_dec a (i_inum i)) as [->|Hna], (Z.eq_dec b (i_inum i)) as [->|Hnb].
    + done.
    + rewrite Hown, (Hown' b Hb Hnb). intros H1 H2. by destruct (Hdis b x Hb Hnb).
    + rewrite Hown, (Hown' a Ha Hna). intros H1 H2. by destruct (Hdis a x Ha Hna).
    + rewrite (Hown' a Ha Hna), (Hown' b Hb Hnb). by apply (f_disj _ Hok); apply Hback.
  - intros b Hb Hbt. rewrite Hh2 in Hb. rewrite Hbit in Hbt by lia.
    assert (live (sect d2) (i_inum i)) as Hlive2.
    { split; [done|]. rewrite <- En, <- Hsync2. done. }
    destruct (bit sb (sect d) b) eqn:E0.
    + destruct (f_used _ Hok b Hb E0) as (j & Hj & Ho). destruct (Z.eq_dec j (i_inum i)) as [->|Hne].
      * exists (i_inum i). split; [done|]. apply Hown. apply (owned_core _ i) in Ho; [|done]. destruct Ho as (n & Hn & Es & Hz).
        exists n. split; [done|]. split; [|done]. rewrite <- Es. apply (g_old _ _ _ _ _ _ Hgr); [done | by rewrite Es].
      * assert (live (sect d2) j) as Hj2 by (destruct Hj as [Hj1 Hj2]; split; [done | by rewrite Hnode]).
        exists j. split; [done|]. by apply Hown'.
    + exists (i_inum i). split; [done|]. apply Hown. apply (g_new _ _ _ _ _ _ Hgr); [lia | done | done].
  - intros j Hj Hne. split; [by apply Hnode|]. intros Hjt. rewrite Hnode by done.
    assert (live (sect d) j) as Hj' by done. destruct (f_file _ Hok j Hj') as [Hmj Hcj].
    apply (content_spared (home d)); [done | done | done|]. intros x Ho Hx. by apply (Hkeep j).
Qed.

(** Disks that agree below the log: what commits and recovery keep. *)
Definition agree d d' : Prop := home d' = home d /\ forall s, 0 <= s < home d -> sect d' s = sect d s.

Lemma agree_dnode d d' j : layout sb (home d) -> agree d d' -> inum_ok j -> dnode (sect d') j = dnode (sect d) j.
Proof. intros Hlay [_ H] Hj. destruct (iblock_range _ _ Hlay Hj) as (_ & ? & _). apply dnode_ext. by apply H. Qed.

Lemma agree_changes d d' : agree d d' -> changes ∅ d d'.
Proof. intros [H1 H2]. split; [done|]. intros s Hs _. by apply H2. Qed.

(** Sectors outside the bitmap do not count for the free blocks. *)
Lemma free_changes X d d' : geom sb d -> changes X d d' -> X ## bitmaps sb -> free sb (home d') (sect d') = free sb (home d) (sect d).
Proof.
  intros Hg Hc HX. pose proof Hg as [(_ & Hl & _) _]. apply set_eq. intros x. rewrite !elem_of_free, (proj1 Hc).
  destruct (decide (0 <= x < home d)) as [Hx|Hx]; [|tauto]. by rewrite (bit_changes sb X d d' x) by (done || lia).
Qed.

Lemma free_agree d d' : geom sb d -> agree d d' -> free sb (home d') (sect d') = free sb (home d) (sect d).
Proof. intros Hg Ha. apply (free_changes ∅); [done | by apply agree_changes | apply disjoint_empty_l]. Qed.

Lemma fs_ok_agree d d' : fs_ok d -> dev_ok d' -> agree d d' -> fs_ok d'.
Proof.
  intros [F0 F1 F2 F3 F4 F5] Hd Ha. pose proof F1 as [Hlay _]. pose proof Ha as [Hh Hs]. pose proof Hlay as (_ & Hl & _).
  pose proof (dstart_pos sb _ Hlay) as Hpos.
  assert (forall b, 0 <= b < sb_size sb -> bit sb (sect d') b = bit sb (sect d) b) as Hbit
    by (intros b Hb; apply (bit_changes sb ∅); [done | by apply agree_changes | set_solver | done]).
  assert (forall j, inum_ok j -> dnode (sect d') j = dnode (sect d) j) as Hn by (intros; by apply agree_dnode).
  assert (forall j, live (sect d') j <-> live (sect d) j) as Hlive
    by (intros j; unfold live; split; intros [H1 H2]; (split; [done|]); [by rewrite <- Hn | by rewrite Hn]).
  assert (forall j n, live (sect d) j -> slot (sect d') (dnode (sect d) j) n = slot (sect d) (dnode (sect d) j) n) as Hslot.
  { intros j n Hj. apply (slot_spared (home d)); [done | by apply F3|]. intros x _ Hx. by apply Hs. }
  assert (forall j x, live (sect d) j -> owned (sect d') (dnode (sect d') j) x <-> owned (sect d) (dnode (sect d) j) x) as Hown.
  { intros j x Hj. unfold owned. rewrite Hn by apply Hj. by setoid_rewrite (Hslot j _ Hj). }
  split; [done | | | | |].
  - eapply geom_changes; [exact F1 | by apply agree_changes | set_solver].
  - intros b Hb. rewrite Hbit by lia. by apply F2.
  - intros j Hj%Hlive. destruct (F3 j Hj) as [[M1 M2 M3 M4] [C1 C2]]. rewrite Hn by apply Hj. rewrite Hh. split; [split|split]; try done.
    + intros n Hn'. rewrite Hslot by done. intros Hz. destruct (M3 n Hn' Hz) as [Q1 Q2]. split; [done|]. by rewrite Hbit by lia.
    + intros n m. rewrite !Hslot by done. apply M4.
    + intros k Hk. unfold blk. rewrite Hslot by done. by apply C2.
  - intros a b x Ha'%Hlive Hb%Hlive. rewrite !Hown by done. by apply F4.
  - intros b Hb Hbt. rewrite Hh in Hb. rewrite Hbit in Hbt by lia. destruct (F5 b Hb Hbt) as (j & Hj & Ho). exists j.
    split; [by apply Hlive|]. by apply Hown.
Qed.

Lemma content_agree d d' i :
  layout sb (home d) -> mapped sb (home d) (sect d) i -> covered (sect d) i -> agree d d' -> content (sect d') i = content (sect d) i.
Proof. intros Hlay Hm Hc [_ Hs]. apply (content_spared (home d)); [done..|]. intros x _ Hx. by apply Hs. Qed.

Lemma others_same_agree d1 d2 d2' inum :
  fs_ok d2 -> agree d2 d2' -> others_same (sect d1) (sect d2) inum -> others_same (sect d1) (sect d2') inum.
Proof.
  intros Hok Ha Ho j Hj Hne. destruct (Ho j Hj Hne) as [E1 E2]. pose proof (f_geom _ Hok) as [Hlay _].
  rewrite (agree_dnode d2 d2') by done. split; [done|]. intros Ht. rewrite <- E2 by done.
  assert (live (sect d2) j) as Hl by (split; [done | by rewrite E1]). destruct (f_file _ Hok j Hl). by apply content_agree.
Qed.
End Disk.
