(* ===== verification/FsOps.v ===== *)
(** What [readi] and [writei] do to the files of a disk that satisfies the
    invariant. *)
From stdpp Require Import gmap sets list_numbers.
From S2P Require Import Prelude Ulib Sys Fs FsBlock FsBmap FsRw FsDisk.
Open Scope Z_scope.

#[local] Ltac Zify.zify_post_hook ::= Z.to_euclidean_division_equations.

(** [c] with the bytes [s] at offset [off]. *)
Definition splice (c : bytes) (off : Z) (s : bytes) : bytes :=
  take (Z.to_nat off) c ++ s ++ drop (Z.to_nat off + length s) c.

Lemma splice_lookup c off s k :
  0 <= off <= zlen c -> 0 <= k ->
  splice c off s !! Z.to_nat k =
    if (off <=? k) && (k <? off + zlen s) then s !! Z.to_nat (k - off) else c !! Z.to_nat k.
Proof.
  intros Ho Hk. unfold splice. destruct (Z.lt_ge_cases k off) as [Hlt|Hge].
  - rewrite lookup_app_l by (rewrite length_take; lia). rewrite lookup_take_lt by lia. by rewrite (proj2 (Z.leb_gt _ _)).
  - rewrite (proj2 (Z.leb_le _ _)) by done. cbn [andb]. rewrite lookup_app_r by (rewrite length_take; lia). rewrite length_take.
    destruct (Z.ltb_spec k (off + zlen s)).
    + rewrite lookup_app_l by lia. f_equal. lia.
    + rewrite lookup_app_r by lia. rewrite lookup_drop. f_equal. lia.
Qed.

Lemma splice_len c off s : 0 <= off <= zlen c -> zlen (splice c off s) = Z.max (zlen c) (off + zlen s).
Proof. intros Ho. unfold splice. llia. Qed.

Lemma content_len σ i : 0 <= i_size i -> zlen (content σ i) = i_size i.
Proof. intros H. unfold content. rewrite length_fmap, length_seqZ. lia. Qed.

Lemma content_lookup σ i k : 0 <= k -> content σ i !! Z.to_nat k = if k <? i_size i then Some (fbyte σ i k) else None.
Proof.
  intros Hk. unfold content. rewrite list_lookup_fmap. destruct (Z.ltb_spec k (i_size i)).
  - rewrite lookup_seqZ_lt by lia. cbn. do 2 f_equal. lia.
  - by rewrite lookup_seqZ_ge by lia.
Qed.

Section Ops.
Context {D : Type} `{!BlockDev D} `{!BlockLaws D} `{!Devsw D}.
Context (sb : superblock).
Implicit Types (d : D) (i : inode).

(** A live inode in memory that is the one on the disk. *)
Definition open_node d i : Prop := fs_ok sb d /\ live sb (sect d) (i_inum i) /\ synced (sect d) i.

Lemma open_file d i : open_node d i -> file_at sb d i /\ covered (sect d) i /\ fits i.
Proof.
  intros (Hok & Hl & Hs). destruct (f_file _ _ Hok _ Hl) as [Hm Hc]. pose proof (synced_core _ _ Hs) as E.
  split; [|split].
  - split; [apply Hok|]. split; [apply Hok|]. by eapply mapped_core.
  - by eapply covered_core.
  - assert (fits (core i)) as [F1 F2 F3 F4 F5 F6 F7 F8]; [|by split].
    rewrite Hs. apply dnode_fits, sect_block; [apply Hok|].
    apply (iblock_range sb _ _ (proj1 (f_geom _ _ Hok)) (proj1 Hl)).
Qed.

(** [readi] returns the bytes of the file. *)
Lemma readi_ok d i off n :
  open_node d i -> i_type i <> T_DEV -> 0 <= off <= i_size i -> 0 <= n -> off + n < 2 ^ 32 ->
  readi d i off n = Ok (d, i, (Z.min n (i_size i - off), slice (content (sect d) i) off (Z.min n (i_size i - off)))).
Proof.
  intros Ho Ht Hoff Hn Hlt. pose proof (f_dev _ _ (proj1 Ho)) as Hd. destruct (open_file d i Ho) as (Hf & [Hsz Hcov] & _). unfold readi.
  rewrite (proj2 (Z.eqb_neq _ _) Ht), u32_small by lia. rewrite (proj2 (Z.ltb_ge (i_size i) off)), (proj2 (Z.ltb_ge (off + n) off)) by lia.
  cbn [orb]. replace (if i_size i <? off + n then i_size i - off else n) with (Z.min n (i_size i - off)) by (ztests; lia).
  set (m := Z.min n (i_size i - off)). assert (0 <= m /\ off + m <= i_size i) as Hm by lia.
  rewrite (readi_loop_ok sb) by (done || lia || (intros k Hk; apply Hcov; lia)). cbn [rbind app]. rewrite Z.sub_0_r.
  do 3 f_equal. apply list_eq. intros k. rewrite list_lookup_fmap. rewrite <- (Nat2Z.id k) at 2.
  destruct (decide (Z.of_nat k < m)) as [Hk|Hk].
  - rewrite lookup_seqZ_lt, slice_lookup, content_lookup by lia. by rewrite (proj2 (Z.ltb_lt _ _)) by lia.
  - rewrite lookup_seqZ_ge by lia. symmetry. apply lookup_ge_None_2. unfold slice. rewrite length_take. lia.
Qed.

(** The blocks a call of [writei] may allocate or log besides the bitmap and the
    inode: those of the bytes, and the indirect block. *)
Definition wneed (off n : Z) : nat := S (Z.to_nat (nblks off n)).

Lemma write_res d i Y k e off n :
  open_node d i -> room d Y (wneed off n + k) -> bitmaps sb ⊆ Y -> (wneed off n + e <= size (free sb (home d) (sect d)))%nat ->
  exists Y', Y ⊆ Y' /\ res sb k e d i Y' (Z.to_nat (nblks off n)).
Proof.
  intros Ho Hr HY Hfree. unfold wneed in *. destruct (Z.eq_dec (addr i NDIRECT) 0) as [E|Hne].
  - exists Y. split; [done|]. split; unfold ineed; rewrite ?E; cbn; [|done | done | lia].
    eapply room_mono; [exact Hr | done | lia].
  - exists ({[addr i NDIRECT]} ∪ Y). split; [set_solver|].
    split; unfold ineed; rewrite ?(proj2 (Z.eqb_neq _ _) Hne); [|set_solver | set_solver | lia].
    apply room_add. eapply room_mono; [exact Hr | done | lia].
Qed.

(** The inode after a call of [writei]. *)
Definition written i i' (off n : Z) : Prop := i' = set_size (Z.max (i_size i) (off + n)) (set_addrs (i_addrs i') i).

Lemma writei_content σ i σ' i' off n src :
  covered σ i -> wrote σ i σ' i' off n src 0 -> i_size i' = Z.max (i_size i) (off + n) ->
  0 <= off <= i_size i -> 0 <= n <= zlen src -> off + n <= MAXFILE * BSIZE ->
  covered σ' i' /\ content σ' i' = splice (content σ i) off (take (Z.to_nat n) src).
Proof.
  intros [Hsz Hcov] Hw Es Hoff Hn Hmax.
  assert (forall k, 0 <= k < i_size i' -> blk σ' i' (k / BSIZE) <> 0 /\
            fbyte σ' i' k = if (off <=? k) && (k <? off + n) then byte src (k - off) else fbyte σ i k) as H.
  { intros k Hk. destruct (Hw k ltac:(lia)) as [H1 H2]. destruct (decide (off <= k < off + n)) as [Hin|Hout].
    - rewrite (proj2 (Z.leb_le _ _)), (proj2 (Z.ltb_lt _ _)) by lia. by apply H1.
    - replace ((off <=? k) && (k <? off + n)) with false by (symmetry; apply andb_false_iff; rewrite Z.leb_gt, Z.ltb_ge; lia).
      apply H2; [done|]. apply Hcov. lia. }
  split; [split; [lia | intros k Hk; by apply H]|].
  apply list_eq. intros k. rewrite <- (Nat2Z.id k). rewrite splice_lookup by (rewrite ?content_len; lia).
  rewrite !content_lookup by lia. rewrite length_take. replace (Z.of_nat (Z.to_nat n `min` length src)) with n by lia.
  destruct (Z.ltb_spec (Z.of_nat k) (i_size i')) as [Hk|Hk].
  - destruct (H (Z.of_nat k) ltac:(lia)) as [_ ->]. destruct ((off <=? _) && _) eqn:E.
    + apply andb_prop in E as [E1%Z.leb_le E2%Z.ltb_lt]. by rewrite lookup_take_lt, lookup_byte by lia.
    + rewrite andb_false_iff, Z.leb_gt, Z.ltb_ge in E. by rewrite (proj2 (Z.ltb_lt _ _)) by lia.
  - rewrite (proj2 (Z.ltb_ge _ (off + n))), (proj2 (Z.ltb_ge _ (i_size i))) by lia. by rewrite andb_false_r.
Qed.

(** Writing the inode itself leaves the bytes of the file. *)
Lemma wrote_spared h σ i σ1 i1 σ2 i2 off n src :
  layout sb h -> mapped sb h σ1 i1 -> i_addrs i2 = i_addrs i1 -> (forall x, owned σ1 i1 x -> 0 <= x < h -> σ2 x = σ1 x) ->
  wrote σ i σ1 i1 off n src 0 -> wrote σ i σ2 i2 off n src 0.
Proof.
  intros Hlay Hm Ea Hk Hw k Hkk. destruct (Hw k Hkk) as [H1 H2].
  assert (forall m, slot σ2 i2 m = slot σ1 i1 m) as Hslot.
  { intros m. transitivity (slot σ2 i1 m); [by apply slot_ext|]. by apply (slot_spared sb h). }
  assert (0 <= k / BSIZE < MAXFILE) as Hq by (consts; lia). destruct (bslot_range _ Hq) as [Hb _].
  assert (blk σ1 i1 (k / BSIZE) <> 0 -> fbyte σ2 i2 k = fbyte σ1 i1 k) as Hf.
  { intros Hz. unfold fbyte, blk in *. rewrite Hslot. f_equal. apply Hk; [by exists (bslot (k / BSIZE))|].
    pose proof (mapped_pos sb h Hlay σ1 i1 _ Hm Hb Hz). lia. }
  split.
  - intros Hin. destruct (H1 Hin) as [Hz E]. unfold blk. rewrite Hslot, Hf by done. done.
  - intros Hout Hz. destruct (H2 Hout Hz) as [Hz' E]. unfold blk. rewrite Hslot, Hf by done. done.
Qed.

(** [writei] in a transaction with room for the blocks of the bytes, [k] more, and
    [e] more free blocks. *)
Lemma writei_spare d i src off n Y k e :
  open_node d i -> i_type i <> T_DEV -> 0 <= off <= i_size i -> 0 <= n <= zlen src -> off + n <= MAXFILE * BSIZE ->
  Forall byte_ok src -> room d Y (wneed off n + k) -> bitmaps sb ⊆ Y -> IBLOCK (i_inum i) ∈ Y ->
  (wneed off n + e <= size (free sb (home d) (sect d)))%nat ->
  exists d' i' Y', writei d i src off n = Ok (d', i', n) /\ open_node d' i' /\ room d' Y' k /\ Y ⊆ Y' /\ home d' = home d /\
    written i i' off n /\ content (sect d') i' = splice (content (sect d) i) off (take (Z.to_nat n) src) /\
    others_same sb (sect d) (sect d') (i_inum i) /\ (e <= size (free sb (home d') (sect d')))%nat.
Proof.
  intros Ho Ht Hoff Hn Hmax HF Hroom Hbm HY Hfree. destruct (open_file d i Ho) as (Hf & Hcov & Hfit).
  pose proof Ho as (Hok & Hlive & Hsync). assert (i_type i <> 0) as Htype by (destruct Hlive as [_ H0]; by rewrite <- Hsync in H0).
  unfold writei.
  rewrite (proj2 (Z.eqb_neq _ _) Ht), !u32_small by (consts; lia).
  rewrite (proj2 (Z.ltb_ge (i_size i) off)), (proj2 (Z.ltb_ge (off + n) off)), (proj2 (Z.ltb_ge (MAXFILE * BSIZE) _)) by lia. cbn [orb].
  destruct (write_res d i Y k e off n Ho Hroom Hbm Hfree) as (Y1 & HY1 & Hres).
  destruct (writei_loop_ok sb k e (Z.to_nat n) d i src off n 0 Y1 (Z.to_nat (nblks off n)) 0)
    as (d1 & i1 & Y2 & -> & Hf1 & Hh1 & HY2 & Hres1 & Hgr & Hw & Hsame);
    [done | done | lia | lia | done | lia | lia | rewrite Z.sub_0_r; lia | lia|].
  rewrite Z.sub_0_r in *. cbn [rbind]. pose proof (g_core _ _ _ _ _ _ Hgr) as Ei1. assert (i_size i1 = i_size i) as Es by by rewrite Ei1.
  rewrite Es. destruct ((0 <? n) && (i_size i <? off + n)) eqn:Egrow.
  - apply andb_prop in Egrow as [_ Eg%Z.ltb_lt]. set (i2 := set_size (off + n) i1).
    assert (i_inum i2 = i_inum i) as En by (cbn; by rewrite Ei1).
    destruct (iupdate_ok sb d1 i2 Y2 k) as (d2 & -> & Hr2 & Hc2 & Hdn).
    { apply Hf1. } { eapply room_mono; [apply Hres1 | done | lia]. }
    { destruct Hfit as [F1 F2 F3 F4 F5 F6 F7 F8]. pose proof Hf1 as (Hg1 & _ & Hm1).
      split; try (cbn; rewrite Ei1; done); [cbn; consts; lia | apply (m_len _ _ _ _ Hm1) |].
      intros x Hx. change (addr i2 x) with (addr i1 x). destruct (Z.eq_dec (addr i1 x) 0) as [->|Hnz]; [lia|].
      rewrite <- (slot_addr (sect d1)) in Hnz |- * by lia. destruct Hg1 as [Hlay1 _].
      pose proof (mapped_pos sb _ Hlay1 _ _ x Hm1 ltac:(consts; lia) Hnz). destruct Hlay1. lia. }
    { rewrite En. apply Hlive. } { rewrite En. set_solver. }
    cbn [rbind]. exists d2, i2, Y2.
    assert (written i i2 off n) as Hwr.
    { unfold written. rewrite Z.max_r by lia. unfold i2. rewrite Ei1 at 1. done. }
    destruct (writei_content (sect d) i (sect d2) i2 off n src) as [Hcov2 Hcont]; [done | | cbn; lia | done | done | done|].
    { pose proof Hf1 as (Hg1 & _ & Hm1). eapply (wrote_spared (home d1) _ _ _ i1); [apply Hg1 | done | done | | done].
      intros x Hx Hr. destruct Hc2 as [_ Hc2]. apply Hc2; [done|]. rewrite elem_of_singleton, En.
      destruct (iblock_range sb _ _ (proj1 Hg1) (proj1 Hlive)). apply (owned_pos sb _ _ _ _ (proj1 Hg1) Hm1) in Hx. lia. }
    destruct (fs_ok_grow sb d d1 d2 i i1 i2) as [Hok2 Hoth]; try done.
    { by rewrite <- En. } { apply Hr2. } { cbn. by rewrite Ei1. }
    split; [done|]. split; [split; [done|]; split; [|unfold synced; by rewrite Hdn]|].
    { rewrite En. split; [apply Hlive|]. rewrite <- En, Hdn. cbn. by rewrite Ei1. }
    split; [done|]. split; [set_solver|]. split; [destruct Hc2; congruence|]. split_and!; [done..|].
    pose proof (r_free _ _ _ _ _ _ _ Hres1). destruct (iblock_range sb _ _ (proj1 (proj1 Hf1)) (proj1 Hlive)) as (_ & _ & Hno).
    rewrite (free_changes sb _ d1 d2 (proj1 Hf1) Hc2); [lia|]. rewrite En. by apply disjoint_singleton_l.
  - assert (off + n <= i_size i \/ n = 0) as Hng.
    { apply andb_false_iff in Egrow as [E%Z.ltb_ge|E%Z.ltb_ge]; lia. }
    assert (forall q, off <= q < off + n -> blk (sect d) i (q / BSIZE) <> 0) as Hall by (intros q Hq; apply Hcov; lia).
    destruct (Hsame Hall) as [-> Hslots].
    destruct (writei_content (sect d) i (sect d1) i off n src) as [Hcov2 Hcont]; [done | done | lia | done | done | done|].
    assert (synced (sect d1) i) as Hsync1.
    { unfold synced. rewrite Hsync. symmetry. apply dnode_ext. pose proof (f_geom _ _ Hok) as [Hlay _].
      destruct (iblock_range sb _ _ Hlay (proj1 Hlive)) as (I1 & I2 & I3). apply (g_keep _ _ _ _ _ _ Hgr); [done | done | |].
      - apply (f_meta _ _ Hok). lia.
      - intros Hx. apply (owned_pos sb _ _ _ _ Hlay) in Hx; [lia | apply Hf]. }
    destruct (fs_ok_grow sb d d1 d1 i i i) as [Hok2 Hoth]; try done.
    { by eapply res_ok. }
    exists d1, i, Y2. split; [done|]. split; [split; [done|]; split; [|done]|].
    { split; [apply Hlive|]. by rewrite <- Hsync1. }
    split; [eapply room_mono; [apply Hres1 | done | lia]|]. split; [set_solver|]. split; [done|].
    pose proof (r_free _ _ _ _ _ _ _ Hres1). split; [|split_and!; [done | done | lia]].
    unfold written. rewrite Z.max_l by lia. by destruct i.
Qed.

Lemma writei_ok d i src off n Y k :
  open_node d i -> i_type i <> T_DEV -> 0 <= off <= i_size i -> 0 <= n <= zlen src -> off + n <= MAXFILE * BSIZE ->
  Forall byte_ok src -> room d Y (wneed off n + k) -> bitmaps sb ⊆ Y -> IBLOCK (i_inum i) ∈ Y ->
  (wneed off n <= size (free sb (home d) (sect d)))%nat ->
  exists d' i' Y', writei d i src off n = Ok (d', i', n) /\ open_node d' i' /\ room d' Y' k /\ Y ⊆ Y' /\ home d' = home d /\
    written i i' off n /\ content (sect d') i' = splice (content (sect d) i) off (take (Z.to_nat n) src) /\
    others_same sb (sect d) (sect d') (i_inum i).
Proof.
  intros Ho Ht Hoff Hn Hmax HF Hroom Hbm HY Hfree.
  destruct (writei_spare d i src off n Y k 0) as (d' & i' & Y' & H1 & H2 & H3 & H4 & H5 & H6 & H7 & H8 & _); [done.. | lia|].
  exists d', i', Y'. by split_and!.
Qed.
End Ops.
