(* ===== verification/Inode.v ===== *)
(** The inode cache, directories and path names: the second half of
    src/src/fs.c.

    The state is the disk with [icache.inode]; a [struct inode *] is an index.
    A null pointer is [None].  The name of a path element is a block of
    [DIRSIZ] bytes, without a NUL when the element fills it. *)
From S2P Require Import Prelude Ulib Sys Fs.

(** The disk and the inode cache. *)
Record fs (D : Type) := mk_fs { disk : D; icache : list inode }.
Arguments mk_fs {D}.
Arguments disk {D}.
Arguments icache {D}.

Section Inode.
Context {D : Type} `{!BlockDev D} `{!Devsw D}.
Abbreviation fs := (fs D).

(** Run an operation on the inode [ip] points to. *)
Definition on_inode {R} (f : fs) (ip : Z) (op : D -> inode -> result (D * inode * R)) : result (fs * R) :=
  let! i := get (icache f) ip in
  let! '(d, i, r) := op (disk f) i in
  let! l := put (icache f) ip i in
  Ok (mk_fs d l, r).

Definition upd_inode (f : fs) (ip : Z) (g : inode -> inode) : result fs :=
  let! i := get (icache f) ip in
  let! l := put (icache f) ip (g i) in
  Ok (mk_fs (disk f) l).

(** [iupdate] through the pointer. *)
Definition iupdate_at (f : fs) (ip : Z) : result fs :=
  let! i := get (icache f) ip in
  let! d := iupdate (disk f) i in
  Ok (mk_fs d (icache f)).

(** * The inode cache *)

(** The scan of [iget] from entry [k] on: the entry found, or the first empty one. *)
Fixpoint iget_scan (l : list inode) (k dev inum : Z) (empty : option Z) : Z + option Z :=
  match l with
  | [] => inr empty
  | i :: l' =>
      if (0 <? i_ref i) && (i_dev i =? dev) && (i_inum i =? inum) then inl k
      else iget_scan l' (k + 1) dev inum
             (match empty with None => if i_ref i =? 0 then Some k else None | Some _ => empty end)
  end.

Definition iget (f : fs) (dev inum : Z) : result (fs * Z) :=
  match iget_scan (icache f) 0 dev inum None with
  | inl ip =>
      let! f := upd_inode f ip (fun i => set_ref (s32 (i_ref i + 1)) i) in
      Ok (f, ip)
  | inr None => Err Panic
  | inr (Some ip) =>
      let! f := upd_inode f ip (fun i =>
        mk_inode dev inum 1 0 (i_type i) (i_major i) (i_minor i) (i_nlink i) (i_size i) (i_addrs i)) in
      Ok (f, ip)
  end.

Definition idup (f : fs) (ip : Z) : result fs := upd_inode f ip (fun i => set_ref (s32 (i_ref i + 1)) i).

Definition ilock (f : fs) (ip : Z) : result fs :=
  let! i := get (icache f) ip in
  if i_ref i <? 1 then Err Panic
  else if has_flag i I_BUSY then Err Blocked
  else
    let i := set_flags (Z.lor (i_flags i) I_BUSY) i in
    if negb (has_flag i I_VALID) then
      let! i := iload (disk f) i in
      let i := set_flags (Z.lor (i_flags i) I_VALID) i in
      if i_type i =? 0 then Err Panic
      else
        let! l := put (icache f) ip i in
        Ok (mk_fs (disk f) l)
    else
      let! l := put (icache f) ip i in
      Ok (mk_fs (disk f) l).

Definition iunlock (f : fs) (ip : Z) : result fs :=
  let! i := get (icache f) ip in
  if negb (has_flag i I_BUSY) || (i_ref i <? 1) then Err Panic
  else upd_inode f ip (fun i => set_flags (Z.land (i_flags i) (Z.lnot I_BUSY)) i).

(** Drop a reference; the last one to an inode without links frees it. *)
Definition iput (f : fs) (ip : Z) : result fs :=
  let! i := get (icache f) ip in
  let! f :=
    if (i_ref i =? 1) && has_flag i I_VALID && (i_nlink i =? 0) then
      if has_flag i I_BUSY then Err Panic
      else
        let i := set_flags (Z.lor (i_flags i) I_BUSY) i in
        let! '(d, i) := itrunc (disk f) i in
        let i := set_type 0 i in
        let! d := iupdate d i in
        let i := set_flags 0 i in
        let! l := put (icache f) ip i in
        Ok (mk_fs d l)
    else Ok f in
  upd_inode f ip (fun i => set_ref (i_ref i - 1) i).

Definition iunlockput (f : fs) (ip : Z) : result fs :=
  let! f := iunlock f ip in
  iput f ip.

(** Allocate an inode on the disk and reference it. *)
Definition ialloc (f : fs) (dev type : Z) : result (fs * Z) :=
  let! sb := readsb (disk f) dev in
  let! o :=
    for_brk 1 (sb_ninodes sb)
      (fun inum _ =>
         let! bp := bread (disk f) dev (IBLOCK inum) in
         let o := dinode_off inum in
         let! t := rd16 bp o in
         if t =? 0 then
           let! bp := memset bp o 0 sizeof_dinode in
           let! bp := wr16 bp o type in
           let! d := log_write (disk f) dev (IBLOCK inum) bp in
           let! r := iget (mk_fs d (icache f)) dev inum in
           Ok (inr r)
         else Ok (inl ())) () in
  match o with inr r => Ok r | inl _ => Err Panic end.

(** * Directories *)

Definition namecmp (s t : bytes) : result Z := Kstring.strncmp s t DIRSIZ.

(** [readi(dp, (char* )&de, off, sizeof(de)) != sizeof(de)] panics. *)
Definition read_dirent (f : fs) (dp off : Z) : result (fs * (Z * bytes)) :=
  let! '(f, (r, de)) := on_inode f dp (fun d i => readi d i off sizeof_dirent) in
  if negb (r =? sizeof_dirent) then Err Panic
  else
    let! inum := rd16 de 0 in
    Ok (f, (inum, drop 2 de)).

(** The loop of [dirlookup]: an entry is 16 bytes, so the loop ends after
    [dp->size / 16 + 1] rounds. *)
Fixpoint dirlookup_loop (k : nat) (f : fs) (dp : Z) (name : bytes) (off : Z) : result (fs * option (Z * Z)) :=
  match k with
  | O => Err OutOfFuel
  | S k' =>
      let! i := get (icache f) dp in
      if off <? i_size i then
        let! '(f, (inum, dname)) := read_dirent f dp off in
        if inum =? 0 then dirlookup_loop k' f dp name (u32 (off + sizeof_dirent))
        else
          let! c := namecmp name dname in
          if c =? 0 then
            let! i := get (icache f) dp in
            let! '(f, ip) := iget f (i_dev i) inum in
            Ok (f, Some (ip, off))
          else dirlookup_loop k' f dp name (u32 (off + sizeof_dirent))
      else Ok (f, None)
  end.

(** The inode of the entry and its offset ([*poff]). *)
Definition dirlookup (f : fs) (dp : Z) (name : bytes) : result (fs * option (Z * Z)) :=
  let! i := get (icache f) dp in
  if negb (i_type i =? T_DIR) then Err Panic
  else dirlookup_loop (S (Z.to_nat (i_size i / sizeof_dirent + 1))) f dp name 0.

(** The loop of [dirlink] for an empty entry. *)
Fixpoint dirslot_loop (k : nat) (f : fs) (dp off : Z) : result (fs * Z) :=
  match k with
  | O => Err OutOfFuel
  | S k' =>
      let! i := get (icache f) dp in
      if off <? i_size i then
        let! '(f, (inum, _)) := read_dirent f dp off in
        if inum =? 0 then Ok (f, off) else dirslot_loop k' f dp (off + sizeof_dirent)
      else Ok (f, off)
  end.

(** Write a new entry (name, inum) into the directory [dp]. *)
Definition dirlink (f : fs) (dp : Z) (name : bytes) (inum : Z) : result (fs * Z) :=
  let! '(f, o) := dirlookup f dp name in
  match o with
  | Some (ip, _) =>
      let! f := iput f ip in
      Ok (f, -1)
  | None =>
      let! i := get (icache f) dp in
      let! '(f, off) := dirslot_loop (S (Z.to_nat (i_size i / sizeof_dirent + 1))) f dp 0 in
      let! dname := Kstring.strncpy (malloc DIRSIZ) 0 name DIRSIZ in
      let! de := wr16 (malloc 2) 0 inum in
      let! '(f, r) := on_inode f dp (fun d i => writei d i (de ++ dname) off sizeof_dirent) in
      if negb (r =? sizeof_dirent) then Err Panic else Ok (f, 0)
  end.

(** * Path names *)

(** The two loops of [skipelem], over slashes and over the bytes of an element:
    a path is a NUL-terminated block and a pointer into it an offset. *)
Fixpoint skip_slashes (k : nat) (path : bytes) (p : Z) : result Z :=
  match k with
  | O => Err OutOfFuel
  | S k' =>
      let! c := get path p in
      if c =? 47 then skip_slashes k' path (p + 1) else Ok p
  end.

Fixpoint skip_elem (k : nat) (path : bytes) (p : Z) : result Z :=
  match k with
  | O => Err OutOfFuel
  | S k' =>
      let! c := get path p in
      if (c =? 47) || (c =? 0) then Ok p else skip_elem k' path (p + 1)
  end.

(** The position after the element and the element, or nothing. *)
Definition skipelem (path : bytes) (p : Z) (name : bytes) : result (option (Z * bytes)) :=
  let! p := skip_slashes (S (length path)) path p in
  let! c := get path p in
  if c =? 0 then Ok None
  else
    let s := p in
    let! p := skip_elem (S (length path)) path p in
    let len := p - s in
    let! name :=
      if DIRSIZ <=? len then memmove name 0 path s DIRSIZ
      else
        let! name := memmove name 0 path s len in
        put name len 0 in
    let! p := skip_slashes (S (length path)) path p in
    Ok (Some (p, name)).

(** The loop of [namex]; an element takes at least one byte of the path. *)
Fixpoint namex_loop (k : nat) (f : fs) (ip : Z) (path : bytes) (p : Z) (parent : bool) (name : bytes)
  : result (fs * option Z * bytes) :=
  match k with
  | O => Err OutOfFuel
  | S k' =>
      let! o := skipelem path p name in
      match o with
      | None =>
          if parent then
            let! f := iput f ip in
            Ok (f, None, name)
          else Ok (f, Some ip, name)
      | Some (p, name) =>
          let! f := ilock f ip in
          let! i := get (icache f) ip in
          if negb (i_type i =? T_DIR) then
            let! f := iunlockput f ip in
            Ok (f, None, name)
          else
            let! c := get path p in
            if parent && (c =? 0) then
              let! f := iunlock f ip in
              Ok (f, Some ip, name)
            else
              let! '(f, o) := dirlookup f ip name in
              match o with
              | None =>
                  let! f := iunlockput f ip in
                  Ok (f, None, name)
              | Some (next, _) =>
                  let! f := iunlockput f ip in
                  namex_loop k' f next path p parent name
              end
      end
  end.

(** [cwd] is [proc->cwd]. *)
Definition namex (f : fs) (cwd : Z) (path : bytes) (parent : bool) (name : bytes) : result (fs * option Z * bytes) :=
  let! c := get path 0 in
  let! '(f, ip) :=
    if c =? 47 then iget f ROOTDEV ROOTINO
    else
      let! f := idup f cwd in
      Ok (f, cwd) in
  namex_loop (S (length path)) f ip path 0 parent name.

Definition namei (f : fs) (cwd : Z) (path : bytes) : result (fs * option Z) :=
  let! '(f, o, _) := namex f cwd path false (malloc DIRSIZ) in
  Ok (f, o).

Definition nameiparent (f : fs) (cwd : Z) (path name : bytes) : result (fs * option Z * bytes) :=
  namex f cwd path true name.
End Inode.
