(* ===== verification/File.v ===== *)
(** Open files: src/src/file.c, and the system calls on files of
    src/src/sysfile.c.

    The kernel state is the file system, the table of open files and the pipes;
    a [struct file *] and a [struct pipe *] are indices.  The process is its
    open files and its current directory.  A system call takes its arguments as
    [argint], [argptr] and [argstr] fetch them, [None] (or [false] for a buffer)
    when the fetch fails.  [sys_exec] is not here: it needs the address space. *)
From S2P Require Import Prelude Ulib Sys Pipe Fs Inode.

Definition NFILE : Z := 100.
Definition NOFILE : Z := 100.
Definition LOGSIZE : Z := 10.

Inductive fdtype := FD_NONE | FD_PIPE | FD_INODE.

#[global] Instance fdtype_eq_dec : EqDecision fdtype.
Proof. solve_decision. Defined.

Record file := mk_file {
  f_type : fdtype;
  f_ref : Z;
  f_readable : bool;
  f_writable : bool;
  f_pipe : Z;
  f_ip : Z;
  f_off : Z;
}.

Definition set_fref (v : Z) (x : file) : file :=
  mk_file (f_type x) v (f_readable x) (f_writable x) (f_pipe x) (f_ip x) (f_off x).
Definition set_ftype (v : fdtype) (x : file) : file :=
  mk_file v (f_ref x) (f_readable x) (f_writable x) (f_pipe x) (f_ip x) (f_off x).
Definition set_off (v : Z) (x : file) : file :=
  mk_file (f_type x) (f_ref x) (f_readable x) (f_writable x) (f_pipe x) (f_ip x) v.

Record kern (D : Type) := mk_kern { kfs : fs D; ftable : list file; pipes : list pipe }.
Arguments mk_kern {D}.
Arguments kfs {D}.
Arguments ftable {D}.
Arguments pipes {D}.

(** [proc->ofile] and [proc->cwd]. *)
Record proc := mk_proc { ofile : list (option Z); cwd : Z }.

Section File.
Context {D : Type} `{!BlockDev D} `{!Devsw D}.
Abbreviation kern := (kern D).

Definition set_fs (k : kern) (f : fs D) : kern := mk_kern f (ftable k) (pipes k).

Definition upd_file (k : kern) (f : Z) (g : file -> file) : result kern :=
  let! x := get (ftable k) f in
  let! l := put (ftable k) f (g x) in
  Ok (mk_kern (kfs k) l (pipes k)).

(** A step of the log, and one of the file system. *)
Definition on_log (k : kern) (op : D -> result D) : result kern :=
  let! d := op (disk (kfs k)) in
  Ok (set_fs k (mk_fs d (icache (kfs k)))).
Definition on_fs (k : kern) (op : fs D -> result (fs D)) : result kern :=
  let! f := op (kfs k) in
  Ok (set_fs k f).

(** * file.c *)

Fixpoint filealloc_scan (l : list file) (i : Z) : option Z :=
  match l with
  | [] => None
  | x :: l' => if f_ref x =? 0 then Some i else filealloc_scan l' (i + 1)
  end.

Definition filealloc (k : kern) : result (kern * option Z) :=
  match filealloc_scan (ftable k) 0 with
  | Some f => let! k := upd_file k f (set_fref 1) in Ok (k, Some f)
  | None => Ok (k, None)
  end.

Definition filedup (k : kern) (f : Z) : result kern :=
  let! x := get (ftable k) f in
  if f_ref x <? 1 then Err Panic else upd_file k f (fun x => set_fref (s32 (f_ref x + 1)) x).

Definition fileclose (k : kern) (f : Z) : result kern :=
  let! x := get (ftable k) f in
  if f_ref x <? 1 then Err Panic
  else
    let! k := upd_file k f (fun x => set_fref (f_ref x - 1) x) in
    if 0 <? f_ref x - 1 then Ok k
    else
      let! ff := get (ftable k) f in
      let! k := upd_file k f (fun x => set_ftype FD_NONE (set_fref 0 x)) in
      match f_type ff with
      | FD_PIPE =>
          let! p := get (pipes k) (f_pipe ff) in
          let! l := put (pipes k) (f_pipe ff) (fst (pipeclose p (f_writable ff))) in
          Ok (mk_kern (kfs k) (ftable k) l)
      | FD_INODE =>
          let! k := on_log k begin_trans in
          let! k := on_fs k (fun fs => iput fs (f_ip ff)) in
          on_log k commit_trans
      | FD_NONE => Ok k
      end.

(** The metadata, or -1. *)
Definition filestat (k : kern) (f : Z) : result (kern * option stat) :=
  let! x := get (ftable k) f in
  match f_type x with
  | FD_INODE =>
      let! k := on_fs k (fun fs => ilock fs (f_ip x)) in
      let! i := get (icache (kfs k)) (f_ip x) in
      let st := stati i in
      let! k := on_fs k (fun fs => iunlock fs (f_ip x)) in
      Ok (k, Some st)
  | _ => Ok (k, None)
  end.

(** The result and the bytes put at [addr]; [killed] is [proc->killed]. *)
Definition fileread (k : kern) (f n : Z) (killed : bool) : result (kern * (Z * bytes)) :=
  let! x := get (ftable k) f in
  if negb (f_readable x) then Ok (k, (-1, []))
  else match f_type x with
  | FD_PIPE =>
      let! p := get (pipes k) (f_pipe x) in
      let! '(p, o) := piperead p n killed in
      let! l := put (pipes k) (f_pipe x) p in
      match o with
      | RRet r bs => Ok (mk_kern (kfs k) (ftable k) l, (r, bs))
      | RSleep => Err Blocked
      end
  | FD_INODE =>
      let! k := on_fs k (fun fs => ilock fs (f_ip x)) in
      let! '(fs, (r, bs)) := on_inode (kfs k) (f_ip x) (fun d i => readi d i (f_off x) (u32 n)) in
      let k := set_fs k fs in
      let! k := if 0 <? s32 r then upd_file k f (fun x => set_off (u32 (f_off x + s32 r)) x) else Ok k in
      let! k := on_fs k (fun fs => iunlock fs (f_ip x)) in
      Ok (k, (s32 r, bs))
  | FD_NONE => Err Panic
  end.

(** [int max = ((LOGSIZE-1-1-2) / 2) * 512] *)
Definition write_max : Z := (LOGSIZE - 1 - 1 - 2) / 2 * 512.

(** The loop of [filewrite] from byte [i] on; a round writes at least a byte or
    leaves the loop. *)
Fixpoint filewrite_loop (fuel : nat) (k : kern) (f : Z) (addr : bytes) (n i : Z) : result (kern * Z) :=
  if i <? n then
    match fuel with
    | O => Err OutOfFuel
    | S fuel' =>
        let n1 := Z.min (n - i) write_max in
        let! x := get (ftable k) f in
        let! k := on_log k begin_trans in
        let! k := on_fs k (fun fs => ilock fs (f_ip x)) in
        let! '(fs, r) := on_inode (kfs k) (f_ip x) (fun d ip => writei d ip (drop (Z.to_nat i) addr) (f_off x) n1) in
        let k := set_fs k fs in
        let! k := if 0 <? r then upd_file k f (fun x => set_off (u32 (f_off x + r)) x) else Ok k in
        let! k := on_fs k (fun fs => iunlock fs (f_ip x)) in
        let! k := on_log k commit_trans in
        if r <? 0 then Ok (k, i)
        else if negb (r =? n1) then Err Panic
        else filewrite_loop fuel' k f addr n (i + r)
    end
  else Ok (k, i).

Definition filewrite (k : kern) (f : Z) (addr : bytes) (n : Z) (killed : bool) : result (kern * Z) :=
  let! x := get (ftable k) f in
  if negb (f_writable x) then Ok (k, -1)
  else match f_type x with
  | FD_PIPE =>
      let! p := get (pipes k) (f_pipe x) in
      let! '(p, o) := pipewrite p addr 0 n killed in
      let! l := put (pipes k) (f_pipe x) p in
      match o with
      | WRet r => Ok (mk_kern (kfs k) (ftable k) l, r)
      | WSleep _ => Err Blocked
      end
  | FD_INODE =>
      let! '(k, i) := filewrite_loop (Z.to_nat n) k f addr n 0 in
      Ok (k, if i =? n then n else -1)
  | FD_NONE => Err Panic
  end.

(** * sysfile.c *)

(** The file of a descriptor. *)
Definition argfd (p : proc) (fd : option Z) : result (option (Z * Z)) :=
  match fd with
  | None => Ok None
  | Some fd =>
      if (fd <? 0) || (NOFILE <=? fd) then Ok None
      else
        let! o := get (ofile p) fd in
        Ok (match o with Some f => Some (fd, f) | None => None end)
  end.

Fixpoint fdalloc_scan (l : list (option Z)) (fd : Z) : option Z :=
  match l with
  | [] => None
  | Some _ :: l' => fdalloc_scan l' (fd + 1)
  | None :: _ => Some fd
  end.

(** Allocate a descriptor for a file: -1 when there is none. *)
Definition fdalloc (p : proc) (f : Z) : result (proc * Z) :=
  match fdalloc_scan (ofile p) 0 with
  | Some fd => let! l := put (ofile p) fd (Some f) in Ok (mk_proc l (cwd p), fd)
  | None => Ok (p, -1)
  end.

Definition sys_dup (k : kern) (p : proc) (fd : option Z) : result (kern * proc * Z) :=
  let! o := argfd p fd in
  match o with
  | None => Ok (k, p, -1)
  | Some (_, f) =>
      let! '(p, fd) := fdalloc p f in
      if fd <? 0 then Ok (k, p, -1)
      else
        let! k := filedup k f in
        Ok (k, p, fd)
  end.

Definition sys_read (k : kern) (p : proc) (fd n : option Z) (buf : bool) (killed : bool) : result (kern * (Z * bytes)) :=
  let! o := argfd p fd in
  match o, n with
  | Some (_, f), Some n => if buf then fileread k f n killed else Ok (k, (-1, []))
  | _, _ => Ok (k, (-1, []))
  end.

Definition sys_write (k : kern) (p : proc) (fd n : option Z) (buf : option bytes) (killed : bool) : result (kern * Z) :=
  let! o := argfd p fd in
  match o, n, buf with
  | Some (_, f), Some n, Some addr => filewrite k f addr n killed
  | _, _, _ => Ok (k, -1)
  end.

Definition sys_close (k : kern) (p : proc) (fd : option Z) : result (kern * proc * Z) :=
  let! o := argfd p fd in
  match o with
  | None => Ok (k, p, -1)
  | Some (fd, f) =>
      let! l := put (ofile p) fd None in
      let! k := fileclose k f in
      Ok (k, mk_proc l (cwd p), 0)
  end.

Definition sys_fstat (k : kern) (p : proc) (fd : option Z) (st : bool) : result (kern * option stat) :=
  let! o := argfd p fd in
  match o with
  | Some (_, f) => if st then filestat k f else Ok (k, None)
  | None => Ok (k, None)
  end.

(** The inode behind a pointer. *)
Definition inode_of (k : kern) (ip : Z) : result inode := get (icache (kfs k)) ip.

(** [bad:] of [sys_link] *)
Definition link_bad (k : kern) (ip : Z) : result (kern * Z) :=
  let! k := on_fs k (fun fs => ilock fs ip) in
  let! k := on_fs k (fun fs => upd_inode fs ip (fun i => set_nlink (s16 (i_nlink i - 1)) i)) in
  let! k := on_fs k (fun fs => iupdate_at fs ip) in
  let! k := on_fs k (fun fs => iunlockput fs ip) in
  let! k := on_log k commit_trans in
  Ok (k, -1).

Definition sys_link (k : kern) (p : proc) (old new : option bytes) : result (kern * Z) :=
  match old, new with
  | Some old, Some new =>
      let! '(fs, o) := namei (kfs k) (cwd p) old in
      let k := set_fs k fs in
      match o with
      | None => Ok (k, -1)
      | Some ip =>
          let! k := on_log k begin_trans in
          let! k := on_fs k (fun fs => ilock fs ip) in
          let! i := inode_of k ip in
          if i_type i =? T_DIR then
            let! k := on_fs k (fun fs => iunlockput fs ip) in
            let! k := on_log k commit_trans in
            Ok (k, -1)
          else
            let! k := on_fs k (fun fs => upd_inode fs ip (fun i => set_nlink (s16 (i_nlink i + 1)) i)) in
            let! k := on_fs k (fun fs => iupdate_at fs ip) in
            let! k := on_fs k (fun fs => iunlock fs ip) in
            let! '(fs, o, name) := nameiparent (kfs k) (cwd p) new (malloc DIRSIZ) in
            let k := set_fs k fs in
            match o with
            | None => link_bad k ip
            | Some dp =>
                let! k := on_fs k (fun fs => ilock fs dp) in
                let! di := inode_of k dp in
                let! i := inode_of k ip in
                let! '(k, r) :=
                  if negb (i_dev di =? i_dev i) then Ok (k, -1)
                  else
                    let! '(fs, r) := dirlink (kfs k) dp name (i_inum i) in
                    Ok (set_fs k fs, r) in
                let! k := on_fs k (fun fs => iunlockput fs dp) in
                if r <? 0 then link_bad k ip
                else
                  let! k := on_fs k (fun fs => iput fs ip) in
                  let! k := on_log k commit_trans in
                  Ok (k, 0)
            end
      end
  | _, _ => Ok (k, -1)
  end.

(** Is the directory empty except for "." and ".."? *)
Fixpoint isdirempty_loop (n : nat) (f : fs D) (dp off : Z) : result (fs D * bool) :=
  match n with
  | O => Err OutOfFuel
  | S n' =>
      let! i := get (icache f) dp in
      if off <? i_size i then
        let! '(f, (inum, _)) := read_dirent f dp off in
        if negb (inum =? 0) then Ok (f, false) else isdirempty_loop n' f dp (off + sizeof_dirent)
      else Ok (f, true)
  end.

Definition isdirempty (f : fs D) (dp : Z) : result (fs D * bool) :=
  let! i := get (icache f) dp in
  isdirempty_loop (S (Z.to_nat (i_size i / sizeof_dirent + 1))) f dp (2 * sizeof_dirent).

(** [bad:] of [sys_unlink] *)
Definition unlink_bad (k : kern) (dp : Z) : result (kern * Z) :=
  let! k := on_fs k (fun fs => iunlockput fs dp) in
  let! k := on_log k commit_trans in
  Ok (k, -1).

Definition dot : bytes := [46; 0].
Definition dotdot : bytes := [46; 46; 0].

Definition sys_unlink (k : kern) (p : proc) (path : option bytes) : result (kern * Z) :=
  match path with
  | None => Ok (k, -1)
  | Some path =>
      let! '(fs, o, name) := nameiparent (kfs k) (cwd p) path (malloc DIRSIZ) in
      let k := set_fs k fs in
      match o with
      | None => Ok (k, -1)
      | Some dp =>
          let! k := on_log k begin_trans in
          let! k := on_fs k (fun fs => ilock fs dp) in
          let! c1 := namecmp name dot in
          let! dots := if c1 =? 0 then Ok true else let! c2 := namecmp name dotdot in Ok (c2 =? 0) in
          if dots : bool then unlink_bad k dp
          else
            let! '(fs, o) := dirlookup (kfs k) dp name in
            let k := set_fs k fs in
            match o with
            | None => unlink_bad k dp
            | Some (ip, off) =>
                let! k := on_fs k (fun fs => ilock fs ip) in
                let! i := inode_of k ip in
                if i_nlink i <? 1 then Err Panic
                else
                  let! '(fs, empty) := if i_type i =? T_DIR then isdirempty (kfs k) ip else Ok (kfs k, true) in
                  let k := set_fs k fs in
                  if negb empty then
                    let! k := on_fs k (fun fs => iunlockput fs ip) in
                    unlink_bad k dp
                  else
                    let! de := memset (malloc sizeof_dirent) 0 0 sizeof_dirent in
                    let! '(fs, r) := on_inode (kfs k) dp (fun d i => writei d i de off sizeof_dirent) in
                    let k := set_fs k fs in
                    if negb (r =? sizeof_dirent) then Err Panic
                    else
                      let! k :=
                        if i_type i =? T_DIR then
                          let! k := on_fs k (fun fs => upd_inode fs dp (fun i => set_nlink (s16 (i_nlink i - 1)) i)) in
                          on_fs k (fun fs => iupdate_at fs dp)
                        else Ok k in
                      let! k := on_fs k (fun fs => iunlockput fs dp) in
                      let! k := on_fs k (fun fs => upd_inode fs ip (fun i => set_nlink (s16 (i_nlink i - 1)) i)) in
                      let! k := on_fs k (fun fs => iupdate_at fs ip) in
                      let! k := on_fs k (fun fs => iunlockput fs ip) in
                      let! k := on_log k commit_trans in
                      Ok (k, 0)
            end
      end
  end.

(** The new or existing inode, locked. *)
Definition create (f : fs D) (cwd : Z) (path : bytes) (type major minor : Z) : result (fs D * option Z) :=
  let! '(f, o, name) := nameiparent f cwd path (malloc DIRSIZ) in
  match o with
  | None => Ok (f, None)
  | Some dp =>
      let! f := ilock f dp in
      let! '(f, o) := dirlookup f dp name in
      match o with
      | Some (ip, _) =>
          let! f := iunlockput f dp in
          let! f := ilock f ip in
          let! i := get (icache f) ip in
          if (type =? T_FILE) && (i_type i =? T_FILE) then Ok (f, Some ip)
          else
            let! f := iunlockput f ip in
            Ok (f, None)
      | None =>
          let! di := get (icache f) dp in
          let! '(f, ip) := ialloc f (i_dev di) type in
          let! f := ilock f ip in
          let! f := upd_inode f ip (fun i => set_nlink 1 (set_dev_nums major minor i)) in
          let! f := iupdate_at f ip in
          let! i := get (icache f) ip in
          let! f :=
            if type =? T_DIR then
              let! f := upd_inode f dp (fun i => set_nlink (s16 (i_nlink i + 1)) i) in
              let! f := iupdate_at f dp in
              let! '(f, r) := dirlink f ip dot (i_inum i) in
              if r <? 0 then Err Panic
              else
                let! di := get (icache f) dp in
                let! '(f, r) := dirlink f ip dotdot (i_inum di) in
                if r <? 0 then Err Panic else Ok f
            else Ok f in
          let! '(f, r) := dirlink f dp name (i_inum i) in
          if r <? 0 then Err Panic
          else
            let! f := iunlockput f dp in
            Ok (f, Some ip)
      end
  end.

Definition create_at (k : kern) (p : proc) (path : bytes) (type major minor : Z) : result (kern * option Z) :=
  let! '(f, o) := create (kfs k) (cwd p) path type major minor in
  Ok (set_fs k f, o).

(** The part of [sys_open] after the inode [ip] is found and locked. *)
Definition open_inode (k : kern) (p : proc) (ip omode : Z) : result (kern * proc * Z) :=
  let! '(k, o) := filealloc k in
  match o with
  | None =>
      let! k := on_fs k (fun fs => iunlockput fs ip) in
      Ok (k, p, -1)
  | Some f =>
      let! '(p, fd) := fdalloc p f in
      if fd <? 0 then
        let! k := fileclose k f in
        let! k := on_fs k (fun fs => iunlockput fs ip) in
        Ok (k, p, -1)
      else
        let! k := on_fs k (fun fs => iunlock fs ip) in
        let! k := upd_file k f (fun x =>
          mk_file FD_INODE (f_ref x) (Z.land omode O_WRONLY =? 0)
            (negb (Z.land omode O_WRONLY =? 0) || negb (Z.land omode O_RDWR =? 0)) (f_pipe x) ip 0) in
        Ok (k, p, fd)
  end.

Definition sys_open (k : kern) (p : proc) (path : option bytes) (omode : option Z) : result (kern * proc * Z) :=
  match path, omode with
  | Some path, Some omode =>
      if negb (Z.land omode O_CREATE =? 0) then
        let! k := on_log k begin_trans in
        let! '(k, o) := create_at k p path T_FILE 0 0 in
        let! k := on_log k commit_trans in
        match o with
        | None => Ok (k, p, -1)
        | Some ip => open_inode k p ip omode
        end
      else
        let! '(fs, o) := namei (kfs k) (cwd p) path in
        let k := set_fs k fs in
        match o with
        | None => Ok (k, p, -1)
        | Some ip =>
            let! k := on_fs k (fun fs => ilock fs ip) in
            let! i := inode_of k ip in
            if (i_type i =? T_DIR) && negb (omode =? O_RDONLY) then
              let! k := on_fs k (fun fs => iunlockput fs ip) in
              Ok (k, p, -1)
            else open_inode k p ip omode
        end
  | _, _ => Ok (k, p, -1)
  end.

(** [sys_mkdir], and [sys_mknod] with the type and the device numbers. *)
Definition make_node (k : kern) (p : proc) (path : option bytes) (type : Z) (major minor : option Z) : result (kern * Z) :=
  let! k := on_log k begin_trans in
  let! '(k, o) :=
    match path, major, minor with
    | Some path, Some major, Some minor => create_at k p path type (s16 major) (s16 minor)
    | _, _, _ => Ok (k, None)
    end in
  match o with
  | None =>
      let! k := on_log k commit_trans in
      Ok (k, -1)
  | Some ip =>
      let! k := on_fs k (fun fs => iunlockput fs ip) in
      let! k := on_log k commit_trans in
      Ok (k, 0)
  end.

Definition sys_mkdir (k : kern) (p : proc) (path : option bytes) : result (kern * Z) :=
  make_node k p path T_DIR (Some 0) (Some 0).
Definition sys_mknod (k : kern) (p : proc) (path : option bytes) (major minor : option Z) : result (kern * Z) :=
  make_node k p path T_DEV major minor.

Definition sys_chdir (k : kern) (p : proc) (path : option bytes) : result (kern * proc * Z) :=
  match path with
  | None => Ok (k, p, -1)
  | Some path =>
      let! '(fs, o) := namei (kfs k) (cwd p) path in
      let k := set_fs k fs in
      match o with
      | None => Ok (k, p, -1)
      | Some ip =>
          let! k := on_fs k (fun fs => ilock fs ip) in
          let! i := inode_of k ip in
          if negb (i_type i =? T_DIR) then
            let! k := on_fs k (fun fs => iunlockput fs ip) in
            Ok (k, p, -1)
          else
            let! k := on_fs k (fun fs => iunlock fs ip) in
            let! k := on_fs k (fun fs => iput fs (cwd p)) in
            Ok (k, mk_proc (ofile p) ip, 0)
      end
  end.

(** [pipealloc] of pipe.c on the file table; [page] is what [kalloc] returns.
    The pipe takes the next index. *)
Definition pipe_files (k : kern) (page : option bytes) : result (kern * option (Z * Z)) :=
  let! '(k, f0) := filealloc k in
  match f0 with
  | None => Ok (k, None)
  | Some rf =>
      let! '(k, f1) := filealloc k in
      match f1, page with
      | Some wf, Some d =>
          let pi := zlen (pipes k) in
          let k := mk_kern (kfs k) (ftable k) (pipes k ++ [mk_pipe d 0 0 true true]) in
          let! k := upd_file k rf (fun x => mk_file FD_PIPE (f_ref x) true false pi (f_ip x) (f_off x)) in
          let! k := upd_file k wf (fun x => mk_file FD_PIPE (f_ref x) false true pi (f_ip x) (f_off x)) in
          Ok (k, Some (rf, wf))
      | _, _ =>
          let! k := fileclose k rf in
          let! k := match f1 with Some wf => fileclose k wf | None => Ok k end in
          Ok (k, None)
      end
  end.

(** The two descriptors, or -1; [buf] says whether the array is valid. *)
Definition sys_pipe (k : kern) (p : proc) (buf : bool) (page : option bytes) : result (kern * proc * option (Z * Z)) :=
  if negb buf then Ok (k, p, None)
  else
    let! '(k, o) := pipe_files k page in
    match o with
    | None => Ok (k, p, None)
    | Some (rf, wf) =>
        let! '(p, fd0) := fdalloc p rf in
        let! '(p, fd1) := if fd0 <? 0 then Ok (p, -1) else fdalloc p wf in
        if fd1 <? 0 then
          let! p := if 0 <=? fd0 then let! l := put (ofile p) fd0 None in Ok (mk_proc l (cwd p)) else Ok p in
          let! k := fileclose k rf in
          let! k := fileclose k wf in
          Ok (k, p, None)
        else Ok (k, p, Some (fd0, fd1))
    end.
End File.
