(* ===== verification/FsLog.v ===== *)
(** The log of Log.v, over the memory disk, is the block device of the file
    system.

    A sector is 512 bytes for the file system and 128 words for the log.  The
    memory disk refuses other devices than 1 and sectors from [ksize] on.  The
    trace of disk writes that Log.v keeps starts over with each transaction. *)
From stdpp Require Import gmap sets list_numbers.
From S2P Require Import Prelude Ulib Sys Log LogProps Fs FsBlock FsBmap FsRw FsDisk FsOps.
Open Scope Z_scope.

#[local] Ltac Zify.zify_post_hook ::= Z.to_euclidean_division_equations.

(** * Bytes and words *)

Definition le32 (w : Z) : bytes := [w mod 256; w / 256 mod 256; w / 65536 mod 256; w / 16777216 mod 256].
Definition bytes_of (ws : list Z) : bytes := List.flat_map le32 ws.
Definition words_of (b : bytes) : list Z := (fun k => w32 b (4 * k)) <$> seqZ 0 128.

Definition word_ok (w : Z) : Prop := 0 <= w < 2 ^ 32.

(** * The device *)

Record kdisk := mk_kdisk { klog : log; ksize : Z }.

Definition on_klog (k : kdisk) (op : log -> result log) : result kdisk :=
  let! l := op (klog k) in
  Ok (mk_kdisk l (ksize k)).

Definition kbread (k : kdisk) (dev s : Z) : result bytes :=
  if negb (dev =? 1) then Err Panic
  else if ksize k <=? s then Err Panic
  else Ok (bytes_of (Log.bread (klog k) s)).

Definition klog_write (k : kdisk) (dev s : Z) (b : bytes) : result kdisk :=
  if negb (dev =? 1) then Err Panic else on_klog k (fun l => Log.log_write l s (words_of b)).

Definition new_trace (l : log) : log :=
  mk_log (start l) (Log.size l) (busy l) (lh_n l) (lh_sector l) (view l) [].

Definition kbegin (k : kdisk) : result kdisk :=
  if busy (klog k) then Err Blocked else on_klog k (fun l => Log.begin_trans (new_trace l)).

Definition kcommit (k : kdisk) : result kdisk := on_klog k Log.commit_trans.

#[export] Instance kdisk_dev : BlockDev kdisk := {|
  Fs.bread := kbread; Fs.log_write := klog_write; Fs.begin_trans := kbegin; Fs.commit_trans := kcommit;
|}.

(** No device files. *)
#[export] Instance kdisk_devsw : Devsw kdisk := {| devsw_read _ := None; devsw_write _ := None |}.

(** * Conversions *)

Lemma length_bytes_of ws : length (bytes_of ws) = (4 * length ws)%nat.
Proof. induction ws as [|w ws IH]; cbn; [done|]. unfold bytes_of in IH. rewrite IH. lia. Qed.

Lemma bytes_of_ok ws : Forall byte_ok (bytes_of ws).
Proof.
  induction ws as [|w ws IH]; cbn; [constructor|]. unfold byte_ok in *. repeat (constructor; [lia|]). done.
Qed.

Lemma byte_bytes_of ws n w j :
  ws !! n = Some w -> 0 <= j < 4 -> byte (bytes_of ws) (4 * Z.of_nat n + j) = w / 2 ^ (8 * j) mod 256.
Proof.
  revert n. induction ws as [|x ws IH]; intros [|n] E Hj; cbn in E; [done | done | |].
  - injection E as ->. assert (j = 0 \/ j = 1 \/ j = 2 \/ j = 3) as [->|[->|[->| ->]]] by lia; cbn; [|done..].
    by rewrite Z.div_1_r.
  - rewrite <- (IH n E Hj). unfold byte. replace (Z.to_nat (4 * Z.of_nat (S n) + j)) with (4 + Z.to_nat (4 * Z.of_nat n + j))%nat by lia.
    done.
Qed.

Lemma w32_byte b o j :
  Forall byte_ok b -> 0 <= j < 4 -> w32 b o / 2 ^ (8 * j) mod 256 = byte b (o + j).
Proof.
  intros Hb Hj. unfold w32, w16.
  pose proof (byte_range b o Hb). pose proof (byte_range b (o + 1) Hb). pose proof (byte_range b (o + 2) Hb). pose proof (byte_range b (o + 2 + 1) Hb).
  assert (j = 0 \/ j = 1 \/ j = 2 \/ j = 3) as [->|[->|[->| ->]]] by lia.
  - change (2 ^ (8 * 0)) with 1. rewrite Z.add_0_r. lia.
  - change (2 ^ (8 * 1)) with 256. lia.
  - change (2 ^ (8 * 2)) with 65536. lia.
  - change (2 ^ (8 * 3)) with 16777216. replace (o + 3) with (o + 2 + 1) by lia. lia.
Qed.

Lemma bytes_words b : block_ok b -> bytes_of (words_of b) = b.
Proof.
  intros [Hl Hb]. unfold Fs.BSIZE in Hl.
  assert (length (words_of b) = 128%nat) as Hw by (unfold words_of; by rewrite length_fmap, length_seqZ).
  apply list_eq. intros k. destruct (decide (Z.of_nat k < 512)) as [Hk|Hk].
  - rewrite <- (Nat2Z.id k). rewrite !lookup_byte by (rewrite ?length_bytes_of; lia). f_equal.
    replace (Z.of_nat k) with (4 * Z.of_nat (k / 4) + Z.of_nat k mod 4) by (rewrite Nat2Z.inj_div; lia).
    rewrite (byte_bytes_of _ (k / 4) (w32 b (4 * Z.of_nat (k / 4)))); [by apply w32_byte; [|lia] | | lia].
    unfold words_of. rewrite list_lookup_fmap, lookup_seqZ_lt by (rewrite Nat2Z.inj_div; lia). done.
  - rewrite !lookup_ge_None_2; [done | lia | rewrite length_bytes_of; lia].
Qed.

Lemma words_ok b : block_ok b -> length (words_of b) = 128%nat /\ Forall word_ok (words_of b).
Proof.
  intros [_ Hb]. unfold words_of. split; [by rewrite length_fmap, length_seqZ|]. apply Forall_fmap, Forall_true.
  intros k. cbn. by apply w32_range.
Qed.

(** * The laws *)

Definition wblock (b : list Z) : Prop := length b = 128%nat /\ Forall word_ok b.

(** The log is in a transaction that started from the disk [base]. *)
Definition log_from (base : disk) (l : log) : Prop :=
  exists bs secs rest, logging (start l) (Log.size l) base base l bs secs rest /\ header (base (start l)) [] /\ zlen secs < Log.size l.

(** The log is at rest, or in a transaction. *)
Definition log_state (l : log) : Prop :=
  if busy l then exists base, log_from base l else at_rest (start l) (Log.size l) (view l) l.

Record kdisk_ok (k : kdisk) : Prop := {
  k_start : 0 < start (klog k);
  k_size : 2 <= Log.size (klog k);
  k_fits : start (klog k) + Log.size (klog k) <= ksize k;
  k_block : forall s, 0 <= s < start (klog k) -> wblock (view (klog k) s);
  k_state : log_state (klog k);
}.

(** The sectors of the current transaction, and how many it may have. *)
Definition klogged (k : kdisk) : gset Z :=
  if busy (klog k) then list_to_set (take (Z.to_nat (lh_n (klog k))) (lh_sector (klog k))) else ∅.
Definition kquota (k : kdisk) : nat := Z.to_nat (Z.min LOGSIZE (Log.size (klog k) - 1) - 1).

Definition ksect (k : kdisk) (s : Z) : bytes := bytes_of (view (klog k) s).

Lemma wblock_ok b : wblock b -> block_ok (bytes_of b).
Proof. intros [Hl _]. split; [rewrite length_bytes_of, Hl; done | apply bytes_of_ok]. Qed.

Lemma klogged_eq k st sz f d0 bs secs rest :
  busy (klog k) = true -> logging st sz f d0 (klog k) bs secs rest -> klogged k = list_to_set secs.
Proof.
  intros Hb L. unfold klogged. rewrite Hb, (lg_n _ _ _ _ _ _ _ _ L), (lg_sector _ _ _ _ _ _ _ _ L), Nat2Z.id. by rewrite take_app_length.
Qed.

(** A disk with a log of [sz] sectors, in a transaction that started from [base]. *)
Definition kdisk_from (base : disk) (sz : Z) (k : kdisk) : Prop :=
  kdisk_ok k /\ Log.size (klog k) = sz /\ (busy (klog k) = true -> log_from base (klog k)).

Lemma kdisk_log_write base sz k s b :
  kdisk_from base sz k -> busy (klog k) = true -> 0 <= s < start (klog k) -> block_ok b ->
  (base.size ({[s]} ∪ klogged k) <= kquota k)%nat ->
  exists k', klog_write k ROOTDEV s b = Ok k' /\ kdisk_from base sz k' /\ start (klog k') = start (klog k) /\ busy (klog k') = true /\
    kquota k' = kquota k /\ klogged k' = {[s]} ∪ klogged k /\ ksect k' s = b /\
    (forall s', 0 <= s' < start (klog k) -> s' <> s -> ksect k' s' = ksect k s').
Proof.
  intros [[K1 K2 K3 K4 _] [Hsz K5]] Hb Hs Hbk Hq. destruct (K5 Hb) as (bs & secs & rest & L & Hh & Hz).
  pose proof (klogged_eq _ _ _ _ _ _ _ _ Hb L) as El.
  assert (length secs <= kquota k)%nat as Hlen.
  { rewrite El in Hq. rewrite <- (size_list_to_set (C := gset Z) secs) by apply L. etrans; [|exact Hq]. apply subseteq_size. set_solver. }
  unfold kquota, LOGSIZE in Hlen.
  assert (LogProps.home (start (klog k)) (Log.size (klog k)) s) as Hhome by (left; lia).
  destruct (log_write_logs _ _ base base (klog k) bs secs rest s (words_of b) L Hhome) as (l' & secs' & rest' & E & L'); [lia | lia|].
  unfold klog_write, on_klog. change (ROOTDEV =? 1) with true. cbn [negb]. rewrite E. cbn [rbind].
  exists (mk_kdisk l' (ksize k)). cbn [klog ksize].
  pose proof (lg_start _ _ _ _ _ _ _ _ L') as Es. pose proof (lg_size _ _ _ _ _ _ _ _ L') as Ez. pose proof (lg_busy _ _ _ _ _ _ _ _ L') as Eb.
  assert (forall x, 0 <= x < start (klog k) -> view l' x = if x =? s then words_of b else view (klog k) x) as Hview.
  { intros x Hx. rewrite (lg_view _ _ _ _ _ _ _ _ L') by (left; lia). rewrite apply_snoc. unfold upd.
    destruct (x =? s); [done|]. symmetry. apply (lg_view _ _ _ _ _ _ _ _ L). left. lia. }
  assert (klogged (mk_kdisk l' (ksize k)) = {[s]} ∪ klogged k) as El'.
  { rewrite (klogged_eq (mk_kdisk l' (ksize k)) _ _ _ _ _ _ _ Eb L'), El. apply set_eq. intros x. rewrite elem_of_union, elem_of_singleton, !elem_of_list_to_set.
    rewrite (lg_same _ _ _ _ _ _ _ _ L'), (lg_same _ _ _ _ _ _ _ _ L), fmap_app. cbn. rewrite elem_of_app, list_elem_of_singleton. tauto. }
  assert (log_from base l') as Hfrom.
  { exists (bs ++ [(s, words_of b)]), secs', rest'. rewrite Es, Ez. split; [done|]. split; [done|].
    assert (length secs' <= kquota k)%nat.
    { rewrite (klogged_eq (mk_kdisk l' (ksize k)) _ _ _ _ _ _ _ Eb L') in El'. rewrite <- El' in Hq. by rewrite size_list_to_set in Hq by apply L'. }
    unfold kquota, LOGSIZE in *. lia. }
  split; [done|]. split.
  { split; [|cbn; split; [congruence | done]]. split; cbn [klog ksize]; rewrite ?Es, ?Ez; [done | done | done | |].
    - intros x Hx. rewrite Hview by done. destruct (x =? s); [by apply words_ok | by apply K4].
    - unfold log_state. rewrite Eb. eauto. }
  split; [done|]. split; [done|]. split; [unfold kquota; cbn [klog]; by rewrite Ez|]. split; [done|]. split.
  - unfold ksect. cbn [klog]. rewrite Hview, Z.eqb_refl by done. by apply bytes_words.
  - intros x Hx Hne. unfold ksect. cbn [klog]. rewrite Hview by done. by rewrite (proj2 (Z.eqb_neq _ _) Hne).
Qed.

Lemma kdisk_ok_from k : kdisk_ok k -> exists base, kdisk_from base (Log.size (klog k)) k.
Proof.
  intros K. pose proof (k_state _ K) as H. unfold log_state in H. destruct (busy (klog k)) eqn:Hb.
  - destruct H as [base H]. by exists base.
  - exists (view (klog k)). split; [done|]. split; [done|]. by rewrite Hb.
Qed.

Lemma kdisk_begin k :
  kdisk_ok k -> busy (klog k) = false ->
  exists k', kbegin k = Ok k' /\ kdisk_from (view (klog k)) (Log.size (klog k)) k' /\ start (klog k') = start (klog k) /\ busy (klog k') = true /\
    kquota k' = kquota k /\ klogged k' = ∅ /\ (forall s, 0 <= s < start (klog k) -> ksect k' s = ksect k s).
Proof.
  intros [K1 K2 K3 K4 K5] Hb. unfold log_state in K5. rewrite Hb in K5.
  unfold kbegin, on_klog, Log.begin_trans. rewrite Hb. cbn [rbind]. eexists. split; [done|].
  pose proof K5 as (A1 & A2 & A3 & A4 & A5 & A6 & A7).
  destruct (begin_logging (start (klog k)) (Log.size (klog k)) (view (klog k)) (new_trace (klog k))) as (rest & L); [done | done|].
  assert (log_from (view (klog k)) (set_busy (new_trace (klog k)) true)) as Hfrom.
  { exists [], [], rest. split; [exact L|]. split; [done|]. cbn. lia. }
  split; [split; [split; cbn|split]; try done; unfold log_state; cbn; eauto|].
  split; [done|]. split; [done|]. split; [done|]. split; [|done].
  unfold klogged. cbn. by rewrite A4.
Qed.

(** Committing a transaction from [base]: the log is empty again, and at every
    moment the disk recovers to [base] or to the new contents. *)
Lemma kdisk_commit base sz k :
  kdisk_from base sz k -> busy (klog k) = true ->
  exists k', kcommit k = Ok k' /\ kdisk_ok k' /\ start (klog k') = start (klog k) /\ busy (klog k') = false /\
    kquota k' = kquota k /\ (forall s, 0 <= s < start (klog k) -> ksect k' s = ksect k s) /\
    (forall n, recoverable (start (klog k)) (Log.size (klog k)) (apply base (take n (writes (klog k')))) base \/
       recoverable (start (klog k)) (Log.size (klog k)) (apply base (take n (writes (klog k')))) (view (klog k'))).
Proof.
  intros [[K1 K2 K3 K4 _] [Hsz K5]] Hb. destruct (K5 Hb) as (bs & secs & rest & L & Hh & Hz). unfold kcommit, on_klog.
  assert (exists l', Log.commit_trans (klog k) = Ok l' /\ at_rest (start (klog k)) (Log.size (klog k)) (apply base bs) l' /\ busy l' = false /\
            (forall n, recoverable (start (klog k)) (Log.size (klog k)) (apply base (take n (writes l'))) base \/
               recoverable (start (klog k)) (Log.size (klog k)) (apply base (take n (writes l'))) (apply base bs)))
    as (l' & -> & HA & Eb & Hrec).
  { destruct secs as [|x secs].
    - unfold Log.commit_trans. rewrite (lg_n _ _ _ _ _ _ _ _ L). cbn. eexists. split; [done|].
      assert (bs = []) as ->.
      { destruct bs as [|[s b] bs]; [done|]. destruct (lg_same _ _ _ _ _ _ _ _ L s) as [_ H]. cbn in H. set_solver. }
      pose proof (lg_writes _ _ _ _ _ _ _ _ L) as Hw. assert (writes (klog k) = []) as Hw' by (by apply length_zero_iff_nil).
      split_and!; try done.
      + unfold at_rest. cbn. split_and!; try (by destruct L); try lia.
        * rewrite (lg_sector _ _ _ _ _ _ _ _ L). apply L.
        * rewrite (lg_disk _ _ _ _ _ _ _ _ L) by lia. by rewrite Hw'.
      + intros n. left. cbn. rewrite Hw', take_nil. apply recoverable_clean; [done | lia | done].
    - destruct (commit_writes _ _ base base (klog k) bs (x :: secs) rest L Hh Hz) as (l' & h & h0 & E & Hh1 & Hh2 & HA & Hw); [done|].
      exists l'. split; [done|]. split; [done|]. split; [unfold Log.commit_trans in E; rinv E; by injection E as <-|].
      intros n. rewrite Hw. pose proof (prefix_recoverable _ _ base base (klog k) bs (x :: secs) rest L ltac:(done) Hh Hz h h0 n Hh1 Hh2) as Hp.
      destruct (n <=? length bs)%nat; eauto. }
  cbn [rbind]. pose proof HA as (A1 & A2 & A3 & A4 & A5 & A6 & A7).
  assert (forall s, 0 <= s < start (klog k) -> view l' s = view (klog k) s) as Hv.
  { intros s Hs. rewrite A7 by (left; lia). symmetry. apply (lg_view _ _ _ _ _ _ _ _ L). left. lia. }
  eexists. split; [done|]. split; [split|]; cbn [klog ksize]; rewrite ?A1, ?A2; try done.
  - intros s Hs. rewrite Hv by done. by apply K4.
  - unfold log_state. rewrite Eb, A1, A2. by split_and!.
  - split; [done|]. split; [done|]. split; [unfold kquota; cbn [klog]; by rewrite A2|]. split.
    + intros s Hs. unfold ksect. cbn [klog]. by rewrite Hv.
    + intros n. destruct (Hrec n) as [H|H]; [by left|]. right. destruct H as (ss & R1 & R2 & R3 & R4). exists ss. split_and!; try done.
      intros s Hs. rewrite R4 by done. symmetry. by apply A7.
Qed.

Lemma kdisk_bread k s : kdisk_ok k -> 0 <= s < start (klog k) -> kbread k ROOTDEV s = Ok (ksect k s).
Proof.
  intros [K1 K2 K3 _ _] Hs. unfold kbread. change (ROOTDEV =? 1) with true. cbn [negb]. by rewrite (proj2 (Z.leb_gt _ _)) by lia.
Qed.

Lemma kdisk_inactive k s b : busy (klog k) = false -> klog_write k ROOTDEV s b = Err Panic.
Proof.
  intros Hb. unfold klog_write, on_klog. change (ROOTDEV =? 1) with true. cbn [negb].
  unfold Log.log_write. cbn. destruct (_ || _); [done|]. by rewrite Hb.
Qed.

(** The laws for the disks that may be in a transaction from [base], and for any. *)
Definition kdisk_laws_from (base : disk) (sz : Z) : BlockLaws kdisk.
Proof.
  refine {| dev_ok := kdisk_from base sz; FsBlock.home k := start (klog k); sect := ksect; active k := busy (klog k);
            logged := klogged; quota := kquota |}.
  - intros k s [[_ _ _ K _] _] Hs. by apply wblock_ok, K.
  - intros k s [K _] Hs. by apply kdisk_bread.
  - apply kdisk_log_write.
  - intros k s b _ Hb. by apply kdisk_inactive.
Defined.

#[export] Instance kdisk_laws : BlockLaws kdisk.
Proof.
  refine {| dev_ok := kdisk_ok; FsBlock.home k := start (klog k); sect := ksect; active k := busy (klog k);
            logged := klogged; quota := kquota |}.
  - intros k s [_ _ _ K _] Hs. by apply wblock_ok, K.
  - apply kdisk_bread.
  - intros k s b [base K]%kdisk_ok_from Hb Hs Hbk Hq.
    destruct (kdisk_log_write base _ k s b K Hb Hs Hbk Hq) as (k' & E & [Hk' _] & H). eauto.
  - intros k s b _ Hb. by apply kdisk_inactive.
Defined.

#[export] Instance kdisk_trans : TransLaws kdisk.
Proof.
  split.
  - intros k Hk Hb. destruct (kdisk_begin k Hk Hb) as (k' & E & [Hk' _] & H). eauto.
  - intros k [base K]%kdisk_ok_from Hb. destruct (kdisk_commit base _ k K Hb) as (k' & E & H1 & H2 & H3 & H4 & H5 & _). exists k'. by split_and!.
Qed.

(** A small file system on a log, for the examples: 40 sectors, 8 inodes, one
    regular file "hello", named "f" in the root directory, and a
    file that has no name any more. *)

Open Scope Z_scope.

Definition pad (ws : list Z) : list Z := ws ++ replicate (128 - length ws) 0.

Definition demo_sb : superblock := mk_sb 40 18 8 10.

(** Sector 1 is the superblock, 3 to 5 the inodes 1 to 3, 11 the bitmap, 12 to 14 the
    data of the three files. *)
Definition demo_view : disk := fun s =>
  if s =? 1 then pad [40; 18; 8; 10]
  else if s =? 3 then pad [1; 65536; 32; 13]
  else if s =? 4 then pad [2; 65536; 5; 12]
  else if s =? 5 then pad [2; 0; 3; 14]
  else if s =? 11 then pad [32767]
  else if s =? 12 then pad [1819043176; 111]
  else if s =? 13 then pad [3014657; 0; 0; 0; 6684674]
  else if s =? 14 then pad [6513249]
  else pad [].

Definition demo_log : log := mk_log 30 10 false 0 (replicate 10 0) demo_view [].
Definition demo_disk : kdisk := mk_kdisk demo_log 40.

(** The file, referenced and locked. *)
Definition demo_inode : inode :=
  mk_inode 1 2 1 (Z.lor I_BUSY I_VALID) T_FILE 0 0 1 5 (12 :: replicate 124 0).

(** The directory, the same. *)
Definition demo_dir : inode :=
  mk_inode 1 1 1 (Z.lor I_BUSY I_VALID) T_DIR 0 0 1 32 (13 :: replicate 124 0).

(** The file without a name, referenced but not locked. *)
Definition demo_orphan : inode :=
  mk_inode 1 3 1 I_VALID T_FILE 0 0 0 3 (14 :: replicate 124 0).

Definition demo_node (j : Z) : inode := if j =? 1 then demo_dir else if j =? 2 then demo_inode else demo_orphan.
Definition demo_data (j : Z) : Z := if j =? 1 then 13 else if j =? 2 then 12 else 14.

(** A property of the numbers in a range, checked by computation. *)
Lemma check_range (P : Z -> Prop) `{!forall x, Decision (P x)} lo hi :
  forallb (fun x => bool_decide (P x)) (seqZ lo (hi - lo)) = true -> forall x, lo <= x < hi -> P x.
Proof.
  intros Hall x Hx. rewrite forallb_forall in Hall. apply (bool_decide_unpack (P x)). apply Is_true_true. apply Hall.
  apply list_elem_of_In, elem_of_seqZ. lia.
Qed.

Lemma demo_slot j n : 1 <= j < 4 -> 0 <= n < 253 -> slot (ksect demo_disk) (demo_node j) n = if n =? 0 then demo_data j else 0.
Proof.
  intros Hj. assert (j = 1 \/ j = 2 \/ j = 3) as [-> | [-> | ->]] by lia; revert n; apply (check_range _ _ _); vm_compute; reflexivity.
Qed.

Lemma demo_synced : synced (ksect demo_disk) demo_inode.
Proof. vm_compute. reflexivity. Qed.

Lemma demo_dir_synced : synced (ksect demo_disk) demo_dir.
Proof. vm_compute. reflexivity. Qed.

Lemma demo_dnode j : 1 <= j < 4 -> dnode (ksect demo_disk) j = core (demo_node j).
Proof. intros Hj. assert (j = 1 \/ j = 2 \/ j = 3) as [-> | [-> | ->]] by lia; vm_compute; reflexivity. Qed.

Lemma demo_live j : live demo_sb (ksect demo_disk) j <-> 1 <= j < 4.
Proof.
  split.
  - intros [Hj Ht]. unfold inum_ok in Hj. cbn in Hj.
    assert (forall x, 1 <= x < 8 -> i_type (dnode (ksect demo_disk) x) <> 0 -> 1 <= x < 4) as H.
    { apply (check_range (fun x => i_type (dnode (ksect demo_disk) x) <> 0 -> 1 <= x < 4) 1 8). vm_compute. reflexivity. }
    apply H; [lia | done].
  - intros Hj. split; [unfold inum_ok; cbn; lia|]. rewrite demo_dnode by done. unfold demo_node. by destruct (j =? 1), (j =? 2).
Qed.

Lemma demo_bit b : 0 <= b < 40 -> bit demo_sb (ksect demo_disk) b = (b <? 15).
Proof. revert b. apply (check_range _ _ _). vm_compute. reflexivity. Qed.

Lemma demo_owned j x : 1 <= j < 4 -> owned (ksect demo_disk) (dnode (ksect demo_disk) j) x <-> x = demo_data j.
Proof.
  intros Hj. rewrite demo_dnode by done. split.
  - intros (n & Hn & <- & Hz). change (slot _ (core (demo_node j)) n) with (slot (ksect demo_disk) (demo_node j) n) in *.
    rewrite demo_slot in * by done. by destruct (n =? 0).
  - intros ->. exists 0. split; [done|]. split; [by apply (demo_slot j 0)|]. unfold demo_data. by destruct (j =? 1), (j =? 2).
Qed.

Lemma demo_kdisk : kdisk_ok demo_disk.
Proof.
  split; try done.
  - intros s Hs. cbn. unfold demo_view, wblock. repeat case_match; (split; [reflexivity|]); apply Forall_forall;
      intros w Hw; unfold word_ok; vm_compute in Hw; set_unfold; intuition (subst; lia).
  - unfold log_state. cbn. unfold at_rest. cbn. split_and!; try done. exists (replicate 127 0). split_and!; [reflexivity | cbn; lia | reflexivity].
Qed.

Lemma demo_fs : fs_ok demo_sb demo_disk.
Proof.
  split.
  - apply demo_kdisk.
  - split; [|vm_compute; done]. unfold layout, dstart. cbn. done.
  - intros b Hb. change (dstart demo_sb) with 12 in Hb. change (sect demo_disk) with (ksect demo_disk). rewrite demo_bit by lia.
    apply Z.ltb_lt. lia.
  - intros j Hj. apply demo_live in Hj. change (sect demo_disk) with (ksect demo_disk). rewrite demo_dnode by done. split; [split|split].
    + unfold demo_node. by destruct (j =? 1), (j =? 2).
    + unfold demo_node. by destruct (j =? 1), (j =? 2).
    + intros n Hn. change (slot _ (core (demo_node j)) n) with (slot (ksect demo_disk) (demo_node j) n).
      rewrite demo_slot by done. destruct (n =? 0); [|done]. intros _. unfold demo_data.
      destruct (j =? 1), (j =? 2); (split; [vm_compute; intuition discriminate | by rewrite demo_bit]).
    + intros n m Hn Hm. change (slot _ (core (demo_node j)) n) with (slot (ksect demo_disk) (demo_node j) n).
      change (slot _ (core (demo_node j)) m) with (slot (ksect demo_disk) (demo_node j) m). rewrite !demo_slot by done.
      destruct (Z.eqb_spec n 0), (Z.eqb_spec m 0); subst; done.
    + unfold demo_node. by destruct (j =? 1), (j =? 2).
    + intros x Hx. assert (i_size (core (demo_node j)) <= 32) as Hsz by (unfold demo_node; by destruct (j =? 1), (j =? 2)).
      change Fs.BSIZE with 512. rewrite Z.div_small by lia. unfold blk. change (bslot 0) with 0.
      change (slot _ (core (demo_node j)) 0) with (slot (ksect demo_disk) (demo_node j) 0). rewrite demo_slot by done.
      unfold demo_data. by destruct (j =? 1), (j =? 2).
  - intros a b x Ha%demo_live Hb%demo_live. change (sect demo_disk) with (ksect demo_disk).
    rewrite (demo_owned a x Ha), (demo_owned b x Hb). unfold demo_data.
    destruct (Z.eqb_spec a 1), (Z.eqb_spec b 1), (Z.eqb_spec a 2), (Z.eqb_spec b 2); lia.
  - intros b Hb Hbit. change (sect demo_disk) with (ksect demo_disk) in *. change (dstart demo_sb) with 12 in Hb. cbn in Hb.
    rewrite demo_bit in Hbit by lia. apply Z.ltb_lt in Hbit. assert (b = 12 \/ b = 13 \/ b = 14) as [-> | [-> | ->]] by lia.
    + exists 2. split; [by apply demo_live | by apply demo_owned].
    + exists 1. split; [by apply demo_live | by apply demo_owned].
    + exists 3. split; [by apply demo_live | by apply demo_owned].
Qed.

(** The disk in a transaction, and the cache with the directory locked. *)
Definition demo_tx : kdisk := mk_kdisk (mk_log 30 10 true 0 (replicate 10 0) demo_view []) 40.

Lemma demo_begin : kbegin demo_disk = Ok demo_tx.
Proof. reflexivity. Qed.

Lemma demo_agree : agree demo_disk demo_tx.
Proof. split; [done|]. intros s _. reflexivity. Qed.

Lemma demo_tx_ok : kdisk_ok demo_tx /\ klogged demo_tx = ∅ /\ kquota demo_tx = 8%nat.
Proof.
  destruct (kdisk_begin demo_disk demo_kdisk eq_refl) as (k1 & E1 & [Hk1 _] & _). rewrite demo_begin in E1. injection E1 as <-. by split_and!.
Qed.

Lemma demo_tx_fs : fs_ok demo_sb demo_tx.
Proof. apply (fs_ok_agree demo_sb demo_disk); [apply demo_fs | apply demo_tx_ok | apply demo_agree]. Qed.

Lemma demo_tx_room Y k : (base.size Y + k <= 8)%nat -> room demo_tx Y k.
Proof.
  intros H. destruct demo_tx_ok as (H1 & H2 & H3). split; [done|]. split; [done|]. change (logged demo_tx) with (klogged demo_tx).
  change (quota demo_tx) with (kquota demo_tx). rewrite H2, H3. split; [apply empty_subseteq | done].
Qed.

Definition no_inode : inode := mk_inode 0 0 0 0 0 0 0 0 0 (replicate 125 0).
