(* ===== verification/FsProps.v ===== *)
(** The properties of reading and writing files. *)
From stdpp Require Import gmap sets list_numbers.
From S2P Require Import Prelude Ulib Sys Log LogProps Fs FsBlock FsBmap FsRw FsDisk FsOps FsLog.
Open Scope Z_scope.

#[local] Ltac Zify.zify_post_hook ::= Z.to_euclidean_division_equations.

(** The invariant does not depend on where the transaction started. *)
Lemma fs_ok_from sb base sz k :
  kdisk_from base sz k -> fs_ok sb k <-> @fs_ok kdisk kdisk_dev (kdisk_laws_from base sz) sb k.
Proof. intros Hk. split; intros [H1 H2 H3 H4 H5 H6]; (split; [by (exact Hk || apply Hk) | done..]). Qed.

(** The sectors every [writei] of the inode may log besides its blocks. *)
Definition meta_sectors (sb : superblock) (inum : Z) : gset Z := {[IBLOCK inum]} ∪ bitmaps sb.

(** The log can take a write of [n] bytes at [off], and the disk has the blocks. *)
Definition write_fits (sb : superblock) (k : kdisk) (inum off n : Z) : Prop :=
  (base.size (meta_sectors sb inum) + wneed off n <= kquota k)%nat /\
  (wneed off n <= base.size (free sb (FsBlock.home k) (sect k)))%nat.

(** C3: A write to a file is atomic.  In a file system in order, with an idle
    log and room for the blocks, the transaction that writes [n] bytes at offset
    [off] of a file runs to its end; then the file holds the bytes, every other
    file is as it was, and the file system is in order again: no block is shared,
    lost or marked free while in use.  And wherever a crash stops the disk
    writes of the transaction, and however often recovery itself is interrupted,
    recovery brings back the old contents of the disk or the new ones. *)
Theorem write_atomic sb k i src off n :
  fs_ok sb k -> busy (klog k) = false -> live sb (sect k) (i_inum i) -> synced (sect k) i -> i_type i <> T_DEV ->
  0 <= off <= i_size i -> 0 <= n <= zlen src -> off + n <= MAXFILE * Fs.BSIZE -> Forall byte_ok src ->
  write_fits sb k (i_inum i) off n ->
  exists k1 k2 i' k3,
    Fs.begin_trans k = Ok k1 /\ writei k1 i src off n = Ok (k2, i', n) /\ Fs.commit_trans k2 = Ok k3 /\
    fs_ok sb k3 /\ synced (sect k3) i' /\ i_size i' = Z.max (i_size i) (off + n) /\
    content (sect k3) i' = splice (content (sect k) i) off (take (Z.to_nat n) src) /\
    others_same sb (sect k) (sect k3) (i_inum i) /\
    forall m D, crashes (Log.size (klog k)) (start (klog k) + Log.size (klog k)) (apply (view (klog k)) (take m (writes (klog k3)))) D ->
      exists r, initlog (start (klog k) + Log.size (klog k)) (Log.size (klog k)) D = Ok r /\
        (at_rest (start (klog k)) (Log.size (klog k)) (view (klog k)) r \/
         at_rest (start (klog k)) (Log.size (klog k)) (view (klog k3)) r).
Proof.
  intros Hok Hb Hlive Hsync Ht Hoff Hn Hmax HF [Hq Hfree]. pose proof (f_dev _ _ Hok) as Hk.
  destruct (kdisk_begin k Hk Hb) as (k1 & E1 & Hf1 & Hs1 & Hb1 & Hq1 & Hl1 & Hc1).
  set (base := view (klog k)) in *. set (sz := Log.size (klog k)) in *.
  assert (agree k k1) as Ha1 by done.
  assert (fs_ok sb k1) as Hok1 by (apply (fs_ok_agree sb k); [done | apply Hf1 | done]).
  pose proof (f_geom _ _ Hok) as [Hlay _].
  assert (dnode (sect k1) (i_inum i) = dnode (sect k) (i_inum i)) as En by exact (agree_dnode sb k k1 _ Hlay Ha1 (proj1 Hlive)).
  assert (synced (sect k1) i) as Hsync1 by (unfold synced; by rewrite En).
  assert (live sb (sect k1) (i_inum i)) as Hlive1 by (split; [apply Hlive | rewrite En; apply Hlive]).
  pose proof (free_agree sb k k1 (f_geom _ _ Hok) Ha1) as Efree.
  destruct (@writei_ok kdisk kdisk_dev (kdisk_laws_from base sz) kdisk_devsw sb k1 i src off n (meta_sectors sb (i_inum i)) 0)
    as (k2 & i' & Y & E2 & (Hok2 & Hlive2 & Hsync2) & Hr2 & _ & Hh2 & Hw & Hcont & Hoth); try done.
  { split; [by apply fs_ok_from | done]. }
  { split; [exact Hf1|]. split; [exact Hb1|]. cbn -[wneed]. rewrite Hl1, Hq1. split; [apply empty_subseteq | lia]. }
  { apply (union_subseteq_r {[IBLOCK (i_inum i)]} (bitmaps sb)). } { unfold meta_sectors. apply elem_of_union_l. by apply elem_of_singleton. }
  { change (wneed off n <= base.size (free sb (FsBlock.home k1) (sect k1)))%nat. rewrite Efree. done. }
  change (@sect kdisk kdisk_dev (kdisk_laws_from base sz)) with (@sect kdisk kdisk_dev kdisk_laws) in *.
  change (@FsBlock.home kdisk kdisk_dev (kdisk_laws_from base sz)) with (@FsBlock.home kdisk kdisk_dev kdisk_laws) in *.
  destruct Hr2 as (Hf2 & Hb2 & _). apply (fs_ok_from sb base sz k2 Hf2) in Hok2.
  destruct (kdisk_commit base sz k2 Hf2 Hb2) as (k3 & E3 & Hk3 & Hs3 & Hb3 & Hq3 & Hc3 & Hrec).
  assert (agree k2 k3) as Ha3 by done. assert (fs_ok sb k3) as Hok3 by by apply (fs_ok_agree sb k2).
  pose proof (f_geom _ _ Hok2) as [Hlay2 _].
  assert (i_inum i' = i_inum i) as Ei by by rewrite Hw.
  destruct (open_file sb k2 i' (conj Hok2 (conj Hlive2 Hsync2))) as ((_ & _ & Hm2) & Hcov2 & _).
  exists k1, k2, i', k3. split; [done|]. split; [done|]. split; [done|]. split; [done|]. split.
  { unfold synced. etrans; [exact Hsync2|]. symmetry. exact (agree_dnode sb k2 k3 _ Hlay2 Ha3 (proj1 Hlive2)). }
  split; [by rewrite Hw|]. split.
  { etrans; [apply (content_agree sb k2 k3); done|]. etrans; [exact Hcont|]. f_equal.
    destruct (open_file sb k i (conj Hok (conj Hlive Hsync))) as ((_ & _ & Hm) & Hcov & _). by apply (content_agree sb k k1). }
  split.
  { apply (others_same_agree sb k k2 k3); [done | done|]. intros j Hj Hne. destruct (Hoth j Hj Hne) as [O1 O2].
    rewrite O1. rewrite (agree_dnode sb k k1 j Hlay Ha1 Hj). split; [done|]. intros Htj.
    assert (live sb (sect k) j) as Hlj by done. destruct (f_file _ _ Hok j Hlj) as [Hmj Hcj].
    rewrite (agree_dnode sb k k1 j Hlay Ha1 Hj) in O1, O2. rewrite O1 in O2. rewrite O2 by done. by apply (content_agree sb k k1). }
  intros m D HD. change (start (klog k2) = start (klog k1)) in Hh2. rewrite Hs1 in *.
  assert (Log.size (klog k2) = Log.size (klog k)) as Esz by apply Hf2.
  rewrite Hh2, Esz in Hrec. fold sz.
  assert (start (klog k) + sz - sz = start (klog k)) as Est by lia.
  destruct (Hrec m) as [R|R]; (eapply crashes_recoverable in HD; [|exact Est|exact R]);
    destruct (recovers _ _ _ _ (start (klog k) + sz) Est HD) as (r & Er & Hr & _); exists r; split; auto.
Qed.

(** "abc" appended to "hello". *)
Lemma write_atomic_witness :
  exists k1 k2 i' k3,
    Fs.begin_trans demo_disk = Ok k1 /\ writei k1 demo_inode [97; 98; 99] 5 3 = Ok (k2, i', 3) /\
    Fs.commit_trans k2 = Ok k3 /\ content (sect k3) i' = [104; 101; 108; 108; 111; 97; 98; 99] /\
    forall m D, crashes 10 40 (apply demo_view (take m (writes (klog k3)))) D ->
      exists r, initlog 40 10 D = Ok r /\ (at_rest 30 10 demo_view r \/ at_rest 30 10 (view (klog k3)) r).
Proof.
  destruct (write_atomic demo_sb demo_disk demo_inode [97; 98; 99] 5 3) as (k1 & k2 & i' & k3 & E1 & E2 & E3 & _ & _ & _ & Hc & _ & Hr).
  - apply demo_fs.
  - done.
  - apply demo_live. cbn. lia.
  - apply demo_synced.
  - done.
  - done.
  - done.
  - done.
  - repeat constructor; done.
  - split; vm_compute; lia.
  - exists k1, k2, i', k3. split; [exact E1|]. split; [exact E2|]. split; [exact E3|]. split; [|exact Hr].
    rewrite Hc. vm_compute. reflexivity.
Defined.

Section Roundtrip.
Context {D : Type} `{!BlockDev D} `{!BlockLaws D} `{!Devsw D}.

(** What is written to a file is read back: in a transaction with room for
    the write, over any block device that keeps its laws, [writei] returns [n],
    and [readi] of the same bytes then returns them. *)
Theorem write_read sb (d : D) i src off n Y :
  open_node sb d i -> i_type i <> T_DEV -> 0 <= off <= i_size i -> 0 <= n <= zlen src -> off + n <= MAXFILE * Fs.BSIZE ->
  Forall byte_ok src -> room d Y (wneed off n) -> bitmaps sb ⊆ Y -> IBLOCK (i_inum i) ∈ Y ->
  (wneed off n <= base.size (free sb (FsBlock.home d) (sect d)))%nat ->
  exists d' i', writei d i src off n = Ok (d', i', n) /\ readi d' i' off n = Ok (d', i', (n, take (Z.to_nat n) src)).
Proof.
  intros Ho Ht Hoff Hn Hmax HF Hr HY HI Hfree. rewrite <- (Nat.add_0_r (wneed off n)) in Hr.
  destruct (writei_ok sb d i src off n Y 0) as (d' & i' & Y' & E & Ho' & Hr' & _ & _ & Hw & Hc & _); [done..|].
  exists d', i'. split; [done|]. assert (i_size i' = Z.max (i_size i) (off + n)) as Es by by rewrite Hw.
  rewrite (readi_ok sb) by (done || lia || (by rewrite Hw) || (consts; lia)).
  rewrite Es, Hc. do 3 f_equal; [lia|]. replace (Z.min n _) with n by lia.
  destruct (open_file sb d i Ho) as (_ & [Hsz _] & _). pose proof (content_len (sect d) i ltac:(lia)) as Hl.
  unfold slice, splice. rewrite drop_app_len by (rewrite length_take; lia).
  rewrite take_app_length'; [done|]. rewrite length_take. lia.
Qed.

End Roundtrip.

(** In a transaction on the small disk. *)
Lemma write_read_witness :
  exists k1 d' i', Fs.begin_trans demo_disk = Ok k1 /\ writei k1 demo_inode [97; 98; 99] 2 3 = Ok (d', i', 3) /\
    readi d' i' 2 3 = Ok (d', i', (3, [97; 98; 99])).
Proof.
  destruct (kdisk_begin demo_disk demo_kdisk eq_refl) as (k1 & E1 & [Hk1 _] & Hs1 & Hb1 & Hq1 & Hl1 & Hc1).
  assert (agree demo_disk k1) as Ha by done.
  assert (fs_ok demo_sb k1) as Hok by (apply (fs_ok_agree demo_sb demo_disk); [apply demo_fs | done | done]).
  pose proof (agree_dnode demo_sb demo_disk k1 2 (proj1 (f_geom _ _ demo_fs)) Ha ltac:(done)) as En.
  destruct (write_read demo_sb k1 demo_inode [97; 98; 99] 2 3 (meta_sectors demo_sb 2)) as (d' & i' & E2 & E3).
  - split; [exact Hok|]. split; [split; [split; [vm_compute; discriminate | vm_compute; reflexivity]|]|].
    + change (i_inum demo_inode) with 2. rewrite En. vm_compute. discriminate.
    + unfold synced. change (i_inum demo_inode) with 2. rewrite En. apply demo_synced.
  - discriminate.
  - split; vm_compute; discriminate.
  - split; vm_compute; discriminate.
  - vm_compute. discriminate.
  - repeat constructor; done.
  - split; [exact Hk1|]. split; [exact Hb1|]. change (logged k1) with (klogged k1). change (quota k1) with (kquota k1). rewrite Hl1, Hq1.
    split; [apply empty_subseteq | vm_compute; lia].
  - apply (union_subseteq_r {[IBLOCK 2]} (bitmaps demo_sb)).
  - vm_compute. reflexivity.
  - rewrite (free_agree demo_sb demo_disk k1 (f_geom _ _ demo_fs) Ha). vm_compute. lia.
  - exists k1, d', i'. split; [exact E1|]. split; [exact E2 | exact E3].
Defined.
