(* ===== verification/FsTrunc.v ===== *)
(** Freeing the blocks of a file and the inode itself: [itrunc], and the disk
    part of [iput] and [ialloc]. *)
From stdpp Require Import gmap sets list_numbers.
From S2P Require Import Prelude Ulib Sys Fs FsBlock FsBmap FsRw FsDisk FsOps.
Open Scope Z_scope.

#[local] Ltac Zify.zify_post_hook ::= Z.to_euclidean_division_equations.

Section Trunc.
Context {D : Type} `{!BlockDev D} `{!BlockLaws D}.
Context (sb : superblock).
Implicit Types (d : D) (i : inode).

(** * Freeing slots *)

(** The bitmap after the slots of [i] in [P] were freed. *)
Definition freed (σ : Z -> bytes) i (P : Z -> Prop) (σ' : Z -> bytes) : Prop :=
  forall b, 0 <= b < sb_size sb ->
    bit sb σ' b = true <-> bit sb σ b = true /\ ~ exists n, 0 <= n < NSLOT /\ P n /\ slot σ i n = b /\ b <> 0.

(** A disk on which some blocks of the file have been freed. *)
Record freeing d i (Y : gset Z) (k : nat) (P : Z -> Prop) d' : Prop := {
  fr_geom : geom sb d';
  fr_room : room d' Y k;
  fr_changes : changes (bitmaps sb) d d';
  fr_bits : freed (sect d) i P (sect d');
}.

Lemma freeing_skip d i Y k P d' n :
  freeing d i Y k P d' -> slot (sect d) i n = 0 -> freeing d i Y k (fun m => P m \/ m = n) d'.
Proof.
  intros [F1 F2 F3 F4] Hz. split; [done..|]. intros b Hb. rewrite (F4 b Hb). split; intros [H1 H2]; (split; [done|]).
  - intros (m & Hm & [HP| ->] & Es & Hne); [apply H2; by exists m | congruence].
  - intros (m & Hm & HP & Es & Hne). apply H2. exists m. auto.
Qed.

Lemma freeing_step d i Y k (P : Z -> Prop) d' n :
  mapped sb (home d) (sect d) i -> freeing d i Y k P d' -> bitmaps sb ⊆ Y -> 0 <= n < NSLOT -> ~ P n -> slot (sect d) i n <> 0 ->
  exists d'', bfree d' ROOTDEV (slot (sect d) i n) = Ok d'' /\ freeing d i Y k (fun m => P m \/ m = n) d''.
Proof.
  intros Hm [F1 F2 F3 F4] HY Hn HP Hz. destruct (m_slot _ _ _ _ Hm n Hn Hz) as [Hr Hbit].
  pose proof F1 as [Hlay' _]. rewrite (proj1 F3) in Hlay'. pose proof Hlay' as (_ & Hl & _). pose proof (dstart_pos sb _ Hlay').
  destruct (bfree_ok sb d' Y k (slot (sect d) i n)) as (d2 & E & G1 & G2 & G3 & G4); [done | done | done | lia | |].
  { apply F4; [lia|]. split; [done|]. intros (m & Hm' & HPm & Es & _). apply HP.
    by rewrite (m_inj _ _ _ _ Hm n m Hn Hm' ltac:(done) Hz). }
  exists d2. split; [done|]. split; [done | done | by eapply changes_trans |].
  intros b Hb. rewrite (G4 b Hb). destruct (Z.eqb_spec b (slot (sect d) i n)) as [->|Hne].
  - split; [done|]. intros [_ H2]. exfalso. apply H2. exists n. auto.
  - rewrite (F4 b Hb). split; intros [H1 H2]; (split; [done|]).
    + intros (m & Hm' & [HPm| ->] & Es & Hnz); [apply H2; by exists m | congruence].
    + intros (m & Hm' & HPm & Es & Hnz). apply H2. exists m. auto.
Qed.

(** * [itrunc] *)

Definition no_addrs : list Z := replicate 125 0.

(** The slots below [j], and those from 125 to [125 + j]. *)
Definition below (j n : Z) : Prop := 0 <= n < j.
Definition entries (j n : Z) : Prop := 0 <= n < NDIRECT \/ NDIRECT < n <= NDIRECT + j.

Lemma freeing_ext d i Y k (P Q : Z -> Prop) d' : (forall n, P n <-> Q n) -> freeing d i Y k P d' -> freeing d i Y k Q d'.
Proof.
  intros HPQ [F1 F2 F3 F4]. split; [done..|]. intros b Hb. rewrite (F4 b Hb). by setoid_rewrite HPQ.
Qed.

(** The direct blocks. *)
Lemma trunc_direct d i Y k :
  mapped sb (home d) (sect d) i -> geom sb d -> room d Y k -> bitmaps sb ⊆ Y ->
  exists d', for_up 0 NDIRECT itrunc_direct (d, i) = Ok (d', set_addrs (replicate 124 0 ++ drop 124 (i_addrs i)) i) /\ freeing d i Y k (below NDIRECT) d'.
Proof.
  intros Hm Hg Hr HY. pose proof (m_len _ _ _ _ Hm) as Hlen. consts.
  destruct (for_up_ex (fun j s => snd s = set_addrs (replicate (Z.to_nat j) 0 ++ drop (Z.to_nat j) (i_addrs i)) i /\ freeing d i Y k (below j) (fst s))
    0 124 itrunc_direct (d, i)) as ([d' i'] & -> & H1 & H2).
  - lia.
  - split; [by destruct i|]. split; [done | done | done|]. intros b Hb. split; [|tauto]. intros Hbt. split; [done|].
    intros (n & _ & Hn & _). unfold below in Hn. lia.
  - intros j [d1 i1] Hj [Ei Hf]. cbn [snd fst] in *. subst i1. unfold itrunc_direct.
    set (l := replicate (Z.to_nat j) 0 ++ drop (Z.to_nat j) (i_addrs i)) in *.
    assert (zlen l = 125) as Hll by (unfold l; llia).
    assert (byte l j = addr i j) as El.
    { unfold byte, l, addr. rewrite app_nth2; rewrite length_replicate; [|lia]. rewrite Nat.sub_diag.
      rewrite nth_lookup, lookup_drop, Nat.add_0_r, <- nth_lookup. done. }
    assert (<[Z.to_nat j := 0]> l = replicate (Z.to_nat (j + 1)) 0 ++ drop (Z.to_nat (j + 1)) (i_addrs i)) as Eput.
    { unfold l. destruct (lookup_lt_is_Some_2 (i_addrs i) (Z.to_nat j)) as [x Hx]; [lia|]. rewrite (drop_S _ _ _ Hx).
      rewrite insert_middle by (rewrite length_replicate; lia). replace (Z.to_nat (j + 1)) with (S (Z.to_nat j)) by lia.
      rewrite replicate_S_end, <- app_assoc. done. }
    cbn [i_addrs set_addrs i_dev]. rewrite get_byte by lia. cbn [rbind]. rewrite El.
    rewrite <- (slot_addr (sect d) i j) by (consts; lia).
    destruct (Z.eqb_spec (slot (sect d) i j) 0) as [Ez|Hne]; cbn [negb].
    + eexists. split; [done|]. cbn [snd fst]. split.
      * f_equal. rewrite <- Eput. symmetry. apply list_insert_id. rewrite lookup_byte by lia. rewrite El. f_equal.
        by rewrite <- (slot_addr (sect d) i j) by (consts; lia).
      * eapply freeing_ext; [|apply freeing_skip; [exact Hf | exact Ez]]. intros n. unfold below. lia.
    + rewrite (m_dev _ _ _ _ Hm).
      destruct (freeing_step d i Y k (below j) d1 j Hm Hf HY) as (d2 & -> & Hf2); [consts; lia | unfold below; lia | done|]. cbn [rbind].
      rewrite put_ok by lia. cbn [rbind]. eexists. split; [done|]. cbn [snd fst]. split.
      * unfold set_addrs. cbn. by rewrite Eput.
      * eapply freeing_ext; [|exact Hf2]. intros n. unfold below. lia.
  - cbn [snd fst] in *. subst i'. exists d'. split; [done | done].
Qed.

(** The blocks of the indirect block. *)
Lemma trunc_entries d i Y k d1 :
  mapped sb (home d) (sect d) i -> addr i NDIRECT <> 0 -> freeing d i Y k (below NDIRECT) d1 -> bitmaps sb ⊆ Y ->
  zlen (sect d (addr i NDIRECT)) = BSIZE ->
  exists d', for_up 0 NINDIRECT (itrunc_entry ROOTDEV (sect d (addr i NDIRECT))) d1 = Ok d' /\
    freeing d i Y k (entries NINDIRECT) d'.
Proof.
  intros Hm Hind Hf HY Hlen.
  apply (for_up_ex (fun j d' => freeing d i Y k (entries j) d')).
  - consts. lia.
  - eapply freeing_ext; [|exact Hf]. intros n. unfold below, entries. lia.
  - intros j d2 Hj Hf2. unfold itrunc_entry. rewrite rd32_ok by (consts; lia). cbn [rbind].
    assert (w32 (sect d (addr i NDIRECT)) (4 * j) = slot (sect d) i (NDIRECT + 1 + j)) as ->.
    { unfold slot. rewrite (proj2 (Z.leb_gt _ _)), (proj2 (Z.eqb_neq _ _) Hind) by lia. f_equal. lia. }
    destruct (Z.eqb_spec (slot (sect d) i (NDIRECT + 1 + j)) 0) as [Ez|Hne]; cbn [negb].
    + exists d2. split; [done|]. eapply freeing_ext; [|apply freeing_skip; [exact Hf2 | exact Ez]]. intros n. unfold entries. lia.
    + destruct (freeing_step d i Y k (entries j) d2 (NDIRECT + 1 + j) Hm Hf2 HY) as (d3 & -> & Hf3); [consts; lia | unfold entries; consts; lia | done|].
      exists d3. split; [done|]. eapply freeing_ext; [|exact Hf3]. intros n. unfold entries. lia.
Qed.

(** All the blocks of the file are free, its inode is empty on the disk, and no
    other sector has changed. *)
Lemma itrunc_ok d i Y k :
  open_node sb d i -> room d Y k -> bitmaps sb ⊆ Y -> IBLOCK (i_inum i) ∈ Y ->
  exists d', itrunc d i = Ok (d', set_size 0 (set_addrs no_addrs i)) /\ geom sb d' /\ room d' Y k /\
    changes ({[IBLOCK (i_inum i)]} ∪ bitmaps sb) d d' /\
    dnode (sect d') (i_inum i) = core (set_size 0 (set_addrs no_addrs i)) /\
    (forall b, 0 <= b < sb_size sb -> bit sb (sect d') b = true <-> bit sb (sect d) b = true /\ ~ owned (sect d) i b).
Proof.
  intros Ho Hr HY HI. destruct (open_file sb d i Ho) as ((Hg & _ & Hm) & _ & Hfit). pose proof Ho as (_ & Hlive & _).
  pose proof (m_len _ _ _ _ Hm) as Hlen. pose proof Hg as [Hlay _]. unfold itrunc.
  destruct (trunc_direct d i Y k Hm Hg Hr HY) as (d1 & -> & Hf1). cbn [rbind i_addrs set_addrs i_dev].
  set (l := replicate 124 0 ++ drop 124 (i_addrs i)). assert (zlen l = 125) as Hll by (unfold l; consts; llia).
  assert (byte l NDIRECT = addr i NDIRECT) as El.
  { unfold byte, l, addr. consts. rewrite app_nth2 by (rewrite length_replicate; lia). rewrite length_replicate.
    rewrite nth_lookup, lookup_drop, <- nth_lookup. done. }
  rewrite get_byte by (consts; lia). cbn [rbind]. rewrite El.
  assert (exists d2, (if negb (addr i NDIRECT =? 0) then
      let! a := bread d1 (i_dev i) (addr i NDIRECT) in
      let! d := for_up 0 NINDIRECT (itrunc_entry (i_dev i) a) d1 in
      let! d := bfree d (i_dev i) (addr i NDIRECT) in
      let! addrs := put l NDIRECT 0 in Ok (d, set_addrs addrs (set_addrs l i))
    else Ok (d1, set_addrs l i)) = Ok (d2, set_addrs no_addrs i) /\ freeing d i Y k (below NSLOT) d2) as (d2 & -> & Hf2).
  { assert (<[Z.to_nat NDIRECT := 0]> l = no_addrs) as Eput.
    { unfold l, no_addrs. destruct (i_addrs i !! 124%nat) as [x|] eqn:Hx; [|apply lookup_ge_None in Hx; consts; lia].
      rewrite (drop_S _ _ _ Hx), drop_ge by (consts; lia). rewrite insert_middle by done. done. }
    destruct (Z.eqb_spec (addr i NDIRECT) 0) as [Ez|Hne]; cbn [negb].
    - exists d1. split.
      + rewrite <- Eput. do 3 f_equal. symmetry. apply list_insert_id. rewrite lookup_byte by (consts; lia). by rewrite El, Ez.
      + destruct Hf1 as [F1 F2 F3 F4]. split; [done..|]. intros b Hb. rewrite (F4 b Hb). split; intros [H1 H2]; (split; [done|]).
        * intros (n & Hn & _ & Es & Hnz). destruct (Z.lt_ge_cases n NDIRECT); [apply H2; exists n; unfold below; by split_and!; [lia..| |]|].
          rewrite <- Es in Hnz. destruct (Z.eq_dec n NDIRECT) as [->|]; [by rewrite slot_addr in Hnz|].
          by apply (slot_ind (sect d) i n) in Hnz; [|lia].
        * intros (n & Hn & HP & Es & Hnz). apply H2. exists n. unfold below. by split_and!; [lia..| |].
    - rewrite (m_dev _ _ _ _ Hm). destruct (mapped_pos sb _ Hlay _ _ NDIRECT Hm) as (P1 & P2 & _); [consts; lia | by rewrite slot_addr|].
      rewrite slot_addr in P1, P2 by done. destruct Hf1 as [F1 F2 F3 F4] eqn:E1. pose proof F3 as [Hh3 Hk3].
      rewrite (room_bread d1 Y k) by (done || lia). cbn [rbind]. rewrite Hk3 by (done || lia).
      destruct (trunc_entries d i Y k d1) as (d2 & -> & Hf2); [done | done | done | done | by apply (room_sect d Y k); [|lia]|]. cbn [rbind].
      pose proof (freeing_step d i Y k (entries NINDIRECT) d2 NDIRECT Hm Hf2 HY) as H. rewrite slot_addr in H by done.
      destruct H as (d3 & -> & Hf3); [consts; lia | unfold entries; lia | done|]. cbn [rbind].
      rewrite put_ok by (consts; lia). cbn [rbind]. rewrite Eput. exists d3. split; [done|].
      eapply freeing_ext; [|exact Hf3]. intros n. unfold entries, below. consts. lia. }
  cbn [rbind]. destruct Hf2 as [F1 F2 F3 F4].
  destruct (iupdate_ok sb d2 (set_size 0 (set_addrs no_addrs i)) Y k) as (d3 & -> & Hr3 & Hc3 & Hdn); [done | done | | apply Hlive | done|].
  { destruct Hfit. split; try done. intros n Hn. unfold addr. cbn [i_addrs set_size set_addrs]. unfold no_addrs.
    rewrite nth_lookup. destruct (_ !! _) as [x|] eqn:E; [|done]. apply lookup_replicate in E as [-> _]. done. }
  cbn [rbind]. destruct (iblock_range sb _ _ Hlay (proj1 Hlive)) as (I1 & I2 & I3).
  exists d3. split; [done|]. split; [eapply geom_changes; [exact F1 | exact Hc3 | cbn; rewrite elem_of_singleton; lia]|]. split; [done|]. split.
  { eapply changes_trans; [eapply changes_mono; [|exact F3]; set_solver | eapply changes_mono; [|exact Hc3]; set_solver]. }
  split; [done|]. intros b Hb. cbn [i_inum set_size set_addrs] in Hc3.
  rewrite (bit_changes sb {[IBLOCK (i_inum i)]} d2 d3) by (done || by apply disjoint_singleton_l).
  rewrite (F4 b Hb). unfold owned, below. split; intros [H1 H2]; (split; [done|]); intros H; apply H2; destruct H as (n & Hn); exists n; tauto.
Qed.

(** * An inode that has no blocks any more, or not yet *)

Definition blank_node i : Prop := i_size i = 0 /\ i_addrs i = no_addrs.

Lemma slot_blank σ i n : i_addrs i = no_addrs -> slot σ i n = 0.
Proof.
  intros E. assert (forall m, addr i m = 0) as Ha.
  { intros m. unfold addr. rewrite E. unfold no_addrs. rewrite nth_lookup. destruct (_ !! _) as [x|] eqn:El; [|done].
    by apply lookup_replicate in El as [-> _]. }
  unfold slot. rewrite !Ha. by destruct (n <=? NDIRECT).
Qed.

(** An inode is written without blocks, and the blocks it had are freed: the
    invariant holds and the other files are as they were. *)
Lemma fs_ok_blank d d' inum :
  fs_ok sb d -> inum_ok sb inum -> dev_ok d' -> changes ({[IBLOCK inum]} ∪ bitmaps sb) d d' -> blank_node (dnode (sect d') inum) ->
  (forall b, 0 <= b < sb_size sb ->
     bit sb (sect d') b = true <-> bit sb (sect d) b = true /\ ~ (live sb (sect d) inum /\ owned (sect d) (dnode (sect d) inum) b)) ->
  fs_ok sb d' /\ others_same sb (sect d) (sect d') inum.
Proof.
  intros Hok Hi Hd' Hc [Hz Ha] Hbits. pose proof (f_geom _ _ Hok) as Hg. pose proof Hg as [Hlay _]. pose proof Hlay as (_ & Hl & _).
  pose proof Hc as [Hh Hk]. pose proof (dstart_pos sb _ Hlay) as Hpos. destruct (iblock_range sb _ _ Hlay Hi) as (I1 & I2 & I3).
  assert (forall j, inum_ok sb j -> j <> inum -> dnode (sect d') j = dnode (sect d) j) as Hnode.
  { intros j Hj Hne. destruct (iblock_range sb _ _ Hlay Hj) as (J1 & J2 & J3). apply dnode_ext, Hk; [done|].
    rewrite elem_of_union, elem_of_singleton. intros [E|]; [|done]. by apply Hne, iblock_inj. }
  assert (forall x, dstart sb <= x < home d -> sect d' x = sect d x) as Hdata.
  { intros x Hx. apply Hk; [lia|]. rewrite elem_of_union, elem_of_singleton. intros [->|Hin]; [lia|].
    apply (bitmap_range sb _ _ Hlay) in Hin. lia. }
  assert (forall j, live sb (sect d') j -> j <> inum -> live sb (sect d) j) as Hback
    by (intros j [Hj Ht] Hne; split; [done | by rewrite <- Hnode]).
  assert (forall j n, live sb (sect d) j -> slot (sect d') (dnode (sect d) j) n = slot (sect d) (dnode (sect d) j) n) as Hslot.
  { intros j n Hj. destruct (f_file _ _ Hok j Hj) as [Hm _]. apply (slot_spared sb (home d)); [done | done|].
    intros x Hx _. apply (owned_pos sb _ _ _ _ Hlay Hm) in Hx. apply Hdata. lia. }
  assert (forall j, live sb (sect d') j -> j <> inum -> forall x, owned (sect d') (dnode (sect d') j) x <-> owned (sect d) (dnode (sect d) j) x) as Hown.
  { intros j Hj Hne x. unfold owned. rewrite Hnode by (done || apply Hj). by setoid_rewrite (Hslot j _ (Hback j Hj Hne)). }
  assert (forall x, ~ owned (sect d') (dnode (sect d') inum) x) as Hnone.
  { intros x (n & _ & Es & Hnz). rewrite slot_blank in Es by done. congruence. }
  split; [split|].
  - done.
  - eapply geom_changes; [exact Hg | exact Hc|]. rewrite elem_of_union, elem_of_singleton. intros [|Hin]; [lia|].
    apply (bitmap_range sb _ _ Hlay) in Hin. lia.
  - intros b Hb. apply Hbits; [lia|]. split; [by apply (f_meta _ _ Hok)|]. intros [Hlv Ho].
    destruct (f_file _ _ Hok _ Hlv) as [Hm _]. apply (owned_pos sb _ _ _ _ Hlay Hm) in Ho. lia.
  - intros j Hj. rewrite Hh. destruct (Z.eq_dec j inum) as [->|Hne].
    + assert (forall n, slot (sect d') (dnode (sect d') inum) n = 0) as H0 by (intros; by apply slot_blank).
      split; [split|split]; try done.
      * intros n Hn. by rewrite H0.
      * intros n m Hn Hm. by rewrite !H0.
      * rewrite Hz. done.
      * intros k. rewrite Hz. lia.
    + pose proof (Hback j Hj Hne) as Hj'. destruct (f_file _ _ Hok j Hj') as [[M1 M2 M3 M4] [C1 C2]].
      rewrite Hnode by (done || apply Hj). split; [split|split]; try done.
      * intros n Hn. rewrite Hslot by done. intros Hnz. destruct (M3 n Hn Hnz) as [Q1 Q2]. split; [done|]. apply Hbits; [lia|]. split; [done|].
        intros [Hlv Ho]. apply Hne. apply (f_disj _ _ Hok j inum (slot (sect d) (dnode (sect d) j) n)); [done | done | by exists n | done].
      * intros n m. rewrite !Hslot by done. apply M4.
      * intros k Hkk. unfold blk. rewrite Hslot by done. by apply C2.
  - intros a b x Hla Hlb. destruct (Z.eq_dec a inum) as [->|Hna]; [intros Ho; by apply Hnone in Ho|].
    destruct (Z.eq_dec b inum) as [->|Hnb]; [intros _ Ho; by apply Hnone in Ho|].
    rewrite (Hown a Hla Hna), (Hown b Hlb Hnb). apply (f_disj _ _ Hok); by apply Hback.
  - intros b Hb Hbt. rewrite Hh in Hb. apply Hbits in Hbt as [Hbt Hno]; [|lia]. destruct (f_used _ _ Hok b Hb Hbt) as (j & Hj & Ho).
    destruct (Z.eq_dec j inum) as [->|Hne]; [by destruct Hno|].
    assert (live sb (sect d') j) as Hj' by (destruct Hj as [Hj1 Hj2]; split; [done | by rewrite Hnode]).
    exists j. split; [done|]. by apply Hown.
  - intros j Hj Hne. split; [by apply Hnode|]. intros Ht. rewrite Hnode by done.
    assert (live sb (sect d) j) as Hlv by done. destruct (f_file _ _ Hok j Hlv) as [Hm Hcv].
    apply (content_spared sb (home d)); [done | done | done|]. intros x Hx _. apply (owned_pos sb _ _ _ _ Hlay Hm) in Hx. apply Hdata. lia.
Qed.

(** Freeing a file: [itrunc], then the inode with type 0, as in [iput]. *)
Lemma free_inode_ok d i Y k :
  open_node sb d i -> room d Y k -> bitmaps sb ⊆ Y -> IBLOCK (i_inum i) ∈ Y ->
  exists d1 d2, itrunc d i = Ok (d1, set_size 0 (set_addrs no_addrs i)) /\
    iupdate d1 (set_type 0 (set_size 0 (set_addrs no_addrs i))) = Ok d2 /\
    fs_ok sb d2 /\ room d2 Y k /\ home d2 = home d /\ others_same sb (sect d) (sect d2) (i_inum i) /\
    dnode (sect d2) (i_inum i) = core (set_type 0 (set_size 0 (set_addrs no_addrs i))) /\
    (forall b, owned (sect d) i b -> bit sb (sect d2) b = false).
Proof.
  intros Ho Hr HY HI. pose proof Ho as (Hok & Hlive & Hsync). destruct (open_file sb d i Ho) as ((Hg & _ & Hm) & _ & Hfit).
  pose proof Hg as [Hlay _]. destruct (iblock_range sb _ _ Hlay (proj1 Hlive)) as (I1 & I2 & I3).
  destruct (itrunc_ok d i Y k Ho Hr HY HI) as (d1 & -> & Hg1 & Hr1 & Hc1 & Hdn1 & Hbits1). exists d1.
  destruct (iupdate_ok sb d1 (set_type 0 (set_size 0 (set_addrs no_addrs i))) Y k) as (d2 & -> & Hr2 & Hc2 & Hdn2); [done | done | | apply Hlive | done|].
  { destruct Hfit. split; try done. intros n Hn. rewrite <- (slot_addr (sect d)) by lia. by rewrite slot_blank. }
  exists d2. split; [done|]. split; [done|]. cbn [i_inum set_type set_size set_addrs] in Hc2, Hdn2.
  assert (forall b, 0 <= b < sb_size sb -> bit sb (sect d2) b = bit sb (sect d1) b) as Hb2.
  { intros b Hb. apply (bit_changes sb {[IBLOCK (i_inum i)]} d1 d2); [done | done | by apply disjoint_singleton_l | done]. }
  pose proof (synced_core _ _ Hsync) as Ec.
  destruct (fs_ok_blank d d2 (i_inum i)) as [Hok2 Hoth]; [done | apply Hlive | apply Hr2 | | | |].
  { eapply changes_trans; [exact Hc1|]. eapply changes_mono; [|exact Hc2]. set_solver. }
  { by rewrite Hdn2. }
  { intros b Hb. rewrite Hb2, (Hbits1 b Hb) by done. rewrite (owned_core (sect d) i _ b Ec). tauto. }
  split; [done|]. split; [done|]. split; [destruct Hc1, Hc2; congruence|]. split; [done|]. split; [done|].
  intros b Hb. destruct (owned_pos sb _ _ _ _ Hlay Hm Hb) as (P1 & _). destruct Hlay as (_ & ? & _). pose proof (dstart_pos sb _ (proj1 Hg)).
  rewrite Hb2 by lia. apply not_true_is_false. intros Ht. apply Hbits1 in Ht as [_ Hn]; [done | lia].
Qed.
End Trunc.
