(* ===== verification/FsCache.v ===== *)
(** The inode cache: one entry for each inode in use, and the valid entries are
    what the disk holds. *)
From stdpp Require Import gmap sets list_numbers.
From S2P Require Import Prelude Ulib Sys Fs FsBlock FsBmap FsRw FsDisk FsOps Inode FsTrunc.
Open Scope Z_scope.

#[local] Ltac Zify.zify_post_hook ::= Z.to_euclidean_division_equations.

Definition valid (i : inode) : bool := has_flag i I_VALID.
Definition locked (i : inode) : bool := has_flag i I_BUSY.

(** The two flags. *)
Definition flags_of (busy valid : bool) : Z := (if busy then I_BUSY else 0) + (if valid then I_VALID else 0).

Section Cache.
Context {D : Type} `{!BlockDev D} `{!BlockLaws D} `{!Devsw D}.
Context (sb : superblock).
Implicit Types (f : Inode.fs D) (i : inode).

(** An entry in use is a live inode, and a valid one agrees with the disk. *)
Record entry_ok (σ : Z -> bytes) i : Prop := {
  e_ref : 0 <= i_ref i < 2 ^ 31 - 1;
  e_flags : i_flags i = flags_of (locked i) (valid i);
  e_use : 0 < i_ref i -> i_dev i = ROOTDEV /\ live sb σ (i_inum i);
  e_sync : 0 < i_ref i -> valid i = true -> synced σ i;
}.

Record cache_ok f : Prop := {
  c_fs : fs_ok sb (disk f);
  c_len : zlen (icache f) = NINODE;
  c_entry : forall n i, icache f !! n = Some i -> entry_ok (sect (disk f)) i;
  c_uniq : forall n m i j, icache f !! n = Some i -> icache f !! m = Some j -> 0 < i_ref i -> 0 < i_ref j ->
    i_inum i = i_inum j -> n = m;
}.

(** The entry a pointer refers to. *)
Definition at_ptr f (ip : Z) i : Prop := 0 <= ip /\ icache f !! Z.to_nat ip = Some i.

Lemma at_ptr_get f ip i : at_ptr f ip i -> get (icache f) ip = Ok i.
Proof. intros [H1 H2]. by apply get_ok. Qed.

Lemma at_ptr_put f ip i j : at_ptr f ip i -> put (icache f) ip j = Ok (<[Z.to_nat ip := j]> (icache f)).
Proof. intros [H1 H2]. apply put_ok. apply lookup_lt_Some in H2. lia. Qed.

(** The cache with the entry [ip] replaced. *)
Definition with_entry f (ip : Z) i : Inode.fs D := mk_fs (disk f) (<[Z.to_nat ip := i]> (icache f)).

Lemma upd_inode_at f ip i g : at_ptr f ip i -> upd_inode f ip g = Ok (with_entry f ip (g i)).
Proof. intros H. unfold upd_inode. rewrite (at_ptr_get _ _ _ H). cbn [rbind]. by rewrite (at_ptr_put _ _ _ _ H). Qed.

Lemma with_entry_at f ip i j : at_ptr f ip i -> at_ptr (with_entry f ip j) ip j.
Proof. intros [H1 H2]. split; [done|]. cbn. apply list_lookup_insert_eq. by eapply lookup_lt_Some. Qed.

Lemma with_entry_ne f ip i j n m : at_ptr f ip i -> at_ptr f n m -> n <> ip -> at_ptr (with_entry f ip j) n m.
Proof. intros [H1 _] [H2 H3] Hne. split; [done|]. cbn. by rewrite list_lookup_insert_ne by lia. Qed.

(** * Flags *)

Lemma flags_set_busy b v : Z.lor (flags_of b v) I_BUSY = flags_of true v.
Proof. by destruct b, v. Qed.
Lemma flags_set_valid b v : Z.lor (flags_of b v) I_VALID = flags_of b true.
Proof. by destruct b, v. Qed.
Lemma flags_clear_busy b v : Z.land (flags_of b v) (Z.lnot I_BUSY) = flags_of false v.
Proof. by destruct b, v. Qed.

Lemma locked_flags b v i : locked (set_flags (flags_of b v) i) = b.
Proof. by destruct b, v. Qed.
Lemma valid_flags b v i : valid (set_flags (flags_of b v) i) = v.
Proof. by destruct b, v. Qed.

(** * The invariant under an update of one entry *)

Lemma cache_update f ip i j :
  cache_ok f -> at_ptr f ip i -> entry_ok (sect (disk f)) j ->
  (0 < i_ref j -> 0 < i_ref i /\ i_inum j = i_inum i \/
     forall n m, icache f !! n = Some m -> 0 < i_ref m -> i_inum m <> i_inum j) ->
  cache_ok (with_entry f ip j).
Proof.
  intros [C1 C2 C3 C4] [Hp Hi] Hj Hfresh. split; cbn [disk icache with_entry]; [done | by rewrite zlen_insert | |].
  - intros n m Hn. apply list_lookup_insert_Some in Hn as [(<- & <- & _)|[Hne Hn]]; [done | by eapply C3].
  - assert (forall n m, icache f !! n = Some m -> n <> Z.to_nat ip -> 0 < i_ref m -> 0 < i_ref j -> i_inum m = i_inum j -> False) as Hx.
    { intros n m Hn Hne Hm Hrj E. destruct (Hfresh Hrj) as [[Hr Ei]|Hno]; [|by eapply Hno].
      apply Hne. by apply (C4 n (Z.to_nat ip) m i); [..|congruence]. }
    intros n m x y Hx' Hy'. apply list_lookup_insert_Some in Hx' as [(<- & <- & _)|[Hn1 Hx']], Hy' as [(<- & <- & _)|[Hn2 Hy']].
    + done.
    + intros R1 R2 E. exfalso. eapply (Hx m y); eauto.
    + intros R1 R2 E. exfalso. eapply (Hx n x); eauto.
    + by apply (C4 n m x y).
Qed.

(** * [iget] *)

Lemma iget_scan_spec l k dev inum e :
  (exists n i, l !! n = Some i /\ 0 < i_ref i /\ i_dev i = dev /\ i_inum i = inum /\ iget_scan l k dev inum e = inl (k + Z.of_nat n)) \/
  (forall n i, l !! n = Some i -> 0 < i_ref i -> i_dev i = dev -> i_inum i <> inum) /\
  match e with
  | Some x => iget_scan l k dev inum e = inr (Some x)
  | None =>
      (exists n i, l !! n = Some i /\ i_ref i = 0 /\ iget_scan l k dev inum e = inr (Some (k + Z.of_nat n))) \/
      (forall n i, l !! n = Some i -> i_ref i <> 0) /\ iget_scan l k dev inum e = inr None
  end.
Proof.
  revert k e. induction l as [|x l IH]; intros k e; cbn [iget_scan].
  - right. split; [done|]. destruct e; [done|]. right. done.
  - destruct ((0 <? i_ref x) && (i_dev x =? dev) && (i_inum x =? inum)) eqn:E.
    + apply andb_prop in E as [[E1%Z.ltb_lt E2%Z.eqb_eq]%andb_prop E3%Z.eqb_eq]. left. exists 0%nat, x.
      split; [done|]. split; [done|]. split; [done|]. split; [done|]. f_equal. lia.
    + assert (0 < i_ref x -> i_dev x = dev -> i_inum x <> inum) as Hx.
      { intros H1 H2 H3. rewrite (proj2 (Z.ltb_lt _ _) H1), H2, H3, !Z.eqb_refl in E. done. }
      set (e' := match e with None => _ | Some _ => _ end).
      destruct (IH (k + 1) e') as [(n & i & Hn & H1 & H2 & H3 & H4)|[Hno He]].
      * left. exists (S n), i. split; [done|]. split; [done|]. split; [done|]. split; [done|]. rewrite H4. f_equal. lia.
      * right. split; [intros [|n] i Hn; [by injection Hn as <- | by eapply Hno]|].
        destruct e as [y|]; [done|]. unfold e' in *. destruct (Z.eqb_spec (i_ref x) 0) as [Ez|Hnz].
        { left. exists 0%nat, x. split; [done|]. split; [done|]. rewrite He. do 2 f_equal. lia. }
        destruct He as [(n & i & Hn & H1 & H2)|[Hall He]].
        { left. exists (S n), i. split; [done|]. split; [done|]. rewrite H2. do 2 f_equal. lia. }
        { right. split; [|done]. intros [|n] i Hn; [by injection Hn as <- | by eapply Hall]. }
Qed.

(** [iget] references the entry of the inode, or a fresh one; it panics only if
    all the entries are in use. *)
Lemma iget_ok f inum :
  cache_ok f -> live sb (sect (disk f)) inum -> (exists n i, icache f !! n = Some i /\ i_ref i = 0) ->
  (forall n i, icache f !! n = Some i -> i_ref i < 2 ^ 31 - 2) ->
  exists ip i j, iget f ROOTDEV inum = Ok (with_entry f ip j, ip) /\ at_ptr f ip i /\ cache_ok (with_entry f ip j) /\
    i_dev j = ROOTDEV /\ i_inum j = inum /\ i_ref j = i_ref i + 1 /\
    (0 < i_ref i -> core j = core i /\ i_flags j = i_flags i) /\ (i_ref i = 0 -> locked j = false /\ valid j = false) /\
    (i_ref i = 0 -> forall n m, icache f !! n = Some m -> 0 < i_ref m -> i_inum m <> inum).
Proof.
  intros Hok Hlive (n0 & i0 & Hn0 & Hr0) Hmax. unfold iget.
  destruct (iget_scan_spec (icache f) 0 ROOTDEV inum None) as [(n & i & Hn & H1 & H2 & H3 & ->)|[Hno Hfree]].
  - assert (at_ptr f (Z.of_nat n) i) as Hat by (split; [lia | by rewrite Nat2Z.id]).
    destruct (c_entry _ Hok n i Hn) as [E1 E2 E3 E4].
    rewrite Z.add_0_l, (upd_inode_at _ _ _ _ Hat). cbn [rbind].
    assert (s32 (i_ref i + 1) = i_ref i + 1) as Es by (apply s32_small; specialize (Hmax n i Hn); lia). rewrite Es.
    exists (Z.of_nat n), i, (set_ref (i_ref i + 1) i). split; [done|]. split; [done|]. split.
    + apply (cache_update f _ i); [done | done | | intros _; left; done].
      split; [specialize (Hmax n i Hn); cbn; lia | exact E2 | intros _; by apply E3 | intros _ Hv; by apply E4].
    + split; [done|]. split; [done|]. split; [done|]. split; [done|]. split; lia.
  - destruct Hfree as [(n & i & Hn & Hz & ->)|[Hall _]]; [|by destruct (Hall n0 i0)].
    assert (at_ptr f (Z.of_nat n) i) as Hat by (split; [lia | by rewrite Nat2Z.id]).
    rewrite Z.add_0_l, (upd_inode_at _ _ _ _ Hat). cbn [rbind].
    assert (forall m j, icache f !! m = Some j -> 0 < i_ref j -> i_inum j <> inum) as Hnone.
    { intros m j Hm Hr. destruct (c_entry _ Hok m j Hm) as [_ _ E3 _]. apply (Hno m j); [done | done | by apply E3]. }
    eexists (Z.of_nat n), i, _. split; [done|]. split; [done|]. split.
    + apply (cache_update f _ i); [done | done | | intros _; right; cbn; done].
      split; cbn; [lia | done | done | done].
    + split; [done|]. split; [done|]. split; [cbn; lia|]. split; [lia|]. split; [done|]. done.
Qed.

(** * [idup], [ilock] and [iunlock] *)

Lemma idup_ok f ip i :
  cache_ok f -> at_ptr f ip i -> 0 < i_ref i < 2 ^ 31 - 2 ->
  idup f ip = Ok (with_entry f ip (set_ref (i_ref i + 1) i)) /\ cache_ok (with_entry f ip (set_ref (i_ref i + 1) i)).
Proof.
  intros Hok Hat Hr. pose proof (c_entry _ Hok _ _ (proj2 Hat)) as [E1 E2 E3 E4]. unfold idup. rewrite (upd_inode_at _ _ _ _ Hat).
  rewrite s32_small by lia. split; [done|]. apply (cache_update f _ i); [done | done | | intros _; left; split; [lia | done]].
  split; [cbn; lia | exact E2 | intros _; apply E3; lia | intros _ Hv; apply E4; [lia | done]].
Qed.

(** A locked entry is the inode of the disk, open for reading and writing. *)
Lemma ilock_ok f ip i :
  cache_ok f -> at_ptr f ip i -> 0 < i_ref i -> locked i = false ->
  exists j, ilock f ip = Ok (with_entry f ip j) /\ cache_ok (with_entry f ip j) /\ open_node sb (disk f) j /\
    locked j = true /\ valid j = true /\ i_ref j = i_ref i /\ i_inum j = i_inum i /\ (valid i = true -> core j = core i).
Proof.
  intros Hok Hat Hr Hl. pose proof (c_entry _ Hok _ _ (proj2 Hat)) as [E1 E2 E3 E4]. destruct (E3 Hr) as [Hdev Hlive].
  unfold ilock. rewrite (at_ptr_get _ _ _ Hat). cbn [rbind]. rewrite (proj2 (Z.ltb_ge _ _)) by lia.
  change (has_flag i I_BUSY) with (locked i). rewrite Hl. rewrite E2, Hl, flags_set_busy.
  change (has_flag ?x I_VALID) with (valid x). rewrite valid_flags. destruct (valid i) eqn:Hv; cbn [negb].
  - exists (set_flags (flags_of true true) i). rewrite (at_ptr_put _ _ _ _ Hat). cbn [rbind]. split; [done|]. split.
    + apply (cache_update f _ i); [done | done | | intros _; left; done]. split; [done | by rewrite locked_flags, valid_flags | done|].
      intros _ _. by apply E4.
    + split; [split; [apply Hok|]; split; [done|]; by apply E4|]. rewrite locked_flags, valid_flags. done.
  - destruct (iload_ok sb (disk f) (set_flags (flags_of true false) i)) as (j & -> & Ej1 & Ej2 & Ej3);
      [apply Hok | apply Hok | done | apply Hlive|]. cbn [rbind]. cbn in Ej1, Ej2, Ej3.
    rewrite Ej2. change 1 with (flags_of true false). rewrite flags_set_valid.
    assert (i_type j = i_type (dnode (sect (disk f)) (i_inum i))) as Et by by rewrite <- Ej3.
    cbn [i_type set_flags]. rewrite Et, (proj2 (Z.eqb_neq _ _) (proj2 Hlive)). rewrite (at_ptr_put _ _ _ _ Hat). cbn [rbind].
    assert (i_inum j = i_inum i) as En by (change (i_inum (core j) = i_inum i); by rewrite Ej3).
    assert (i_dev j = ROOTDEV) as Ed by (change (i_dev (core j) = ROOTDEV); by rewrite Ej3).
    assert (synced (sect (disk f)) (set_flags (flags_of true true) j)) as Hs by (unfold synced; cbn [i_inum set_flags]; rewrite En; exact Ej3).
    eexists. split; [done|]. split.
    + apply (cache_update f _ i); [done | done | | intros _; left; done].
      split; [cbn; lia | by rewrite locked_flags, valid_flags | intros _; cbn; by rewrite En | done].
    + split; [split; [apply Hok|]; split; [cbn; by rewrite En | done]|]. rewrite locked_flags, valid_flags. done.
Qed.

Lemma iunlock_ok f ip i :
  cache_ok f -> at_ptr f ip i -> 0 < i_ref i -> locked i = true ->
  let j := set_flags (flags_of false (valid i)) i in
  iunlock f ip = Ok (with_entry f ip j) /\ cache_ok (with_entry f ip j).
Proof.
  intros Hok Hat Hr Hl j. pose proof (c_entry _ Hok _ _ (proj2 Hat)) as [E1 E2 E3 E4].
  unfold iunlock. rewrite (at_ptr_get _ _ _ Hat). cbn [rbind]. change (has_flag i I_BUSY) with (locked i). rewrite Hl, (proj2 (Z.ltb_ge _ _)) by lia.
  cbn [negb orb]. rewrite (upd_inode_at _ _ _ _ Hat). rewrite E2, flags_clear_busy. split; [done|].
  apply (cache_update f _ i); [done | done | | intros _; left; done].
  split; [done | unfold j; by rewrite locked_flags, valid_flags | done|]. unfold j. rewrite valid_flags. done.
Qed.

(** * [iput] *)

Lemma iput_keep f ip i :
  cache_ok f -> at_ptr f ip i -> 0 < i_ref i -> i_ref i <> 1 \/ valid i = false \/ i_nlink i <> 0 ->
  iput f ip = Ok (with_entry f ip (set_ref (i_ref i - 1) i)) /\ cache_ok (with_entry f ip (set_ref (i_ref i - 1) i)).
Proof.
  intros Hok Hat Hr Hc. pose proof (c_entry _ Hok _ _ (proj2 Hat)) as [E1 E2 E3 E4]. unfold iput.
  rewrite (at_ptr_get _ _ _ Hat). cbn [rbind]. change (has_flag i I_VALID) with (valid i).
  assert ((i_ref i =? 1) && valid i && (i_nlink i =? 0) = false) as ->.
  { destruct Hc as [H|[H|H]].
    - by rewrite (proj2 (Z.eqb_neq _ _) H).
    - rewrite H. by rewrite andb_false_r.
    - rewrite (proj2 (Z.eqb_neq _ _) H). by rewrite andb_false_r. }
  cbn [rbind]. rewrite (upd_inode_at _ _ _ _ Hat). split; [done|]. apply (cache_update f _ i); [done | done | | intros _; left; done].
  split; [cbn; lia | exact E2 | intros _; by apply E3 | intros _; by apply E4].
Qed.

(** The last reference to an inode without links: the inode and its blocks are
    free, and the entry is. *)
Lemma iput_free f ip i Y k :
  cache_ok f -> at_ptr f ip i -> i_ref i = 1 -> valid i = true -> locked i = false -> i_nlink i = 0 ->
  room (disk f) Y k -> bitmaps sb ⊆ Y -> IBLOCK (i_inum i) ∈ Y ->
  exists f' j, iput f ip = Ok f' /\ cache_ok f' /\ icache f' = <[Z.to_nat ip := j]> (icache f) /\ i_ref j = 0 /\
    room (disk f') Y k /\ home (disk f') = home (disk f) /\ others_same sb (sect (disk f)) (sect (disk f')) (i_inum i) /\
    ~ live sb (sect (disk f')) (i_inum i) /\ (forall b, owned (sect (disk f)) i b -> bit sb (sect (disk f')) b = false).
Proof.
  intros Hok Hat Hr Hv Hl Hn Hroom HY HI. pose proof (c_entry _ Hok _ _ (proj2 Hat)) as [E1 E2 E3 E4].
  destruct (E3 ltac:(lia)) as [Hdev Hlive]. unfold iput. rewrite (at_ptr_get _ _ _ Hat). cbn [rbind].
  change (has_flag i I_VALID) with (valid i). change (has_flag i I_BUSY) with (locked i). rewrite Hr, Hv, Hn, Hl, !Z.eqb_refl. cbn [andb].
  rewrite E2, Hl, Hv, flags_set_busy. set (i1 := set_flags (flags_of true true) i).
  assert (open_node sb (disk f) i1) as Ho by (split; [apply Hok|]; split; [exact Hlive | apply E4; [lia | done]]).
  destruct (free_inode_ok sb (disk f) i1 Y k Ho Hroom HY HI) as (d1 & d2 & -> & E & Hok2 & Hr2 & Hh2 & Hoth & Hdn & Hfree).
  cbn [rbind]. rewrite E. cbn [rbind]. rewrite (at_ptr_put _ _ _ _ Hat). cbn [rbind].
  set (j := set_flags 0 _). set (f2 := mk_fs d2 (<[Z.to_nat ip := j]> (icache f))).
  assert (at_ptr f2 ip j) as Hat2.
  { destruct Hat as [H1 H2]. split; [done|]. cbn. apply list_lookup_insert_eq. by eapply lookup_lt_Some. }
  rewrite (upd_inode_at _ _ _ _ Hat2). eexists _, (set_ref (i_ref j - 1) j). split; [done|].
  assert (icache (with_entry f2 ip (set_ref (i_ref j - 1) j)) = <[Z.to_nat ip := set_ref (i_ref j - 1) j]> (icache f)) as Ei
    by (cbn; by rewrite list_insert_insert_eq).
  assert (i_ref j - 1 = 0) as Ej by (unfold j, i1; cbn; lia).
  assert (forall x, 0 < i_ref x -> i_inum x <> i_inum i -> entry_ok (sect (disk f)) x -> entry_ok (sect d2) x) as Hkeep.
  { intros x Hx Hne [X1 X2 X3 X4]. destruct (X3 Hx) as [Hxd [Hxi Hxt]]. destruct (Hoth (i_inum x) Hxi Hne) as [En _].
    split; [done | done | |].
    - intros _. split; [done|]. split; [done | by rewrite En].
    - intros _ Hvx. unfold synced. rewrite En. by apply X4. }
  split; [split|].
  - done.
  - rewrite Ei, zlen_insert. apply Hok.
  - intros n x. rewrite Ei. intros Hx. cbn [disk with_entry f2]. apply list_lookup_insert_Some in Hx as [(<- & <- & _)|[Hne Hx]].
    { split; cbn [i_ref set_ref]; rewrite Ej; [lia | done | lia | lia]. }
    pose proof (c_entry _ Hok n x Hx) as Hex. destruct (Z.le_gt_cases (i_ref x) 0).
    { destruct Hex as [X1 X2 X3 X4]. split; [done | done | lia | lia]. }
    apply Hkeep; [lia | | done]. intros En. apply Hne. apply (c_uniq _ Hok (Z.to_nat ip) n i x); [apply Hat | done | lia | lia | done].
  - intros n m x y. rewrite Ei. intros Hx Hy. apply list_lookup_insert_Some in Hx as [(<- & <- & _)|[Hn1 Hx]]; [cbn [i_ref set_ref]; lia|].
    apply list_lookup_insert_Some in Hy as [(<- & <- & _)|[Hn2 Hy]]; [cbn [i_ref set_ref]; lia|]. by apply (c_uniq _ Hok).
  - split; [done|]. split; [done|]. split; [done|]. split; [done|]. split; [done|]. split; [|done].
    intros [_ Ht]. apply Ht. cbn [disk with_entry f2]. change (i_inum i) with (i_inum i1). by rewrite Hdn.
Qed.
End Cache.
