(* ===== verification/FsDir.v ===== *)
(** Directories: [dirlookup] and [dirlink] against the list of entries that the
    content of a directory stands for, and [ialloc]. *)
From stdpp Require Import gmap sets list_numbers.
From S2P Require Import Prelude Ulib Sys Fs FsBlock FsBmap FsRw FsDisk FsOps Inode FsTrunc FsCache.
Open Scope Z_scope.

#[local] Ltac Zify.zify_post_hook ::= Z.to_euclidean_division_equations.

(** * Names *)

(** The cells [b] hold the name [s]: NUL-terminated, or all [DIRSIZ] cells. *)
Definition is_name (b s : bytes) : Prop :=
  Forall is_char s /\ ((zlen s < DIRSIZ /\ exists rest, b = s ++ 0 :: rest) \/ (zlen s = DIRSIZ /\ exists rest, b = s ++ rest)).

Definition name_of (b : bytes) : bytes := cstr (take 14 b).

Lemma strncmp_names_loop n s t p q :
  Forall is_char s -> Forall is_char t ->
  (length s < n)%nat /\ (exists r, p = s ++ 0 :: r) \/ length s = n /\ (exists r, p = s ++ r) ->
  (length t < n)%nat /\ (exists r, q = t ++ 0 :: r) \/ length t = n /\ (exists r, q = t ++ r) ->
  exists z, Kstring.strncmp_loop n p q = Ok z /\ (z = 0 <-> s = t).
Proof.
  intros Hs. revert n t p q. induction Hs as [|a s Ha Hs IH]; intros n t p q Ht Hp Hq.
  - destruct Hp as [[Hn [r ->]]|[<- _]].
    + destruct n as [|n]; [cbn in Hn; lia|]. cbn. destruct Hq as [[Hl [r' ->]]|[Hl [r' ->]]]; destruct t as [|b t]; cbn in *; try lia.
      * eexists. split; [done|]. done.
      * apply Forall_cons in Ht as [Hb _]. unfold is_char in Hb. eexists. split; [done|]. rewrite !u8_small by lia. split; [lia | done].
      * apply Forall_cons in Ht as [Hb _]. unfold is_char in Hb. eexists. split; [done|]. rewrite !u8_small by lia. split; [lia | done].
    + cbn in Hq. destruct t as [|b t]; [|destruct Hq as [[]|[]]; cbn in *; lia]. cbn. by exists 0.
  - destruct n as [|n]; [destruct Hp as [[]|[]]; cbn in *; lia|].
    assert (exists p', p = a :: p' /\ ((length s < n)%nat /\ (exists r, p' = s ++ 0 :: r) \/ length s = n /\ (exists r, p' = s ++ r)))
      as (p' & -> & Hp').
    { destruct Hp as [[H1 [r ->]]|[H1 [r ->]]]; (eexists; split; [done|]); [left | right]; (split; [cbn in H1; lia | eauto]). }
    unfold is_char in Ha. destruct t as [|b t].
    + destruct Hq as [[_ [r ->]]|[Hl _]]; [|cbn in Hl; lia]. cbn. rewrite (proj2 (Z.eqb_neq a 0)) by lia. cbn.
      eexists. split; [done|]. rewrite !u8_small by lia. split; [lia | done].
    + apply Forall_cons in Ht as [Hb Ht]. unfold is_char in Hb.
      assert (exists q', q = b :: q' /\ ((length t < n)%nat /\ (exists r, q' = t ++ 0 :: r) \/ length t = n /\ (exists r, q' = t ++ r)))
        as (q' & -> & Hq').
      { destruct Hq as [[H1 [r ->]]|[H1 [r ->]]]; (eexists; split; [done|]); [left | right]; (split; [cbn in H1; lia | eauto]). }
      cbn [Kstring.strncmp_loop]. rewrite (proj2 (Z.eqb_neq a 0)) by lia. cbn [negb andb]. destruct (Z.eqb_spec a b) as [->|Hne].
      * destruct (IH n t p' q' Ht Hp' Hq') as (z & -> & Hz). exists z. split; [done|]. rewrite Hz. split; [by intros -> | by intros [=]].
      * eexists. split; [done|]. rewrite !u8_small by lia. split; [lia|]. intros [=]. done.
Qed.

Lemma namecmp_spec p q s t : is_name p s -> is_name q t -> exists z, namecmp p q = Ok z /\ (z = 0 <-> s = t).
Proof.
  intros [Hs Hp] [Ht Hq]. apply strncmp_names_loop; [done | done | |]; change (Z.to_nat DIRSIZ) with 14%nat; change DIRSIZ with 14 in *.
  - destruct Hp as [[]|[]]; [left | right]; (split; [lia | done]).
  - destruct Hq as [[]|[]]; [left | right]; (split; [lia | done]).
Qed.

Lemma cstr_chars b : Forall (fun x => 0 <= x < 256) b -> Forall is_char (cstr b).
Proof.
  induction 1 as [|x b Hx Hb IH]; cbn; [constructor|]. destruct (Z.eqb_spec x 0); [constructor|]. constructor; [unfold is_char; lia | done].
Qed.

Lemma cstr_cases b : cstr b = b \/ exists r, b = cstr b ++ 0 :: r.
Proof.
  induction b as [|x b IH]; cbn; [by left|]. destruct (Z.eqb_spec x 0) as [->|]; [right; by exists b|].
  destruct IH as [->|[r E]]; [by left|]. right. exists r. cbn. by rewrite <- E.
Qed.

Lemma name_of_is_name b : zlen b = DIRSIZ -> Forall byte_ok b -> is_name b (name_of b).
Proof.
  intros Hl Hb. unfold name_of. rewrite take_ge by (unfold DIRSIZ in Hl; lia). split; [by apply cstr_chars|].
  destruct (cstr_cases b) as [E|[r E]].
  - right. rewrite E. split; [done|]. exists []. by rewrite app_nil_r.
  - left. split; [|by exists r]. apply (f_equal length) in E. rewrite length_app in E. cbn in E. lia.
Qed.

Lemma is_name_inj b s t : is_name b s -> is_name b t -> s = t.
Proof. intros Hs Ht. destruct (namecmp_spec b b s t Hs Ht) as (z & E & H). destruct (namecmp_spec b b s s Hs Hs) as (z' & E' & H').
  apply H. rewrite E in E'. injection E' as ->. by apply H'. Qed.

Ltac dconsts := change sizeof_dirent with 16 in *; change DIRSIZ with 14 in *; consts.

(** * The entries of a directory *)

Definition nents (c : bytes) : Z := zlen c / sizeof_dirent.

(** Entry [k]: the inode number, 0 for an empty entry, and the name. *)
Definition ent (c : bytes) (k : Z) : Z * bytes :=
  (w16 c (sizeof_dirent * k), name_of (slice c (sizeof_dirent * k + 2) DIRSIZ)).

Definition dir_entries (c : bytes) : list (Z * bytes) := ent c <$> seqZ 0 (nents c).

(** The first entry in use with the name. *)
Definition is_hit (name : bytes) (e : Z * bytes) : bool := negb (e.1 =? 0) && bool_decide (e.2 = name).

Fixpoint find_ent (name : bytes) (l : list (Z * bytes)) (k : Z) : option (Z * Z) :=
  match l with
  | [] => None
  | e :: l' => if is_hit name e then Some (e.1, k) else find_ent name l' (k + 1)
  end.

Definition dir_find (name c : bytes) : option (Z * Z) := find_ent name (dir_entries c) 0.

(** A directory holds whole entries. *)
Definition dir_ok (c : bytes) : Prop := zlen c mod sizeof_dirent = 0.

Lemma find_ent_seq c name k n :
  0 <= n -> find_ent name (ent c <$> seqZ k n) k =
    if 0 <? n then if is_hit name (ent c k) then Some ((ent c k).1, k) else find_ent name (ent c <$> seqZ (k + 1) (n - 1)) (k + 1) else None.
Proof.
  intros Hn. destruct (Z.ltb_spec 0 n).
  - rewrite seqZ_cons by lia. cbn [fmap list_fmap find_ent]. by replace (Z.succ k) with (k + 1) by lia.
  - by replace n with 0 by lia.
Qed.

Lemma find_ent_app name l1 l2 k :
  find_ent name (l1 ++ l2) k = match find_ent name l1 k with Some r => Some r | None => find_ent name l2 (k + zlen l1) end.
Proof.
  revert k. induction l1 as [|e l1 IH]; intros k; cbn [app find_ent]; [f_equal; llia|]. destruct (is_hit name e); [done|].
  rewrite IH. by replace (k + 1 + zlen l1) with (k + zlen (e :: l1)) by llia.
Qed.

Lemma find_ent_none name l k : find_ent name l k = None <-> Forall (fun e => is_hit name e = false) l.
Proof.
  revert k. induction l as [|e l IH]; intros k; cbn [find_ent]; [by split|]. rewrite Forall_cons.
  destruct (is_hit name e); [by split; [|intros []]|]. rewrite IH. by split; [|intros []].
Qed.

(** The first empty entry, or the position after the last one. *)
Fixpoint free_ent (l : list (Z * bytes)) (k : Z) : Z :=
  match l with
  | [] => k
  | e :: l' => if e.1 =? 0 then k else free_ent l' (k + 1)
  end.

Definition dir_slot (c : bytes) : Z := free_ent (dir_entries c) 0.

Lemma free_ent_split l k :
  exists l1 l2, l = l1 ++ l2 /\ free_ent l k = k + zlen l1 /\ (l2 = [] \/ exists e l3, l2 = e :: l3 /\ e.1 = 0).
Proof.
  revert k. induction l as [|e l IH]; intros k; cbn [free_ent].
  - exists [], []. split; [done|]. split; [llia | by left].
  - destruct (Z.eqb_spec e.1 0); [exists [], (e :: l); split; [done|]; split; [llia | right; eauto]|].
    destruct (IH (k + 1)) as (l1 & l2 & -> & -> & H). exists (e :: l1), l2. split; [done|]. split; [llia | done].
Qed.

(** Putting an entry in use at the free position adds its name, and only it. *)
Lemma find_ent_put l x s k :
  x <> 0 -> find_ent s l k = None ->
  let l' := take (Z.to_nat (free_ent l k - k)) l ++ (x, s) :: drop (S (Z.to_nat (free_ent l k - k))) l in
  find_ent s l' k = Some (x, free_ent l k) /\ (forall t, t <> s -> find_ent t l' k = find_ent t l k).
Proof.
  intros Hx. destruct (free_ent_split l k) as (l1 & l2 & -> & -> & H2). intros Hnone.
  replace (Z.to_nat (k + zlen l1 - k)) with (length l1) by lia. cbn zeta.
  rewrite take_app_length, drop_app_ge by lia. replace (S (length l1) - length l1)%nat with 1%nat by lia.
  rewrite find_ent_app in Hnone. destruct (find_ent s l1 k) eqn:E1; [done|].
  assert (forall t, is_hit t (x, s) = bool_decide (s = t)) as Hh by (intros t; unfold is_hit; cbn; by rewrite (proj2 (Z.eqb_neq x 0) Hx)).
  split.
  - rewrite find_ent_app, E1. cbn [find_ent]. by rewrite Hh, bool_decide_true.
  - intros t Ht. rewrite !find_ent_app. destruct (find_ent t l1 k); [done|]. cbn [find_ent]. rewrite Hh, bool_decide_false by done.
    destruct H2 as [->|(e & l3 & -> & He)]; [done|]. cbn. unfold is_hit. by rewrite He.
Qed.

Section Dir.
Context {D : Type} `{!BlockDev D} `{!BlockLaws D} `{!Devsw D}.
Context (sb : superblock).
Implicit Types (f : Inode.fs D) (i : inode).

(** A directory that is locked by the caller. *)
Record open_dir f (dp : Z) i : Prop := {
  od_at : at_ptr f dp i;
  od_node : open_node sb (disk f) i;
  od_type : i_type i = T_DIR;
  od_dir : dir_ok (content (sect (disk f)) i);
}.

Lemma dir_size f dp i : open_dir f dp i -> zlen (content (sect (disk f)) i) = i_size i /\ 0 <= i_size i <= MAXFILE * BSIZE.
Proof.
  intros [H1 H2 H3 H4]. destruct (open_file sb _ _ H2) as (_ & [Hs _] & _). split; [apply content_len; lia | done].
Qed.

Lemma content_bytes d i : open_node sb d i -> Forall byte_ok (content (sect d) i).
Proof.
  intros Ho. destruct (open_file sb _ _ Ho) as ((Hg & _ & Hm) & [Hs Hc] & _). apply Forall_fmap, Forall_forall.
  intros k Hk. apply elem_of_seqZ in Hk. unfold fbyte. apply byte_range.
  assert (0 <= k / BSIZE < MAXFILE) as Hq by (consts; lia). destruct (bslot_range _ Hq) as [Hb _].
  pose proof (mapped_pos sb _ (proj1 Hg) _ _ _ Hm Hb (Hc k ltac:(lia))) as (P & _).
  apply (sect_block d); [apply Ho | unfold blk; lia].
Qed.

Lemma read_dirent_ok f dp i k :
  open_dir f dp i -> 0 <= k < nents (content (sect (disk f)) i) ->
  exists dname, read_dirent f dp (sizeof_dirent * k) = Ok (f, ((ent (content (sect (disk f)) i) k).1, dname)) /\
    is_name dname (ent (content (sect (disk f)) i) k).2.
Proof.
  intros Hd Hk. destruct (dir_size _ _ _ Hd) as [Hl Hs]. pose proof Hd as [H1 H2 H3 H4]. set (c := content (sect (disk f)) i) in *.
  unfold nents in Hk. dconsts. unfold read_dirent, on_inode. rewrite (at_ptr_get _ _ _ H1). cbn [rbind].
  rewrite (readi_ok sb) by (try done; try (rewrite H3; done); dconsts; lia). fold c. cbn [rbind].
  rewrite (at_ptr_put _ _ _ _ H1). cbn [rbind]. rewrite list_insert_id by apply H1.
  dconsts. rewrite Z.min_l by lia. change (negb (16 =? 16)) with false. cbv iota.
  pose proof (slice_len c (16 * k) 16 ltac:(lia) ltac:(lia) ltac:(lia)) as Hsl.
  rewrite rd16_ok by lia. cbn [rbind]. exists (drop 2 (slice c (16 * k) 16)). split.
  - do 3 f_equal; [by destruct f|]. unfold ent. cbn [fst]. unfold w16, byte. dconsts.
    rewrite !nth_lookup. rewrite !slice_lookup by lia. rewrite Z.add_0_r. done.
  - assert (drop 2 (slice c (16 * k) 16) = slice c (16 * k + 2) 14) as ->.
    { unfold slice. change (Z.to_nat 16) with (2 + 14)%nat. rewrite <- take_drop_commute, drop_drop. f_equal. f_equal. lia. }
    unfold ent. cbn [snd]. apply name_of_is_name.
    + apply slice_len; dconsts; lia.
    + apply Forall_take, Forall_drop. by apply content_bytes.
Qed.

(** [dirlookup] finds the first entry with the name, and references its inode. *)
Lemma dirlookup_loop_ok n f dp i name s k :
  open_dir f dp i -> is_name name s -> 0 <= k <= nents (content (sect (disk f)) i) -> (Z.to_nat (nents (content (sect (disk f)) i) - k) < n)%nat ->
  dirlookup_loop n f dp name (sizeof_dirent * k) =
    match find_ent s (ent (content (sect (disk f)) i) <$> seqZ k (nents (content (sect (disk f)) i) - k)) k with
    | None => Ok (f, None)
    | Some (inum, m) => let! '(f, ip) := iget f ROOTDEV inum in Ok (f, Some (ip, sizeof_dirent * m))
    end.
Proof.
  intros Hd Hname. destruct (dir_size _ _ _ Hd) as [Hl Hs]. pose proof Hd as [H1 H2 H3 H4].
  set (c := content (sect (disk f)) i) in *. unfold dir_ok in H4.
  revert k. induction n as [|n IH]; intros k Hk Hn; [lia|]. cbn [dirlookup_loop]. rewrite (at_ptr_get _ _ _ H1). cbn [rbind].
  rewrite find_ent_seq by lia. destruct (Z.ltb_spec 0 (nents c - k)) as [Hlt|Hge].
  - assert (sizeof_dirent * k < i_size i) as Hin by (unfold nents in *; dconsts; lia).
    rewrite (proj2 (Z.ltb_lt _ _) Hin). destruct (read_dirent_ok f dp i k Hd) as (dname & -> & Hdn); [fold c; lia|]. fold c in Hdn |- *. cbn [rbind].
    assert (u32 (sizeof_dirent * k + sizeof_dirent) = sizeof_dirent * (k + 1)) as Eoff by (rewrite u32_small; dconsts; lia).
    unfold is_hit. destruct (Z.eqb_spec (ent c k).1 0) as [Ez|Hnz]; cbn [negb andb].
    + rewrite Eoff, IH by lia. by replace (nents c - (k + 1)) with (nents c - k - 1) by lia.
    + destruct (namecmp_spec _ _ _ _ Hname Hdn) as (z & -> & Hz). cbn [rbind].
      destruct (bool_decide_reflect ((ent c k).2 = s)) as [<-|Hne].
      * rewrite (proj2 (Z.eqb_eq z 0) (proj2 Hz eq_refl)). rewrite (at_ptr_get _ _ _ H1). cbn [rbind].
        destruct (open_file sb _ _ H2) as ((_ & _ & Hm) & _). by rewrite (m_dev _ _ _ _ Hm).
      * rewrite (proj2 (Z.eqb_neq z 0)) by (intros E; by apply Hne; symmetry; apply Hz).
        rewrite Eoff, IH by lia. by replace (nents c - (k + 1)) with (nents c - k - 1) by lia.
  - rewrite (proj2 (Z.ltb_ge _ _)); [done|]. unfold nents in *. dconsts. lia.
Qed.

Lemma dirlookup_ok f dp i name s :
  open_dir f dp i -> is_name name s ->
  dirlookup f dp name =
    match dir_find s (content (sect (disk f)) i) with
    | None => Ok (f, None)
    | Some (inum, m) => let! '(f, ip) := iget f ROOTDEV inum in Ok (f, Some (ip, sizeof_dirent * m))
    end.
Proof.
  intros Hd Hname. destruct (dir_size _ _ _ Hd) as [Hl Hs]. pose proof Hd as [H1 H2 H3 H4]. unfold dirlookup.
  rewrite (at_ptr_get _ _ _ H1). cbn [rbind]. rewrite H3. change (negb (T_DIR =? T_DIR)) with false. cbv iota.
  change 0 with (sizeof_dirent * 0) at 1. unfold dir_find, dir_entries.
  assert (nents (content (sect (disk f)) i) = i_size i / sizeof_dirent) as En by (unfold nents; by rewrite Hl).
  rewrite (dirlookup_loop_ok _ f dp i name s 0); [by rewrite Z.sub_0_r | done | done | rewrite En; dconsts; lia | rewrite En; dconsts; lia].
Qed.

(** * Writing an entry *)

(** The cache after the inode of one entry, and its blocks, have changed. *)
Lemma cache_disk f ip i d' i' :
  cache_ok sb f -> at_ptr f ip i -> 0 < i_ref i -> fs_ok sb d' -> others_same sb (sect (disk f)) (sect d') (i_inum i) ->
  entry_ok sb (sect d') i' -> i_inum i' = i_inum i -> 0 < i_ref i' ->
  cache_ok sb (mk_fs d' (<[Z.to_nat ip := i']> (icache f))).
Proof.
  intros Hok [Hp Hi] Hr Hok' Hoth He En Hr'. split; cbn [disk icache]; [done | rewrite zlen_insert; apply Hok | |].
  - intros n x Hx. apply list_lookup_insert_Some in Hx as [(<- & <- & _)|[Hne Hx]]; [done|].
    destruct (c_entry _ _ Hok n x Hx) as [X1 X2 X3 X4]. split; [done | done | |].
    + intros Hxr. destruct (X3 Hxr) as [Hd [Hxi Hxt]]. split; [done|]. split; [done|].
      destruct (Hoth (i_inum x) Hxi) as [-> _]; [|done]. intros E. apply Hne. by apply (c_uniq _ _ Hok (Z.to_nat ip) n i x).
    + intros Hxr Hv. destruct (X3 Hxr) as [Hd [Hxi Hxt]]. unfold synced. destruct (Hoth (i_inum x) Hxi) as [-> _]; [|by apply X4].
      intros E. apply Hne. by apply (c_uniq _ _ Hok (Z.to_nat ip) n i x).
  - intros n m x y Hx Hy. apply list_lookup_insert_Some in Hx as [(<- & <- & _)|[Hn1 Hx]], Hy as [(<- & <- & _)|[Hn2 Hy]]; [done | | |].
    + rewrite En. intros _ R E. by apply (c_uniq _ _ Hok (Z.to_nat ip) m i y).
    + rewrite En. intros R _ E. by apply (c_uniq _ _ Hok n (Z.to_nat ip) x i).
    + by apply (c_uniq _ _ Hok).
Qed.

(** [writei] through a pointer to an entry that its caller has locked. *)
Lemma write_at f ip i src off n Y k e :
  cache_ok sb f -> at_ptr f ip i -> 0 < i_ref i -> valid i = true -> i_type i <> T_DEV ->
  0 <= off <= i_size i -> 0 <= n <= zlen src -> off + n <= MAXFILE * BSIZE -> Forall byte_ok src ->
  room (disk f) Y (wneed off n + k) -> bitmaps sb ⊆ Y -> IBLOCK (i_inum i) ∈ Y ->
  (wneed off n + e <= size (free sb (home (disk f)) (sect (disk f))))%nat ->
  exists d' i' Y', on_inode f ip (fun d i => writei d i src off n) = Ok (mk_fs d' (<[Z.to_nat ip := i']> (icache f)), n) /\
    cache_ok sb (mk_fs d' (<[Z.to_nat ip := i']> (icache f))) /\ open_node sb d' i' /\ written i i' off n /\
    room d' Y' k /\ Y ⊆ Y' /\ home d' = home (disk f) /\
    content (sect d') i' = splice (content (sect (disk f)) i) off (take (Z.to_nat n) src) /\
    others_same sb (sect (disk f)) (sect d') (i_inum i) /\ (e <= size (free sb (home d') (sect d')))%nat.
Proof.
  intros Hok Hat Hr Hv Ht Hoff Hn Hmax HF Hroom HY HI Hfree. pose proof (c_entry _ _ Hok _ _ (proj2 Hat)) as [E1 E2 E3 E4].
  destruct (E3 Hr) as [Hdev Hlive]. assert (open_node sb (disk f) i) as Ho by (split; [apply Hok|]; split; [done | by apply E4]).
  destruct (writei_spare sb (disk f) i src off n Y k e) as (d' & i' & Y' & E & Ho' & Hr' & HY' & Hh & Hw & Hc & Hoth & He); [done..|].
  unfold on_inode. rewrite (at_ptr_get _ _ _ Hat). cbn [rbind]. rewrite E. cbn [rbind]. rewrite (at_ptr_put _ _ _ _ Hat). cbn [rbind].
  exists d', i', Y'. split; [done|]. split; [|done].
  assert (i_inum i' = i_inum i) as En by by rewrite Hw. assert (i_ref i' = i_ref i) as Er by by rewrite Hw.
  assert (i_flags i' = i_flags i) as Ef by by rewrite Hw.
  apply (cache_disk f ip i); [done | done | done | apply Ho' | done | | done | lia].
  destruct Ho' as (_ & Hl' & Hs'). split; [by rewrite Er | | |].
  - unfold locked, valid, has_flag. rewrite Ef. exact E2.
  - intros _. split; [by rewrite Hw | done].
  - done.
Qed.

(** [strncpy] of a name fills the cells of an entry. *)
Lemma strncpy_loop_name n done old t s :
  Forall is_char s -> length old = n ->
  (length s < n)%nat /\ (exists r, t = s ++ 0 :: r) \/ length s = n /\ (exists r, t = s ++ r) ->
  Kstring.strncpy_loop (done ++ old) (zlen done) t n = Ok (done ++ s ++ replicate (n - length s) 0).
Proof.
  intros Hs. revert n done old t. induction Hs as [|x s Hx Hs IH]; intros n pre old t Hl Ht.
  - assert (forall m pre old, length old = m -> Kstring.zero_fill (pre ++ old) (zlen pre) m = Ok (pre ++ replicate m 0)) as Hz.
    { clear. induction m as [|m IHm]; intros pre [|o old] Hl; try done. cbn [Kstring.zero_fill]. rewrite put_middle by done. cbn [rbind].
      replace (pre ++ 0 :: old) with ((pre ++ [0]) ++ old) by (by rewrite <- app_assoc).
      replace (zlen pre + 1) with (zlen (pre ++ [0])) by llia. rewrite IHm by (cbn in Hl; lia). by rewrite <- app_assoc. }
    destruct Ht as [[Hn [r ->]]|[<- [r ->]]].
    + destruct n as [|n]; [cbn in Hn; lia|]. destruct old as [|o old]; [done|]. cbn [Kstring.strncpy_loop app]. rewrite put_middle by done. cbn [rbind].
      rewrite Z.eqb_refl. replace (pre ++ 0 :: old) with ((pre ++ [0]) ++ old) by (by rewrite <- app_assoc).
      replace (zlen pre + 1) with (zlen (pre ++ [0])) by llia. rewrite Hz by (cbn in Hl; lia). by rewrite <- app_assoc.
    + destruct old; [|done]. by destruct r.
  - destruct n as [|n]; [destruct Ht as [[]|[]]; cbn in *; lia|]. destruct old as [|o old]; [done|].
    assert (exists t', t = x :: t' /\ ((length s < n)%nat /\ (exists r, t' = s ++ 0 :: r) \/ length s = n /\ (exists r, t' = s ++ r)))
      as (t' & -> & Ht').
    { destruct Ht as [[H1 [r ->]]|[H1 [r ->]]]; (eexists; split; [done|]); [left | right]; (split; [cbn in H1; lia | eauto]). }
    cbn [Kstring.strncpy_loop]. rewrite put_middle by done. cbn [rbind]. unfold is_char in Hx. rewrite (proj2 (Z.eqb_neq x 0)) by lia.
    replace (pre ++ x :: old) with ((pre ++ [x]) ++ old) by (by rewrite <- app_assoc).
    replace (zlen pre + 1) with (zlen (pre ++ [x])) by llia. rewrite (IH n) by (done || (cbn in Hl; lia)).
    rewrite <- app_assoc. cbn [app length]. done.
Qed.

Definition name_cells (s : bytes) : bytes := s ++ replicate (14 - length s) 0.

Lemma strncpy_name b s : is_name b s -> Kstring.strncpy (malloc DIRSIZ) 0 b DIRSIZ = Ok (name_cells s).
Proof.
  intros [Hs Hb]. unfold Kstring.strncpy. dconsts. apply (strncpy_loop_name 14 [] (malloc 14) b s Hs); [done|].
  destruct Hb as [[]|[]]; [left | right]; (split; [lia | done]).
Qed.

Lemma name_cells_ok s :
  Forall is_char s -> zlen s <= DIRSIZ -> zlen (name_cells s) = DIRSIZ /\ Forall byte_ok (name_cells s) /\ is_name (name_cells s) s.
Proof.
  intros Hs Hl. dconsts. unfold name_cells. split; [llia|]. split.
  - apply Forall_app. split; [|apply Forall_replicate; done]. eapply Forall_impl; [exact Hs|]. intros x Hx. unfold is_char in Hx. unfold byte_ok. lia.
  - split; [done|]. dconsts. destruct (Z.eq_dec (zlen s) 14) as [E|Hne]; [right; split; [done | eauto]|].
    left. split; [lia|]. destruct (14 - length s)%nat as [|m] eqn:Em; [lia|]. cbn. eauto.
Qed.
(** The cells of an entry. *)
Definition ent_cells (inum : Z) (s : bytes) : bytes := [inum mod 256; inum / 256] ++ name_cells s.

Lemma ent_cells_ok inum s :
  0 <= inum < 65536 -> Forall is_char s -> zlen s <= DIRSIZ ->
  zlen (ent_cells inum s) = sizeof_dirent /\ Forall byte_ok (ent_cells inum s) /\ w16 (ent_cells inum s) 0 = inum /\
  name_of (drop 2 (ent_cells inum s)) = s.
Proof.
  intros Hi Hs Hl. destruct (name_cells_ok s Hs Hl) as (H1 & H2 & H3). unfold ent_cells. split; [dconsts; llia|]. split.
  - repeat constructor; unfold byte_ok; [lia..|]. done.
  - split; [unfold w16, byte; change (Z.to_nat 0) with 0%nat; change (Z.to_nat (0 + 1)) with 1%nat; cbn [nth app]; lia|]. cbn [app drop]. apply (is_name_inj (name_cells s)); [by apply name_of_is_name | done].
Qed.

Lemma wr16_malloc inum : 0 <= inum < 65536 -> wr16 (malloc 2) 0 inum = Ok [inum mod 256; inum / 256].
Proof. intros H. unfold wr16, u8. change (malloc 2) with [undef; undef]. change (0 + 1) with 1. rewrite put_ok by (cbn; lia). cbn [rbind].
  rewrite put_ok by (rewrite length_insert; cbn; lia). change (Z.to_nat 0) with 0%nat. change (Z.to_nat 1) with 1%nat. cbn [insert list_insert]. do 3 f_equal. lia. Qed.

(** Entry [k] of a directory into which an entry was written at [m]. *)
Lemma ent_splice c m e k :
  0 <= m <= nents c -> dir_ok c -> zlen e = sizeof_dirent -> 0 <= k < nents (splice c (sizeof_dirent * m) e) ->
  ent (splice c (sizeof_dirent * m) e) k = if k =? m then (w16 e 0, name_of (drop 2 e)) else ent c k.
Proof.
  unfold dir_ok, nents. intros Hm Hd He. rewrite splice_len by (dconsts; lia). intros Hk. dconsts.
  assert (forall o, 0 <= o < 16 -> splice c (16 * m) e !! Z.to_nat (16 * k + o) = if k =? m then e !! Z.to_nat o else c !! Z.to_nat (16 * k + o)) as Hx.
  { intros o Ho. rewrite splice_lookup by lia. destruct (Z.eqb_spec k m) as [->|Hne].
    - rewrite (proj2 (Z.leb_le _ _)), (proj2 (Z.ltb_lt _ _)) by lia. cbn. f_equal. lia.
    - destruct (Z.leb_spec (16 * m) (16 * k + o)), (Z.ltb_spec (16 * k + o) (16 * m + zlen e)); cbn; try done; lia. }
  unfold ent. dconsts. assert (forall o, 0 <= o < 16 -> byte (splice c (16 * m) e) (16 * k + o) = if k =? m then byte e o else byte c (16 * k + o)) as Hb.
  { intros o Ho. unfold byte. rewrite !nth_lookup, Hx by done. by destruct (k =? m). }
  assert (slice (splice c (16 * m) e) (16 * k + 2) 14 = if k =? m then drop 2 e else slice c (16 * k + 2) 14) as ->.
  { apply list_eq. intros n. destruct (Nat.lt_ge_cases n 14) as [Hn|Hn].
    - rewrite <- (Nat2Z.id n), slice_lookup by (rewrite ?splice_len; lia).
      replace (16 * k + 2 + Z.of_nat n) with (16 * k + (2 + Z.of_nat n)) by lia. rewrite Hx by lia. destruct (Z.eqb_spec k m).
      + rewrite lookup_drop. f_equal. lia.
      + rewrite slice_lookup by lia. f_equal. lia.
    - rewrite lookup_ge_None_2 by (unfold slice; llia). symmetry. apply lookup_ge_None_2. destruct (k =? m); unfold slice; llia. }
  unfold w16. pose proof (Hb 0 ltac:(lia)) as E0. rewrite Z.add_0_r in E0. rewrite E0, (Hb 1 ltac:(lia)). by destruct (k =? m).
Qed.

Lemma dir_entries_splice c m e :
  0 <= m <= nents c -> dir_ok c -> zlen e = sizeof_dirent ->
  dir_entries (splice c (sizeof_dirent * m) e) =
    take (Z.to_nat m) (dir_entries c) ++ (w16 e 0, name_of (drop 2 e)) :: drop (S (Z.to_nat m)) (dir_entries c).
Proof.
  intros Hm Hd He. pose proof (ent_splice c m e) as Hent. unfold dir_entries. set (c' := splice c (sizeof_dirent * m) e) in *.
  assert (nents c' = Z.max (nents c) (m + 1)) as En.
  { unfold c', nents, dir_ok in *. rewrite splice_len by (dconsts; lia). rewrite He. dconsts. lia. }
  rewrite En in *. apply list_eq. intros n. rewrite list_lookup_fmap. destruct (Z.lt_ge_cases (Z.of_nat n) (Z.max (nents c) (m + 1))) as [Hn|Hn].
  - rewrite lookup_seqZ_lt by lia. cbn [fmap option_fmap option_map]. rewrite Hent by (done || lia). rewrite Z.add_0_l.
    destruct (Z.eqb_spec (Z.of_nat n) m) as [<-|Hne].
    + rewrite lookup_app_r by (rewrite length_take; lia). rewrite length_take, length_fmap, length_seqZ.
      by replace (n - _)%nat with 0%nat by lia.
    + destruct (Z.lt_ge_cases (Z.of_nat n) m).
      * rewrite lookup_app_l by (rewrite length_take, length_fmap, length_seqZ; lia). rewrite lookup_take_lt, list_lookup_fmap by lia.
        by rewrite lookup_seqZ_lt by lia.
      * rewrite lookup_app_r by (rewrite length_take; lia). rewrite length_take, length_fmap, length_seqZ.
        replace (n - _)%nat with (S (n - S (Z.to_nat m))) by lia. change ((?x :: ?l) !! S ?n) with (l !! n). rewrite lookup_drop, list_lookup_fmap.
        replace (S (Z.to_nat m) + (n - S (Z.to_nat m)))%nat with n by lia. by rewrite lookup_seqZ_lt by lia.
  - rewrite lookup_seqZ_ge by lia. symmetry. apply lookup_ge_None_2. rewrite length_app, length_take. cbn [length].
    rewrite length_drop, length_fmap, length_seqZ. lia.
Qed.

Lemma dir_slot_eq c : free_ent (ent c <$> seqZ 0 (nents c)) 0 = dir_slot c.
Proof. done. Qed.

Lemma dir_slot_range c : 0 <= dir_slot c <= nents c.
Proof.
  unfold dir_slot. destruct (free_ent_split (dir_entries c) 0) as (l1 & l2 & E & -> & _).
  assert (zlen (dir_entries c) = nents c) as El.
  { unfold dir_entries. rewrite length_fmap, length_seqZ. unfold nents. dconsts. lia. }
  rewrite E in El. revert El. llia.
Qed.

(** The directory after an entry was written into the first free position. *)
Lemma dir_find_link c x s :
  dir_ok c -> 0 < x < 65536 -> Forall is_char s -> zlen s <= DIRSIZ -> dir_find s c = None ->
  let c' := splice c (sizeof_dirent * dir_slot c) (ent_cells x s) in
  dir_ok c' /\ dir_find s c' = Some (x, dir_slot c) /\ (forall t, t <> s -> dir_find t c' = dir_find t c).
Proof.
  intros Hd Hx Hs Hl Hnone. pose proof (dir_slot_range c) as Hm. destruct (ent_cells_ok x s) as (E1 & E2 & E3 & E4); [lia | done | done|].
  cbn zeta. split.
  { unfold dir_ok, nents in *. rewrite splice_len by (dconsts; lia). rewrite E1. dconsts. lia. }
  unfold dir_find in *. rewrite (dir_entries_splice _ _ _ Hm Hd E1), E3, E4.
  pose proof (find_ent_put (dir_entries c) x s 0 ltac:(lia) Hnone) as H. by rewrite Z.sub_0_r in H.
Qed.

Lemma dirslot_loop_ok n f dp i k :
  open_dir f dp i -> 0 <= k <= nents (content (sect (disk f)) i) -> (Z.to_nat (nents (content (sect (disk f)) i) - k) < n)%nat ->
  dirslot_loop n f dp (sizeof_dirent * k) =
    Ok (f, sizeof_dirent * free_ent (ent (content (sect (disk f)) i) <$> seqZ k (nents (content (sect (disk f)) i) - k)) k).
Proof.
  intros Hd. destruct (dir_size _ _ _ Hd) as [Hl Hs]. pose proof Hd as [H1 H2 H3 H4].
  set (c := content (sect (disk f)) i) in *. unfold dir_ok in H4.
  revert k. induction n as [|n IH]; intros k Hk Hn; [lia|]. cbn [dirslot_loop]. rewrite (at_ptr_get _ _ _ H1). cbn [rbind].
  destruct (Z.eq_dec k (nents c)) as [->|Hne].
  - rewrite (proj2 (Z.ltb_ge _ _)) by (unfold nents in *; dconsts; lia). by rewrite Z.sub_diag.
  - assert (sizeof_dirent * k < i_size i) as Hin by (unfold nents in *; dconsts; lia).
    rewrite (proj2 (Z.ltb_lt _ _) Hin). destruct (read_dirent_ok f dp i k Hd) as (dname & -> & _); [fold c; lia|]. fold c. cbn [rbind].
    rewrite seqZ_cons by lia. cbn [fmap list_fmap free_ent]. destruct (Z.eqb_spec (ent c k).1 0); [done|].
    replace (sizeof_dirent * k + sizeof_dirent) with (sizeof_dirent * (k + 1)) by lia. rewrite IH by lia.
    by replace (Z.succ k) with (k + 1) by lia; replace (Z.pred (nents c - k)) with (nents c - (k + 1)) by lia.
Qed.

(** [dirlink] of a name that the directory does not have. *)
Lemma dirlink_ok f dp i name s inum Y k c off :
  c = content (sect (disk f)) i -> off = sizeof_dirent * dir_slot c ->
  cache_ok sb f -> open_dir f dp i -> 0 < i_ref i -> valid i = true -> is_name name s -> dir_find s c = None -> 0 < inum < 65536 ->
  off + sizeof_dirent <= MAXFILE * BSIZE -> room (disk f) Y (wneed off sizeof_dirent + k) -> bitmaps sb ⊆ Y -> IBLOCK (i_inum i) ∈ Y ->
  (wneed off sizeof_dirent <= size (free sb (home (disk f)) (sect (disk f))))%nat ->
  exists f' i' Y', dirlink f dp name inum = Ok (f', 0) /\ cache_ok sb f' /\ open_dir f' dp i' /\
    icache f' = <[Z.to_nat dp := i']> (icache f) /\ written i i' off sizeof_dirent /\
    room (disk f') Y' k /\ Y ⊆ Y' /\ home (disk f') = home (disk f) /\ others_same sb (sect (disk f)) (sect (disk f')) (i_inum i) /\
    let c' := content (sect (disk f')) i' in
    dir_find s c' = Some (inum, dir_slot c) /\ (forall t, t <> s -> dir_find t c' = dir_find t c).
Proof.
  intros Ec Eoff Hok Hd Hr Hv Hname Hnone Hi Hmax Hroom HY HI Hfree. destruct (dir_size _ _ _ Hd) as [Hl Hs]. rewrite <- Ec in Hl.
  pose proof Hd as [H1 H2 H3 H4]. rewrite <- Ec in H4. pose proof (dir_slot_range c) as Hm.
  pose proof Hname as [Hch Hcells]. assert (zlen s <= DIRSIZ) as Hsl by (destruct Hcells as [[]|[]]; lia).
  destruct (ent_cells_ok inum s) as (E1 & E2 & _); [lia | done | done|].
  unfold dirlink. rewrite (dirlookup_ok _ _ _ _ _ Hd Hname), <- Ec, Hnone. cbn [rbind]. rewrite (at_ptr_get _ _ _ H1). cbn [rbind].
  change 0 with (sizeof_dirent * 0) at 1.
  rewrite (dirslot_loop_ok _ f dp i 0 Hd) by (rewrite <- Ec; unfold nents; rewrite ?Hl; dconsts; lia). rewrite <- Ec, Z.sub_0_r. cbn [rbind].
  rewrite dir_slot_eq, <- Eoff. rewrite (strncpy_name _ _ Hname), rbind_ok, wr16_malloc, rbind_ok by lia.
  destruct (write_at f dp i (ent_cells inum s) off sizeof_dirent Y k 0) as (d' & i' & Y' & E & Hok' & Ho' & Hw & Hr' & HY' & Hh & Hc & Hoth & _); try done.
  { rewrite H3. done. } { rewrite Eoff. unfold nents in *. dconsts. lia. } { rewrite E1. dconsts. lia. } { lia. }
  change ([inum mod 256; inum / 256] ++ name_cells s) with (ent_cells inum s). rewrite E. cbn [rbind]. rewrite Z.eqb_refl. cbn [negb].
  rewrite take_ge in Hc by (dconsts; lia). rewrite <- Ec in Hc.
  destruct (dir_find_link c inum s H4 Hi Hch Hsl Hnone) as (D1 & D2 & D3). rewrite <- Eoff, <- Hc in D1, D2, D3.
  exists (mk_fs d' (<[Z.to_nat dp := i']> (icache f))), i', Y'. split; [done|]. split; [done|]. split.
  - split; [|done|by rewrite Hw|done]. by apply (with_entry_at f dp i i').
  - done.
Qed.

(** * [ialloc] *)

(** The inode that [ialloc] writes: the type, and nothing else. *)
Definition new_node (inum type : Z) : inode := mk_inode ROOTDEV inum 0 0 type 0 0 0 0 no_addrs.

Lemma dnode_new d' inum type b :
  short_ok type -> stored 2 zeros 0 type b -> sect d' (IBLOCK inum) = b -> dnode (sect d') inum = new_node inum type.
Proof.
  intros Ht Hb Es. unfold dnode. rewrite Es, (stored_w16 _ _ _ _ Hb), s16_u16 by (done || lia).
  assert (forall o, 2 <= o -> w32 b o = 0) as Hw by (intros o Ho; rewrite (stored_w32_ne _ _ _ _ _ _ Hb) by lia; apply w32_zeros).
  assert (forall o, 2 <= o -> w16 b o = 0) as Hw16.
  { intros o Ho. rewrite (stored_w16_ne _ _ _ _ _ _ Hb) by lia. unfold w16. by rewrite !byte_zeros. }
  unfold new_node. rewrite !Hw16, Hw by lia. f_equal. apply list_eq. intros n. rewrite list_lookup_fmap. unfold no_addrs.
  destruct (Nat.lt_ge_cases n 125).
  - rewrite lookup_seqZ_lt by (consts; lia). rewrite lookup_replicate_2 by done. cbn [fmap option_fmap option_map]. rewrite Hw; [done | lia].
  - rewrite lookup_seqZ_ge by (consts; lia). symmetry. apply lookup_ge_None_2. by rewrite length_replicate.
Qed.

(** A disk on which a free inode has been given a type. *)
Lemma cache_new f d' inum :
  cache_ok sb f -> ~ live sb (sect (disk f)) inum -> fs_ok sb d' -> others_same sb (sect (disk f)) (sect d') inum ->
  cache_ok sb (mk_fs d' (icache f)).
Proof.
  intros [C1 C2 C3 C4] Hdead Hok' Hoth. split; cbn [disk icache]; [done | done | | done].
  intros n x Hx. destruct (C3 n x Hx) as [X1 X2 X3 X4].
  assert (0 < i_ref x -> dnode (sect d') (i_inum x) = dnode (sect (disk f)) (i_inum x)) as En.
  { intros Hr. destruct (X3 Hr) as [_ Hl]. apply Hoth; [apply Hl|]. intros E. by rewrite E in Hl. }
  split; [done | done | |].
  - intros Hr. destruct (X3 Hr) as [Hd [Hi Ht]]. split; [done|]. split; [done|]. by rewrite En.
  - intros Hr Hv. unfold synced. rewrite En by done. by apply X4.
Qed.

(** [ialloc] takes the first free inode, writes its type, and references it. *)
Lemma ialloc_ok f type inum Y k :
  cache_ok sb f -> short_ok type -> type <> 0 -> inum_ok sb inum -> ~ live sb (sect (disk f)) inum ->
  (forall j, 1 <= j < inum -> live sb (sect (disk f)) j) -> room (disk f) Y k -> IBLOCK inum ∈ Y ->
  (exists n i, icache f !! n = Some i /\ i_ref i = 0) -> (forall n i, icache f !! n = Some i -> i_ref i < 2 ^ 31 - 2) ->
  exists d' ip j, ialloc f ROOTDEV type = Ok (mk_fs d' (<[Z.to_nat ip := j]> (icache f)), ip) /\
    cache_ok sb (mk_fs d' (<[Z.to_nat ip := j]> (icache f))) /\ at_ptr (mk_fs d' (<[Z.to_nat ip := j]> (icache f))) ip j /\
    i_inum j = inum /\ i_ref j = 1 /\ locked j = false /\ valid j = false /\
    dnode (sect d') inum = new_node inum type /\ room d' Y k /\ home d' = home (disk f) /\
    others_same sb (sect (disk f)) (sect d') inum.
Proof.
  intros Hok Ht Hnz Hi Hdead Hlow Hroom HY Hfree Hmax. pose proof (c_fs _ _ Hok) as Hfs. pose proof (f_geom _ _ Hfs) as Hg.
  assert (forall j, inum_ok sb j -> bread (disk f) ROOTDEV (IBLOCK j) = Ok (sect (disk f) (IBLOCK j)) /\
            rd16 (sect (disk f) (IBLOCK j)) 0 = Ok (w16 (sect (disk f) (IBLOCK j)) 0) /\
            (w16 (sect (disk f) (IBLOCK j)) 0 = 0 <-> ~ live sb (sect (disk f)) j) /\ zlen (sect (disk f) (IBLOCK j)) = BSIZE) as Hrd.
  { intros j Hj. destruct (iblock_range sb _ _ (proj1 Hg) Hj) as (_ & J2 & _). destruct (room_sect _ Y k _ Hroom J2) as [Hl HF].
    split; [by apply (room_bread _ Y k)|]. split; [apply rd16_ok; consts; lia|]. split; [|done].
    pose proof (byte_range _ 0 HF). pose proof (byte_range _ (0 + 1) HF). unfold live. cbn [dnode i_type]. split.
    - intros ->. by intros [_ []].
    - intros Hn. destruct (Z.eq_dec (w16 (sect (disk f) (IBLOCK j)) 0) 0) as [|Hne]; [done|]. exfalso. apply Hn. split; [done|].
      unfold s16. unfold w16 in *. revert Hne. cbv zeta. destruct (Z.ltb_spec ((byte (sect (disk f) (IBLOCK j)) 0 + 256 * byte (sect (disk f) (IBLOCK j)) (0 + 1)) mod 2 ^ 16) (2 ^ 15)); lia. }
  destruct (Hrd inum Hi) as (R1 & R2 & R3 & R4). destruct (iblock_range sb _ _ (proj1 Hg) Hi) as (_ & I2 & I3).
  destruct (wr16_stored zeros 0 type) as (b & Eb & Sb); [lia | unfold zeros; llia|].
  assert (block_ok b) as Hb by (eapply stored_block; [exact Sb | apply zeros_ok]).
  destruct (room_write (disk f) Y k (IBLOCK inum) b) as (d' & Ew & Hr' & Hc & Hs); [done | done | done | done|].
  pose proof (dnode_new d' inum type b Ht Sb Hs) as Hdn.
  assert (forall x, 0 <= x < sb_size sb -> bit sb (sect d') x = bit sb (sect (disk f)) x) as Hbit.
  { intros x Hx. apply (bit_changes sb {[IBLOCK inum]} (disk f) d'); [done | done | by apply disjoint_singleton_l | done]. }
  destruct (fs_ok_blank sb (disk f) d' inum) as [Hok' Hoth]; [done | done | apply Hr' | | by rewrite Hdn | |].
  { eapply changes_mono; [|exact Hc]. set_solver. }
  { intros x Hx. rewrite Hbit by done. tauto. }
  pose proof (cache_new f d' inum Hok Hdead Hok' Hoth) as Hc'.
  destruct (iget_ok sb (mk_fs d' (icache f)) inum) as (ip & i & j & Eg & Hat & Hcg & G1 & G2 & G3 & G4 & G5 & G6); [done | | done | done|].
  { split; [done|]. cbn [disk]. by rewrite Hdn. }
  cbn [icache] in *. assert (i_ref i = 0) as Hri.
  { destruct (c_entry _ _ Hok _ _ (proj2 Hat)) as [X1 _ X3 _]. destruct (Z.eq_dec (i_ref i) 0); [done|].
    destruct (X3 ltac:(lia)) as [_ Hl]. destruct G4 as [Gc _]; [lia|]. apply (f_equal i_inum) in Gc. cbn in Gc. congruence. }
  destruct (G5 Hri) as [G7 G8]. unfold ialloc. rewrite (readsb_ok sb _ Y k) by done. cbn [rbind].
  rewrite (for_brk_find 1 (sb_ninodes sb) inum _ _ (with_entry (mk_fs d' (icache f)) ip j, ip)).
  - exists d', ip, j. split; [done|]. split; [done|]. split; [by apply (with_entry_at (mk_fs d' (icache f)) ip i)|].
    split; [done|]. split; [lia|]. split; [done|]. split; [done|]. split; [done|]. split; [done|]. split; [apply Hc | done].
  - done.
  - intros x Hx. destruct (Hrd x) as (X1 & X2 & X3 & _); [unfold inum_ok in *; lia|]. rewrite X1. cbn [rbind]. rewrite dinode_off_0, X2. cbn [rbind].
    rewrite (proj2 (Z.eqb_neq _ _)); [done|]. intros E. apply X3 in E. by apply E, Hlow.
  - rewrite R1. cbn [rbind]. rewrite dinode_off_0, R2. cbn [rbind]. rewrite (proj2 (Z.eqb_eq _ _)) by by apply R3.
    change sizeof_dinode with BSIZE. rewrite memset_zeros by done. cbn [rbind]. rewrite Eb. cbn [rbind]. rewrite Ew. cbn [rbind].
    by rewrite Eg.
Qed.
End Dir.
