(* ===== verification/DirProps.v ===== *)
(** The properties of the inode cache and of directories. *)
From stdpp Require Import gmap sets list_numbers.
From S2P Require Import Prelude Ulib Sys Log LogProps Fs FsBlock FsBmap FsRw FsDisk FsOps Inode FsLog FsProps FsTrunc FsCache FsDir.
Open Scope Z_scope.

#[local] Ltac Zify.zify_post_hook ::= Z.to_euclidean_division_equations.

Section DirProps.
Context {D : Type} `{!BlockDev D} `{!BlockLaws D} `{!Devsw D}.
Context (sb : superblock).
Implicit Types (f : Inode.fs D) (i : inode).

(** * Writes outside a transaction *)

Lemma bfree_outside d b :
  dev_ok d -> geom sb d -> active d = false -> 0 <= b < sb_size sb -> bfree d ROOTDEV b = Err Panic.
Proof.
  intros Hd Hg Ha Hb. pose proof (home_pos sb d Hg) as Hh. pose proof Hg as [Hlay (E1 & E2 & E3 & E4)].
  pose proof (layout_bitmap sb _ b Hlay Hb) as Hin. apply (bitmap_range sb _ _ Hlay) in Hin as [_ Hin].
  unfold bfree, readsb. rewrite bread_ok by (done || lia). cbn [rbind].
  destruct (sect_block d 1 Hd ltac:(lia)) as [Hl1 _]. destruct (sect_block d _ Hd Hin) as [Hl _]. unfold Fs.BSIZE in *.
  rewrite !rd32_ok by lia. cbn [rbind]. rewrite E1, E2, E3, E4. replace (mk_sb _ _ _ _) with sb by by destruct sb.
  rewrite bread_ok by done. cbn [rbind]. change BPB with 4096. rewrite get_byte by lia. cbn [rbind].
  destruct (_ =? 0); [done|]. rewrite put_ok by lia. cbn [rbind]. by apply log_write_inactive.
Qed.

Lemma iupdate_outside d i :
  dev_ok d -> geom sb d -> active d = false -> fits i -> inum_ok sb (i_inum i) -> iupdate d i = Err Panic.
Proof.
  intros Hd Hg Ha Hfit Hi. destruct (iblock_range sb _ _ (proj1 Hg) Hi) as (H1 & H2 & _).
  unfold iupdate. rewrite (fit_dev _ Hfit), bread_ok by done. cbn [rbind]. rewrite dinode_off_0.
  change (0 + 2) with 2. change (0 + 4) with 4. change (0 + 6) with 6. change (0 + 8) with 8. change (0 + 12) with 12.
  destruct (sect_block d _ Hd H2) as [Hl HF]. consts.
  destruct (wr16_stored (sect d (IBLOCK (i_inum i))) 0 (i_type i)) as (b1 & -> & L1 & _); [lia | lia|]. cbn [rbind].
  destruct (wr16_stored b1 2 (i_major i)) as (b2 & -> & L2 & _); [lia | lia|]. cbn [rbind].
  destruct (wr16_stored b2 4 (i_minor i)) as (b3 & -> & L3 & _); [lia | lia|]. cbn [rbind].
  destruct (wr16_stored b3 6 (i_nlink i)) as (b4 & -> & L4 & _); [lia | lia|]. cbn [rbind].
  destruct (wr32_stored b4 8 (i_size i)) as (b5 & -> & L5 & _); [lia | lia|]. cbn [rbind].
  destruct (put_addrs_ok b5 i 12) as (b6 & -> & _); [apply Hfit | lia | consts; lia | apply Hfit |]. cbn [rbind].
  by apply log_write_inactive.
Qed.

(** A loop whose rounds panic or do nothing. *)
Lemma for_up_panics {S} lo hi (g : Z -> S -> result S) s :
  (forall j, lo <= j < hi -> g j s = Ok s \/ g j s = Err Panic) -> for_up lo hi g s = Ok s \/ for_up lo hi g s = Err Panic.
Proof.
  remember (Z.to_nat (hi - lo)) as n eqn:En. revert lo En. induction n as [|n IH]; intros lo En Hg.
  - left. by rewrite for_up_done by lia.
  - rewrite for_up_step by lia. destruct (Hg lo ltac:(lia)) as [->| ->]; [|by right]. cbn [rbind]. apply IH; [lia|]. intros j Hj. apply Hg. lia.
Qed.

Lemma itrunc_outside d i : open_node sb d i -> active d = false -> itrunc d i = Err Panic.
Proof.
  intros Ho Ha. pose proof Ho as (Hok & Hlive & _). destruct (open_file sb d i Ho) as ((Hg & Hmeta & Hm) & _ & Hfit).
  pose proof (f_dev _ _ Hok) as Hd. pose proof Hg as [Hlay _]. pose proof Hlay as (_ & Hsz & _). pose proof (dstart_pos sb _ Hlay) as Hds.
  pose proof (m_len _ _ _ _ Hm) as Hlen. pose proof (m_dev _ _ _ _ Hm) as Hdev.
  assert (forall n, 0 <= n < NSLOT -> slot (sect d) i n <> 0 -> bfree d ROOTDEV (slot (sect d) i n) = Err Panic) as Hb.
  { intros n Hn Hz. pose proof (mapped_pos sb _ Hlay _ _ _ Hm Hn Hz). apply bfree_outside; [done | done | done | lia]. }
  unfold itrunc. destruct (for_up_panics 0 NDIRECT itrunc_direct (d, i)) as [->| ->]; [|cbn [rbind]|done].
  { intros j Hj. unfold itrunc_direct. consts. rewrite get_byte by lia. cbn [rbind]. change (byte (i_addrs i) j) with (addr i j).
    rewrite <- (slot_addr (sect d) i j) by (consts; lia). destruct (Z.eqb_spec (slot (sect d) i j) 0); [by left|]. cbn [negb].
    rewrite Hdev, Hb; [by right | consts; lia | done]. }
  rewrite get_byte by (consts; lia). cbn [rbind]. change (byte (i_addrs i) NDIRECT) with (addr i NDIRECT).
  destruct (Z.eqb_spec (addr i NDIRECT) 0) as [Ez|Hnz]; cbn [negb rbind].
  - rewrite iupdate_outside; [done | done | done | done | | apply Hlive]. destruct Hfit. split; done.
  - pose proof (slot_addr (sect d) i NDIRECT ltac:(lia)) as Es.
    assert (0 <= addr i NDIRECT < FsBlock.home d) as Hr.
    { rewrite <- Es in Hnz |- *. pose proof (mapped_pos sb _ Hlay _ _ NDIRECT Hm ltac:(consts; lia) Hnz). lia. }
    rewrite Hdev, bread_ok by done. cbn [rbind]. destruct (sect_block d _ Hd Hr) as [Hbl _].
    destruct (for_up_panics 0 NINDIRECT (itrunc_entry ROOTDEV (sect d (addr i NDIRECT))) d) as [->| ->]; [|cbn [rbind]|done].
    + intros j Hj. unfold itrunc_entry. consts. rewrite rd32_ok by lia. cbn [rbind].
      assert (w32 (sect d (addr i 124)) (4 * j) = slot (sect d) i (NDIRECT + 1 + j)) as ->.
      { unfold slot. consts. rewrite (proj2 (Z.leb_gt _ _)), (proj2 (Z.eqb_neq _ _) Hnz) by lia. f_equal. lia. }
      destruct (Z.eqb_spec (slot (sect d) i (NDIRECT + 1 + j)) 0); [by left|]. cbn [negb]. rewrite Hb; [by right | consts; lia | done].
    + rewrite <- Es in Hnz |- *. by rewrite Hb by (done || (consts; lia)).
Qed.

(** The reference that [dirlookup] takes to the inode it has found. *)
Definition lookup_result f (o : option (Z * Z)) : result (Inode.fs D * option (Z * Z)) :=
  match o with
  | None => Ok (f, None)
  | Some (inum, m) => let! '(f, ip) := iget f ROOTDEV inum in Ok (f, Some (ip, sizeof_dirent * m))
  end.

(** C27: [dirlink] adds one name to a directory and changes nothing else.  In a
    transaction with room for the entry, linking a name that the locked
    directory does not have returns 0; the file system and the inode cache are
    in order, every other file is as it was, [dirlookup] finds the new name at
    the first free position and every other name exactly where it was before. *)
Theorem link_lookup f dp i name s inum Y c off :
  c = content (sect (disk f)) i -> off = sizeof_dirent * dir_slot c ->
  cache_ok sb f -> open_dir sb f dp i -> 0 < i_ref i -> valid i = true -> is_name name s -> dir_find s c = None -> 0 < inum < 65536 ->
  off + sizeof_dirent <= MAXFILE * Fs.BSIZE -> room (disk f) Y (wneed off sizeof_dirent) -> bitmaps sb ⊆ Y -> IBLOCK (i_inum i) ∈ Y ->
  (wneed off sizeof_dirent <= base.size (free sb (FsBlock.home (disk f)) (sect (disk f))))%nat ->
  exists f', dirlink f dp name inum = Ok (f', 0) /\ cache_ok sb f' /\ others_same sb (sect (disk f)) (sect (disk f')) (i_inum i) /\
    dirlookup f' dp name = lookup_result f' (Some (inum, dir_slot c)) /\
    forall name' t, is_name name' t -> t <> s -> dirlookup f' dp name' = lookup_result f' (dir_find t c).
Proof.
  intros Ec Eoff Hok Hd Hr Hv Hname Hnone Hi Hmax Hroom HY HI Hfree. rewrite <- (Nat.add_0_r (wneed _ _)) in Hroom.
  destruct (dirlink_ok sb f dp i name s inum Y 0 c off) as (f' & i' & Y' & E & Hok' & Hd' & _ & _ & _ & _ & _ & Hoth & Hnew & Hold); try done.
  exists f'. split; [done|]. split; [done|]. split; [done|]. split.
  - rewrite (dirlookup_ok sb _ _ _ _ _ Hd' Hname), Hnew. done.
  - intros name' t Hname' Hne. by rewrite (dirlookup_ok sb _ _ _ _ _ Hd' Hname'), (Hold t Hne).
Qed.

(** [dirlink] refuses a name that is there: the call returns -1, the disk is
    untouched, and the reference to the inode that [dirlookup] took is dropped
    again, so every reference count is as before. *)
Theorem link_twice_refused f dp i name s inum x m :
  cache_ok sb f -> open_dir sb f dp i -> is_name name s -> dir_find s (content (sect (disk f)) i) = Some (x, m) ->
  live sb (sect (disk f)) x -> (exists n j, icache f !! n = Some j /\ i_ref j = 0) -> (forall n j, icache f !! n = Some j -> i_ref j < 2 ^ 31 - 2) ->
  exists f', dirlink f dp name inum = Ok (f', -1) /\ disk f' = disk f /\ cache_ok sb f' /\ i_ref <$> icache f' = i_ref <$> icache f.
Proof.
  intros Hok Hd Hname Hx Hlive Hempty Hmax. unfold dirlink. rewrite (dirlookup_ok sb _ _ _ _ _ Hd Hname), Hx.
  destruct (iget_ok sb f x Hok Hlive Hempty Hmax) as (ip & j & j' & -> & Hat & Hok1 & _ & _ & Hr & Hold & Hnew & _). cbn [rbind].
  pose proof (with_entry_at f ip j j' Hat) as Hat1. destruct (c_entry _ _ Hok _ _ (proj2 Hat)) as [E1 _ _ _].
  destruct (iput_keep sb (with_entry f ip j') ip j') as [-> Hok2]; [done | done | lia | |].
  { destruct (Z.eq_dec (i_ref j) 0); [|lia]. right. left. by apply Hnew. }
  cbn [rbind]. eexists. split; [done|]. split; [done|]. split; [done|]. unfold with_entry. cbn [icache disk].
  rewrite !list_fmap_insert, list_insert_insert_eq. cbn [i_ref set_ref]. replace (i_ref j' - 1) with (i_ref j) by lia.
  apply list_insert_id. rewrite list_lookup_fmap, (proj2 Hat). done.
Qed.

(** C28: The last [iput] of a file without links frees it.  The call returns, the
    inode is free, all of its blocks are marked free in the bitmap, no other file
    is touched, and the file system and the cache are in order. *)
Theorem last_iput_frees f ip i Y k :
  cache_ok sb f -> at_ptr f ip i -> i_ref i = 1 -> valid i = true -> locked i = false -> i_nlink i = 0 ->
  room (disk f) Y k -> bitmaps sb ⊆ Y -> IBLOCK (i_inum i) ∈ Y ->
  exists f', iput f ip = Ok f' /\ cache_ok sb f' /\ ~ live sb (sect (disk f')) (i_inum i) /\
    (forall b, owned (sect (disk f)) i b -> bit sb (sect (disk f')) b = false) /\
    others_same sb (sect (disk f)) (sect (disk f')) (i_inum i) /\ room (disk f') Y k.
Proof.
  intros Hok Hat Hr Hv Hl Hn Hroom HY HI.
  destruct (iput_free sb f ip i Y k Hok Hat Hr Hv Hl Hn Hroom HY HI) as (f' & j & E & Hok' & _ & _ & Hr' & _ & Hoth & Hdead & Hbits).
  exists f'. by split_and!.
Qed.

(** The same [iput] outside a transaction panics ("write outside of trans"):
    the callers that drop a reference without [begin_trans] depend on never
    holding the last one to a file without links. *)
Theorem last_iput_needs_transaction f ip i :
  cache_ok sb f -> at_ptr f ip i -> i_ref i = 1 -> valid i = true -> locked i = false -> i_nlink i = 0 ->
  active (disk f) = false -> iput f ip = Err Panic.
Proof.
  intros Hok Hat Hr Hv Hl Hn Ha. destruct (c_entry _ _ Hok _ _ (proj2 Hat)) as [E1 E2 E3 E4].
  destruct (E3 ltac:(lia)) as [Hdev Hlive]. unfold iput. rewrite (at_ptr_get _ _ _ Hat). cbn [rbind].
  change (has_flag i I_VALID) with (valid i). change (has_flag i I_BUSY) with (locked i). rewrite Hr, Hv, Hn, Hl, !Z.eqb_refl. cbn [andb].
  rewrite itrunc_outside; [done | | done]. split; [apply Hok|]. split; [done|]. apply E4; [lia | done].
Qed.

(** * Sequences of operations on the cache *)

Inductive cache_op := Iget (inum : Z) | Idup (ip : Z) | Ilock (ip : Z) | Iunlock (ip : Z) | Iput (ip : Z).

Definition run_op f (o : cache_op) : result (Inode.fs D) :=
  match o with
  | Iget inum => let! '(f, _) := iget f ROOTDEV inum in Ok f
  | Idup ip => idup f ip
  | Ilock ip => ilock f ip
  | Iunlock ip => iunlock f ip
  | Iput ip => iput f ip
  end.

(** What the callers see to: the inodes they name exist, they hold the
    references and locks they use, the last reference to a file without links is
    dropped unlocked and in a transaction with room; there is a free entry, and
    no count is about to overflow. *)
Definition legal f (o : cache_op) : Prop :=
  match o with
  | Iget inum => live sb (sect (disk f)) inum /\ (exists n i, icache f !! n = Some i /\ i_ref i = 0) /\
      (forall n i, icache f !! n = Some i -> i_ref i < 2 ^ 31 - 2)
  | Idup ip => exists i, at_ptr f ip i /\ 0 < i_ref i < 2 ^ 31 - 2
  | Ilock ip => exists i, at_ptr f ip i /\ 0 < i_ref i /\ locked i = false
  | Iunlock ip => exists i, at_ptr f ip i /\ 0 < i_ref i /\ locked i = true
  | Iput ip => exists i, at_ptr f ip i /\ 0 < i_ref i /\
      (i_ref i = 1 -> valid i = true -> i_nlink i = 0 ->
         locked i = false /\ exists Y k, room (disk f) Y k /\ bitmaps sb ⊆ Y /\ IBLOCK (i_inum i) ∈ Y)
  end.

(** The operations of a kernel, one after the other. *)
Inductive session f : list cache_op -> Inode.fs D -> Prop :=
  | session_nil : session f [] f
  | session_snoc os f1 o f2 : session f os f1 -> legal f1 o -> run_op f1 o = Ok f2 -> session f (os ++ [o]) f2.

Lemma run_op_ok f o : cache_ok sb f -> legal f o -> exists f', run_op f o = Ok f' /\ cache_ok sb f'.
Proof.
  intros Hok. destruct o as [inum|ip|ip|ip|ip]; cbn [legal run_op].
  - intros (H1 & H2 & H3). destruct (iget_ok sb f inum Hok H1 H2 H3) as (ip & i & j & -> & _ & Hok' & _). cbn [rbind]. eauto.
  - intros (i & Hat & Hr). destruct (idup_ok sb f ip i Hok Hat Hr) as [-> Hok']. eauto.
  - intros (i & Hat & Hr & Hl). destruct (ilock_ok sb f ip i Hok Hat Hr Hl) as (j & -> & Hok' & _). eauto.
  - intros (i & Hat & Hr & Hl). destruct (iunlock_ok sb f ip i Hok Hat Hr Hl) as [-> Hok']. eauto.
  - intros (i & Hat & Hr & Hlast). destruct (Z.eq_dec (i_ref i) 1) as [E1|]; [destruct (valid i) eqn:Ev; [destruct (Z.eq_dec (i_nlink i) 0) as [E2|]|]|].
    1: { destruct (Hlast E1 eq_refl E2) as (Hl & Y & k & Hroom & HY & HI).
         destruct (iput_free sb f ip i Y k Hok Hat E1 Ev Hl E2 Hroom HY HI) as (f' & j & -> & Hok' & _). eauto. }
    all: (destruct (iput_keep sb f ip i Hok Hat Hr) as [-> Hok']; [by auto|]; eauto).
Qed.

(** C26: The inode cache stays coherent.  After any sequence of [iget], [idup],
    [ilock], [iunlock] and [iput] by callers that hold what they use, each inode
    has at most one entry in use, every entry in use is a live inode, the valid
    ones agree with the disk and the disk is in order; and the next such call
    does not panic either. *)
Theorem inode_cache_coherent f os f' :
  cache_ok sb f -> session f os f' ->
  cache_ok sb f' /\ (forall o, legal f' o -> exists f'', run_op f' o = Ok f'').
Proof.
  intros Hok Hs. assert (cache_ok sb f') as Hok'.
  { induction Hs as [|os f1 o f2 Hs IH Hleg Hrun]; [done|]. destruct (run_op_ok f1 o IH Hleg) as (f2' & E & H2).
    rewrite Hrun in E. by injection E as <-. }
  split; [done|]. intros o Ho. destruct (run_op_ok f' o Hok' Ho) as (f'' & E & _). eauto.
Qed.
End DirProps.

(** * Examples on the small disk *)

(** The cache with one inode. *)
Definition demo_cache (k : kdisk) (i : inode) : Inode.fs kdisk := mk_fs k (i :: replicate 49 no_inode).

Lemma demo_cache_ok k i : fs_ok demo_sb k -> entry_ok demo_sb (sect k) i -> cache_ok demo_sb (demo_cache k i).
Proof.
  intros Hok Hi.
  assert (forall n x, (i :: replicate 49 no_inode) !! n = Some x -> n = 0%nat /\ x = i \/ x = no_inode) as Hx.
  { intros [|n] x H; [left; by injection H as <-|]. right. by apply lookup_replicate in H as [-> _]. }
  split; cbn [disk icache demo_cache]; [done | done | |].
  - intros n x [[_ ->]| ->]%Hx; [done|]. split; cbn; [lia | done | lia | lia].
  - intros n m x y [[-> ->]| ->]%Hx [[-> ->]| ->]%Hx; cbn; try done; lia.
Qed.

(** The root directory, held and locked, and the file. *)
Lemma demo_dir_entry : entry_ok demo_sb (ksect demo_tx) demo_dir.
Proof.
  split; [cbn; lia | done | |].
  - intros _. split; [done|]. apply (demo_live 1). lia.
  - intros _ _. apply demo_dir_synced.
Qed.

Lemma demo_open_dir : open_dir demo_sb (demo_cache demo_tx demo_dir) 0 demo_dir.
Proof.
  split; [done | | done | by vm_compute]. split; [apply demo_tx_fs|]. split; [apply (demo_live 1); cbn; lia | apply demo_dir_synced].
Qed.

Lemma is_name_short s : Forall is_char s -> zlen s < DIRSIZ -> is_name (s ++ [0]) s.
Proof. intros Hs Hl. split; [done|]. left. split; [done|]. by exists []. Qed.

Lemma demo_name c : 1 <= c <= 255 -> is_name [c; 0] [c].
Proof. intros Hc. apply (is_name_short [c]); [by apply Forall_singleton | reflexivity]. Qed.

Lemma demo_names : is_name [102; 0] [102] /\ [102] <> [103].
Proof. split; [by apply demo_name | done]. Qed.

Lemma demo_find_f : dir_find [102] (content (ksect demo_disk) demo_dir) = Some (2, 1).
Proof. vm_compute. reflexivity. Qed.

(** A second name for the file "f" in the root directory. *)
Lemma link_lookup_witness :
  exists f', dirlink (demo_cache demo_tx demo_dir) 0 [103; 0] 2 = Ok (f', 0) /\ dirlookup f' 0 [103; 0] = lookup_result f' (Some (2, 2)) /\
    dirlookup f' 0 [102; 0] = lookup_result f' (Some (2, 1)).
Proof.
  destruct (link_lookup demo_sb (demo_cache demo_tx demo_dir) 0 demo_dir [103; 0] [103] 2 (meta_sectors demo_sb 1)
    (content (ksect demo_disk) demo_dir) 32) as (f' & E1 & _ & _ & E2 & E3).
  - reflexivity.
  - vm_compute. reflexivity.
  - apply demo_cache_ok; [apply demo_tx_fs | apply demo_dir_entry].
  - apply demo_open_dir.
  - reflexivity.
  - reflexivity.
  - by apply demo_name.
  - vm_compute. reflexivity.
  - done.
  - by vm_compute.
  - apply demo_tx_room. vm_compute. lia.
  - apply (union_subseteq_r {[IBLOCK 1]} (bitmaps demo_sb)).
  - vm_compute. reflexivity.
  - vm_compute. lia.
  - exists f'. split; [exact E1|]. split; [exact E2|]. rewrite <- demo_find_f. exact (E3 [102; 0] [102] (proj1 demo_names) (proj2 demo_names)).
Defined.

(** Linking "f" again. *)
Lemma link_twice_refused_witness :
  exists f', dirlink (demo_cache demo_tx demo_dir) 0 [102; 0] 1 = Ok (f', -1) /\ disk f' = demo_tx.
Proof.
  destruct (link_twice_refused demo_sb (demo_cache demo_tx demo_dir) 0 demo_dir [102; 0] [102] 1 2 1) as (f' & E & Hd & _).
  - apply demo_cache_ok; [apply demo_tx_fs | apply demo_dir_entry].
  - apply demo_open_dir.
  - by apply demo_name.
  - exact demo_find_f.
  - apply (demo_live 2). lia.
  - by exists 1%nat, no_inode.
  - intros [|n] j Hj; [injection Hj as <-; reflexivity|]. apply lookup_replicate in Hj as [-> _]. reflexivity.
  - exists f'. split; [exact E | exact Hd].
Defined.

Lemma demo_orphan_entry : entry_ok demo_sb (ksect demo_disk) demo_orphan.
Proof.
  split; [cbn; lia | done | |].
  - intros _. split; [done|]. apply (demo_live 3). lia.
  - intros _ _. vm_compute. reflexivity.
Qed.

Lemma demo_orphan_owned : owned (ksect demo_tx) demo_orphan 14.
Proof. exists 0. split; [done|]. split; [vm_compute; reflexivity | done]. Qed.

(** The file without a name, closed by its last user. *)
Lemma last_iput_frees_witness :
  exists f', iput (demo_cache demo_tx demo_orphan) 0 = Ok f' /\ bit demo_sb (ksect demo_tx) 14 = true /\ bit demo_sb (sect (disk f')) 14 = false.
Proof.
  destruct (last_iput_frees demo_sb (demo_cache demo_tx demo_orphan) 0 demo_orphan (meta_sectors demo_sb 3) 0) as (f' & E & _ & _ & Hb & _).
  - apply demo_cache_ok; [apply demo_tx_fs | apply demo_orphan_entry].
  - done.
  - reflexivity.
  - reflexivity.
  - reflexivity.
  - reflexivity.
  - apply demo_tx_room. vm_compute. lia.
  - apply (union_subseteq_r {[IBLOCK 3]} (bitmaps demo_sb)).
  - vm_compute. reflexivity.
  - exists f'. split; [exact E|]. split; [vm_compute; reflexivity|]. exact (Hb 14 demo_orphan_owned).
Defined.

Lemma last_iput_needs_transaction_witness : iput (demo_cache demo_disk demo_orphan) 0 = Err Panic.
Proof.
  apply (last_iput_needs_transaction demo_sb (demo_cache demo_disk demo_orphan) 0 demo_orphan).
  - apply demo_cache_ok; [apply demo_fs | apply demo_orphan_entry].
  - done.
  - reflexivity.
  - reflexivity.
  - reflexivity.
  - reflexivity.
  - reflexivity.
Defined.

(** The root directory is unlocked, referenced again and released. *)
Lemma inode_cache_coherent_witness :
  exists f', session demo_sb (demo_cache demo_tx demo_dir) [Iunlock 0; Iget 1; Iput 0] f' /\ cache_ok demo_sb f'.
Proof.
  set (f0 := demo_cache demo_tx demo_dir).
  assert (session demo_sb f0 [Iunlock 0] (with_entry f0 0 (set_flags 2 demo_dir))) as S1.
  { apply (session_snoc _ _ [] f0); [constructor | by exists demo_dir | reflexivity]. }
  assert (session demo_sb f0 [Iunlock 0; Iget 1] (with_entry f0 0 (set_ref 2 (set_flags 2 demo_dir)))) as S2.
  { apply (session_snoc _ _ [Iunlock 0] _ _ _ S1); [|reflexivity]. split; [apply (demo_live 1); lia|]. split; [by exists 1%nat, no_inode|].
    intros [|n] j Hj; [injection Hj as <-; reflexivity|]. apply lookup_replicate in Hj as [-> _]. reflexivity. }
  assert (session demo_sb f0 [Iunlock 0; Iget 1; Iput 0] (with_entry f0 0 (set_flags 2 demo_dir))) as S3.
  { apply (session_snoc _ _ [Iunlock 0; Iget 1] _ _ _ S2); [|reflexivity]. eexists. split; [done|]. split; [done|]. discriminate. }
  eexists. split; [exact S3|].
  apply (inode_cache_coherent demo_sb f0 [Iunlock 0; Iget 1; Iput 0] _); [|exact S3].
  apply demo_cache_ok; [apply demo_tx_fs | apply demo_dir_entry].
Defined.
