(* ===== verification/FileProps.v ===== *)
(** Writing to an open file: [filewrite] splits the bytes into pieces that fit a
    transaction. *)
From stdpp Require Import gmap sets list_numbers.
From S2P Require Import Prelude Ulib Sys Log LogProps Pipe Fs FsBlock FsBmap FsRw FsDisk FsOps Inode File FsLog FsProps FsTrunc FsCache FsDir DirProps.
Open Scope Z_scope.

#[local] Ltac Zify.zify_post_hook ::= Z.to_euclidean_division_equations.

Section FileProps.
Context {D : Type} `{!BlockDev D} `{!BlockLaws D} `{!TransLaws D} `{!Devsw D}.
Context (sb : superblock) (q : nat).
Hypothesis quota_fixed : forall d, dev_ok d -> quota d = q.
Implicit Types (f : Inode.fs D) (i : inode) (d : D).

(** The bytes of the file with a number, and its inode, on the disk. *)
Definition file_bytes d (inum : Z) : bytes := content (sect d) (dnode (sect d) inum).

Lemma others_same_trans d1 d2 d3 inum :
  others_same sb (sect d1) (sect d2) inum -> others_same sb (sect d2) (sect d3) inum -> others_same sb (sect d1) (sect d3) inum.
Proof.
  intros H1 H2 j Hj Hne. destruct (H1 j Hj Hne) as [A1 A2], (H2 j Hj Hne) as [B1 B2]. split; [congruence|].
  intros Ht. rewrite B2 by congruence. by apply A2.
Qed.

Lemma agree_others d d' inum : fs_ok sb d -> agree d d' -> others_same sb (sect d) (sect d') inum.
Proof. intros Hok Ha. by apply (others_same_agree sb d d d'). Qed.

Lemma agree_bytes d d' inum : fs_ok sb d -> agree d d' -> live sb (sect d) inum -> file_bytes d' inum = file_bytes d inum.
Proof.
  intros Hok Ha Hl. pose proof (f_geom _ _ Hok) as [Hlay _]. unfold file_bytes. rewrite (agree_dnode sb d d' inum Hlay Ha (proj1 Hl)).
  destruct (f_file _ _ Hok inum Hl). by apply (content_agree sb).
Qed.

(** The cache does not notice the start or the end of a transaction. *)
Lemma cache_agree f d' : cache_ok sb f -> dev_ok d' -> agree (disk f) d' -> cache_ok sb (mk_fs d' (icache f)).
Proof.
  intros [C1 C2 C3 C4] Hd Ha. split; cbn [disk icache]; [by apply (fs_ok_agree sb (disk f)) | done | | done].
  pose proof (f_geom _ _ C1) as [Hlay _]. intros n x Hx. destruct (C3 n x Hx) as [X1 X2 X3 X4].
  assert (0 < i_ref x -> dnode (sect d') (i_inum x) = dnode (sect (disk f)) (i_inum x)) as En.
  { intros Hr. destruct (X3 Hr) as [_ [Hi _]]. by apply (agree_dnode sb). }
  split; [done | done | |].
  - intros Hr. destruct (X3 Hr) as [Hxd [Hi Ht]]. split; [done|]. split; [done | by rewrite En].
  - intros Hr Hv. unfold synced. rewrite En by done. by apply X4.
Qed.

(** The transaction of one piece: [begin_trans], [ilock], [writei], [iunlock],
    [commit_trans]. *)
Lemma write_piece f ip i src off n e :
  cache_ok sb f -> at_ptr f ip i -> 0 < i_ref i -> locked i = false -> active (disk f) = false ->
  i_type (dnode (sect (disk f)) (i_inum i)) <> T_DEV -> 0 <= off <= i_size (dnode (sect (disk f)) (i_inum i)) ->
  0 <= n <= zlen src -> off + n <= MAXFILE * Fs.BSIZE -> Forall byte_ok src ->
  (base.size (meta_sectors sb (i_inum i)) + wneed off n <= q)%nat ->
  (wneed off n + e <= base.size (free sb (FsBlock.home (disk f)) (sect (disk f))))%nat ->
  exists d1 i1 d2 i2 d3 i3,
    Fs.begin_trans (disk f) = Ok d1 /\ ilock (mk_fs d1 (icache f)) ip = Ok (mk_fs d1 (<[Z.to_nat ip := i1]> (icache f))) /\
    on_inode (mk_fs d1 (<[Z.to_nat ip := i1]> (icache f))) ip (fun d i => writei d i src off n) = Ok (mk_fs d2 (<[Z.to_nat ip := i2]> (icache f)), n) /\
    iunlock (mk_fs d2 (<[Z.to_nat ip := i2]> (icache f))) ip = Ok (mk_fs d2 (<[Z.to_nat ip := i3]> (icache f))) /\
    Fs.commit_trans d2 = Ok d3 /\
    let f' := mk_fs d3 (<[Z.to_nat ip := i3]> (icache f)) in
    cache_ok sb f' /\ at_ptr f' ip i3 /\ i_ref i3 = i_ref i /\ locked i3 = false /\ i_inum i3 = i_inum i /\
    active d3 = false /\
    i_type (dnode (sect d3) (i_inum i)) = i_type (dnode (sect (disk f)) (i_inum i)) /\
    i_size (dnode (sect d3) (i_inum i)) = Z.max (i_size (dnode (sect (disk f)) (i_inum i))) (off + n) /\
    file_bytes d3 (i_inum i) = splice (file_bytes (disk f) (i_inum i)) off (take (Z.to_nat n) src) /\
    others_same sb (sect (disk f)) (sect d3) (i_inum i) /\ (e <= base.size (free sb (FsBlock.home d3) (sect d3)))%nat.
Proof.
  intros Hok Hat Hr Hl Ha Ht Hoff Hn Hmax HF Hq Hfree. pose proof (c_fs _ _ Hok) as Hfs. pose proof (f_dev _ _ Hfs) as Hd.
  pose proof (f_geom _ _ Hfs) as Hg. destruct (c_entry _ _ Hok _ _ (proj2 Hat)) as [E1 E2 E3 E4]. destruct (E3 Hr) as [Hdev Hlive].
  destruct (begin_ok (disk f) Hd Ha) as (d1 & Eb & Hd1 & Hh1 & Ha1 & Hq1 & Hl1 & Hs1). assert (agree (disk f) d1) as Hag1 by done.
  pose proof (cache_agree f d1 Hok Hd1 Hag1) as Hok1. pose proof (agree_dnode sb _ _ _ (proj1 Hg) Hag1 (proj1 Hlive)) as En1.
  assert (at_ptr (mk_fs d1 (icache f)) ip i) as Hat1 by done.
  destruct (ilock_ok sb _ ip i Hok1 Hat1 Hr Hl) as (i1 & El & Hok2 & Ho1 & Hl1' & Hv1 & Hr1 & Hi1 & _). cbn [disk] in Ho1.
  pose proof (with_entry_at _ ip i i1 Hat1) as Hat2. unfold with_entry in *. cbn [disk icache] in *.
  destruct Ho1 as (Hfs1 & Hlive1 & Hsync1). assert (core i1 = dnode (sect (disk f)) (i_inum i)) as Ec1 by (rewrite <- En1, <- Hi1; exact Hsync1).
  assert (i_type i1 = i_type (dnode (sect (disk f)) (i_inum i))) as Et1 by by rewrite <- Ec1.
  assert (i_size i1 = i_size (dnode (sect (disk f)) (i_inum i))) as Es1 by by rewrite <- Ec1.
  destruct (write_at sb (mk_fs d1 (<[Z.to_nat ip := i1]> (icache f))) ip i1 src off n (meta_sectors sb (i_inum i)) 0 e)
    as (d2 & i2 & Y & Ew & Hok3 & Ho2 & Hw & Hr2 & _ & Hh2 & Hc2 & Hoth2 & He2);
    [done | done | lia | done | by rewrite Et1 | by rewrite Es1 | done | done | done | | apply (union_subseteq_r {[IBLOCK (i_inum i)]} (bitmaps sb))
    | unfold meta_sectors; rewrite Hi1; apply elem_of_union_l; by apply elem_of_singleton
    | cbn [disk]; by rewrite (free_agree sb (disk f) d1)|].
  { cbn [disk]. split; [done|]. split; [done|]. rewrite Hl1, (quota_fixed d1 Hd1). split; [apply empty_subseteq | lia]. }
  cbn [disk icache] in *. rewrite !list_insert_insert_eq in *. rewrite Hi1 in Hoth2.
  assert (at_ptr (mk_fs d2 (<[Z.to_nat ip := i2]> (icache f))) ip i2) as Hat3 by by apply (with_entry_at (mk_fs d2 (icache f)) ip i).
  assert (i_ref i2 = i_ref i) as Hri2 by (rewrite Hw; cbn; lia). assert (i_inum i2 = i_inum i) as Hin2 by (rewrite Hw; done).
  assert (locked i2 = true) as Hl2 by (unfold locked, has_flag; rewrite Hw; exact Hl1').
  destruct (iunlock_ok sb _ ip i2 Hok3 Hat3 ltac:(lia) Hl2) as [Eu Hok4]. set (i3 := set_flags _ i2) in *.
  unfold with_entry in *. cbn [disk icache] in *. rewrite !list_insert_insert_eq in *.
  destruct Hr2 as (Hd2 & Ha2 & _ & Hq2). destruct (commit_ok d2 Hd2 Ha2) as (d3 & Ecm & Hd3 & Hh3 & Ha3 & Hq3 & Hs3).
  assert (agree d2 d3) as Hag3 by done. destruct Ho2 as (Hfs2 & Hlive2 & Hsync2). pose proof (f_geom _ _ Hfs2) as Hg2.
  pose proof (agree_dnode sb _ _ _ (proj1 Hg2) Hag3 (proj1 Hlive2)) as En3. rewrite Hin2 in En3.
  assert (dnode (sect d3) (i_inum i) = core i2) as Ec3 by (rewrite En3, <- Hin2; symmetry; exact Hsync2).
  exists d1, i1, d2, i2, d3, i3. split; [done|]. split; [done|]. split; [done|]. split; [done|]. split; [done|].
  cbn zeta. split; [by apply (cache_agree (mk_fs d2 _))|]. split; [by apply (with_entry_at (mk_fs d3 (icache f)) ip i)|].
  split; [done|]. split; [unfold i3; apply locked_flags|]. split; [done|]. split; [done|].
  split; [rewrite Ec3, <- Et1; by rewrite Hw|]. split; [rewrite Ec3, <- Es1; by rewrite Hw|]. split.
  { rewrite (agree_bytes d2 d3 (i_inum i) Hfs2 Hag3) by by rewrite <- Hin2. unfold file_bytes.
    rewrite <- (content_core (sect d2) i2) by (rewrite <- Hin2; by apply synced_core). rewrite Hc2. f_equal.
    rewrite (content_core (sect d1) i1 (dnode (sect d1) (i_inum i))) by (rewrite <- Hi1; by apply synced_core).
    by apply (agree_bytes (disk f) d1). }
  split.
  - eapply others_same_trans; [by apply (agree_others (disk f) d1)|]. eapply others_same_trans; [exact Hoth2 | by apply agree_others].
  - by rewrite (free_agree sb d2 d3).
Qed.

(** A piece is three blocks long at most, so it touches four, and the indirect
    block. *)
Lemma piece_need off n : 0 <= off -> 0 <= n <= write_max -> (wneed off n <= 5)%nat.
Proof.
  change write_max with 1536. intros Ho Hn. unfold wneed, nblks. consts. destruct (Z.leb_spec n 0); [lia|]. lia.
Qed.

Definition pieces (n : Z) : nat := Z.to_nat ((n + write_max - 1) / write_max).

Lemma splice_nil c off : splice c off [] = c.
Proof. unfold splice. cbn [length app]. by rewrite Nat.add_0_r, take_drop. Qed.

Lemma splice_app c off s1 s2 : 0 <= off <= zlen c -> splice (splice c off s1) (off + zlen s1) s2 = splice c off (s1 ++ s2).
Proof.
  intros Ho. apply list_eq. intros k. rewrite <- (Nat2Z.id k). assert (0 <= off + zlen s1 <= zlen (splice c off s1)) by (rewrite splice_len by done; lia).
  rewrite !splice_lookup by lia. rewrite length_app.
  destruct (Z.leb_spec off (Z.of_nat k)), (Z.leb_spec (off + zlen s1) (Z.of_nat k)), (Z.ltb_spec (Z.of_nat k) (off + zlen s1)),
    (Z.ltb_spec (Z.of_nat k) (off + zlen s1 + zlen s2)), (Z.ltb_spec (Z.of_nat k) (off + Z.of_nat (length s1 + length s2)));
    cbn [andb]; try lia; try done.
  - rewrite lookup_app_r by lia. f_equal. lia.
  - by rewrite lookup_app_l by lia.
Qed.

Definition pieces_left (k : kern D) (n : Z) : Prop :=
  (5 * pieces n <= base.size (free sb (FsBlock.home (disk (kfs k))) (sect (disk (kfs k)))))%nat.

(** An open file: its inode is referenced and not locked, and no transaction is
    running. *)
Record writable_file (k : kern D) (f : Z) (x : file) (inum : Z) : Prop := {
  w_cache : cache_ok sb (kfs k);
  w_file : 0 <= f /\ ftable k !! Z.to_nat f = Some x;
  w_inode : exists i, at_ptr (kfs k) (f_ip x) i /\ 0 < i_ref i /\ locked i = false /\ i_inum i = inum;
  w_idle : active (disk (kfs k)) = false;
  w_type : i_type (dnode (sect (disk (kfs k))) inum) <> T_DEV;
  w_off : 0 <= f_off x <= i_size (dnode (sect (disk (kfs k))) inum);
}.

Lemma filewrite_loop_ok fuel k (f : Z) x inum addr n c :
  writable_file k f x inum -> 0 <= c <= n -> n <= zlen addr -> f_off x + (n - c) <= MAXFILE * Fs.BSIZE -> Forall byte_ok addr ->
  (base.size (meta_sectors sb inum) + 5 <= q)%nat -> pieces_left k (n - c) -> (Z.to_nat (n - c) <= fuel)%nat ->
  exists k', filewrite_loop fuel k f addr n c = Ok (k', n) /\ writable_file k' f (set_off (f_off x + (n - c)) x) inum /\
    ftable k' = <[Z.to_nat f := set_off (f_off x + (n - c)) x]> (ftable k) /\ pipes k' = pipes k /\
    file_bytes (disk (kfs k')) inum = splice (file_bytes (disk (kfs k)) inum) (f_off x) (slice addr c (n - c)) /\
    others_same sb (sect (disk (kfs k))) (sect (disk (kfs k'))) inum.
Proof.
  revert k x c. induction fuel as [|fuel IH]; intros k x c Hw Hc Hn Hmax HF Hq Hfree Hfuel;
    (destruct (Z.eq_dec c n) as [->|Hne];
     [exists k; cbn [filewrite_loop]; rewrite Z.ltb_irrefl, Z.sub_diag, Z.add_0_r; replace (set_off (f_off x) x) with x by (by destruct x);
      destruct Hw as [W1 [W2 W2'] W3 W4 W5 W6]; split; [done|]; split; [done|]; split; [by rewrite list_insert_id|]; split; [done|]; split;
      [change (slice addr n 0) with (@nil Z); by rewrite splice_nil | by apply agree_others; [apply W1|]]|]).
  - lia.
  - pose proof Hw as [W1 [W2 W2'] (i & Hat & Hr & Hl & <-) W4 W5 W6]. cbn [filewrite_loop]. rewrite (proj2 (Z.ltb_lt _ _)) by lia.
    set (n1 := Z.min (n - c) write_max). assert (0 < n1 <= write_max /\ n1 <= n - c) as Hn1 by (unfold n1; change write_max with 1536; lia).
    pose proof (piece_need (f_off x) n1 ltac:(lia) ltac:(lia)) as Hneed.
    assert (pieces (n - c) = S (pieces (n - c - n1))) as Hp by (unfold pieces, n1 in *; change write_max with 1536 in *; lia).
    unfold pieces_left in Hfree. rewrite Hp in Hfree.
    assert (length (drop (Z.to_nat c) addr) = (length addr - Z.to_nat c)%nat) as Hdl by apply length_drop.
    destruct (write_piece (kfs k) (f_ip x) i (drop (Z.to_nat c) addr) (f_off x) n1 (5 * pieces (n - c - n1)))
      as (d1 & i1 & d2 & i2 & d3 & i3 & Eb & El & Ew & Eu & Ec & Hok3 & Hat3 & Hr3 & Hl3 & Hi3 & Ha3 & Ht3 & Hs3 & Hb3 & Hoth & Hfr3);
      [done | done | done | done | done | done | done | lia | lia | by apply Forall_drop | lia | lia|].
    rewrite (get_ok _ _ _ W2 W2'). cbn [rbind]. unfold on_log, on_fs. rewrite Eb. cbn [rbind kfs set_fs disk icache]. rewrite El. cbn [rbind kfs set_fs].
    rewrite Ew. cbn [rbind]. rewrite (proj2 (Z.ltb_lt 0 n1)) by lia. unfold upd_file. cbn [ftable set_fs]. rewrite (get_ok _ _ _ W2 W2'). cbn [rbind].
    pose proof (lookup_lt_Some _ _ _ W2') as Hlt. rewrite put_ok by lia. cbn [rbind kfs set_fs]. rewrite Eu. cbn [rbind kfs set_fs disk icache ftable pipes].
    rewrite Ec. cbn [rbind]. rewrite (proj2 (Z.ltb_ge n1 0)) by lia. rewrite Z.eqb_refl. cbn [negb].
    rewrite u32_small by (consts; lia). set (x' := set_off (f_off x + n1) x). set (k' := set_fs _ _).
    destruct (IH k' x' (c + n1)) as (k'' & E & Hw'' & Hft & Hpi & Hby & Ho'').
    + split; cbn [kfs k' set_fs disk ftable]; [done | | | done | by rewrite Ht3 | rewrite Hs3; cbn [x' f_off set_off]; lia].
      * split; [done|]. by apply list_lookup_insert_eq.
      * exists i3. split; [done|]. split; [lia|]. done.
    + lia.
    + done.
    + cbn [x' f_off set_off]. lia.
    + done.
    + done.
    + unfold pieces_left. cbn [kfs k' set_fs disk]. by replace (n - (c + n1)) with (n - c - n1) by lia.
    + lia.
    + assert (set_off (f_off x' + (n - (c + n1))) x' = set_off (f_off x + (n - c)) x) as Ex by (unfold x', set_off; cbn; f_equal; lia).
      rewrite Ex in *. exists k''. split; [done|]. split; [done|]. split; [rewrite Hft; cbn [k' ftable set_fs]; by rewrite list_insert_insert_eq|].
      split; [done|]. cbn [k' kfs set_fs disk x' f_off set_off] in *. split; [|by eapply others_same_trans].
      rewrite Hby, Hb3. assert (zlen (take (Z.to_nat n1) (drop (Z.to_nat c) addr)) = n1) as Hlen by (rewrite length_take; lia).
      rewrite <- Hlen at 2. rewrite splice_app; [|unfold file_bytes; rewrite content_len; lia]. f_equal. unfold slice.
      replace (Z.to_nat (c + n1)) with (Z.to_nat c + Z.to_nat n1)%nat by lia. rewrite <- drop_drop.
      replace (Z.to_nat (n - c)) with (Z.to_nat n1 + Z.to_nat (n - (c + n1)))%nat by lia. apply take_take_drop.
Qed.
End FileProps.

(** * The capacity of the log is fixed *)

(** The laws of a device, for the states in which the log takes [q] sectors. *)
Definition fixed_laws {D} `{!BlockDev D} (L : BlockLaws D) (q : nat) : BlockLaws D.
Proof.
  refine {| dev_ok d := @dev_ok D _ L d /\ @quota D _ L d = q; FsBlock.home := @FsBlock.home D _ L; sect := @sect D _ L;
            active := @active D _ L; logged := @logged D _ L; quota := @quota D _ L |}.
  - intros d s [H _]. by apply sect_block.
  - intros d s [H _]. by apply bread_ok.
  - intros d s b [H E] Ha Hs Hb Hq. destruct (log_write_ok d s b H Ha Hs Hb Hq) as (d' & E1 & E2 & E3 & E4 & E5 & E6). exists d'.
    split; [exact E1|]. split; [split; [exact E2 | congruence]|]. exact (conj E3 (conj E4 (conj E5 E6))).
  - intros d s b [H _]. by apply log_write_inactive.
Defined.

Lemma fixed_trans {D} `{!BlockDev D} (L : BlockLaws D) `{!TransLaws D} q : @TransLaws D _ (fixed_laws L q).
Proof.
  split.
  - intros d [H E] Ha. destruct (begin_ok d H Ha) as (d' & E1 & E2 & E3 & E4 & E5 & E6). exists d'.
    split; [exact E1|]. split; [split; [exact E2 | etrans; [exact E5 | exact E]]|]. exact (conj E3 (conj E4 (conj E5 E6))).
  - intros d [H E] Ha. destruct (commit_ok d H Ha) as (d' & E1 & E2 & E3 & E4 & E5 & E6). exists d'.
    split; [exact E1|]. split; [split; [exact E2 | etrans; [exact E5 | exact E]]|]. exact (conj E3 (conj E4 (conj E5 E6))).
Qed.

Section Filewrite.
Context {D : Type} `{!BlockDev D} {L : BlockLaws D} `{!TransLaws D} `{!Devsw D}.
Context (sb : superblock).

Lemma fs_ok_fixed q (d : D) : fs_ok sb d /\ quota d = q <-> @fs_ok D _ (fixed_laws L q) sb d.
Proof. split; [intros [[H1 H2 H3 H4 H5 H6] E]; by split | intros [[H1 E] H2 H3 H4 H5 H6]; by split]. Qed.

Lemma writable_fixed q (k : kern D) f x inum :
  writable_file sb k f x inum /\ quota (disk (kfs k)) = q <-> @writable_file D _ (fixed_laws L q) sb k f x inum.
Proof.
  split.
  - intros [[[C1 C2 C3 C4] W2 W3 W4 W5 W6] E]. split; try done. split; [by apply fs_ok_fixed | done | | done].
    intros n i Hn. destruct (C3 n i Hn). by split.
  - intros [[C1 C2 C3 C4] W2 W3 W4 W5 W6]. apply fs_ok_fixed in C1 as [C1 E]. split; [|done]. split; [|done..]. split; [done | done | | done].
    intros n i Hn. destruct (C3 n i Hn). by split.
Qed.

(** C11: [filewrite] writes all the bytes it is given.  For an open file, with
    space on the disk and a log of the size the kernel has, the pieces into which
    the call splits the bytes fit a transaction each, so it returns [n]; the file
    then holds the bytes at the offset, the offset is past them, and every other
    file is as it was. *)
Theorem filewrite_all (k : kern D) f x inum addr n killed :
  writable_file sb k f x inum -> f_type x = FD_INODE -> f_writable x = true -> 0 <= n <= zlen addr ->
  f_off x + n <= MAXFILE * Fs.BSIZE -> Forall byte_ok addr ->
  (base.size (meta_sectors sb inum) + 5 <= quota (disk (kfs k)))%nat -> pieces_left sb k n ->
  exists k', filewrite k f addr n killed = Ok (k', n) /\ writable_file sb k' f (set_off (f_off x + n) x) inum /\
    file_bytes (disk (kfs k')) inum = splice (file_bytes (disk (kfs k)) inum) (f_off x) (take (Z.to_nat n) addr) /\
    others_same sb (sect (disk (kfs k))) (sect (disk (kfs k'))) inum.
Proof.
  intros Hw Ht Hwr Hn Hmax HF Hq Hfree. set (q := quota (disk (kfs k))) in *.
  destruct (@filewrite_loop_ok D _ (fixed_laws L q) (fixed_trans L q) _ sb q (fun d H => proj2 H) (Z.to_nat n) k f x inum addr n 0)
    as (k' & E & Hw' & _ & _ & Hby & Ho); rewrite ?Z.sub_0_r; try done; [by apply writable_fixed | lia | lia|].
  rewrite Z.sub_0_r in *. unfold filewrite. destruct (w_file _ _ _ _ _ Hw) as [H1 H2]. rewrite (get_ok _ _ _ H1 H2). cbn [rbind].
  rewrite Hwr, Ht. cbn [negb]. rewrite E. cbn [rbind]. rewrite Z.eqb_refl. exists k'. split; [done|].
  split; [by apply (writable_fixed q)|]. done.
Qed.
End Filewrite.

(** * An example on the small disk *)

(** The file "f", open for writing at its end. *)
Definition demo_open : file := mk_file FD_INODE 1 true true 0 0 5.
Definition demo_unlocked : inode := set_flags I_VALID demo_inode.
Definition demo_kern : kern kdisk := mk_kern (demo_cache demo_disk demo_unlocked) [demo_open] [].

Lemma demo_writable : writable_file demo_sb demo_kern 0 demo_open 2.
Proof.
  split.
  - apply demo_cache_ok; [apply demo_fs|]. split; [cbn; lia | done | |].
    + intros _. split; [done|]. apply (demo_live 2). lia.
    + intros _ _. apply demo_synced.
  - done.
  - by exists demo_unlocked.
  - reflexivity.
  - vm_compute. discriminate.
  - split; vm_compute; discriminate.
Qed.

(** 2000 bytes in two transactions. *)
Lemma filewrite_all_witness :
  exists k', filewrite demo_kern 0 (replicate 2000 120) 2000 false = Ok (k', 2000) /\
    file_bytes (disk (kfs k')) 2 = [104; 101; 108; 108; 111] ++ replicate 2000 120.
Proof.
  destruct (filewrite_all demo_sb demo_kern 0 demo_open 2 (replicate 2000 120) 2000 false) as (k' & E & _ & Hb & _).
  - apply demo_writable.
  - reflexivity.
  - reflexivity.
  - split; [discriminate | vm_compute; discriminate].
  - vm_compute. discriminate.
  - apply Forall_replicate. split; vm_compute; congruence.
  - vm_compute. lia.
  - unfold pieces_left. vm_compute. lia.
  - exists k'. split; [exact E|]. etrans; [exact Hb|]. vm_compute. reflexivity.
Defined.
