(* ===== verification/Umalloc.v ===== *)
(** The allocator of the user programs: src/src/umalloc.c.

    Memory is the address space of the process, [brk] bytes long, as a function
    from the address of a word to the word.  A [Header *] is the address of a
    header: the word at it is [s.ptr], the next one [s.size], in units of
    [sizeof(Header)].  [base] is the address of the static header.  Whether the
    kernel can grow the process is a parameter of the model. *)
From S2P Require Import Prelude.

Definition sizeof_header : Z := 8.

Record heap := mk_heap { words : Z -> Z; freep : Z; brk : Z }.

Definition upd_word (w : Z -> Z) (a v : Z) : Z -> Z := fun b => if b =? a then v else w b.

Section Umalloc.
(** The address of [base], and [growproc]: the size of the process and the bytes
    asked for. *)
Context (base : Z) (can_grow : Z -> Z -> bool).

Definition load (h : heap) (a : Z) : result Z :=
  if (0 <=? a) && (a + 4 <=? brk h) then Ok (words h a) else Err OutOfBounds.
Definition store (h : heap) (a v : Z) : result heap :=
  if (0 <=? a) && (a + 4 <=? brk h) then Ok (mk_heap (upd_word (words h) a v) (freep h) (brk h)) else Err OutOfBounds.

Definition get_ptr (h : heap) (p : Z) : result Z := load h p.
Definition get_size (h : heap) (p : Z) : result Z := load h (p + 4).
Definition set_ptr (h : heap) (p v : Z) : result heap := store h p v.
Definition set_hsize (h : heap) (p v : Z) : result heap := store h (p + 4) (u32 v).
Definition set_freep (h : heap) (p : Z) : heap := mk_heap (words h) p (brk h).

(** The loop of [free]: the block after which [bp] belongs. *)
Fixpoint free_search (fuel : nat) (h : heap) (bp p : Z) : result Z :=
  match fuel with
  | O => Err OutOfFuel
  | S fuel' =>
      let! q := get_ptr h p in
      if (p <? bp) && (bp <? q) then Ok p
      else if (q <=? p) && ((p <? bp) || (bp <? q)) then Ok p
      else free_search fuel' h bp q
  end.

(** A round per block at most, and a block has eight bytes. *)
Definition rounds (h : heap) : nat := S (Z.to_nat (brk h)).

Definition free (h : heap) (ap : Z) : result heap :=
  let bp := ap - sizeof_header in
  let! p := free_search (rounds h) h bp (freep h) in
  let! n := get_size h bp in
  let! q := get_ptr h p in
  let! h :=
    if bp + sizeof_header * n =? q then
      let! m := get_size h q in
      let! h := set_hsize h bp (n + m) in
      let! r := get_ptr h q in
      set_ptr h bp r
    else set_ptr h bp q in
  let! k := get_size h p in
  let! h :=
    if p + sizeof_header * k =? bp then
      let! n := get_size h bp in
      let! h := set_hsize h p (k + n) in
      let! r := get_ptr h bp in
      set_ptr h p r
    else set_ptr h p bp in
  Ok (set_freep h p).

(** [sbrk]: [sys_sbrk] and [growproc] of the kernel; the new memory is zero. *)
Definition sbrk (h : heap) (n : Z) : heap * option Z :=
  if can_grow (brk h) n then
    (mk_heap (fun a => if (brk h <=? a) && (a <? brk h + n) then 0 else words h a) (freep h) (brk h + n), Some (brk h))
  else (h, None).

Definition morecore (h : heap) (nu : Z) : result (heap * option Z) :=
  let nu := if nu <? 4096 then 4096 else nu in
  let '(h, p) := sbrk h (s32 (u32 (nu * sizeof_header))) in
  match p with
  | None => Ok (h, None)
  | Some hp =>
      let! h := set_hsize h hp nu in
      let! h := free h (hp + sizeof_header) in
      Ok (h, Some (freep h))
  end.

(** The loop of [malloc]: at most twice round the free list, once before and
    once after [morecore]. *)
Fixpoint malloc_loop (fuel : nat) (h : heap) (nunits prevp p : Z) : result (heap * option Z) :=
  match fuel with
  | O => Err OutOfFuel
  | S fuel' =>
      let! sz := get_size h p in
      if nunits <=? sz then
        if sz =? nunits then
          let! q := get_ptr h p in
          let! h := set_ptr h prevp q in
          Ok (set_freep h prevp, Some (p + sizeof_header))
        else
          let! h := set_hsize h p (sz - nunits) in
          let! sz := get_size h p in
          let p := p + sizeof_header * sz in
          let! h := set_hsize h p nunits in
          Ok (set_freep h prevp, Some (p + sizeof_header))
      else if p =? freep h then
        let! '(h, o) := morecore h nunits in
        match o with
        | None => Ok (h, None)
        | Some p => let! q := get_ptr h p in malloc_loop fuel' h nunits p q
        end
      else let! q := get_ptr h p in malloc_loop fuel' h nunits p q
  end.

Definition units (nbytes : Z) : Z := u32 (nbytes + sizeof_header - 1) / sizeof_header + 1.

Definition malloc (h : heap) (nbytes : Z) : result (heap * option Z) :=
  let nunits := units nbytes in
  let! h :=
    if freep h =? 0 then
      let! h := set_ptr (set_freep h base) base base in
      set_hsize h base 0
    else Ok h in
  let prevp := freep h in
  let! p := get_ptr h prevp in
  malloc_loop (2 * rounds h + 2) h nunits prevp p.
End Umalloc.
