(* ===== verification/UmallocLemmas.v ===== *)
(** The free list of umalloc.c: a ring of blocks in the order of their
    addresses, through the static header. *)
From stdpp Require Import sets.
From S2P Require Import Prelude Umalloc.

#[local] Ltac Zify.zify_post_hook ::= Z.to_euclidean_division_equations.

(** A block: the address of its header, and its size in units. *)
Notation block := (Z * Z)%type (only parsing).

(** The headers from [p] on are linked through the blocks [L] and then to [e]. *)
Fixpoint chain (w : Z -> Z) (p : Z) (L : list block) (e : Z) : Prop :=
  match L with
  | [] => w p = e
  | (a, n) :: L' => w p = a /\ w (a + 4) = n /\ chain w a L' e
  end.

(** Ascending, and no two blocks touch. *)
Fixpoint gaps (lo : Z) (L : list block) : Prop :=
  match L with
  | [] => True
  | (a, n) :: L' => lo < a /\ 1 <= n /\ gaps (a + 8 * n) L'
  end.

Definition last_of (p : Z) (L : list block) : Z := List.last (L.*1) p.
Definition head_of (L : list block) (e : Z) : Z := match L with [] => e | (a, _) :: _ => a end.

Lemma last_of_cons p b L : last_of p (b :: L) = last_of b.1 L.
Proof. unfold last_of. cbn. destruct (L.*1) eqn:E; [done|]. clear E L. revert z. induction l as [|x l IH]; intros z; [done|]. apply IH. Qed.

Lemma last_of_snoc p L b : last_of p (L ++ [b]) = b.1.
Proof. revert p. induction L as [|c L IH]; intros p; [done|]. cbn [app]. by rewrite last_of_cons. Qed.

Lemma uw_same w a v : upd_word w a v a = v.
Proof. unfold upd_word. by rewrite Z.eqb_refl. Qed.
Lemma uw_other w a v b : b <> a -> upd_word w a v b = w b.
Proof. intros H. unfold upd_word. by rewrite (proj2 (Z.eqb_neq _ _) H). Qed.

(** * Chains *)

Lemma fchain_app w p L1 L2 e : chain w p (L1 ++ L2) e <-> chain w p L1 (head_of L2 e) /\ match L2 with [] => True | (a, n) :: L => w (a + 4) = n /\ chain w a L e end.
Proof.
  revert p. induction L1 as [|[a n] L1 IH]; intros p; cbn [app chain].
  - destruct L2 as [|[a n] L2]; cbn; tauto.
  - rewrite IH. tauto.
Qed.

Lemma fchain_last w p L e : chain w p L e -> w (last_of p L) = e.
Proof.
  revert p. induction L as [|[a n] L IH]; intros p; [done|]. intros (_ & _ & H). rewrite last_of_cons. by apply IH.
Qed.

(** Two memories that agree on the headers of a chain. *)
Lemma fchain_ext w w' p L e :
  chain w p L e -> (forall x, x = p \/ (exists a n, (a, n) ∈ L /\ (x = a \/ x = a + 4)) -> w' x = w x) -> chain w' p L e.
Proof.
  revert p. induction L as [|[a n] L IH]; intros p; cbn [chain].
  - intros H Hx. rewrite Hx; auto.
  - intros (H1 & H2 & H3) Hx. split; [rewrite Hx; auto|]. split.
    + rewrite Hx; [done|]. right. exists a, n. split; [by left | auto].
    + apply IH; [done|]. intros x [->|(b & m & Hb & E)]; apply Hx; right.
      * exists a, n. split; [by left | auto].
      * exists b, m. split; [by right | done].
Qed.

(** ... except for the last pointer. *)
Lemma chain_relink w w' p L e e' :
  chain w p L e -> NoDup (p :: L.*1) -> (forall a n, (a, n) ∈ L -> w' (a + 4) = w (a + 4)) ->
  (forall x, x ∈ p :: L.*1 -> x <> last_of p L -> w' x = w x) -> w' (last_of p L) = e' -> chain w' p L e'.
Proof.
  revert p. induction L as [|[a n] L IH]; intros p; cbn [chain].
  - intros _ _ _ _ H. done.
  - intros (H1 & H2 & H3) Hnd Hs Hk Hl. rewrite last_of_cons in Hk, Hl. cbn [fst fmap list_fmap] in *.
    apply NoDup_cons in Hnd as [Hp Hnd]. assert (p <> last_of a L) as Hpl.
    { intros ->. apply Hp. clear. revert a. induction L as [|[b m] L IH]; intros a; [by left|]. rewrite last_of_cons. right. apply IH. }
    split; [rewrite Hk; [done | by left | done]|]. split; [rewrite (Hs a n); [done | by left]|].
    apply IH; [done | done | | | done].
    + intros b m Hb. apply (Hs b m). by right.
    + intros x Hx. apply Hk. by right.
Qed.

(** * Order *)

Lemma gaps_lo lo lo' L : gaps lo L -> lo' <= lo -> gaps lo' L.
Proof. destruct L as [|[a n] L]; [done|]. intros (H1 & H2 & H3) Hle. split; [lia | done]. Qed.

Lemma gaps_app lo L1 L2 :
  gaps lo (L1 ++ L2) <-> gaps lo L1 /\ gaps lo L2 /\ Forall (fun '(a, n) => gaps (a + 8 * n) L2) L1.
Proof.
  revert lo. induction L1 as [|[a n] L1 IH]; intros lo; cbn [app gaps].
  - split; [intros H; split; [done|]; split; [done | constructor] | tauto].
  - rewrite IH, Forall_cons. split.
    + intros (H1 & H2 & H3 & H4 & H5). split; [done|]. split; [eapply gaps_lo; [exact H4 | lia]|]. done.
    + intros ((H1 & H2 & H3) & H4 & H5 & H6). done.
Qed.

Lemma gaps_elem lo L a n : gaps lo L -> (a, n) ∈ L -> lo < a /\ 1 <= n.
Proof.
  revert lo. induction L as [|[b m] L IH]; intros lo; [by intros _ ?%elem_of_nil|]. intros (H1 & H2 & H3) [E|Hin]%elem_of_cons.
  - by injection E as -> ->.
  - destruct (IH _ H3 Hin). lia.
Qed.

Lemma gaps_before lo L1 b m L2 a n : gaps lo (L1 ++ (b, m) :: L2) -> (a, n) ∈ L1 -> a + 8 * n < b.
Proof. intros (_ & _ & H)%gaps_app Hin. rewrite Forall_forall in H. apply (H (a, n) Hin). Qed.

Lemma gaps_nodup lo L : gaps lo L -> NoDup (lo :: L.*1).
Proof.
  revert lo. induction L as [|[a n] L IH]; intros lo; [intros _; apply NoDup_singleton|]. intros (H1 & H2 & H3). cbn [fmap list_fmap fst].
  apply NoDup_cons. split.
  - intros [->|Hin]%elem_of_cons; [lia|]. apply list_elem_of_fmap in Hin as ([b m] & -> & Hb). destruct (gaps_elem _ _ _ _ H3 Hb). cbn in *. lia.
  - pose proof (IH _ H3) as Hnd. apply NoDup_cons in Hnd as [_ Hnd]. apply NoDup_cons. split; [|done].
    intros Hin. apply list_elem_of_fmap in Hin as ([b m] & E & Hb). destruct (gaps_elem _ _ _ _ H3 Hb). cbn in *. lia.
Qed.

(** * Positions in the ring *)

Lemma chain_at w p L e L1 a n L2 : chain w p L e -> L = L1 ++ (a, n) :: L2 -> w (a + 4) = n /\ w a = head_of L2 e.
Proof.
  intros H ->. apply fchain_app in H as [_ [H1 H2]]. split; [done|]. destruct L2 as [|[b m] L2]; [done | apply H2].
Qed.

Lemma chain_head w p L e : chain w p L e -> w p = head_of L e.
Proof. destruct L as [|[a n] L]; [done|]. by intros [H _]. Qed.

(** The position after the blocks [L1]: the static header, or the last of them. *)
Lemma chain_pos w p L1 L2 e : chain w p (L1 ++ L2) e -> w (last_of p L1) = head_of L2 e.
Proof. intros [H _]%fchain_app. by apply fchain_last. Qed.

Lemma last_of_cases p L : L = [] /\ last_of p L = p \/ exists L' a n, L = L' ++ [(a, n)] /\ last_of p L = a.
Proof. destruct L as [|[a n] L' _] using rev_ind; [by left|]. right. exists L', a, n. by rewrite last_of_snoc. Qed.

Section Search.
Context (base : Z) (h : heap).

(** The ring: the blocks of the free list are in memory, in order and apart. *)
Record ring (L : list block) : Prop := {
  r_chain : chain (words h) base L base;
  r_base : words h (base + 4) = 0;
  r_gaps : gaps base L;
  r_pos : 0 < base /\ base + 8 <= brk h;
  r_in : Forall (fun '(a, n) => base + 8 <= a /\ a + 8 * n <= brk h) L;
}.

Lemma load_ok a : 0 <= a -> a + 4 <= brk h -> load h a = Ok (words h a).
Proof. intros H1 H2. unfold load. by rewrite (proj2 (Z.leb_le _ _) H1), (proj2 (Z.leb_le _ _) H2). Qed.

Lemma store_ok a v : 0 <= a -> a + 4 <= brk h -> store h a v = Ok (mk_heap (upd_word (words h) a v) (freep h) (brk h)).
Proof. intros H1 H2. unfold store. by rewrite (proj2 (Z.leb_le _ _) H1), (proj2 (Z.leb_le _ _) H2). Qed.

Lemma ring_elem L a n : ring L -> (a, n) ∈ L -> base + 8 <= a /\ 1 <= n /\ a + 8 * n <= brk h.
Proof.
  intros R Hin. pose proof (r_in _ R) as H. rewrite Forall_forall in H. pose proof (H _ Hin). destruct (gaps_elem _ _ _ _ (r_gaps _ R) Hin). cbn in *. lia.
Qed.

(** A position of the ring can be accessed. *)
Lemma ring_pos L P1 P2 : ring L -> L = P1 ++ P2 -> base <= last_of base P1 /\ last_of base P1 + 8 <= brk h.
Proof.
  intros R ->. pose proof (r_pos _ R). destruct (last_of_cases base P1) as [[-> ->]|(P & a & n & -> & ->)]; [lia|].
  destruct (ring_elem _ a n R); [|lia]. rewrite !elem_of_app. left. right. by left.
Qed.

Lemma ring_ptr L P1 P2 : ring L -> L = P1 ++ P2 -> get_ptr h (last_of base P1) = Ok (head_of P2 base).
Proof.
  intros R E. destruct (ring_pos L P1 P2 R E). pose proof (r_pos _ R). unfold get_ptr. rewrite load_ok by lia. f_equal.
  apply chain_pos. rewrite <- E. apply R.
Qed.

Definition dist (i t k : nat) : nat := if (i <=? t)%nat then t - i else k - i + 1 + t.

Lemma free_search_ok fuel L bp P1 P2 L1 L2 :
  ring L -> L = P1 ++ P2 -> L = L1 ++ L2 -> base < bp -> Forall (fun '(a, _) => a < bp) L1 -> Forall (fun '(a, _) => bp < a) L2 ->
  (dist (length P1) (length L1) (length L) < fuel)%nat ->
  free_search fuel h bp (last_of base P1) = Ok (last_of base L1).
Proof.
  intros R EP EL Hb H1 H2. revert P1 P2 EP. induction fuel as [|fuel IH]; intros P1 P2 EP Hd; [lia|].
  cbn [free_search]. rewrite (ring_ptr L P1 P2 R EP). cbn [rbind]. pose proof (r_gaps _ R) as Hg.
  destruct (Nat.lt_trichotomy (length P1) (length L1)) as [Hlt|[Heq|Hgt]].
  - assert (exists b L1', L1 = P1 ++ b :: L1' /\ P2 = b :: L1' ++ L2) as ([q m] & L1' & -> & ->).
    { rewrite EP in EL. apply app_eq_inv in EL as [(k & E1 & E2)|(k & E1 & E2)].
      - exfalso. apply (f_equal length) in E1. rewrite length_app in E1. lia.
      - destruct k as [|b k]; [rewrite app_nil_r in E1; subst; lia|]. by exists b, k. }
    cbn [head_of]. apply Forall_app in H1 as [_ [Hq _]%Forall_cons]. cbn in Hq.
    assert (last_of base P1 < q) as Hpq.
    { rewrite EP in Hg. destruct (last_of_cases base P1) as [[-> ->]|(P & a & n & -> & ->)]; [apply Hg|].
      pose proof (gaps_before _ _ _ _ _ a n Hg ltac:(set_solver)). destruct (ring_elem L a n R); [rewrite EP; set_solver|]. lia. }
    rewrite (proj2 (Z.ltb_ge bp q)), andb_false_r, (proj2 (Z.leb_gt q _)) by lia. cbn [andb].
    etrans; [|apply (IH (P1 ++ [(q, m)]) (L1' ++ L2)); [by rewrite <- app_assoc|]]; [by rewrite last_of_snoc|]. revert Hd. unfold dist. rewrite !length_app. cbn [length].
    destruct (Nat.leb_spec (length P1) (length P1 + S (length L1'))), (Nat.leb_spec (length P1 + 1) (length P1 + S (length L1'))); lia.
  - assert (P1 = L1 /\ P2 = L2) as [-> ->] by (rewrite EP in EL; by apply app_inj_1 in EL).
    assert (last_of base L1 < bp) as Hp.
    { destruct (last_of_cases base L1) as [[-> ->]|(P & a & n & -> & ->)]; [lia|].
      apply Forall_app in H1 as [_ H1]. by apply Forall_cons in H1 as [H1 _]. }
    rewrite (proj2 (Z.ltb_lt _ _) Hp). cbn [andb]. destruct L2 as [|[q m] L2]; cbn [head_of].
    + rewrite (proj2 (Z.ltb_ge bp base)), (proj2 (Z.leb_le base _)) by (lia || apply (ring_pos L L1 []); done). cbn. done.
    + apply Forall_cons in H2 as [H2 _]. by rewrite (proj2 (Z.ltb_lt bp q)).
  - assert (exists b P1', P1 = L1 ++ b :: P1' /\ L2 = b :: P1' ++ P2) as (b & P1' & -> & ->).
    { rewrite EP in EL. apply app_eq_inv in EL as [(k & E1 & E2)|(k & E1 & E2)].
      - destruct k as [|b k]; [rewrite app_nil_r in E1; subst; lia|]. by exists b, k.
      - exfalso. apply (f_equal length) in E1. rewrite length_app in E1. lia. }
    assert (bp < last_of base (L1 ++ b :: P1') /\ (forall q m P2', P2 = (q, m) :: P2' -> last_of base (L1 ++ b :: P1') < q)) as [Hp Hq].
    { destruct (last_of_cases base (L1 ++ b :: P1')) as [[E _]|(P & a & n & E & ->)]; [by destruct L1|].
      assert ((a, n) ∈ b :: P1') as Hin.
      { destruct (exists_last (l := b :: P1')) as (l & c & E'); [done|]. rewrite E', app_assoc in E. apply app_inj_tail in E as [_ ->].
        rewrite E'. set_solver. }
      split.
      - rewrite Forall_forall in H2. apply (H2 (a, n)). rewrite app_comm_cons. apply elem_of_app. by left.
      - intros q m P2' ->. rewrite E in EP. rewrite EP in Hg. pose proof (gaps_before _ _ _ _ _ a n Hg ltac:(set_solver)). destruct (ring_elem L a n R); [rewrite EP; set_solver|]. lia. }
    rewrite (proj2 (Z.ltb_ge (last_of _ _) bp)) by lia. cbn [andb orb]. destruct P2 as [|[q m] P2]; cbn [head_of].
    + rewrite (proj2 (Z.ltb_ge bp base)) by lia. rewrite andb_false_r. apply (IH [] L); [done|].
      rewrite app_nil_r in EP. rewrite <- EP in *. revert Hd. unfold dist. cbn [length].
      rewrite (proj2 (Nat.leb_gt _ _) Hgt). cbn. lia.
    + specialize (Hq q m P2 eq_refl). rewrite (proj2 (Z.leb_gt q _)) by lia. cbn [andb].
      etrans; [|apply (IH ((L1 ++ b :: P1') ++ [(q, m)]) P2); [by rewrite <- app_assoc|]]; [by rewrite last_of_snoc|]. revert Hd. rewrite EP. unfold dist. rewrite !length_app in *. cbn [length] in *.
      repeat match goal with |- context [(?a <=? ?b)%nat] => destruct (Nat.leb_spec a b) end; lia.
Qed.
End Search.

(** What [free] does to the free list. *)

#[local] Ltac Zify.zify_post_hook ::= Z.to_euclidean_division_equations.

(** The bytes of a block, and of a list of blocks. *)
Definition in_block (b : block) (x : Z) : Prop := b.1 <= x < b.1 + 8 * b.2.
Definition covers (L : list block) (x : Z) : Prop := exists b, b ∈ L /\ in_block b x.
Definition total (L : list block) : Z := foldr (fun b t => b.2 + t) 0 L.

Lemma covers_app L1 L2 x : covers (L1 ++ L2) x <-> covers L1 x \/ covers L2 x.
Proof. unfold covers. setoid_rewrite elem_of_app. naive_solver. Qed.
Lemma covers_cons b L x : covers (b :: L) x <-> in_block b x \/ covers L x.
Proof. unfold covers. setoid_rewrite elem_of_cons. naive_solver. Qed.
Lemma covers_nil x : covers [] x <-> False.
Proof. unfold covers. split; [|done]. by intros (b & ?%elem_of_nil & _). Qed.
Lemma total_app L1 L2 : total (L1 ++ L2) = total L1 + total L2.
Proof. induction L1 as [|b L1 IH]; [done|]. cbn [app total foldr]. fold (total (L1 ++ L2)). fold (total L1). lia. Qed.
Lemma total_cons b L : total (b :: L) = b.2 + total L.
Proof. done. Qed.

Lemma chain_move w w' p p' L e :
  chain w p L e -> w' p' = w p -> (forall a n, (a, n) ∈ L -> w' a = w a /\ w' (a + 4) = w (a + 4)) -> chain w' p' L e.
Proof.
  revert p p'. induction L as [|[a n] L IH]; intros p p'; cbn [chain]; [congruence|]. intros (H1 & H2 & H3) Hp Hk.
  destruct (Hk a n) as [K1 K2]; [by left|]. split; [congruence|]. split; [congruence|].
  apply (IH a a); [done | done|]. intros b m Hb. apply (Hk b m). by right.
Qed.

Section Free.
Context (base : Z).

(** The block [(bp, n)] linked to the blocks after it, and merged with the first
    of them if they touch. *)
Definition linked (w : Z -> Z) (bp n : Z) (L2 : list block) (w1 : Z -> Z) (n1 : Z) (L2' : list block) : Prop :=
  w1 (bp + 4) = n1 /\ chain w1 bp L2' base /\ gaps (bp + 8 * n1) L2' /\ 1 <= n1 /\
  (forall x, x <> bp -> x <> bp + 4 -> w1 x = w x) /\
  (forall x, covers ((bp, n1) :: L2') x <-> in_block (bp, n) x \/ covers L2 x) /\ total ((bp, n1) :: L2') = n + total L2 /\ (length L2' <= length L2)%nat.

Lemma link_right h L L1 L2 bp n :
  ring base h L -> L = L1 ++ L2 -> words h (bp + 4) = n -> base + 8 <= bp -> 1 <= n -> bp + 8 * n <= brk h -> brk h <= 2 ^ 31 ->
  Forall (fun '(a, _) => bp + 8 * n <= a) L2 ->
  exists h1 n1 L2',
    (if bp + sizeof_header * n =? head_of L2 base then
       let! m := get_size h (head_of L2 base) in
       let! h := set_hsize h bp (n + m) in
       let! r := get_ptr h (head_of L2 base) in
       set_ptr h bp r
     else set_ptr h bp (head_of L2 base)) = Ok h1 /\
    freep h1 = freep h /\ brk h1 = brk h /\ linked (words h) bp n L2 (words h1) n1 L2' /\ (forall b, b ∈ L2' -> b ∈ L2) /\ bp + 8 * n1 <= brk h.
Proof.
  intros R EL Hn Hb Hn1 Hbrk Hmax HL2. pose proof (r_pos _ _ _ R) as Hp. pose proof (r_chain _ _ _ R) as Hc. pose proof (r_gaps _ _ _ R) as Hg.
  rewrite EL in Hc, Hg. apply fchain_app in Hc as [_ Hc]. apply gaps_app in Hg as (_ & Hg & _). unfold sizeof_header.
  destruct L2 as [|[q m] L2]; cbn [head_of].
  - rewrite (proj2 (Z.eqb_neq _ _)) by lia. unfold set_ptr. rewrite store_ok by lia.
    eexists _, n, []. split; [done|]. split; [done|]. split; [done|]. split; [|done]. cbn [words]. split; [by rewrite uw_other by lia|].
    split; [apply uw_same|]. split; [done|]. split; [done|]. split; [intros x H1 H2; by rewrite uw_other|]. split; [|split; [cbn; lia | done]].
    intros x. rewrite covers_cons. done.
  - destruct Hc as [Hm Hc]. destruct Hg as (Hq & Hm1 & Hg). apply Forall_cons in HL2 as [Hle HL2].
    destruct (ring_elem base h L q m R) as (Q1 & Q2 & Q3); [rewrite EL; set_solver|].
    destruct (Z.eqb_spec (bp + 8 * n) q) as [E|Hne].
    + unfold get_size, set_hsize, get_ptr, set_ptr. rewrite load_ok by lia. cbn [rbind]. rewrite Hm, store_ok by lia. cbn [rbind].
      rewrite load_ok by (cbn [brk]; lia). cbn [rbind]. rewrite store_ok by (cbn [brk]; lia). cbn [words freep brk].
      rewrite u32_small by lia. eexists _, (n + m), L2. split; [done|]. split; [done|]. split; [done|].
      assert (forall a k, (a, k) ∈ L2 -> q + 8 * m < a) as Hfar by (intros a k Hin; apply (gaps_elem _ _ _ _ Hg Hin)).
      split; [|split; [intros b Hin; by right | lia]]. cbn [words]. split; [rewrite uw_other by lia; apply uw_same|]. split.
      { apply (chain_move (words h) _ q); [done | rewrite uw_same, uw_other by lia; done|].
        intros a k Hin. specialize (Hfar a k Hin). rewrite !uw_other by lia. done. }
      split; [eapply gaps_lo; [exact Hg | lia]|]. split; [lia|]. split; [intros x H1 H2; by rewrite !uw_other|]. split; [|split; [rewrite !total_cons; cbn [snd]; lia | cbn [length]; lia]].
      intros x. rewrite !covers_cons. unfold in_block. cbn [fst snd]. split; [intros [?|?]; [lia | tauto] | intros [?|[?|?]]; [lia | lia | tauto]].
    + unfold set_ptr. rewrite store_ok by lia. eexists _, n, ((q, m) :: L2). split; [done|]. split; [done|]. split; [done|]. split; [|done].
      assert (forall a k, (a, k) ∈ L2 -> q + 8 * m < a) as Hfar by (intros a k Hin; apply (gaps_elem _ _ _ _ Hg Hin)).
      cbn [words]. split; [by rewrite uw_other by lia|]. split.
      { cbn [chain]. split; [apply uw_same|]. split; [by rewrite uw_other by lia|].
        apply (chain_move (words h) _ q); [done | by rewrite uw_other by lia|]. intros a k Hin. specialize (Hfar a k Hin). by rewrite !uw_other by lia. }
      split; [split; [lia | done]|]. split; [done|]. split; [intros x H1 H2; by rewrite uw_other|]. split; [intros x; apply covers_cons | by split].
Qed.

(** [freep] is a header of the ring. *)
Definition at_ring (L : list block) (p : Z) : Prop := exists P1 P2, L = P1 ++ P2 /\ p = last_of base P1.

(** The ring after the position [p = last_of base L1] was linked to the block, or
    merged with it. *)
Lemma link_left h h1 L L1 L2 bp n n1 L2' :
  ring base h L -> L = L1 ++ L2 -> base + 8 <= bp -> brk h1 = brk h -> brk h <= 2 ^ 31 -> bp + 8 * n1 <= brk h ->
  Forall (fun '(a, m) => a + 8 * m <= bp) L1 -> linked (words h) bp n L2 (words h1) n1 L2' -> (forall b, b ∈ L2' -> b ∈ L2) ->
  let p := last_of base L1 in
  exists h2 L',
    (let! k := get_size h1 p in
     if p + sizeof_header * k =? bp then
       let! n := get_size h1 bp in
       let! h := set_hsize h1 p (k + n) in
       let! r := get_ptr h bp in
       set_ptr h p r
     else set_ptr h1 p bp) = Ok h2 /\
    brk h2 = brk h /\ ring base h2 L' /\ at_ring L' p /\
    (forall x, x <> base -> ~ covers L x -> ~ in_block (bp, n1) x -> words h2 x = words h x) /\
    (forall x, covers L' x <-> covers L1 x \/ covers ((bp, n1) :: L2') x) /\ total L' = total L1 + total ((bp, n1) :: L2') /\
    (length L' <= length L1 + S (length L2'))%nat.
Proof.
  intros R EL Hb Ebrk Hmax Hfit HL1 (Hn1 & Hc1 & Hg1 & Hpos & Hk1 & Hcov & Htot & _) Hsub p.
  pose proof (r_pos _ _ _ R) as Hp. pose proof (r_chain _ _ _ R) as Hc. pose proof (r_gaps _ _ _ R) as Hg. pose proof (r_in _ _ _ R) as Hin.
  pose proof (ring_pos base h L L1 L2 R EL) as Hpp. fold p in Hpp.
  rewrite EL in Hc, Hg. apply fchain_app in Hc as [Hc _]. apply gaps_app in Hg as (Hg & _ & _). rewrite EL in Hin. apply Forall_app in Hin as [Hin1 Hin2].
  assert (forall a m, (a, m) ∈ L1 -> a + 8 <= bp) as Hlow.
  { intros a m Ha. rewrite Forall_forall in HL1. pose proof (HL1 _ Ha). destruct (gaps_elem _ _ _ _ Hg Ha). cbn in *. lia. }
  assert (forall a m, (a, m) ∈ L2' -> bp + 8 * n1 < a) as Hhigh by (intros a m Ha; apply (gaps_elem _ _ _ _ Hg1 Ha)).
  assert (Forall (fun '(a, m) => base + 8 <= a /\ a + 8 * m <= brk h) L2') as Hin2'.
  { apply Forall_forall. intros b Hb'. rewrite Forall_forall in Hin2. by apply Hin2, Hsub. }
  assert (chain (words h1) base L1 (head_of L2 base) /\ words h1 (base + 4) = 0) as [Hc' Hbase].
  { split; [|rewrite Hk1 by lia; apply R]. apply (chain_move (words h) _ base); [done | rewrite Hk1 by lia; done|].
    intros a m Ha. specialize (Hlow a m Ha). by rewrite !Hk1 by lia. }
  unfold sizeof_header, get_size at 1, get_ptr, set_ptr, set_hsize. rewrite load_ok by (rewrite ?Ebrk; lia). cbn [rbind].
  destruct (last_of_cases base L1) as [[-> E]|(L0 & a & k & -> & E)]; fold p in E; rewrite E in *.
  - rewrite Hbase, (proj2 (Z.eqb_neq _ _)) by lia. rewrite store_ok by (rewrite ?Ebrk; lia). eexists _, ((bp, n1) :: L2'). split; [done|]. split; [done|].
    split; [split; cbn [words brk]|]; rewrite ?Ebrk.
    + cbn [chain]. split; [apply uw_same|]. split; [by rewrite uw_other by lia|].
      apply (chain_move (words h1) _ bp); [done | by rewrite uw_other by lia|]. intros a m Ha. specialize (Hhigh a m Ha). by rewrite !uw_other by lia.
    + by rewrite uw_other by lia.
    + cbn [gaps]. split; [lia | done].
    + lia.
    + constructor; [lia | done].
    + split; [by exists [], ((bp, n1) :: L2')|]. cbn [words]. split; [|split; [intros x; rewrite covers_nil; tauto | split; [cbn; lia | done]]].
      intros x H1 H2 H3. rewrite uw_other by done. apply Hk1; intros ->; apply H3; unfold in_block; cbn; lia.
  - pose proof Hc' as Hc''. apply fchain_app in Hc'' as [Hc0 [Hka _]]. rewrite Hka. apply gaps_app in Hg as (Hg0 & Hga & Hsep).
    destruct Hga as (Ha0 & Hk0 & _). apply Forall_app in HL1 as [HL0 Ha]. apply Forall_cons in Ha as [Ha _].
    assert (forall b m, (b, m) ∈ L0 -> b + 8 * m < a /\ 1 <= m /\ base < b) as Hlow0.
    { intros b m Hbm. rewrite Forall_forall in Hsep. destruct (gaps_elem _ _ _ _ Hg0 Hbm). pose proof (Hsep _ Hbm) as [? _]. lia. }
    assert (base + 8 <= a) as Hab by (apply Forall_app in Hin1 as [_ Hin1]; apply Forall_cons in Hin1 as [Hin1 _]; lia).
    destruct (Z.eqb_spec (a + 8 * k) bp) as [Em|Hne].
    + unfold get_size. rewrite load_ok by (rewrite ?Ebrk; lia). cbn [rbind]. rewrite Hn1, store_ok by (rewrite ?Ebrk; lia). cbn [rbind].
      rewrite load_ok by (cbn [brk]; rewrite ?Ebrk; lia). cbn [rbind]. rewrite store_ok by (cbn [brk]; rewrite ?Ebrk; lia). cbn [words freep brk].
      rewrite u32_small by lia. eexists _, (L0 ++ (a, k + n1) :: L2'). split; [done|]. split; [done|].
      split; [split; cbn [words brk]|]; rewrite ?Ebrk.
      * apply fchain_app. cbn [head_of]. split; [|split; [rewrite uw_other by lia; apply uw_same|]].
        { apply (chain_move (words h1) _ base); [done | by rewrite !uw_other by lia|]. intros b m Hbm. destruct (Hlow0 b m Hbm). by rewrite !uw_other by lia. }
        apply (chain_move (words h1) _ bp); [done | rewrite uw_same, uw_other by lia; done|]. intros b m Hbm. specialize (Hhigh b m Hbm). by rewrite !uw_other by lia.
      * by rewrite !uw_other by lia.
      * apply gaps_app. split; [done|]. assert (gaps (a + 8 * (k + n1)) L2') as Hgn by (eapply gaps_lo; [exact Hg1 | lia]).
        split; [cbn [gaps]; split; [lia|]; split; [lia | done]|]. apply Forall_forall. intros [b m] Hbm. destruct (Hlow0 b m Hbm).
        cbn [gaps]. split; [lia|]. split; [lia | done].
      * lia.
      * apply Forall_app. split; [by apply Forall_app in Hin1 as [Hin1 _]|]. constructor; [lia | done].
      * split; [exists (L0 ++ [(a, k + n1)]), L2'; split; [by rewrite <- app_assoc | by rewrite last_of_snoc]|]. cbn [words].
        split; [|split].
        { intros x H1 H2 H3. rewrite !uw_other; [apply Hk1; intros ->; apply H3; unfold in_block; cbn; lia | |];
            intros ->; apply H2; rewrite EL, covers_app; left; exists (a, k); (split; [set_solver | unfold in_block; cbn; lia]). }
        { intros x. rewrite !covers_app, !covers_cons, covers_nil. unfold in_block. cbn [fst snd].
          split; [intros [?|[?|?]]; [tauto | destruct (Z.lt_ge_cases x bp); [left; right; left; lia | right; left; lia] | tauto]
                 | intros [[?|[?|?]]|[?|?]]; [tauto | right; left; lia | done | right; left; lia | tauto]]. }
        { split; [rewrite !total_app, !total_cons; cbn [snd total foldr]; lia | rewrite !length_app; cbn [length]; lia]. }
    + rewrite store_ok by (rewrite ?Ebrk; lia). eexists _, ((L0 ++ [(a, k)]) ++ (bp, n1) :: L2'). split; [done|]. split; [done|].
      split; [split; cbn [words brk]|]; rewrite ?Ebrk.
      * rewrite <- app_assoc. cbn [app]. apply fchain_app. cbn [head_of]. split.
        { apply (chain_move (words h1) _ base); [done | by rewrite !uw_other by lia|]. intros b m Hbm. destruct (Hlow0 b m Hbm). by rewrite !uw_other by lia. }
        split; [by rewrite uw_other by lia|]. cbn [chain]. split; [apply uw_same|]. split; [by rewrite uw_other by lia|].
        apply (chain_move (words h1) _ bp); [done | by rewrite uw_other by lia|]. intros b m Hbm. specialize (Hhigh b m Hbm). by rewrite !uw_other by lia.
      * by rewrite !uw_other by lia.
      * rewrite <- app_assoc. cbn [app]. apply gaps_app. split; [done|].
        assert (gaps base ((a, k) :: (bp, n1) :: L2')) as Hgn by (cbn [gaps]; split; [lia|]; split; [lia|]; split; [lia|]; done).
        split; [done|]. apply Forall_forall. intros [b m] Hbm. destruct (Hlow0 b m Hbm). cbn [gaps] in *. split; [lia|]. apply Hgn.
      * lia.
      * apply Forall_app. split; [done|]. constructor; [lia | done].
      * split; [exists (L0 ++ [(a, k)]), ((bp, n1) :: L2'); split; [done | by rewrite last_of_snoc]|]. cbn [words].
        split; [|split; [intros x; by rewrite covers_app | split; [by rewrite total_app | by rewrite !length_app]]].
        intros x H1 H2 H3. rewrite uw_other; [apply Hk1; intros ->; apply H3; unfold in_block; cbn; lia|].
        intros ->. apply H2. rewrite EL, covers_app. left. exists (a, k). split; [set_solver | unfold in_block; cbn; lia].
Qed.
End Free.
