(* ===== verification/UmallocOps.v ===== *)
(** The invariant of the heap of a user program, and the operations of
    umalloc.c. *)
From stdpp Require Import gmap sets.
From S2P Require Import Prelude Umalloc UmallocLemmas.

#[local] Ltac Zify.zify_post_hook ::= Z.to_euclidean_division_equations.

Lemma gaps_length lo L top :
  gaps lo L -> Forall (fun '(a, n) => a + 8 * n <= top) L -> lo <= top -> 8 * zlen L <= top - lo.
Proof.
  revert lo. induction L as [|[a n] L IH]; intros lo; [cbn; lia|]. intros (H1 & H2 & H3) [H4 H5]%Forall_cons Hle.
  specialize (IH _ H3 H5 H4). cbn [length] in *. lia.
Qed.

(** Where a block belongs in the list. *)
Lemma block_split lo L bp n :
  gaps lo L -> 1 <= n -> (forall x, in_block (bp, n) x -> ~ covers L x) ->
  exists L1 L2, L = L1 ++ L2 /\ Forall (fun '(a, m) => a + 8 * m <= bp) L1 /\ Forall (fun '(a, _) => bp + 8 * n <= a) L2.
Proof.
  revert lo. induction L as [|[a m] L IH]; intros lo; [intros; by exists [], []|]. intros (H1 & H2 & H3) Hn Hd.
  assert (forall x, in_block (bp, n) x -> ~ in_block (a, m) x /\ ~ covers L x) as Hd'.
  { intros x Hx. specialize (Hd x Hx). rewrite covers_cons in Hd. tauto. }
  destruct (Z.le_gt_cases (a + 8 * m) bp) as [Hle|Hgt].
  - destruct (IH _ H3 Hn) as (L1 & L2 & -> & F1 & F2); [intros x Hx; by apply Hd'|]. exists ((a, m) :: L1), L2.
    split; [done|]. split; [by constructor | done].
  - assert (bp + 8 * n <= a) as Hle.
    { destruct (Z.le_gt_cases (bp + 8 * n) a); [done|]. exfalso. destruct (Hd' (Z.max a bp)) as [Hx _]; unfold in_block in *; cbn in *; lia. }
    exists [], ((a, m) :: L). split; [done|]. split; [done|]. constructor; [done|]. apply Forall_forall. intros [b k] Hb.
    destruct (gaps_elem _ _ _ _ H3 Hb). lia.
Qed.

(** An interval that is free is inside one block: neighbours have been merged. *)
Lemma gaps_interval lo L s t :
  gaps lo L -> s < t -> (forall x, s <= x < t -> covers L x) -> exists a n, (a, n) ∈ L /\ a <= s /\ t <= a + 8 * n.
Proof.
  revert lo. induction L as [|[a n] L IH]; intros lo; [intros _ Hst Hc; exfalso; by apply (covers_nil s), Hc; lia|].
  intros (H1 & H2 & H3) Hst Hc. assert (forall x, covers L x -> a + 8 * n < x) as Hlow.
  { intros x ([b m] & Hb & Hx). destruct (gaps_elem _ _ _ _ H3 Hb). unfold in_block in Hx. cbn in Hx. lia. }
  assert (forall x, s <= x < t -> a <= x < a + 8 * n \/ covers L x) as Hc'.
  { intros x Hx. specialize (Hc x Hx). rewrite covers_cons in Hc. unfold in_block in Hc. done. }
  destruct (Hc' s ltac:(lia)) as [Hs|Hs].
  - exists a, n. split; [by left|]. split; [lia|]. destruct (Z.le_gt_cases t (a + 8 * n)); [done|]. exfalso.
    destruct (Hc' (a + 8 * n) ltac:(lia)) as [?|Hx]; [lia|]. apply Hlow in Hx. lia.
  - destruct (IH _ H3 Hst) as (b & m & Hb & Hr); [|exists b, m; split; [by right | done]].
    intros x Hx. destruct (Hc' x Hx) as [Hin|]; [|done]. apply Hlow in Hs. lia.
Qed.

Section Inv.
Context (base : Z).

(** The heap [h] with the allocated blocks [A] and the free list [L]: the blocks
    are in memory and no two of them overlap. *)
Record heap_ok (h : heap) (A : gmap Z Z) (L : list block) : Prop := {
  h_ring : ring base h L;
  h_freep : at_ring base L (freep h);
  h_brk : brk h <= 2 ^ 31;
  h_alloc : forall a n, A !! a = Some n -> words h (a + 4) = n /\ base + 8 <= a /\ 1 <= n /\ a + 8 * n <= brk h;
  h_apart : forall a n b m x, A !! a = Some n -> A !! b = Some m -> in_block (a, n) x -> in_block (b, m) x -> a = b;
  h_free : forall a n x, A !! a = Some n -> in_block (a, n) x -> ~ covers L x;
}.

(** The words of the allocated blocks are untouched. *)
Definition kept (h h' : heap) (A : gmap Z Z) : Prop :=
  forall a n x, A !! a = Some n -> in_block (a, n) x -> words h' x = words h x.

Lemma dist_le i t k : (i <= k)%nat -> (t <= k)%nat -> (dist i t k <= k)%nat.
Proof. intros. unfold dist. destruct (Nat.leb_spec i t); lia. Qed.

(** [free] of a block that is not on the list. *)
Lemma free_core h L bp n :
  ring base h L -> at_ring base L (freep h) -> brk h <= 2 ^ 31 -> words h (bp + 4) = n -> base + 8 <= bp -> 1 <= n -> bp + 8 * n <= brk h ->
  (forall x, in_block (bp, n) x -> ~ covers L x) ->
  exists h' L', free h (bp + 8) = Ok h' /\ ring base h' L' /\ at_ring base L' (freep h') /\ brk h' = brk h /\
    (forall x, covers L' x <-> covers L x \/ in_block (bp, n) x) /\ total L' = total L + n /\ (length L' <= S (length L))%nat /\
    (forall x, x <> base -> ~ covers L x -> ~ in_block (bp, n) x -> words h' x = words h x).
Proof.
  intros R (P1 & P2 & EP & Ef) Hmax Hn Hb Hn1 Hfit Hd. destruct (block_split _ _ _ _ (r_gaps _ _ _ R) Hn1 Hd) as (L1 & L2 & EL & F1 & F2).
  assert (length L <= Z.to_nat (brk h))%nat as Hlen.
  { assert (Forall (fun '(a, n) => a + 8 * n <= brk h) L) as Ftop.
    { eapply Forall_impl; [apply (r_in _ _ _ R)|]. intros [a m] H. cbn in *. lia. }
    pose proof (r_pos _ _ _ R). pose proof (gaps_length _ _ _ (r_gaps _ _ _ R) Ftop ltac:(lia)). lia. }
  unfold free, sizeof_header. replace (bp + 8 - 8) with bp by lia. rewrite Ef.
  rewrite (free_search_ok base h (rounds h) L bp P1 P2 L1 L2); [|done|done|done|lia| | |].
  2:{ apply Forall_forall. intros [a m] Ha. rewrite Forall_forall in F1. pose proof (F1 _ Ha).
      destruct (ring_elem base h L a m R) as (_ & Hm & _); [rewrite EL; apply elem_of_app; by left|]. cbn in *. lia. }
  2:{ eapply Forall_impl; [exact F2|]. intros [a m] Ha. cbv beta iota in Ha |- *. clear - Ha Hn1. lia. }
  2:{ assert (length P1 <= length L /\ length L1 <= length L)%nat as [H1 H2] by (split; [rewrite EP | rewrite EL]; rewrite length_app; lia).
      unfold rounds. pose proof (dist_le _ _ _ H1 H2). lia. }
  cbn [rbind]. pose proof (r_pos _ _ _ R). unfold get_size at 1. rewrite load_ok by lia. cbn [rbind]. rewrite Hn, (ring_ptr base h L L1 L2 R EL). cbn [rbind].
  destruct (link_right base h L L1 L2 bp n R EL Hn Hb Hn1 Hfit Hmax F2) as (h1 & n1 & L2' & E1 & Ef1 & Eb1 & Hlink & Hsub & Hfit1).
  unfold sizeof_header in E1. rewrite E1. cbn [rbind].
  destruct (link_left base h h1 L L1 L2 bp n n1 L2' R EL Hb Eb1 Hmax Hfit1 F1 Hlink Hsub) as (h2 & L' & E2 & Eb2 & R2 & Hat & Hkeep & Hcov & Htot & Hlen2).
  unfold sizeof_header in E2. destruct (get_size h1 (last_of base L1)) as [k|e]; [|done]. cbn [rbind] in E2 |- *. rewrite E2. cbn [rbind].
  destruct Hlink as (_ & _ & _ & _ & _ & Hcov1 & Htot1 & Hlen1).
  exists (set_freep h2 (last_of base L1)), L'. split; [done|]. split; [by destruct R2|]. split; [done|]. split; [done|].
  split; [|split; [rewrite Htot, Htot1, EL, total_app; lia | split; [rewrite EL, length_app; lia|]]].
  - intros x. rewrite Hcov, Hcov1, EL, covers_app. tauto.
  - intros x H1 H2 H3. apply Hkeep; [done | done|]. intros Hin. assert (covers ((bp, n1) :: L2') x) as Hx by (rewrite covers_cons; by left).
    apply Hcov1 in Hx as [Hx|Hx]; [done|]. apply H2. rewrite EL, covers_app. by right.
Qed.

Lemma kept_alloc h h' A L L' :
  heap_ok h A L -> ring base h' L' -> at_ring base L' (freep h') -> brk h <= brk h' -> brk h' <= 2 ^ 31 -> kept h h' A ->
  (forall a n x, A !! a = Some n -> in_block (a, n) x -> ~ covers L' x) -> heap_ok h' A L'.
Proof.
  intros H R Hat Hb Hmax Hk Hf. split; [done | done | done | | apply H | done]. intros a n Ha. destruct (h_alloc _ _ _ H a n Ha) as (E & H1 & H2 & H3).
  rewrite (Hk a n) by (done || (unfold in_block; cbn; lia)). split; [done | lia].
Qed.

Lemma heap_sub h A A' L : A' ⊆ A -> heap_ok h A L -> heap_ok h A' L.
Proof.
  intros Hs H. pose proof (fun a n => lookup_weaken A' A a n) as W. split; [apply H | apply H | apply H | | |].
  - intros a n Ha. eapply (h_alloc _ _ _ H), W; eauto.
  - intros a n b m x Ha Hb. eapply (h_apart _ _ _ H); eapply W; eauto.
  - intros a n x Ha. eapply (h_free _ _ _ H), W; eauto.
Qed.

Lemma free_ok h A L bp n :
  heap_ok h A L -> A !! bp = Some n ->
  exists h' L', free h (bp + 8) = Ok h' /\ heap_ok h' (delete bp A) L' /\ kept h h' (delete bp A) /\ total L' = total L + n /\ brk h' = brk h.
Proof.
  intros H Ha. destruct (h_alloc _ _ _ H bp n Ha) as (E & H1 & H2 & H3).
  destruct (free_core h L bp n) as (h' & L' & Ef & R & Hat & Eb & Hcov & Htot & _ & Hk); try done; try apply H.
  { intros x. by apply (h_free _ _ _ H). }
  assert (forall a m x, delete bp A !! a = Some m -> in_block (a, m) x -> ~ covers L x /\ ~ in_block (bp, n) x) as Hd.
  { intros a m x Hm Hx. apply lookup_delete_Some in Hm as [Hne Hm]. split; [by apply (h_free _ _ _ H a m)|]. intros Hx'. apply Hne. by apply (h_apart _ _ _ H bp n a m x). }
  assert (kept h h' (delete bp A)) as Hkept.
  { intros a m x Hm Hx. destruct (Hd a m x Hm Hx). apply Hk; [|done|done]. apply lookup_delete_Some in Hm as [_ Hm].
    destruct (h_alloc _ _ _ H a m Hm) as (_ & ? & _). unfold in_block in Hx. cbn in Hx. lia. }
  exists h', L'. split; [done|]. split; [|done]. apply (kept_alloc h h' _ L L'); [eapply heap_sub, H; apply delete_subseteq | done | done | lia | rewrite Eb; apply H | done|].
  intros a m x Hm Hx Hc. apply Hcov in Hc. destruct (Hd a m x Hm Hx). tauto.
Qed.
End Inv.

(** [morecore] and the loop of [malloc]: growing the heap, walking the ring, and
    taking a block off it. *)

#[local] Ltac Zify.zify_post_hook ::= Z.to_euclidean_division_equations.

(** * The positions of the ring by number: 0 is the static header. *)

Section Walk.
Context (base : Z) (h : heap) (L : list block) (R : ring base h L).

Definition pos (i : nat) : Z := last_of base (take i L).
Definition next (i : nat) : nat := if (i <? length L)%nat then S i else 0.

Lemma pos_S i a n : L !! i = Some (a, n) -> pos (S i) = a.
Proof. intros H. unfold pos. rewrite (take_S_r _ _ _ H). apply last_of_snoc. Qed.

Lemma pos_next i : (i <= length L)%nat -> get_ptr h (pos i) = Ok (pos (next i)).
Proof.
  intros Hi. unfold pos at 1. rewrite (ring_ptr base h L (take i L) (drop i L) R) by (symmetry; apply take_drop). f_equal. unfold next.
  destruct (Nat.ltb_spec i (length L)) as [Hlt|Hge].
  - destruct (lookup_lt_is_Some_2 L i Hlt) as [[a n] E]. by rewrite (drop_S _ _ _ E), (pos_S _ _ _ E).
  - by rewrite drop_ge by done.
Qed.

Lemma pos_bounds i : base <= pos i /\ pos i + 8 <= brk h.
Proof. apply (ring_pos base h L (take i L) (drop i L) R). symmetry. apply take_drop. Qed.

Lemma size_base : get_size h (pos 0) = Ok 0.
Proof. destruct (r_pos _ _ _ R). change (pos 0) with base. unfold get_size. rewrite load_ok by lia. f_equal. apply R. Qed.

Lemma size_block i a n : L !! i = Some (a, n) -> words h (a + 4) = n /\ get_size h a = Ok n.
Proof.
  intros E. destruct (ring_elem base h L a n R) as (H1 & H2 & H3); [by apply list_elem_of_lookup_2 in E|]. destruct (r_pos _ _ _ R).
  assert (words h (a + 4) = n) as Ew.
  { eapply (chain_at _ base L base (take i L) a n (drop (S i) L)); [apply R|]. symmetry. by apply take_drop_middle. }
  split; [done|]. unfold get_size. rewrite load_ok by lia. by rewrite Ew.
Qed.

(** Two positions with the same address are one. *)
Lemma pos_inj i j : (i <= length L)%nat -> (j <= length L)%nat -> pos i = pos j -> i = j.
Proof.
  intros Hi Hj E. pose proof (gaps_nodup base L (r_gaps _ _ _ R)) as Hnd.
  assert (forall k, (k <= length L)%nat -> (base :: L.*1) !! k = Some (pos k)) as Hk.
  { intros [|k] Hk; [done|]. change (L.*1 !! k = Some (pos (S k))). destruct (lookup_lt_is_Some_2 L k Hk) as [[a n] Ek]. by rewrite list_lookup_fmap, Ek, (pos_S _ _ _ Ek). }
  eapply NoDup_lookup; [exact Hnd | by apply Hk | rewrite E; by apply Hk].
Qed.

(** ** The walk of [malloc] *)

Context (grow : Z -> Z -> bool) (nu : Z) (f : nat) (Hf : (f <= length L)%nat) (Efreep : freep h = pos f) (Hnu : 1 <= nu).

(** The blocks between [freep] and the position [i] are too small. *)
Definition seen (i : nat) : Prop :=
  forall j b, L !! j = Some b -> (if (f <=? i)%nat then f <= j < i else j < i \/ f <= j)%nat -> b.2 < nu.

(** The rounds left. *)
Definition walk (i : nat) : nat := if (f <=? i)%nat then length L - i + 1 + f else f - i.

Definition fits (fuel i : nat) : Prop := exists j a n fuel', L !! j = Some (a, n) /\ nu <= n /\
  malloc_loop grow fuel h nu (pos i) (pos (next i)) = malloc_loop grow (S fuel') h nu (pos j) a.

Definition too_small (fuel i : nat) : Prop := (forall b, b ∈ L -> b.2 < nu) /\ exists fuel' prev sz, (fuel <= fuel' + walk i)%nat /\
  get_size h (freep h) = Ok sz /\ sz < nu /\
  malloc_loop grow fuel h nu (pos i) (pos (next i)) = malloc_loop grow (S fuel') h nu prev (freep h).

Lemma walk_ok fuel i : (i <= length L)%nat -> seen i -> (walk i <= fuel)%nat -> fits fuel i \/ too_small fuel i.
Proof using R Hf Efreep Hnu.
  revert i. induction fuel as [|fuel IH]; intros i Hi Hs Hw.
  { exfalso. unfold walk in Hw. destruct (Nat.leb_spec f i); lia. }
  (* the position reached: its size, and that it is the next block *)
  assert ((exists a n, L !! i = Some (a, n) /\ nu <= n /\ pos (next i) = a) \/
          exists sz, get_size h (pos (next i)) = Ok sz /\ sz < nu /\ (forall b, L !! i = Some b -> b.2 < nu)) as [(a & n & E & Hn & Ep)|(sz & Esz & Hsz & Hbi)].
  { unfold next. destruct (Nat.ltb_spec i (length L)) as [Hlt|Hge].
    - destruct (lookup_lt_is_Some_2 L i Hlt) as [[a n] E]. destruct (Z.le_gt_cases nu n) as [Hle|Hgt]; [left; exists a, n; by rewrite (pos_S _ _ _ E)|].
      right. exists n. rewrite (pos_S _ _ _ E). split; [by apply (size_block i)|]. split; [done|]. intros b Eb. rewrite E in Eb. by injection Eb as <-.
    - right. exists 0. split; [apply size_base|]. split; [lia|]. intros b Eb. apply lookup_lt_Some in Eb. lia. }
  { left. exists i, a, n, fuel. by rewrite Ep. }
  assert (next i <= length L)%nat as Hni by (unfold next; destruct (Nat.ltb_spec i (length L)); lia).
  destruct (decide (next i = f)) as [Ef|Hne].
  - right. split.
    + intros b [j Ej]%list_elem_of_lookup. destruct (decide (j = i)) as [->|Hji]; [by apply Hbi|]. apply (Hs j b Ej).
      apply lookup_lt_Some in Ej. revert Ef. unfold next. destruct (Nat.ltb_spec i (length L)), (Nat.leb_spec f i); lia.
    + exists fuel, (pos i), sz. rewrite Efreep, <- Ef. split; [|done]. unfold walk. destruct (Nat.leb_spec f i); lia.
  - assert (malloc_loop grow (S fuel) h nu (pos i) (pos (next i)) = malloc_loop grow fuel h nu (pos (next i)) (pos (next (next i)))) as Estep.
    { cbn [malloc_loop]. rewrite Esz. cbn [rbind]. rewrite (proj2 (Z.leb_gt _ _) Hsz), (proj2 (Z.eqb_neq _ _)).
      - rewrite (pos_next _ Hni). done.
      - rewrite Efreep. intros E. by apply Hne, pos_inj. }
    assert (walk i = S (walk (next i))) as Ew.
    { revert Hne. unfold walk, next. destruct (Nat.ltb_spec i (length L)) as [Hlt|Hge], (Nat.leb_spec f i) as [Hfi|Hfi];
        [destruct (Nat.leb_spec f (S i)) | destruct (Nat.leb_spec f (S i)) | destruct (Nat.leb_spec f 0) | destruct (Nat.leb_spec f 0)]; lia. }
    destruct (IH (next i) Hni) as [(j & a & n & fuel' & E1 & E2 & E3)|(Hall & fuel' & prev & sz' & E1 & E2 & E3 & E4)].
    + intros j b Ej Hj. destruct (decide (j = i)) as [->|Hji]; [by apply Hbi|]. apply (Hs j b Ej). apply lookup_lt_Some in Ej. revert Hj Hne. unfold next.
      destruct (Nat.ltb_spec i (length L)) as [Hlt|Hge], (Nat.leb_spec f i) as [Hfi|Hfi];
        [destruct (Nat.leb_spec f (S i)) | destruct (Nat.leb_spec f (S i)) | destruct (Nat.leb_spec f 0) | destruct (Nat.leb_spec f 0)]; lia.
    + lia.
    + left. exists j, a, n, fuel'. rewrite Estep. done.
    + right. split; [done|]. exists fuel', prev, sz'. rewrite Estep. split; [lia|]. done.
Qed.

(** A whole round from [freep]. *)
Lemma round_ok fuel : (length L + 1 <= fuel)%nat -> fits fuel f \/ too_small fuel f.
Proof using R Hf Efreep Hnu.
  intros H. apply walk_ok; [done | |].
  - intros j b _. destruct (Nat.leb_spec f f); lia.
  - unfold walk. destruct (Nat.leb_spec f f); lia.
Qed.
End Walk.

(** * Taking a block off the ring *)

Section Take.
Context (base : Z) (grow : Z -> Z -> bool).

(** The block [(x, nu)] was cut out of the free list [L], which is [L'] now. *)
Record cut (h h' : heap) (L L' : list block) (x nu : Z) : Prop := {
  c_ring : ring base h' L';
  c_freep : at_ring base L' (freep h');
  c_brk : brk h' = brk h;
  c_size : words h' (x + 4) = nu;
  c_lo : base + 8 <= x /\ x + 8 * nu <= brk h;
  c_sub : forall y, in_block (x, nu) y -> covers L y;
  c_rest : forall y, covers L' y -> covers L y;
  c_apart : forall y, in_block (x, nu) y -> ~ covers L' y;
  c_total : total L = total L' + nu;
  c_kept : forall y, y <> base -> ~ covers L y -> words h' y = words h y;
}.

Context (h : heap) (L1 : list block) (a n : Z) (L2 : list block) (nu : Z).
Context (R : ring base h (L1 ++ (a, n) :: L2)) (Hbrk : brk h <= 2 ^ 31) (Hnu : 1 <= nu).

Lemma take_facts :
  0 < base /\ base + 8 <= a /\ 1 <= n /\ a + 8 * n <= brk h /\ words h (a + 4) = n /\ words h a = head_of L2 base /\
  (forall b m, (b, m) ∈ L1 -> base + 8 <= b /\ 1 <= m /\ b + 8 * m < a) /\ (forall b m, (b, m) ∈ L2 -> a + 8 * n < b) /\
  base <= last_of base L1 /\ last_of base L1 + 8 <= a /\ brk h <= 2 ^ 31.
Proof.
  destruct (ring_elem base h _ a n R) as (H1 & H2 & H3); [set_solver|]. pose proof (r_gaps _ _ _ R) as Hg. destruct (r_pos _ _ _ R).
  destruct (chain_at _ _ _ _ L1 a n L2 (r_chain _ _ _ R) eq_refl) as [E1 E2].
  assert (forall b m, (b, m) ∈ L1 -> base + 8 <= b /\ 1 <= m /\ b + 8 * m < a) as HL1.
  { intros b m Hb. pose proof (gaps_before _ _ _ _ _ b m Hg Hb). destruct (ring_elem base h _ b m R); [set_solver|]. lia. }
  split; [lia|]. do 5 (split; [done|]). split; [done|]. split.
  { intros b m Hb. apply gaps_app in Hg as (_ & (_ & _ & Hg) & _). apply (gaps_elem _ _ _ _ Hg Hb). }
  destruct (last_of_cases base L1) as [[-> ->]|(P & b & m & -> & ->)]; [lia|]. destruct (HL1 b m); [set_solver|]. lia.
Qed.

(** The block fits exactly. *)
Lemma take_exact fuel : n = nu ->
  exists h', malloc_loop grow (S fuel) h nu (last_of base L1) a = Ok (h', Some (a + 8)) /\ cut h h' (L1 ++ (a, n) :: L2) (L1 ++ L2) a nu.
Proof.
  intros En. destruct take_facts as (H0 & Ha & Hn & Hfit & Ew & Ep & HL1 & HL2 & Hp1 & Hp2 & Hmax). set (p := last_of base L1) in *.
  cbn [malloc_loop]. unfold get_size, get_ptr, set_ptr. rewrite load_ok by lia. cbn [rbind]. rewrite Ew, En, Z.leb_refl, Z.eqb_refl, load_ok by lia. cbn [rbind].
  rewrite Ep, store_ok by lia. cbn [rbind]. eexists. split; [reflexivity|]. unfold set_freep. cbn [words freep brk].
  pose proof (r_gaps _ _ _ R) as Hg. pose proof Hg as (Hg1 & Hg2 & Hg3)%gaps_app. pose proof (r_chain _ _ _ R) as [Hc1 [_ Hc2]]%fchain_app. cbn [head_of] in Hc1.
  assert (NoDup (base :: L1.*1)) as Hnd by (by apply gaps_nodup).
  split; cbn [words freep brk].
  - split; cbn [words brk].
    + apply fchain_app. split.
      * eapply chain_relink; [exact Hc1 | done | | |].
        -- intros b m Hb. destruct (HL1 b m Hb). rewrite uw_other; [done|]. unfold p.
           destruct (last_of_cases base L1) as [[-> ->]|(P & c & k & EP & ->)]; [lia|]. intros <-.
           rewrite EP in Hb, Hg1. apply elem_of_app in Hb as [Hb|Hb%list_elem_of_singleton]; [|injection Hb; lia].
           pose proof (gaps_before _ _ _ _ _ b m Hg1 Hb). destruct (HL1 b m); [rewrite EP; set_solver|]. lia.
        -- intros x _ Hx. by rewrite uw_other.
        -- apply uw_same.
      * destruct L2 as [|[b m] L2']; [done|]. destruct Hc2 as (_ & Eb & Hc2). pose proof (HL2 b m ltac:(set_solver)) as Hb. split; [by rewrite uw_other by lia|].
        apply (chain_move (words h) _ b); [done | by rewrite uw_other by lia|]. intros c k Hc. pose proof (HL2 c k ltac:(set_solver)). by rewrite !uw_other by lia.
    + pose proof (r_base _ _ _ R). rewrite uw_other; [done|]. unfold p.
      destruct (last_of_cases base L1) as [[-> ->]|(P & b & m & EP & ->)]; [lia|]. destruct (HL1 b m); [rewrite EP; set_solver|]. lia.
    + destruct Hg2 as (_ & _ & Hg2). apply gaps_app. split; [done|]. split; [eapply gaps_lo; [exact Hg2 | lia]|].
      eapply Forall_impl; [exact Hg3|]. intros [b m] (? & ? & ?). eapply gaps_lo; [exact Hg2 | lia].
    + apply R.
    + pose proof (r_in _ _ _ R) as [F1 [_ F2]%Forall_cons]%Forall_app. by apply Forall_app.
  - exists L1, L2. done.
  - done.
  - rewrite uw_other by lia. by rewrite Ew.
  - lia.
  - intros y Hy. rewrite covers_app, covers_cons. tauto.
  - intros y. rewrite !covers_app, covers_cons. tauto.
  - intros y Hy. rewrite covers_app. unfold in_block in Hy. cbn [fst snd] in Hy. intros [([b m] & Hb & Hx)|([b m] & Hb & Hx)]; unfold in_block in Hx; cbn [fst snd] in Hx.
    + destruct (HL1 b m Hb). lia.
    + pose proof (HL2 b m Hb). lia.
  - rewrite !total_app, total_cons. cbn [snd]. lia.
  - intros y Hy1 Hy2. rewrite uw_other; [done|]. intros ->. unfold p in *.
    destruct (last_of_cases base L1) as [[-> E]|(P & b & m & EP & E)]; rewrite E in *; [done|]. apply Hy2. rewrite covers_app. left. exists (b, m).
    destruct (HL1 b m) as (? & ? & ?); [rewrite EP; set_solver|]. split; [rewrite EP; set_solver | unfold in_block; cbn; lia].
Qed.

(** The tail of a block is cut off. *)
Lemma take_tail fuel : nu < n ->
  exists h', malloc_loop grow (S fuel) h nu (last_of base L1) a = Ok (h', Some (a + 8 * (n - nu) + 8)) /\
    cut h h' (L1 ++ (a, n) :: L2) (L1 ++ (a, n - nu) :: L2) (a + 8 * (n - nu)) nu.
Proof.
  intros Hlt. destruct take_facts as (H0 & Ha & Hn & Hfit & Ew & Ep & HL1 & HL2 & Hp1 & Hp2 & Hmax).
  cbn [malloc_loop]. unfold get_size, set_hsize, sizeof_header. rewrite load_ok by lia. cbn [rbind]. rewrite Ew, (proj2 (Z.leb_le _ _)), (proj2 (Z.eqb_neq _ _)) by lia.
  rewrite store_ok by lia. cbn [rbind]. rewrite load_ok by (cbn [brk]; lia). cbn [rbind words]. rewrite uw_same, !u32_small by lia.
  rewrite store_ok by (cbn [brk]; lia). cbn [rbind words freep brk]. eexists. split; [reflexivity|]. unfold set_freep. cbn [words freep brk].
  pose proof (r_gaps _ _ _ R) as Hg. pose proof Hg as (Hg1 & Hg2 & Hg3)%gaps_app. pose proof (r_chain _ _ _ R) as [Hc1 [_ Hc2]]%fchain_app. cbn [head_of] in Hc1.
  split; cbn [words freep brk].
  - split; cbn [words brk].
    + apply fchain_app. cbn [head_of]. split; [|split].
      * apply (chain_move (words h) _ base); [done | by rewrite !uw_other by lia|]. intros b m Hb. destruct (HL1 b m Hb). by rewrite !uw_other by lia.
      * rewrite uw_other by lia. apply uw_same.
      * apply (chain_move (words h) _ a); [done | by rewrite !uw_other by lia|]. intros b m Hb. pose proof (HL2 b m Hb). by rewrite !uw_other by lia.
    + rewrite !uw_other by lia. apply R.
    + destruct Hg2 as (? & _ & Hg2). assert (gaps (a + 8 * (n - nu)) L2) as Hg2' by (eapply gaps_lo; [exact Hg2 | lia]).
      apply gaps_app. split; [done|]. split; [split; [lia | split; [lia | done]]|].
      eapply Forall_impl; [exact Hg3|]. intros [b m] (? & _ & _). split; [lia | split; [lia | done]].
    + apply R.
    + pose proof (r_in _ _ _ R) as [F1 [? F2]%Forall_cons]%Forall_app. apply Forall_app. split; [done|]. constructor; [lia | done].
  - exists L1, ((a, n - nu) :: L2). done.
  - done.
  - apply uw_same.
  - lia.
  - intros y Hy. rewrite covers_app, covers_cons. right. left. unfold in_block in *. cbn [fst snd] in *. lia.
  - intros y. rewrite !covers_app, !covers_cons. unfold in_block. cbn [fst snd]. intros [?|[?|?]]; [tauto | right; left; lia | tauto].
  - intros y Hy. rewrite covers_app, covers_cons. unfold in_block in *. cbn [fst snd] in *. intros [([b m] & Hb & Hx)|[Hx|([b m] & Hb & Hx)]]; unfold in_block in Hx; cbn [fst snd] in Hx.
    + destruct (HL1 b m Hb). lia.
    + lia.
    + pose proof (HL2 b m Hb). lia.
  - rewrite !total_app, !total_cons. cbn [snd]. lia.
  - intros y Hy1 Hy2. rewrite !uw_other; [done | |]; intros ->; apply Hy2; rewrite covers_app, covers_cons; right; left; unfold in_block; cbn [fst snd]; lia.
Qed.

Lemma take_ok fuel : nu <= n ->
  exists h' L' x, malloc_loop grow (S fuel) h nu (last_of base L1) a = Ok (h', Some (x + 8)) /\ cut h h' (L1 ++ (a, n) :: L2) L' x nu.
Proof.
  intros H. destruct (decide (n = nu)) as [E|Hne].
  - destruct (take_exact fuel E) as (h' & E1 & E2). by exists h', (L1 ++ L2), a.
  - destruct (take_tail fuel) as (h' & E1 & E2); [lia|]. by exists h', (L1 ++ (a, n - nu) :: L2), (a + 8 * (n - nu)).
Qed.
End Take.
