(* ===== verification/UmallocProps.v ===== *)
(** The allocator of the user programs is correct: what [malloc] and [free] do,
    and that no sequence of calls breaks the heap. *)
From stdpp Require Import gmap sets.
From S2P Require Import Prelude Umalloc UmallocLemmas UmallocOps.

#[local] Ltac Zify.zify_post_hook ::= Z.to_euclidean_division_equations.

(** What the allocator needs of the kernel: a process never reaches the kernel's
    addresses. *)
Class GrowLimit (grow : Z -> Z -> bool) := grow_limit b n : grow b n = true -> b + n <= 2 ^ 31.

Section Malloc.
Context (base : Z) (grow : Z -> Z -> bool) `{!GrowLimit grow}.

Definition more (nu : Z) : Z := if nu <? 4096 then 4096 else nu.

(** The heap after [sbrk], with the new memory as a block. *)
Lemma morecore_ok h A L nu :
  heap_ok base h A L -> 1 <= nu < 2 ^ 28 ->
  grow (brk h) (8 * more nu) = false /\ morecore grow h nu = Ok (h, None) \/
  exists h' L', morecore grow h nu = Ok (h', Some (freep h')) /\ heap_ok base h' A L' /\ kept h h' A /\
    brk h' = brk h + 8 * more nu /\ total L' = total L + more nu /\ (length L' <= S (length L))%nat /\
    exists b, b ∈ L' /\ nu <= b.2.
Proof.
  intros H Hnu. unfold morecore. fold (more nu). assert (nu <= more nu < 2 ^ 28 /\ 4096 <= more nu) as [Hm Hm'] by (unfold more; destruct (Z.ltb_spec nu 4096); lia).
  set (k := more nu) in *. replace (s32 (u32 (k * sizeof_header))) with (8 * k) by (unfold sizeof_header; rewrite u32_small, s32_small by lia; lia).
  unfold sbrk. destruct (grow (brk h) (8 * k)) eqn:Eg; [right | by left]. apply grow_limit in Eg.
  destruct (r_pos _ _ _ (h_ring _ _ _ _ H)) as [Hp1 Hp2]. unfold set_hsize. rewrite store_ok by (cbn [brk]; lia). cbn [rbind words freep brk]. rewrite u32_small by lia.
  set (w := upd_word _ _ _). assert (forall x, x < brk h -> w x = words h x) as Hw.
  { intros x Hx. unfold w. rewrite uw_other by lia. destruct (Z.leb_spec (brk h) x); [lia | done]. }
  set (h1 := mk_heap w (freep h) (brk h + 8 * k)).
  assert (forall a n, (a, n) ∈ L -> base + 8 <= a /\ 1 <= n /\ a + 8 * n <= brk h) as HL by (intros a n; apply ring_elem, H).
  assert (ring base h1 L) as R1.
  { pose proof (h_ring _ _ _ _ H) as R. split; cbn [words brk h1].
    - apply (chain_move (words h) _ base); [apply R | apply Hw; lia|]. intros a n Ha. destruct (HL a n Ha). split; apply Hw; lia.
    - rewrite Hw by lia. apply R.
    - apply R.
    - lia.
    - eapply Forall_impl; [apply R|]. intros [a n] ?. lia. }
  destruct (free_core base h1 L (brk h) k) as (h' & L' & Ef & R' & Hat & Eb & Hcov & Htot & Hlen & Hk); try done; try (cbn [brk h1]; lia).
  { apply H. }
  { cbn [words h1]. apply uw_same. }
  { intros x Hx ([a n] & Ha & Hin). destruct (HL a n Ha). unfold in_block in *. cbn in *. lia. }
  change sizeof_header with 8. rewrite Ef. cbn [rbind]. cbn [brk h1] in Eb.
  assert (kept h h' A) as Hkept.
  { intros a n x Ha Hx. destruct (h_alloc _ _ _ _ H a n Ha) as (_ & ? & ? & ?). unfold in_block in Hx. cbn [fst snd] in Hx.
    rewrite Hk; [apply Hw; lia | lia | by apply (h_free _ _ _ _ H a n) | unfold in_block; cbn [fst snd]; lia]. }
  exists h', L'. split; [done|]. split; [|split; [done|]; split; [done|]; split; [done|]; split; [done|]].
  - apply (kept_alloc base h h' A L L'); [done | done | done | lia | lia | done|]. intros a n x Ha Hx Hc. apply Hcov in Hc as [Hc|Hc]; [by apply (h_free _ _ _ _ H a n x)|].
    destruct (h_alloc _ _ _ _ H a n Ha) as (_ & ? & ? & ?). unfold in_block in *. cbn [fst snd] in *. lia.
  - destruct (gaps_interval base L' (brk h) (brk h + 8 * k) (r_gaps _ _ _ R')) as (a & n & Ha & H1 & H2); [lia | |].
    + intros x Hx. apply Hcov. right. done.
    + exists (a, n). split; [done|]. cbn [snd]. lia.
Qed.

(** The block [x] of [nu] units is taken from the free list. *)
Lemma cut_ok h h' A L L' x nu :
  heap_ok base h A L -> cut base h h' L L' x nu -> 1 <= nu ->
  A !! x = None /\ heap_ok base h' (<[x := nu]> A) L' /\ kept h h' A.
Proof.
  intros H C Hnu. destruct (c_lo _ _ _ _ _ _ _ C).
  assert (forall a n y, A !! a = Some n -> in_block (a, n) y -> ~ in_block (x, nu) y) as Hd.
  { intros a n y Ha Hy Hin. eapply (h_free _ _ _ _ H a n y Ha Hy), c_sub; eauto. }
  assert (kept h h' A) as Hk.
  { intros a n y Ha Hy. destruct (h_alloc _ _ _ _ H a n Ha) as (_ & ? & ? & ?). apply (c_kept _ _ _ _ _ _ _ C); [unfold in_block in Hy; cbn in Hy; lia|].
    by apply (h_free _ _ _ _ H a n). }
  assert (A !! x = None) as Hx.
  { destruct (A !! x) as [n|] eqn:E; [|done]. exfalso. destruct (h_alloc _ _ _ _ H x n E) as (_ & ? & ? & ?). apply (Hd x n x); [done | |]; unfold in_block; cbn; lia. }
  split; [done|]. split; [|done]. split.
  - apply C.
  - apply C.
  - rewrite (c_brk _ _ _ _ _ _ _ C). apply H.
  - rewrite (c_brk _ _ _ _ _ _ _ C). intros a n [[-> ->]|[_ Ha]]%lookup_insert_Some; [split; [apply C | lia]|].
    destruct (h_alloc _ _ _ _ H a n Ha) as (E & ? & ? & ?). rewrite (Hk a n) by (done || (unfold in_block; cbn; lia)). done.
  - intros a n b m y [[-> ->]|[Hne Ha]]%lookup_insert_Some [[-> ->]|[Hne' Hb]]%lookup_insert_Some Y1 Y2; [done | | | by apply (h_apart _ _ _ _ H a n b m y)].
    + by destruct (Hd b m y).
    + by destruct (Hd a n y).
  - intros a n y [[-> ->]|[Hne Ha]]%lookup_insert_Some Hy; [by apply C|]. intros Hc. by apply (h_free _ _ _ _ H a n y Ha Hy), (c_rest _ _ _ _ _ _ _ C).
Qed.

(** One round of the loop: a block is found, or [freep] is reached. *)
Lemma round_taken h A L nu fuel P1 P2 :
  heap_ok base h A L -> L = P1 ++ P2 -> freep h = last_of base P1 -> 1 <= nu -> (length L + 1 <= fuel)%nat ->
  (exists h' L' x, malloc_loop grow fuel h nu (freep h) (head_of P2 base) = Ok (h', Some (x + 8)) /\ cut base h h' L L' x nu) \/
  (forall b, b ∈ L -> b.2 < nu) /\ exists fuel' prev sz, (fuel <= fuel' + (length L + 1))%nat /\ get_size h (freep h) = Ok sz /\ sz < nu /\
    malloc_loop grow fuel h nu (freep h) (head_of P2 base) = malloc_loop grow (S fuel') h nu prev (freep h).
Proof.
  intros H EL Ef Hnu Hfuel. assert (length P1 <= length L)%nat as Hl by (rewrite EL, length_app; lia). pose proof (h_ring _ _ _ _ H) as R.
  assert (pos base L (length P1) = freep h) as Ep by (rewrite Ef; unfold pos; f_equal; rewrite EL; apply take_app_length).
  assert (head_of P2 base = pos base L (next L (length P1))) as En.
  { pose proof (pos_next base h L R (length P1) Hl) as E. rewrite Ep, Ef, (ring_ptr base h L P1 P2 R EL) in E. by injection E. }
  destruct (round_ok base h L R grow nu (length P1) Hl (eq_sym Ep) Hnu fuel Hfuel) as [(j & a & n & fuel' & Ej & Hn & E)|(Hall & fuel' & prev & sz & E1 & E2 & E3 & E4)].
  - left. rewrite En, <- Ep, E. pose proof (take_drop_middle _ _ _ Ej) as Em. rewrite <- Em in R.
    destruct (take_ok base grow h (take j L) a n (drop (S j) L) nu R (h_brk _ _ _ _ H) Hnu fuel' Hn) as (h' & L' & x & Ex & C). rewrite Em in C.
    exists h', L', x. done.
  - right. split; [done|]. exists fuel', prev, sz. rewrite En. rewrite Ep in E4. split; [|done].
    revert E1. unfold walk. destruct (Nat.leb_spec (length P1) (length P1)); lia.
Qed.

(** The loop from [freep]. *)
Lemma loop_ok h A L nu fuel P1 P2 :
  heap_ok base h A L -> L = P1 ++ P2 -> freep h = last_of base P1 -> 1 <= nu < 2 ^ 28 -> (2 * length L + 4 <= fuel)%nat ->
  (malloc_loop grow fuel h nu (freep h) (head_of P2 base) = Ok (h, None) /\ (forall b, b ∈ L -> b.2 < nu) /\ grow (brk h) (8 * more nu) = false) \/
  exists h' L' x, malloc_loop grow fuel h nu (freep h) (head_of P2 base) = Ok (h', Some (x + 8)) /\ A !! x = None /\
    heap_ok base h' (<[x := nu]> A) L' /\ kept h h' A /\ 8 * (total L' + nu) - brk h' = 8 * total L - brk h.
Proof.
  intros H EL Ef Hnu Hfuel. destruct (round_taken h A L nu fuel P1 P2) as [(h' & L' & x & E & C)|(Hall & fuel' & prev & sz & Hf & Esz & Hsz & E)]; try done; try lia.
  { right. exists h', L', x. destruct (cut_ok h h' A L L' x nu H C) as (H1 & H2 & H3); [lia|]. do 4 (split; [done|]).
    rewrite (c_total _ _ _ _ _ _ _ C), (c_brk _ _ _ _ _ _ _ C). lia. }
  rewrite E. cbn [malloc_loop]. rewrite Esz. cbn [rbind]. rewrite (proj2 (Z.leb_gt _ _) Hsz), Z.eqb_refl.
  destruct (morecore_ok h A L nu H Hnu) as [[Eg ->]|(h1 & L1 & Em & H1 & Hk1 & Eb1 & Et1 & Hl1 & b & Hb & Hfit)]; [by left|].
  right. rewrite Em. cbn [rbind]. destruct (h_freep _ _ _ _ H1) as (Q1 & Q2 & EQ & Ef1). rewrite Ef1, (ring_ptr base h1 L1 Q1 Q2 (h_ring _ _ _ _ H1) EQ). cbn [rbind]. rewrite <- Ef1.
  destruct (round_taken h1 A L1 nu fuel' Q1 Q2) as [(h' & L' & x & E' & C)|(Hall' & _)]; try done; try lia.
  - exists h', L', x. destruct (cut_ok h1 h' A L1 L' x nu H1 C) as (H2 & H3 & H4); [lia|]. split; [done|]. split; [done|]. split; [done|]. split.
    + intros a n y Ha Hy. rewrite (H4 a n y), (Hk1 a n y) by done. done.
    + rewrite (c_brk _ _ _ _ _ _ _ C). pose proof (c_total _ _ _ _ _ _ _ C). lia.
  - specialize (Hall' b Hb). lia.
Qed.

Lemma units_bounds nbytes : 0 <= nbytes <= 2 ^ 31 - 16 -> 1 <= units nbytes < 2 ^ 28 /\ nbytes <= 8 * (units nbytes - 1).
Proof. intros H. unfold units, sizeof_header. rewrite u32_small by lia. lia. Qed.

Lemma ring_rounds h L : ring base h L -> (length L <= Z.to_nat (brk h))%nat.
Proof.
  intros R. assert (Forall (fun '(a, n) => a + 8 * n <= brk h) L) as Ftop.
  { eapply Forall_impl; [apply R|]. intros [a m] ?. lia. }
  pose proof (r_pos _ _ _ R). pose proof (gaps_length _ _ _ (r_gaps _ _ _ R) Ftop ltac:(lia)). lia.
Qed.

(** Before the first call there is no ring. *)
Definition fresh (h : heap) : Prop := freep h = 0 /\ 0 < base /\ base + 8 <= brk h /\ brk h <= 2 ^ 31.
Definition heap_state (h : heap) (A : gmap Z Z) (L : list block) : Prop := heap_ok base h A L \/ fresh h /\ A = ∅ /\ L = [].

(** The heap on which the loop of [malloc] runs. *)
Lemma malloc_start h A L :
  heap_state h A L -> exists h0, heap_ok base h0 A L /\ brk h0 = brk h /\ kept h h0 A /\
    forall nbytes, malloc base grow h nbytes = let! p := get_ptr h0 (freep h0) in malloc_loop grow (2 * rounds h0 + 2) h0 (units nbytes) (freep h0) p.
Proof.
  intros [H|((Ef & Hb1 & Hb2 & Hb3) & -> & ->)].
  - exists h. split; [done|]. split; [done|]. split; [done|]. intros nbytes. unfold malloc. destruct (h_freep _ _ _ _ H) as (P1 & P2 & EL & Ef).
    destruct (ring_pos base h L P1 P2 (h_ring _ _ _ _ H) EL). pose proof (r_pos _ _ _ (h_ring _ _ _ _ H)). by rewrite (proj2 (Z.eqb_neq _ _)) by lia.
  - eexists. repeat apply conj; cycle 3.
    + intros nbytes. unfold malloc. rewrite Ef. cbn [Z.eqb]. unfold set_ptr, set_hsize, set_freep. rewrite store_ok by (cbn [brk]; lia). cbn [rbind].
      rewrite store_ok by (cbn [brk]; lia). cbn [rbind]. reflexivity.
    + split; cbn [words freep brk].
      * split; cbn [words brk chain gaps]; [rewrite uw_other by lia; apply uw_same | rewrite uw_same; reflexivity | done | lia | constructor].
      * by exists [], [].
      * done.
      * intros a n Ha. by rewrite lookup_empty in Ha.
      * intros a n b m x Ha. by rewrite lookup_empty in Ha.
      * intros a n x Ha. by rewrite lookup_empty in Ha.
    + done.
    + intros a n x Ha. by rewrite lookup_empty in Ha.
Qed.

Lemma malloc_run h A L nbytes :
  heap_state h A L -> 0 <= nbytes <= 2 ^ 31 - 16 ->
  (exists h', malloc base grow h nbytes = Ok (h', None) /\ heap_ok base h' A L /\ kept h h' A /\
     (forall b, b ∈ L -> b.2 < units nbytes) /\ grow (brk h) (8 * more (units nbytes)) = false) \/
  exists h' L' x, malloc base grow h nbytes = Ok (h', Some (x + 8)) /\ A !! x = None /\
    heap_ok base h' (<[x := units nbytes]> A) L' /\ kept h h' A /\ 8 * (total L' + units nbytes) - brk h' = 8 * total L - brk h.
Proof.
  intros H Hn. destruct (malloc_start h A L H) as (h0 & H0 & Eb & Hk & Em). rewrite Em. destruct (h_freep _ _ _ _ H0) as (P1 & P2 & EL & Ef).
  assert (get_ptr h0 (freep h0) = Ok (head_of P2 base)) as -> by (rewrite Ef; apply (ring_ptr base h0 L P1 P2 (h_ring _ _ _ _ H0) EL)). rewrite rbind_ok.
  destruct (loop_ok h0 A L (units nbytes) (2 * rounds h0 + 2) P1 P2) as [(E & Hall & Hg)|(h' & L' & x & E & Hx & H' & Hk' & Ht)]; try done.
  - by apply units_bounds.
  - pose proof (ring_rounds h0 L (h_ring _ _ _ _ H0)). unfold rounds. lia.
  - left. exists h0. rewrite Eb in Hg. done.
  - right. exists h', L', x. rewrite Eb in Ht. split; [done|]. split; [done|]. split; [done|]. split; [|done].
    intros a n y Ha Hy. rewrite (Hk' a n y), (Hk a n y) by done. done.
Qed.
End Malloc.

(** * A program and its objects

    A program allocates, frees its live objects and writes inside them.  [M] is
    what the program expects: the live objects, with the size asked for and the
    words written. *)

Section Client.
Context (base : Z) (grow : Z -> Z -> bool) `{!GrowLimit grow}.

Inductive request := RMalloc (nbytes : Z) | RFree (p : Z) | RWrite (p i v : Z).
Notation objects := (gmap Z (Z * gmap Z Z)).

Definition serve (h : heap) (M : objects) (r : request) : result (heap * objects) :=
  match r with
  | RMalloc n =>
      let! '(h, o) := malloc base grow h n in
      Ok (h, match o with Some p => <[p := (n, ∅)]> M | None => M end)
  | RFree p => if decide (is_Some (M !! p)) then let! h := free h p in Ok (h, delete p M) else Ok (h, M)
  | RWrite p i v =>
      match M !! p with
      | Some (n, C) => if (0 <=? i) && (4 * i + 4 <=? n) then let! h := store h (p + 4 * i) v in Ok (h, <[p := (n, <[i := v]> C)]> M) else Ok (h, M)
      | None => Ok (h, M)
      end
  end.

Fixpoint serve_all (h : heap) (M : objects) (rs : list request) : result (heap * objects) :=
  match rs with
  | [] => Ok (h, M)
  | r :: rs => let! '(h, M) := serve h M r in serve_all h M rs
  end.

(** A size [malloc] can serve: beyond it the number of units wraps to a small
    one, or [morecore] asks [sbrk] for a negative amount. *)
Definition servable (r : request) : Prop := match r with RMalloc n => 0 <= n <= 2 ^ 31 - 16 | _ => True end.

(** The allocated blocks are those of the live objects. *)
Record objects_ok (h : heap) (M : objects) (A : gmap Z Z) (L : list block) : Prop := {
  o_heap : heap_state base h A L;
  o_blocks : forall a, A !! a = (fun '(nb, _) => units nb) <$> M !! (a + 8);
  o_words : forall p nb C, M !! p = Some (nb, C) ->
    0 <= nb <= 2 ^ 31 - 16 /\ forall i v, C !! i = Some v -> 0 <= i /\ 4 * i + 4 <= nb /\ words h (p + 4 * i) = v;
}.

Lemma object_block h M A L p nb C :
  objects_ok h M A L -> M !! p = Some (nb, C) ->
  heap_ok base h A L /\ A !! (p - 8) = Some (units nb) /\ 0 <= nb <= 2 ^ 31 - 16 /\ (forall x, p <= x < p + nb -> in_block (p - 8, units nb) x) /\
  base + 8 <= p - 8 /\ p - 8 + 8 * units nb <= brk h /\ nb <= 8 * (units nb - 1).
Proof.
  intros H Hp. assert (A !! (p - 8) = Some (units nb)) as Ha by (rewrite (o_blocks _ _ _ _ H), Z.sub_add, Hp; done).
  destruct (o_heap _ _ _ _ H) as [H'|(_ & -> & _)]; [|by rewrite lookup_empty in Ha]. destruct (o_words _ _ _ _ H p nb C Hp) as [Hnb _].
  destruct (units_bounds nb Hnb). destruct (h_alloc _ _ _ _ H' _ _ Ha) as (_ & ? & ? & ?).
  split; [done|]. split; [done|]. split; [done|]. split; [intros x Hx; unfold in_block; cbn; lia | lia].
Qed.

(** The words of the objects survive when the blocks are kept. *)
Lemma words_kept h h' M A A' L p nb C :
  objects_ok h M A L -> kept h h' A' -> M !! p = Some (nb, C) -> A' !! (p - 8) = Some (units nb) ->
  0 <= nb <= 2 ^ 31 - 16 /\ forall i v, C !! i = Some v -> 0 <= i /\ 4 * i + 4 <= nb /\ words h' (p + 4 * i) = v.
Proof.
  intros H Hk Hp Ha. destruct (o_words _ _ _ _ H p nb C Hp) as [Hnb Hw]. split; [done|]. intros i v Hi. destruct (Hw i v Hi) as (H1 & H2 & <-).
  split; [done|]. split; [done|]. destruct (object_block _ _ _ _ _ _ _ H Hp) as (_ & _ & _ & Hin & _). apply (Hk _ _ _ Ha). apply Hin. lia.
Qed.

Lemma serve_malloc h M A L n :
  objects_ok h M A L -> 0 <= n <= 2 ^ 31 - 16 -> exists h' M' A' L', serve h M (RMalloc n) = Ok (h', M') /\ objects_ok h' M' A' L'.
Proof.
  intros H Hn. cbn [serve].
  destruct (malloc_run base grow h A L n (o_heap _ _ _ _ H) Hn) as [(h' & E & H' & Hk & _)|(h' & L' & x & E & Hx & H' & Hk & _)]; rewrite E, rbind_ok.
  - exists h', M, A, L. split; [done|]. split; [by left | apply H|]. intros p nb C Hp. eapply words_kept; eauto. by apply (object_block h M A L p nb C).
  - exists h', (<[x + 8 := (n, ∅)]> M), (<[x := units n]> A), L'. split; [done|]. split; [by left | |].
    + intros a. destruct (decide (a = x)) as [->|Hne]; [by rewrite !lookup_insert_eq|]. rewrite !lookup_insert_ne by lia. apply H.
    + intros p nb C [[<- E']|[Hne Hp]]%lookup_insert_Some.
      * injection E' as <- <-. split; [lia|]. intros i v Hi. by rewrite lookup_empty in Hi.
      * eapply words_kept; eauto. by apply (object_block h M A L p nb C).
Qed.

Lemma serve_free h M A L p :
  objects_ok h M A L -> exists h' M' A' L', serve h M (RFree p) = Ok (h', M') /\ objects_ok h' M' A' L'.
Proof.
  intros H. cbn [serve]. destruct (decide _) as [[[nb C] Hp]|Hn]; [|by eauto 10].
  destruct (object_block h M A L p nb C H Hp) as (H' & Ha & _). destruct (free_ok base h A L (p - 8) (units nb) H' Ha) as (h' & L' & E & Hok & Hk & _).
  rewrite Z.sub_add in E. rewrite E, rbind_ok. exists h', (delete p M), (delete (p - 8) A), L'. split; [done|]. split; [by left | |].
  - intros a. destruct (decide (a = p - 8)) as [->|Hne]; [by rewrite Z.sub_add, !lookup_delete_eq|]. rewrite !lookup_delete_ne by lia. apply H.
  - intros q nb' C' [Hne Hq]%lookup_delete_Some. eapply words_kept; eauto. rewrite lookup_delete_ne by lia. by apply (object_block h M A L q nb' C').
Qed.

Lemma serve_write h M A L p i v :
  objects_ok h M A L -> exists h' M' A' L', serve h M (RWrite p i v) = Ok (h', M') /\ objects_ok h' M' A' L'.
Proof.
  intros H. cbn [serve]. destruct (M !! p) as [[nb C]|] eqn:Hp; [|by eauto 10]. destruct (Z.leb_spec 0 i), (Z.leb_spec (4 * i + 4) nb); cbn [andb]; try by eauto 10.
  destruct (object_block h M A L p nb C H Hp) as (H' & Ha & Hnb & Hin & Hlo & Hhi & Hu). destruct (r_pos _ _ _ (h_ring _ _ _ _ H')).
  rewrite store_ok by lia. rewrite rbind_ok. set (x := p + 4 * i). assert (in_block (p - 8, units nb) x) as Hx by (apply Hin; lia).
  assert (~ covers L x) as Hnc by (by apply (h_free _ _ _ _ H' (p - 8) (units nb))).
  assert (forall a n, (a, n) ∈ L -> a <> x /\ a + 4 <> x) as HL.
  { intros a n Hin'. destruct (ring_elem base h L a n (h_ring _ _ _ _ H') Hin') as (? & ? & ?). split; intros E; apply Hnc; exists (a, n); (split; [done | unfold in_block; cbn; lia]). }
  eexists _, _, A, L. split; [reflexivity|]. split.
  - left. split; cbn [words freep brk].
    + pose proof (h_ring _ _ _ _ H') as R. split; cbn [words brk]; [|rewrite uw_other by lia; apply R | apply R | apply R | apply R].
      apply (chain_move (words h) _ base); [apply R | by rewrite uw_other by lia|]. intros a n Hin'. destruct (HL a n Hin'). by rewrite !uw_other by done.
    + apply H'.
    + apply H'.
    + intros a n Hn. destruct (h_alloc _ _ _ _ H' a n Hn) as (E & ? & ? & ?). rewrite uw_other; [done|]. intros E'.
      assert (a = p - 8) by (apply (h_apart _ _ _ _ H' a n (p - 8) (units nb) x); try done; unfold in_block; cbn; lia). lia.
    + apply H'.
    + apply H'.
  - intros a. rewrite (o_blocks _ _ _ _ H). destruct (decide (a + 8 = p)) as [->|Hne]; [by rewrite Hp, lookup_insert_eq | by rewrite lookup_insert_ne].
  - cbn [words]. intros q nb' C' [[<- E]|[Hne Hq]]%lookup_insert_Some.
    + injection E as <- <-. split; [done|]. intros j w [[<- <-]|[Hne Hj]]%lookup_insert_Some; [split; [done|]; split; [done|]; apply uw_same|].
      destruct (o_words _ _ _ _ H p nb C Hp) as [_ Hw]. destruct (Hw j w Hj) as (? & ? & ?). rewrite uw_other by lia. done.
    + destruct (o_words _ _ _ _ H q nb' C' Hq) as [? Hw]. split; [done|]. intros j w Hj. destruct (Hw j w Hj) as (? & ? & ?). rewrite uw_other; [done|].
      intros E. destruct (object_block h M A L q nb' C' H Hq) as (_ & Ha' & _ & Hin' & _).
      assert (q - 8 = p - 8) by (apply (h_apart _ _ _ _ H' (q - 8) (units nb') (p - 8) (units nb) x); try done; apply Hin'; lia). lia.
Qed.

Lemma serve_all_ok rs h M A L : Forall servable rs -> objects_ok h M A L -> exists h' M' A' L', serve_all h M rs = Ok (h', M') /\ objects_ok h' M' A' L'.
Proof.
  intros Hrs. revert h M A L. induction Hrs as [|r rs Hr Hrs IH]; intros h M A L H; [by exists h, M, A, L|]. cbn [serve_all].
  assert (exists h' M' A' L', serve h M r = Ok (h', M') /\ objects_ok h' M' A' L') as (h1 & M1 & A1 & L1 & -> & H1).
  { destruct r; [by apply (serve_malloc _ _ A L) | by eapply serve_free | by eapply serve_write]. }
  rewrite rbind_ok. by eapply IH.
Qed.

(** C18: a program allocates objects of at most 2^31 - 16 bytes each (for more
    [malloc] is wrong: umalloc.c:69 wraps the size, umalloc.c:54 shrinks the
    process), frees its live objects and writes inside them, in any order.  Then
    every call returns without an access outside the memory of the process, each
    live object holds the words last written to it, and no two live objects share
    a byte. *)
Theorem objects_are_private h rs :
  fresh base h -> Forall servable rs ->
  exists h' M, serve_all h ∅ rs = Ok (h', M) /\
    (forall p nb C i v, M !! p = Some (nb, C) -> C !! i = Some v -> load h' (p + 4 * i) = Ok v) /\
    (forall p nb C q nb' C' x, M !! p = Some (nb, C) -> M !! q = Some (nb', C') -> p <= x < p + nb -> q <= x < q + nb' -> p = q).
Proof.
  intros H Hrs. assert (objects_ok h ∅ ∅ []) as H0.
  { split; [by right | |]; intros *; rewrite !lookup_empty; [done|]. intros ?. done. }
  destruct (serve_all_ok rs h ∅ ∅ [] Hrs H0) as (h' & M & A & L & E & Hok). exists h', M. split; [done|]. split.
  - intros p nb C i v Hp Hi. destruct (o_words _ _ _ _ Hok p nb C Hp) as [_ Hw]. destruct (Hw i v Hi) as (H1 & H2 & <-).
    destruct (object_block h' M A L p nb C Hok Hp) as (H' & _ & _ & _ & Hlo & Hhi & Hu). destruct (r_pos _ _ _ (h_ring _ _ _ _ H')). apply load_ok; lia.
  - intros p nb C q nb' C' x Hp Hq H1 H2. destruct (object_block h' M A L p nb C Hok Hp) as (H' & Ha & _ & Hin & _).
    destruct (object_block h' M A L q nb' C' Hok Hq) as (_ & Ha' & _ & Hin' & _).
    assert (p - 8 = q - 8) by (apply (h_apart _ _ _ _ H' (p - 8) (units nb) (q - 8) (units nb') x); try done; [by apply Hin | by apply Hin']). lia.
Qed.
End Client.

(** * The contract of one call *)

(** C25: on a heap whose blocks [A] are allocated, [malloc] of at most 2^31 - 16
    bytes (its size computation is wrong beyond) keeps the contents of the
    allocated blocks and either returns a block apart from them that is
    large enough, the bytes of the process accounted for, or fails, when no
    free block is large enough and the kernel refuses to grow the process. *)
Theorem malloc_contract base grow `{!GrowLimit grow} h A L nbytes :
  heap_state base h A L -> 0 <= nbytes <= 2 ^ 31 - 16 ->
  exists h' r, malloc base grow h nbytes = Ok (h', r) /\ kept h h' A /\
    match r with
    | Some p => exists L' n, A !! (p - 8) = None /\ nbytes <= 8 * n - 8 /\ heap_ok base h' (<[p - 8 := n]> A) L' /\
        brk h' - 8 * (total L' + n) = brk h - 8 * total L
    | None => heap_ok base h' A L /\ (forall a n, (a, n) ∈ L -> 8 * n < nbytes + 8) /\ grow (brk h) (8 * more (units nbytes)) = false
    end.
Proof.
  intros H Hn. destruct (units_bounds nbytes Hn) as [Hu1 Hu2]. destruct (malloc_run base grow h A L nbytes H Hn) as [(h' & E & H' & Hk & Hall & Hg)|(h' & L' & x & E & Hx & H' & Hk & Ht)].
  - exists h', None. split; [done|]. split; [done|]. split; [done|]. split; [|done]. intros a n Hin. specialize (Hall _ Hin). cbn [snd] in Hall.
    revert Hall. unfold units, sizeof_header. rewrite u32_small by lia. lia.
  - exists h', (Some (x + 8)). split; [done|]. split; [done|]. exists L', (units nbytes). rewrite Z.add_simpl_r. split; [done|]. split; [lia|]. split; [done | lia].
Qed.

(** * A concrete process: two pages, the static header at 4096. *)

Definition demo_grow (b n : Z) : bool := b + n <=? 2 ^ 31.
#[export] Instance demo_limit : GrowLimit demo_grow.
Proof. intros b n H. by apply Z.leb_le in H. Qed.
Definition demo_heap : heap := mk_heap (fun _ => 0) 0 8192.

Lemma objects_are_private_witness :
  exists h' M, serve_all 4096 demo_grow demo_heap ∅ [RMalloc 10; RMalloc 20; RWrite 40912 1 7; RFree 40944; RMalloc 8; RWrite 40912 2 9] = Ok (h', M) /\
    (forall p nb C i v, M !! p = Some (nb, C) -> C !! i = Some v -> load h' (p + 4 * i) = Ok v) /\
    (forall p nb C q nb' C' x, M !! p = Some (nb, C) -> M !! q = Some (nb', C') -> p <= x < p + nb -> q <= x < q + nb' -> p = q).
Proof.
  apply (objects_are_private 4096 demo_grow demo_heap).
  - unfold fresh, demo_heap. cbn [freep brk]. lia.
  - repeat constructor; cbn; lia.
Defined.

Lemma malloc_contract_witness :
  exists h' r, malloc 4096 demo_grow demo_heap 10 = Ok (h', r) /\ kept demo_heap h' ∅ /\
    match r with
    | Some p => exists L' n, (∅ : gmap Z Z) !! (p - 8) = None /\ 10 <= 8 * n - 8 /\ heap_ok 4096 h' (<[p - 8 := n]> ∅) L' /\
        brk h' - 8 * (total L' + n) = brk demo_heap - 8 * total []
    | None => heap_ok 4096 h' ∅ [] /\ (forall a n, (a, n) ∈ @nil block -> 8 * n < 10 + 8) /\ demo_grow (brk demo_heap) (8 * more (units 10)) = false
    end.
Proof. apply (malloc_contract 4096 demo_grow demo_heap ∅ [] 10); [right; unfold fresh, demo_heap; cbn [freep brk]; (split; [lia | done]) | lia]. Defined.

Example demo_pointers :
  (let! '(h, p) := malloc 4096 demo_grow demo_heap 10 in let! '(h, q) := malloc 4096 demo_grow h 20 in Ok (p, q, brk h)) = Ok (Some 40944, Some 40912, 40960).
Proof. vm_compute. reflexivity. Qed.
