(* ===== verification/Proc.v ===== *)
(** Processes: src/src/proc.c and proc.h, and the process system calls of
    src/src/sysproc.c.

    A [struct proc *] is the number of the slot, [None] for 0; the address of a
    slot is used as a sleep channel.  The trap frame, the return address and the
    context, which lie on the kernel stack, are fields of the slot.  A function
    that gives up the processor ends there: what runs after [swtch] returns is a
    function of its own ([sleep_end], and [wait_pass] again).  The parts of the
    kernel that proc.c calls, memory and files, are the class [ProcEnv].  The
    registers [switchuvm] loads and [procdump] are not here. *)
From S2P Require Import Prelude Ulib.

Definition NPROC : nat := 64.
Definition NOFILE : nat := 100.
Definition PGSIZE : Z := 4096.

Inductive procstate := UNUSED | EMBRYO | SLEEPING | RUNNABLE | RUNNING | ZOMBIE.

#[global] Instance procstate_eq_dec : EqDecision procstate.
Proof. solve_decision. Defined.

Definition is_state (s t : procstate) : bool := bool_decide (s = t).

Record trapframe := mk_tf {
  tf_edi : Z; tf_esi : Z; tf_ebp : Z; tf_oesp : Z; tf_ebx : Z; tf_edx : Z; tf_ecx : Z; tf_eax : Z;
  tf_gs : Z; tf_fs : Z; tf_es : Z; tf_ds : Z; tf_trapno : Z;
  tf_err : Z; tf_eip : Z; tf_cs : Z; tf_eflags : Z; tf_esp : Z; tf_ss : Z;
}.

Definition tf_zero : trapframe := mk_tf 0 0 0 0 0 0 0 0 0 0 0 0 0 0 0 0 0 0 0.
Definition set_eax (v : Z) (t : trapframe) : trapframe :=
  mk_tf (tf_edi t) (tf_esi t) (tf_ebp t) (tf_oesp t) (tf_ebx t) (tf_edx t) (tf_ecx t) v
    (tf_gs t) (tf_fs t) (tf_es t) (tf_ds t) (tf_trapno t) (tf_err t) (tf_eip t) (tf_cs t) (tf_eflags t) (tf_esp t) (tf_ss t).

Record context := mk_context { c_edi : Z; c_esi : Z; c_ebx : Z; c_ebp : Z; c_eip : Z }.

Record proc := mk_proc {
  p_sz : Z;
  p_pgdir : Z;
  p_kstack : Z;
  p_state : procstate;
  p_pid : Z;
  p_parent : option nat;
  p_tf : trapframe;
  p_ret : Z;
  p_context : context;
  p_chan : Z;
  p_killed : bool;
  p_ofile : list (option Z);
  p_cwd : Z;
  p_name : bytes;
}.

Definition set_sz v p := mk_proc v (p_pgdir p) (p_kstack p) (p_state p) (p_pid p) (p_parent p) (p_tf p) (p_ret p) (p_context p) (p_chan p) (p_killed p) (p_ofile p) (p_cwd p) (p_name p).
Definition set_pgdir v p := mk_proc (p_sz p) v (p_kstack p) (p_state p) (p_pid p) (p_parent p) (p_tf p) (p_ret p) (p_context p) (p_chan p) (p_killed p) (p_ofile p) (p_cwd p) (p_name p).
Definition set_kstack v p := mk_proc (p_sz p) (p_pgdir p) v (p_state p) (p_pid p) (p_parent p) (p_tf p) (p_ret p) (p_context p) (p_chan p) (p_killed p) (p_ofile p) (p_cwd p) (p_name p).
Definition set_state v p := mk_proc (p_sz p) (p_pgdir p) (p_kstack p) v (p_pid p) (p_parent p) (p_tf p) (p_ret p) (p_context p) (p_chan p) (p_killed p) (p_ofile p) (p_cwd p) (p_name p).
Definition set_pid v p := mk_proc (p_sz p) (p_pgdir p) (p_kstack p) (p_state p) v (p_parent p) (p_tf p) (p_ret p) (p_context p) (p_chan p) (p_killed p) (p_ofile p) (p_cwd p) (p_name p).
Definition set_parent v p := mk_proc (p_sz p) (p_pgdir p) (p_kstack p) (p_state p) (p_pid p) v (p_tf p) (p_ret p) (p_context p) (p_chan p) (p_killed p) (p_ofile p) (p_cwd p) (p_name p).
Definition set_tf v p := mk_proc (p_sz p) (p_pgdir p) (p_kstack p) (p_state p) (p_pid p) (p_parent p) v (p_ret p) (p_context p) (p_chan p) (p_killed p) (p_ofile p) (p_cwd p) (p_name p).
Definition set_stack r c p := mk_proc (p_sz p) (p_pgdir p) (p_kstack p) (p_state p) (p_pid p) (p_parent p) (p_tf p) r c (p_chan p) (p_killed p) (p_ofile p) (p_cwd p) (p_name p).
Definition set_chan v p := mk_proc (p_sz p) (p_pgdir p) (p_kstack p) (p_state p) (p_pid p) (p_parent p) (p_tf p) (p_ret p) (p_context p) v (p_killed p) (p_ofile p) (p_cwd p) (p_name p).
Definition set_killed v p := mk_proc (p_sz p) (p_pgdir p) (p_kstack p) (p_state p) (p_pid p) (p_parent p) (p_tf p) (p_ret p) (p_context p) (p_chan p) v (p_ofile p) (p_cwd p) (p_name p).
Definition set_files o c p := mk_proc (p_sz p) (p_pgdir p) (p_kstack p) (p_state p) (p_pid p) (p_parent p) (p_tf p) (p_ret p) (p_context p) (p_chan p) (p_killed p) o c (p_name p).
Definition set_name v p := mk_proc (p_sz p) (p_pgdir p) (p_kstack p) (p_state p) (p_pid p) (p_parent p) (p_tf p) (p_ret p) (p_context p) (p_chan p) (p_killed p) (p_ofile p) (p_cwd p) v.

Definition zero_proc : proc :=
  mk_proc 0 0 0 UNUSED 0 None tf_zero 0 (mk_context 0 0 0 0 0) 0 false (replicate NOFILE None) 0 (replicate 16 0).

Record ptable := mk_ptable { procs : list proc; nextpid : Z; initproc : option nat }.

(** The table as the kernel starts. *)
Definition boot_table : ptable := mk_ptable (replicate NPROC zero_proc) 1 None.

Definition upd (pt : ptable) (i : nat) (f : proc -> proc) : ptable := mk_ptable (alter f i (procs pt)) (nextpid pt) (initproc pt).
Definition map_procs (pt : ptable) (f : proc -> proc) : ptable := mk_ptable (f <$> procs pt) (nextpid pt) (initproc pt).
Definition at_slot (pt : ptable) (i : nat) : result proc := match procs pt !! i with Some p => Ok p | None => Err NullDeref end.

(** What proc.c uses of kalloc.c, vm.c, file.c and fs.c.  A null pointer is 0. *)
Class ProcEnv (W : Type) := {
  kalloc : W -> result (W * Z);
  kfree : W -> Z -> result W;
  setupkvm : W -> result (W * Z);
  inituvm : W -> Z -> result W;
  copyuvm : W -> Z -> Z -> result (W * Z);
  freevm : W -> Z -> result W;
  allocuvm : W -> Z -> Z -> Z -> result (W * Z);
  deallocuvm : W -> Z -> Z -> Z -> result (W * Z);
  filedup : W -> Z -> result W;
  fileclose : W -> Z -> result W;
  idup : W -> Z -> result W;
  iput : W -> Z -> result W;
  namei_root : W -> result (W * Z);
}.

Fixpoint find_slot (f : proc -> bool) (l : list proc) (i : nat) : option nat :=
  match l with
  | [] => None
  | p :: l' => if f p then Some i else find_slot f l' (S i)
  end.

Section Proc.
(** The address of the process table, and of the assembly code a new process
    starts in. *)
Context (ptable_addr forkret trapret : Z).

Definition sizeof_proc : Z := 460.
Definition chan_of (i : nat) : Z := ptable_addr + sizeof_proc * Z.of_nat i.

(** * Sleeping and waking *)

Definition wakeup1 (pt : ptable) (chan : Z) : ptable :=
  map_procs pt (fun p => if is_state (p_state p) SLEEPING && (p_chan p =? chan) then set_state RUNNABLE p else p).
Definition wakeup (pt : ptable) (chan : Z) : ptable := wakeup1 pt chan.

(** The check of [sched] on the state; it is entered with the lock of the table. *)
Definition sched (pt : ptable) (me : nat) : result ptable :=
  let! p := at_slot pt me in
  if is_state (p_state p) RUNNING then Err Panic else Ok pt.

Definition sleep (pt : ptable) (me : nat) (chan : Z) : result ptable :=
  sched (upd pt me (fun p => set_state SLEEPING (set_chan chan p))) me.
Definition sleep_end (pt : ptable) (me : nat) : ptable := upd pt me (set_chan 0).

Definition yield (pt : ptable) (me : nat) : result ptable := sched (upd pt me (set_state RUNNABLE)) me.

Definition kill (pt : ptable) (pid : Z) : ptable * Z :=
  match find_slot (fun p => p_pid p =? pid) (procs pt) 0 with
  | Some i => (upd pt i (fun p => let p := set_killed true p in if is_state (p_state p) SLEEPING then set_state RUNNABLE p else p), 0)
  | None => (pt, -1)
  end.

(** * The scheduler *)

(** The next process the loop of [scheduler] switches to from slot [i] on, and
    the slots left. *)
Fixpoint scheduler_scan (n i : nat) (pt : ptable) : option nat :=
  match n with
  | O => None
  | S n' =>
      match procs pt !! i with
      | Some p => if is_state (p_state p) RUNNABLE then Some i else scheduler_scan n' (S i) pt
      | None => None
      end
  end.

Definition scheduler_run (pt : ptable) (i : nat) : ptable := upd pt i (set_state RUNNING).

Section Ops.
Context {W : Type} `{!ProcEnv W}.

(** * Creation *)

(** The part of [allocproc] that holds the lock. *)
Definition alloc_slot (pt : ptable) : option (ptable * nat) :=
  match find_slot (fun p => is_state (p_state p) UNUSED) (procs pt) 0 with
  | Some i =>
      let pt := upd pt i (fun p => set_pid (nextpid pt) (set_state EMBRYO p)) in
      Some (mk_ptable (procs pt) (s32 (nextpid pt + 1)) (initproc pt), i)
  | None => None
  end.

(** The rest: the kernel stack, made to return through [forkret]. *)
Definition alloc_stack (w : W) (pt : ptable) (i : nat) : result (W * ptable * bool) :=
  let! '(w, k) := kalloc w in
  let pt := upd pt i (set_kstack k) in
  if k =? 0 then Ok (w, upd pt i (set_state UNUSED), false)
  else Ok (w, upd pt i (set_stack trapret (mk_context 0 0 0 0 forkret)), true).

Definition allocproc (w : W) (pt : ptable) : result (W * ptable * option nat) :=
  match alloc_slot pt with
  | None => Ok (w, pt, None)
  | Some (pt, i) => let! '(w, pt, ok) := alloc_stack w pt i in Ok (w, pt, if ok then Some i else None)
  end.

Definition SEG_UCODE : Z := 4.
Definition SEG_UDATA : Z := 5.
Definition DPL_USER : Z := 3.
Definition FL_IF : Z := 512.

(** "initcode". *)
Definition initcode : bytes := [105; 110; 105; 116; 99; 111; 100; 101; 0].

Definition userinit (w : W) (pt : ptable) : result (W * ptable) :=
  let! '(w, pt, r) := allocproc w pt in
  let pt := mk_ptable (procs pt) (nextpid pt) r in
  match r with
  | None => Err NullDeref
  | Some i =>
      let! '(w, d) := setupkvm w in
      let pt := upd pt i (set_pgdir d) in
      if d =? 0 then Err Panic else
      let! w := inituvm w d in
      let ds := Z.lor (Z.shiftl SEG_UDATA 3) DPL_USER in
      let tf := mk_tf 0 0 0 0 0 0 0 0 0 0 ds ds 0 0 0 (Z.lor (Z.shiftl SEG_UCODE 3) DPL_USER) FL_IF PGSIZE ds in
      let! p := at_slot pt i in
      let! nm := Kstring.safestrcpy (p_name p) 0 initcode 16 in
      let! '(w, c) := namei_root w in
      Ok (w, upd pt i (fun p => set_state RUNNABLE (set_files (p_ofile p) c (set_name nm (set_tf tf (set_sz PGSIZE p))))))
  end.

Definition growproc (w : W) (pt : ptable) (me : nat) (n : Z) : result (W * ptable * Z) :=
  let! p := at_slot pt me in
  let sz := p_sz p in
  let! '(w, sz, ok) :=
    if 0 <? n then let! '(w, s) := allocuvm w (p_pgdir p) sz (u32 (sz + n)) in Ok (w, s, negb (s =? 0))
    else if n <? 0 then let! '(w, s) := deallocuvm w (p_pgdir p) sz (u32 (sz + n)) in Ok (w, s, negb (s =? 0))
    else Ok (w, sz, true) in
  if ok then Ok (w, upd pt me (set_sz sz), 0) else Ok (w, pt, -1).

(** The loop over the open files. *)
Fixpoint dup_files (w : W) (fs : list (option Z)) : result W :=
  match fs with
  | [] => Ok w
  | Some f :: fs => let! w := filedup w f in dup_files w fs
  | None :: fs => dup_files w fs
  end.
(** [np->ofile[i] = filedup(proc->ofile[i])] where the latter is open. *)
Definition copy_files (mine theirs : list (option Z)) : list (option Z) :=
  zip_with (fun m t => match m with Some f => Some f | None => t end) mine theirs.

(** [fork] after [alloc_slot]. *)
Definition fork_rest (w : W) (pt : ptable) (me np : nat) : result (W * ptable * Z) :=
  let! '(w, pt, ok) := alloc_stack w pt np in
  if negb ok then Ok (w, pt, -1) else
  let! p := at_slot pt me in
  let! '(w, d) := copyuvm w (p_pgdir p) (p_sz p) in
  let pt := upd pt np (set_pgdir d) in
  if d =? 0 then
    let! n := at_slot pt np in
    let! w := kfree w (p_kstack n) in
    Ok (w, upd pt np (fun n => set_state UNUSED (set_kstack 0 n)), -1)
  else
    let pt := upd pt np (fun n => set_tf (set_eax 0 (p_tf p)) (set_parent (Some me) (set_sz (p_sz p) n))) in
    let! w := dup_files w (p_ofile p) in
    let! w := idup w (p_cwd p) in
    let pt := upd pt np (fun n => set_files (copy_files (p_ofile p) (p_ofile n)) (p_cwd p) n) in
    let! n := at_slot pt np in
    let! nm := Kstring.safestrcpy (p_name n) 0 (p_name p) 16 in
    Ok (w, upd pt np (fun n => set_name nm (set_state RUNNABLE n)), p_pid n).

Definition fork (w : W) (pt : ptable) (me : nat) : result (W * ptable * Z) :=
  match alloc_slot pt with
  | None => Ok (w, pt, -1)
  | Some (pt, np) => fork_rest w pt me np
  end.

(** * Exit and wait *)

Fixpoint close_files (w : W) (fs : list (option Z)) : result W :=
  match fs with
  | [] => Ok w
  | Some f :: fs => let! w := fileclose w f in close_files w fs
  | None :: fs => close_files w fs
  end.

(** [exit] before it takes the lock. *)
Definition exit_close (w : W) (pt : ptable) (me : nat) : result (W * ptable) :=
  if bool_decide (initproc pt = Some me) then Err Panic else
  let! p := at_slot pt me in
  let! w := close_files w (p_ofile p) in
  let! w := iput w (p_cwd p) in
  Ok (w, upd pt me (set_files ((fun _ => None) <$> p_ofile p) 0)).

(** The loop that passes the children to init. *)
Fixpoint reparent (n i : nat) (pt : ptable) (me init : nat) : ptable :=
  match n with
  | O => pt
  | S n' =>
      match procs pt !! i with
      | Some p =>
          let pt :=
            if bool_decide (p_parent p = Some me) then
              let pt := upd pt i (set_parent (Some init)) in
              if is_state (p_state p) ZOMBIE then wakeup1 pt (chan_of init) else pt
            else pt in
          reparent n' (S i) pt me init
      | None => pt
      end
  end.

Definition exit_locked (pt : ptable) (me : nat) : result ptable :=
  let! p := at_slot pt me in
  let pt := match p_parent p with Some q => wakeup1 pt (chan_of q) | None => wakeup1 pt 0 end in
  match initproc pt with
  | None => Err NullDeref
  | Some init => sched (upd (reparent NPROC 0 pt me init) me (set_state ZOMBIE)) me
  end.

Definition exit (w : W) (pt : ptable) (me : nat) : result (W * ptable) :=
  let! '(w, pt) := exit_close w pt me in
  let! pt := exit_locked pt me in
  Ok (w, pt).

(** The slot of a child that [wait] frees. *)
Definition reap (p : proc) : proc :=
  set_killed false (set_name (alter (fun _ => 0) 0%nat (p_name p)) (set_parent None (set_pid 0 (set_state UNUSED (set_kstack 0 p))))).

Inductive waited := Reaped (pid : Z) | NoChild | Asleep.

(** A round of the loop of [wait]. *)
Fixpoint wait_scan (n i : nat) (pt : ptable) (me : nat) (havekids : bool) : option nat * bool :=
  match n with
  | O => (None, havekids)
  | S n' =>
      match procs pt !! i with
      | Some p =>
          if negb (bool_decide (p_parent p = Some me)) then wait_scan n' (S i) pt me havekids
          else if is_state (p_state p) ZOMBIE then (Some i, true)
          else wait_scan n' (S i) pt me true
      | None => (None, havekids)
      end
  end.

Definition wait_pass (w : W) (pt : ptable) (me : nat) : result (W * ptable * waited) :=
  match wait_scan NPROC 0 pt me false with
  | (Some i, _) =>
      let! p := at_slot pt i in
      let! w := kfree w (p_kstack p) in
      let! w := freevm w (p_pgdir p) in
      Ok (w, upd pt i reap, Reaped (p_pid p))
  | (None, havekids) =>
      let! q := at_slot pt me in
      if negb havekids || p_killed q then Ok (w, pt, NoChild)
      else
        let! pt := sleep pt me (chan_of me) in
        Ok (w, pt, Asleep)
  end.
End Ops.
End Proc.
