(* ===== verification/ProcSys.v ===== *)
(** The slots of the process table before and after each operation of proc.c. *)
From S2P Require Import Prelude Ulib Proc.

(** The slot [i]; an unused one past the end. *)
Definition slot (pt : ptable) (i : nat) : proc := default zero_proc (procs pt !! i).

Lemma slot_lookup pt i p : procs pt !! i = Some p -> slot pt i = p.
Proof. unfold slot. by intros ->. Qed.

Lemma at_slot_ok pt i : (i < length (procs pt))%nat -> at_slot pt i = Ok (slot pt i).
Proof. intros H. unfold at_slot, slot. by destruct (lookup_lt_is_Some_2 _ _ H) as [p ->]. Qed.

Lemma at_slot_inv pt i p : at_slot pt i = Ok p -> p = slot pt i /\ (i < length (procs pt))%nat.
Proof.
  unfold at_slot, slot. destruct (procs pt !! i) eqn:E; [|done]. intros H. injection H as ->. split; [done|]. by apply lookup_lt_Some in E.
Qed.

Lemma slot_past pt i : (length (procs pt) <= i)%nat -> slot pt i = zero_proc.
Proof. intros H. unfold slot. by rewrite lookup_ge_None_2. Qed.

(** A slot that is in use is in the table. *)
Lemma slot_used pt i : p_state (slot pt i) <> UNUSED -> (i < length (procs pt))%nat.
Proof. intros H. destruct (Nat.lt_ge_cases i (length (procs pt))); [done|]. by rewrite slot_past in H. Qed.

Lemma slot_upd pt i f j : slot (upd pt i f) j = if decide (i = j /\ (i < length (procs pt))%nat) then f (slot pt j) else slot pt j.
Proof.
  unfold slot, upd. cbn [procs]. destruct (decide _) as [[<- H]|H].
  - rewrite list_lookup_alter_eq. by destruct (lookup_lt_is_Some_2 _ _ H) as [p ->].
  - destruct (decide (i = j)) as [<-|Hne]; [|by rewrite list_lookup_alter_ne].
    rewrite list_lookup_alter_eq. destruct (procs pt !! i) eqn:E; [|done]. apply lookup_lt_Some in E. tauto.
Qed.

Lemma slot_upd_eq pt i f : (i < length (procs pt))%nat -> slot (upd pt i f) i = f (slot pt i).
Proof. intros H. rewrite slot_upd. by destruct (decide _) as [|[]]. Qed.
Lemma slot_upd_ne pt i f j : i <> j -> slot (upd pt i f) j = slot pt j.
Proof. intros H. rewrite slot_upd. by destruct (decide _) as [[]|]. Qed.
Lemma len_upd pt i f : length (procs (upd pt i f)) = length (procs pt).
Proof. apply length_alter. Qed.

(** A sequence of changes to one slot. *)
Lemma upd_upd pt i f g : upd (upd pt i f) i g = upd pt i (fun p => g (f p)).
Proof. unfold upd. cbn [procs nextpid initproc]. f_equal. revert i. induction (procs pt) as [|p l IH]; intros [|i]; cbn; [done | done | done | by f_equal]. Qed.

(** ** [wakeup1] *)

Definition wake (chan : Z) (p : proc) : proc :=
  if is_state (p_state p) SLEEPING && (p_chan p =? chan) then set_state RUNNABLE p else p.

Lemma slot_wakeup pt c i : slot (wakeup1 pt c) i = wake c (slot pt i).
Proof. unfold slot, wakeup1, map_procs. cbn [procs]. rewrite list_lookup_fmap. by destruct (procs pt !! i). Qed.
Lemma len_wakeup pt c : length (procs (wakeup1 pt c)) = length (procs pt).
Proof. apply length_fmap. Qed.

(** [p'] is [p], possibly woken, possibly killed. *)
Definition woken (p p' : proc) : Prop :=
  p_parent p' = p_parent p /\ p_pid p' = p_pid p /\ p_ofile p' = p_ofile p /\ p_cwd p' = p_cwd p /\ p_chan p' = p_chan p /\
  (p_state p' = p_state p \/ p_state p = SLEEPING /\ p_state p' = RUNNABLE).

Lemma woken_refl p : woken p p.
Proof. unfold woken. tauto. Qed.

Lemma wake_woken c p : woken p (wake c p).
Proof.
  unfold wake, is_state. destruct (bool_decide_reflect (p_state p = SLEEPING)) as [E|]; [|apply woken_refl].
  destruct (p_chan p =? c); [|apply woken_refl]. unfold woken. cbn. tauto.
Qed.

(** ** The loops over the table *)

Lemma find_slot_Some f l i k : find_slot f l i = Some k -> exists p, l !! (k - i)%nat = Some p /\ f p = true /\ (i <= k)%nat.
Proof.
  revert i. induction l as [|p l IH]; intros i; [done|]. cbn [find_slot]. destruct (f p) eqn:E.
  - intros H. injection H as ->. exists p. rewrite Nat.sub_diag. done.
  - intros H. destruct (IH _ H) as (q & H1 & H2 & H3). exists q. replace (k - i)%nat with (S (k - S i)) by lia. split; [done|]. split; [done | lia].
Qed.

Lemma find_slot_None f l i : find_slot f l i = None -> Forall (fun p => f p = false) l.
Proof. revert i. induction l as [|p l IH]; intros i; [constructor|]. cbn [find_slot]. destruct (f p) eqn:E; [done|]. intros H. constructor; eauto. Qed.

Lemma find_slot_first f l i k : find_slot f l i = Some k -> Forall (fun p => f p = false) (take (k - i) l).
Proof.
  revert i. induction l as [|p l IH]; intros i; [done|]. cbn [find_slot]. destruct (f p) eqn:E.
  - intros H. injection H as ->. rewrite Nat.sub_diag. constructor.
  - intros H. destruct (find_slot_Some _ _ _ _ H) as (_ & _ & _ & Hle). replace (k - i)%nat with (S (k - S i)) by lia. constructor; eauto.
Qed.

Lemma find_slot_table f pt k : find_slot f (procs pt) 0 = Some k -> f (slot pt k) = true /\ (k < length (procs pt))%nat.
Proof.
  intros H. destruct (find_slot_Some _ _ _ _ H) as (p & E & Hp & _). rewrite Nat.sub_0_r in E. rewrite (slot_lookup _ _ _ E). split; [done|]. by apply lookup_lt_Some in E.
Qed.

(** The first slot that has the property is the one found. *)
Lemma find_slot_is f pt k :
  (k < length (procs pt))%nat -> f (slot pt k) = true -> (forall i, (i < k)%nat -> f (slot pt i) = false) -> find_slot f (procs pt) 0 = Some k.
Proof.
  intros Hl Hk Hi. destruct (lookup_lt_is_Some_2 _ _ Hl) as [p Ep]. pose proof Hk as Hp. rewrite (slot_lookup _ _ _ Ep) in Hp.
  destruct (find_slot f (procs pt) 0) as [j|] eqn:E.
  - pose proof (find_slot_first _ _ _ _ E) as Hf. rewrite Nat.sub_0_r, Forall_forall in Hf. apply find_slot_table in E as [Ej Lj]. f_equal.
    destruct (Nat.lt_trichotomy j k) as [Hlt|[?|Hgt]]; [by rewrite Hi in Ej | done|]. exfalso. rewrite Hf in Hp; [done|]. apply (list_elem_of_lookup_2 _ k). by rewrite lookup_take_lt.
  - exfalso. apply find_slot_None in E. rewrite Forall_forall in E. rewrite E in Hp; [done|]. by apply list_elem_of_lookup_2 in Ep.
Qed.

Lemma is_state_true s t : is_state s t = true <-> s = t.
Proof. apply bool_decide_eq_true. Qed.
Lemma is_state_false s t : is_state s t = false <-> s <> t.
Proof. apply bool_decide_eq_false. Qed.

(** A child of [me]. *)
Definition child (pt : ptable) (me i : nat) : Prop := p_parent (slot pt i) = Some me.
Definition zombie_child (pt : ptable) (me i : nat) : Prop := child pt me i /\ p_state (slot pt i) = ZOMBIE.

Lemma wait_scan_spec n i pt me kids r k :
  (i + n <= length (procs pt))%nat -> wait_scan n i pt me kids = (r, k) ->
  match r with
  | Some j => zombie_child pt me j /\ (i <= j < i + n)%nat /\ forall j', (i <= j' < j)%nat -> ~ zombie_child pt me j'
  | None => (forall j, (i <= j < i + n)%nat -> ~ zombie_child pt me j) /\ (k = true <-> kids = true \/ exists j, (i <= j < i + n)%nat /\ child pt me j)
  end.
Proof.
  revert i kids. induction n as [|n IH]; intros i kids Hn; cbn [wait_scan].
  { intros E. injection E as <- <-. split; [lia|]. split; [tauto|]. intros [|(j & Hj & _)]; [done | lia]. }
  destruct (lookup_lt_is_Some_2 (procs pt) i ltac:(lia)) as [p Ep]. rewrite Ep. apply slot_lookup in Ep.
  assert (forall P : nat -> Prop, (forall j, (S i <= j < S i + n)%nat -> P j) -> P i -> forall j, (i <= j < i + S n)%nat -> P j) as Hall.
  { intros P H1 H2 j Hj. destruct (decide (j = i)) as [->|]; [done | apply H1; lia]. }
  assert (forall kids', wait_scan n (S i) pt me kids' = (r, k) -> ~ zombie_child pt me i ->
    (kids' = true <-> kids = true \/ child pt me i) ->
    match r with
    | Some j => zombie_child pt me j /\ (i <= j < i + S n)%nat /\ forall j', (i <= j' < j)%nat -> ~ zombie_child pt me j'
    | None => (forall j, (i <= j < i + S n)%nat -> ~ zombie_child pt me j) /\ (k = true <-> kids = true \/ exists j, (i <= j < i + S n)%nat /\ child pt me j)
    end) as Hnext.
  { intros kids' H Hz Hk. specialize (IH (S i) kids' ltac:(lia) H). destruct r as [j|].
    - destruct IH as (H1 & H2 & H3). split; [done|]. split; [lia|]. intros j' Hj'. destruct (decide (j' = i)) as [->|]; [done | apply H3; lia].
    - destruct IH as [H1 H2]. split; [by apply Hall|]. rewrite H2, Hk. split.
      + intros [[?|?]|(j & Hj & Hc)]; [by left | right; exists i; split; [lia | done] | right; exists j; split; [lia | done]].
      + intros [?|(j & Hj & Hc)]; [tauto|]. destruct (decide (j = i)) as [->|]; [tauto|]. right. exists j. split; [lia | done]. }
  destruct (bool_decide_reflect (p_parent p = Some me)) as [Hc|Hc]; cbn [negb].
  - destruct (is_state (p_state p) ZOMBIE) eqn:Ez.
    + intros E. injection E as <- <-. apply is_state_true in Ez. split; [unfold zombie_child, child; by rewrite Ep|]. split; [lia|]. intros j' Hj'. lia.
    + intros H. apply is_state_false in Ez. apply (Hnext true H); [intros [_ Hz]; by rewrite Ep in Hz|]. unfold child. rewrite Ep. tauto.
  - intros H. apply (Hnext kids H); [intros [Hz _]; unfold child in Hz; by rewrite Ep in Hz|]. unfold child. rewrite Ep. tauto.
Qed.

Section Reparent.
Context (ptable_addr : Z).
Notation chan_of := (chan_of ptable_addr).

Lemma chan_inj i j : chan_of i = chan_of j -> i = j.
Proof. unfold Proc.chan_of, sizeof_proc. lia. Qed.

Definition adopted (me init : nat) (p : proc) : proc := if bool_decide (p_parent p = Some me) then set_parent (Some init) p else p.

(** The loop of [exit] over the children, as one change to every slot. *)
Lemma reparent_spec n i pt me init :
  (i + n = length (procs pt))%nat -> me <> init ->
  let pt' := reparent ptable_addr n i pt me init in
  length (procs pt') = length (procs pt) /\ nextpid pt' = nextpid pt /\ initproc pt' = initproc pt /\
  exists z, (z = true <-> exists j, (i <= j)%nat /\ zombie_child pt me j) /\
    forall j, slot pt' j = (if z then wake (chan_of init) else id) (if (i <=? j)%nat then adopted me init (slot pt j) else slot pt j).
Proof.
  intros Hn Hne. revert i pt Hn. induction n as [|n IH]; intros i pt Hn; cbn [reparent].
  - split; [done|]. split; [done|]. split; [done|]. exists false. split.
    + split; [done|]. intros (j & Hj & Hc & _). unfold child in Hc. rewrite slot_past in Hc by lia. done.
    + intros j. destruct (Nat.leb_spec i j); [|done]. rewrite slot_past by lia. done.
  - destruct (lookup_lt_is_Some_2 (procs pt) i ltac:(lia)) as [p Ep]. rewrite Ep. apply slot_lookup in Ep.
    set (pt1 := if bool_decide (p_parent p = Some me) then _ else pt).
    assert (length (procs pt1) = length (procs pt) /\ nextpid pt1 = nextpid pt /\ initproc pt1 = initproc pt) as (L1 & L2 & L3).
    { unfold pt1. destruct (bool_decide _); [|done]. destruct (is_state _ _); [rewrite len_wakeup|]; rewrite len_upd; done. }
    set (y := bool_decide (p_parent p = Some me) && is_state (p_state p) ZOMBIE).
    assert (forall j, slot pt1 j = (if y then wake (chan_of init) else id) (if decide (j = i) then adopted me init (slot pt j) else slot pt j)) as Hs.
    { intros j. unfold pt1, y, adopted. destruct (decide (j = i)) as [->|Hji].
      - rewrite Ep. destruct (bool_decide (p_parent p = Some me)) eqn:Ec; cbn [andb]; [|by rewrite Ep].
        destruct (is_state _ _); rewrite ?slot_wakeup, slot_upd_eq, Ep by lia; done.
      - destruct (bool_decide _); [|done]. cbn [andb]. destruct (is_state _ _); rewrite ?slot_wakeup, slot_upd_ne by done; done. }
    assert (forall c p, p_parent (wake c p) = p_parent p) as Wp by (intros c q; apply (wake_woken c q)).
    assert (forall c p, p_state (wake c p) = ZOMBIE <-> p_state p = ZOMBIE) as Wz.
    { intros c q. destruct (wake_woken c q) as (_ & _ & _ & _ & _ & [->|[-> ->]]); [done | split; done]. }
    destruct (IH (S i) pt1 ltac:(lia)) as (H1 & H2 & H3 & z & Hz & Hsl).
    split; [lia|]. split; [congruence|]. split; [congruence|]. exists (y || z). split.
    + rewrite orb_true_iff, Hz. split.
      * intros [Hy|(j & Hj & Hc & Hzj)].
        { apply andb_true_iff in Hy as [Hy1%bool_decide_eq_true Hy2%is_state_true]. exists i. split; [done|]. unfold zombie_child, child. rewrite Ep. done. }
        exists j. split; [lia|]. unfold zombie_child, child in *. rewrite Hs in Hc, Hzj. destruct (decide (j = i)); [lia|].
        destruct y; [rewrite Wp in Hc; apply Wz in Hzj|]; done.
      * intros (j & Hj & Hc & Hzj). unfold zombie_child, child in *. destruct (decide (j = i)) as [->|Hji].
        { left. unfold y. rewrite Ep in Hc, Hzj. rewrite Hc, Hzj. by rewrite bool_decide_true. }
        right. exists j. split; [lia|]. rewrite Hs. destruct (decide (j = i)); [done|]. destruct y; [rewrite Wp, Wz|]; done.
    + intros j. rewrite Hsl, Hs.
      assert (adopted me init (adopted me init (slot pt j)) = adopted me init (slot pt j)) as Haa.
      { unfold adopted. destruct (bool_decide_reflect (p_parent (slot pt j) = Some me)) as [E|E]; [|by rewrite bool_decide_false].
        rewrite bool_decide_false; [done|]. cbn. congruence. }
      assert (forall c q, adopted me init (wake c q) = wake c (adopted me init q)) as Haw.
      { intros c q. unfold adopted. rewrite Wp. destruct (bool_decide_reflect (p_parent q = Some me)); [|reflexivity]. unfold wake. change (p_state (set_parent (Some init) q)) with (p_state q). change (p_chan (set_parent (Some init) q)) with (p_chan q). destruct (is_state (p_state q) SLEEPING && (p_chan q =? c)); reflexivity. }
      assert (forall c q, wake c (wake c q) = wake c q) as Hww.
      { intros c q. unfold wake at 2 3. destruct (is_state (p_state q) SLEEPING && (p_chan q =? c)) eqn:E; [done | unfold wake; by rewrite E]. }
      destruct (decide (j = i)) as [E|E], y, z; cbn [orb]; destruct (Nat.leb_spec (S i) j), (Nat.leb_spec i j); try lia; unfold id; rewrite ?Haw, ?Haa, ?Hww; reflexivity.
Qed.
End Reparent.

(** The kernel's processes as a transition system: the processors, the process
    table and where each process is in proc.c.

    A step is what a function of proc.c does between taking and releasing
    [ptable.lock], or what it does to slots no other process touches.  Steps of
    different processes interleave in any order. *)

(** Where a process is: in user code or in a part of the kernel that is not
    here; in [fork] with the slot it has allocated; in [exit] after it closed
    its files; in [wait]; in [sleep]. *)
Inductive mode := MUser | MFork (np : nat) | MExit | MWait | MSleep.

#[global] Instance mode_eq_dec : EqDecision mode.
Proof. solve_decision. Defined.
#[global] Instance waited_eq_dec : EqDecision waited.
Proof. solve_decision. Defined.

Section Sys.
Context (ptable_addr forkret trapret : Z) {W : Type} `{!ProcEnv W}.
Notation chan_of := (chan_of ptable_addr).
Notation fork_rest := (fork_rest forkret trapret).
Notation exit_locked := (exit_locked ptable_addr).
Notation wait_pass := (wait_pass ptable_addr).

(** [s_run c] is the process the processor [c] runs, [None] in the loop of
    [scheduler]. *)
Record sys := mk_sys { s_world : W; s_pt : ptable; s_run : nat -> option nat; s_mode : nat -> mode }.

Definition set_at {A} (f : nat -> A) (i : nat) (v : A) : nat -> A := fun j => if decide (j = i) then v else f j.

(** The channels of the rest of the kernel are not slots of the table. *)
Definition foreign (chan : Z) : Prop := forall i, (i < NPROC)%nat -> chan <> chan_of i.

Inductive step : sys -> sys -> Prop :=
  | st_run w pt run md c i :
      run c = None -> p_state (slot pt i) = RUNNABLE ->
      step (mk_sys w pt run md) (mk_sys w (scheduler_run pt i) (set_at run c (Some i)) md)
  | st_yield w pt run md c i pt' :
      run c = Some i -> md i = MUser \/ md i = MExit \/ (exists np, md i = MFork np) -> yield pt i = Ok pt' ->
      step (mk_sys w pt run md) (mk_sys w pt' (set_at run c None) md)
  | st_fork w pt run md c i pt' np :
      run c = Some i -> md i = MUser -> alloc_slot pt = Some (pt', np) ->
      step (mk_sys w pt run md) (mk_sys w pt' run (set_at md i (MFork np)))
  | st_fork_rest w pt run md c i np w' pt' r :
      run c = Some i -> md i = MFork np -> fork_rest w pt i np = Ok (w', pt', r) ->
      step (mk_sys w pt run md) (mk_sys w' pt' run (set_at (set_at md np MUser) i MUser))
  | st_exit_close w pt run md c i w' pt' :
      run c = Some i -> md i = MUser -> exit_close w pt i = Ok (w', pt') ->
      step (mk_sys w pt run md) (mk_sys w' pt' run (set_at md i MExit))
  | st_exit w pt run md c i pt' :
      run c = Some i -> md i = MExit -> exit_locked pt i = Ok pt' ->
      step (mk_sys w pt run md) (mk_sys w pt' (set_at run c None) md)
  | st_wait w pt run md c i w' pt' r :
      run c = Some i -> md i = MUser \/ md i = MWait ->
      wait_pass w (if decide (md i = MWait) then sleep_end pt i else pt) i = Ok (w', pt', r) ->
      step (mk_sys w pt run md)
        (mk_sys w' pt' (if decide (r = Asleep) then set_at run c None else run) (set_at md i (if decide (r = Asleep) then MWait else MUser)))
  | st_sleep w pt run md c i chan pt' :
      run c = Some i -> md i = MUser -> foreign chan -> sleep pt i chan = Ok pt' ->
      step (mk_sys w pt run md) (mk_sys w pt' (set_at run c None) (set_at md i MSleep))
  | st_sleep_end w pt run md c i :
      run c = Some i -> md i = MSleep ->
      step (mk_sys w pt run md) (mk_sys w (sleep_end pt i) run (set_at md i MUser))
  | st_wakeup w pt run md chan :
      step (mk_sys w pt run md) (mk_sys w (wakeup pt chan) run md)
  | st_kill w pt run md c i pid :
      run c = Some i -> md i = MUser ->
      step (mk_sys w pt run md) (mk_sys w (kill pt pid).1 run md)
  | st_grow w pt run md c i n w' pt' r :
      run c = Some i -> md i = MUser -> growproc w pt i n = Ok (w', pt', r) ->
      step (mk_sys w pt run md) (mk_sys w' pt' run md).

(** After [userinit]: every processor is in the scheduler. *)
Definition boot_sys (w : W) (s : sys) : Prop :=
  exists w' pt, userinit forkret trapret w boot_table = Ok (w', pt) /\ s = mk_sys w' pt (fun _ => None) (fun _ => MUser).

(** * The invariant *)

Definition live (p : proc) : Prop := p_state p = SLEEPING \/ p_state p = RUNNABLE \/ p_state p = RUNNING.
Definition closed (p : proc) : Prop := Forall (fun o => o = None) (p_ofile p) /\ p_cwd p = 0.

Record inv (s : sys) : Prop := {
  i_len : length (procs (s_pt s)) = NPROC;
  (* a process runs on one processor *)
  i_run : forall c i, s_run s c = Some i -> p_state (slot (s_pt s) i) = RUNNING;
  i_run' : forall i, p_state (slot (s_pt s) i) = RUNNING -> exists c, s_run s c = Some i;
  i_inj : forall c c' i, s_run s c = Some i -> s_run s c' = Some i -> c = c';
  (* process numbers *)
  i_next : 1 <= nextpid (s_pt s);
  i_pid : forall i, p_state (slot (s_pt s) i) <> UNUSED -> 1 <= p_pid (slot (s_pt s) i) < nextpid (s_pt s);
  i_pid_inj : forall i j, p_state (slot (s_pt s) i) <> UNUSED -> p_state (slot (s_pt s) j) <> UNUSED -> p_pid (slot (s_pt s) i) = p_pid (slot (s_pt s) j) -> i = j;
  (* the tree of processes *)
  i_init : exists k, initproc (s_pt s) = Some k /\ live (slot (s_pt s) k) /\ s_mode s k <> MExit /\ p_parent (slot (s_pt s) k) = None;
  i_unused : forall i, p_state (slot (s_pt s) i) = UNUSED \/ p_state (slot (s_pt s) i) = EMBRYO -> p_parent (slot (s_pt s) i) = None;
  i_parent : forall i q, p_parent (slot (s_pt s) i) = Some q -> live (slot (s_pt s) q) /\ q <> i;
  i_orphan : forall i, live (slot (s_pt s) i) \/ p_state (slot (s_pt s) i) = ZOMBIE -> initproc (s_pt s) <> Some i -> p_parent (slot (s_pt s) i) <> None;
  (* [fork] *)
  i_fork : forall i np, s_mode s i = MFork np -> p_state (slot (s_pt s) np) = EMBRYO /\ live (slot (s_pt s) i) /\ p_state (slot (s_pt s) i) <> SLEEPING;
  i_fork_inj : forall i j np, s_mode s i = MFork np -> s_mode s j = MFork np -> i = j;
  i_embryo : forall np, p_state (slot (s_pt s) np) = EMBRYO -> exists i, s_mode s i = MFork np;
  (* [exit] *)
  i_exit : forall i, live (slot (s_pt s) i) -> s_mode s i = MExit -> closed (slot (s_pt s) i) /\ p_state (slot (s_pt s) i) <> SLEEPING;
  i_zombie : forall i, p_state (slot (s_pt s) i) = ZOMBIE -> s_mode s i = MExit /\ closed (slot (s_pt s) i);
  (* [wait] and [sleep] *)
  i_sleep : forall i, p_state (slot (s_pt s) i) = SLEEPING ->
    s_mode s i = MSleep /\ foreign (p_chan (slot (s_pt s) i)) \/
    s_mode s i = MWait /\ p_chan (slot (s_pt s) i) = chan_of i /\ (exists j, child (s_pt s) i j) /\ forall j, ~ zombie_child (s_pt s) i j;
}.

Lemma set_at_eq {A} (f : nat -> A) i v : set_at f i v i = v.
Proof. unfold set_at. by destruct (decide (i = i)). Qed.
Lemma set_at_ne {A} (f : nat -> A) i v j : j <> i -> set_at f i v j = f j.
Proof. intros H. unfold set_at. by destruct (decide (j = i)). Qed.

Lemma live_states p : live p -> p_state p <> UNUSED /\ p_state p <> EMBRYO /\ p_state p <> ZOMBIE.
Proof. unfold live. intros [->|[->| ->]]; done. Qed.

(** ** Processes woken or killed *)

Lemma woken_states p p' : woken p p' ->
  (live p' <-> live p) /\ (forall t, t <> SLEEPING -> t <> RUNNABLE -> p_state p' = t <-> p_state p = t) /\ (p_state p' = SLEEPING -> p_state p = SLEEPING) /\
  (closed p' <-> closed p).
Proof.
  intros (E1 & E2 & E3 & E4 & E5 & H). unfold live, closed. rewrite E3, E4. destruct H as [->|[-> ->]]; [naive_solver|].
  split; [naive_solver|]. split; [intros t H1 H2; split; congruence|]. split; [done | done].
Qed.

Lemma inv_woken w pt run md pt' :
  inv (mk_sys w pt run md) -> length (procs pt') = length (procs pt) -> nextpid pt' = nextpid pt -> initproc pt' = initproc pt ->
  (forall j, woken (slot pt j) (slot pt' j)) -> inv (mk_sys w pt' run md).
Proof.
  intros H El En Ei Hw. assert (forall j, p_parent (slot pt' j) = p_parent (slot pt j) /\ p_pid (slot pt' j) = p_pid (slot pt j) /\ p_chan (slot pt' j) = p_chan (slot pt j)) as Hf.
  { intros j. destruct (Hw j) as (? & ? & _ & _ & ? & _). done. }
  pose proof (fun j => proj1 (woken_states _ _ (Hw j))) as Hl. pose proof (fun j => proj1 (proj2 (woken_states _ _ (Hw j)))) as Hs.
  pose proof (fun j => proj1 (proj2 (proj2 (woken_states _ _ (Hw j))))) as Hsl. pose proof (fun j => proj2 (proj2 (proj2 (woken_states _ _ (Hw j))))) as Hc.
  destruct H as [H1 H2 H3 H4 H5 H6 H7 H8 H9 H10 H11 H12 H13 H14 H15 H16 H17]. cbn [s_pt s_run s_mode] in *.
  split; cbn [s_pt s_run s_mode]; rewrite ?El, ?En, ?Ei; try done.
  - intros c i Hr. apply Hs; [done | done|]. by eapply H2.
  - intros i Hr. apply Hs in Hr; [|done|done]. by apply H3.
  - intros i Hu. rewrite (proj1 (proj2 (Hf i))). apply H6. intros E. apply Hu. by apply Hs.
  - intros i j Hi Hj. rewrite !(proj1 (proj2 (Hf _))). apply H7; intros E; [apply Hi | apply Hj]; by apply Hs.
  - destruct H8 as (k & -> & Hk & Hm & Hpk). exists k. by rewrite Hl, (proj1 (Hf k)).
  - intros i Hi. rewrite (proj1 (Hf i)). apply H9. destruct Hi as [Hi|Hi]; apply Hs in Hi; try done; tauto.
  - intros i q. rewrite (proj1 (Hf i)), Hl. apply H10.
  - intros i Hi. rewrite (proj1 (Hf i)). apply H11. rewrite Hl in Hi. destruct Hi as [?|Hi]; [by left|]. right. by apply Hs in Hi.
  - intros i np Hm. destruct (H12 i np Hm) as (E1 & E2 & E3). split; [by apply Hs|]. split; [by apply Hl|]. intros E. by apply E3, Hsl.
  - intros np Hn. apply H14. by apply Hs in Hn.
  - intros i Hi Hm. rewrite Hl in Hi. destruct (H15 i Hi Hm) as [E1 E2]. split; [by apply Hc|]. intros E. by apply E2, Hsl.
  - intros i Hz. apply Hs in Hz; [|done|done]. destruct (H16 i Hz). split; [done|]. by apply Hc.
  - intros i Hi. apply Hsl in Hi. rewrite (proj2 (proj2 (Hf i))). destruct (H17 i Hi) as [?|(E1 & E2 & (j & E3) & E4)]; [by left | right].
    split; [done|]. split; [done|]. split; [exists j; unfold child; by rewrite (proj1 (Hf j))|].
    intros j' [Ec Ez]. apply (E4 j'). unfold zombie_child, child in *. rewrite (proj1 (Hf j')) in Ec. split; [done|]. by apply Hs in Ez.
Qed.

(** ** A live process changes *)

Definition asleep_ok (pt : ptable) (i : nat) (m : mode) (chan : Z) : Prop :=
  m = MSleep /\ foreign chan \/ m = MWait /\ chan = chan_of i /\ (exists j, child pt i j) /\ forall j, ~ zombie_child pt i j.

Record move (pt : ptable) (run : nat -> option nat) (md : nat -> mode) (i : nat) (f : proc -> proc) (run' : nat -> option nat) (md' : nat -> mode) : Prop := {
  m_live : live (slot pt i);
  m_live' : live (f (slot pt i));
  m_parent : p_parent (f (slot pt i)) = p_parent (slot pt i);
  m_pid : p_pid (f (slot pt i)) = p_pid (slot pt i);
  m_run : p_state (f (slot pt i)) = RUNNING <-> exists c, run' c = Some i;
  m_run_inj : forall c c', run' c = Some i -> run' c' = Some i -> c = c';
  m_run_ne : forall c j, j <> i -> run' c = Some j <-> run c = Some j;
  m_mode : forall j, j <> i -> md' j = md j;
  m_fork : forall np, md' i = MFork np <-> md i = MFork np;
  m_awake : (exists np, md i = MFork np) -> p_state (f (slot pt i)) <> SLEEPING;
  m_exit : md' i = MExit -> closed (f (slot pt i)) /\ p_state (f (slot pt i)) <> SLEEPING /\ initproc pt <> Some i;
  m_sleep : p_state (f (slot pt i)) = SLEEPING -> asleep_ok pt i (md' i) (p_chan (f (slot pt i)));
}.

Lemma inv_move w w' pt run md i f run' md' :
  inv (mk_sys w pt run md) -> move pt run md i f run' md' -> inv (mk_sys w' (upd pt i f) run' md').
Proof.
  intros H [M1 M2 M3 M4 M5 M6 M7 M8 M9 M10 M11 M12]. assert (i < length (procs pt))%nat as Hi by (apply slot_used; by apply live_states).
  pose proof (live_states _ M1) as (L1 & L2 & L3). pose proof (live_states _ M2) as (L1' & L2' & L3').
  assert (forall j, j = i /\ slot (upd pt i f) j = f (slot pt i) \/ j <> i /\ slot (upd pt i f) j = slot pt j) as Hs.
  { intros j. destruct (decide (j = i)) as [->|Hne]; [left; by rewrite slot_upd_eq | right; by rewrite slot_upd_ne]. }
  assert (forall j, p_parent (slot (upd pt i f) j) = p_parent (slot pt j)) as Hp by (intros j; destruct (Hs j) as [[-> ->]|[_ ->]]; done).
  assert (forall j, p_pid (slot (upd pt i f) j) = p_pid (slot pt j)) as Hpid by (intros j; destruct (Hs j) as [[-> ->]|[_ ->]]; done).
  assert (forall j, live (slot (upd pt i f) j) <-> live (slot pt j)) as Hl by (intros j; destruct (Hs j) as [[-> ->]|[_ ->]]; done).
  assert (forall j t, t = UNUSED \/ t = EMBRYO \/ t = ZOMBIE -> p_state (slot (upd pt i f) j) = t <-> p_state (slot pt j) = t) as Hst.
  { intros j t Ht. destruct (Hs j) as [[-> ->]|[_ ->]]; [|done]. destruct Ht as [->|[->| ->]]; done. }
  destruct H as [H1 H2 H3 H4 H5 H6 H7 H8 H9 H10 H11 H12 H13 H14 H15 H16 H17]. cbn [s_pt s_run s_mode] in *.
  split; cbn [s_pt s_run s_mode]; rewrite ?len_upd; cbn [nextpid initproc upd]; try done.
  - intros c j Hr. destruct (Hs j) as [[-> ->]|[Hne ->]]; [apply M5; by exists c | apply (H2 c); by apply M7].
  - intros j Hr. destruct (Hs j) as [[-> E]|[Hne E]]; rewrite E in Hr; [by apply M5|]. destruct (H3 j Hr) as [c Hc]. exists c. by apply M7.
  - intros c c' j Hr Hr'. destruct (decide (j = i)) as [->|Hne]; [by apply M6|]. apply M7 in Hr, Hr'; [|done|done]. by apply (H4 c c' j).
  - intros j Hj. rewrite Hpid. apply H6. intros E. apply Hj. apply Hst; [tauto | done].
  - intros j k Hj Hk. rewrite !Hpid. apply H7; intros E; [apply Hj | apply Hk]; (apply Hst; [tauto | done]).
  - destruct H8 as (k & Ek & Hk & Hm & Hpk). exists k. rewrite Hl, Hp. split; [done|]. split; [done|]. split; [|done].
    destruct (decide (k = i)) as [->|Hne]; [|by rewrite M8]. intros E. by apply M11 in E as (_ & _ & ?).
  - intros j Hj. rewrite Hp. apply H9. rewrite !Hst in Hj by tauto. done.
  - intros j q. rewrite Hp, Hl. apply H10.
  - intros j Hj. rewrite Hp. apply H11. rewrite Hl, Hst in Hj by tauto. done.
  - intros j np Hm. rewrite Hl, Hst by tauto. destruct (Hs j) as [[-> ->]|[Hne ->]].
    + apply M9 in Hm. destruct (H12 i np Hm) as (E1 & E2 & E3). split; [done|]. split; [done|]. apply M10. by exists np.
    + rewrite M8 in Hm by done. by apply H12.
  - intros j k np Hj Hk. assert (forall x, md' x = MFork np -> md x = MFork np) as Hm by (intros x; destruct (decide (x = i)) as [->|Hne]; [apply M9 | by rewrite M8]).
    apply (H13 j k np); by apply Hm.
  - intros np Hn. rewrite Hst in Hn by tauto. destruct (H14 np Hn) as [j Hj]. exists j. destruct (decide (j = i)) as [->|Hne]; [by apply M9 | by rewrite M8].
  - intros j Hj Hm. rewrite Hl in Hj. destruct (Hs j) as [[-> ->]|[Hne ->]]; [destruct (M11 Hm) as (? & ? & _); done|]. rewrite M8 in Hm by done. by apply H15.
  - intros j Hz. rewrite Hst in Hz by tauto. destruct (Hs j) as [[-> ->]|[Hne ->]]; [done|]. rewrite M8 by done. by apply H16.
  - intros j Hj.
    assert (asleep_ok pt j (md' j) (p_chan (slot (upd pt i f) j))) as Ha.
    { destruct (Hs j) as [[-> E]|[Hne E]]; rewrite E in *; [by apply M12|]. rewrite M8 by done. destruct (H17 j Hj) as [?|?]; [by left | by right]. }
    destruct Ha as [?|(E1 & E2 & (k & E3) & E4)]; [by left | right]. split; [done|]. split; [done|]. split; [exists k; unfold child; by rewrite Hp|].
    intros k' [Ec Ez]. apply (E4 k'). unfold zombie_child, child in *. rewrite Hp in Ec. rewrite Hst in Ez by tauto. done.
Qed.
End Sys.
