(* ===== verification/ProcInv.v ===== *)
(** The invariant of the process table is kept by every step. *)
From S2P Require Import Prelude Ulib Proc ProcSys.

Section Inv.
Context (ptable_addr forkret trapret : Z) {W : Type} `{!ProcEnv W}.
Notation chan_of := (chan_of ptable_addr).
Notation fork_rest := (fork_rest forkret trapret).
Notation exit_locked := (exit_locked ptable_addr).
Notation wait_pass := (wait_pass ptable_addr).
Notation sys := (@sys W).
Notation inv := (inv ptable_addr (W:=W)).

(** * [fork] *)

Lemma alloc_slot_spec pt pt' np :
  alloc_slot pt = Some (pt', np) ->
  p_state (slot pt np) = UNUSED /\ (np < length (procs pt))%nat /\ length (procs pt') = length (procs pt) /\ nextpid pt' = s32 (nextpid pt + 1) /\
  initproc pt' = initproc pt /\ slot pt' np = set_pid (nextpid pt) (set_state EMBRYO (slot pt np)) /\ forall j, j <> np -> slot pt' j = slot pt j.
Proof.
  unfold alloc_slot. destruct (find_slot _ _ _) as [i|] eqn:E; [|done]. apply find_slot_table in E as [E%is_state_true Hl]. intros H. injection H as <- <-.
  cbn [procs nextpid initproc]. set (f := fun p => set_pid _ _). pose proof (slot_upd_eq pt i f Hl) as S1. pose proof (slot_upd_ne pt i f) as S2.
  split; [done|]. split; [done|]. split; [apply (len_upd pt i f)|]. split; [done|]. split; [done|]. split; [exact S1|]. intros j Hj. by apply S2.
Qed.

Lemma inv_alloc w pt run md c i pt' np :
  inv (mk_sys w pt run md) -> run c = Some i -> md i = MUser -> nextpid pt < 2 ^ 31 - 1 -> alloc_slot pt = Some (pt', np) ->
  inv (mk_sys w pt' run (set_at md i (MFork np))).
Proof.
  intros [H1 H2 H3 H4 H5 H6 H7 H8 H9 H10 H11 H12 H13 H14 H15 H16 H17] Hc Hm Hmax Ha. cbn [s_pt s_run s_mode] in *.
  apply alloc_slot_spec in Ha as (Hu & Hlt & El & En & Ei & Enp & Hne). rewrite s32_small in En by lia. pose proof (H2 c i Hc) as Hi.
  assert (i <> np) as Hinp by (intros ->; congruence).
  assert (forall j, j = np /\ slot pt' j = set_pid (nextpid pt) (set_state EMBRYO (slot pt np)) \/ j <> np /\ slot pt' j = slot pt j) as Hs.
  { intros j. destruct (decide (j = np)) as [->|]; [by left | right; split; [done | by apply Hne]]. }
  assert (forall j, p_parent (slot pt' j) = p_parent (slot pt j)) as Hp by (intros j; destruct (Hs j) as [[-> ->]|[_ ->]]; done).
  assert (forall j, live (slot pt' j) <-> live (slot pt j)) as Hl.
  { intros j. destruct (Hs j) as [[-> ->]|[_ ->]]; [|done]. unfold live. rewrite Hu. cbn. naive_solver. }
  assert (forall j t, t <> UNUSED -> t <> EMBRYO -> p_state (slot pt' j) = t <-> p_state (slot pt j) = t) as Hst.
  { intros j t T1 T2. destruct (Hs j) as [[-> ->]|[_ ->]]; [|done]. rewrite Hu. cbn. split; congruence. }
  assert (forall j, closed (slot pt' j) <-> closed (slot pt j)) as Hcl by (intros j; destruct (Hs j) as [[-> ->]|[_ ->]]; done).
  assert (forall j, md j <> MFork np) as Hnf by (intros j E; destruct (H12 j np E); congruence).
  assert (forall j m, m <> MFork np -> set_at md i (MFork np) j = m -> j <> i /\ md j = m) as Hmd.
  { intros j m Hmm. destruct (decide (j = i)) as [->|]; [by rewrite set_at_eq | by rewrite set_at_ne]. }
  split; cbn [s_pt s_run s_mode]; rewrite ?El, ?En, ?Ei; try done.
  - intros c' j Hr. apply Hst; [done | done|]. by eapply H2.
  - intros j Hr. apply H3. by apply Hst in Hr.
  - lia.
  - intros j Hj. destruct (Hs j) as [[-> E]|[_ E]]; rewrite E in *; [cbn; lia|]. specialize (H6 j Hj). lia.
  - intros j k Hj Hk. destruct (Hs j) as [[-> E]|[Nj E]], (Hs k) as [[-> E']|[Nk E']]; rewrite E in Hj; rewrite E' in Hk; rewrite E, ?E'; cbn [set_pid p_pid]; [done | | | by apply H7].
    + intros Ex. specialize (H6 k Hk). lia.
    + intros Ex. specialize (H6 j Hj). lia.
  - destruct H8 as (k & Ek & Hk & Hmk & Hpk). exists k. rewrite Hl, Hp. split; [done|]. split; [done|]. split; [|done]. intros E. by apply Hmd in E as [_ ?].
  - intros j Hj. rewrite Hp. apply H9. destruct (Hs j) as [[-> E]|[_ E]]; rewrite E in Hj; tauto.
  - intros j q. rewrite Hp, Hl. apply H10.
  - intros j Hj. rewrite Hp. apply H11. rewrite Hl, Hst in Hj by done. done.
  - intros j np' E. rewrite Hl. destruct (decide (j = i)) as [->|Hji].
    + rewrite set_at_eq in E. injection E as <-. rewrite Enp. split; [done|]. rewrite Hne by done. unfold live. rewrite Hi. split; [tauto | done].
    + rewrite set_at_ne in E by done. destruct (H12 j np' E) as (E1 & E2 & E3). rewrite (Hst j SLEEPING) by done. split; [|done]. rewrite Hne; [done|]. congruence.
  - intros j k np' Ej Ek. destruct (decide (j = i)) as [->|Hj], (decide (k = i)) as [->|Hk]; rewrite ?set_at_eq, ?set_at_ne in * by done; [done | | | by apply (H13 j k np')].
    + injection Ej as <-. by destruct (Hnf k).
    + injection Ek as <-. by destruct (Hnf j).
  - intros np' Hn. destruct (decide (np' = np)) as [->|Hnn]; [exists i; by rewrite set_at_eq|]. rewrite Hne in Hn by done. destruct (H14 np' Hn) as [j Hj]. exists j.
    rewrite set_at_ne; [done|]. intros ->. congruence.
  - intros j Hj E. apply Hmd in E as [_ E]; [|done]. rewrite Hl in Hj. rewrite Hcl, Hst by done. by apply H15.
  - intros j Hz. rewrite Hst in Hz by done. destruct (H16 j Hz) as [E1 E2]. rewrite Hcl. split; [|done]. rewrite set_at_ne; [done|]. intros ->. congruence.
  - intros j Hj. rewrite Hst in Hj by done. assert (j <> i) as Hji by (intros ->; congruence). assert (j <> np) as Hjn by (intros ->; congruence). rewrite set_at_ne, Hne by done.
    destruct (H17 j Hj) as [?|(E1 & E2 & (k & E3) & E4)]; [by left | right]. split; [done|]. split; [done|]. split; [exists k; unfold child; by rewrite Hp|].
    intros k' [Ec Ez]. apply (E4 k'). unfold zombie_child, child in *. rewrite Hp in Ec. rewrite Hst in Ez by done. done.
Qed.

(** What [fork] makes of the slot it allocated: nothing, or a child. *)
Definition fork_result (me : nat) (p p' : proc) (r : Z) : Prop :=
  p_pid p' = p_pid p /\ p_killed p' = p_killed p /\
  (r = -1 /\ p_state p' = UNUSED /\ p_parent p' = p_parent p \/ r = p_pid p /\ p_state p' = RUNNABLE /\ p_parent p' = Some me).

Lemma fork_rest_spec w pt me np w' pt' r :
  fork_rest w pt me np = Ok (w', pt', r) -> me <> np -> (np < length (procs pt))%nat ->
  exists f, pt' = upd pt np f /\ fork_result me (slot pt np) (f (slot pt np)) r.
Proof.
  intros H Hne Hl. unfold Proc.fork_rest in H. unfold alloc_stack in H. destruct (kalloc w) as [[w1 k]|]; [|done]. rewrite rbind_ok in H. destruct (k =? 0); rewrite rbind_ok in H; cbn [negb] in H.
  { injection H as <- <- <-. rewrite upd_upd. eexists. split; [reflexivity|]. split; [done|]. split; [done|]. left. done. }
  rewrite upd_upd in H. rinv H. apply at_slot_inv in E as [-> Hme]. rewrite slot_upd_ne in H by done. destruct (copyuvm _ _ _) as [[w2 d]|]; [|done]. rewrite rbind_ok, upd_upd in H.
  destruct (d =? 0).
  { rinv H. rinv H. injection H as <- <- <-. rewrite upd_upd. eexists. split; [reflexivity|]. split; [done|]. split; [done|]. left. done. }
  rewrite upd_upd in H. rinv H. rinv H. rewrite upd_upd in H. rinv H. apply at_slot_inv in E1 as [-> _]. rewrite slot_upd_eq in H by done. rinv H.
  injection H as <- <- <-. rewrite upd_upd. eexists. split; [reflexivity|]. split; [done|]. split; [done|]. right. done.
Qed.

Lemma inv_forked w w' pt run md c i np f r :
  inv (mk_sys w pt run md) -> run c = Some i -> md i = MFork np -> fork_result i (slot pt np) (f (slot pt np)) r ->
  inv (mk_sys w' (upd pt np f) run (set_at (set_at md np MUser) i MUser)).
Proof.
  intros [H1 H2 H3 H4 H5 H6 H7 H8 H9 H10 H11 H12 H13 H14 H15 H16 H17] Hc Hm (Fpid & _ & Fr). cbn [s_pt s_run s_mode] in *.
  pose proof (H2 c i Hc) as Hi. destruct (H12 i np Hm) as (Hnp & _ & _). assert (i <> np) as Hinp by (intros ->; congruence).
  assert (np < length (procs pt))%nat as Hlt by (apply slot_used; by rewrite Hnp).
  assert (forall j, j = np /\ slot (upd pt np f) j = f (slot pt np) \/ j <> np /\ slot (upd pt np f) j = slot pt j) as Hs.
  { intros j. destruct (decide (j = np)) as [->|Hne]; [left; by rewrite slot_upd_eq | right; by rewrite slot_upd_ne]. }
  set (p' := f (slot pt np)) in *. assert (p_state p' = UNUSED /\ p_parent p' = None \/ p_state p' = RUNNABLE /\ p_parent p' = Some i) as Fp.
  { destruct Fr as [(_ & ? & E)|(_ & ? & ?)]; [left | by right]. split; [done|]. rewrite E. apply H9. by right. }
  assert (forall j, md j <> MFork np -> j <> i) as Hji by (intros j Hj ->; done).
  assert (forall j m, m <> MUser -> set_at (set_at md np MUser) i MUser j = m <-> md j = m /\ j <> i /\ j <> np) as Hmd.
  { intros j m Hmm. unfold set_at. destruct (decide (j = i)) as [->|]; [split; [congruence | tauto]|].
    destruct (decide (j = np)) as [->|]; [split; [congruence | tauto]|]. tauto. }
  assert (live (slot pt i)) as Li by (unfold live; tauto).
  assert (forall j, live (slot pt j) -> live (slot (upd pt np f) j)) as Hl.
  { intros j Hj. destruct (Hs j) as [[-> _]|[_ ->]]; [|done]. apply live_states in Hj. tauto. }
  split; cbn [s_pt s_run s_mode nextpid initproc upd]; rewrite ?len_upd; try done.
  - intros c' j Hr. destruct (Hs j) as [[-> E]|[_ ->]]; [|by apply (H2 c')]. specialize (H2 c' np Hr). congruence.
  - intros j Hr. destruct (Hs j) as [[-> E]|[_ E]]; rewrite E in Hr; [|by apply H3]. destruct Fp as [[? _]|[? _]]; congruence.
  - intros j Hj. destruct (Hs j) as [[-> E]|[_ E]]; rewrite E in *; [rewrite Fpid; apply H6; by rewrite Hnp | by apply H6].
  - intros j k Hj Hk. assert (forall x, p_state (slot (upd pt np f) x) <> UNUSED -> p_state (slot pt x) <> UNUSED /\ p_pid (slot (upd pt np f) x) = p_pid (slot pt x)) as Hx.
    { intros x Hx. destruct (Hs x) as [[-> E]|[_ E]]; rewrite E in *; [rewrite Hnp; done | done]. }
    destruct (Hx j Hj) as [? ->], (Hx k Hk) as [? ->]. by apply H7.
  - destruct H8 as (k & Ek & Hk & Hmk & Hpk). exists k. split; [done|]. split; [by apply Hl|]. rewrite Hmd by done. split; [tauto|].
    rewrite slot_upd_ne; [done|]. intros <-. apply live_states in Hk. tauto.
  - intros j Hj. destruct (Hs j) as [[-> E]|[_ E]]; rewrite E in *; [|by apply H9]. destruct Fp as [[_ ?]|[? _]]; [done|]. destruct Hj; congruence.
  - intros j q Hj. destruct (Hs j) as [[-> E]|[_ E]]; rewrite E in Hj.
    + destruct Fp as [[_ ?]|[_ Fq]]; [congruence|]. rewrite Fq in Hj. injection Hj as <-. split; [by apply Hl | done].
    + destruct (H10 j q Hj). split; [by apply Hl | done].
  - intros j Hj Hin. destruct (Hs j) as [[-> E]|[_ E]]; rewrite E in *; [|by apply H11]. destruct Fp as [[Es _]|[_ ->]]; [|done]. unfold live in Hj. rewrite Es in Hj. naive_solver.
  - intros j x E. apply Hmd in E as (E & Nji & Njn); [|done]. destruct (H12 j x E) as (E1 & E2 & E3). split; [|split; [by apply Hl | by rewrite slot_upd_ne]].
    rewrite slot_upd_ne; [done|]. intros <-. by apply Nji, (H13 j i np).
  - intros j k x Ej Ek. apply Hmd in Ej as (Ej & _), Ek as (Ek & _); [|done|done]. by apply (H13 j k x).
  - intros x Hx. destruct (Hs x) as [[-> E]|[Nx E]]; rewrite E in Hx; [destruct Fp as [[? _]|[? _]]; congruence|]. destruct (H14 x Hx) as [j Hj]. exists j. apply Hmd; [done|].
    split; [done|]. split; [intros ->; congruence|]. intros ->. destruct (H12 np x Hj) as (_ & L & _). apply live_states in L. tauto.
  - intros j Hj E. apply Hmd in E as (E & Nji & Njn); [|done]. rewrite slot_upd_ne in * by done. by apply H15.
  - intros j Hz. destruct (Hs j) as [[-> E]|[Nj E]]; rewrite E in *; [destruct Fp as [[? _]|[? _]]; congruence|]. destruct (H16 j Hz) as [E1 E2]. split; [|done].
    apply Hmd; [done|]. split; [done|]. split; [intros ->; congruence | done].
  - intros j Hj. destruct (Hs j) as [[-> E]|[Nj E]]; rewrite E in *; [destruct Fp as [[? _]|[? _]]; congruence|]. assert (j <> i) as Nji by (intros ->; congruence).
    unfold set_at. destruct (decide (j = i)); [done|]. destruct (decide (j = np)); [done|]. destruct (H17 j Hj) as [?|(E1 & E2 & (k & E3) & E4)]; [by left | right].
    split; [done|]. split; [done|]. split.
    + exists k. unfold child. rewrite slot_upd_ne; [done|]. intros <-. unfold child in E3. rewrite H9 in E3 by (by right). done.
    + intros k' [Ec Ez]. destruct (Hs k') as [[-> E']|[_ E']]; unfold child in *; rewrite E' in *; [destruct Fp as [[? _]|[? _]]; congruence|]. by apply (E4 k').
Qed.

(** * [wait] *)

Lemma inv_reap w w' pt run md i j :
  inv (mk_sys w pt run md) -> p_state (slot pt i) = RUNNING -> zombie_child pt i j -> inv (mk_sys w' (upd pt j reap) run md).
Proof.
  intros [H1 H2 H3 H4 H5 H6 H7 H8 H9 H10 H11 H12 H13 H14 H15 H16 H17] Hi [Hc Hz]. cbn [s_pt s_run s_mode] in *.
  assert (j < length (procs pt))%nat as Hlt by (apply slot_used; by rewrite Hz). destruct (H16 j Hz) as [Hmj _].
  assert (forall k, k = j /\ slot (upd pt j reap) k = reap (slot pt j) \/ k <> j /\ slot (upd pt j reap) k = slot pt k) as Hs.
  { intros k. destruct (decide (k = j)) as [->|Hne]; [left; by rewrite slot_upd_eq | right; by rewrite slot_upd_ne]. }
  assert (forall k, live (slot (upd pt j reap) k) <-> live (slot pt k)) as Hl.
  { intros k. destruct (Hs k) as [[-> ->]|[_ ->]]; [|done]. unfold live. rewrite Hz. cbn. naive_solver. }
  assert (forall k t, t <> UNUSED -> t <> ZOMBIE -> p_state (slot (upd pt j reap) k) = t <-> p_state (slot pt k) = t) as Hst.
  { intros k t T1 T2. destruct (Hs k) as [[-> ->]|[_ ->]]; [|done]. rewrite Hz. cbn. split; congruence. }
  split; cbn [s_pt s_run s_mode nextpid initproc upd]; rewrite ?len_upd; try done.
  - intros c k Hr. apply Hst; [done | done|]. by apply (H2 c).
  - intros k Hr. apply Hst in Hr; [|done|done]. by apply H3.
  - intros k Hk. destruct (Hs k) as [[-> E]|[_ E]]; rewrite E in *; [done | by apply H6].
  - intros k l Hk Hk'. destruct (Hs k) as [[-> E]|[_ E]], (Hs l) as [[-> E']|[_ E']]; rewrite E in Hk; rewrite E' in Hk'; rewrite E, ?E'; try done. by apply H7.
  - destruct H8 as (k & Ek & Hk & Hm & Hpk). exists k. rewrite Hl. split; [done|]. split; [done|]. split; [done|].
    rewrite slot_upd_ne; [done|]. intros <-. apply live_states in Hk. tauto.
  - intros k Hk. destruct (Hs k) as [[-> E]|[_ E]]; rewrite E in *; [done | by apply H9].
  - intros k q Hk. rewrite Hl. destruct (Hs k) as [[-> E]|[_ E]]; rewrite E in Hk; [done | by apply (H10 k)].
  - intros k Hk Hin. rewrite Hl in Hk. destruct (Hs k) as [[-> E]|[_ E]]; rewrite E in *; [|by apply H11]. destruct Hk as [Hk|Hk]; [|done]. apply live_states in Hk. tauto.
  - intros k np Hm. rewrite Hl, !Hst by done. by apply H12.
  - intros np Hn. rewrite Hst in Hn by done. by apply H14.
  - intros k Hk Hm. rewrite Hl in Hk. rewrite Hst by done. destruct (Hs k) as [[-> E]|[_ ->]]; [|by apply H15]. apply live_states in Hk. tauto.
  - intros k Hk. destruct (Hs k) as [[-> E]|[_ E]]; rewrite E in *; [done | by apply H16].
  - intros k Hk. rewrite Hst in Hk by done. assert (k <> j) as Hkj by (intros ->; congruence). assert (k <> i) as Hki by (intros ->; congruence). rewrite slot_upd_ne by done.
    destruct (H17 k Hk) as [?|(E1 & E2 & (l & E3) & E4)]; [by left | right]. split; [done|]. split; [done|]. split.
    + exists l. unfold child. rewrite slot_upd_ne; [done|]. intros <-. unfold child in *. congruence.
    + intros l' [Ec Ez]. destruct (Hs l') as [[-> E']|[_ E']]; unfold child in *; rewrite E' in *; [done|]. by apply (E4 l').
Qed.

(** * [exit] *)

Lemma woken_trans p q r : woken p q -> woken q r -> woken p r.
Proof.
  unfold woken. intros (A1 & A2 & A3 & A4 & A5 & A6) (B1 & B2 & B3 & B4 & B5 & B6). repeat split; try congruence.
  destruct A6 as [?|[? ?]], B6 as [?|[? ?]]; [left | right | right | right]; try split; congruence.
Qed.

Lemma adopted_woken me init p p' : woken p p' -> woken (adopted me init p) (adopted me init p').
Proof.
  unfold adopted. intros H. pose proof H as (-> & _). destruct (bool_decide _); [|done]. unfold woken in *. cbn. tauto.
Qed.

Lemma exit_loop n pt me init :
  length (procs pt) = n -> me <> init -> (me < n)%nat -> initproc pt = Some init ->
  let c := match p_parent (slot pt me) with Some q => chan_of q | None => 0 end in
  exists pt', sched (upd (reparent ptable_addr n 0 (wakeup1 pt c) me init) me (set_state ZOMBIE)) me = Ok pt' /\ length (procs pt') = n /\ nextpid pt' = nextpid pt /\ initproc pt' = Some init /\
    (exists x, woken (adopted me init (slot pt me)) x /\ slot pt' me = set_state ZOMBIE x) /\
    (forall j, j <> me -> woken (adopted me init (slot pt j)) (slot pt' j)) /\
    (forall j q, j <> me -> p_state (slot pt' j) = SLEEPING -> p_chan (slot pt j) = chan_of q -> p_parent (slot pt me) <> Some q) /\
    (forall j k, j <> me -> p_state (slot pt' j) = SLEEPING -> p_chan (slot pt j) = chan_of init -> ~ zombie_child pt me k).
Proof.
  intros Hl Hne Hme Ei c.
  set (pt1 := wakeup1 pt c). 
  destruct (reparent_spec ptable_addr n 0 pt1 me init) as (L2 & N2 & I2 & z & Hz & Hs); [unfold pt1; rewrite len_wakeup; lia | done|].
  set (pt2 := reparent _ _ _ _ _ _) in *. assert (length (procs pt1) = n) as L1 by (unfold pt1; by rewrite len_wakeup). rewrite L1 in L2.
  assert (forall j, slot pt2 j = (if z then wake (chan_of init) else id) (adopted me init (wake c (slot pt j)))) as Hs2.
  { intros j. rewrite Hs. cbn [Nat.leb]. unfold pt1. by rewrite slot_wakeup. }
  assert (forall j, woken (adopted me init (slot pt j)) (slot pt2 j)) as Hw.
  { intros j. rewrite Hs2. eapply woken_trans; [apply adopted_woken, wake_woken|]. destruct z; [apply wake_woken | apply woken_refl]. }
  unfold sched. rewrite at_slot_ok by (rewrite len_upd; lia). rewrite rbind_ok, slot_upd_eq by lia. rewrite (proj2 (is_state_false _ RUNNING)) by done.
  eexists. split; [reflexivity|]. rewrite len_upd. split; [done|]. split; [done|]. split; [cbn [upd initproc]; rewrite I2; exact Ei|]. split; [exists (slot pt2 me); by rewrite slot_upd_eq by lia|].
  assert (forall j, p_state (adopted me init (wake c (slot pt j))) = p_state (wake c (slot pt j)) /\ p_chan (adopted me init (wake c (slot pt j))) = p_chan (wake c (slot pt j))) as Ha.
  { intros j. unfold adopted. by destruct (bool_decide _). }
  assert (forall j, p_state (slot pt2 j) = SLEEPING -> p_state (wake c (slot pt j)) = SLEEPING /\ (z = true -> p_chan (wake c (slot pt j)) <> chan_of init)) as Hsl.
  { intros j. rewrite Hs2. destruct z; unfold id; rewrite <- (proj1 (Ha j)), <- (proj2 (Ha j)); [|done]. unfold wake at 1.
    destruct (is_state _ _) eqn:E1; cbn [andb]; [|apply is_state_false in E1; done]. destruct (Z.eqb_spec (p_chan (adopted me init (wake c (slot pt j)))) (chan_of init)); done. }
  split; [intros j Hj; rewrite slot_upd_ne by done; apply Hw|]. split.
  - intros j q Hj. rewrite slot_upd_ne by done. intros [Hsj _]%Hsl Hc Hq. revert Hsj. unfold wake, c. rewrite Hq, Hc, Z.eqb_refl, andb_true_r.
    destruct (is_state _ _) eqn:E; [done|]. by apply is_state_false in E.
  - intros j k Hj. rewrite slot_upd_ne by done. intros [_ Hsj]%Hsl Hc [Hk1 Hk2].
    destruct (wake_woken c (slot pt j)) as (_ & _ & _ & _ & Ec & _). rewrite Ec in Hsj. apply Hsj; [|done]. apply Hz. exists k. split; [lia|].
    destruct (wake_woken c (slot pt k)) as (Ek & _ & _ & _ & _ & Es). unfold zombie_child, child, pt1. rewrite slot_wakeup, Ek. split; [done|]. destruct Es as [->|[? _]]; congruence.
Qed.

Lemma exit_spec pt me init :
  length (procs pt) = NPROC -> initproc pt = Some init -> me <> init -> (me < NPROC)%nat ->
  exists pt', exit_locked pt me = Ok pt' /\ length (procs pt') = NPROC /\ nextpid pt' = nextpid pt /\ initproc pt' = Some init /\
    (exists x, woken (adopted me init (slot pt me)) x /\ slot pt' me = set_state ZOMBIE x) /\
    (forall j, j <> me -> woken (adopted me init (slot pt j)) (slot pt' j)) /\
    (forall j q, j <> me -> p_state (slot pt' j) = SLEEPING -> p_chan (slot pt j) = chan_of q -> p_parent (slot pt me) <> Some q) /\
    (forall j k, j <> me -> p_state (slot pt' j) = SLEEPING -> p_chan (slot pt j) = chan_of init -> ~ zombie_child pt me k).
Proof.
  intros Hl Ei Hne Hme. unfold Proc.exit_locked. rewrite at_slot_ok, rbind_ok by lia.
  destruct (exit_loop NPROC pt me init Hl Hne Hme Ei) as (pt' & E & H). exists pt'. split; [|exact H]. rewrite <- E. destruct (p_parent (slot pt me)); cbn [initproc wakeup1 map_procs]; rewrite Ei; reflexivity.
Qed.

Lemma inv_exit w pt run md c i pt' :
  inv (mk_sys w pt run md) -> run c = Some i -> md i = MExit -> exit_locked pt i = Ok pt' -> inv (mk_sys w pt' (set_at run c None) md).
Proof.
  intros [H1 H2 H3 H4 H5 H6 H7 H8 H9 H10 H11 H12 H13 H14 H15 H16 H17] Hc Hm Hex. cbn [s_pt s_run s_mode] in *.
  pose proof (H2 c i Hc) as Hi. destruct H8 as (init & Ei & Linit & Minit & Pinit). assert (i <> init) as Hne by (intros ->; done).
  assert (i < NPROC)%nat as Hlt by (rewrite <- H1; apply slot_used; by rewrite Hi).
  destruct (exit_spec pt i init H1 Ei Hne Hlt) as (pt2 & E & L & N & I & (x & Hx & Ex) & Ho & Hw1 & Hw2). rewrite Hex in E. injection E as <-.
  assert (live (slot pt i)) as Li by (unfold live; tauto). destruct (H15 i Li Hm) as [Hcl _].
  assert (forall p, p_state (adopted i init p) = p_state p /\ p_pid (adopted i init p) = p_pid p /\ p_chan (adopted i init p) = p_chan p /\ (closed (adopted i init p) <-> closed p)) as Ha.
  { intros p. unfold adopted. by destruct (bool_decide _). }
  assert (forall j, j <> i -> (live (slot pt' j) <-> live (slot pt j)) /\ (forall t, t <> SLEEPING -> t <> RUNNABLE -> p_state (slot pt' j) = t <-> p_state (slot pt j) = t) /\
     (p_state (slot pt' j) = SLEEPING -> p_state (slot pt j) = SLEEPING) /\ (closed (slot pt' j) <-> closed (slot pt j))) as Hj.
  { intros j Nj. pose proof (woken_states _ _ (Ho j Nj)) as (A1 & A2 & A3 & A4). destruct (Ha (slot pt j)) as (B1 & _ & _ & B4). unfold live at 2 in A1. rewrite B1 in *. rewrite B4 in A4. done. }
  assert (forall j, p_pid (slot pt' j) = p_pid (slot pt j) /\ p_parent (slot pt' j) = p_parent (adopted i init (slot pt j))) as Hf.
  { intros j. destruct (decide (j = i)) as [->|Nj]; [rewrite Ex; cbn [set_state p_pid p_parent]; destruct Hx as (-> & -> & _); by rewrite (proj1 (proj2 (Ha _))) | destruct (Ho j Nj) as (-> & -> & _); by rewrite (proj1 (proj2 (Ha _)))]. }
  assert (p_state (slot pt' i) = ZOMBIE) as Zi by (by rewrite Ex).
  assert (forall j, live (slot pt' j) \/ p_state (slot pt' j) = ZOMBIE -> live (slot pt j) \/ p_state (slot pt j) = ZOMBIE) as Hlz.
  { intros j. destruct (decide (j = i)) as [->|Nj]; [by left|]. destruct (Hj j Nj) as (A1 & A2 & _). rewrite A1, A2 by done. done. }
  assert (forall j, p_state (slot pt' j) <> UNUSED -> p_state (slot pt j) <> UNUSED) as Hun.
  { intros j. destruct (decide (j = i)) as [->|Nj]; [by rewrite Hi|]. destruct (Hj j Nj) as (_ & A2 & _). by rewrite A2. }
  assert (forall q, q <> i -> live (slot pt q) -> live (slot pt' q)) as Hlq by (intros q Nq; apply (Hj q Nq)).
  (* the parents *)
  assert (forall j q, p_parent (slot pt' j) = Some q -> p_parent (slot pt j) = Some i /\ q = init \/ p_parent (slot pt j) = Some q /\ q <> i) as Hpar.
  { intros j q. rewrite (proj2 (Hf j)). unfold adopted. destruct (bool_decide_reflect (p_parent (slot pt j) = Some i)) as [E|E]; [intros Eq; injection Eq as <-; by left|].
    intros Eq. right. split; [done|]. intros ->. done. }
  split; cbn [s_pt s_run s_mode]; rewrite ?L, ?N, ?I; try done.
  - intros c' j Hr. destruct (decide (c' = c)) as [->|Nc]; [by rewrite set_at_eq in Hr|]. rewrite set_at_ne in Hr by done.
    assert (j <> i) as Nj by (intros ->; by apply Nc, (H4 c' c i)). apply (Hj j Nj); [done | done|]. by apply (H2 c').
  - intros j Hr. destruct (decide (j = i)) as [->|Nj]; [congruence|]. apply (Hj j Nj) in Hr; [|done|done]. destruct (H3 j Hr) as [c' Hc']. exists c'. rewrite set_at_ne; [done|]. intros ->. congruence.
  - intros c1 c2 j Hr Hr'. assert (forall c', set_at run c None c' = Some j -> run c' = Some j) as Hx' by (intros c'; unfold set_at; by destruct (decide _)).
    apply (H4 c1 c2 j); by apply Hx'.
  - intros j Hu. rewrite (proj1 (Hf j)). by apply H6, Hun.
  - intros j k Uj Uk. rewrite !(proj1 (Hf _)). apply H7; by apply Hun.
  - exists init. split; [done|]. split; [by apply Hlq|]. split; [done|]. rewrite (proj2 (Hf init)). unfold adopted. rewrite Pinit. by rewrite bool_decide_false.
  - intros j Hu. destruct (decide (j = i)) as [->|Nj]; [destruct Hu; congruence|]. assert (p_parent (slot pt j) = None) as E.
    { apply H9. destruct (Hj j Nj) as (_ & A2 & _). rewrite !A2 in Hu by done. done. }
    rewrite (proj2 (Hf j)). unfold adopted. rewrite E. by rewrite bool_decide_false.
  - intros j q Hq. apply Hpar in Hq as [[Hq ->]|[Hq Nq]].
    + split; [by apply Hlq|]. intros <-. congruence.
    + destruct (H10 j q Hq). split; [by apply Hlq | done].
  - intros j Hl Nin. specialize (H11 j (Hlz j Hl)). rewrite Ei in H11. specialize (H11 Nin). rewrite (proj2 (Hf j)). unfold adopted. by destruct (bool_decide _).
  - intros j np Hf'. destruct (H12 j np Hf') as (E1 & E2 & E3). assert (j <> i) as Nj by (intros ->; congruence). assert (np <> i) as Nnp by (intros ->; congruence).
    split; [by apply (Hj np Nnp)|]. split; [by apply Hlq|]. intros E. by apply E3, (Hj j Nj).
  - intros np Hn. destruct (decide (np = i)) as [->|Nnp]; [congruence|]. apply H14. by apply (Hj np Nnp) in Hn.
  - intros j Hl Hmj. destruct (decide (j = i)) as [->|Nj]; [apply live_states in Hl; tauto|]. destruct (Hj j Nj) as (A1 & A2 & A3 & A4). rewrite A1 in Hl.
    destruct (H15 j Hl Hmj) as [? Hns]. split; [by apply A4|]. intros E. by apply Hns, A3.
  - intros j Hz. destruct (decide (j = i)) as [->|Nj].
    + split; [done|]. rewrite Ex. pose proof (woken_states _ _ Hx) as (_ & _ & _ & A4). rewrite (proj2 (proj2 (proj2 (Ha _)))) in A4. by apply A4 in Hcl.
    + destruct (Hj j Nj) as (A1 & A2 & A3 & A4). apply A2 in Hz; [|done|done]. destruct (H16 j Hz). split; [done|]. by apply A4.
  - intros j Hsj. destruct (decide (j = i)) as [->|Nj]; [congruence|]. pose proof (proj1 (proj2 (proj2 (Hj j Nj))) Hsj) as Hsj'.
    assert (p_chan (slot pt' j) = p_chan (slot pt j)) as Ech by (destruct (Ho j Nj) as (_ & _ & _ & _ & -> & _); apply Ha). rewrite Ech.
    destruct (H17 j Hsj') as [?|(E1 & E2 & (k & E3) & E4)]; [by left | right]. split; [done|]. split; [done|]. split.
    + exists k. unfold child in *. rewrite (proj2 (Hf k)). unfold adopted. rewrite E3. rewrite bool_decide_false by congruence. done.
    + intros k' [Ec Ez]. unfold child in Ec. apply Hpar in Ec as [[Ec Ej]|[Ec _]].
      * destruct (decide (k' = i)) as [->|Nk]; [by destruct (H10 i i Ec)|]. apply (Hj k' Nk) in Ez; [|done|done]. apply (Hw2 j k' Nj Hsj); [by rewrite E2, Ej | done].
      * destruct (decide (k' = i)) as [->|Nk]; [by apply (Hw1 j j Nj Hsj)|]. apply (Hj k' Nk) in Ez; [|done|done]. by apply (E4 k').
Qed.
End Inv.
