(* ===== verification/ProcProps.v ===== *)
(** Properties of proc.c: the process table in every reachable state, [wait] and
    [exit], the scheduler, [fork] and [kill]. *)
From stdpp Require Import relations.
From S2P Require Import Prelude Ulib Proc ProcSys ProcInv.

Section Props.
Context (ptable_addr forkret trapret : Z) {W : Type} `{!ProcEnv W}.
Notation chan_of := (chan_of ptable_addr).
Notation sys := (@sys W).
Notation inv := (inv ptable_addr (W:=W)).
Notation step := (step ptable_addr forkret trapret (W:=W)).
Notation boot_sys := (boot_sys forkret trapret (W:=W)).

(** * Start-up *)

Lemma slot_boot j : slot boot_table j = zero_proc.
Proof.
  unfold slot, boot_table. cbn [procs]. destruct (replicate NPROC zero_proc !! j) as [p|] eqn:E; [|done]. apply lookup_replicate in E as [-> _]. done.
Qed.

Lemma inv_boot w s : boot_sys w s -> inv s /\ nextpid (s_pt s) = 2.
Proof.
  intros (w' & pt & E & ->). unfold userinit, allocproc in E. destruct (alloc_slot boot_table) as [[pt1 i]|] eqn:Ea; [|done].
  apply alloc_slot_spec in Ea as (_ & Hlt & El & En & _ & Ei & Hne). unfold alloc_stack in E. destruct (kalloc w) as [[w1 k]|]; [|done]. rewrite rbind_ok in E. rewrite slot_boot in Ei.
  assert (length (procs boot_table) = NPROC) as Lb by (unfold boot_table; cbn [procs]; apply length_replicate). rewrite Lb in *.
  destruct (k =? 0); [done|]. rewrite !rbind_ok in E. destruct (setupkvm w1) as [[w2 d]|]; [|done]. rewrite rbind_ok in E. destruct (d =? 0); [done|]. rinv E. rinv E. rinv E.
  destruct (namei_root _) as [[w3 cw]|]; [|done]. rewrite rbind_ok in E. injection E as <- <-.
  rewrite !upd_upd. match goal with |- context [upd (mk_ptable (alter ?A i (alter ?B i (procs pt1))) ?n ?o) i ?G] =>
    set (g := G); set (f := fun p => A (B p)); set (pt2 := upd (upd pt1 i B) i A); change (mk_ptable (alter A i (alter B i (procs pt1))) n o) with (mk_ptable (procs pt2) n o);
    set (pt3 := mk_ptable (procs pt2) n o) end.
  assert (pt2 = upd pt1 i f) as E2' by exact (upd_upd _ _ _ _).
  assert (length (procs pt3) = NPROC) as L3 by (cbn [procs pt3]; by rewrite E2', len_upd).
  assert (slot (upd pt3 i g) i = g (f (set_pid 1 (set_state EMBRYO zero_proc)))) as Si.
  { rewrite slot_upd_eq by lia. change (slot pt3 i) with (slot pt2 i). rewrite E2'. rewrite slot_upd_eq by lia. by rewrite Ei. }
  assert (forall j, j <> i -> slot (upd pt3 i g) j = zero_proc) as So.
  { intros j Hj. rewrite slot_upd_ne by done. change (slot pt3 j) with (slot pt2 j). rewrite E2'. rewrite slot_upd_ne, Hne by done. apply slot_boot. }
  assert (nextpid (upd pt3 i g) = 2) as N3 by (cbn [upd nextpid pt3]; rewrite En; done).
  assert (forall j, j = i /\ slot (upd pt3 i g) j = g (f (set_pid 1 (set_state EMBRYO zero_proc))) \/ j <> i /\ slot (upd pt3 i g) j = zero_proc) as Hs.
  { intros j. destruct (decide (j = i)) as [->|]; [by left | right; split; [done | by apply So]]. }
  split; [|done]. split; cbn [s_pt s_run s_mode]; rewrite ?N3; try done.
  - by rewrite len_upd.
  - intros j Hr. destruct (Hs j) as [[-> E']|[_ E']]; rewrite E' in Hr; done.
  - intros j Hr. destruct (Hs j) as [[-> E']|[_ E']]; rewrite E' in *; [cbn; lia | done].
  - intros j l Hj Hl _. destruct (Hs j) as [[-> E']|[_ E']]; rewrite E' in Hj; [|done]. by destruct (Hs l) as [[-> El']|[_ El']]; rewrite El' in Hl.
  - exists i. rewrite Si. split; [done|]. split; [unfold live; cbn; tauto | done].
  - intros j _. by destruct (Hs j) as [[-> ->]|[_ ->]].
  - intros j q Hj. destruct (Hs j) as [[-> E']|[_ E']]; rewrite E' in Hj; done.
  - intros j Hj Hin. destruct (Hs j) as [[-> E']|[_ E']]; [done|]. rewrite E' in Hj. unfold live in Hj. cbn in Hj. naive_solver.
  - intros np Hn. destruct (Hs np) as [[-> E']|[_ E']]; rewrite E' in Hn; done.
  - intros j Hj. destruct (Hs j) as [[-> E']|[_ E']]; rewrite E' in Hj; done.
  - intros j Hj. destruct (Hs j) as [[-> E']|[_ E']]; rewrite E' in Hj; done.
Qed.

(** * Every step *)

Lemma sched_ok pt me f : (me < length (procs pt))%nat -> p_state (f (slot pt me)) <> RUNNING -> sched (upd pt me f) me = Ok (upd pt me f).
Proof.
  intros Hl Hs. unfold sched. rewrite at_slot_ok by (by rewrite len_upd). rewrite rbind_ok, slot_upd_eq by done. by rewrite (proj2 (is_state_false _ RUNNING) Hs).
Qed.

Lemma run_ne (run : nat -> option nat) c i v c' j :
  (forall c1 c2 k, run c1 = Some k -> run c2 = Some k -> c1 = c2) -> run c = Some i \/ run c = None -> v = Some i \/ v = None -> j <> i ->
  set_at run c v c' = Some j <-> run c' = Some j.
Proof.
  intros Hinj Hc Hv Hj. destruct (decide (c' = c)) as [->|Hne]; [|by rewrite set_at_ne]. rewrite set_at_eq. destruct Hc as [->| ->], Hv as [->| ->]; split; congruence.
Qed.

(** A running process goes on, or leaves its processor [c]. *)
Lemma inv_stay w w' pt run md c i f m :
  inv (mk_sys w pt run md) -> run c = Some i -> md i <> MExit -> (forall np, md i <> MFork np) -> m = MUser ->
  p_state (f (slot pt i)) = p_state (slot pt i) -> p_parent (f (slot pt i)) = p_parent (slot pt i) -> p_pid (f (slot pt i)) = p_pid (slot pt i) ->
  inv (mk_sys w' (upd pt i f) run (set_at md i m)).
Proof.
  intros H Hc Hm1 Hm2 -> Es Ep Epid. pose proof (i_run _ _ H c i Hc) as Hi. cbn [s_pt] in Hi.
  apply (inv_move _ w w' pt run md); [done|]. split; try done; rewrite ?set_at_eq; unfold live; rewrite ?Es, ?Hi; try tauto.
  - split; [by exists c | done].
  - intros c1 c2 E1 E2. by apply (i_inj _ _ H c1 c2 i).
  - intros j Hj. by apply set_at_ne.
  - intros np. split; [done|]. intros E. by apply Hm2 in E.
  - done.
  - done.
  - done.
Qed.

Lemma inv_leave w w' pt run md c i f md' :
  inv (mk_sys w pt run md) -> run c = Some i -> (forall j, j <> i -> md' j = md j) -> (forall np, md' i = MFork np <-> md i = MFork np) -> (md' i = MExit -> md i = MExit) ->
  (p_state (f (slot pt i)) = RUNNABLE \/ p_state (f (slot pt i)) = SLEEPING /\ (forall np, md i <> MFork np) /\ md' i <> MExit /\ asleep_ok ptable_addr pt i (md' i) (p_chan (f (slot pt i)))) ->
  p_parent (f (slot pt i)) = p_parent (slot pt i) -> p_pid (f (slot pt i)) = p_pid (slot pt i) -> p_ofile (f (slot pt i)) = p_ofile (slot pt i) -> p_cwd (f (slot pt i)) = p_cwd (slot pt i) ->
  inv (mk_sys w' (upd pt i f) (set_at run c None) md').
Proof.
  intros H Hc Hmd Hf He Hs Ep Epid Eo Ecw. pose proof (i_run _ _ H c i Hc) as Hi. cbn [s_pt] in Hi.
  assert (forall c', set_at run c None c' <> Some i) as Hnr.
  { intros c'. destruct (decide (c' = c)) as [->|Hne]; [by rewrite set_at_eq|]. rewrite set_at_ne by done. intros E. by apply Hne, (i_inj _ _ H c' c i). }
  assert (live (slot pt i)) as Li by (unfold live; tauto).
  apply (inv_move _ w w' pt run md); [done|]. split; try done.
  - unfold live. tauto.
  - split; [|by intros [c' E]; apply Hnr in E]. destruct Hs as [->|[-> _]]; done.
  - intros c1 c2 E1. by apply Hnr in E1.
  - intros c' j Hj. apply (run_ne run c i None c' j); [apply (i_inj _ _ H) | by left | by right | done].
  - intros [np E]. destruct Hs as [->|(_ & Hn & _)]; [done|]. by destruct (Hn np).
  - intros E. pose proof (He E) as E'. destruct (i_exit _ _ H i Li E') as [Hcl _]. split; [unfold closed in *; by rewrite Eo, Ecw|].
    split; [destruct Hs as [->|(_ & _ & Hn & _)]; done|]. destruct (i_init _ _ H) as (k & Ek & _ & Hk & _). cbn [s_pt s_mode] in *. rewrite Ek. intros Eq. injection Eq as ->. done.
  - intros E. destruct Hs as [E'|(_ & _ & _ & Ha)]; [congruence | done].
Qed.

Lemma kill_woken pt pid j : woken (slot pt j) (slot (kill pt pid).1 j) /\ length (procs (kill pt pid).1) = length (procs pt) /\
  nextpid (kill pt pid).1 = nextpid pt /\ initproc (kill pt pid).1 = initproc pt.
Proof.
  unfold kill. destruct (find_slot _ _ _) as [i|]; cbn [fst]; [|split; [apply woken_refl | done]]. rewrite len_upd. split; [|done]. rewrite slot_upd.
  destruct (decide _); [|apply woken_refl]. destruct (is_state _ _) eqn:E; unfold woken; cbn; [apply is_state_true in E|]; tauto.
Qed.

Lemma wait_pass_spec (w : W) pt me w' pt' r :
  length (procs pt) = NPROC -> (me < NPROC)%nat -> wait_pass ptable_addr w pt me = Ok (w', pt', r) ->
  match r with
  | Reaped pid => exists j, zombie_child pt me j /\ pid = p_pid (slot pt j) /\ pt' = upd pt j reap /\ forall j', (j' < j)%nat -> ~ zombie_child pt me j'
  | NoChild => pt' = pt /\ (forall j, ~ zombie_child pt me j) /\ ((forall j, ~ child pt me j) \/ p_killed (slot pt me) = true)
  | Asleep => pt' = upd pt me (fun p => set_state SLEEPING (set_chan (chan_of me) p)) /\ (forall j, ~ zombie_child pt me j) /\ (exists j, child pt me j) /\ p_killed (slot pt me) = false
  end.
Proof.
  intros Hl Hme. unfold wait_pass. destruct (wait_scan NPROC 0 pt me false) as [o kids] eqn:E. apply wait_scan_spec in E; [|rewrite Hl; lia].
  assert (forall j, child pt me j -> (j < NPROC)%nat) as Hlt.
  { intros j Hj. destruct (Nat.lt_ge_cases j NPROC) as [|Hge]; [done|]. unfold child in Hj. rewrite slot_past in Hj by (rewrite Hl; done). done. }
  destruct o as [j|].
  - destruct E as (Hz & _ & Hfirst). intros H. rinv H. rinv H. rinv H. injection H as <- <- <-. apply at_slot_inv in E as [-> _]. exists j.
    split; [done|]. split; [done|]. split; [done|]. intros j' Hj'. apply Hfirst. lia.
  - destruct E as [Hnz Hk]. assert (forall j, ~ zombie_child pt me j) as Hnz' by (intros j Hz; apply (Hnz j); [split; [lia | apply Hlt, Hz] | done]).
    rewrite at_slot_ok, rbind_ok by lia. destruct kids; cbn [negb orb].
    + destruct (p_killed (slot pt me)) eqn:Ek.
      * intros H. injection H as <- <- <-. split; [done|]. split; [done | by right].
      * unfold sleep. rewrite sched_ok by (done || lia). rewrite rbind_ok. intros H. injection H as <- <- <-. split; [done|]. split; [done|]. split; [|done].
        destruct (proj1 Hk eq_refl) as [|(j & _ & Hj)]; [done | by exists j].
    + intros H. injection H as <- <- <-. split; [done|]. split; [done|]. left. intros j Hj. destruct Hk as [_ Hk]. discriminate Hk. right. exists j. split; [split; [lia | by apply Hlt] | done].
Qed.

Lemma upd_id pt i : upd pt i id = pt.
Proof.
  unfold upd. destruct pt as [l n o]. cbn [procs nextpid initproc]. f_equal. apply list_eq. intros k.
  destruct (decide (k = i)) as [->|Hne]; [rewrite list_lookup_alter_eq; by destruct (l !! i) | by rewrite list_lookup_alter_ne].
Qed.

Lemma inv_wait w pt run md c i w' pt' r :
  inv (mk_sys w pt run md) -> run c = Some i -> md i = MUser -> wait_pass ptable_addr w pt i = Ok (w', pt', r) ->
  inv (mk_sys w' pt' (if decide (r = Asleep) then set_at run c None else run) (set_at md i (if decide (r = Asleep) then MWait else MUser))).
Proof.
  intros H Hc Hm Hw. pose proof (i_run _ _ H c i Hc) as Hi. pose proof (i_len _ _ H) as Hl. cbn [s_pt s_run s_mode] in *.
  assert (i < NPROC)%nat as Hlt by (rewrite <- Hl; apply slot_used; by rewrite Hi).
  assert (inv (mk_sys w pt run (set_at md i MUser))) as H'.
  { rewrite <- (upd_id pt i). apply (inv_stay w w pt run md c i id); try done; try congruence; intros np; congruence. }
  apply wait_pass_spec in Hw; [|done|done]. destruct r as [pid| |].
  - destruct Hw as (j & Hz & _ & -> & _). rewrite !decide_False by done. by apply (inv_reap _ w w' pt run _ i j).
  - destruct Hw as [-> _]. rewrite !decide_False by done. by destruct H'.
  - destruct Hw as (-> & Hnz & Hk & _). rewrite !decide_True by done. apply (inv_leave w w' pt run md c i); try done.
    + intros j Hj. by apply set_at_ne.
    + intros np. rewrite set_at_eq, Hm. done.
    + by rewrite set_at_eq.
    + right. rewrite set_at_eq. split; [done|]. split; [intros np; congruence|]. split; [done|]. right. done.
Qed.

Lemma inv_ext w pt run md md' : inv (mk_sys w pt run md) -> (forall j, md j = md' j) -> inv (mk_sys w pt run md').
Proof.
  intros [H1 H2 H3 H4 H5 H6 H7 H8 H9 H10 H11 H12 H13 H14 H15 H16 H17] E. cbn [s_pt s_run s_mode] in *. split; cbn [s_pt s_run s_mode]; try done.
  - destruct H8 as (k & ?). exists k. by rewrite <- E.
  - intros i np. rewrite <- E. apply H12.
  - intros i j np. rewrite <- !E. apply H13.
  - intros np Hn. destruct (H14 np Hn) as [i Hi]. exists i. by rewrite <- E.
  - intros i. rewrite <- E. apply H15.
  - intros i. rewrite <- E. apply H16.
  - intros i. rewrite <- E. apply H17.
Qed.

Lemma inv_step s s' : inv s -> nextpid (s_pt s) < 2 ^ 31 - 1 -> step s s' -> inv s' /\ nextpid (s_pt s') <= nextpid (s_pt s) + 1.
Proof.
  intros H Hn Hs. destruct Hs as [w pt run md c i Hc Hr | w pt run md c i pt' Hc Hm E | w pt run md c i pt' np Hc Hm E | w pt run md c i np w' pt' r Hc Hm E
    | w pt run md c i w' pt' Hc Hm E | w pt run md c i pt' Hc Hm E | w pt run md c i w' pt' r Hc Hm E | w pt run md c i chan pt' Hc Hm Hf E | w pt run md c i Hc Hm
    | w pt run md chan | w pt run md c i pid Hc Hm | w pt run md c i n w' pt' r Hc Hm E]; cbn [s_pt] in *.
  all: pose proof (i_len _ _ H) as Hl; cbn [s_pt] in Hl.
  all: try (pose proof (i_run _ _ H c i) as Hi; cbn [s_pt s_run] in Hi).
  all: try (specialize (Hi Hc); assert (i < length (procs pt))%nat as Hlt by (apply slot_used; by rewrite Hi)).
  - split; [|cbn [upd nextpid scheduler_run]; lia]. assert (live (slot pt i)) as Li by (unfold live; tauto).
    assert (forall c', run c' <> Some i) as Hnr by (intros c' E; apply (i_run _ _ H) in E; cbn [s_pt] in E; congruence).
    apply (inv_move _ w w pt run md); [done|]. split; try done.
    + unfold live. tauto.
    + split; [|done]. intros _. exists c. apply set_at_eq.
    + intros c1 c2. unfold set_at. destruct (decide (c1 = c)), (decide (c2 = c)); try congruence; intros E1 E2; by (apply Hnr in E1 || apply Hnr in E2).
    + intros c' j Hj. apply (run_ne run c i (Some i) c' j); [apply (i_inj _ _ H) | by right | by left | done].
    + intros E. destruct (i_exit _ _ H i Li E) as [Hcl _]. split; [done|]. split; [done|]. destruct (i_init _ _ H) as (k & Ek & _ & Hk & _). cbn [s_pt s_mode] in *. rewrite Ek. congruence.
  - unfold yield in E. rewrite sched_ok in E by done. injection E as <-. split; [|cbn [upd nextpid]; lia]. apply (inv_leave w w pt run md c i); try done. by left.
  - split; [by eapply inv_alloc|]. apply alloc_slot_spec in E as (_ & _ & _ & -> & _). pose proof (i_next _ _ H). cbn [s_pt] in *. rewrite s32_small by lia. lia.
  - destruct (i_fork _ _ H i np Hm) as (Hnp & _). cbn [s_pt] in Hnp. assert (i <> np) as Hne by (intros ->; congruence).
    apply fork_rest_spec in E as (f & -> & Hf); [|done | apply slot_used; by rewrite Hnp]. split; [by eapply inv_forked | cbn [upd nextpid]; lia].
  - unfold exit_close in E. destruct (bool_decide_reflect (initproc pt = Some i)) as [|Hin]; [done|]. rewrite at_slot_ok, rbind_ok in E by done. rinv E. rinv E. injection E as <- <-.
    split; [|cbn [upd nextpid]; lia]. apply (inv_move _ w _ pt run md); [done|]. split; try done; rewrite ?set_at_eq; unfold live; cbn [set_files p_state]; rewrite ?Hi; try tauto; try done.
    + split; [by exists c | done].
    + intros c1 c2 E1' E2'. by apply (i_inj _ _ H c1 c2 i).
    + intros j Hj. by apply set_at_ne.
    + intros np. rewrite Hm. done.
    + intros _. split; [|done]. split; [|done]. cbn [set_files p_ofile]. rewrite Forall_fmap. by apply Forall_true.
  - split; [by eapply inv_exit|]. destruct (i_init _ _ H) as (k & Ek & _ & Hk & _). cbn [s_pt s_mode] in *. assert (i <> k) as Hne by congruence.
    destruct (exit_spec ptable_addr pt i k Hl Ek Hne) as (pt2 & E' & _ & Hn' & _); [by rewrite <- Hl|]. rewrite E in E'. injection E' as <-. lia.
  - set (pt0 := if decide (md i = MWait) then sleep_end pt i else pt) in E.
    assert (exists f, pt0 = upd pt i f /\ p_state (f (slot pt i)) = p_state (slot pt i) /\ p_parent (f (slot pt i)) = p_parent (slot pt i) /\ p_pid (f (slot pt i)) = p_pid (slot pt i)) as (f & E0 & F1 & F2 & F3).
    { unfold pt0. destruct (decide _); [by exists (set_chan 0) | exists id; by rewrite upd_id]. }
    assert (inv (mk_sys w pt0 run (set_at md i MUser))) as H0.
    { rewrite E0. apply (inv_stay w w pt run md c i f); try done; [|intros np]; destruct Hm; congruence. }
    split.
    + pose proof (inv_wait w pt0 run (set_at md i MUser) c i w' pt' r H0 Hc (set_at_eq _ _ _) E) as H1.
      eapply inv_ext; [exact H1|]. intros j. unfold set_at. by destruct (decide (j = i)).
    + apply wait_pass_spec in E; [|rewrite E0, len_upd; done | lia]. destruct r as [pid| |];
        [destruct E as (j & _ & _ & -> & _) | destruct E as [-> _] | destruct E as [-> _]]; rewrite E0; cbn [upd nextpid]; lia.
  - unfold sleep in E. rewrite sched_ok in E by done. injection E as <-. split; [|cbn [upd nextpid]; lia]. apply (inv_leave w w pt run md c i); try done.
    + intros j Hj. by apply set_at_ne.
    + intros np. rewrite set_at_eq, Hm. done.
    + by rewrite set_at_eq.
    + right. rewrite set_at_eq. split; [done|]. split; [intros np; congruence|]. split; [done|]. left. done.
  - split; [|cbn [upd nextpid sleep_end]; lia]. apply (inv_stay w w pt run md c i); try done; [|intros np]; congruence.
  - split; [|cbn [wakeup wakeup1 map_procs nextpid]; lia]. apply (inv_woken _ w pt run md); [done | apply len_wakeup | done | done|]. intros j. unfold wakeup. rewrite slot_wakeup. apply wake_woken.
  - destruct (kill_woken pt pid 0) as (_ & K1 & K2 & K3). split; [|rewrite K2; lia]. apply (inv_woken _ w pt run md); [done | done | done | done|]. intros j. apply kill_woken.
  - assert (exists f, pt' = upd pt i f /\ p_state (f (slot pt i)) = p_state (slot pt i) /\ p_parent (f (slot pt i)) = p_parent (slot pt i) /\ p_pid (f (slot pt i)) = p_pid (slot pt i)) as (f & -> & F1 & F2 & F3).
    { unfold growproc in E. rinv E. rinv E. destruct a0 as [[w2 sz] ok]. destruct ok; injection E as <- <- <-; [eexists; by split | exists id; by rewrite upd_id]. }
    split; [|cbn [upd nextpid]; lia]. eapply inv_ext; [apply (inv_stay w w' pt run md c i f MUser); try done; [|intros np]; congruence|].
    intros j. unfold set_at. destruct (decide (j = i)) as [->|]; congruence.
Qed.

Lemma inv_steps n s0 s : inv s0 -> nsteps step n s0 s -> nextpid (s_pt s0) + Z.of_nat n < 2 ^ 31 - 1 -> inv s.
Proof.
  intros H Hn. revert H. induction Hn as [s|n s s1 s2 Hs Hn IH]; intros H Hlt; [done|]. destruct (inv_step s s1 H) as [H1 Hn1]; [lia | done|]. apply IH; [done | lia].
Qed.

(** C8: the process table in every state the kernel can reach from boot, the
    processors interleaved in any way: no two processes have the same number
    (while fewer than 2^31 - 3 steps were made, so that [nextpid] has not
    wrapped), no process runs on two processors, the process init is alive,
    every other process, zombies included, has a living parent that will reap it,
    and a zombie has closed its files. *)
Theorem process_table_sound w s0 n s :
  boot_sys w s0 -> nsteps step n s0 s -> Z.of_nat n < 2 ^ 31 - 3 ->
  let p := slot (s_pt s) in
  (forall i j, p_state (p i) <> UNUSED -> p_state (p j) <> UNUSED -> p_pid (p i) = p_pid (p j) -> i = j) /\
  (forall c c' i, s_run s c = Some i -> s_run s c' = Some i -> c = c') /\
  (forall i, p_state (p i) = RUNNING <-> exists c, s_run s c = Some i) /\
  (exists k, initproc (s_pt s) = Some k /\ live (p k)) /\
  (forall i, live (p i) \/ p_state (p i) = ZOMBIE -> initproc (s_pt s) <> Some i -> exists q, p_parent (p i) = Some q /\ live (p q)) /\
  (forall i, p_state (p i) = ZOMBIE -> closed (p i)).
Proof.
  intros Hb Hn Hlt. destruct (inv_boot w s0 Hb) as [H0 E]. assert (inv s) as H by (apply (inv_steps n s0 s); [done | done | lia]).
  intros p. split; [apply H|]. split; [apply H|]. split; [|split; [|split]].
  - intros i. split; [apply H|]. intros [c Hc]. by apply (i_run _ _ H c).
  - destruct (i_init _ _ H) as (k & ? & ? & _). by exists k.
  - intros i Hi Hin. pose proof (i_orphan _ _ H i Hi Hin) as Hp. destruct (p_parent (slot (s_pt s) i)) as [q|] eqn:Eq; [|done]. exists q. split; [done|]. by apply (i_parent _ _ H i).
  - intros i Hz. by apply (i_zombie _ _ H i).
Qed.

(** C12: no wake-up is lost between [exit] and [wait].  In every reachable state a
    process asleep in [wait] has a child and all its children are alive; when
    one of them exits, the sleeper becomes runnable, and the next round of its
    [wait] finds a zombie. *)
Theorem wait_not_lost w s0 n s i :
  boot_sys w s0 -> nsteps step n s0 s -> Z.of_nat n < 2 ^ 31 - 3 ->
  p_state (slot (s_pt s) i) = SLEEPING -> s_mode s i = MWait ->
  (exists j, child (s_pt s) i j) /\
  forall j, child (s_pt s) i j -> live (slot (s_pt s) j) /\
    forall c, s_run s c = Some j -> s_mode s j = MExit ->
      exists pt' k, exit_locked ptable_addr (s_pt s) j = Ok pt' /\ p_state (slot pt' i) = RUNNABLE /\
        (wait_scan NPROC 0 (sleep_end pt' i) i false).1 = Some k.
Proof.
  intros Hb Hn Hlt Hs Hm. destruct (inv_boot w s0 Hb) as [H0 E]. assert (inv s) as H by (apply (inv_steps n s0 s); [done | done | lia]). clear H0 E Hb Hn Hlt.
  destruct (i_sleep _ _ H i Hs) as [[? _]|(_ & Ec & Hk & Hnz)]; [congruence|]. split; [done|]. intros j Hj. split.
  { unfold live. destruct (p_state (slot (s_pt s) j)) eqn:Es; try tauto; exfalso.
    - unfold child in Hj. rewrite (i_unused _ _ H j) in Hj by tauto. done.
    - unfold child in Hj. rewrite (i_unused _ _ H j) in Hj by tauto. done.
    - by apply (Hnz j). }
  intros c Hc Hme. destruct (i_init _ _ H) as (init & Ei & _ & Mi & _). pose proof (i_run _ _ H c j Hc) as Hr. pose proof (i_len _ _ H) as Hl.
  assert (j < NPROC)%nat as Hjl by (rewrite <- Hl; apply slot_used; by rewrite Hr). assert (i <> j) as Hij by (intros ->; congruence).
  destruct (exit_spec ptable_addr (s_pt s) j init Hl Ei ltac:(congruence) Hjl) as (pt' & Ex & Hl' & _ & _ & (x & Hx & Ej) & Ho & Hw & _). exists pt'.
  assert (p_state (slot pt' i) = RUNNABLE) as Hri.
  { destruct (Ho i Hij) as (_ & _ & _ & _ & _ & Hst). assert (p_state (adopted j init (slot (s_pt s) i)) = SLEEPING) as Ea by (unfold adopted; by destruct (bool_decide _)).
    rewrite Ea in Hst. destruct Hst as [Hst|[_ ?]]; [|done]. by destruct (Hw i i Hij Hst Ec). }
  assert (zombie_child (sleep_end pt' i) i j) as Hz.
  { unfold zombie_child, child, sleep_end. rewrite slot_upd_ne, Ej by done. split; [|done]. cbn [set_state p_parent]. destruct Hx as (-> & _).
    unfold adopted. unfold child in Hj. rewrite Hj, bool_decide_false by congruence. done. }
  destruct (wait_scan NPROC 0 (sleep_end pt' i) i false) as [[k|] b] eqn:Ew; cbn [fst].
  - by exists k.
  - apply wait_scan_spec in Ew as [Hn _]; [|unfold sleep_end; rewrite len_upd, Hl'; lia]. exfalso. apply (Hn j); [lia | done].
Qed.
End Props.

(** * The scheduler *)

(** The processes a processor switches to, from the slot [pos] of its loop on,
    while [q] is runnable each time the loop looks and is not chosen; the table
    may be any other each time. *)
Inductive turns (q : nat) : nat -> list nat -> Prop :=
  | turns_nil pos : turns q pos []
  | turns_pick pos pt i l :
      length (procs pt) = NPROC -> p_state (slot pt q) = RUNNABLE -> scheduler_scan (NPROC - pos) pos pt = Some i -> i <> q ->
      turns q (S i) l -> turns q pos (i :: l)
  | turns_round pos pt l :
      length (procs pt) = NPROC -> p_state (slot pt q) = RUNNABLE -> scheduler_scan (NPROC - pos) pos pt = None ->
      turns q 0 l -> turns q pos l.

(** The loop takes the first runnable slot. *)
Lemma scheduler_scan_spec n pos pt :
  (pos + n = length (procs pt))%nat ->
  match scheduler_scan n pos pt with
  | Some i => (pos <= i < pos + n)%nat /\ p_state (slot pt i) = RUNNABLE /\ forall j, (pos <= j < i)%nat -> p_state (slot pt j) <> RUNNABLE
  | None => forall j, (pos <= j < pos + n)%nat -> p_state (slot pt j) <> RUNNABLE
  end.
Proof.
  revert pos. induction n as [|n IH]; intros pos Hn; cbn [scheduler_scan]; [lia|].
  destruct (lookup_lt_is_Some_2 (procs pt) pos ltac:(lia)) as [p Ep]. rewrite Ep. apply slot_lookup in Ep. specialize (IH (S pos) ltac:(lia)).
  destruct (is_state (p_state p) RUNNABLE) eqn:E.
  - apply is_state_true in E. split; [lia|]. split; [by rewrite Ep | lia].
  - apply is_state_false in E. destruct (scheduler_scan n (S pos) pt) as [i|].
    + destruct IH as (H1 & H2 & H3). split; [lia|]. split; [done|]. intros j Hj. destruct (decide (j = pos)) as [->|]; [by rewrite Ep | apply H3; lia].
    + intros j Hj. destruct (decide (j = pos)) as [->|]; [by rewrite Ep | apply IH; lia].
Qed.

(** Up to [q] the loop cannot pass it. *)
Lemma turns_before q pos l : (q < NPROC)%nat -> turns q pos l -> (pos <= q)%nat -> NoDup l /\ Forall (fun i => pos <= i < q)%nat l.
Proof.
  intros Hq H. induction H as [pos|pos pt i l Hl Hr Hs Hi H IH|pos pt l Hl Hr Hs H IH]; intros Hp.
  - split; constructor.
  - pose proof (scheduler_scan_spec (NPROC - pos) pos pt ltac:(lia)) as Hsp. rewrite Hs in Hsp. destruct Hsp as (H1 & _ & H3).
    assert (i < q)%nat as Hiq by (destruct (Nat.lt_trichotomy i q) as [|[|Hgt]]; [done | done | by destruct (H3 q ltac:(lia))]).
    destruct (IH ltac:(lia)) as [IH1 IH2]. split.
    + apply NoDup_cons. split; [|done]. intros Hin. rewrite Forall_forall in IH2. specialize (IH2 i Hin). lia.
    + constructor; [lia|]. eapply Forall_impl; [exact IH2|]. intros j Hj. cbn in Hj. lia.
  - pose proof (scheduler_scan_spec (NPROC - pos) pos pt ltac:(lia)) as Hsp. rewrite Hs in Hsp. by destruct (Hsp q ltac:(lia)).
Qed.

Lemma turns_after q pos l :
  (q < NPROC)%nat -> turns q pos l -> (q < pos <= NPROC)%nat -> NoDup l /\ Forall (fun i => pos <= i < NPROC \/ i < q)%nat l.
Proof.
  intros Hq H. induction H as [pos|pos pt i l Hl Hr Hs Hi H IH|pos pt l Hl Hr Hs H IH]; intros Hp.
  - split; constructor.
  - pose proof (scheduler_scan_spec (NPROC - pos) pos pt ltac:(lia)) as Hsp. rewrite Hs in Hsp. destruct Hsp as (H1 & _).
    destruct (IH ltac:(lia)) as [IH1 IH2]. split.
    + apply NoDup_cons. split; [|done]. intros Hin. rewrite Forall_forall in IH2. specialize (IH2 i Hin). lia.
    + constructor; [lia|]. eapply Forall_impl; [exact IH2|]. intros j Hj. cbn in Hj. lia.
  - destruct (turns_before q 0 l Hq H ltac:(lia)) as [H1 H2]. split; [done|]. eapply Forall_impl; [exact H2|]. intros j Hj. cbn in Hj. lia.
Qed.

(** C37: the scheduler is fair: before a processor takes a runnable process, or
    another processor does, it switches to each other process at most once, so
    to at most 63. *)
Theorem scheduler_fair q pos l : (q < NPROC)%nat -> (pos <= NPROC)%nat -> turns q pos l -> NoDup l /\ q ∉ l /\ (length l < NPROC)%nat.
Proof.
  intros Hq Hp H. assert (NoDup l /\ Forall (fun i => i < NPROC /\ i <> q)%nat l) as [H1 H2].
  { destruct (Nat.le_gt_cases pos q) as [Hle|Hgt].
    - destruct (turns_before q pos l Hq H Hle) as [H1 H2]. split; [done|]. eapply Forall_impl; [exact H2|]. intros j Hj. cbn in Hj. lia.
    - destruct (turns_after q pos l Hq H ltac:(lia)) as [H1 H2]. split; [done|]. eapply Forall_impl; [exact H2|]. intros j Hj. cbn in Hj. lia. }
  rewrite Forall_forall in H2. assert (q ∉ l) as Hni by (intros Hin; by apply H2 in Hin as [_ ?]). split; [done|]. split; [done|].
  assert (length (q :: l) <= length (seq 0 NPROC))%nat as Hlen.
  { apply submseteq_length, NoDup_submseteq; [by apply NoDup_cons|]. intros x [->|Hx]%elem_of_cons; apply elem_of_seq; [lia|]. apply H2 in Hx. lia. }
  rewrite length_seq in Hlen. cbn [length] in Hlen. lia.
Qed.

(** * [fork] and [kill] *)

Section Fork.
Context (forkret trapret : Z) {W : Type} `{!ProcEnv W}.

Lemma copy_files_closed mine theirs : length mine = length theirs -> Forall (fun o => o = None) theirs -> copy_files mine theirs = mine.
Proof.
  revert theirs. induction mine as [|m mine IH]; intros [|t theirs] Hl H; try done. apply Forall_cons in H as [-> H]. unfold copy_files in *. cbn [zip_with].
  rewrite IH by (done || (cbn in Hl; lia)). by destruct m.
Qed.

(** [fork] either fails, and then it has changed nothing but a free slot, which
    is free again, or returns the number of a new process that is a copy of the
    caller: its memory size, registers (with 0 as the result), open files and
    directory, the caller as its parent; no other slot changes. *)
Theorem fork_copies w pt me w' pt' r :
  fork forkret trapret w pt me = Ok (w', pt', r) ->
  p_state (slot pt me) = RUNNING -> 0 < nextpid pt ->
  (forall i, p_state (slot pt i) = UNUSED -> Forall (fun o => o = None) (p_ofile (slot pt i)) /\ length (p_ofile (slot pt i)) = length (p_ofile (slot pt me))) ->
  r = -1 /\ (pt' = pt \/ exists np, p_state (slot pt np) = UNUSED /\ p_state (slot pt' np) = UNUSED /\ forall j, j <> np -> slot pt' j = slot pt j) \/
  r = nextpid pt /\ exists np, p_state (slot pt np) = UNUSED /\ (forall j, j <> np -> slot pt' j = slot pt j) /\
    let c := slot pt' np in let p := slot pt me in
    p_pid c = r /\ p_state c = RUNNABLE /\ p_parent c = Some me /\ p_sz c = p_sz p /\ p_tf c = set_eax 0 (p_tf p) /\
    p_ofile c = p_ofile p /\ p_cwd c = p_cwd p /\ p_pgdir c <> 0 /\ p_kstack c <> 0.
Proof.
  intros H Hme Hnp Hun. unfold fork in H. destruct (alloc_slot pt) as [[pt1 np]|] eqn:Ea; [|injection H as <- <- <-; left; split; [done | by left]].
  apply alloc_slot_spec in Ea as (Hu & Hlt & El & _ & _ & Enp & Hne). assert (me <> np) as Hmn by (intros ->; congruence).
  destruct (Hun np Hu) as [Hcl Hlen]. rewrite <- El in Hlt. clear Hun El.
  assert (forall f j, j <> np -> slot (upd pt1 np f) j = slot pt j) as Ho by (intros f j Hj; rewrite slot_upd_ne by done; by apply Hne).
  unfold fork_rest, alloc_stack in H. destruct (kalloc w) as [[w1 k]|]; [|done]. rewrite rbind_ok in H. destruct (Z.eqb_spec k 0) as [Ek|Hk]; rewrite rbind_ok in H; cbn [negb] in H.
  { injection H as <- <- <-. left. split; [done|]. right. exists np. rewrite upd_upd. split; [done|]. split; [by rewrite slot_upd_eq | apply Ho]. }
  rewrite upd_upd in H. rinv H. apply at_slot_inv in E as [-> _]. rewrite Ho in H by done. destruct (copyuvm _ _ _) as [[w2 d]|]; [|done]. rewrite rbind_ok, upd_upd in H.
  destruct (Z.eqb_spec d 0) as [Ed|Hd].
  { rinv H. rinv H. injection H as <- <- <-. left. split; [done|]. right. exists np. rewrite upd_upd. split; [done|]. split; [by rewrite slot_upd_eq | apply Ho]. }
  rewrite upd_upd in H. rinv H. rinv H. rewrite upd_upd in H. rinv H. apply at_slot_inv in E1 as [-> _]. rewrite slot_upd_eq in H by done. rinv H.
  injection H as <- <- <-. right. rewrite Enp. split; [done|]. exists np. rewrite upd_upd. split; [done|]. split; [apply Ho|]. rewrite slot_upd_eq, Enp by done.
  cbn. do 5 (split; [done|]). split; [|done]. by apply copy_files_closed.
Qed.

(** killing the process number 0 succeeds although no process has it: it marks
    the first slot whose number is 0, a free one, and nothing clears the mark, so
    the next process that gets the slot is born killed. *)
Theorem kill_zero_dooms_next pt k w me w' pt' r :
  p_pid (slot pt k) = 0 -> p_state (slot pt k) = UNUSED -> (k < length (procs pt))%nat ->
  (forall i, (i < k)%nat -> p_pid (slot pt i) <> 0 /\ p_state (slot pt i) <> UNUSED) -> (me < k)%nat ->
  (kill pt 0).2 = 0 /\
  (fork forkret trapret w (kill pt 0).1 me = Ok (w', pt', r) -> r <> -1 -> p_pid (slot pt' k) = r /\ p_killed (slot pt' k) = true).
Proof.
  intros Hz Hu Hl Hb Hme. unfold kill. rewrite (find_slot_is _ pt k Hl); [|by apply Z.eqb_eq | intros i Hi; by apply Z.eqb_neq, Hb]. cbn [fst snd]. split; [done|].
  match goal with |- context [upd pt k ?G] => set (g := G) end. set (pt1 := upd pt k g).
  assert (slot pt1 k = set_killed true (slot pt k)) as E1.
  { unfold pt1. rewrite slot_upd_eq by done. unfold g. by rewrite (proj2 (is_state_false _ SLEEPING)) by (cbn; congruence). }
  assert (alloc_slot pt1 = Some (mk_ptable (procs (upd pt1 k (fun p => set_pid (nextpid pt1) (set_state EMBRYO p)))) (s32 (nextpid pt1 + 1)) (initproc pt1), k)) as Ea.
  { unfold alloc_slot. rewrite (find_slot_is _ pt1 k); [done | unfold pt1; by rewrite len_upd | rewrite E1; by apply is_state_true|].
    intros i Hi. unfold pt1. rewrite slot_upd_ne by lia. by apply is_state_false, Hb. }
  intros H Hr. unfold fork in H. rewrite Ea in H. apply alloc_slot_spec in Ea as (_ & Hlt & El & _ & _ & Enp & _).
  apply fork_rest_spec in H as (f & -> & Hpid & Hkl & Hres); [|lia | by rewrite El]. rewrite slot_upd_eq by (by rewrite El). rewrite Hpid, Hkl, Enp, E1.
  destruct Hres as [[? _]|[-> _]]; [done|]. by rewrite Enp.
Qed.
End Fork.

(** * A concrete kernel: pages are numbered upwards, the files do nothing. *)

#[local] Instance demo_env : ProcEnv Z := {|
  kalloc w := Ok (w + 1, 4096 * w); kfree w _ := Ok w; setupkvm w := Ok (w + 1, 4096 * w); inituvm w _ := Ok w; copyuvm w _ _ := Ok (w + 1, 4096 * w);
  freevm w _ := Ok w; allocuvm w _ _ n := Ok (w, n); deallocuvm w _ _ n := Ok (w, n);
  filedup w _ := Ok w; fileclose w _ := Ok w; idup w _ := Ok w; iput w _ := Ok w; namei_root w := Ok (w, 1);
|}.

Definition or_boot {A} (r : result (Z * ptable * A)) : Z * ptable := match r with Ok (w, pt, _) => (w, pt) | Err _ => (0, boot_table) end.
Definition boot1 : Z * ptable := match userinit 0 0 1 boot_table with Ok x => x | Err _ => (0, boot_table) end.
Definition table1 : ptable := scheduler_run boot1.2 0.
Definition table2 : ptable := match alloc_slot table1 with Some (pt, _) => pt | None => boot_table end.
Definition forked : Z * ptable := or_boot (fork_rest 0 0 boot1.1 table2 0 1).
Definition waiting : Z * ptable := or_boot (wait_pass 8192 forked.1 forked.2 0).

Definition demo0 : sys := mk_sys boot1.1 boot1.2 (fun _ => None) (fun _ => MUser).
Definition demo4 : sys :=
  mk_sys waiting.1 waiting.2 (set_at (set_at (fun _ => None) 0%nat (Some 0%nat)) 0%nat None)
    (set_at (set_at (set_at (set_at (fun _ => MUser) 0%nat (MFork 1)) 1%nat MUser) 0%nat MUser) 0%nat MWait).

Lemma demo_boot : boot_sys 0 0 1 demo0.
Proof. exists boot1.1, boot1.2. split; [vm_compute; reflexivity | reflexivity]. Qed.

Lemma demo_table1 : p_state (slot boot1.2 0) = RUNNABLE.
Proof. vm_compute. reflexivity. Qed.
Lemma demo_table2 : alloc_slot table1 = Some (table2, 1%nat).
Proof. vm_compute. reflexivity. Qed.
Lemma demo_forked : fork_rest 0 0 boot1.1 table2 0 1 = Ok (forked.1, forked.2, 2).
Proof. vm_compute. reflexivity. Qed.
Lemma demo_waiting : wait_pass 8192 forked.1 forked.2 0 = Ok (waiting.1, waiting.2, Asleep).
Proof. vm_compute. reflexivity. Qed.

(** init forks and waits. *)
Lemma demo_steps : nsteps (step 8192 0 0) 4 demo0 demo4.
Proof.
  eapply nsteps_l; [apply (st_run 8192 0 0 _ _ _ _ 0%nat 0%nat); [reflexivity | exact demo_table1]|].
  eapply nsteps_l; [apply (st_fork 8192 0 0 _ _ _ _ 0%nat 0%nat table2 1%nat); [reflexivity | reflexivity | exact demo_table2]|].
  eapply nsteps_l; [apply (st_fork_rest 8192 0 0 _ _ _ _ 0%nat 0%nat 1%nat forked.1 forked.2 2); [reflexivity | reflexivity | exact demo_forked]|].
  eapply nsteps_l; [apply (st_wait 8192 0 0 _ _ _ _ 0%nat 0%nat waiting.1 waiting.2 Asleep); [reflexivity | left; reflexivity | exact demo_waiting]|].
  apply nsteps_O.
Qed.

Lemma demo_asleep : p_state (slot (s_pt demo4) 0) = SLEEPING.
Proof. vm_compute. reflexivity. Qed.

Lemma process_table_sound_witness :
  exists q, p_parent (slot (s_pt demo4) 1) = Some q /\ live (slot (s_pt demo4) q).
Proof.
  destruct (process_table_sound 8192 0 0 1 demo0 4 demo4 demo_boot demo_steps ltac:(lia)) as (_ & _ & _ & _ & H & _). apply H.
  - left. right. left. vm_compute. reflexivity.
  - vm_compute. discriminate.
Defined.

Lemma wait_not_lost_witness : exists j, child (s_pt demo4) 0 j /\ live (slot (s_pt demo4) j).
Proof.
  destruct (wait_not_lost 8192 0 0 1 demo0 4 demo4 0 demo_boot demo_steps ltac:(lia) demo_asleep eq_refl) as [[j Hj] H]. exists j. split; [exact Hj | exact (proj1 (H j Hj))].
Defined.

Lemma scheduler_fair_witness : NoDup [0%nat] /\ 1%nat ∉ [0%nat] /\ (length [0%nat] < NPROC)%nat.
Proof.
  apply (scheduler_fair 1 0 [0%nat]); [unfold NPROC; lia | unfold NPROC; lia|].
  apply (turns_pick 1 0 (upd (upd boot_table 0 (set_state RUNNABLE)) 1 (set_state RUNNABLE)) 0 []); [vm_compute; reflexivity | vm_compute; reflexivity | vm_compute; reflexivity | lia | apply turns_nil].
Defined.

Lemma demo_closed i :
  p_state (slot table1 i) = UNUSED -> Forall (fun o => o = None) (p_ofile (slot table1 i)) /\ length (p_ofile (slot table1 i)) = length (p_ofile (slot table1 0)).
Proof.
  intros _. assert (p_ofile (slot table1 i) = replicate NOFILE None) as ->; [|split; [by apply Forall_replicate | vm_compute; reflexivity]].
  unfold slot. destruct (procs table1 !! i) as [p|] eqn:E; cbn [default]; [|reflexivity].
  assert (Forall (fun p => p_ofile p = replicate NOFILE None) (procs table1)) as H by (apply (bool_decide_unpack _); vm_compute; exact I).
  rewrite Forall_forall in H. apply H. by apply list_elem_of_lookup_2 in E.
Qed.

Lemma fork_copies_witness :
  exists np, p_state (slot table1 np) = UNUSED /\ p_parent (slot forked.2 np) = Some 0%nat /\ p_ofile (slot forked.2 np) = p_ofile (slot table1 0).
Proof.
  destruct (fork_copies 0 0 boot1.1 table1 0 forked.1 forked.2 2) as [[H _]|[_ (np & H1 & _ & H2)]].
  - vm_compute. reflexivity.
  - vm_compute. reflexivity.
  - vm_compute. reflexivity.
  - exact demo_closed.
  - discriminate H.
  - destruct H2 as (_ & _ & H3 & _ & _ & H4 & _). exists np. split; [exact H1|]. split; [exact H3 | exact H4].
Defined.

Definition doomed : Z * ptable := or_boot (fork 0 0 boot1.1 (kill table1 0).1 0).

Lemma kill_zero_dooms_next_witness : (kill table1 0).2 = 0 /\ p_pid (slot doomed.2 1) = 2 /\ p_killed (slot doomed.2 1) = true.
Proof.
  destruct (kill_zero_dooms_next 0 0 table1 1 boot1.1 0 doomed.1 doomed.2 2) as [H1 H2].
  - vm_compute. reflexivity.
  - vm_compute. reflexivity.
  - vm_compute. lia.
  - intros i Hi. replace i with 0%nat by lia. split; vm_compute; discriminate.
  - lia.
  - split; [exact H1|]. apply H2; [vm_compute; reflexivity | discriminate].
Defined.
