(* ===== verification/Vm.v ===== *)
(** Physical memory and page tables: src/src/kalloc.c and src/src/vm.c, with the
    constants of memlayout.h and mmu.h.

    Memory is the bytes at the addresses of the kernel, where physical address 0
    is [KERNBASE].  A page table is the words in its pages.  [kend] and [kdata]
    are the symbols [end] and [data] of the linker.  The segment registers and
    the registers of the processor ([seginit], [switchkvm], [switchuvm]) are not
    here. *)
From S2P Require Import Prelude Ulib.

Definition PGSIZE : Z := 4096.
Definition KERNBASE : Z := 2147483648.
Definition EXTMEM : Z := 1048576.
Definition PHYSTOP : Z := 234881024.
Definition DEVSPACE : Z := 4227858432.
Definition KERNLINK : Z := KERNBASE + EXTMEM.
Definition NPDENTRIES : Z := 1024.
Definition NPTENTRIES : Z := 1024.
Definition PTE_P : Z := 1.
Definition PTE_W : Z := 2.
Definition PTE_U : Z := 4.

Definition v2p (a : Z) : Z := u32 (a - KERNBASE).
Definition p2v (a : Z) : Z := u32 (a + KERNBASE).
Definition PDX (va : Z) : Z := Z.land (Z.shiftr va 22) 1023.
Definition PTX (va : Z) : Z := Z.land (Z.shiftr va 12) 1023.
Definition PGROUNDDOWN (a : Z) : Z := Z.land a (u32 (Z.lnot (PGSIZE - 1))).
Definition PGROUNDUP (sz : Z) : Z := Z.land (u32 (sz + PGSIZE - 1)) (u32 (Z.lnot (PGSIZE - 1))).
Definition PTE_ADDR (pte : Z) : Z := Z.land pte (u32 (Z.lnot 4095)).
Definition present (pte : Z) : bool := negb (Z.land pte PTE_P =? 0).

Record mem := mk_mem { mbytes : Z -> Z; freelist : Z }.

Definition valid (a n : Z) : bool := (KERNBASE <=? a) && (a + n <=? KERNBASE + PHYSTOP).

Definition word (b : Z -> Z) (a : Z) : Z := b a + 256 * b (a + 1) + 65536 * b (a + 2) + 16777216 * b (a + 3).
Definition set_word (b : Z -> Z) (a v : Z) : Z -> Z := fun x =>
  if (a <=? x) && (x <? a + 4) then v / 256 ^ (x - a) mod 256 else b x.

Definition ld32 (m : mem) (a : Z) : result Z := if valid a 4 then Ok (word (mbytes m) a) else Err OutOfBounds.
Definition st32 (m : mem) (a v : Z) : result mem :=
  if valid a 4 then Ok (mk_mem (set_word (mbytes m) a v) (freelist m)) else Err OutOfBounds.
Definition memset (m : mem) (a c n : Z) : result mem :=
  if valid a n then Ok (mk_mem (fun x => if (a <=? x) && (x <? a + n) then c else mbytes m x) (freelist m)) else Err OutOfBounds.
Definition memmove (m : mem) (dst src n : Z) : result mem :=
  if valid dst n && valid src n
  then Ok (mk_mem (fun x => if (dst <=? x) && (x <? dst + n) then mbytes m (src + (x - dst)) else mbytes m x) (freelist m))
  else Err OutOfBounds.
(** From a block of bytes outside the modelled memory. *)
Definition copy_in (m : mem) (dst : Z) (s : bytes) : result mem :=
  if valid dst (zlen s)
  then Ok (mk_mem (fun x => if (dst <=? x) && (x <? dst + zlen s) then nth (Z.to_nat (x - dst)) s 0 else mbytes m x) (freelist m))
  else Err OutOfBounds.

Section Vm.
Context (kend kdata : Z).

(** * kalloc.c *)

Definition kfree (m : mem) (v : Z) : result mem :=
  if negb (v mod PGSIZE =? 0) || (v <? kend) || (PHYSTOP <=? v2p v) then Err Panic else
  let! m := memset m v 1 PGSIZE in
  let! m := st32 m v (freelist m) in
  Ok (mk_mem (mbytes m) v).

Definition kalloc (m : mem) : result (mem * Z) :=
  let r := freelist m in
  if r =? 0 then Ok (m, r) else
  let! next := ld32 m r in
  Ok (mk_mem (mbytes m) next, r).

(** The loop of [freerange]: [n] pages from [p]. *)
Fixpoint freerange_loop (n : nat) (m : mem) (p : Z) : result mem :=
  match n with
  | O => Ok m
  | S n' => let! m := kfree m p in freerange_loop n' m (p + PGSIZE)
  end.
Definition freerange (m : mem) (vstart vend : Z) : result mem :=
  let p := PGROUNDUP vstart in
  freerange_loop (Z.to_nat ((vend - p) / PGSIZE)) m p.
Definition kinit1 (m : mem) (vstart vend : Z) : result mem := freerange m vstart vend.
Definition kinit2 (m : mem) (vstart vend : Z) : result mem := freerange m vstart vend.

(** * vm.c *)

(** The address of the entry, 0 if there is none. *)
Definition walkpgdir (m : mem) (pgdir va : Z) (alloc : bool) : result (mem * Z) :=
  let pde := pgdir + 4 * PDX va in
  let! e := ld32 m pde in
  if present e then Ok (m, p2v (PTE_ADDR e) + 4 * PTX va)
  else if negb alloc then Ok (m, 0)
  else
    let! '(m, pgtab) := kalloc m in
    if pgtab =? 0 then Ok (m, 0) else
    let! m := memset m pgtab 0 PGSIZE in
    let! m := st32 m pde (Z.lor (Z.lor (Z.lor (v2p pgtab) PTE_P) PTE_W) PTE_U) in
    Ok (m, pgtab + 4 * PTX va).

(** The loop of [mappages], [S n] pages from [a] on. *)
Fixpoint mappages_loop (n : nat) (m : mem) (pgdir a pa perm : Z) : result (mem * Z) :=
  let! '(m, pte) := walkpgdir m pgdir a true in
  if pte =? 0 then Ok (m, -1) else
  let! e := ld32 m pte in
  if present e then Err Panic else
  let! m := st32 m pte (Z.lor (Z.lor pa perm) PTE_P) in
  match n with
  | O => Ok (m, 0)
  | S n' => mappages_loop n' m pgdir (u32 (a + PGSIZE)) (u32 (pa + PGSIZE)) perm
  end.

(** The loop ends when [a == last]; it goes round the address space if [last] is
    below [a]. *)
Definition mappages (m : mem) (pgdir va size pa perm : Z) : result (mem * Z) :=
  let a := PGROUNDDOWN va in
  let last := PGROUNDDOWN (u32 (va + size - 1)) in
  mappages_loop (Z.to_nat (u32 (last - a) / PGSIZE)) m pgdir a pa perm.

Record kmap_entry := mk_kmap { virt : Z; phys_start : Z; phys_end : Z; kperm : Z }.
Definition kmap : list kmap_entry := [
  mk_kmap KERNBASE 0 EXTMEM PTE_W;
  mk_kmap KERNLINK (v2p KERNLINK) (v2p kdata) 0;
  mk_kmap kdata (v2p kdata) PHYSTOP PTE_W;
  mk_kmap DEVSPACE DEVSPACE 0 PTE_W].

Fixpoint map_kernel (m : mem) (pgdir : Z) (ks : list kmap_entry) : result (mem * Z) :=
  match ks with
  | [] => Ok (m, pgdir)
  | k :: ks =>
      let! '(m, r) := mappages m pgdir (virt k) (u32 (phys_end k - phys_start k)) (phys_start k) (kperm k) in
      if r <? 0 then Ok (m, 0) else map_kernel m pgdir ks
  end.

Definition setupkvm (m : mem) : result (mem * Z) :=
  let! '(m, pgdir) := kalloc m in
  if pgdir =? 0 then Ok (m, 0) else
  let! m := memset m pgdir 0 PGSIZE in
  if DEVSPACE <? p2v PHYSTOP then Err Panic else
  map_kernel m pgdir kmap.

Definition inituvm (m : mem) (pgdir : Z) (init : bytes) : result mem :=
  if PGSIZE <=? zlen init then Err Panic else
  let! '(m, p) := kalloc m in
  let! m := memset m p 0 PGSIZE in
  let! '(m, _) := mappages m pgdir 0 PGSIZE (v2p p) (Z.lor PTE_W PTE_U) in
  copy_in m p init.

(** The loop of [deallocuvm]; a page at least goes by in each round. *)
Fixpoint dealloc_loop (fuel : nat) (m : mem) (pgdir a oldsz : Z) : result mem :=
  match fuel with
  | O => Err OutOfFuel
  | S fuel' =>
      if oldsz <=? a then Ok m else
      let! '(m, pte) := walkpgdir m pgdir a false in
      if pte =? 0 then dealloc_loop fuel' m pgdir (u32 (a + (NPTENTRIES - 1) * PGSIZE + PGSIZE)) oldsz
      else
        let! e := ld32 m pte in
        let! m :=
          if present e then
            let pa := PTE_ADDR e in
            if pa =? 0 then Err Panic else
            let! m := kfree m (p2v pa) in
            st32 m pte 0
          else Ok m in
        dealloc_loop fuel' m pgdir (u32 (a + PGSIZE)) oldsz
  end.

Definition deallocuvm (m : mem) (pgdir oldsz newsz : Z) : result (mem * Z) :=
  if oldsz <=? newsz then Ok (m, oldsz) else
  let! m := dealloc_loop (S (Z.to_nat (oldsz / PGSIZE + 1))) m pgdir (PGROUNDUP newsz) oldsz in
  Ok (m, newsz).

(** The loop of [allocuvm]; the result of [mappages] is not looked at. *)
Fixpoint alloc_loop (fuel : nat) (m : mem) (pgdir a oldsz newsz : Z) : result (mem * Z) :=
  match fuel with
  | O => Err OutOfFuel
  | S fuel' =>
      if newsz <=? a then Ok (m, newsz) else
      let! '(m, p) := kalloc m in
      if p =? 0 then
        let! '(m, _) := deallocuvm m pgdir newsz oldsz in
        Ok (m, 0)
      else
        let! m := memset m p 0 PGSIZE in
        let! '(m, _) := mappages m pgdir a PGSIZE (v2p p) (Z.lor PTE_W PTE_U) in
        alloc_loop fuel' m pgdir (u32 (a + PGSIZE)) oldsz newsz
  end.

Definition allocuvm (m : mem) (pgdir oldsz newsz : Z) : result (mem * Z) :=
  if KERNBASE <=? newsz then Ok (m, 0) else
  if newsz <? oldsz then Ok (m, oldsz) else
  alloc_loop (S (Z.to_nat (newsz / PGSIZE + 1))) m pgdir (PGROUNDUP oldsz) oldsz newsz.

Fixpoint free_tables (n : nat) (m : mem) (pgdir i : Z) : result mem :=
  match n with
  | O => Ok m
  | S n' =>
      let! e := ld32 m (pgdir + 4 * i) in
      let! m := if present e then kfree m (p2v (PTE_ADDR e)) else Ok m in
      free_tables n' m pgdir (i + 1)
  end.

Definition freevm (m : mem) (pgdir : Z) : result mem :=
  if pgdir =? 0 then Err Panic else
  let! '(m, _) := deallocuvm m pgdir KERNBASE 0 in
  let! m := free_tables (Z.to_nat NPDENTRIES) m pgdir 0 in
  kfree m pgdir.

Definition clearpteu (m : mem) (pgdir uva : Z) : result mem :=
  let! '(m, pte) := walkpgdir m pgdir uva false in
  if pte =? 0 then Err Panic else
  let! e := ld32 m pte in
  st32 m pte (Z.land e (u32 (Z.lnot PTE_U))).

(** The loop of [copyuvm] from the address [i] on. *)
Fixpoint copy_loop (fuel : nat) (m : mem) (pgdir d i sz : Z) : result (mem * Z) :=
  match fuel with
  | O => Err OutOfFuel
  | S fuel' =>
      if sz <=? i then Ok (m, d) else
      let! '(m, pte) := walkpgdir m pgdir i false in
      if pte =? 0 then Err Panic else
      let! e := ld32 m pte in
      if negb (present e) then Err Panic else
      let pa := PTE_ADDR e in
      let! '(m, p) := kalloc m in
      if p =? 0 then let! m := freevm m d in Ok (m, 0) else
      let! m := memmove m p (p2v pa) PGSIZE in
      let! '(m, r) := mappages m d i PGSIZE (v2p p) (Z.lor PTE_W PTE_U) in
      if r <? 0 then let! m := freevm m d in Ok (m, 0) else
      copy_loop fuel' m pgdir d (u32 (i + PGSIZE)) sz
  end.

Definition copyuvm (m : mem) (pgdir sz : Z) : result (mem * Z) :=
  let! '(m, d) := setupkvm m in
  if d =? 0 then Ok (m, 0) else
  copy_loop (S (Z.to_nat (sz / PGSIZE + 1))) m pgdir d 0 sz.

(** The entry is read also when there is none: address 0 is not the kernel's. *)
Definition uva2ka (m : mem) (pgdir uva : Z) : result Z :=
  let! '(m, pte) := walkpgdir m pgdir uva false in
  if pte =? 0 then Err NullDeref else
  let! e := ld32 m pte in
  if negb (present e) then Ok 0
  else if Z.land e PTE_U =? 0 then Ok 0
  else Ok (p2v (PTE_ADDR e)).

(** The loop of [copyout]; a byte at least goes by in each round. *)
Fixpoint copyout_loop (fuel : nat) (m : mem) (pgdir va : Z) (p : bytes) : result (mem * Z) :=
  match fuel with
  | O => Err OutOfFuel
  | S fuel' =>
      if zlen p <=? 0 then Ok (m, 0) else
      let va0 := PGROUNDDOWN va in
      let! pa0 := uva2ka m pgdir va0 in
      if pa0 =? 0 then Ok (m, -1) else
      let n := Z.min (PGSIZE - (va - va0)) (zlen p) in
      let! m := copy_in m (pa0 + (va - va0)) (take (Z.to_nat n) p) in
      copyout_loop fuel' m pgdir (u32 (va0 + PGSIZE)) (drop (Z.to_nat n) p)
  end.

Definition copyout (m : mem) (pgdir va : Z) (p : bytes) : result (mem * Z) :=
  copyout_loop (S (length p)) m pgdir va p.
End Vm.
