(* ===== verification/VmSpace.v ===== *)
(** Words, pages, entries of page tables, and the list of free pages of
    kalloc.c. *)
From stdpp Require Import gmap.
From S2P Require Import Prelude Ulib Vm.

#[local] Ltac Zify.zify_post_hook ::= Z.to_euclidean_division_equations.

(** * Bits *)

Lemma u32_lnot n : 0 <= n <= 31 -> u32 (Z.lnot (2 ^ n - 1)) = 2 ^ 32 - 2 ^ n.
Proof.
  intros H. assert (2 ^ n <= 2 ^ 31) by (apply Z.pow_le_mono_r; lia). assert (0 < 2 ^ n) by (apply Z.pow_pos_nonneg; lia).
  unfold u32, Z.lnot. replace (Z.pred (- (2 ^ n - 1))) with (- 2 ^ n) by lia. symmetry. apply Z.mod_unique_pos with (q := -1); lia.
Qed.

Lemma land_high n a : 0 <= n <= 31 -> 0 <= a < 2 ^ 32 -> Z.land a (2 ^ 32 - 2 ^ n) = a - a mod 2 ^ n.
Proof.
  intros Hn Ha. replace (2 ^ 32 - 2 ^ n) with (Z.shiftl (Z.ones (32 - n)) n).
  - apply Z.bits_inj'. intros i Hi. rewrite Z.land_spec, Z.shiftl_spec by done.
    rewrite Z.testbit_ones by lia.
    replace (a - a mod 2 ^ n) with (Z.shiftl (Z.shiftr a n) n).
    + rewrite Z.shiftl_spec by done. destruct (Z.lt_ge_cases i n) as [Hlt|Hge].
      * rewrite (Z.testbit_neg_r _ (i - n)) by lia. destruct (Z.leb_spec 0 (i - n)); [lia | by rewrite andb_false_r].
      * rewrite Z.shiftr_spec by lia. replace (i - n + n) with i by lia. destruct (Z.leb_spec 0 (i - n)); [|lia]. cbn [andb].
        destruct (Z.ltb_spec (i - n) (32 - n)); [by rewrite andb_true_r|]. rewrite andb_false_r. symmetry.
        destruct (decide (a = 0)) as [->|Hne]; [apply Z.bits_0|]. apply Z.bits_above_log2; [lia|]. apply Z.log2_lt_pow2; [lia|].
        eapply Z.lt_le_trans; [apply Ha|]. apply Z.pow_le_mono_r; lia.
    + rewrite Z.shiftl_mul_pow2, Z.shiftr_div_pow2 by lia. pose proof (Z.div_mod a (2 ^ n)). assert (0 < 2 ^ n) by (apply Z.pow_pos_nonneg; lia). lia.
  - rewrite Z.shiftl_mul_pow2, Z.ones_equiv by lia. rewrite <- (Z.sub_1_r (2 ^ (32 - n))), Z.mul_sub_distr_r, <- Z.pow_add_r by lia. f_equal; [f_equal; lia | lia].
Qed.

Lemma PGROUNDDOWN_eq a : 0 <= a < 2 ^ 32 -> PGROUNDDOWN a = a - a mod 4096.
Proof. intros H. unfold PGROUNDDOWN, PGSIZE. change 4096 with (2 ^ 12). rewrite u32_lnot by lia. by apply (land_high 12); lia. Qed.
Lemma PGROUNDUP_eq a : 0 <= a <= 2 ^ 32 - 4096 -> PGROUNDUP a = (a + 4095) / 4096 * 4096.
Proof.
  intros H. unfold PGROUNDUP, PGSIZE. change (4096 - 1) with (2 ^ 12 - 1). rewrite u32_lnot by lia. rewrite u32_small by lia. rewrite (land_high 12) by lia.
  change (2 ^ 12) with 4096. lia.
Qed.
Lemma PTE_ADDR_eq e : 0 <= e < 2 ^ 32 -> PTE_ADDR e = e - e mod 4096.
Proof. intros H. unfold PTE_ADDR. change 4095 with (2 ^ 12 - 1). rewrite u32_lnot by lia. by apply (land_high 12); lia. Qed.
Lemma PDX_eq va : 0 <= va < 2 ^ 32 -> PDX va = va / 4194304.
Proof.
  intros H. unfold PDX. change 1023 with (Z.ones 10). rewrite Z.land_ones, Z.shiftr_div_pow2 by lia. change (2 ^ 22) with 4194304. change (2 ^ 10) with 1024. lia.
Qed.
Lemma PTX_eq va : 0 <= va < 2 ^ 32 -> PTX va = va / 4096 mod 1024.
Proof. intros H. unfold PTX. change 1023 with (Z.ones 10). rewrite Z.land_ones, Z.shiftr_div_pow2 by lia. done. Qed.

Lemma present_eq e : 0 <= e -> present e = (e mod 2 =? 1).
Proof.
  intros H. unfold present, PTE_P. change 1 with (Z.ones 1) at 1. rewrite Z.land_ones by lia. change (2 ^ 1) with 2.
  destruct (Z.eqb_spec (e mod 2) 0), (Z.eqb_spec (e mod 2) 1); cbn; lia.
Qed.

(** The entry for the page at [pa] with the flags [perm]. *)
Lemma lor_low n a b : 0 <= n -> a mod 2 ^ n = 0 -> 0 <= b < 2 ^ n -> Z.lor a b = a + b.
Proof.
  intros Hn Ha Hb. rewrite Z.add_nocarry_lxor, Z.lxor_lor; [done | |];
    (apply Z.bits_inj'; intros i Hi; rewrite Z.land_spec, Z.bits_0; destruct (Z.lt_ge_cases i n) as [Hlt|Hge];
     [replace (Z.testbit a i) with false; [done|]; symmetry; rewrite <- (Z.mod_pow2_bits_low a n i Hlt), Ha; apply Z.bits_0
     |replace (Z.testbit b i) with false; [apply andb_false_r|]; symmetry; destruct (decide (b = 0)) as [->|Hne]; [apply Z.bits_0|];
      apply Z.bits_above_log2; [lia|]; apply Z.log2_lt_pow2; [lia|]; eapply Z.lt_le_trans; [apply Hb|]; apply Z.pow_le_mono_r; lia]).
Qed.

Definition entry (pa perm : Z) : Z := Z.lor (Z.lor pa perm) PTE_P.

Lemma entry_ok pa perm :
  0 <= pa < 2 ^ 32 -> pa mod 4096 = 0 -> 0 <= perm < 4096 ->
  0 <= entry pa perm < 2 ^ 32 /\ PTE_ADDR (entry pa perm) = pa /\ present (entry pa perm) = true /\ entry pa perm mod 4096 = Z.lor perm 1.
Proof.
  intros Hpa Hal Hp. unfold entry, PTE_P. rewrite <- Z.lor_assoc.
  assert (0 <= Z.lor perm 1 < 4096) as Hl.
  { split; [apply Z.lor_nonneg; lia|]. change 4096 with (2 ^ 12). apply Z.log2_lt_cancel. rewrite Z.log2_lor, Z.log2_pow2 by lia.
    apply Z.max_lub_lt; [|cbn; lia]. destruct (decide (perm = 0)) as [->|]; [cbn; lia|]. apply Z.log2_lt_pow2; lia. }
  assert (Z.lor perm 1 mod 2 = 1) as Ho.
  { rewrite <- Z.bit0_mod, Z.lor_spec, orb_comm. done. }
  rewrite (lor_low 12 pa) by (done || lia). split; [lia|]. rewrite PTE_ADDR_eq, present_eq by lia. split; [lia|]. split; [|lia]. apply Z.eqb_eq. lia.
Qed.

(** * Words *)

Lemma word_set b a v : 0 <= v < 2 ^ 32 -> word (set_word b a v) a = v.
Proof.
  intros H. unfold word, set_word. rewrite !(proj2 (Z.leb_le _ _)) by lia. rewrite !(proj2 (Z.ltb_lt _ _)) by lia. cbn [andb].
  replace (a - a) with 0 by lia. replace (a + 1 - a) with 1 by lia. replace (a + 2 - a) with 2 by lia. replace (a + 3 - a) with 3 by lia.
  change (256 ^ 0) with 1. change (256 ^ 1) with 256. change (256 ^ 2) with 65536. change (256 ^ 3) with 16777216. lia.
Qed.

Lemma set_word_out b a v x : ~ (a <= x < a + 4) -> set_word b a v x = b x.
Proof. intros H. unfold set_word. destruct (Z.leb_spec a x), (Z.ltb_spec x (a + 4)); cbn [andb]; (done || lia). Qed.

Lemma word_ext b b' a : (forall x, a <= x < a + 4 -> b' x = b x) -> word b' a = word b a.
Proof. intros H. unfold word. rewrite !H by lia. done. Qed.

Lemma word_set_other b a v a' : a' + 4 <= a \/ a + 4 <= a' -> word (set_word b a v) a' = word b a'.
Proof. intros H. apply word_ext. intros x Hx. apply set_word_out. lia. Qed.

Lemma word_zero b a : (forall x, a <= x < a + 4 -> b x = 0) -> word b a = 0.
Proof. intros H. unfold word. rewrite !H by lia. done. Qed.

Lemma valid_true a n : valid a n = true <-> KERNBASE <= a /\ a + n <= KERNBASE + PHYSTOP.
Proof. unfold valid. rewrite andb_true_iff, !Z.leb_le. done. Qed.

Lemma ld32_ok m a : KERNBASE <= a -> a + 4 <= KERNBASE + PHYSTOP -> ld32 m a = Ok (word (mbytes m) a).
Proof. intros H1 H2. unfold ld32. by rewrite (proj2 (valid_true a 4)). Qed.
Lemma st32_ok m a v : KERNBASE <= a -> a + 4 <= KERNBASE + PHYSTOP -> st32 m a v = Ok (mk_mem (set_word (mbytes m) a v) (freelist m)).
Proof. intros H1 H2. unfold st32. by rewrite (proj2 (valid_true a 4)). Qed.

(** * Pages *)

Section Pages.
Context (kend : Z).

Record page_ok (p : Z) : Prop := {
  pg_align : p mod 4096 = 0;
  pg_kend : kend <= p;
  pg_low : KERNBASE <= p;
  pg_high : p + 4096 <= KERNBASE + PHYSTOP;
}.

Definition in_page (p x : Z) : Prop := p <= x < p + 4096.

Lemma page_bounds p : page_ok p -> p mod 4096 = 0 /\ 2147483648 <= p /\ p + 4096 <= 2382364672.
Proof. intros [H1 H2 H3 H4]. unfold KERNBASE, PHYSTOP in *. lia. Qed.

Lemma pages_apart p q x : page_ok p -> page_ok q -> in_page p x -> in_page q x -> p = q.
Proof. intros Hp%page_bounds Hq%page_bounds. unfold in_page. lia. Qed.

Lemma v2p_p2v p : page_ok p -> 0 <= v2p p < 2 ^ 32 /\ v2p p mod 4096 = 0 /\ p2v (v2p p) = p /\ 0 <= v2p p < PHYSTOP.
Proof.
  intros H%page_bounds. assert (v2p p = p - 2147483648) as E by (unfold v2p, KERNBASE; apply u32_small; lia). rewrite E.
  unfold p2v, KERNBASE, PHYSTOP. rewrite u32_small by lia. lia.
Qed.

(** ** The list of free pages *)

Fixpoint fl (b : Z -> Z) (p : Z) (L : list Z) : Prop :=
  match L with
  | [] => p = 0
  | q :: L' => p = q /\ fl b (word b q) L'
  end.

Record mem_ok (m : mem) (L : list Z) : Prop := {
  mo_list : fl (mbytes m) (freelist m) L;
  mo_pages : Forall page_ok L;
  mo_nodup : NoDup L;
}.

Lemma fl_ext b b' p L : fl b p L -> (forall q x, q ∈ L -> in_page q x -> b' x = b x) -> fl b' p L.
Proof.
  revert p. induction L as [|q L IH]; intros p; [done|]. intros [-> H] Hx. split; [done|]. rewrite (word_ext b b').
  - apply IH; [done|]. intros r x Hr. apply Hx. by right.
  - intros x Hq. apply (Hx q); [by left | unfold in_page; lia].
Qed.

Lemma kalloc_empty m : mem_ok m [] -> kalloc m = Ok (m, 0).
Proof. intros [H _ _]. cbn [fl] in H. unfold kalloc. by rewrite H. Qed.

Lemma kalloc_cons m p L : mem_ok m (p :: L) -> exists f, kalloc m = Ok (mk_mem (mbytes m) f, p) /\ mem_ok (mk_mem (mbytes m) f) L /\ page_ok p /\ p ∉ L.
Proof.
  intros [[H1 H2] H3 H4]. apply Forall_cons in H3 as [Hp H3]. apply NoDup_cons in H4 as [Hn H4]. pose proof (page_bounds p Hp).
  exists (word (mbytes m) p). unfold kalloc. rewrite H1, (proj2 (Z.eqb_neq _ _)) by lia. rewrite ld32_ok by (unfold KERNBASE, PHYSTOP; lia). done.
Qed.

Lemma kfree_ok m L p :
  mem_ok m L -> page_ok p -> p ∉ L ->
  exists m', kfree kend m p = Ok m' /\ mem_ok m' (p :: L) /\ forall x, ~ in_page p x -> mbytes m' x = mbytes m x.
Proof.
  intros H Hp Hn. pose proof (page_bounds p Hp) as B. pose proof (v2p_p2v p Hp) as (_ & _ & _ & V). destruct H as [H1 H2 H3].
  unfold kfree, PGSIZE. rewrite (pg_align _ Hp), Z.eqb_refl, (proj2 (Z.ltb_ge p kend)) by apply Hp. rewrite (proj2 (Z.leb_gt PHYSTOP _)) by lia. cbn [negb orb].
  unfold memset. rewrite (proj2 (valid_true p 4096)) by (unfold KERNBASE, PHYSTOP; lia). rewrite rbind_ok, st32_ok by (unfold KERNBASE, PHYSTOP; lia). rewrite rbind_ok. cbn [mbytes freelist].
  eexists. split; [reflexivity|]. set (b := fun x => if (p <=? x) && (x <? p + 4096) then 1 else mbytes m x).
  assert (forall x, ~ in_page p x -> set_word b p (freelist m) x = mbytes m x) as Hout.
  { intros x Hx. unfold in_page in Hx. rewrite set_word_out by lia. unfold b. destruct (Z.leb_spec p x), (Z.ltb_spec x (p + 4096)); cbn [andb]; (done || lia). }
  split; [|exact Hout]. split; cbn [mbytes freelist].
  - split; [done|]. rewrite word_set.
    + eapply fl_ext; [exact H1|]. intros q x Hq Hx. apply Hout. intros Hx'. rewrite Forall_forall in H2. apply Hn. by rewrite (pages_apart p q x Hp (H2 q Hq) Hx' Hx).
    + destruct L as [|q L]; cbn [fl] in H1; [lia|]. destruct H1 as [-> _]. apply Forall_cons in H2 as [Hq%page_bounds _]. lia.
  - by constructor.
  - by constructor.
Qed.
End Pages.

(** Address spaces: a page directory and its tables in memory, as a map from page
    numbers to entries, and the pages an address space owns. *)

#[local] Ltac Zify.zify_post_hook ::= Z.to_euclidean_division_equations.

(** * Maps as lists of their values *)

Definition values (M : gmap Z Z) : list Z := (map_to_list M).*2.

Lemma elem_values M v : v ∈ values M <-> exists k, M !! k = Some v.
Proof.
  unfold values. rewrite list_elem_of_fmap. split.
  - intros ([k v'] & -> & H). exists k. by apply elem_of_map_to_list in H.
  - intros [k H]. exists (k, v). split; [done|]. by apply elem_of_map_to_list.
Qed.

Lemma values_insert M k v : M !! k = None -> values (<[k := v]> M) ≡ₚ v :: values M.
Proof. intros H. unfold values. by rewrite (map_to_list_insert M k v H). Qed.

Lemma values_delete M k v : M !! k = Some v -> values M ≡ₚ v :: values (delete k M).
Proof. intros H. rewrite <- (insert_delete_id M k v H) at 1. apply values_insert. apply lookup_delete_eq. Qed.

Lemma values_inj M i j v : NoDup (values M) -> M !! i = Some v -> M !! j = Some v -> i = j.
Proof.
  intros Hn Hi Hj. destruct (decide (i = j)) as [|Hne]; [done|]. exfalso. rewrite (values_delete M i v Hi) in Hn. apply NoDup_cons in Hn as [Hn _].
  apply Hn, elem_values. exists j. by rewrite lookup_delete_ne.
Qed.

Lemma values_empty : values ∅ = [].
Proof. unfold values. by rewrite map_to_list_empty. Qed.

(** * Address spaces *)

(** The pages of user memory: below [KERNBASE], page number 2^19. *)
Definition user (vpn : Z) : Prop := vpn < 524288.
Definition page_of (e : Z) : Z := p2v (PTE_ADDR e).
Definition user_part (V : gmap Z Z) : gmap Z Z := filter (fun '(k, _) => user k) V.
Definition upages (V : gmap Z Z) : list Z := values (page_of <$> user_part V).

(** [T]: the table of each 4 MB; [V]: the entry of each mapped page. *)
Record space (b : Z -> Z) (d : Z) (T V : gmap Z Z) : Prop := {
  sp_dir : forall i, 0 <= i < 1024 ->
    match T !! i with
    | Some t => 0 <= word b (d + 4 * i) < 2 ^ 32 /\ present (word b (d + 4 * i)) = true /\ PTE_ADDR (word b (d + 4 * i)) = v2p t
    | None => present (word b (d + 4 * i)) = false
    end;
  sp_tab : forall i t, T !! i = Some t -> 0 <= i < 1024;
  sp_ent : forall n t, 0 <= n < 1048576 -> T !! (n / 1024) = Some t ->
    match V !! n with
    | Some e => word b (t + 4 * (n mod 1024)) = e /\ 0 <= e < 2 ^ 32 /\ present e = true
    | None => present (word b (t + 4 * (n mod 1024))) = false
    end;
  sp_dom : forall n e, V !! n = Some e -> 0 <= n < 1048576 /\ is_Some (T !! (n / 1024));
}.

Lemma space_ext b b' d T V :
  space b d T V -> (forall p x, p = d \/ p ∈ values T -> in_page p x -> b' x = b x) -> space b' d T V.
Proof.
  intros [H1 H2 H3 H4] Hx. split; [|done| |done].
  - intros i Hi. rewrite (word_ext b b' (d + 4 * i)) by (intros x Hx'; apply (Hx d); [by left | unfold in_page; lia]). by apply H1.
  - intros n t Hn Ht. rewrite (word_ext b b' (t + 4 * (n mod 1024))); [by apply H3|]. intros x Hx'. apply (Hx t); [right; apply elem_values; by eexists | unfold in_page; lia].
Qed.

Lemma user_part_insert V n e : user_part (<[n := e]> V) = if decide (user n) then <[n := e]> (user_part V) else user_part V.
Proof.
  unfold user_part. destruct (decide (user n)) as [Hu|Hu].
  - by rewrite map_filter_insert_True.
  - rewrite map_filter_insert_False by done. apply map_eq. intros k. apply option_eq. intros v. rewrite !map_lookup_filter_Some.
    rewrite lookup_delete_Some. split; [tauto|]. intros [Hv Hk]. split; [|done]. split; [|done]. intros <-. done.
Qed.

Lemma user_part_delete V n : user_part (delete n V) = delete n (user_part V).
Proof. unfold user_part. by rewrite map_filter_delete. Qed.

Lemma user_part_lookup V n e : user_part V !! n = Some e <-> V !! n = Some e /\ user n.
Proof. unfold user_part. apply map_lookup_filter_Some. Qed.

(** The pages of the address space. *)
Definition own (d : Z) (T V : gmap Z Z) : list Z := d :: values T ++ upages V.

Section Space.
Context (kend : Z).

Record vm_ok (m : mem) (L : list Z) (d : Z) (T V : gmap Z Z) : Prop := {
  vm_mem : mem_ok kend m L;
  vm_space : space (mbytes m) d T V;
  vm_pages : Forall (page_ok kend) (own d T V);
  vm_nodup : NoDup (own d T V ++ L);
}.

Lemma own_dir d T V : d ∈ own d T V.
Proof. by left. Qed.
Lemma own_tab d T V i t : T !! i = Some t -> t ∈ own d T V.
Proof. intros H. right. apply elem_of_app. left. apply elem_values. by exists i. Qed.
Lemma own_user d T V n e : V !! n = Some e -> user n -> page_of e ∈ own d T V.
Proof.
  intros H Hu. right. apply elem_of_app. right. apply elem_values. exists n. rewrite lookup_fmap. by rewrite (proj2 (user_part_lookup V n e)).
Qed.

Lemma vm_page m L d T V p : vm_ok m L d T V -> p ∈ own d T V -> page_ok kend p /\ p ∉ L.
Proof.
  intros H Hp. split; [pose proof (vm_pages _ _ _ _ _ H) as F; rewrite Forall_forall in F; by apply F|].
  pose proof (vm_nodup _ _ _ _ _ H) as Hn. apply NoDup_app in Hn as (_ & Hn & _). by apply Hn.
Qed.

Lemma own_parts m L d T V : vm_ok m L d T V -> NoDup (values T) /\ NoDup (upages V) /\ d ∉ values T /\ d ∉ upages V /\ forall p, p ∈ values T -> p ∉ upages V.
Proof.
  intros H. pose proof (vm_nodup _ _ _ _ _ H) as Hn. apply NoDup_app in Hn as (Hn & _ & _). unfold own in Hn. apply NoDup_cons in Hn as [Hd Hn].
  apply NoDup_app in Hn as (H1 & H2 & H3). rewrite elem_of_app in Hd. tauto.
Qed.

(** ** Reading *)

Definition entry_addr (T : gmap Z Z) (n : Z) : Z := match T !! (n / 1024) with Some t => t + 4 * (n mod 1024) | None => 0 end.

Lemma walk_read m L d T V va al :
  vm_ok m L d T V -> 0 <= va < 2 ^ 32 -> (al = false \/ is_Some (T !! (va / 4096 / 1024))) ->
  walkpgdir m d va al = Ok (m, entry_addr T (va / 4096)).
Proof.
  intros H Hva Hal. destruct (vm_page _ _ _ _ _ d H (own_dir d T V)) as [Hd%page_bounds _]. unfold walkpgdir. rewrite PDX_eq, PTX_eq by done.
  rewrite ld32_ok by (unfold KERNBASE, PHYSTOP; lia). rewrite rbind_ok. unfold entry_addr. replace (va / 4096 / 1024) with (va / 4194304) in * by lia.
  pose proof (sp_dir _ _ _ _ (vm_space _ _ _ _ _ H) (va / 4194304) ltac:(lia)) as Hi.
  destruct (T !! (va / 4194304)) as [t|] eqn:Et.
  - destruct Hi as (_ & -> & ->). destruct (vm_page _ _ _ _ _ t H (own_tab _ _ _ _ _ Et)) as [Ht _]. by destruct (v2p_p2v _ _ Ht) as (_ & _ & -> & _).
  - rewrite Hi. destruct Hal as [->|[? ?]]; done.
Qed.

Lemma entry_read m L d T V n t :
  vm_ok m L d T V -> 0 <= n < 1048576 -> T !! (n / 1024) = Some t ->
  t + 4 * (n mod 1024) <> 0 /\ KERNBASE <= t + 4 * (n mod 1024) /\ t + 4 * (n mod 1024) + 4 <= KERNBASE + PHYSTOP /\
  ld32 m (t + 4 * (n mod 1024)) = Ok (word (mbytes m) (t + 4 * (n mod 1024))).
Proof.
  intros H Hn Ht. destruct (vm_page _ _ _ _ _ t H (own_tab _ _ _ _ _ Ht)) as [Hp%page_bounds _].
  split; [lia|]. split; [unfold KERNBASE; lia|]. split; [unfold KERNBASE, PHYSTOP; lia|]. apply ld32_ok; unfold KERNBASE, PHYSTOP; lia.
Qed.

(** ** Changing the memory elsewhere *)

Lemma vm_frame m m' L d T V :
  vm_ok m L d T V -> mem_ok kend m' L -> (forall p x, p = d \/ p ∈ values T -> in_page p x -> mbytes m' x = mbytes m x) -> vm_ok m' L d T V.
Proof. intros [H1 H2 H3 H4] Hm Hx. split; [done | by apply (space_ext (mbytes m)) | done | done]. Qed.
End Space.
