(* ===== verification/VmKernel.v ===== *)
(** [walkpgdir] with allocation and [mappages]: entries and tables are added to an
    address space. *)
From stdpp Require Import gmap.
From S2P Require Import Prelude Ulib Vm VmSpace.

#[local] Ltac Zify.zify_post_hook ::= Z.to_euclidean_division_equations.

Section Map.
Context (kend : Z).
Notation page_ok := (page_ok kend).
Notation mem_ok := (mem_ok kend).
Notation vm_ok := (vm_ok kend).

Lemma mem_ok_ext m b' L : mem_ok m L -> (forall q x, q ∈ L -> in_page q x -> b' x = mbytes m x) -> mem_ok (mk_mem b' (freelist m)) L.
Proof. intros [H1 H2 H3] Hx. split; [|done|done]. by apply (fl_ext (mbytes m)). Qed.

(** ** Writing an entry of a table *)

Lemma space_set b d T V n t e :
  space b d T V -> Forall page_ok (d :: values T) -> NoDup (d :: values T) -> 0 <= n < 1048576 -> T !! (n / 1024) = Some t -> 0 <= e < 2 ^ 32 ->
  space (set_word b (t + 4 * (n mod 1024)) e) d T (if present e then <[n := e]> V else delete n V).
Proof.
  intros [H1 H2 H3 H4] Hp Hn Hnn Ht He. apply Forall_cons in Hp as [Hd Hp]. apply NoDup_cons in Hn as [Hnd Hn]. rewrite Forall_forall in Hp.
  assert (t ∈ values T) as Htv by (apply elem_values; by eexists). pose proof (page_bounds _ _ (Hp t Htv)) as Bt. pose proof (page_bounds _ _ Hd) as Bd.
  assert (d <> t) as Hdt by (intros ->; done). split; [| done | |].
  - intros i Hi. rewrite word_set_other by lia. by apply H1.
  - intros k u Hk Hu. assert (u ∈ values T) as Huv by (apply elem_values; by eexists). pose proof (page_bounds _ _ (Hp u Huv)) as Bu.
    destruct (decide (k = n)) as [->|Hne].
    + rewrite Ht in Hu. injection Hu as <-. rewrite word_set by done. destruct (present e) eqn:Ee; [rewrite lookup_insert_eq; done | rewrite lookup_delete_eq; done].
    + rewrite word_set_other.
      * specialize (H3 k u Hk Hu). destruct (present e); [rewrite lookup_insert_ne by done | rewrite lookup_delete_ne by done]; done.
      * destruct (decide (u = t)) as [->|]; [|lia]. assert (k / 1024 = n / 1024) by (by apply (values_inj T _ _ t)). lia.
  - intros k v. destruct (present e).
    + intros [[<- <-]|[_ Hv]]%lookup_insert_Some; [split; [done | by eexists] | by apply (H4 k v)].
    + intros [_ Hv]%lookup_delete_Some. by apply (H4 k v).
Qed.

(** ** A new table *)

Lemma space_table b b' d T V i p v :
  space b d T V -> page_ok d -> page_ok p -> Forall page_ok (values T) -> 0 <= i < 1024 -> T !! i = None -> p <> d -> p ∉ values T -> d ∉ values T ->
  (forall x, in_page p x -> b' x = 0) -> (forall x, ~ in_page p x -> b' x = b x) ->
  0 <= v < 2 ^ 32 -> present v = true -> PTE_ADDR v = v2p p ->
  space (set_word b' (d + 4 * i) v) d (<[i := p]> T) V.
Proof.
  intros [H1 H2 H3 H4] Hd Hp HT Hi HTi Hpd HpT HdT Hz Hk Hv Hpr Ha. pose proof (page_bounds _ _ Hd) as Bd. pose proof (page_bounds _ _ Hp) as Bp. rewrite Forall_forall in HT.
  assert (forall x, in_page d x -> b' x = b x) as Hkd by (intros x Hx; apply Hk; intros Hx'; apply Hpd; by apply (pages_apart kend p d x)).
  split.
  - intros j Hj. destruct (decide (j = i)) as [->|Hne].
    + rewrite lookup_insert_eq, word_set by done. done.
    + rewrite lookup_insert_ne, word_set_other by lia. rewrite (word_ext b b') by (intros x Hx; apply Hkd; unfold in_page; lia). by apply H1.
  - intros j t [[<- _]|[_ Ht]]%lookup_insert_Some; [done | by apply (H2 j t)].
  - intros n t Hn [[E <-]|[Hne Ht]]%lookup_insert_Some.
    + assert (V !! n = None) as ->.
      { destruct (V !! n) as [e|] eqn:Ev; [|done]. destruct (H4 n e Ev) as [_ [t Ht]]. rewrite <- E in Ht. congruence. }
      rewrite word_zero; [done|]. intros x Hx. rewrite set_word_out by lia. apply Hz. unfold in_page. lia.
    + assert (t ∈ values T) as Htv by (apply elem_values; by eexists). pose proof (HT t Htv) as Hpt. pose proof (page_bounds _ _ Hpt) as Bt.
      assert (t <> d) by (intros ->; done). assert (t <> p) by (intros ->; done). rewrite word_set_other by lia. rewrite (word_ext b b'); [by apply H3|].
      intros x Hx. apply Hk. unfold in_page. lia.
  - intros n e Hv'. destruct (H4 n e Hv') as [? [t Ht]]. split; [done|]. destruct (decide (i = n / 1024)) as [<-|]; [rewrite lookup_insert_eq; by eexists|].
    rewrite lookup_insert_ne by done. by eexists.
Qed.

Lemma own_table d T V i p : T !! i = None -> own d (<[i := p]> T) V ≡ₚ p :: own d T V.
Proof. intros H. unfold own. rewrite (values_insert T i p H). cbn [app]. apply Permutation_swap. Qed.

Lemma walk_alloc m p L d T V va :
  vm_ok m (p :: L) d T V -> 0 <= va < 2 ^ 32 -> T !! (va / 4096 / 1024) = None ->
  exists m', walkpgdir m d va true = Ok (m', p + 4 * (va / 4096 mod 1024)) /\ vm_ok m' L d (<[va / 4096 / 1024 := p]> T) V /\
    forall x, ~ in_page d x -> ~ in_page p x -> mbytes m' x = mbytes m x.
Proof.
  intros H Hva HT. destruct H as [Hm Hs Hp Hn]. destruct (kalloc_cons kend m p L Hm) as (f & Ek & Hm' & Hpp & HpL).
  assert (p ∉ own d T V) as Hpo by (apply NoDup_app in Hn as (_ & Hn & _); intros Hin; apply (Hn p Hin); by left).
  assert (p <> d /\ p ∉ values T) as [Hpd HpT] by (unfold own in Hpo; rewrite elem_of_cons, elem_of_app in Hpo; tauto).
  assert (NoDup (own d T V)) as Hno by (by apply NoDup_app in Hn as (? & _)). assert (d ∉ values T) as HdT.
  { unfold own in Hno. apply NoDup_cons in Hno as [Hno _]. rewrite elem_of_app in Hno. tauto. }
  assert (page_ok d /\ Forall page_ok (values T)) as [Hd HTp] by (unfold own in Hp; apply Forall_cons in Hp as [? Hp]; apply Forall_app in Hp as [? _]; done).
  pose proof (page_bounds _ _ Hd) as Bd. pose proof (page_bounds _ _ Hpp) as Bp. set (i := va / 4096 / 1024) in *. assert (PDX va = i) as Ei by (rewrite PDX_eq by done; unfold i; lia).
  unfold walkpgdir. rewrite Ei, PTX_eq by done. rewrite ld32_ok by (unfold KERNBASE, PHYSTOP; lia). rewrite rbind_ok.
  pose proof (sp_dir _ _ _ _ Hs i ltac:(lia)) as Hi. rewrite HT in Hi. rewrite Hi. cbn [negb]. rewrite Ek, rbind_ok, (proj2 (Z.eqb_neq _ _)) by lia.
  unfold memset, PGSIZE. rewrite (proj2 (valid_true p 4096)) by (unfold KERNBASE, PHYSTOP; lia). rewrite rbind_ok, st32_ok by (unfold KERNBASE, PHYSTOP; lia). rewrite rbind_ok.
  cbn [mbytes freelist]. eexists. split; [reflexivity|]. destruct (v2p_p2v kend p Hpp) as (V1 & V2 & V3 & V4).
  rewrite <- !Z.lor_assoc. change (Z.lor PTE_P (Z.lor PTE_W PTE_U)) with (Z.lor 6 PTE_P). rewrite Z.lor_assoc. fold (entry (v2p p) 6).
  destruct (entry_ok (v2p p) 6 V1 V2 ltac:(lia)) as (E1 & E2 & E3 & _).
  set (b := fun x => if (p <=? x) && (x <? p + 4096) then 0 else mbytes m x).
  assert (forall x, in_page p x -> b x = 0) as Hz by (intros x Hx; unfold b, in_page in *; destruct (Z.leb_spec p x), (Z.ltb_spec x (p + 4096)); cbn; (done || lia)).
  assert (forall x, ~ in_page p x -> b x = mbytes m x) as Hk by (intros x Hx; unfold b, in_page in *; destruct (Z.leb_spec p x), (Z.ltb_spec x (p + 4096)); cbn; (done || lia)).
  assert (forall x, ~ in_page d x -> ~ in_page p x -> set_word b (d + 4 * i) (entry (v2p p) 6) x = mbytes m x) as Hout.
  { intros x Hx Hx'. rewrite set_word_out by (unfold in_page in Hx; lia). by apply Hk. }
  split; [|exact Hout]. split; cbn [mbytes].
  - apply (mem_ok_ext (mk_mem (mbytes m) f)); [done|]. intros q x Hq Hx. cbn [mbytes]. pose proof (mo_pages _ _ _ Hm') as F. rewrite Forall_forall in F.
    apply Hout; intros Hx'; [|apply HpL; by rewrite (pages_apart kend p q x Hpp (F q Hq) Hx' Hx)].
    apply NoDup_app in Hn as (_ & Hn & _). apply (Hn d (own_dir d T V)). right. by rewrite (pages_apart kend d q x Hd (F q Hq) Hx' Hx).
  - apply (space_table (mbytes m)); try done. lia.
  - rewrite (own_table d T V i p HT). by constructor.
  - rewrite (own_table d T V i p HT). cbn [app]. rewrite Permutation_middle. done.
Qed.

(** ** One page of [mappages] *)

Definition owner (n pa : Z) : list Z := if decide (user n) then [p2v pa] else [].

Lemma own_map d T V n e : V !! n = None -> own d T (<[n := e]> V) ≡ₚ (if decide (user n) then [page_of e] else []) ++ own d T V.
Proof.
  intros H. unfold own, upages. rewrite user_part_insert. destruct (decide (user n)) as [Hu|]; [|done]. rewrite fmap_insert, values_insert.
  - cbn [app]. rewrite <- Permutation_middle. apply Permutation_swap.
  - rewrite lookup_fmap. destruct (user_part V !! n) as [e'|] eqn:E; [|done]. apply user_part_lookup in E as [? _]. congruence.
Qed.

(** The page [n] is mapped: what changes. *)
Record mapped (m m' : mem) (L L' : list Z) (d : Z) (T T' V : gmap Z Z) (n e : Z) : Prop := {
  mp_ok : vm_ok m' L' d T' (<[n := e]> V);
  mp_tab : T ⊆ T' /\ (forall i, i <> n / 1024 -> T' !! i = T !! i) /\ is_Some (T' !! (n / 1024));
  mp_free : L = L' /\ T' = T \/ exists p, L = p :: L' /\ T !! (n / 1024) = None /\ T' = <[n / 1024 := p]> T;
  mp_perm : own d T' (<[n := e]> V) ++ L' ≡ₚ (if decide (user n) then [page_of e] else []) ++ own d T V ++ L;
  mp_frame : forall x, (forall p, p ∈ d :: values T ++ L -> ~ in_page p x) -> mbytes m' x = mbytes m x;
}.

(** The pages that may change are those of the space and the free ones. *)
Lemma mapped_pages m m' L L' d T T' V n e p :
  mapped m m' L L' d T T' V n e -> p ∈ d :: values T' ++ L' -> p ∈ d :: values T ++ L.
Proof.
  intros M. destruct (mp_free _ _ _ _ _ _ _ _ _ _ M) as [[<- ->]|(q & -> & HT & ->)]; [done|].
  rewrite !elem_of_cons, !elem_of_app, !elem_of_cons, (values_insert T (n / 1024) q HT), elem_of_cons. tauto.
Qed.

Lemma map_entry m L d T V n t pa perm :
  vm_ok m L d T V -> 0 <= n < 1048576 -> T !! (n / 1024) = Some t -> V !! n = None ->
  0 <= pa < 2 ^ 32 -> pa mod 4096 = 0 -> 0 <= perm < 4096 -> (user n -> page_ok (p2v pa) /\ p2v pa ∉ own d T V ++ L) ->
  let e := entry pa perm in
  exists m', st32 m (t + 4 * (n mod 1024)) e = Ok m' /\ vm_ok m' L d T (<[n := e]> V) /\ forall x, ~ in_page t x -> mbytes m' x = mbytes m x.
Proof.
  intros H Hn Ht HV Hpa Hal Hperm Hu e. destruct (entry_ok pa perm Hpa Hal Hperm) as (E1 & E2 & E3 & _). fold e in E1, E2, E3.
  destruct (entry_read kend m L d T V n t H Hn Ht) as (_ & A1 & A2 & _). rewrite st32_ok by done. eexists. split; [reflexivity|].
  destruct (vm_page kend m L d T V t H (own_tab _ _ _ _ _ Ht)) as [Hpt HtL].
  assert (forall x, ~ in_page t x -> set_word (mbytes m) (t + 4 * (n mod 1024)) e x = mbytes m x) as Hout.
  { intros x Hx. apply set_word_out. unfold in_page in Hx. lia. }
  split; [|exact Hout]. destruct H as [Hm Hs Hp Hnd]. assert (own d T (<[n := e]> V) ≡ₚ (if decide (user n) then [page_of e] else []) ++ own d T V) as Ho by (by apply own_map).
  assert (page_of e = p2v pa) as Epg by (unfold page_of; by rewrite E2).
  split; cbn [mbytes].
  - apply mem_ok_ext; [done|]. intros q x Hq Hx. apply Hout. intros Hx'. apply HtL. pose proof (mo_pages _ _ _ Hm) as F. rewrite Forall_forall in F.
    by rewrite (pages_apart kend t q x Hpt (F q Hq) Hx' Hx).
  - assert (space (set_word (mbytes m) (t + 4 * (n mod 1024)) e) d T (if present e then <[n := e]> V else delete n V)) as Hs'; [|by rewrite E3 in Hs'].
    apply space_set; try done.
    + unfold own in Hp. apply Forall_cons in Hp as [? Hp]. apply Forall_app in Hp as [? _]. by constructor.
    + apply NoDup_app in Hnd as (Hnd & _). unfold own in Hnd. apply NoDup_cons in Hnd as [Hd Hnd]. apply NoDup_app in Hnd as (? & _). apply NoDup_cons. split; [|done]. rewrite elem_of_app in Hd. tauto.
  - rewrite Ho. destruct (decide (user n)) as [Hun|]; [|done]. rewrite Epg. destruct (Hu Hun). by constructor.
  - rewrite Ho. destruct (decide (user n)) as [Hun|]; [|done]. rewrite Epg. destruct (Hu Hun). cbn [app]. by apply NoDup_cons.
Qed.

Lemma map_step m L d T V n pa perm k :
  vm_ok m L d T V -> 0 <= n < 1048576 -> V !! n = None ->
  0 <= pa < 2 ^ 32 -> pa mod 4096 = 0 -> 0 <= perm < 4096 -> (user n -> page_ok (p2v pa) /\ p2v pa ∉ own d T V ++ L) ->
  (T !! (n / 1024) = None /\ L = [] /\ mappages_loop k m d (4096 * n) pa perm = Ok (m, -1)) \/
  exists m' L' T', mapped m m' L L' d T T' V n (entry pa perm) /\
    mappages_loop k m d (4096 * n) pa perm = match k with O => Ok (m', 0) | S k' => mappages_loop k' m' d (u32 (4096 * n + PGSIZE)) (u32 (pa + PGSIZE)) perm end.
Proof.
  intros H Hn HV Hpa Hal Hperm Hu. assert (4096 * n / 4096 = n) as En by lia.
  assert (forall m1 L1 T1 t, vm_ok m1 L1 d T1 V -> T1 !! (n / 1024) = Some t -> (user n -> page_ok (p2v pa) /\ p2v pa ∉ own d T1 V ++ L1) ->
    exists m', (let! e := ld32 m1 (t + 4 * (n mod 1024)) in
       if present e then Err Panic else
       let! m := st32 m1 (t + 4 * (n mod 1024)) (entry pa perm) in
       match k with O => Ok (m, 0) | S k' => mappages_loop k' m d (u32 (4096 * n + PGSIZE)) (u32 (pa + PGSIZE)) perm end)
      = match k with O => Ok (m', 0) | S k' => mappages_loop k' m' d (u32 (4096 * n + PGSIZE)) (u32 (pa + PGSIZE)) perm end /\
      vm_ok m' L1 d T1 (<[n := entry pa perm]> V) /\ forall x, ~ in_page t x -> mbytes m' x = mbytes m1 x) as Hset.
  { intros m1 L1 T1 t H1 Ht Hu1. destruct (entry_read kend m1 L1 d T1 V n t H1 Hn Ht) as (_ & _ & _ & ->). rewrite rbind_ok.
    pose proof (sp_ent _ _ _ _ (vm_space _ _ _ _ _ _ H1) n t Hn Ht) as Hent. rewrite HV in Hent. rewrite Hent.
    destruct (map_entry m1 L1 d T1 V n t pa perm H1 Hn Ht HV Hpa Hal Hperm Hu1) as (m' & -> & H' & Hf). rewrite rbind_ok. by exists m'. }
  destruct (T !! (n / 1024)) as [t|] eqn:Et.
  - right. destruct (Hset m L T t H Et Hu) as (m' & E & H' & Hf). exists m', L, T. split.
    + split; [done | split; [done|]; split; [done|]; rewrite Et; by eexists | by left | by rewrite own_map, <- app_assoc|].
      intros x Hx. apply Hf, Hx. right. apply elem_of_app. left. apply elem_values. by eexists.
    + rewrite <- E. destruct k; cbn [mappages_loop]; rewrite (walk_read kend m L d T V (4096 * n) true H) by (lia || (right; rewrite En, Et; by eexists));
        rewrite rbind_ok; unfold entry_addr; rewrite En, Et, (proj2 (Z.eqb_neq _ _)) by apply (entry_read kend m L d T V n t H Hn Et); reflexivity.
  - destruct L as [|p L].
    + left. split; [done|]. split; [done|]. assert (walkpgdir m d (4096 * n) true = Ok (m, 0)) as Ew; [|destruct k; cbn [mappages_loop]; by rewrite Ew].
      destruct (vm_page kend m [] d T V d H (own_dir d T V)) as [Hd%page_bounds _]. unfold walkpgdir. rewrite PDX_eq, PTX_eq by lia.
      rewrite ld32_ok by (unfold KERNBASE, PHYSTOP; lia). rewrite rbind_ok. replace (4096 * n / 4194304) with (n / 1024) by lia.
      pose proof (sp_dir _ _ _ _ (vm_space _ _ _ _ _ _ H) (n / 1024) ltac:(lia)) as Hi. rewrite Et in Hi. rewrite Hi. cbn [negb].
      rewrite (kalloc_empty kend m (vm_mem _ _ _ _ _ _ H)), rbind_ok. done.
    + right. destruct (walk_alloc m p L d T V (4096 * n) H) as (m1 & Ew & H1 & Hf1); [lia | by rewrite En|]. rewrite En in *.
      assert (<[n / 1024 := p]> T !! (n / 1024) = Some p) as Et1 by apply lookup_insert_eq.
      destruct (Hset m1 L (<[n / 1024 := p]> T) p H1 Et1) as (m' & E & H' & Hf).
      { intros Hun. destruct (Hu Hun) as [Hp Hnin]. split; [done|]. rewrite (own_table d T V (n / 1024) p Et). cbn [app]. by rewrite Permutation_middle. }
      exists m', L, (<[n / 1024 := p]> T). split.
      * split; [done | split; [by apply insert_subseteq|]; split; [intros i Hi; by rewrite lookup_insert_ne | by eexists] | right; by exists p | |].
        -- rewrite own_map by done. rewrite <- app_assoc. apply Permutation_app_head. rewrite (own_table d T V (n / 1024) p Et). cbn [app]. by rewrite Permutation_middle.
        -- intros x Hx. rewrite Hf, Hf1; [done | apply Hx; by left | |]; apply Hx; right; apply elem_of_app; right; by left.
      * rewrite <- E. destruct (entry_read kend m1 L d _ V n p H1 Hn Et1) as (Hne & _). destruct k; cbn [mappages_loop]; rewrite Ew, rbind_ok, (proj2 (Z.eqb_neq _ _) Hne); reflexivity.
Qed.
End Map.

(** [mappages] over a range of the kernel's addresses, and [setupkvm]. *)

#[local] Ltac Zify.zify_post_hook ::= Z.to_euclidean_division_equations.

Section Kernel.
Context (kend : Z).
Notation page_ok := (page_ok kend).
Notation mem_ok := (mem_ok kend).
Notation vm_ok := (vm_ok kend).

(** The tables that are missing for the pages [n .. n + k]. *)
Definition missing (T : gmap Z Z) (n k : Z) : Z := (n + k) / 1024 - n / 1024 + match T !! (n / 1024) with Some _ => 0 | None => 1 end.

(** The pages [n .. n + k] of the kernel map the physical pages from [pa] on. *)
Record ranged (m m' : mem) (L L' : list Z) (d : Z) (T T' V V' : gmap Z Z) (n k pa perm : Z) : Prop := {
  rg_ok : vm_ok m' L' d T' V';
  rg_new : forall i, 0 <= i <= k -> V' !! (n + i) = Some (entry (pa + 4096 * i) perm);
  rg_old : forall j, ~ (n <= j <= n + k) -> V' !! j = V !! j;
  rg_tab : T ⊆ T' /\ (forall i, ~ (n / 1024 <= i <= (n + k) / 1024) -> T' !! i = T !! i) /\ is_Some (T' !! ((n + k) / 1024));
  rg_free : zlen L - zlen L' <= missing T n k;
  rg_perm : own d T' V' ++ L' ≡ₚ own d T V ++ L;
  rg_frame : forall x, (forall p, p ∈ d :: values T ++ L -> ~ in_page p x) -> mbytes m' x = mbytes m x;
}.

Lemma mapped_free m m' L L' d T T' V n e :
  mapped kend m m' L L' d T T' V n e -> zlen L - zlen L' = match T !! (n / 1024) with Some _ => 0 | None => 1 end.
Proof.
  intros M. destruct (mp_free _ _ _ _ _ _ _ _ _ _ _ M) as [[<- ->]|(q & -> & -> & _)]; [|cbn [length]; lia].
  destruct (mp_tab _ _ _ _ _ _ _ _ _ _ _ M) as (_ & _ & [t ->]). lia.
Qed.

Lemma range_ok k m L d T V n pa perm :
  vm_ok m L d T V -> 524288 <= n -> n + Z.of_nat k < 1048576 -> (forall i, n <= i <= n + Z.of_nat k -> V !! i = None) ->
  0 <= pa -> pa + 4096 * Z.of_nat k + 4096 <= 2 ^ 32 -> pa mod 4096 = 0 -> 0 <= perm < 4096 -> missing T n (Z.of_nat k) <= zlen L ->
  exists m' L' T' V', mappages_loop k m d (4096 * n) pa perm = Ok (m', 0) /\ ranged m m' L L' d T T' V V' n (Z.of_nat k) pa perm.
Proof.
  revert m L T V n pa. induction k as [|k IH]; intros m L T V n pa H Hn Hk HV Hpa Hpa' Hal Hperm Hm.
  - destruct (map_step kend m L d T V n pa perm 0) as [(HT & -> & _)|(m' & L' & T' & M & E)]; try done; try lia; [apply HV; lia | intros Hu; unfold user in Hu; lia | |].
    { unfold missing in Hm. rewrite HT in Hm. cbn [length] in Hm. lia. }
    exists m', L', T', (<[n := entry pa perm]> V). split; [done|]. pose proof (mapped_free _ _ _ _ _ _ _ _ _ _ M) as Hfr. destruct M as [M1 (M2 & M3 & M4) M5 M6 M7]. split; try done.
    + intros i Hi. replace i with 0 by lia. rewrite Z.add_0_r, Z.mul_0_r, Z.add_0_r. apply lookup_insert_eq.
    + intros j Hj. apply lookup_insert_ne. lia.
    + split; [done|]. rewrite Z.add_0_r. split; [intros i Hi; apply M3; lia | done].
    + unfold missing. lia.
    + rewrite M6. rewrite decide_False by (unfold user; lia). done.
  - destruct (map_step kend m L d T V n pa perm (S k)) as [(HT & -> & _)|(m1 & L1 & T1 & M & E)]; try done; try lia; [apply HV; lia | intros Hu; unfold user in Hu; lia | |].
    { unfold missing in Hm. rewrite HT in Hm. cbn [length] in Hm. lia. }
    rewrite E. unfold PGSIZE. rewrite !u32_small by lia. replace (4096 * n + 4096) with (4096 * (n + 1)) by lia.
    pose proof (mapped_free _ _ _ _ _ _ _ _ _ _ M) as Hfr. pose proof (mp_tab _ _ _ _ _ _ _ _ _ _ _ M) as (M2 & M3 & [t1 Ht1]).
    assert (missing T1 (n + 1) (Z.of_nat k) + (zlen L - zlen L1) <= missing T n (Z.of_nat (S k))) as Hmiss.
    { unfold missing. destruct (decide ((n + 1) / 1024 = n / 1024)) as [Eq|Hne]; [rewrite Eq, Ht1|destruct (T1 !! ((n + 1) / 1024))]; lia. }
    destruct (IH m1 L1 T1 (<[n := entry pa perm]> V) (n + 1) (pa + 4096)) as (m' & L' & T' & V' & E' & [R1 R2 R3 (R4 & R5 & R6) R7 R8 R9]); try lia.
    + apply M.
    + intros i Hi. rewrite lookup_insert_ne by lia. apply HV. lia.
    + exists m', L', T', V'. split; [done|]. split; try done.
      * intros i Hi. destruct (decide (i = 0)) as [->|Hne].
        { rewrite R3 by lia. rewrite Z.add_0_r, Z.mul_0_r, Z.add_0_r. apply lookup_insert_eq. }
        replace (n + i) with (n + 1 + (i - 1)) by lia. rewrite R2 by lia. f_equal. f_equal. lia.
      * intros j Hj. rewrite R3 by lia. apply lookup_insert_ne. lia.
      * split; [by etrans|]. split; [|by replace (n + Z.of_nat (S k)) with (n + 1 + Z.of_nat k) by lia].
        intros i Hi. rewrite R5 by lia. apply M3. lia.
      * lia.
      * rewrite R8, (mp_perm _ _ _ _ _ _ _ _ _ _ _ M). rewrite decide_False by (unfold user; lia). done.
      * intros x Hx. rewrite R9; [by apply M|]. intros p Hp. apply Hx. by eapply (mapped_pages kend).
Qed.

(** [mappages] of whole pages. *)
Lemma mappages_range m L d T V va size pa perm :
  vm_ok m L d T V -> KERNBASE <= va -> va mod 4096 = 0 -> 0 < size -> size mod 4096 = 0 -> va + size <= 2 ^ 32 ->
  (forall i, va / 4096 <= i < (va + size) / 4096 -> V !! i = None) ->
  0 <= pa -> pa + size <= 2 ^ 32 -> pa mod 4096 = 0 -> 0 <= perm < 4096 -> missing T (va / 4096) (size / 4096 - 1) <= zlen L ->
  exists m' L' T' V', mappages m d va size pa perm = Ok (m', 0) /\ ranged m m' L L' d T T' V V' (va / 4096) (size / 4096 - 1) pa perm.
Proof.
  unfold KERNBASE. intros H Hva Hval Hs Hsal Htop HV Hpa Hpa' Hpal Hperm Hm. unfold mappages, PGSIZE. rewrite (u32_small (va + size - 1)) by lia. rewrite !PGROUNDDOWN_eq by lia.
  rewrite u32_small by lia. replace ((va + size - 1 - (va + size - 1) mod 4096 - (va - va mod 4096)) / 4096) with (size / 4096 - 1) by lia.
  replace (va - va mod 4096) with (4096 * (va / 4096)) by lia. set (k := Z.to_nat (size / 4096 - 1)). replace (size / 4096 - 1) with (Z.of_nat k) in * by lia.
  apply range_ok; try done; try lia. intros i Hi. apply HV. lia.
Qed.

(** ** [setupkvm] *)

Lemma ranged_pages m m' L L' d T T' V V' n k pa perm p :
  ranged m m' L L' d T T' V V' n k pa perm -> p ∈ d :: values T' ++ L' -> (forall j, 0 <= j < 524288 -> V !! j = None) -> (forall j, 0 <= j < 524288 -> V' !! j = None) ->
  p ∈ d :: values T ++ L.
Proof.
  intros R Hp HV HV'. assert (forall X : gmap Z Z, (forall j e, X !! j = Some e -> 0 <= j) -> (forall j, 0 <= j < 524288 -> X !! j = None) -> upages X = []) as Hu.
  { intros X Hpos HX. unfold upages. replace (user_part X) with (∅ : gmap Z Z); [by rewrite fmap_empty, values_empty|]. symmetry. apply map_empty. intros j.
    destruct (user_part X !! j) as [e|] eqn:E; [|done]. apply user_part_lookup in E as [E Hj]. specialize (Hpos j e E). unfold user in Hj. rewrite HX in E by lia. done. }
  pose proof (sp_dom _ _ _ _ (vm_space _ _ _ _ _ _ (rg_ok _ _ _ _ _ _ _ _ _ _ _ _ _ R))) as Hdom. pose proof (rg_perm _ _ _ _ _ _ _ _ _ _ _ _ _ R) as P.
  unfold own in P. rewrite (Hu V') in P; [|intros j e Hj; destruct (Hdom j e Hj); lia | done].
  assert (upages V = []) as Hv.
  { apply Hu; [|done]. intros j e Hj. destruct (decide (n <= j <= n + k)) as [Hin|Hout].
    - pose proof (rg_new _ _ _ _ _ _ _ _ _ _ _ _ _ R (j - n) ltac:(lia)) as Hn. replace (n + (j - n)) with j in Hn by lia. destruct (Hdom j _ Hn); lia.
    - rewrite <- (rg_old _ _ _ _ _ _ _ _ _ _ _ _ _ R j Hout) in Hj. destruct (Hdom j e Hj); lia. }
  rewrite Hv, !app_nil_r in P. cbn [app] in P. by rewrite <- P.
Qed.

Context (kdata : Z) (Hdata : KERNLINK < kdata < KERNBASE + PHYSTOP) (Hdata_al : kdata mod 4096 = 0).

(** The kernel's part of an address space: physical memory at [KERNBASE], the
    devices at their own addresses. *)
Definition kernel_maps (V : gmap Z Z) : Prop :=
  (forall i, 0 <= i < 57344 -> exists perm, V !! (524288 + i) = Some (entry (4096 * i) perm) /\ (perm = 0 \/ perm = PTE_W)) /\
  (forall i, 0 <= i < 16384 -> V !! (1032192 + i) = Some (entry (DEVSPACE + 4096 * i) PTE_W)).

Lemma setup_empty m p L :
  mem_ok m (p :: L) -> exists m1, (let! '(m, d) := kalloc m in if d =? 0 then Ok (m, 0) else let! m := memset m d 0 PGSIZE in if DEVSPACE <? p2v PHYSTOP then Err Panic else map_kernel m d (kmap kdata)) =
    map_kernel m1 p (kmap kdata) /\ vm_ok m1 L p ∅ ∅ /\ forall x, ~ in_page p x -> mbytes m1 x = mbytes m x.
Proof.
  intros H. destruct (kalloc_cons kend m p L H) as (f & -> & Hm & Hp & Hn). rewrite rbind_ok. pose proof (page_bounds _ _ Hp) as B.
  rewrite (proj2 (Z.eqb_neq _ _)) by lia. unfold memset, PGSIZE. rewrite (proj2 (valid_true p 4096)) by (unfold KERNBASE, PHYSTOP; lia). rewrite rbind_ok.
  change (DEVSPACE <? p2v PHYSTOP) with false. cbv iota. cbn [mbytes freelist]. eexists. split; [reflexivity|]. cbn [mbytes].
  set (b := fun x => if (p <=? x) && (x <? p + 4096) then 0 else mbytes m x).
  assert (forall x, ~ in_page p x -> b x = mbytes m x) as Hout by (intros x Hx; unfold b, in_page in *; destruct (Z.leb_spec p x), (Z.ltb_spec x (p + 4096)); cbn; (done || lia)).
  assert (forall x, in_page p x -> b x = 0) as Hin by (intros x Hx; unfold b, in_page in *; destruct (Z.leb_spec p x), (Z.ltb_spec x (p + 4096)); cbn; (done || lia)).
  split; [|exact Hout]. assert (own p ∅ ∅ = [p]) as Ho by (unfold own, upages, user_part; by rewrite map_filter_empty, fmap_empty, values_empty).
  split; rewrite ?Ho; cbn [mbytes].
  - apply (mem_ok_ext kend (mk_mem (mbytes m) f)); [done|]. intros q x Hq Hx. apply Hout. intros Hx'. pose proof (mo_pages _ _ _ Hm) as F. rewrite Forall_forall in F.
    apply Hn. by rewrite (pages_apart kend p q x Hp (F q Hq) Hx' Hx).
  - split.
    + intros i Hi. rewrite lookup_empty. rewrite word_zero; [done|]. intros x Hx. apply Hin. unfold in_page. lia.
    + intros i t Ht. by rewrite lookup_empty in Ht.
    + intros n t Hn' Ht. by rewrite lookup_empty in Ht.
    + intros n e He. by rewrite lookup_empty in He.
  - by constructor.
  - cbn [app]. apply H.
Qed.

(** What the table of the kernel maps onto [d]. *)
Record set_up (m m' : mem) (L L' : list Z) (d : Z) (T V : gmap Z Z) : Prop := {
  su_ok : vm_ok m' L' d T V;
  su_user : forall j, 0 <= j < 524288 -> V !! j = None;
  su_tab : forall i, 0 <= i < 512 -> T !! i = None;
  su_kernel : kernel_maps V;
  su_free : zlen L - zlen L' <= 73;
  su_perm : own d T V ++ L' ≡ₚ L;
  su_frame : forall x, (forall p, p ∈ L -> ~ in_page p x) -> mbytes m' x = mbytes m x;
}.

(** The four ranges together. *)
Lemma set_up_ranges m m0 m1 m2 m3 m4 L0 L1 L2 L3 L4 d T1 T2 T3 T4 V1 V2 V3 V4 n :
  524544 < n -> n < 581632 -> (forall x, ~ in_page d x -> mbytes m0 x = mbytes m x) ->
  ranged m0 m1 L0 L1 d ∅ T1 ∅ V1 524288 255 0 2 -> ranged m1 m2 L1 L2 d T1 T2 V1 V2 524544 (n - 524545) 1048576 0 ->
  ranged m2 m3 L2 L3 d T2 T3 V2 V3 n (581631 - n) (4096 * n - 2147483648) 2 -> ranged m3 m4 L3 L4 d T3 T4 V3 V4 1032192 16383 4227858432 2 ->
  zlen (d :: L0) - zlen L4 <= 73 -> set_up m m4 (d :: L0) L4 d T4 V4.
Proof.
  intros Hn1 Hn2 F0 R1 R2 R3 R4 Hfree.
  pose proof (rg_old _ _ _ _ _ _ _ _ _ _ _ _ _ R1) as O1. pose proof (rg_old _ _ _ _ _ _ _ _ _ _ _ _ _ R2) as O2. pose proof (rg_old _ _ _ _ _ _ _ _ _ _ _ _ _ R3) as O3. pose proof (rg_old _ _ _ _ _ _ _ _ _ _ _ _ _ R4) as O4.
  assert (forall j, 0 <= j < 524288 -> V1 !! j = None) as U1 by (intros j Hj; rewrite O1 by lia; apply lookup_empty).
  assert (forall j, 0 <= j < 524288 -> V2 !! j = None) as U2 by (intros j Hj; rewrite O2 by lia; by apply U1).
  assert (forall j, 0 <= j < 524288 -> V3 !! j = None) as U3 by (intros j Hj; rewrite O3 by lia; by apply U2).
  assert (forall j, 0 <= j < 524288 -> V4 !! j = None) as U4 by (intros j Hj; rewrite O4 by lia; by apply U3).
  split; [apply R4 | done | | | done | |].
  - intros i Hi. rewrite (proj1 (proj2 (rg_tab _ _ _ _ _ _ _ _ _ _ _ _ _ R4))), (proj1 (proj2 (rg_tab _ _ _ _ _ _ _ _ _ _ _ _ _ R3))),
      (proj1 (proj2 (rg_tab _ _ _ _ _ _ _ _ _ _ _ _ _ R2))), (proj1 (proj2 (rg_tab _ _ _ _ _ _ _ _ _ _ _ _ _ R1))) by lia. apply lookup_empty.
  - split.
    + intros i Hi. rewrite O4 by lia. destruct (Z.lt_ge_cases i 256) as [H1|H1]; [|destruct (Z.lt_ge_cases (524288 + i) n) as [H2|H2]].
      * exists 2. split; [|by right]. rewrite O3, O2 by lia. rewrite (rg_new _ _ _ _ _ _ _ _ _ _ _ _ _ R1) by lia. f_equal.
      * exists 0. split; [|by left]. rewrite O3 by lia. replace (524288 + i) with (524544 + (i - 256)) by lia. rewrite (rg_new _ _ _ _ _ _ _ _ _ _ _ _ _ R2) by lia. f_equal. f_equal. lia.
      * exists 2. split; [|by right]. replace (524288 + i) with (n + (524288 + i - n)) by lia. rewrite (rg_new _ _ _ _ _ _ _ _ _ _ _ _ _ R3) by lia. f_equal. f_equal. lia.
    + intros i Hi. rewrite (rg_new _ _ _ _ _ _ _ _ _ _ _ _ _ R4) by lia. done.
  - rewrite (rg_perm _ _ _ _ _ _ _ _ _ _ _ _ _ R4), (rg_perm _ _ _ _ _ _ _ _ _ _ _ _ _ R3), (rg_perm _ _ _ _ _ _ _ _ _ _ _ _ _ R2), (rg_perm _ _ _ _ _ _ _ _ _ _ _ _ _ R1).
    unfold own, upages, user_part. by rewrite map_filter_empty, fmap_empty, values_empty.
  - intros x Hx. assert (forall p, p ∈ d :: values ∅ ++ L0 -> ~ in_page p x) as X0 by (intros p Hp; apply Hx; by rewrite values_empty in Hp).
    assert (forall p, p ∈ d :: values T1 ++ L1 -> ~ in_page p x) as X1 by (intros p Hp; apply X0; eapply ranged_pages; [exact R1 | done | intros j _; apply lookup_empty | done]).
    assert (forall p, p ∈ d :: values T2 ++ L2 -> ~ in_page p x) as X2 by (intros p Hp; apply X1; eapply ranged_pages; [exact R2 | done | done | done]).
    assert (forall p, p ∈ d :: values T3 ++ L3 -> ~ in_page p x) as X3 by (intros p Hp; apply X2; eapply ranged_pages; [exact R3 | done | done | done]).
    rewrite (rg_frame _ _ _ _ _ _ _ _ _ _ _ _ _ R4 x X3), (rg_frame _ _ _ _ _ _ _ _ _ _ _ _ _ R3 x X2), (rg_frame _ _ _ _ _ _ _ _ _ _ _ _ _ R2 x X1), (rg_frame _ _ _ _ _ _ _ _ _ _ _ _ _ R1 x X0).
    apply F0, Hx. by left.
Qed.

Lemma setupkvm_ok m L :
  mem_ok m L -> 73 <= zlen L -> exists m' d L' T V, setupkvm kdata m = Ok (m', d) /\ d <> 0 /\ set_up m m' L L' d T V.
Proof.
  intros H Hl. destruct L as [|d L0]; [cbn in Hl; lia|]. destruct (setup_empty m d L0 H) as (m0 & E & H0 & F0). unfold setupkvm. rewrite E. clear E.
  assert (zlen (d :: L0) = zlen L0 + 1) as Hlen by (cbn [length]; lia). rewrite Hlen in Hl.
  assert (v2p kdata = kdata - 2147483648 /\ v2p KERNLINK = 1048576) as [Ekd Ekl] by (unfold KERNLINK, KERNBASE, EXTMEM, PHYSTOP in *; unfold v2p, KERNBASE; rewrite !u32_small by lia; lia).
  unfold KERNLINK, KERNBASE, EXTMEM, PHYSTOP in Hdata. unfold kmap. cbn [map_kernel virt phys_start phys_end kperm].
  change (u32 (EXTMEM - 0)) with 1048576. change KERNBASE with 2147483648. change PTE_W with 2. change KERNLINK with 2148532224 in *. change PHYSTOP with 234881024. change DEVSPACE with 4227858432.
  destruct (mappages_range m0 L0 d ∅ ∅ 2147483648 1048576 0 2) as (m1 & L1 & T1 & V1 & E1 & R1); try done; try lia.
  { change (2147483648 / 4096) with 524288. change (1048576 / 4096 - 1) with 255. unfold missing. rewrite lookup_empty. lia. }
  rewrite E1, rbind_ok. cbn [Z.ltb Z.compare]. clear E1. change (2147483648 / 4096) with 524288 in R1. change (1048576 / 4096 - 1) with 255 in R1.
  pose proof (rg_tab _ _ _ _ _ _ _ _ _ _ _ _ _ R1) as (_ & T1o & [t1 Ht1]). change ((524288 + 255) / 1024) with 512 in *. change (524288 / 1024) with 512 in T1o.
  pose proof (rg_free _ _ _ _ _ _ _ _ _ _ _ _ _ R1) as N1. unfold missing in N1. rewrite lookup_empty in N1.
  (* text and read-only data *)
  set (n := kdata / 4096) in *. assert (u32 (v2p kdata - v2p 2148532224) = 4096 * n - 2148532224) as -> by (rewrite Ekd, Ekl, u32_small by lia; lia). rewrite Ekl.
  destruct (mappages_range m1 L1 d T1 V1 2148532224 (4096 * n - 2148532224) 1048576 0) as (m2 & L2 & T2 & V2 & E2 & R2); try done; try lia.
  { apply R1. }
  { intros i Hi. rewrite (rg_old _ _ _ _ _ _ _ _ _ _ _ _ _ R1) by lia. apply lookup_empty. }
  { change (2148532224 / 4096) with 524544. unfold missing. change (524544 / 1024) with 512. rewrite Ht1. lia. }
  rewrite E2, rbind_ok. cbn [Z.ltb Z.compare]. clear E2. change (2148532224 / 4096) with 524544 in R2. replace ((4096 * n - 2148532224) / 4096 - 1) with (n - 524545) in R2 by lia.
  pose proof (rg_tab _ _ _ _ _ _ _ _ _ _ _ _ _ R2) as (_ & T2o & [t2 Ht2]). replace (524544 + (n - 524545)) with (n - 1) in * by lia. change (524544 / 1024) with 512 in T2o.
  pose proof (rg_free _ _ _ _ _ _ _ _ _ _ _ _ _ R2) as N2. unfold missing in N2. change (524544 / 1024) with 512 in N2. rewrite Ht1 in N2. replace (524544 + (n - 524545)) with (n - 1) in N2 by lia.
  (* data and the memory above it *)
  assert (u32 (234881024 - v2p kdata) = 2382364672 - 4096 * n) as -> by (rewrite Ekd, u32_small by lia; lia). rewrite Ekd. replace kdata with (4096 * n) by lia.
  assert (missing T2 n (581631 - n) <= 567 - (n - 1) / 1024) as Hm3.
  { unfold missing. destruct (decide (n / 1024 = (n - 1) / 1024)) as [Eq|Hne]; [rewrite Eq, Ht2; lia | destruct (T2 !! (n / 1024)); lia]. }
  destruct (mappages_range m2 L2 d T2 V2 (4096 * n) (2382364672 - 4096 * n) (4096 * n - 2147483648) 2) as (m3 & L3 & T3 & V3 & E3 & R3); try done; try (unfold KERNBASE; lia).
  { apply R2. }
  { intros i Hi. rewrite (rg_old _ _ _ _ _ _ _ _ _ _ _ _ _ R2), (rg_old _ _ _ _ _ _ _ _ _ _ _ _ _ R1) by lia. apply lookup_empty. }
  { replace (4096 * n / 4096) with n by lia. replace ((2382364672 - 4096 * n) / 4096 - 1) with (581631 - n) by lia. lia. }
  rewrite E3, rbind_ok. cbn [Z.ltb Z.compare]. clear E3. replace (4096 * n / 4096) with n in R3 by lia. replace ((2382364672 - 4096 * n) / 4096 - 1) with (581631 - n) in R3 by lia.
  pose proof (rg_tab _ _ _ _ _ _ _ _ _ _ _ _ _ R3) as (_ & T3o & _). replace (n + (581631 - n)) with 581631 in T3o by lia.
  pose proof (rg_free _ _ _ _ _ _ _ _ _ _ _ _ _ R3) as N3.
  (* devices *)
  change (u32 (0 - 4227858432)) with 67108864.
  destruct (mappages_range m3 L3 d T3 V3 4227858432 67108864 4227858432 2) as (m4 & L4 & T4 & V4 & E4 & R4); try done; try (unfold KERNBASE; lia).
  { apply R3. }
  { intros i Hi. rewrite (rg_old _ _ _ _ _ _ _ _ _ _ _ _ _ R3), (rg_old _ _ _ _ _ _ _ _ _ _ _ _ _ R2), (rg_old _ _ _ _ _ _ _ _ _ _ _ _ _ R1) by lia. apply lookup_empty. }
  { change (4227858432 / 4096) with 1032192. change (67108864 / 4096 - 1) with 16383. unfold missing. destruct (T3 !! (1032192 / 1024)); lia. }
  rewrite E4, rbind_ok. cbn [Z.ltb Z.compare]. clear E4. change (4227858432 / 4096) with 1032192 in R4. change (67108864 / 4096 - 1) with 16383 in R4.
  pose proof (rg_tab _ _ _ _ _ _ _ _ _ _ _ _ _ R4) as (_ & T4o & _). pose proof (rg_free _ _ _ _ _ _ _ _ _ _ _ _ _ R4) as N4. unfold missing in N4.
  exists m4, d, L4, T4, V4. split; [reflexivity|]. destruct (vm_page kend _ _ _ _ _ d H0 (own_dir d ∅ ∅)) as [Hd%page_bounds _]. split; [lia|].
  assert (zlen L3 - zlen L4 <= 16) as N4' by (destruct (T3 !! (1032192 / 1024)); lia).
  apply (set_up_ranges m m0 m1 m2 m3 m4 L0 L1 L2 L3 L4 d T1 T2 T3 T4 V1 V2 V3 V4 n); try done; lia.
Qed.
End Kernel.
