(* ===== verification/VmCopy.v ===== *)
(** The user part of an address space: [allocuvm], [deallocuvm], [freevm],
    [copyuvm], [copyout]. *)
From stdpp Require Import gmap.
From S2P Require Import Prelude Ulib Vm VmSpace VmKernel.

#[local] Ltac Zify.zify_post_hook ::= Z.to_euclidean_division_equations.

(** Pages that hold [sz] bytes. *)
Definition up (sz : Z) : Z := (sz + 4095) / 4096.

(** The tables of user memory have no gap. *)
Definition prefix (T : gmap Z Z) : Prop := forall i j, 0 <= i <= j -> j < 512 -> T !! i = None -> T !! j = None.

Section User.
Context (kend : Z).
Notation page_ok := (page_ok kend).
Notation mem_ok := (mem_ok kend).
Notation vm_ok := (vm_ok kend).

(** The address space of a process of [sz] bytes. *)
Record uspace (m : mem) (L : list Z) (d : Z) (T V : gmap Z Z) (sz : Z) : Prop := {
  us_vm : vm_ok m L d T V;
  us_pages : forall n, 0 <= n < 524288 -> is_Some (V !! n) <-> 4096 * n < sz;
  us_prefix : prefix T;
  us_sz : 0 <= sz <= KERNBASE;
}.

Lemma page_of_entry p perm : page_ok p -> 0 <= perm < 4096 -> page_of (entry (v2p p) perm) = p.
Proof. intros Hp Hperm. destruct (v2p_p2v _ _ Hp) as (V1 & V2 & V3 & _). unfold page_of. destruct (entry_ok (v2p p) perm V1 V2 Hperm) as (_ & -> & _). done. Qed.

(** [mappages] of one page of user memory. *)
Lemma mappages_user m L d T V n p :
  vm_ok m L d T V -> 0 <= n < 524288 -> V !! n = None -> page_ok p -> p ∉ own d T V ++ L ->
  (T !! (n / 1024) = None /\ L = [] /\ mappages m d (4096 * n) PGSIZE (v2p p) (Z.lor PTE_W PTE_U) = Ok (m, -1)) \/
  exists m' L' T', mapped kend m m' L L' d T T' V n (entry (v2p p) 6) /\ mappages m d (4096 * n) PGSIZE (v2p p) (Z.lor PTE_W PTE_U) = Ok (m', 0).
Proof.
  intros H Hn HV Hp Hnin. destruct (v2p_p2v _ _ Hp) as (V1 & V2 & V3 & _). change (Z.lor PTE_W PTE_U) with 6. unfold mappages, PGSIZE.
  rewrite (u32_small (4096 * n + 4096 - 1)) by lia. rewrite !PGROUNDDOWN_eq by lia. replace (4096 * n - (4096 * n) mod 4096) with (4096 * n) by lia.
  replace (4096 * n + 4096 - 1 - (4096 * n + 4096 - 1) mod 4096 - 4096 * n) with 0 by lia. change (Z.to_nat (u32 0 / 4096)) with 0%nat.
  destruct (map_step kend m L d T V n (v2p p) 6 0) as [?|(m' & L' & T' & M & E)]; try done; try lia; [by rewrite V3 | by left | right; by exists m', L', T'].
Qed.

(** ** [allocuvm] *)

Record grown (m m' : mem) (L L' : list Z) (d : Z) (T T' V V' : gmap Z Z) (n k : Z) : Prop := {
  g_old : forall j, ~ (n <= j < n + k) -> V' !! j = V !! j;
  g_new : forall j, n <= j < n + k -> exists p, p ∈ L /\ V' !! j = Some (entry (v2p p) 6) /\ forall x, in_page p x -> mbytes m' x = 0;
  g_perm : own d T' V' ++ L' ≡ₚ own d T V ++ L;
  g_frame : forall x, (forall p, p ∈ d :: values T ++ L -> ~ in_page p x) -> mbytes m' x = mbytes m x;
  g_pages : forall p, p ∈ d :: values T' ++ L' -> p ∈ d :: values T ++ L;
  g_free : zlen L - zlen L' <= 2 * k;
}.

Lemma memset_page m p c : page_ok p -> memset m p c PGSIZE = Ok (mk_mem (fun x => if (p <=? x) && (x <? p + 4096) then c else mbytes m x) (freelist m)).
Proof. intros Hp%page_bounds. unfold memset, PGSIZE. rewrite (proj2 (valid_true p 4096)) by (unfold KERNBASE, PHYSTOP; lia). done. Qed.

Lemma memset_out (b : Z -> Z) p c x : ~ in_page p x -> (if (p <=? x) && (x <? p + 4096) then c else b x) = b x.
Proof. unfold in_page. intros H. destruct (Z.leb_spec p x), (Z.ltb_spec x (p + 4096)); cbn [andb]; (done || lia). Qed.
Lemma memset_in (b : Z -> Z) p c x : in_page p x -> (if (p <=? x) && (x <? p + 4096) then c else b x) = c.
Proof. unfold in_page. intros H. destruct (Z.leb_spec p x), (Z.ltb_spec x (p + 4096)); cbn [andb]; (done || lia). Qed.

(** A free page is taken and filled: the address space does not change. *)
Lemma take_page m p L d T V (b' : Z -> Z) :
  vm_ok m (p :: L) d T V -> (forall x, ~ in_page p x -> b' x = mbytes m x) ->
  exists f, kalloc m = Ok (mk_mem (mbytes m) f, p) /\ vm_ok (mk_mem b' f) L d T V /\ page_ok p /\ p <> 0 /\ p ∉ own d T V ++ L.
Proof.
  intros [Hm Hs Hp Hn] Hb. destruct (kalloc_cons kend m p L Hm) as (f & E & Hm' & Hpp & HpL). exists f. split; [done|].
  assert (p ∉ own d T V) as Hpo by (apply NoDup_app in Hn as (_ & Hn & _); intros Hin; apply (Hn p Hin); by left).
  assert (forall q x, page_ok q -> p <> q -> in_page q x -> b' x = mbytes m x) as Hq.
  { intros q x Hq Hne Hx. apply Hb. intros Hx'. apply Hne. by apply (pages_apart kend p q x). }
  pose proof (page_bounds _ _ Hpp). split; [split|split; [done|split; [lia | rewrite elem_of_app; tauto]]].
  - apply (mem_ok_ext kend (mk_mem (mbytes m) f)); [done|]. intros q x Hin. cbn [mbytes]. pose proof (mo_pages _ _ _ Hm') as F. rewrite Forall_forall in F. apply Hq; [by apply F | intros ->; done].
  - cbn [mbytes]. apply (space_ext (mbytes m)); [done|]. rewrite Forall_forall in Hp. intros q x Hin. apply Hq.
    + apply Hp. unfold own. rewrite elem_of_cons, elem_of_app. tauto.
    + intros ->. apply Hpo. unfold own. rewrite elem_of_cons, elem_of_app. tauto.
  - done.
  - apply NoDup_app in Hn as (N1 & N2 & N3). apply NoDup_app. split; [done|]. split; [|by apply NoDup_cons in N3 as [_ ?]]. intros q Hin Hin'. apply (N2 q Hin). by right.
Qed.

(** A page more. *)
Lemma uspace_map m m' L L' d T T' V n e :
  uspace m L d T V (4096 * n) -> mapped kend m m' L L' d T T' V n e -> 0 <= n < 524288 -> uspace m' L' d T' (<[n := e]> V) (4096 * (n + 1)).
Proof.
  intros [H1 H2 H3 H4] M Hn. split.
  - apply M.
  - intros j Hj. destruct (decide (j = n)) as [->|Hne]; [rewrite lookup_insert_eq; split; [lia | by eexists]|]. rewrite lookup_insert_ne by done. rewrite H2 by done. lia.
  - pose proof (mp_tab _ _ _ _ _ _ _ _ _ _ _ M) as (_ & Ho & [t Ht]). intros i j Hij Hj Hi. assert (i <> n / 1024) as Hne by congruence. rewrite Ho in Hi by done.
    assert (T !! j = None) as Hj' by (by apply (H3 i j)). destruct (decide (j = n / 1024)) as [->|Hne']; [|by rewrite Ho].
    (* the table below is there *)
    exfalso. assert (0 < n) by lia. destruct (H2 (n - 1) ltac:(lia)) as [_ Hs]. destruct (Hs ltac:(lia)) as [v Hv].
    destruct (sp_dom _ _ _ _ (vm_space _ _ _ _ _ _ H1) (n - 1) v Hv) as [_ [u Hu]]. rewrite (H3 i ((n - 1) / 1024)) in Hu by (done || lia). done.
  - unfold KERNBASE in *. lia.
Qed.

Lemma alloc_loop_ok k fuel m L d T V n oldsz newsz :
  uspace m L d T V (4096 * n) -> 0 <= n -> n + Z.of_nat k = up newsz -> newsz < KERNBASE -> 2 * Z.of_nat k <= zlen L -> (k < fuel)%nat ->
  exists m' L' T' V', alloc_loop kend fuel m d (4096 * n) oldsz newsz = Ok (m', newsz) /\ uspace m' L' d T' V' (4096 * (n + Z.of_nat k)) /\
    grown m m' L L' d T T' V V' n (Z.of_nat k).
Proof.
  revert fuel m L T V n. induction k as [|k IH]; intros fuel m L T V n H Hn Hk Hsz HL Hf; (destruct fuel as [|fuel]; [lia|]); cbn [alloc_loop]; unfold up, KERNBASE in *.
  - rewrite (proj2 (Z.leb_le newsz (4096 * n))) by lia. exists m, L, T, V. split; [done|]. replace (n + Z.of_nat 0) with n by lia. split; [done|]. split; try done; intros; lia.
  - rewrite (proj2 (Z.leb_gt newsz (4096 * n))) by lia. destruct L as [|p L]; [cbn in HL; lia|]. pose proof (us_vm _ _ _ _ _ _ H) as Hv.
    set (b := fun x => if (p <=? x) && (x <? p + 4096) then 0 else mbytes m x).
    destruct (take_page m p L d T V b Hv ltac:(intros x Hx; by apply memset_out)) as (f & -> & Hv1 & Hp & Hp0 & Hpn). rewrite rbind_ok, (proj2 (Z.eqb_neq _ _) Hp0).
    rewrite (memset_page _ _ _ Hp), rbind_ok. cbn [mbytes freelist]. fold b. set (m1 := mk_mem b f) in *.
    assert (uspace m1 L d T V (4096 * n)) as H1 by (split; [done | apply H | apply H | apply H]).
    assert (0 <= n < 524288) as Hnu by lia. assert (V !! n = None) as HVn.
    { destruct (V !! n) as [e|] eqn:Ev; [|done]. assert (is_Some (V !! n)) as Hs by (by rewrite Ev). apply (us_pages _ _ _ _ _ _ H) in Hs; lia. }
    destruct (mappages_user m1 L d T V n p Hv1 Hnu HVn Hp Hpn) as [(_ & -> & _)|(m2 & L2 & T2 & M & E)]; [cbn in HL; lia|].
    rewrite E, rbind_ok. unfold PGSIZE. rewrite u32_small by lia. replace (4096 * n + 4096) with (4096 * (n + 1)) by lia.
    pose proof (uspace_map m1 m2 L L2 d T T2 V n _ H1 M Hnu) as H2.
    assert (zlen L - zlen L2 <= 1) as Hl2 by (destruct (mp_free _ _ _ _ _ _ _ _ _ _ _ M) as [[<- _]|(q & -> & _)]; cbn [length]; lia).
    destruct (IH fuel m2 L2 T2 (<[n := entry (v2p p) 6]> V) (n + 1)) as (m' & L' & T' & V' & E' & H' & [G1 G2 G3 G4 G5 G6]); try done; try lia.
    { cbn [length] in HL. lia. }
    exists m', L', T', V'. split; [done|]. split; [by replace (n + Z.of_nat (S k)) with (n + 1 + Z.of_nat k) by lia|].
    assert (forall q, q ∈ d :: values T2 ++ L2 -> q ∈ d :: values T ++ L) as Hq by (intros q; by apply (mapped_pages kend m1 m2 L L2 d T T2 V n (entry (v2p p) 6))).
    assert (forall q, q ∈ d :: values T ++ L -> p <> q /\ page_ok q) as Hpq.
    { intros q Hin. split.
      - intros ->. apply Hpn. unfold own. cbn [app]. rewrite elem_of_cons, !elem_of_app in *. tauto.
      - rewrite elem_of_cons, elem_of_app in Hin. pose proof (vm_pages _ _ _ _ _ _ Hv1) as F1. pose proof (mo_pages _ _ _ (vm_mem _ _ _ _ _ _ Hv1)) as F2. rewrite Forall_forall in F1, F2.
        destruct Hin as [->|[Hin|Hin]]; [apply F1, own_dir | apply F1; right; apply elem_of_app; by left | by apply F2]. }
    assert (forall x, in_page p x -> forall q, q ∈ d :: values T ++ L -> ~ in_page q x) as Hpx.
    { intros x Hx q Hin Hx'. destruct (Hpq q Hin) as [Hne Hqk]. apply Hne. by apply (pages_apart kend p q x). }
    split.
    + intros j Hj. rewrite G1 by lia. apply lookup_insert_ne. lia.
    + intros j Hj. destruct (decide (j = n)) as [->|Hne].
      * exists p. split; [by left|]. rewrite G1, lookup_insert_eq by lia. split; [done|]. intros x Hx. rewrite G4, (mp_frame _ _ _ _ _ _ _ _ _ _ _ M); [unfold m1; cbn [mbytes]; by apply memset_in | |].
        { by apply Hpx. } { intros q Hin. by apply (Hpx x Hx), Hq. }
      * destruct (G2 j ltac:(lia)) as (q & Hqin & Hrest). exists q. split; [|done]. right. destruct (mp_free _ _ _ _ _ _ _ _ _ _ _ M) as [[<- _]|(r & -> & _)]; [done | by right].
    + rewrite G3, (mp_perm _ _ _ _ _ _ _ _ _ _ _ M). rewrite decide_True by (unfold user; lia). rewrite page_of_entry by (done || lia). cbn [app]. by rewrite Permutation_middle.
    + intros x Hx. assert (forall q, q ∈ d :: values T ++ L -> ~ in_page q x) as Hx'.
      { intros q Hin. apply Hx. rewrite elem_of_cons, elem_of_app in *. rewrite elem_of_cons. tauto. }
      rewrite G4, (mp_frame _ _ _ _ _ _ _ _ _ _ _ M x Hx'); [|intros q Hin; by apply Hx', Hq]. unfold m1. cbn [mbytes]. apply memset_out. apply Hx. right. apply elem_of_app. right. by left.
    + intros q Hin. apply G5, Hq in Hin. rewrite elem_of_cons, elem_of_app in *. rewrite elem_of_cons. tauto.
    + cbn [length]. lia.
Qed.

(** ** [deallocuvm] *)

Context (Hkend : KERNBASE < kend).

Lemma own_unmap d T V n e : V !! n = Some e -> user n -> own d T V ≡ₚ page_of e :: own d T (delete n V).
Proof.
  intros H Hu. unfold own, upages. rewrite user_part_delete, fmap_delete. assert ((page_of <$> user_part V) !! n = Some (page_of e)) as E.
  { rewrite lookup_fmap, (proj2 (user_part_lookup V n e)) by done. done. }
  rewrite (values_delete _ n _ E) at 1. rewrite <- Permutation_middle. apply Permutation_swap.
Qed.

Lemma unmap m L d T V n t e :
  vm_ok m L d T V -> 0 <= n < 524288 -> T !! (n / 1024) = Some t -> V !! n = Some e ->
  PTE_ADDR e <> 0 /\ exists m1 m2, kfree kend m (page_of e) = Ok m1 /\ st32 m1 (t + 4 * (n mod 1024)) 0 = Ok m2 /\ vm_ok m2 (page_of e :: L) d T (delete n V) /\
    forall x, ~ in_page (page_of e) x -> ~ in_page t x -> mbytes m2 x = mbytes m x.
Proof.
  intros H Hn Ht He. assert (user n) as Hu by (unfold user; lia). set (p := page_of e).
  destruct (vm_page kend m L d T V p H (own_user d T V n e He Hu)) as [Hp HpL]. destruct (vm_page kend m L d T V t H (own_tab _ _ _ _ _ Ht)) as [Hpt HtL].
  split. { intros E0. pose proof (pg_kend _ _ Hp) as Hk. unfold p, page_of in Hk. rewrite E0 in Hk. change (p2v 0) with KERNBASE in Hk. lia. }
  pose proof (own_parts kend m L d T V H) as (N1 & N2 & N3 & N4 & N5). assert (p ∈ upages V) as HpU.
  { apply elem_values. exists n. by rewrite lookup_fmap, (proj2 (user_part_lookup V n e)). }
  assert (p <> d /\ p ∉ values T) as [Hpd HpT] by (split; [intros ->; done | intros Hin; by apply (N5 p)]).
  destruct H as [Hm Hs Hpg Hnd]. destruct (kfree_ok kend m L p Hm Hp HpL) as (m1 & E1 & Hm1 & F1). exists m1.
  pose proof (page_bounds _ _ Hpt) as Bt. eexists. split; [done|]. rewrite st32_ok by (unfold KERNBASE, PHYSTOP; lia). split; [reflexivity|].
  pose proof Hpg as Hpg'. unfold own in Hpg'. apply Forall_cons in Hpg' as [Hd Hpg']. apply Forall_app in Hpg' as [HT _].
  assert (p <> t) as Hpt' by (intros ->; apply HpT, elem_values; by eexists).
  assert (space (mbytes m1) d T V) as Hs1.
  { apply (space_ext (mbytes m)); [done|]. rewrite Forall_forall in HT. intros q x Hq Hx. apply F1. intros Hx'.
    destruct Hq as [->|Hq]; [apply Hpd; by apply (pages_apart kend p d x) | apply HpT; by rewrite (pages_apart kend p q x Hp (HT q Hq) Hx' Hx)]. }
  assert (forall x, ~ in_page t x -> set_word (mbytes m1) (t + 4 * (n mod 1024)) 0 x = mbytes m1 x) as Hout by (intros x Hx; apply set_word_out; unfold in_page in Hx; lia).
  pose proof (own_unmap d T V n e He Hu) as Ho. fold p in Ho. split.
  - split; cbn [mbytes].
    + apply mem_ok_ext; [done|]. intros q x Hq Hx. apply Hout. intros Hx'. pose proof (mo_pages _ _ _ Hm1) as F. rewrite Forall_forall in F.
      pose proof (pages_apart kend t q x Hpt (F q Hq) Hx' Hx) as <-. apply elem_of_cons in Hq as [?|?]; [congruence | done].
    + pose proof (space_set kend (mbytes m1) d T V n t 0 Hs1) as Hset. apply Hset; try done; try lia; [by constructor | by apply NoDup_cons].
    + rewrite Ho in Hpg. by apply Forall_cons in Hpg as [_ ?].
    + rewrite Ho in Hnd. cbn [app] in Hnd. by rewrite <- Permutation_middle.
  - intros x Hx Hx'. cbn [mbytes]. rewrite Hout by done. by apply F1.
Qed.

(** The pages [n .. N - 1] are unmapped. *)
Record shrunk (m m' : mem) (L L' : list Z) (d : Z) (T V V' : gmap Z Z) (n N : Z) : Prop := {
  sh_ok : vm_ok m' L' d T V';
  sh_map : forall j, V' !! j = if decide (n <= j < N) then None else V !! j;
  sh_perm : own d T V' ++ L' ≡ₚ own d T V ++ L;
  sh_frame : forall x, (forall p, p ∈ values T -> ~ in_page p x) -> (forall j e, n <= j < N -> V !! j = Some e -> ~ in_page (page_of e) x) -> mbytes m' x = mbytes m x;
  sh_len : zlen L <= zlen L';
}.

(** Nothing is mapped above a missing table. *)
Lemma dealloc_none fuel m L d T V n oldsz :
  vm_ok m L d T V -> prefix T -> 0 <= n -> 0 <= oldsz <= KERNBASE -> (n < 524288 -> T !! (n / 1024) = None) -> up oldsz - n < Z.of_nat fuel -> (0 < fuel)%nat ->
  dealloc_loop kend fuel m d (4096 * n) oldsz = Ok m.
Proof.
  intros H HT. revert n. induction fuel as [|fuel IH]; intros n Hn Ho HTn Hf Hf0; [lia|]. unfold up, KERNBASE in *. cbn [dealloc_loop].
  destruct (Z.leb_spec oldsz (4096 * n)); [done|]. rewrite (walk_read kend m L d T V (4096 * n) false H) by (lia || by left). rewrite rbind_ok.
  replace (4096 * n / 4096) with n by lia. unfold entry_addr. rewrite HTn by lia. cbn [Z.eqb]. unfold NPTENTRIES, PGSIZE. rewrite u32_small by lia.
  replace (4096 * n + (1024 - 1) * 4096 + 4096) with (4096 * (n + 1024)) by lia. destruct fuel as [|fuel]; [lia|]. apply IH; try lia.
  intros Hlt. apply (HT (n / 1024)); [lia | lia | apply HTn; lia].
Qed.

Lemma dealloc_loop_ok k fuel m L d T V n oldsz :
  vm_ok m L d T V -> prefix T -> 0 <= n -> 0 <= oldsz <= KERNBASE -> n + Z.of_nat k = Z.max n (up oldsz) -> (k < fuel)%nat ->
  exists m' L' V', dealloc_loop kend fuel m d (4096 * n) oldsz = Ok m' /\ shrunk m m' L L' d T V V' n (up oldsz).
Proof.
  intros H HT. revert fuel m L V n H. induction k as [|k IH]; intros fuel m L V n H Hn Ho Hk Hf.
  - exists m, L, V. split.
    + destruct fuel as [|fuel]; [lia|]. cbn [dealloc_loop]. unfold up in Hk. by rewrite (proj2 (Z.leb_le oldsz (4096 * n))) by lia.
    + split; try done. intros j. destruct (decide _); [lia | done].
  - assert (4096 * n < oldsz /\ n < 524288) as [Hlt Hu] by (unfold up, KERNBASE in *; lia). destruct (T !! (n / 1024)) as [t|] eqn:Et.
    + destruct fuel as [|fuel]; [lia|]. cbn [dealloc_loop]. rewrite (proj2 (Z.leb_gt oldsz (4096 * n))) by lia.
      rewrite (walk_read kend m L d T V (4096 * n) false H) by (lia || by left). rewrite rbind_ok. replace (4096 * n / 4096) with n by lia.
      unfold entry_addr. rewrite Et. destruct (entry_read kend m L d T V n t H ltac:(lia) Et) as (Hne & _ & _ & ->). rewrite (proj2 (Z.eqb_neq _ _) Hne), rbind_ok.
      unfold PGSIZE. rewrite u32_small by (unfold KERNBASE in *; lia). replace (4096 * n + 4096) with (4096 * (n + 1)) by lia.
      pose proof (sp_ent _ _ _ _ (vm_space _ _ _ _ _ _ H) n t ltac:(lia) Et) as Hent. destruct (V !! n) as [e|] eqn:Ev.
      * destruct Hent as (-> & _ & ->). destruct (unmap m L d T V n t e H ltac:(lia) Et Ev) as (He & m1 & m2 & E1 & E2 & H2 & F2). rewrite (proj2 (Z.eqb_neq _ _) He).
        fold (page_of e). rewrite E1, rbind_ok, E2, rbind_ok. destruct (IH fuel m2 (page_of e :: L) (delete n V) (n + 1) H2) as (m' & L' & V' & E & [S1 S2 S3 S4 S5]); try lia.
        exists m', L', V'. split; [done|]. split; try done.
        -- intros j. rewrite S2. destruct (decide (j = n)) as [->|Hjn]; [rewrite !decide_False, lookup_delete_eq, decide_True by lia; done|].
           rewrite lookup_delete_ne by done. destruct (decide (n + 1 <= j < up oldsz)), (decide (n <= j < up oldsz)); (done || lia).
        -- rewrite S3. rewrite (own_unmap d T V n e Ev Hu). cbn [app]. by rewrite Permutation_middle.
        -- intros x X1 X2. rewrite S4, F2; [done | by apply (X2 n); [lia|] | apply X1, elem_values; by eexists | done|].
           intros j e' Hj [_ He']%lookup_delete_Some. apply (X2 j); [lia | done].
        -- cbn [length] in S5. lia.
      * rewrite Hent, rbind_ok. destruct (IH fuel m L V (n + 1) H) as (m' & L' & V' & E & [S1 S2 S3 S4 S5]); try lia. exists m', L', V'. split; [done|]. split; try done.
        -- intros j. rewrite S2. destruct (decide (j = n)) as [->|Hjn]; [rewrite Ev; by destruct (decide _), (decide _)|].
           destruct (decide (n + 1 <= j < up oldsz)), (decide (n <= j < up oldsz)); (done || lia).
        -- intros x X1 X2. apply S4; [done|]. intros j e' Hj. apply X2. lia.
    + exists m, L, V. split; [apply (dealloc_none _ _ L d T V); (done || lia)|]. split; try done. intros j. destruct (decide (n <= j < up oldsz)) as [Hj|]; [|done].
      destruct (V !! j) as [e|] eqn:Ev; [|done]. destruct (sp_dom _ _ _ _ (vm_space _ _ _ _ _ _ H) j e Ev) as [_ [u Hu']]. unfold up, KERNBASE in *.
      rewrite (HT (n / 1024) (j / 1024)) in Hu' by (done || lia). done.
Qed.

Lemma uspace_shrunk m m' L L' d T V V' oldsz newsz :
  uspace m L d T V oldsz -> shrunk m m' L L' d T V V' (up newsz) (up oldsz) -> 0 <= newsz <= oldsz -> uspace m' L' d T V' newsz.
Proof.
  intros [H1 H2 H3 H4] S Hsz. unfold KERNBASE in *. split; [apply S | | done | unfold KERNBASE; lia]. intros n Hn. rewrite (sh_map _ _ _ _ _ _ _ _ _ _ S). unfold up in *.
  destruct (decide _) as [Hd|Hd]; [split; [by intros [? ?] | lia]|]. rewrite H2 by done. lia.
Qed.

Lemma deallocuvm_ok m L d T V oldsz newsz :
  uspace m L d T V oldsz -> 0 <= newsz < oldsz ->
  exists m' L' V', deallocuvm kend m d oldsz newsz = Ok (m', newsz) /\ uspace m' L' d T V' newsz /\ shrunk m m' L L' d T V V' (up newsz) (up oldsz).
Proof.
  intros H Hsz. pose proof (us_sz _ _ _ _ _ _ H) as Hmax. unfold deallocuvm. rewrite (proj2 (Z.leb_gt oldsz newsz)) by lia. rewrite PGROUNDUP_eq by (unfold KERNBASE in *; lia).
  replace ((newsz + 4095) / 4096 * 4096) with (4096 * up newsz) by (unfold up; lia).
  destruct (dealloc_loop_ok (Z.to_nat (up oldsz - up newsz)) (S (Z.to_nat (oldsz / PGSIZE + 1))) m L d T V (up newsz) oldsz) as (m' & L' & V' & E & S);
    [apply H | apply H | unfold up; lia | lia | unfold up; lia | unfold up, PGSIZE; lia|].
  rewrite E, rbind_ok. exists m', L', V'. split; [done|]. split; [|done]. eapply uspace_shrunk; [done | done | lia].
Qed.

Lemma allocuvm_ok m L d T V oldsz newsz :
  uspace m L d T V oldsz -> oldsz <= newsz < KERNBASE -> 2 * (up newsz - up oldsz) <= zlen L ->
  exists m' L' T' V', allocuvm kend m d oldsz newsz = Ok (m', newsz) /\ uspace m' L' d T' V' newsz /\ grown m m' L L' d T T' V V' (up oldsz) (up newsz - up oldsz).
Proof.
  intros H Hsz HL. pose proof (us_sz _ _ _ _ _ _ H) as Hmax. unfold allocuvm. rewrite (proj2 (Z.leb_gt KERNBASE newsz)), (proj2 (Z.ltb_ge newsz oldsz)) by lia.
  rewrite PGROUNDUP_eq by (unfold KERNBASE in *; lia). replace ((oldsz + 4095) / 4096 * 4096) with (4096 * up oldsz) by (unfold up; lia).
  set (k := Z.to_nat (up newsz - up oldsz)). assert (Z.of_nat k = up newsz - up oldsz) as Ek by (unfold k, up; lia).
  destruct (alloc_loop_ok k (S (Z.to_nat (newsz / PGSIZE + 1))) m L d T V (up oldsz) oldsz newsz) as (m' & L' & T' & V' & E & H' & G); try lia.
  - destruct H as [H1 H2 H3 H4]. split; [done | | done | unfold up, KERNBASE in *; lia]. intros n Hn. rewrite H2 by done. unfold up. lia.
  - unfold up; lia.
  - unfold k, up, PGSIZE. lia.
  - exists m', L', T', V'. rewrite Ek in *. split; [done|]. split; [|done]. destruct H' as [H1 H2 H3 H4]. split; [done | | done | unfold KERNBASE in *; lia].
    intros n Hn. rewrite H2 by done. unfold up. lia.
Qed.

(** ** [freevm] *)

Definition from (i : Z) (T : gmap Z Z) : gmap Z Z := filter (fun '(k, _) => i <= k) T.

Lemma from_Some i T t : T !! i = Some t -> values (from i T) ≡ₚ t :: values (from (i + 1) T).
Proof.
  intros H. assert (from i T = <[i := t]> (from (i + 1) T)) as ->.
  - apply map_eq. intros k. apply option_eq. intros v. unfold from. rewrite lookup_insert_Some, !map_lookup_filter_Some. split.
    + intros [Hv Hk]. destruct (decide (k = i)) as [->|]; [left; split; [done | congruence] | right; split; [done|]; split; [done | lia]].
    + intros [[<- <-]|(Hne & Hv & Hk)]; [done | split; [done | lia]].
  - apply values_insert. unfold from. apply map_lookup_filter_None. right. intros x _. lia.
Qed.

Lemma from_None i T : T !! i = None -> from i T = from (i + 1) T.
Proof.
  intros H. apply map_eq. intros k. apply option_eq. intros v. unfold from. rewrite !map_lookup_filter_Some. split; intros [Hv Hk]; (split; [done|]); [|lia].
  destruct (decide (k = i)) as [->|]; [congruence | lia].
Qed.

Lemma free_tables_ok n m L d T i :
  i + Z.of_nat n = 1024 -> 0 <= i -> mem_ok m L -> page_ok d -> Forall page_ok (values T) -> NoDup (values T) -> d ∉ values T ->
  (forall j, i <= j < 1024 -> match T !! j with
     | Some t => present (word (mbytes m) (d + 4 * j)) = true /\ PTE_ADDR (word (mbytes m) (d + 4 * j)) = v2p t
     | None => present (word (mbytes m) (d + 4 * j)) = false end) ->
  (forall j t, T !! j = Some t -> 0 <= j < 1024 /\ (i <= j -> t ∉ L)) ->
  exists m' L', free_tables kend n m d i = Ok m' /\ mem_ok m' L' /\ L' ≡ₚ values (from i T) ++ L /\
    forall x, (forall t, t ∈ values T -> ~ in_page t x) -> mbytes m' x = mbytes m x.
Proof.
  revert m L i. induction n as [|n IH]; intros m L i Hn Hi Hm Hd HT Hnd HdT Hdir HL; cbn [free_tables].
  - exists m, L. split; [done|]. split; [done|]. split; [|done]. replace (from i T) with (∅ : gmap Z Z); [by rewrite values_empty|]. symmetry. apply map_empty. intros k.
    unfold from. apply map_lookup_filter_None. right. intros t Ht. destruct (HL k t Ht). lia.
  - pose proof (page_bounds _ _ Hd) as Bd. rewrite ld32_ok by (unfold KERNBASE, PHYSTOP; lia). rewrite rbind_ok. pose proof (Hdir i ltac:(lia)) as Hdi.
    destruct (T !! i) as [t|] eqn:Et.
    + destruct Hdi as [-> ->]. assert (t ∈ values T) as Htv by (apply elem_values; by eexists). assert (page_ok t) as Hpt by (rewrite Forall_forall in HT; by apply HT).
      destruct (v2p_p2v _ _ Hpt) as (_ & _ & -> & _). destruct (kfree_ok kend m L t Hm Hpt) as (m1 & -> & Hm1 & F1); [by apply (HL i t)|]. rewrite rbind_ok.
      assert (forall x, in_page d x -> mbytes m1 x = mbytes m x) as Hdx.
      { intros x Hx. apply F1. intros Hx'. apply HdT. by rewrite (pages_apart kend d t x). }
      destruct (IH m1 (t :: L) (i + 1)) as (m' & L' & E & Hm' & Hp & F'); try done; try lia.
      * intros j Hj. rewrite (word_ext (mbytes m) (mbytes m1)) by (intros x Hx; apply Hdx; unfold in_page; lia). apply Hdir. lia.
      * intros j u Hu. destruct (HL j u Hu) as [Hjb Hjn]. split; [done|]. intros Hj. rewrite elem_of_cons. intros [->|Hin]; [|apply Hjn; [lia | done]].
        assert (j = i) by (by apply (values_inj T j i t)). lia.
      * exists m', L'. split; [done|]. split; [done|]. split; [rewrite Hp, (from_Some i T t Et); cbn [app]; by rewrite Permutation_middle|].
        intros x Hx. rewrite F' by done. by apply F1, Hx.
    + rewrite Hdi, rbind_ok. destruct (IH m L (i + 1)) as (m' & L' & E & Hm' & Hp & F'); try done; try lia.
      * intros j Hj. apply Hdir. lia.
      * intros j u Hu. destruct (HL j u Hu) as [Hjb Hjn]. split; [done|]. intros Hj. apply Hjn. lia.
      * exists m', L'. rewrite (from_None i T Et). done.
Qed.

Lemma freevm_ok m L d T V :
  vm_ok m L d T V -> prefix T ->
  exists m' L', freevm kend m d = Ok m' /\ mem_ok m' L' /\ L' ≡ₚ own d T V ++ L /\ forall x, (forall p, p ∈ own d T V -> ~ in_page p x) -> mbytes m' x = mbytes m x.
Proof.
  intros H HT. destruct (vm_page kend m L d T V d H (own_dir d T V)) as [Hd _]. pose proof (page_bounds _ _ Hd) as Bd.
  unfold freevm, deallocuvm. rewrite (proj2 (Z.eqb_neq d 0)) by lia. change (KERNBASE <=? 0) with false. cbv iota. change (PGROUNDUP 0) with (4096 * 0).
  destruct (dealloc_loop_ok (Z.to_nat 524288) (S (Z.to_nat (KERNBASE / PGSIZE + 1))) m L d T V 0 KERNBASE) as (m1 & L1 & V1 & E & S);
    [exact H | exact HT | lia | unfold KERNBASE; lia | change (up KERNBASE) with 524288; lia | unfold KERNBASE, PGSIZE; lia|].
  rewrite E, !rbind_ok. clear E. destruct S as [S1 S2 S3 S4 S5]. change (up KERNBASE) with 524288 in *.
  assert (upages V1 = []) as Eu.
  { unfold upages. replace (user_part V1) with (∅ : gmap Z Z); [by rewrite fmap_empty, values_empty|]. symmetry. apply map_empty. intros j. destruct (user_part V1 !! j) as [e|] eqn:Ej; [|done].
    apply user_part_lookup in Ej as [Ej Hj]. unfold user in Hj. destruct (sp_dom _ _ _ _ (vm_space _ _ _ _ _ _ S1) j e Ej) as [? _]. rewrite S2, decide_True in Ej by lia. done. }
  pose proof (own_parts kend m1 L1 d T V1 S1) as (N1 & _ & N3 & _ & _). pose proof (vm_pages _ _ _ _ _ _ S1) as Hpg. unfold own in Hpg. apply Forall_cons in Hpg as [_ Hpg]. apply Forall_app in Hpg as [HTp _].
  destruct (free_tables_ok (Z.to_nat NPDENTRIES) m1 L1 d T 0) as (m2 & L2 & E & Hm2 & P2 & F2);
    [unfold NPDENTRIES; lia | lia | apply S1 | exact Hd | exact HTp | exact N1 | exact N3 | | |].
  - intros j Hj. pose proof (sp_dir _ _ _ _ (vm_space _ _ _ _ _ _ S1) j Hj) as Hdj. destruct (T !! j); [by destruct Hdj as (_ & ? & ?) | done].
  - intros j t Ht. split; [by apply (sp_tab _ _ _ _ (vm_space _ _ _ _ _ _ S1) j t)|]. intros _. by apply (vm_page kend m1 L1 d T V1 t S1 (own_tab _ _ _ _ _ Ht)).
  - rewrite E, rbind_ok. assert (from 0 T = T) as Ef.
    { apply map_eq. intros k. apply option_eq. intros v. unfold from. rewrite map_lookup_filter_Some. split; [tauto|]. intros Hv. split; [done|].
      pose proof (sp_tab _ _ _ _ (vm_space _ _ _ _ _ _ S1) k v Hv). lia. }
    rewrite Ef in P2. unfold own in S3 at 1. rewrite Eu, app_nil_r in S3. cbn [app] in S3. rewrite <- P2 in S3.
    destruct (kfree_ok kend m2 L2 d Hm2 Hd) as (m3 & E3 & Hm3 & F3).
    { pose proof (vm_nodup _ _ _ _ _ _ H) as Hnd. rewrite <- S3 in Hnd. by apply NoDup_cons in Hnd as [? _]. }
    exists m3, (d :: L2). split; [done|]. split; [done|]. split; [done|]. intros x Hx. rewrite F3 by (apply Hx; by left).
    assert (forall t, t ∈ values T -> ~ in_page t x) as Ht by (intros t Ht; apply Hx; right; apply elem_of_app; by left).
    rewrite F2 by done. apply S4; [done|]. intros j e Hj He. apply Hx. apply (own_user d T V j); [done | unfold user; lia].
Qed.
End User.

(** [copyuvm] and [copyout]. *)

#[local] Ltac Zify.zify_post_hook ::= Z.to_euclidean_division_equations.

Section Copy.
Context (kend : Z).
Notation page_ok := (page_ok kend).
Notation mem_ok := (mem_ok kend).
Notation vm_ok := (vm_ok kend).
Notation uspace := (uspace kend).

(** Another address space while the memory changes elsewhere. *)
Lemma vm_other m m' L L' d T V :
  vm_ok m L d T V -> mem_ok m' L' -> (forall p, p ∈ own d T V -> p ∉ L') -> (forall p x, p ∈ own d T V -> in_page p x -> mbytes m' x = mbytes m x) -> vm_ok m' L' d T V.
Proof.
  intros [H1 H2 H3 H4] Hm Hd Hx. split; [done | | done |].
  - apply (space_ext (mbytes m)); [done|]. intros p x Hp. apply Hx. unfold own. rewrite elem_of_cons, elem_of_app. tauto.
  - apply NoDup_app in H4 as (? & _ & _). apply NoDup_app. split; [done|]. split; [done | apply Hm].
Qed.

(** [e'] is a copy of the page of [e], on a page [p] that was free. *)
Definition copied (m m' : mem) (L : list Z) (V V' : gmap Z Z) (j : Z) : Prop :=
  exists p e, p ∈ L /\ V !! j = Some e /\ V' !! j = Some (entry (v2p p) 6) /\ forall o, 0 <= o < 4096 -> mbytes m' (p + o) = mbytes m (page_of e + o).

Record copying (m m' : mem) (L L' : list Z) (VP : gmap Z Z) (d : Z) (T T' V V' : gmap Z Z) (n k : Z) : Prop := {
  cp_old : forall j, ~ (n <= j < n + k) -> V' !! j = V !! j;
  cp_new : forall j, n <= j < n + k -> copied m m' L VP V' j;
  cp_perm : own d T' V' ++ L' ≡ₚ own d T V ++ L;
  cp_frame : forall x, (forall p, p ∈ d :: values T ++ L -> ~ in_page p x) -> mbytes m' x = mbytes m x;
  cp_free : zlen L - zlen L' <= 2 * k;
}.

(** One page: what is copied, and what the step leaves as it was. *)
Record copied1 (m m2 : mem) (p : Z) (L L2 : list Z) (e d : Z) (T T2 V : gmap Z Z) (n : Z) : Prop := {
  c1_len : zlen L - zlen L2 <= 1;
  c1_free : forall q, q ∈ L2 -> q ∈ L;
  c1_pages : forall q, q ∈ d :: values T2 ++ L2 -> q ∈ d :: values T ++ L;
  c1_perm : own d T2 (<[n := entry (v2p p) 6]> V) ++ L2 ≡ₚ own d T V ++ p :: L;
  c1_copy : forall o, 0 <= o < 4096 -> mbytes m2 (p + o) = mbytes m (page_of e + o);
  c1_apart : forall x, in_page p x -> forall q, q ∈ d :: values T ++ L -> ~ in_page q x;
  c1_frame : forall x, (forall q, q ∈ d :: values T ++ p :: L -> ~ in_page q x) -> mbytes m2 x = mbytes m x;
}.

Lemma copy_step fuel m p L dP TP VP d T V n sz :
  uspace m (p :: L) dP TP VP sz -> uspace m (p :: L) d T V (4096 * n) -> (forall q, q ∈ own dP TP VP -> q ∉ own d T V) ->
  4096 * n < sz -> 0 <= n < 524288 -> L <> [] ->
  exists e m2 L2 T2, VP !! n = Some e /\ copy_loop kend (S fuel) m dP d (4096 * n) sz = copy_loop kend fuel m2 dP d (4096 * (n + 1)) sz /\
    uspace m2 L2 dP TP VP sz /\ uspace m2 L2 d T2 (<[n := entry (v2p p) 6]> V) (4096 * (n + 1)) /\
    (forall q, q ∈ own dP TP VP -> q ∉ own d T2 (<[n := entry (v2p p) 6]> V)) /\ copied1 m m2 p L L2 e d T T2 V n /\
    (forall q x, q ∈ own dP TP VP -> in_page q x -> mbytes m2 x = mbytes m x).
Proof.
  intros HP H Hdisj Hlt Hnu HL0.
  pose proof (us_sz _ _ _ _ _ _ _ HP) as Hsz. cbn [copy_loop]. rewrite (proj2 (Z.leb_gt sz (4096 * n))) by lia.
  pose proof (us_vm _ _ _ _ _ _ _ HP) as HvP. pose proof (us_vm _ _ _ _ _ _ _ H) as Hv.
  destruct (proj2 (us_pages _ _ _ _ _ _ _ HP n Hnu) Hlt) as [e He]. destruct (sp_dom _ _ _ _ (vm_space _ _ _ _ _ _ HvP) n e He) as [_ [t Ht]].
  rewrite (walk_read kend m (p :: L) dP TP VP (4096 * n) false HvP) by (lia || by left). rewrite rbind_ok. replace (4096 * n / 4096) with n by lia. unfold entry_addr. rewrite Ht.
  destruct (entry_read kend m (p :: L) dP TP VP n t HvP ltac:(lia) Ht) as (Hne & _ & _ & ->). rewrite (proj2 (Z.eqb_neq _ _) Hne), rbind_ok.
  pose proof (sp_ent _ _ _ _ (vm_space _ _ _ _ _ _ HvP) n t ltac:(lia) Ht) as Hent. rewrite He in Hent. destruct Hent as (-> & _ & ->). cbn [negb]. fold (page_of e).
  assert (user n) as Hu by (unfold user; lia).
  destruct (vm_page kend m _ dP TP VP (page_of e) HvP (own_user dP TP VP n e He Hu)) as [Hpe HpeL].
  set (b := fun x => if (p <=? x) && (x <? p + PGSIZE) then mbytes m (page_of e + (x - p)) else mbytes m x).
  assert (forall x, ~ in_page p x -> b x = mbytes m x) as Hbout by (intros x Hx; unfold b, in_page, PGSIZE in *; destruct (Z.leb_spec p x), (Z.ltb_spec x (p + 4096)); cbn; (done || lia)).
  assert (forall o, 0 <= o < 4096 -> b (p + o) = mbytes m (page_of e + o)) as Hbin.
  { intros o Ho. unfold b, PGSIZE. rewrite (proj2 (Z.leb_le _ _)), (proj2 (Z.ltb_lt _ _)) by lia. cbn [andb]. f_equal. lia. }
  destruct (take_page kend m p L d T V b Hv Hbout) as (f & -> & Hv1 & Hp & Hp0 & Hpn). rewrite rbind_ok, (proj2 (Z.eqb_neq _ _) Hp0).
  pose proof (page_bounds _ _ Hp) as Bp. pose proof (page_bounds _ _ Hpe) as Bpe.
  unfold memmove at 1. rewrite (proj2 (valid_true p PGSIZE)), (proj2 (valid_true (page_of e) PGSIZE)) by (unfold KERNBASE, PHYSTOP, PGSIZE; lia). cbn [andb]. rewrite rbind_ok. cbn [mbytes freelist].
  fold b. set (m1 := mk_mem b f) in *. assert (uspace m1 L d T V (4096 * n)) as H1 by (split; [done | apply H | apply H | apply H]).
  assert (V !! n = None) as HVn.
  { destruct (V !! n) as [v|] eqn:Ev; [|done]. assert (is_Some (V !! n)) as Hs by (by rewrite Ev). apply (us_pages _ _ _ _ _ _ _ H) in Hs; lia. }
  destruct (mappages_user kend m1 L d T V n p Hv1 Hnu HVn Hp Hpn) as [(_ & -> & _)|(m2 & L2 & T2 & M & E)]; [done|].
  rewrite E, rbind_ok. cbn [Z.ltb Z.compare]. unfold PGSIZE. rewrite u32_small by (unfold KERNBASE in *; lia). replace (4096 * n + 4096) with (4096 * (n + 1)) by lia.
  pose proof (uspace_map kend m1 m2 L L2 d T T2 V n _ H1 M Hnu) as H2.
  assert (zlen L - zlen L2 <= 1) as Hl2 by (destruct (mp_free _ _ _ _ _ _ _ _ _ _ _ M) as [[<- _]|(q & -> & _)]; cbn [length]; lia).
  assert (forall q, q ∈ d :: values T2 ++ L2 -> q ∈ d :: values T ++ L) as Hq by (intros q; by apply (mapped_pages kend m1 m2 L L2 d T T2 V n (entry (v2p p) 6))).
  (* pages that may have changed *)
  assert (forall q, q ∈ own dP TP VP -> page_ok q /\ p <> q /\ q ∉ d :: values T ++ L) as HqP.
  { intros q Hin. destruct (vm_page kend m _ dP TP VP q HvP Hin) as [Hqk HqL]. rewrite elem_of_cons in HqL. split; [done|]. split; [intros ->; tauto|].
    specialize (Hdisj q Hin). unfold own in Hdisj. rewrite elem_of_cons, !elem_of_app in *. tauto. }
  assert (forall x, (forall q, q ∈ d :: values T ++ p :: L -> ~ in_page q x) -> mbytes m2 x = mbytes m x) as Hfr.
  { intros x Hx. rewrite (mp_frame _ _ _ _ _ _ _ _ _ _ _ M); [apply Hbout, Hx; right; apply elem_of_app; right; by left|].
    intros q Hin. apply Hx. rewrite elem_of_cons, elem_of_app in *. rewrite elem_of_cons. tauto. }
  assert (forall q, q ∈ d :: values T ++ p :: L -> page_ok q) as Hqk.
  { intros q Hin. rewrite elem_of_cons, elem_of_app, elem_of_cons in Hin. destruct Hin as [->|[Hin|[->|Hin]]]; [by apply (vm_page kend _ _ _ _ _ d Hv (own_dir d T V)) | | done |].
    - apply (vm_page kend _ _ _ _ _ q Hv). right. apply elem_of_app. by left.
    - pose proof (mo_pages _ _ _ (vm_mem _ _ _ _ _ _ Hv1)) as F. rewrite Forall_forall in F. by apply F. }
  assert (forall q x, q ∈ own dP TP VP -> in_page q x -> forall r, r ∈ d :: values T ++ p :: L -> ~ in_page r x) as HPx.
  { intros q x Hin Hx r Hr Hx'. destruct (HqP q Hin) as (K1 & K2 & K3). assert (r = q) as -> by (apply (pages_apart kend r q x); [by apply Hqk | done | done | done]).
    rewrite elem_of_cons, elem_of_app in *. rewrite elem_of_cons in Hr. destruct Hr as [?|[?|[?|?]]]; [tauto | tauto | congruence | tauto]. }
  assert (forall q x, q ∈ own dP TP VP -> in_page q x -> mbytes m2 x = mbytes m x) as Hkeep by (intros q x Hin Hx; apply Hfr; by apply (HPx q x)).
  assert (uspace m2 L2 dP TP VP sz) as HP2.
  { split; [|apply HP|apply HP|apply HP]. apply (vm_other m m2 (p :: L) L2); [done | apply (mp_ok _ _ _ _ _ _ _ _ _ _ _ M) | | done].
    intros q Hin Hin'. apply (HqP q Hin). apply Hq. right. apply elem_of_app. by right. }
  assert (forall q, q ∈ own dP TP VP -> q ∉ own d T2 (<[n := entry (v2p p) 6]> V)) as Hdisj2.
  { intros q Hin Hin'. destruct (HqP q Hin) as (K1 & K2 & K3). assert (q ∈ own d T2 (<[n := entry (v2p p) 6]> V) ++ L2) as Hin2 by (apply elem_of_app; by left).
    rewrite (mp_perm _ _ _ _ _ _ _ _ _ _ _ M), decide_True, (page_of_entry kend p 6) in Hin2 by (done || lia). cbn [app] in Hin2.
    rewrite elem_of_cons, elem_of_app in Hin2. destruct Hin2 as [?|[?|?]]; [congruence | by apply (Hdisj q) | apply K3; right; apply elem_of_app; by right]. }
  assert (forall x, in_page p x -> forall q, q ∈ d :: values T ++ L -> ~ in_page q x) as Hpx.
  { intros x Hx q Hin Hx'. assert (p = q) as -> by (apply (pages_apart kend p q x); [done | apply Hqk; rewrite elem_of_cons, elem_of_app in *; rewrite elem_of_cons; tauto | done | done]).
    apply Hpn. unfold own. cbn [app]. rewrite elem_of_cons, !elem_of_app in *. tauto. }
  exists e, m2, L2, T2. split; [done|]. split; [done|]. split; [done|]. split; [done|]. split; [done|]. split; [|done]. split; try done.
  - destruct (mp_free _ _ _ _ _ _ _ _ _ _ _ M) as [[<- _]|(r & -> & _)]; [done | intros q Hin; by right].
  - rewrite (mp_perm _ _ _ _ _ _ _ _ _ _ _ M). rewrite decide_True, (page_of_entry kend p 6) by (done || lia). cbn [app]. by rewrite Permutation_middle.
  - intros o Ho. rewrite (mp_frame _ _ _ _ _ _ _ _ _ _ _ M); [by apply Hbin|]. apply Hpx. unfold in_page. lia.
Qed.

Lemma copy_loop_ok k fuel m L dP TP VP d T V n sz :
  uspace m L dP TP VP sz -> uspace m L d T V (4096 * n) -> (forall p, p ∈ own dP TP VP -> p ∉ own d T V) ->
  0 <= n -> n + Z.of_nat k = up sz -> 2 * Z.of_nat k <= zlen L -> (k < fuel)%nat ->
  exists m' L' T' V', copy_loop kend fuel m dP d (4096 * n) sz = Ok (m', d) /\ uspace m' L' d T' V' (4096 * (n + Z.of_nat k)) /\ copying m m' L L' VP d T T' V V' n (Z.of_nat k).
Proof.
  revert fuel m L T V n. induction k as [|k IH]; intros fuel m L T V n HP H Hdisj Hn Hk HL Hf; (destruct fuel as [|fuel]; [lia|]); cbn [copy_loop].
  - unfold up in Hk. rewrite (proj2 (Z.leb_le sz (4096 * n))) by lia. exists m, L, T, V. split; [done|]. replace (n + Z.of_nat 0) with n by lia. split; [done|]. split; try done; intros; lia.
  - pose proof (us_sz _ _ _ _ _ _ _ HP) as Hsz. assert (4096 * n < sz /\ 0 <= n < 524288) as [Hlt Hnu] by (unfold up, KERNBASE in *; lia).
    destruct L as [|p L]; [cbn in HL; lia|]. assert (L <> []) as HL0 by (intros ->; cbn in HL; lia).
    destruct (copy_step fuel m p L dP TP VP d T V n sz HP H Hdisj Hlt Hnu HL0) as (e & m2 & L2 & T2 & He & Estep & HP2 & H2 & Hdisj2 & [Hl2 Hfree Hq Hperm Hcopy Hpx Hfr] & Hkeep).
    cbn [copy_loop] in Estep |- *. rewrite Estep. clear Estep.
    destruct (IH fuel m2 L2 T2 (<[n := entry (v2p p) 6]> V) (n + 1) HP2 H2 Hdisj2) as (m' & L' & T' & V' & E' & H' & [G1 G2 G3 G4 G5]); try lia.
    { cbn [length] in HL. lia. }
    exists m', L', T', V'. split; [done|]. split; [by replace (n + Z.of_nat (S k)) with (n + 1 + Z.of_nat k) by lia|].
    split.
    + intros j Hj. rewrite G1 by lia. apply lookup_insert_ne. lia.
    + intros j Hj. destruct (decide (j = n)) as [->|Hjn].
      * exists p, e. split; [by left|]. split; [done|]. rewrite G1, lookup_insert_eq by lia. split; [done|]. intros o Ho. assert (in_page p (p + o)) as Hpo by (unfold in_page; lia).
        rewrite G4; [by apply Hcopy | intros q Hin; by apply (Hpx _ Hpo), Hq].
      * destruct (G2 j ltac:(lia)) as (q & v & Hqin & Hv' & Hq' & Hc). exists q, v. split; [right; by apply Hfree|].
        split; [done|]. split; [done|]. intros o Ho. rewrite Hc by done. apply (Hkeep (page_of v)); [|unfold in_page; lia]. apply (own_user dP TP VP j); [done|]. unfold user, up, KERNBASE in *. lia.
    + by rewrite G3.
    + intros x Hx. rewrite G4, Hfr; [done | done|]. intros q Hin. apply Hx. apply Hq in Hin. rewrite elem_of_cons, elem_of_app in *. rewrite elem_of_cons. tauto.
    + cbn [length]. lia.
Qed.

(** ** [copyuvm] *)

Section Fork.
Context (kdata : Z) (Hdata : KERNLINK < kdata < KERNBASE + PHYSTOP) (Hdata_al : kdata mod 4096 = 0).

Lemma copyuvm_ok m L dP TP VP sz :
  uspace m L dP TP VP sz -> 73 + 2 * up sz <= zlen L ->
  exists m' d L' T V, copyuvm kend kdata m dP sz = Ok (m', d) /\ d <> 0 /\ uspace m' L' d T V sz /\ uspace m' L' dP TP VP sz /\
    (forall p, p ∈ own dP TP VP -> p ∉ own d T V) /\ own d T V ++ L' ≡ₚ L /\ kernel_maps V /\
    (forall j, 0 <= j < up sz -> copied m m' L VP V j) /\
    forall x, (forall p, p ∈ L -> ~ in_page p x) -> mbytes m' x = mbytes m x.
Proof using Hdata Hdata_al.
  intros HP HL. pose proof (us_vm _ _ _ _ _ _ _ HP) as HvP. pose proof (us_sz _ _ _ _ _ _ _ HP) as Hsz. assert (0 <= up sz <= 524288) as Hup by (unfold up, KERNBASE in *; lia).
  destruct (setupkvm_ok kend kdata Hdata Hdata_al m L (vm_mem _ _ _ _ _ _ HvP) ltac:(lia)) as (m1 & d & L1 & T1 & V1 & E & Hd0 & [S1 S2 S3 S4 S5 S6 S7]).
  unfold copyuvm. rewrite E, rbind_ok, (proj2 (Z.eqb_neq _ _) Hd0). clear E.
  assert (forall p, p ∈ own dP TP VP -> p ∉ own d T1 V1 ++ L1) as Hd1.
  { intros p Hp Hin. rewrite S6 in Hin. by apply (vm_page kend _ _ _ _ _ p HvP Hp). }
  assert (forall p x, p ∈ own dP TP VP -> in_page p x -> forall q, q ∈ L -> ~ in_page q x) as Hpx.
  { intros p x Hp Hx q Hq Hx'. destruct (vm_page kend _ _ _ _ _ p HvP Hp) as [Hpk HpL]. pose proof (mo_pages _ _ _ (vm_mem _ _ _ _ _ _ HvP)) as F. rewrite Forall_forall in F.
    apply HpL. by rewrite (pages_apart kend p q x Hpk (F q Hq) Hx Hx'). }
  assert (uspace m1 L1 dP TP VP sz) as HP1.
  { split; [|apply HP|apply HP|apply HP]. apply (vm_other m m1 L L1); [done | apply S1 | intros p Hp Hin; apply (Hd1 p Hp), elem_of_app; by right|].
    intros p x Hp Hx. apply S7. by apply (Hpx p x). }
  assert (uspace m1 L1 d T1 V1 (4096 * 0)) as H1.
  { split; [done | | |unfold KERNBASE; lia].
    - intros n Hn. rewrite S2 by done. split; [by intros [? ?] | lia].
    - intros i j Hij Hj _. apply S3. lia. }
  change 0 with (4096 * 0) at 1. set (k := Z.to_nat (up sz)). assert (Z.of_nat k = up sz) as Ek by lia.
  destruct (copy_loop_ok k (S (Z.to_nat (sz / PGSIZE + 1))) m1 L1 dP TP VP d T1 V1 0 sz HP1 H1) as (m' & L' & T' & V' & E & H' & [G1 G2 G3 G4 G5]); try lia.
  { intros p Hp Hin. apply (Hd1 p Hp), elem_of_app. by left. }
  { unfold k, up, PGSIZE. lia. }
  rewrite E. rewrite Ek in *. exists m', d, L', T', V'. split; [done|]. split; [done|].
  assert (own d T' V' ++ L' ≡ₚ L) as P' by (by rewrite G3).
  assert (forall q, q ∈ d :: values T1 ++ L1 -> q ∈ L) as Hq1.
  { intros q Hin. rewrite <- S6. unfold own. cbn [app]. rewrite elem_of_cons, !elem_of_app in *. tauto. }
  assert (forall x, (forall p, p ∈ L -> ~ in_page p x) -> mbytes m' x = mbytes m x) as Hfr.
  { intros x Hx. rewrite G4, S7; [done | done|]. intros q Hin. by apply Hx, Hq1. }
  assert (forall p, p ∈ own dP TP VP -> p ∉ own d T' V' ++ L') as Hd'.
  { intros p Hp Hin. rewrite P' in Hin. by apply (vm_page kend _ _ _ _ _ p HvP Hp). }
  split.
  { destruct H' as [A1 A2 A3 A4]. split; [done | | done | done]. intros n Hn. rewrite A2 by done. unfold up. lia. }
  split.
  { split; [|apply HP|apply HP|apply HP]. apply (vm_other m m' L L'); [done | apply H' | intros p Hp Hin; apply (Hd' p Hp), elem_of_app; by right|].
    intros p x Hp Hx. apply Hfr. by apply (Hpx p x). }
  split; [intros p Hp Hin; apply (Hd' p Hp), elem_of_app; by left|]. split; [done|]. split.
  { destruct S4 as [K1 K2]. split.
    - intros i Hi. destruct (K1 i Hi) as (perm & Ei & Hperm). exists perm. split; [|done]. rewrite G1 by lia. done.
    - intros i Hi. rewrite G1 by lia. by apply K2. }
  split; [|done]. intros j Hj. destruct (G2 j ltac:(lia)) as (p & e & Hin & He & Hn & Hc). exists p, e. split; [rewrite <- S6; apply elem_of_app; by right|]. split; [done|]. split; [done|].
  intros o Ho. rewrite Hc by done. assert (user j) as Hu by (unfold user; lia). apply S7. apply (Hpx (page_of e)); [by apply (own_user dP TP VP j) | unfold in_page; lia].
Qed.

End Fork.

(** ** [copyout] *)

(** The byte at the address [a] of user memory. *)
Definition uaddr (V : gmap Z Z) (a : Z) : option Z := (fun e => page_of e + a mod 4096) <$> V !! (a / 4096).
Definition accessible (V : gmap Z Z) (a : Z) : Prop := exists e, V !! (a / 4096) = Some e /\ Z.land e PTE_U <> 0.

Lemma uva2ka_ok m L d T V n e :
  vm_ok m L d T V -> 0 <= n < 524288 -> V !! n = Some e -> Z.land e PTE_U <> 0 -> uva2ka m d (4096 * n) = Ok (page_of e).
Proof.
  intros H Hn He Hu. destruct (sp_dom _ _ _ _ (vm_space _ _ _ _ _ _ H) n e He) as [_ [t Ht]]. unfold uva2ka.
  rewrite (walk_read kend m L d T V (4096 * n) false H) by (lia || by left). rewrite rbind_ok. replace (4096 * n / 4096) with n by lia. unfold entry_addr. rewrite Ht.
  destruct (entry_read kend m L d T V n t H ltac:(lia) Ht) as (Hne & _ & _ & ->). rewrite (proj2 (Z.eqb_neq _ _) Hne), rbind_ok.
  pose proof (sp_ent _ _ _ _ (vm_space _ _ _ _ _ _ H) n t ltac:(lia) Ht) as Hent. rewrite He in Hent. destruct Hent as (-> & _ & ->). cbn [negb]. by rewrite (proj2 (Z.eqb_neq _ _) Hu).
Qed.

(** Writing inside a page of user memory. *)
Lemma write_user m L d T V n e o s :
  vm_ok m L d T V -> 0 <= n < 524288 -> V !! n = Some e -> 0 <= o -> o + zlen s <= 4096 ->
  exists m', copy_in m (page_of e + o) s = Ok m' /\ vm_ok m' L d T V /\
    forall x, mbytes m' x = if decide (page_of e + o <= x < page_of e + o + zlen s) then nth (Z.to_nat (x - (page_of e + o))) s 0 else mbytes m x.
Proof.
  intros H Hn He Ho Hs. assert (user n) as Hu by (unfold user; lia). set (p := page_of e). destruct (vm_page kend m L d T V p H (own_user d T V n e He Hu)) as [Hp HpL].
  pose proof (page_bounds _ _ Hp) as Bp. unfold copy_in. rewrite (proj2 (valid_true (p + o) (zlen s))) by (unfold KERNBASE, PHYSTOP; lia). eexists. split; [reflexivity|]. cbn [mbytes].
  assert (forall x, (if (p + o <=? x) && (x <? p + o + zlen s) then nth (Z.to_nat (x - (p + o))) s 0 else mbytes m x) =
    if decide (p + o <= x < p + o + zlen s) then nth (Z.to_nat (x - (p + o))) s 0 else mbytes m x) as Heq.
  { intros x. destruct (decide _), (Z.leb_spec (p + o) x), (Z.ltb_spec x (p + o + zlen s)); cbn [andb]; (done || lia). }
  split; [|exact Heq]. pose proof (own_parts kend m L d T V H) as (_ & _ & N3 & N4 & N5).
  assert (p ∈ upages V) as HpU by (apply elem_values; exists n; by rewrite lookup_fmap, (proj2 (user_part_lookup V n e))).
  assert (forall q x, page_ok q -> p <> q -> in_page q x -> ~ (p + o <= x < p + o + zlen s)) as Hout.
  { intros q x Hq Hne Hx Hr. apply Hne. apply (pages_apart kend p q x); [done | done | unfold in_page; lia | done]. }
  pose proof (vm_pages _ _ _ _ _ _ H) as Hpg. rewrite Forall_forall in Hpg. apply (vm_frame kend m); [done | |].
  - apply mem_ok_ext; [apply H|]. intros q x Hq Hx. rewrite Heq, decide_False; [done|]. pose proof (mo_pages _ _ _ (vm_mem _ _ _ _ _ _ H)) as F. rewrite Forall_forall in F.
    apply (Hout q x); [by apply F | intros ->; done | done].
  - intros q x Hq Hx. cbn [mbytes]. rewrite Heq, decide_False; [done|]. apply (Hout q x); [| |done].
    + apply Hpg. unfold own. rewrite elem_of_cons, elem_of_app. tauto.
    + intros ->. destruct Hq as [->|Hq]; [done | by apply (N5 q)].
Qed.

Lemma uaddr_inj m L d T V a1 a2 x :
  vm_ok m L d T V -> 0 <= a1 < KERNBASE -> 0 <= a2 < KERNBASE -> uaddr V a1 = Some x -> uaddr V a2 = Some x -> a1 = a2.
Proof.
  intros H H1 H2 U1 U2. unfold KERNBASE in *. unfold uaddr in *. destruct (V !! (a1 / 4096)) as [e1|] eqn:E1; [|done]. destruct (V !! (a2 / 4096)) as [e2|] eqn:E2; [|done].
  cbn in U1, U2. injection U1 as U1. injection U2 as U2. assert (user (a1 / 4096) /\ user (a2 / 4096)) as [Hu1 Hu2] by (unfold user; lia).
  destruct (vm_page kend _ _ _ _ _ _ H (own_user d T V _ _ E1 Hu1)) as [P1 _]. destruct (vm_page kend _ _ _ _ _ _ H (own_user d T V _ _ E2 Hu2)) as [P2 _].
  assert (page_of e1 = page_of e2) as Ep by (apply (pages_apart kend _ _ x P1 P2); unfold in_page; lia).
  assert (a1 / 4096 = a2 / 4096) as En.
  { apply (values_inj (page_of <$> user_part V) _ _ (page_of e1)); [by apply (own_parts kend m L d T V H)| |]; rewrite lookup_fmap.
    - by rewrite (proj2 (user_part_lookup V _ e1)).
    - rewrite (proj2 (user_part_lookup V _ e2)) by done. by rewrite Ep. }
  lia.
Qed.

Lemma copyout_loop_ok fuel m L d T V va s :
  vm_ok m L d T V -> 0 <= va -> va + zlen s <= KERNBASE -> (forall i, 0 <= i < zlen s -> accessible V (va + i)) -> (length s < fuel)%nat ->
  exists m', copyout_loop fuel m d va s = Ok (m', 0) /\ vm_ok m' L d T V /\
    (forall i x, 0 <= i < zlen s -> uaddr V (va + i) = Some x -> mbytes m' x = nth (Z.to_nat i) s 0) /\
    (forall x, (forall i, 0 <= i < zlen s -> uaddr V (va + i) <> Some x) -> mbytes m' x = mbytes m x).
Proof.
  revert m va s. induction fuel as [|fuel IH]; intros m va s H Hva Htop Hacc Hf; [lia|]. cbn [copyout_loop]. destruct (Z.leb_spec (zlen s) 0) as [Hz|Hz].
  { exists m. split; [done|]. split; [done|]. split; [intros; lia | done]. }
  unfold KERNBASE in Htop. rewrite PGROUNDDOWN_eq by lia. replace (va - va mod 4096) with (4096 * (va / 4096)) by lia. set (n := va / 4096). assert (0 <= n < 524288) as Hn by lia.
  destruct (Hacc 0 ltac:(lia)) as (e & He & Hu). rewrite Z.add_0_r in He. fold n in He. rewrite (uva2ka_ok m L d T V n e H Hn He Hu), rbind_ok.
  assert (user n) as Hun by (unfold user; lia). destruct (vm_page kend _ _ _ _ _ _ H (own_user d T V _ _ He Hun)) as [Hp%page_bounds _].
  rewrite (proj2 (Z.eqb_neq (page_of e) 0)) by lia. replace (va - 4096 * n) with (va mod 4096) by lia. unfold PGSIZE. set (c := Z.min (4096 - va mod 4096) (zlen s)).
  assert (zlen (take (Z.to_nat c) s) = c) as Hc by (rewrite length_take; lia). assert (zlen (drop (Z.to_nat c) s) = zlen s - c) as Hc' by (rewrite length_drop; lia).
  destruct (write_user m L d T V n e (va mod 4096) (take (Z.to_nat c) s) H Hn He) as (m1 & -> & H1 & W); [lia | lia|]. rewrite rbind_ok, Hc in *. rewrite u32_small by lia.
  assert (c = zlen s \/ va + c = 4096 * n + 4096) as Hcases by lia.
  assert (forall j, 0 <= j < zlen s - c -> va + (c + j) = 4096 * n + 4096 + j) as Hnext by (intros j Hj; lia).
  destruct (IH m1 (4096 * n + 4096) (drop (Z.to_nat c) s) H1) as (m' & E & H' & R1 & R2).
  { lia. } { rewrite Hc'. unfold KERNBASE. destruct Hcases; lia. }
  { intros i Hi. rewrite Hc' in Hi. rewrite <- Hnext by lia. apply Hacc. lia. } { rewrite length_drop. lia. }
  exists m'. split; [done|]. split; [done|]. rewrite Hc' in R1, R2.
  assert (forall i, 0 <= i < c -> uaddr V (va + i) = Some (page_of e + (va mod 4096 + i))) as Hfirst.
  { intros i Hi. unfold uaddr. replace ((va + i) / 4096) with n by lia. rewrite He. cbn. f_equal. lia. }
  split.
  - intros i x Hi Hx. destruct (Z.lt_ge_cases i c) as [Hlt|Hge].
    + rewrite R2.
      * rewrite Hfirst in Hx by lia. injection Hx as <-. rewrite W, decide_True by lia. rewrite List.nth_firstn, (proj2 (Nat.ltb_lt _ _)) by lia. f_equal. lia.
      * intros j Hj Hx'. rewrite <- Hnext in Hx' by lia. assert (va + i = va + (c + j)) by (apply (uaddr_inj m L d T V _ _ x H); unfold KERNBASE; (done || lia)). lia.
    + rewrite (R1 (i - c) x); [|lia | rewrite <- Hnext by lia; by replace (c + (i - c)) with i by lia]. rewrite List.nth_skipn. f_equal. lia.
  - intros x Hx. rewrite R2.
    + rewrite W, decide_False; [done|]. intros Hr. apply (Hx (x - (page_of e + va mod 4096))); [lia|]. rewrite Hfirst by lia. f_equal. lia.
    + intros j Hj. rewrite <- Hnext by lia. apply Hx. lia.
Qed.

(** An address that the process may not use stops the copy. *)
Lemma copyout_refused m L d T V va s e :
  vm_ok m L d T V -> 0 <= va < KERNBASE -> s <> [] -> V !! (va / 4096) = Some e -> Z.land e PTE_U = 0 -> copyout m d va s = Ok (m, -1).
Proof.
  intros H Hva Hs He Hu. unfold copyout. cbn [copyout_loop]. destruct s as [|c s]; [done|]. rewrite (proj2 (Z.leb_gt (zlen (c :: s)) 0)) by (cbn [length]; lia).
  unfold KERNBASE in Hva. rewrite PGROUNDDOWN_eq by lia. replace (va - va mod 4096) with (4096 * (va / 4096)) by lia. set (n := va / 4096) in *. assert (0 <= n < 524288) as Hn by lia.
  destruct (sp_dom _ _ _ _ (vm_space _ _ _ _ _ _ H) n e He) as [_ [t Ht]]. unfold uva2ka.
  rewrite (walk_read kend m L d T V (4096 * n) false H) by (lia || by left). rewrite rbind_ok. replace (4096 * n / 4096) with n by lia. unfold entry_addr. rewrite Ht.
  destruct (entry_read kend m L d T V n t H ltac:(lia) Ht) as (Hne & _ & _ & ->). rewrite (proj2 (Z.eqb_neq _ _) Hne), rbind_ok.
  pose proof (sp_ent _ _ _ _ (vm_space _ _ _ _ _ _ H) n t ltac:(lia) Ht) as Hent. rewrite He in Hent. destruct Hent as (-> & _ & ->). cbn [negb]. rewrite Hu. done.
Qed.
End Copy.
