(* ===== verification/VmProps.v ===== *)
(** Properties of kalloc.c and vm.c: the pages of memory are conserved, address
    spaces do not share them, growing, shrinking and copying do what they say. *)
From stdpp Require Import gmap.
From S2P Require Import Prelude Ulib UmallocProps Vm VmSpace VmKernel VmCopy.

#[local] Ltac Zify.zify_post_hook ::= Z.to_euclidean_division_equations.

(** * [freerange] *)

Definition page_range (p : Z) (n : nat) : list Z := (fun i => p + 4096 * Z.of_nat i) <$> seq 0 n.

Lemma page_range_S p n : page_range p (S n) = p :: page_range (p + 4096) n.
Proof.
  unfold page_range. cbn [seq fmap list_fmap]. f_equal; [lia|]. rewrite <- seq_shift. rewrite <- list_fmap_compose. apply list_fmap_ext. intros i x _. cbn. lia.
Qed.

Section Free.
Context (kend : Z).

Lemma freerange_loop_ok n m L p :
  mem_ok kend m L -> Forall (page_ok kend) (page_range p n) -> NoDup (page_range p n ++ L) ->
  exists m', freerange_loop kend n m p = Ok m' /\ mem_ok kend m' (reverse (page_range p n) ++ L).
Proof.
  revert m L p. induction n as [|n IH]; intros m L p Hm Hp Hn; [by exists m|]. cbn [freerange_loop]. rewrite page_range_S in *. apply Forall_cons in Hp as [Hp0 Hp].
  cbn [app] in Hn. apply NoDup_cons in Hn as [Hnin Hn]. rewrite elem_of_app in Hnin.
  destruct (kfree_ok kend m L p Hm Hp0) as (m1 & -> & Hm1 & _); [tauto|]. rewrite rbind_ok. destruct (IH m1 (p :: L) (p + 4096)) as (m' & E & H'); [done | done | |].
  - rewrite <- Permutation_middle. apply NoDup_cons. split; [by rewrite elem_of_app | done].
  - exists m'. split; [done|]. rewrite reverse_cons, <- app_assoc. done.
Qed.

(** [freerange], and so [kinit1] and [kinit2], put every whole page of the range
    on the free list, each once, and keep the pages that were free. *)
Theorem freerange_frees m L vstart vend :
  mem_ok kend m L -> KERNBASE <= vstart -> kend <= vstart -> vstart <= vend -> vend <= KERNBASE + PHYSTOP -> (forall p, p ∈ L -> p + 4096 <= vstart) ->
  exists m' L', freerange kend m vstart vend = Ok m' /\ mem_ok kend m' L' /\
    forall p, p ∈ L' <-> p ∈ L \/ p mod 4096 = 0 /\ vstart <= p /\ p + 4096 <= vend.
Proof.
  unfold KERNBASE, PHYSTOP. intros Hm H1 H2 H3 H4 HL. unfold freerange, PGSIZE. rewrite PGROUNDUP_eq by lia. set (p0 := (vstart + 4095) / 4096 * 4096).
  set (n := Z.to_nat ((vend - p0) / 4096)). assert (forall p, p ∈ page_range p0 n <-> p mod 4096 = 0 /\ vstart <= p /\ p + 4096 <= vend) as Hin.
  { intros p. unfold page_range. rewrite list_elem_of_fmap. split.
    - intros (i & -> & Hi%elem_of_seq). unfold n, p0 in *. lia.
    - intros (P1 & P2 & P3). exists (Z.to_nat ((p - p0) / 4096)). rewrite elem_of_seq. unfold n, p0 in *. lia. }
  destruct (freerange_loop_ok n m L p0 Hm) as (m' & E & H').
  - apply Forall_forall. intros p (P1 & P2 & P3)%Hin. split; unfold KERNBASE, PHYSTOP; lia.
  - apply NoDup_app. split; [|split; [|apply Hm]].
    + apply NoDup_fmap_2; [|apply NoDup_seq]. intros i j E. lia.
    + intros p (_ & P2 & _)%Hin Hp. specialize (HL p Hp). lia.
  - exists m', (reverse (page_range p0 n) ++ L). split; [done|]. split; [done|]. intros p. rewrite elem_of_app, elem_of_reverse, Hin. tauto.
Qed.
End Free.

(** * User memory *)

Definition uread (m : mem) (V : gmap Z Z) (a : Z) : option Z := mbytes m <$> uaddr V a.

Section User.
Context (kend : Z) (Hkend : KERNBASE < kend).
Notation vm_ok := (vm_ok kend).
Notation uspace := (uspace kend).

Lemma uaddr_page V a x : uaddr V a = Some x -> exists e, V !! (a / 4096) = Some e /\ in_page (page_of e) x.
Proof. unfold uaddr. destruct (V !! (a / 4096)) as [e|]; [|done]. cbn. intros E. injection E as <-. exists e. split; [done|]. unfold in_page. lia. Qed.

(** Bytes of user memory that lie on pages that do not change. *)
Lemma uread_ext m m' V V' a : V' !! (a / 4096) = V !! (a / 4096) -> (forall e x, V !! (a / 4096) = Some e -> in_page (page_of e) x -> mbytes m' x = mbytes m x) -> uread m' V' a = uread m V a.
Proof.
  intros EV H. unfold uread, uaddr. rewrite EV. destruct (V !! (a / 4096)) as [e|]; [|done]. cbn. f_equal. apply (H e); [done|]. unfold in_page. lia.
Qed.

(** A page of user memory is none of the tables and is not free. *)
Lemma user_page_apart m L d T V n e x :
  vm_ok m L d T V -> 0 <= n < 524288 -> V !! n = Some e -> in_page (page_of e) x ->
  (forall p, p ∈ d :: values T ++ L -> ~ in_page p x) /\ (forall j e', 0 <= j < 524288 -> j <> n -> V !! j = Some e' -> ~ in_page (page_of e') x).
Proof.
  intros H Hn He Hx. assert (user n) as Hu by (unfold user; lia). destruct (vm_page kend _ _ _ _ _ _ H (own_user d T V n e He Hu)) as [Hp HpL].
  pose proof (own_parts kend m L d T V H) as (_ & N2 & N3 & N4 & N5). pose proof (vm_pages _ _ _ _ _ _ H) as F1. pose proof (mo_pages _ _ _ (vm_mem _ _ _ _ _ _ H)) as F2. rewrite Forall_forall in F1, F2.
  assert ((page_of <$> user_part V) !! n = Some (page_of e)) as Hl by (by rewrite lookup_fmap, (proj2 (user_part_lookup V n e))).
  assert (page_of e ∈ upages V) as HpU by (apply elem_values; by exists n). split.
  - intros p Hin Hx'. assert (p = page_of e) as ->.
    { apply (pages_apart kend p (page_of e) x); [|done|done|done]. rewrite elem_of_cons, elem_of_app in Hin. destruct Hin as [->|[Hin|Hin]]; [apply F1, own_dir | apply F1; right; apply elem_of_app; by left | by apply F2]. }
    rewrite elem_of_cons, elem_of_app in Hin. destruct Hin as [E|[Hin|Hin]]; [by rewrite E in HpU | by apply (N5 (page_of e)) | done].
  - intros j e' Hj Hjn He' Hx'. assert (user j) as Huj by (unfold user; lia). destruct (vm_page kend _ _ _ _ _ _ H (own_user d T V j e' He' Huj)) as [Hp' _]. apply Hjn.
    apply (values_inj (page_of <$> user_part V) j n (page_of e) N2); [|done]. rewrite lookup_fmap, (proj2 (user_part_lookup V j e')) by done. cbn. f_equal. by apply (pages_apart kend _ _ x).
Qed.

(** Only the pages of the address space and the free ones change. *)
Definition untouched (m m' : mem) (L : list Z) (d : Z) (T V : gmap Z Z) : Prop :=
  forall x, (forall p, p ∈ own d T V ++ L -> ~ in_page p x) -> mbytes m' x = mbytes m x.

(** [allocuvm] in terms of the bytes of user memory. *)
Lemma allocuvm_user m L d T V oldsz newsz :
  uspace m L d T V oldsz -> oldsz <= newsz < KERNBASE -> 2 * (up newsz - up oldsz) <= zlen L ->
  exists m' L' T' V', allocuvm kend m d oldsz newsz = Ok (m', newsz) /\ uspace m' L' d T' V' newsz /\ own d T' V' ++ L' ≡ₚ own d T V ++ L /\
    (forall a, 0 <= a < oldsz -> uread m' V' a = uread m V a) /\ (forall a, 4096 * up oldsz <= a < newsz -> uread m' V' a = Some 0) /\
    untouched m m' L d T V.
Proof.
  intros H Hsz HL. pose proof (us_vm _ _ _ _ _ _ _ H) as Hv. pose proof (us_sz _ _ _ _ _ _ _ H) as Hmax. unfold KERNBASE in *.
  destruct (allocuvm_ok kend m L d T V oldsz newsz H Hsz HL) as (m' & L' & T' & V' & E & H' & [G1 G2 G3 G4 G5 G6]). exists m', L', T', V'. split; [done|]. split; [done|]. split; [done|]. split; [|split].
  - intros a Ha. apply uread_ext; [apply G1; unfold up; lia|]. intros e x He Hx. apply G4. by apply (user_page_apart m L d T V (a / 4096) e x); [| lia | |].
  - intros a Ha. destruct (G2 (a / 4096)) as (p & Hp & Ev & Hz); [unfold up in *; lia|]. assert (page_ok kend p) as Hpk.
    { pose proof (mo_pages _ _ _ (vm_mem _ _ _ _ _ _ Hv)) as F. rewrite Forall_forall in F. by apply F. }
    unfold uread, uaddr. rewrite Ev. cbn. f_equal. apply Hz. rewrite (page_of_entry kend p 6 Hpk) by lia. unfold in_page. lia.
  - intros x Hx. apply G4. intros p Hp. apply Hx. unfold own. cbn [app]. rewrite elem_of_cons, !elem_of_app in *. tauto.
Qed.

(** [deallocuvm] keeps the bytes that stay. *)
Lemma deallocuvm_user m L d T V oldsz newsz :
  uspace m L d T V oldsz -> 0 <= newsz < oldsz ->
  exists m' L' V', deallocuvm kend m d oldsz newsz = Ok (m', newsz) /\ uspace m' L' d T V' newsz /\ own d T V' ++ L' ≡ₚ own d T V ++ L /\
    (forall a, 0 <= a < newsz -> uread m' V' a = uread m V a) /\ untouched m m' L d T V.
Proof.
  intros H Hsz. pose proof (us_vm _ _ _ _ _ _ _ H) as Hv. pose proof (us_sz _ _ _ _ _ _ _ H) as Hmax. unfold KERNBASE in *. destruct (deallocuvm_ok kend Hkend m L d T V oldsz newsz H ltac:(lia)) as (m' & L' & V' & E & H' & [S1 S2 S3 S4 S5]).
  exists m', L', V'. split; [done|]. split; [done|]. split; [done|]. split; [|intros x Hx; apply S4].
  2:{ intros p Hp. apply Hx, elem_of_app. left. right. apply elem_of_app. by left. }
  2:{ intros j e Hj He. apply Hx, elem_of_app. left. apply (own_user d T V j); [done|]. unfold user, up in *. lia. }
  intros a Ha. assert (V' !! (a / 4096) = V !! (a / 4096)) as EV by (rewrite S2, decide_False by (unfold up; lia); done).
  apply uread_ext; [done|]. intros e x He Hx. destruct (user_page_apart m L d T V (a / 4096) e x Hv ltac:(lia) He Hx) as [X1 X2]. apply S4.
  - intros p Hp. apply X1. rewrite elem_of_cons, elem_of_app in *. tauto.
  - intros j e' Hj He'. apply (X2 j e'); [unfold up in *; lia | unfold up in *; lia | done].
Qed.

(** [allocuvm] with enough free pages (two for each new page: the page and
    perhaps a table) grows the address space to the new size: the old bytes stay,
    the new ones are zero, and the pages come from the free list, none lost. *)
Theorem allocuvm_grows m L d T V oldsz newsz :
  uspace m L d T V oldsz -> oldsz <= newsz < KERNBASE -> 2 * (up newsz - up oldsz) <= zlen L ->
  exists m' L' T' V', allocuvm kend m d oldsz newsz = Ok (m', newsz) /\ uspace m' L' d T' V' newsz /\ own d T' V' ++ L' ≡ₚ own d T V ++ L /\
    (forall a, 0 <= a < oldsz -> uread m' V' a = uread m V a) /\ (forall a, 4096 * up oldsz <= a < newsz -> uread m' V' a = Some 0).
Proof.
  intros H Hsz HL. destruct (allocuvm_user m L d T V oldsz newsz H Hsz HL) as (m' & L' & T' & V' & E & U & P & B1 & B2 & _).
  by exists m', L', T', V'.
Qed.

(** growing a process and shrinking it again is the identity on its memory: the
    same pages are mapped with the same bytes, and every page is accounted for
    (new tables are kept). *)
Theorem grow_shrink m L d T V sz newsz :
  uspace m L d T V sz -> sz < newsz < KERNBASE -> 2 * (up newsz - up sz) <= zlen L ->
  exists m1 m2 L2 T2, allocuvm kend m d sz newsz = Ok (m1, newsz) /\ deallocuvm kend m1 d newsz sz = Ok (m2, sz) /\
    uspace m2 L2 d T2 V sz /\ own d T2 V ++ L2 ≡ₚ own d T V ++ L /\ (forall a, 0 <= a < sz -> uread m2 V a = uread m V a).
Proof.
  intros H Hsz HL. pose proof (us_vm _ _ _ _ _ _ _ H) as Hv. pose proof (us_sz _ _ _ _ _ _ _ H) as Hmax. unfold KERNBASE in *.
  destruct (allocuvm_ok kend m L d T V sz newsz H ltac:(unfold KERNBASE; lia) HL) as (m1 & L1 & T1 & V1 & E1 & H1 & [G1 G2 G3 G4 G5 G6]).
  destruct (deallocuvm_ok kend Hkend m1 L1 d T1 V1 newsz sz H1 ltac:(lia)) as (m2 & L2 & V2 & E2 & H2 & [S1 S2 S3 S4 S5]).
  assert (V2 = V) as ->.
  { apply map_eq. intros j. rewrite S2. destruct (decide (up sz <= j < up newsz)) as [Hj|Hj]; [|apply G1; lia]. symmetry.
    destruct (V !! j) as [e|] eqn:Ej; [|done]. assert (is_Some (V !! j)) as Hs by (by rewrite Ej). apply (us_pages _ _ _ _ _ _ _ H) in Hs; unfold up in *; lia. }
  exists m1, m2, L2, T1. split; [done|]. split; [done|]. split; [done|]. split; [by rewrite S3|]. intros a Ha. apply uread_ext; [done|]. intros e x He Hx.
  assert (V1 !! (a / 4096) = Some e) as He1 by (rewrite G1; [done | unfold up; lia]). assert (0 <= a / 4096 < 524288) as Hn by lia.
  destruct (user_page_apart m1 L1 d T1 V1 (a / 4096) e x (us_vm _ _ _ _ _ _ _ H1) Hn He1 Hx) as [X1 X2]. rewrite S4, G4; [done | |intros p Hp; apply X1; right; apply elem_of_app; by left|].
  - by apply (user_page_apart m L d T V (a / 4096) e x).
  - intros j e' Hj He'. apply (X2 j e'); [unfold up in *; lia | unfold up in *; lia | done].
Qed.

(** [copyout] in terms of the bytes of user memory. *)
Lemma copyout_user m L d T V va s :
  vm_ok m L d T V -> 0 <= va -> va + zlen s <= KERNBASE -> (forall a, va <= a < va + zlen s -> accessible V a) ->
  exists m', copyout m d va s = Ok (m', 0) /\ vm_ok m' L d T V /\
    forall a, 0 <= a < KERNBASE -> is_Some (uaddr V a) -> uread m' V a = if decide (va <= a < va + zlen s) then Some (nth (Z.to_nat (a - va)) s 0) else uread m V a.
Proof.
  intros H Hva Htop Hacc. destruct (copyout_loop_ok kend (S (length s)) m L d T V va s H Hva Htop) as (m' & E & H' & R1 & R2); [intros i Hi; apply Hacc; lia | lia|].
  exists m'. split; [done|]. split; [done|]. intros a Ha [x Hx]. unfold uread. rewrite Hx. cbn. destruct (decide _) as [Hr|Hr].
  - f_equal. apply (R1 (a - va)); [lia|]. by replace (va + (a - va)) with a by lia.
  - f_equal. apply R2. intros i Hi Hx'. apply Hr. assert (a = va + i) by (apply (uaddr_inj kend m L d T V _ _ x); (done || (unfold KERNBASE in *; lia))). lia.
Qed.

(** [copyout] of bytes to addresses the process may use writes exactly them. *)
Theorem copyout_writes m L d T V va s :
  vm_ok m L d T V -> 0 <= va -> va + zlen s <= KERNBASE -> (forall a, va <= a < va + zlen s -> accessible V a) ->
  exists m', copyout m d va s = Ok (m', 0) /\ vm_ok m' L d T V /\
    forall a, 0 <= a < KERNBASE -> is_Some (uaddr V a) -> uread m' V a = if decide (va <= a < va + zlen s) then Some (nth (Z.to_nat (a - va)) s 0) else uread m V a.
Proof. apply copyout_user. Qed.

(** ** Two address spaces *)

Definition apart (d1 : Z) (T1 V1 : gmap Z Z) (d2 : Z) (T2 V2 : gmap Z Z) : Prop := forall p, p ∈ own d1 T1 V1 -> p ∉ own d2 T2 V2.

Section Fork.
Context (kdata : Z) (Hdata : KERNLINK < kdata < KERNBASE + PHYSTOP) (Hdata_al : kdata mod 4096 = 0).

(** [copyuvm] in terms of the bytes of user memory. *)
Lemma copyuvm_user m L d T V sz :
  uspace m L d T V sz -> 73 + 2 * up sz <= zlen L ->
  exists m' c L' T' V', copyuvm kend kdata m d sz = Ok (m', c) /\ c <> 0 /\ uspace m' L' c T' V' sz /\ uspace m' L' d T V sz /\ apart d T V c T' V' /\ kernel_maps V' /\
    forall a, 0 <= a < sz -> uread m' V' a = uread m V a /\ uread m' V a = uread m V a.
Proof.
  intros H HL. destruct (copyuvm_ok kend kdata Hdata Hdata_al m L d T V sz H HL) as (m' & c & L' & T' & V' & E & Hc & H1 & H2 & Hd & Hp & Hk & Hcp & Hf).
  exists m', c, L', T', V'. do 6 (split; [done|]). intros a Ha. pose proof (us_sz _ _ _ _ _ _ _ H) as Hmax. pose proof (us_vm _ _ _ _ _ _ _ H) as Hv. unfold KERNBASE in *.
  destruct (Hcp (a / 4096)) as (p & e & Hin & He & He' & Hbytes); [unfold up; lia|]. split.
  - unfold uread, uaddr. rewrite He, He'. cbn. f_equal. pose proof (mo_pages _ _ _ (vm_mem _ _ _ _ _ _ Hv)) as F. rewrite Forall_forall in F.
    rewrite (page_of_entry kend p 6 (F p Hin)) by lia. apply Hbytes. lia.
  - apply uread_ext; [done|]. intros e' x He2 Hx. apply Hf. intros q Hq. apply (user_page_apart m L d T V (a / 4096) e' x Hv); [lia | done | done|]. right. apply elem_of_app. by right.
Qed.

(** [copyuvm] gives the child of [fork] its own copy of the parent's memory: byte
    for byte the same, on pages that are neither the parent's nor free, with the
    kernel mapped above [KERNBASE]; the parent's memory is unchanged. *)
Theorem copyuvm_copies m L d T V sz :
  uspace m L d T V sz -> 73 + 2 * up sz <= zlen L ->
  exists m' c L' T' V', copyuvm kend kdata m d sz = Ok (m', c) /\ c <> 0 /\ uspace m' L' c T' V' sz /\ uspace m' L' d T V sz /\ apart d T V c T' V' /\ kernel_maps V' /\
    forall a, 0 <= a < sz -> uread m' V' a = uread m V a /\ uread m' V a = uread m V a.
Proof. apply copyuvm_user. Qed.

(** C33: no page is lost over [fork] and [exit]: freeing the copy gives back exactly
    the pages that were free before it was made. *)
Theorem fork_exit_conserves m L d T V sz :
  uspace m L d T V sz -> 73 + 2 * up sz <= zlen L ->
  exists m1 c m2 L2, copyuvm kend kdata m d sz = Ok (m1, c) /\ freevm kend m1 c = Ok m2 /\ L2 ≡ₚ L /\ uspace m2 L2 d T V sz.
Proof.
  intros H HL. destruct (copyuvm_ok kend kdata Hdata Hdata_al m L d T V sz H HL) as (m1 & c & L1 & T1 & V1 & E & Hc & H1 & H2 & Hd & Hp & Hk & Hcp & Hf).
  destruct (freevm_ok kend Hkend m1 L1 c T1 V1 (us_vm _ _ _ _ _ _ _ H1) (us_prefix _ _ _ _ _ _ _ H1)) as (m2 & L2 & E2 & Hm2 & P2 & F2).
  exists m1, c, m2, L2. split; [done|]. split; [done|]. split; [by rewrite P2|]. split; [|apply H|apply H|apply H].
  pose proof (us_vm _ _ _ _ _ _ _ H) as Hv. apply (vm_other kend m1 m2 L1 L2); [apply H2 | done | |].
  - intros p Hin Hin'. rewrite P2, Hp in Hin'. by apply (vm_page kend _ _ _ _ _ p Hv Hin).
  - intros p x Hin Hx. apply F2. intros q Hq Hx'. assert (p = q) as ->; [|by apply (Hd q)].
    apply (pages_apart kend p q x); [by apply (vm_page kend _ _ _ _ _ p Hv Hin) | by apply (vm_page kend _ _ _ _ _ q (us_vm _ _ _ _ _ _ _ H1) Hq) | done | done].
Qed.
End Fork.

(** ** Isolation *)

(** An operation on an address space keeps it well-formed and takes what it uses
    from the free pages; when memory runs out a page may be lost. *)
Record confined (m m' : mem) (L L' : list Z) (d : Z) (T T' V V' : gmap Z Z) : Prop := {
  cf_ok : vm_ok m' L' d T' V';
  cf_pages : forall p, p ∈ own d T' V' ++ L' -> p ∈ own d T V ++ L;
  cf_frame : untouched m m' L d T V;
}.

Lemma confined_refl m L d T V : vm_ok m L d T V -> confined m m L L d T T V V.
Proof. by split. Qed.

Lemma confined_trans m1 m2 m3 L1 L2 L3 d T1 T2 T3 V1 V2 V3 :
  confined m1 m2 L1 L2 d T1 T2 V1 V2 -> confined m2 m3 L2 L3 d T2 T3 V2 V3 -> confined m1 m3 L1 L3 d T1 T3 V1 V3.
Proof.
  intros [A1 A2 A3] [B1 B2 B3]. split; [done | auto|]. intros x Hx. rewrite B3, A3; [done | done|]. auto.
Qed.

(** What an operation on one address space means for another. *)
Lemma confined_other m m' L L' d T T' V V' d2 T2 V2 :
  vm_ok m L d T V -> confined m m' L L' d T T' V V' -> vm_ok m L d2 T2 V2 -> apart d T V d2 T2 V2 ->
  vm_ok m' L' d2 T2 V2 /\ apart d T' V' d2 T2 V2 /\ forall a, 0 <= a < KERNBASE -> uread m' V2 a = uread m V2 a.
Proof.
  intros Hv [H' P F] H2 Ha. assert (forall p, p ∈ own d2 T2 V2 -> p ∉ own d T V ++ L) as Hd.
  { intros p Hp Hin. apply elem_of_app in Hin as [Hin|Hin]; [by apply (Ha p) | by apply (vm_page kend _ _ _ _ _ p H2 Hp)]. }
  assert (forall p x, p ∈ own d2 T2 V2 -> in_page p x -> mbytes m' x = mbytes m x) as Hk.
  { intros p x Hp Hx. apply F. intros q Hq Hx'. apply (Hd p Hp). assert (p = q) as ->; [|done]. apply (pages_apart kend p q x); [by apply (vm_page kend _ _ _ _ _ p H2 Hp) | | done | done].
    apply elem_of_app in Hq as [Hq|Hq]; [by apply (vm_page kend _ _ _ _ _ q Hv Hq)|]. pose proof (mo_pages _ _ _ (vm_mem _ _ _ _ _ _ Hv)) as F2. rewrite Forall_forall in F2. by apply F2. }
  split; [|split].
  - apply (vm_other kend m m' L L'); [done | apply H' | | done]. intros p Hp Hin. apply (Hd p Hp), P, elem_of_app. by right.
  - intros p Hp Hin. apply (Hd p Hin), P, elem_of_app. by left.
  - intros a Hb. apply uread_ext; [done|]. intros e x He Hx. apply (Hk (page_of e)); [|done]. apply (own_user d2 T2 V2 (a / 4096)); [done|]. unfold user, KERNBASE in *. lia.
Qed.

(** The kernel stops: [panic], or the null entry [uva2ka] reads. *)
Definition stops (e : fault) : Prop := e = Panic \/ e = NullDeref.

(** One page is taken and mapped; the result of [mappages] does not matter. *)
Lemma map_page_confined m p L d T V n :
  vm_ok m (p :: L) d T V -> 0 <= n < 524288 ->
  exists f, kalloc m = Ok (mk_mem (mbytes m) f, p) /\ p <> 0 /\ exists m1, memset (mk_mem (mbytes m) f) p 0 PGSIZE = Ok m1 /\
    match mappages m1 d (4096 * n) PGSIZE (v2p p) (Z.lor PTE_W PTE_U) with
    | Ok (m2, _) => exists L' T' V', confined m m2 (p :: L) L' d T T' V V'
    | Err e => stops e
    end.
Proof.
  intros H Hn. set (b := fun x => if (p <=? x) && (x <? p + 4096) then 0 else mbytes m x).
  destruct (take_page kend m p L d T V b H ltac:(intros x Hx; by apply memset_out)) as (f & E & Hv1 & Hp & Hp0 & Hpn).
  exists f. split; [done|]. split; [done|]. eexists. rewrite (memset_page kend _ _ _ Hp). split; [reflexivity|]. cbn [mbytes freelist]. fold b. set (m1 := mk_mem b f) in *.
  assert (confined m m1 (p :: L) L d T T V V) as C1.
  { split; [done | |].
    - intros q. rewrite !elem_of_app, elem_of_cons. tauto.
    - intros x Hx. apply memset_out, Hx, elem_of_app. right. by left. }
  destruct (V !! n) as [e|] eqn:Ev.
  - destruct (sp_dom _ _ _ _ (vm_space _ _ _ _ _ _ Hv1) n e Ev) as [_ [t Ht]]. unfold mappages, PGSIZE. rewrite (u32_small (4096 * n + 4096 - 1)) by lia. rewrite !PGROUNDDOWN_eq by lia.
    replace (4096 * n - (4096 * n) mod 4096) with (4096 * n) by lia. replace (4096 * n + 4096 - 1 - (4096 * n + 4096 - 1) mod 4096 - 4096 * n) with 0 by lia.
    change (Z.to_nat (u32 0 / 4096)) with 0%nat. cbn [mappages_loop].
    rewrite (walk_read kend m1 L d T V (4096 * n) true Hv1) by (lia || (right; replace (4096 * n / 4096) with n by lia; by eexists)). rewrite rbind_ok.
    replace (4096 * n / 4096) with n by lia. unfold entry_addr. rewrite Ht.
    destruct (entry_read kend m1 L d T V n t Hv1 ltac:(lia) Ht) as (Hne & _ & _ & ->). rewrite (proj2 (Z.eqb_neq _ _) Hne), rbind_ok.
    pose proof (sp_ent _ _ _ _ (vm_space _ _ _ _ _ _ Hv1) n t ltac:(lia) Ht) as Hent. rewrite Ev in Hent. destruct Hent as (-> & _ & ->). by left.
  - destruct (mappages_user kend m1 L d T V n p Hv1 Hn Ev Hp Hpn) as [(_ & _ & ->)|(m2 & L2 & T2 & M & ->)]; [by exists L, T, V|].
    exists L2, T2, (<[n := entry (v2p p) 6]> V). destruct C1 as [_ _ F1]. split; [apply M | |].
    + intros q. rewrite (mp_perm _ _ _ _ _ _ _ _ _ _ _ M). rewrite decide_True by (unfold user; lia). rewrite (page_of_entry kend) by (done || lia).
      rewrite !elem_of_app, elem_of_cons, elem_of_nil, elem_of_cons. tauto.
    + intros x Hx. rewrite (mp_frame _ _ _ _ _ _ _ _ _ _ _ M); [by apply F1|]. intros q Hq. apply Hx. unfold own. cbn [app].
      rewrite elem_of_cons, elem_of_app in Hq. rewrite elem_of_cons, !elem_of_app, elem_of_cons. tauto.
Qed.

(** [deallocuvm] on any address space: a missing table is skipped. *)
Lemma dealloc_loop_confined fuel m L d T V n oldsz :
  vm_ok m L d T V -> 0 <= n -> 0 <= oldsz <= KERNBASE -> up oldsz - n < Z.of_nat fuel -> (0 < fuel)%nat ->
  exists m' L' V', dealloc_loop kend fuel m d (4096 * n) oldsz = Ok m' /\ confined m m' L L' d T T V V'.
Proof.
  revert m L V n. induction fuel as [|fuel IH]; intros m L V n H Hn Ho Hf Hf0; [lia|]. unfold up, KERNBASE in *. cbn [dealloc_loop].
  destruct (Z.leb_spec oldsz (4096 * n)) as [|Hlt]; [exists m, L, V; split; [done | by apply confined_refl]|].
  rewrite (walk_read kend m L d T V (4096 * n) false H) by (lia || by left). rewrite rbind_ok. replace (4096 * n / 4096) with n by lia. unfold entry_addr, NPTENTRIES, PGSIZE.
  destruct (T !! (n / 1024)) as [t|] eqn:Et.
  2:{ cbn [Z.eqb]. rewrite u32_small by lia. replace (4096 * n + (1024 - 1) * 4096 + 4096) with (4096 * (n + 1024)) by lia. apply IH; (done || lia). }
  destruct (entry_read kend m L d T V n t H ltac:(lia) Et) as (Hne & _ & _ & ->). rewrite (proj2 (Z.eqb_neq _ _) Hne), rbind_ok.
  rewrite u32_small by lia. replace (4096 * n + 4096) with (4096 * (n + 1)) by lia.
  pose proof (sp_ent _ _ _ _ (vm_space _ _ _ _ _ _ H) n t ltac:(lia) Et) as Hent. destruct (V !! n) as [e|] eqn:Ev.
  - destruct Hent as (-> & _ & ->). destruct (unmap kend Hkend m L d T V n t e H ltac:(lia) Et Ev) as (He & m1 & m2 & E1 & E2 & H2 & F2). rewrite (proj2 (Z.eqb_neq _ _) He).
    fold (page_of e). rewrite E1, rbind_ok, E2, rbind_ok. destruct (IH m2 (page_of e :: L) (delete n V) (n + 1) H2) as (m' & L' & V' & E & C); [lia..|].
    assert (user n) as Hu by (unfold user; lia).
    exists m', L', V'. split; [done|]. eapply confined_trans; [|exact C]. split; [done | |].
    + intros q. rewrite (own_unmap d T V n e Ev Hu), !elem_of_app, !elem_of_cons. tauto.
    + intros x Hx. apply F2; apply Hx, elem_of_app; left; [by apply (own_user d T V n) | by apply (own_tab d T V (n / 1024))].
  - rewrite Hent, rbind_ok. apply IH; (done || lia).
Qed.

Lemma deallocuvm_confined m L d T V oldsz newsz :
  vm_ok m L d T V -> 0 <= oldsz <= KERNBASE -> 0 <= newsz ->
  exists m' L' V', deallocuvm kend m d oldsz newsz = Ok (m', Z.min oldsz newsz) /\ confined m m' L L' d T T V V'.
Proof.
  intros H Ho Hn. unfold deallocuvm. destruct (Z.leb_spec oldsz newsz); [exists m, L, V; rewrite Z.min_l by lia; split; [done | by apply confined_refl]|].
  unfold KERNBASE in Ho. rewrite PGROUNDUP_eq by lia. replace ((newsz + 4095) / 4096 * 4096) with (4096 * up newsz) by (unfold up; lia).
  destruct (dealloc_loop_confined (S (Z.to_nat (oldsz / PGSIZE + 1))) m L d T V (up newsz) oldsz H) as (m' & L' & V' & E & C); [unfold up, KERNBASE, PGSIZE; lia..|].
  rewrite E, rbind_ok, Z.min_r by lia. by exists m', L', V'.
Qed.

(** [allocuvm], whether or not the memory suffices. *)
Lemma alloc_loop_confined fuel m L d T V n oldsz newsz :
  vm_ok m L d T V -> 0 <= n -> 0 <= oldsz <= newsz -> newsz < KERNBASE -> up newsz - n < Z.of_nat fuel -> (0 < fuel)%nat ->
  match alloc_loop kend fuel m d (4096 * n) oldsz newsz with
  | Ok (m', r) => (r = 0 \/ r = newsz) /\ exists L' T' V', confined m m' L L' d T T' V V'
  | Err e => stops e
  end.
Proof.
  revert m L T V n. induction fuel as [|fuel IH]; intros m L T V n H Hn Ho Hk Hf Hf0; [lia|]. unfold up in *. cbn [alloc_loop].
  destruct (Z.leb_spec newsz (4096 * n)) as [|Hlt]; [split; [by right | exists L, T, V; by apply confined_refl]|]. destruct L as [|p L].
  - rewrite (kalloc_empty kend m (vm_mem _ _ _ _ _ _ H)), rbind_ok. cbn [Z.eqb].
    destruct (deallocuvm_confined m [] d T V newsz oldsz H ltac:(lia) ltac:(lia)) as (m' & L' & V' & -> & C). rewrite rbind_ok. split; [by left | by exists L', T, V'].
  - unfold KERNBASE in Hk. destruct (map_page_confined m p L d T V n H ltac:(lia)) as (f & -> & Hp0 & m1 & E1 & C). rewrite rbind_ok, (proj2 (Z.eqb_neq _ _) Hp0), E1, rbind_ok.
    destruct (mappages _ _ _ _ _ _) as [[m2 r]|e]; [|exact C]. rewrite rbind_ok. destruct C as (L2 & T2 & V2 & C). unfold PGSIZE. rewrite u32_small by lia.
    replace (4096 * n + 4096) with (4096 * (n + 1)) by lia. pose proof (IH m2 L2 T2 V2 (n + 1) (cf_ok _ _ _ _ _ _ _ _ _ C)) as Hnext. unfold KERNBASE in Hnext.
    specialize (Hnext ltac:(lia) Ho ltac:(lia) ltac:(lia) ltac:(lia)). destruct (alloc_loop kend fuel m2 d (4096 * (n + 1)) oldsz newsz) as [[m' r']|]; [|exact Hnext].
    destruct Hnext as (Hr & L' & T' & V' & C'). split; [done|]. exists L', T', V'. by eapply confined_trans.
Qed.

Lemma allocuvm_confined m L d T V oldsz newsz :
  vm_ok m L d T V -> 0 <= oldsz <= KERNBASE -> 0 <= newsz ->
  match allocuvm kend m d oldsz newsz with
  | Ok (m', r) => (r = 0 \/ r = oldsz \/ r = newsz /\ newsz < KERNBASE) /\ exists L' T' V', confined m m' L L' d T T' V V'
  | Err e => stops e
  end.
Proof.
  intros H Ho Hn. unfold allocuvm. destruct (Z.leb_spec KERNBASE newsz) as [|Hk]; [split; [by left | exists L, T, V; by apply confined_refl]|].
  destruct (Z.ltb_spec newsz oldsz) as [|Hle]; [split; [by right; left | exists L, T, V; by apply confined_refl]|].
  rewrite PGROUNDUP_eq by (unfold KERNBASE in *; lia). replace ((oldsz + 4095) / 4096 * 4096) with (4096 * up oldsz) by (unfold up; lia).
  pose proof (alloc_loop_confined (S (Z.to_nat (newsz / PGSIZE + 1))) m L d T V (up oldsz) oldsz newsz H) as Hl.
  specialize (Hl ltac:(unfold up; lia) ltac:(lia) Hk ltac:(unfold up, PGSIZE; lia) ltac:(lia)).
  destruct (alloc_loop _ _ _ _ _ _ _) as [[m' r]|]; [|done]. destruct Hl as [[->| ->] C]; (split; [|done]); [by left | by right; right].
Qed.

(** [uva2ka] of an address below the kernel: the page of a user entry, or 0. *)
Lemma uva2ka_any m L d T V n :
  vm_ok m L d T V -> 0 <= n < 524288 ->
  match uva2ka m d (4096 * n) with
  | Ok a => a = 0 \/ exists e, V !! n = Some e /\ a = page_of e
  | Err e => stops e
  end.
Proof.
  intros H Hn. unfold uva2ka. rewrite (walk_read kend m L d T V (4096 * n) false H) by (lia || by left). rewrite rbind_ok. replace (4096 * n / 4096) with n by lia. unfold entry_addr.
  destruct (T !! (n / 1024)) as [t|] eqn:Ht; [|by right].
  destruct (entry_read kend m L d T V n t H ltac:(lia) Ht) as (Hne & _ & _ & ->). rewrite (proj2 (Z.eqb_neq _ _) Hne), rbind_ok.
  pose proof (sp_ent _ _ _ _ (vm_space _ _ _ _ _ _ H) n t ltac:(lia) Ht) as Hent. destruct (V !! n) as [e|]; [|rewrite Hent; by left].
  destruct Hent as (-> & _ & ->). cbn [negb]. destruct (_ =? 0); [by left | right; by exists e].
Qed.

(** [copyout], whether or not the process may use the addresses. *)
Lemma copyout_confined fuel m L d T V va s :
  vm_ok m L d T V -> 0 <= va -> va + zlen s <= KERNBASE -> (length s < fuel)%nat ->
  match copyout_loop fuel m d va s with
  | Ok (m', _) => confined m m' L L d T T V V
  | Err e => stops e
  end.
Proof.
  revert m va s. induction fuel as [|fuel IH]; intros m va s H Hva Htop Hf; [lia|]. cbn [copyout_loop]. destruct (Z.leb_spec (zlen s) 0) as [Hz|Hz]; [by apply confined_refl|].
  unfold KERNBASE in Htop. rewrite PGROUNDDOWN_eq by lia. replace (va - va mod 4096) with (4096 * (va / 4096)) by lia. set (n := va / 4096). assert (0 <= n < 524288) as Hn by lia.
  pose proof (uva2ka_any m L d T V n H Hn) as Hu. destruct (uva2ka m d (4096 * n)) as [a|]; [|done]. rewrite rbind_ok.
  destruct Hu as [->|(e & He & ->)]; [by apply confined_refl|]. assert (user n) as Hun by (unfold user; lia).
  destruct (vm_page kend _ _ _ _ _ _ H (own_user d T V _ _ He Hun)) as [Hp%page_bounds _].
  rewrite (proj2 (Z.eqb_neq (page_of e) 0)) by lia. replace (va - 4096 * n) with (va mod 4096) by lia. unfold PGSIZE. set (c := Z.min (4096 - va mod 4096) (zlen s)).
  assert (zlen (take (Z.to_nat c) s) = c) as Hc by (rewrite length_take; lia). assert (zlen (drop (Z.to_nat c) s) = zlen s - c) as Hc' by (rewrite length_drop; lia).
  destruct (write_user kend m L d T V n e (va mod 4096) (take (Z.to_nat c) s) H Hn He) as (m1 & -> & H1 & W); [lia | lia|]. rewrite rbind_ok, Hc in *. rewrite u32_small by lia.
  pose proof (IH m1 (4096 * n + 4096) (drop (Z.to_nat c) s) H1 ltac:(lia)) as Hnext. unfold KERNBASE in Hnext. rewrite Hc', length_drop in Hnext.
  assert (c = zlen s \/ va + c = 4096 * n + 4096) as [Hall|Hpart] by lia.
  - destruct fuel as [|fuel]; [lia|]. cbn [copyout_loop]. rewrite Hc', (proj2 (Z.leb_le _ _)) by lia. split; [done | done|].
    intros x Hx. rewrite W, decide_False; [done|]. intros Hr. apply (Hx (page_of e)); [apply elem_of_app; left; by apply (own_user d T V n) | unfold in_page; lia].
  - specialize (Hnext ltac:(lia) ltac:(lia)). destruct (copyout_loop _ _ _ _ _) as [[m' r]|]; [|done]. eapply confined_trans; [|exact Hnext].
    split; [done | done|]. intros x Hx. rewrite W, decide_False; [done|]. intros Hr.
    apply (Hx (page_of e)); [apply elem_of_app; left; by apply (own_user d T V n) | unfold in_page; lia].
Qed.

(** Clearing the user bit changes neither the page nor whether it is present. *)
Lemma clear_user_bit e :
  let e' := Z.land e (u32 (Z.lnot PTE_U)) mod 2 ^ 32 in present e' = present e /\ PTE_ADDR e' = PTE_ADDR e.
Proof.
  intros e'. unfold e', present, PTE_ADDR. rewrite <- Z.land_ones, <- !Z.land_assoc by lia.
  change (Z.land (u32 (Z.lnot PTE_U)) (Z.land (Z.ones 32) PTE_P)) with PTE_P.
  by change (Z.land (u32 (Z.lnot PTE_U)) (Z.land (Z.ones 32) (u32 (Z.lnot 4095)))) with (u32 (Z.lnot 4095)).
Qed.

Lemma set_word_mod b a v x : set_word b a (v mod 2 ^ 32) x = set_word b a v x.
Proof.
  unfold set_word. destruct (Z.leb_spec a x), (Z.ltb_spec x (a + 4)); cbn [andb]; try done. change (2 ^ 32) with 4294967296.
  assert (x - a = 0 \/ x - a = 1 \/ x - a = 2 \/ x - a = 3) as [->|[->|[->| ->]]] by lia;
    [change (256 ^ 0) with 1 | change (256 ^ 1) with 256 | change (256 ^ 2) with 65536 | change (256 ^ 3) with 16777216]; lia.
Qed.

(** [clearpteu] of any entry of a table. *)
Lemma clearpteu_confined m L d T V uva :
  vm_ok m L d T V -> 0 <= uva < KERNBASE ->
  match clearpteu m d uva with
  | Ok m' => exists V', confined m m' L L d T T V V'
  | Err e => stops e
  end.
Proof.
  intros H Hu. unfold KERNBASE in Hu. set (n := uva / 4096). assert (0 <= n < 524288) as Hn by lia. unfold clearpteu.
  rewrite (walk_read kend m L d T V uva false H) by (lia || by left). rewrite rbind_ok. fold n. unfold entry_addr.
  destruct (T !! (n / 1024)) as [t|] eqn:Ht; [|cbn; by left].
  destruct (entry_read kend m L d T V n t H ltac:(lia) Ht) as (Hne & B1 & B2 & ->). rewrite (proj2 (Z.eqb_neq _ _) Hne), rbind_ok, st32_ok by done.
  set (e := word (mbytes m) (t + 4 * (n mod 1024))) in *. destruct (clear_user_bit e) as [Hpr Hpa]. set (v := Z.land e _) in *. set (e' := v mod 2 ^ 32) in *.
  assert (0 <= e' < 2 ^ 32) as He' by (apply Z.mod_pos_bound; lia).
  destruct (vm_page kend _ _ _ _ _ t H (own_tab _ _ _ _ _ Ht)) as [Hpt HtL]. pose proof (page_bounds _ _ Hpt) as Bt.
  pose proof (vm_pages _ _ _ _ _ _ H) as Hpg. pose proof (vm_nodup _ _ _ _ _ _ H) as Hnd. pose proof (own_parts kend m L d T V H) as (N1 & _ & N3 & _ & _).
  set (V' := if present e' then <[n := e']> V else delete n V).
  assert (space (set_word (mbytes m) (t + 4 * (n mod 1024)) v) d T V') as Hsp.
  { apply (space_ext (set_word (mbytes m) (t + 4 * (n mod 1024)) e')); [|intros; symmetry; apply set_word_mod].
    unfold own in Hpg. apply Forall_cons in Hpg as [Hd Hpg]. apply (space_set kend); [apply H | constructor; [done|]; by apply Forall_app in Hpg as [? _] | by apply NoDup_cons | lia | done | done]. }
  assert (upages V' = upages V) as Eup.
  { pose proof (sp_ent _ _ _ _ (vm_space _ _ _ _ _ _ H) n t ltac:(lia) Ht) as Hent. fold e in Hent. unfold V'. rewrite Hpr. destruct (V !! n) as [e0|] eqn:Ev.
    - destruct Hent as (E0 & _ & Hp0). rewrite E0 in *. rewrite Hp0. unfold upages. rewrite user_part_insert, decide_True by (unfold user; lia). rewrite fmap_insert.
      replace (page_of e') with (page_of e0) by (unfold page_of; by rewrite Hpa). rewrite insert_id; [done|]. rewrite lookup_fmap.
      rewrite (proj2 (user_part_lookup V n e0)); [done|]. split; [done | unfold user; lia].
    - by rewrite Hent, delete_id. }
  assert (forall x, ~ in_page t x -> set_word (mbytes m) (t + 4 * (n mod 1024)) v x = mbytes m x) as Hout by (intros x Hx; apply set_word_out; unfold in_page in Hx; lia).
  exists V'. split.
  - constructor; unfold own; rewrite ?Eup; [|exact Hsp | exact Hpg | exact Hnd].
    apply mem_ok_ext; [apply H|]. intros q x Hq Hx. apply Hout. intros Hx'. apply HtL. pose proof (mo_pages _ _ _ (vm_mem _ _ _ _ _ _ H)) as F. rewrite Forall_forall in F.
    by rewrite (pages_apart kend t q x Hpt (F q Hq) Hx' Hx).
  - intros p. unfold own. by rewrite Eup.
  - intros x Hx. apply Hout. intros Hx'. apply (Hx t); [apply elem_of_app; left; by apply (own_tab d T V (n / 1024)) | done].
Qed.

(** What happens to the address space of a process: [growproc] (the size is
    unsigned, so the sum wraps), [copyout] into it, and [clearpteu] on it. *)
Inductive vm_op := Resize (n : Z) | Write (va : Z) (s : bytes) | Guard (uva : Z).

(** The memory and the size of the process after an operation. *)
Definition vm_run (m : mem) (d sz : Z) (op : vm_op) : result (mem * Z) :=
  match op with
  | Resize n =>
      if 0 <? n then let! '(m, r) := allocuvm kend m d sz (u32 (sz + n)) in Ok (m, if r =? 0 then sz else r)
      else if n <? 0 then let! '(m, r) := deallocuvm kend m d sz (u32 (sz + n)) in Ok (m, if r =? 0 then sz else r)
      else Ok (m, sz)
  | Write va s => let! '(m, _) := copyout m d va s in Ok (m, sz)
  | Guard uva => let! m := clearpteu m d uva in Ok (m, sz)
  end.

Fixpoint vm_runs (m : mem) (d sz : Z) (ops : list vm_op) : result (mem * Z) :=
  match ops with
  | [] => Ok (m, sz)
  | op :: ops => let! '(m, sz) := vm_run m d sz op in vm_runs m d sz ops
  end.

(** The addresses given to the kernel are below it. *)
Definition below_kernel (op : vm_op) : Prop :=
  match op with
  | Resize _ => True
  | Write va s => 0 <= va /\ va + zlen s <= KERNBASE
  | Guard uva => 0 <= uva < KERNBASE
  end.

Lemma vm_run_confined m L d T V sz op :
  vm_ok m L d T V -> 0 <= sz <= KERNBASE -> below_kernel op ->
  match vm_run m d sz op with
  | Ok (m', sz') => 0 <= sz' <= KERNBASE /\ exists L' T' V', confined m m' L L' d T T' V V'
  | Err e => stops e
  end.
Proof.
  intros H Hsz Hop. assert (forall n, 0 <= u32 (sz + n)) as Hu by (intros n; unfold u32; apply Z.mod_pos_bound; lia).
  destruct op as [n|va s|uva]; cbn [vm_run below_kernel] in *.
  - destruct (0 <? n).
    + pose proof (allocuvm_confined m L d T V sz (u32 (sz + n)) H Hsz (Hu n)) as Ha. destruct (allocuvm _ _ _ _ _) as [[m' r]|]; [|done]. cbn [rbind].
      destruct Ha as [Hr C]. split; [|done]. specialize (Hu n). destruct (Z.eqb_spec r 0); lia.
    + destruct (n <? 0); [|split; [done | exists L, T, V; by apply confined_refl]].
      destruct (deallocuvm_confined m L d T V sz (u32 (sz + n)) H Hsz (Hu n)) as (m' & L' & V' & -> & C). rewrite rbind_ok.
      split; [|by exists L', T, V']. specialize (Hu n). destruct (Z.eqb_spec (Z.min sz (u32 (sz + n))) 0); lia.
  - unfold copyout. pose proof (copyout_confined (S (length s)) m L d T V va s H (proj1 Hop) (proj2 Hop) ltac:(lia)) as C.
    destruct (copyout_loop _ _ _ _ _) as [[m' r]|]; [|done]. rewrite rbind_ok. split; [done | by exists L, T, V].
  - pose proof (clearpteu_confined m L d T V uva H Hop) as C. destruct (clearpteu m d uva) as [m'|]; [|done]. rewrite rbind_ok.
    destruct C as [V' C]. split; [done | by exists L, T, V'].
Qed.

Lemma vm_runs_confined ops m L d T V sz :
  vm_ok m L d T V -> 0 <= sz <= KERNBASE -> Forall below_kernel ops ->
  match vm_runs m d sz ops with
  | Ok (m', sz') => 0 <= sz' <= KERNBASE /\ exists L' T' V', confined m m' L L' d T T' V V'
  | Err e => stops e
  end.
Proof.
  intros H Hsz Hops. revert m L T V sz H Hsz. induction Hops as [|op ops Hop Hops IH]; intros m L T V sz H Hsz; cbn [vm_runs].
  { split; [done | exists L, T, V; by apply confined_refl]. }
  pose proof (vm_run_confined m L d T V sz op H Hsz Hop) as H1. destruct (vm_run m d sz op) as [[m1 sz1]|]; [|done]. rewrite rbind_ok.
  destruct H1 as (Hsz1 & L1 & T1 & V1 & C1). pose proof (IH m1 L1 T1 V1 sz1 (cf_ok _ _ _ _ _ _ _ _ _ C1) Hsz1) as H2.
  destruct (vm_runs m1 d sz1 ops) as [[m' sz']|]; [|done]. destruct H2 as (Hsz' & L' & T' & V' & C). split; [done|]. exists L', T', V'. by eapply confined_trans.
Qed.

(** C19: address spaces are isolated.  Whatever sequence of resizings (that
    succeed or run out of memory half way), writes by the kernel (allowed or
    refused) and guard pages a process goes through, with addresses below the
    kernel: either the kernel stops (a panic, or the null page table entry that
    [uva2ka] reads), or the address space is well-formed again, and another one that
    shared no page with it has the same pages with the same bytes and still shares
    none. *)
Theorem spaces_isolated m L d T V sz ops d2 T2 V2 :
  vm_ok m L d T V -> 0 <= sz <= KERNBASE -> vm_ok m L d2 T2 V2 -> apart d T V d2 T2 V2 -> Forall below_kernel ops ->
  match vm_runs m d sz ops with
  | Ok (m', sz') => 0 <= sz' <= KERNBASE /\ exists L' T' V', vm_ok m' L' d T' V' /\ vm_ok m' L' d2 T2 V2 /\ apart d T' V' d2 T2 V2 /\
      forall a, 0 <= a < KERNBASE -> uread m' V2 a = uread m V2 a
  | Err e => e = Panic \/ e = NullDeref
  end.
Proof.
  intros H Hsz H2 Ha Hops. pose proof (vm_runs_confined ops m L d T V sz H Hsz Hops) as Hr.
  destruct (vm_runs m d sz ops) as [[m' sz']|]; [|exact Hr]. destruct Hr as (Hsz' & L' & T' & V' & C). split; [done|].
  exists L', T', V'. split; [apply C|]. by apply (confined_other m m' L L' d T T' V V').
Qed.

(** C40: [allocuvm] does not look at the result of [mappages]: when the last free page
    was taken and the table is missing, it reports the new size, but nothing is
    mapped, and the page is on no list. *)
Theorem allocuvm_reports_unmapped m p d T V n :
  uspace m [p] d T V (4096 * n) -> 0 <= n < 524287 -> T !! (n / 1024) = None ->
  exists m', allocuvm kend m d (4096 * n) (4096 * n + 4096) = Ok (m', 4096 * n + 4096) /\ vm_ok m' [] d T V /\ V !! n = None /\ p ∉ own d T V.
Proof.
  intros H Hn HT. pose proof (us_vm _ _ _ _ _ _ _ H) as Hv. unfold allocuvm, KERNBASE. rewrite (proj2 (Z.leb_gt _ _)), (proj2 (Z.ltb_ge _ _)) by lia. rewrite PGROUNDUP_eq by lia.
  replace ((4096 * n + 4095) / 4096 * 4096) with (4096 * n) by lia. replace (S (Z.to_nat ((4096 * n + 4096) / PGSIZE + 1))) with (S (S (Z.to_nat (n + 1)))) by (unfold PGSIZE; lia).
  cbn [alloc_loop]. rewrite (proj2 (Z.leb_gt (4096 * n + 4096) (4096 * n))) by lia. set (b := fun x => if (p <=? x) && (x <? p + 4096) then 0 else mbytes m x).
  destruct (take_page kend m p [] d T V b Hv ltac:(intros x Hx; by apply memset_out)) as (f & -> & Hv1 & Hp & Hp0 & Hpn). rewrite rbind_ok, (proj2 (Z.eqb_neq _ _) Hp0).
  rewrite (memset_page kend _ _ _ Hp), rbind_ok. cbn [mbytes freelist]. fold b. assert (V !! n = None) as HVn.
  { destruct (V !! n) as [e|] eqn:Ev; [|done]. assert (is_Some (V !! n)) as Hs by (by rewrite Ev). apply (us_pages _ _ _ _ _ _ _ H) in Hs; lia. }
  destruct (mappages_user kend (mk_mem b f) [] d T V n p Hv1 ltac:(lia) HVn Hp Hpn) as [(_ & _ & ->)|(m2 & L2 & T2 & M & _)].
  - rewrite rbind_ok. unfold PGSIZE. rewrite u32_small by lia. rewrite (proj2 (Z.leb_le _ _)) by lia. exists (mk_mem b f). split; [done|]. split; [done|]. split; [done|]. by rewrite app_nil_r in Hpn.
  - exfalso. destruct (mp_free _ _ _ _ _ _ _ _ _ _ _ M) as [[_ ->]|(q & E & _)]; [|done]. destruct (mp_tab _ _ _ _ _ _ _ _ _ _ _ M) as (_ & _ & [t Ht]). congruence.
Qed.
End User.

(** ** The kernel under the allocator of the user programs *)

(** Whether [growproc] of [n] more bytes succeeds for a process of [b] bytes. *)
Definition kernel_grow (kend : Z) (m : mem) (d : Z) (b n : Z) : bool :=
  (0 <=? b) && (b <? KERNBASE) && (0 <=? n) && (n <? 2 ^ 31) &&
  match allocuvm kend m d b (u32 (b + n)) with Ok (_, r) => negb (r =? 0) | Err _ => false end.

#[export] Instance kernel_limit kend m d : GrowLimit (kernel_grow kend m d).
Proof.
  intros b n H. unfold kernel_grow, KERNBASE in H. rewrite !andb_true_iff, !Z.leb_le, !Z.ltb_lt in H. destruct H as ((((H1 & H2) & H3) & H4) & H5).
  rewrite u32_small in H5 by lia. destruct (Z.le_gt_cases KERNBASE (b + n)) as [Hk|Hk]; [|unfold KERNBASE in Hk; lia]. exfalso.
  unfold allocuvm in H5. rewrite (proj2 (Z.leb_le _ _) Hk) in H5. done.
Qed.

(** * A concrete memory: the kernel ends at 4 MB, 300 pages are free. *)

Definition demo_kend : Z := 2151677952.
Definition demo_kdata : Z := 2149580800.
Definition demo_list (n : nat) : list Z := reverse (page_range demo_kend n).

Lemma demo_pages n : Z.of_nat n <= 300 -> exists m, mem_ok demo_kend m (demo_list n).
Proof.
  intros Hn. destruct (freerange_loop_ok demo_kend n (mk_mem (fun _ => 0) 0) [] demo_kend) as (m & _ & H).
  - split; [done | constructor | constructor].
  - apply Forall_forall. intros p Hp. apply list_elem_of_fmap in Hp as (i & -> & Hi%elem_of_seq). unfold demo_kend. split; unfold KERNBASE, PHYSTOP; lia.
  - rewrite app_nil_r. apply NoDup_fmap_2; [|apply NoDup_seq]. intros i j E. lia.
  - exists m. by rewrite app_nil_r in H.
Qed.

Lemma demo_kend_ok : KERNBASE < demo_kend.
Proof. unfold KERNBASE, demo_kend. lia. Qed.
Lemma demo_kdata_ok : KERNLINK < demo_kdata < KERNBASE + PHYSTOP /\ demo_kdata mod 4096 = 0.
Proof. unfold KERNLINK, KERNBASE, EXTMEM, PHYSTOP, demo_kdata. lia. Qed.

(** A process without memory. *)
Lemma demo_space : exists m L d T V, uspace demo_kend m L d T V 0 /\ 227 <= zlen L.
Proof.
  destruct (demo_pages 300 ltac:(lia)) as [m H]. assert (zlen (demo_list 300) = 300) as Hl by (unfold demo_list, page_range; rewrite length_reverse, length_fmap, length_seq; lia).
  destruct (setupkvm_ok demo_kend demo_kdata (proj1 demo_kdata_ok) (proj2 demo_kdata_ok) m _ H ltac:(lia)) as (m' & d & L' & T & V & _ & _ & S). exists m', L', d, T, V. split.
  - split; [apply S | | | unfold KERNBASE; lia].
    + intros n Hn. rewrite (su_user _ _ _ _ _ _ _ _ S) by done. split; [by intros [? ?] | lia].
    + intros i j Hij Hj _. apply (su_tab _ _ _ _ _ _ _ _ S). lia.
  - pose proof (su_free _ _ _ _ _ _ _ _ S). lia.
Qed.

(** A process of two pages, which it may use. *)
Lemma demo_process : exists m L d T V, uspace demo_kend m L d T V 8192 /\ 223 <= zlen L /\ forall a, 0 <= a < 8192 -> accessible V a.
Proof.
  destruct demo_space as (m & L & d & T & V & H & HL). destruct (allocuvm_ok demo_kend m L d T V 0 8192 H) as (m' & L' & T' & V' & _ & H' & [G1 G2 G3 G4 G5 G6]).
  - unfold KERNBASE. lia.
  - change (up 8192 - up 0) with 2. lia.
  - change (up 0) with 0 in *. change (up 8192 - 0) with 2 in *. exists m', L', d, T', V'. split; [done|]. split; [lia|]. intros a Ha.
    destruct (G2 (a / 4096) ltac:(lia)) as (p & Hp & Ev & _). exists (entry (v2p p) 6). split; [done|]. unfold entry. intros E. apply (f_equal (fun z => Z.testbit z 2)) in E.
    rewrite Z.land_spec, !Z.lor_spec, Z.bits_0 in E. change (Z.testbit 6 2) with true in E. rewrite orb_true_r in E. done.
Qed.

Lemma freerange_frees_witness :
  exists m' L', freerange demo_kend (mk_mem (fun _ => 0) 0) (demo_kend + 5) (demo_kend + 20000) = Ok m' /\ mem_ok demo_kend m' L' /\
    forall p, p ∈ L' <-> p ∈ @nil Z \/ p mod 4096 = 0 /\ demo_kend + 5 <= p /\ p + 4096 <= demo_kend + 20000.
Proof.
  apply (freerange_frees demo_kend (mk_mem (fun _ => 0) 0) []).
  - split; [reflexivity | constructor | constructor].
  - unfold KERNBASE, demo_kend. lia.
  - lia.
  - lia.
  - unfold KERNBASE, PHYSTOP, demo_kend. lia.
  - intros p Hp. destruct (not_elem_of_nil p Hp).
Defined.

Lemma allocuvm_grows_witness : exists m m' L' d T' V', allocuvm demo_kend m d 0 5000 = Ok (m', 5000) /\ uspace demo_kend m' L' d T' V' 5000 /\ uread m' V' 4999 = Some 0.
Proof.
  destruct demo_space as (m & L & d & T & V & H & HL). destruct (allocuvm_grows demo_kend m L d T V 0 5000 H) as (m' & L' & T' & V' & E & H' & _ & _ & Hz).
  - unfold KERNBASE. lia.
  - change (up 5000 - up 0) with 2. lia.
  - exists m, m', L', d, T', V'. split; [exact E|]. split; [exact H'|]. apply Hz. change (up 0) with 0. lia.
Defined.

Lemma grow_shrink_witness : exists m m1 m2 L2 d T2 V, allocuvm demo_kend m d 8192 9000 = Ok (m1, 9000) /\ deallocuvm demo_kend m1 d 9000 8192 = Ok (m2, 8192) /\ uspace demo_kend m2 L2 d T2 V 8192.
Proof.
  destruct demo_process as (m & L & d & T & V & H & HL & _). destruct (grow_shrink demo_kend demo_kend_ok m L d T V 8192 9000 H) as (m1 & m2 & L2 & T2 & E1 & E2 & H2 & _).
  - unfold KERNBASE. lia.
  - change (up 9000 - up 8192) with 1. lia.
  - exists m, m1, m2, L2, d, T2, V. split; [exact E1|]. split; [exact E2 | exact H2].
Defined.

Lemma copyout_writes_witness : exists m m' d V, copyout m d 4094 [1; 2; 3; 4] = Ok (m', 0) /\ (is_Some (uaddr V 4097) -> uread m' V 4097 = Some 4).
Proof.
  destruct demo_process as (m & L & d & T & V & H & HL & Ha). destruct (copyout_writes demo_kend m L d T V 4094 [1; 2; 3; 4] (us_vm _ _ _ _ _ _ _ H)) as (m' & E & _ & R).
  - lia.
  - unfold KERNBASE. cbn. lia.
  - intros a Hr. apply Ha. cbn in Hr. lia.
  - exists m, m', d, V. split; [exact E|]. intros Hs. exact (R 4097 ltac:(unfold KERNBASE; lia) Hs).
Defined.

Lemma copyuvm_copies_witness : exists m m' d c L' T' V', copyuvm demo_kend demo_kdata m d 8192 = Ok (m', c) /\ uspace demo_kend m' L' c T' V' 8192 /\ kernel_maps V'.
Proof.
  destruct demo_process as (m & L & d & T & V & H & HL & _).
  destruct (copyuvm_copies demo_kend demo_kdata (proj1 demo_kdata_ok) (proj2 demo_kdata_ok) m L d T V 8192 H) as (m' & c & L' & T' & V' & E & _ & H' & _ & _ & Hk & _).
  - change (up 8192) with 2. lia.
  - exists m, m', d, c, L', T', V'. split; [exact E|]. split; [exact H' | exact Hk].
Defined.

Lemma fork_exit_conserves_witness : exists m m1 c m2 d, copyuvm demo_kend demo_kdata m d 8192 = Ok (m1, c) /\ freevm demo_kend m1 c = Ok m2.
Proof.
  destruct demo_process as (m & L & d & T & V & H & HL & _).
  destruct (fork_exit_conserves demo_kend demo_kend_ok demo_kdata (proj1 demo_kdata_ok) (proj2 demo_kdata_ok) m L d T V 8192 H) as (m1 & c & m2 & L2 & E1 & E2 & _).
  - change (up 8192) with 2. lia.
  - exists m, m1, c, m2, d. split; [exact E1 | exact E2].
Defined.

(** A process and its child; the child shrinks, and asks for too much. *)
Lemma spaces_isolated_witness :
  exists m m' c V2, vm_runs demo_kend m c 8192 [Resize (-4096); Resize 2147483647] = Ok (m', 4096) /\
    forall a, 0 <= a < KERNBASE -> uread m' V2 a = uread m V2 a.
Proof.
  destruct demo_process as (m0 & L0 & d & T & V & H0 & HL & _).
  destruct (copyuvm_ok demo_kend demo_kdata (proj1 demo_kdata_ok) (proj2 demo_kdata_ok) m0 L0 d T V 8192 H0) as (m & c & L & Tc & Vc & _ & _ & Hc & Hd & Hap & _); [change (up 8192) with 2; lia|].
  destruct (deallocuvm_ok demo_kend demo_kend_ok m L c Tc Vc 8192 4096 Hc ltac:(lia)) as (m1 & L1 & V1 & E1 & _).
  assert (vm_runs demo_kend m c 8192 [Resize (-4096); Resize 2147483647] = Ok (m1, 4096)) as E.
  { cbn [vm_runs vm_run]. change (0 <? -4096) with false. change (-4096 <? 0) with true. change (u32 (8192 + -4096)) with 4096. cbv iota. rewrite E1. cbn [rbind].
    change (4096 =? 0) with false. cbv iota. unfold allocuvm. reflexivity. }
  pose proof (spaces_isolated demo_kend demo_kend_ok m L c Tc Vc 8192 [Resize (-4096); Resize 2147483647] d T V (us_vm _ _ _ _ _ _ _ Hc)) as Hi.
  rewrite E in Hi. destruct Hi as (_ & L' & T' & V' & _ & _ & _ & Hr).
  - unfold KERNBASE. lia.
  - exact (us_vm _ _ _ _ _ _ _ Hd).
  - intros p Hp Hin. exact (Hap p Hin Hp).
  - repeat constructor.
  - exists m, m1, c, V. split; [exact E | exact Hr].
Defined.

Lemma allocuvm_reports_unmapped_witness : exists m m' d T V, allocuvm demo_kend m d 0 4096 = Ok (m', 4096) /\ vm_ok demo_kend m' [] d T V /\ V !! 0 = None.
Proof.
  destruct (demo_pages 2 ltac:(lia)) as [m H]. change (demo_list 2) with [demo_kend + 4096; demo_kend + 0] in H.
  destruct (setup_empty demo_kend demo_kdata m _ _ H) as (m1 & _ & Hv & _).
  destruct (allocuvm_reports_unmapped demo_kend m1 (demo_kend + 0) (demo_kend + 4096) ∅ ∅ 0) as (m' & E & H' & HV & _).
  - split; [exact Hv | | intros i j _ _ _; reflexivity | unfold KERNBASE; lia]. intros n Hn. rewrite lookup_empty. split; [intros [? Hx]; discriminate Hx | lia].
  - lia.
  - reflexivity.
  - exists m1, m', (demo_kend + 4096), ∅, ∅. split; [exact E|]. split; [exact H' | exact HV].
Defined.
