(* ===== verification/Syscall.v ===== *)
(** System calls: src/src/syscall.c and syscall.h, the arguments and the
    dispatch, src/src/sysproc.c, the traps of src/src/trap.c and the drawing calls
    of src/src/sysdraw.c.

    [um] is the memory of the current process as the kernel sees it at the user's
    addresses; [sz] and [esp] are [proc->sz] and [proc->tf->esp].  [None] is the
    result -1 of a fetch. *)
From S2P Require Import Prelude Ulib Draw Proc ProcSys Vm.

Section Fetch.
Context (um : Z -> Z) (sz esp : Z).

Definition fetchint (addr : Z) : option Z :=
  if (sz <=? addr) || (sz <? u32 (addr + 4)) then None else Some (s32 (word um addr)).

(** The loop of [fetchstr]: [n] bytes are left before [ep]. *)
Fixpoint fetchstr_loop (n : nat) (s : Z) : option Z :=
  match n with
  | O => None
  | S n' => if um s =? 0 then Some s else fetchstr_loop n' (s + 1)
  end.

(** The address and the length of the string. *)
Definition fetchstr (addr : Z) : option (Z * Z) :=
  if sz <=? addr then None else
  match fetchstr_loop (Z.to_nat (sz - addr)) addr with
  | Some s => Some (addr, s - addr)
  | None => None
  end.

Definition argint (n : Z) : option Z := fetchint (u32 (esp + 4 + 4 * n)).

Definition argptr (n size : Z) : option Z :=
  match argint n with
  | None => None
  | Some i => if (sz <=? u32 i) || (sz <? u32 (u32 i + size)) then None else Some (u32 i)
  end.

Definition argstr (n : Z) : option (Z * Z) :=
  match argint n with
  | None => None
  | Some addr => fetchstr (u32 addr)
  end.
End Fetch.

(** * The table of system calls *)

Inductive sysname :=
  | Sys_fork | Sys_exit | Sys_wait | Sys_pipe | Sys_read | Sys_kill | Sys_exec | Sys_fstat | Sys_chdir | Sys_dup
  | Sys_getpid | Sys_sbrk | Sys_sleep | Sys_uptime | Sys_open | Sys_write | Sys_mknod | Sys_unlink | Sys_link | Sys_mkdir
  | Sys_close | Sys_drawrect | Sys_drawarea | Sys_update | Sys_get_msg | Sys_drawarea_short | Sys_drawgbk | Sys_drawarea_color | Sys_drawgbk_color.

#[global] Instance sysname_eq_dec : EqDecision sysname.
Proof. solve_decision. Defined.

(** By number; 0 and 27 are null pointers of the table. *)
Definition syscalls : list (option sysname) := [
  None; Some Sys_fork; Some Sys_exit; Some Sys_wait; Some Sys_pipe; Some Sys_read; Some Sys_kill; Some Sys_exec; Some Sys_fstat; Some Sys_chdir; Some Sys_dup;
  Some Sys_getpid; Some Sys_sbrk; Some Sys_sleep; Some Sys_uptime; Some Sys_open; Some Sys_write; Some Sys_mknod; Some Sys_unlink; Some Sys_link; Some Sys_mkdir;
  Some Sys_close; Some Sys_drawrect; Some Sys_drawarea; Some Sys_update; Some Sys_get_msg; Some Sys_drawarea_short; None; Some Sys_drawgbk; Some Sys_drawarea_color; Some Sys_drawgbk_color].

(** [syscall]: what runs, given the calls as functions of the state; the result
    goes to [eax]. *)
Definition syscall {S} (call : sysname -> S -> result (S * Z)) (st : S) (eax : Z) : result (S * Z) :=
  let num := s32 eax in
  match (if (0 <? num) && (num <? zlen syscalls) then nth (Z.to_nat num) syscalls None else None) with
  | Some f => let! '(st, r) := call f st in Ok (st, u32 r)
  | None => Ok (st, u32 (-1))
  end.

(** * sysproc.c *)

Section Sysproc.
Context (ptable_addr forkret trapret ticks_addr : Z) {W : Type} `{!ProcEnv W}.

Definition sys_fork (w : W) (pt : ptable) (me : nat) : result (W * ptable * Z) := fork forkret trapret w pt me.
Definition sys_exit (w : W) (pt : ptable) (me : nat) : result (W * ptable) := exit ptable_addr w pt me.
Definition sys_wait (w : W) (pt : ptable) (me : nat) : result (W * ptable * waited) := wait_pass ptable_addr w pt me.
Definition sys_kill (pt : ptable) (pid : option Z) : ptable * Z := match pid with Some pid => kill pt pid | None => (pt, -1) end.
Definition sys_getpid (pt : ptable) (me : nat) : result Z := let! p := at_slot pt me in Ok (p_pid p).

Definition sys_sbrk (w : W) (pt : ptable) (me : nat) (n : option Z) : result (W * ptable * Z) :=
  match n with
  | None => Ok (w, pt, -1)
  | Some n =>
      let! p := at_slot pt me in
      let addr := s32 (p_sz p) in
      let! '(w, pt, r) := growproc w pt me n in
      Ok (w, pt, if r <? 0 then -1 else addr)
  end.

(** A round of the loop of [sys_sleep]: the result, or the process sleeps.  The
    comparison is between unsigned numbers. *)
Definition sleep_round (pt : ptable) (me : nat) (ticks ticks0 n : Z) : result (ptable * option Z) :=
  if u32 (ticks - ticks0) <? u32 n then
    let! p := at_slot pt me in
    if p_killed p then Ok (pt, Some (-1))
    else let! pt := sleep pt me ticks_addr in Ok (pt, None)
  else Ok (pt, Some 0).

Definition sys_uptime (ticks : Z) : Z := s32 ticks.

(** The timer interrupt of [trap] on the first processor. *)
Definition timer_tick (pt : ptable) (ticks : Z) : ptable * Z := (wakeup pt ticks_addr, u32 (ticks + 1)).
End Sysproc.

(** Properties of syscall.c and sysproc.c. *)

#[local] Ltac Zify.zify_post_hook ::= Z.to_euclidean_division_equations.

Section Fetch.
Context (um : Z -> Z) (sz esp : Z) (Hsz : 0 <= sz <= KERNBASE).

Lemma fetchint_bounds addr v : fetchint um sz addr = Some v -> 0 <= addr -> addr + 4 <= sz /\ v = s32 (word um addr).
Proof.
  unfold fetchint, KERNBASE in *. destruct (Z.leb_spec sz addr); cbn [orb]; [done|]. intros H0 Ha. rewrite u32_small in H0 by lia.
  destruct (Z.ltb_spec sz (addr + 4)); [done|]. injection H0 as <-. lia.
Qed.

(** The argument lies in the memory of the process. *)
Lemma argint_bounds n v : argint um sz esp n = Some v -> 0 <= u32 (esp + 4 + 4 * n) /\ u32 (esp + 4 + 4 * n) + 4 <= sz.
Proof. unfold argint. pose proof (u32_range (esp + 4 + 4 * n)). intros [H1 _]%fetchint_bounds; lia. Qed.

(** C35: a pointer that [argptr] accepts for a block of [size >= 0] bytes points into
    the memory of the process, and so does the whole block; the argument itself
    was read from the memory of the process. *)
Theorem argptr_in_bounds n size p :
  0 <= size < 2 ^ 31 -> argptr um sz esp n size = Some p ->
  0 <= p /\ p + size <= sz /\ 0 <= u32 (esp + 4 + 4 * n) /\ u32 (esp + 4 + 4 * n) + 4 <= sz.
Proof.
  intros Hs H. unfold argptr in H. destruct (argint um sz esp n) as [i|] eqn:E; [|done]. apply argint_bounds in E. pose proof (u32_range i) as Hr. unfold KERNBASE in *.
  destruct (Z.leb_spec sz (u32 i)); cbn [orb] in H; [done|]. rewrite u32_small in H by lia. destruct (Z.ltb_spec sz (u32 i + size)); [done|]. injection H as <-. lia.
Qed.

(** [argptr] does not refuse a negative size: the sum wraps round, so a pointer to
    the last byte of the process passes for a block of -1 bytes, which [sys_read]
    and [sys_write] hand on as a count of 2^32 - 1. *)
Theorem argptr_negative_size n i size :
  argint um sz esp n = Some i -> u32 i < sz -> - u32 i <= size < 0 -> argptr um sz esp n size = Some (u32 i) /\ 2 ^ 31 <= u32 size.
Proof.
  intros E Hi Hs. unfold KERNBASE in *. pose proof (u32_range i). unfold argptr. rewrite E, (proj2 (Z.leb_gt sz (u32 i))) by lia. cbn [orb]. rewrite (u32_small (u32 i + size)) by lia.
  rewrite (proj2 (Z.ltb_ge sz (u32 i + size))) by lia. split; [done|]. unfold u32. lia.
Qed.

Lemma fetchstr_loop_spec k s r :
  fetchstr_loop um k s = Some r -> s <= r < s + Z.of_nat k /\ um r = 0 /\ forall a, s <= a < r -> um a <> 0.
Proof.
  revert s. induction k as [|k IH]; intros s; [done|]. cbn [fetchstr_loop]. destruct (Z.eqb_spec (um s) 0) as [E|E].
  - intros H. injection H as <-. split; [lia|]. split; [done|]. lia.
  - intros H. destruct (IH _ H) as (H1 & H2 & H3). split; [lia|]. split; [done|]. intros a Ha. destruct (decide (a = s)) as [->|]; [done | apply H3; lia].
Qed.

Lemma fetchstr_loop_none k s : fetchstr_loop um k s = None -> forall a, s <= a < s + Z.of_nat k -> um a <> 0.
Proof.
  revert s. induction k as [|k IH]; intros s; [lia|]. cbn [fetchstr_loop]. destruct (Z.eqb_spec (um s) 0) as [E|E]; [done|]. intros H a Ha.
  destruct (decide (a = s)) as [->|]; [done | apply (IH _ H); lia].
Qed.

(** [argstr] accepts exactly the pointers to a string that ends inside the memory
    of the process, and returns its length. *)
Theorem argstr_decides n i :
  argint um sz esp n = Some i ->
  match argstr um sz esp n with
  | Some (a, len) => a = u32 i /\ 0 <= len /\ a + len < sz /\ um (a + len) = 0 /\ forall x, a <= x < a + len -> um x <> 0
  | None => forall x, u32 i <= x < sz -> um x <> 0
  end.
Proof.
  intros E. pose proof (u32_range i). unfold argstr, fetchstr. rewrite E. destruct (Z.leb_spec sz (u32 i)); [lia|].
  destruct (fetchstr_loop um (Z.to_nat (sz - u32 i)) (u32 i)) as [r|] eqn:El.
  - apply fetchstr_loop_spec in El as (H1 & H2 & H3). split; [done|]. split; [lia|]. split; [lia|]. replace (u32 i + (r - u32 i)) with r by lia. done.
  - intros x Hx. apply (fetchstr_loop_none _ _ El). lia.
Qed.
End Fetch.

(** [syscall] runs the call of the table, or returns -1 and changes nothing when the
    number is not one of a call: it is 0, negative, 27 or greater than 30. *)
Theorem syscall_dispatch {S} (call : sysname -> S -> result (S * Z)) st eax :
  (0 < s32 eax <= 30 /\ s32 eax <> 27 ->
   exists f, nth (Z.to_nat (s32 eax)) syscalls None = Some f /\ syscall call st eax = (let! '(st, r) := call f st in Ok (st, u32 r))) /\
  (s32 eax <= 0 \/ s32 eax = 27 \/ 30 < s32 eax -> syscall call st eax = Ok (st, 2 ^ 32 - 1)).
Proof.
  unfold syscall. change (zlen syscalls) with 31. generalize (s32 eax). intros num. split.
  - intros [Hn Hne]. rewrite (proj2 (Z.ltb_lt 0 num)), (proj2 (Z.ltb_lt num 31)) by lia. cbn [andb].
    assert (exists f, nth (Z.to_nat num) syscalls None = Some f) as [f Ef].
    { assert (forall k, (0 < k <= 30)%nat -> k <> 27%nat -> exists f, nth k syscalls None = Some f) as Hk.
      { intros k Hk1 Hk2. do 31 (destruct k as [|k]; [(exfalso; lia) || (cbn; eexists; reflexivity)|]). lia. }
      apply Hk; lia. }
    exists f. rewrite Ef. done.
  - intros Hn. assert ((if (0 <? num) && (num <? 31) then nth (Z.to_nat num) syscalls None else None) = None) as ->; [|done].
    destruct Hn as [Hn|[->|Hn]]; [rewrite (proj2 (Z.ltb_ge 0 num)) by lia; done | done | rewrite (proj2 (Z.ltb_ge num 31)), andb_false_r by lia; done].
Qed.

(** * [sys_sleep] *)

Section Sleep.
Context (ticks_addr : Z).

(** a process in [sys_sleep] is woken by every tick and goes back to sleep until
    as many ticks have passed as it asked for, and no more: also when the counter
    wraps round. *)
Theorem sleep_counts pt me ticks0 n k :
  0 <= ticks0 < 2 ^ 32 -> 0 < n < 2 ^ 31 -> Z.of_nat k < 2 ^ 31 -> p_state (slot pt me) = RUNNING -> p_killed (slot pt me) = false ->
  let ticks := u32 (ticks0 + Z.of_nat k) in
  (Z.of_nat k < n -> exists pt', sleep_round ticks_addr pt me ticks ticks0 n = Ok (pt', None) /\ p_state (slot pt' me) = SLEEPING /\
     let '(pt2, ticks') := timer_tick ticks_addr pt' ticks in p_state (slot pt2 me) = RUNNABLE /\ ticks' = u32 (ticks0 + Z.of_nat (S k))) /\
  (n <= Z.of_nat k -> sleep_round ticks_addr pt me ticks ticks0 n = Ok (pt, Some 0)).
Proof.
  intros Ht Hn Hk Hr Hkl ticks. assert (u32 (ticks - ticks0) = Z.of_nat k) as Ed by (unfold ticks, u32; lia). unfold sleep_round. rewrite Ed, (u32_small n) by lia. split.
  - intros Hlt. rewrite (proj2 (Z.ltb_lt _ _) Hlt). assert (me < length (procs pt))%nat as Hme by (apply slot_used; by rewrite Hr). rewrite at_slot_ok, rbind_ok, Hkl by done.
    unfold sleep, sched. rewrite at_slot_ok, rbind_ok by (by rewrite len_upd). rewrite slot_upd_eq by done. rewrite (proj2 (is_state_false _ RUNNING)) by done. rewrite rbind_ok.
    eexists. split; [reflexivity|]. rewrite slot_upd_eq by done. split; [done|]. unfold timer_tick, wakeup. rewrite slot_wakeup, slot_upd_eq by done. split.
    + unfold wake. cbn [set_state set_chan p_state p_chan]. rewrite Z.eqb_refl. done.
    + unfold ticks, u32. lia.
  - intros Hge. rewrite (proj2 (Z.ltb_ge _ _) Hge). done.
Qed.
End Sleep.

(** * Witnesses *)

(** A process of 200 bytes: its stack pointer is 96, the first argument, at 100, is
    50, and the string [AB] is at 50. *)
Definition demo_mem (a : Z) : Z := if a =? 100 then 50 else if a =? 50 then 65 else if a =? 51 then 66 else 0.

Lemma argptr_in_bounds_witness : argptr demo_mem 200 96 0 150 = Some 50 /\ 0 <= 50 /\ 50 + 150 <= 200 /\ 0 <= 100 /\ 104 <= 200.
Proof.
  split; [reflexivity|].
  apply (argptr_in_bounds demo_mem 200 96 ltac:(unfold KERNBASE; lia) 0 150 50 ltac:(lia) ltac:(reflexivity)).
Defined.

Lemma argptr_negative_size_witness : argptr demo_mem 200 96 0 (-1) = Some 50 /\ 2 ^ 31 <= u32 (-1).
Proof. apply (argptr_negative_size demo_mem 200 96 ltac:(unfold KERNBASE; lia) 0 50 (-1)); [reflexivity | reflexivity | change (u32 50) with 50; lia]. Defined.

Lemma argstr_decides_witness : argstr demo_mem 200 96 0 = Some (50, 2) /\ demo_mem (50 + 2) = 0 /\ forall x, 50 <= x < 50 + 2 -> demo_mem x <> 0.
Proof.
  split; [reflexivity|].
  pose proof (argstr_decides demo_mem 200 96 0 50 ltac:(reflexivity)) as H.
  change (argstr demo_mem 200 96 0) with (Some (50, 2)) in H. destruct H as (_ & _ & _ & H). exact H.
Defined.

(** The counter wraps round during the sleep. *)
Lemma sleep_counts_witness :
  let pt := upd boot_table 0 (set_state RUNNING) in
  (exists pt', sleep_round 4096 pt 0 0 (2 ^ 32 - 1) 2 = Ok (pt', None)) /\ sleep_round 4096 pt 0 1 (2 ^ 32 - 1) 2 = Ok (pt, Some 0).
Proof.
  intros pt. split.
  - destruct (sleep_counts 4096 pt 0 (2 ^ 32 - 1) 2 1) as [H _]; [lia | lia | lia | reflexivity | reflexivity|].
    destruct (H ltac:(lia)) as (pt' & Hr & _). exists pt'. exact Hr.
  - destruct (sleep_counts 4096 pt 0 (2 ^ 32 - 1) 2 2) as [_ H]; [lia | lia | lia | reflexivity | reflexivity|].
    exact (H ltac:(lia)).
Defined.

(** * Traps: src/src/trap.c

    [trap] over what it calls and looks at: a class of the kernel state, in which
    every call may change everything.  [exit] does not return. *)
Module Trap.

Definition T_SYSCALL : Z := 64.
Definition T_IRQ0 : Z := 32.
Definition IRQ_TIMER : Z := 0.
Definition IRQ_KBD : Z := 1.
Definition IRQ_COM1 : Z := 4.
Definition IRQ_MOUSE : Z := 12.
Definition IRQ_IDE : Z := 14.
Definition IRQ_SPURIOUS : Z := 31.

Class TrapEnv := {
  kern : Type;
  cpu_id : kern -> Z;
  has_proc : kern -> bool;                (** [proc != 0] *)
  proc_killed : kern -> bool;
  proc_running : kern -> bool;            (** [proc->state == RUNNING] *)
  set_killed : kern -> kern;
  set_tf : kern -> kern;                  (** [proc->tf = tf] *)
  syscall_ : kern -> kern;
  tick : kern -> kern;                    (** [ticks++; wakeup(&ticks)], under its lock *)
  lapiceoi : kern -> kern;
  ideintr_ : kern -> kern;
  kbdintr_ : kern -> kern;
  uartintr_ : kern -> kern;
  mouseintr_ : kern -> kern;
  report : kern -> kern;                  (** [cprintf] *)
  yield_ : kern -> kern;
}.

Inductive outcome {K : Type} := Returns (k : K) | Exits (k : K) | Panics (k : K).
Arguments outcome : clear implicits.

Section Trap.
Context `{TrapEnv}.

(** The [switch]; false when it panics. *)
Definition interrupt (k : kern) (tf : trapframe) : kern * bool :=
  let n := tf_trapno tf in
  if n =? T_IRQ0 + IRQ_TIMER then (lapiceoi (if cpu_id k =? 0 then tick k else k), true)
  else if n =? T_IRQ0 + IRQ_IDE then (lapiceoi (ideintr_ k), true)
  else if n =? T_IRQ0 + IRQ_IDE + 1 then (k, true)
  else if n =? T_IRQ0 + IRQ_KBD then (lapiceoi (kbdintr_ k), true)
  else if n =? T_IRQ0 + IRQ_COM1 then (lapiceoi (uartintr_ k), true)
  else if n =? T_IRQ0 + IRQ_MOUSE then (lapiceoi (mouseintr_ k), true)
  else if (n =? T_IRQ0 + 7) || (n =? T_IRQ0 + IRQ_SPURIOUS) then (lapiceoi (report k), true)
  else if negb (has_proc k) || (Z.land (tf_cs tf) 3 =? 0) then (report k, false)
  else (set_killed (report k), true).

Definition doomed (k : kern) (tf : trapframe) : bool := has_proc k && proc_killed k && (Z.land (tf_cs tf) 3 =? DPL_USER).

Definition trap (k : kern) (tf : trapframe) : outcome kern :=
  if tf_trapno tf =? T_SYSCALL then
    if proc_killed k then Exits k
    else
      let k := syscall_ (set_tf k) in
      if proc_killed k then Exits k else Returns k
  else
    let '(k, ok) := interrupt k tf in
    if negb ok then Panics k
    else if doomed k tf then Exits k
    else
      let k := if has_proc k && proc_running k && (tf_trapno tf =? T_IRQ0 + IRQ_TIMER) then yield_ k else k in
      if doomed k tf then Exits k else Returns k.

(** The interrupts and exceptions [trap] knows. *)
Definition known (n : Z) : bool :=
  bool_decide (n ∈ [T_SYSCALL; T_IRQ0 + IRQ_TIMER; T_IRQ0 + IRQ_IDE; T_IRQ0 + IRQ_IDE + 1; T_IRQ0 + IRQ_KBD; T_IRQ0 + IRQ_COM1;
    T_IRQ0 + IRQ_MOUSE; T_IRQ0 + 7; T_IRQ0 + IRQ_SPURIOUS]).

(** Whatever the handlers do, a killed process does not return to user space,
    and a process in user space cannot make the kernel panic: an exception it
    raises kills it. *)
Theorem user_traps k tf :
  Z.land (tf_cs tf) 3 = DPL_USER -> has_proc k = true -> (forall k, has_proc (set_killed k) = true /\ proc_killed (set_killed k) = true) ->
  (forall k', trap k tf = Returns k' -> has_proc k' = true -> proc_killed k' = false) /\
  (forall k', trap k tf <> Panics k') /\ (known (tf_trapno tf) = false -> exists k', trap k tf = Exits k').
Proof.
  intros Hcs Hp Hk. unfold trap, doomed. rewrite Hcs. change (DPL_USER =? DPL_USER) with true.
  assert (forall n, known n = true -> tf_trapno tf = n -> known (tf_trapno tf) = false -> False) as Hn by (intros; congruence).
  destruct (Z.eqb_spec (tf_trapno tf) T_SYSCALL) as [E|E].
  { pose proof (Hn T_SYSCALL eq_refl E) as Hf. destruct (proc_killed k); [split_and!; (done || eauto)|].
    destruct (proc_killed (syscall_ (set_tf k))) eqn:Ek; split_and!; (done || eauto || (by intros k' [= <-]) || tauto). }
  assert (exists k1, interrupt k tf = (k1, true) /\
    (known (tf_trapno tf) = false -> has_proc k1 = true /\ proc_killed k1 = true)) as (k1 & -> & Hkill).
  { unfold interrupt. repeat (match goal with |- context[tf_trapno tf =? ?n] =>
      destruct (Z.eqb_spec (tf_trapno tf) n) as [En|_]; [pose proof (Hn n eq_refl En); eexists; split; [reflexivity | tauto]|] end).
    rewrite Hp, Hcs. cbn. eexists. split; [reflexivity|]. intros _. apply Hk. }
  cbn [negb]. rewrite !andb_true_r. split_and!.
  - intros k'. destruct (has_proc k1 && proc_killed k1) eqn:E1; [done|]. generalize (if has_proc k1 && proc_running k1 && (tf_trapno tf =? T_IRQ0 + IRQ_TIMER) then yield_ k1 else k1).
    intros k2. destruct (has_proc k2 && proc_killed k2) eqn:E2; [done|]. intros [= <-] Hp2. by rewrite Hp2 in E2.
  - intros k'. destruct (has_proc k1 && proc_killed k1); [done|].
    generalize (if has_proc k1 && proc_running k1 && (tf_trapno tf =? T_IRQ0 + IRQ_TIMER) then yield_ k1 else k1).
    intros k2. by destruct (has_proc k2 && proc_killed k2).
  - intros Hu. destruct (Hkill Hu) as [-> ->]. by eexists.
Qed.
End Trap.
End Trap.

(** * The drawing calls: the [sys_] functions of src/src/sysdraw.c

    An array in user memory is the list of the elements that [argptr] has checked,
    so that a read past them is a fault.  The sizes of the arrays are computed in
    32 bits. *)
Module SysDraw.
Section SysDraw.
Context (um : Z -> Z) (sz esp : Z) (mouse_x mouse_y : Z).
Notation argint := (argint um sz esp).
Notation argptr := (argptr um sz esp).

(** [n] elements of [k] bytes at the address [p]. *)
Definition bytes_at (p n : Z) : list Z := (fun i => um (p + Z.of_nat i)) <$> seq 0 (Z.to_nat n).
Definition shorts_at (p n : Z) : list Z :=
  (fun i => um (p + 2 * Z.of_nat i) + 256 * um (p + 2 * Z.of_nat i + 1)) <$> seq 0 (Z.to_nat n).
Definition ints_at (p n : Z) : list Z := (fun i => s32 (word um (p + 4 * Z.of_nat i))) <$> seq 0 (Z.to_nat n).

(** The arguments all of them begin with. *)
Definition arg_area : option (Z * Z * Z * Z) :=
  match argint 0, argint 1, argint 2, argint 3 with
  | Some xl, Some yl, Some width, Some height => Some (xl, yl, width, height)
  | _, _, _, _ => None
  end.

Definition finished (r : result screen) : result (screen * Z) := let! s := r in Ok (s, 0).

Definition sys_drawrect (s : screen) : result (screen * Z) :=
  match arg_area, argint 4 with
  | Some (xl, yl, width, height), Some color => finished (ignore (drawrect s xl yl width height color))
  | _, _ => Ok (s, -1)
  end.

Definition sys_drawarea_short (s : screen) : result (screen * Z) :=
  match arg_area with
  | Some (xl, yl, width, height) =>
      match argptr 4 (s32 (2 * width * height)) with
      | Some p => finished (drawarea_short s xl yl width height (shorts_at p (width * height)))
      | None => Ok (s, -1)
      end
  | None => Ok (s, -1)
  end.

Definition sys_drawgbk (s : screen) : result (screen * Z) :=
  match arg_area, argptr 4 32 with
  | Some (xl, yl, width, height), Some p => finished (drawgbk s xl yl width height (bytes_at p 32))
  | _, _ => Ok (s, -1)
  end.

Definition sys_drawarea (s : screen) : result (screen * Z) :=
  match arg_area with
  | Some (xl, yl, width, height) =>
      match argptr 4 (s32 (4 * width * height)) with
      | Some p => finished (drawarea s xl yl width height (ints_at p (width * height)))
      | None => Ok (s, -1)
      end
  | None => Ok (s, -1)
  end.

Definition sys_drawgbk_color (s : screen) : result (screen * Z) :=
  match arg_area, argint 4, argptr 5 32 with
  | Some (xl, yl, width, height), Some color, Some p => finished (drawgbk_color s xl yl width height color (bytes_at p 32))
  | _, _, _ => Ok (s, -1)
  end.

Definition sys_drawarea_color (s : screen) : result (screen * Z) :=
  match arg_area, argint 4 with
  | Some (xl, yl, width, height), Some color =>
      match argptr 5 (s32 (4 * width * height)) with
      | Some p => finished (drawarea_color s xl yl width height color (ints_at p (width * height)))
      | None => Ok (s, -1)
      end
  | _, _ => Ok (s, -1)
  end.

Definition sys_update (s : screen) : result (screen * Z) := finished (update s mouse_x mouse_y).

(** Nothing checks the coordinates: [sys_drawrect] of one pixel left of the
    first one writes in front of the buffer, in the memory of the kernel. *)
Theorem sys_drawrect_overruns s color :
  argint 0 = Some (-1) -> argint 1 = Some 0 -> argint 2 = Some 1 -> argint 3 = Some 1 -> argint 4 = Some color ->
  0 <= color < 65536 -> 0 < SCREEN_WIDTH s -> 0 < SCREEN_HEIGHT s -> sys_drawrect s = Err OutOfBounds.
Proof.
  intros E0 E1 E2 E3 E4 Hc Hw Hh. unfold sys_drawrect, arg_area. rewrite E0, E1, E2, E3, E4. unfold drawrect.
  rewrite (proj2 (Z.leb_gt 65536 color)), (proj2 (Z.ltb_ge color 0)) by lia. change (-1 =? 0) with false. cbn [orb andb].
  unfold for_pixels. rewrite for_up_step by lia. rewrite for_up_step by lia. unfold set_color.
  rewrite (proj2 (Z.leb_gt (SCREEN_WIDTH s) (-1))), (proj2 (Z.leb_gt (SCREEN_HEIGHT s) 0)), (proj2 (Z.leb_gt 65536 color)), (proj2 (Z.ltb_ge color 0)) by lia.
  done.
Qed.
End SysDraw.
End SysDraw.
