(* ===== verification/Console.v ===== *)
(** The text console: src/src/console.c, [uartputc] and [uartgetc] of
    src/src/uart.c, and the user's src/src/printf.c.

    The CGA memory is the 25 rows of 80 cells of its text mode, and the cursor
    the 16-bit register of the controller.  What goes to the serial line is the
    list of the bytes sent.  [cons.lock] and [input.lock] make each function one
    step, [consoleread] between two sleeps. *)
From S2P Require Import Prelude Ulib Sys Textframe.

(** * Output *)

Definition BACKSPACE : Z := 256.
Definition cells : Z := 2000.

Record cga := mk_cga { crt : list Z; cursor : Z }.

Definition cgaputc (g : cga) (c : Z) : result cga :=
  let pos := cursor g in
  let! '(b, pos) :=
    if c =? 10 then Ok (crt g, pos + (80 - pos mod 80))
    else if c =? BACKSPACE then Ok (crt g, if 0 <? pos then pos - 1 else pos)
    else let! b := put (crt g) pos (Z.lor (Z.land c 255) 1792) in Ok (b, pos + 1) in
  let! '(b, pos) :=
    if 24 <=? pos / 80 then
      let! b := Kstring.kmemmove b 0 80 (23 * 80) in
      let pos := pos - 80 in
      let! b := for_up 0 (24 * 80 - pos) (fun i b => put b (pos + i) 0) b in
      Ok (b, pos)
    else Ok (b, pos) in
  let! b := put b pos (Z.lor 32 1792) in
  Ok (mk_cga b (u16 pos)).

(** [uart]: there is a serial port. *)
Record console := mk_console { screen : cga; uart : bool; sent : bytes; panicked : bool }.

Definition uartputc (k : console) (c : Z) : console :=
  if uart k then mk_console (screen k) (uart k) (sent k ++ [u8 c]) (panicked k) else k.

(** A processor that prints after a panic stops. *)
Definition consputc (k : console) (c : Z) : result console :=
  if panicked k then Err Panic else
  let k := if c =? BACKSPACE then uartputc (uartputc (uartputc k 8) 32) 8 else uartputc k c in
  let! g := cgaputc (screen k) c in
  Ok (mk_console g (uart k) (sent k) (panicked k)).

Fixpoint consputs (k : console) (s : bytes) : result console :=
  match s with
  | [] => Ok k
  | c :: s => let! k := consputc k c in consputs k s
  end.

(** [printint]: the digits go into [buf] backwards. *)
Definition digits : bytes := [48; 49; 50; 51; 52; 53; 54; 55; 56; 57; 97; 98; 99; 100; 101; 102].

Fixpoint digits_loop (fuel : nat) (digits buf : bytes) (i x base : Z) : result (bytes * Z) :=
  match fuel with
  | O => Err OutOfFuel
  | S fuel' =>
      let! d := get digits (x mod base) in
      let! buf := put buf i d in
      let x := x / base in
      if x =? 0 then Ok (buf, i + 1) else digits_loop fuel' digits buf (i + 1) x base
  end.

Definition printint_buf (digits : bytes) (xx base : Z) (sign : bool) : result (bytes * Z) :=
  let neg := sign && (xx <? 0) in
  let x := if neg then u32 (- xx) else u32 xx in
  let! '(buf, i) := digits_loop 33 digits (replicate 16 0) 0 x base in
  if neg then let! buf := put buf i 45 in Ok (buf, i + 1) else Ok (buf, i).

Definition printint (k : console) (xx base : Z) (sign : bool) : result console :=
  let! '(buf, i) := printint_buf digits xx base sign in
  for_down (i - 1) (-1) (fun i k => let! c := get buf i in consputc k c) k.

(** [str p] are the characters of the string at address [p].  The arguments are
    the words above [fmt] on the stack; [%c] increments the argument and not
    the pointer to it. *)
Definition null_str : bytes := [40; 110; 117; 108; 108; 41].

Section Cprintf.
Context (str : Z -> result bytes).

Fixpoint cprintf_loop (k : console) (fmt : bytes) (argp : list Z) : result console :=
  match fmt with
  | [] => Err OutOfBounds
  | c :: fmt =>
      if c =? 0 then Ok k
      else if negb (c =? 37) then let! k := consputc k c in cprintf_loop k fmt argp
      else match fmt with
      | [] => Err OutOfBounds
      | c :: fmt =>
          if c =? 0 then Ok k
          else if c =? 100 then
            let! a := get argp 0 in let! k := printint k (s32 a) 10 true in cprintf_loop k fmt (drop 1 argp)
          else if (c =? 120) || (c =? 112) then
            let! a := get argp 0 in let! k := printint k (s32 a) 16 false in cprintf_loop k fmt (drop 1 argp)
          else if c =? 115 then
            let! a := get argp 0 in
            let! s := if a =? 0 then Ok null_str else str a in
            let! k := consputs k s in cprintf_loop k fmt (drop 1 argp)
          else if c =? 99 then
            let! a := get argp 0 in let! k := consputc k a in cprintf_loop k fmt (u32 (a + 1) :: drop 1 argp)
          else if c =? 37 then let! k := consputc k 37 in cprintf_loop k fmt argp
          else let! k := consputc k 37 in let! k := consputc k c in cprintf_loop k fmt argp
      end
  end.

Definition cprintf (k : console) (fmt : option bytes) (argp : list Z) : result console :=
  match fmt with None => Err Panic | Some fmt => cprintf_loop k fmt argp end.
End Cprintf.

Definition consolewrite (k : console) (buf : bytes) (n : Z) : result (console * Z) :=
  let! k := for_up 0 n (fun i k => let! c := get buf i in consputc k (Z.land c 255)) k in
  Ok (k, n).

(** * Input *)

Definition INPUT_BUF : Z := 128.

(** The indices count the characters that have come in and wrap round at 2^32. *)
Record input := mk_input { ibuf : bytes; i_r : Z; i_w : Z; i_e : Z }.

Definition C (x : Z) : Z := x - 64.

(** The loop of the kill-line key. *)
Fixpoint kill_line (fuel : nat) (inp : input) (k : console) : result (input * console) :=
  match fuel with
  | O => Err OutOfFuel
  | S fuel' =>
      if i_e inp =? i_w inp then Ok (inp, k) else
      let! c := get (ibuf inp) (u32 (i_e inp - 1) mod INPUT_BUF) in
      if c =? 10 then Ok (inp, k) else
      let! k := consputc k BACKSPACE in
      kill_line fuel' (mk_input (ibuf inp) (i_r inp) (i_w inp) (u32 (i_e inp - 1))) k
  end.

(** One character; the result says whether the readers are woken.  [procdump]
    prints the process table. *)
Definition console_key (procdump : console -> result console) (inp : input) (k : console) (c : Z) : result (input * console * bool) :=
  if c =? C 80 then let! k := procdump k in Ok (inp, k, false)
  else if c =? C 85 then let! '(inp, k) := kill_line 129 inp k in Ok (inp, k, false)
  else if (c =? C 72) || (c =? 127) then
    if i_e inp =? i_w inp then Ok (inp, k, false)
    else let! k := consputc k BACKSPACE in Ok (mk_input (ibuf inp) (i_r inp) (i_w inp) (u32 (i_e inp - 1)), k, false)
  else if negb (c =? 0) && (u32 (i_e inp - i_r inp) <? INPUT_BUF) then
    let c := if c =? 13 then 10 else c in
    let! b := put (ibuf inp) (i_e inp mod INPUT_BUF) c in
    let e := u32 (i_e inp + 1) in
    let! k := consputc k c in
    if (c =? 10) || (c =? C 68) || (e =? u32 (i_r inp + INPUT_BUF))
    then Ok (mk_input b (i_r inp) e e, k, true)
    else Ok (mk_input b (i_r inp) (i_w inp) e, k, false)
  else Ok (inp, k, false).

(** [consoleintr] on the characters that [getc] returns before -1. *)
Fixpoint consoleintr (procdump : console -> result console) (inp : input) (k : console) (cs : bytes) : result (input * console * bool) :=
  match cs with
  | [] => Ok (inp, k, false)
  | c :: cs =>
      let! '(inp, k, w1) := console_key procdump inp k c in
      let! '(inp, k, w2) := consoleintr procdump inp k cs in
      Ok (inp, k, w1 || w2)
  end.

(** How a run of [consoleread] ends: with its result, or asleep with [n] bytes
    still to read. *)
Inductive rstat := RRet (r : Z) | RSleep (n : Z).

(** A run from where [n] of [target] bytes are missing, with the bytes it
    copies. *)
Fixpoint consoleread_loop (k : nat) (inp : input) (n target : Z) (killed : bool) : result (input * bytes * rstat) :=
  match k with
  | O => Ok (inp, [], RRet (target - n))
  | S k' =>
      if i_r inp =? i_w inp then
        if killed then Ok (inp, [], RRet (-1)) else Ok (inp, [], RSleep n)
      else
        let! c := get (ibuf inp) (i_r inp mod INPUT_BUF) in
        let inp1 := mk_input (ibuf inp) (u32 (i_r inp + 1)) (i_w inp) (i_e inp) in
        if c =? C 68 then Ok (if n <? target then inp else inp1, [], RRet (target - n))
        else if c =? 10 then Ok (inp1, [c], RRet (target - (n - 1)))
        else
          let! '(inp, s, o) := consoleread_loop k' inp1 (n - 1) target killed in
          Ok (inp, c :: s, o)
  end.

(** A call starts with [n = target]; a sleeping one resumes with what is left. *)
Definition consoleread (inp : input) (n target : Z) (killed : bool) : result (input * bytes * rstat) :=
  consoleread_loop (Z.to_nat n) inp n target killed.

(** * printf.c *)

(** The world is the kernel behind [write] and the text frame of the command
    window, if there is one. *)
Section Printf.
Context {W : Type} `{!Sys W} (str : Z -> result bytes).

Definition upper_digits : bytes := [48; 49; 50; 51; 52; 53; 54; 55; 56; 57; 65; 66; 67; 68; 69; 70].

Definition putc (w : W) (cmd : option textframe) (fd c : Z) : result (W * option textframe) :=
  let w := (sys_write w fd [u8 c]).1 in
  match cmd with
  | Some t =>
      if (fd =? 1) || (fd =? 2) then
        if c =? 10 then
          let! t := new_line_to_editor t in let! t := move_to_next_line t in Ok (w, Some t)
        else
          let! t := putc_to_str t c in let! t := move_to_next_char t in Ok (w, Some t)
      else Ok (w, Some t)
  | None => Ok (w, None)
  end.

Fixpoint puts (w : W) (cmd : option textframe) (fd : Z) (s : bytes) : result (W * option textframe) :=
  match s with
  | [] => Ok (w, cmd)
  | c :: s => let! '(w, cmd) := putc w cmd fd c in puts w cmd fd s
  end.

Definition uprintint (w : W) (cmd : option textframe) (fd xx base : Z) (sgn : bool) : result (W * option textframe) :=
  let! '(buf, i) := printint_buf upper_digits xx base sgn in
  for_down (i - 1) (-1) (fun i s => let! c := get buf i in putc s.1 s.2 fd c) (w, cmd).

(** [pct]: the state is ['%']. *)
Fixpoint printf_loop (w : W) (cmd : option textframe) (fd : Z) (fmt : bytes) (ap : list Z) (pct : bool) : result (W * option textframe) :=
  match fmt with
  | [] => Err OutOfBounds
  | c :: fmt =>
      if c =? 0 then Ok (w, cmd)
      else if negb pct then
        if c =? 37 then printf_loop w cmd fd fmt ap true
        else let! '(w, cmd) := putc w cmd fd c in printf_loop w cmd fd fmt ap false
      else if c =? 100 then
        let! a := get ap 0 in let! '(w, cmd) := uprintint w cmd fd (s32 a) 10 true in printf_loop w cmd fd fmt (drop 1 ap) false
      else if (c =? 120) || (c =? 112) then
        let! a := get ap 0 in let! '(w, cmd) := uprintint w cmd fd (s32 a) 16 false in printf_loop w cmd fd fmt (drop 1 ap) false
      else if c =? 115 then
        let! a := get ap 0 in
        let! s := if a =? 0 then Ok null_str else str a in
        let! '(w, cmd) := puts w cmd fd s in printf_loop w cmd fd fmt (drop 1 ap) false
      else if c =? 99 then
        let! a := get ap 0 in let! '(w, cmd) := putc w cmd fd (u8 a) in printf_loop w cmd fd fmt (drop 1 ap) false
      else if c =? 37 then let! '(w, cmd) := putc w cmd fd c in printf_loop w cmd fd fmt ap false
      else
        let! '(w, cmd) := putc w cmd fd 37 in
        let! '(w, cmd) := putc w cmd fd c in printf_loop w cmd fd fmt ap false
  end.

Definition printf (w : W) (cmd : option textframe) (fd : Z) (fmt : bytes) (ap : list Z) : result (W * option textframe) :=
  printf_loop w cmd fd fmt ap false.
End Printf.
