(* ===== verification/ConsoleLemmas.v ===== *)
(** Lemmas on console.c: the screen as a window on an endless tape, the digits
    of a number, and the ring buffer of the input. *)
From S2P Require Import Prelude Ulib Console.

#[local] Ltac Zify.zify_post_hook ::= Z.to_euclidean_division_equations.

(** * The screen *)

(** A tape of cells without an end, and the place of the cursor on it. *)
Record tape := mk_tape { cell : Z -> Z; head : Z }.

Definition write_cell (f : Z -> Z) (p v : Z) : Z -> Z := fun x => if x =? p then v else f x.

Definition blank_cell : Z := 1824.

(** What a character does to it. *)
Definition tape_put (t : tape) (c : Z) : tape :=
  let '(f, p) :=
    if c =? 10 then (cell t, 80 * (head t / 80 + 1))
    else (write_cell (cell t) (head t) (Z.lor (Z.land c 255) 1792), head t + 1) in
  mk_tape (write_cell f p blank_cell) p.

Definition tape_puts (t : tape) (s : bytes) : tape := fold_left tape_put s t.

(** The first cell of the 24 rows that end with the row of [p]. *)
Definition top (p : Z) : Z := 80 * Z.max 0 (p / 80 - 23).

Definition blank_tape : tape := mk_tape (fun _ => 0) 0.

(** The screen shows the last rows of the tape. *)
Record shows (g : cga) (t : tape) : Prop := {
  sh_len : length (crt g) = 2000%nat;
  sh_head : 0 <= head t;
  sh_cursor : cursor g = head t - top (head t);
  sh_cells : forall i, 0 <= i < 1920 -> crt g !! Z.to_nat i = Some (cell t (top (head t) + i));
  sh_rest : forall x, head t < x -> cell t x = 0;
}.

Lemma lookup_put {A} (l l' : list A) i v j :
  put l i v = Ok l' -> 0 <= j -> l' !! Z.to_nat j = if j =? i then Some v else l !! Z.to_nat j.
Proof.
  unfold put. destruct (Z.ltb_spec i 0); cbn [orb]; [done|]. destruct (Z.leb_spec (zlen l) i); [done|]. intros [= <-] Hj.
  destruct (Z.eqb_spec j i) as [->|]; [apply list_lookup_insert_eq; lia | apply list_lookup_insert_ne; lia].
Qed.

Lemma put_len {A} (l l' : list A) i v : put l i v = Ok l' -> length l' = length l.
Proof. unfold put. destruct (_ || _); [done|]. intros [= <-]. apply length_insert. Qed.

(** Clearing a range. *)
Lemma clear_range b lo n :
  0 <= lo -> 0 <= n -> lo + n <= zlen b ->
  exists b', for_up 0 n (fun i b => put b (lo + i) 0) b = Ok b' /\ length b' = length b /\
    forall j, 0 <= j -> b' !! Z.to_nat j = if (lo <=? j) && (j <? lo + n) then Some 0 else b !! Z.to_nat j.
Proof.
  intros Hlo Hn Hb.
  destruct (for_up_ex (fun i b' => length b' = length b /\
    forall j, 0 <= j -> b' !! Z.to_nat j = if (lo <=? j) && (j <? lo + i) then Some 0 else b !! Z.to_nat j)
    0 n (fun i b => put b (lo + i) 0) b) as (b' & E & Hl & H); [lia | | | exists b'; done].
  - split; [done|]. intros j Hj. destruct (Z.leb_spec lo j), (Z.ltb_spec j (lo + 0)); cbn [andb]; try done. lia.
  - intros i b1 Hi [Hl Hj]. rewrite put_ok by lia. eexists. split; [done|]. split; [by rewrite length_insert|]. intros j Hj0.
    rewrite (lookup_put b1 _ (lo + i) 0 j) by (done || apply put_ok; lia). destruct (Z.eqb_spec j (lo + i)) as [->|Hne].
    + rewrite (proj2 (Z.leb_le lo (lo + i))), (proj2 (Z.ltb_lt (lo + i) (lo + (i + 1)))) by lia. done.
    + rewrite Hj by done. destruct (Z.leb_spec lo j), (Z.ltb_spec j (lo + i)), (Z.ltb_spec j (lo + (i + 1))); cbn [andb]; try done; lia.
Qed.

(** The end of [cgaputc]: scrolling and the blank under the cursor. *)
Lemma scroll_shows b f p q :
  length b = 2000%nat -> 0 <= q -> p = q - top q \/ p = 1920 /\ q mod 80 = 0 /\ p = q - (top q - 80) ->
  (forall i, 0 <= i < 1920 -> b !! Z.to_nat i = Some (f ((q - p) + i))) -> (forall x, q <= x -> f x = 0) -> 0 <= p <= 1920 -> 0 <= q - p ->
  exists g, (let! '(b, pos) :=
     if 24 <=? p / 80 then
       let! b := Kstring.kmemmove b 0 80 (23 * 80) in
       let pos := p - 80 in
       let! b := for_up 0 (24 * 80 - pos) (fun i b => put b (pos + i) 0) b in
       Ok (b, pos)
     else Ok (b, p) in
   let! b := put b pos (Z.lor 32 1792) in
   Ok (mk_cga b (u16 pos))) = Ok g /\ shows g (mk_tape (write_cell f q blank_cell) q).
Proof.
  intros Hl Hq Hp Hb Hf Hr Ht. assert (forall x, q < x -> write_cell f q blank_cell x = 0) as Hrest.
  { intros x Hx. unfold write_cell. rewrite (proj2 (Z.eqb_neq x q)) by lia. apply Hf. lia. }
  destruct (Z.leb_spec 24 (p / 80)) as [Hs|Hs].
  - assert (p = 1920) as -> by (unfold top in Hp; lia). assert (q mod 80 = 0 /\ top q = q - 1840) as [Hm Et] by (unfold top in *; lia).
    destruct (ensures_inv _ _ (kmemmove_copied b 0 80 (23 * 80) ltac:(lia) ltac:(lia) ltac:(lia) ltac:(lia) ltac:(lia))) as (b1 & -> & Hl1 & H1). rewrite rbind_ok. cbv zeta.
    destruct (clear_range b1 (1920 - 80) (24 * 80 - (1920 - 80)) ltac:(lia) ltac:(lia) ltac:(lia)) as (b2 & -> & Hl2 & H2). rewrite rbind_ok, rbind_ok.
    destruct (put b2 (1920 - 80) (Z.lor 32 1792)) as [b3|] eqn:E3; [|rewrite put_ok in E3 by lia; done]. eexists. split; [reflexivity|].
    constructor; cbn [crt cursor cell head]; [rewrite (put_len _ _ _ _ E3); lia | lia | rewrite Et; unfold u16; lia | | done].
    intros i Hi. rewrite (lookup_put _ _ _ _ i E3) by lia. unfold write_cell. rewrite Et. destruct (Z.eqb_spec i (1920 - 80)) as [->|].
    { rewrite (proj2 (Z.eqb_eq _ _)) by lia. done. }
    rewrite (proj2 (Z.eqb_neq _ _)) by lia. rewrite H2 by lia. destruct (Z.leb_spec (1920 - 80) i), (Z.ltb_spec i (1920 - 80 + (24 * 80 - (1920 - 80)))); cbn [andb]; try lia.
    + by rewrite Hf by lia.
    + rewrite H1 by lia. rewrite (proj2 (Z.leb_le 0 i)), (proj2 (Z.ltb_lt i (0 + 23 * 80))) by lia. cbn [andb]. rewrite Hb by lia. f_equal. f_equal. lia.
  - assert (p = q - top q) as Ep by lia. rewrite rbind_ok.
    destruct (put b p (Z.lor 32 1792)) as [b3|] eqn:E3; [|rewrite put_ok in E3 by lia; done]. eexists. split; [reflexivity|].
    constructor; cbn [crt cursor cell head]; [rewrite (put_len _ _ _ _ E3); lia | lia | unfold u16; lia | | done].
    intros i Hi. rewrite (lookup_put _ _ _ _ i E3) by lia. unfold write_cell. destruct (Z.eqb_spec i p) as [->|].
    + rewrite (proj2 (Z.eqb_eq _ _)) by lia. done.
    + rewrite (proj2 (Z.eqb_neq _ _)) by lia. rewrite Hb by lia. f_equal. f_equal. lia.
Qed.

Lemma cgaputc_shows g t c : shows g t -> c <> BACKSPACE -> exists g', cgaputc g c = Ok g' /\ shows g' (tape_put t c).
Proof.
  intros [Hl Hh Hc Hcell Hrest] Hb. unfold cgaputc, tape_put. destruct (Z.eqb_spec c 10) as [->|Hn].
  - rewrite rbind_ok. apply scroll_shows; unfold top in *; try done; try lia.
    + intros i Hi. rewrite Hcell by lia. f_equal. f_equal. lia.
    + intros x Hx. apply Hrest. lia.
  - rewrite (proj2 (Z.eqb_neq c BACKSPACE)) by done.
    destruct (put (crt g) (cursor g) (Z.lor (Z.land c 255) 1792)) as [b|] eqn:E; [|rewrite put_ok in E by (unfold top in *; lia); done]. rewrite rbind_ok, rbind_ok.
    apply scroll_shows; unfold top in *; try done; try lia.
    + by rewrite (put_len _ _ _ _ E).
    + intros i Hi. rewrite (lookup_put _ _ _ _ i E) by lia. unfold write_cell. destruct (Z.eqb_spec i (cursor g)) as [->|].
      * rewrite (proj2 (Z.eqb_eq _ _)) by lia. done.
      * rewrite (proj2 (Z.eqb_neq _ _)) by lia. rewrite Hcell by lia. f_equal. f_equal. lia.
    + intros x Hx. unfold write_cell. rewrite (proj2 (Z.eqb_neq _ _)) by lia. apply Hrest. lia.
Qed.

(** Any character, and the erasing of one, stays on the screen. *)
Definition screen_ok (g : cga) : Prop := length (crt g) = 2000%nat /\ 0 <= cursor g < 2000.

Lemma cgaputc_safe g c : screen_ok g -> exists g', cgaputc g c = Ok g' /\ screen_ok g'.
Proof.
  intros [Hl Hc]. unfold cgaputc.
  assert (exists b p, (if c =? 10 then Ok (crt g, cursor g + (80 - cursor g mod 80))
    else if c =? BACKSPACE then Ok (crt g, if 0 <? cursor g then cursor g - 1 else cursor g)
    else let! b := put (crt g) (cursor g) (Z.lor (Z.land c 255) 1792) in Ok (b, cursor g + 1)) = Ok (b, p) /\ length b = 2000%nat /\ 0 <= p <= 2000) as (b & p & -> & Hb & Hp).
  { destruct (c =? 10); [exists (crt g); eexists; split; [done|]; split; [done|]; lia|].
    destruct (c =? BACKSPACE); [exists (crt g); eexists; split; [done|]; split; [done|]; destruct (Z.ltb_spec 0 (cursor g)); lia|].
    rewrite put_ok by lia. eexists _, _. split; [reflexivity|]. rewrite length_insert. split; [done|]. lia. }
  rewrite rbind_ok. destruct (Z.leb_spec 24 (p / 80)) as [Hs|Hs].
  - destruct (ensures_inv _ _ (kmemmove_copied b 0 80 (23 * 80) ltac:(lia) ltac:(lia) ltac:(lia) ltac:(lia) ltac:(lia))) as (b1 & -> & Hl1 & _). rewrite rbind_ok. cbv zeta.
    destruct (clear_range b1 (p - 80) (24 * 80 - (p - 80)) ltac:(lia) ltac:(lia) ltac:(lia)) as (b2 & -> & Hl2 & _). rewrite rbind_ok, rbind_ok.
    rewrite put_ok by lia. eexists. split; [reflexivity|]. split; cbn; [rewrite length_insert; lia | unfold u16; lia].
  - rewrite rbind_ok, put_ok by lia. eexists. split; [reflexivity|]. split; cbn; [rewrite length_insert; lia | unfold u16; lia].
Qed.

Definition console_ok (k : console) : Prop := screen_ok (screen k) /\ panicked k = false.

Lemma consputc_safe k c : console_ok k -> exists k', consputc k c = Ok k' /\ console_ok k'.
Proof.
  intros [Hs Hp]. unfold consputc. rewrite Hp.
  assert (forall c k, screen (uartputc k c) = screen k /\ panicked (uartputc k c) = panicked k) as Hu by (intros; unfold uartputc; destruct (uart _); done).
  cbv zeta. set (k1 := if c =? BACKSPACE then uartputc (uartputc (uartputc k 8) 32) 8 else uartputc k c).
  assert (screen k1 = screen k /\ panicked k1 = false) as [E1 E2].
  { unfold k1. destruct (c =? BACKSPACE); [rewrite !(proj1 (Hu _ _)), !(proj2 (Hu _ _)) | rewrite (proj1 (Hu _ _)), (proj2 (Hu _ _))]; done. }
  rewrite E1. destruct (cgaputc_safe (screen k) c Hs) as (g & -> & Hg). rewrite rbind_ok. eexists. split; [reflexivity|]. split; done.
Qed.

(** * Digits *)

(** The digits of [x], the last one first. *)
Fixpoint digits_of (fuel : nat) (base x : Z) : list Z :=
  match fuel with
  | O => []
  | S fuel' => x mod base :: (if x / base =? 0 then [] else digits_of fuel' base (x / base))
  end.

Definition value (base : Z) (ds : list Z) : Z := foldr (fun d v => d + base * v) 0 ds.

Lemma digits_of_spec fuel base x :
  2 <= base -> 0 <= x < base ^ Z.of_nat fuel -> (0 < fuel)%nat ->
  value base (digits_of fuel base x) = x /\ Forall (fun d => 0 <= d < base) (digits_of fuel base x) /\ (length (digits_of fuel base x) <= fuel)%nat.
Proof.
  intros Hb. revert x. induction fuel as [|fuel IH]; intros x Hx Hf; [lia|]. cbn [digits_of].
  assert (0 <= x mod base < base /\ x = base * (x / base) + x mod base) as [Hm Hd] by (split; [apply Z.mod_pos_bound; lia | apply Z.div_mod; lia]).
  destruct (Z.eqb_spec (x / base) 0) as [E|E].
  - cbn [value foldr length]. split; [rewrite E in Hd; lia|]. split; [repeat constructor; lia | lia].
  - assert (0 <= x / base < base ^ Z.of_nat fuel) as Hq.
    { split; [apply Z.div_pos; lia|]. apply Z.div_lt_upper_bound; [lia|]. replace (Z.of_nat (S fuel)) with (Z.of_nat fuel + 1) in Hx by lia. rewrite Z.pow_add_r, Z.pow_1_r in Hx by lia. lia. }
    assert (0 < fuel)%nat by (destruct fuel; [cbn in Hq; lia | lia]).
    destruct (IH (x / base) Hq) as (H1 & H2 & H3); [done|]. cbn [value foldr length]. fold (value base (digits_of fuel base (x / base))). rewrite H1.
    split; [lia|]. split; [by constructor | lia].
Qed.

(** The loop of [printint] leaves the digits in the buffer. *)
Lemma digits_loop_spec fuel more dg buf i x base :
  2 <= base <= zlen dg -> 0 <= x < base ^ Z.of_nat fuel -> (0 < fuel)%nat -> 0 <= i -> i + Z.of_nat fuel <= zlen buf ->
  let ds := digits_of fuel base x in
  exists buf', digits_loop (fuel + more) dg buf i x base = Ok (buf', i + zlen ds) /\ length buf' = length buf /\
    (forall j, 0 <= j < i -> buf' !! Z.to_nat j = buf !! Z.to_nat j) /\
    (forall j d, ds !! j = Some d -> buf' !! Z.to_nat (i + Z.of_nat j) = dg !! Z.to_nat d).
Proof.
  intros Hb. revert buf i x. induction fuel as [|fuel IH]; intros buf i x Hx Hf Hi Hl; [lia|]. cbn [digits_of digits_loop Nat.add].
  assert (0 <= x mod base < base) as Hm by (apply Z.mod_pos_bound; lia).
  destruct (get_lt dg (x mod base)) as (d & -> & Hd); [lia|]. rewrite rbind_ok.
  destruct (put buf i d) as [b1|] eqn:E1; [|rewrite put_ok in E1 by lia; done]. rewrite rbind_ok. cbv zeta.
  pose proof (put_len _ _ _ _ E1) as Hl1. destruct (Z.eqb_spec (x / base) 0) as [E|E].
  - exists b1. cbn [length]. split; [done|]. split; [done|]. split.
    + intros j Hj. rewrite (lookup_put _ _ _ _ j E1) by lia. by rewrite (proj2 (Z.eqb_neq j i)) by lia.
    + intros [|j] e; [|done]. intros [= <-]. rewrite Z.add_0_r, (lookup_put _ _ _ _ i E1), Z.eqb_refl by lia. done.
  - assert (0 <= x / base < base ^ Z.of_nat fuel) as Hq.
    { split; [apply Z.div_pos; lia|]. apply Z.div_lt_upper_bound; [lia|]. replace (Z.of_nat (S fuel)) with (Z.of_nat fuel + 1) in Hx by lia. rewrite Z.pow_add_r, Z.pow_1_r in Hx by lia. lia. }
    assert (0 < fuel)%nat by (destruct fuel; [cbn in Hq; lia | lia]).
    destruct (IH b1 (i + 1) (x / base) Hq) as (b2 & -> & Hl2 & H2 & H3); [done | lia | lia|]. exists b2. split; [f_equal; f_equal; cbn [length]; lia|].
    split; [lia|]. split.
    + intros j Hj. rewrite H2 by lia. rewrite (lookup_put _ _ _ _ j E1) by lia. by rewrite (proj2 (Z.eqb_neq j i)) by lia.
    + intros [|j] e.
      * intros [= <-]. rewrite Z.add_0_r, H2, (lookup_put _ _ _ _ i E1), Z.eqb_refl by lia. done.
      * cbn [lookup list_lookup]. intros He. specialize (H3 j e He). replace (i + Z.of_nat (S j)) with (i + 1 + Z.of_nat j) by lia. done.
Qed.

(** The text of a number, with the alphabet [dg]. *)
Definition numeral (dg : bytes) (ds : list Z) : bytes := (fun d => dg !!! Z.to_nat d) <$> reverse ds.

Definition text_of (dg : bytes) (fuel : nat) (base xx : Z) (sign : bool) : bytes :=
  let neg := sign && (xx <? 0) in
  (if neg then [45] else []) ++ numeral dg (digits_of fuel base (if neg then u32 (- xx) else u32 xx)).

Lemma prefix_by_lookup (l buf : bytes) :
  (forall j c, l !! j = Some c -> buf !! j = Some c) -> take (length l) buf = l.
Proof.
  intros H. apply list_eq. intros j. destruct (decide (j < length l)%nat) as [Hj|Hj].
  - rewrite lookup_take_lt by done. destruct (lookup_lt_is_Some_2 _ _ Hj) as [c Hc]. rewrite Hc. by apply H.
  - rewrite lookup_take_ge, lookup_ge_None_2 by lia. done.
Qed.

(** The sixteen bytes of [buf] are enough, and they hold the text backwards. *)
Lemma printint_buf_text fuel dg xx base sign :
  2 <= base <= zlen dg -> 2 ^ 32 <= base ^ Z.of_nat fuel -> (0 < fuel < 16)%nat ->
  let s := text_of dg fuel base xx sign in
  exists buf, printint_buf dg xx base sign = Ok (buf, zlen s) /\ take (length s) buf = reverse s.
Proof.
  intros Hb Hf Hn. unfold printint_buf, text_of. cbv zeta. set (neg := sign && (xx <? 0)). set (x := if neg then u32 (- xx) else u32 xx).
  assert (0 <= x < base ^ Z.of_nat fuel) as Hx by (pose proof (u32_range (- xx)); pose proof (u32_range xx); unfold x; destruct neg; lia).
  assert (zlen (replicate 16 0) = 16) as El by done.
  destruct (digits_loop_spec fuel (33 - fuel) dg (replicate 16 0) 0 x base) as (b & E & Hl & _ & H); [done | done | lia | lia | lia|].
  replace (fuel + (33 - fuel))%nat with 33%nat in E by lia. rewrite E, rbind_ok, Z.add_0_l.
  destruct (digits_of_spec fuel base x) as (_ & HF & Hlen); [lia | done | lia|]. set (ds := digits_of fuel base x) in *.
  assert (take (length ds) b = (fun d => dg !!! Z.to_nat d) <$> ds) as Ht.
  { rewrite <- (length_fmap (fun d => dg !!! Z.to_nat d) ds). apply prefix_by_lookup. intros j c. rewrite list_lookup_fmap. destruct (ds !! j) as [d|] eqn:Ed; [|done]. intros [= <-].
    specialize (H j d Ed). rewrite Z.add_0_l, Nat2Z.id in H. rewrite H. rewrite Forall_forall in HF. pose proof (HF d (list_elem_of_lookup_2 _ _ _ Ed)) as Hd. cbn in Hd.
    apply list_lookup_lookup_total_lt. lia. }
  unfold numeral. destruct neg.
  - rewrite put_ok by lia. rewrite rbind_ok. eexists. split; [f_equal; f_equal; rewrite length_app, length_fmap, length_reverse; cbn [length]; lia|].
    rewrite length_app, length_fmap, length_reverse, reverse_app, fmap_reverse, reverse_involutive. cbn [length Nat.add]. rewrite Nat2Z.id.
    rewrite (take_S_r _ _ 45) by (apply list_lookup_insert_eq; lia). rewrite take_insert_ge by lia. by rewrite Ht.
  - exists b. cbn [app]. rewrite length_fmap, length_reverse, fmap_reverse, reverse_involutive. by rewrite Ht.
Qed.

(** The last loop of [printint], for any way [f] of putting a character. *)
Fixpoint fold_chars {S} (f : S -> Z -> result S) (s : S) (l : bytes) : result S :=
  match l with
  | [] => Ok s
  | c :: l => let! s := f s c in fold_chars f s l
  end.

Lemma backwards_loop {S} (f : S -> Z -> result S) (l buf : bytes) s :
  take (length l) buf = reverse l ->
  for_down (zlen l - 1) (-1) (fun i s => let! c := get buf i in f s c) s = fold_chars f s l.
Proof.
  revert s. induction l as [|c l IH]; intros s H.
  - by rewrite for_down_done by (cbn; lia).
  - cbn [length] in *. rewrite for_down_step by lia. rewrite reverse_cons in H.
    assert (buf !! length l = Some c) as Hc.
    { rewrite <- (lookup_take_lt buf (Datatypes.S (length l)) (length l)) by lia. rewrite H. rewrite lookup_app_r by (rewrite length_reverse; lia). by rewrite length_reverse, Nat.sub_diag. }
    rewrite (get_ok buf _ c) by (lia || (replace (Z.to_nat (Z.of_nat (Datatypes.S (length l)) - 1)) with (length l) by lia; done)). rewrite rbind_ok.
    cbn [fold_chars]. destruct (f s c) as [s1|]; [|done]. rewrite !rbind_ok. replace (Z.of_nat (Datatypes.S (length l)) - 1 - 1) with (zlen l - 1) by lia.
    apply IH. apply (f_equal (take (length l))) in H. rewrite take_take, Nat.min_l in H by lia. rewrite H, take_app_le by (rewrite length_reverse; lia). apply take_ge. by rewrite length_reverse.
Qed.

(** The line discipline of the console: what the ring buffer of console.c
    implements. *)

#[local] Ltac Zify.zify_post_hook ::= Z.to_euclidean_division_equations.

(** * The abstract terminal

    [ready] are the characters the readers may take, [line] the ones that can
    still be edited. *)
Record tty := mk_tty { ready : bytes; line : bytes }.

Definition tty_size (t : tty) : Z := zlen (ready t) + zlen (line t).

Definition tty_key (t : tty) (c : Z) : tty :=
  if c =? C 80 then t
  else if c =? C 85 then mk_tty (ready t) []
  else if (c =? C 72) || (c =? 127) then mk_tty (ready t) (removelast (line t))
  else if negb (c =? 0) && (tty_size t <? INPUT_BUF) then
    let c := if c =? 13 then 10 else c in
    let l := line t ++ [c] in
    if (c =? 10) || (c =? C 68) || (tty_size t + 1 =? INPUT_BUF) then mk_tty (ready t ++ l) [] else mk_tty (ready t) l
  else t.

(** A reader takes up to [n] characters, to the end of a line or to the end-of-file
    character, which it leaves there unless it has read nothing. *)
Fixpoint tty_take (k : nat) (l : bytes) (n target : Z) (killed : bool) : bytes * bytes * rstat :=
  match k with
  | O => (l, [], RRet (target - n))
  | S k' =>
      match l with
      | [] => ([], [], if killed then RRet (-1) else RSleep n)
      | c :: l' =>
          if c =? C 68 then (if n <? target then l else l', [], RRet (target - n))
          else if c =? 10 then (l', [c], RRet (target - (n - 1)))
          else let '(rest, s, o) := tty_take k' l' (n - 1) target killed in (rest, c :: s, o)
      end
  end.

Definition tty_read (t : tty) (n target : Z) (killed : bool) : tty * bytes * rstat :=
  let '(rest, s, o) := tty_take (Z.to_nat n) (ready t) n target killed in (mk_tty rest (line t), s, o).

(** * The ring buffer implements it *)

(** The characters [l] lie in the ring from [r] on. *)
Definition ring_at (b : bytes) (r : Z) (l : bytes) : Prop :=
  length b = 128%nat /\ forall j c, l !! j = Some c -> b !! Z.to_nat ((r + Z.of_nat j) mod INPUT_BUF) = Some c.

Record implements (inp : input) (t : tty) : Prop := {
  im_ring : ring_at (ibuf inp) (i_r inp) (ready t ++ line t);
  im_r : 0 <= i_r inp < 2 ^ 32;
  im_w : i_w inp = u32 (i_r inp + zlen (ready t));
  im_e : i_e inp = u32 (i_r inp + tty_size t);
  im_room : tty_size t <= INPUT_BUF;
  im_line : Forall (fun c => c <> 10) (line t);
  im_free : line t <> [] -> tty_size t < INPUT_BUF;
}.

Lemma ring_snoc b r l c b' :
  ring_at b r l -> zlen l < INPUT_BUF -> put b (u32 (r + zlen l) mod INPUT_BUF) c = Ok b' -> ring_at b' r (l ++ [c]).
Proof.
  unfold INPUT_BUF. intros [Hl H] Hr E. split; [by rewrite (put_len _ _ _ _ E)|]. intros j d Hj.
  assert (u32 (r + zlen l) mod 128 = (r + zlen l) mod 128) as Em by (unfold u32; lia).
  assert (j < length (l ++ [c]))%nat as Hlt by (by apply lookup_lt_Some in Hj). rewrite length_app in Hlt. cbn in Hlt.
  rewrite (lookup_put _ _ _ _ _ E), Em by (unfold INPUT_BUF; lia).
  destruct (decide (j = length l)) as [->|Hne].
  - rewrite Z.eqb_refl. by rewrite list_lookup_middle in Hj by done.
  - rewrite lookup_app_l in Hj by lia. rewrite (proj2 (Z.eqb_neq _ _)); [by apply H|]. unfold INPUT_BUF. lia.
Qed.

Lemma ring_prefix b r l1 l2 : ring_at b r (l1 ++ l2) -> ring_at b r l1.
Proof. intros [Hl H]. split; [done|]. intros j c Hj. apply H. by apply lookup_app_l_Some. Qed.

Lemma ring_get b r l j c : ring_at b r l -> l !! j = Some c -> get b (u32 (r + Z.of_nat j) mod INPUT_BUF) = Ok c.
Proof.
  intros [Hl H] Hj. specialize (H j c Hj). replace (u32 (r + Z.of_nat j) mod INPUT_BUF) with ((r + Z.of_nat j) mod INPUT_BUF) by (unfold u32, INPUT_BUF; lia).
  apply get_ok; [unfold INPUT_BUF; lia | done].
Qed.

Lemma ring_tail b r c l : ring_at b r (c :: l) -> ring_at b (u32 (r + 1)) l.
Proof.
  intros [Hl H]. split; [done|]. intros j d Hj. specialize (H (S j) d Hj). rewrite <- H. f_equal. f_equal. unfold u32, INPUT_BUF. lia.
Qed.

(** The tests on the indices. *)
Lemma nothing_to_edit inp t : implements inp t -> (i_e inp =? i_w inp) = bool_decide (line t = []).
Proof.
  intros [_ Hr -> -> Hs _ _]. unfold tty_size, INPUT_BUF in *. destruct (line t) as [|c l] eqn:E; cbn [length] in *.
  - rewrite bool_decide_true by done. apply Z.eqb_eq. f_equal. lia.
  - rewrite bool_decide_false by done. apply Z.eqb_neq. unfold u32. lia.
Qed.

Lemma nothing_to_read inp t : implements inp t -> (i_r inp =? i_w inp) = bool_decide (ready t = []).
Proof.
  intros [_ Hr -> _ Hs _ _]. unfold tty_size, INPUT_BUF in *. destruct (ready t) as [|c l] eqn:E; cbn [length] in *.
  - rewrite bool_decide_true by done. apply Z.eqb_eq. unfold u32. lia.
  - rewrite bool_decide_false by done. apply Z.eqb_neq. unfold u32. lia.
Qed.

(** Erasing the last character. *)
Lemma erase_one inp t l c :
  implements inp t -> line t = l ++ [c] -> implements (mk_input (ibuf inp) (i_r inp) (i_w inp) (u32 (i_e inp - 1))) (mk_tty (ready t) l).
Proof.
  intros [Hg Hr Hw He Hs Hl Hf] E. unfold tty_size, INPUT_BUF in *. rewrite E, length_app in *. cbn [length] in *.
  constructor; cbn [ibuf i_r i_w i_e ready line]; unfold tty_size, INPUT_BUF; cbn [ready line]; try done; try lia.
  - rewrite app_assoc in Hg. by eapply ring_prefix.
  - rewrite He. unfold u32. lia.
  - by apply Forall_app in Hl as [? _].
Qed.

Lemma kill_line_spec fuel inp k t :
  implements inp t -> console_ok k -> (length (line t) < fuel)%nat ->
  exists inp' k', kill_line fuel inp k = Ok (inp', k') /\ implements inp' (mk_tty (ready t) []) /\ console_ok k'.
Proof.
  revert inp k t. induction fuel as [|fuel IH]; intros inp k t Hi Hk Hf; [lia|]. cbn [kill_line]. rewrite (nothing_to_edit _ _ Hi).
  destruct (line t) as [|c l _] eqn:E using rev_ind.
  - rewrite bool_decide_true by done. exists inp, k. split; [done|]. split; [|done]. destruct t as [r l]; cbn in *. by subst l.
  - rewrite bool_decide_false by (intros H; by destruct l). rewrite length_app in Hf. cbn in Hf.
    assert (get (ibuf inp) (u32 (i_e inp - 1) mod INPUT_BUF) = Ok c) as ->.
    { replace (u32 (i_e inp - 1)) with (u32 (i_r inp + Z.of_nat (length (ready t) + length l))).
      - apply (ring_get _ _ _ _ _ (im_ring _ _ Hi)). rewrite E, app_assoc. apply list_lookup_middle. by rewrite length_app.
      - rewrite (im_e _ _ Hi). unfold tty_size. rewrite E, length_app. cbn [length]. unfold u32. lia. }
    rewrite rbind_ok. pose proof (im_line _ _ Hi) as HF. rewrite E, Forall_app, Forall_singleton in HF. destruct HF as [_ Hc].
    rewrite (proj2 (Z.eqb_neq c 10)) by done. destruct (consputc_safe k BACKSPACE Hk) as (k1 & -> & Hk1). rewrite rbind_ok.
    apply (IH _ _ (mk_tty (ready t) l)); [by eapply erase_one | done | cbn; lia].
Qed.

Section Key.
Context (procdump : console -> result console) (Hpd : forall k, console_ok k -> exists k', procdump k = Ok k' /\ console_ok k').

Lemma console_key_spec inp k t c :
  implements inp t -> console_ok k ->
  exists inp' k' w, console_key procdump inp k c = Ok (inp', k', w) /\ implements inp' (tty_key t c) /\ console_ok k'.
Proof using Hpd.
  intros Hi Hk. unfold console_key, tty_key. destruct (c =? C 80).
  { destruct (Hpd k Hk) as (k1 & -> & Hk1). rewrite rbind_ok. eexists _, _, _. done. }
  destruct (c =? C 85).
  { destruct (kill_line_spec 129 inp k t Hi Hk) as (i1 & k1 & -> & H1 & H2); [pose proof (im_room _ _ Hi); unfold tty_size, INPUT_BUF in *; lia|]. rewrite rbind_ok. eexists _, _, _. done. }
  destruct ((c =? C 72) || (c =? 127)).
  { rewrite (nothing_to_edit _ _ Hi). destruct (line t) as [|d l _] eqn:E using rev_ind.
    - rewrite bool_decide_true by done. eexists _, _, _. split; [done|]. split; [|done]. destruct t as [r l]; cbn in *. by subst l.
    - rewrite bool_decide_false by (intros H; by destruct l). destruct (consputc_safe k BACKSPACE Hk) as (k1 & -> & Hk1). rewrite rbind_ok.
      eexists _, _, _. split; [done|]. split; [|done]. rewrite removelast_last. by eapply erase_one. }
  assert (u32 (i_e inp - i_r inp) = tty_size t) as Es.
  { rewrite (im_e _ _ Hi). pose proof (im_room _ _ Hi). unfold tty_size, INPUT_BUF, u32 in *. lia. }
  rewrite Es. destruct (negb (c =? 0) && (tty_size t <? INPUT_BUF)) eqn:Et; [|eexists _, _, _; done].
  apply andb_true_iff in Et as [_ Hroom%Z.ltb_lt]. set (d := if c =? 13 then 10 else c). cbv zeta.
  pose proof (im_ring _ _ Hi) as Hg. assert (length (ibuf inp) = 128%nat) as Hlb by apply Hg.
  destruct (put (ibuf inp) (i_e inp mod INPUT_BUF) d) as [b|] eqn:Ep; [|rewrite put_ok in Ep by (unfold INPUT_BUF; lia); done]. rewrite rbind_ok.
  destruct (consputc_safe k d Hk) as (k1 & -> & Hk1). rewrite rbind_ok.
  assert (ring_at b (i_r inp) (ready t ++ line t ++ [d])) as Hb.
  { rewrite app_assoc. apply (ring_snoc (ibuf inp)); [done | rewrite length_app; unfold tty_size in *; lia|]. rewrite <- Ep, (im_e _ _ Hi). unfold tty_size. by rewrite length_app, Nat2Z.inj_add. }
  assert ((u32 (i_e inp + 1) =? u32 (i_r inp + INPUT_BUF)) = (tty_size t + 1 =? INPUT_BUF)) as ->.
  { rewrite (im_e _ _ Hi). pose proof (im_r _ _ Hi). unfold u32, tty_size, INPUT_BUF in *. destruct (Z.eqb_spec (zlen (ready t) + zlen (line t) + 1) 128); [apply Z.eqb_eq | apply Z.eqb_neq]; lia. }
  destruct Hi as [_ Hr Hw He Hs Hl Hf]. assert (u32 (i_e inp + 1) = u32 (i_r inp + (tty_size t + 1))) as Ee by (rewrite He; unfold u32; lia).
  destruct ((d =? 10) || (d =? C 68) || (tty_size t + 1 =? INPUT_BUF)) eqn:Ec; eexists _, _, _; (split; [done|]; split; [|done]);
    unfold tty_size in *; constructor; cbn [ibuf i_r i_w i_e ready line]; unfold tty_size; cbn [ready line]; rewrite ?app_nil_r, ?length_app; cbn [length]; try done; try lia.
  - rewrite Ee. f_equal. lia.
  - rewrite Ee. f_equal. lia.
  - rewrite Ee. f_equal. lia.
  - apply Forall_app. split; [done|]. constructor; [|done]. apply orb_false_iff in Ec as [[Ec _]%orb_false_iff _]. by apply Z.eqb_neq in Ec.
Qed.

Lemma consoleintr_spec cs inp k t :
  implements inp t -> console_ok k ->
  exists inp' k' w, consoleintr procdump inp k cs = Ok (inp', k', w) /\ implements inp' (fold_left tty_key cs t) /\ console_ok k'.
Proof using Hpd.
  revert inp k t. induction cs as [|c cs IH]; intros inp k t Hi Hk; cbn [consoleintr fold_left]; [eexists _, _, _; done|].
  destruct (console_key_spec inp k t c Hi Hk) as (i1 & k1 & w1 & -> & H1 & H2). rewrite rbind_ok.
  destruct (IH i1 k1 _ H1 H2) as (i2 & k2 & w2 & -> & H3 & H4). rewrite rbind_ok. eexists _, _, _. done.
Qed.
End Key.

Lemma read_one inp t c l :
  implements inp t -> ready t = c :: l ->
  get (ibuf inp) (i_r inp mod INPUT_BUF) = Ok c /\ implements (mk_input (ibuf inp) (u32 (i_r inp + 1)) (i_w inp) (i_e inp)) (mk_tty l (line t)).
Proof.
  intros [Hg Hr Hw He Hs Hl Hf] E. unfold tty_size, INPUT_BUF in *. rewrite E in *. cbn [length app] in *. split.
  - pose proof (ring_get _ _ _ 0%nat c Hg eq_refl) as G. cbn [Z.of_nat] in G. by rewrite Z.add_0_r, u32_small in G by lia.
  - constructor; cbn [ibuf i_r i_w i_e ready line]; unfold tty_size, INPUT_BUF; cbn [ready line]; try done; try lia.
    + by eapply ring_tail.
    + apply u32_range.
    + rewrite Hw. unfold u32. lia.
    + rewrite He. unfold u32. lia.
Qed.

Lemma consoleread_spec k inp t n target killed :
  implements inp t ->
  let '(rest, s, o) := tty_take k (ready t) n target killed in
  exists inp', consoleread_loop k inp n target killed = Ok (inp', s, o) /\ implements inp' (mk_tty rest (line t)).
Proof.
  revert inp t n. induction k as [|k IH]; intros inp t n Hi; cbn [tty_take consoleread_loop].
  - exists inp. split; [done|]. by destruct t.
  - rewrite (nothing_to_read _ _ Hi). destruct (ready t) as [|c l] eqn:E.
    + rewrite bool_decide_true by done. exists inp. destruct killed; (split; [done|]); destruct t as [r w]; cbn in *; by subst r.
    + rewrite bool_decide_false by done. destruct (read_one inp t c l Hi E) as [-> H1]. rewrite rbind_ok. cbv zeta. destruct (c =? C 68).
      * exists (if n <? target then inp else mk_input (ibuf inp) (u32 (i_r inp + 1)) (i_w inp) (i_e inp)). split; [done|].
        destruct (n <? target); [|done]. destruct t as [r w]; cbn in *. by subst r.
      * destruct (c =? 10); [eexists; done|]. specialize (IH _ _ (n - 1) H1). cbn [ready line] in IH.
        destruct (tty_take k l (n - 1) target killed) as [[rest s] o]. destruct IH as (i1 & -> & H2). rewrite rbind_ok. eexists. done.
Qed.
