(* ===== verification/ConsoleProps.v ===== *)
(** Properties of the text console: console.c and printf.c. *)
From S2P Require Import Prelude Ulib Sys Textframe TextLemmas TextSpec TextRefine TextRange TextSession TextProps Console ConsoleLemmas.

#[local] Ltac Zify.zify_post_hook ::= Z.to_euclidean_division_equations.

(** * Printing *)

(** What a format and its arguments print. *)
Section Render.
Context (str : Z -> result bytes) (dg : bytes).

Fixpoint render (fmt : bytes) (args : list Z) : result bytes :=
  match fmt with
  | [] => Err OutOfBounds
  | c :: fmt =>
      if c =? 0 then Ok []
      else if negb (c =? 37) then let! r := render fmt args in Ok (c :: r)
      else match fmt with
      | [] => Err OutOfBounds
      | c :: fmt =>
          if c =? 0 then Ok []
          else if c =? 100 then let! a := get args 0 in let! r := render fmt (drop 1 args) in Ok (text_of dg 10 10 (s32 a) true ++ r)
          else if (c =? 120) || (c =? 112) then let! a := get args 0 in let! r := render fmt (drop 1 args) in Ok (text_of dg 8 16 (s32 a) false ++ r)
          else if c =? 115 then
            let! a := get args 0 in
            let! s := if a =? 0 then Ok null_str else str a in
            let! r := render fmt (drop 1 args) in Ok (s ++ r)
          else if c =? 99 then let! a := get args 0 in let! r := render fmt (drop 1 args) in Ok (u8 a :: r)
          else if c =? 37 then let! r := render fmt args in Ok (37 :: r)
          else let! r := render fmt args in Ok (37 :: c :: r)
      end
  end.
End Render.

(** The format has no [%c]. *)
Fixpoint no_char (fmt : bytes) : bool :=
  match fmt with
  | [] => true
  | c :: fmt =>
      if c =? 37 then match fmt with [] => true | c :: fmt => negb (c =? 99) && no_char fmt end
      else no_char fmt
  end.

Lemma fold_chars_app {S} (f : S -> Z -> result S) s l1 l2 :
  fold_chars f s (l1 ++ l2) = let! s := fold_chars f s l1 in fold_chars f s l2.
Proof. revert s. induction l1 as [|c l1 IH]; intros s; [done|]. cbn [app fold_chars]. destruct (f s c); [|done]. rewrite !rbind_ok. apply IH. Qed.

Lemma consputs_fold k s : consputs k s = fold_chars consputc k s.
Proof. revert k. induction s as [|c s IH]; intros k; [done|]. cbn [consputs fold_chars]. destruct (consputc k c); [|done]. rewrite !rbind_ok. apply IH. Qed.

Lemma printint_fold fuel k xx base sign :
  base = 10 /\ fuel = 10%nat \/ base = 16 /\ fuel = 8%nat -> printint k xx base sign = fold_chars consputc k (text_of digits fuel base xx sign).
Proof.
  intros Hb. unfold printint. destruct (printint_buf_text fuel digits xx base sign) as (buf & -> & Ht); [change (zlen digits) with 16; lia | | lia|].
  - destruct Hb as [[-> ->]|[-> ->]]; vm_compute; discriminate.
  - rewrite rbind_ok. by apply backwards_loop.
Qed.

Lemma cprintf_render str k fmt args s :
  render str digits fmt args = Ok s -> no_char fmt = true -> cprintf_loop str k fmt args = fold_chars consputc k s.
Proof.
  remember (length fmt) as n eqn:En. revert k fmt args s En. induction (lt_wf n) as [n _ IH]. intros k fmt args s En H Hn. subst n.
  assert (forall fmt' k args s, (length fmt' < length fmt)%nat -> render str digits fmt' args = Ok s -> no_char fmt' = true -> cprintf_loop str k fmt' args = fold_chars consputc k s) as IH'
    by (intros; eapply IH; eauto). clear IH.
  destruct fmt as [|c fmt]; [done|]. cbn [render cprintf_loop no_char] in *. destruct (c =? 0) eqn:E0; [injection H as <-; done|].
  destruct (Z.eqb_spec c 37) as [->|Hp]; cbn [negb] in *.
  2:{ rinv H. injection H as <-. cbn [fold_chars]. destruct (consputc k c); [|done]. rewrite !rbind_ok. apply IH'; [cbn; lia | done | done]. }
  destruct fmt as [|c fmt]; [done|]. apply andb_true_iff in Hn as [Hc Hn]. apply negb_true_iff in Hc. rewrite Hc in *. destruct (c =? 0); [injection H as <-; done|].
  assert (forall k args s, render str digits fmt args = Ok s -> cprintf_loop str k fmt args = fold_chars consputc k s) as IH2 by (intros; apply IH'; [cbn; lia | done | done]). clear IH'.
  destruct (c =? 100).
  { rinv H. rinv H. injection H as <-. rewrite fold_chars_app, rbind_ok, (printint_fold 10) by auto. destruct (fold_chars _ _ _); [|done]. rewrite !rbind_ok. by apply IH2. }
  destruct ((c =? 120) || (c =? 112)).
  { rinv H. rinv H. injection H as <-. rewrite fold_chars_app, rbind_ok, (printint_fold 8) by auto. destruct (fold_chars _ _ _); [|done]. rewrite !rbind_ok. by apply IH2. }
  destruct (c =? 115).
  { rinv H. rinv H. rinv H. injection H as <-. rewrite fold_chars_app, !rbind_ok, E1, rbind_ok, consputs_fold. destruct (fold_chars _ _ _); [|done]. rewrite !rbind_ok. by apply IH2. }
  destruct (c =? 37); rinv H; injection H as <-; cbn [fold_chars]; destruct (consputc k 37) as [k1|]; try done; rewrite !rbind_ok; [by apply IH2|].
  destruct (consputc k1 c); [|done]. rewrite !rbind_ok. by apply IH2.
Qed.

(** Characters on a console whose screen shows the tape [t]. *)
Lemma consputc_shows c k t :
  shows (screen k) t -> panicked k = false -> uart k = true -> 0 <= c < 256 ->
  exists g, consputc k c = Ok (mk_console g true (sent k ++ [c]) false) /\ shows g (tape_put t c).
Proof.
  intros Hs Hp Hu Hc. destruct (cgaputc_shows (screen k) t c Hs) as (g & E & Hg); [unfold BACKSPACE; lia|].
  exists g. split; [|done]. unfold consputc. rewrite Hp, (proj2 (Z.eqb_neq c BACKSPACE)) by (unfold BACKSPACE; lia). unfold uartputc. rewrite Hu. cbn [screen uart sent panicked].
  by rewrite E, rbind_ok, u8_small, Hp by lia.
Qed.

Lemma consputs_shows s k t :
  shows (screen k) t -> panicked k = false -> uart k = true -> Forall (fun c => 0 <= c < 256) s ->
  exists k', fold_chars consputc k s = Ok k' /\ shows (screen k') (tape_puts t s) /\ panicked k' = false /\ uart k' = true /\ sent k' = sent k ++ s.
Proof.
  revert k t. induction s as [|c s IH]; intros k t Hs Hp Hu HF; cbn [fold_chars].
  - exists k. rewrite app_nil_r. done.
  - apply Forall_cons in HF as [Hc HF]. destruct (consputc_shows c k t Hs Hp Hu Hc) as (g & -> & Hg). rewrite rbind_ok.
    destruct (IH (mk_console g true (sent k ++ [c]) false) (tape_put t c)) as (k' & E & H1 & H2 & H3 & H4); [done..|].
    exists k'. cbn [sent] in H4. rewrite H4, <- app_assoc. done.
Qed.

(** [cprintf] prints exactly the text that the format and the arguments denote:
    it goes to the serial line, and the screen shows the last 24 rows of all that
    has been printed. *)
Theorem cprintf_prints str k t fmt args s :
  shows (screen k) t -> panicked k = false -> uart k = true -> no_char fmt = true ->
  render str digits fmt args = Ok s -> Forall (fun c => 0 <= c < 256) s ->
  exists k', cprintf str k (Some fmt) args = Ok k' /\ sent k' = sent k ++ s /\ shows (screen k') (tape_puts t s).
Proof.
  intros Hs Hp Hu Hn Hr HF. unfold cprintf. rewrite (cprintf_render str k fmt args s) by done.
  destruct (consputs_shows s k t Hs Hp Hu HF) as (k' & -> & H1 & _ & _ & H4). exists k'. done.
Qed.

(** [%c] increments its argument instead of moving on to the next one: every
    later argument is taken from the wrong place. *)
Theorem cprintf_char_stuck str k a b k1 k2 :
  0 <= a < 255 -> consputc k a = Ok k1 -> consputc k1 (a + 1) = Ok k2 -> cprintf str k (Some [37; 99; 37; 99; 0]) [a; b] = Ok k2.
Proof.
  intros Ha E1 E2. change (cprintf str k (Some [37; 99; 37; 99; 0]) [a; b]) with
    (let! k := consputc k a in let! k := consputc k (u32 (a + 1)) in cprintf_loop str k [0] [u32 (u32 (a + 1) + 1); b]).
  rewrite E1, rbind_ok, u32_small, E2 by lia. done.
Qed.

(** * Numbers are read back *)

Lemma atoi_numeral ds n :
  Forall (fun d => 0 <= d < 10) ds -> 0 <= n -> foldl (fun v d => 10 * v + d) n (reverse ds) < 2 ^ 31 + 1 ->
  atoi_loop (s32 n) (numeral digits ds ++ [0]) = Ok (s32 (foldl (fun v d => 10 * v + d) n (reverse ds))).
Proof.
  unfold numeral. intros HF. apply Forall_reverse in HF. revert n HF. induction (reverse ds) as [|d l IH]; intros n HF Hn Hv; [done|].
  apply Forall_cons in HF as [Hd HF]. cbn [fmap list_fmap app atoi_loop foldl] in *.
  assert (digits !!! Z.to_nat d = 48 + d) as ->.
  { assert (d = 0 \/ d = 1 \/ d = 2 \/ d = 3 \/ d = 4 \/ d = 5 \/ d = 6 \/ d = 7 \/ d = 8 \/ d = 9) as Hc by lia.
    repeat destruct Hc as [->|Hc]; try reflexivity. subst d. reflexivity. }
  rewrite (proj2 (Z.leb_le 48 (48 + d))), (proj2 (Z.leb_le (48 + d) 57)) by lia. cbn [andb].
  replace (s32 (s32 n * 10 + (48 + d) - 48)) with (s32 (10 * n + d)) by (unfold s32; lia).
  apply IH; [done | lia | done].
Qed.

Lemma foldl_value ds : foldl (fun v d => 10 * v + d) 0 (reverse ds) = value 10 ds.
Proof. induction ds as [|d ds IH]; [done|]. rewrite reverse_cons, foldl_app, IH. cbn [foldl value foldr]. fold (value 10 ds). lia. Qed.

(** the decimal text that [cprintf] and [printf] make of an integer is read back
    by [atoi], of any sign and also for the least one; it fits the buffer of
    [printint], of 16 bytes. *)
Theorem decimal_roundtrip xx :
  - 2 ^ 31 <= xx < 2 ^ 31 ->
  let s := text_of digits 10 10 xx true in
  (exists buf, printint_buf digits xx 10 true = Ok (buf, zlen s) /\ take (length s) buf = reverse s) /\ zlen s <= 11 /\
  (0 <= xx -> atoi (s ++ [0]) = Ok xx) /\
  (xx < 0 -> exists s', s = 45 :: s' /\ atoi (s' ++ [0]) = Ok (s32 (- xx))).
Proof.
  intros Hx s. split; [apply printint_buf_text; [change (zlen digits) with 16; lia | vm_compute; discriminate | lia]|].
  assert (forall x, 0 <= x <= 2 ^ 31 -> zlen (numeral digits (digits_of 10 10 x)) <= 10 /\ atoi (numeral digits (digits_of 10 10 x) ++ [0]) = Ok (s32 x)) as H.
  { intros x Hx'. destruct (digits_of_spec 10 10 x) as (H1 & H2 & H3); [lia | change (10 ^ Z.of_nat 10) with 10000000000; lia | lia|].
    split; [unfold numeral; rewrite length_fmap, length_reverse; lia|]. unfold atoi. change 0 with (s32 0) at 1. rewrite atoi_numeral; rewrite ?foldl_value, ?H1; try done; lia. }
  unfold s, text_of. cbn [andb]. destruct (Z.ltb_spec xx 0) as [Hn|Hn].
  - rewrite u32_small by lia. destruct (H (- xx)) as [Ha Hb]; [lia|]. cbn [app length]. split; [lia|]. split; [lia|]. intros _. eexists. split; [reflexivity | done].
  - rewrite u32_small by lia. destruct (H xx) as [Ha Hb]; [lia|]. cbn [app]. rewrite s32_small in Hb by lia. split; [lia|]. split; [done | lia].
Qed.

(** * printf.c *)

Section Printf.
Context {W : Type} `{!Sys W} (str : Z -> result bytes) (fd : Z).

Abbreviation uputc := (fun (s : W * option textframe) c => putc s.1 s.2 fd c).

Lemma puts_fold w cmd s : puts w cmd fd s = fold_chars uputc (w, cmd) s.
Proof.
  revert w cmd. induction s as [|c s IH]; intros w cmd; [done|]. cbn [puts fold_chars fst snd]. destruct (putc w cmd fd c) as [[w1 c1]|]; [|done]. rewrite !rbind_ok. apply IH.
Qed.

Lemma uprintint_fold fuel w cmd xx base sign :
  base = 10 /\ fuel = 10%nat \/ base = 16 /\ fuel = 8%nat -> uprintint w cmd fd xx base sign = fold_chars uputc (w, cmd) (text_of upper_digits fuel base xx sign).
Proof.
  intros Hb. unfold uprintint. destruct (printint_buf_text fuel upper_digits xx base sign) as (buf & -> & Ht); [change (zlen upper_digits) with 16; lia | | lia|].
  - destruct Hb as [[-> ->]|[-> ->]]; vm_compute; discriminate.
  - rewrite rbind_ok. by apply (backwards_loop uputc).
Qed.

Lemma printf_render w cmd fmt args s :
  render str upper_digits fmt args = Ok s -> printf_loop str w cmd fd fmt args false = fold_chars uputc (w, cmd) s.
Proof.
  remember (length fmt) as n eqn:En. revert w cmd fmt args s En. induction (lt_wf n) as [n _ IH]. intros w cmd fmt args s En H. subst n.
  assert (forall fmt' (x : W * option textframe) args s, (length fmt' < length fmt)%nat -> render str upper_digits fmt' args = Ok s -> printf_loop str x.1 x.2 fd fmt' args false = fold_chars uputc x s) as IH'
    by (intros ? [] **; eapply IH; eauto). clear IH.
  destruct fmt as [|c fmt]; [done|]. cbn [render printf_loop] in *. destruct (c =? 0) eqn:E0; [injection H as <-; done|].
  destruct (Z.eqb_spec c 37) as [->|Hp]; cbn [negb] in *.
  2:{ rinv H. injection H as <-. cbn [fold_chars fst snd]. destruct (putc w cmd fd c) as [x|]; [|done]. rewrite !rbind_ok. destruct x as [w1 c1]. apply (IH' fmt (w1, c1)); [cbn; lia | done]. }
  destruct fmt as [|c fmt]; [done|]. cbn [printf_loop negb]. destruct (c =? 0); [injection H as <-; done|].
  assert (forall (x : W * option textframe) args s, render str upper_digits fmt args = Ok s -> (let '(w, cmd) := x in printf_loop str w cmd fd fmt args false) = fold_chars uputc x s) as IH2
    by (intros [] **; apply (IH' fmt (_, _)); [cbn; lia | done]). clear IH'.
  destruct (c =? 100).
  { rinv H. rinv H. injection H as <-. rewrite fold_chars_app, rbind_ok, (uprintint_fold 10) by auto. destruct (fold_chars _ _ _); [|done]. rewrite !rbind_ok. by apply IH2. }
  destruct ((c =? 120) || (c =? 112)).
  { rinv H. rinv H. injection H as <-. rewrite fold_chars_app, rbind_ok, (uprintint_fold 8) by auto. destruct (fold_chars _ _ _); [|done]. rewrite !rbind_ok. by apply IH2. }
  destruct (c =? 115).
  { rinv H. rinv H. rinv H. injection H as <-. rewrite fold_chars_app, !rbind_ok, E1, rbind_ok, puts_fold. destruct (fold_chars _ _ _); [|done]. rewrite !rbind_ok. by apply IH2. }
  destruct (c =? 99).
  { rinv H. rinv H. injection H as <-. cbn [fold_chars fst snd]. rewrite rbind_ok. destruct (putc w cmd fd (u8 a)); [|done]. rewrite !rbind_ok. by apply IH2. }
  destruct (Z.eqb_spec c 37) as [->|]; rinv H; injection H as <-; cbn [fold_chars fst snd]; destruct (putc w cmd fd 37) as [[w1 c1]|]; try done; rewrite !rbind_ok; [by apply (IH2 (_, _))|].
  cbn [fst snd]. destruct (putc w1 c1 fd c) as [[w2 c2]|]; [|done]. rewrite !rbind_ok. by apply (IH2 (_, _)).
Qed.

(** The characters go to the kernel one by one. *)
Definition write_all (w : W) (s : bytes) : W := fold_left (fun w c => (sys_write w fd [u8 c]).1) s w.

(** A text with the cursor at its end, and what printing makes of it. *)
Definition at_end (ls : list bytes) (cur : bytes) : doc := mk_doc (ls ++ [cur]) (zlen ls) (zlen cur).

Fixpoint lay (ls : list bytes) (cur s : bytes) : list bytes * bytes :=
  match s with
  | [] => (ls, cur)
  | c :: s => if c =? 10 then lay (ls ++ [cur]) [] s else lay ls (cur ++ [c]) s
  end.

Definition printable (c : Z) : Prop := c = 10 \/ 32 <= c <= 126.

Lemma putc_char_end w t ls cur c :
  rep t (at_end ls cur) -> gbk cur -> 32 <= c <= 126 -> zlen cur + 1 < INT_MAX -> fd = 1 \/ fd = 2 ->
  exists t', putc w (Some t) fd c = Ok ((sys_write w fd [u8 c]).1, Some t') /\ rep t' (at_end ls (cur ++ [c])).
Proof.
  intros Hrep Hg Hc Hl Hfd. assert (Spec.cur_line (at_end ls cur) = cur) as Ecur by (unfold Spec.cur_line; cbn; by rewrite Nat2Z.id, list_lookup_middle).
  destruct (putc_to_str_refines t (at_end ls cur) c Hrep) as (t1 & E1 & Hf1 & Er & Ec); [by rewrite Ecur|].
  pose proof (putc_line t (at_end ls cur) c Hrep Hc) as El. rewrite Ecur in El. cbn [at_end crow ccol lines] in El. rewrite !Nat2Z.id, firstn_all, drop_all, insert_app_r_alt, Nat.sub_diag in El by done.
  assert (rep t1 (mk_doc (ls ++ [cur ++ [c]]) (zlen ls) (zlen cur))) as Hrep1.
  { rewrite El in Hf1. split; [done|]. split; [done|]. split; [done|]. exists (cur ++ [c]). cbn. rewrite Nat2Z.id, list_lookup_middle by done. split; [lia|]. split; [done|]. llia. }
  destruct (move_to_next_char_refines t1 _ Hrep1) as (t2 & E2 & Hrep2 & _). exists t2. unfold putc.
  rewrite (proj2 (orb_true_iff _ _)) by (destruct Hfd as [->| ->]; [by left | by right]). rewrite (proj2 (Z.eqb_neq c 10)), E1, rbind_ok, E2, rbind_ok by lia. split; [done|].
  unfold Spec.next_char, Spec.cur_line in Hrep2. cbn [lines crow ccol] in Hrep2. rewrite Nat2Z.id, list_lookup_middle in Hrep2 by done. cbn [from_option id] in Hrep2.
  rewrite (proj2 (Z.ltb_lt _ _)) in Hrep2 by llia. unfold Spec.place in Hrep2. rewrite Nat2Z.id, list_lookup_middle in Hrep2 by done. cbn [from_option id] in Hrep2.
  rewrite adjust_col_boundary_id in Hrep2.
  - unfold at_end. replace (zlen (cur ++ [c])) with (zlen cur + 1) by llia. done.
  - replace (zlen cur + 1) with (zlen (cur ++ [c])) by llia. rewrite <- (app_nil_r (cur ++ [c])) at 1. apply gbk_prefix_boundary. apply gbk_app; [done|]. constructor; [lia | constructor].
Qed.

Lemma putc_newline_end w t ls cur :
  rep t (at_end ls cur) -> gbk cur -> zlen ls + 2 < 2 ^ 30 -> fd = 1 \/ fd = 2 ->
  exists t', putc w (Some t) fd 10 = Ok ((sys_write w fd [10]).1, Some t') /\ rep t' (at_end (ls ++ [cur]) []).
Proof.
  intros Hrep Hg Hl Hfd. assert (Spec.cur_line (at_end ls cur) = cur) as Ecur by (unfold Spec.cur_line; cbn; by rewrite Nat2Z.id, list_lookup_middle).
  destruct (new_line_to_editor_refines t _ Hrep) as (t1 & E1 & Hrep1 & _); [cbn; llia|].
  assert (Spec.newline (at_end ls cur) = at_end (ls ++ [cur]) []) as En.
  { unfold Spec.newline. rewrite Ecur. cbn [at_end lines crow ccol]. rewrite adjust_col_boundary_id by (rewrite <- (app_nil_r cur) at 1; by apply gbk_prefix_boundary).
    rewrite !Nat2Z.id, firstn_all, drop_all, take_app_length. rewrite (drop_ge (ls ++ [cur])) by llia. unfold at_end. f_equal; [by rewrite <- app_assoc | llia]. }
  rewrite En in Hrep1. destruct (move_to_next_line_refines t1 _ Hrep1) as (t2 & E2 & Hrep2 & _). exists t2. unfold putc.
  rewrite (proj2 (orb_true_iff _ _)) by (destruct Hfd as [->| ->]; [by left | by right]). cbn [Z.eqb Pos.eqb]. rewrite E1, rbind_ok, E2, rbind_ok. split; [done|].
  unfold Spec.next_line in Hrep2. cbn [at_end lines crow ccol] in Hrep2. rewrite (proj2 (Z.ltb_ge _ _)) in Hrep2 by llia. unfold Spec.place in Hrep2.
  rewrite Nat2Z.id, list_lookup_middle in Hrep2 by done. done.
Qed.

Lemma fold_putc_end s w t ls cur :
  rep t (at_end ls cur) -> gbk cur -> Forall printable s -> zlen ls + zlen s + 2 < 2 ^ 30 -> zlen cur + zlen s + 1 < INT_MAX -> fd = 1 \/ fd = 2 ->
  exists t', fold_chars uputc (w, Some t) s = Ok (write_all w s, Some t') /\ rep t' (at_end (lay ls cur s).1 (lay ls cur s).2).
Proof.
  revert w t ls cur. induction s as [|c s IH]; intros w t ls cur Hrep Hg HF Hl1 Hl2 Hfd; cbn [fold_chars lay fst snd]; [exists t; done|].
  apply Forall_cons in HF as [Hc HF]. cbn [length] in *. destruct (Z.eqb_spec c 10) as [->|Hn].
  - destruct (putc_newline_end w t ls cur Hrep Hg) as (t1 & -> & H1); [lia | done|]. rewrite rbind_ok. apply (IH _ t1 (ls ++ [cur]) []); [done | constructor | done | llia | cbn [length]; lia | done].
  - assert (32 <= c <= 126) as Hp by (destruct Hc; lia). destruct (putc_char_end w t ls cur c Hrep Hg Hp) as (t1 & -> & H1); [lia | done|]. rewrite rbind_ok.
    apply (IH _ t1 ls (cur ++ [c])); [done | | done | lia | llia | done]. apply gbk_app; [done|]. constructor; [lia | constructor].
Qed.

(** C38: [printf] to the standard output or error writes exactly the text that the
    format and the arguments denote, and appends it, line by line, to the text of
    the command window, whose cursor stays at the end. *)
Theorem printf_prints w t ls cur fmt args s :
  fd = 1 \/ fd = 2 -> rep t (at_end ls cur) -> gbk cur -> render str upper_digits fmt args = Ok s -> Forall printable s ->
  zlen ls + zlen s + 2 < 2 ^ 30 -> zlen cur + zlen s + 1 < INT_MAX ->
  exists t', printf str w (Some t) fd fmt args = Ok (write_all w s, Some t') /\ rep t' (at_end (lay ls cur s).1 (lay ls cur s).2).
Proof. intros Hfd Hrep Hg Hr HF Hl1 Hl2. unfold printf. rewrite (printf_render w (Some t) fmt args s Hr). by apply fold_putc_end. Qed.
End Printf.

(** * Reading lines *)

Definition boot_input : input := mk_input (replicate 128 0) 0 0 0.

Lemma boot_implements : implements boot_input (mk_tty [] []).
Proof. constructor; cbn; try done; try (unfold INPUT_BUF; lia). Qed.

(** What happens at the console: an interrupt with characters, or a process that
    calls [consoleread] or goes on with it. *)
Inductive cevent := Keys (cs : bytes) | Reads (n target : Z) (killed : bool).

Section Session.
Context (procdump : console -> result console) (Hpd : forall k, console_ok k -> exists k', procdump k = Ok k' /\ console_ok k').

Fixpoint console_run (inp : input) (k : console) (evs : list cevent) : result (input * console * list (bytes * rstat)) :=
  match evs with
  | [] => Ok (inp, k, [])
  | Keys cs :: evs => let! '(inp, k, _) := consoleintr procdump inp k cs in console_run inp k evs
  | Reads n target killed :: evs =>
      let! '(inp, s, o) := consoleread inp n target killed in
      let! '(inp, k, l) := console_run inp k evs in Ok (inp, k, (s, o) :: l)
  end.

Fixpoint tty_run (t : tty) (evs : list cevent) : tty * list (bytes * rstat) :=
  match evs with
  | [] => (t, [])
  | Keys cs :: evs => tty_run (fold_left tty_key cs t) evs
  | Reads n target killed :: evs =>
      let '(t, s, o) := tty_read t n target killed in
      let '(t, l) := tty_run t evs in (t, (s, o) :: l)
  end.

Lemma console_run_spec evs inp k t :
  implements inp t -> console_ok k ->
  exists inp' k', console_run inp k evs = Ok (inp', k', (tty_run t evs).2) /\ implements inp' (tty_run t evs).1 /\ console_ok k'.
Proof using Hpd.
  revert inp k t. induction evs as [|[cs|n target killed] evs IH]; intros inp k t Hi Hk; cbn [console_run tty_run].
  - exists inp, k. done.
  - destruct (consoleintr_spec procdump Hpd cs inp k t Hi Hk) as (i1 & k1 & w & -> & H1 & H2). rewrite rbind_ok. by apply IH.
  - unfold tty_read, consoleread. pose proof (consoleread_spec (Z.to_nat n) inp t n target killed Hi) as H.
    destruct (tty_take _ _ _ _ _) as [[rest s] o]. destruct H as (i1 & -> & H1). rewrite rbind_ok.
    destruct (IH i1 k _ H1 Hk) as (i2 & k2 & -> & H2 & H3). rewrite rbind_ok. destruct (tty_run _ evs) as [t2 l]. exists i2, k2. done.
Qed.

(** C23: from the boot on, whatever the order of the interrupts and of the readers, no
    step of the console faults, and every reader gets what the abstract terminal
    gives it: the committed lines in order, after the corrections of the typist.
    The line being typed never fills the buffer, so that typing cannot jam. *)
Theorem console_discipline evs k :
  console_ok k ->
  exists inp' k', console_run boot_input k evs = Ok (inp', k', (tty_run (mk_tty [] []) evs).2) /\ console_ok k' /\
    let t := (tty_run (mk_tty [] []) evs).1 in
    implements inp' t /\ tty_size t <= INPUT_BUF /\ (line t <> [] -> tty_size t < INPUT_BUF).
Proof using Hpd.
  intros Hk. destruct (console_run_spec evs boot_input k _ boot_implements Hk) as (i1 & k1 & E & H1 & H2). exists i1, k1. split; [done|]. split; [done|].
  split; [done|]. split; [apply H1 | apply H1].
Qed.

Definition plain (c : Z) : Prop := 32 <= c <= 126.

Lemma type_plain s t : Forall plain s -> tty_size t + zlen s < INPUT_BUF -> fold_left tty_key s t = mk_tty (ready t) (line t ++ s).
Proof.
  revert t. induction s as [|c s IH]; intros t HF Hs; cbn [fold_left]; [rewrite app_nil_r; by destruct t|].
  apply Forall_cons in HF as [Hc HF]. unfold plain in Hc. cbn [length] in Hs.
  assert (tty_key t c = mk_tty (ready t) (line t ++ [c])) as ->.
  { unfold tty_key, C, INPUT_BUF in *. zsimp. cbn [orb andb negb].
    done. }
  rewrite IH; [cbn [ready line]; by rewrite <- app_assoc | done|]. unfold tty_size in *. cbn [ready line]. llia.
Qed.

Lemma erase_plain n t l x : length x = n -> line t = l ++ x -> fold_left tty_key (replicate n (C 72)) t = mk_tty (ready t) l.
Proof.
  revert t l x. induction n as [|n IH]; intros t l x Hn E; cbn [replicate fold_left].
  - apply nil_length_inv in Hn as ->. rewrite app_nil_r in E. destruct t; cbn in *; by subst l.
  - destruct x as [|c x _] using rev_ind; [done|]. rewrite length_app in Hn. cbn in Hn.
    assert (tty_key t (C 72) = mk_tty (ready t) (l ++ x)) as -> by (unfold tty_key; cbn; rewrite E, app_assoc; by rewrite List.removelast_last).
    by rewrite (IH (mk_tty (ready t) (l ++ x)) l x) by (done || lia).
Qed.

Lemma take_line s n target killed : Forall plain s -> Z.of_nat (length s) < n -> tty_take (Z.to_nat n) (s ++ [10]) n target killed = ([], s ++ [10], RRet (target - n + zlen s + 1)).
Proof.
  revert n. induction s as [|c s IH]; intros n HF Hn; cbn [app length] in *.
  - replace (Z.to_nat n) with (S (Z.to_nat (n - 1))) by lia. cbn. f_equal. f_equal. lia.
  - apply Forall_cons in HF as [Hc HF]. unfold plain in Hc. replace (Z.to_nat n) with (S (Z.to_nat (n - 1))) by lia. cbn [tty_take]. unfold C. zsimp. rewrite IH by (done || lia). f_equal. f_equal. lia.
Qed.

(** a line typed at an idle console, with a wrong end that is then erased, is
    what [consoleread] returns after the return key, with a newline. *)
Theorem typed_line_read s x n k :
  console_ok k -> Forall plain s -> Forall plain x -> zlen s + zlen x < 127 -> zlen s < n ->
  exists inp' k', console_run boot_input k [Keys (s ++ x ++ replicate (length x) (C 72) ++ [13]); Reads n n false] = Ok (inp', k', [(s ++ [10], RRet (zlen s + 1))]) /\
    implements inp' (mk_tty [] []).
Proof using Hpd.
  intros Hk Hs Hx Hl Hn. set (evs := [Keys _; Reads n n false]).
  assert (tty_run (mk_tty [] []) evs = (mk_tty [] [], [(s ++ [10], RRet (zlen s + 1))])) as Et.
  { unfold evs. cbn [tty_run]. rewrite (app_assoc s), (fold_left_app tty_key (s ++ x)), (type_plain (s ++ x)) by first [by apply Forall_app | unfold tty_size, INPUT_BUF; cbn [ready line length]; rewrite length_app; lia].
    rewrite (fold_left_app tty_key (replicate _ _)), (erase_plain _ _ s x) by done. cbn [ready fold_left].
    assert (tty_key (mk_tty [] s) 13 = mk_tty (s ++ [10]) []) as ->.
    { unfold tty_key, tty_size, C, INPUT_BUF. cbn [ready line length Z.eqb Pos.eqb negb andb orb app]. rewrite (proj2 (Z.ltb_lt _ _)) by lia. done. }
    unfold tty_read. cbn [ready line]. rewrite take_line by done. do 4 f_equal. lia. }
  destruct (console_run_spec evs boot_input k _ boot_implements Hk) as (i1 & k1 & E & H1 & _). rewrite Et in *. exists i1, k1. done.
Qed.
End Session.

(** * Witnesses *)

Definition demo_console : console := mk_console (mk_cga (replicate 2000 0) 0) true [] false.

Lemma demo_shows : shows (screen demo_console) blank_tape.
Proof.
  constructor; cbn [screen demo_console crt cursor head blank_tape cell]; try done.
  intros i Hi. apply lookup_replicate_2. lia.
Qed.

Lemma demo_console_ok : console_ok demo_console.
Proof. split; [|done]. split; cbn [screen demo_console crt cursor]; [by rewrite length_replicate | lia]. Qed.

(** A negative number and a newline. *)
Lemma cprintf_prints_witness :
  exists k', cprintf (fun _ => Err NullDeref) demo_console (Some [37; 100; 10; 0]) [2 ^ 32 - 5] = Ok k' /\ sent k' = [] ++ [45; 53; 10] /\ shows (screen k') (tape_puts blank_tape [45; 53; 10]).
Proof.
  apply (cprintf_prints (fun _ => Err NullDeref) demo_console blank_tape [37; 100; 10; 0] [2 ^ 32 - 5] [45; 53; 10]).
  - exact demo_shows.
  - reflexivity.
  - reflexivity.
  - reflexivity.
  - vm_compute. reflexivity.
  - repeat constructor; lia.
Defined.

Lemma cprintf_char_stuck_witness : exists k2, cprintf (fun _ => Err NullDeref) demo_console (Some [37; 99; 37; 99; 0]) [65; 88] = Ok k2 /\ sent k2 = [65; 66].
Proof.
  eexists. split.
  - eapply (cprintf_char_stuck (fun _ => Err NullDeref) demo_console 65 88); [lia | vm_compute; reflexivity | vm_compute; reflexivity].
  - reflexivity.
Defined.

Lemma decimal_roundtrip_witness : exists s', text_of digits 10 10 (- 2 ^ 31) true = 45 :: s' /\ atoi (s' ++ [0]) = Ok (s32 (2 ^ 31)).
Proof. destruct (decimal_roundtrip (- 2 ^ 31) ltac:(lia)) as (_ & _ & _ & H). exact (H ltac:(lia)). Defined.

(** A command window with the line [ab], to which [x] and a newline are printed. *)
Lemma printf_prints_witness :
  exists t', printf (fun _ => Err NullDeref) ram0 (Some (frame_of [[97; 98]] 0 2)) 1 [37; 120; 10; 0] [255] = Ok (write_all 1 ram0 [70; 70; 10], Some t') /\
    rep t' (at_end [[97; 98; 70; 70]] []).
Proof.
  apply (printf_prints (fun _ => Err NullDeref) 1 ram0 (frame_of [[97; 98]] 0 2) [] [97; 98] [37; 120; 10; 0] [255] [70; 70; 10]).
  - left. reflexivity.
  - by eapply frame_of_rep.
  - apply gbk_printable. repeat constructor; lia.
  - vm_compute. reflexivity.
  - do 3 (apply Forall_cons; split; [first [left; reflexivity | right; lia]|]). constructor.
  - cbn. lia.
  - unfold INT_MAX. cbn. lia.
Defined.

Lemma console_discipline_witness :
  exists inp' k', console_run Ok boot_input demo_console [Keys [97; 98; 8; 13]; Reads 10 10 false; Reads 10 10 false] = Ok (inp', k', [([97; 10], RRet 2); ([], RSleep 10)]).
Proof.
  destruct (console_discipline Ok (fun k Hk => ex_intro _ k (conj eq_refl Hk)) [Keys [97; 98; 8; 13]; Reads 10 10 false; Reads 10 10 false] demo_console demo_console_ok) as (i1 & k1 & E & _).
  exists i1, k1. exact E.
Defined.

Lemma typed_line_read_witness :
  exists inp' k', console_run Ok boot_input demo_console [Keys ([108; 115] ++ [120] ++ replicate 1 (C 72) ++ [13]); Reads 100 100 false] = Ok (inp', k', [([108; 115; 10], RRet 3)]).
Proof.
  destruct (typed_line_read Ok (fun k Hk => ex_intro _ k (conj eq_refl Hk)) [108; 115] [120] 100 demo_console demo_console_ok) as (i1 & k1 & E & _).
  - repeat constructor; lia.
  - repeat constructor; lia.
  - cbn. lia.
  - cbn. lia.
  - exists i1, k1. exact E.
Defined.
