(* ===== verification/Exec.v ===== *)
(** Starting a program: src/src/exec.c and elf.h, [loaduvm] of src/src/vm.c and
    [sys_exec] of src/src/sysfile.c.

    The state is the file system (Inode.v) and the memory (Vm.v).  [bad] is the
    label of the code: the new address space is freed and the inode dropped. *)
From S2P Require Import Prelude Ulib Sys Fs Inode Proc Vm Syscall.

Definition MAXARG : Z := 32.
Definition ELF_MAGIC : Z := 1179403647.
Definition ELF_PROG_LOAD : Z := 1.
Definition sizeof_elfhdr : Z := 52.
Definition sizeof_proghdr : Z := 32.

(** The fields that [exec] reads. *)
Record elfhdr := mk_elfhdr { magic : Z; entry_ : Z; phoff : Z; phnum : Z }.
Record proghdr := mk_proghdr { ph_type : Z; ph_off : Z; ph_vaddr : Z; ph_filesz : Z; ph_memsz : Z }.

Definition elfhdr_of (b : bytes) : result elfhdr :=
  let! mg := rd32 b 0 in
  let! en := rd32 b 24 in
  let! po := rd32 b 28 in
  let! pn := rd16 b 44 in
  Ok (mk_elfhdr mg en po pn).

Definition proghdr_of (b : bytes) : result proghdr :=
  let! ty := rd32 b 0 in
  let! fo := rd32 b 4 in
  let! va := rd32 b 8 in
  let! fz := rd32 b 16 in
  let! mz := rd32 b 20 in
  Ok (mk_proghdr ty fo va fz mz).

(** Words as they lie in memory. *)
Definition word_bytes (v : Z) : bytes := [v mod 256; v / 256 mod 256; v / 65536 mod 256; v / 16777216 mod 256].

Definition set_entry (eip esp : Z) (t : trapframe) : trapframe :=
  mk_tf (tf_edi t) (tf_esi t) (tf_ebp t) (tf_oesp t) (tf_ebx t) (tf_edx t) (tf_ecx t) (tf_eax t)
    (tf_gs t) (tf_fs t) (tf_es t) (tf_ds t) (tf_trapno t) (tf_err t) eip (tf_cs t) (tf_eflags t) esp (tf_ss t).

(** A pointer to an entry of the inode cache; the null pointer is 0. *)
Definition icache_index (ip : Z) : Z := ip - 1.

Section Exec.
Context (kend kdata : Z) {D : Type} `{!BlockDev D} `{!Devsw D}.
Abbreviation fs := (fs D).

(** [readi] of the inode [ip]. *)
Definition read_at (f : fs) (ip off n : Z) : result (fs * (Z * bytes)) := on_inode f ip (fun d i => readi d i off n).

(** * [loaduvm] *)

Fixpoint load_loop (fuel : nat) (f : fs) (m : mem) (pgdir addr ip offset i sz : Z) : result (fs * mem * Z) :=
  match fuel with
  | O => Err OutOfFuel
  | S fuel' =>
      if sz <=? i then Ok (f, m, 0) else
      let! '(m, pte) := walkpgdir m pgdir (u32 (addr + i)) false in
      if pte =? 0 then Err Panic else
      let! e := ld32 m pte in
      let pa := PTE_ADDR e in
      let n := if sz - i <? PGSIZE then sz - i else PGSIZE in
      let! '(f, (r, s)) := read_at f ip (u32 (offset + i)) n in
      let! m := copy_in m (p2v pa) s in
      if negb (r =? n) then Ok (f, m, -1) else
      load_loop fuel' f m pgdir addr ip offset (u32 (i + PGSIZE)) sz
  end.

Definition loaduvm (f : fs) (m : mem) (pgdir addr ip offset sz : Z) : result (fs * mem * Z) :=
  if negb (addr mod PGSIZE =? 0) then Err Panic else
  load_loop (S (Z.to_nat (sz / PGSIZE + 1))) f m pgdir addr ip offset 0 sz.

(** * [exec] *)

(** The loop over the program headers, from [i] on: the new size, or [None] for
    [bad]. *)
Fixpoint load_segments (n : nat) (f : fs) (m : mem) (pgdir ip off sz : Z) : result (fs * mem * option Z) :=
  match n with
  | O => Ok (f, m, Some sz)
  | S n' =>
      let! '(f, (r, b)) := read_at f ip off sizeof_proghdr in
      if negb (r =? sizeof_proghdr) then Ok (f, m, None) else
      let! ph := proghdr_of b in
      let off := u32 (off + sizeof_proghdr) in
      if negb (ph_type ph =? ELF_PROG_LOAD) then load_segments n' f m pgdir ip off sz else
      if ph_memsz ph <? ph_filesz ph then Ok (f, m, None) else
      let! '(m, sz) := Vm.allocuvm kend m pgdir sz (u32 (ph_vaddr ph + ph_memsz ph)) in
      if sz =? 0 then Ok (f, m, None) else
      let! '(f, m, r) := loaduvm f m pgdir (ph_vaddr ph) ip (ph_off ph) (ph_filesz ph) in
      if r <? 0 then Ok (f, m, None) else
      load_segments n' f m pgdir ip off sz
  end.

(** The argument strings go on the stack, each with its NUL; [ustack] collects
    their addresses.  [None] is [bad]. *)
Fixpoint push_args (argv : list bytes) (m : mem) (pgdir argc sp : Z) (ustack : list Z) : result (mem * option (Z * Z * list Z)) :=
  match argv with
  | [] => Ok (m, Some (argc, sp, ustack))
  | a :: argv =>
      if MAXARG <=? argc then Ok (m, None) else
      let sp := Z.land (u32 (sp - (zlen a + 1))) (u32 (Z.lnot 3)) in
      let! '(m, r) := copyout m pgdir sp (a ++ [0]) in
      if r <? 0 then Ok (m, None) else
      let! ustack := put ustack (3 + argc) sp in
      push_args argv m pgdir (argc + 1) sp ustack
  end.

(** The two pages after the program, the arguments and the frame of [main]: the
    new size and stack pointer, or [None] for [bad]. *)
Definition build_stack (m : mem) (pgdir sz : Z) (argv : list bytes) : result (mem * option (Z * Z)) :=
  let sz := PGROUNDUP sz in
  let! '(m, sz) := Vm.allocuvm kend m pgdir sz (u32 (sz + 2 * PGSIZE)) in
  if sz =? 0 then Ok (m, None) else
  let! m := clearpteu m pgdir (u32 (sz - 2 * PGSIZE)) in
  let! '(m, o) := push_args argv m pgdir 0 sz (replicate 36 0) in
  match o with
  | None => Ok (m, None)
  | Some (argc, sp, ustack) =>
      let! ustack := put ustack (3 + argc) 0 in
      let! ustack := put ustack 0 4294967295 in
      let! ustack := put ustack 1 argc in
      let! ustack := put ustack 2 (u32 (sp - (argc + 1) * 4)) in
      let sp := u32 (sp - (3 + argc + 1) * 4) in
      let! '(m, r) := copyout m pgdir sp (take (Z.to_nat ((3 + argc + 1) * 4)) (mjoin (word_bytes <$> ustack))) in
      if r <? 0 then Ok (m, None) else Ok (m, Some (sz, sp))
  end.

(** The part of the path after the last slash. *)
Fixpoint last_elem (last path : bytes) : result bytes :=
  match path with
  | [] => Err OutOfBounds
  | c :: path' => if c =? 0 then Ok last else last_elem (if c =? 47 then path' else last) path'
  end.

(** The label [bad], before the inode is dropped and after it. *)
Definition bad_inode (f : fs) (m : mem) (pgdir ip : Z) : result (fs * mem) :=
  let! m := if pgdir =? 0 then Ok m else Vm.freevm kend m pgdir in
  let! f := iunlockput f ip in
  Ok (f, m).

Definition exec (f : fs) (m : mem) (p : Proc.proc) (path : bytes) (argv : list bytes) : result (fs * mem * Proc.proc * Z) :=
  let! '(f, o) := namei f (icache_index (p_cwd p)) path in
  match o with
  | None => Ok (f, m, p, -1)
  | Some ip =>
      let! f := ilock f ip in
      let! '(f, (r, b)) := read_at f ip 0 sizeof_elfhdr in
      if u32 r <? sizeof_elfhdr then let! '(f, m) := bad_inode f m 0 ip in Ok (f, m, p, -1) else
      let! elf := elfhdr_of b in
      if negb (magic elf =? ELF_MAGIC) then let! '(f, m) := bad_inode f m 0 ip in Ok (f, m, p, -1) else
      let! '(m, pgdir) := Vm.setupkvm kdata m in
      if pgdir =? 0 then let! '(f, m) := bad_inode f m 0 ip in Ok (f, m, p, -1) else
      let! '(f, m, o) := load_segments (Z.to_nat (phnum elf)) f m pgdir ip (phoff elf) 0 in
      match o with
      | None => let! '(f, m) := bad_inode f m pgdir ip in Ok (f, m, p, -1)
      | Some sz =>
          let! f := iunlockput f ip in
          let! '(m, o) := build_stack m pgdir sz argv in
          match o with
          | None => let! m := Vm.freevm kend m pgdir in Ok (f, m, p, -1)
          | Some (sz, sp) =>
              let! last := last_elem path path in
              let! name := Kstring.safestrcpy (p_name p) 0 last 16 in
              let oldpgdir := p_pgdir p in
              let p := set_tf (set_entry (entry_ elf) sp (p_tf p)) (set_sz sz (set_pgdir pgdir (set_name name p))) in
              let! m := Vm.freevm kend m oldpgdir in
              Ok (f, m, p, 0)
          end
      end
  end.
End Exec.

(** * [sys_exec] *)

Section SysExec.
Context (um : Z -> Z) (sz esp : Z).

(** The bytes of a string of the process, without the NUL. *)
Definition user_str (a len : Z) : bytes := (fun i => um (a + Z.of_nat i)) <$> seq 0 (Z.to_nat len).

(** The loop over the pointers at [uargv], from index [i] on. *)
Fixpoint fetch_args (fuel : nat) (uargv i : Z) : option (list bytes) :=
  match fuel with
  | O => None
  | S fuel' =>
      match fetchint um sz (u32 (uargv + 4 * i)) with
      | None => None
      | Some uarg =>
          if uarg =? 0 then Some [] else
          match fetchstr um sz (u32 uarg) with
          | None => None
          | Some (a, len) =>
              match fetch_args fuel' uargv (i + 1) with
              | None => None
              | Some l => Some (user_str a len :: l)
              end
          end
      end
  end.

(** The path, with its NUL, and the arguments; [MAXARG] pointers are looked at. *)
Definition sys_exec_args : option (bytes * list bytes) :=
  match argstr um sz esp 0, argint um sz esp 1 with
  | Some (p, len), Some uargv =>
      match fetch_args (Z.to_nat MAXARG) (u32 uargv) 0 with
      | None => None
      | Some argv => Some (user_str p len ++ [0], argv)
      end
  | _, _ => None
  end.
End SysExec.

(** The memory of the process is read through [um]. *)
Definition sys_exec (kend kdata : Z) {D} `{!BlockDev D} `{!Devsw D} (um : Z -> Z) (f : fs D) (m : mem) (p : Proc.proc) : result (fs D * mem * Proc.proc * Z) :=
  match sys_exec_args um (p_sz p) (tf_esp (p_tf p)) with
  | None => Ok (f, m, p, -1)
  | Some (path, argv) => exec kend kdata f m p path argv
  end.
