(* ===== verification/ExecLemmas.v ===== *)
(** Lemmas on exec.c: the guard page, the arguments on the stack, and loading. *)
From stdpp Require Import gmap.
From S2P Require Import Prelude Ulib Sys Fs Inode Proc Vm VmSpace VmKernel VmCopy VmProps Exec.

#[local] Ltac Zify.zify_post_hook ::= Z.to_euclidean_division_equations.

Section Stack.
Context (kend : Z) (Hkend : KERNBASE < kend).
Notation vm_ok := (vm_ok kend).
Notation uspace := (uspace kend).

(** * [clearpteu] *)

Lemma clear_u e : 0 <= e < 2 ^ 32 -> e mod 8 = 7 -> Z.land e (u32 (Z.lnot PTE_U)) = e - 4.
Proof.
  intros He Hm. apply Z.bits_inj'. intros n Hn. change (u32 (Z.lnot PTE_U)) with (2 ^ 32 - 1 - 4). rewrite Z.land_spec.
  assert (e = 8 * (e / 8) + 7) as Ee by lia. assert (e - 4 = 8 * (e / 8) + 3) as Ee' by lia. set (q := e / 8) in *.
  assert (forall k, 0 <= k < 8 -> Z.testbit (8 * q + k) n = if n <? 3 then Z.testbit k n else Z.testbit q (n - 3)) as Hbits.
  { intros k Hk. destruct (Z.ltb_spec n 3).
    - rewrite <- (Z.mod_pow2_bits_low (8 * q + k) 3 n) by lia. change (2 ^ 3) with 8. f_equal. lia.
    - replace n with ((n - 3) + 3) at 1 by lia. rewrite <- Z.div_pow2_bits by lia. f_equal. change (2 ^ 3) with 8. lia. }
  rewrite Ee', Ee, !Hbits by lia. destruct (Z.ltb_spec n 3).
  - assert (n = 0 \/ n = 1 \/ n = 2) as [->|[->| ->]] by lia; reflexivity.
  - destruct (Z.lt_ge_cases n 32).
    + replace (Z.testbit (2 ^ 32 - 1 - 4) n) with true; [by rewrite andb_true_r|]. symmetry.
      change (2 ^ 32 - 1 - 4) with (8 * 536870911 + 3). replace n with ((n - 3) + 3) by lia. rewrite <- Z.div_pow2_bits by lia. change ((8 * 536870911 + 3) / 2 ^ 3) with (Z.ones 29). apply Z.ones_spec_low. lia.
    + replace (Z.testbit q (n - 3)) with false; [done|]. symmetry. apply Z.testbit_false; [lia|]. rewrite Z.div_small; [done|]. split; [lia|].
      apply Z.lt_le_trans with (2 ^ 29); [lia|]. apply Z.pow_le_mono_r; lia.
Qed.

(** The page stays mapped for the kernel and is closed to the process. *)
Lemma clearpteu_ok m L d T V n p :
  vm_ok m L d T V -> 0 <= n < 524288 -> V !! n = Some (entry (v2p p) 6) -> page_ok kend p ->
  exists m', clearpteu m d (4096 * n) = Ok m' /\ vm_ok m' L d T (<[n := entry (v2p p) 2]> V) /\
    (forall j, page_of <$> (<[n := entry (v2p p) 2]> V) !! j = page_of <$> V !! j) /\
    (forall x, (forall q, q ∈ values T -> ~ in_page q x) -> mbytes m' x = mbytes m x).
Proof.
  intros H Hn He Hp. destruct (v2p_p2v _ _ Hp) as (V1 & V2 & V3 & _). destruct (sp_dom _ _ _ _ (vm_space _ _ _ _ _ _ H) n _ He) as [_ [t Ht]].
  assert (entry (v2p p) 6 = v2p p + 7 /\ entry (v2p p) 2 = v2p p + 3) as [E6 E2].
  { unfold entry, PTE_P. rewrite <- !Z.lor_assoc. change (Z.lor 6 1) with 7. change (Z.lor 2 1) with 3. rewrite !(lor_low 12) by (done || lia). done. }
  assert (page_of (entry (v2p p) 2) = page_of (entry (v2p p) 6)) as Epg by (by rewrite !(page_of_entry kend) by (done || lia)).
  unfold clearpteu. rewrite (walk_read kend m L d T V (4096 * n) false H) by (lia || by left). rewrite rbind_ok. replace (4096 * n / 4096) with n by lia. unfold entry_addr. rewrite Ht.
  destruct (entry_read kend m L d T V n t H ltac:(lia) Ht) as (Hne & B1 & B2 & ->). rewrite (proj2 (Z.eqb_neq _ _) Hne), rbind_ok.
  pose proof (sp_ent _ _ _ _ (vm_space _ _ _ _ _ _ H) n t ltac:(lia) Ht) as Hent. rewrite He in Hent. destruct Hent as (-> & Hr & _).
  rewrite clear_u by lia. replace (entry (v2p p) 6 - 4) with (entry (v2p p) 2) by lia. rewrite st32_ok by done. eexists. split; [reflexivity|].
  pose proof (vm_pages _ _ _ _ _ _ H) as Hpg. unfold own in Hpg. pose proof (vm_nodup _ _ _ _ _ _ H) as Hnd. pose proof (own_parts kend m L d T V H) as (N1 & _ & N3 & _ & _).
  assert (t ∈ values T) as HtT by (apply elem_values; by exists (n / 1024)). destruct (vm_page kend _ _ _ _ _ t H (own_tab _ _ _ _ _ Ht)) as [Hpt HtL]. pose proof (page_bounds _ _ Hpt) as Bt.
  assert (forall j, page_of <$> (<[n := entry (v2p p) 2]> V) !! j = page_of <$> V !! j) as Hpages.
  { intros j. destruct (decide (j = n)) as [->|]; [rewrite lookup_insert_eq, He; cbn; by rewrite Epg | by rewrite lookup_insert_ne]. }
  assert (upages (<[n := entry (v2p p) 2]> V) = upages V) as Eup.
  { unfold upages. rewrite user_part_insert, decide_True by (unfold user; lia). rewrite fmap_insert, Epg. rewrite insert_id; [done|]. rewrite lookup_fmap.
    rewrite (proj2 (user_part_lookup V n (entry (v2p p) 6))); [done|]. split; [done | unfold user; lia]. }
  split; [|split; [exact Hpages|]].
  - constructor; unfold own; rewrite ?Eup; [|cbn [mbytes] | exact Hpg | exact Hnd].
    + apply mem_ok_ext; [apply H|]. intros q x Hq Hx. cbn [mbytes]. apply set_word_out. intros Hr'. apply HtL. pose proof (mo_pages _ _ _ (vm_mem _ _ _ _ _ _ H)) as F. rewrite Forall_forall in F.
      assert (t = q) as ->; [|done]. apply (pages_apart kend t q x); [done | by apply F | unfold in_page; lia | done].
    + pose proof (space_set kend (mbytes m) d T V n t (entry (v2p p) 2) (vm_space _ _ _ _ _ _ H)) as Hs. destruct (entry_ok (v2p p) 2 V1 V2 ltac:(lia)) as (Hr2 & _ & Hpr & _). rewrite Hpr in Hs. apply Hs; [| |lia|done|done].
      * apply Forall_cons in Hpg as [Hd Hpg]. constructor; [done|]. by apply Forall_app in Hpg as [? _].
      * by apply NoDup_cons.
  - intros x Hx. cbn [mbytes]. apply set_word_out. intros Hr'. apply (Hx t HtT). unfold in_page. lia.
Qed.

(** * The arguments *)

(** Where the strings go, and where the stack pointer ends. *)
Definition below (sp : Z) (a : bytes) : Z := (sp - (zlen a + 1)) / 4 * 4.

Fixpoint arg_addrs (sp : Z) (argv : list bytes) : list Z :=
  match argv with
  | [] => []
  | a :: argv => below sp a :: arg_addrs (below sp a) argv
  end.

Definition final_sp (sp : Z) (argv : list bytes) : Z := foldl below sp argv.

Lemma final_sp_le argv sp : final_sp sp argv <= sp.
Proof. revert sp. induction argv as [|a argv IH]; intros sp; cbn; [lia|]. specialize (IH (below sp a)). unfold final_sp in IH. unfold below in *. lia. Qed.

Lemma final_sp_aligned argv sp : sp mod 4 = 0 -> final_sp sp argv mod 4 = 0.
Proof. revert sp. induction argv as [|a argv IH]; intros sp H; cbn; [done|]. apply IH. unfold below. lia. Qed.

Lemma align_down x : 0 <= x < 2 ^ 32 -> Z.land x (u32 (Z.lnot 3)) = x / 4 * 4.
Proof. intros Hx. change 3 with (2 ^ 2 - 1). rewrite u32_lnot by lia. rewrite land_high by lia. change (2 ^ 2) with 4. lia. Qed.

(** The page of the stack, from [lo] to [top], may be used by the process. *)
Definition stack_page (V : gmap Z Z) (lo top : Z) : Prop := 0 <= lo /\ top < KERNBASE /\ forall a, lo <= a < top -> accessible V a.

Lemma copyout_stack m L d T V lo top va s :
  vm_ok m L d T V -> stack_page V lo top -> lo <= va -> va + zlen s <= top ->
  exists m', copyout m d va s = Ok (m', 0) /\ vm_ok m' L d T V /\
    forall a, 0 <= a < KERNBASE -> uread m' V a = if decide (va <= a < va + zlen s) then Some (nth (Z.to_nat (a - va)) s 0) else uread m V a.
Proof.
  intros H (Hlo & Htop & Hacc) Hva Hs. destruct (copyout_user kend m L d T V va s H) as (m' & E & H' & R); [lia | lia | intros a Ha; apply Hacc; lia|].
  exists m'. split; [done|]. split; [done|]. intros a Ha. destruct (uaddr V a) as [x|] eqn:Ex; [apply R; [done | by rewrite Ex]|].
  rewrite decide_False; [unfold uread; by rewrite Ex|]. intros Hr. destruct (Hacc a ltac:(lia)) as (e & He & _). unfold uaddr in Ex. by rewrite He in Ex.
Qed.

(** Writing to the stack page changes nothing outside the address space. *)
Lemma copyout_frame m m' L d T V lo top va s :
  vm_ok m L d T V -> stack_page V lo top -> lo <= va -> va + zlen s <= top -> copyout m d va s = Ok (m', 0) ->
  forall x, (forall p, p ∈ own d T V -> ~ in_page p x) -> mbytes m' x = mbytes m x.
Proof.
  intros H (Hlo & Htop & Hacc) Hva Hs E x Hx. destruct (copyout_loop_ok kend (S (length s)) m L d T V va s H) as (m2 & E2 & _ & _ & R); [lia | lia | intros i Hi; apply Hacc; lia | lia|].
  unfold copyout in E. rewrite E2 in E. injection E as <-. apply R. intros i Hi (e & He & Hp)%uaddr_page. apply (Hx (page_of e)); [|done].
  apply (own_user d T V ((va + i) / 4096)); [done|]. unfold user, KERNBASE in *. lia.
Qed.
Lemma insert_take_middle (l k : list Z) n p : (n < length l)%nat -> take (S n) (<[n := p]> l) ++ k = take n l ++ p :: k.
Proof. intros Hn. rewrite (take_S_r _ _ p) by (by apply list_lookup_insert_eq). rewrite take_insert_ge by lia. by rewrite <- app_assoc. Qed.

Lemma push_args_ok argv m L d T V lo top argc sp ustack :
  vm_ok m L d T V -> stack_page V lo top -> sp <= top -> lo <= final_sp sp argv -> 0 <= argc -> argc + zlen argv <= MAXARG -> length ustack = 36%nat ->
  exists m', push_args argv m d argc sp ustack =
      Ok (m', Some (argc + zlen argv, final_sp sp argv, take (Z.to_nat (3 + argc)) ustack ++ arg_addrs sp argv ++ drop (Z.to_nat (3 + argc) + length argv) ustack)) /\
    vm_ok m' L d T V /\
    (forall i a p j, argv !! i = Some a -> arg_addrs sp argv !! i = Some p -> 0 <= j <= zlen a -> uread m' V (p + j) = Some (nth (Z.to_nat j) (a ++ [0]) 0)) /\
    (forall a, 0 <= a < KERNBASE -> ~ (final_sp sp argv <= a < sp) -> uread m' V a = uread m V a) /\
    (forall x, (forall p, p ∈ own d T V -> ~ in_page p x) -> mbytes m' x = mbytes m x).
Proof.
  intros H Hst. revert m argc sp ustack H. induction argv as [|a argv IH]; intros m argc sp ustack H Hsp Hfin Hc Hmax Hlen.
  - exists m. cbn [push_args arg_addrs final_sp foldl length app]. rewrite Nat.add_0_r, take_drop, Z.add_0_r. do 4 (split; [done|]). done.
  - cbn [push_args arg_addrs length] in *. unfold MAXARG in *. rewrite (proj2 (Z.leb_gt 32 argc)) by lia. pose proof (final_sp_le argv (below sp a)) as Hle.
    change (final_sp sp (a :: argv)) with (final_sp (below sp a) argv) in *. pose proof Hst as (Hlo & Htop & _). unfold KERNBASE in Htop.
    assert (0 <= below sp a /\ below sp a + zlen (a ++ [0]) <= sp) as [Hb0 Hb1] by (rewrite length_app; cbn [length]; unfold below in *; lia).
    rewrite u32_small by (unfold below in *; lia). rewrite align_down by (unfold below in *; lia). fold (below sp a).
    destruct (copyout_stack m L d T V lo top (below sp a) (a ++ [0]) H Hst) as (m1 & Ec & H1 & R1); [lia | lia|]. rewrite Ec, rbind_ok. cbn [Z.ltb Z.compare].
    rewrite put_ok by lia. rewrite rbind_ok. destruct (IH m1 (argc + 1) (below sp a) (<[Z.to_nat (3 + argc) := below sp a]> ustack) H1) as (m' & E & H' & R2 & R3 & R4); [lia | lia | lia | lia | by rewrite length_insert|].
    exists m'. rewrite E. split; [|split; [done|split; [|split]]].
    + replace (argc + 1 + zlen argv) with (argc + Z.of_nat (S (length argv))) by lia. replace (Z.to_nat (3 + (argc + 1))) with (S (Z.to_nat (3 + argc))) by lia.
      rewrite insert_take_middle by lia. rewrite drop_insert_lt by lia. by replace (S (Z.to_nat (3 + argc)) + length argv)%nat with (Z.to_nat (3 + argc) + S (length argv))%nat by lia.
    + intros [|i] b p j Hb Hp Hj.
      * cbn in Hb, Hp. injection Hb as <-. injection Hp as <-. assert (zlen (a ++ [0]) = zlen a + 1) as El by (rewrite length_app; cbn; lia).
        rewrite R3 by (unfold KERNBASE; lia). rewrite R1, decide_True by (unfold KERNBASE; lia). do 2 f_equal. lia.
      * by apply (R2 i b p j).
    + intros x Hx Hr. rewrite R3 by lia. rewrite R1, decide_False by lia. done.
    + intros x Hx. rewrite R4 by done. eapply copyout_frame; [exact H | exact Hst | | | exact Ec | done]; lia.
Qed.

(** * The frame of [main] *)

Definition main_frame (sp : Z) (addrs : list Z) : list Z := [4294967295; zlen addrs; sp + 12] ++ addrs ++ [0].

Lemma join_cons (x : bytes) (l : list bytes) : mjoin (x :: l) = x ++ mjoin l.
Proof. reflexivity. Qed.

Lemma take_words n l : take (4 * n) (mjoin (word_bytes <$> l)) = mjoin (word_bytes <$> take n l).
Proof.
  revert n. induction l as [|v l IH]; intros [|n]; try done.
  replace (4 * S n)%nat with (4 + 4 * n)%nat by lia. cbn [fmap list_fmap take]. rewrite !join_cons. change (4 + 4 * n)%nat with (length (word_bytes v) + 4 * n)%nat.
  rewrite take_app_add. by rewrite IH.
Qed.

Lemma words_len l : length (mjoin (word_bytes <$> l)) = (4 * length l)%nat.
Proof. induction l as [|v l IH]; [done|]. cbn [fmap list_fmap]. rewrite join_cons, length_app, IH. cbn [length]. change (length (word_bytes v)) with 4%nat. lia. Qed.

Lemma length_addrs sp argv : length (arg_addrs sp argv) = length argv.
Proof. revert sp. induction argv as [|a argv IH]; intros sp; [done|]. cbn [arg_addrs length]. by rewrite IH. Qed.

(** The four stores into [ustack] after the arguments. *)
Lemma fill_ustack addrs argc v :
  argc = zlen addrs -> argc <= MAXARG ->
  exists u1 u2 u3 rest, put (take (Z.to_nat (3 + 0)) (replicate 36 0) ++ addrs ++ drop (Z.to_nat (3 + 0) + length addrs) (replicate 36 0)) (3 + argc) 0 = Ok u1 /\
    put u1 0 4294967295 = Ok u2 /\ put u2 1 argc = Ok u3 /\ put u3 2 v = Ok (4294967295 :: argc :: v :: addrs ++ 0 :: rest).
Proof.
  intros -> Hm. unfold MAXARG in Hm. change (take (Z.to_nat (3 + 0)) (replicate 36 0)) with [0; 0; 0].
  assert (drop (Z.to_nat (3 + 0) + length addrs) (replicate 36 0) = 0 :: replicate (32 - length addrs) 0) as ->.
  { rewrite drop_replicate. by replace (36 - (Z.to_nat (3 + 0) + length addrs))%nat with (S (32 - length addrs)) by lia. }
  eexists _, _, _, (replicate (32 - length addrs) 0). rewrite put_ok by (rewrite !length_app; cbn [length]; lia). split; [reflexivity|].
  rewrite list_insert_id; [|rewrite app_assoc; apply list_lookup_middle; rewrite length_app; cbn [length]; lia].
  cbn [app]. rewrite put_ok by (cbn [length]; lia). split; [reflexivity|]. change (Z.to_nat 0) with 0%nat. cbn [insert list_insert].
  rewrite put_ok by (cbn [length]; lia). split; [reflexivity|]. change (Z.to_nat 1) with 1%nat. cbn [insert list_insert].
  rewrite put_ok by (cbn [length]; lia). change (Z.to_nat 2) with 2%nat. cbn [insert list_insert]. done.
Qed.

Lemma up_pages m L d T V sz : uspace m L d T V sz -> uspace m L d T V (4096 * up sz).
Proof. intros [H1 H2 H3 H4]. split; [done | | done | unfold up, KERNBASE in *; lia]. intros n Hn. rewrite H2 by done. unfold up. lia. Qed.

Record stacked (m m' : mem) (d : Z) (V V' : gmap Z Z) (sz top sp : Z) (argv : list bytes) : Prop := {
  st_old : forall a, 0 <= a < 4096 * up sz -> uread m' V' a = uread m V a;
  st_guard : forall a, top - 8192 <= a < top - 4096 -> ~ accessible V' a;
  st_frame : forall j, 0 <= j < 4 * (4 + zlen argv) -> uread m' V' (sp + j) = Some (nth (Z.to_nat j) (mjoin (word_bytes <$> main_frame sp (arg_addrs top argv))) 0);
  st_args : forall i a p j, argv !! i = Some a -> arg_addrs top argv !! i = Some p -> 0 <= j <= zlen a -> uread m' V' (p + j) = Some (nth (Z.to_nat j) (a ++ [0]) 0);
}.

Lemma entry_u p perm : page_ok kend p -> 0 <= perm < 4096 -> Z.land (entry (v2p p) perm) PTE_U = Z.land (Z.lor perm 1) 4.
Proof.
  intros Hp Hperm. destruct (v2p_p2v _ _ Hp) as (P1 & P2 & _). destruct (entry_ok (v2p p) perm P1 P2 Hperm) as (Hr & _ & _ & <-).
  change 4096 with (2 ^ 12). rewrite <- Z.land_ones, <- Z.land_assoc by lia. done.
Qed.

(** The two pages: the guard and the stack. *)
Lemma stack_pages_ok m L d T V sz :
  uspace m L d T V sz -> 4096 * up sz + 8192 < KERNBASE -> 4 <= zlen L ->
  let top := 4096 * up sz + 8192 in
  exists m1 m2 L' T' V', Vm.allocuvm kend m d (4096 * up sz) top = Ok (m1, top) /\ clearpteu m1 d (4096 * up sz) = Ok m2 /\
    uspace m2 L' d T' V' top /\ own d T' V' ++ L' ≡ₚ own d T V ++ L /\ stack_page V' (top - 4096) top /\
    (forall a, 0 <= a < 4096 * up sz -> uread m2 V' a = uread m V a) /\ (forall a, top - 8192 <= a < top - 4096 -> ~ accessible V' a) /\
    (forall x, (forall p, p ∈ own d T V ++ L -> ~ in_page p x) -> mbytes m2 x = mbytes m x).
Proof.
  intros H Htop HL top. unfold KERNBASE in Htop. pose proof (us_sz _ _ _ _ _ _ _ H) as Hmax. assert (0 <= up sz) as Hup by (unfold up; lia). pose proof (up_pages _ _ _ _ _ _ H) as H0.
  assert (up (4096 * up sz) = up sz /\ up top = up sz + 2) as [Eu1 Eu2] by (unfold top, up; lia).
  destruct (allocuvm_ok kend m L d T V (4096 * up sz) top H0) as (m1 & L1 & T1 & V1 & E1 & H1 & G); [unfold KERNBASE, top; lia | lia|]. rewrite Eu1, Eu2 in G. replace (up sz + 2 - up sz) with 2 in G by lia.
  destruct (g_new _ _ _ _ _ _ _ _ _ _ _ G (up sz) ltac:(lia)) as (p & Hp & Ep & _). destruct (g_new _ _ _ _ _ _ _ _ _ _ _ G (up sz + 1) ltac:(lia)) as (q & Hq & Eq & _).
  pose proof (mo_pages _ _ _ (vm_mem _ _ _ _ _ _ (us_vm _ _ _ _ _ _ _ H))) as FL. rewrite Forall_forall in FL.
  destruct (clearpteu_ok m1 L1 d T1 V1 (up sz) p (us_vm _ _ _ _ _ _ _ H1)) as (m2 & E2 & H2 & Hpg & F2); [lia | done | by apply FL|]. set (V2 := <[up sz := entry (v2p p) 2]> V1) in *.
  assert (user (up sz)) as Hus by (unfold user; lia).
  exists m1, m2, L1, T1, V2. split; [done|]. split; [done|]. split; [|split; [|split; [|split; [|split]]]].
  - destruct H1 as [A1 A2 A3 A4]. split; [done | | done | done]. intros n Hn. rewrite <- A2 by done. unfold V2. destruct (decide (n = up sz)) as [->|]; [rewrite lookup_insert_eq, Ep; split; intros _; by eexists | by rewrite lookup_insert_ne].
  - rewrite <- (g_perm _ _ _ _ _ _ _ _ _ _ _ G). apply reflexive_eq. unfold own, upages. do 4 f_equal. apply map_eq. intros j. rewrite !lookup_fmap. unfold V2. rewrite user_part_insert, decide_True by (unfold user; lia).
    destruct (decide (j = up sz)) as [->|]; [|by rewrite lookup_insert_ne]. rewrite lookup_insert_eq, (proj2 (user_part_lookup V1 (up sz) _) (conj Ep Hus)).
    cbn. f_equal. rewrite !(page_of_entry kend) by (try lia; by apply FL). done.
  - unfold top. split; [lia|]. split; [unfold KERNBASE; lia|]. intros a Ha. exists (entry (v2p q) 6). unfold V2. rewrite lookup_insert_ne by lia. replace (a / 4096) with (up sz + 1) by lia.
    split; [done|]. rewrite entry_u by (try lia; by apply FL). done.
  - intros a Ha. assert (uread m2 V2 a = uread m1 V1 a) as ->.
    { assert (page_of <$> V2 !! (a / 4096) = page_of <$> V1 !! (a / 4096)) as E by apply Hpg. unfold uread, uaddr. destruct (V1 !! (a / 4096)) as [e|] eqn:Ee; destruct (V2 !! (a / 4096)) as [e2|]; try done.
      cbn in E. injection E as E. cbn. rewrite E. f_equal. apply F2. intros t Ht. destruct (user_page_apart kend m1 L1 d T1 V1 (a / 4096) e (page_of e + a mod 4096) (us_vm _ _ _ _ _ _ _ H1)) as [X _]; [lia | done | unfold in_page; lia|].
      apply X. right. apply elem_of_app. by left. }
    apply uread_ext; [apply (g_old _ _ _ _ _ _ _ _ _ _ _ G); lia|]. intros e x He Hx. apply (g_frame _ _ _ _ _ _ _ _ _ _ _ G). by apply (user_page_apart kend m L d T V (a / 4096) e x (us_vm _ _ _ _ _ _ _ H)); [unfold up in *; lia | |].
  - intros a Ha (e & He & Hu). unfold V2 in He. replace (a / 4096) with (up sz) in He by (unfold top in *; lia). rewrite lookup_insert_eq in He. injection He as <-. apply Hu. rewrite entry_u by (try lia; by apply FL). done.
  - intros x Hx. assert (forall r, r ∈ d :: values T ++ L -> ~ in_page r x) as Hx0.
    { intros r Hr. apply Hx. unfold own. rewrite elem_of_cons, elem_of_app in Hr. rewrite elem_of_app, elem_of_cons, elem_of_app. tauto. }
    rewrite F2, (g_frame _ _ _ _ _ _ _ _ _ _ _ G x Hx0); [done|]. intros r Hr. apply Hx0. apply (g_pages _ _ _ _ _ _ _ _ _ _ _ G). right. apply elem_of_app. by left.
Qed.

(** The strings lie above the final stack pointer. *)
Lemma addrs_above argv i a t p : argv !! i = Some a -> arg_addrs t argv !! i = Some p -> final_sp t argv <= p /\ p + zlen a < t.
Proof.
  revert i t. induction argv as [|b argv IH]; intros [|i] t Ha Hr; try done; change (final_sp t (b :: argv)) with (final_sp (below t b) argv).
  - cbn in Ha, Hr. injection Ha as <-. injection Hr as <-. pose proof (final_sp_le argv (below t b)). unfold below in *. lia.
  - destruct (IH i (below t b) Ha Hr) as [I1 I2]. unfold below in *. lia.
Qed.

Lemma frame_words argv sp fsp rest : sp = fsp - 4 * (4 + zlen argv) -> forall t,
  take (4 + length argv) (4294967295 :: zlen argv :: fsp - (zlen argv + 1) * 4 :: arg_addrs t argv ++ 0 :: rest) = main_frame sp (arg_addrs t argv).
Proof.
  intros -> t. unfold main_frame. cbn [take Nat.add app]. rewrite length_addrs. do 2 f_equal. f_equal; [lia|]. rewrite <- (length_addrs t argv) at 1. rewrite <- Nat.add_1_r, take_app_add. done.
Qed.

Lemma frame_len sp t argv : zlen (mjoin (word_bytes <$> main_frame sp (arg_addrs t argv))) = 4 * (4 + zlen argv).
Proof. rewrite words_len. unfold main_frame. rewrite !length_app, length_addrs. cbn [length]. lia. Qed.

Lemma build_stack_ok m L d T V sz argv :
  uspace m L d T V sz -> 4096 * up sz + 8192 < KERNBASE -> 4 <= zlen L -> zlen argv <= MAXARG ->
  let top := 4096 * up sz + 8192 in let sp := final_sp top argv - 4 * (4 + zlen argv) in
  top - 4096 <= sp ->
  exists m' L' T' V', build_stack kend m d sz argv = Ok (m', Some (top, sp)) /\ uspace m' L' d T' V' top /\ own d T' V' ++ L' ≡ₚ own d T V ++ L /\
    stacked m m' d V V' sz top sp argv /\ (forall x, (forall p, p ∈ own d T V ++ L -> ~ in_page p x) -> mbytes m' x = mbytes m x).
Proof.
  intros H Htop HL Hargc top sp Hfit. destruct (stack_pages_ok m L d T V sz H Htop HL) as (m1 & m2 & L2 & T2 & V2 & E1 & E2 & H2 & P2 & Hst & K2 & Hg & F2). fold top in E1, H2, Hst, Hg.
  pose proof (us_sz _ _ _ _ _ _ _ H) as Hmax. unfold KERNBASE in Htop. assert (0 <= up sz) as Hup by (unfold up; lia).
  unfold build_stack, PGSIZE. rewrite PGROUNDUP_eq by (unfold KERNBASE in *; lia). replace ((sz + 4095) / 4096 * 4096) with (4096 * up sz) by (unfold up; lia).
  rewrite u32_small by lia. change (2 * 4096) with 8192. fold top. rewrite E1, rbind_ok, (proj2 (Z.eqb_neq top 0)) by (unfold top; lia).
  rewrite u32_small by (unfold top; lia). replace (top - 8192) with (4096 * up sz) by (unfold top; lia). rewrite E2, rbind_ok.
  pose proof (final_sp_le argv top) as Hfle. pose proof (us_vm _ _ _ _ _ _ _ H2) as Hv2.
  destruct (push_args_ok argv m2 L2 d T2 V2 (top - 4096) top 0 top (replicate 36 0) Hv2 Hst) as (m3 & -> & H3 & R3 & K3 & F3); [lia | unfold sp in Hfit; lia | lia | lia | done|]. rewrite rbind_ok, Z.add_0_l.
  set (fsp := final_sp top argv) in *. rewrite (u32_small (fsp - _)) by (unfold sp, top in *; lia). rewrite (u32_small (fsp - _)) by (unfold sp, top in *; lia).
  destruct (fill_ustack (arg_addrs top argv) (zlen argv) (fsp - (zlen argv + 1) * 4)) as (u1 & u2 & u3 & rest & W1 & W2 & W3 & W4); [by rewrite length_addrs | done|]. rewrite length_addrs in W1.
  rewrite W1, rbind_ok, W2, rbind_ok, W3, rbind_ok, W4, rbind_ok. clear W1 W2 W3 W4 u1 u2 u3.
  replace (fsp - (3 + zlen argv + 1) * 4) with sp by (unfold sp; lia). replace (Z.to_nat ((3 + zlen argv + 1) * 4)) with (4 * (4 + length argv))%nat by lia. rewrite take_words, (frame_words argv sp) by done.
  pose proof (frame_len sp top argv) as Hfl. destruct (copyout_stack m3 L2 d T2 V2 (top - 4096) top sp (mjoin (word_bytes <$> main_frame sp (arg_addrs top argv))) H3 Hst) as (m4 & Ec & H4 & R4); [lia | unfold sp in *; lia|].
  rewrite Ec, rbind_ok. cbn [Z.ltb Z.compare]. exists m4, L2, T2, V2. rewrite Hfl in R4. split; [done|]. split; [by destruct H2; split|]. split; [done|]. split; [constructor|].
  - intros a Ha. rewrite R4, decide_False by (unfold KERNBASE, sp, top in *; lia). rewrite K3 by (unfold KERNBASE, sp, top in *; lia). by apply K2.
  - exact Hg.
  - intros j Hj. rewrite R4, decide_True by (unfold KERNBASE, sp, top in *; lia). by replace (sp + j - sp) with j by lia.
  - intros i a r j Ha Hr Hj. destruct (addrs_above argv i a top r Ha Hr) as [X1 X2]. fold fsp in X1. rewrite R4, decide_False by (unfold KERNBASE, sp, top in *; lia). by apply (R3 i a r j).
  - intros x Hx. assert (forall p, p ∈ own d T2 V2 -> ~ in_page p x) as Hx2 by (intros p Hp; apply Hx; rewrite <- P2; apply elem_of_app; by left).
    assert (mbytes m4 x = mbytes m3 x) as -> by (eapply copyout_frame; [exact H3 | exact Hst | | | exact Ec | exact Hx2]; unfold sp in *; lia). rewrite F3 by done. by apply F2.
Qed.
End Stack.

(** Loading a program: [loaduvm] and the loop over the program headers. *)

#[local] Ltac Zify.zify_post_hook ::= Z.to_euclidean_division_equations.

Section Load.
Context (kend : Z) (Hkend : KERNBASE < kend) {D : Type} `{!BlockDev D} `{!Devsw D}.
Notation vm_ok := (vm_ok kend).
Notation uspace := (uspace kend).
Abbreviation fs := (fs D).

(** The file behind [ip] can be read, and its bytes are [c]. *)
Definition reads (f : fs) (ip : Z) (c : bytes) : Prop :=
  zlen c < 2 ^ 31 /\ forall off n, 0 <= off -> 0 <= n -> off + n <= zlen c -> read_at f ip off n = Ok (f, (n, slice c off n)).

(** A page of user memory is overwritten from its start. *)
Lemma write_page m L d T V n e s :
  vm_ok m L d T V -> 0 <= n < 524288 -> V !! n = Some e -> zlen s <= 4096 ->
  exists m', copy_in m (page_of e) s = Ok m' /\ vm_ok m' L d T V /\
    (forall a, 0 <= a < KERNBASE -> uread m' V a = if decide (4096 * n <= a < 4096 * n + zlen s) then Some (nth (Z.to_nat (a - 4096 * n)) s 0) else uread m V a) /\
    (forall x, (forall p, p ∈ own d T V -> ~ in_page p x) -> mbytes m' x = mbytes m x).
Proof.
  intros H Hn He Hs. destruct (write_user kend m L d T V n e 0 s H Hn He) as (m' & E & H' & W); [lia | lia|]. rewrite Z.add_0_r in *. exists m'. split; [done|]. split; [done|]. split.
  - intros a Ha. unfold KERNBASE in Ha. unfold uread. destruct (uaddr V a) as [x|] eqn:Ex.
    + cbn. rewrite W. destruct (decide (4096 * n <= a < 4096 * n + zlen s)) as [Hr|Hr].
      * assert (x = page_of e + (a - 4096 * n)) as -> by (unfold uaddr in Ex; replace (a / 4096) with n in Ex by lia; rewrite He in Ex; cbn in Ex; injection Ex as <-; lia).
        rewrite decide_True by lia. do 2 f_equal. lia.
      * rewrite decide_False; [done|]. intros Hx. apply Hr. assert (a = 4096 * n + (x - page_of e)) as ->; [|lia].
        apply (uaddr_inj kend m L d T V _ _ x H); [unfold KERNBASE; lia | unfold KERNBASE; lia | done|]. unfold uaddr. replace ((4096 * n + (x - page_of e)) / 4096) with n by lia. rewrite He. cbn. f_equal. lia.
    + rewrite decide_False; [done|]. intros Hr. unfold uaddr in Ex. replace (a / 4096) with n in Ex by lia. by rewrite He in Ex.
  - intros x Hx. rewrite W, decide_False; [done|]. intros Hr. apply (Hx (page_of e)); [apply (own_user d T V n); [done | unfold user; lia] | unfold in_page; lia].
Qed.

(** * [loaduvm] *)

Record loaded (m m' : mem) (L : list Z) (d : Z) (T V : gmap Z Z) (c : bytes) (addr offset lo hi : Z) : Prop := {
  ld_vm : vm_ok m' L d T V;
  ld_bytes : forall a, 0 <= a < KERNBASE -> uread m' V a = if decide (addr + lo <= a < addr + hi) then Some (nth (Z.to_nat (offset + (a - addr))) c 0) else uread m V a;
  ld_frame : forall x, (forall p, p ∈ own d T V -> ~ in_page p x) -> mbytes m' x = mbytes m x;
}.

Lemma slice_nth (c : bytes) off n k : 0 <= off -> 0 <= k < n -> nth (Z.to_nat k) (slice c off n) 0 = nth (Z.to_nat (off + k)) c 0.
Proof.
  intros Ho Hk. unfold slice. rewrite List.nth_firstn, (proj2 (Nat.ltb_lt _ _)) by lia. rewrite List.nth_skipn. f_equal. lia.
Qed.

Lemma load_loop_ok k fuel f m L d T V c addr ip offset i sz :
  vm_ok m L d T V -> reads f ip c -> 0 <= addr -> addr mod 4096 = 0 -> addr + sz < KERNBASE -> 0 <= offset -> offset + sz <= zlen c ->
  (forall n, addr <= 4096 * n < addr + sz -> is_Some (V !! n)) -> 0 <= i -> i mod 4096 = 0 -> i <= 4096 * up sz -> Z.of_nat k = up sz - i / 4096 -> (k < fuel)%nat ->
  exists m', load_loop fuel f m d addr ip offset i sz = Ok (f, m', 0) /\ loaded m m' L d T V c addr offset i sz.
Proof.
  intros H [Hc Hrd] Ha Hal Hend Ho Hoe HV. unfold KERNBASE in Hend. revert fuel m i H. induction k as [|k IH]; intros [|fuel] m i H Hi Him Hiu Hk Hf; try lia; cbn [load_loop].
  - rewrite (proj2 (Z.leb_le sz i)) by (unfold up in *; lia). exists m. split; [done|]. split; [done | | done]. intros a Hra. rewrite decide_False; [done | unfold up in *; lia].
  - rewrite (proj2 (Z.leb_gt sz i)) by (unfold up in *; lia). rewrite (u32_small (addr + i)) by (unfold up in *; lia). set (n := (addr + i) / 4096). assert (addr + i = 4096 * n) as En by (unfold n; lia). rewrite En.
    destruct (HV n ltac:(unfold up in *; lia)) as [e He]. assert (0 <= n < 524288) as Hn by (unfold up in *; lia).
    destruct (sp_dom _ _ _ _ (vm_space _ _ _ _ _ _ H) n e He) as [_ [t Ht]]. rewrite (walk_read kend m L d T V (4096 * n) false H) by (lia || by left). rewrite rbind_ok.
    replace (4096 * n / 4096) with n by lia. unfold entry_addr. rewrite Ht. destruct (entry_read kend m L d T V n t H ltac:(lia) Ht) as (Hne & _ & _ & ->). rewrite (proj2 (Z.eqb_neq _ _) Hne), rbind_ok.
    pose proof (sp_ent _ _ _ _ (vm_space _ _ _ _ _ _ H) n t ltac:(lia) Ht) as Hent. rewrite He in Hent. destruct Hent as (-> & _ & _). fold (page_of e).
    set (l := if sz - i <? PGSIZE then sz - i else PGSIZE). assert (l = Z.min (sz - i) 4096) as El by (unfold l, PGSIZE; destruct (Z.ltb_spec (sz - i) 4096); lia).
    assert (i < sz) as His by (unfold up in *; lia). rewrite (u32_small (offset + i)) by lia. rewrite Hrd by lia. rewrite rbind_ok. cbv iota beta.
    assert (zlen (slice c (offset + i) l) = l) as Hsl by (unfold slice; rewrite length_take, length_drop; lia).
    destruct (write_page m L d T V n e (slice c (offset + i) l) H Hn He ltac:(lia)) as (m1 & -> & H1 & R1 & F1). rewrite rbind_ok, Z.eqb_refl. cbn [negb]. unfold PGSIZE. rewrite u32_small by (unfold up in *; lia).
    destruct (IH fuel m1 (i + 4096) H1) as (m' & E & [G1 G2 G3]); [lia | lia | unfold up in *; lia | unfold up in *; lia | lia|].
    exists m'. split; [done|]. split; [done | | intros x Hx; rewrite G3 by done; by apply F1]. intros a Hra. rewrite G2 by done. rewrite R1 by done. rewrite Hsl.
    destruct (decide (addr + i <= a < addr + sz)) as [Hin|Hout].
    + destruct (decide (addr + (i + 4096) <= a < addr + sz)); [done|]. rewrite decide_True by lia. rewrite slice_nth by lia. do 2 f_equal. lia.
    + rewrite decide_False, decide_False by lia. done.
Qed.

Lemma loaduvm_ok f m L d T V c addr ip offset sz :
  vm_ok m L d T V -> reads f ip c -> 0 <= addr -> addr mod 4096 = 0 -> 0 <= sz -> addr + sz < KERNBASE -> 0 <= offset -> offset + sz <= zlen c ->
  (forall n, addr <= 4096 * n < addr + sz -> is_Some (V !! n)) ->
  exists m', loaduvm f m d addr ip offset sz = Ok (f, m', 0) /\ loaded m m' L d T V c addr offset 0 sz.
Proof.
  intros H Hrd Ha Hal Hsz Hend Ho Hoe HV. unfold loaduvm, PGSIZE. rewrite Hal, Z.eqb_refl. cbn [negb].
  apply (load_loop_ok (Z.to_nat (up sz))); try done; unfold up; try lia.
Qed.

(** * The segments of a program *)

(** The program headers [phs] lie in the file from [off] on. *)
Definition headers (c : bytes) (off : Z) (phs : list proghdr) : Prop :=
  0 <= off /\ forall i ph, phs !! i = Some ph -> off + 32 * Z.of_nat i + 32 <= zlen c /\ proghdr_of (slice c (off + 32 * Z.of_nat i) 32) = Ok ph.

(** A segment that can be loaded after [sz] bytes of memory. *)
Definition segment_ok (c : bytes) (sz : Z) (ph : proghdr) : Prop :=
  0 <= ph_vaddr ph /\ ph_vaddr ph mod 4096 = 0 /\ 0 <= ph_filesz ph <= ph_memsz ph /\ 0 <= ph_off ph /\ ph_off ph + ph_filesz ph <= zlen c /\
  sz <= ph_vaddr ph + ph_memsz ph < KERNBASE /\ 0 < ph_vaddr ph + ph_memsz ph.

Definition is_load (ph : proghdr) : bool := ph_type ph =? ELF_PROG_LOAD.

(** The size of the program and its bytes: those of the file, and zeroes. *)
Definition next_size (sz : Z) (ph : proghdr) : Z := if is_load ph then ph_vaddr ph + ph_memsz ph else sz.
Definition next_image (c : bytes) (img : Z -> Z) (ph : proghdr) : Z -> Z :=
  if is_load ph then fun a => if decide (ph_vaddr ph <= a < ph_vaddr ph + ph_filesz ph) then nth (Z.to_nat (ph_off ph + (a - ph_vaddr ph))) c 0 else img a else img.

Fixpoint segments_ok (c : bytes) (sz : Z) (phs : list proghdr) : Prop :=
  match phs with
  | [] => True
  | ph :: phs => (is_load ph = true -> segment_ok c sz ph) /\ segments_ok c (next_size sz ph) phs
  end.

Definition image_size (sz : Z) (phs : list proghdr) : Z := foldl next_size sz phs.
Definition image (c : bytes) (img : Z -> Z) (phs : list proghdr) : Z -> Z := foldl (next_image c) img phs.

(** The memory holds the image up to the end of the last page. *)
Definition holds_image (m : mem) (V : gmap Z Z) (sz : Z) (img : Z -> Z) : Prop :=
  (forall a, 0 <= a < 4096 * up sz -> uread m V a = Some (img a)) /\ (forall a, 4096 * up sz <= a -> img a = 0).

Lemma image_size_le c sz phs : segments_ok c sz phs -> sz <= image_size sz phs.
Proof.
  revert sz. induction phs as [|ph phs IH]; intros sz H; cbn; [lia|]. destruct H as [H1 H2]. specialize (IH _ H2). unfold image_size, next_size in *. destruct (is_load ph); [|done].
  destruct (H1 eq_refl) as (_ & _ & _ & _ & _ & H3 & _). lia.
Qed.

Lemma headers_tail c off ph phs : headers c off (ph :: phs) -> headers c (off + 32) phs.
Proof.
  intros [H1 H2]. split; [lia|]. intros i p Hi. destruct (H2 (S i) p Hi) as [H3 H4]. replace (off + 32 + 32 * Z.of_nat i) with (off + 32 * Z.of_nat (S i)) by lia. done.
Qed.

(** One segment: memory grows and the bytes of the file are copied. *)
Lemma load_segment f m L d T V c ip sz img ph :
  uspace m L d T V sz -> reads f ip c -> segment_ok c sz ph -> is_load ph = true -> holds_image m V sz img -> 2 * (up (next_size sz ph) - up sz) <= zlen L ->
  exists m1 m2 L' T' V', Vm.allocuvm kend m d sz (ph_vaddr ph + ph_memsz ph) = Ok (m1, ph_vaddr ph + ph_memsz ph) /\
    loaduvm f m1 d (ph_vaddr ph) ip (ph_off ph) (ph_filesz ph) = Ok (f, m2, 0) /\ uspace m2 L' d T' V' (next_size sz ph) /\ own d T' V' ++ L' ≡ₚ own d T V ++ L /\
    holds_image m2 V' (next_size sz ph) (next_image c img ph) /\ zlen L - zlen L' <= 2 * (up (next_size sz ph) - up sz) /\
    (forall x, (forall p, p ∈ own d T V ++ L -> ~ in_page p x) -> mbytes m2 x = mbytes m x).
Proof.
  intros H Hrd (S1 & S2 & S3 & S4 & S5 & S6 & S7) Hld [Hi1 Hi2] HL. unfold next_size, next_image in *. rewrite Hld in *. set (nsz := ph_vaddr ph + ph_memsz ph) in *. assert (nsz = ph_vaddr ph + ph_memsz ph) as Ensz by done. pose proof (us_sz _ _ _ _ _ _ _ H) as Hmax. unfold KERNBASE in Hmax, S6.
  destruct (allocuvm_ok kend m L d T V sz nsz H) as (m1 & L1 & T1 & V1 & E1 & H1 & G); [unfold KERNBASE; lia | lia|]. pose proof (us_vm _ _ _ _ _ _ _ H1) as Hv1.
  destruct (loaduvm_ok f m1 L1 d T1 V1 c (ph_vaddr ph) ip (ph_off ph) (ph_filesz ph) Hv1 Hrd) as (m2 & E2 & [G1 G2 G3]); try done; try (unfold KERNBASE; lia).
  { intros n Hn. apply (us_pages _ _ _ _ _ _ _ H1); lia. }
  pose proof (g_perm _ _ _ _ _ _ _ _ _ _ _ G) as P. exists m1, m2, L1, T1, V1. split; [done|]. split; [done|]. split; [by destruct H1; split|]. split; [done|]. split; [|split].
  - split.
    + intros a Ha. rewrite G2 by (unfold KERNBASE, up in *; lia). rewrite Z.add_0_r. destruct (decide (ph_vaddr ph <= a < ph_vaddr ph + ph_filesz ph)); [done|].
      destruct (Z.lt_ge_cases a (4096 * up sz)) as [Hlt|Hge].
      * rewrite <- Hi1 by lia. apply uread_ext; [apply (g_old _ _ _ _ _ _ _ _ _ _ _ G); lia|]. intros e x He Hx. apply (g_frame _ _ _ _ _ _ _ _ _ _ _ G).
        by apply (user_page_apart kend m L d T V (a / 4096) e x (us_vm _ _ _ _ _ _ _ H)); [unfold up in *; lia | |].
      * rewrite Hi2 by lia. destruct (g_new _ _ _ _ _ _ _ _ _ _ _ G (a / 4096)) as (p & Hp & Ev & Hz); [unfold up in *; lia|].
        pose proof (mo_pages _ _ _ (vm_mem _ _ _ _ _ _ (us_vm _ _ _ _ _ _ _ H))) as FL. rewrite Forall_forall in FL.
        unfold uread, uaddr. rewrite Ev. cbn. f_equal. apply Hz. rewrite (page_of_entry kend p 6 (FL p Hp)) by lia. unfold in_page. lia.
    + intros a Ha. rewrite decide_False by (unfold up in *; lia). apply Hi2. unfold up in *. lia.
  - pose proof (g_free _ _ _ _ _ _ _ _ _ _ _ G). lia.
  - intros x Hx. rewrite G3 by (intros p Hp; apply Hx; rewrite <- P; apply elem_of_app; by left). apply (g_frame _ _ _ _ _ _ _ _ _ _ _ G). intros p Hp. apply Hx. unfold own.
    rewrite elem_of_cons, elem_of_app in Hp. rewrite elem_of_app, elem_of_cons, elem_of_app. tauto.
Qed.

Lemma load_segments_ok phs f m L d T V c ip off sz img :
  uspace m L d T V sz -> reads f ip c -> headers c off phs -> segments_ok c sz phs -> holds_image m V sz img -> 2 * (up (image_size sz phs) - up sz) <= zlen L ->
  exists m' L' T' V', load_segments kend (length phs) f m d ip off sz = Ok (f, m', Some (image_size sz phs)) /\ uspace m' L' d T' V' (image_size sz phs) /\ own d T' V' ++ L' ≡ₚ own d T V ++ L /\
    holds_image m' V' (image_size sz phs) (image c img phs) /\ zlen L - zlen L' <= 2 * (up (image_size sz phs) - up sz) /\
    (forall x, (forall p, p ∈ own d T V ++ L -> ~ in_page p x) -> mbytes m' x = mbytes m x).
Proof.
  revert m L T V off sz img. induction phs as [|ph phs IH]; intros m L T V off sz img H Hrd Hh Hs Himg HL; cbn [length load_segments].
  { exists m, L, T, V. split; [done|]. do 3 (split; [done|]). split; [cbn; lia | done]. }
  pose proof Hrd as [Hc Hread]. destruct (proj2 Hh 0%nat ph eq_refl) as [Hh1 Hh2]. cbn [Z.of_nat] in Hh1, Hh2. rewrite Z.mul_0_r, Z.add_0_r in Hh1, Hh2. pose proof (proj1 Hh) as Ho. unfold sizeof_proghdr.
  rewrite Hread by lia. rewrite rbind_ok, Z.eqb_refl. cbn [negb]. rewrite Hh2, rbind_ok, (u32_small (off + 32)) by lia. destruct Hs as [Hs1 Hs2]. pose proof (headers_tail _ _ _ _ Hh) as Ht.
  change (image_size sz (ph :: phs)) with (image_size (next_size sz ph) phs) in *. change (image c img (ph :: phs)) with (image c (next_image c img ph) phs).
  pose proof (image_size_le c _ _ Hs2) as Hle. destruct (is_load ph) eqn:El.
  - destruct (Hs1 eq_refl) as (S1 & S2 & S3 & S4 & S5 & S6 & S7). pose proof El as El'. unfold is_load in El'. rewrite El'. cbn [negb]. unfold KERNBASE in S6.
    assert (sz <= next_size sz ph) as Hns by (unfold next_size; rewrite El; lia).
    rewrite (proj2 (Z.ltb_ge (ph_memsz ph) (ph_filesz ph))) by lia. rewrite u32_small by lia.
    destruct (load_segment f m L d T V c ip sz img ph H Hrd (Hs1 eq_refl) El Himg) as (m1 & m2 & L2 & T2 & V2 & -> & E2 & H2 & P2 & I2 & Hl2 & F2); [unfold up in *; lia|].
    rewrite rbind_ok, (proj2 (Z.eqb_neq _ 0)) by lia. rewrite E2, rbind_ok. cbn [Z.ltb Z.compare].
    assert (next_size sz ph = ph_vaddr ph + ph_memsz ph) as En by (unfold next_size; by rewrite El). rewrite <- En.
    destruct (IH m2 L2 T2 V2 (off + 32) (next_size sz ph) (next_image c img ph) H2 Hrd Ht Hs2 I2) as (m' & L' & T' & V' & E & H' & P' & I' & Hl' & F'); [lia|].
    exists m', L', T', V'. split; [done|]. split; [done|]. split; [by rewrite P'|]. split; [done|]. split; [lia|]. intros x Hx. rewrite F'; [by apply F2|]. intros p Hp. apply Hx. by rewrite <- P2.
  - pose proof El as El'. unfold is_load in El'. rewrite El'. cbn [negb]. assert (next_size sz ph = sz /\ next_image c img ph = img) as [En Ei] by (unfold next_size, next_image; by rewrite El). rewrite En, Ei in *. by apply IH.
Qed.
End Load.
