(* ===== verification/ExecProps.v ===== *)
(** Properties of [exec]. *)
From stdpp Require Import gmap.
From S2P Require Import Prelude Ulib Sys Fs Inode Proc Vm VmSpace VmKernel VmCopy VmProps Exec ExecLemmas FsBlock FsDisk FsOps Log FsLog Syscall.

#[local] Ltac Zify.zify_post_hook ::= Z.to_euclidean_division_equations.

Lemma last_elem_ok s last : Forall (fun c => c <> 0) s -> is_Some (list_find (eq 0) last) -> exists l, last_elem last (s ++ [0]) = Ok l /\ is_Some (list_find (eq 0) l).
Proof.
  revert last. induction s as [|c s IH]; intros last HF Hl; cbn [app last_elem]; [exists last; done|].
  apply Forall_cons in HF as [Hc HF]. rewrite (proj2 (Z.eqb_neq c 0)) by done. apply IH; [done|]. destruct (c =? 47); [|done].
  clear. induction s as [|c s IH]; cbn; [by eexists|]. destruct (decide (0 = c)); [by eexists|]. destruct IH as [[? ?] ->]. by eexists.
Qed.

Lemma safestrcpy_loop_ok n s d t : is_Some (list_find (eq 0) t) -> 0 <= d -> d + Z.of_nat n < zlen s -> exists s', Kstring.safestrcpy_loop s d t n = Ok s' /\ length s' = length s.
Proof.
  revert s d t. induction n as [|n IH]; intros s d [|c t] Ht Hd Hl; try (by destruct Ht); cbn [Kstring.safestrcpy_loop].
  - rewrite put_ok by lia. eexists. split; [done|]. apply length_insert.
  - rewrite put_ok by lia. rewrite rbind_ok. destruct (Z.eqb_spec c 0) as [->|Hc].
    + rewrite put_ok by (rewrite length_insert; lia). eexists. split; [done|]. by rewrite !length_insert.
    + destruct (IH (<[Z.to_nat d:=c]> s) (d + 1) t) as (s' & E & El); [|lia|rewrite length_insert; lia|].
      * cbn in Ht. destruct (decide (0 = c)); [congruence|]. destruct (list_find (eq 0) t); [by eexists | by destruct Ht].
      * exists s'. split; [done|]. by rewrite El, length_insert.
Qed.

Section Exec.
Context (kend : Z) (Hkend : KERNBASE < kend).
Notation vm_ok := (vm_ok kend).
Notation uspace := (uspace kend).

(** The memory that the second half of [exec] has built, seen after the old address
    space is freed. *)
Lemma free_old m m4 L L4 d0 T0 V0 d T V top :
  vm_ok m L d0 T0 V0 -> prefix T0 -> uspace m4 L4 d T V top -> own d T V ++ L4 ≡ₚ L -> (forall x, (forall p, p ∈ L -> ~ in_page p x) -> mbytes m4 x = mbytes m x) ->
  exists m5 L5, Vm.freevm kend m4 d0 = Ok m5 /\ uspace m5 L5 d T V top /\ own d T V ++ L5 ≡ₚ own d0 T0 V0 ++ L /\ forall a, 0 <= a < KERNBASE -> uread m5 V a = uread m4 V a.
Proof using Hkend.
  intros H0 HT H P F. pose proof (us_vm _ _ _ _ _ _ _ H) as Hv. pose proof (vm_nodup _ _ _ _ _ _ H0) as Hnd. apply NoDup_app in Hnd as (_ & Hdis & _).
  pose proof (mo_pages _ _ _ (vm_mem _ _ _ _ _ _ H0)) as FL. rewrite Forall_forall in FL.
  assert (vm_ok m4 L4 d0 T0 V0) as H4.
  { apply (vm_other kend m m4 L L4); [done | apply Hv | |].
    - intros p Hp Hin. apply (Hdis p Hp). rewrite <- P. apply elem_of_app. by right.
    - intros p x Hp Hx. apply F. intros q Hq Hx'. apply (Hdis p Hp). assert (p = q) as ->; [|done]. apply (pages_apart kend p q x); [by apply (vm_page kend _ _ _ _ _ p H0 Hp) | by apply FL | done | done]. }
  destruct (freevm_ok kend Hkend m4 L4 d0 T0 V0 H4 HT) as (m5 & L5 & E & Hm5 & P5 & F5). exists m5, L5. split; [done|].
  assert (forall p x, p ∈ own d T V -> in_page p x -> mbytes m5 x = mbytes m4 x) as K.
  { intros p x Hp Hx. apply F5. intros q Hq Hx'. apply (Hdis q Hq). assert (q = p) as ->; [|rewrite <- P; apply elem_of_app; by left].
    apply (pages_apart kend q p x); [by apply (vm_page kend _ _ _ _ _ q H4 Hq) | by apply (vm_page kend _ _ _ _ _ p Hv Hp) | done | done]. }
  split; [|split].
  - split; [|apply H|apply H|apply H]. apply (vm_other kend m4 m5 L4 L5); [done | done | | done]. intros p Hp Hin. rewrite P5 in Hin. apply elem_of_app in Hin as [Hin|Hin].
    + apply (Hdis p Hin). rewrite <- P. apply elem_of_app. by left.
    + by apply (vm_page kend _ _ _ _ _ p Hv Hp).
  - rewrite P5, <- P. solve_Permutation.
  - intros a Ha. apply uread_ext; [done|]. intros e x He Hx. apply (K (page_of e)); [|done]. apply (own_user d T V (a / 4096)); [done|]. unfold user, KERNBASE in *. lia.
Qed.

Context (kdata : Z) (Hdata : KERNLINK < kdata < KERNBASE + PHYSTOP) (Hdata_al : kdata mod 4096 = 0).
Context {D : Type} `{!BlockDev D} `{!Devsw D}.

(** A file that [exec] can start. *)
Record program (c : bytes) (elf : elfhdr) (phs : list proghdr) : Prop := {
  pg_header : 52 <= zlen c;
  pg_elf : elfhdr_of (slice c 0 52) = Ok elf;
  pg_magic : magic elf = ELF_MAGIC;
  pg_count : phnum elf = zlen phs;
  pg_headers : headers c (phoff elf) phs;
  pg_segments : segments_ok c 0 phs;
}.

(** The new memory of the process: the program, the guard page, the stack with the
    arguments. *)
Record started (m : mem) (V : gmap Z Z) (c : bytes) (phs : list proghdr) (argv : list bytes) (top sp : Z) : Prop := {
  sr_image : forall a, 0 <= a < 4096 * up (image_size 0 phs) -> uread m V a = Some (image c (fun _ => 0) phs a);
  sr_guard : forall a, top - 8192 <= a < top - 4096 -> ~ accessible V a;
  sr_frame : forall j, 0 <= j < 4 * (4 + zlen argv) -> uread m V (sp + j) = Some (nth (Z.to_nat j) (mjoin (word_bytes <$> main_frame sp (arg_addrs top argv))) 0);
  sr_args : forall i a p j, argv !! i = Some a -> arg_addrs top argv !! i = Some p -> 0 <= j <= zlen a -> uread m V (p + j) = Some (nth (Z.to_nat j) (a ++ [0]) 0);
}.

(** A new address space without user memory. *)
Lemma fresh_space m L : mem_ok kend m L -> 73 <= zlen L ->
  exists m' d L' T V, Vm.setupkvm kdata m = Ok (m', d) /\ d <> 0 /\ uspace m' L' d T V 0 /\ own d T V ++ L' ≡ₚ L /\ zlen L - zlen L' <= 73 /\ kernel_maps V /\
    (forall x, (forall p, p ∈ L -> ~ in_page p x) -> mbytes m' x = mbytes m x).
Proof using Hdata Hdata_al.
  intros H HL. destruct (setupkvm_ok kend kdata Hdata Hdata_al m L H HL) as (m' & d & L' & T & V & E & Hd & [S1 S2 S3 S4 S5 S6 S7]). exists m', d, L', T, V.
  split; [done|]. split; [done|]. split; [|done]. split; [done | | | unfold KERNBASE; lia].
  - intros n Hn. rewrite S2 by done. split; [by intros [? ?] | lia].
  - intros i j Hij Hj _. apply S3. lia.
Qed.

(** C5: [exec] of a program that fits in memory replaces the process: it returns 0, the
    process has a new address space with the segments of the file, zeroes after
    them, a guard page it cannot touch and a stack on which [main] finds [argc], [argv]
    and the strings; it will continue at the entry point, and the old address space
    has been freed, no page being lost. *)
Theorem exec_starts f f1 f2 f3 m L T0 V0 p s ip c elf phs argv :
  namei f (icache_index (p_cwd p)) (s ++ [0]) = Ok (f1, Some ip) -> ilock f1 ip = Ok f2 -> reads f2 ip c -> iunlockput f2 ip = Ok f3 ->
  program c elf phs -> vm_ok m L (p_pgdir p) T0 V0 -> prefix T0 -> Forall (fun c => c <> 0) s -> length (p_name p) = 16%nat ->
  let top := 4096 * up (image_size 0 phs) + 8192 in let sp := final_sp top argv - 4 * (4 + zlen argv) in
  zlen argv <= MAXARG -> top < KERNBASE -> top - 4096 <= sp -> 77 + 2 * up (image_size 0 phs) <= zlen L ->
  exists m' p' d L' T V, exec kend kdata f m p (s ++ [0]) argv = Ok (f3, m', p', 0) /\
    p_pgdir p' = d /\ p_sz p' = top /\ p_tf p' = set_entry (entry_ elf) sp (p_tf p) /\ p_pid p' = p_pid p /\ p_ofile p' = p_ofile p /\ p_cwd p' = p_cwd p /\
    uspace m' L' d T V top /\ own d T V ++ L' ≡ₚ own (p_pgdir p) T0 V0 ++ L /\ started m' V c phs argv top sp.
Proof using Hkend Hdata Hdata_al.
  intros En El Hrd Eu [G1 G2 G3 G4 G5 G6] H0 HT Hs Hname top sp Hargc Htop Hfit HL. pose proof Hrd as [Hc Hread].
  pose proof (image_size_le c 0 phs G6) as Hi0. assert (0 <= up (image_size 0 phs)) as Hup by (unfold up; lia). unfold exec. rewrite En, rbind_ok, El, rbind_ok. unfold sizeof_elfhdr. rewrite Hread by lia. rewrite rbind_ok. cbn [Z.ltb Z.compare].
  change (u32 52 <? 52) with false. cbv iota. rewrite G2, rbind_ok, G3, Z.eqb_refl. cbn [negb].
  destruct (fresh_space m L (vm_mem _ _ _ _ _ _ H0)) as (m1 & d & L1 & T1 & V1 & -> & Hd & U1 & P1 & Hl1 & _ & F1); [lia|]. rewrite rbind_ok, (proj2 (Z.eqb_neq d 0) Hd).
  destruct (load_segments_ok kend phs f2 m1 L1 d T1 V1 c ip (phoff elf) 0 (fun _ => 0) U1 Hrd G5 G6) as (m2 & L2 & T2 & V2 & E2 & U2 & P2 & I2 & Hl2 & F2);
    [split; [change (4096 * up 0) with 0; lia | done] | change (up 0) with 0; lia|]. change (up 0) with 0 in Hl2.
  replace (Z.to_nat (phnum elf)) with (length phs) by lia. rewrite E2, rbind_ok, Eu, rbind_ok. clear E2.
  destruct (build_stack_ok kend m2 L2 d T2 V2 (image_size 0 phs) argv U2) as (m3 & L3 & T3 & V3 & -> & U3 & P3 & [B1 B2 B3 B4] & F3); [done | lia | done | done|]. rewrite rbind_ok. fold top sp in U3, B2, B3, B4 |- *.
  destruct (last_elem_ok s (s ++ [0]) Hs) as (last & -> & Hz).
  { clear. induction s as [|c s IH]; cbn; [by eexists|]. destruct (decide (0 = c)); [by eexists|]. destruct IH as [[? ?] ->]. by eexists. }
  rewrite rbind_ok. unfold Kstring.safestrcpy. change (16 <=? 0) with false. cbv iota. destruct (safestrcpy_loop_ok (Z.to_nat (16 - 1)) (p_name p) 0 last Hz) as (nm & -> & _); [lia | lia|]. rewrite rbind_ok. cbv zeta.
  assert (own d T3 V3 ++ L3 ≡ₚ L) as P by (by rewrite P3, P2, P1).
  destruct (free_old m m3 L L3 (p_pgdir p) T0 V0 d T3 V3 top H0 HT U3 P) as (m5 & L5 & -> & U5 & P5 & K5).
  { intros x Hx. rewrite F3 by (intros q Hq; apply Hx; by rewrite <- P1, <- P2). rewrite F2 by (intros q Hq; apply Hx; by rewrite <- P1). by apply F1. }
  rewrite rbind_ok. eexists m5, _, d, L5, T3, V3. split; [reflexivity|]. cbn [p_pgdir p_sz p_tf p_pid p_ofile p_cwd set_tf set_sz set_pgdir set_name]. do 6 (split; [done|]). split; [done|]. split; [done|].
  pose proof (final_sp_le argv top) as Hfl. unfold KERNBASE in Htop. constructor.
  - intros a Ha. rewrite K5 by (unfold KERNBASE, top in *; lia). rewrite B1 by done. by apply I2.
  - done.
  - intros j Hj. rewrite K5 by (unfold KERNBASE, sp, top in *; lia). by apply B3.
  - intros i a q j Ha Hq Hj. destruct (addrs_above argv i a top q Ha Hq). rewrite K5 by (unfold KERNBASE, sp, top in *; lia). by apply (B4 i a q j).
Qed.

(** A file that is not a program is refused, and nothing has changed. *)
Lemma exec_refuses f f1 f2 f3 m p path ip c elf argv :
  namei f (icache_index (p_cwd p)) path = Ok (f1, Some ip) -> ilock f1 ip = Ok f2 -> reads f2 ip c -> iunlockput f2 ip = Ok f3 ->
  52 <= zlen c -> elfhdr_of (slice c 0 52) = Ok elf -> magic elf <> ELF_MAGIC ->
  exec kend kdata f m p path argv = Ok (f3, m, p, -1).
Proof using.
  intros En El [_ Hread] Eu Hc Ee Hm. unfold exec. rewrite En, rbind_ok, El, rbind_ok. unfold sizeof_elfhdr. rewrite Hread by lia. rewrite rbind_ok. change (u32 52 <? 52) with false. cbv iota.
  rewrite Ee, rbind_ok, (proj2 (Z.eqb_neq _ _) Hm). cbn [negb]. unfold bad_inode. rewrite Z.eqb_refl, rbind_ok, Eu. done.
Qed.

(** [exec] believes the file: a program whose first segment is not at a page
    boundary makes the kernel panic. *)
Theorem exec_unaligned_panics f f1 f2 m L p path ip c elf ph phs argv :
  namei f (icache_index (p_cwd p)) path = Ok (f1, Some ip) -> ilock f1 ip = Ok f2 -> reads f2 ip c -> mem_ok kend m L ->
  52 <= zlen c -> elfhdr_of (slice c 0 52) = Ok elf -> magic elf = ELF_MAGIC -> phnum elf = zlen (ph :: phs) -> headers c (phoff elf) (ph :: phs) ->
  is_load ph = true -> ph_vaddr ph mod 4096 <> 0 -> 0 <= ph_vaddr ph -> ph_filesz ph <= ph_memsz ph -> 0 < ph_vaddr ph + ph_memsz ph < KERNBASE -> 73 + 2 * up (ph_vaddr ph + ph_memsz ph) <= zlen L ->
  exec kend kdata f m p path argv = Err Panic.
Proof using Hdata Hdata_al.
  intros En El [Hc Hread] Hm Hz Ee Hmag Hn [Ho Hh] Hld Hal Hv Hsz Hend HL. unfold exec. rewrite En, rbind_ok, El, rbind_ok. unfold sizeof_elfhdr. rewrite Hread by lia. rewrite rbind_ok. change (u32 52 <? 52) with false. cbv iota.
  rewrite Ee, rbind_ok, Hmag, Z.eqb_refl. cbn [negb]. destruct (fresh_space m L Hm) as (m1 & d & L1 & T1 & V1 & -> & Hd & U1 & _ & Hl1 & _); [unfold up in *; unfold KERNBASE in *; lia|]. rewrite rbind_ok, (proj2 (Z.eqb_neq d 0) Hd).
  rewrite Hn. replace (Z.to_nat (zlen (ph :: phs))) with (S (length phs)) by (cbn [length]; lia). cbn [load_segments]. destruct (Hh 0%nat ph eq_refl) as [H1 H2]. cbn [Z.of_nat] in H1, H2. rewrite Z.mul_0_r, Z.add_0_r in H1, H2.
  unfold sizeof_proghdr. rewrite Hread by lia. rewrite rbind_ok, Z.eqb_refl. cbn [negb]. rewrite H2, rbind_ok. unfold is_load in Hld. rewrite Hld. cbn [negb]. rewrite (proj2 (Z.ltb_ge _ _)) by lia. unfold KERNBASE in Hend.
  rewrite u32_small by lia. destruct (allocuvm_ok kend m1 L1 d T1 V1 0 (ph_vaddr ph + ph_memsz ph) U1) as (m2 & L2 & T2 & V2 & -> & _ & _); [unfold KERNBASE; lia | change (up 0) with 0; lia|].
  rewrite rbind_ok, (proj2 (Z.eqb_neq _ 0)) by lia. unfold loaduvm, PGSIZE. rewrite (proj2 (Z.eqb_neq _ _) Hal). done.
Qed.
End Exec.

(** * Files that can be read *)

Lemma put_same {A} (l : list A) i x : get l i = Ok x -> put l i x = Ok l.
Proof. intros [Hi Hx]%get_inv. rewrite put_ok by done. by rewrite list_insert_id. Qed.

(** On a file system that satisfies its invariant a locked regular file can be read. *)
Lemma open_reads {D} `{!BlockDev D} `{!BlockLaws D} `{!Devsw D} sb (f : Inode.fs D) ip i :
  get (icache f) ip = Ok i -> open_node sb (Inode.disk f) i -> i_type i <> T_DEV -> i_size i < 2 ^ 31 -> reads f ip (content (sect (Inode.disk f)) i).
Proof.
  intros Hg Ho Ht Hsz. destruct (open_file sb (Inode.disk f) i Ho) as (_ & [Hs0 _] & _). assert (zlen (content (sect (Inode.disk f)) i) = i_size i) as El by (apply content_len; lia). split; [lia|]. intros off n H1 H2 H3. rewrite El in H3.
  unfold read_at, on_inode. rewrite Hg, rbind_ok, (readi_ok sb) by (done || lia). rewrite rbind_ok, (put_same _ _ _ Hg), rbind_ok. replace (Z.min n (i_size i - off)) with n by lia. by destruct f.
Qed.

(** A file of one block. *)
Lemma reads_block {D} `{!BlockDev D} `{!Devsw D} (f : Inode.fs D) ip i a (b c : bytes) :
  get (icache f) ip = Ok i -> i_type i = T_FILE -> i_size i = zlen c -> zlen c <= 512 -> get (i_addrs i) 0 = Ok a -> a <> 0 ->
  Fs.bread (Inode.disk f) (i_dev i) a = Ok b -> length b = 512%nat -> take (length c) b = c -> reads f ip c.
Proof.
  intros Hg Ht Hsz Hc Ha Hz Hb Hl Hbc. split; [lia|]. intros off n H1 H2 H3. unfold read_at, on_inode. rewrite Hg, rbind_ok. unfold readi. rewrite Ht. change (T_FILE =? T_DEV) with false. cbv iota.
  rewrite Hsz, u32_small by lia. rewrite (proj2 (Z.ltb_ge (zlen c) off)), (proj2 (Z.ltb_ge (off + n) off)), (proj2 (Z.ltb_ge (zlen c) (off + n))) by lia. cbn [orb].
  assert (readi_loop (Z.to_nat n) (Inode.disk f) i [] off n 0 = Ok (Inode.disk f, i, slice c off n)) as ->.
  2:{ rewrite !rbind_ok, (put_same _ _ _ Hg), rbind_ok. by destruct f. }
  destruct (Z.to_nat n) as [|k] eqn:Ek; cbn [readi_loop].
  { rewrite (proj2 (Z.ltb_ge 0 n)) by lia. unfold slice. by rewrite Ek, take_0. }
  rewrite (proj2 (Z.ltb_lt 0 n)) by lia. unfold bmap. change Fs.BSIZE with 512. rewrite (Z.div_small off) by lia. change (0 <? NDIRECT) with true. cbv iota. rewrite Ha, !rbind_ok, (proj2 (Z.eqb_neq a 0) Hz), rbind_ok, Hb, rbind_ok.
  rewrite (Z.mod_small off) by lia. cbv zeta. replace (Z.min (n - 0) (512 - off)) with n by lia.
  destruct (ensures_inv _ _ (memmove_copied (malloc n) 0 b off n ltac:(lia) ltac:(lia) ltac:(unfold malloc; llia) ltac:(lia) ltac:(lia))) as (part & -> & Hlen & Hcp). rewrite rbind_ok. cbn [app].
  assert (part = slice c off n) as ->.
  { unfold malloc in *. rewrite length_replicate in *. apply list_eq. intros j. destruct (decide (Z.of_nat j < n)) as [Hj|Hj].
    - specialize (Hcp (Z.of_nat j) ltac:(lia)). rewrite Nat2Z.id in Hcp. rewrite Hcp, (proj2 (Z.leb_le 0 _)), (proj2 (Z.ltb_lt _ (0 + n))) by lia. cbn [andb]. rewrite <- (Nat2Z.id j) at 2. rewrite slice_lookup by lia.
      rewrite <- Hbc at 1. rewrite lookup_take_lt by lia. f_equal. lia.
    - rewrite !lookup_ge_None_2; [done | unfold slice; rewrite length_take; lia | lia]. }
  destruct k; cbn [readi_loop]; rewrite Z.add_0_l, Z.ltb_irrefl; done.
Qed.

(** * A disk with a program

    The file "f" of the disk of FsLog.v is a program: one segment of four bytes of
    the file and 4096 of memory, at [va]. *)
Definition prog_words (va : Z) : list Z :=
  [1179403647; 0; 0; 0; 0; 0; 16; 52; 0; 0; 0; 1; 0] ++ [1; 84; va; 0; 4; 4096; 0; 0] ++ [1819043176].

Definition prog_view (va : Z) : disk := fun s =>
  if s =? 4 then pad [2; 65536; 88; 12] else if s =? 12 then pad (prog_words va) else demo_view s.
Definition prog_disk (va : Z) : kdisk := mk_kdisk (mk_log 30 10 false 0 (replicate 10 0) (prog_view va) []) 40.
Definition prog_fs (va : Z) : Inode.fs kdisk := mk_fs (prog_disk va) (replicate 50 no_inode).
Definition prog_path : bytes := [47; 102].
Definition prog_bytes (va : Z) : bytes := mjoin (word_bytes <$> prog_words va).
Definition prog_f1 (va : Z) : Inode.fs kdisk := match namei (prog_fs va) (-1) (prog_path ++ [0]) with Ok (f, _) => f | Err _ => prog_fs va end.
Definition prog_f2 (va : Z) : Inode.fs kdisk := match ilock (prog_f1 va) 1 with Ok f => f | Err _ => prog_fs va end.
Definition prog_f3 (va : Z) : Inode.fs kdisk := match iunlockput (prog_f2 va) 1 with Ok f => f | Err _ => prog_fs va end.
Definition prog_elf : elfhdr := mk_elfhdr ELF_MAGIC 16 52 1.
Definition prog_ph (va : Z) : proghdr := mk_proghdr 1 84 va 4 4096.

Lemma prog_named : namei (prog_fs 0) (-1) (prog_path ++ [0]) = Ok (prog_f1 0, Some 1).
Proof. vm_compute. reflexivity. Qed.
Lemma prog_named_5 : namei (prog_fs 5) (-1) (prog_path ++ [0]) = Ok (prog_f1 5, Some 1).
Proof. vm_compute. reflexivity. Qed.

Lemma prog_reads : reads (prog_f2 0) 1 (prog_bytes 0).
Proof. eapply reads_block; [vm_compute; reflexivity | reflexivity | reflexivity | vm_compute; discriminate | reflexivity | discriminate | vm_compute; reflexivity | reflexivity | vm_compute; reflexivity]. Qed.
Lemma prog_reads_5 : reads (prog_f2 5) 1 (prog_bytes 5).
Proof. eapply reads_block; [vm_compute; reflexivity | reflexivity | reflexivity | vm_compute; discriminate | reflexivity | discriminate | vm_compute; reflexivity | reflexivity | vm_compute; reflexivity]. Qed.

Lemma prog_header va : elfhdr_of (slice (prog_bytes va) 0 52) = Ok prog_elf /\ zlen (prog_bytes va) = 88.
Proof. split; reflexivity. Qed.

Lemma prog_headers va : va = 0 \/ va = 5 -> headers (prog_bytes va) 52 [prog_ph va].
Proof.
  intros Hva. split; [lia|]. intros [|i] ph; [|done]. intros [= <-]. rewrite (proj2 (prog_header va)). split; [cbn; lia|]. destruct Hva as [-> | ->]; vm_compute; reflexivity.
Qed.

Lemma prog_ok : program (prog_bytes 0) prog_elf [prog_ph 0].
Proof.
  split; [by rewrite (proj2 (prog_header 0)) | apply prog_header | done | done | apply (prog_headers 0); by left|]. split; [|done]. intros _. unfold segment_ok. rewrite (proj2 (prog_header 0)). cbn. unfold KERNBASE. lia.
Qed.

Definition prog_proc (d : Z) : Proc.proc := set_pgdir d zero_proc.

(** The program "f" with the arguments "f" and "xy". *)
Lemma exec_starts_witness :
  exists m m' p' d V, exec demo_kend demo_kdata (prog_fs 0) m (prog_proc d) (prog_path ++ [0]) [[102]; [120; 121]] = Ok (prog_f3 0, m', p', 0) /\
    tf_eip (p_tf p') = 16 /\ p_sz p' = 12288 /\ uread m' V 0 = Some 104 /\ uread m' V (tf_esp (p_tf p') + 4) = Some 2.
Proof.
  destruct demo_process as (m & L & d & T & V & H & HL & _).
  destruct (exec_starts demo_kend demo_kend_ok demo_kdata (proj1 demo_kdata_ok) (proj2 demo_kdata_ok) (prog_fs 0) (prog_f1 0) (prog_f2 0) (prog_f3 0) m L T V (prog_proc d) prog_path 1
    (prog_bytes 0) prog_elf [prog_ph 0] [[102]; [120; 121]]) as (m' & p' & d' & L' & T' & V' & E & _ & Hsz & Htf & _ & _ & _ & _ & _ & [S1 S2 S3 S4]).
  - exact prog_named.
  - vm_compute. reflexivity.
  - exact prog_reads.
  - vm_compute. reflexivity.
  - exact prog_ok.
  - exact (us_vm _ _ _ _ _ _ _ H).
  - exact (us_prefix _ _ _ _ _ _ _ H).
  - repeat constructor; discriminate.
  - reflexivity.
  - vm_compute. discriminate.
  - vm_compute. reflexivity.
  - vm_compute. discriminate.
  - change (up (image_size 0 [prog_ph 0])) with 1. lia.
  - exists m, m', p', d, V'. split; [exact E|]. rewrite Htf. split; [reflexivity|]. split; [exact Hsz|]. split; [exact (S1 0 ltac:(vm_compute; split; [discriminate | reflexivity]))|].
    exact (S3 4 ltac:(vm_compute; split; [discriminate | reflexivity])).
Defined.

Lemma exec_unaligned_panics_witness : exists m, exec demo_kend demo_kdata (prog_fs 5) m zero_proc (prog_path ++ [0]) [[102]] = Err Panic.
Proof.
  destruct (demo_pages 300 ltac:(lia)) as [m H]. exists m.
  apply (exec_unaligned_panics demo_kend demo_kdata (proj1 demo_kdata_ok) (proj2 demo_kdata_ok) (prog_fs 5) (prog_f1 5) (prog_f2 5) m (demo_list 300) zero_proc (prog_path ++ [0]) 1 (prog_bytes 5) prog_elf (prog_ph 5) [] [[102]]).
  - exact prog_named_5.
  - vm_compute. reflexivity.
  - exact prog_reads_5.
  - exact H.
  - rewrite (proj2 (prog_header 5)). lia.
  - exact (proj1 (prog_header 5)).
  - reflexivity.
  - reflexivity.
  - apply (prog_headers 5). right. reflexivity.
  - reflexivity.
  - discriminate.
  - vm_compute. discriminate.
  - vm_compute. discriminate.
  - vm_compute. split; reflexivity.
  - unfold demo_list, page_range. rewrite length_reverse, length_fmap, length_seq. vm_compute. discriminate.
Defined.
