(* ===== verification/Kernel.v ===== *)
(** The kernel put together: what proc.c uses of kalloc.c, vm.c, file.c and fs.c
    ([ProcEnv]) is what Vm.v, File.v and Inode.v define.

    The state is the physical memory and the tables of files and inodes.  [init] is
    the code of initcode.S, which the linker puts into the kernel. *)
From stdpp Require Import gmap.
From S2P Require Import Prelude Ulib Sys Log Fs Inode File FsLog Proc ProcSys ProcInv ProcProps Vm VmSpace VmKernel VmCopy VmProps Syscall Exec.

Section Kernel.
Context (kend kdata : Z) (init : bytes) {D : Type} `{!BlockDev D} `{!Devsw D}.

Definition kstate : Type := mem * kern D.

Definition on_mem {R} (w : kstate) (op : mem -> result (mem * R)) : result (kstate * R) :=
  let! '(m, r) := op w.1 in Ok ((m, w.2), r).
Definition on_mem_ (w : kstate) (op : mem -> result mem) : result kstate :=
  let! m := op w.1 in Ok (m, w.2).
Definition on_kern (w : kstate) (op : kern D -> result (kern D)) : result kstate :=
  let! k := op w.2 in Ok (w.1, k).

(** "/" *)
Definition root_path : bytes := [47; 0].

#[export] Instance kernel_env : ProcEnv kstate := {|
  Proc.kalloc w := on_mem w Vm.kalloc;
  Proc.kfree w p := on_mem_ w (fun m => Vm.kfree kend m p);
  Proc.setupkvm w := on_mem w (Vm.setupkvm kdata);
  Proc.inituvm w d := on_mem_ w (fun m => Vm.inituvm m d init);
  Proc.copyuvm w d sz := on_mem w (fun m => Vm.copyuvm kend kdata m d sz);
  Proc.freevm w d := on_mem_ w (fun m => Vm.freevm kend m d);
  Proc.allocuvm w d o n := on_mem w (fun m => Vm.allocuvm kend m d o n);
  Proc.deallocuvm w d o n := on_mem w (fun m => Vm.deallocuvm kend m d o n);
  Proc.filedup w f := on_kern w (fun k => File.filedup k f);
  Proc.fileclose w f := on_kern w (fun k => File.fileclose k f);
  Proc.idup w ip := on_kern w (fun k => on_fs k (fun fs => Inode.idup fs (icache_index ip)));
  Proc.iput w ip := on_kern w (fun k => on_fs k (fun fs => Inode.iput fs (icache_index ip)));
  Proc.namei_root w :=
    let! '(fs, o) := namei (kfs w.2) (-1) root_path in
    Ok ((w.1, set_fs w.2 fs), match o with Some ip => ip + 1 | None => 0 end);
|}.
End Kernel.

(** Fork and sbrk on the kernel put together. *)

#[local] Ltac Zify.zify_post_hook ::= Z.to_euclidean_division_equations.

Lemma name_copied n s d t : (n <= length t)%nat -> t <> [] -> 0 <= d -> d + Z.of_nat n < zlen s -> exists s', Kstring.safestrcpy_loop s d t n = Ok s'.
Proof.
  revert s d t. induction n as [|n IH]; intros s d [|c t] Hn Ht Hd Hl; try done; cbn [Kstring.safestrcpy_loop].
  - rewrite put_ok by lia. by eexists.
  - rewrite put_ok by lia. rewrite rbind_ok. destruct (c =? 0).
    + rewrite put_ok by (rewrite length_insert; lia). by eexists.
    + cbn [length] in Hn. destruct t as [|c' t].
      * destruct n as [|n]; [|cbn in Hn; lia]. cbn. rewrite put_ok by (rewrite length_insert; lia). by eexists.
      * apply IH; [lia | done | lia | rewrite length_insert; lia].
Qed.
Section Kernel.
Context (kend kdata : Z) (init : bytes) (Hkend : KERNBASE < kend) (Hdata : KERNLINK < kdata < KERNBASE + PHYSTOP) (Hdata_al : kdata mod 4096 = 0).
Context {D : Type} `{!BlockDev D} `{!Devsw D}.
#[local] Existing Instance kernel_env.
Notation env := (kernel_env kend kdata init (D := D)).
Notation uspace := (uspace kend).

(** How often a file is open in a table. *)
Definition times (f : Z) (fs : list (option Z)) : Z := zlen (filter (fun o => o = Some f) fs).

(** The open files exist and can be referenced once more for each place of the
    table. *)
Definition files_held (k : kern D) (fs : list (option Z)) : Prop :=
  forall f, Some f ∈ fs -> exists x, get (ftable k) f = Ok x /\ 1 <= f_ref x /\ f_ref x + zlen fs < 2 ^ 31.

Lemma times_cons f o fs : times f (o :: fs) = (if decide (o = Some f) then 1 else 0) + times f fs.
Proof. unfold times. rewrite filter_cons. destruct (decide _); cbn [length]; lia. Qed.

Lemma dup_files_ok fs m k :
  files_held k fs ->
  exists k', @dup_files _ env (m, k) fs = Ok (m, k') /\ kfs k' = kfs k /\ pipes k' = pipes k /\ length (ftable k') = length (ftable k) /\
    forall f x, get (ftable k) f = Ok x -> get (ftable k') f = Ok (set_fref (f_ref x + times f fs) x).
Proof using.
  revert k. induction fs as [|[g|] fs IH]; intros k H; cbn [dup_files].
  - exists k. do 4 (split; [done|]). intros f x Hx. rewrite Hx. cbn. rewrite Z.add_0_r. by destruct x.
  - destruct (H g ltac:(by left)) as (y & Hy & Hr & Hm). change (Proc.filedup (m, k) g) with (@on_kern D (m, k) (fun k => File.filedup k g)). unfold on_kern, File.filedup. cbn [snd fst].
    rewrite Hy, rbind_ok, (proj2 (Z.ltb_ge (f_ref y) 1)) by lia. unfold upd_file. rewrite Hy, rbind_ok. pose proof (proj1 (get_inv _ _ _ Hy)) as Hg. rewrite put_ok by done. rewrite rbind_ok, rbind_ok. cbn [length] in Hm.
    rewrite s32_small by lia. set (k1 := mk_kern (kfs k) (<[Z.to_nat g := set_fref (f_ref y + 1) y]> (ftable k)) (pipes k)).
    assert (forall f x, get (ftable k) f = Ok x -> get (ftable k1) f = Ok (if decide (f = g) then set_fref (f_ref x + 1) x else x)) as H1.
    { intros f x Hx. pose proof (get_inv _ _ _ Hx) as [Hf Hl]. cbn [ftable k1]. apply get_ok; [lia|]. destruct (decide (f = g)) as [->|Hne].
      - rewrite list_lookup_insert_eq by lia. rewrite Hx in Hy. by injection Hy as ->.
      - rewrite list_lookup_insert_ne by lia. done. }
    destruct (IH k1) as (k' & E & A1 & A2 & A3 & A4).
    { intros f Hf. destruct (H f ltac:(by right)) as (x & Hx & Hrx & Hmx). eexists. split; [by apply H1|]. cbn [length] in Hmx. destruct (decide (f = g)); cbn [set_fref f_ref]; lia. }
    exists k'. split; [done|]. split; [done|]. split; [done|]. split; [rewrite A3; apply length_insert|]. intros f x Hx. rewrite (A4 f _ (H1 f x Hx)), times_cons. f_equal.
    destruct (decide (f = g)) as [->|Hne]; [rewrite decide_True, Z.add_assoc by done; done | by rewrite decide_False, Z.add_0_l by congruence].
  - destruct (IH k) as (k' & E & A1 & A2 & A3 & A4).
    { intros f Hf. destruct (H f ltac:(by right)) as (x & Hx & Hrx & Hmx). exists x. cbn [length] in Hmx. split; [done|]. lia. }
    exists k'. do 4 (split; [done|]). intros f x Hx. rewrite (A4 f x Hx), times_cons, decide_False by done. done.
Qed.


(** C4: [fork] on the whole kernel, with memory for the child: the child gets the next
    process number and an address space of its own that holds byte for byte what the
    parent's does, on pages that are neither the parent's nor free; the parent's
    memory is unchanged, every open file is referenced once more for each place it
    has in the table, and the child returns 0 from the call. *)
Theorem kernel_fork forkret trapret m k L T V pt pt1 np me :
  let p := slot pt me in
  alloc_slot pt = Some (pt1, np) -> p_state p <> UNUSED -> (me < length (procs pt))%nat ->
  uspace m L (p_pgdir p) T V (p_sz p) -> 74 + 2 * up (p_sz p) <= zlen L ->
  files_held k (p_ofile p) -> 0 < p_cwd p <= zlen (icache (kfs k)) -> length (p_name p) = 16%nat -> length (p_name (slot pt np)) = 16%nat ->
  exists m' k' pt' d L' T' V', @fork forkret trapret _ env (m, k) pt me = Ok ((m', k'), pt', nextpid pt) /\
    let c := slot pt' np in
    p_pid c = nextpid pt /\ p_state c = RUNNABLE /\ p_parent c = Some me /\ p_pgdir c = d /\ p_sz c = p_sz p /\ tf_eax (p_tf c) = 0 /\ (forall j, j <> np -> slot pt' j = slot pt j) /\
    uspace m' L' d T' V' (p_sz p) /\ uspace m' L' (p_pgdir p) T V (p_sz p) /\ apart (p_pgdir p) T V d T' V' /\
    (forall a, 0 <= a < p_sz p -> uread m' V' a = uread m V a /\ uread m' V a = uread m V a) /\
    (forall f x, get (ftable k) f = Ok x -> get (ftable k') f = Ok (set_fref (f_ref x + times f (p_ofile p)) x)).
Proof using Hkend Hdata Hdata_al.
  intros p Ea Hst Hme H HL Hfiles Hcwd Hn1 Hn2. apply alloc_slot_spec in Ea as Hs. destruct Hs as (Hu & Hlt & El & _ & _ & Enp & Hne). assert (me <> np) as Hmn by (intros ->; done).
  unfold fork. rewrite Ea. unfold fork_rest, alloc_stack. change (Proc.kalloc (m, k)) with (@on_mem D _ (m, k) Vm.kalloc). unfold on_mem at 1. cbn [fst snd].
  destruct L as [|q L]; [cbn in HL; unfold up in HL; pose proof (us_sz _ _ _ _ _ _ _ H); unfold KERNBASE in *; lia|].
  destruct (kalloc_cons kend m q L (vm_mem _ _ _ _ _ _ (us_vm _ _ _ _ _ _ _ H))) as (fl & -> & Hm1 & Hq & HqL). rewrite rbind_ok, rbind_ok. pose proof (page_bounds _ _ Hq) as Bq.
  rewrite (proj2 (Z.eqb_neq q 0)) by lia. rewrite rbind_ok. cbn [negb]. rewrite upd_upd.
  set (m1 := mk_mem (mbytes m) fl) in *.
  assert (uspace m1 L (p_pgdir p) T V (p_sz p)) as H1.
  { destruct H as [A1 A2 A3 A4]. split; [|done|done|done]. apply (vm_other kend m m1 (q :: L) L); [done | done | | done]. intros x Hx Hin. apply (vm_page kend _ _ _ _ _ x A1 Hx). by right. }
  rewrite at_slot_ok by (rewrite len_upd, El; done). rewrite rbind_ok, slot_upd_ne, Hne by done. fold p.
  change (Proc.copyuvm (m1, k) (p_pgdir p) (p_sz p)) with (@on_mem D _ (m1, k) (fun m => Vm.copyuvm kend kdata m (p_pgdir p) (p_sz p))). unfold on_mem. cbn [fst snd].
  destruct (copyuvm_user kend kdata Hdata Hdata_al m1 L (p_pgdir p) T V (p_sz p) H1) as (m2 & d & L2 & T2 & V2 & -> & Hd & U2 & U1 & Hap & _ & Hbytes); [cbn [length] in HL; lia|].
  rewrite rbind_ok, rbind_ok, (proj2 (Z.eqb_neq d 0) Hd), ?upd_upd.
  destruct (dup_files_ok (p_ofile p) m2 k Hfiles) as (k1 & -> & A1 & A2 & A3 & A4). rewrite rbind_ok.
  change (Proc.idup (m2, k1) (p_cwd p)) with (@on_kern D (m2, k1) (fun k => on_fs k (fun fs => Inode.idup fs (icache_index (p_cwd p))))). unfold on_kern, on_fs, Inode.idup, upd_inode, icache_index. cbn [fst snd].
  destruct (get_lt (icache (kfs k1)) (p_cwd p - 1)) as (i & -> & _); [rewrite A1; lia|]. rewrite rbind_ok, put_ok by (rewrite A1; lia). rewrite !rbind_ok, ?upd_upd.
  rewrite at_slot_ok by (rewrite len_upd, El; done). rewrite rbind_ok, slot_upd_eq by (rewrite El; done). rewrite Enp.
  cbn [p_name p_pid set_files set_tf set_parent set_sz set_pgdir set_stack set_kstack set_pid set_state]. unfold Kstring.safestrcpy. change (16 <=? 0) with false. cbv iota.
  destruct (name_copied (Z.to_nat (16 - 1)) (p_name (slot pt np)) 0 (p_name p)) as (nm & ->); [lia | by destruct (p_name p) | lia | lia|]. rewrite rbind_ok, ?upd_upd.
  eexists m2, _, _, d, L2, T2, V2. split; [reflexivity|]. cbv zeta. rewrite slot_upd_eq by (rewrite El; done). rewrite Enp. cbn [p_pid p_state p_parent p_pgdir p_sz p_tf tf_eax set_eax set_name set_files set_tf set_parent set_sz set_pgdir set_stack set_kstack set_pid set_state].
  do 6 (split; [done|]). split; [intros j Hj; rewrite slot_upd_ne by done; by apply Hne|]. do 3 (split; [done|]). split; [|exact A4].
  intros a Ha. exact (Hbytes a Ha).
Qed.

(** C34: [sbrk] of a process with memory to spare returns the old end of its memory and
    moves it by [n].  What stays keeps its bytes; the pages that are new are zero (from
    the first page boundary at or after the old end: the rest of the last old page is
    not cleared and may hold what was there before a shrink).  Only the size of this
    process has changed in the table, and every other address space, sharing no page
    with this one, keeps its pages and their bytes and still shares none. *)
Theorem kernel_sbrk m k L T V pt me n :
  let p := slot pt me in
  (me < length (procs pt))%nat -> uspace m L (p_pgdir p) T V (p_sz p) -> p_sz p < KERNBASE -> 0 < p_sz p + n < KERNBASE -> 2 * (up (p_sz p + n) - up (p_sz p)) <= zlen L ->
  exists m' pt' L' T' V', @sys_sbrk _ env (m, k) pt me (Some n) = Ok ((m', k), pt', p_sz p) /\
    slot pt' me = set_sz (p_sz p + n) p /\ (forall j, j <> me -> slot pt' j = slot pt j) /\
    uspace m' L' (p_pgdir p) T' V' (p_sz p + n) /\ own (p_pgdir p) T' V' ++ L' ≡ₚ own (p_pgdir p) T V ++ L /\
    (forall a, 0 <= a < Z.min (p_sz p) (p_sz p + n) -> uread m' V' a = uread m V a) /\ (forall a, 4096 * up (p_sz p) <= a < p_sz p + n -> uread m' V' a = Some 0) /\
    (forall d2 T2 V2, VmSpace.vm_ok kend m L d2 T2 V2 -> apart (p_pgdir p) T V d2 T2 V2 ->
       VmSpace.vm_ok kend m' L' d2 T2 V2 /\ apart (p_pgdir p) T' V' d2 T2 V2 /\ forall a, 0 <= a < KERNBASE -> uread m' V2 a = uread m V2 a).
Proof using Hkend.
  intros p Hme H Hsz Hn HL. pose proof (us_sz _ _ _ _ _ _ _ H) as Hmax. unfold KERNBASE in Hmax, Hsz, Hn. unfold sys_sbrk. rewrite at_slot_ok, rbind_ok by done. fold p. rewrite s32_small by lia.
  unfold growproc. rewrite at_slot_ok, rbind_ok by done. fold p. cbv zeta. rewrite u32_small by lia.
  assert (forall w r, (let! '(w, pt, r) := Ok (w, upd pt me (set_sz r), 0) in Ok (w, pt, if r <? 0 then -1 else p_sz p)) = Ok (w, upd pt me (set_sz r), p_sz p) :> result (kstate (D := D) * ptable * Z)) as Hret by done.
  assert (forall m' L' T' V' sz', uspace m' L' (p_pgdir p) T' V' sz' -> own (p_pgdir p) T' V' ++ L' ≡ₚ own (p_pgdir p) T V ++ L -> untouched m m' L (p_pgdir p) T V ->
    forall d2 T2 V2, VmSpace.vm_ok kend m L d2 T2 V2 -> apart (p_pgdir p) T V d2 T2 V2 ->
      VmSpace.vm_ok kend m' L' d2 T2 V2 /\ apart (p_pgdir p) T' V' d2 T2 V2 /\ forall a, 0 <= a < KERNBASE -> uread m' V2 a = uread m V2 a) as Hiso.
  { intros m' L' T' V' sz' U P F d2 T2 V2 H2 Hap. apply (confined_other kend m m' L L' (p_pgdir p) T T' V V'); [apply H | | done | done].
    split; [apply U | intros q; by rewrite P | done]. }
  assert (slot (upd pt me (set_sz (p_sz p + n))) me = set_sz (p_sz p + n) p /\ forall j, j <> me -> slot (upd pt me (set_sz (p_sz p + n))) j = slot pt j) as [Q1 Q2] by (split; [by rewrite slot_upd_eq | intros j Hj; by rewrite slot_upd_ne]).
  destruct (Z.ltb_spec 0 n) as [Hp|Hp].
  - change (Proc.allocuvm (m, k) (p_pgdir p) (p_sz p) (p_sz p + n)) with (@on_mem D _ (m, k) (fun m => Vm.allocuvm kend m (p_pgdir p) (p_sz p) (p_sz p + n))). unfold on_mem. cbn [fst snd].
    destruct (allocuvm_user kend m L (p_pgdir p) T V (p_sz p) (p_sz p + n) H) as (m' & L' & T' & V' & -> & U & P & B1 & B2 & F); [unfold KERNBASE; lia | done|]. rewrite !rbind_ok, (proj2 (Z.eqb_neq _ 0)) by lia. cbn [negb]. rewrite Hret.
    exists m', (upd pt me (set_sz (p_sz p + n))), L', T', V'. do 5 (split; [done|]). split; [intros a Ha; apply B1; lia|]. split; [exact B2|]. by eapply Hiso.
  - destruct (Z.ltb_spec n 0) as [Hm|Hm].
    + change (Proc.deallocuvm (m, k) (p_pgdir p) (p_sz p) (p_sz p + n)) with (@on_mem D _ (m, k) (fun m => Vm.deallocuvm kend m (p_pgdir p) (p_sz p) (p_sz p + n))). unfold on_mem. cbn [fst snd].
      destruct (deallocuvm_user kend Hkend m L (p_pgdir p) T V (p_sz p) (p_sz p + n) H) as (m' & L' & V' & -> & U & P & B & F); [lia|]. rewrite !rbind_ok, (proj2 (Z.eqb_neq _ 0)) by lia. cbn [negb]. rewrite Hret.
      exists m', (upd pt me (set_sz (p_sz p + n))), L', T, V'. do 5 (split; [done|]). split; [intros a Ha; apply B; lia|]. split; [intros a Ha; unfold up in Ha; lia|]. by eapply Hiso.
    + rewrite rbind_ok. replace (p_sz p + n) with (p_sz p) in * by lia. rewrite Hret. exists m, (upd pt me (set_sz (p_sz p))), L, T, V. do 6 (split; [done|]). split; [intros a Ha; unfold up in Ha; lia|]. by eapply Hiso.
Qed.
End Kernel.

(** * A process that forks and grows *)

Definition demo_table (d : Z) : ptable := upd boot_table 0 (fun p => set_files [Some 0; None; Some 0] 1 (set_sz 8192 (set_pgdir d (set_state RUNNING p)))).
Definition demo_table1 (d : Z) : ptable := match alloc_slot (demo_table d) with Some (pt, _) => pt | None => boot_table end.
Definition demo_kern : kern kdisk := mk_kern (mk_fs demo_disk (replicate 50 no_inode)) [mk_file FD_INODE 2 true true 0 0 0] [].

Lemma demo_alloc d : alloc_slot (demo_table d) = Some (demo_table1 d, 1%nat).
Proof. reflexivity. Qed.

Lemma kernel_fork_witness :
  exists m m' k' d pt' V V', @fork 0 0 _ (kernel_env demo_kend demo_kdata []) (m, demo_kern) (demo_table d) 0 = Ok ((m', k'), pt', 1) /\
    p_state (slot pt' 1) = RUNNABLE /\ uread m' V' 4711 = uread m V 4711 /\ get (ftable k') 0 = Ok (mk_file FD_INODE 4 true true 0 0 0).
Proof.
  destruct demo_process as (m & L & d & T & V & H & HL & _).
  destruct (kernel_fork demo_kend demo_kdata [] demo_kend_ok (proj1 demo_kdata_ok) (proj2 demo_kdata_ok) 0 0 m demo_kern L T V (demo_table d) (demo_table1 d) 1 0)
    as (m' & k' & pt' & d' & L' & T' & V' & E & _ & S & _ & _ & _ & _ & _ & _ & _ & _ & B & F).
  - exact (demo_alloc d).
  - discriminate.
  - apply (bool_decide_unpack _). vm_compute. exact I.
  - exact H.
  - change (up (p_sz (slot (demo_table d) 0))) with 2. lia.
  - intros f Hf. assert (f = 0) as -> by (apply list_elem_of_In in Hf; cbn in Hf; destruct Hf as [Hf|[Hf|[Hf|[]]]]; congruence). eexists. split; [reflexivity|]. cbn. lia.
  - cbn. lia.
  - reflexivity.
  - reflexivity.
  - exists m, m', k', d, pt', V, V'. split; [exact E|]. split; [exact S|]. split; [apply B; cbn; lia | exact (F 0 _ eq_refl)].
Defined.

Lemma kernel_sbrk_witness :
  exists m m' d pt' V', @sys_sbrk _ (kernel_env demo_kend demo_kdata []) (m, demo_kern) (demo_table d) 0 (Some 4096) = Ok ((m', demo_kern), pt', 8192) /\
    p_sz (slot pt' 0) = 12288 /\ uread m' V' 9000 = Some 0.
Proof.
  destruct demo_process as (m & L & d & T & V & H & HL & _).
  destruct (kernel_sbrk demo_kend demo_kdata [] demo_kend_ok m demo_kern L T V (demo_table d) 0 4096) as (m' & pt' & L' & T' & V' & E & S & _ & _ & _ & _ & B).
  - apply (bool_decide_unpack _). vm_compute. exact I.
  - exact H.
  - reflexivity.
  - cbn. unfold KERNBASE. lia.
  - change (2 * (up (p_sz (slot (demo_table d) 0) + 4096) - up (p_sz (slot (demo_table d) 0)))) with 2. lia.
  - exists m, m', d, pt', V'. split; [exact E|]. rewrite S. split; [reflexivity | apply B; vm_compute; split; [discriminate | reflexivity]].
Defined.
