(* ===== verification/Spinlock.v ===== *)
(** Spin locks and interrupts: src/src/spinlock.c and spinlock.h.

    A processor has its interrupt flag ([IF] of eflags) and the two fields of
    [struct cpu] that spinlock.c uses.  [xchg] is atomic; everything else a
    processor does to a lock can interleave with the others, so [acquire] and
    [release] are split at their stores ([take], [own], [drop]).  The call
    stack that [acquire] records is for debugging and left out. *)
From S2P Require Import Prelude.

Record cpu := mk_cpu { ncli : Z; intena : bool; iflag : bool }.

Record spinlock := mk_lock { locked : bool; lcpu : option nat }.

Definition initlock : spinlock := mk_lock false None.

Definition pushcli (c : cpu) : cpu := mk_cpu (ncli c + 1) (if ncli c =? 0 then iflag c else intena c) false.

Definition popcli (c : cpu) : result cpu :=
  if iflag c then Err Panic else
  let n := ncli c - 1 in
  if n <? 0 then Err Panic else Ok (mk_cpu n (intena c) ((n =? 0) && intena c)).

Definition holding (lk : spinlock) (me : nat) : bool := locked lk && bool_decide (lcpu lk = Some me).

(** [acquire] before the loop. *)
Definition acquire (c : cpu) (lk : spinlock) (me : nat) : result cpu :=
  let c := pushcli c in
  if holding lk me then Err Panic else Ok c.

(** A round of its loop: [xchg], and whether the lock was free. *)
Definition take (lk : spinlock) : spinlock * bool := (mk_lock true (lcpu lk), negb (locked lk)).

(** Recording the owner. *)
Definition own (lk : spinlock) (me : nat) : spinlock := mk_lock (locked lk) (Some me).

(** [release] before the [xchg]. *)
Definition release (lk : spinlock) (me : nat) : result spinlock :=
  if holding lk me then Ok (mk_lock (locked lk) None) else Err Panic.

(** The [xchg] of [release]; [popcli] follows. *)
Definition drop (lk : spinlock) : spinlock := mk_lock false (lcpu lk).

(** Mutual exclusion and interrupts, for any number of processors and locks. *)

(** Where a processor is in the code of spinlock.c. *)
Inductive place := Outside | Spinning (l : nat) | Owning (l : nat) | Dropping (l : nat) | Popping.

(** The machine; [held] are the locks a processor holds, and [flag] is its interrupt
    flag when it held none the last time. *)
Record machine := mk_machine { cpus : nat -> cpu; locks : nat -> spinlock; at_ : nat -> place; held : nat -> list nat; flag : nat -> bool }.

Definition set_ {A} (f : nat -> A) (i : nat) (v : A) : nat -> A := fun j => if decide (j = i) then v else f j.

Lemma set_eq {A} (f : nat -> A) i v : set_ f i v i = v.
Proof. unfold set_. by rewrite decide_True. Qed.
Lemma set_ne {A} (f : nat -> A) i j v : j <> i -> set_ f i v j = f j.
Proof. intros H. unfold set_. by rewrite decide_False. Qed.

(** What a processor may do: change its interrupt flag while it holds nothing, take a
    lock that it does not hold, release one that it does, in any order. *)
Inductive mstep : machine -> result machine -> Prop :=
  | m_flag s i b : at_ s i = Outside -> held s i = [] ->
      mstep s (Ok (mk_machine (set_ (cpus s) i (mk_cpu (ncli (cpus s i)) (intena (cpus s i)) b)) (locks s) (at_ s) (held s) (set_ (flag s) i b)))
  | m_acquire s i l : at_ s i = Outside -> l ∉ held s i ->
      mstep s (let! c := acquire (cpus s i) (locks s l) i in Ok (mk_machine (set_ (cpus s) i c) (locks s) (set_ (at_ s) i (Spinning l)) (held s) (flag s)))
  | m_spin s i l : at_ s i = Spinning l ->
      mstep s (let '(lk, got) := take (locks s l) in Ok (mk_machine (cpus s) (set_ (locks s) l lk) (set_ (at_ s) i (if got then Owning l else Spinning l)) (held s) (flag s)))
  | m_own s i l : at_ s i = Owning l ->
      mstep s (Ok (mk_machine (cpus s) (set_ (locks s) l (own (locks s l) i)) (set_ (at_ s) i Outside) (set_ (held s) i (l :: held s i)) (flag s)))
  | m_release s i l : at_ s i = Outside -> l ∈ held s i ->
      mstep s (let! lk := release (locks s l) i in Ok (mk_machine (cpus s) (set_ (locks s) l lk) (set_ (at_ s) i (Dropping l)) (set_ (held s) i (filter (fun x => x <> l) (held s i))) (flag s)))
  | m_drop s i l : at_ s i = Dropping l ->
      mstep s (Ok (mk_machine (cpus s) (set_ (locks s) l (drop (locks s l))) (set_ (at_ s) i Popping) (held s) (flag s)))
  | m_pop s i : at_ s i = Popping ->
      mstep s (let! c := popcli (cpus s i) in Ok (mk_machine (set_ (cpus s) i c) (locks s) (set_ (at_ s) i Outside) (held s) (flag s))).

(** The processors that have a lock, or are about to have or about to lose it. *)
Definition has (s : machine) (i l : nat) : Prop := l ∈ held s i \/ at_ s i = Owning l \/ at_ s i = Dropping l.

Definition busy (p : place) : Z := match p with Outside => 0 | _ => 1 end.

Record locks_ok (s : machine) : Prop := {
  lo_count : forall i, ncli (cpus s i) = zlen (held s i) + busy (at_ s i);
  lo_off : forall i, 0 < ncli (cpus s i) -> iflag (cpus s i) = false /\ intena (cpus s i) = flag s i;
  lo_on : forall i, ncli (cpus s i) = 0 -> iflag (cpus s i) = flag s i;
  lo_one : forall i j l, has s i l -> has s j l -> i = j;
  lo_locked : forall l, locked (locks s l) = true <-> exists i, has s i l;
  lo_owner : forall i l, l ∈ held s i -> lcpu (locks s l) = Some i;
  lo_held : forall i l, lcpu (locks s l) = Some i -> l ∈ held s i;
  lo_nodup : forall i, NoDup (held s i);
  lo_place : forall i l, at_ s i = Owning l \/ at_ s i = Spinning l \/ at_ s i = Dropping l -> l ∉ held s i;
}.

Definition boot_machine (b : bool) : machine := mk_machine (fun _ => mk_cpu 0 false b) (fun _ => initlock) (fun _ => Outside) (fun _ => []) (fun _ => b).

Lemma boot_ok b : locks_ok (boot_machine b).
Proof.
  constructor; cbn; try done; try lia.
  - intros i j l [H|[H|H]]; try done. by apply elem_of_nil in H.
  - intros l. split; [done|]. intros (i & [H|[H|H]]); try done. by apply elem_of_nil in H.
  - intros i l H. by apply elem_of_nil in H.
  - intros i. constructor.
  - intros i l _ H. by apply elem_of_nil in H.
Qed.

(** The state after a step, by cases on the processor and the lock. *)
Ltac by_place := unfold set_ in *; repeat case_decide; subst; cbn [cpus locks at_ held flag ncli intena iflag locked lcpu busy] in *.

Ltac by_cases j i k l :=
  let Hj := fresh "Hj" in let Hkl := fresh "Hkl" in
  destruct (decide (j = i)) as [->|Hj]; destruct (decide (k = l)) as [->|Hkl]; rewrite ?set_eq, ?(set_ne _ i j), ?(set_ne _ l k) in * by done; cbn [locked lcpu own] in *.

(** Steps that change no lock and no set of held locks keep what concerns them. *)
Lemma same_locks s s' :
  locks_ok s -> locks s' = locks s -> held s' = held s ->
  (forall i l, at_ s' i = Owning l \/ at_ s' i = Dropping l <-> at_ s i = Owning l \/ at_ s i = Dropping l) ->
  (forall i l, at_ s' i = Spinning l -> l ∉ held s i) ->
  (forall i, ncli (cpus s' i) = zlen (held s i) + busy (at_ s' i)) ->
  (forall i, 0 < ncli (cpus s' i) -> iflag (cpus s' i) = false /\ intena (cpus s' i) = flag s' i) -> (forall i, ncli (cpus s' i) = 0 -> iflag (cpus s' i) = flag s' i) ->
  locks_ok s'.
Proof.
  intros [A1 A2 A3 A4 A5 A6 A7 A8 A9] El Eh Hat Hsp B1 B2 B3.
  assert (forall i l, has s' i l <-> has s i l) as Hh by (intros i l; unfold has; rewrite Eh, Hat; done).
  constructor; rewrite ?El, ?Eh; try done.
  - intros i j l. rewrite !Hh. apply A4.
  - intros l. rewrite A5. split; intros [i H]; exists i; by apply Hh.
  - intros i l H. destruct H as [H|[H|H]].
    + apply (A9 i). destruct (proj1 (Hat i l)); [by left | by left | by right; right].
    + by apply Hsp.
    + apply (A9 i). destruct (proj1 (Hat i l)); [by right | by left | by right; right].
Qed.

Lemma step_flag s i b :
  locks_ok s -> at_ s i = Outside -> held s i = [] ->
  locks_ok (mk_machine (set_ (cpus s) i (mk_cpu (ncli (cpus s i)) (intena (cpus s i)) b)) (locks s) (at_ s) (held s) (set_ (flag s) i b)).
Proof.
  intros H Ha Hh. pose proof H as [A1 A2 A3 A4 A5 A6 A7 A8 A9]. assert (ncli (cpus s i) = 0) as En by (rewrite A1, Ha, Hh; done).
  apply (same_locks s); try done; cbn [cpus locks at_ held flag].
  - intros j l Hj. apply (A9 j). by right; left.
  - intros j. by_place; apply A1.
  - intros j. by_place; [lia | apply A2].
  - intros j. by_place; [done | apply A3].
Qed.

Lemma step_acquire s i l c :
  locks_ok s -> at_ s i = Outside -> l ∉ held s i -> acquire (cpus s i) (locks s l) i = Ok c ->
  locks_ok (mk_machine (set_ (cpus s) i c) (locks s) (set_ (at_ s) i (Spinning l)) (held s) (flag s)).
Proof.
  intros H Ha Hh E. pose proof H as [A1 A2 A3 A4 A5 A6 A7 A8 A9]. unfold acquire in E. destruct (holding _ _); [done|]. injection E as <-. pose proof (A1 i) as Ei. rewrite Ha in Ei. cbn in Ei.
  apply (same_locks s); try done; cbn [cpus locks at_ held flag].
  - intros j k. by_place; [|done]. rewrite Ha. naive_solver.
  - intros j k. by_place; [intros [= <-]; done|]. intros Hj. apply (A9 j). by right; left.
  - intros j. unfold pushcli. by_place; [lia | apply A1].
  - intros j. unfold pushcli. by_place; [|apply A2]. intros _. split; [done|]. destruct (Z.eqb_spec (ncli (cpus s i)) 0); [by apply A3 | apply A2; lia].
  - intros j. unfold pushcli. by_place; [lia | apply A3].
Qed.

Lemma step_pop s i c :
  locks_ok s -> at_ s i = Popping -> popcli (cpus s i) = Ok c ->
  locks_ok (mk_machine (set_ (cpus s) i c) (locks s) (set_ (at_ s) i Outside) (held s) (flag s)).
Proof.
  intros H Ha E. pose proof H as [A1 A2 A3 A4 A5 A6 A7 A8 A9]. pose proof (A1 i) as Ei. rewrite Ha in Ei. cbn in Ei. destruct (A2 i ltac:(lia)) as [F1 F2].
  unfold popcli in E. rewrite F1 in E. rewrite (proj2 (Z.ltb_ge _ _)) in E by lia. injection E as <-.
  apply (same_locks s); try done; cbn [cpus locks at_ held flag].
  - intros j k. by_place; [|done]. rewrite Ha. naive_solver.
  - intros j k. by_place; [done|]. intros Hj. apply (A9 j). by right; left.
  - intros j. by_place; [lia | apply A1].
  - intros j. by_place; [|apply A2]. intros Hp. rewrite (proj2 (Z.eqb_neq _ _)) by lia. done.
  - intros j. by_place; [|apply A3]. intros Hz. rewrite (proj2 (Z.eqb_eq _ _) Hz). done.
Qed.

Lemma step_spin s i l :
  locks_ok s -> at_ s i = Spinning l ->
  locks_ok (mk_machine (cpus s) (set_ (locks s) l (take (locks s l)).1) (set_ (at_ s) i (if (take (locks s l)).2 then Owning l else Spinning l)) (held s) (flag s)).
Proof.
  intros H Ha. pose proof H as [A1 A2 A3 A4 A5 A6 A7 A8 A9]. unfold take. cbn [fst snd]. pose proof (A9 i l ltac:(by right; left)) as Hni. destruct (locked (locks s l)) eqn:El; cbn [negb].
  - assert (forall k, set_ (locks s) l (mk_lock true (lcpu (locks s l))) k = locks s k) as Es.
    { intros k. by_place; [|done]. destruct (locks s l); cbn in *. by subst. }
    assert (forall j, set_ (at_ s) i (Spinning l) j = at_ s j) as Eat by (intros j; by_place; done).
    constructor; cbn [cpus locks at_ held flag]; try done; intros; unfold has in *; cbn [at_ held] in *; rewrite ?Eat, ?Es in *; eauto.
    rewrite A5. split; intros [j Hj]; exists j; unfold has in *; cbn [at_ held] in *; by rewrite ?Eat in *.
  - assert (forall j, ~ has s j l) as Hno by (intros j Hj; rewrite (proj2 (A5 l)) in El by (by exists j); done).
    assert (forall j k, has (mk_machine (cpus s) (set_ (locks s) l (mk_lock true (lcpu (locks s l)))) (set_ (at_ s) i (Owning l)) (held s) (flag s)) j k <-> has s j k \/ j = i /\ k = l) as Hh.
    { intros j k. unfold has. cbn [at_ held]. by_place; [rewrite Ha|]; naive_solver. }
    constructor; cbn [cpus locks at_ held flag]; try done.
    + intros j. by_place; [rewrite A1, Ha; done | apply A1].
    + intros j j' k. rewrite !Hh. intros [Hj|[-> ->]] [Hj'|[-> E]]; subst; [by apply (A4 j j' k) | by destruct (Hno j) | by destruct (Hno j') | done].
    + intros k. by_place.
      * split; [intros _; exists i; apply Hh; by right | done].
      * rewrite A5. split; intros [j Hj]; exists j; [apply Hh; by left|]. apply Hh in Hj as [Hj|[_ ?]]; done.
    + intros j k Hk. by_place; by apply A6.
    + intros j k. by_place; apply A7.
    + intros j k. by_place; [|apply A9]. intros [[= <-]|[?|?]]; done.
Qed.

Lemma step_own s i l :
  locks_ok s -> at_ s i = Owning l ->
  locks_ok (mk_machine (cpus s) (set_ (locks s) l (own (locks s l) i)) (set_ (at_ s) i Outside) (set_ (held s) i (l :: held s i)) (flag s)).
Proof.
  intros H Ha. pose proof H as [A1 A2 A3 A4 A5 A6 A7 A8 A9]. pose proof (A9 i l ltac:(by left)) as Hni. assert (has s i l) as Hil by (by right; left).
  assert (forall j k, has (mk_machine (cpus s) (set_ (locks s) l (own (locks s l) i)) (set_ (at_ s) i Outside) (set_ (held s) i (l :: held s i)) (flag s)) j k <-> has s j k) as Hh.
  { intros j k. unfold has. cbn [at_ held]. by_place; [|done]. rewrite Ha, elem_of_cons. naive_solver. }
  constructor; cbn [cpus locks at_ held flag]; try done.
  - intros j. by_place; [rewrite A1, Ha; cbn [length busy]; lia | apply A1].
  - intros j j' k. rewrite !Hh. apply A4.
  - intros k. assert (locked (set_ (locks s) l (own (locks s l) i) k) = locked (locks s k)) as -> by (by_place; done). rewrite A5. split; intros [j Hj]; exists j; by apply Hh.
  - intros j k Hk. by_cases j i k l.
    + done.
    + apply A6. by apply elem_of_cons in Hk as [?|?].
    + exfalso. apply Hj. apply (A4 j i l); [by left | done].
    + by apply A6.
  - intros j k. by_cases j i k l.
    + intros _. by left.
    + intros Hk'. right. by apply A7.
    + intros [= <-]. done.
    + apply A7.
  - intros j. by_place; [by constructor | done].
  - intros j k. by_place; [naive_solver | apply A9].
Qed.

Lemma filter_absent (l : nat) (k : list nat) : l ∉ k -> filter (fun x => x <> l) k = k.
Proof.
  induction k as [|x k IH]; intros H; [done|]. rewrite not_elem_of_cons in H. destruct H as [H1 H2]. rewrite filter_cons, decide_True by done. by rewrite IH.
Qed.

Lemma step_release s i l lk :
  locks_ok s -> at_ s i = Outside -> l ∈ held s i -> release (locks s l) i = Ok lk ->
  locks_ok (mk_machine (cpus s) (set_ (locks s) l lk) (set_ (at_ s) i (Dropping l)) (set_ (held s) i (filter (fun x => x <> l) (held s i))) (flag s)).
Proof.
  intros H Ha Hl E. pose proof H as [A1 A2 A3 A4 A5 A6 A7 A8 A9]. unfold release in E. destruct (holding _ _); [|done]. injection E as <-.
  assert (zlen (held s i) = zlen (filter (fun x => x <> l) (held s i)) + 1) as Hlen.
  { pose proof (A8 i) as Hn. apply list_elem_of_split in Hl as (l1 & l2 & E). rewrite E in *. apply NoDup_app in Hn as (_ & Hn1 & Hn2). apply NoDup_cons in Hn2 as [Hn2 _].
    rewrite filter_app, filter_cons, decide_False by (intros Hc; by apply Hc). rewrite !length_app. cbn [length].
    rewrite (filter_absent l l1), (filter_absent l l2) by (done || (intros Hx; apply (Hn1 l Hx); by left)). lia. }
  assert (forall j k, has (mk_machine (cpus s) (set_ (locks s) l (mk_lock (locked (locks s l)) None)) (set_ (at_ s) i (Dropping l)) (set_ (held s) i (filter (fun x => x <> l) (held s i))) (flag s)) j k <-> has s j k) as Hh.
  { intros j k. unfold has. cbn [at_ held]. by_place; [|done]. rewrite Ha, list_elem_of_filter. destruct (decide (k = l)) as [->|]; naive_solver. }
  constructor; cbn [cpus locks at_ held flag]; try done.
  - intros j. by_place; [rewrite A1, Ha; cbn [busy]; lia | apply A1].
  - intros j j' k. rewrite !Hh. apply A4.
  - intros k. assert (locked (set_ (locks s) l (mk_lock (locked (locks s l)) None) k) = locked (locks s k)) as -> by (by_place; done). rewrite A5. split; intros [j Hj]; exists j; by apply Hh.
  - intros j k Hk. by_cases j i k l.
    + by apply list_elem_of_filter in Hk as [? _].
    + apply list_elem_of_filter in Hk as [_ Hk]. by apply A6.
    + exfalso. apply Hj. apply (A4 j i l); [by left | by left].
    + by apply A6.
  - intros j k. by_cases j i k l; [done | | done | apply A7]. intros Hk'. apply list_elem_of_filter. split; [done | by apply A7].
  - intros j. by_place; [by apply NoDup_filter | done].
  - intros j k. by_place; [|apply A9]. intros [?|[?|[= <-]]]; try done. intros Hk. by apply list_elem_of_filter in Hk as [? _].
Qed.

Lemma step_drop s i l :
  locks_ok s -> at_ s i = Dropping l ->
  locks_ok (mk_machine (cpus s) (set_ (locks s) l (drop (locks s l))) (set_ (at_ s) i Popping) (held s) (flag s)).
Proof.
  intros H Ha. pose proof H as [A1 A2 A3 A4 A5 A6 A7 A8 A9]. pose proof (A9 i l ltac:(by right; right)) as Hni. assert (has s i l) as Hil by (by right; right).
  assert (forall j k, has (mk_machine (cpus s) (set_ (locks s) l (drop (locks s l))) (set_ (at_ s) i Popping) (held s) (flag s)) j k <-> has s j k /\ k <> l) as Hh.
  { intros j k. destruct (decide (k = l)) as [->|Hk].
    - split; [|naive_solver]. intros Hx. exfalso. assert (j <> i) as Hj.
      { intros ->. unfold has in Hx. cbn [at_ held] in Hx. rewrite set_eq in Hx. naive_solver. }
      apply Hj. apply (A4 j i l); [|done]. unfold has in *. cbn [at_ held] in Hx. by rewrite set_ne in Hx.
    - unfold has. cbn [at_ held]. by_place; [rewrite Ha|]; naive_solver. }
  constructor; cbn [cpus locks at_ held flag]; try done.
  - intros j. by_place; [rewrite A1, Ha; done | apply A1].
  - intros j j' k. rewrite !Hh. intros [? _] [? _]. by apply (A4 j j' k).
  - intros k. by_place.
    + split; [done|]. intros [j [_ ?]%Hh]. done.
    + rewrite A5. split; intros [j Hj]; exists j; [apply Hh; done | by apply Hh in Hj as [? _]].
  - intros j k Hk. by_place; by apply A6.
  - intros j k. by_place; apply A7.
  - intros j k. by_place; [naive_solver | apply A9].
Qed.

(** Each step succeeds and keeps the invariant. *)
Lemma mstep_ok s r : locks_ok s -> mstep s r -> exists s', r = Ok s' /\ locks_ok s'.
Proof.
  intros H Hs. pose proof H as [A1 A2 A3 A4 A5 A6 A7 A8 A9]. destruct Hs as [s i b Ha Hh|s i l Ha Hh|s i l Ha|s i l Ha|s i l Ha Hl|s i l Ha|s i Ha].
  - eexists. split; [done | by apply step_flag].
  - destruct (acquire (cpus s i) (locks s l) i) as [c|] eqn:E.
    + rewrite rbind_ok. eexists. split; [done|]. by eapply step_acquire.
    + exfalso. unfold acquire in E. destruct (holding (locks s l) i) eqn:Eh; [|done]. unfold holding in Eh. apply andb_true_iff in Eh as [_ Eh%bool_decide_eq_true]. by apply Hh, A7.
  - eexists. split; [done | by apply step_spin].
  - eexists. split; [done | by apply step_own].
  - destruct (release (locks s l) i) as [lk|] eqn:E.
    + rewrite rbind_ok. eexists. split; [done|]. by eapply step_release.
    + exfalso. unfold release, holding in E. rewrite (proj2 (A5 l)), (A6 i l Hl), bool_decide_true in E by (done || (exists i; by left)). done.
  - eexists. split; [done | by apply step_drop].
  - pose proof (A1 i) as Ei. rewrite Ha in Ei. cbn in Ei. destruct (popcli (cpus s i)) as [c|] eqn:E.
    + rewrite rbind_ok. eexists. split; [done|]. by eapply step_pop.
    + exfalso. unfold popcli in E. rewrite (proj1 (A2 i ltac:(lia))), (proj2 (Z.ltb_ge _ _)) in E by lia. done.
Qed.

(** The machines reachable from [s]. *)
Inductive reaches : machine -> machine -> Prop :=
  | reaches_refl s : reaches s s
  | reaches_step s s1 s2 : reaches s s1 -> mstep s1 (Ok s2) -> reaches s s2.

Lemma reaches_ok b s : reaches (boot_machine b) s -> locks_ok s.
Proof.
  intros H. remember (boot_machine b) as s0 eqn:E. induction H as [|s s1 s2 _ IH Hs]; subst; [apply boot_ok|]. destruct (mstep_ok s1 _ (IH eq_refl) Hs) as (s' & [= ->] & H). done.
Qed.

(** C22: for any number of processors and locks and any interleaving of their steps, no
    [acquire], [release] or [popcli] panics, two processors never hold the same lock, a
    processor that holds a lock or waits for one has interrupts off, and one that is
    back outside with no lock has the interrupt flag it had before. *)
Theorem locks_exclude b s :
  reaches (boot_machine b) s ->
  (forall r, mstep s r -> exists s', r = Ok s') /\
  (forall i j l, l ∈ held s i -> l ∈ held s j -> i = j) /\
  (forall i l, l ∈ held s i -> locked (locks s l) = true /\ holding (locks s l) i = true /\ iflag (cpus s i) = false) /\
  (forall i l, at_ s i = Spinning l -> iflag (cpus s i) = false) /\
  (forall i, at_ s i = Outside -> held s i = [] -> ncli (cpus s i) = 0 /\ iflag (cpus s i) = flag s i).
Proof.
  intros Hr. apply reaches_ok in Hr as H. pose proof H as [A1 A2 A3 A4 A5 A6 A7 A8 A9]. split; [intros r Hs; destruct (mstep_ok s r H Hs) as (s' & -> & _); by eexists|]. split; [|split; [|split]].
  - intros i j l Hi Hj. apply (A4 i j l); by left.
  - intros i l Hl. assert (locked (locks s l) = true) as Hk by (apply A5; exists i; by left). split; [done|]. split; [unfold holding; by rewrite Hk, (A6 i l Hl), bool_decide_true|].
    apply A2. rewrite A1. assert (length (held s i) <> 0)%nat by (intros Hz; apply nil_length_inv in Hz; rewrite Hz in Hl; by apply elem_of_nil in Hl). unfold busy. destruct (at_ s i); lia.
  - intros i l Ha. apply A2. rewrite A1, Ha. cbn [busy]. lia.
  - intros i Ha Hh. assert (ncli (cpus s i) = 0) as E by (rewrite A1, Ha, Hh; done). split; [done | by apply A3].
Qed.

(** A processor takes a lock, step by step. *)
Definition demo_spins : machine :=
  let s := boot_machine true in
  mk_machine (set_ (cpus s) 0%nat (pushcli (cpus s 0%nat))) (locks s) (set_ (at_ s) 0%nat (Spinning 7)) (held s) (flag s).

Definition demo_took : machine :=
  let s := demo_spins in mk_machine (cpus s) (set_ (locks s) 7%nat (mk_lock true None)) (set_ (at_ s) 0%nat (Owning 7)) (held s) (flag s).

Definition demo_held : machine :=
  let s := demo_took in
  mk_machine (cpus s) (set_ (locks s) 7%nat (own (locks s 7%nat) 0)) (set_ (at_ s) 0%nat Outside) (set_ (held s) 0%nat (7%nat :: held s 0%nat)) (flag s).

Lemma locks_exclude_witness : reaches (boot_machine true) demo_held /\ iflag (cpus demo_held 0) = false /\ holding (locks demo_held 7) 0 = true.
Proof.
  assert (reaches (boot_machine true) demo_held) as Hr.
  { apply (reaches_step _ demo_took); [apply (reaches_step _ demo_spins); [apply (reaches_step _ (boot_machine true)); [apply reaches_refl|]|]|].
    - exact (m_acquire (boot_machine true) 0 7 eq_refl (not_elem_of_nil _)).
    - exact (m_spin demo_spins 0 7 eq_refl).
    - exact (m_own demo_took 0 7 eq_refl). }
  split; [exact Hr|]. destruct (locks_exclude true demo_held Hr) as (_ & _ & H & _). destruct (H 0%nat 7%nat) as (_ & H1 & H2); [cbn; left|]. split; [exact H2 | exact H1].
Defined.
