(* ===== verification/ConsoleDump.v ===== *)
(** What console.c prints of the rest of the kernel: [procdump] of src/src/proc.c,
    [getcallerpcs] of src/src/spinlock.c, [panic] of src/src/console.c, and the
    serial input of src/src/uart.c.

    [ld a] is the word at the kernel address [a].  A string argument of [cprintf]
    is named by a number, [state_arg] or [name_arg]. *)
From S2P Require Import Prelude Ulib Sys Textframe Proc Console ConsoleLemmas ConsoleProps.

(** * Serial input *)

(** [uartgetc], given what the line status and the data registers hold. *)
Definition uartgetc (k : console) (status data : Z) : Z :=
  if negb (uart k) then -1 else if Z.land status 1 =? 0 then -1 else data.

(** The characters [consoleintr] gets, when the registers hold [regs] in turn. *)
Fixpoint uart_chars (k : console) (regs : list (Z * Z)) : bytes :=
  match regs with
  | [] => []
  | (status, data) :: regs => let c := uartgetc k status data in if 0 <=? c then c :: uart_chars k regs else []
  end.

Definition uartintr (procdump : console -> result console) (inp : input) (k : console) (regs : list (Z * Z)) : result (input * console * bool) :=
  consoleintr procdump inp k (uart_chars k regs).

Section Dump.
Context (ld : Z -> Z).

(** The chain of frames from [ebp]. *)
Fixpoint callers (n : nat) (ebp : Z) : list Z :=
  match n with
  | O => []
  | S n => if (ebp =? 0) || (ebp <? 2147483648) || (ebp =? 4294967295) then [] else u32 (ld (u32 (ebp + 4))) :: callers n (u32 (ld ebp))
  end.

Definition getcallerpcs (v : Z) : list Z :=
  let l := callers 10 (u32 (v - 8)) in l ++ replicate (10 - length l) 0.

Definition state_name (s : procstate) : bytes :=
  match s with
  | UNUSED => [117; 110; 117; 115; 101; 100]
  | EMBRYO => [101; 109; 98; 114; 121; 111]
  | SLEEPING => [115; 108; 101; 101; 112; 32]
  | RUNNABLE => [114; 117; 110; 98; 108; 101]
  | RUNNING => [114; 117; 110; 32; 32; 32]
  | ZOMBIE => [122; 111; 109; 98; 105; 101]
  end.

Definition state_arg : Z := 1.
Definition name_arg : Z := 2.

(** The characters of a string before its NUL. *)
Fixpoint chars (b : bytes) : result bytes :=
  match b with
  | [] => Err OutOfBounds
  | c :: b => if c =? 0 then Ok [] else let! s := chars b in Ok (c :: s)
  end.

Definition proc_str (p : proc) (a : Z) : result bytes :=
  if a =? state_arg then Ok (state_name (p_state p)) else if a =? name_arg then chars (p_name p) else Err OutOfBounds.

(** The formats of [procdump] and [panic]: [" %p"], ["%d %s %s"], ["\n"], ["cpu%d: panic: "]. *)
Definition pc_fmt : bytes := [32; 37; 112; 0].
Definition line_fmt : bytes := [37; 100; 32; 37; 115; 32; 37; 115; 0].
Definition end_fmt : bytes := [10; 0].
Definition panic_fmt : bytes := [99; 112; 117; 37; 100; 58; 32; 112; 97; 110; 105; 99; 58; 32; 0].

Fixpoint print_pcs (k : console) (pcs : list Z) : result console :=
  match pcs with
  | [] => Ok k
  | pc :: pcs => if pc =? 0 then Ok k else let! k := cprintf (fun _ => Err OutOfBounds) k (Some pc_fmt) [pc] in print_pcs k pcs
  end.

Definition dump_proc (k : console) (p : proc) : result console :=
  if is_state (p_state p) UNUSED then Ok k else
  let! k := cprintf (proc_str p) k (Some line_fmt) [p_pid p; state_arg; name_arg] in
  let! k := if is_state (p_state p) SLEEPING then print_pcs k (getcallerpcs (u32 (c_ebp (p_context p) + 8))) else Ok k in
  cprintf (proc_str p) k (Some end_fmt) [].

Fixpoint dump_procs (k : console) (ps : list proc) : result console :=
  match ps with
  | [] => Ok k
  | p :: ps => let! k := dump_proc k p in dump_procs k ps
  end.

Definition procdump (pt : ptable) (k : console) : result console := dump_procs k (procs pt).

Fixpoint print_all_pcs (k : console) (pcs : list Z) : result console :=
  match pcs with
  | [] => Ok k
  | pc :: pcs => let! k := cprintf (fun _ => Err OutOfBounds) k (Some pc_fmt) [pc] in print_all_pcs k pcs
  end.

(** [panic(s)] on the processor [id]: the console it leaves behind when it stops.
    [args] are the words that [cprintf(s)] would take for arguments, and [v] the
    address of [s]. *)
Definition panic (str : Z -> result bytes) (k : console) (id : Z) (s : bytes) (args : list Z) (v : Z) : result console :=
  let! k := cprintf str k (Some panic_fmt) [id] in
  let! k := cprintf str k (Some s) args in
  let! k := cprintf str k (Some end_fmt) [] in
  let! k := print_all_pcs k (getcallerpcs v) in
  Ok (mk_console (screen k) (uart k) (sent k) true).

(** * What is printed *)

Definition pcs_text (pcs : list Z) : bytes := concat ((fun pc => 32 :: text_of digits 8 16 (s32 pc) false) <$> pcs).

(** The return addresses up to the first that is 0. *)
Fixpoint nonzero (pcs : list Z) : list Z :=
  match pcs with
  | [] => []
  | pc :: pcs => if pc =? 0 then [] else pc :: nonzero pcs
  end.

(** The line of a process. *)
Definition proc_text (p : proc) (name : bytes) : bytes :=
  (text_of digits 10 10 (s32 (p_pid p)) true ++ 32 :: state_name (p_state p) ++ 32 :: name) ++
  (if is_state (p_state p) SLEEPING then pcs_text (nonzero (callers 10 (u32 (c_ebp (p_context p))))) else []) ++ [10].

(** The lines of the slots in use. *)
Fixpoint listing (ps : list proc) : result bytes :=
  match ps with
  | [] => Ok []
  | p :: ps =>
      if is_state (p_state p) UNUSED then listing ps else
      let! name := chars (p_name p) in let! rest := listing ps in Ok (proc_text p name ++ rest)
  end.

Lemma nonzero_pad l n : nonzero (l ++ replicate n 0) = nonzero l.
Proof. induction l as [|x l IH]; cbn; [by destruct n | by rewrite IH]. Qed.

Lemma cprintf_pc k pc : cprintf (fun _ => Err OutOfBounds) k (Some pc_fmt) [pc] = fold_chars consputc k (32 :: text_of digits 8 16 (s32 pc) false).
Proof.
  unfold cprintf. apply cprintf_render; [|done].
  change (render (fun _ => Err OutOfBounds) digits pc_fmt [pc]) with (Ok (32 :: text_of digits 8 16 (s32 pc) false ++ []) : result bytes). by rewrite app_nil_r.
Qed.

Lemma print_all_pcs_text pcs k : print_all_pcs k pcs = fold_chars consputc k (pcs_text pcs).
Proof.
  revert k. induction pcs as [|pc pcs IH]; intros k; [done|]. cbn [print_all_pcs]. change (pcs_text (pc :: pcs)) with ((32 :: text_of digits 8 16 (s32 pc) false) ++ pcs_text pcs).
  rewrite fold_chars_app, cprintf_pc. destruct (fold_chars _ _ _); [|done]. rewrite !rbind_ok. apply IH.
Qed.

Lemma print_pcs_text pcs k : print_pcs k pcs = fold_chars consputc k (pcs_text (nonzero pcs)).
Proof.
  rewrite <- print_all_pcs_text. revert k. induction pcs as [|pc pcs IH]; intros k; [done|]. cbn [print_pcs nonzero]. destruct (pc =? 0); [done|].
  cbn [print_all_pcs]. destruct (cprintf _ _ _ _); [|done]. rewrite !rbind_ok. apply IH.
Qed.

Lemma dump_proc_text k p name :
  is_state (p_state p) UNUSED = false -> chars (p_name p) = Ok name -> dump_proc k p = fold_chars consputc k (proc_text p name).
Proof.
  intros Hu Hn. unfold dump_proc. rewrite Hu. unfold cprintf.
  rewrite (cprintf_render (proc_str p) k line_fmt _ (text_of digits 10 10 (s32 (p_pid p)) true ++ 32 :: state_name (p_state p) ++ 32 :: name)); [|
    change (render (proc_str p) digits line_fmt [p_pid p; state_arg; name_arg]) with
      (let! r := (let! r := (let! r := (let! r := (let! s := chars (p_name p) in let! r := Ok [] in Ok (s ++ r)) in Ok (32 :: r)) in Ok (state_name (p_state p) ++ r)) in Ok (32 :: r)) in Ok (text_of digits 10 10 (s32 (p_pid p)) true ++ r));
    by rewrite Hn, !rbind_ok, app_nil_r | done].
  unfold proc_text. set (s1 := text_of _ _ _ _ _ ++ _). rewrite fold_chars_app. destruct (fold_chars _ k s1) as [k1|]; [|done]. rewrite !rbind_ok, fold_chars_app.
  assert ((if is_state (p_state p) SLEEPING then print_pcs k1 (getcallerpcs (u32 (c_ebp (p_context p) + 8))) else Ok k1) =
    fold_chars consputc k1 (if is_state (p_state p) SLEEPING then pcs_text (nonzero (callers 10 (u32 (c_ebp (p_context p))))) else [])) as ->.
  { destruct (is_state _ SLEEPING); [|done]. rewrite print_pcs_text. unfold getcallerpcs. rewrite nonzero_pad. do 4 f_equal. unfold u32. rewrite Zminus_mod_idemp_l. f_equal. lia. }
  destruct (fold_chars _ k1 _) as [k2|]; [|done]. rewrite !rbind_ok. by apply cprintf_render.
Qed.

Lemma dump_procs_text ps k s : listing ps = Ok s -> dump_procs k ps = fold_chars consputc k s.
Proof.
  revert k s. induction ps as [|p ps IH]; intros k s; cbn [listing dump_procs]; [intros [= <-]; done|].
  destruct (is_state (p_state p) UNUSED) eqn:Eu; intros H; [unfold dump_proc; rewrite Eu, rbind_ok; by apply IH|].
  rinv H. rinv H. injection H as <-. erewrite dump_proc_text by done. rewrite fold_chars_app. destruct (fold_chars _ _ _); [|done]. rewrite !rbind_ok. by apply IH.
Qed.

Lemma fold_chars_safe s k : console_ok k -> exists k', fold_chars consputc k s = Ok k' /\ console_ok k'.
Proof.
  revert k. induction s as [|c s IH]; intros k Hk; cbn [fold_chars]; [by exists k|]. destruct (consputc_safe k c Hk) as (k1 & -> & H1). rewrite rbind_ok. by apply IH.
Qed.

(** A name that ends. *)
Definition name_ok (p : proc) : Prop := exists s, chars (p_name p) = Ok s.

Lemma listing_ok ps : Forall name_ok ps -> exists s, listing ps = Ok s.
Proof.
  induction 1 as [|p ps [s Hs] _ [t Ht]]; cbn [listing]; [by eexists|]. destruct (is_state _ _); [by eexists|]. rewrite Hs, rbind_ok, Ht, rbind_ok. by eexists.
Qed.

(** [procdump] is what [consoleintr] expects of it. *)
Lemma procdump_safe pt k : Forall name_ok (procs pt) -> console_ok k -> exists k', procdump pt k = Ok k' /\ console_ok k'.
Proof. intros Hn Hk. destruct (listing_ok _ Hn) as [s Hs]. unfold procdump. rewrite (dump_procs_text _ _ s Hs). by apply fold_chars_safe. Qed.

(** [panic] prints its message and the call stack and stops all later output. *)
Lemma panic_prints str k id s args v text :
  render str digits s args = Ok text -> no_char s = true -> console_ok k ->
  exists k', panic str k id s args v = Ok (mk_console (screen k') (uart k') (sent k') true) /\
    fold_chars consputc k ([99; 112; 117] ++ text_of digits 10 10 (s32 id) true ++ [58; 32; 112; 97; 110; 105; 99; 58; 32] ++ text ++ [10] ++ pcs_text (getcallerpcs v)) = Ok k'.
Proof.
  intros Hr Hn Hk. unfold panic, cprintf.
  rewrite (cprintf_render str k panic_fmt [id] ([99; 112; 117] ++ text_of digits 10 10 (s32 id) true ++ [58; 32; 112; 97; 110; 105; 99; 58; 32])) by done.
  replace ([99; 112; 117] ++ text_of digits 10 10 (s32 id) true ++ [58; 32; 112; 97; 110; 105; 99; 58; 32] ++ text ++ [10] ++ pcs_text (getcallerpcs v))
    with (([99; 112; 117] ++ text_of digits 10 10 (s32 id) true ++ [58; 32; 112; 97; 110; 105; 99; 58; 32]) ++ text ++ [10] ++ pcs_text (getcallerpcs v)) by (by rewrite <- !app_assoc).
  destruct (fold_chars_safe ([99; 112; 117] ++ text_of digits 10 10 (s32 id) true ++ [58; 32; 112; 97; 110; 105; 99; 58; 32]) k Hk) as (k1 & E1 & H1). rewrite E1, fold_chars_app, E1, !rbind_ok, fold_chars_app.
  rewrite (cprintf_render str k1 s args text) by done. destruct (fold_chars_safe text k1 H1) as (k2 & -> & H2). rewrite !rbind_ok, fold_chars_app.
  rewrite (cprintf_render str k2 end_fmt [] [10]) by done. destruct (fold_chars_safe [10] k2 H2) as (k3 & -> & H3). rewrite !rbind_ok, print_all_pcs_text.
  destruct (fold_chars_safe (pcs_text (getcallerpcs v)) k3 H3) as (k4 & -> & H4). rewrite rbind_ok. by exists k4.
Qed.
End Dump.

(** the process listing of Ctrl-P: for every slot in use a line with its pid, its
    state, its name and, when it sleeps, its call stack goes to the serial line and to
    the screen. *)
Theorem procdump_prints ld pt k t s :
  shows (screen k) t -> panicked k = false -> uart k = true -> listing ld (procs pt) = Ok s -> Forall (fun c => 0 <= c < 256) s ->
  exists k', procdump ld pt k = Ok k' /\ sent k' = sent k ++ s /\ shows (screen k') (tape_puts t s).
Proof.
  intros Hs Hp Hu Hl HF. unfold procdump. rewrite (dump_procs_text ld _ k s Hl). destruct (consputs_shows s k t Hs Hp Hu HF) as (k' & E & H1 & _ & _ & H4). by exists k'.
Qed.
