(* ===== verification/Mkfs.v ===== *)
(** The builder of the disk image: src/src/mkfs.c.

    The image is a file of sectors: [img] gives its sectors, the holes of the file
    being zero, and [len] is its length in sectors.  The input files are given with
    the pieces in which [read] returns them.  A failed assertion and an [exit(1)]
    are [Panic]; what the program prints is left out. *)
From S2P Require Import Prelude Ulib Sys Fs.

(** * Numbers in intel byte order *)

Definition xshort (x : Z) : Z := u8 x + 256 * u8 (x / 256).
Definition xint (x : Z) : Z := u8 x + 256 * u8 (x / 256) + 65536 * u8 (x / 65536) + 16777216 * u8 (x / 16777216).

(** * The image *)

Definition nblocks : Z := 985 + 1024 + 2048.
Definition nlog : Z := 10.
Definition ninodes : Z := 200.
Definition fssize : Z := 4272.

Record mkfs := mk_mkfs { img : Z -> bytes; len : Z; freeblock : Z; usedblocks : Z; freeinode : Z }.

Definition zeroes : bytes := replicate 512 0.

Definition wsect (m : mkfs) (sec : Z) (buf : bytes) : mkfs :=
  mk_mkfs (fun s => if s =? sec then buf else img m s) (Z.max (len m) (sec + 1)) (freeblock m) (usedblocks m) (freeinode m).

Definition rsect (m : mkfs) (sec : Z) : result bytes := if sec <? len m then Ok (img m sec) else Err Panic.

Definition i2b (inum : Z) : Z := inum / IPB + 2.

(** * Inodes *)

Record dinode := mk_dinode { d_type : Z; d_major : Z; d_minor : Z; d_nlink : Z; d_size : Z; d_addrs : list Z }.

Definition set_daddrs (v : list Z) (d : dinode) : dinode := mk_dinode (d_type d) (d_major d) (d_minor d) (d_nlink d) (d_size d) v.
Definition set_dsize (v : Z) (d : dinode) : dinode := mk_dinode (d_type d) (d_major d) (d_minor d) (d_nlink d) v (d_addrs d).

(** [*dip = *ip] and [*ip = *dip], [dip] being at offset [o] of [buf]. *)
Definition put_dinode (buf : bytes) (o : Z) (d : dinode) : result bytes :=
  let! buf := wr16 buf o (d_type d) in
  let! buf := wr16 buf (o + 2) (d_major d) in
  let! buf := wr16 buf (o + 4) (d_minor d) in
  let! buf := wr16 buf (o + 6) (d_nlink d) in
  let! buf := wr32 buf (o + 8) (d_size d) in
  put_addrs buf (o + 12) (d_addrs d).

Definition get_dinode (buf : bytes) (o : Z) : result dinode :=
  let! type := rd16 buf o in
  let! major := rd16 buf (o + 2) in
  let! minor := rd16 buf (o + 4) in
  let! nlink := rd16 buf (o + 6) in
  let! size := rd32 buf (o + 8) in
  let! addrs := get_addrs buf (o + 12) in
  Ok (mk_dinode (s16 type) (s16 major) (s16 minor) (s16 nlink) size addrs).

Definition winode (m : mkfs) (inum : Z) (ip : dinode) : result mkfs :=
  let bn := i2b inum in
  let! buf := rsect m bn in
  let! buf := put_dinode buf ((inum mod IPB) * sizeof_dinode) ip in
  Ok (wsect m bn buf).

Definition rinode (m : mkfs) (inum : Z) : result dinode :=
  let! buf := rsect m (i2b inum) in
  get_dinode buf ((inum mod IPB) * sizeof_dinode).

Definition mk_ialloc (m : mkfs) (type : Z) : result (mkfs * Z) :=
  let inum := freeinode m in
  let m := mk_mkfs (img m) (len m) (freeblock m) (usedblocks m) (inum + 1) in
  let! m := winode m inum (mk_dinode (s16 (xshort type)) 0 0 (xshort 1) (xint 0) (replicate 125 0)) in
  Ok (m, inum).

(** * Appending to a file *)

(** [xint(freeblock++); usedblocks++]. *)
Definition new_block (m : mkfs) : mkfs * Z :=
  (mk_mkfs (img m) (len m) (freeblock m + 1) (usedblocks m + 1) (freeinode m), xint (freeblock m)).

(** The block of [din] for slot [n] of [addrs], allocated if there is none. *)
Definition addr_block (m : mkfs) (din : dinode) (n : Z) : result (mkfs * dinode * Z) :=
  let! a := get (d_addrs din) n in
  if xint a =? 0 then
    let '(m, a) := new_block m in
    let! l := put (d_addrs din) n a in Ok (m, set_daddrs l din, xint a)
  else Ok (m, din, xint a).

(** The same of block [fbn] of the file. *)
Definition file_block (m : mkfs) (din : dinode) (fbn : Z) : result (mkfs * dinode * Z) :=
  if fbn <? NDIRECT then addr_block m din fbn
  else
    let! '(m, din, ind) := addr_block m din NDIRECT in
    let! indirect := rsect m ind in
    let! a := rd32 indirect (4 * (fbn - NDIRECT)) in
    if a =? 0 then
      let '(m, a) := new_block m in
      let! indirect := wr32 indirect (4 * (fbn - NDIRECT)) a in
      Ok (wsect m ind indirect, din, xint a)
    else Ok (m, din, xint a).

(** [n] bytes of [p] from [tot] on are left; every round copies at least one. *)
Fixpoint iappend_loop (fuel : nat) (m : mkfs) (din : dinode) (p : bytes) (tot off n : Z) : result (mkfs * dinode * Z) :=
  if n <=? 0 then Ok (m, din, off) else
  match fuel with
  | O => Err OutOfFuel
  | S fuel' =>
      let fbn := off / BSIZE in
      if negb (fbn <? MAXFILE) then Err Panic else
      let! '(m, din, x) := file_block m din fbn in
      let n1 := Z.min n ((fbn + 1) * BSIZE - off) in
      let! buf := rsect m x in
      let! buf := memmove buf (off - fbn * BSIZE) p tot n1 in
      iappend_loop fuel' (wsect m x buf) din p (tot + n1) (off + n1) (n - n1)
  end.

Definition iappend (m : mkfs) (inum : Z) (p : bytes) (n : Z) : result mkfs :=
  let! din := rinode m inum in
  let off := xint (d_size din) in
  let! '(m, din, off) := iappend_loop (Z.to_nat n) m din p 0 off n in
  winode m inum (set_dsize (xint off) din).

(** * The bitmap *)

Definition mk_balloc (m : mkfs) (used : Z) : result mkfs :=
  if negb (used <? BSIZE * 8) then Err Panic else
  let! buf := for_up 0 used (fun i buf => let! x := get buf (i / 8) in put buf (i / 8) (u8 (Z.lor x (Z.shiftl 1 (i mod 8))))) zeroes in
  Ok (wsect m (ninodes / IPB + 3) buf).

(** * The program *)

(** A cleared [struct dirent] with the inode number and the name; [strcpy] of ["."] and
    [".."] fills the cells like [strncpy]. *)
Definition mk_dirent (inum : Z) (name : bytes) : result bytes :=
  let! de := wr16 (replicate 16 0) 0 (xshort inum) in
  Kstring.strncpy de 2 name DIRSIZ.

(** An input file: its name, ended by a NUL, and what the calls of [read] return
    before 0. *)
Record infile := mk_infile { f_name : bytes; f_reads : list bytes }.

Fixpoint append_reads (m : mkfs) (inum : Z) (reads : list bytes) : result mkfs :=
  match reads with
  | [] => Ok m
  | buf :: reads => let! m := iappend m inum buf (zlen buf) in append_reads m inum reads
  end.

(** [if (argv[i][0] == '_') ++argv[i]]. *)
Definition strip (name : bytes) : bytes := match name with c :: name' => if c =? 95 then name' else name | [] => name end.

Definition add_file (m : mkfs) (rootino : Z) (f : infile) : result mkfs :=
  if bool_decide (47 ∈ f_name f) then Err Panic else
  let name := strip (f_name f) in
  let! '(m, inum) := mk_ialloc m T_FILE in
  let! de := mk_dirent inum name in
  let! m := iappend m rootino de sizeof_dirent in
  append_reads m inum (f_reads f).

Fixpoint add_files (m : mkfs) (rootino : Z) (fs : list infile) : result mkfs :=
  match fs with
  | [] => Ok m
  | f :: fs => let! m := add_file m rootino f in add_files m rootino fs
  end.

(** [open] of the image and the loop that clears it. *)
Definition blank_image (used : Z) : mkfs :=
  mk_mkfs (fun _ => zeroes) (nblocks + used + nlog) used used 1.

Definition super_block : result bytes :=
  let! buf := wr32 zeroes 0 (xint fssize) in
  let! buf := wr32 buf 4 (xint nblocks) in
  let! buf := wr32 buf 8 (xint ninodes) in
  wr32 buf 12 (xint nlog).

Definition fix_root (m : mkfs) (rootino : Z) : result mkfs :=
  let! din := rinode m rootino in
  let off := xint (d_size din) in
  let off := (off / BSIZE + 1) * BSIZE in
  winode m rootino (set_dsize (xint off) din).

Definition mkfs_main (fs : list infile) : result mkfs :=
  let bitblocks := fssize / (BSIZE * 8) + 1 in
  let used := ninodes / IPB + 3 + bitblocks in
  if negb (nblocks + used + nlog =? fssize) then Err Panic else
  let m := blank_image used in
  let! buf := super_block in
  let m := wsect m 1 buf in
  let! '(m, rootino) := mk_ialloc m T_DIR in
  if negb (rootino =? ROOTINO) then Err Panic else
  let! de := mk_dirent rootino [46; 0] in
  let! m := iappend m rootino de sizeof_dirent in
  let! de := mk_dirent rootino [46; 46; 0] in
  let! m := iappend m rootino de sizeof_dirent in
  let! m := add_files m rootino fs in
  let! m := fix_root m rootino in
  mk_balloc m (usedblocks m).
