(* ===== verification/MkfsFile.v ===== *)
(** The image as a disk of the kernel's file system: a plain block device, the image
    with the bitmap that its counter of blocks stands for, and blocks that are taken
    from the end of those in use. *)
From stdpp Require Import gmap sets list_numbers.
From Stdlib Require Import FunctionalExtensionality.
From S2P Require Import Prelude Ulib Sys Fs FsBlock FsBmap FsRw FsDisk FsOps Mkfs.
Open Scope Z_scope.

#[local] Ltac Zify.zify_post_hook ::= Z.to_euclidean_division_equations.

(** * A plain disk *)

(** The file system of the image ends where the log begins. *)
Definition fshome : Z := 4262.
Definition mkfs_sb : superblock := mk_sb fssize nblocks ninodes nlog.

(** The sectors, and those written since the last transaction began. *)
Record pdisk := mk_pdisk { psect : Z -> bytes; touched : gset Z }.

Definition pwrite (σ : Z -> bytes) (s : Z) (b : bytes) : Z -> bytes := fun x => if x =? s then b else σ x.

#[export] Instance pdisk_dev : BlockDev pdisk := {|
  bread d _ s := Ok (psect d s);
  log_write d _ s b := Ok (mk_pdisk (pwrite (psect d) s b) ({[s]} ∪ touched d));
  begin_trans d := Ok (mk_pdisk (psect d) ∅);
  commit_trans d := Ok d;
|}.

Definition pdisk_ok (d : pdisk) : Prop := forall s, 0 <= s < fshome -> block_ok (psect d s).

#[export] Program Instance pdisk_laws : BlockLaws pdisk := {|
  dev_ok := pdisk_ok;
  home _ := fshome;
  sect := psect;
  active _ := true;
  logged := touched;
  quota _ := 1%nat;
|}.
Next Obligation. intros d s Hd Hs. by apply Hd. Qed.
Next Obligation. done. Qed.
Next Obligation.
  intros d s b Hd _ Hs Hb Hq. cbn. eexists. split; [done|]. cbn [psect touched]. split_and!; try done.
  - intros x Hx. cbn [psect]. unfold pwrite. destruct (x =? s); [done | by apply Hd].
  - unfold pwrite. by rewrite Z.eqb_refl.
  - intros x Hx Hne. unfold pwrite. by rewrite (proj2 (Z.eqb_neq _ _) Hne).
Qed.
Next Obligation. done. Qed.

Lemma mkfs_layout : layout mkfs_sb fshome.
Proof. unfold layout, dstart. vm_compute. intuition discriminate. Qed.

Lemma mkfs_dstart : dstart mkfs_sb = 205.
Proof. reflexivity. Qed.

Lemma mkfs_bitmaps s : s ∈ bitmaps mkfs_sb <-> 203 <= s <= 204.
Proof. rewrite elem_of_bitmaps. change (BBLOCK 0 (sb_ninodes mkfs_sb)) with 203. change (sb_size mkfs_sb / BPB) with 1. lia. Qed.

(** A fresh transaction may write any sector. *)
Lemma plain_room σ s : pdisk_ok (mk_pdisk σ ∅) -> room (mk_pdisk σ ∅) {[s]} 0.
Proof. intros H. split; [done|]. split; [done|]. cbn. split; [set_solver|]. by rewrite size_singleton. Qed.

(** * The image with its bitmap *)

(** The bitmap that marks the first [fb] blocks. *)
Definition bitmap_byte (fb k : Z) : Z := Z.ones (Z.max 0 (Z.min 8 (fb - 8 * k))).
Definition bitmap_sect (fb s : Z) : bytes := (fun k => bitmap_byte (fb - 4096 * (s - 203)) k) <$> seqZ 0 512.

Definition is_bitmap (s : Z) : bool := (203 <=? s) && (s <=? 204).

(** The image as the kernel will see it, if its blocks in use are those below [freeblock]. *)
Definition view (m : mkfs) : Z -> bytes := fun s => if is_bitmap s then bitmap_sect (freeblock m) s else img m s.
Definition vdisk (m : mkfs) : pdisk := mk_pdisk (view m) ∅.

Lemma is_bitmap_spec s : is_bitmap s = true <-> s ∈ bitmaps mkfs_sb.
Proof. unfold is_bitmap. rewrite mkfs_bitmaps, andb_true_iff, !Z.leb_le. done. Qed.

Lemma view_plain m s : s ∉ bitmaps mkfs_sb -> view m s = img m s.
Proof. intros H. unfold view. destruct (is_bitmap s) eqn:E; [|done]. by apply is_bitmap_spec in E. Qed.

Lemma byte_fmap f k : 0 <= k < 512 -> byte (f <$> seqZ 0 512) k = f k.
Proof.
  intros Hk. unfold byte. apply nth_lookup_Some. rewrite list_lookup_fmap, lookup_seqZ_lt by lia. cbn. do 2 f_equal. lia.
Qed.

Lemma bitmap_sect_ok fb s : block_ok (bitmap_sect fb s).
Proof.
  split; [unfold bitmap_sect; rewrite length_fmap, length_seqZ; reflexivity|]. apply Forall_fmap, Forall_forall. intros k _. cbn.
  unfold bitmap_byte, byte_ok. rewrite Z.ones_equiv. set (e := Z.max 0 _). assert (0 <= e <= 8) by (unfold e; lia).
  pose proof (Z.pow_pos_nonneg 2 e ltac:(lia) ltac:(lia)). pose proof (Z.pow_le_mono_r 2 e 8 ltac:(lia) ltac:(lia)). change (2 ^ 8) with 256 in *. lia.
Qed.

Lemma bit_bitmap fb b (σ : Z -> bytes) :
  0 <= b < 8192 -> σ (BBLOCK b 200) = bitmap_sect fb (BBLOCK b 200) -> bit mkfs_sb σ b = (b <? fb).
Proof.
  intros Hb E. unfold bit. change (sb_ninodes mkfs_sb) with 200. rewrite E. unfold bitmap_sect. rewrite BBLOCK_eq. change BPB with 4096.
  rewrite byte_fmap by lia. unfold bitmap_byte. rewrite Z.testbit_ones_nonneg by lia. apply Bool.eq_iff_eq_true. rewrite !Z.ltb_lt. lia.
Qed.

Lemma bit_view m b : 0 <= b < fssize -> bit mkfs_sb (view m) b = (b <? freeblock m).
Proof.
  unfold fssize. intros Hb. apply bit_bitmap; [lia|]. unfold view.
  rewrite (proj2 (is_bitmap_spec _)); [done|]. apply mkfs_bitmaps. rewrite BBLOCK_eq. lia.
Qed.

(** * Blocks *)

(** The part of the image that [iappend] keeps. *)
Record image_ok (m : mkfs) : Prop := {
  io_len : len m = fssize;
  io_free : 205 <= freeblock m <= fshome;
  io_used : usedblocks m = freeblock m;
  io_zero : forall s, freeblock m <= s < fssize -> img m s = zeros;
  io_block : forall s, 0 <= s < fshome -> block_ok (img m s);
  io_super : sb_at (img m) mkfs_sb;
  io_map2 : img m 204 = zeros;
}.

Lemma view_ok m : image_ok m -> pdisk_ok (vdisk m).
Proof. intros H s Hs. cbn. unfold view. destruct (is_bitmap s); [apply bitmap_sect_ok | by apply (io_block m H)]. Qed.

Lemma xint_id x : 0 <= x < 2 ^ 32 -> xint x = x.
Proof. unfold xint, u8. change (2 ^ 32) with 4294967296. change (2 ^ 8) with 256. lia. Qed.

Lemma rsect_ok m s : image_ok m -> 0 <= s < fshome -> rsect m s = Ok (img m s).
Proof. intros H Hs. unfold rsect. rewrite (io_len m H). unfold fssize, fshome in *. by rewrite (proj2 (Z.ltb_lt _ _)) by lia. Qed.

(** A write below the blocks not yet used. *)
Lemma wsect_ok m s b : image_ok m -> 1 < s < freeblock m -> s ∉ bitmaps mkfs_sb -> block_ok b -> image_ok (wsect m s b).
Proof.
  intros [H1 H2 H3 H4 H5 H6 H7] Hs Hn Hb. rewrite mkfs_bitmaps in Hn. unfold fssize, fshome in *. split; cbn [img len freeblock usedblocks wsect]; unfold fssize, fshome; try done.
  - rewrite H1. lia.
  - intros x Hx. rewrite (proj2 (Z.eqb_neq _ _)) by lia. by apply H4.
  - intros x Hx. destruct (x =? s); [done | by apply H5].
  - unfold sb_at. by rewrite (proj2 (Z.eqb_neq 1 s)) by lia.
  - by rewrite (proj2 (Z.eqb_neq 204 s)) by lia.
Qed.

Lemma view_wsect m s b : s ∉ bitmaps mkfs_sb -> view (wsect m s b) = pwrite (view m) s b.
Proof.
  intros Hs. apply functional_extensionality. intros x. unfold view, pwrite. cbn [img wsect freeblock]. destruct (Z.eqb_spec x s) as [->|]; [|done].
  destruct (is_bitmap s) eqn:E; [|done]. by apply is_bitmap_spec in E.
Qed.

(** Taking a block. *)
Definition bump (m : mkfs) : mkfs := mk_mkfs (img m) (len m) (freeblock m + 1) (usedblocks m + 1) (freeinode m).

Lemma new_block_ok m : image_ok m -> freeblock m < fshome ->
  new_block m = (bump m, freeblock m) /\ image_ok (bump m) /\ allocated mkfs_sb fshome (view m) (view (bump m)) (freeblock m).
Proof.
  intros [H1 H2 H3 H4 H5 H6 H7] Hf. pose proof mkfs_layout as Hlay. unfold fshome in *. split; [|split].
  - unfold new_block. rewrite xint_id by lia. done.
  - unfold bump. split; cbn [img len freeblock usedblocks]; unfold fshome; try done; [lia | lia |]. intros s Hs. apply H4. lia.
  - assert (freeblock m ∉ bitmaps mkfs_sb) as Hn by (rewrite mkfs_bitmaps; lia). split.
    + rewrite mkfs_dstart. lia.
    + rewrite bit_view by (unfold fssize; lia). apply Z.ltb_irrefl.
    + intros b Hb. change (sb_size mkfs_sb) with fssize in Hb. rewrite !bit_view by done. cbn [bump freeblock].
      destruct (Z.eqb_spec b (freeblock m)) as [->|]; [apply Z.ltb_lt; lia|]. apply Bool.eq_iff_eq_true. rewrite !Z.ltb_lt. lia.
    + rewrite view_plain by done. apply H4. unfold fssize. lia.
    + intros s Hs Hne Hbm. rewrite !view_plain by done. done.
Qed.

Lemma view_meta m : image_ok m -> geom mkfs_sb (vdisk m) /\ meta_used mkfs_sb (view m).
Proof.
  intros H. split; [split; [apply mkfs_layout | apply (io_super m H)]|]. intros b Hb. rewrite mkfs_dstart in Hb. rewrite bit_view by (unfold fssize; lia).
  pose proof (io_free m H). apply Z.ltb_lt. lia.
Qed.

Lemma view_file m i : image_ok m -> mapped mkfs_sb fshome (view m) i -> file_at mkfs_sb (vdisk m) i.
Proof. intros H Hm. destruct (view_meta m H). by split_and!. Qed.

(** [iappend] of mkfs.c: the file gets the bytes, in blocks taken one after the
    other, and every other file keeps what it has. *)

Open Scope Z_scope.

#[local] Ltac Zify.zify_post_hook ::= Z.to_euclidean_division_equations.

(** * The slots of a file without holes *)

(** Exactly the first [k] slots are in use. *)
Definition slots_used (σ : Z -> bytes) (i : inode) (k : Z) : Prop := forall n, 0 <= n < NSLOT -> slot σ i n <> 0 <-> n < k.

(** The slots of the first [nb] blocks, and of [sz] bytes. *)
Definition nslots (nb : Z) : Z := if nb <=? NDIRECT then nb else nb + 1.
Definition need (sz : Z) : Z := nslots ((sz + BSIZE - 1) / BSIZE).

(** The inode that a [dinode] is. *)
Definition node (inum : Z) (d : dinode) : inode :=
  mk_inode ROOTDEV inum 0 0 (d_type d) (d_major d) (d_minor d) (d_nlink d) (d_size d) (d_addrs d).

Lemma slots_extend m m' i i' n :
  image_ok m -> freeblock m < fshome -> freeblock m' = freeblock m + 1 ->
  slots_used (view m) i n -> 0 <= n < NSLOT -> mapped mkfs_sb fshome (view m') i' -> grown mkfs_sb fshome (view m) i (view m') i' ->
  slot (view m') i' n = freeblock m -> slots_used (view m') i' (n + 1).
Proof.
  intros Hi Hf Ef Hu Hn Hm Hg Es k Hk. pose proof (io_free m Hi) as Hfr. destruct (Z.eq_dec k n) as [->|Hne]; [rewrite Es; lia|].
  destruct (Z.eq_dec (slot (view m) i k) 0) as [E0|Hnz].
  - assert (~ k < n) as Hge by (intros H; by apply (Hu k Hk) in H). split; [|lia]. intros Hz. exfalso. apply Hne.
    destruct (g_fresh _ _ _ _ _ _ Hg k Hk E0 Hz) as [Hr Hb]. destruct (m_slot _ _ _ _ Hm k Hk Hz) as [_ Hb'].
    rewrite mkfs_dstart in Hr. unfold fshome in *. rewrite bit_view in Hb by (unfold fssize; lia). rewrite bit_view in Hb' by (unfold fssize; lia).
    apply Z.ltb_ge in Hb. apply Z.ltb_lt in Hb'. apply (m_inj _ _ _ _ Hm k n Hk Hn); [lia | done].
  - rewrite (g_old _ _ _ _ _ _ Hg) by done. apply (Hu k Hk) in Hnz as H. split; [lia | done].
Qed.

(** A new direct block, or the indirect block. *)
Lemma step_addr m i n :
  image_ok m -> freeblock m < fshome -> mapped mkfs_sb fshome (view m) i -> slots_used (view m) i n -> 0 <= n <= NDIRECT ->
  let i' := set_addrs (<[Z.to_nat n := freeblock m]> (i_addrs i)) i in
  mapped mkfs_sb fshome (view (bump m)) i' /\ grown mkfs_sb fshome (view m) i (view (bump m)) i' /\
  kept mkfs_sb fshome (view m) i (view (bump m)) /\ slots_used (view (bump m)) i' (n + 1) /\ addr i' n = freeblock m.
Proof.
  intros Hi Hf Hm Hu Hn i'. destruct (new_block_ok m Hi Hf) as (_ & Hi' & Ha).
  assert (addr i n = 0) as E0.
  { destruct (Z.eq_dec (addr i n) 0) as [|Hz]; [done|]. rewrite <- (slot_addr (view m)) in Hz by lia. apply Hu in Hz; [lia | consts; lia]. }
  destruct (extend_addr mkfs_sb fshome mkfs_layout (view m) i (view (bump m)) n (freeblock m)) as (H1 & H2 & H3 & H4); [done..|]. fold i' in H1, H2, H4.
  split; [done|]. split; [done|]. split; [done|]. split; [|by rewrite slot_addr in H4 by lia].
  apply (slots_extend m (bump m) i i' n); [done | done | done | done | consts; lia | done | done | done].
Qed.

(** A new entry of the indirect block. *)
Lemma step_entry m i j :
  image_ok m -> freeblock m < fshome -> mapped mkfs_sb fshome (view m) i -> slots_used (view m) i (NDIRECT + 1 + j) -> 0 <= j < NINDIRECT ->
  let ind := addr i NDIRECT in
  exists a, ind <> 0 /\ 4 < ind < freeblock m /\ rd32 (img m ind) (4 * j) = Ok 0 /\ wr32 (img m ind) (4 * j) (freeblock m) = Ok a /\
  let m' := wsect (bump m) ind a in
  image_ok m' /\ mapped mkfs_sb fshome (view m') i /\ grown mkfs_sb fshome (view m) i (view m') i /\
  kept mkfs_sb fshome (view m) i (view m') /\ slots_used (view m') i (NDIRECT + 1 + j + 1) /\ slot (view m') i (NDIRECT + 1 + j) = freeblock m.
Proof.
  intros Hi Hf Hm Hu Hj ind. destruct (new_block_ok m Hi Hf) as (_ & Hi' & Ha). pose proof mkfs_layout as Hlay.
  assert (slot (view m) i (NDIRECT + 1 + j) = 0) as E0.
  { destruct (Z.eq_dec (slot (view m) i (NDIRECT + 1 + j)) 0) as [|Hz]; [done|]. apply Hu in Hz; [lia | consts; lia]. }
  assert (ind <> 0) as Hind by (unfold ind; rewrite <- (slot_addr (view m)) by done; apply Hu; consts; lia).
  destruct (mapped_pos mkfs_sb fshome Hlay (view m) i NDIRECT Hm) as (P1 & P2 & P3); [consts; lia | by rewrite slot_addr|].
  rewrite slot_addr in P1, P2, P3 by done. fold ind in P1, P2, P3.
  assert (ind < freeblock m) as Hlt by (rewrite bit_view in P3 by (unfold fssize, fshome in *; lia); by apply Z.ltb_lt).
  destruct (io_block m Hi ind ltac:(lia)) as [Hl HF]. unfold BSIZE in Hl. destruct (wr32_stored (img m ind) (4 * j) (freeblock m)) as (a & Ea & Sa); [consts; lia..|].
  exists a. split; [done|]. split; [lia|]. split.
  { rewrite rd32_ok by (consts; lia). f_equal. revert E0. unfold slot. rewrite (proj2 (Z.leb_gt _ _)) by lia. fold ind. rewrite (proj2 (Z.eqb_neq _ _) Hind).
    rewrite view_plain by done. by replace (NDIRECT + 1 + j - NDIRECT - 1) with j by lia. }
  split; [done|]. intros m'.
  assert (block_ok a) as Hba by (eapply stored_block; [exact Sa | apply (io_block m Hi); lia]).
  assert (image_ok m') as Him by (apply wsect_ok; [done | cbn [bump freeblock]; lia | done | done]).
  assert (view m' = pwrite (view (bump m)) ind a) as Ev by (by apply view_wsect).
  destruct (extend_entry mkfs_sb fshome Hlay (view m) i (view (bump m)) (view m') j (freeblock m) a) as (H1 & H2 & H3 & H4); try done.
  { fold ind. by rewrite view_plain. }
  { rewrite Ev. unfold pwrite. fold ind. by rewrite Z.eqb_refl. }
  { intros s _ Hs. fold ind in Hs. rewrite Ev. unfold pwrite. by rewrite (proj2 (Z.eqb_neq _ _) Hs). }
  split; [done|]. split; [done|]. split; [done|]. split; [done|]. split; [|done].
  apply (slots_extend m m' i i); [done | done | done | done | consts; lia | done | done | done].
Qed.

(** * A block of the file *)

Lemma slot_small m i n :
  image_ok m -> mapped mkfs_sb fshome (view m) i -> 0 <= n < NSLOT -> slot (view m) i n <> 0 -> 4 < slot (view m) i n < freeblock m /\ slot (view m) i n ∉ bitmaps mkfs_sb.
Proof.
  intros Hi Hm Hn Hz. destruct (mapped_pos mkfs_sb fshome mkfs_layout (view m) i n Hm Hn Hz) as (P1 & P2 & P3).
  rewrite bit_view in P3 by (unfold fssize, fshome in *; lia). apply Z.ltb_lt in P3. split; [lia | done].
Qed.

Lemma addr_block_hit m inum din n :
  image_ok m -> mapped mkfs_sb fshome (view m) (node inum din) -> 0 <= n <= NDIRECT -> addr (node inum din) n <> 0 ->
  addr_block m din n = Ok (m, din, addr (node inum din) n).
Proof.
  intros Hi Hm Hn Hz. pose proof (m_len _ _ _ _ Hm) as Hl. cbn [node i_addrs] in Hl. unfold addr_block. rewrite get_byte by lia. rewrite rbind_ok.
  change (byte (d_addrs din) n) with (addr (node inum din) n). rewrite <- (slot_addr (view m)) in Hz |- * by lia.
  destruct (slot_small m _ n Hi Hm ltac:(consts; lia) Hz) as [P _]. pose proof (io_free m Hi). unfold fshome in *. rewrite xint_id by lia.
  by rewrite (proj2 (Z.eqb_neq _ _) Hz).
Qed.

Lemma addr_block_miss m inum din n :
  image_ok m -> freeblock m < fshome -> mapped mkfs_sb fshome (view m) (node inum din) -> 0 <= n <= NDIRECT -> addr (node inum din) n = 0 ->
  addr_block m din n = Ok (bump m, set_daddrs (<[Z.to_nat n := freeblock m]> (d_addrs din)) din, freeblock m).
Proof.
  intros Hi Hf Hm Hn Hz. pose proof (m_len _ _ _ _ Hm) as Hl. cbn [node i_addrs] in Hl. unfold addr_block. rewrite get_byte by lia. rewrite rbind_ok.
  change (byte (d_addrs din) n) with (addr (node inum din) n). rewrite Hz. change (xint 0 =? 0) with true. cbv iota.
  rewrite (proj1 (new_block_ok m Hi Hf)). cbv iota. rewrite put_ok by lia. rewrite rbind_ok. pose proof (io_free m Hi). unfold fshome in *. by rewrite xint_id by lia.
Qed.

(** What [file_block] leaves: the block [a] of [fbn], and the file with the blocks up to it. *)
Record got_block (m : mkfs) (i : inode) (fbn : Z) (m' : mkfs) (i' : inode) (a : Z) : Prop := {
  gb_image : image_ok m';
  gb_mapped : mapped mkfs_sb fshome (view m') i';
  gb_grown : grown mkfs_sb fshome (view m) i (view m') i';
  gb_kept : kept mkfs_sb fshome (view m) i (view m');
  gb_blk : a = blk (view m') i' fbn;
  gb_nz : a <> 0;
  gb_used : slots_used (view m') i' (nslots (fbn + 1));
  gb_inode : freeinode m' = freeinode m;
  gb_fresh : blk (view m) i fbn = 0 -> img m' a = zeros;
}.

Lemma entry_block m inum din fbn k :
  image_ok m -> mapped mkfs_sb fshome (view m) (node inum din) -> NDIRECT <= fbn < MAXFILE ->
  slots_used (view m) (node inum din) k -> k = fbn + 1 \/ k = fbn + 2 -> freeblock m + (fbn + 2 - k) <= fshome ->
  exists m' a, (let! indirect := rsect m (addr (node inum din) NDIRECT) in
     let! a := rd32 indirect (4 * (fbn - NDIRECT)) in
     if a =? 0 then
       let '(m, b) := new_block m in
       let! indirect := wr32 indirect (4 * (fbn - NDIRECT)) b in
       Ok (wsect m (addr (node inum din) NDIRECT) indirect, din, xint b)
     else Ok (m, din, xint a)) = Ok (m', din, a) /\
    got_block m (node inum din) fbn m' (node inum din) a /\ freeblock m' = freeblock m + (fbn + 2 - k).
Proof.
  intros Hi Hm Hb Hu Hk Hf. pose proof (io_free m Hi) as Hfr. unfold fshome in *. set (i := node inum din) in *.
  assert (nslots (fbn + 1) = fbn + 2) as En by (unfold nslots; destruct (Z.leb_spec (fbn + 1) NDIRECT); lia).
  assert (forall σ, blk σ i fbn = slot σ i (NDIRECT + 1 + (fbn - NDIRECT))) as Eb.
  { intros σ. unfold blk, bslot. rewrite (proj2 (Z.ltb_ge _ _)) by lia. f_equal. lia. }
  destruct Hk as [->| ->].
  - destruct (step_entry m i (fbn - NDIRECT)) as (a & P1 & P2 & P3 & P4 & P5 & P6 & P7 & P8 & P9 & P10); [done | unfold fshome; lia | done | by replace (NDIRECT + 1 + (fbn - NDIRECT)) with (fbn + 1) by lia | consts; lia|].
    rewrite rsect_ok by (unfold fshome; (done || lia)). rewrite rbind_ok, P3, rbind_ok, Z.eqb_refl. cbv iota.
    rewrite (proj1 (new_block_ok m Hi ltac:(unfold fshome; lia))). cbv iota. rewrite P4, rbind_ok, xint_id by lia.
    eexists _, (freeblock m). split; [done|]. split; [|cbn; lia]. split; try done; [by rewrite Eb | lia | rewrite En; by replace (fbn + 2) with (NDIRECT + 1 + (fbn - NDIRECT) + 1) by lia|].
    intros _. cbn [img wsect bump]. rewrite (proj2 (Z.eqb_neq _ _)) by lia. apply (io_zero m Hi). unfold fssize. lia.
  - assert (slot (view m) i (NDIRECT + 1 + (fbn - NDIRECT)) <> 0) as Hz by (apply Hu; consts; lia).
    assert (addr i NDIRECT <> 0) as Hz0 by (rewrite <- (slot_addr (view m)) by done; apply Hu; consts; lia).
    destruct (slot_small m i NDIRECT Hi Hm) as [P1 P2]; [consts; lia | by rewrite slot_addr|]. rewrite slot_addr in P1, P2 by done.
    destruct (slot_small m i (NDIRECT + 1 + (fbn - NDIRECT)) Hi Hm ltac:(consts; lia) Hz) as [Q1 _].
    rewrite rsect_ok by (unfold fshome; (done || lia)). rewrite rbind_ok. destruct (io_block m Hi (addr i NDIRECT) ltac:(unfold fshome; lia)) as [Hl _].
    rewrite rd32_ok by (consts; lia). rewrite rbind_ok.
    assert (w32 (img m (addr i NDIRECT)) (4 * (fbn - NDIRECT)) = slot (view m) i (NDIRECT + 1 + (fbn - NDIRECT))) as Es.
    { unfold slot. rewrite (proj2 (Z.leb_gt _ _)), (proj2 (Z.eqb_neq _ _) Hz0), view_plain by (done || lia). do 2 f_equal. lia. }
    rewrite Es, (proj2 (Z.eqb_neq _ _) Hz), xint_id by lia. eexists m, _. split; [done|]. split; [|lia].
    split; first [done | apply grown_refl | by rewrite Eb | by rewrite En | rewrite Eb; congruence].
Qed.

Lemma got_trans m1 i1 m2 i2 fbn m3 i3 a :
  image_ok m1 -> grown mkfs_sb fshome (view m1) i1 (view m2) i2 -> kept mkfs_sb fshome (view m1) i1 (view m2) -> freeinode m2 = freeinode m1 ->
  addr i2 NDIRECT = addr i1 NDIRECT \/ freeblock m1 <= addr i2 NDIRECT -> blk (view m2) i2 fbn = 0 -> got_block m2 i2 fbn m3 i3 a -> got_block m1 i1 fbn m3 i3 a.
Proof.
  intros Hi Hg Hk Ei Ha Hb0 [B1 B2 B3 B4 B5 B6 B7 B8 B9]. split; try done; [by eapply grown_trans; [apply mkfs_layout | |] | | congruence | intros _; by apply B9].
  intros s Hs Hbm Hb Hne. rewrite <- Hk by done. apply B4; [done | done | |].
  - apply (g_bits _ _ _ _ _ _ Hg); [unfold fshome in *; cbn; unfold fssize; lia | done].
  - intros ->. destruct Ha as [Ha|Ha]; [by apply Hne|]. exfalso. unfold fshome in Hs. rewrite bit_view in Hb by (unfold fssize; lia). apply Z.ltb_lt in Hb. lia.
Qed.

Lemma file_block_ok m inum din fbn nb :
  image_ok m -> mapped mkfs_sb fshome (view m) (node inum din) -> 0 <= fbn < MAXFILE -> slots_used (view m) (node inum din) (nslots nb) ->
  nb = fbn \/ nb = fbn + 1 -> freeblock m + (nslots (fbn + 1) - nslots nb) <= fshome ->
  exists m' din' a, file_block m din fbn = Ok (m', din', a) /\ got_block m (node inum din) fbn m' (node inum din') a /\
    freeblock m' = freeblock m + (nslots (fbn + 1) - nslots nb) /\ din' = set_daddrs (d_addrs din') din.
Proof.
  intros Hi Hm Hb Hu Hnb Hf. pose proof (m_len _ _ _ _ Hm) as Hl. cbn [node i_addrs] in Hl. unfold file_block.
  assert (din = set_daddrs (d_addrs din) din) as Ed by (by destruct din).
  destruct (Z.ltb_spec fbn NDIRECT) as [Hlt|Hge].
  - assert (forall σ i, blk σ i fbn = addr i fbn) as Eb by (intros; unfold blk, bslot; rewrite (proj2 (Z.ltb_lt _ _)) by lia; apply slot_addr; lia).
    assert (nslots (fbn + 1) = fbn + 1) as En by (unfold nslots; by rewrite (proj2 (Z.leb_le _ _)) by lia).
    assert (nslots nb = nb) as En' by (unfold nslots; by rewrite (proj2 (Z.leb_le _ _)) by lia). rewrite En, En' in *. destruct Hnb as [->| ->].
    + assert (addr (node inum din) fbn = 0) as E0.
      { destruct (Z.eq_dec (addr (node inum din) fbn) 0) as [|Hz]; [done|]. rewrite <- (slot_addr (view m)) in Hz by lia. apply Hu in Hz; [lia | consts; lia]. }
      destruct (step_addr m (node inum din) fbn) as (P1 & P2 & P3 & P4 & P5); [done | lia | done | done | lia|].
      rewrite (addr_block_miss m inum) by (done || lia). eexists _, _, _. split; [done|]. destruct (new_block_ok m Hi ltac:(lia)) as (_ & Hi' & _).
      pose proof (io_free m Hi). split; [|cbn; split; [lia | done]]. split; try done; [by rewrite Eb | lia | by rewrite En|].
      intros _. apply (io_zero m Hi). unfold fssize, fshome in *. lia.
    + assert (addr (node inum din) fbn <> 0) as Hz by (rewrite <- (slot_addr (view m)) by lia; apply Hu; consts; lia).
      rewrite (addr_block_hit m inum) by (done || lia). eexists m, din, _. split; [done|]. split; [|split; [lia | done]].
      split; first [done | apply grown_refl | by rewrite Eb | by rewrite En | rewrite Eb; congruence].
  - assert (nslots (fbn + 1) = fbn + 2) as En by (unfold nslots; destruct (Z.leb_spec (fbn + 1) NDIRECT); lia). rewrite En in *.
    destruct (Z.eq_dec nb NDIRECT) as [->|Hne].
    + assert (fbn = NDIRECT) as -> by lia. change (nslots NDIRECT) with NDIRECT in *.
      assert (addr (node inum din) NDIRECT = 0) as E0.
      { destruct (Z.eq_dec (addr (node inum din) NDIRECT) 0) as [|Hz]; [done|]. rewrite <- (slot_addr (view m)) in Hz by lia. apply Hu in Hz; [lia | consts; lia]. }
      destruct (step_addr m (node inum din) NDIRECT) as (P1 & P2 & P3 & P4 & P5); [done | lia | done | done | consts; lia|].
      rewrite (addr_block_miss m inum) by (done || consts; lia). rewrite rbind_ok. destruct (new_block_ok m Hi ltac:(lia)) as (_ & Hi' & _).
      set (din1 := set_daddrs _ din). destruct (entry_block (bump m) inum din1 NDIRECT (NDIRECT + 1)) as (m' & a & E & G & F); [done | done | consts; lia | done | lia | cbn; lia|].
      change (addr (node inum din1) NDIRECT) with (addr (set_addrs (<[Z.to_nat NDIRECT:=freeblock m]> (i_addrs (node inum din))) (node inum din)) NDIRECT) in E. rewrite P5 in E.
      exists m', din1, a. split; [exact E|]. split; [|split; [rewrite F; cbn; lia | done]]. eapply got_trans; [done | exact P2 | exact P3 | done | | | exact G]; [|].
      2:{ destruct (Z.eq_dec (blk (view (bump m)) (node inum din1) NDIRECT) 0) as [|Hz]; [done|]. apply (P4 125) in Hz; [consts; lia | consts; lia]. }
      right. change (addr (node inum din1) NDIRECT) with (addr (set_addrs (<[Z.to_nat NDIRECT:=freeblock m]> (i_addrs (node inum din))) (node inum din)) NDIRECT). lia.
    + assert (nslots nb = nb + 1) as En' by (unfold nslots; destruct (Z.leb_spec nb NDIRECT); lia). rewrite En' in *.
      assert (addr (node inum din) NDIRECT <> 0) as Hz by (rewrite <- (slot_addr (view m)) by lia; apply Hu; consts; lia).
      rewrite (addr_block_hit m inum) by (done || consts; lia). rewrite rbind_ok.
      destruct (entry_block m inum din fbn (nb + 1)) as (m' & a & E & G & F); [done | done | lia | done | lia | lia|].
      exists m', din, a. split; [exact E|]. split; [done|]. split; [lia | done].
Qed.

(** * Appending *)

Lemma nslots_mono a b : a <= b -> nslots a <= nslots b.
Proof. unfold nslots. destruct (Z.leb_spec a NDIRECT), (Z.leb_spec b NDIRECT); lia. Qed.

Lemma need_mono a b : a <= b -> need a <= need b.
Proof. intros H. apply nslots_mono. consts. lia. Qed.

Lemma set_daddrs_trans d1 d2 d3 : d2 = set_daddrs (d_addrs d2) d1 -> d3 = set_daddrs (d_addrs d3) d2 -> d3 = set_daddrs (d_addrs d3) d1.
Proof. intros -> H. etrans; [exact H|]. done. Qed.

(** The bytes from [off] to the end of the last block are zero. *)
Definition tail_zero (σ : Z -> bytes) (i : inode) (off : Z) : Prop :=
  forall k, off <= k < MAXFILE * BSIZE -> blk σ i (k / BSIZE) <> 0 -> fbyte σ i k = 0.

(** A round keeps that. *)
Lemma round_tail m m1 i i1 a bp p tot off n1 :
  image_ok m -> 0 <= off -> 0 < n1 -> off mod BSIZE + n1 <= BSIZE -> off / BSIZE < MAXFILE -> 0 <= tot -> tot + n1 <= zlen p ->
  got_block m i (off / BSIZE) m1 i1 a -> a ∉ bitmaps mkfs_sb -> 0 <= a < fshome -> memmove (img m1 a) (off mod BSIZE) p tot n1 = Ok bp ->
  (forall n, slot (view (wsect m1 a bp)) i1 n = slot (view m1) i1 n) -> wrote (view m) i (view (wsect m1 a bp)) i1 off n1 p tot ->
  tail_zero (view m) i off -> tail_zero (view (wsect m1 a bp)) i1 (off + n1).
Proof.
  intros Hi Ho Hn1 Hfit Hmax Ht Hp [B1 B2 B3 B4 B5 B6 B7 B8 B9] Hnb Hr Ebp Hsl Hw Htz k Hk Hz. set (m2 := wsect m1 a bp) in *.
  assert (0 <= k / BSIZE < MAXFILE) as Hkb by (consts; lia). destruct (bslot_range _ Hkb) as [Hs1 Hs2].
  assert (k / BSIZE = off / BSIZE) as Ek.
  { assert (k / BSIZE < off / BSIZE + 1); [|consts; lia]. unfold blk in Hz. rewrite Hsl in Hz. apply (B7 _ Hs1) in Hz. revert Hz. unfold nslots, bslot.
    destruct (Z.ltb_spec (k / BSIZE) NDIRECT), (Z.leb_spec (off / BSIZE + 1) NDIRECT); lia. }
  destruct (Z.eq_dec (blk (view m) i (k / BSIZE)) 0) as [E0|Hnz].
  - rewrite Ek in E0. unfold fbyte. rewrite Ek. unfold blk. rewrite Hsl. fold (blk (view m1) i1 (off / BSIZE)). rewrite <- B5, view_plain by done.
    unfold m2. cbn [img wsect]. rewrite Z.eqb_refl. destruct (io_block m1 B1 a Hr) as [Hl _].
    destruct (ensures_inv _ _ (memmove_copied (img m1 a) (off mod BSIZE) p tot n1 ltac:(lia) ltac:(consts; lia) ltac:(consts; lia) Ht Hp)) as (bp' & E' & Hcp).
    rewrite Ebp in E'. injection E' as <-. rewrite (copied_byte _ _ _ _ _ _ (k mod BSIZE) Hcp) by (consts; lia).
    rewrite (proj2 (Z.ltb_ge _ _)) by (consts; lia). rewrite andb_false_r, (B9 E0). apply byte_zeros.
  - destruct (Hw k ltac:(lia)) as [_ H2]. destruct (H2 ltac:(lia) Hnz) as [_ ->]. apply Htz; [lia | done].
Qed.

Lemma iappend_loop_ok fuel m inum din p tot off n :
  image_ok m -> mapped mkfs_sb fshome (view m) (node inum din) -> slots_used (view m) (node inum din) (need off) ->
  0 <= off -> 0 <= n -> off + n <= MAXFILE * BSIZE -> 0 <= tot -> tot + n <= zlen p -> Forall byte_ok p -> (Z.to_nat n <= fuel)%nat ->
  freeblock m + (need (off + n) - need off) <= fshome ->
  exists m' din', iappend_loop fuel m din p tot off n = Ok (m', din', off + n) /\ image_ok m' /\
    mapped mkfs_sb fshome (view m') (node inum din') /\ grown mkfs_sb fshome (view m) (node inum din) (view m') (node inum din') /\
    wrote (view m) (node inum din) (view m') (node inum din') off n p tot /\ slots_used (view m') (node inum din') (need (off + n)) /\
    freeblock m' = freeblock m + (need (off + n) - need off) /\ freeinode m' = freeinode m /\ din' = set_daddrs (d_addrs din') din /\
    (tail_zero (view m) (node inum din) off -> tail_zero (view m') (node inum din') (off + n)).
Proof.
  revert m din tot off n. induction fuel as [|fuel IH]; intros m din tot off n Hi Hm Hu Ho Hn Hmax Ht Hp HF Hfuel Hfb; cbn [iappend_loop];
    (destruct (Z.leb_spec n 0) as [Hz|Hz];
     [assert (n = 0) as -> by lia; rewrite Z.add_0_r in *; exists m, din; split_and!; try done; [apply grown_refl | intros q Hq; split; [lia | done] | lia | by destruct din]|]); [lia|].
  set (fbn := off / BSIZE) in *. assert (0 <= fbn < MAXFILE) as Hb by (unfold fbn; consts; lia). rewrite (proj2 (Z.ltb_lt _ _)) by lia. cbn [negb].
  set (n1 := Z.min n ((fbn + 1) * BSIZE - off)). assert (0 < n1 <= n /\ off mod BSIZE + n1 <= BSIZE /\ off - fbn * BSIZE = off mod BSIZE) as (Hn1 & Hfit & Em) by (unfold n1, fbn; consts; lia).
  set (nb := (off + BSIZE - 1) / BSIZE). assert (nb = fbn \/ nb = fbn + 1) as Hnb by (unfold nb, fbn; consts; lia).
  assert (need off = nslots nb) as E0 by done. assert (need (off + n1) = nslots (fbn + 1)) as E1 by (unfold need; f_equal; unfold n1, fbn in *; consts; lia).
  pose proof (need_mono (off + n1) (off + n) ltac:(lia)) as Hmono.
  destruct (file_block_ok m inum din fbn nb) as (m1 & din1 & a & -> & Hgot & Hf1 & Ed1); [done | done | done | by rewrite <- E0 | done | lia|].
  rewrite rbind_ok. set (i := node inum din) in *. set (i1 := node inum din1) in *. pose proof Hgot as [B1 B2 B3 B4 B5 B6 B7 B8 _].
  destruct (block_write mkfs_sb (vdisk m) i (vdisk m1) i1 {[a]} 0 p off n1 tot) as (bp & d' & Ebp & Hbp & Hpos & Ew & _ & F2 & _ & Hg2 & Hw & Hsl & _);
    [by apply view_file | by apply view_file | done | done | done | consts; lia | lia | lia | lia | lia | done | change (blk (view m1) i1 fbn <> 0); by rewrite <- B5 | change (blk (view m1) i1 fbn ∈ ({[a]} : gset Z)); rewrite <- B5; set_solver | apply plain_room, (view_ok m1 B1) |].
  cbn [sect pdisk_laws vdisk psect home] in *. change (off / BSIZE) with fbn in Ebp, Hpos, Ew. rewrite <- B5 in Ebp, Hpos, Ew.
  pose proof Hb as Hb'. destruct (bslot_range fbn Hb') as [Hs1 _]. destruct (slot_small m1 i1 (bslot fbn) B1 B2 Hs1) as [Q1 Q2]; [change (blk (view m1) i1 fbn <> 0); by rewrite <- B5|].
  change (slot (view m1) i1 (bslot fbn)) with (blk (view m1) i1 fbn) in Q1, Q2. rewrite <- B5 in Q1, Q2. pose proof (io_free m1 B1) as Hfr1.
  rewrite rsect_ok by (unfold fshome in *; (done || lia)). rewrite rbind_ok, Em. rewrite (view_plain m1 a Q2) in Ebp. rewrite Ebp, rbind_ok.
  injection Ew as <-. cbn [psect] in *. set (m2 := wsect m1 a bp). assert (view m2 = pwrite (view m1) a bp) as Ev by (by apply view_wsect). rewrite <- Ev in *.
  assert (image_ok m2) as Hi2 by (apply wsect_ok; [done | lia | done | done]).
  destruct (IH m2 din1 (tot + n1) (off + n1) (n - n1)) as (m3 & din3 & E3 & G1 & G2 & G3 & G4 & G5 & G6 & G7 & G8 & G9);
    [done | apply F2 | | lia | lia | lia | lia | lia | done | lia | |].
  { intros q Hq. fold i1. rewrite Hsl, E1. by apply B7. }
  { replace (off + n1 + (n - n1)) with (off + n) by lia. change (freeblock m2) with (freeblock m1). lia. }
  exists m3, din3. replace (off + n1 + (n - n1)) with (off + n) in * by lia. split; [done|]. split; [done|]. split; [done|].
  split; [by eapply grown_trans; [apply mkfs_layout | |]|]. split; [eapply wrote_app; [exact Hw | exact G4 | lia | lia | lia]|]. split; [done|].
  change (freeblock m2) with (freeblock m1) in G6. change (freeinode m2) with (freeinode m1) in G7. split; [lia|]. split; [congruence|]. split; [by eapply set_daddrs_trans|].
  intros Htz. apply G9. by eapply (round_tail m m1 i); try done; try lia.
Qed.
