(* ===== verification/MkfsInv.v ===== *)
(** The inodes of the image: [ialloc], [iappend] and the invariant of mkfs.c. *)
From stdpp Require Import gmap sets list_numbers.
From S2P Require Import Prelude Ulib Sys Fs FsBlock FsBmap FsRw FsDisk FsOps FsTrunc Mkfs MkfsFile.
Open Scope Z_scope.

#[local] Ltac Zify.zify_post_hook ::= Z.to_euclidean_division_equations.

Notation inum_ok' := (inum_ok mkfs_sb).
Notation live' := (live mkfs_sb).

Lemma iupdate_dinode {D} `{!BlockDev D} (d : D) inum din :
  iupdate d (node inum din) =
    let! bp := bread d ROOTDEV (IBLOCK inum) in let! bp := put_dinode bp (dinode_off inum) din in log_write d ROOTDEV (IBLOCK inum) bp.
Proof.
  unfold iupdate, put_dinode. cbn [node i_dev i_inum i_type i_major i_minor i_nlink i_size i_addrs].
  destruct (bread _ _ _) as [bp|]; [|done]. rewrite !rbind_ok.
  repeat match goal with |- context [rbind (rbind (?w ?a ?b ?c) _)] => destruct (w a b c); [rewrite !rbind_ok | done] end. done.
Qed.

Lemma iblock_small inum : inum_ok' inum -> 2 < IBLOCK inum < 203 /\ IBLOCK inum ∉ bitmaps mkfs_sb.
Proof. intros [H1 H2]. cbn in H2. unfold ninodes in H2. rewrite IBLOCK_eq, mkfs_bitmaps. lia. Qed.

Lemma winode_ok m inum din :
  image_ok m -> inum_ok' inum -> fits (node inum din) ->
  exists b, winode m inum din = Ok (wsect m (IBLOCK inum) b) /\ image_ok (wsect m (IBLOCK inum) b) /\
    view (wsect m (IBLOCK inum) b) = pwrite (view m) (IBLOCK inum) b /\ dnode (view (wsect m (IBLOCK inum) b)) inum = node inum din.
Proof.
  intros Hi Hj Hfit. destruct (iblock_small inum Hj) as [I1 I2]. pose proof (io_free m Hi) as Hfr. destruct (view_meta m Hi) as [Hg _].
  destruct (iupdate_ok mkfs_sb (vdisk m) (node inum din) {[IBLOCK inum]} 0) as (d' & E & Hr & _ & Hd);
    [done | apply plain_room, (view_ok m Hi) | done | done | cbn; set_solver|].
  rewrite iupdate_dinode in E. cbn [bread pdisk_dev vdisk psect] in E. rewrite rbind_ok, view_plain in E by done.
  destruct (put_dinode _ _ _) as [b|] eqn:Eb in E; [|done]. rewrite rbind_ok in E. injection E as <-. exists b.
  assert (block_ok b) as Hb.
  { destruct Hr as [Hok _]. specialize (Hok (IBLOCK inum) ltac:(unfold fshome in *; lia)). cbn [psect] in Hok. unfold pwrite in Hok. by rewrite Z.eqb_refl in Hok. }
  pose proof (view_wsect m (IBLOCK inum) b I2) as Ev. split.
  - unfold winode. change (i2b inum) with (IBLOCK inum). rewrite rsect_ok by (unfold fshome in *; (done || lia)). rewrite rbind_ok.
    change (inum mod IPB * sizeof_dinode) with (dinode_off inum). by rewrite Eb, rbind_ok.
  - split; [apply wsect_ok; [done | lia | done | done]|]. split; [done|]. rewrite Ev. exact Hd.
Qed.

Lemma rinode_ok m inum :
  image_ok m -> inum_ok' inum -> exists din, rinode m inum = Ok din /\ node inum din = dnode (view m) inum.
Proof.
  intros Hi Hj. destruct (iblock_small inum Hj) as [I1 I2]. pose proof (io_free m Hi) as Hfr. unfold rinode. change (i2b inum) with (IBLOCK inum).
  rewrite rsect_ok by (unfold fshome in *; (done || lia)). rewrite rbind_ok. change (inum mod IPB * sizeof_dinode) with (dinode_off inum). rewrite dinode_off_0.
  destruct (io_block m Hi (IBLOCK inum) ltac:(unfold fshome in *; lia)) as [Hl _]. unfold get_dinode. consts.
  rewrite !rd16_ok, rd32_ok, get_addrs_ok by (consts; lia). rewrite !rbind_ok. eexists. split; [done|].
  unfold node, dnode. rewrite view_plain by done. done.
Qed.

(** * The invariant *)

(** The live inodes are those handed out; no file has a hole, and its last block is
    padded with zeros. *)
Record mkfs_ok (m : mkfs) : Prop := {
  mi_image : image_ok m;
  mi_fs : fs_ok mkfs_sb (vdisk m);
  mi_count : 1 <= freeinode m <= ninodes;
  mi_live : forall j, live' (view m) j <-> 1 <= j < freeinode m;
  mi_exact : forall j, live' (view m) j -> slots_used (view m) (dnode (view m) j) (need (i_size (dnode (view m) j)));
  mi_tail : forall j, live' (view m) j -> tail_zero (view m) (dnode (view m) j) (i_size (dnode (view m) j));
}.

Lemma dnode_node m j : exists d, dnode (view m) j = node j d.
Proof.
  exists (mk_dinode (i_type (dnode (view m) j)) (i_major (dnode (view m) j)) (i_minor (dnode (view m) j)) (i_nlink (dnode (view m) j)) (i_size (dnode (view m) j)) (i_addrs (dnode (view m) j))).
  done.
Qed.

(** What a file holds is kept when its blocks are. *)
Lemma file_spared σ σ' i k :
  mapped mkfs_sb fshome σ i -> (forall x, owned σ i x -> 0 <= x < fshome -> σ' x = σ x) -> 0 <= i_size i ->
  (slots_used σ i k -> slots_used σ' i k) /\ (tail_zero σ i (i_size i) -> tail_zero σ' i (i_size i)).
Proof.
  intros Hm Hk Hsz. assert (forall n, slot σ' i n = slot σ i n) as Hs by (intros n; by apply (slot_spared mkfs_sb fshome _ _ _ _ mkfs_layout)). split.
  - intros Hu n Hn. rewrite Hs. by apply Hu.
  - intros Ht q Hq Hz. assert (0 <= q / BSIZE < MAXFILE) as Hb by (consts; lia). destruct (bslot_range _ Hb) as [Hb1 _].
    specialize (Ht q Hq). unfold fbyte, blk in *. rewrite !Hs in *. rewrite Hk; [by apply Ht | by exists (bslot (q / BSIZE))|].
    pose proof (mapped_pos mkfs_sb fshome mkfs_layout σ i _ Hm Hb1 Hz). lia.
Qed.

(** The invariant after a step that changes the inode [inum] only, and the part of the
    invariant that concerns it. *)
Lemma mkfs_ok_step m m' inum :
  mkfs_ok m -> image_ok m' -> fs_ok mkfs_sb (vdisk m') -> inum_ok' inum -> freeinode m <= freeinode m' <= ninodes ->
  (forall j, inum_ok' j -> j <> inum -> dnode (view m') j = dnode (view m) j) ->
  (forall j x, live' (view m) j -> j <> inum -> owned (view m) (dnode (view m) j) x -> 0 <= x < fshome -> view m' x = view m x) ->
  i_type (dnode (view m') inum) <> 0 -> (forall j, 1 <= j < freeinode m' <-> 1 <= j < freeinode m \/ j = inum) ->
  slots_used (view m') (dnode (view m') inum) (need (i_size (dnode (view m') inum))) ->
  tail_zero (view m') (dnode (view m') inum) (i_size (dnode (view m') inum)) -> mkfs_ok m'.
Proof.
  intros [M1 M2 M3 M4 M5 M6] Hi Hfs Hj Hc Hnode Hkeep Ht Hcount Hu Hz.
  assert (forall j, live' (view m') j <-> live' (view m) j \/ j = inum) as Hlive.
  { intros j. destruct (Z.eq_dec j inum) as [->|Hne]; [split; [by right | by split]|]. unfold live. split.
    - intros [A B]. left. by rewrite Hnode in B.
    - intros [[A B]|]; [|done]. by rewrite Hnode. }
  assert (forall j, live' (view m') j -> j <> inum -> live' (view m) j /\
    slots_used (view m') (dnode (view m') j) (need (i_size (dnode (view m') j))) /\ tail_zero (view m') (dnode (view m') j) (i_size (dnode (view m') j))) as Hoth.
  { intros j Hl Hne. assert (live' (view m) j) as Hl' by (apply Hlive in Hl as [|]; done). split; [done|].
    rewrite Hnode by (done || apply Hl'). destruct (f_file _ _ M2 j Hl') as [Hm [Hsz _]].
    destruct (file_spared (view m) (view m') (dnode (view m) j) (need (i_size (dnode (view m) j))) Hm) as [F1 F2];
      [intros x Hx Hr; by apply (Hkeep j) | apply Hsz|]. split; [by apply F1, M5 | by apply F2, M6]. }
  split; [done | done | lia | | |].
  - intros j. rewrite Hlive, M4, Hcount. done.
  - intros j Hl. destruct (Z.eq_dec j inum) as [->|Hne]; [done|]. by apply Hoth.
  - intros j Hl. destruct (Z.eq_dec j inum) as [->|Hne]; [done|]. by apply Hoth.
Qed.

(** * Writing an inode back *)

Lemma need_slot k sz : 0 <= k < sz -> bslot (k / BSIZE) < need sz.
Proof. intros H. unfold need, nslots, bslot. consts. destruct (Z.ltb_spec (k / 512) 124), (Z.leb_spec ((sz + 512 - 1) / 512) 124); lia. Qed.

Lemma need_covers σ i : slots_used σ i (need (i_size i)) -> 0 <= i_size i <= MAXFILE * BSIZE -> covered σ i.
Proof.
  intros Hu Hs. split; [done|]. intros k Hk. assert (0 <= k / BSIZE < MAXFILE) as Hb by (consts; lia). destruct (bslot_range _ Hb) as [Hb1 _].
  apply Hu; [done|]. by apply need_slot.
Qed.

Lemma finish_ok m m1 inum din1 sz :
  mkfs_ok m -> live' (view m) inum -> image_ok m1 -> freeinode m1 = freeinode m ->
  mapped mkfs_sb fshome (view m1) (node inum din1) -> grown mkfs_sb fshome (view m) (dnode (view m) inum) (view m1) (node inum din1) ->
  slots_used (view m1) (node inum din1) (need sz) -> tail_zero (view m1) (node inum din1) sz -> 0 <= sz <= MAXFILE * BSIZE ->
  exists m2, winode m1 inum (set_dsize sz din1) = Ok m2 /\ mkfs_ok m2 /\ freeinode m2 = freeinode m /\ freeblock m2 = freeblock m1 /\
    dnode (view m2) inum = node inum (set_dsize sz din1) /\ others_same mkfs_sb (view m) (view m2) inum /\
    (forall x, x <> IBLOCK inum -> view m2 x = view m1 x).
Proof.
  intros Hok Hlive Hi1 Ei Hm1 Hg Hu Htz Hsz. pose proof Hok as [M1 M2 M3 M4 M5 M6]. pose proof (proj1 Hlive) as Hj.
  destruct (iblock_small inum Hj) as [I1 I2]. set (i := dnode (view m) inum) in *. destruct (f_file _ _ M2 inum Hlive) as [Hm0 _].
  pose proof (g_core _ _ _ _ _ _ Hg) as Ec. pose proof mkfs_layout as Hlay.
  assert (fits (node inum (set_dsize sz din1))) as Hfit.
  { assert (fits i) as [F1 F2 F3 F4 F5 F6 F7 F8] by (apply dnode_fits, (view_ok m M1); unfold fshome; lia).
    split; [done | exact (eq_ind_r short_ok F2 (f_equal i_type Ec)) | exact (eq_ind_r short_ok F3 (f_equal i_major Ec)) | exact (eq_ind_r short_ok F4 (f_equal i_minor Ec)) | exact (eq_ind_r short_ok F5 (f_equal i_nlink Ec)) | cbn; consts; lia | |].
    - apply (m_len _ _ _ _ Hm1).
    - intros n Hn. change (addr (node inum (set_dsize sz din1)) n) with (addr (node inum din1) n). destruct (Z.eq_dec (addr (node inum din1) n) 0) as [->|Hz]; [lia|].
      rewrite <- (slot_addr (view m1)) in Hz |- * by lia. destruct (slot_small m1 _ n Hi1 Hm1 ltac:(consts; lia) Hz) as [P _]. pose proof (io_free m1 Hi1). unfold fshome in *. lia. }
  destruct (winode_ok m1 inum (set_dsize sz din1) Hi1 Hj Hfit) as (b & Ew & Hi2 & Ev & Hd). set (m2 := wsect m1 (IBLOCK inum) b) in *.
  assert (forall x, x <> IBLOCK inum -> view m2 x = view m1 x) as Hk2 by (intros x Hx; rewrite Ev; unfold pwrite; by rewrite (proj2 (Z.eqb_neq _ _) Hx)).
  assert (forall x, owned (view m1) (node inum din1) x -> 0 <= x < fshome -> view m2 x = view m1 x) as Hown.
  { intros x Hx _. apply Hk2. apply (owned_pos mkfs_sb _ _ _ _ Hlay Hm1) in Hx as [Hx _]. rewrite mkfs_dstart in Hx. lia. }
  destruct (file_spared (view m1) (view m2) (node inum (set_dsize sz din1)) (need sz)) as [S1 S2]; [by destruct Hm1; split | exact Hown | apply Hsz|].
  assert (slots_used (view m2) (node inum (set_dsize sz din1)) (need sz)) as Hu2 by (by apply S1).
  exists m2. split; [done|].
  assert (i_type (node inum (set_dsize sz din1)) <> 0) as Ht.
  { destruct Hlive as [_ Hlt]. change (i_type (node inum din1) <> 0). rewrite (f_equal i_type Ec). exact Hlt. }
  destruct (fs_ok_grow mkfs_sb (vdisk m) (vdisk m1) (vdisk m2) i (node inum din1) (node inum (set_dsize sz din1))) as [Hfs Hoth]; try done.
  { by apply view_file. }
  { split; [done|]. intros s Hs Hx. apply Hk2. intros ->. apply Hx. by apply elem_of_singleton. }
  { apply (view_ok m2 Hi2). }
  { apply need_covers; [exact Hu2 | exact Hsz]. }
  split; [|split_and!; done]. eapply (mkfs_ok_step m m2 inum); try done.
  - unfold m2. cbn [wsect freeinode]. rewrite Ei. lia.
  - intros j Hj' Hne. by apply Hoth.
  - intros j x Hl Hne Ho Hx. destruct (f_file _ _ M2 j Hl) as [Hmj _]. destruct (owned_pos mkfs_sb _ _ _ _ Hlay Hmj Ho) as (O1 & O2 & O3). rewrite mkfs_dstart in O1.
    rewrite Hk2 by lia. apply (g_keep _ _ _ _ _ _ Hg); [done | done | done|]. intros Ho'. apply Hne. by apply (f_disj _ _ M2 j inum x).
  - by rewrite Hd.
  - intros j. unfold m2. cbn [wsect freeinode]. rewrite Ei. apply M4 in Hlive. intuition lia.
  - by rewrite Hd.
  - rewrite Hd. by apply S2.
Qed.

(** * Appending and allocating *)

Lemma iappend_ok m inum p :
  mkfs_ok m -> live' (view m) inum -> let i := dnode (view m) inum in
  i_size i + zlen p <= MAXFILE * BSIZE -> Forall byte_ok p -> freeblock m + (need (i_size i + zlen p) - need (i_size i)) <= fshome ->
  exists m', iappend m inum p (zlen p) = Ok m' /\ mkfs_ok m' /\ freeinode m' = freeinode m /\
    freeblock m' = freeblock m + (need (i_size i + zlen p) - need (i_size i)) /\
    i_type (dnode (view m') inum) = i_type i /\ i_nlink (dnode (view m') inum) = i_nlink i /\ i_size (dnode (view m') inum) = i_size i + zlen p /\
    content (view m') (dnode (view m') inum) = content (view m) i ++ p /\ others_same mkfs_sb (view m) (view m') inum.
Proof.
  intros Hok Hlive i Hmax HF Hfb. pose proof Hok as [M1 M2 M3 M4 M5 M6]. destruct (rinode_ok m inum M1 (proj1 Hlive)) as (din & Er & En). fold i in En.
  destruct (f_file _ _ M2 inum Hlive) as [Hm [Hsz Hcov]]. change (sect (vdisk m)) with (view m) in *. change (home (vdisk m)) with fshome in *. fold i in Hm, Hsz, Hcov.
  unfold iappend. rewrite Er, rbind_ok. assert (d_size din = i_size i) as Es by (by rewrite <- En). rewrite Es, xint_id by (consts; lia).
  destruct (iappend_loop_ok (Z.to_nat (zlen p)) m inum din p 0 (i_size i) (zlen p)) as (m1 & din1 & -> & A1 & A2 & A3 & A4 & A5 & A6 & A7 & A8 & A9);
    [done | by rewrite En | rewrite En; by apply M5 | lia | lia | lia | lia | lia | done | lia | done|].
  rewrite rbind_ok, xint_id by (consts; lia). rewrite En in *.
  destruct (finish_ok m m1 inum din1 (i_size i + zlen p)) as (m2 & -> & F1 & F2 & F3 & F4 & F5 & F6); try done; [by apply A9, M6 | lia|].
  exists m2. split; [done|]. split; [done|]. split; [congruence|]. split; [lia|].
  pose proof (g_core _ _ _ _ _ _ A3) as Ec. rewrite F4. split; [exact (f_equal i_type Ec)|]. split; [exact (f_equal i_nlink Ec)|]. split; [done|]. split; [|done].
  destruct (iblock_small inum (proj1 Hlive)) as [I1 _].
  destruct (writei_content (view m) i (view m2) (node inum (set_dsize (i_size i + zlen p) din1)) (i_size i) (zlen p) p) as [_ ->]; [done | | cbn; lia | lia | lia | lia|].
  - eapply (wrote_spared mkfs_sb fshome _ _ (view m1) (node inum din1)); [apply mkfs_layout | done | done | | exact A4].
    intros x Hx _. apply F6. apply (owned_pos mkfs_sb _ _ _ _ mkfs_layout A2) in Hx as [Hx _]. rewrite mkfs_dstart in Hx. lia.
  - unfold splice. rewrite firstn_all2, (firstn_all2 p), skipn_all2, app_nil_r by (rewrite ?length_app; pose proof (content_len (view m) i ltac:(lia)); lia). done.
Qed.

(** The inode [ialloc] writes. *)
Definition fresh_dinode (type : Z) : dinode := mk_dinode (s16 (xshort type)) 0 0 (xshort 1) (xint 0) (replicate 125 0).

Lemma mk_ialloc_ok m type :
  mkfs_ok m -> freeinode m < ninodes -> 0 < type < 2 ^ 15 ->
  exists m', mk_ialloc m type = Ok (m', freeinode m) /\ mkfs_ok m' /\ freeinode m' = freeinode m + 1 /\ freeblock m' = freeblock m /\
    i_type (dnode (view m') (freeinode m)) = type /\ i_nlink (dnode (view m') (freeinode m)) = 1 /\ i_size (dnode (view m') (freeinode m)) = 0 /\
    others_same mkfs_sb (view m) (view m') (freeinode m).
Proof.
  intros Hok Hlt Ht. pose proof Hok as [M1 M2 M3 M4 M5 M6]. set (inum := freeinode m) in *. assert (inum_ok' inum) as Hj by (split; cbn; lia).
  destruct (iblock_small inum Hj) as [I1 I2]. set (m0 := mk_mkfs (img m) (len m) (freeblock m) (usedblocks m) (inum + 1)).
  assert (image_ok m0) as Hi0 by (destruct M1; by split). assert (s16 (xshort type) = type) as Et by (unfold s16, xshort, u8; change (2 ^ 15) with 32768 in *; change (2 ^ 16) with 65536; change (2 ^ 8) with 256; lia).
  assert (forall n, addr (node inum (fresh_dinode type)) n = 0) as Ha.
  { intros n. unfold addr. cbn [node fresh_dinode i_addrs d_addrs]. rewrite nth_lookup. destruct (_ !! _) as [x|] eqn:E; [|done]. by apply lookup_replicate in E as [-> _]. }
  destruct (winode_ok m0 inum (fresh_dinode type) Hi0 Hj) as (b & Ew & Hi1 & Ev & Hd).
  { split; try done; [change (short_ok (s16 (xshort type))); rewrite Et; unfold short_ok; lia|]. intros n Hn. rewrite Ha. lia. }
  unfold mk_ialloc. fold inum m0. change (mk_dinode (s16 (xshort type)) 0 0 (xshort 1) (xint 0) (replicate 125 0)) with (fresh_dinode type). rewrite Ew, rbind_ok.
  set (m1 := wsect m0 (IBLOCK inum) b) in *. exists m1. split; [done|].
  assert (~ live' (view m) inum) as Hdead by (intros H%M4; lia).
  assert (forall x, x <> IBLOCK inum -> view m1 x = view m x) as Hk by (intros x Hx; rewrite Ev; unfold pwrite; by rewrite (proj2 (Z.eqb_neq _ _) Hx)).
  destruct (fs_ok_blank mkfs_sb (vdisk m) (vdisk m1) inum) as [Hfs Hoth]; [done | done | apply (view_ok m1 Hi1) | | | |].
  { split; [done|]. intros s Hs Hx. apply Hk. intros ->. apply Hx. apply elem_of_union_l. by apply elem_of_singleton. }
  { change (sect (vdisk m1)) with (view m1). rewrite Hd. by split. }
  { intros x Hx. change (sect (vdisk m1)) with (view m1). change (sect (vdisk m)) with (view m). change (sb_size mkfs_sb) with fssize in Hx. rewrite !bit_view by done. cbn [m1 m0 wsect freeblock]. tauto. }
  change (sect (vdisk m1)) with (view m1) in Hoth. change (sect (vdisk m)) with (view m) in Hoth.
  split; [|rewrite Hd; cbn; rewrite Et; split_and!; done]. eapply (mkfs_ok_step m m1 inum); try done; rewrite ?Hd.
  - cbn. lia.
  - intros j Hj' Hne. by apply Hoth.
  - intros j x Hl Hne Ho Hx. apply Hk. destruct (f_file _ _ M2 j Hl) as [Hmj _]. destruct (owned_pos mkfs_sb _ _ _ _ mkfs_layout Hmj Ho) as (O1 & _). rewrite mkfs_dstart in O1. lia.
  - cbn. rewrite Et. lia.
  - cbn. intros j. fold inum. lia.
  - intros n Hn. rewrite (slot_blank _ (node inum (fresh_dinode type))) by done. change (need _) with 0. lia.
  - intros k Hk' Hz. unfold blk in Hz. by rewrite (slot_blank _ (node inum (fresh_dinode type))) in Hz by done.
Qed.
