(* ===== verification/MkfsProps.v ===== *)
(** The image that mkfs.c builds is a file system for the kernel. *)
From stdpp Require Import gmap sets list_numbers.
From S2P Require Import Prelude Ulib Sys Fs FsBlock FsBmap FsRw FsDisk FsOps Inode FsTrunc FsCache FsDir Mkfs MkfsFile MkfsInv.
Open Scope Z_scope.

#[local] Ltac Zify.zify_post_hook ::= Z.to_euclidean_division_equations.

(** * Files of the image *)

(** Inode [j] is a file or directory with one link and the bytes [c]. *)
Record file_in (σ : Z -> bytes) (j type : Z) (c : bytes) : Prop := {
  fi_live : live' σ j;
  fi_type : i_type (dnode σ j) = type;
  fi_nlink : i_nlink (dnode σ j) = 1;
  fi_content : content σ (dnode σ j) = c;
}.

Lemma file_size m j t c : mkfs_ok m -> file_in (view m) j t c -> i_size (dnode (view m) j) = zlen c.
Proof. intros Hok [Hl _ _ <-]. destruct (f_file _ _ (mi_fs m Hok) j Hl) as [_ [Hs _]]. symmetry. apply content_len, Hs. Qed.

Lemma file_other σ σ' i j t c : others_same mkfs_sb σ σ' i -> j <> i -> file_in σ j t c -> file_in σ' j t c.
Proof.
  intros Ho Hne [[Hj Ht] E1 E2 E3]. destruct (Ho j Hj Hne) as [Ed Ec]. split; [split; [done|] | | |]; rewrite ?Ed; try done. by rewrite <- Ed, Ec.
Qed.

Lemma others_trans σ1 σ2 σ3 i : others_same mkfs_sb σ1 σ2 i -> others_same mkfs_sb σ2 σ3 i -> others_same mkfs_sb σ1 σ3 i.
Proof.
  intros H1 H2 j Hj Hne. destruct (H1 j Hj Hne) as [A B]. destruct (H2 j Hj Hne) as [C D]. split; [congruence|]. intros Ht. rewrite D by (by rewrite A). by apply B.
Qed.

(** [iappend] to a file. *)
Lemma append_ok m j t c p :
  mkfs_ok m -> file_in (view m) j t c -> zlen c + zlen p <= MAXFILE * BSIZE -> Forall byte_ok p ->
  freeblock m + (need (zlen c + zlen p) - need (zlen c)) <= fshome ->
  exists m', iappend m j p (zlen p) = Ok m' /\ mkfs_ok m' /\ freeinode m' = freeinode m /\
    freeblock m' = freeblock m + (need (zlen c + zlen p) - need (zlen c)) /\ file_in (view m') j t (c ++ p) /\ others_same mkfs_sb (view m) (view m') j.
Proof.
  intros Hok Hfile Hmax HF Hfb. pose proof (file_size m j t c Hok Hfile) as Es. destruct Hfile as [Hl E1 E2 E3].
  destruct (iappend_ok m j p) as (m' & Ea & A1 & A2 & A3 & A4 & A5 & A6 & A7 & A8); [done | done | by rewrite Es | done | by rewrite Es|].
  rewrite Es in *. exists m'. split; [done|]. split; [done|]. split; [done|]. split; [done|]. split; [|done].
  split; [split; [apply Hl|] | congruence | congruence | congruence]. rewrite A4. apply Hl.
Qed.

Lemma append_reads_ok reads m j t c :
  mkfs_ok m -> file_in (view m) j t c -> zlen c + zlen (concat reads) <= MAXFILE * BSIZE -> Forall (Forall byte_ok) reads ->
  freeblock m + (need (zlen c + zlen (concat reads)) - need (zlen c)) <= fshome ->
  exists m', append_reads m j reads = Ok m' /\ mkfs_ok m' /\ freeinode m' = freeinode m /\
    freeblock m' = freeblock m + (need (zlen c + zlen (concat reads)) - need (zlen c)) /\
    file_in (view m') j t (c ++ concat reads) /\ others_same mkfs_sb (view m) (view m') j.
Proof.
  revert m c. induction reads as [|p reads IH]; intros m c Hok Hfile Hmax HF Hfb; cbn [append_reads concat] in *.
  - rewrite app_nil_r. rewrite Z.add_0_r in *. exists m. split_and!; try done. lia.
  - apply Forall_cons in HF as [Hp HF]. rewrite length_app in *. pose proof (need_mono (zlen c + zlen p) (zlen c + Z.of_nat (length p + length (concat reads))) ltac:(lia)).
    destruct (append_ok m j t c p) as (m1 & -> & A1 & A2 & A3 & A4 & A5); [done | done | lia | done | lia|]. rewrite rbind_ok.
    destruct (IH m1 (c ++ p)) as (m2 & -> & B1 & B2 & B3 & B4 & B5); [done | done | rewrite length_app; lia | done | rewrite length_app, Nat2Z.inj_add, <- Z.add_assoc, <- Nat2Z.inj_add; lia|].
    rewrite length_app, Nat2Z.inj_add, <- Z.add_assoc, <- Nat2Z.inj_add in B3. rewrite <- app_assoc in B4.
    exists m2. split; [done|]. split; [done|]. split; [congruence|]. split; [lia|]. split; [done|]. by eapply others_trans.
Qed.

(** * The root directory *)

Lemma mk_dirent_ok inum name s : is_name name s -> 0 <= inum < 65536 -> mk_dirent inum name = Ok (ent_cells inum s).
Proof.
  intros [Hs Hb] Hi. unfold mk_dirent. assert (xshort inum = inum) as -> by (unfold xshort, u8; change (2 ^ 8) with 256; lia).
  assert (wr16 (replicate 16 0) 0 inum = Ok ([inum mod 256; inum / 256] ++ replicate 14 0)) as ->.
  { unfold wr16, u8. change (replicate 16 0) with (0 :: 0 :: replicate 14 0). rewrite put_ok by (cbn; lia). rewrite rbind_ok, put_ok by (rewrite length_insert; cbn; lia).
    change (Z.to_nat 0) with 0%nat. change (Z.to_nat (0 + 1)) with 1%nat. cbn [insert list_insert app]. do 3 f_equal. change (2 ^ 8) with 256. lia. }
  rewrite rbind_ok. unfold Kstring.strncpy. dconsts. unfold ent_cells, name_cells. apply (strncpy_loop_name 14 [inum mod 256; inum / 256]); [done | done|].
  destruct Hb as [[]|[]]; [left | right]; (split; [dconsts; lia | done]).
Qed.

Lemma entries_app c e :
  dir_ok c -> zlen e = sizeof_dirent -> dir_ok (c ++ e) /\ dir_entries (c ++ e) = dir_entries c ++ [(w16 e 0, name_of (drop 2 e))].
Proof.
  intros Hd He. unfold dir_ok in *. split; [rewrite length_app; dconsts; lia|].
  assert (c ++ e = splice c (sizeof_dirent * nents c) e) as ->.
  { unfold splice, nents. dconsts. rewrite firstn_all2, skipn_all2, app_nil_r by lia. done. }
  assert (zlen (dir_entries c) = nents c) as El by (unfold dir_entries; rewrite length_fmap, length_seqZ; unfold nents; dconsts; lia).
  rewrite dir_entries_splice; [|unfold nents; dconsts; lia | done | done]. rewrite firstn_all2, (skipn_all2 (dir_entries c)) by lia. done.
Qed.

Lemma entries_pad c n : dir_ok c -> dir_entries (c ++ replicate (16 * n) 0) = dir_entries c ++ replicate n (0, []).
Proof.
  intros Hd. revert c Hd. induction n as [|n IH]; intros c Hd; [by rewrite !app_nil_r|].
  replace (16 * S n)%nat with (16 + 16 * n)%nat by lia. rewrite replicate_add, app_assoc.
  destruct (entries_app c (replicate 16 0) Hd ltac:(done)) as [H1 H2]. rewrite IH, H2, <- app_assoc by done. done.
Qed.

(** * The program *)

(** An input file that mkfs takes, and its name in the image. *)
Record infile_ok (f : infile) (s : bytes) : Prop := {
  if_slash : 47 ∉ f_name f;
  if_name : is_name (strip (f_name f)) s;
  if_bytes : Forall (Forall byte_ok) (f_reads f);
  if_size : zlen (concat (f_reads f)) <= MAXFILE * BSIZE;
}.

(** The blocks that the files need. *)
Definition cost (fs : list infile) : Z := foldr (fun f n => need (zlen (concat (f_reads f))) + n) 0 fs.

Lemma need_nonneg n : 0 <= n -> 0 <= need n.
Proof. intros H. unfold need, nslots. consts. destruct (Z.leb_spec ((n + 512 - 1) / 512) 124); lia. Qed.

(** The root directory has the entries [es]. *)
Definition rooted (σ : Z -> bytes) (es : list (Z * bytes)) : Prop := exists c, file_in σ 1 T_DIR c /\ zlen c = 16 * zlen es /\ dir_entries c = es.

(** An entry for inode [x] in the root. *)
Lemma link_root m es x name s :
  mkfs_ok m -> rooted (view m) es -> is_name name s -> 0 <= x < 65536 -> zlen es < 200 ->
  freeblock m + (need (16 * (zlen es + 1)) - need (16 * zlen es)) <= fshome ->
  exists de m', mk_dirent x name = Ok de /\ iappend m 1 de sizeof_dirent = Ok m' /\ mkfs_ok m' /\ rooted (view m') (es ++ [(x, s)]) /\
    freeinode m' = freeinode m /\ freeblock m' = freeblock m + (need (16 * (zlen es + 1)) - need (16 * zlen es)) /\ others_same mkfs_sb (view m) (view m') 1.
Proof.
  intros Hok (c & Hroot & Hlen & Hes) Hn Hx Hcount Hfb. pose proof Hn as [Hs Hb]. exists (ent_cells x s).
  assert (zlen s <= DIRSIZ) as Hl by (destruct Hb as [[]|[]]; lia).
  destruct (ent_cells_ok x s Hx Hs Hl) as (E1 & E2 & E3 & E4). replace (16 * (zlen es + 1)) with (zlen c + zlen (ent_cells x s)) in * by (rewrite E1, Hlen; dconsts; lia).
  destruct (append_ok m 1 T_DIR c (ent_cells x s)) as (m' & Ea & A1 & A2 & A3 & A4 & A5); [done | done | rewrite E1; dconsts; lia | done | rewrite Hlen in *; lia|].
  rewrite E1 in Ea at 1. exists m'. split; [by apply mk_dirent_ok|]. split; [done|]. split; [done|]. split; [|rewrite Hlen in *; by split_and!].
  assert (dir_ok c) as Hd by (unfold dir_ok; dconsts; lia). destruct (entries_app c (ent_cells x s) Hd E1) as [D1 D2]. rewrite E3, E4, Hes in D2.
  exists (c ++ ent_cells x s). split; [done|]. split; [|done]. rewrite !length_app. cbn [length]. dconsts. lia.
Qed.

(** The image with the entries [es] in its root directory and the files [fs]. *)
Record built (m : mkfs) (es : list (Z * bytes)) (fs : list infile) : Prop := {
  bu_ok : mkfs_ok m;
  bu_root : rooted (view m) es;
  bu_files : forall k f, fs !! k = Some f -> file_in (view m) (2 + Z.of_nat k) T_FILE (concat (f_reads f));
  bu_next : freeinode m = 2 + zlen fs;
}.

(** One input file. *)
Lemma add_file_ok m es fs f s :
  built m es fs -> infile_ok f s -> zlen fs < 198 -> zlen es < 200 ->
  freeblock m + (need (16 * (zlen es + 1)) - need (16 * zlen es)) + need (zlen (concat (f_reads f))) <= fshome ->
  exists m', add_file m 1 f = Ok m' /\ built m' (es ++ [(2 + zlen fs, s)]) (fs ++ [f]) /\
    freeblock m' = freeblock m + (need (16 * (zlen es + 1)) - need (16 * zlen es)) + need (zlen (concat (f_reads f))).
Proof.
  intros [Hok Hroot Hfiles Hnext] [Hsl Hn HF Hsz] Hcount Hces Hfb. pose proof (need_nonneg (zlen (concat (f_reads f))) ltac:(lia)) as Hneed.
  unfold add_file. rewrite bool_decide_false by done.
  destruct (mk_ialloc_ok m T_FILE) as (m1 & -> & A1 & A2 & A3 & A4 & A5 & A6 & A7); [done | unfold ninodes; lia | done|]. rewrite rbind_ok. rewrite Hnext in *.
  assert (file_in (view m1) (2 + zlen fs) T_FILE []) as Hnew.
  { split; [apply (mi_live m1 A1); lia | done | done|]. unfold content. by rewrite A6. }
  assert (rooted (view m1) es) as Hr1 by (destruct Hroot as (c & Hc & ?); exists c; split; [eapply file_other; [exact A7 | lia | exact Hc] | done]).
  destruct (link_root m1 es (2 + zlen fs) (strip (f_name f)) s) as (de & m2 & -> & B1 & B2 & B3 & B4 & B5 & B6); [done | done | done | lia | done | lia|]. rewrite rbind_ok, B1, rbind_ok.
  assert (file_in (view m2) (2 + zlen fs) T_FILE []) as Hnew2 by (eapply file_other; [exact B6 | lia | exact Hnew]).
  destruct (append_reads_ok (f_reads f) m2 (2 + zlen fs) T_FILE []) as (m3 & -> & C1 & C2 & C3 & C4 & C5); [done | done | cbn [length]; lia | done | cbn [length]; change (need (Z.of_nat 0)) with 0; rewrite Z.add_0_l; lia|].
  cbn [length app] in *. change (need (Z.of_nat 0)) with 0 in *. rewrite Z.add_0_l in *. exists m3. split; [done|]. split; [|lia]. split; [done | | | rewrite length_app; cbn [length]; lia].
  - destruct B3 as (c & Hc & ?). exists c. split; [eapply file_other; [exact C5 | lia | exact Hc] | done].
  - intros k g Hk. apply lookup_app_Some in Hk as [Hk|[Hge Hk]].
    + pose proof (lookup_lt_Some _ _ _ Hk). eapply file_other; [exact C5 | lia |]. eapply file_other; [exact B6 | lia|]. eapply file_other; [exact A7 | lia | by apply Hfiles].
    + apply list_lookup_singleton_Some in Hk as [Hk ->]. by replace (2 + Z.of_nat k) with (2 + zlen fs) by lia.
Qed.

(** The entries of the files [names], the first of them being inode [x]. *)
Fixpoint entries_from (x : Z) (names : list bytes) : list (Z * bytes) :=
  match names with [] => [] | s :: names => (x, s) :: entries_from (x + 1) names end.

Lemma add_files_ok fs names m es done :
  Forall2 infile_ok fs names -> built m es done -> zlen done + zlen fs <= 198 -> zlen es = zlen done + 2 ->
  freeblock m + (need (16 * (zlen es + zlen fs)) - need (16 * zlen es)) + cost fs <= fshome ->
  exists m', add_files m 1 fs = Ok m' /\ built m' (es ++ entries_from (2 + zlen done) names) (done ++ fs) /\
    freeblock m' = freeblock m + (need (16 * (zlen es + zlen fs)) - need (16 * zlen es)) + cost fs.
Proof.
  intros HF. revert m es done. induction HF as [|f s fs names Hf HF IH]; intros m es dn Hb Hc Hes Hfb; cbn [add_files entries_from cost foldr] in *.
  - exists m. rewrite !app_nil_r. rewrite !Z.add_0_r in *. split; [done|]. split; [done|]. lia.
  - fold (cost fs) in *. assert (0 <= cost fs) as Hc0 by (clear; induction fs as [|g fs IH]; cbn [cost foldr]; [done|]; fold (cost fs); pose proof (need_nonneg (zlen (concat (f_reads g))) ltac:(lia)); lia).
    rewrite length_cons in *. pose proof (need_mono (16 * (zlen es + 1)) (16 * (zlen es + Z.of_nat (S (length fs)))) ltac:(lia)) as Hmono.
    destruct (add_file_ok m es dn f s) as (m1 & -> & B1 & B2); [done | done | lia | lia | lia|]. rewrite rbind_ok.
    destruct (IH m1 (es ++ [(2 + zlen dn, s)]) (dn ++ [f])) as (m2 & -> & C1 & C2); [done | rewrite length_app; cbn [length]; lia | rewrite !length_app; cbn [length]; lia | |].
    { rewrite length_app. cbn [length]. replace (Z.of_nat (length es + 1) + zlen fs) with (zlen es + Z.of_nat (S (length fs))) by lia. replace (Z.of_nat (length es + 1)) with (zlen es + 1) by lia. lia. }
    exists m2. split; [done|]. rewrite <- !app_assoc in C1. cbn [app] in C1. rewrite length_app in C1, C2. cbn [length] in C1, C2.
    replace (2 + Z.of_nat (length dn + 1)) with (2 + zlen dn + 1) in C1 by lia. split; [done|].
    replace (Z.of_nat (length es + 1) + zlen fs) with (zlen es + Z.of_nat (S (length fs))) in C2 by lia. replace (Z.of_nat (length es + 1)) with (zlen es + 1) in C2 by lia. lia.
Qed.

(** * Start and end *)

Definition super_bytes : bytes := match super_block with Ok b => b | Err _ => [] end.

Lemma super_block_ok : super_block = Ok super_bytes.
Proof. vm_compute. reflexivity. Qed.

(** The cleared image with its superblock. *)
Definition first_image : mkfs := wsect (blank_image 205) 1 super_bytes.

Lemma first_sect s : s <> 1 -> view first_image s = if is_bitmap s then bitmap_sect 205 s else zeros.
Proof. intros H. unfold view, first_image. cbn [img wsect blank_image]. by rewrite (proj2 (Z.eqb_neq _ _) H). Qed.

Lemma first_type j : inum_ok' j -> i_type (dnode (view first_image) j) = 0.
Proof.
  intros Hj. destruct (iblock_small j Hj) as [I1 I2]. unfold dnode. cbn [i_type]. rewrite first_sect by lia.
  destruct (is_bitmap (IBLOCK j)) eqn:E; [by apply is_bitmap_spec in E|]. unfold w16. by rewrite !byte_zeros.
Qed.

Lemma first_ok : mkfs_ok first_image.
Proof.
  assert (image_ok first_image) as Hi.
  { split; try done.
    - intros s Hs. cbn [img first_image wsect blank_image freeblock] in *. by rewrite (proj2 (Z.eqb_neq s 1)) by lia.
    - intros s Hs. cbn [img first_image wsect blank_image]. destruct (s =? 1); [|apply zeros_ok]. split; [vm_compute; done|].
      apply (bool_decide_unpack (Forall (fun x => 0 <= x < 256) super_bytes)). vm_compute. exact I. }
  assert (forall j, ~ live' (view first_image) j) as Hno by (intros j [Hj Ht]; by rewrite first_type in Ht).
  destruct (view_meta _ Hi) as [Hg Hm]. split; try done.
  - split; try done.
    + apply (view_ok _ Hi).
    + intros j Hj. by destruct (Hno j).
    + intros a b x Ha. by destruct (Hno a).
    + intros b Hb Hbit. rewrite mkfs_dstart in Hb. cbn [home pdisk_laws] in Hb. unfold fshome in Hb. change (sect (vdisk first_image)) with (view first_image) in Hbit.
      rewrite bit_view in Hbit by (unfold fssize; lia). cbn in Hbit. apply Z.ltb_lt in Hbit. lia.
  - intros j. split; [by intros ?%Hno | cbn; lia].
  - intros j Hj. by destruct (Hno j).
  - intros j Hj. by destruct (Hno j).
Qed.

(** A file whose size is raised within its last block gains zeros. *)
Lemma pad_content m m' j din t c sz :
  mkfs_ok m -> file_in (view m) j t c -> node j din = dnode (view m) j -> need sz = need (zlen c) -> zlen c <= sz <= MAXFILE * BSIZE ->
  dnode (view m') j = node j (set_dsize sz din) -> (forall x, x <> IBLOCK j -> view m' x = view m x) ->
  content (view m') (dnode (view m') j) = c ++ replicate (Z.to_nat (sz - zlen c)) 0.
Proof.
  intros Hok Hfile En Eneed Hsz Hd Hk. pose proof (file_size m j t c Hok Hfile) as Es. destruct Hfile as [Hl _ _ Ec]. pose proof Hok as [M1 M2 M3 M4 M5 M6].
  destruct (f_file _ _ M2 j Hl) as [Hm _]. change (sect (vdisk m)) with (view m) in Hm. change (home (vdisk m)) with fshome in Hm.
  destruct (iblock_small j (proj1 Hl)) as [I1 _]. set (i := dnode (view m) j) in *.
  assert (forall k, 0 <= k < sz -> slot (view m) i (bslot (k / BSIZE)) <> 0) as Hz.
  { intros k Hq. destruct (bslot_range (k / BSIZE)) as [Hs1 _]; [consts; lia|]. apply (M5 j Hl); [done|]. fold i. rewrite Es, <- Eneed. by apply need_slot. }
  assert (forall k, 0 <= k < sz -> fbyte (view m') (node j (set_dsize sz din)) k = fbyte (view m) i k) as Hfb.
  { intros k Hq. assert (forall n, slot (view m') (node j (set_dsize sz din)) n = slot (view m) i n) as Hsl.
    { intros n. transitivity (slot (view m') i n); [apply slot_ext; [by rewrite <- En | done]|]. apply (slot_spared mkfs_sb fshome _ _ _ _ mkfs_layout Hm).
      intros x Hx _. apply Hk. apply (owned_pos mkfs_sb _ _ _ _ mkfs_layout Hm) in Hx as [Hx _]. rewrite mkfs_dstart in Hx. lia. }
    unfold fbyte, blk. rewrite Hsl. f_equal. apply Hk. destruct (bslot_range (k / BSIZE)) as [Hs1 _]; [consts; lia|].
    destruct (m_slot _ _ _ _ Hm _ Hs1 (Hz k Hq)) as [Q _]. rewrite mkfs_dstart in Q. lia. }
  rewrite Hd. unfold content. change (i_size (node j (set_dsize sz din))) with sz.
  replace sz with (zlen c + (sz - zlen c)) at 2 by lia. rewrite seqZ_app by lia. rewrite fmap_app. f_equal.
  - rewrite <- Ec at 2. unfold content. rewrite Es. apply list_fmap_ext. intros n k Hin. apply lookup_seqZ in Hin as [-> Hn]. apply Hfb. lia.
  - apply list_eq. intros n. rewrite list_lookup_fmap. destruct (decide (Z.of_nat n < sz - zlen c)) as [Hn|Hn].
    + rewrite lookup_seqZ_lt by lia. rewrite lookup_replicate_2 by lia. cbn [fmap option_fmap option_map]. f_equal. rewrite Hfb by lia.
      apply (M6 j Hl); [fold i; rewrite Es; lia | apply Hz; lia].
    + rewrite lookup_seqZ_ge by lia. symmetry. apply lookup_ge_None_2. rewrite length_replicate. lia.
Qed.

(** The root directory is extended to whole blocks. *)
Lemma fix_root_ok m es fs :
  built m es fs -> 0 < zlen es <= 200 -> zlen es mod 32 <> 0 ->
  exists m', fix_root m 1 = Ok m' /\ built m' (es ++ replicate (Z.to_nat (32 - zlen es mod 32)) (0, [])) fs /\ freeblock m' = freeblock m.
Proof.
  intros [Hok (c & Hroot & Hlen & Hes) Hfiles Hnext] Hne Hmod. pose proof (file_size m 1 T_DIR c Hok Hroot) as Es. pose proof Hroot as [Hl E1 E2 E3].
  pose proof Hok as [M1 M2 M3 M4 M5 M6]. destruct (rinode_ok m 1 M1 (proj1 Hl)) as (din & Er & En).
  set (sz := (zlen c / BSIZE + 1) * BSIZE). assert (need sz = need (zlen c)) as Eneed by (unfold need, sz; f_equal; consts; lia).
  assert (zlen c <= sz <= MAXFILE * BSIZE /\ sz - zlen c = 16 * (32 - zlen es mod 32)) as [Hsz Hpad] by (unfold sz; consts; lia).
  unfold fix_root. rewrite Er, rbind_ok. assert (d_size din = zlen c) as Ed by (change (d_size din) with (i_size (node 1 din)); by rewrite En).
  rewrite Ed, (xint_id (zlen c)) by (consts; lia). fold sz. rewrite xint_id by (consts; lia).
  destruct (f_file _ _ M2 1 Hl) as [Hm _]. change (sect (vdisk m)) with (view m) in *.
  destruct (finish_ok m m 1 din sz) as (m' & -> & F1 & F2 & F3 & F4 & F5 & F6); try done.
  { by rewrite En. } { rewrite En. apply grown_refl. } { rewrite En, Eneed, <- Es. by apply M5. }
  { rewrite En. intros k Hk. apply (M6 1 Hl). rewrite Es. lia. } { lia. }
  exists m'. split; [done|]. split; [|done]. pose proof (pad_content m m' 1 din T_DIR c sz Hok Hroot En Eneed Hsz F4 F6) as Ec.
  replace (Z.to_nat (sz - zlen c)) with (16 * Z.to_nat (32 - zlen es mod 32))%nat in Ec by lia.
  split; [done | | | congruence].
  - exists (c ++ replicate (16 * Z.to_nat (32 - zlen es mod 32)) 0). split; [split; [apply (mi_live m' F1); lia | | | done]|split].
    + rewrite F4, <- E1, <- En. done.
    + rewrite F4, <- E2, <- En. done.
    + rewrite !length_app, !length_replicate. lia.
    + rewrite entries_pad by (unfold dir_ok; dconsts; lia). by rewrite Hes.
  - intros k f Hk. eapply file_other; [exact F5 | lia | by apply Hfiles].
Qed.

(** The bitmap. *)
Lemma mk_balloc_ok m :
  image_ok m -> freeblock m < 4096 ->
  exists b, mk_balloc m (usedblocks m) = Ok (wsect m 203 b) /\ (forall s, 0 <= s < fssize -> img (wsect m 203 b) s = if s =? 203 then bitmap_sect (freeblock m) 203 else img m s).
Proof.
  intros Hi Hf. pose proof (io_free m Hi) as Hfr. unfold mk_balloc. rewrite (io_used m Hi). consts. rewrite (proj2 (Z.ltb_lt _ _)) by lia. cbn [negb].
  destruct (for_up_ex (fun n b => length b = 512%nat /\ forall k, 0 <= k < 512 -> byte b k = bitmap_byte n k) 0 (freeblock m)
    (fun i buf => let! x := get buf (i / 8) in put buf (i / 8) (u8 (Z.lor x (Z.shiftl 1 (i mod 8))))) zeroes) as (b & -> & Hl & Hb).
  - lia.
  - split; [done|]. intros k Hk. rewrite byte_zeros. unfold bitmap_byte. rewrite Z.max_l by lia. done.
  - intros n b Hn [Hl Hb]. rewrite get_byte by lia. rewrite rbind_ok, put_ok by lia. eexists. split; [done|]. split; [by rewrite length_insert|].
    intros k Hk. rewrite byte_insert by lia. rewrite Hb by lia. unfold bitmap_byte. apply Z.bits_inj'. intros j Hj. destruct (Z.eqb_spec k (n / 8)) as [->|Hne].
    + destruct (Z.lt_ge_cases j 8) as [Hj8|Hj8].
      * rewrite set_bit, !Z.testbit_ones_nonneg by lia. apply Bool.eq_iff_eq_true. rewrite orb_true_iff, Z.eqb_eq, !Z.ltb_lt. lia.
      * rewrite Z.testbit_ones_nonneg, (proj2 (Z.ltb_ge _ _)) by lia. unfold u8. by rewrite Z.mod_pow2_bits_high by lia.
    + rewrite Hb by lia. unfold bitmap_byte. rewrite !Z.testbit_ones_nonneg by lia. apply Bool.eq_iff_eq_true. rewrite !Z.ltb_lt. lia.
  - rewrite rbind_ok. exists b. split; [done|]. intros s Hs. cbn [img wsect]. destruct (Z.eqb_spec s 203) as [->|]; [|done].
    unfold bitmap_sect. rewrite Z.sub_diag, Z.mul_0_r, Z.sub_0_r. apply list_eq. intros n. rewrite list_lookup_fmap. destruct (decide (n < 512)%nat) as [Hn|Hn].
    + rewrite lookup_seqZ_lt by lia. pose proof (lookup_byte b (Z.of_nat n) ltac:(lia)) as E. rewrite Nat2Z.id in E. rewrite E, Hb by lia. done.
    + rewrite lookup_ge_None_2 by lia. by rewrite lookup_seqZ_ge by lia.
Qed.

Lemma bitmap_sect_204 fb : fb < 4096 -> bitmap_sect fb 204 = zeros.
Proof.
  intros H. unfold bitmap_sect. transitivity ((fun _ : Z => 0) <$> seqZ 0 512); [|vm_compute; reflexivity]. apply list_fmap_ext. intros n k Hk. apply lookup_seqZ in Hk.
  unfold bitmap_byte. rewrite Z.max_l by lia. done.
Qed.

(** Another device that holds the same sectors. *)
Lemma fs_ok_device {D} `{!BlockDev D} `{!BlockLaws D} (d : D) (p : pdisk) :
  fs_ok mkfs_sb p -> dev_ok d -> home d = fshome -> (forall s, 0 <= s < fshome -> sect d s = psect p s) ->
  fs_ok mkfs_sb d /\ agree p (mk_pdisk (sect d) ∅).
Proof.
  intros Hp Hd Hh Hs. assert (agree p (mk_pdisk (sect d) ∅)) as Ha by (by split).
  assert (pdisk_ok (mk_pdisk (sect d) ∅)) as Hok by (intros s Hx; apply sect_block; [done | by rewrite Hh]).
  destruct (fs_ok_agree mkfs_sb p (mk_pdisk (sect d) ∅) Hp Hok Ha) as [F0 F1 F2 F3 F4 F5]. split; [|done].
  change (home (mk_pdisk (sect d) ∅)) with fshome in *. cbn [sect pdisk_laws psect] in *. unfold geom in F1. cbn [home sect pdisk_laws psect] in F1.
  split; [done | unfold geom; by rewrite Hh | done | | done | by rewrite Hh]. intros j Hj. rewrite Hh. by apply F3.
Qed.

Lemma file_agree m (p : pdisk) j t c : mkfs_ok m -> agree (vdisk m) p -> file_in (view m) j t c -> file_in (psect p) j t c.
Proof.
  intros Hok Ha [[Hj Ht] E1 E2 E3]. pose proof (agree_dnode mkfs_sb (vdisk m) p j mkfs_layout Ha Hj) as Ed. cbn [sect pdisk_laws vdisk psect] in Ed.
  split; [split; [done|] | | |]; rewrite ?Ed; try done. rewrite <- E3. destruct (f_file _ _ (mi_fs m Hok) j ltac:(done)) as [Hm Hc].
  exact (content_agree mkfs_sb (vdisk m) p _ mkfs_layout Hm Hc Ha).
Qed.

(** What the program builds before it fixes the root directory. *)
Lemma mkfs_builds fs names :
  Forall2 infile_ok fs names -> zlen fs <= 198 -> 205 + need (16 * (zlen fs + 2)) + cost fs < 4096 ->
  exists m, mkfs_main fs = (let! m := fix_root m 1 in mk_balloc m (usedblocks m)) /\
    built m ((1, [46]) :: (1, [46; 46]) :: entries_from 2 names) fs /\ freeblock m = 205 + need (16 * (zlen fs + 2)) + cost fs.
Proof.
  intros HF Hc Hfb. unfold mkfs_main. change (fssize / (BSIZE * 8) + 1) with 2. change (ninodes / IPB + 3 + 2) with 205. change (negb (nblocks + 205 + nlog =? fssize)) with false. cbv iota.
  rewrite super_block_ok, rbind_ok. change (wsect (blank_image 205) 1 super_bytes) with first_image.
  destruct (mk_ialloc_ok first_image T_DIR) as (m1 & -> & A1 & A2 & A3 & A4 & A5 & A6 & A7); [apply first_ok | done | done|]. rewrite rbind_ok.
  change (freeinode first_image) with 1 in *. change (freeblock first_image) with 205 in *. change (negb (1 =? ROOTINO)) with false. cbv iota.
  assert (rooted (view m1) []) as Hr1.
  { exists []. split; [|done]. split; [apply (mi_live m1 A1); lia | done | done|]. unfold content. by rewrite A6. }
  pose proof (need_mono 16 (16 * (zlen fs + 2)) ltac:(lia)) as N1. pose proof (need_mono 32 (16 * (zlen fs + 2)) ltac:(lia)) as N2. change (need 16) with 1 in *. change (need 32) with 1 in *.
  assert (0 <= cost fs) as N3 by (clear; induction fs as [|g fs IH]; cbn [cost foldr]; [done|]; fold (cost fs); pose proof (need_nonneg (zlen (concat (f_reads g))) ltac:(lia)); lia).
  assert (forall s rest, Forall is_char s -> zlen s < 14 -> is_name (s ++ 0 :: rest) s) as Hname by (intros s rest H1 H2; split; [done|]; left; split; [done | by exists rest]).
  destruct (link_root m1 [] 1 [46; 0] [46]) as (de & m2 & -> & B1 & B2 & B3 & B4 & B5 & B6); [done | done | apply (Hname [46] []); [repeat constructor; unfold is_char; lia | done] | lia | done | cbn [length]; change (16 * (Z.of_nat 0 + 1)) with 16; change (16 * Z.of_nat 0) with 0; change (need 16) with 1; change (need 0) with 0; unfold fshome; lia|].
  rewrite rbind_ok, B1, rbind_ok. cbn [app length] in B3, B5. change (16 * (Z.of_nat 0 + 1)) with 16 in B5. change (need 16) with 1 in B5. change (need (16 * Z.of_nat 0)) with 0 in B5.
  destruct (link_root m2 [(1, [46])] 1 [46; 46; 0] [46; 46]) as (de2 & m3 & -> & C1 & C2 & C3 & C4 & C5 & C6); [done | done | apply (Hname [46; 46] []); [repeat constructor; unfold is_char; lia | done] | lia | cbn; lia | cbn [length]; change (need (16 * (Z.of_nat 1 + 1))) with 1; change (need (16 * Z.of_nat 1)) with 1; unfold fshome; lia|].
  rewrite rbind_ok, C1, rbind_ok. cbn [app length] in C3, C5. change (need (16 * (Z.of_nat 1 + 1))) with 1 in C5. change (need (16 * Z.of_nat 1)) with 1 in C5.
  destruct (add_files_ok fs names m3 [(1, [46]); (1, [46; 46])] []) as (m4 & -> & D1 & D2); [done | | cbn [length]; lia | done | |].
  { split; [done | done | done | cbn [length]; lia]. }
  { cbn [length]. change (need (16 * Z.of_nat 2)) with 1. replace (Z.of_nat 2 + zlen fs) with (zlen fs + 2) by lia. unfold fshome. lia. }
  rewrite rbind_ok. exists m4. split; [done|]. split; [done|]. rewrite D2. cbn [length]. change (need (16 * Z.of_nat 2)) with 1. replace (Z.of_nat 2 + zlen fs) with (zlen fs + 2) by lia. lia.
Qed.

(** C6: mkfs builds a file system that the kernel's operations are proved for.  Take at
    most 198 files (from the 202nd inode on [ialloc] writes over the bitmap) of at most
    the largest size, whose number plus 2 is not a multiple of 32 (in that case the root
    directory gets a hole: C39), and whose blocks fit below the 4096 that the bitmap
    covers.  Then the program ends, and every device that holds the image satisfies
    [fs_ok], its root directory lists ".", ".." and the files in order, padded with
    free entries, every file has the bytes that were read, and the log is empty. *)
Theorem mkfs_image fs names :
  Forall2 infile_ok fs names -> zlen fs <= 198 -> (zlen fs + 2) mod 32 <> 0 -> 205 + need (16 * (zlen fs + 2)) + cost fs < 4096 ->
  exists m, mkfs_main fs = Ok m /\ len m = fssize /\ (forall s, fshome <= s < fssize -> img m s = zeros) /\
    forall {D} `{!BlockDev D} `{!BlockLaws D} (d : D), dev_ok d -> home d = fshome -> (forall s, 0 <= s < fshome -> sect d s = img m s) ->
      fs_ok mkfs_sb d /\
      (exists c, file_in (sect d) ROOTINO T_DIR c /\
         dir_entries c = ((1, [46]) :: (1, [46; 46]) :: entries_from 2 names) ++ replicate (Z.to_nat (32 - (zlen fs + 2) mod 32)) (0, [])) /\
      (forall k f, fs !! k = Some f -> file_in (sect d) (2 + Z.of_nat k) T_FILE (concat (f_reads f))).
Proof.
  intros HF Hc Hmod Hfb. destruct (mkfs_builds fs names HF Hc Hfb) as (m1 & -> & B1 & B2). set (es := (1, [46]) :: (1, [46; 46]) :: entries_from 2 names) in *.
  assert (zlen es = zlen fs + 2) as Hes.
  { assert (forall x l, length (entries_from x l) = length l) as El by (intros x l; revert x; induction l as [|s l IH]; intros x; cbn; [done | by rewrite IH]).
    unfold es. cbn [length]. rewrite El, (Forall2_length _ _ _ HF). lia. }
  destruct (fix_root_ok m1 es fs) as (m2 & -> & C1 & C2); [done | lia | by rewrite Hes|]. rewrite rbind_ok. rewrite Hes in C1. pose proof C1 as [Hok Hroot Hfiles _].
  pose proof (mi_image m2 Hok) as Hi. destruct (mk_balloc_ok m2 Hi) as (b & -> & Himg); [lia|]. set (m := wsect m2 203 b) in *.
  exists m. split; [done|]. split; [cbn; rewrite (io_len m2 Hi); done|]. pose proof (io_free m2 Hi) as Hfr. split.
  { intros s Hs. unfold fshome, fssize in *. rewrite Himg, (proj2 (Z.eqb_neq _ _)) by (unfold fssize; lia). apply (io_zero m2 Hi). unfold fssize. lia. }
  intros D HD HL d Hd Hh Hs.
  assert (forall s, 0 <= s < fshome -> sect d s = view m2 s) as Hv.
  { intros s Hx. unfold fshome in Hx. rewrite Hs, Himg by (unfold fssize, fshome; lia). unfold view, is_bitmap. destruct (Z.eqb_spec s 203) as [->|Hne]; [done|].
    destruct (Z.leb_spec 203 s), (Z.leb_spec s 204); cbn [andb]; try done. assert (s = 204) as -> by lia.
    cbn. rewrite (io_map2 m2 Hi). symmetry. apply bitmap_sect_204. lia. }
  destruct (fs_ok_device d (vdisk m2) (mi_fs m2 Hok) Hd Hh Hv) as [Hfs Ha]. split; [done|]. split.
  - destruct Hroot as (c & Hc1 & _ & Hc2). exists c. split; [|done]. exact (file_agree m2 _ _ _ _ Hok Ha Hc1).
  - intros k f Hk. exact (file_agree m2 _ _ _ _ Hok Ha (Hfiles k f Hk)).
Qed.

Definition demo_files : list infile := [mk_infile [95; 99; 97; 116; 0] [[127; 69; 76; 70]; [1; 2; 3]]; mk_infile [82; 0] []].

Lemma demo_files_ok : Forall2 infile_ok demo_files [[99; 97; 116]; [82]].
Proof.
  assert (forall f s rest, 47 ∉ f_name f -> strip (f_name f) = s ++ 0 :: rest -> zlen s < 14 -> Forall is_char s -> Forall (Forall byte_ok) (f_reads f) ->
    zlen (concat (f_reads f)) <= MAXFILE * BSIZE -> infile_ok f s) as H.
  { intros f s rest H1 H2 H3 H4 H5 H6. split; try done. split; [done|]. left. split; [done | by exists rest]. }
  constructor; [|constructor; [|constructor]]; apply (H _ _ []); try done; try (cbn; rewrite !not_elem_of_cons; split_and!; (done || apply not_elem_of_nil));
    repeat constructor; unfold is_char, byte_ok; lia.
Qed.

Lemma mkfs_image_witness :
  exists m, mkfs_main demo_files = Ok m /\
    forall {D} `{!BlockDev D} `{!BlockLaws D} (d : D), dev_ok d -> home d = fshome -> (forall s, 0 <= s < fshome -> sect d s = img m s) -> fs_ok mkfs_sb d.
Proof.
  destruct (mkfs_image demo_files [[99; 97; 116]; [82]] demo_files_ok) as (m & E & _ & _ & H); [cbn; lia | vm_compute; discriminate | vm_compute; reflexivity|].
  exists m. split; [exact E|]. intros D HD HL d H1 H2 H3. by apply (H D HD HL d H1 H2 H3).
Defined.

(** C39: when the entries fill the last block of the root directory (30, 62, ... files),
    mkfs still adds a block to its size, but no block to the directory: the image
    breaks the invariant of the file system. *)
Theorem mkfs_root_hole fs names :
  Forall2 infile_ok fs names -> zlen fs <= 198 -> (zlen fs + 2) mod 32 = 0 -> 205 + need (16 * (zlen fs + 2)) + cost fs < 4096 ->
  exists m, mkfs_main fs = Ok m /\
    forall {D} `{!BlockDev D} `{!BlockLaws D} (d : D), dev_ok d -> home d = fshome -> (forall s, 0 <= s < fshome -> sect d s = img m s) -> ~ fs_ok mkfs_sb d.
Proof.
  intros HF Hc Hmod Hfb. destruct (mkfs_builds fs names HF Hc Hfb) as (m1 & -> & [Hok (c & Hroot & Hlen & Hes) _ _] & B2).
  assert (zlen c = 16 * (zlen fs + 2)) as Hlc.
  { assert (forall x l, length (entries_from x l) = length l) as El by (intros x l; revert x; induction l as [|s l IH]; intros x; cbn; [done | by rewrite IH]).
    rewrite Hlen. cbn [length]. rewrite El, (Forall2_length _ _ _ HF). lia. }
  pose proof (file_size m1 1 T_DIR c Hok Hroot) as Es. pose proof Hroot as [Hl E1 _ _]. pose proof Hok as [M1 M2 M3 M4 M5 M6].
  destruct (rinode_ok m1 1 M1 (proj1 Hl)) as (din & Er & En). set (sz := (zlen c / BSIZE + 1) * BSIZE).
  unfold fix_root. rewrite Er, rbind_ok. assert (d_size din = zlen c) as Ed by (change (d_size din) with (i_size (node 1 din)); by rewrite En).
  rewrite Ed, (xint_id (zlen c)) by (consts; lia). fold sz. rewrite xint_id by (unfold sz; consts; lia).
  destruct (winode_ok m1 1 (set_dsize sz din) M1 (proj1 Hl)) as (b & -> & I2 & _ & Hd).
  { assert (fits (node 1 din)) as [F1 F2 F3 F4 F5 F6 F7 F8] by (rewrite En; apply dnode_fits, (view_ok m1 M1); unfold fshome; rewrite IBLOCK_eq; lia).
    split; try done. cbn. unfold sz. consts. lia. }
  rewrite rbind_ok. set (m2 := wsect m1 (IBLOCK 1) b) in *. destruct (mk_balloc_ok m2 I2) as (bm & -> & Himg); [cbn; lia|]. eexists. split; [done|].
  intros D HD HL d Hdev Hh Hs Hfs. assert (dnode (sect d) 1 = node 1 (set_dsize sz din)) as Edn.
  { rewrite <- Hd. apply dnode_ext. rewrite Hs, Himg, (proj2 (Z.eqb_neq _ _)) by (rewrite IBLOCK_eq; unfold fshome, fssize; lia). by rewrite view_plain by (apply iblock_small, (proj1 Hl)). }
  destruct (f_file _ _ Hfs 1) as [_ [_ Hcov]]; [split; [apply Hl | rewrite Edn; change (i_type (node 1 din) <> 0); rewrite En; apply Hl]|].
  rewrite Edn in Hcov. apply (Hcov (zlen c)); [cbn; unfold sz; consts; lia|]. unfold blk. set (n := bslot (zlen c / BSIZE)).
  assert (n = need (zlen c) /\ 0 <= n <= NDIRECT) as [En' Hn] by (unfold n, bslot, need, nslots; consts; rewrite (proj2 (Z.ltb_lt _ _)), (proj2 (Z.leb_le _ _)) by lia; lia).
  rewrite slot_addr by lia. change (addr (node 1 din) n = 0). rewrite <- (slot_addr (view m1)), En by lia.
  destruct (Z.eq_dec (slot (view m1) (dnode (view m1) 1) n) 0) as [|Hz]; [done|]. apply (M5 1 Hl) in Hz; [rewrite Es in Hz; lia | consts; lia].
Qed.

Lemma thirty_files_ok : Forall2 infile_ok (replicate 30 (mk_infile [82; 0] [])) (replicate 30 [82]).
Proof. apply Forall2_replicate. pose proof demo_files_ok as H. unfold demo_files in H. by inversion_clear H as [|? ? ? ? _ H']; inversion_clear H'. Qed.

Lemma mkfs_root_hole_witness :
  exists m, mkfs_main (replicate 30 (mk_infile [82; 0] [])) = Ok m /\ forall p : pdisk, pdisk_ok p -> psect p = img m -> ~ fs_ok mkfs_sb p.
Proof.
  destruct (mkfs_root_hole _ _ thirty_files_ok) as (m & E & H); [vm_compute; discriminate | reflexivity | vm_compute; reflexivity|].
  exists m. split; [exact E|]. intros p H1 H2. apply (H pdisk pdisk_dev pdisk_laws p H1 eq_refl). intros s _. cbn. by rewrite H2.
Defined.
