(* ===== verification/Ide.v ===== *)
(** The disk driver: src/src/ide.c, on the [struct buf] of src/src/buf.h.

    The drive is hardware: the class [Drive] has the port accesses the driver
    makes, and [DriveLaws] what a drive without errors does, as the ATA standard
    documents it for PIO transfers: the address of a transfer is taken from the
    registers at the command, a transfer ends some time after the command
    ([finish], with the interrupt), the data of a read can then be taken.
    [idestart] sends the data of a write right after the command and does not wait
    for the drive to ask for them (DRQ), so [outb_write] is the law of a drive that
    takes them at once; nothing is claimed of a drive that reports errors, or that
    has to be waited for there.  [Ata] is such a drive.

    A [struct buf *] is an address, 0 the null pointer.  [ideintr] runs under
    [idelock] as a whole and [iderw] up to its [sleep], so each of them is one
    step; the part of [iderw] after it only looks at the flags of the buffer
    ([iderw_done]).  The interrupt controllers, which [ideinit] switches on, are
    not part of the state. *)
From stdpp Require Import gmap.
From S2P Require Import Prelude.

Definition B_BUSY : Z := 0x1.
Definition B_VALID : Z := 0x2.
Definition B_DIRTY : Z := 0x4.
Definition IDE_BSY : Z := 0x80.
Definition IDE_DRDY : Z := 0x40.
Definition IDE_DF : Z := 0x20.
Definition IDE_ERR : Z := 0x01.
Definition IDE_CMD_READ : Z := 0x20.
Definition IDE_CMD_WRITE : Z := 0x30.

(** [struct buf], without the links of the buffer cache. *)
Record buf := mk_buf { flags : Z; dev : Z; sector : Z; qnext : Z; data : list Z }.
Definition set_flags (v : Z) (b : buf) : buf := mk_buf v (dev b) (sector b) (qnext b) (data b).
Definition set_qnext (v : Z) (b : buf) : buf := mk_buf (flags b) (dev b) (sector b) v (data b).
Definition set_data (v : list Z) (b : buf) : buf := mk_buf (flags b) (dev b) (sector b) (qnext b) v.

(** * The drive *)

Class Drive := {
  dst : Type;
  inb : dst -> Z * dst;                 (** [inb(0x1f7)], the status *)
  outb : dst -> Z -> Z -> dst;
  outsl : dst -> list Z -> dst;         (** [outsl(0x1f0, ...)], a sector of data *)
  insl : dst -> list Z * dst;           (** [insl(0x1f0, ...)] *)
  patience : nat;                       (** reads of the status until the drive is ready *)
}.

(** A transfer of one sector. *)
Inductive transfer := Reading (dv lba : Z) | Writing (dv lba : Z) (l : list Z).

(** * The driver *)

Section Driver.
Context `{Drive}.

Record ide := mk_ide { idequeue : Z; bufs : gmap Z buf; havedisk1 : bool; drive : dst }.
Definition set_idequeue (v : Z) (s : ide) : ide := mk_ide v (bufs s) (havedisk1 s) (drive s).
Definition set_bufs (v : gmap Z buf) (s : ide) : ide := mk_ide (idequeue s) v (havedisk1 s) (drive s).
Definition set_drive (v : dst) (s : ide) : ide := mk_ide (idequeue s) (bufs s) (havedisk1 s) v.

Definition deref (s : ide) (b : Z) : result buf := match bufs s !! b with Some x => Ok x | None => Err OutOfBounds end.
Definition assign (s : ide) (b : Z) (f : buf -> buf) : result ide :=
  let! x := deref s b in Ok (set_bufs (<[b := f x]> (bufs s)) s).

Fixpoint idewait_loop (n : nat) (d : dst) : result (Z * dst) :=
  match n with
  | O => Err OutOfFuel
  | S n' =>
      let '(r, d) := inb d in
      if Z.land r (Z.lor IDE_BSY IDE_DRDY) =? IDE_DRDY then Ok (r, d) else idewait_loop n' d
  end.

Definition idewait (checkerr : bool) (d : dst) : result (Z * dst) :=
  let! '(r, d) := idewait_loop patience d in
  if checkerr && negb (Z.land r (Z.lor IDE_DF IDE_ERR) =? 0) then Ok (-1, d) else Ok (0, d).

(** The loop that looks for disk 1. *)
Fixpoint probe (n : nat) (d : dst) : bool * dst :=
  match n with
  | O => (false, d)
  | S n' => let '(r, d) := inb d in if negb (r =? 0) then (true, d) else probe n' d
  end.

Definition ideinit (s : ide) : result ide :=
  let! '(_, d) := idewait false (drive s) in
  let d := outb d 0x1f6 (Z.lor 0xe0 (Z.shiftl 1 4)) in
  let '(found, d) := probe 1000 d in
  let d := outb d 0x1f6 (Z.lor 0xe0 (Z.shiftl 0 4)) in
  Ok (mk_ide (idequeue s) (bufs s) (found || havedisk1 s) d).

(** The writes of [idestart] to the drive for the buffer [x]. *)
Definition issue (d : dst) (x : buf) : dst :=
  let d := outb d 0x3f6 0 in
  let d := outb d 0x1f2 1 in
  let d := outb d 0x1f3 (Z.land (sector x) 0xff) in
  let d := outb d 0x1f4 (Z.land (Z.shiftr (sector x) 8) 0xff) in
  let d := outb d 0x1f5 (Z.land (Z.shiftr (sector x) 16) 0xff) in
  let d := outb d 0x1f6 (Z.lor (Z.lor 0xe0 (Z.shiftl (Z.land (dev x) 1) 4)) (Z.land (Z.shiftr (sector x) 24) 0x0f)) in
  if negb (Z.land (flags x) B_DIRTY =? 0) then
    let d := outb d 0x1f7 IDE_CMD_WRITE in
    outsl d (data x)
  else outb d 0x1f7 IDE_CMD_READ.

Definition idestart (s : ide) (b : Z) : result ide :=
  if b =? 0 then Err Panic
  else
    let! '(_, d) := idewait false (drive s) in
    let! x := deref s b in
    Ok (set_drive (issue d x) s).

(** [b->flags |= B_VALID; b->flags &= ~B_DIRTY] *)
Definition mark_done (s : ide) (b : Z) : result ide :=
  let! x := deref s b in
  let! s := assign s b (set_flags (Z.lor (flags x) B_VALID)) in
  let! x := deref s b in
  assign s b (set_flags (Z.land (flags x) (Z.lnot B_DIRTY))).

(** The interrupt handler; also the buffer whose processes are woken. *)
Definition ideintr (s : ide) : result (ide * option Z) :=
  let b := idequeue s in
  if b =? 0 then Ok (s, None)
  else
    let! x := deref s b in
    let s := set_idequeue (qnext x) s in
    let! s :=
      if Z.land (flags x) B_DIRTY =? 0 then
        let! '(r, d) := idewait true (drive s) in
        if 0 <=? r then
          let '(l, d) := insl d in
          assign (set_drive d s) b (set_data l)
        else Ok (set_drive d s)
      else Ok s in
    let! s := mark_done s b in
    let! s := if negb (idequeue s =? 0) then idestart s (idequeue s) else Ok s in
    Ok (s, Some b).

(** [for(pp=&idequeue; *pp; pp=&( *pp)->qnext)]: the buffer whose [qnext] is the
    last pointer of the queue, 0 for [idequeue] itself. *)
Fixpoint queue_end (n : nat) (s : ide) (at_ p : Z) : result Z :=
  match n with
  | O => Err OutOfFuel
  | S n' => if p =? 0 then Ok at_ else let! x := deref s p in queue_end n' s p (qnext x)
  end.

(** [iderw] up to its [sleep]. *)
Definition iderw (s : ide) (b : Z) : result ide :=
  let! x := deref s b in
  if Z.land (flags x) B_BUSY =? 0 then Err Panic
  else if Z.land (flags x) (Z.lor B_VALID B_DIRTY) =? B_VALID then Err Panic
  else if negb (dev x =? 0) && negb (havedisk1 s) then Err Panic
  else
    let! s := assign s b (set_qnext 0) in
    let! at_ := queue_end (S (S (size (bufs s)))) s 0 (idequeue s) in
    let! s := if at_ =? 0 then Ok (set_idequeue b s) else assign s at_ (set_qnext b) in
    if idequeue s =? b then idestart s b else Ok s.

(** [iderw] returns. *)
Definition iderw_done (s : ide) (b : Z) : result bool :=
  let! x := deref s b in
  Ok (Z.land (flags x) (Z.lor B_VALID B_DIRTY) =? B_VALID).
End Driver.

(** * What a drive does *)

(** The device and the sector the registers [r] address, from the bytes of the
    address. *)
Definition dev_of (r : Z -> Z) : Z := r 0x1f6 / 16 mod 2.
Definition lba_of (r : Z -> Z) : Z := r 0x1f3 + 2 ^ 8 * r 0x1f4 + 2 ^ 16 * r 0x1f5 + 2 ^ 24 * (r 0x1f6 mod 16).

Definition is_reg (p : Z) : Prop := 0x1f2 <= p <= 0x1f6.
Definition written (m : Z -> Z -> list Z) (dv lba : Z) (l : list Z) : Z -> Z -> list Z :=
  fun dv' lba' => if (dv' =? dv) && (lba' =? lba) then l else m dv' lba'.

Class DriveLaws `{Drive} := {
  reg : dst -> Z -> Z;                          (** the registers *)
  medium : dst -> Z -> Z -> list Z;             (** the sectors *)
  work : dst -> option transfer;                (** the transfer under way *)
  ready : dst -> option (list Z);               (** data that can be taken *)
  finish : dst -> dst;                          (** the transfer ends *)
  wait_ready d : exists r d', idewait_loop patience d = Ok (r, d') /\ Z.land r (Z.lor IDE_DF IDE_ERR) = 0 /\
    reg d' = reg d /\ medium d' = medium d /\ work d' = work d /\ ready d' = ready d;
  outb_control d v : let d' := outb d 0x3f6 v in reg d' = reg d /\ medium d' = medium d /\ work d' = work d;
  outb_reg d p v : is_reg p -> work d = None -> let d' := outb d p v in
    (forall q, reg d' q = if q =? p then v else reg d q) /\ medium d' = medium d /\ work d' = None;
  outb_read d : work d = None -> reg d 0x1f2 = 1 -> let d' := outb d 0x1f7 IDE_CMD_READ in
    work d' = Some (Reading (dev_of (reg d)) (lba_of (reg d))) /\ medium d' = medium d;
  outb_write d l : work d = None -> reg d 0x1f2 = 1 -> zlen l = 512 -> let d' := outsl (outb d 0x1f7 IDE_CMD_WRITE) l in
    work d' = Some (Writing (dev_of (reg d)) (lba_of (reg d)) l) /\ medium d' = medium d;
  finish_read d dv lba : work d = Some (Reading dv lba) ->
    work (finish d) = None /\ medium (finish d) = medium d /\ ready (finish d) = Some (medium d dv lba);
  finish_write d dv lba l : work d = Some (Writing dv lba l) ->
    work (finish d) = None /\ medium (finish d) = written (medium d) dv lba l;
  insl_ready d l : ready d = Some l -> exists d', insl d = (l, d') /\ medium d' = medium d /\ work d' = work d;
}.

(** A drive that is busy for one read of its status after a transfer. *)
Module Ata.
Record ata := mk_ata { r : Z -> Z; m : Z -> Z -> list Z; w : option transfer; rd : option (list Z); writing : bool; busy : bool }.

Definition a_outb (d : ata) (p v : Z) : ata :=
  if p =? 0x1f7 then
    if v =? IDE_CMD_READ then mk_ata (r d) (m d) (Some (Reading (dev_of (r d)) (lba_of (r d)))) None false (busy d)
    else mk_ata (r d) (m d) (w d) None true (busy d)
  else if (0x1f2 <=? p) && (p <=? 0x1f6) then mk_ata (fun q => if q =? p then v else r d q) (m d) (w d) (rd d) (writing d) (busy d)
  else d.

#[global] Instance drive : Drive := {
  dst := ata;
  inb d := if busy d then (IDE_BSY, mk_ata (r d) (m d) (w d) (rd d) (writing d) false) else (IDE_DRDY, d);
  outb := a_outb;
  outsl d l := if writing d then mk_ata (r d) (m d) (Some (Writing (dev_of (r d)) (lba_of (r d)) l)) None false (busy d) else d;
  insl d := (default [] (rd d), mk_ata (r d) (m d) (w d) None (writing d) (busy d));
  patience := 2;
}.

Definition a_finish (d : ata) : ata :=
  match w d with
  | Some (Reading dv lba) => mk_ata (r d) (m d) None (Some (m d dv lba)) false true
  | Some (Writing dv lba l) => mk_ata (r d) (written (m d) dv lba l) None None false true
  | None => d
  end.

#[global] Program Instance laws : DriveLaws (H := drive) := {
  reg := r; medium := m; work := w; ready := rd; finish := a_finish;
}.
Next Obligation. intros [r m w rd wr []]; do 2 eexists; (split; [reflexivity | done]). Qed.
Next Obligation. done. Qed.
Next Obligation.
  intros d p v [H1 H2] Hw. cbn. unfold a_outb. rewrite (proj2 (Z.eqb_neq p 0x1f7)) by lia.
  rewrite (proj2 (Z.leb_le 0x1f2 p)), (proj2 (Z.leb_le p 0x1f6)) by lia. done.
Qed.
Next Obligation. done. Qed.
Next Obligation. done. Qed.
Next Obligation. intros d dv lba E. cbn in *. unfold a_finish. by rewrite E. Qed.
Next Obligation. intros d dv lba l E. cbn in *. unfold a_finish. by rewrite E. Qed.
Next Obligation. intros d l E. cbn in *. rewrite E. by eexists. Qed.
End Ata.

(** * The abstract driver

    Requests are queued and served in order; a served buffer is valid and not
    dirty, and its data and the sector are the same. *)

Record disk := mk_disk { queue : list Z; pool : gmap Z buf; sectors : Z -> Z -> list Z; two : bool }.

Definition dirty (x : buf) : bool := negb (Z.land (flags x) B_DIRTY =? 0).
Definition unit_of (x : buf) : Z := Z.land (dev x) 1.
Definition served (x : buf) : Z := Z.land (Z.lor (flags x) B_VALID) (Z.lnot B_DIRTY).

Definition submit (a : disk) (b : Z) : disk := mk_disk (queue a ++ [b]) (pool a) (sectors a) (two a).

Definition serve (a : disk) : disk :=
  match queue a with
  | [] => a
  | b :: q =>
      match pool a !! b with
      | None => a
      | Some x =>
          if dirty x then mk_disk q (<[b := set_flags (served x) x]> (pool a)) (written (sectors a) (unit_of x) (sector x) (data x)) (two a)
          else mk_disk q (<[b := set_flags (served x) (set_data (sectors a (unit_of x) (sector x)) x)]> (pool a)) (sectors a) (two a)
      end
  end.

(** A buffer that can be given to [iderw]: locked, with something to do, and on
    a device and a sector the drive has. *)
Definition legal (a : disk) (b : Z) : Prop :=
  b <> 0 /\ b ∉ queue a /\
  exists x, pool a !! b = Some x /\ Z.land (flags x) B_BUSY <> 0 /\ Z.land (flags x) (Z.lor B_VALID B_DIRTY) <> B_VALID /\
    (dev x = 0 \/ two a = true) /\ 0 <= sector x < 2 ^ 28 /\ zlen (data x) = 512.

(** * The driver does what the abstract one does *)

Definition transfer_of (x : buf) : transfer :=
  if dirty x then Writing (unit_of x) (sector x) (data x) else Reading (unit_of x) (sector x).

Fixpoint linked (m : gmap Z buf) (p : Z) (q : list Z) : Prop :=
  match q with
  | [] => p = 0
  | b :: q => p = b /\ b <> 0 /\ exists x, m !! b = Some x /\ linked m (qnext x) q
  end.

(** The address is put together again from its bytes. *)
Lemma address_bytes s : 0 <= s < 2 ^ 28 ->
  Z.land s 0xff + 2 ^ 8 * Z.land (Z.shiftr s 8) 0xff + 2 ^ 16 * Z.land (Z.shiftr s 16) 0xff + 2 ^ 24 * Z.land (Z.shiftr s 24) 0x0f = s.
Proof.
  intros Hs. change 0xff with (Z.ones 8). change 0x0f with (Z.ones 4). rewrite !Z.land_ones, !Z.shiftr_div_pow2 by lia.
  change (2 ^ 28) with 268435456 in Hs. change (2 ^ 8) with 256. change (2 ^ 16) with 65536. change (2 ^ 24) with 16777216. change (2 ^ 4) with 16.
  Z.to_euclidean_division_equations. lia.
Qed.

Lemma device_byte u h : 0 <= u < 2 -> 0 <= h < 16 ->
  let v := Z.lor (Z.lor 0xe0 (Z.shiftl u 4)) h in v / 16 mod 2 = u /\ v mod 16 = h.
Proof.
  intros Hu Hh. assert (forallb (fun u => forallb (fun h => let v := Z.lor (Z.lor 0xe0 (Z.shiftl u 4)) h in
    (v / 16 mod 2 =? u) && (v mod 16 =? h)) (seqZ 0 16)) (seqZ 0 2) = true) as E by (vm_compute; reflexivity).
  rewrite forallb_forall in E. specialize (E u). rewrite <- list_elem_of_In, elem_of_seqZ, forallb_forall in E.
  specialize (E ltac:(lia) h). rewrite <- list_elem_of_In, elem_of_seqZ, andb_true_iff, !Z.eqb_eq in E. apply E. lia.
Qed.

Lemma last_default {A} (q : list A) x d e : List.last (x :: q) d = List.last (x :: q) e.
Proof. revert x. induction q as [|y q IH]; intros x; [done|]. apply (IH y). Qed.

Lemma queue_size (m : gmap Z buf) q : NoDup q -> Forall (fun b => is_Some (m !! b)) q -> (length q <= size m)%nat.
Proof.
  intros Hnd Hq. rewrite <- (size_list_to_set (C := gset Z) q) by done. rewrite <- (size_dom (D := gset Z) m).
  apply subseteq_size. intros b Hb. apply elem_of_list_to_set in Hb. rewrite Forall_forall in Hq. by apply elem_of_dom, Hq.
Qed.

Definition is_done (x : buf) : Prop := Z.land (flags x) (Z.lor B_VALID B_DIRTY) = B_VALID.

Lemma served_done f : Z.land (Z.land (Z.lor f B_VALID) (Z.lnot B_DIRTY)) (Z.lor B_VALID B_DIRTY) = B_VALID.
Proof.
  rewrite <- Z.land_assoc. change (Z.land (Z.lnot B_DIRTY) (Z.lor B_VALID B_DIRTY)) with 2. rewrite Z.land_lor_distr_l.
  change (Z.land B_VALID 2) with 2. change B_VALID with 2. rewrite Z.lor_comm. apply Z.bits_inj'. intros n Hn.
  rewrite Z.lor_spec, Z.land_spec. by destruct (Z.testbit f n), (Z.testbit 2 n).
Qed.

(** The first request is served, the others stay as they are. *)
Lemma serve_head a b q x : queue a = b :: q -> pool a !! b = Some x ->
  queue (serve a) = q /\ (exists y, pool (serve a) !! b = Some y /\ is_done y) /\ forall c, c <> b -> pool (serve a) !! c = pool a !! c.
Proof.
  intros Eq Hx. unfold serve. rewrite Eq, Hx. destruct (dirty x); cbn; (split; [done|]); split;
    try (intros c Hc; by rewrite lookup_insert_ne); (eexists; split; [apply lookup_insert_eq | apply served_done]).
Qed.

Lemma serve_until q1 a b q2 :
  queue a = q1 ++ b :: q2 -> NoDup (queue a) -> Forall (fun c => is_Some (pool a !! c)) (queue a) ->
  exists y, pool (Nat.iter (S (length q1)) serve a) !! b = Some y /\ is_done y.
Proof.
  revert a. induction q1 as [|c q1 IH]; intros a Eq Hnd Hall; rewrite Eq in Hnd, Hall; cbn [app] in *;
    apply Forall_cons in Hall as [[x Hx] Hall]; destruct (serve_head a _ _ x Eq Hx) as (Eq' & Hd & Hrest).
  - exact Hd.
  - apply NoDup_cons in Hnd as [Hc Hnd]. cbn [length]. rewrite Nat.iter_succ_r. apply IH; [done | by rewrite Eq'|]. rewrite Eq'.
    apply Forall_forall. intros e He. rewrite Hrest by (intros ->; done). rewrite Forall_forall in Hall. by apply Hall.
Qed.

Section Refinement.
Context `{DriveLaws}.

(** The registers are written and the command is given. *)
Lemma issue_work d x :
  work d = None -> 0 <= sector x < 2 ^ 28 -> zlen (data x) = 512 ->
  work (issue d x) = Some (transfer_of x) /\ medium (issue d x) = medium d.
Proof.
  intros Hw Hs Hl. unfold issue. destruct (outb_control d 0) as (_ & M0 & W0). rewrite Hw in W0.
  set (d0 := outb d 0x3f6 0) in *.
  destruct (outb_reg d0 0x1f2 1 ltac:(unfold is_reg; lia) W0) as (R1 & M1 & W1). set (d1 := outb d0 _ _) in *.
  set (v3 := Z.land (sector x) 0xff). destruct (outb_reg d1 0x1f3 v3 ltac:(unfold is_reg; lia) W1) as (R2 & M2 & W2). set (d2 := outb d1 _ _) in *.
  set (v4 := Z.land (Z.shiftr (sector x) 8) 0xff). destruct (outb_reg d2 0x1f4 v4 ltac:(unfold is_reg; lia) W2) as (R3 & M3 & W3). set (d3 := outb d2 _ _) in *.
  set (v5 := Z.land (Z.shiftr (sector x) 16) 0xff). destruct (outb_reg d3 0x1f5 v5 ltac:(unfold is_reg; lia) W3) as (R4 & M4 & W4). set (d4 := outb d3 _ _) in *.
  set (h := Z.land (Z.shiftr (sector x) 24) 0x0f). set (v6 := Z.lor _ h).
  destruct (outb_reg d4 0x1f6 v6 ltac:(unfold is_reg; lia) W4) as (R5 & M5 & W5). set (d5 := outb d4 _ _) in *.
  assert (dev_of (reg d5) = unit_of x /\ lba_of (reg d5) = sector x) as [Ed El].
  { unfold dev_of, lba_of. rewrite !R5, !R4, !R3, !R2. cbn [Z.eqb Pos.eqb].
    destruct (device_byte (unit_of x) h) as [E1 E2].
    - unfold unit_of. change 1 with (Z.ones 1). rewrite Z.land_ones by lia. change (2 ^ 1) with 2. apply Z.mod_pos_bound. lia.
    - unfold h. change 0x0f with (Z.ones 4). rewrite Z.land_ones by lia. apply Z.mod_pos_bound. lia.
    - unfold v6. fold (unit_of x). rewrite E1, E2. split; [done | by apply address_bytes]. }
  assert (reg d5 0x1f2 = 1) as E2 by (by rewrite R5, R4, R3, R2, R1). unfold transfer_of, dirty.
  destruct (negb (Z.land (flags x) B_DIRTY =? 0)).
  - destruct (outb_write d5 (data x) W5 E2 Hl) as [-> ->]. rewrite Ed, El. split; [done | congruence].
  - destruct (outb_read d5 W5 E2) as [-> ->]. rewrite Ed, El. split; [done | congruence].
Qed.

(** The state [s] of the driver implements the abstract state [a]: the queue is
    linked through the buffers, and its first request is under way. *)
Definition can_transfer (m : gmap Z buf) (b : Z) : Prop :=
  exists x, m !! b = Some x /\ 0 <= sector x < 2 ^ 28 /\ zlen (data x) = 512.
Definition under_way (a : disk) : option transfer := b ← head (queue a); transfer_of <$> pool a !! b.
Definition implements (s : ide) (a : disk) : Prop :=
  linked (bufs s) (idequeue s) (queue a) /\ NoDup (queue a) /\ pool a = set_qnext 0 <$> bufs s /\
  Forall (can_transfer (pool a)) (queue a) /\ medium (drive s) = sectors a /\ work (drive s) = under_way a /\ havedisk1 s = two a.

Lemma pool_buf s a b x0 : pool a = set_qnext 0 <$> bufs s -> pool a !! b = Some x0 -> exists x, bufs s !! b = Some x /\ x0 = set_qnext 0 x.
Proof. intros ->. rewrite lookup_fmap, fmap_Some. done. Qed.

Lemma relink_pool (m : gmap Z buf) b x v : m !! b = Some x -> set_qnext 0 <$> <[b := set_qnext v x]> m = set_qnext 0 <$> m.
Proof. intros Hx. rewrite fmap_insert. apply insert_id. by rewrite lookup_fmap, Hx. Qed.

Lemma linked_insert m p q b x : linked m p q -> b ∉ q -> linked (<[b := x]> m) p q.
Proof.
  revert p. induction q as [|c q IH]; [done|]. intros p (-> & Hc & y & Hy & Hq) Hb. apply not_elem_of_cons in Hb as [Hne Hb].
  split; [done|]. split; [done|]. exists y. rewrite lookup_insert_ne by done. auto.
Qed.

Lemma linked_snoc m p q c b x y :
  linked m p (q ++ [c]) -> NoDup (q ++ [c]) -> b ∉ q ++ [c] -> m !! c = Some x -> m !! b = Some y -> qnext y = 0 -> b <> 0 ->
  linked (<[c := set_qnext b x]> m) p ((q ++ [c]) ++ [b]).
Proof.
  revert p. induction q as [|d q IH]; intros p Hl Hnd Hb Hc Hy Hz Hb0; cbn [app linked] in *.
  - destruct Hl as (-> & Hc0 & _). split; [done|]. split; [done|]. eexists. split; [apply lookup_insert_eq|]. cbn.
    split; [done|]. split; [done|]. exists y. rewrite lookup_insert_ne by set_solver. done.
  - destruct Hl as (-> & Hd & z & Hzl & Hl). apply NoDup_cons in Hnd as [Hnin Hnd]. apply not_elem_of_cons in Hb as [_ Hb].
    split; [done|]. split; [done|]. exists z. rewrite lookup_insert_ne by set_solver. split; [done|]. by apply IH.
Qed.

Lemma queue_end_last n s e p q :
  linked (bufs s) p q -> (length q < n)%nat -> queue_end n s e p = Ok (List.last q e).
Proof.
  revert e p n. induction q as [|b q IH]; intros e p [|n] Hl Hn; cbn in Hn; try lia; cbn [queue_end linked] in *.
  - by rewrite Hl.
  - destruct Hl as (-> & Hb & x & Hx & Hl). rewrite (proj2 (Z.eqb_neq b 0)) by done. unfold deref. rewrite Hx. cbn [rbind].
    rewrite (IH b) by (done || lia). destruct q as [|c q]; [done|]. f_equal. apply (last_default q c b e).
Qed.

(** A request is started on the idle drive. *)
Lemma idestart_work s b x :
  b <> 0 -> bufs s !! b = Some x -> 0 <= sector x < 2 ^ 28 -> zlen (data x) = 512 -> work (drive s) = None ->
  exists d, idestart s b = Ok (set_drive d s) /\ work d = Some (transfer_of x) /\ medium d = medium (drive s).
Proof.
  intros Hb Hx Hs Hl Hw. unfold idestart, idewait, deref. rewrite (proj2 (Z.eqb_neq b 0)), Hx by done.
  destruct (wait_ready (drive s)) as (r & d & -> & _ & _ & Hm & Hw' & _). cbn [rbind andb].
  destruct (issue_work d x) as [E1 E2]; [congruence | done | done|]. eexists. split; [done|]. split; [done | congruence].
Qed.

Lemma iderw_submits s a b :
  implements s a -> legal a b -> exists s', iderw s b = Ok s' /\ implements s' (submit a b).
Proof.
  intros (Hlink & Hnd & Hpool & Hq & Hm & Hw & Htwo) (Hb0 & Hbq & x0 & Hx0 & Hbusy & Htodo & Hdev & Hs & Hl).
  destruct (pool_buf s a b x0 Hpool Hx0) as (x & Hx & ->). cbn in Hbusy, Htodo, Hdev, Hs, Hl.
  unfold iderw, deref at 1. rewrite Hx. cbn [rbind]. rewrite (proj2 (Z.eqb_neq _ 0) Hbusy), (proj2 (Z.eqb_neq _ B_VALID) Htodo).
  assert (negb (dev x =? 0) && negb (havedisk1 s) = false) as ->.
  { rewrite Htwo. destruct Hdev as [-> | ->]; [done | apply andb_false_r]. }
  unfold assign at 1, deref at 1. rewrite Hx. cbn [rbind]. set (m := <[b := set_qnext 0 x]> (bufs s)).
  assert (m !! b = Some (set_qnext 0 x)) as Hmb by apply lookup_insert_eq.
  assert (set_qnext 0 <$> m = pool a) as Hpm by (rewrite Hpool; by apply relink_pool).
  assert (linked m (idequeue s) (queue a)) as Hlink' by (by apply linked_insert).
  assert (length (queue a) <= size m)%nat as Hsize.
  { apply queue_size; [done|]. eapply Forall_impl; [exact Hq|]. intros c (y & Hy & _). rewrite <- Hpm, lookup_fmap in Hy. by destruct (m !! c). }
  rewrite (queue_end_last _ (set_bufs m s) 0 (idequeue s) (queue a)) by (done || (cbn; lia)). cbn [rbind].
  assert (NoDup (queue a ++ [b])) as Hnd'.
  { apply NoDup_app. split; [done|]. split; [|apply NoDup_singleton]. intros c Hc ->%list_elem_of_singleton. done. }
  assert (Forall (can_transfer (pool a)) (queue a ++ [b])) as Hq'.
  { apply Forall_app. split; [done|]. constructor; [|constructor]. exists (set_qnext 0 x). done. }
  destruct (queue a) as [|c0 q0] eqn:Eq0.
  - cbn in Hlink'. cbn [List.last Z.eqb rbind set_idequeue idequeue]. rewrite Z.eqb_refl. unfold under_way in Hw. rewrite Eq0 in Hw.
    destruct (idestart_work (set_idequeue b (set_bufs m s)) b (set_qnext 0 x)) as (d & -> & Wd & Md); [done..|].
    eexists. split; [done|]. unfold implements, under_way. cbn. rewrite Eq0. cbn. split_and!; try done.
    + by exists (set_qnext 0 x).
    + by rewrite Md.
    + by rewrite Wd, Hx0.
  - destruct (exists_last (l := c0 :: q0)) as (q & c & Eq); [done|]. rewrite Eq in *. rewrite List.last_last.
    assert (c <> 0 /\ exists y, m !! c = Some y) as (Hc0 & y & Hy).
    { clear - Hlink'. revert Hlink'. generalize (idequeue s). induction q as [|d q IH]; intros p; cbn.
      - intros (_ & ? & y & ? & _). eauto.
      - intros (_ & _ & y & _ & Hl). by apply IH in Hl. }
    rewrite (proj2 (Z.eqb_neq c 0)) by done. unfold assign, deref. cbn [set_bufs bufs]. rewrite Hy. cbn [rbind idequeue set_bufs].
    assert (idequeue s <> b) as Hne.
    { rewrite <- Eq in Hlink, Hbq. destruct Hlink as [-> _]. set_solver. }
    rewrite (proj2 (Z.eqb_neq _ _) Hne). eexists. split; [done|]. unfold implements, under_way in *. cbn [queue pool submit sectors two idequeue bufs set_bufs drive havedisk1].
    rewrite Eq0 in *. split_and!; try done.
    + by eapply linked_snoc.
    + rewrite relink_pool by done. by rewrite Hpm.
    + rewrite Hw, <- Eq. done.
Qed.

Lemma mark_done_eq s b x :
  bufs s !! b = Some x -> mark_done s b = Ok (set_bufs (<[b := set_flags (served x) x]> (bufs s)) s).
Proof.
  intros Hx. unfold mark_done, assign, deref. rewrite Hx. cbn [rbind bufs set_bufs]. rewrite lookup_insert_eq. cbn [rbind bufs set_bufs].
  by rewrite insert_insert_eq.
Qed.

(** The rest of the queue goes on. *)
Lemma next_starts s q p :
  linked (bufs s) (idequeue s) q -> NoDup q -> Forall (can_transfer p) q -> p = set_qnext 0 <$> bufs s -> work (drive s) = None ->
  exists d, (if negb (idequeue s =? 0) then idestart s (idequeue s) else Ok s) = Ok (set_drive d s) /\
    work d = (b ← head q; transfer_of <$> p !! b) /\ medium d = medium (drive s).
Proof.
  intros Hl _ Hq Hp Hw. destruct q as [|b q]; cbn in Hl.
  - rewrite Hl. exists (drive s). split; [by destruct s|]. done.
  - destruct Hl as (-> & Hb & x & Hx & _). rewrite (proj2 (Z.eqb_neq b 0)) by done. cbn [negb].
    apply Forall_cons in Hq as [(y & Hy & Hs & Hd) _]. rewrite Hp, lookup_fmap, Hx in Hy. injection Hy as <-.
    destruct (idestart_work s b x) as (d & -> & Wd & Md); [done..|]. exists d. split; [done|]. split; [|done].
    cbn. by rewrite Wd, Hp, lookup_fmap, Hx.
Qed.

Lemma ideintr_serves s a b q :
  implements s a -> queue a = b :: q ->
  exists s', ideintr (set_drive (finish (drive s)) s) = Ok (s', Some b) /\ implements s' (serve a).
Proof.
  intros (Hlink & Hnd & Hpool & Hq & Hm & Hw & Htwo) Eq. rewrite Eq in *. unfold under_way in Hw. rewrite Eq in Hw. cbn in Hw.
  destruct Hlink as (Ei & Hb & x & Hx & Hlink). apply NoDup_cons in Hnd as [Hbq Hnd]. apply Forall_cons in Hq as [(x0 & Hx0 & Hs & Hl) Hq].
  pose proof Hx0 as Hx0'. rewrite Hpool, lookup_fmap, Hx in Hx0'. injection Hx0' as <-. rewrite Hx0 in Hw. cbn in Hw, Hs, Hl.
  unfold ideintr. cbn [idequeue set_drive]. rewrite Ei, (proj2 (Z.eqb_neq b 0)) by done. unfold deref at 1. cbn [bufs set_drive]. rewrite Hx. cbn [rbind].
  assert (exists y d, (if Z.land (flags x) B_DIRTY =? 0 then
      let! '(r, d) := idewait true (finish (drive s)) in
      if 0 <=? r then let '(l, d) := insl d in assign (set_drive d (set_idequeue (qnext x) (set_drive (finish (drive s)) s))) b (set_data l)
      else Ok (set_drive d (set_idequeue (qnext x) (set_drive (finish (drive s)) s)))
     else Ok (set_idequeue (qnext x) (set_drive (finish (drive s)) s))) = Ok (mk_ide (qnext x) (<[b := y]> (bufs s)) (havedisk1 s) d) /\
     serve a = mk_disk q (<[b := set_qnext 0 (set_flags (served x) y)]> (pool a)) (medium d) (two a) /\ work d = None /\
     flags y = flags x) as (y & d & E & Es & Wd & Ey).
  { unfold serve. rewrite Eq, Hx0. unfold transfer_of, dirty in *. cbn in Hw |- *. destruct (Z.land (flags x) B_DIRTY =? 0); cbn [negb] in *.
    - destruct (finish_read _ _ _ Hw) as (W & M & R). unfold idewait. destruct (wait_ready (finish (drive s))) as (r & d & -> & Er & _ & M1 & W1 & R1).
      cbn [rbind]. rewrite Er. cbn [Z.eqb negb andb rbind Z.leb Z.compare]. rewrite R in R1. destruct (insl_ready d _ R1) as (d' & -> & M2 & W2).
      unfold assign, deref. cbn [bufs set_drive set_idequeue]. rewrite Hx. cbn [rbind]. eexists _, d'. split; [done|].
      rewrite M2, M1, M, Hm. split; [done|]. split; [congruence | done].
    - destruct (finish_write _ _ _ _ Hw) as (W & M). exists x, (finish (drive s)). rewrite insert_id by done. split; [done|].
      rewrite M, Hm. split; [done|]. split; [done | done]. }
  cbn [bufs idequeue havedisk1 drive set_drive set_idequeue] in E |- *. rewrite E. cbn [rbind]. clear E.
  set (z := set_flags (served y) y). set (s1 := mk_ide (qnext x) (<[b := z]> (bufs s)) (havedisk1 s) d).
  assert (mark_done (mk_ide (qnext x) (<[b := y]> (bufs s)) (havedisk1 s) d) b = Ok s1) as ->.
  { rewrite (mark_done_eq _ b y) by apply lookup_insert_eq. unfold set_bufs. cbn [bufs idequeue havedisk1 drive]. by rewrite insert_insert_eq. }
  cbn [rbind]. assert (served x = served y) as Esv by (unfold served; by rewrite Ey).
  assert (set_qnext 0 <$> bufs s1 = <[b := set_qnext 0 z]> (pool a)) as Hp1 by (unfold s1; cbn [bufs]; rewrite fmap_insert, Hpool; reflexivity).
  destruct (next_starts s1 q (<[b := set_qnext 0 z]> (pool a))) as (d' & -> & Wd' & Md').
  { by apply linked_insert. } { done. }
  { apply Forall_forall. intros c Hc. rewrite Forall_forall in Hq. destruct (Hq c Hc) as (v & Hv & ?). exists v.
    rewrite lookup_insert_ne by set_solver. done. }
  { done. } { done. }
  eexists. split; [done|]. rewrite Es, Esv. unfold implements, under_way. cbn [queue pool sectors two set_drive idequeue bufs drive havedisk1 s1].
  split_and!; try done.
  - by apply linked_insert.
  - apply Forall_forall. intros c Hc. rewrite Forall_forall in Hq. destruct (Hq c Hc) as (v & Hv & ?). exists v.
    rewrite lookup_insert_ne by set_solver. done.
Qed.

(** * Runs of the driver *)

(** A process calls [iderw], or the drive ends a transfer and interrupts.  The
    interrupt of an idle drive is a spurious one. *)
Inductive event := Submit (b : Z) | Interrupt.

Definition do_event (s : ide) (e : event) : result ide :=
  match e with
  | Submit b => iderw s b
  | Interrupt =>
      let s := match work (drive s) with Some _ => set_drive (finish (drive s)) s | None => s end in
      let! '(s, _) := ideintr s in Ok s
  end.
Fixpoint do_events (s : ide) (es : list event) : result ide :=
  match es with [] => Ok s | e :: es => let! s := do_event s e in do_events s es end.

Definition spec_event (a : disk) (e : event) : disk := match e with Submit b => submit a b | Interrupt => serve a end.

(** Each buffer is legal when it is given to [iderw]. *)
Fixpoint legal_run (a : disk) (es : list event) : Prop :=
  match es with
  | [] => True
  | e :: es => match e with Submit b => legal a b | Interrupt => True end /\ legal_run (spec_event a e) es
  end.

Lemma event_implements s a e :
  implements s a -> match e with Submit b => legal a b | Interrupt => True end ->
  exists s', do_event s e = Ok s' /\ implements s' (spec_event a e).
Proof.
  destruct e as [b|]; cbn [do_event spec_event]; [apply iderw_submits|]. intros Hi _.
  pose proof Hi as (Hlink & _ & _ & Hq & _ & Hw & _). unfold under_way in Hw.
  destruct (queue a) as [|b q] eqn:Eq.
  - rewrite Hw. cbn in *. exists s. unfold ideintr. rewrite Hlink. cbn [Z.eqb rbind]. split; [done|]. unfold serve. by rewrite Eq.
  - apply Forall_cons in Hq as [(x & Hx & _) _]. cbn in Hw. rewrite Hx in Hw. rewrite Hw. cbn.
    destruct (ideintr_serves s a b q Hi Eq) as (s' & -> & Hs'). by exists s'.
Qed.

Lemma events_implement s a es :
  implements s a -> legal_run a es -> exists s', do_events s es = Ok s' /\ implements s' (foldl spec_event a es).
Proof.
  revert s a. induction es as [|e es IH]; intros s a Hi Hl; cbn; [by exists s|]. destruct Hl as [Hl1 Hl2].
  destruct (event_implements s a e Hi Hl1) as (s1 & -> & Hi1). cbn [rbind]. by apply IH.
Qed.

(** The state of the driver before the first request. *)
Definition idle (bs : gmap Z buf) (disk1 : bool) (d : dst) : ide := mk_ide 0 bs disk1 d.

Lemma idle_implements bs disk1 d :
  work d = None -> implements (idle bs disk1 d) (mk_disk [] (set_qnext 0 <$> bs) (medium d) disk1).
Proof. intros Hw. unfold implements, under_way. cbn. split_and!; try done; constructor. Qed.

(** C10: The driver serves the requests in order.  Processes call [iderw] and the
    drive interrupts in any order; every buffer given to [iderw] is locked, has
    something to do, is not in the queue, and names a device and a sector the
    drive has.  Then no call panics or faults, the buffers and the sectors of
    the disk are those of a driver that serves the requests one after the other
    in the order of the calls, a write with the data of the buffer and a read
    with what earlier writes left, and the drive is at work whenever a request
    is queued. *)
Theorem ide_serves_in_order bs disk1 d es :
  work d = None -> legal_run (mk_disk [] (set_qnext 0 <$> bs) (medium d) disk1) es ->
  exists s, do_events (idle bs disk1 d) es = Ok s /\
    let a := foldl spec_event (mk_disk [] (set_qnext 0 <$> bs) (medium d) disk1) es in
    (set_qnext 0 <$> bufs s) = pool a /\ medium (drive s) = sectors a /\ (queue a = [] <-> work (drive s) = None).
Proof.
  intros Hw Hl. destruct (events_implement _ _ es (idle_implements bs disk1 d Hw) Hl) as (s & E & Hi). exists s. split; [done|].
  destruct Hi as (_ & _ & Hp & Hq & Hm & Hwk & _). cbv zeta. split; [done|]. split; [done|]. unfold under_way in Hwk. rewrite Hwk.
  destruct (queue _) as [|b q]; [done|]. apply Forall_cons in Hq as [(x & Hx & _) _]. cbn. by rewrite Hx.
Qed.

Lemma legal_run_interrupts a es n : legal_run a es -> legal_run a (es ++ replicate n Interrupt).
Proof.
  revert a. induction es as [|e es IH]; intros a; cbn; [|intros [? ?]; auto]. intros _. revert a. induction n as [|n IH]; intros a; cbn; auto.
Qed.

Lemma spec_interrupts a n : foldl spec_event a (replicate n Interrupt) = Nat.iter n serve a.
Proof. revert a. induction n as [|n IH]; intros a; [done|]. cbn [replicate foldl]. rewrite IH. by rewrite Nat.iter_succ_r. Qed.

(** C15: No request is forgotten: a buffer in the queue is done, so that its [iderw]
    returns, after at most as many interrupts as there are requests in the
    queue. *)
Theorem ide_completes bs disk1 d es b :
  work d = None -> let a := foldl spec_event (mk_disk [] (set_qnext 0 <$> bs) (medium d) disk1) es in
  legal_run (mk_disk [] (set_qnext 0 <$> bs) (medium d) disk1) es -> b ∈ queue a ->
  exists n s, (n <= length (queue a))%nat /\ do_events (idle bs disk1 d) (es ++ replicate n Interrupt) = Ok s /\ iderw_done s b = Ok true.
Proof.
  intros Hw a Hl (q1 & q2 & Eq)%list_elem_of_split. exists (S (length q1)).
  destruct (events_implement _ _ es (idle_implements bs disk1 d Hw) Hl) as (s0 & _ & Hi0). fold a in Hi0.
  destruct Hi0 as (_ & Hnd & _ & Hq & _).
  destruct (events_implement _ _ _ (idle_implements bs disk1 d Hw) (legal_run_interrupts _ es (S (length q1)) Hl)) as (s & E & Hi).
  exists s. split; [rewrite Eq, length_app; cbn; lia|]. split; [done|].
  rewrite foldl_app, spec_interrupts in Hi. fold a in Hi. destruct Hi as (_ & _ & Hp & _).
  destruct (serve_until q1 a b q2 Eq Hnd) as (y & Hy & Hd).
  { eapply Forall_impl; [exact Hq|]. intros c (x & Hx & _). by exists x. }
  destruct (pool_buf s _ b y Hp Hy) as (x & Hx & ->). unfold iderw_done, deref. rewrite Hx. cbn [rbind]. f_equal. by apply Z.eqb_eq.
Qed.
End Refinement.

(** Buffer 1 is written to sector 300 of disk 0 and buffer 2 is read from it. *)
Definition demo_bufs : gmap Z buf :=
  {[1 := mk_buf 5 0 300 0 (replicate 512 7); 2 := mk_buf 1 0 300 0 (replicate 512 0)]}.
Definition demo_drive : dst (Drive := Ata.drive) := Ata.mk_ata (fun _ => 0) (fun _ _ => replicate 512 1) None None false true.
Definition demo_events : list event := [Submit 1; Submit 2; Interrupt; Interrupt].
Definition demo_disk : disk := mk_disk [] (set_qnext 0 <$> demo_bufs) (fun _ _ => replicate 512 1) false.

Lemma demo_legal es : es = [Submit 1; Submit 2] \/ es = demo_events -> legal_run demo_disk es.
Proof.
  assert (legal demo_disk 1) as H1.
  { split; [done|]. split; [apply not_elem_of_nil|]. eexists. split; [reflexivity|]. cbn. split_and!; (done || lia || auto). }
  assert (legal (submit demo_disk 1) 2) as H2.
  { split; [done|]. split; [cbn; set_solver|]. eexists. split; [reflexivity|]. cbn. split_and!; (done || lia || auto). }
  intros [-> | ->]; cbn [legal_run demo_events spec_event]; done.
Qed.

Lemma ide_serves_in_order_witness :
  exists s, do_events (idle demo_bufs false demo_drive) demo_events = Ok s /\
    (data <$> bufs s !! 2) = Some (replicate 512 7) /\ medium (drive s) 0 300 = replicate 512 7 /\ medium (drive s) 0 301 = replicate 512 1.
Proof.
  destruct (ide_serves_in_order (H0 := Ata.laws) demo_bufs false demo_drive demo_events eq_refl (demo_legal _ (or_intror eq_refl))) as (s & E & Hp & Hm & _).
  exists s. split; [exact E|]. cbv zeta in Hp, Hm. split.
  - apply (f_equal (fun m => data <$> m !! 2)) in Hp. rewrite lookup_fmap in Hp. destruct (bufs s !! 2) as [x|] eqn:Ex.
    + change (Some (data x) = Some (replicate 512 7)). etrans; [exact Hp | reflexivity].
    + exfalso. discriminate Hp.
  - rewrite Hm. split; reflexivity.
Defined.

Lemma ide_completes_witness :
  exists n s, (n <= 2)%nat /\ do_events (idle demo_bufs false demo_drive) ([Submit 1; Submit 2] ++ replicate n Interrupt) = Ok s /\
    iderw_done s 2 = Ok true.
Proof.
  apply (ide_completes (H0 := Ata.laws) demo_bufs false demo_drive [Submit 1; Submit 2] 2 eq_refl (demo_legal _ (or_introl eq_refl))).
  cbn. set_solver.
Defined.
