(* ===== verification/Tools.v ===== *)
(** User programs: src/src/cat.c, wc.c, echo.c, rm.c, ln.c, mkdir.c, kill.c and ls.c,
    over the system calls of the class [Sys].

    What a program prints is a list of calls of [printf], each with its
    descriptor, format and arguments; the text [printf] makes of them is the
    subject of Console.v.  [exit] ends a program with what it has printed.
    [mkdir] and [kill], which [Sys] does not have, are parameters of their
    programs. *)
From stdpp Require Import gmap strings.
From S2P Require Import Prelude Ulib Sys TextLemmas.

Inductive arg := Str (s : bytes) | Int (n : Z).
Record printed := Print { p_fd : Z; p_fmt : string; p_args : list arg }.

Section Tools.
Context {W : Type} `{!Sys W}.

(** * cat.c *)

(** The loop of [cat]; the last value read. *)
Fixpoint cat_loop (fuel : nat) (w : W) (fd : Z) : result (W * Z) :=
  match fuel with
  | O => Err OutOfFuel
  | S fuel' =>
      let '(w, (n, buf)) := sys_read w fd 512 in
      if 0 <? n then
        let '(w, _) := sys_write w 1 (take (Z.to_nat n) buf) in
        cat_loop fuel' w fd
      else Ok (w, n)
  end.

(** [cat]: what it prints, and whether it exits. *)
Definition cat (fuel : nat) (w : W) (fd : Z) : result (W * list printed * bool) :=
  let! '(w, n) := cat_loop fuel w fd in
  if n <? 0 then Ok (w, [Print 1 "cat: read error\n" []], true) else Ok (w, [], false).

Fixpoint cat_files (fuel : nat) (w : W) (argv : list bytes) : result (W * list printed) :=
  match argv with
  | [] => Ok (w, [])
  | name :: argv =>
      let '(w, fd) := sys_open w name 0 in
      if fd <? 0 then Ok (w, [Print 1 "cat: cannot open %s\n" [Str name]])
      else
        let! '(w, out, stop) := cat fuel w fd in
        if stop : bool then Ok (w, out)
        else
          let '(w, _) := sys_close w fd in
          let! '(w, rest) := cat_files fuel w argv in
          Ok (w, out ++ rest)
  end.

(** The arguments after the name of the program. *)
Definition cat_main (fuel : nat) (w : W) (argv : list bytes) : result (W * list printed) :=
  match argv with
  | [] => let! '(w, out, _) := cat fuel w 0 in Ok (w, out)
  | _ => cat_files fuel w argv
  end.

(** * wc.c *)

Definition wc_space : bytes := [32; 13; 9; 10; 11; 0].   (** " \r\t\n\v" *)

Record counts := Counts { c_l : Z; c_w : Z; c_c : Z; inword : bool }.

(** The body of the inner loop; the counters are [int]s. *)
Definition wc_char (k : counts) (x : Z) : result counts :=
  let c := s32 (c_c k + 1) in
  let l := if x =? 10 then s32 (c_l k + 1) else c_l k in
  let! sp := strchr wc_space x in
  match sp with
  | Some _ => Ok (Counts l (c_w k) c false)
  | None => if inword k then Ok (Counts l (c_w k) c true) else Ok (Counts l (s32 (c_w k + 1)) c true)
  end.

Fixpoint wc_loop (fuel : nat) (w : W) (fd : Z) (k : counts) : result (W * Z * counts) :=
  match fuel with
  | O => Err OutOfFuel
  | S fuel' =>
      let '(w, (n, buf)) := sys_read w fd 512 in
      if 0 <? n then
        let! k := for_up 0 n (fun i k => let! x := get buf i in wc_char k x) k in
        wc_loop fuel' w fd k
      else Ok (w, n, k)
  end.

Definition wc (fuel : nat) (w : W) (fd : Z) (name : bytes) : result (W * list printed * bool) :=
  let! '(w, n, k) := wc_loop fuel w fd (Counts 0 0 0 false) in
  if n <? 0 then Ok (w, [Print 1 "wc: read error\n" []], true)
  else Ok (w, [Print 1 "%d %d %d %s\n" [Int (c_l k); Int (c_w k); Int (c_c k); Str name]], false).

Fixpoint wc_files (fuel : nat) (w : W) (argv : list bytes) : result (W * list printed) :=
  match argv with
  | [] => Ok (w, [])
  | name :: argv =>
      let '(w, fd) := sys_open w name 0 in
      if fd <? 0 then Ok (w, [Print 1 "wc: cannot open %s\n" [Str name]])
      else
        let! '(w, out, stop) := wc fuel w fd name in
        if stop : bool then Ok (w, out)
        else
          let '(w, _) := sys_close w fd in
          let! '(w, rest) := wc_files fuel w argv in
          Ok (w, out ++ rest)
  end.

Definition wc_main (fuel : nat) (w : W) (argv : list bytes) : result (W * list printed) :=
  match argv with
  | [] => let! '(w, out, _) := wc fuel w 0 [] in Ok (w, out)
  | _ => wc_files fuel w argv
  end.

(** * echo.c, rm.c, ln.c, mkdir.c, kill.c *)

Fixpoint echo_main (argv : list bytes) : list printed :=
  match argv with
  | [] => []
  | [a] => [Print 1 "%s%s" [Str a; Str [10]]]
  | a :: argv => Print 1 "%s%s" [Str a; Str [32]] :: echo_main argv
  end.

(** The loop of [rm] and of [mkdir]: the first failure ends it. *)
Fixpoint each_file (call : W -> bytes -> W * Z) (fmt : string) (w : W) (argv : list bytes) : W * list printed :=
  match argv with
  | [] => (w, [])
  | name :: argv =>
      let '(w, r) := call w name in
      if r <? 0 then (w, [Print 2 fmt [Str name]]) else each_file call fmt w argv
  end.

Definition rm_main (w : W) (argv : list bytes) : W * list printed :=
  match argv with
  | [] => (w, [Print 2 "Usage: rm files...\n" []])
  | _ => each_file sys_unlink "rm: %s failed to delete\n" w argv
  end.

Definition mkdir_main (mkdir : W -> bytes -> W * Z) (w : W) (argv : list bytes) : W * list printed :=
  match argv with
  | [] => (w, [Print 2 "Usage: mkdir files...\n" []])
  | _ => each_file mkdir "mkdir: %s failed to create\n" w argv
  end.

Definition ln_main (w : W) (argv : list bytes) : W * list printed :=
  match argv with
  | [old; new] =>
      let '(w, r) := sys_link w old new in
      (w, if r <? 0 then [Print 2 "link %s %s: failed\n" [Str old; Str new]] else [])
  | _ => (w, [Print 2 "Usage: ln old new\n" []])
  end.

(** [argc < 1] never holds.  An argument is a block that ends in a NUL. *)
Fixpoint kill_main (kill : W -> Z -> W * Z) (w : W) (argv : list bytes) : result W :=
  match argv with
  | [] => Ok w
  | a :: argv =>
      let! pid := atoi a in
      let '(w, _) := kill w pid in
      kill_main kill w argv
  end.

(** * ls.c *)

Definition DIRSIZ : Z := 14.

(** [for(p=path+strlen(path); p >= path && *p != '/'; p--)]: [n] characters are
    left from the start of the path to [p]. *)
Fixpoint last_slash (n : nat) (path : bytes) : result Z :=
  match n with
  | O => Ok (-1)
  | S n' =>
      let! c := get path (Z.of_nat n') in
      if negb (c =? 47) then last_slash n' path else Ok (Z.of_nat n')
  end.

(** [fmtname], with its static buffer; the string it returns. *)
Definition fmtname (sbuf path : bytes) : result (bytes * bytes) :=
  let! n := strlen path in
  let! p := last_slash (S (Z.to_nat n)) path in
  let p := p + 1 in
  let name := drop (Z.to_nat p) path in
  let! len := strlen name in
  if DIRSIZ <=? len then Ok (sbuf, cstr name)
  else
    let! sbuf := memmove sbuf 0 name 0 len in
    let! sbuf := memset sbuf len 32 (DIRSIZ - len) in
    Ok (sbuf, cstr sbuf).

(** [stat] of ulib.c. *)
Definition stat_ (w : W) (n : bytes) : W * option stat :=
  let '(w, fd) := sys_open w n O_RDONLY in
  if fd <? 0 then (w, None)
  else
    let '(w, st) := sys_fstat w fd in
    let '(w, _) := sys_close w fd in
    (w, st).

Definition stat_line (name : bytes) (st : stat) : printed :=
  Print 1 "%s %d %d %d\n" [Str name; Int (st_type st); Int (st_ino st); Int (st_size st)].

(** The loop over the entries of a directory; [buf] holds the path and a slash,
    and [p] is the offset after it. *)
Fixpoint ls_entries (fuel : nat) (w : W) (fd : Z) (sbuf buf : bytes) (p : Z) : result (W * bytes * list printed) :=
  match fuel with
  | O => Err OutOfFuel
  | S fuel' =>
      let '(w, (n, de)) := sys_read w fd 16 in
      if negb (n =? 16) then Ok (w, sbuf, [])
      else
        let! lo := get de 0 in
        let! hi := get de 1 in
        if lo + 256 * hi =? 0 then ls_entries fuel' w fd sbuf buf p
        else
          let! buf := memmove buf p de 2 DIRSIZ in
          let! buf := put buf (p + DIRSIZ) 0 in
          let '(w, st) := stat_ w (cstr buf) in
          match st with
          | None =>
              let! '(w, sbuf, out) := ls_entries fuel' w fd sbuf buf p in
              Ok (w, sbuf, Print 1 "ls: cannot stat %s\n" [Str (cstr buf)] :: out)
          | Some st =>
              let! '(sbuf, name) := fmtname sbuf buf in
              let! '(w, sbuf, out) := ls_entries fuel' w fd sbuf buf p in
              Ok (w, sbuf, stat_line name st :: out)
          end
  end.

Definition ls (fuel : nat) (w : W) (sbuf path : bytes) : result (W * bytes * list printed) :=
  let '(w, fd) := sys_open w (cstr path) 0 in
  if fd <? 0 then Ok (w, sbuf, [Print 2 "ls: cannot open %s\n" [Str (cstr path)]])
  else
    let '(w, st) := sys_fstat w fd in
    match st with
    | None => let '(w, _) := sys_close w fd in Ok (w, sbuf, [Print 2 "ls: cannot stat %s\n" [Str (cstr path)]])
    | Some st =>
        let! '(w, sbuf, out) :=
          if st_type st =? T_FILE then
            let! '(sbuf, name) := fmtname sbuf path in
            Ok (w, sbuf, [stat_line name st])
          else if st_type st =? T_DIR then
            let! len := strlen path in
            if 512 <? len + 1 + DIRSIZ + 1 then Ok (w, sbuf, [Print 1 "ls: path too long\n" []])
            else
              let! buf := strcpy (malloc 512) 0 path in
              let! p := strlen buf in
              let! buf := put buf p 47 in
              ls_entries fuel w fd sbuf buf (p + 1)
          else Ok (w, sbuf, []) in
        let '(w, _) := sys_close w fd in
        Ok (w, sbuf, out)
    end.

Fixpoint ls_paths (fuel : nat) (w : W) (sbuf : bytes) (argv : list bytes) : result (W * list printed) :=
  match argv with
  | [] => Ok (w, [])
  | path :: argv =>
      let! '(w, sbuf, out) := ls fuel w sbuf path in
      let! '(w, rest) := ls_paths fuel w sbuf argv in
      Ok (w, out ++ rest)
  end.

(** The static buffer of [fmtname] is zero at the start. *)
Definition ls_main (fuel : nat) (w : W) (argv : list bytes) : result (W * list printed) :=
  let sbuf := replicate 15 0 in
  match argv with
  | [] => ls_paths fuel w sbuf [[46; 0]]
  | _ => ls_paths fuel w sbuf argv
  end.
End Tools.

(** * Properties *)

(** Reading and writing move the offset of one descriptor only, and descriptors
    of different files do not share it. *)
Class SysFrame (W : Type) `{!Sys W, !SysLaws W} := {
  read_frame : forall w fd p off n w' r g q o,
    rd_at w fd p off -> wr_at w g q o -> apart w p q -> sys_read w fd n = (w', r) ->
    wr_at w' g q o /\ apart w' p q /\ (forall k, room w q k -> room w' q k);
  write_frame : forall w fd p off bs w' r g q o,
    wr_at w fd p off -> rd_at w g q o -> apart w q p -> sys_write w fd bs = (w', r) ->
    rd_at w' g q o /\ apart w' q p;
  apart_sym : forall w p q, apart w p q -> apart w q p;
}.

#[global] Instance ram_frame : SysFrame Ram.ram.
Proof.
  split.
  - intros w fd p off n w' r g q o Hp Hq Hpq. cbn in *. unfold Ram.r_read. rewrite Hp.
    assert (g <> fd) by congruence.
    destruct (Ram.files w !! p); intros [= <- _]; [|done]. cbn. by rewrite lookup_insert_ne.
  - intros w fd p off bs w' r g q o Hp Hq Hpq. cbn in *. unfold Ram.r_write. rewrite Hp.
    assert (g <> fd) by congruence.
    destruct (FILE_MAX <? _); intros [= <- _]; [done|]. cbn. by rewrite lookup_insert_ne.
  - intros w p q. cbn. congruence.
Qed.

Section Reading.
Context {W : Type} `{!Sys W, !SysLaws W}.

(** A read at the end of a file, and before it. *)
Lemma read_chunk w fd p off c :
  rd_at w fd p off -> file_of w p = Some c -> 0 <= off <= zlen c ->
  exists w' l, sys_read w fd 512 = (w', (zlen l, l)) /\ rd_at w' fd p (off + zlen l) /\
    (forall q, file_of w' q = file_of w q) /\ drop (Z.to_nat off) c = l ++ drop (Z.to_nat (off + zlen l)) c /\
    off + zlen l <= zlen c /\ (l = [] -> off = zlen c).
Proof.
  intros Hfd Hc Hoff. destruct (read_spec w fd p off c 512 Hfd Hc Hoff ltac:(lia)) as (w' & E & Hfd' & Hf).
  set (k := Z.min 512 (zlen c - off)) in *. assert (zlen (slice c off k) = k) as El.
  { unfold slice. rewrite length_take, length_drop. lia. }
  exists w', (slice c off k). rewrite El in *. split; [done|]. split; [done|]. split; [done|]. split; [|split; [lia|]].
  - unfold slice. rewrite <- (take_drop (Z.to_nat k) (drop (Z.to_nat off) c)) at 1. f_equal. rewrite drop_drop. f_equal. lia.
  - intros E0. rewrite E0 in El. cbn in El. lia.
Qed.
End Reading.

Section Cat.
Context {W : Type} `{!Sys W, !SysLaws W, !SysFrame W}.

Lemma cat_loop_copies fuel w fd p off c out acc :
  rd_at w fd p off -> file_of w p = Some c -> 0 <= off <= zlen c -> apart w p out ->
  wr_at w 1 out (zlen acc) -> file_of w out = Some acc ->
  zlen acc + (zlen c - off) <= FILE_MAX -> room w out (zlen acc + (zlen c - off)) -> zlen c - off < Z.of_nat fuel ->
  exists w', cat_loop fuel w fd = Ok (w', 0) /\ file_of w' out = Some (acc ++ drop (Z.to_nat off) c).
Proof.
  revert w off acc. induction fuel as [|fuel IH]; intros w off acc Hfd Hc Hoff Hp Ho Ha Hmax Hroom Hfuel; [lia|]. cbn [cat_loop].
  destruct (read_chunk w fd p off c Hfd Hc Hoff) as (w1 & l & E & Hfd1 & Hf1 & Hd & Hle & Hnil). rewrite E.
  destruct l as [|x l]; [|].
  - cbn. exists w1. split; [done|]. rewrite (Hnil eq_refl), drop_ge, app_nil_r, Hf1 by lia. done.
  - set (k := x :: l) in *. assert (0 < zlen k) as Hk by (cbn; lia). rewrite (proj2 (Z.ltb_lt 0 (zlen k)) Hk), Nat2Z.id, firstn_all.
    destruct (read_frame _ _ _ _ _ _ _ _ _ _ Hfd Ho Hp E) as (Ho1 & Hp1 & Hroom1).
    destruct (write_append w1 1 out acc k _ Ho1 ltac:(by rewrite Hf1) (Hroom1 _ Hroom)) as (w2 & E2 & Ho2 & Hf2 & Hroom2 & Hrest);
      [rewrite length_app; lia..|]. rewrite E2.
    destruct (write_frame _ _ _ _ _ _ _ _ _ _ Ho1 Hfd1 Hp1 E2) as [Hfd2 Hp2].
    destruct (IH w2 (off + zlen k) (acc ++ k) Hfd2) as (w3 & E3 & Hf3); try done; try lia.
    + destruct (Hrest p ltac:(by apply apart_sym)) as [_ ->]. by rewrite Hf1.
    + rewrite length_app. lia.
    + replace (zlen (acc ++ k) + (zlen c - (off + zlen k))) with (zlen acc + (zlen c - off)) by (rewrite length_app; lia). done.
    + exists w3. split; [done|]. by rewrite Hf3, Hd, app_assoc.
Qed.

(** [cat] of an open file appends the rest of it to the file the standard output
    was redirected to, when it is another one and there is room. *)
Theorem cat_copies fuel w fd p off c out acc :
  rd_at w fd p off -> file_of w p = Some c -> 0 <= off <= zlen c -> apart w p out ->
  wr_at w 1 out (zlen acc) -> file_of w out = Some acc ->
  zlen acc + (zlen c - off) <= FILE_MAX -> room w out (zlen acc + (zlen c - off)) -> zlen c - off < Z.of_nat fuel ->
  exists w', cat fuel w fd = Ok (w', [], false) /\ file_of w' out = Some (acc ++ drop (Z.to_nat off) c).
Proof.
  intros. destruct (cat_loop_copies fuel w fd p off c out acc) as (w' & E & H'); try done. exists w'. unfold cat. by rewrite E.
Qed.
End Cat.

(** ** wc *)

Definition is_space (x : Z) : bool := bool_decide (x ∈ [32; 13; 9; 10; 11]).

(** A text: blanks, and words with the blanks after them. *)
Definition spaced (pre : bytes) (ws : list (bytes * bytes)) : bytes := pre ++ List.concat (List.map (fun '(w, s) => w ++ s) ws).
(** The words are words, and blanks separate them. *)
Fixpoint words_ok (ws : list (bytes * bytes)) : Prop :=
  match ws with
  | [] => True
  | (w, s) :: ws =>
      w <> [] /\ Forall (fun x => is_space x = false) w /\ Forall (fun x => is_space x = true) s /\ (ws <> [] -> s <> []) /\ words_ok ws
  end.
Definition newlines (c : bytes) : nat := length (List.filter (Z.eqb 10) c).

Fixpoint wc_bytes (k : counts) (l : bytes) : result counts :=
  match l with [] => Ok k | x :: l => let! k := wc_char k x in wc_bytes k l end.

Lemma wc_bytes_app k l1 l2 : wc_bytes k (l1 ++ l2) = let! k := wc_bytes k l1 in wc_bytes k l2.
Proof. revert k. induction l1 as [|x l1 IH]; intros k; [done|]. cbn. destruct (wc_char k x); cbn; [apply IH | done]. Qed.

Lemma space_strchr x : exists o, strchr wc_space x = Ok o /\ (is_space x = true <-> is_Some o).
Proof.
  assert (is_space x = true <-> x = 32 \/ x = 13 \/ x = 9 \/ x = 10 \/ x = 11) as Hsp.
  { unfold is_space. rewrite bool_decide_eq_true, !elem_of_cons, elem_of_nil. tauto. }
  unfold wc_space, strchr. cbn [strchr_loop]. change (32 =? 0) with false. change (13 =? 0) with false. change (9 =? 0) with false.
  change (10 =? 0) with false. change (11 =? 0) with false. change (0 =? 0) with true. cbv iota.
  destruct (Z.eqb_spec 32 x), (Z.eqb_spec 13 x), (Z.eqb_spec 9 x), (Z.eqb_spec 10 x), (Z.eqb_spec 11 x);
    (eexists; split; [reflexivity|]); rewrite is_Some_alt; (split; [intros ?%Hsp; (done || lia) | intros Ho; (done || (apply Hsp; lia))]).
Qed.

Lemma wc_char_step k x n :
  0 <= c_l k <= n -> 0 <= c_w k <= n -> 0 <= c_c k <= n -> n + 1 < 2 ^ 31 ->
  wc_char k x = Ok (Counts (c_l k + if x =? 10 then 1 else 0) (c_w k + if is_space x || inword k then 0 else 1) (c_c k + 1) (negb (is_space x))).
Proof.
  intros Hl Hw Hc Hn. unfold wc_char. rewrite (s32_small (c_c k + 1)), (s32_small (c_l k + 1)), (s32_small (c_w k + 1)) by lia.
  destruct (space_strchr x) as (o & -> & Ho). cbn [rbind].
  replace (c_l k + (if x =? 10 then 1 else 0)) with (if x =? 10 then c_l k + 1 else c_l k) by (destruct (x =? 10); lia).
  destruct o as [i|], (is_space x); cbn [orb negb].
  - by rewrite Z.add_0_r.
  - assert (false = true) by (apply Ho; by eexists). done.
  - destruct (proj1 Ho eq_refl); done.
  - destruct (inword k); [by rewrite Z.add_0_r | done].
Qed.

(** The bytes of a blank or of a word. *)
Lemma wc_bytes_run sp k l n :
  Forall (fun x => is_space x = sp) l -> 0 <= c_l k <= n -> 0 <= c_w k <= n -> 0 <= c_c k <= n -> n + zlen l < 2 ^ 31 ->
  wc_bytes k l = Ok (Counts (c_l k + Z.of_nat (newlines l)) (c_w k + if sp || inword k || bool_decide (l = []) then 0 else 1) (c_c k + zlen l)
                            (if bool_decide (l = []) then inword k else negb sp)).
Proof.
  intros Hl. revert k n. induction Hl as [|x l Hx Hl IH]; intros k n H1 H2 H3 Hn; cbn [wc_bytes].
  - destruct k as [a b c []]; cbn; rewrite ?orb_true_r, !Z.add_0_r; done.
  - cbn [length] in Hn. rewrite (wc_char_step k x n) by lia. cbn [rbind]. rewrite Hx.
    rewrite (IH _ (n + 1)); cbn [c_l c_w c_c inword]; [|destruct (x =? 10), (sp || inword k); lia..].
    rewrite (bool_decide_eq_false_2 (x :: l = [])) by done. rewrite orb_false_r. unfold newlines. cbn [List.filter]. rewrite (Z.eqb_sym 10 x).
    do 2 f_equal.
    + destruct (x =? 10); cbn [length]; lia.
    + destruct sp, (inword k), (bool_decide (l = [])); cbn; lia.
    + cbn [length]. lia.
    + by destruct (bool_decide (l = [])).
Qed.

Lemma newlines_app a b : newlines (a ++ b) = (newlines a + newlines b)%nat.
Proof. unfold newlines. by rewrite List.filter_app, length_app. Qed.

(** Between two words the counters have counted what was read. *)
Lemma wc_bytes_words ws k n :
  words_ok ws -> (ws <> [] -> inword k = false) -> 0 <= c_l k <= n -> 0 <= c_w k <= n -> 0 <= c_c k <= n ->
  n + zlen (spaced [] ws) < 2 ^ 31 ->
  exists b, wc_bytes k (spaced [] ws) =
    Ok (Counts (c_l k + Z.of_nat (newlines (spaced [] ws))) (c_w k + zlen ws) (c_c k + zlen (spaced [] ws)) b).
Proof.
  unfold spaced. revert k n. induction ws as [|[w s] ws IH]; intros k n Hok Hin H1 H2 H3 Hn; cbn [List.map List.concat app] in *.
  - exists (inword k). cbn. rewrite !Z.add_0_r. by destruct k.
  - destruct Hok as (Hw0 & Hw & Hs & Hsep & Hok). assert (inword k = false) as Hk by (by apply Hin). rewrite !length_app in Hn.
    rewrite <- app_assoc, wc_bytes_app, (wc_bytes_run false k w n) by (done || lia). cbn [rbind]. rewrite Hk.
    rewrite bool_decide_eq_false_2 by done. cbn [orb negb].
    assert (newlines w <= length w)%nat as Hnw by apply List.filter_length_le.
    assert (newlines s <= length s)%nat as Hns by apply List.filter_length_le.
    assert (1 <= zlen w) by (destruct w; [done | cbn; lia]).
    rewrite wc_bytes_app, (wc_bytes_run true _ s (n + zlen w)); cbn [c_l c_w c_c inword]; [|done|lia..]. cbn [rbind orb negb].
    edestruct (IH (Counts (c_l k + Z.of_nat (newlines w) + Z.of_nat (newlines s)) (c_w k + 1 + 0) (c_c k + zlen w + zlen s)
      (if bool_decide (s = []) then true else false)) (n + zlen w + zlen s)) as [b E]; cbn [c_l c_w c_c inword]; try done; try lia.
    + intros Hne. by rewrite bool_decide_eq_false_2 by auto.
    + rewrite E. exists b. cbn [c_l c_w c_c]. rewrite !newlines_app, !length_app. cbn [length]. do 2 f_equal; lia.
Qed.

(** The inner loop over a buffer. *)
Lemma for_get_bytes buf done_ rest k :
  buf = done_ ++ rest ->
  for_up (zlen done_) (zlen buf) (fun i k => let! x := get buf i in wc_char k x) k = wc_bytes k rest.
Proof.
  revert done_ k. induction rest as [|x rest IH]; intros d k E.
  - rewrite for_up_done; [done|]. rewrite E, app_nil_r. lia.
  - rewrite for_up_step by (rewrite E, length_app; cbn; lia). rewrite (get_ok buf _ x) by (lia || (rewrite E, Nat2Z.id; by apply list_lookup_middle)).
    cbn [rbind wc_bytes]. destruct (wc_char k x) as [k'|]; [|done]. cbn [rbind].
    replace (zlen d + 1) with (zlen (d ++ [x])) by (rewrite length_app; cbn; lia). apply IH. by rewrite <- app_assoc.
Qed.

Section Wc.
Context {W : Type} `{!Sys W, !SysLaws W}.

Lemma wc_loop_bytes fuel w fd p off c k k' :
  rd_at w fd p off -> file_of w p = Some c -> 0 <= off <= zlen c -> zlen c - off < Z.of_nat fuel ->
  wc_bytes k (drop (Z.to_nat off) c) = Ok k' -> exists w', wc_loop fuel w fd k = Ok (w', 0, k') /\ (forall q, file_of w' q = file_of w q).
Proof.
  revert w off k. induction fuel as [|fuel IH]; intros w off k Hfd Hc Hoff Hfuel Hk; [lia|]. cbn [wc_loop].
  destruct (read_chunk w fd p off c Hfd Hc Hoff) as (w1 & l & E & Hfd1 & Hf1 & Hd & Hle & Hnil). rewrite E. destruct l as [|x l].
  - cbn. rewrite (Hnil eq_refl), drop_ge in Hk by lia. injection Hk as <-. by exists w1.
  - set (b := x :: l) in *. assert (0 < zlen b) as Hb by (cbn; lia). rewrite (proj2 (Z.ltb_lt 0 (zlen b)) Hb).
    rewrite (for_get_bytes b [] b k eq_refl : for_up 0 (zlen b) _ k = _). rewrite Hd, wc_bytes_app in Hk.
    destruct (wc_bytes k b) as [k1|]; [|done]. cbn [rbind] in Hk |- *.
    destruct (IH w1 (off + zlen b) k1) as (w2 & -> & Hf2); try done; try lia; [by rewrite Hf1|]. exists w2. split; [done|].
    intros q. by rewrite Hf2, Hf1.
Qed.

(** [wc] prints the number of lines, words and bytes of an open file, however
    the reads cut it. *)
Theorem wc_counts fuel w fd p name pre ws :
  rd_at w fd p 0 -> file_of w p = Some (spaced pre ws) -> zlen (spaced pre ws) < Z.of_nat fuel ->
  zlen (spaced pre ws) < 2 ^ 31 -> Forall (fun x => is_space x = true) pre -> words_ok ws ->
  exists w', wc fuel w fd name =
    Ok (w', [Print 1 "%d %d %d %s\n" [Int (Z.of_nat (newlines (spaced pre ws))); Int (zlen ws); Int (zlen (spaced pre ws)); Str name]], false).
Proof.
  intros Hfd Hc Hfuel Hmax Hpre Hws. unfold wc.
  assert (zlen (spaced pre ws) = zlen pre + zlen (spaced [] ws)) as El by (unfold spaced; rewrite length_app; cbn; lia).
  assert (newlines pre <= length pre)%nat as Hnp by apply List.filter_length_le.
  edestruct (wc_bytes_words ws (Counts (Z.of_nat (newlines pre)) 0 (zlen pre) false) (zlen pre)) as [b E]; cbn [c_l c_w c_c] in *; try done; try lia.
  set (k := Counts _ (0 + zlen ws) _ b) in E.
  destruct (wc_loop_bytes fuel w fd p 0 _ (Counts 0 0 0 false) k Hfd Hc ltac:(lia) ltac:(lia)) as (w' & -> & _).
  { change (drop (Z.to_nat 0) (spaced pre ws)) with (pre ++ spaced [] ws). rewrite wc_bytes_app.
    rewrite (wc_bytes_run true _ pre 0) by (done || (cbn; lia)). cbn [rbind orb c_l c_w c_c inword negb].
    replace (if bool_decide (pre = []) then false else false) with false by (by destruct (bool_decide _)). exact E. }
  assert (newlines (spaced pre ws) = newlines pre + newlines (spaced [] ws))%nat as En by (unfold spaced; by rewrite newlines_app).
  exists w'. rewrite En, El, Nat2Z.inj_add. done.
Qed.
End Wc.

(** "a bc\n" *)
Definition demo_text : bytes := spaced [] [([97], [32]); ([98; 99], [10])].
Definition demo_ram : Ram.ram := Ram.mk_ram {[[102] := demo_text; [111] := [33]]} {[3 := ([102], 0); 1 := ([111], 1)]} 4.

Lemma wc_counts_witness :
  exists w', wc 10 demo_ram 3 [102] = Ok (w', [Print 1 "%d %d %d %s\n" [Int 1; Int 2; Int 5; Str [102]]], false).
Proof.
  apply (wc_counts 10 demo_ram 3 [102] [102] [] [([97], [32]); ([98; 99], [10])]); [reflexivity | reflexivity | done | done | done|].
  cbn. repeat split; repeat constructor; done.
Defined.

Lemma cat_copies_witness : exists w', cat 10 demo_ram 3 = Ok (w', [], false) /\ file_of w' [111] = Some (33 :: demo_text).
Proof.
  destruct (cat_copies 10 demo_ram 3 [102] 0 demo_text [111] [33]) as (w' & E & H); try done; [reflexivity..|]. by exists w'.
Defined.
